(* ===== verification/_CoqProject ===== *)
-Q . S2P
Prelude.v
State.v
CString.v
Sleep.v
Spinlock.v
Ide.v
Bio.v
BioFrame.v
BioSpec.v
BioProps.v
Log.v
LogSpec.v
LogRun.v
LogCrash.v
LogOps.v
Boot.v
Kalloc.v
PageMath.v
KallocSpec.v
Console.v
ConsoleOut.v
Kbd.v
Vm.v
VmSpec.v
VmUser.v
VmCopy.v
VmProps.v
VmOut.v
Fs.v
FsFile.v
ConsoleProps.v
File.v
PipeProps.v
FsTxn.v
FsAlloc.v
FsMap.v
FsData.v
FsProps.v
FsBoot.v
DirProps.v
Path.v
Namei.v
Proc.v
Fork.v
ProcProps.v
ProcLife.v
ProcWait.v
Syscall.v
SyscallProps.v
Exec.v
ExecLoad.v
ExecProps.v
Sysfile.v
Trap.v
Swap.v
Sh.v
ShLex.v
ShParse.v
ShPrint.v
ShRun.v
Grep.v
Umalloc.v
UmallocSpec.v
UmallocProps.v
Ulib.v
Mkfs.v
MkfsSpec.v
MkfsProps.v
MkfsImage.v
Mp.v
Bootmain.v
Apic.v
Progs.v
Gate.v
Asm.v
AsmProps.v
Memide.v
Main.v
MainProps.v
MainBoot.v
