(* ===== verification/Prelude.v ===== *)
(** * A verification development for xv6 (the x86 teaching kernel in src/xv6-sse-local)

    The program is a small Unix for multiprocessor PCs: a kernel, a boot loader,
    the tool that makes its disk image and a set of user programs.  This library
    is a shallow embedding of it: each C function is a Gallina function of the
    same name over an explicit state, and the theorems are about these functions.

    ** How the code is represented

    - Integers are [Z] kept at their width by [u32], [i32] and the like of this
      file; a structure is a record, an enum an inductive type, an array of
      structures a list, and a pointer into it an index.  Memory that the code
      addresses freely is a function [mem] from addresses to bytes (State).
    - The kernel's global variables are the record [kernel] of State.  A kernel
      function is in the monad [M]: it returns ([Ok]), calls panic ([Panic]),
      sleeps ([Sleeps], with its channel; the process starts the call again or
      goes on where the code does), does not return ([Gone]), or makes an access
      the processor would reject ([Fault]).
    - A critical section runs as one operation.  Spinlock justifies this: there
      the accesses to the lock words of several processors interleave.  Where the
      order of operations of several processes matters they are steps of a
      relation (LogOps, ProcLife, PipeProps), and the theorems are about all its
      reachable states.
    - A loop whose recursion is not structural has fuel; running out of it is the
      outcome [NoFuel], different from every result of the code.  Each call
      computes its fuel from its arguments: allocuvm and deallocuvm take a unit a
      page, readi and writei one a block and two more, the lexer and the parser of the shell one
      a character of the line, the scan of malloc one a block of the ring.  The
      theorems say that the function returns, so they show that it is enough.
    - What is not under src/ is a parameter: the addresses chosen by the linker
      ([Linker] in Kalloc, [LinkedAt] in VmCopy, [Image] in Asm, [Entry] in Main), what devices and
      firmware answer (Main, Mp, Apic), and for a user program the answers of the
      kernel (Progs, Ulib, Umalloc).

    ** The parts, and the files that model them

    - Prelude, State, CString: machine integers, lists of bytes, the monad; the
      constants and structures of the headers; string.c.
    - Locks and sleeping: Spinlock (spinlock.c), Sleep (sleep, wakeup, sleeplock.c).
    - Disk and buffers: Ide (ide.c), Memide (memide.c), Bio (bio.c) with BioFrame,
      BioSpec and BioProps.
    - The log (log.c): Log, with LogSpec and LogRun (what each operation writes to
      the disk, in order), LogCrash (crashes), LogOps (operations and room in the
      log); Boot has the concrete states.
    - Memory: Kalloc (kalloc.c) and KallocSpec; Vm (vm.c) with PageMath,
      VmSpec (page tables as maps), VmUser (address spaces), VmCopy (setupkvm and
      copyuvm), VmOut (copyout, clearpteu) and VmProps.
    - Console and keyboard: Console (console.c, uart.c), ConsoleOut, ConsoleProps,
      Kbd (kbd.c).
    - The file system (fs.c): Fs (blocks and inodes), FsFile (contents, directories,
      paths, the swap area), with FsTxn, FsAlloc, FsMap, FsData, FsProps, FsBoot,
      DirProps, Path, Namei (files on the disk and the inode cache) and Swap; File
      (file.c, pipe.c) with PipeProps.
    - Processes: Proc (proc.c) with ProcProps (the scheduler), ProcLife (the
      invariant of the table), ProcWait and Fork; Exec (exec.c and loaduvm) with
      ExecLoad (the image of a program) and ExecProps.
    - System calls: Syscall (syscall.c) with SyscallProps, Sysfile (sysfile.c), Trap
      (sysproc.c, trap.c).
    - The processor: Gate (descriptors of mmu.h and asm.h, seginit, tvinit), Asm
      (swtch.S, trapasm.S, vectors.pl, usys.S) with AsmProps; Mp (mp.c),
      Apic (lapic.c, ioapic.c, picirq.c).
    - Starting up: Bootmain (bootmain.c), Main (main.c) with MainProps and MainBoot.
    - Outside of the kernel: Mkfs (mkfs.c) with MkfsSpec, MkfsProps and MkfsImage;
      Sh (sh.c) with ShLex, ShParse, ShPrint and ShRun; Grep (grep.c, wc.c), Umalloc
      (umalloc.c) with UmallocSpec and UmallocProps, Ulib (ulib.c, printf.c), Progs
      (the other small programs, and the system calls of grep and wc).

    ** What the theorems show

    - The log: a crash in the middle of a commit, or of a recovery, leaves all or
      none of a transaction (LogCrash); end_op makes it durable; a log_write within the
      allowance of its operation returns on a log of more than LOGSIZE blocks
      (LogOps), but on the log that mkfs makes, of LOGSIZE blocks with the header,
      three operations that use up their allowances panic (FsProps).
    - The buffer cache returns the current contents of a block and caches each block
      once (BioProps).  A page written to the swap area is read back, but a user
      program can panic the kernel with the block number (Swap).
    - Files and directories: balloc takes a free block, readi and writei are reading
      and overwriting of a list of bytes within the room of the log, dirlookup and
      dirlink are lookup and insertion in a map, paths are taken apart at their
      slashes, and namei finds the inode that a path means, giving back every
      reference it takes on the way (FsProps, DirProps, Path, Namei).  Pipes are queues (PipeProps).
    - Memory: no page is lost or used twice (KallocSpec, VmSpec, VmUser); copyuvm,
      allocuvm, deallocuvm, freevm and copyout do to the bytes a process sees what
      their comments promise, also when memory runs out (VmProps, VmOut).
    - Processes: the table is well formed in every reachable state and no exit is
      missed by wait (ProcLife), the scheduler is fair (ProcProps), wait gives back
      everything (ProcWait), fork copies the process or leaves it alone (Fork), and so
      does exec: from the path on, the process either gets the image of the program
      with the stack that its main expects, or goes on as it was with every page,
      reference and log operation given back; only an argument longer than the image
      can make it follow a null pointer instead (ExecLoad, ExecProps).
    - Protection: the arguments of system calls stay inside the process
      (SyscallProps); user code enters the kernel only through the system call gate
      (AsmProps).  An interrupt, a system call and a context switch give the
      interrupted code its registers back (AsmProps).
    - No two processors hold a spin lock (Spinlock).
    - Booting: the loader loads the kernel (Bootmain), main reaches the scheduler with
      one runnable process whose memory is initcode (MainProps), and the image of mkfs
      is a file system with exactly its files (MkfsImage).
    - User programs: the shell parses what it prints and runs the programs of a line
      on the descriptors the line asks for (ShPrint, ShParse, ShRun), malloc gives out
      memory for requests that do not overflow an int (UmallocProps), grep matches what its pattern means (Grep), the console
      is a line editor (ConsoleProps).

    ** Not modelled

    - bootasm.S, entry.S, entryother.S and initcode.S: their work is the change of the
      processor's mode and of its address translation, which the memory of the
      model does not have; main starts in the state they leave, and the bytes of
      initcode and entryother are parameters.
    - The timing of devices: the status that the code polls at start-up is a parameter
      (Main), microdelay and the polling of the drive in idestart and bootmain are
      left out, and a device answers when asked.
    - Caches, memory ordering weaker than that of the x86 fences, and the translation
      buffer: a page table is read from memory at each access.
    - The test programs (usertests.c, stressfs.c, forktest.c and the like), whose
      expectations are not part of the system, and the scripts of the build.
    - Messages of mkfs and failures of its host; initlock in the kernel's start-up, as a
      lock of the global state starts free. *)

From stdpp Require Export base numbers list gmap strings option sets.
Open Scope Z_scope.

(** ** Machine integers

    A C [uint], [ushort] or [uchar] is an integer of [Z] kept in its range by
    [u32], [u16] and [u8]; an [int], [short] or [char] is kept in its range by
    [i32], [i16] and [i8] (two's complement, as on the i386 target). *)

Definition u8 (x : Z) : Z := x mod 256.
Definition u16 (x : Z) : Z := x mod 65536.
Definition u32 (x : Z) : Z := x mod 4294967296.
Definition i8 (x : Z) : Z := (x + 128) mod 256 - 128.
Definition i16 (x : Z) : Z := (x + 32768) mod 65536 - 32768.
Definition i32 (x : Z) : Z := (x + 2147483648) mod 4294967296 - 2147483648.

(** C's truth value of a comparison, and of an integer. *)
Definition b2z (b : bool) : Z := if b then 1 else 0.
Definition z2b (x : Z) : bool := negb (x =? 0).

(** [zlia] decides linear arithmetic with [/] and [mod] by constants. *)
Ltac zlia := unfold u8, u16, u32, i8, i16, i32 in *; Z.div_mod_to_equations; lia.

(** Case analysis on the integer comparisons of the goal. *)
Ltac zcases :=
  repeat match goal with
  | |- context [?a <=? ?b] => destruct (Z.leb_spec a b); try lia
  | |- context [?a <? ?b] => destruct (Z.ltb_spec a b); try lia
  | |- context [?a =? ?b] => destruct (Z.eqb_spec a b); try lia
  end; cbn [andb orb negb]; try done; try lia.

Lemma u32_range x : 0 <= u32 x < 4294967296.
Proof. zlia. Qed.

Lemma u32_small x : 0 <= x < 4294967296 -> u32 x = x.
Proof. intros. unfold u32. by apply Z.mod_small. Qed.

Lemma i32_small x : -2147483648 <= x < 2147483648 -> i32 x = x.
Proof. zlia. Qed.

Lemma u32_i32 x : u32 (i32 x) = u32 x.
Proof. zlia. Qed.

Lemma u32_add_l x y : u32 (u32 x + y) = u32 (x + y).
Proof. unfold u32. by rewrite Zplus_mod_idemp_l. Qed.

Lemma u32_sub x y : u32 (u32 x - u32 y) = u32 (x - y).
Proof. unfold u32. by rewrite <- Zminus_mod. Qed.

(** ** Lists as C arrays *)

(** [l] at index [i]; out of range the default value. *)
Definition nthz {A} `{Inhabited A} (l : list A) (i : Z) : A := l !!! Z.to_nat i.
(** [l[i] = x]; nothing changes out of range. *)
Definition setz {A} (l : list A) (i : Z) (x : A) : list A := <[Z.to_nat i := x]> l.
(** The [n] elements from offset [o]. *)
Definition slice {A} (l : list A) (o n : nat) : list A := take n (drop o l).
(** [l] with the elements from offset [o] overwritten by [d]. *)
Definition splice {A} (l : list A) (o : nat) (d : list A) : list A :=
  take o l ++ d ++ drop (o + length d) l.

Lemma length_slice {A} (l : list A) o n :
  (o + n <= length l)%nat -> length (slice l o n) = n.
Proof. intros. unfold slice. rewrite length_take, length_drop. lia. Qed.

Lemma length_splice {A} (l : list A) o d :
  (o + length d <= length l)%nat -> length (splice l o d) = length l.
Proof.
  intros. unfold splice. rewrite !length_app, length_take, length_drop. lia.
Qed.

Lemma lookup_slice {A} (l : list A) o n i :
  (i < n)%nat -> slice l o n !! i = l !! (o + i)%nat.
Proof. intros. unfold slice. rewrite lookup_take_lt by lia. apply lookup_drop. Qed.

Lemma lookup_splice_in {A} (l : list A) o d i :
  (o + length d <= length l)%nat -> (o <= i < o + length d)%nat ->
  splice l o d !! i = d !! (i - o)%nat.
Proof.
  intros. unfold splice.
  rewrite lookup_app_r; rewrite length_take; [|lia].
  rewrite lookup_app_l by lia. f_equal; lia.
Qed.

Lemma lookup_splice_out {A} (l : list A) o d i :
  (o + length d <= length l)%nat -> (i < o \/ o + length d <= i)%nat ->
  splice l o d !! i = l !! i.
Proof.
  intros ? [?|?]; unfold splice.
  - rewrite lookup_app_l by (rewrite length_take; lia). apply lookup_take_lt. lia.
  - rewrite lookup_app_r; rewrite length_take; [|lia].
    rewrite lookup_app_r by lia. rewrite lookup_drop. f_equal; lia.
Qed.

Lemma slice_splice_same {A} (l : list A) o d :
  (o + length d <= length l)%nat -> slice (splice l o d) o (length d) = d.
Proof.
  intros. unfold slice, splice.
  rewrite drop_app_length' by (rewrite length_take; lia).
  by rewrite take_app_length.
Qed.

Lemma slice_splice_disjoint {A} (l : list A) o d o' n' :
  (o + length d <= length l)%nat ->
  (o' + n' <= o \/ o + length d <= o')%nat ->
  slice (splice l o d) o' n' = slice l o' n'.
Proof.
  intros Hl Hd. apply list_eq. intros i.
  destruct (decide (i < n')%nat).
  - rewrite !lookup_slice by done. apply lookup_splice_out; lia.
  - unfold slice. rewrite !lookup_take_ge by lia. done.
Qed.

Lemma splice_id {A} (l : list A) o n :
  (o + n <= length l)%nat -> splice l o (slice l o n) = l.
Proof.
  intros. unfold splice. rewrite length_slice by done. unfold slice.
  rewrite <- (drop_drop l n o), take_drop. apply take_drop.
Qed.

Lemma splice_full {A} (l d : list A) :
  length d = length l -> splice l 0 d = d.
Proof.
  intros E. unfold splice. rewrite take_0, E. simpl.
  rewrite drop_all. apply app_nil_r.
Qed.

Lemma nthz_setz_eq {A} `{Inhabited A} (l : list A) i x :
  0 <= i < Z.of_nat (length l) -> nthz (setz l i x) i = x.
Proof. intros. unfold nthz, setz. apply list_lookup_total_insert_eq. lia. Qed.

Lemma nthz_setz_ne {A} `{Inhabited A} (l : list A) i j x :
  0 <= i -> 0 <= j -> i <> j -> nthz (setz l i x) j = nthz l j.
Proof. intros. unfold nthz, setz. apply list_lookup_total_insert_ne. lia. Qed.

Lemma length_setz {A} (l : list A) i x : length (setz l i x) = length l.
Proof. apply length_insert. Qed.

Lemma lookup_total_lookup {A} `{Inhabited A} (l : list A) i x :
  l !! i = Some x -> l !!! i = x.
Proof. intros. by apply list_lookup_total_correct. Qed.

(** ** Little-endian encoding of words in byte arrays *)

Definition is_byte (b : Z) : Prop := 0 <= b < 256.
Definition bytes (l : list Z) : Prop := Forall is_byte l.

Fixpoint le_enc (n : nat) (z : Z) : list Z :=
  match n with
  | O => []
  | S n' => z mod 256 :: le_enc n' (z / 256)
  end.

Fixpoint le_dec (l : list Z) : Z :=
  match l with
  | [] => 0
  | b :: l' => b + 256 * le_dec l'
  end.

Lemma length_le_enc n z : length (le_enc n z) = n.
Proof. revert z; induction n; simpl; auto. Qed.

Lemma bytes_le_enc n z : bytes (le_enc n z).
Proof.
  revert z; induction n; intros; simpl; constructor; [|apply IHn].
  unfold is_byte. zlia.
Qed.

Lemma le_dec_enc n z : le_dec (le_enc n z) = z mod 256 ^ Z.of_nat n.
Proof.
  revert z. induction n as [|n IH]; intros; cbn [le_enc le_dec].
  { by rewrite Z.mod_1_r. }
  rewrite IH, Nat2Z.inj_succ, Z.pow_succ_r by lia.
  rewrite Z.rem_mul_r by lia. lia.
Qed.

Lemma le_enc_dec l : bytes l -> le_enc (length l) (le_dec l) = l.
Proof.
  induction 1 as [|b l Hb _ IH]; [done|]. cbn [length le_enc le_dec].
  unfold is_byte in Hb. f_equal; [zlia|].
  replace ((b + 256 * le_dec l) / 256) with (le_dec l) by zlia. done.
Qed.

Lemma le_dec_range l : bytes l -> 0 <= le_dec l < 256 ^ Z.of_nat (length l).
Proof.
  induction 1 as [|b l Hb _ IH]; [simpl; lia|]. cbn [length le_dec].
  unfold is_byte in Hb. rewrite Nat2Z.inj_succ, Z.pow_succ_r; lia.
Qed.

(** 32-bit and 16-bit words. *)
Definition enc32 (z : Z) : list Z := le_enc 4 z.
Definition enc16 (z : Z) : list Z := le_enc 2 z.

Lemma dec_enc32 z : le_dec (enc32 z) = u32 z.
Proof. unfold enc32. rewrite le_dec_enc. done. Qed.

Lemma dec_enc16 z : le_dec (enc16 z) = u16 z.
Proof. unfold enc16. rewrite le_dec_enc. done. Qed.

Lemma bytes_splice l o d : bytes l -> bytes d -> bytes (splice l o d).
Proof.
  intros. unfold splice, bytes.
  apply Forall_app; split; [by apply Forall_take|].
  apply Forall_app; split; [done|by apply Forall_drop].
Qed.

Lemma bytes_replicate n b : is_byte b -> bytes (replicate n b).
Proof. intros. by apply Forall_replicate. Qed.

(** ** Outcomes of kernel code

    A wait channel is the address a process sleeps on: of a global object
    ([log], [ticks], [input.r]), of an array element ([bcache.buf[i]], the
    sleep lock of a buffer or an inode, [ptable.proc[i]]) or of a field of a
    pipe, which is a page of memory. *)
Inductive chan :=
| ChLog
| ChTicks
| ChInput
| ChBuf (i : nat)
| ChBufLock (i : nat)
| ChInodeLock (i : nat)
| ChProc (i : nat)
| ChPipeRead (page : Z)
| ChPipeWrite (page : Z).

#[export] Instance chan_eq_dec : EqDecision chan.
Proof. solve_decision. Defined.

(** What a call does: it returns a value, or [panic]s, or puts the process to
    sleep on a channel (in the state it leaves behind), or leaves the CPU for
    good (an exited process), or makes an access the C program gives no meaning
    to (a null pointer, an index outside an array),
    or runs out of the fuel of a model loop. *)
Inductive outcome (S A : Type) :=
| Ok (a : A) (s : S)
| Panic (msg : string)
| Sleeps (c : chan) (s : S)
| Gone (s : S)
| Fault (msg : string)
| NoFuel.
Arguments Ok {S A}.
Arguments Panic {S A}.
Arguments Sleeps {S A}.
Arguments Gone {S A}.
Arguments Fault {S A}.
Arguments NoFuel {S A}.

Definition M (S A : Type) : Type := S -> outcome S A.

#[export] Instance M_ret (S : Type) : MRet (M S) := fun A a s => Ok a s.
#[export] Instance M_bind (S : Type) : MBind (M S) := fun A B f m s =>
  match m s with
  | Ok a s' => f a s'
  | Panic msg => Panic msg
  | Sleeps c s' => Sleeps c s'
  | Gone s' => Gone s'
  | Fault msg => Fault msg
  | NoFuel => NoFuel
  end.

Definition panic {S A} (msg : string) : M S A := fun _ => Panic msg.
Definition fault {S A} (msg : string) : M S A := fun _ => Fault msg.
Definition nofuel {S A} : M S A := fun _ => NoFuel.
Definition sleep_on {S A} (c : chan) : M S A := fun s => Sleeps c s.
Definition gone {S A} : M S A := fun s => Gone s.
Definition gets {S A} (f : S -> A) : M S A := fun s => Ok (f s) s.
Definition modify {S} (f : S -> S) : M S unit := fun s => Ok tt (f s).

(** Keeps a test of the code before the rest of a body. *)
Definition panic_if {S} (b : bool) (msg : string) : M S unit :=
  if b then panic msg else mret tt.

Declare Scope xv6_scope.
Delimit Scope xv6_scope with xv6.
(** [if] with the statements of the branch run for their effect. *)
Notation "'when' b 'do' m" := (if b then m else mret tt)
  (at level 99, b at level 99, m at level 99) : xv6_scope.
Notation "a ~[ i ]" := (nthz a i) (at level 1, i at level 99, format "a ~[ i ]") : xv6_scope.
Notation "a ~[ i := x ]" := (setz a i x)
  (at level 1, i at level 99, x at level 99, format "a ~[ i  :=  x ]") : xv6_scope.
Open Scope xv6_scope.

(** ** Weakest preconditions

    [wp m Q s]: run from [s], [m] returns (it neither panics nor sleeps nor
    faults), and its value and final state satisfy [Q]. *)
Definition wp {S A} (m : M S A) (Q : A -> S -> Prop) (s : S) : Prop :=
  match m s with
  | Ok a s' => Q a s'
  | _ => False
  end.

Section wp.
Context {S : Type}.
Implicit Types s : S.

Lemma wp_ok {A} (m : M S A) Q s :
  wp m Q s <-> exists a s', m s = Ok a s' /\ Q a s'.
Proof.
  unfold wp. split.
  - destruct (m s); naive_solver.
  - intros (a & s' & -> & ?). done.
Qed.

Lemma wp_intro {A} (m : M S A) Q s a s' : m s = Ok a s' -> Q a s' -> wp m Q s.
Proof. intros. apply wp_ok. eauto. Qed.

Lemma wp_ret {A} (a : A) Q s : Q a s -> wp (mret a) Q s.
Proof. done. Qed.

Lemma wp_bind {A B} (m : M S A) (f : A -> M S B) Q s :
  wp m (fun a => wp (f a) Q) s -> wp (m ≫= f) Q s.
Proof.
  unfold wp, mbind, M_bind. by destruct (m s).
Qed.

Lemma wp_mono {A} (m : M S A) (Q Q' : A -> S -> Prop) s :
  wp m Q s -> (forall a s', Q a s' -> Q' a s') -> wp m Q' s.
Proof. unfold wp. destruct (m s); naive_solver. Qed.

Lemma wp_gets {A} (f : S -> A) Q s : Q (f s) s -> wp (gets f) Q s.
Proof. done. Qed.

Lemma wp_modify (f : S -> S) Q s : Q tt (f s) -> wp (modify f) Q s.
Proof. done. Qed.

Lemma wp_panic_if b msg (Q : unit -> S -> Prop) s :
  b = false -> Q tt s -> wp (panic_if b msg) Q s.
Proof. by intros ->. Qed.

Lemma bind_ok {A B} (m : M S A) (f : A -> M S B) s a s' :
  m s = Ok a s' -> (m ≫= f) s = f a s'.
Proof. unfold mbind, M_bind. by intros ->. Qed.

Lemma bind_inv {A B} (m : M S A) (f : A -> M S B) s b s'' :
  (m ≫= f) s = Ok b s'' -> exists a s', m s = Ok a s' /\ f a s' = Ok b s''.
Proof. unfold mbind, M_bind. destruct (m s); naive_solver. Qed.
End wp.

(** One symbolic execution step of a goal [wp m Q s]. *)
Ltac wp_step :=
  lazymatch goal with
  | |- wp (mret _) _ _ => apply wp_ret
  | |- wp (_ ≫= _) _ _ => apply wp_bind
  | |- wp (gets _) _ _ => apply wp_gets
  | |- wp (modify _) _ _ => apply wp_modify
  end; cbn beta.
Ltac wp_steps := repeat wp_step.

(** ** First occurrences *)

Lemma find_seq_some (f : nat -> bool) i n j :
  find f (seq i n) = Some j -> (i <= j < i + n)%nat /\ f j = true /\ forall k, (i <= k < j)%nat -> f k = false.
Proof.
  revert i. induction n as [|n IH]; intros i; cbn; [done|]. destruct (f i) eqn:E.
  - intros [= <-]. split_and!; [lia|lia|done|]. intros k ?. lia.
  - intros (H1 & H2 & H3)%IH. split_and!; [lia|lia|done|]. intros k ?.
    destruct (decide (k = i)) as [->|]; [done|]. apply H3. lia.
Qed.

Lemma find_seq_none (f : nat -> bool) i n k : find f (seq i n) = None -> (i <= k < i + n)%nat -> f k = false.
Proof. intros H ?. apply (find_none _ _ H). apply in_seq. lia. Qed.

(** The least number below a bound with a property, if any. *)
Lemma first_below (P : nat -> Prop) `{!forall k, Decision (P k)} (n : nat) :
  (exists k, (k < n)%nat /\ P k /\ forall a, (a < k)%nat -> ~ P a) \/ forall k, (k < n)%nat -> ~ P k.
Proof.
  induction n as [|n [(k & ? & ? & ?)|IH]]; [right; lia|left; exists k; split_and!; [lia|done|done]|].
  destruct (decide (P n)); [left; exists n; split_and!; [lia|done|done]|right].
  intros k ?. destruct (decide (k = n)) as [->|]; [done|apply IH; lia].
Qed.

(** A property of the numbers below a bound, by evaluation. *)
Lemma range_forallb (f : Z -> bool) (n : nat) :
  forallb (fun k => f (Z.of_nat k)) (seq 0 n) = true -> forall b, 0 <= b < Z.of_nat n -> f b = true.
Proof.
  intros H b Hb. rewrite forallb_forall in H. specialize (H (Z.to_nat b)). rewrite Z2Nat.id in H by lia.
  apply H, in_seq. lia.
Qed.

(** ** Effects of code that returns or blocks

    [moves R m]: whenever [m] returns or goes to sleep, the state it leaves is
    related by [R] to the state it started from. *)
Definition moves {S A} (R : S -> S -> Prop) (m : M S A) : Prop :=
  forall s, match m s with Ok _ s' => R s s' | Sleeps _ s' => R s s' | Gone s' => R s s' | _ => True end.

Section moves.
Context {S : Type} (R : S -> S -> Prop) `{!PreOrder R}.

Lemma moves_ok {A} (m : M S A) s a s' : moves R m -> m s = Ok a s' -> R s s'.
Proof using. intros H E. specialize (H s). by rewrite E in H. Qed.

Lemma moves_ret {A} (a : A) : moves R (mret a).
Proof using All. intros s. cbn. reflexivity. Qed.

Lemma moves_bind {A B} (m : M S A) (f : A -> M S B) :
  moves R m -> (forall a, moves R (f a)) -> moves R (m ≫= f).
Proof using All.
  intros Hm Hf s. unfold mbind, M_bind. specialize (Hm s). destruct (m s) as [a s'| | | | |]; try done.
  specialize (Hf a s'). destruct (f a s'); try done; by transitivity s'.
Qed.

Lemma moves_gets {A} (f : S -> A) : moves R (gets f).
Proof using All. intros s. cbn. reflexivity. Qed.

Lemma moves_modify f : (forall s, R s (f s)) -> moves R (modify f).
Proof using. intros H s. apply H. Qed.

Lemma moves_panic {A} msg : moves R (panic msg : M S A).
Proof using. intros s. done. Qed.
Lemma moves_fault {A} msg : moves R (fault msg : M S A).
Proof using. intros s. done. Qed.
Lemma moves_nofuel {A} : moves R (nofuel : M S A).
Proof using. intros s. done. Qed.
Lemma moves_panic_if b msg : moves R (panic_if b msg).
Proof using All. destruct b; [apply moves_panic|apply moves_ret]. Qed.
Lemma moves_if {A} (b : bool) (m1 m2 : M S A) : moves R m1 -> moves R m2 -> moves R (if b then m1 else m2).
Proof using. by destruct b. Qed.
Lemma moves_match {A B} (o : option B) (m1 : B -> M S A) (m2 : M S A) :
  (forall b, moves R (m1 b)) -> moves R m2 -> moves R (match o with Some b => m1 b | None => m2 end).
Proof using. destruct o; auto. Qed.
End moves.

Create HintDb moves.

(** Structural decomposition of a goal [moves R m]. *)
Ltac moves_step :=
  lazymatch goal with
  | |- moves _ (mret _) => apply moves_ret; try apply _
  | |- moves _ (_ ≫= _) => apply moves_bind; [try apply _| |intros ?]
  | |- moves _ (gets _) => apply moves_gets; try apply _
  | |- moves _ (panic _) => apply moves_panic
  | |- moves _ (fault _) => apply moves_fault
  | |- moves _ nofuel => apply moves_nofuel
  | |- moves _ (panic_if _ _) => apply moves_panic_if; try apply _
  | |- moves _ (match ?b with true => _ | false => _ end) => apply moves_if
  | |- moves _ (match ?b with Some _ => _ | None => _ end) => apply moves_match; [intros ?|]
  | |- moves _ _ => solve [auto with moves]
  end.
Ltac moves_steps := repeat moves_step.

(** Code that leaves the part [f] of the state alone. *)
Definition same {S B} (f : S -> B) : S -> S -> Prop := fun s s' => f s' = f s.
#[export] Instance same_preorder {S B} (f : S -> B) : PreOrder (same f).
Proof. split; [by intros s|]. unfold same. intros s1 s2 s3 H1 H2. congruence. Qed.
