(* ===== verification/State.v ===== *)
(** * The kernel's data: constants, structures and the global state

    The constants of param.h, fs.h, stat.h, fcntl.h, buf.h, mmu.h and
    memlayout.h, the structures of fs.h, file.h, buf.h, sleeplock.h, proc.h,
    log.c, pipe.c, kalloc.c, console.c and ide.c, and the record [kernel] of
    the kernel's global variables, which the operations of the other files
    read and update.  A pointer to an element of a static array ([bcache.buf],
    [icache.inode], [ftable.file], [ptable.proc]) is its index, a null pointer
    is [None]; a pointer to a page of memory is its address.  The spin locks
    do not appear: a critical section is one operation of the model (file
    Spinlock.v models the locks themselves).  The sleep locks do appear,
    since the code tests who holds them. *)

From S2P Require Import Prelude.
Open Scope Z_scope.

(** ** param.h *)
Definition NPROC : nat := 64.
Definition KSTACKSIZE : Z := 4096.
Definition NOFILE : nat := 16.
Definition NFILE : nat := 100.
Definition NINODE : nat := 50.
Definition NDEV : Z := 10.
Definition ROOTDEV : Z := 1.
Definition MAXARG : Z := 32.
Definition MAXOPBLOCKS : Z := 10.
Definition LOGSIZE : Z := MAXOPBLOCKS * 3.
Definition NBUF : nat := 30.
Definition FSSIZE : Z := 1000.

(** ** fs.h, stat.h, fcntl.h, buf.h *)
Definition ROOTINO : Z := 1.
Definition BSIZE : Z := 512.
Definition NDIRECT : Z := 12.
Definition NINDIRECT : Z := BSIZE / 4.
Definition MAXFILE : Z := NDIRECT + NINDIRECT.
Definition DINODE_SIZE : Z := 64.
Definition IPB : Z := BSIZE / DINODE_SIZE.
Definition BPB : Z := BSIZE * 8.
Definition DIRSIZ : nat := 14.
Definition DIRENT_SIZE : Z := 16.
Definition T_DIR : Z := 1.
Definition T_FILE : Z := 2.
Definition T_DEV : Z := 3.
Definition O_RDONLY : Z := 0.
Definition O_WRONLY : Z := 1.
Definition O_RDWR : Z := 2.
Definition O_CREATE : Z := 512.
Definition B_VALID : Z := 2.
Definition B_DIRTY : Z := 4.

(** ** memlayout.h and mmu.h *)
Definition PGSIZE : Z := 4096.
Definition EXTMEM : Z := 1048576.
Definition PHYSTOP : Z := 234881024.
Definition DEVSPACE : Z := 4261412864.
Definition KERNBASE : Z := 2147483648.
Definition KERNLINK : Z := KERNBASE + EXTMEM.
Definition V2P (a : Z) : Z := u32 (a - KERNBASE).
Definition P2V (a : Z) : Z := u32 (a + KERNBASE).
Definition PGROUNDUP (sz : Z) : Z := Z.land (u32 (sz + PGSIZE - 1)) (u32 (Z.lnot (PGSIZE - 1))).
Definition PGROUNDDOWN (a : Z) : Z := Z.land a (u32 (Z.lnot (PGSIZE - 1))).

(** A disk block: 512 bytes. *)
Definition block : Type := list Z.
Definition zero_block : block := replicate 512 0.
Definition block_ok (b : block) : Prop := length b = 512%nat /\ bytes b.

(** ** Structures *)

(** struct sleeplock: held or not, and by which process. *)
Record sleeplock := mkSleeplock {
  sl_locked : bool;
  sl_pid : Z
}.
Definition set_sl_locked (x : bool) (r : sleeplock) : sleeplock :=
  mkSleeplock x (sl_pid r).
Definition set_sl_pid (x : Z) (r : sleeplock) : sleeplock :=
  mkSleeplock (sl_locked r) x.
#[export] Instance sleeplock_inhabited : Inhabited sleeplock := populate (mkSleeplock false 0).

(** struct buf; [b_prev] and [b_next] link the least-recently-used list. *)
Record buf := mkBuf {
  b_flags : Z;
  b_dev : Z;
  b_blockno : Z;
  b_lock : sleeplock;
  b_refcnt : Z;
  b_prev : nat;
  b_next : nat;
  b_data : block
}.
Definition set_b_flags (x : Z) (r : buf) : buf :=
  mkBuf x (b_dev r) (b_blockno r) (b_lock r) (b_refcnt r) (b_prev r) (b_next r) (b_data r).
Definition set_b_dev (x : Z) (r : buf) : buf :=
  mkBuf (b_flags r) x (b_blockno r) (b_lock r) (b_refcnt r) (b_prev r) (b_next r) (b_data r).
Definition set_b_blockno (x : Z) (r : buf) : buf :=
  mkBuf (b_flags r) (b_dev r) x (b_lock r) (b_refcnt r) (b_prev r) (b_next r) (b_data r).
Definition set_b_lock (x : sleeplock) (r : buf) : buf :=
  mkBuf (b_flags r) (b_dev r) (b_blockno r) x (b_refcnt r) (b_prev r) (b_next r) (b_data r).
Definition set_b_refcnt (x : Z) (r : buf) : buf :=
  mkBuf (b_flags r) (b_dev r) (b_blockno r) (b_lock r) x (b_prev r) (b_next r) (b_data r).
Definition set_b_prev (x : nat) (r : buf) : buf :=
  mkBuf (b_flags r) (b_dev r) (b_blockno r) (b_lock r) (b_refcnt r) x (b_next r) (b_data r).
Definition set_b_next (x : nat) (r : buf) : buf :=
  mkBuf (b_flags r) (b_dev r) (b_blockno r) (b_lock r) (b_refcnt r) (b_prev r) x (b_data r).
Definition set_b_data (x : block) (r : buf) : buf :=
  mkBuf (b_flags r) (b_dev r) (b_blockno r) (b_lock r) (b_refcnt r) (b_prev r) (b_next r) x.
#[export] Instance buf_inhabited : Inhabited buf := populate (mkBuf 0 0 0 inhabitant 0 O O zero_block).

(** struct superblock. *)
Record superblock := mkSuperblock {
  sb_size : Z;
  sb_nblocks : Z;
  sb_ninodes : Z;
  sb_nlog : Z;
  sb_logstart : Z;
  sb_inodestart : Z;
  sb_bmapstart : Z
}.
Definition set_sb_size (x : Z) (r : superblock) : superblock :=
  mkSuperblock x (sb_nblocks r) (sb_ninodes r) (sb_nlog r) (sb_logstart r) (sb_inodestart r) (sb_bmapstart r).
Definition set_sb_nblocks (x : Z) (r : superblock) : superblock :=
  mkSuperblock (sb_size r) x (sb_ninodes r) (sb_nlog r) (sb_logstart r) (sb_inodestart r) (sb_bmapstart r).
Definition set_sb_ninodes (x : Z) (r : superblock) : superblock :=
  mkSuperblock (sb_size r) (sb_nblocks r) x (sb_nlog r) (sb_logstart r) (sb_inodestart r) (sb_bmapstart r).
Definition set_sb_nlog (x : Z) (r : superblock) : superblock :=
  mkSuperblock (sb_size r) (sb_nblocks r) (sb_ninodes r) x (sb_logstart r) (sb_inodestart r) (sb_bmapstart r).
Definition set_sb_logstart (x : Z) (r : superblock) : superblock :=
  mkSuperblock (sb_size r) (sb_nblocks r) (sb_ninodes r) (sb_nlog r) x (sb_inodestart r) (sb_bmapstart r).
Definition set_sb_inodestart (x : Z) (r : superblock) : superblock :=
  mkSuperblock (sb_size r) (sb_nblocks r) (sb_ninodes r) (sb_nlog r) (sb_logstart r) x (sb_bmapstart r).
Definition set_sb_bmapstart (x : Z) (r : superblock) : superblock :=
  mkSuperblock (sb_size r) (sb_nblocks r) (sb_ninodes r) (sb_nlog r) (sb_logstart r) (sb_inodestart r) x.
#[export] Instance superblock_inhabited : Inhabited superblock := populate (mkSuperblock 0 0 0 0 0 0 0).

(** struct dinode, the inode on disk. *)
Record dinode := mkDinode {
  di_type : Z;
  di_major : Z;
  di_minor : Z;
  di_nlink : Z;
  di_size : Z;
  di_addrs : list Z
}.
Definition set_di_type (x : Z) (r : dinode) : dinode :=
  mkDinode x (di_major r) (di_minor r) (di_nlink r) (di_size r) (di_addrs r).
Definition set_di_major (x : Z) (r : dinode) : dinode :=
  mkDinode (di_type r) x (di_minor r) (di_nlink r) (di_size r) (di_addrs r).
Definition set_di_minor (x : Z) (r : dinode) : dinode :=
  mkDinode (di_type r) (di_major r) x (di_nlink r) (di_size r) (di_addrs r).
Definition set_di_nlink (x : Z) (r : dinode) : dinode :=
  mkDinode (di_type r) (di_major r) (di_minor r) x (di_size r) (di_addrs r).
Definition set_di_size (x : Z) (r : dinode) : dinode :=
  mkDinode (di_type r) (di_major r) (di_minor r) (di_nlink r) x (di_addrs r).
Definition set_di_addrs (x : list Z) (r : dinode) : dinode :=
  mkDinode (di_type r) (di_major r) (di_minor r) (di_nlink r) (di_size r) x.
#[export] Instance dinode_inhabited : Inhabited dinode := populate (mkDinode 0 0 0 0 0 (replicate 13 0)).

(** struct inode, the inode cached in memory. *)
Record inode := mkInode {
  i_dev : Z;
  i_inum : Z;
  i_ref : Z;
  i_lock : sleeplock;
  i_valid : bool;
  i_type : Z;
  i_major : Z;
  i_minor : Z;
  i_nlink : Z;
  i_size : Z;
  i_addrs : list Z
}.
Definition set_i_dev (x : Z) (r : inode) : inode :=
  mkInode x (i_inum r) (i_ref r) (i_lock r) (i_valid r) (i_type r) (i_major r) (i_minor r) (i_nlink r) (i_size r) (i_addrs r).
Definition set_i_inum (x : Z) (r : inode) : inode :=
  mkInode (i_dev r) x (i_ref r) (i_lock r) (i_valid r) (i_type r) (i_major r) (i_minor r) (i_nlink r) (i_size r) (i_addrs r).
Definition set_i_ref (x : Z) (r : inode) : inode :=
  mkInode (i_dev r) (i_inum r) x (i_lock r) (i_valid r) (i_type r) (i_major r) (i_minor r) (i_nlink r) (i_size r) (i_addrs r).
Definition set_i_lock (x : sleeplock) (r : inode) : inode :=
  mkInode (i_dev r) (i_inum r) (i_ref r) x (i_valid r) (i_type r) (i_major r) (i_minor r) (i_nlink r) (i_size r) (i_addrs r).
Definition set_i_valid (x : bool) (r : inode) : inode :=
  mkInode (i_dev r) (i_inum r) (i_ref r) (i_lock r) x (i_type r) (i_major r) (i_minor r) (i_nlink r) (i_size r) (i_addrs r).
Definition set_i_type (x : Z) (r : inode) : inode :=
  mkInode (i_dev r) (i_inum r) (i_ref r) (i_lock r) (i_valid r) x (i_major r) (i_minor r) (i_nlink r) (i_size r) (i_addrs r).
Definition set_i_major (x : Z) (r : inode) : inode :=
  mkInode (i_dev r) (i_inum r) (i_ref r) (i_lock r) (i_valid r) (i_type r) x (i_minor r) (i_nlink r) (i_size r) (i_addrs r).
Definition set_i_minor (x : Z) (r : inode) : inode :=
  mkInode (i_dev r) (i_inum r) (i_ref r) (i_lock r) (i_valid r) (i_type r) (i_major r) x (i_nlink r) (i_size r) (i_addrs r).
Definition set_i_nlink (x : Z) (r : inode) : inode :=
  mkInode (i_dev r) (i_inum r) (i_ref r) (i_lock r) (i_valid r) (i_type r) (i_major r) (i_minor r) x (i_size r) (i_addrs r).
Definition set_i_size (x : Z) (r : inode) : inode :=
  mkInode (i_dev r) (i_inum r) (i_ref r) (i_lock r) (i_valid r) (i_type r) (i_major r) (i_minor r) (i_nlink r) x (i_addrs r).
Definition set_i_addrs (x : list Z) (r : inode) : inode :=
  mkInode (i_dev r) (i_inum r) (i_ref r) (i_lock r) (i_valid r) (i_type r) (i_major r) (i_minor r) (i_nlink r) (i_size r) x.
#[export] Instance inode_inhabited : Inhabited inode := populate (mkInode 0 0 0 inhabitant false 0 0 0 0 0 (replicate 13 0)).

(** struct log with its header [lh]. *)
Record logstate := mkLog {
  l_start : Z;
  l_size : Z;
  l_outstanding : Z;
  l_committing : bool;
  l_dev : Z;
  lh_n : Z;
  lh_block : list Z
}.
Definition set_l_start (x : Z) (r : logstate) : logstate :=
  mkLog x (l_size r) (l_outstanding r) (l_committing r) (l_dev r) (lh_n r) (lh_block r).
Definition set_l_size (x : Z) (r : logstate) : logstate :=
  mkLog (l_start r) x (l_outstanding r) (l_committing r) (l_dev r) (lh_n r) (lh_block r).
Definition set_l_outstanding (x : Z) (r : logstate) : logstate :=
  mkLog (l_start r) (l_size r) x (l_committing r) (l_dev r) (lh_n r) (lh_block r).
Definition set_l_committing (x : bool) (r : logstate) : logstate :=
  mkLog (l_start r) (l_size r) (l_outstanding r) x (l_dev r) (lh_n r) (lh_block r).
Definition set_l_dev (x : Z) (r : logstate) : logstate :=
  mkLog (l_start r) (l_size r) (l_outstanding r) (l_committing r) x (lh_n r) (lh_block r).
Definition set_lh_n (x : Z) (r : logstate) : logstate :=
  mkLog (l_start r) (l_size r) (l_outstanding r) (l_committing r) (l_dev r) x (lh_block r).
Definition set_lh_block (x : list Z) (r : logstate) : logstate :=
  mkLog (l_start r) (l_size r) (l_outstanding r) (l_committing r) (l_dev r) (lh_n r) x.
#[export] Instance logstate_inhabited : Inhabited logstate := populate (mkLog 0 0 0 false 0 0 (replicate 30 0)).

(** The kinds of open file of file.h. *)
Inductive fdtype := FD_NONE | FD_PIPE | FD_INODE.
#[export] Instance fdtype_eq_dec : EqDecision fdtype.
Proof. solve_decision. Defined.

(** struct file. *)
Record file := mkFile {
  f_type : fdtype;
  f_ref : Z;
  f_readable : bool;
  f_writable : bool;
  f_pipe : Z;
  f_ip : option nat;
  f_off : Z
}.
Definition set_f_type (x : fdtype) (r : file) : file :=
  mkFile x (f_ref r) (f_readable r) (f_writable r) (f_pipe r) (f_ip r) (f_off r).
Definition set_f_ref (x : Z) (r : file) : file :=
  mkFile (f_type r) x (f_readable r) (f_writable r) (f_pipe r) (f_ip r) (f_off r).
Definition set_f_readable (x : bool) (r : file) : file :=
  mkFile (f_type r) (f_ref r) x (f_writable r) (f_pipe r) (f_ip r) (f_off r).
Definition set_f_writable (x : bool) (r : file) : file :=
  mkFile (f_type r) (f_ref r) (f_readable r) x (f_pipe r) (f_ip r) (f_off r).
Definition set_f_pipe (x : Z) (r : file) : file :=
  mkFile (f_type r) (f_ref r) (f_readable r) (f_writable r) x (f_ip r) (f_off r).
Definition set_f_ip (x : option nat) (r : file) : file :=
  mkFile (f_type r) (f_ref r) (f_readable r) (f_writable r) (f_pipe r) x (f_off r).
Definition set_f_off (x : Z) (r : file) : file :=
  mkFile (f_type r) (f_ref r) (f_readable r) (f_writable r) (f_pipe r) (f_ip r) x.
#[export] Instance file_inhabited : Inhabited file := populate (mkFile FD_NONE 0 false false 0 None 0).

(** struct pipe. *)
Record pipe := mkPipe {
  p_data : list Z;
  p_nread : Z;
  p_nwrite : Z;
  p_readopen : bool;
  p_writeopen : bool
}.
Definition set_p_data (x : list Z) (r : pipe) : pipe :=
  mkPipe x (p_nread r) (p_nwrite r) (p_readopen r) (p_writeopen r).
Definition set_p_nread (x : Z) (r : pipe) : pipe :=
  mkPipe (p_data r) x (p_nwrite r) (p_readopen r) (p_writeopen r).
Definition set_p_nwrite (x : Z) (r : pipe) : pipe :=
  mkPipe (p_data r) (p_nread r) x (p_readopen r) (p_writeopen r).
Definition set_p_readopen (x : bool) (r : pipe) : pipe :=
  mkPipe (p_data r) (p_nread r) (p_nwrite r) x (p_writeopen r).
Definition set_p_writeopen (x : bool) (r : pipe) : pipe :=
  mkPipe (p_data r) (p_nread r) (p_nwrite r) (p_readopen r) x.
#[export] Instance pipe_inhabited : Inhabited pipe := populate (mkPipe (replicate 512 0) 0 0 false false).

(** enum procstate. *)
Inductive procstate := UNUSED | EMBRYO | SLEEPING | RUNNABLE | RUNNING | ZOMBIE.
#[export] Instance procstate_eq_dec : EqDecision procstate.
Proof. solve_decision. Defined.

(** struct trapframe of x86.h, without its padding. *)
Record trapframe := mkTrapframe {
  tf_edi : Z;
  tf_esi : Z;
  tf_ebp : Z;
  tf_oesp : Z;
  tf_ebx : Z;
  tf_edx : Z;
  tf_ecx : Z;
  tf_eax : Z;
  tf_gs : Z;
  tf_fs : Z;
  tf_es : Z;
  tf_ds : Z;
  tf_trapno : Z;
  tf_err : Z;
  tf_eip : Z;
  tf_cs : Z;
  tf_eflags : Z;
  tf_esp : Z;
  tf_ss : Z
}.
Definition set_tf_edi (x : Z) (r : trapframe) : trapframe :=
  mkTrapframe x (tf_esi r) (tf_ebp r) (tf_oesp r) (tf_ebx r) (tf_edx r) (tf_ecx r) (tf_eax r) (tf_gs r) (tf_fs r) (tf_es r) (tf_ds r) (tf_trapno r) (tf_err r) (tf_eip r) (tf_cs r) (tf_eflags r) (tf_esp r) (tf_ss r).
Definition set_tf_esi (x : Z) (r : trapframe) : trapframe :=
  mkTrapframe (tf_edi r) x (tf_ebp r) (tf_oesp r) (tf_ebx r) (tf_edx r) (tf_ecx r) (tf_eax r) (tf_gs r) (tf_fs r) (tf_es r) (tf_ds r) (tf_trapno r) (tf_err r) (tf_eip r) (tf_cs r) (tf_eflags r) (tf_esp r) (tf_ss r).
Definition set_tf_ebp (x : Z) (r : trapframe) : trapframe :=
  mkTrapframe (tf_edi r) (tf_esi r) x (tf_oesp r) (tf_ebx r) (tf_edx r) (tf_ecx r) (tf_eax r) (tf_gs r) (tf_fs r) (tf_es r) (tf_ds r) (tf_trapno r) (tf_err r) (tf_eip r) (tf_cs r) (tf_eflags r) (tf_esp r) (tf_ss r).
Definition set_tf_oesp (x : Z) (r : trapframe) : trapframe :=
  mkTrapframe (tf_edi r) (tf_esi r) (tf_ebp r) x (tf_ebx r) (tf_edx r) (tf_ecx r) (tf_eax r) (tf_gs r) (tf_fs r) (tf_es r) (tf_ds r) (tf_trapno r) (tf_err r) (tf_eip r) (tf_cs r) (tf_eflags r) (tf_esp r) (tf_ss r).
Definition set_tf_ebx (x : Z) (r : trapframe) : trapframe :=
  mkTrapframe (tf_edi r) (tf_esi r) (tf_ebp r) (tf_oesp r) x (tf_edx r) (tf_ecx r) (tf_eax r) (tf_gs r) (tf_fs r) (tf_es r) (tf_ds r) (tf_trapno r) (tf_err r) (tf_eip r) (tf_cs r) (tf_eflags r) (tf_esp r) (tf_ss r).
Definition set_tf_edx (x : Z) (r : trapframe) : trapframe :=
  mkTrapframe (tf_edi r) (tf_esi r) (tf_ebp r) (tf_oesp r) (tf_ebx r) x (tf_ecx r) (tf_eax r) (tf_gs r) (tf_fs r) (tf_es r) (tf_ds r) (tf_trapno r) (tf_err r) (tf_eip r) (tf_cs r) (tf_eflags r) (tf_esp r) (tf_ss r).
Definition set_tf_ecx (x : Z) (r : trapframe) : trapframe :=
  mkTrapframe (tf_edi r) (tf_esi r) (tf_ebp r) (tf_oesp r) (tf_ebx r) (tf_edx r) x (tf_eax r) (tf_gs r) (tf_fs r) (tf_es r) (tf_ds r) (tf_trapno r) (tf_err r) (tf_eip r) (tf_cs r) (tf_eflags r) (tf_esp r) (tf_ss r).
Definition set_tf_eax (x : Z) (r : trapframe) : trapframe :=
  mkTrapframe (tf_edi r) (tf_esi r) (tf_ebp r) (tf_oesp r) (tf_ebx r) (tf_edx r) (tf_ecx r) x (tf_gs r) (tf_fs r) (tf_es r) (tf_ds r) (tf_trapno r) (tf_err r) (tf_eip r) (tf_cs r) (tf_eflags r) (tf_esp r) (tf_ss r).
Definition set_tf_gs (x : Z) (r : trapframe) : trapframe :=
  mkTrapframe (tf_edi r) (tf_esi r) (tf_ebp r) (tf_oesp r) (tf_ebx r) (tf_edx r) (tf_ecx r) (tf_eax r) x (tf_fs r) (tf_es r) (tf_ds r) (tf_trapno r) (tf_err r) (tf_eip r) (tf_cs r) (tf_eflags r) (tf_esp r) (tf_ss r).
Definition set_tf_fs (x : Z) (r : trapframe) : trapframe :=
  mkTrapframe (tf_edi r) (tf_esi r) (tf_ebp r) (tf_oesp r) (tf_ebx r) (tf_edx r) (tf_ecx r) (tf_eax r) (tf_gs r) x (tf_es r) (tf_ds r) (tf_trapno r) (tf_err r) (tf_eip r) (tf_cs r) (tf_eflags r) (tf_esp r) (tf_ss r).
Definition set_tf_es (x : Z) (r : trapframe) : trapframe :=
  mkTrapframe (tf_edi r) (tf_esi r) (tf_ebp r) (tf_oesp r) (tf_ebx r) (tf_edx r) (tf_ecx r) (tf_eax r) (tf_gs r) (tf_fs r) x (tf_ds r) (tf_trapno r) (tf_err r) (tf_eip r) (tf_cs r) (tf_eflags r) (tf_esp r) (tf_ss r).
Definition set_tf_ds (x : Z) (r : trapframe) : trapframe :=
  mkTrapframe (tf_edi r) (tf_esi r) (tf_ebp r) (tf_oesp r) (tf_ebx r) (tf_edx r) (tf_ecx r) (tf_eax r) (tf_gs r) (tf_fs r) (tf_es r) x (tf_trapno r) (tf_err r) (tf_eip r) (tf_cs r) (tf_eflags r) (tf_esp r) (tf_ss r).
Definition set_tf_trapno (x : Z) (r : trapframe) : trapframe :=
  mkTrapframe (tf_edi r) (tf_esi r) (tf_ebp r) (tf_oesp r) (tf_ebx r) (tf_edx r) (tf_ecx r) (tf_eax r) (tf_gs r) (tf_fs r) (tf_es r) (tf_ds r) x (tf_err r) (tf_eip r) (tf_cs r) (tf_eflags r) (tf_esp r) (tf_ss r).
Definition set_tf_err (x : Z) (r : trapframe) : trapframe :=
  mkTrapframe (tf_edi r) (tf_esi r) (tf_ebp r) (tf_oesp r) (tf_ebx r) (tf_edx r) (tf_ecx r) (tf_eax r) (tf_gs r) (tf_fs r) (tf_es r) (tf_ds r) (tf_trapno r) x (tf_eip r) (tf_cs r) (tf_eflags r) (tf_esp r) (tf_ss r).
Definition set_tf_eip (x : Z) (r : trapframe) : trapframe :=
  mkTrapframe (tf_edi r) (tf_esi r) (tf_ebp r) (tf_oesp r) (tf_ebx r) (tf_edx r) (tf_ecx r) (tf_eax r) (tf_gs r) (tf_fs r) (tf_es r) (tf_ds r) (tf_trapno r) (tf_err r) x (tf_cs r) (tf_eflags r) (tf_esp r) (tf_ss r).
Definition set_tf_cs (x : Z) (r : trapframe) : trapframe :=
  mkTrapframe (tf_edi r) (tf_esi r) (tf_ebp r) (tf_oesp r) (tf_ebx r) (tf_edx r) (tf_ecx r) (tf_eax r) (tf_gs r) (tf_fs r) (tf_es r) (tf_ds r) (tf_trapno r) (tf_err r) (tf_eip r) x (tf_eflags r) (tf_esp r) (tf_ss r).
Definition set_tf_eflags (x : Z) (r : trapframe) : trapframe :=
  mkTrapframe (tf_edi r) (tf_esi r) (tf_ebp r) (tf_oesp r) (tf_ebx r) (tf_edx r) (tf_ecx r) (tf_eax r) (tf_gs r) (tf_fs r) (tf_es r) (tf_ds r) (tf_trapno r) (tf_err r) (tf_eip r) (tf_cs r) x (tf_esp r) (tf_ss r).
Definition set_tf_esp (x : Z) (r : trapframe) : trapframe :=
  mkTrapframe (tf_edi r) (tf_esi r) (tf_ebp r) (tf_oesp r) (tf_ebx r) (tf_edx r) (tf_ecx r) (tf_eax r) (tf_gs r) (tf_fs r) (tf_es r) (tf_ds r) (tf_trapno r) (tf_err r) (tf_eip r) (tf_cs r) (tf_eflags r) x (tf_ss r).
Definition set_tf_ss (x : Z) (r : trapframe) : trapframe :=
  mkTrapframe (tf_edi r) (tf_esi r) (tf_ebp r) (tf_oesp r) (tf_ebx r) (tf_edx r) (tf_ecx r) (tf_eax r) (tf_gs r) (tf_fs r) (tf_es r) (tf_ds r) (tf_trapno r) (tf_err r) (tf_eip r) (tf_cs r) (tf_eflags r) (tf_esp r) x.
#[export] Instance trapframe_inhabited : Inhabited trapframe := populate (mkTrapframe 0 0 0 0 0 0 0 0 0 0 0 0 0 0 0 0 0 0 0).

(** struct context. *)
Record context := mkContext {
  ctx_edi : Z;
  ctx_esi : Z;
  ctx_ebx : Z;
  ctx_ebp : Z;
  ctx_eip : Z
}.
Definition set_ctx_edi (x : Z) (r : context) : context :=
  mkContext x (ctx_esi r) (ctx_ebx r) (ctx_ebp r) (ctx_eip r).
Definition set_ctx_esi (x : Z) (r : context) : context :=
  mkContext (ctx_edi r) x (ctx_ebx r) (ctx_ebp r) (ctx_eip r).
Definition set_ctx_ebx (x : Z) (r : context) : context :=
  mkContext (ctx_edi r) (ctx_esi r) x (ctx_ebp r) (ctx_eip r).
Definition set_ctx_ebp (x : Z) (r : context) : context :=
  mkContext (ctx_edi r) (ctx_esi r) (ctx_ebx r) x (ctx_eip r).
Definition set_ctx_eip (x : Z) (r : context) : context :=
  mkContext (ctx_edi r) (ctx_esi r) (ctx_ebx r) (ctx_ebp r) x.
#[export] Instance context_inhabited : Inhabited context := populate (mkContext 0 0 0 0 0).

(** struct proc; the trap frame and the context, which live in the page of the kernel
    stack, are held by the record. *)
Record proc := mkProc {
  p_sz : Z;
  p_pgdir : Z;
  p_kstack : Z;
  p_state : procstate;
  p_pid : Z;
  p_parent : option nat;
  p_tf : trapframe;
  p_context : context;
  p_chan : option chan;
  p_killed : bool;
  p_ofile : list (option nat);
  p_cwd : option nat;
  p_name : list Z
}.
Definition set_p_sz (x : Z) (r : proc) : proc :=
  mkProc x (p_pgdir r) (p_kstack r) (p_state r) (p_pid r) (p_parent r) (p_tf r) (p_context r) (p_chan r) (p_killed r) (p_ofile r) (p_cwd r) (p_name r).
Definition set_p_pgdir (x : Z) (r : proc) : proc :=
  mkProc (p_sz r) x (p_kstack r) (p_state r) (p_pid r) (p_parent r) (p_tf r) (p_context r) (p_chan r) (p_killed r) (p_ofile r) (p_cwd r) (p_name r).
Definition set_p_kstack (x : Z) (r : proc) : proc :=
  mkProc (p_sz r) (p_pgdir r) x (p_state r) (p_pid r) (p_parent r) (p_tf r) (p_context r) (p_chan r) (p_killed r) (p_ofile r) (p_cwd r) (p_name r).
Definition set_p_state (x : procstate) (r : proc) : proc :=
  mkProc (p_sz r) (p_pgdir r) (p_kstack r) x (p_pid r) (p_parent r) (p_tf r) (p_context r) (p_chan r) (p_killed r) (p_ofile r) (p_cwd r) (p_name r).
Definition set_p_pid (x : Z) (r : proc) : proc :=
  mkProc (p_sz r) (p_pgdir r) (p_kstack r) (p_state r) x (p_parent r) (p_tf r) (p_context r) (p_chan r) (p_killed r) (p_ofile r) (p_cwd r) (p_name r).
Definition set_p_parent (x : option nat) (r : proc) : proc :=
  mkProc (p_sz r) (p_pgdir r) (p_kstack r) (p_state r) (p_pid r) x (p_tf r) (p_context r) (p_chan r) (p_killed r) (p_ofile r) (p_cwd r) (p_name r).
Definition set_p_tf (x : trapframe) (r : proc) : proc :=
  mkProc (p_sz r) (p_pgdir r) (p_kstack r) (p_state r) (p_pid r) (p_parent r) x (p_context r) (p_chan r) (p_killed r) (p_ofile r) (p_cwd r) (p_name r).
Definition set_p_context (x : context) (r : proc) : proc :=
  mkProc (p_sz r) (p_pgdir r) (p_kstack r) (p_state r) (p_pid r) (p_parent r) (p_tf r) x (p_chan r) (p_killed r) (p_ofile r) (p_cwd r) (p_name r).
Definition set_p_chan (x : option chan) (r : proc) : proc :=
  mkProc (p_sz r) (p_pgdir r) (p_kstack r) (p_state r) (p_pid r) (p_parent r) (p_tf r) (p_context r) x (p_killed r) (p_ofile r) (p_cwd r) (p_name r).
Definition set_p_killed (x : bool) (r : proc) : proc :=
  mkProc (p_sz r) (p_pgdir r) (p_kstack r) (p_state r) (p_pid r) (p_parent r) (p_tf r) (p_context r) (p_chan r) x (p_ofile r) (p_cwd r) (p_name r).
Definition set_p_ofile (x : list (option nat)) (r : proc) : proc :=
  mkProc (p_sz r) (p_pgdir r) (p_kstack r) (p_state r) (p_pid r) (p_parent r) (p_tf r) (p_context r) (p_chan r) (p_killed r) x (p_cwd r) (p_name r).
Definition set_p_cwd (x : option nat) (r : proc) : proc :=
  mkProc (p_sz r) (p_pgdir r) (p_kstack r) (p_state r) (p_pid r) (p_parent r) (p_tf r) (p_context r) (p_chan r) (p_killed r) (p_ofile r) x (p_name r).
Definition set_p_name (x : list Z) (r : proc) : proc :=
  mkProc (p_sz r) (p_pgdir r) (p_kstack r) (p_state r) (p_pid r) (p_parent r) (p_tf r) (p_context r) (p_chan r) (p_killed r) (p_ofile r) (p_cwd r) x.
#[export] Instance proc_inhabited : Inhabited proc := populate (mkProc 0 0 0 UNUSED 0 None inhabitant inhabitant None false (replicate NOFILE None) None (replicate 16 0)).

(** kmem of kalloc.c: the head of the free list, linked through the pages. *)
Record kmemstate := mkKmem {
  km_use_lock : bool;
  km_freelist : Z
}.
Definition set_km_use_lock (x : bool) (r : kmemstate) : kmemstate :=
  mkKmem x (km_freelist r).
Definition set_km_freelist (x : Z) (r : kmemstate) : kmemstate :=
  mkKmem (km_use_lock r) x.
#[export] Instance kmemstate_inhabited : Inhabited kmemstate := populate (mkKmem false 0).

(** The queue of ide.c and the controller: the disk and sector its last command
    selected, whether its status reports an error, the disks, and the writes
    the disks have performed, oldest first. *)
Record idestate := mkIde {
  ide_queue : list nat;
  ide_havedisk1 : bool;
  ide_cmd : option (Z * Z);
  ide_err : bool;
  ide_disk : gmap (Z * Z) block;
  ide_writes : list (Z * Z * block)
}.
Definition set_ide_queue (x : list nat) (r : idestate) : idestate :=
  mkIde x (ide_havedisk1 r) (ide_cmd r) (ide_err r) (ide_disk r) (ide_writes r).
Definition set_ide_havedisk1 (x : bool) (r : idestate) : idestate :=
  mkIde (ide_queue r) x (ide_cmd r) (ide_err r) (ide_disk r) (ide_writes r).
Definition set_ide_cmd (x : option (Z * Z)) (r : idestate) : idestate :=
  mkIde (ide_queue r) (ide_havedisk1 r) x (ide_err r) (ide_disk r) (ide_writes r).
Definition set_ide_err (x : bool) (r : idestate) : idestate :=
  mkIde (ide_queue r) (ide_havedisk1 r) (ide_cmd r) x (ide_disk r) (ide_writes r).
Definition set_ide_disk (x : gmap (Z * Z) block) (r : idestate) : idestate :=
  mkIde (ide_queue r) (ide_havedisk1 r) (ide_cmd r) (ide_err r) x (ide_writes r).
Definition set_ide_writes (x : list (Z * Z * block)) (r : idestate) : idestate :=
  mkIde (ide_queue r) (ide_havedisk1 r) (ide_cmd r) (ide_err r) (ide_disk r) x.
#[export] Instance idestate_inhabited : Inhabited idestate := populate (mkIde [] false None false ∅ []).

(** cons, panicked, input and the screen of console.c, and the bytes sent to the
    serial port, newest first. *)
Record consstate := mkCons {
  cons_locking : bool;
  panicked : bool;
  in_buf : list Z;
  in_r : Z;
  in_w : Z;
  in_e : Z;
  crt : list Z;
  crt_pos : Z;
  uart : bool;
  uart_out : list Z
}.
Definition set_cons_locking (x : bool) (r : consstate) : consstate :=
  mkCons x (panicked r) (in_buf r) (in_r r) (in_w r) (in_e r) (crt r) (crt_pos r) (uart r) (uart_out r).
Definition set_panicked (x : bool) (r : consstate) : consstate :=
  mkCons (cons_locking r) x (in_buf r) (in_r r) (in_w r) (in_e r) (crt r) (crt_pos r) (uart r) (uart_out r).
Definition set_in_buf (x : list Z) (r : consstate) : consstate :=
  mkCons (cons_locking r) (panicked r) x (in_r r) (in_w r) (in_e r) (crt r) (crt_pos r) (uart r) (uart_out r).
Definition set_in_r (x : Z) (r : consstate) : consstate :=
  mkCons (cons_locking r) (panicked r) (in_buf r) x (in_w r) (in_e r) (crt r) (crt_pos r) (uart r) (uart_out r).
Definition set_in_w (x : Z) (r : consstate) : consstate :=
  mkCons (cons_locking r) (panicked r) (in_buf r) (in_r r) x (in_e r) (crt r) (crt_pos r) (uart r) (uart_out r).
Definition set_in_e (x : Z) (r : consstate) : consstate :=
  mkCons (cons_locking r) (panicked r) (in_buf r) (in_r r) (in_w r) x (crt r) (crt_pos r) (uart r) (uart_out r).
Definition set_crt (x : list Z) (r : consstate) : consstate :=
  mkCons (cons_locking r) (panicked r) (in_buf r) (in_r r) (in_w r) (in_e r) x (crt_pos r) (uart r) (uart_out r).
Definition set_crt_pos (x : Z) (r : consstate) : consstate :=
  mkCons (cons_locking r) (panicked r) (in_buf r) (in_r r) (in_w r) (in_e r) (crt r) x (uart r) (uart_out r).
Definition set_uart (x : bool) (r : consstate) : consstate :=
  mkCons (cons_locking r) (panicked r) (in_buf r) (in_r r) (in_w r) (in_e r) (crt r) (crt_pos r) x (uart_out r).
Definition set_uart_out (x : list Z) (r : consstate) : consstate :=
  mkCons (cons_locking r) (panicked r) (in_buf r) (in_r r) (in_w r) (in_e r) (crt r) (crt_pos r) (uart r) x.
#[export] Instance consstate_inhabited : Inhabited consstate := populate (mkCons false false (replicate 128 0) 0 0 0 (replicate 2048 0) 0 false []).

(** The registers and the task state segment switchuvm sets up. *)
Record cpuregs := mkCpu {
  cpu_cr3 : Z;
  cpu_esp0 : Z;
  cpu_ss0 : Z;
  cpu_iomb : Z;
  cpu_kpgdir : Z
}.
Definition set_cpu_cr3 (x : Z) (r : cpuregs) : cpuregs :=
  mkCpu x (cpu_esp0 r) (cpu_ss0 r) (cpu_iomb r) (cpu_kpgdir r).
Definition set_cpu_esp0 (x : Z) (r : cpuregs) : cpuregs :=
  mkCpu (cpu_cr3 r) x (cpu_ss0 r) (cpu_iomb r) (cpu_kpgdir r).
Definition set_cpu_ss0 (x : Z) (r : cpuregs) : cpuregs :=
  mkCpu (cpu_cr3 r) (cpu_esp0 r) x (cpu_iomb r) (cpu_kpgdir r).
Definition set_cpu_iomb (x : Z) (r : cpuregs) : cpuregs :=
  mkCpu (cpu_cr3 r) (cpu_esp0 r) (cpu_ss0 r) x (cpu_kpgdir r).
Definition set_cpu_kpgdir (x : Z) (r : cpuregs) : cpuregs :=
  mkCpu (cpu_cr3 r) (cpu_esp0 r) (cpu_ss0 r) (cpu_iomb r) x.
#[export] Instance cpuregs_inhabited : Inhabited cpuregs := populate (mkCpu 0 0 0 0 0).

(** The functions a device switch entry can hold. *)
Inductive devfn := DevNull | DevConsole.
#[export] Instance devfn_eq_dec : EqDecision devfn.
Proof. solve_decision. Defined.

(** Memory: the byte at each address.  The kernel's own addresses (from
    KERNBASE) map physical memory directly. *)
Definition mem : Type := Z -> Z.

(** ** The kernel's global variables *)

(** The global variables; [k_bcache] holds bcache.buf and, at index [NBUF],
    bcache.head; [k_cur] is the process running on the CPU. *)
Record kernel := mkKernel {
  k_mem : mem;
  k_kmem : kmemstate;
  k_ide : idestate;
  k_bcache : list buf;
  k_log : logstate;
  k_sb : superblock;
  k_icache : list inode;
  k_ftable : list file;
  k_pipes : gmap Z pipe;
  k_ptable : list proc;
  k_nextpid : Z;
  k_initproc : option nat;
  k_cur : option nat;
  k_cons : consstate;
  k_ticks : Z;
  k_devread : list devfn;
  k_devwrite : list devfn;
  k_cpu : cpuregs
}.
Definition set_k_mem (x : mem) (r : kernel) : kernel :=
  mkKernel x (k_kmem r) (k_ide r) (k_bcache r) (k_log r) (k_sb r) (k_icache r) (k_ftable r) (k_pipes r) (k_ptable r) (k_nextpid r) (k_initproc r) (k_cur r) (k_cons r) (k_ticks r) (k_devread r) (k_devwrite r) (k_cpu r).
Definition set_k_kmem (x : kmemstate) (r : kernel) : kernel :=
  mkKernel (k_mem r) x (k_ide r) (k_bcache r) (k_log r) (k_sb r) (k_icache r) (k_ftable r) (k_pipes r) (k_ptable r) (k_nextpid r) (k_initproc r) (k_cur r) (k_cons r) (k_ticks r) (k_devread r) (k_devwrite r) (k_cpu r).
Definition set_k_ide (x : idestate) (r : kernel) : kernel :=
  mkKernel (k_mem r) (k_kmem r) x (k_bcache r) (k_log r) (k_sb r) (k_icache r) (k_ftable r) (k_pipes r) (k_ptable r) (k_nextpid r) (k_initproc r) (k_cur r) (k_cons r) (k_ticks r) (k_devread r) (k_devwrite r) (k_cpu r).
Definition set_k_bcache (x : list buf) (r : kernel) : kernel :=
  mkKernel (k_mem r) (k_kmem r) (k_ide r) x (k_log r) (k_sb r) (k_icache r) (k_ftable r) (k_pipes r) (k_ptable r) (k_nextpid r) (k_initproc r) (k_cur r) (k_cons r) (k_ticks r) (k_devread r) (k_devwrite r) (k_cpu r).
Definition set_k_log (x : logstate) (r : kernel) : kernel :=
  mkKernel (k_mem r) (k_kmem r) (k_ide r) (k_bcache r) x (k_sb r) (k_icache r) (k_ftable r) (k_pipes r) (k_ptable r) (k_nextpid r) (k_initproc r) (k_cur r) (k_cons r) (k_ticks r) (k_devread r) (k_devwrite r) (k_cpu r).
Definition set_k_sb (x : superblock) (r : kernel) : kernel :=
  mkKernel (k_mem r) (k_kmem r) (k_ide r) (k_bcache r) (k_log r) x (k_icache r) (k_ftable r) (k_pipes r) (k_ptable r) (k_nextpid r) (k_initproc r) (k_cur r) (k_cons r) (k_ticks r) (k_devread r) (k_devwrite r) (k_cpu r).
Definition set_k_icache (x : list inode) (r : kernel) : kernel :=
  mkKernel (k_mem r) (k_kmem r) (k_ide r) (k_bcache r) (k_log r) (k_sb r) x (k_ftable r) (k_pipes r) (k_ptable r) (k_nextpid r) (k_initproc r) (k_cur r) (k_cons r) (k_ticks r) (k_devread r) (k_devwrite r) (k_cpu r).
Definition set_k_ftable (x : list file) (r : kernel) : kernel :=
  mkKernel (k_mem r) (k_kmem r) (k_ide r) (k_bcache r) (k_log r) (k_sb r) (k_icache r) x (k_pipes r) (k_ptable r) (k_nextpid r) (k_initproc r) (k_cur r) (k_cons r) (k_ticks r) (k_devread r) (k_devwrite r) (k_cpu r).
Definition set_k_pipes (x : gmap Z pipe) (r : kernel) : kernel :=
  mkKernel (k_mem r) (k_kmem r) (k_ide r) (k_bcache r) (k_log r) (k_sb r) (k_icache r) (k_ftable r) x (k_ptable r) (k_nextpid r) (k_initproc r) (k_cur r) (k_cons r) (k_ticks r) (k_devread r) (k_devwrite r) (k_cpu r).
Definition set_k_ptable (x : list proc) (r : kernel) : kernel :=
  mkKernel (k_mem r) (k_kmem r) (k_ide r) (k_bcache r) (k_log r) (k_sb r) (k_icache r) (k_ftable r) (k_pipes r) x (k_nextpid r) (k_initproc r) (k_cur r) (k_cons r) (k_ticks r) (k_devread r) (k_devwrite r) (k_cpu r).
Definition set_k_nextpid (x : Z) (r : kernel) : kernel :=
  mkKernel (k_mem r) (k_kmem r) (k_ide r) (k_bcache r) (k_log r) (k_sb r) (k_icache r) (k_ftable r) (k_pipes r) (k_ptable r) x (k_initproc r) (k_cur r) (k_cons r) (k_ticks r) (k_devread r) (k_devwrite r) (k_cpu r).
Definition set_k_initproc (x : option nat) (r : kernel) : kernel :=
  mkKernel (k_mem r) (k_kmem r) (k_ide r) (k_bcache r) (k_log r) (k_sb r) (k_icache r) (k_ftable r) (k_pipes r) (k_ptable r) (k_nextpid r) x (k_cur r) (k_cons r) (k_ticks r) (k_devread r) (k_devwrite r) (k_cpu r).
Definition set_k_cur (x : option nat) (r : kernel) : kernel :=
  mkKernel (k_mem r) (k_kmem r) (k_ide r) (k_bcache r) (k_log r) (k_sb r) (k_icache r) (k_ftable r) (k_pipes r) (k_ptable r) (k_nextpid r) (k_initproc r) x (k_cons r) (k_ticks r) (k_devread r) (k_devwrite r) (k_cpu r).
Definition set_k_cons (x : consstate) (r : kernel) : kernel :=
  mkKernel (k_mem r) (k_kmem r) (k_ide r) (k_bcache r) (k_log r) (k_sb r) (k_icache r) (k_ftable r) (k_pipes r) (k_ptable r) (k_nextpid r) (k_initproc r) (k_cur r) x (k_ticks r) (k_devread r) (k_devwrite r) (k_cpu r).
Definition set_k_ticks (x : Z) (r : kernel) : kernel :=
  mkKernel (k_mem r) (k_kmem r) (k_ide r) (k_bcache r) (k_log r) (k_sb r) (k_icache r) (k_ftable r) (k_pipes r) (k_ptable r) (k_nextpid r) (k_initproc r) (k_cur r) (k_cons r) x (k_devread r) (k_devwrite r) (k_cpu r).
Definition set_k_devread (x : list devfn) (r : kernel) : kernel :=
  mkKernel (k_mem r) (k_kmem r) (k_ide r) (k_bcache r) (k_log r) (k_sb r) (k_icache r) (k_ftable r) (k_pipes r) (k_ptable r) (k_nextpid r) (k_initproc r) (k_cur r) (k_cons r) (k_ticks r) x (k_devwrite r) (k_cpu r).
Definition set_k_devwrite (x : list devfn) (r : kernel) : kernel :=
  mkKernel (k_mem r) (k_kmem r) (k_ide r) (k_bcache r) (k_log r) (k_sb r) (k_icache r) (k_ftable r) (k_pipes r) (k_ptable r) (k_nextpid r) (k_initproc r) (k_cur r) (k_cons r) (k_ticks r) (k_devread r) x (k_cpu r).
Definition set_k_cpu (x : cpuregs) (r : kernel) : kernel :=
  mkKernel (k_mem r) (k_kmem r) (k_ide r) (k_bcache r) (k_log r) (k_sb r) (k_icache r) (k_ftable r) (k_pipes r) (k_ptable r) (k_nextpid r) (k_initproc r) (k_cur r) (k_cons r) (k_ticks r) (k_devread r) (k_devwrite r) x.
#[export] Instance kernel_inhabited : Inhabited kernel := populate (mkKernel (fun _ => 0) inhabitant inhabitant (replicate 31 inhabitant) inhabitant inhabitant (replicate NINODE inhabitant) (replicate NFILE inhabitant) ∅ (replicate NPROC inhabitant) 1 None None inhabitant 0 (replicate 10 DevNull) (replicate 10 DevNull) inhabitant).

(** Kernel code. *)
Abbreviation kM := (M kernel).

(** The index of bcache.head. *)
Definition HEAD : nat := NBUF.

(** Reading and updating one element of a table. *)
Definition get_buf (b : nat) : kM buf := gets (fun s => k_bcache s !!! b).
Definition upd_buf (b : nat) (f : buf -> buf) : kM unit :=
  modify (fun s => set_k_bcache (alter f b (k_bcache s)) s).
Definition get_inode (i : nat) : kM inode := gets (fun s => k_icache s !!! i).
Definition upd_inode (i : nat) (f : inode -> inode) : kM unit :=
  modify (fun s => set_k_icache (alter f i (k_icache s)) s).
Definition get_file (f : nat) : kM file := gets (fun s => k_ftable s !!! f).
Definition upd_file (i : nat) (f : file -> file) : kM unit :=
  modify (fun s => set_k_ftable (alter f i (k_ftable s)) s).
Definition get_proc (p : nat) : kM proc := gets (fun s => k_ptable s !!! p).
Definition upd_proc (i : nat) (f : proc -> proc) : kM unit :=
  modify (fun s => set_k_ptable (alter f i (k_ptable s)) s).

(** A disk block; a block never written reads as zeroes. *)
Definition dget (d : gmap (Z * Z) block) (dev blockno : Z) : block :=
  default zero_block (d !! (dev, blockno)).

(** Evaluates projections of updated records. *)
Ltac ksimpl := cbn [sl_locked sl_pid set_sl_locked set_sl_pid b_flags b_dev b_blockno b_lock b_refcnt b_prev b_next b_data set_b_flags set_b_dev set_b_blockno set_b_lock set_b_refcnt set_b_prev set_b_next set_b_data sb_size sb_nblocks sb_ninodes sb_nlog sb_logstart sb_inodestart sb_bmapstart set_sb_size set_sb_nblocks set_sb_ninodes set_sb_nlog set_sb_logstart set_sb_inodestart set_sb_bmapstart di_type di_major di_minor di_nlink di_size di_addrs set_di_type set_di_major set_di_minor set_di_nlink set_di_size set_di_addrs i_dev i_inum i_ref i_lock i_valid i_type i_major i_minor i_nlink i_size i_addrs set_i_dev set_i_inum set_i_ref set_i_lock set_i_valid set_i_type set_i_major set_i_minor set_i_nlink set_i_size set_i_addrs l_start l_size l_outstanding l_committing l_dev lh_n lh_block set_l_start set_l_size set_l_outstanding set_l_committing set_l_dev set_lh_n set_lh_block f_type f_ref f_readable f_writable f_pipe f_ip f_off set_f_type set_f_ref set_f_readable set_f_writable set_f_pipe set_f_ip set_f_off p_data p_nread p_nwrite p_readopen p_writeopen set_p_data set_p_nread set_p_nwrite set_p_readopen set_p_writeopen tf_edi tf_esi tf_ebp tf_oesp tf_ebx tf_edx tf_ecx tf_eax tf_gs tf_fs tf_es tf_ds tf_trapno tf_err tf_eip tf_cs tf_eflags tf_esp tf_ss set_tf_edi set_tf_esi set_tf_ebp set_tf_oesp set_tf_ebx set_tf_edx set_tf_ecx set_tf_eax set_tf_gs set_tf_fs set_tf_es set_tf_ds set_tf_trapno set_tf_err set_tf_eip set_tf_cs set_tf_eflags set_tf_esp set_tf_ss ctx_edi ctx_esi ctx_ebx ctx_ebp ctx_eip set_ctx_edi set_ctx_esi set_ctx_ebx set_ctx_ebp set_ctx_eip p_sz p_pgdir p_kstack p_state p_pid p_parent p_tf p_context p_chan p_killed p_ofile p_cwd p_name set_p_sz set_p_pgdir set_p_kstack set_p_state set_p_pid set_p_parent set_p_tf set_p_context set_p_chan set_p_killed set_p_ofile set_p_cwd set_p_name km_use_lock km_freelist set_km_use_lock set_km_freelist ide_queue ide_havedisk1 ide_cmd ide_err ide_disk ide_writes set_ide_queue set_ide_havedisk1 set_ide_cmd set_ide_err set_ide_disk set_ide_writes cons_locking panicked in_buf in_r in_w in_e crt crt_pos uart uart_out set_cons_locking set_panicked set_in_buf set_in_r set_in_w set_in_e set_crt set_crt_pos set_uart set_uart_out cpu_cr3 cpu_esp0 cpu_ss0 cpu_iomb cpu_kpgdir set_cpu_cr3 set_cpu_esp0 set_cpu_ss0 set_cpu_iomb set_cpu_kpgdir k_mem k_kmem k_ide k_bcache k_log k_sb k_icache k_ftable k_pipes k_ptable k_nextpid k_initproc k_cur k_cons k_ticks k_devread k_devwrite k_cpu set_k_mem set_k_kmem set_k_ide set_k_bcache set_k_log set_k_sb set_k_icache set_k_ftable set_k_pipes set_k_ptable set_k_nextpid set_k_initproc set_k_cur set_k_cons set_k_ticks set_k_devread set_k_devwrite set_k_cpu].
Tactic Notation "ksimpl" "in" hyp(H) := cbn [sl_locked sl_pid set_sl_locked set_sl_pid b_flags b_dev b_blockno b_lock b_refcnt b_prev b_next b_data set_b_flags set_b_dev set_b_blockno set_b_lock set_b_refcnt set_b_prev set_b_next set_b_data sb_size sb_nblocks sb_ninodes sb_nlog sb_logstart sb_inodestart sb_bmapstart set_sb_size set_sb_nblocks set_sb_ninodes set_sb_nlog set_sb_logstart set_sb_inodestart set_sb_bmapstart di_type di_major di_minor di_nlink di_size di_addrs set_di_type set_di_major set_di_minor set_di_nlink set_di_size set_di_addrs i_dev i_inum i_ref i_lock i_valid i_type i_major i_minor i_nlink i_size i_addrs set_i_dev set_i_inum set_i_ref set_i_lock set_i_valid set_i_type set_i_major set_i_minor set_i_nlink set_i_size set_i_addrs l_start l_size l_outstanding l_committing l_dev lh_n lh_block set_l_start set_l_size set_l_outstanding set_l_committing set_l_dev set_lh_n set_lh_block f_type f_ref f_readable f_writable f_pipe f_ip f_off set_f_type set_f_ref set_f_readable set_f_writable set_f_pipe set_f_ip set_f_off p_data p_nread p_nwrite p_readopen p_writeopen set_p_data set_p_nread set_p_nwrite set_p_readopen set_p_writeopen tf_edi tf_esi tf_ebp tf_oesp tf_ebx tf_edx tf_ecx tf_eax tf_gs tf_fs tf_es tf_ds tf_trapno tf_err tf_eip tf_cs tf_eflags tf_esp tf_ss set_tf_edi set_tf_esi set_tf_ebp set_tf_oesp set_tf_ebx set_tf_edx set_tf_ecx set_tf_eax set_tf_gs set_tf_fs set_tf_es set_tf_ds set_tf_trapno set_tf_err set_tf_eip set_tf_cs set_tf_eflags set_tf_esp set_tf_ss ctx_edi ctx_esi ctx_ebx ctx_ebp ctx_eip set_ctx_edi set_ctx_esi set_ctx_ebx set_ctx_ebp set_ctx_eip p_sz p_pgdir p_kstack p_state p_pid p_parent p_tf p_context p_chan p_killed p_ofile p_cwd p_name set_p_sz set_p_pgdir set_p_kstack set_p_state set_p_pid set_p_parent set_p_tf set_p_context set_p_chan set_p_killed set_p_ofile set_p_cwd set_p_name km_use_lock km_freelist set_km_use_lock set_km_freelist ide_queue ide_havedisk1 ide_cmd ide_err ide_disk ide_writes set_ide_queue set_ide_havedisk1 set_ide_cmd set_ide_err set_ide_disk set_ide_writes cons_locking panicked in_buf in_r in_w in_e crt crt_pos uart uart_out set_cons_locking set_panicked set_in_buf set_in_r set_in_w set_in_e set_crt set_crt_pos set_uart set_uart_out cpu_cr3 cpu_esp0 cpu_ss0 cpu_iomb cpu_kpgdir set_cpu_cr3 set_cpu_esp0 set_cpu_ss0 set_cpu_iomb set_cpu_kpgdir k_mem k_kmem k_ide k_bcache k_log k_sb k_icache k_ftable k_pipes k_ptable k_nextpid k_initproc k_cur k_cons k_ticks k_devread k_devwrite k_cpu set_k_mem set_k_kmem set_k_ide set_k_bcache set_k_log set_k_sb set_k_icache set_k_ftable set_k_pipes set_k_ptable set_k_nextpid set_k_initproc set_k_cur set_k_cons set_k_ticks set_k_devread set_k_devwrite set_k_cpu] in H.
