(* ===== verification/CString.v ===== *)
(** * string.c: memory and string routines

    The routines that write memory ([memset], [memmove]) are functions on
    [mem].  The ones that read strings take a pointer as the function from an
    offset to the byte there ([ptr_mem], [ptr_list]); the ones that fill a
    string ([strncpy], [safestrcpy]) give the bytes they store, in order. *)

From S2P Require Import Prelude State.
Open Scope Z_scope.

(** ** Memory *)

Definition st8 (m : mem) (a v : Z) : mem := fun x => if x =? a then v else m x.

Definition load32 (m : mem) (a : Z) : Z := le_dec [m a; m (a + 1); m (a + 2); m (a + 3)].

(** A list of bytes stored from address [a] on. *)
Definition store_bytes (m : mem) (a : Z) (l : list Z) : mem :=
  fun x => if (a <=? x) && (x <? a + Z.of_nat (length l)) then nthz l (x - a) else m x.

Definition store32 (m : mem) (a v : Z) : mem := store_bytes m a (enc32 v).

Definition load_bytes (m : mem) (a : Z) (n : nat) : list Z :=
  (fun i : nat => m (a + Z.of_nat i)) <$> seq 0 n.

(** x86.h stosb and stosl: [rep stos] stores the low byte, respectively the
    word, of its operand [cnt] times. *)
Definition stosb (m : mem) (addr data cnt : Z) : mem :=
  fun x => if (addr <=? x) && (x <? addr + cnt) then u8 data else m x.

Definition stosl (m : mem) (addr data cnt : Z) : mem :=
  fun x => if (addr <=? x) && (x <? addr + 4 * cnt)
           then nthz (enc32 data) ((x - addr) mod 4) else m x.

Definition memset (m : mem) (dst c n : Z) : mem :=
  if (Z.rem (i32 dst) 4 =? 0) && (n mod 4 =? 0) then
    let c := Z.land c 255 in
    stosl m dst (Z.lor (Z.lor (Z.lor (Z.shiftl c 24) (Z.shiftl c 16)) (Z.shiftl c 8)) c) (n / 4)
  else stosb m dst c n.

Fixpoint copy_up (m : mem) (d s : Z) (n : nat) : mem :=
  match n with
  | O => m
  | S n' => copy_up (st8 m d (m s)) (d + 1) (s + 1) n'
  end.

Fixpoint copy_down (m : mem) (d s : Z) (n : nat) : mem :=
  match n with
  | O => m
  | S n' => copy_down (st8 m (d - 1) (m (s - 1))) (d - 1) (s - 1) n'
  end.

Definition memmove (m : mem) (dst src n : Z) : mem :=
  if (src <? dst) && (src + n >? dst)
  then copy_down m (dst + n) (src + n) (Z.to_nat n)
  else copy_up m dst src (Z.to_nat n).

(** ** Strings *)

Definition ptr_mem (m : mem) (a : Z) : Z -> Z := fun i => m (a + i).
(** A char array, or a string whose terminating NUL is left out. *)
Definition ptr_list (l : list Z) : Z -> Z := fun i => nthz l i.

Fixpoint memcmp_from (s1 s2 : Z -> Z) (i : Z) (n : nat) : Z :=
  match n with
  | O => 0
  | S n' => if s1 i =? s2 i then memcmp_from s1 s2 (i + 1) n' else s1 i - s2 i
  end.
Definition memcmp (s1 s2 : Z -> Z) (n : nat) : Z := memcmp_from s1 s2 0 n.

Fixpoint strncmp_from (p q : Z -> Z) (i : Z) (n : nat) : Z :=
  match n with
  | O => 0
  | S n' => if negb (p i =? 0) && (p i =? q i) then strncmp_from p q (i + 1) n'
            else u8 (p i) - u8 (q i)
  end.
Definition strncmp (p q : Z -> Z) (n : nat) : Z := strncmp_from p q 0 n.

(** The first loop copies up to and including the NUL, the second pads. *)
Fixpoint strncpy_from (t : Z -> Z) (i : Z) (n : nat) : list Z :=
  match n with
  | O => []
  | S n' => if t i =? 0 then 0 :: replicate n' 0 else t i :: strncpy_from t (i + 1) n'
  end.
Definition strncpy (t : Z -> Z) (n : nat) : list Z := strncpy_from t 0 n.

Fixpoint safestrcpy_from (t : Z -> Z) (i : Z) (n : nat) : list Z :=
  match n with
  | O => [0]
  | S n' => if t i =? 0 then [0; 0] else t i :: safestrcpy_from t (i + 1) n'
  end.
(** [n <= 0] stores nothing; the loop copies at most [n - 1] bytes. *)
Definition safestrcpy (t : Z -> Z) (n : nat) : list Z :=
  match n with O => [] | S n' => safestrcpy_from t 0 n' end.

Fixpoint strlen_from (s : Z -> Z) (n : Z) (fuel : nat) : option Z :=
  match fuel with
  | O => None
  | S f => if s n =? 0 then Some n else strlen_from s (n + 1) f
  end.
Definition strlen (s : Z -> Z) (fuel : nat) : option Z := strlen_from s 0 fuel.

(** ** Memory: lemmas *)

Lemma copy_up_spec n : forall m d s x,
  d <= s \/ s + Z.of_nat n <= d ->
  copy_up m d s n x =
    if (d <=? x) && (x <? d + Z.of_nat n) then m (s + (x - d)) else m x.
Proof.
  induction n as [|n IH]; intros m d s x H; cbn [copy_up].
  { zcases. }
  rewrite IH by lia. unfold st8. zcases; f_equal; lia.
Qed.

Lemma copy_down_spec n : forall m d s x,
  s <= d ->
  copy_down m d s n x =
    if (d - Z.of_nat n <=? x) && (x <? d) then m (s + (x - d)) else m x.
Proof.
  induction n as [|n IH]; intros m d s x H; cbn [copy_down].
  { zcases. }
  rewrite IH by lia. unfold st8. zcases; f_equal; lia.
Qed.

Lemma memmove_spec m dst src n x :
  0 <= n ->
  memmove m dst src n x =
    if (dst <=? x) && (x <? dst + n) then m (src + (x - dst)) else m x.
Proof.
  intros Hn. unfold memmove.
  destruct ((src <? dst) && (src + n >? dst)) eqn:E.
  - apply andb_true_iff in E as [E1 E2]. apply Z.ltb_lt in E1.
    rewrite copy_down_spec by lia. rewrite Z2Nat.id by lia.
    replace (dst + n - n) with dst by lia. case_match; [f_equal; lia|done].
  - rewrite copy_up_spec; rewrite Z2Nat.id by lia; [done|].
    apply andb_false_iff in E as [E|E]; [apply Z.ltb_ge in E; lia|].
    rewrite Z.gtb_ltb in E. apply Z.ltb_ge in E. lia.
Qed.

(** The word the fast path stores has the byte [c] four times. *)
Lemma memset_word c :
  0 <= c < 256 ->
  enc32 (Z.lor (Z.lor (Z.lor (Z.shiftl c 24) (Z.shiftl c 16)) (Z.shiftl c 8)) c) = [c; c; c; c].
Proof.
  intros Hc.
  assert (Hall : forallb (fun k => bool_decide
    (enc32 (Z.lor (Z.lor (Z.lor (Z.shiftl k 24) (Z.shiftl k 16)) (Z.shiftl k 8)) k) = [k; k; k; k]))
    (Z.of_nat <$> seq 0 256) = true) by (vm_compute; reflexivity).
  rewrite forallb_forall in Hall.
  specialize (Hall c). rewrite bool_decide_eq_true in Hall. apply Hall.
  apply list_elem_of_In, list_elem_of_fmap. exists (Z.to_nat c).
  split; [lia|]. apply elem_of_seq. lia.
Qed.

Lemma memset_spec m dst c n x :
  0 <= n ->
  memset m dst c n x = if (dst <=? x) && (x <? dst + n) then u8 c else m x.
Proof.
  intros Hn. unfold memset. destruct (_ && _) eqn:E; [|done].
  apply andb_true_iff in E as [_ E]. apply Z.eqb_eq in E.
  change 255 with (Z.ones 8). rewrite (Z.land_ones c 8) by lia.
  change (c mod 2 ^ 8) with (u8 c).
  unfold stosl. rewrite memset_word by zlia.
  replace (4 * (n / 4)) with n by zlia. case_match; [|done].
  unfold nthz. assert (0 <= (x - dst) mod 4 < 4) by zlia.
  by destruct (Z.to_nat ((x - dst) mod 4)) as [|[|[|[|?]]]] eqn:?; try lia.
Qed.

Lemma load_store32 m a v : load32 (store32 m a v) a = u32 v.
Proof.
  unfold load32, store32, store_bytes.
  assert (Hl : length (enc32 v) = 4%nat) by apply length_le_enc. rewrite Hl.
  rewrite <- dec_enc32.
  replace (a - a) with 0 by lia. replace (a + 1 - a) with 1 by lia.
  replace (a + 2 - a) with 2 by lia. replace (a + 3 - a) with 3 by lia.
  zcases.
Qed.

Lemma load_store32_ne m a b v : b + 4 <= a \/ a + 4 <= b -> load32 (store32 m a v) b = load32 m b.
Proof.
  intros H. unfold load32, store32, store_bytes.
  assert (Hl : length (enc32 v) = 4%nat) by apply length_le_enc. rewrite Hl.
  zcases.
Qed.

(** Two memories agree on a range. *)
Definition mem_eq_on (m m' : mem) (a n : Z) : Prop := forall x, a <= x < a + n -> m x = m' x.

Lemma load32_eq_on m m' a : mem_eq_on m m' a 4 -> load32 m a = load32 m' a.
Proof. intros H. unfold load32. by rewrite !H by lia. Qed.

(** ** Strings: lemmas *)

(** The string at [p], cut off after [n] bytes. *)
Fixpoint cstr_from (p : Z -> Z) (i : Z) (n : nat) : list Z :=
  match n with
  | O => []
  | S n' => if p i =? 0 then [] else p i :: cstr_from p (i + 1) n'
  end.
Definition cstr (p : Z -> Z) (n : nat) : list Z := cstr_from p 0 n.

Definition ptr_bytes (p : Z -> Z) : Prop := forall i, is_byte (p i).

Lemma strncmp_from_eq p q n : ptr_bytes p -> ptr_bytes q -> forall i,
  strncmp_from p q i n = 0 <-> cstr_from p i n = cstr_from q i n.
Proof.
  intros Hp Hq. induction n as [|n IH]; intros i; cbn [strncmp_from cstr_from]; [done|].
  pose proof (Hp i). pose proof (Hq i). unfold is_byte in *.
  destruct (Z.eqb_spec (p i) 0); destruct (Z.eqb_spec (p i) (q i)); simpl.
  - rewrite (proj2 (Z.eqb_eq (q i) 0)) by lia. split; [done|]. zlia.
  - destruct (Z.eqb_spec (q i) 0); [lia|]. split; [zlia|discriminate].
  - rewrite IH. rewrite (proj2 (Z.eqb_neq (q i) 0)) by lia.
    split; [by intros ->; f_equal|]. by injection 1.
  - split; [zlia|]. destruct (Z.eqb_spec (q i) 0); [discriminate|]. injection 1; lia.
Qed.

Lemma length_strncpy_from t n : forall i, length (strncpy_from t i n) = n.
Proof.
  induction n; intros; cbn [strncpy_from]; [done|]. case_match; simpl.
  - by rewrite length_replicate.
  - by rewrite IHn.
Qed.

Lemma length_strncpy t n : length (strncpy t n) = n.
Proof. apply length_strncpy_from. Qed.

Lemma ptr_list_mid pre x l k :
  Z.of_nat (length pre) = k -> ptr_list (pre ++ x :: l) k = x.
Proof.
  intros H. unfold ptr_list, nthz.
  rewrite list_lookup_total_alt, lookup_app_r by lia.
  by replace (Z.to_nat k - length pre)%nat with O by lia.
Qed.

(** Reading back what [strncpy] stored gives the string, cut off after [n] bytes. *)
Lemma cstr_strncpy_from t n : forall i k pre,
  Z.of_nat (length pre) = k ->
  cstr_from (ptr_list (pre ++ strncpy_from t i n)) k n = cstr_from t i n.
Proof.
  induction n as [|n IH]; intros i k pre Hk; cbn [cstr_from strncpy_from]; [done|].
  destruct (Z.eqb_spec (t i) 0) as [E|E]; rewrite ptr_list_mid by done; [done|].
  rewrite (proj2 (Z.eqb_neq _ _) E). f_equal.
  rewrite cons_middle, app_assoc. apply IH. rewrite length_app. simpl. lia.
Qed.

Lemma cstr_strncpy t n : cstr (ptr_list (strncpy t n)) n = cstr t n.
Proof. apply (cstr_strncpy_from t n 0 0 []). done. Qed.

Lemma ptr_list_bytes l : bytes l -> ptr_bytes (ptr_list l).
Proof.
  intros H i. unfold ptr_list, nthz. rewrite list_lookup_total_alt.
  destruct (l !! Z.to_nat i) eqn:E; simpl; [|by split].
  by eapply Forall_lookup in H.
Qed.

Lemma bytes_strncpy_from t n : ptr_bytes t -> forall i, bytes (strncpy_from t i n).
Proof.
  intros Ht. induction n; intros; cbn [strncpy_from]; [constructor|].
  case_match.
  - constructor; [by split|]. by apply bytes_replicate.
  - constructor; [apply Ht|apply IHn].
Qed.

Lemma safestrcpy_from_length t n : forall i, (length (safestrcpy_from t i n) <= S n)%nat.
Proof.
  induction n; intros; cbn [safestrcpy_from]; [simpl; lia|].
  case_match; simpl; [lia|]. specialize (IHn (i + 1)). lia.
Qed.

Lemma safestrcpy_from_read t n : forall i k pre l,
  Z.of_nat (length pre) = k ->
  cstr_from (ptr_list (pre ++ safestrcpy_from t i n ++ l)) k (S n) = cstr_from t i n.
Proof.
  induction n as [|n IH]; intros i k pre l Hk; cbn [safestrcpy_from].
  { cbn [cstr_from app]. by rewrite ptr_list_mid. }
  remember (S n) as N eqn:HN. cbn [cstr_from]. subst N. cbn [cstr_from].
  destruct (Z.eqb_spec (t i) 0) as [E|E]; cbn [app]; rewrite ptr_list_mid by done; [done|].
  rewrite (proj2 (Z.eqb_neq _ _) E). f_equal.
  rewrite (cons_middle (t i) pre), app_assoc.
  apply (IH (i + 1) (k + 1) (pre ++ [t i]) l). rewrite length_app. simpl. lia.
Qed.

#[global] Arguments load32 : simpl never.
#[global] Arguments store32 : simpl never.
#[global] Arguments store_bytes : simpl never.
#[global] Arguments memset : simpl never.
#[global] Arguments memmove : simpl never.
