(* ===== verification/Sleep.v ===== *)
(** * Sleeping and waking, and the sleep locks (proc.c, sleeplock.c)

    [sleep] leaves the process SLEEPING on its channel and gives up the CPU
    (outcome [Sleeps]); [wakeup] makes every sleeper of a channel RUNNABLE.
    The sleep locks of the buffers and of the inodes are the instances of one
    set of operations, over a structure [lockref] that says where the lock is
    and which channel its waiters sleep on. *)

From S2P Require Import Prelude State.
Open Scope Z_scope.

(** ** proc.c *)

(** myproc, where the caller dereferences the result. *)
Definition myproc : kM nat := fun s =>
  match k_cur s with Some p => Ok p s | None => Fault "myproc: no process" end.

Definition wakeup1_proc (c : chan) (p : proc) : proc :=
  if bool_decide (p_state p = SLEEPING /\ p_chan p = Some c) then set_p_state RUNNABLE p else p.

Definition wakeup1 (c : chan) : kM unit :=
  modify (fun s => set_k_ptable (wakeup1_proc c <$> k_ptable s) s).

Definition wakeup (c : chan) : kM unit := wakeup1 c.

(** sleep, up to the call of sched. *)
Definition sleep {A} (c : chan) : kM A :=
  cur ← gets k_cur;
  match cur with
  | None => panic "sleep"
  | Some p => upd_proc p (fun q => set_p_state SLEEPING (set_p_chan (Some c) q));; sleep_on c
  end.

(** ** sleeplock.c *)

Record lockref := mkLockref {
  lk_get : kernel -> sleeplock;
  lk_set : sleeplock -> kernel -> kernel;
  lk_chan : chan
}.

Definition buf_lock (b : nat) : lockref := mkLockref
  (fun s => b_lock (k_bcache s !!! b))
  (fun l s => set_k_bcache (alter (set_b_lock l) b (k_bcache s)) s)
  (ChBufLock b).

Definition inode_lock (i : nat) : lockref := mkLockref
  (fun s => i_lock (k_icache s !!! i))
  (fun l s => set_k_icache (alter (set_i_lock l) i (k_icache s)) s)
  (ChInodeLock i).

Definition acquiresleep (lk : lockref) : kM unit :=
  l ← gets (lk_get lk);
  if sl_locked l then sleep (lk_chan lk)
  else
    p ← myproc;
    q ← get_proc p;
    modify (lk_set lk (mkSleeplock true (p_pid q))).

Definition releasesleep (lk : lockref) : kM unit :=
  modify (lk_set lk (mkSleeplock false 0));;
  wakeup (lk_chan lk).

Definition holdingsleep (lk : lockref) : kM bool :=
  l ← gets (lk_get lk);
  if sl_locked l then
    p ← myproc;
    q ← get_proc p;
    mret (sl_pid l =? p_pid q)
  else mret false.

(** ** Process tables that differ by wakeups *)

(** [pt'] is [pt] after some wakeups: only sleeping processes may have become
    runnable. *)
Definition woken1 (p p' : proc) : Prop :=
  p' = p \/ (p_state p = SLEEPING /\ p' = set_p_state RUNNABLE p).
Definition woken (pt pt' : list proc) : Prop := Forall2 woken1 pt pt'.

#[export] Instance woken_refl : Reflexive woken.
Proof. intros l. unfold woken. induction l; constructor; [by left|done]. Qed.

#[export] Instance woken_trans : Transitive woken.
Proof.
  intros l1 l2 l3 H12 H23. unfold woken in *. revert l3 H23.
  induction H12 as [|p p' l l' Hp _ IH]; intros l3 H; inversion H as [|? p'' ? ? Hp' Hl]; subst;
    constructor; [|by apply IH].
  destruct Hp as [->|[Hs ->]]; [done|]. right. destruct Hp' as [->|[Hs' ->]]; [done|].
  by destruct p.
Qed.

Lemma woken_wakeup1 c pt : woken pt (wakeup1_proc c <$> pt).
Proof.
  unfold woken. induction pt; simpl; constructor; [|done].
  unfold wakeup1_proc. case_bool_decide; [right|left]; naive_solver.
Qed.

Lemma woken_lookup pt pt' i : woken pt pt' -> woken1 (pt !!! i) (pt' !!! i).
Proof.
  intros H. rewrite !list_lookup_total_alt.
  pose proof (Forall2_lookup_l _ _ _ i (pt !!! i) H) as Hl.
  destruct (pt !! i) as [p|] eqn:E.
  - destruct (Forall2_lookup_l _ _ _ i p H E) as (p' & -> & ?). done.
  - apply Forall2_length in H. apply lookup_ge_None in E.
    rewrite (proj2 (lookup_ge_None pt' i)) by lia. by left.
Qed.

Lemma woken_pid pt pt' i : woken pt pt' -> p_pid (pt' !!! i) = p_pid (pt !!! i).
Proof. intros H. by destruct (woken_lookup _ _ i H) as [->|[_ ->]]. Qed.

Lemma woken_cwd pt pt' i : woken pt pt' -> p_cwd (pt' !!! i) = p_cwd (pt !!! i).
Proof. intros H. by destruct (woken_lookup _ _ i H) as [->|[_ ->]]. Qed.
