(* ===== verification/Spinlock.v ===== *)
(** * Spin locks: spinlock.c

    The other files run a critical section as one operation.  Here are the
    locks that make it so: several processors that interleave their accesses
    to the words of the locks, one access per step, with the interrupt state
    of each.  A step of [cpu_step] is one load, store or exchange of a shared
    word together with the processor-local code around it (the fences make
    the accesses sequentially consistent).  Between the calls a processor may
    call acquire or release for any lock, be interrupted or return from an
    interrupt, and come back from sched with another saved interrupt flag. *)

From S2P Require Import Prelude State.
From stdpp Require Import functions.
Open Scope Z_scope.

(** ** The locks and the processors *)

Record spinlock := mkSpin { locked : Z; lk_cpu : option nat }.

Definition initlock : spinlock := mkSpin 0 None.

(** Where a processor is in acquire or release. *)
Inductive pc :=
| Idle
| AcqHolding (l : nat)
| AcqSpin (l : nat)
| AcqSet (l : nat)
| RelHolding (l : nat)
| RelClear (l : nat)
| RelUnlock (l : nat)
| PanicAcquire (l : nat)
| PanicRelease (l : nat)
| PanicPopcli.

(** [c_if] is FL_IF of the eflags register; [c_held] are the locks whose
    acquire has returned and whose release has not. *)
Record cpu := mkCpu { ncli : Z; intena : bool; c_if : bool; c_pc : pc; c_held : list nat }.

Definition set_pc (p : pc) (c : cpu) : cpu := mkCpu (ncli c) (intena c) (c_if c) p (c_held c).
Definition set_if (b : bool) (c : cpu) : cpu := mkCpu (ncli c) (intena c) b (c_pc c) (c_held c).
Definition set_intena (b : bool) (c : cpu) : cpu := mkCpu (ncli c) b (c_if c) (c_pc c) (c_held c).
Definition set_held (h : list nat) (c : cpu) : cpu := mkCpu (ncli c) (intena c) (c_if c) (c_pc c) h.

Definition pushcli (c : cpu) : cpu :=
  mkCpu (ncli c + 1) (if ncli c =? 0 then c_if c else intena c) false (c_pc c) (c_held c).

(** Both panics of popcli are [None]. *)
Definition popcli (c : cpu) : option cpu :=
  if c_if c then None
  else if ncli c - 1 <? 0 then None
  else Some (mkCpu (ncli c - 1) (intena c) ((ncli c - 1 =? 0) && intena c) (c_pc c) (c_held c)).

Definition popcli_to (p : pc) (c : cpu) : cpu :=
  match popcli c with Some c' => set_pc p c' | None => set_pc PanicPopcli c end.

Record machine := mkMachine { m_lock : nat -> spinlock; m_cpu : nat -> cpu }.

(** ** One step of processor [i] *)

Inductive act :=
| Acquire (l : nat)
| Release (l : nat)
| Interrupts (b : bool)
| Resume (b : bool)
| Run.

(** The call of acquire and the load of [locked] by its holding. *)
Definition acquire_call (l : nat) (k : spinlock) (c : cpu) : cpu :=
  let c := pushcli (pushcli c) in
  if locked k =? 0 then popcli_to (AcqSpin l) c else set_pc (AcqHolding l) c.

Definition release_call (l : nat) (k : spinlock) (c : cpu) : cpu :=
  let c := pushcli c in
  if locked k =? 0 then popcli_to (PanicRelease l) c else set_pc (RelHolding l) c.

(** The load of [lk->cpu] by holding, whose outcome selects where to go on. *)
Definition holding_cpu (i : nat) (k : spinlock) (yes no : pc) (c : cpu) : cpu :=
  popcli_to (if bool_decide (lk_cpu k = Some i) then yes else no) c.

(** The step inside acquire or release: the lock and the processor after. *)
Definition run_step (i : nat) (k : spinlock) (c : cpu) : spinlock * cpu :=
  match c_pc c with
  | AcqHolding l => (k, holding_cpu i k (PanicAcquire l) (AcqSpin l) c)
  | AcqSpin l => (mkSpin 1 (lk_cpu k), set_pc (if locked k =? 0 then AcqSet l else AcqSpin l) c)
  | AcqSet l => (mkSpin (locked k) (Some i), set_held (l :: c_held c) (set_pc Idle c))
  | RelHolding l => (k, holding_cpu i k (RelClear l) (PanicRelease l) c)
  | RelClear l => (mkSpin (locked k) None, set_pc (RelUnlock l) c)
  | RelUnlock l =>
    (mkSpin 0 (lk_cpu k),
     popcli_to Idle (set_held (filter (fun x => x <> l) (c_held c)) c))
  | Idle | PanicAcquire _ | PanicRelease _ | PanicPopcli => (k, c)
  end.

Definition pc_lock (p : pc) : option nat :=
  match p with
  | AcqHolding l | AcqSpin l | AcqSet l | RelHolding l | RelClear l | RelUnlock l => Some l
  | _ => None
  end.

Definition is_idle (p : pc) : bool := match p with Idle => true | _ => false end.

Definition with_cpu (i : nat) (c : cpu) (m : machine) : machine :=
  mkMachine (m_lock m) (<[i := c]> (m_cpu m)).

(** An interrupt, the return from one and the scheduler's sti come with no
    pushcli outstanding; sched writes the saved [intena] back with one. *)
Definition cpu_step (i : nat) (a : act) (m : machine) : option machine :=
  let c := m_cpu m i in
  match a with
  | Acquire l => if is_idle (c_pc c) then Some (with_cpu i (acquire_call l (m_lock m l) c) m) else None
  | Release l => if is_idle (c_pc c) then Some (with_cpu i (release_call l (m_lock m l) c) m) else None
  | Interrupts b =>
    if is_idle (c_pc c) && (ncli c =? 0) then Some (with_cpu i (set_if b c) m) else None
  | Resume b =>
    if is_idle (c_pc c) && (ncli c =? 1) then Some (with_cpu i (set_intena b c) m) else None
  | Run =>
    match pc_lock (c_pc c) with
    | Some l =>
      let '(k, c') := run_step i (m_lock m l) c in
      Some (mkMachine (<[l := k]> (m_lock m)) (<[i := c']> (m_cpu m)))
    | None => None
    end
  end.

Inductive step : machine -> machine -> Prop :=
| step_cpu i a m m' : cpu_step i a m = Some m' -> step m m'.

Definition cpu0 (b : bool) : cpu := mkCpu 0 false b Idle [].
Definition start (ifs : nat -> bool) : machine := mkMachine (fun _ => initlock) (fun i => cpu0 (ifs i)).
Definition reachable (m : machine) : Prop := exists ifs, rtc step (start ifs) m.

(** Running a schedule. *)
Fixpoint run (sched : list (nat * act)) (m : machine) : option machine :=
  match sched with
  | [] => Some m
  | (i, a) :: r => match cpu_step i a m with Some m' => run r m' | None => None end
  end.

(** ** The invariant *)

(** The processor has taken the lock, and the processor is entered in it. *)
Definition owns (c : cpu) (l : nat) : Prop := l ∈ c_held c \/ c_pc c = AcqSet l.
Definition entered (c : cpu) (l : nat) : Prop := l ∈ c_held c /\ c_pc c <> RelUnlock l.

(** The pushcli calls of acquire and release that are outstanding. *)
Definition pending (p : pc) : Z :=
  match p with
  | AcqHolding _ => 2
  | AcqSpin _ | AcqSet _ | RelHolding _ | PanicAcquire _ => 1
  | _ => 0
  end.

Definition pc_ok (p : pc) (h : list nat) : Prop :=
  match p with
  | AcqSpin l | AcqSet l | PanicRelease l => l ∉ h
  | RelClear l | RelUnlock l | PanicAcquire l => l ∈ h
  | PanicPopcli => False
  | _ => True
  end.

Record cpu_ok (c : cpu) : Prop := mkCpuOk {
  co_nodup : NoDup (c_held c);
  co_ncli : ncli c = Z.of_nat (length (c_held c)) + pending (c_pc c);
  co_if : 0 < ncli c -> c_if c = false;
  co_pc : pc_ok (c_pc c) (c_held c) }.

Record lock_ok (k : spinlock) (cs : nat -> cpu) (l : nat) : Prop := mkLockOk {
  lo_bit : locked k = 0 \/ locked k = 1;
  lo_excl : forall i j, owns (cs i) l -> owns (cs j) l -> i = j;
  lo_own : locked k = 1 <-> exists i, owns (cs i) l;
  lo_cpu : forall i, lk_cpu k = Some i <-> entered (cs i) l }.

Record inv (m : machine) : Prop := mkInv {
  inv_cpu : forall i, cpu_ok (m_cpu m i);
  inv_lock : forall l, lock_ok (m_lock m l) (m_cpu m) l }.

Lemma inv_start ifs : inv (start ifs).
Proof.
  split.
  - intros i. split; cbn; [constructor|done|lia|done].
  - intros l. split; cbn; [by left|..].
    + intros i j [Hi|Hi]; [by apply elem_of_nil in Hi|done].
    + split; [done|]. intros [i [Hi|Hi]]; [by apply elem_of_nil in Hi|done].
    + intros i. split; [done|]. intros [Hi _]. by apply elem_of_nil in Hi.
Qed.

(** A processor that keeps what it owns and is entered in keeps the locks. *)
Lemma lock_ok_frame k cs l i c' :
  lock_ok k cs l -> (owns c' l <-> owns (cs i) l) -> (entered c' l <-> entered (cs i) l) ->
  lock_ok k (<[i := c']> cs) l.
Proof.
  intros [Hb Hx Ho Hc] Hw He.
  assert (W : forall j, owns (<[i := c']> cs j) l <-> owns (cs j) l).
  { intros j. destruct (decide (j = i)) as [->|]; [by rewrite fn_lookup_insert|by rewrite fn_lookup_insert_ne by congruence]. }
  assert (E : forall j, entered (<[i := c']> cs j) l <-> entered (cs j) l).
  { intros j. destruct (decide (j = i)) as [->|]; [by rewrite fn_lookup_insert|by rewrite fn_lookup_insert_ne by congruence]. }
  split; [done|..].
  - intros j1 j2 H1%W H2%W. eauto.
  - rewrite Ho. split; intros [j Hj]; exists j; by apply W.
  - intros j. by rewrite E.
Qed.

Lemma inv_with_cpu m i c' :
  inv m -> cpu_ok c' ->
  (forall l, owns c' l <-> owns (m_cpu m i) l) -> (forall l, entered c' l <-> entered (m_cpu m i) l) ->
  inv (with_cpu i c' m).
Proof.
  intros [Hc Hl] Hc' Hw He. split; cbn.
  - intros j. destruct (decide (j = i)) as [->|]; [by rewrite fn_lookup_insert|by rewrite fn_lookup_insert_ne by congruence].
  - intros l. by apply lock_ok_frame.
Qed.

Lemma inv_with_lock m i l k' c' :
  inv m -> cpu_ok c' ->
  (forall x, x <> l -> owns c' x <-> owns (m_cpu m i) x) ->
  (forall x, x <> l -> entered c' x <-> entered (m_cpu m i) x) ->
  lock_ok k' (<[i := c']> (m_cpu m)) l ->
  inv (mkMachine (<[l := k']> (m_lock m)) (<[i := c']> (m_cpu m))).
Proof.
  intros [Hc Hl] Hc' Hw He Hk. split; cbn.
  - intros j. destruct (decide (j = i)) as [->|]; [by rewrite fn_lookup_insert|by rewrite fn_lookup_insert_ne by congruence].
  - intros x. destruct (decide (x = l)) as [->|]; [by rewrite fn_lookup_insert|].
    rewrite fn_lookup_insert_ne by congruence. apply lock_ok_frame; auto.
Qed.

(** What the taking and the dropping of a lock do to it. *)
Lemma lock_ok_take k cs l i c' :
  lock_ok k cs l -> locked k = 0 -> owns c' l -> ~ entered c' l ->
  lock_ok (mkSpin 1 (lk_cpu k)) (<[i := c']> cs) l.
Proof.
  intros [Hb Hx Ho Hc] H0 Hw He.
  assert (N : forall j, ~ owns (cs j) l) by (intros j Hj; assert (locked k = 1) by (apply Ho; eauto); lia).
  assert (N' : forall j, ~ entered (cs j) l) by (intros j [Hj _]; apply (N j); by left).
  assert (W : forall j, owns (<[i := c']> cs j) l -> j = i).
  { intros j. destruct (decide (j = i)); [done|]. rewrite fn_lookup_insert_ne by congruence. intros Hj; by destruct (N j). }
  split; cbn; [by right|..].
  - intros j1 j2 H1%W H2%W. congruence.
  - split; [|done]. intros _. exists i. by rewrite fn_lookup_insert.
  - intros j. destruct (decide (j = i)) as [->|].
    + rewrite fn_lookup_insert, Hc. split; intros H; [by destruct (N' i)|done].
    + rewrite fn_lookup_insert_ne by congruence. apply Hc.
Qed.

Lemma lock_ok_drop k cs l i c' :
  lock_ok k cs l -> owns (cs i) l -> ~ entered (cs i) l -> ~ owns c' l ->
  lock_ok (mkSpin 0 (lk_cpu k)) (<[i := c']> cs) l.
Proof.
  intros [Hb Hx Ho Hc] Hi Hne Hw.
  assert (W : forall j, ~ owns (<[i := c']> cs j) l).
  { intros j. destruct (decide (j = i)) as [->|]; [by rewrite fn_lookup_insert|].
    rewrite fn_lookup_insert_ne by congruence. intros Hj. pose proof (Hx _ _ Hi Hj). congruence. }
  split; cbn; [by left|..].
  - intros j1 j2 H1. by destruct (W j1).
  - split; [done|]. intros [j Hj]. by destruct (W j).
  - intros j. split.
    + intros Hj%Hc. assert (j = i) as -> by (apply (Hx j i); [destruct Hj; by left|done]). done.
    + intros [Hj _]. destruct (W j). by left.
Qed.

(** Only the owner writes [lk->cpu]. *)
Lemma lock_ok_entry k cs l i c' e :
  lock_ok k cs l -> owns (cs i) l -> owns c' l ->
  (e = Some i /\ entered c' l \/ e = None /\ ~ entered c' l) ->
  lock_ok (mkSpin (locked k) e) (<[i := c']> cs) l.
Proof.
  intros [Hb Hx Ho Hc] Hi Hw He.
  assert (W : forall j, owns (<[i := c']> cs j) l <-> owns (cs j) l).
  { intros j. destruct (decide (j = i)) as [->|]; [by rewrite fn_lookup_insert|by rewrite fn_lookup_insert_ne by congruence]. }
  split; cbn; [done|..].
  - intros j1 j2 H1%W H2%W. eauto.
  - rewrite Ho. split; intros [j Hj]; exists j; by apply W.
  - intros j. destruct (decide (j = i)) as [->|]; [rewrite fn_lookup_insert; naive_solver|].
    rewrite fn_lookup_insert_ne by congruence. split.
    + intros ->. destruct He as [[? ?]|[? ?]]; congruence.
    + intros [Hj _]. destruct n. apply (Hx j i); [by left|done].
Qed.

(** ** Every step keeps it *)

Lemma popcli_to_eq p c :
  c_if c = false -> 0 < ncli c ->
  popcli_to p c = mkCpu (ncli c - 1) (intena c) ((ncli c - 1 =? 0) && intena c) p (c_held c).
Proof.
  intros Hi Hn. unfold popcli_to, popcli. rewrite Hi.
  destruct (Z.ltb_spec (ncli c - 1) 0); [lia|done].
Qed.

(** A processor that only moves between places that own nothing. *)
Lemma owns_pc h n b f p n' b' f' p' l :
  p <> AcqSet l -> p' <> AcqSet l -> owns (mkCpu n b f p h) l <-> owns (mkCpu n' b' f' p' h) l.
Proof. unfold owns. cbn. naive_solver. Qed.

Lemma entered_pc h n b f p n' b' f' p' l :
  p <> RelUnlock l -> p' <> RelUnlock l -> entered (mkCpu n b f p h) l <-> entered (mkCpu n' b' f' p' h) l.
Proof. unfold entered. cbn. naive_solver. Qed.

#[local] Hint Extern 1 (_ <-> _) => first [apply owns_pc; congruence | apply entered_pc; congruence] : core.

Lemma inv_acquire_call m i l :
  inv m -> c_pc (m_cpu m i) = Idle -> inv (with_cpu i (acquire_call l (m_lock m l) (m_cpu m i)) m).
Proof.
  intros Hm Hp. pose proof (inv_cpu _ Hm i) as [H1 H2 H3 H4]. pose proof (inv_lock _ Hm l) as L.
  unfold acquire_call. destruct (m_cpu m i) as [n b f p h] eqn:E. cbn in *. subst p. cbn in *.
  destruct (Z.eqb_spec (locked (m_lock m l)) 0) as [H0|H0]; [rewrite popcli_to_eq by (cbn; lia)|];
    apply inv_with_cpu; cbn; rewrite ?E; try done; auto.
  - split; cbn; [done|lia|by destruct (Z.eqb_spec (n + 1 + 1 - 1) 0); [lia|]|].
    intros Hl. assert (locked (m_lock m l) = 1) by (apply (lo_own _ _ _ L); exists i; rewrite E; by left). lia.
  - split; cbn; [done|lia|done|done].
Qed.

Lemma inv_release_call m i l :
  inv m -> c_pc (m_cpu m i) = Idle -> inv (with_cpu i (release_call l (m_lock m l) (m_cpu m i)) m).
Proof.
  intros Hm Hp. pose proof (inv_cpu _ Hm i) as [H1 H2 H3 H4]. pose proof (inv_lock _ Hm l) as L.
  unfold release_call. destruct (m_cpu m i) as [n b f p h] eqn:E. cbn in *. subst p. cbn in *.
  destruct (Z.eqb_spec (locked (m_lock m l)) 0) as [H0|H0]; [rewrite popcli_to_eq by (cbn; lia)|];
    apply inv_with_cpu; cbn; rewrite ?E; try done; auto.
  - split; cbn; [done|lia|intros; by destruct (Z.eqb_spec (n + 1 - 1) 0); [lia|]|].
    intros Hl. assert (locked (m_lock m l) = 1) by (apply (lo_own _ _ _ L); exists i; rewrite E; by left). lia.
  - split; cbn; [done|lia|done|done].
Qed.

(** The two steps of holding that load [lk->cpu] decide correctly. *)
Lemma inv_holding m i l yes no :
  inv m -> pc_lock (c_pc (m_cpu m i)) = Some l ->
  c_pc (m_cpu m i) = AcqHolding l /\ yes = PanicAcquire l /\ no = AcqSpin l \/
  c_pc (m_cpu m i) = RelHolding l /\ yes = RelClear l /\ no = PanicRelease l ->
  inv (mkMachine (<[l := m_lock m l]> (m_lock m))
         (<[i := holding_cpu i (m_lock m l) yes no (m_cpu m i)]> (m_cpu m))).
Proof.
  intros Hm Hp Hc. pose proof (inv_cpu _ Hm i) as [H1 H2 H3 H4]. pose proof (inv_lock _ Hm l) as L.
  pose proof (lo_cpu _ _ _ L i) as Hh.
  unfold holding_cpu. destruct (m_cpu m i) as [n b f p h] eqn:E. cbn in *.
  assert (Hn : 0 < n) by (destruct Hc as [(-> & _)|(-> & _)]; cbn in *; lia).
  rewrite popcli_to_eq by (cbn; auto). cbn.
  assert (Hen : lk_cpu (m_lock m l) = Some i <-> l ∈ h).
  { rewrite Hh. unfold entered. cbn. destruct Hc as [(-> & _)|(-> & _)]; naive_solver. }
  assert (Hf : cpu_ok (mkCpu (n - 1) b ((n - 1 =? 0) && b)
                 (if bool_decide (lk_cpu (m_lock m l) = Some i) then yes else no) h)).
  { split; cbn; [done|..].
    - case_bool_decide; destruct Hc as [(-> & -> & ->)|(-> & -> & ->)]; cbn in *; lia.
    - intros Hn'. by destruct (Z.eqb_spec (n - 1) 0); [lia|].
    - case_bool_decide as D; rewrite Hen in D; destruct Hc as [(-> & -> & ->)|(-> & -> & ->)]; by cbn. }
  assert (Ho : forall x, owns (mkCpu (n - 1) b ((n - 1 =? 0) && b)
                 (if bool_decide (lk_cpu (m_lock m l) = Some i) then yes else no) h) x <-> owns (m_cpu m i) x).
  { intros x. rewrite E. apply owns_pc; case_bool_decide; destruct Hc as [(-> & -> & ->)|(-> & -> & ->)]; congruence. }
  assert (He : forall x, entered (mkCpu (n - 1) b ((n - 1 =? 0) && b)
                 (if bool_decide (lk_cpu (m_lock m l) = Some i) then yes else no) h) x <-> entered (m_cpu m i) x).
  { intros x. rewrite E. apply entered_pc; case_bool_decide; destruct Hc as [(-> & -> & ->)|(-> & -> & ->)]; congruence. }
  apply inv_with_lock; auto. by apply lock_ok_frame.
Qed.

Lemma inv_spin m i l :
  inv m -> c_pc (m_cpu m i) = AcqSpin l ->
  inv (mkMachine (<[l := mkSpin 1 (lk_cpu (m_lock m l))]> (m_lock m))
         (<[i := set_pc (if locked (m_lock m l) =? 0 then AcqSet l else AcqSpin l) (m_cpu m i)]> (m_cpu m))).
Proof.
  intros Hm Hp. pose proof (inv_cpu _ Hm i) as [H1 H2 H3 H4]. pose proof (inv_lock _ Hm l) as L.
  destruct (m_cpu m i) as [n b f p h] eqn:E. cbn in *. subst p. cbn in *. unfold set_pc. cbn.
  destruct (Z.eqb_spec (locked (m_lock m l)) 0) as [H0|H0]; apply inv_with_lock; auto; rewrite ?E.
  - by split.
  - intros x Hx. unfold owns. cbn. naive_solver.
  - intros x Hx. auto.
  - apply lock_ok_take; [done|done|by right|]. intros [Hh _]. done.
  - by split.
  - intros x Hx. auto.
  - intros x Hx. auto.
  - destruct (lo_bit _ _ _ L) as [?|H]; [done|].
    assert (mkSpin 1 (lk_cpu (m_lock m l)) = m_lock m l) as ->.
    { revert H. clear. destruct (m_lock m l). cbn. congruence. }
    apply lock_ok_frame; [done|by rewrite E|by rewrite E].
Qed.

Lemma inv_set m i l :
  inv m -> c_pc (m_cpu m i) = AcqSet l ->
  inv (mkMachine (<[l := mkSpin (locked (m_lock m l)) (Some i)]> (m_lock m))
         (<[i := set_held (l :: c_held (m_cpu m i)) (set_pc Idle (m_cpu m i))]> (m_cpu m))).
Proof.
  intros Hm Hp. pose proof (inv_cpu _ Hm i) as [H1 H2 H3 H4]. pose proof (inv_lock _ Hm l) as L.
  destruct (m_cpu m i) as [n b f p h] eqn:E. cbn in *. subst p. cbn in *. unfold set_pc, set_held. cbn.
  apply inv_with_lock; auto; rewrite ?E.
  - split; cbn; [by constructor|lia|done|done].
  - intros x Hx. unfold owns. cbn. set_solver.
  - intros x Hx. unfold entered. cbn. set_solver.
  - apply lock_ok_entry; [done|rewrite E; by right|left; cbn; set_solver|].
    left. split; [done|]. split; cbn; [set_solver|done].
Qed.

Lemma inv_clear m i l :
  inv m -> c_pc (m_cpu m i) = RelClear l ->
  inv (mkMachine (<[l := mkSpin (locked (m_lock m l)) None]> (m_lock m))
         (<[i := set_pc (RelUnlock l) (m_cpu m i)]> (m_cpu m))).
Proof.
  intros Hm Hp. pose proof (inv_cpu _ Hm i) as [H1 H2 H3 H4]. pose proof (inv_lock _ Hm l) as L.
  destruct (m_cpu m i) as [n b f p h] eqn:E. cbn in *. subst p. cbn in *. unfold set_pc. cbn.
  apply inv_with_lock; auto; rewrite ?E.
  - by split.
  - intros x Hx. auto.
  - intros x Hx. unfold entered. cbn. naive_solver.
  - apply lock_ok_entry; [done|rewrite E; by left|by left|].
    right. split; [done|]. intros [_ ?]. done.
Qed.

Lemma filter_drop_length (l : nat) h :
  NoDup h -> l ∈ h -> S (length (filter (fun x => x <> l) h)) = length h.
Proof.
  induction h as [|x h IH]; intros Hn Hl; [by apply elem_of_nil in Hl|].
  inversion_clear Hn as [|? ? Hx Hn']. rename Hn' into Hn. rewrite filter_cons. apply elem_of_cons in Hl as [<-|Hl].
  - destruct (decide (l <> l)) as [|_]; [done|]. cbn. f_equal. clear IH Hn.
    induction h as [|y h IH]; [done|]. apply not_elem_of_cons in Hx as [? ?]. rewrite filter_cons.
    destruct (decide (y <> l)) as [|E]; [cbn; f_equal; auto|]. destruct E. congruence.
  - destruct (decide (x <> l)) as [|E]; [cbn; f_equal; auto|]. destruct E. by intros ->.
Qed.

Lemma filter_fresh (l : nat) h : l ∉ h -> filter (fun x => x <> l) (l :: h) = h.
Proof.
  intros Hl. rewrite filter_cons. destruct (decide (l <> l)); [done|].
  induction h as [|x h IH]; [done|]. apply not_elem_of_cons in Hl as [? ?]. rewrite filter_cons.
  destruct (decide (x <> l)) as [|E]; [f_equal; auto|]. destruct E. congruence.
Qed.

Lemma inv_unlock m i l :
  inv m -> c_pc (m_cpu m i) = RelUnlock l ->
  inv (mkMachine (<[l := mkSpin 0 (lk_cpu (m_lock m l))]> (m_lock m))
         (<[i := popcli_to Idle (set_held (filter (fun x => x <> l) (c_held (m_cpu m i))) (m_cpu m i))]> (m_cpu m))).
Proof.
  intros Hm Hp. pose proof (inv_cpu _ Hm i) as [H1 H2 H3 H4]. pose proof (inv_lock _ Hm l) as L.
  destruct (m_cpu m i) as [n b f p h] eqn:E. cbn in *. subst p. cbn in *. unfold set_held. cbn.
  pose proof (filter_drop_length l h H1 H4) as Hlen.
  rewrite popcli_to_eq by (cbn; first [lia | apply H3; lia]). cbn.
  apply inv_with_lock; auto; rewrite ?E.
  - split; cbn; [by apply list.NoDup_filter|lia| |done]. intros Hn. by destruct (Z.eqb_spec (n - 1) 0); [lia|].
  - intros x Hx. unfold owns. cbn. rewrite list_elem_of_filter. naive_solver.
  - intros x Hx. unfold entered. cbn. rewrite list_elem_of_filter. naive_solver.
  - apply lock_ok_drop; [done|rewrite E; by left|rewrite E; by intros [_ ?]|].
    intros [Hh|?]; [|done]. cbn in Hh. apply list_elem_of_filter in Hh. naive_solver.
Qed.

Lemma inv_step m m' : inv m -> step m m' -> inv m'.
Proof.
  intros Hm Hs. revert Hm. destruct Hs as [i a m0 m1 E]. intros Hm. destruct a as [l|l|b|b|]; cbn in E.
  1,2: destruct (c_pc (m_cpu m0 i)) eqn:P; inversion E; subst; eauto using inv_acquire_call, inv_release_call.
  1,2: destruct (c_pc (m_cpu m0 i)) eqn:P; try done; cbn in E;
    destruct (Z.eqb_spec (ncli (m_cpu m0 i)) 0), (Z.eqb_spec (ncli (m_cpu m0 i)) 1); inversion E; subst;
    pose proof (inv_cpu _ Hm i) as [H1 H2 H3 H4]; destruct (m_cpu m0 i) as [nc b0 f p h] eqn:E0; cbn in *; subst p;
    apply inv_with_cpu; try rewrite E0; try done; auto; split; cbn in *; done || lia.
  destruct (c_pc (m_cpu m0 i)) eqn:P; cbn in E; try done; unfold run_step in E; rewrite P in E; inversion E; subst.
  - apply inv_holding; [done|by rewrite P|by left].
  - by apply inv_spin.
  - by apply inv_set.
  - apply inv_holding; [done|by rewrite P|by right].
  - by apply inv_clear.
  - by apply inv_unlock.
Qed.

Lemma inv_reachable m : reachable m -> inv m.
Proof.
  intros [ifs H]. pose proof (inv_start ifs) as Hi. revert Hi.
  induction H; [done|]. intros Hi. eauto using inv_step.
Qed.

(** ** What the locks promise *)

(** C4. Mutual exclusion.  However the processors interleave and whatever they
    call, no two of them hold the same lock and none holds a lock twice; the
    word of a lock is 1 exactly while some processor has taken it, and while a
    processor holds a lock that it is not releasing the lock names it. *)
Theorem spinlock_exclusive m :
  reachable m ->
  (forall l i j, l ∈ c_held (m_cpu m i) -> l ∈ c_held (m_cpu m j) -> i = j) /\
  (forall i, NoDup (c_held (m_cpu m i))) /\
  (forall l, locked (m_lock m l) = 1 <-> exists i, owns (m_cpu m i) l) /\
  (forall l i, l ∈ c_held (m_cpu m i) -> c_pc (m_cpu m i) <> RelUnlock l -> lk_cpu (m_lock m l) = Some i).
Proof.
  intros [Hc Hl]%inv_reachable. split_and!.
  - intros l i j Hi Hj. apply (lo_excl _ _ _ (Hl l)); by left.
  - intros i. apply (co_nodup _ (Hc i)).
  - intros l. apply (lo_own _ _ _ (Hl l)).
  - intros l i Hi Hp. by apply (lo_cpu _ _ _ (Hl l)).
Qed.

(** Interrupts are off while a lock is held.  Between the calls the depth
    of pushcli is the number of locks held, and while it is positive the
    interrupts of that processor are disabled. *)
Theorem interrupts_off_while_held m i :
  reachable m ->
  (c_pc (m_cpu m i) = Idle -> ncli (m_cpu m i) = Z.of_nat (length (c_held (m_cpu m i)))) /\
  (c_held (m_cpu m i) <> [] -> c_if (m_cpu m i) = false).
Proof.
  intros [Hc _]%inv_reachable. destruct (Hc i) as [H1 H2 H3 H4]. split.
  - intros Hp. rewrite Hp in H2. cbn in H2. lia.
  - intros Hh. apply H3. destruct (c_held (m_cpu m i)); [done|]. cbn in H2.
    destruct (c_pc (m_cpu m i)); cbn in *; lia.
Qed.

Lemma run_own_acquire m i l :
  inv m -> c_pc (m_cpu m i) = Idle -> l ∈ c_held (m_cpu m i) ->
  exists m', run [(i, Acquire l); (i, Run)] m = Some m' /\ c_pc (m_cpu m' i) = PanicAcquire l.
Proof.
  intros [Hc Hl] Hp Hh. destruct (Hc i) as [H1 H2 H3 H4].
  assert (L1 : locked (m_lock m l) = 1) by (apply (lo_own _ _ _ (Hl l)); exists i; by left).
  assert (L2 : lk_cpu (m_lock m l) = Some i) by (apply (lo_cpu _ _ _ (Hl l)); split; [done|congruence]).
  unfold run, cpu_step. rewrite Hp. cbn -[fn_insert]. unfold acquire_call. rewrite L1. cbn -[fn_insert].
  rewrite fn_lookup_insert. cbn -[fn_insert]. eexists. split; [done|]. cbn -[fn_insert].
  rewrite fn_lookup_insert. unfold holding_cpu. rewrite bool_decide_eq_true_2 by done.
  rewrite popcli_to_eq; [done|done|]. cbn. rewrite Hp in H2. cbn in H2. lia.
Qed.

(** The panics of the locks are exact.  A processor has panicked in
    acquire only for a lock it holds and in release only for one it does not,
    and never in popcli; and a processor that acquires a lock it holds does
    panic. *)
Theorem spinlock_panics_exact m i l :
  reachable m ->
  (c_pc (m_cpu m i) = PanicAcquire l -> l ∈ c_held (m_cpu m i)) /\
  (c_pc (m_cpu m i) = PanicRelease l -> l ∉ c_held (m_cpu m i)) /\
  c_pc (m_cpu m i) <> PanicPopcli /\
  (c_pc (m_cpu m i) = Idle -> l ∈ c_held (m_cpu m i) ->
   exists m', run [(i, Acquire l); (i, Run)] m = Some m' /\ c_pc (m_cpu m' i) = PanicAcquire l).
Proof.
  intros H%inv_reachable. pose proof (inv_cpu _ H i) as [H1 H2 H3 H4]. split_and!.
  - intros P. by rewrite P in H4.
  - intros P. by rewrite P in H4.
  - intros P. by rewrite P in H4.
  - by apply run_own_acquire.
Qed.

Lemma run_acquire m i l :
  c_pc (m_cpu m i) = Idle -> locked (m_lock m l) = 0 -> 0 <= ncli (m_cpu m i) ->
  exists m1, run [(i, Acquire l); (i, Run); (i, Run)] m = Some m1 /\
    m_lock m1 l = mkSpin 1 (Some i) /\
    m_cpu m1 i = mkCpu (ncli (m_cpu m i) + 1) (if ncli (m_cpu m i) =? 0 then c_if (m_cpu m i) else intena (m_cpu m i))
                   false Idle (l :: c_held (m_cpu m i)).
Proof.
  intros Hp H0 Hn. unfold run, cpu_step. rewrite Hp. cbn -[fn_insert]. unfold acquire_call. rewrite H0. cbn -[fn_insert].
  rewrite popcli_to_eq; [|done|cbn; lia]. cbn -[fn_insert].
  rewrite fn_lookup_insert. cbn -[fn_insert]. rewrite H0. cbn -[fn_insert].
  rewrite !fn_lookup_insert. cbn -[fn_insert]. eexists. split; [done|]. cbn -[fn_insert].
  rewrite !fn_lookup_insert. split; [done|]. unfold set_held. cbn. f_equal; [lia| |].
  - destruct (Z.eqb_spec (ncli (m_cpu m i) + 1) 0); [lia|done].
  - destruct (Z.eqb_spec (ncli (m_cpu m i) + 1 + 1 - 1) 0); [lia|done].
Qed.

Lemma run_release m i l :
  c_pc (m_cpu m i) = Idle -> m_lock m l = mkSpin 1 (Some i) ->
  c_if (m_cpu m i) = false -> 0 < ncli (m_cpu m i) ->
  exists m2, run [(i, Release l); (i, Run); (i, Run); (i, Run)] m = Some m2 /\
    m_lock m2 l = mkSpin 0 None /\
    m_cpu m2 i = mkCpu (ncli (m_cpu m i) - 1) (intena (m_cpu m i)) ((ncli (m_cpu m i) - 1 =? 0) && intena (m_cpu m i))
                   Idle (filter (fun x => x <> l) (c_held (m_cpu m i))).
Proof.
  intros Hp Hl Hi Hn. destruct (m_cpu m i) as [n b f p h] eqn:E. cbn in *. subst p f.
  unfold run, cpu_step. rewrite E. cbn -[fn_insert]. unfold release_call. rewrite Hl. cbn -[fn_insert].
  rewrite fn_lookup_insert. cbn -[fn_insert].
  unfold holding_cpu. rewrite Hl, bool_decide_eq_true_2 by done. rewrite popcli_to_eq; [|done|cbn; lia]. cbn -[fn_insert].
  rewrite !fn_lookup_insert. cbn -[fn_insert]. rewrite !fn_lookup_insert. cbn -[fn_insert].
  assert ((n =? 0) = false) as -> by lia. assert ((n + 1 - 1 =? 0) = false) as -> by lia.
  rewrite popcli_to_eq; [|done|cbn; lia]. eexists. split; [done|]. cbn -[fn_insert].
  rewrite !fn_lookup_insert. split; [done|]. cbn. repeat f_equal; lia.
Qed.

(** acquire of a free lock and its release.  Alone on the lock, a
    processor has it after the three accesses of acquire, with interrupts off;
    the release gives the lock back free, and the interrupt flag, the depth
    of pushcli and the locks held are as before the acquire. *)
Theorem acquire_release m i l :
  reachable m -> c_pc (m_cpu m i) = Idle -> locked (m_lock m l) = 0 ->
  exists m1 m2,
    run [(i, Acquire l); (i, Run); (i, Run)] m = Some m1 /\
    c_pc (m_cpu m1 i) = Idle /\ c_held (m_cpu m1 i) = l :: c_held (m_cpu m i) /\
    c_if (m_cpu m1 i) = false /\ m_lock m1 l = mkSpin 1 (Some i) /\
    run [(i, Release l); (i, Run); (i, Run); (i, Run)] m1 = Some m2 /\
    c_pc (m_cpu m2 i) = Idle /\ c_held (m_cpu m2 i) = c_held (m_cpu m i) /\
    ncli (m_cpu m2 i) = ncli (m_cpu m i) /\ c_if (m_cpu m2 i) = c_if (m_cpu m i) /\
    m_lock m2 l = mkSpin 0 None.
Proof.
  intros H%inv_reachable Hp H0. pose proof (inv_cpu _ H i) as [H1 H2 H3 H4]. rewrite Hp in H2. cbn in H2.
  assert (Hn : l ∉ c_held (m_cpu m i)).
  { intros Hh. assert (locked (m_lock m l) = 1) by (apply (lo_own _ _ _ (inv_lock _ H l)); exists i; by left). lia. }
  destruct (run_acquire m i l Hp H0) as (m1 & R1 & L1 & E1); [lia|].
  destruct (run_release m1 i l) as (m2 & R2 & L2 & E2); rewrite ?E1; cbn; try done; [lia|].
  exists m1, m2. rewrite E1 in E2. cbn [c_held ncli intena] in E2. rewrite filter_fresh in E2 by done.
  split_and!; try done; rewrite ?E1, ?E2; try done; cbn.
  - lia.
  - destruct (Z.eqb_spec (ncli (m_cpu m i)) 0) as [->|]; [done|].
    rewrite (H3 ltac:(lia)). destruct (Z.eqb_spec (ncli (m_cpu m i) + 1 - 1) 0); [lia|done].
Qed.

(** ** Two processors that contend for a lock *)

Lemma run_reachable sched ifs m : run sched (start ifs) = Some m -> reachable m.
Proof.
  intros H. exists ifs. revert H. generalize (start ifs). induction sched as [|[i a] r IH]; cbn; intros m0 H.
  - inversion H. subst. apply rtc_refl.
  - destruct (cpu_step i a m0) as [m1|] eqn:E; [|done]. apply rtc_l with m1; [by apply (step_cpu i a)|by apply IH].
Qed.

(** Processor 0 has lock 7, processor 1 spins on it and holds lock 3. *)
Definition contention : list (nat * act) :=
  [(0%nat, Acquire 7); (1%nat, Acquire 3); (0%nat, Run); (1%nat, Run); (1%nat, Run); (0%nat, Run);
       (1%nat, Acquire 7); (1%nat, Run); (1%nat, Run); (1%nat, Run)].
Definition interruptible : machine := start (fun _ => true).

(** What is observed of the machine after the schedule. *)
Definition observe (m : machine) : pc * list nat * list nat * Z * Z :=
  (c_pc (m_cpu m 0%nat), c_held (m_cpu m 0%nat), c_held (m_cpu m 1%nat),
   locked (m_lock m 7%nat), locked (m_lock m 5%nat)).

Lemma contention_observed : observe <$> run contention interruptible = Some (Idle, [7%nat], [3%nat], 1, 0).
Proof. vm_compute. reflexivity. Qed.

Lemma contention_run :
  exists m, run contention interruptible = Some m /\ c_pc (m_cpu m 0%nat) = Idle /\ c_held (m_cpu m 0%nat) = [7%nat] /\
    c_held (m_cpu m 1%nat) = [3%nat] /\ locked (m_lock m 7%nat) = 1 /\ locked (m_lock m 5%nat) = 0.
Proof.
  generalize contention_observed. generalize (run contention interruptible). intros [m|] H; [|discriminate].
  exists m. injection H as H1 H2 H3 H4 H5. auto 10.
Qed.

Lemma spinlock_exclusive_witness :
  exists m, run contention interruptible = Some m /\ locked (m_lock m 7%nat) = 1 /\
    forall i j, 7%nat ∈ c_held (m_cpu m i) -> 7%nat ∈ c_held (m_cpu m j) -> i = j.
Proof.
  destruct contention_run as (m & E & _ & _ & _ & H & _). exists m. split; [exact E|]. split; [exact H|].
  intros i j. apply (spinlock_exclusive m (run_reachable contention (fun _ => true) m E)).
Defined.

Lemma interrupts_off_while_held_witness :
  exists m, run contention interruptible = Some m /\ c_held (m_cpu m 1%nat) = [3%nat] /\ c_if (m_cpu m 1%nat) = false.
Proof.
  destruct contention_run as (m & E & _ & _ & H & _). exists m. split; [exact E|]. split; [exact H|].
  apply (interrupts_off_while_held m 1%nat (run_reachable contention (fun _ => true) m E)). rewrite H. discriminate.
Defined.

Lemma spinlock_panics_exact_witness :
  exists m m', run contention interruptible = Some m /\ run [(0%nat, Acquire 7); (0%nat, Run)] m = Some m' /\
    c_pc (m_cpu m' 0%nat) = PanicAcquire 7.
Proof.
  destruct contention_run as (m & E & H0 & H & _). exists m.
  destruct (spinlock_panics_exact m 0%nat 7%nat (run_reachable contention (fun _ => true) m E)) as (_ & _ & _ & H1).
  destruct H1 as (m' & R & P); [exact H0|rewrite H; by left|]. exists m'. auto.
Defined.

Lemma acquire_release_witness :
  exists m m1, run contention interruptible = Some m /\ run [(0%nat, Acquire 5); (0%nat, Run); (0%nat, Run)] m = Some m1 /\
    c_held (m_cpu m1 0%nat) = [5%nat; 7%nat].
Proof.
  destruct contention_run as (m & E & H0 & H & _ & _ & H5). exists m.
  destruct (acquire_release m 0%nat 5%nat (run_reachable contention (fun _ => true) m E) H0 H5) as (m1 & _ & R & _ & H1 & _).
  exists m1. rewrite H in H1. auto.
Defined.
