(* ===== verification/Ide.v ===== *)
(** * ide.c: the disk driver

    [idestart] issues the command for a buffer, [ideintr] is the interrupt
    handler that completes the request at the head of the queue and starts the
    next one, and [iderw] queues a request and waits for it.  The controller
    is modelled at the level of its commands: a write command and the data
    that follows it store a sector; a read command selects the sector that
    [insl] transfers. *)

From S2P Require Import Prelude State Sleep.
Open Scope Z_scope.

Definition upd_ide (f : idestate -> idestate) : kM unit :=
  modify (fun s => set_k_ide (f (k_ide s)) s).

(** BSIZE/SECTOR_SIZE is 1: a block is a sector. *)
Definition sector_per_block : Z := BSIZE / 512.

(** The disk and the sector the registers 0x1f3..0x1f6 select: 28 bits of
    sector number and the drive bit. *)
Definition ide_disk_of (b : buf) : Z := Z.land (b_dev b) 1.
Definition ide_sector_of (b : buf) : Z :=
  let sector := i32 (b_blockno b * sector_per_block) in
  Z.lor (Z.lor (Z.land sector 255) (Z.shiftl (Z.land (Z.shiftr sector 8) 255) 8))
        (Z.lor (Z.shiftl (Z.land (Z.shiftr sector 16) 255) 16)
               (Z.shiftl (Z.land (Z.shiftr sector 24) 15) 24)).

Definition idestart (b : nat) : kM unit :=
  bf ← get_buf b;
  panic_if (FSSIZE <=? b_blockno bf) "incorrect blockno";;
  panic_if (7 <? sector_per_block) "idestart";;
  if negb (Z.land (b_flags bf) B_DIRTY =? 0) then
    upd_ide (fun d => set_ide_cmd None
      (set_ide_writes (ide_writes d ++ [(ide_disk_of bf, ide_sector_of bf, b_data bf)])
      (set_ide_disk (<[(ide_disk_of bf, ide_sector_of bf) := b_data bf]> (ide_disk d)) d)))
  else
    upd_ide (set_ide_cmd (Some (ide_disk_of bf, ide_sector_of bf))).

(** insl of BSIZE/4 words: the sector of the last read command. *)
Definition insl (d : idestate) (old : block) : block :=
  match ide_cmd d with
  | Some (dv, sec) => dget (ide_disk d) dv sec
  | None => old
  end.

Definition ideintr : kM unit :=
  d ← gets k_ide;
  match ide_queue d with
  | [] => mret tt
  | b :: q =>
    upd_ide (set_ide_queue q);;
    bf ← get_buf b;
    (when (Z.land (b_flags bf) B_DIRTY =? 0) && negb (ide_err d)
     do upd_buf b (fun x => set_b_data (insl d (b_data x)) x));;
    upd_buf b (fun x => set_b_flags (Z.land (Z.lor (b_flags x) B_VALID) (Z.lnot B_DIRTY)) x);;
    wakeup (ChBuf b);;
    match q with
    | [] => mret tt
    | b' :: _ => idestart b'
    end
  end.

(** iderw up to its waiting loop. *)
Definition iderw_submit (b : nat) : kM unit :=
  h ← holdingsleep (buf_lock b);
  panic_if (negb h) "iderw: buf not locked";;
  bf ← get_buf b;
  panic_if (Z.land (b_flags bf) (Z.lor B_VALID B_DIRTY) =? B_VALID) "iderw: nothing to do";;
  d ← gets k_ide;
  panic_if (negb (b_dev bf =? 0) && negb (ide_havedisk1 d)) "iderw: ide disk 1 not present";;
  upd_ide (fun d => set_ide_queue (ide_queue d ++ [b]) d);;
  (when bool_decide (head (ide_queue d ++ [b]) = Some b) do idestart b).

(** The waiting loop: while the request is not done, the process sleeps until
    the interrupt of the request now at the head of the queue has been
    handled. *)
Fixpoint iderw_wait (b : nat) (fuel : nat) : kM unit :=
  bf ← get_buf b;
  if Z.land (b_flags bf) (Z.lor B_VALID B_DIRTY) =? B_VALID then mret tt
  else match fuel with
       | O => nofuel
       | S f => ideintr;; iderw_wait b f
       end.

(** The requests queued before [b]'s are handled first. *)
Definition iderw (b : nat) : kM unit :=
  iderw_submit b;;
  d ← gets k_ide;
  iderw_wait b (length (ide_queue d)).
