(* ===== verification/Bio.v ===== *)
(** * bio.c: the buffer cache

    The operations, the well-formedness of the least-recently-used list, the
    cache invariant [bio_inv] and the specification of each operation in terms
    of [view], the contents of a block as the rest of the kernel sees it. *)

From S2P Require Import Prelude State Sleep Ide.
Open Scope Z_scope.

(** ** The operations *)

(** Writes of the link fields. *)
Definition set_next (b n : nat) : kM unit := upd_buf b (set_b_next n).
Definition set_prev (b p : nat) : kM unit := upd_buf b (set_b_prev p).

(** The loop body of binit for [b = bcache.buf + i], [n] buffers to go. *)
Fixpoint binit_loop (b n : nat) : kM unit :=
  match n with
  | O => mret tt
  | S n' =>
    h ← get_buf HEAD;
    set_next b (b_next h);;
    set_prev b HEAD;;
    upd_buf b (set_b_lock (mkSleeplock false 0));;
    h ← get_buf HEAD;
    set_prev (b_next h) b;;
    set_next HEAD b;;
    binit_loop (S b) n'
  end.

Definition binit : kM unit :=
  set_prev HEAD HEAD;;
  set_next HEAD HEAD;;
  binit_loop 0 NBUF.

(** [for(b = ...; b != &bcache.head; b = dir b)]: the first buffer that passes
    the test. *)
Fixpoint scan (fuel : nat) (dir : buf -> nat) (test : buf -> bool) (b : nat) : kM (option nat) :=
  match fuel with
  | O => nofuel
  | S f =>
    if bool_decide (b = HEAD) then mret None
    else
      bf ← get_buf b;
      if test bf then mret (Some b) else scan f dir test (dir bf)
  end.

Definition bkey_is (dev blockno : Z) (b : buf) : bool :=
  (b_dev b =? dev) && (b_blockno b =? blockno).
Definition bunused (b : buf) : bool :=
  (b_refcnt b =? 0) && (Z.land (b_flags b) B_DIRTY =? 0).

Definition bget (dev blockno : Z) : kM nat :=
  h ← get_buf HEAD;
  r ← scan (S NBUF) b_next (bkey_is dev blockno) (b_next h);
  match r with
  | Some b =>
    upd_buf b (fun x => set_b_refcnt (u32 (b_refcnt x + 1)) x);;
    acquiresleep (buf_lock b);;
    mret b
  | None =>
    h ← get_buf HEAD;
    r ← scan (S NBUF) b_prev bunused (b_prev h);
    match r with
    | Some b =>
      upd_buf b (fun x => set_b_refcnt 1 (set_b_flags 0
        (set_b_blockno blockno (set_b_dev dev x))));;
      acquiresleep (buf_lock b);;
      mret b
    | None => panic "bget: no buffers"
    end
  end.

Definition bread (dev blockno : Z) : kM nat :=
  b ← bget dev blockno;
  bf ← get_buf b;
  (when Z.land (b_flags bf) B_VALID =? 0 do iderw b);;
  mret b.

Definition bwrite (b : nat) : kM unit :=
  h ← holdingsleep (buf_lock b);
  panic_if (negb h) "bwrite";;
  upd_buf b (fun x => set_b_flags (Z.lor (b_flags x) B_DIRTY) x);;
  iderw b.

Definition brelse (b : nat) : kM unit :=
  h ← holdingsleep (buf_lock b);
  panic_if (negb h) "brelse";;
  releasesleep (buf_lock b);;
  upd_buf b (fun x => set_b_refcnt (u32 (b_refcnt x - 1)) x);;
  bf ← get_buf b;
  if b_refcnt bf =? 0 then
    set_prev (b_next bf) (b_prev bf);;
    bf ← get_buf b;
    set_next (b_prev bf) (b_next bf);;
    h ← get_buf HEAD;
    set_next b (b_next h);;
    set_prev b HEAD;;
    h ← get_buf HEAD;
    set_prev (b_next h) b;;
    set_next HEAD b
  else mret tt.

(** Access to the data of a buffer the caller holds. *)
Definition bdata (b : nat) : kM block := bf ← get_buf b; mret (b_data bf).
Definition set_bdata (b : nat) (d : block) : kM unit := upd_buf b (set_b_data d).

(** ** The least-recently-used list *)

Section seg.
Implicit Types nx pv : nat -> nat.

(** From [x], the [next] links [nx] lead through [l] to [y], and the [prev]
    links [pv] lead back. *)
Fixpoint seg nx pv (x : nat) (l : list nat) (y : nat) : Prop :=
  match l with
  | [] => nx x = y /\ pv y = x
  | z :: l' => nx x = z /\ pv z = x /\ seg nx pv z l' y
  end.

Lemma seg_app nx pv l1 : forall x z l2 y,
  seg nx pv x (l1 ++ z :: l2) y <-> seg nx pv x l1 z /\ seg nx pv z l2 y.
Proof. induction l1; intros; simpl; [tauto|]. rewrite IHl1. tauto. Qed.

Lemma seg_ext nx pv nx' pv' l : forall x y,
  (forall i, i ∈ x :: l -> nx' i = nx i) ->
  (forall i, i ∈ l ++ [y] -> pv' i = pv i) ->
  seg nx pv x l y -> seg nx' pv' x l y.
Proof.
  induction l as [|z l IH]; intros x y Hn Hp; simpl.
  - intros [<- Hx]. split; [apply Hn; set_solver|].
    rewrite Hp by set_solver. done.
  - intros (<- & Hz & Hs). split; [apply Hn; set_solver|].
    split; [rewrite Hp by set_solver; done|].
    apply IH; [|by intros i Hi; apply Hp; set_solver|done].
    intros i Hi. apply Hn. set_solver.
Qed.

Definition upd (f : nat -> nat) (i v : nat) : nat -> nat :=
  fun j => if decide (j = i) then v else f j.

Lemma upd_eq f i v : upd f i v i = v.
Proof. unfold upd. by case_decide. Qed.
Lemma upd_ne f i v j : j <> i -> upd f i v j = f j.
Proof. unfold upd. by case_decide. Qed.

Lemma upd_ext f g i v j : (forall k, f k = g k) -> upd f i v j = upd g i v j.
Proof. unfold upd. by case_decide. Qed.

(** Unlinking [b] from between its neighbours. *)
Lemma seg_unlink nx pv l1 l2 b x y :
  seg nx pv x (l1 ++ b :: l2) y -> NoDup (l1 ++ b :: l2) ->
  x ∉ l1 ++ b :: l2 -> y ∉ l1 ++ b :: l2 ->
  seg (upd nx (pv b) (nx b)) (upd pv (nx b) (pv b)) x (l1 ++ l2) y.
Proof.
  intros H Hnd Hx Hy.
  apply seg_app in H as [H1 H2].
  apply NoDup_app in Hnd as (Hnd1 & Hdis & Hnd2).
  apply NoDup_cons in Hnd2 as [Hb2 Hnd2].
  destruct l1 as [|p l1 _] using rev_ind.
  - destruct H1 as [_ Hpx]. rewrite Hpx.
    destruct l2 as [|n l2]; simpl in *.
    + destruct H2 as [-> _]. by rewrite !upd_eq.
    + destruct H2 as (-> & Hpn & H2). rewrite !upd_eq. split_and!; [done..|].
      eapply seg_ext; [| |done]; intros i Hi; apply upd_ne; [set_solver|].
      apply NoDup_cons in Hnd2 as [Hn2 _]. intros ->. set_solver.
  - rewrite <- app_assoc in *. simpl in *.
    apply seg_app in H1 as [H1 [_ Hpb]]. rewrite Hpb.
    apply NoDup_app in Hnd1 as (Hnd1 & Hdis1 & _).
    apply seg_app. split.
    + eapply seg_ext; [| |done]; intros i Hi; apply upd_ne.
      * intros ->. set_solver.
      * destruct l2 as [|n l2]; simpl in H2; destruct H2 as [-> _]; set_solver.
    + destruct l2 as [|n l2]; simpl in *.
      * destruct H2 as [-> _]. by rewrite !upd_eq.
      * destruct H2 as (-> & Hpn & H2). rewrite !upd_eq. split_and!; [done..|].
        eapply seg_ext; [| |done]; intros i Hi; apply upd_ne; [set_solver|].
        apply NoDup_cons in Hnd2 as [Hn2 _]. intros ->. set_solver.
Qed.

(** Linking [b] in right after [x]. *)
Lemma seg_push nx pv l b x y :
  seg nx pv x l y -> NoDup l -> b ∉ l -> x ∉ l -> y ∉ l -> b <> x -> b <> y ->
  seg (upd (upd nx b (nx x)) x b) (upd (upd pv b x) (nx x) b) x (b :: l) y.
Proof.
  intros H Hnd Hb Hx Hy Hbx Hby. cbn [seg].
  assert (Hnx : nx x <> b) by (destruct l; simpl in H; set_solver).
  rewrite upd_eq. split; [done|].
  rewrite upd_ne by done. rewrite upd_eq. split; [done|].
  destruct l as [|n l]; simpl in *.
  - destruct H as [-> _]. rewrite upd_ne by done. by rewrite !upd_eq.
  - destruct H as (-> & Hpn & H). rewrite (upd_ne _ x), !upd_eq by done.
    split_and!; [done..|].
    apply NoDup_cons in Hnd as [Hn Hnd].
    eapply seg_ext; [| |done]; intros i Hi; rewrite !upd_ne; set_solver.
Qed.
End seg.

(** ** The list of the buffers' links *)

Definition nx (bs : list buf) (i : nat) : nat := b_next (bs !!! i).
Definition pv (bs : list buf) (i : nat) : nat := b_prev (bs !!! i).

(** The buffers in the order of the list, most recently used first. *)
Definition lru (bs : list buf) (l : list nat) : Prop :=
  length bs = S NBUF /\ l ≡ₚ seq 0 NBUF /\ seg (nx bs) (pv bs) HEAD l HEAD.

(** A buffer without its links. *)
Definition core (b : buf) : buf := set_b_prev O (set_b_next O b).
(** Two tables of buffers that differ in links only. *)
Definition core_eq (bs bs' : list buf) : Prop :=
  length bs' = length bs /\ forall i, core (bs' !!! i) = core (bs !!! i).

Lemma alter_total {A} `{Inhabited A} (f : A -> A) (l : list A) i j :
  (i < length l)%nat ->
  alter f i l !!! j = if decide (j = i) then f (l !!! i) else l !!! j.
Proof.
  intros Hi. rewrite !list_lookup_total_alt. case_decide as E.
  - subst j. rewrite list_lookup_alter_eq.
    destruct (l !! i) eqn:E; [done|]. apply lookup_ge_None in E. lia.
  - by rewrite list_lookup_alter_ne.
Qed.

Lemma alter_total_eq {A} `{Inhabited A} (f : A -> A) (l : list A) i :
  (i < length l)%nat -> alter f i l !!! i = f (l !!! i).
Proof. intros. rewrite alter_total by done. by case_decide. Qed.

Lemma alter_total_ne {A} `{Inhabited A} (f : A -> A) (l : list A) i j :
  j <> i -> alter f i l !!! j = l !!! j.
Proof. intros. rewrite !list_lookup_total_alt. by rewrite list_lookup_alter_ne. Qed.

Lemma alter_swap {A} (f g : A -> A) (l : list A) i j :
  (forall x, f (g x) = g (f x)) -> alter f i (alter g j l) = alter g j (alter f i l).
Proof.
  intros Hfg. destruct (decide (i = j)) as [->|]; [|by apply list_alter_alter_ne].
  rewrite !list_alter_alter_eq. by apply list_alter_ext; [intros; apply Hfg|].
Qed.

Lemma nx_alter_next bs i v j :
  (i < length bs)%nat -> nx (alter (set_b_next v) i bs) j = upd (nx bs) i v j.
Proof. intros. unfold nx, upd. rewrite alter_total by done. by case_decide. Qed.
Lemma pv_alter_prev bs i v j :
  (i < length bs)%nat -> pv (alter (set_b_prev v) i bs) j = upd (pv bs) i v j.
Proof. intros. unfold pv, upd. rewrite alter_total by done. by case_decide. Qed.
Lemma nx_alter f bs i j :
  (forall x, b_next (f x) = b_next x) -> nx (alter f i bs) j = nx bs j.
Proof.
  intros Hf. unfold nx. destruct (decide (i < length bs)%nat).
  - rewrite alter_total by done. case_decide; [subst|]; done.
  - rewrite !list_lookup_total_alt.
    destruct (decide (j = i)) as [->|]; [|by rewrite list_lookup_alter_ne].
    rewrite list_lookup_alter_eq. by rewrite (proj2 (lookup_ge_None bs i)) by lia.
Qed.
Lemma pv_alter f bs i j :
  (forall x, b_prev (f x) = b_prev x) -> pv (alter f i bs) j = pv bs j.
Proof.
  intros Hf. unfold pv. destruct (decide (i < length bs)%nat).
  - rewrite alter_total by done. case_decide; [subst|]; done.
  - rewrite !list_lookup_total_alt.
    destruct (decide (j = i)) as [->|]; [|by rewrite list_lookup_alter_ne].
    rewrite list_lookup_alter_eq. by rewrite (proj2 (lookup_ge_None bs i)) by lia.
Qed.

#[export] Instance core_eq_equiv : Equivalence core_eq.
Proof.
  split.
  - by split.
  - intros ?? [? H]. split; [done|]. intros. by rewrite H.
  - intros ??? [? H] [? H']. split; [congruence|]. intros. by rewrite H', H.
Qed.

Lemma core_eq_alter f bs i :
  (forall x, core (f x) = core x) -> core_eq bs (alter f i bs).
Proof.
  intros Hf. split; [apply length_alter|]. intros j.
  destruct (decide (j = i)) as [->|]; [|by rewrite alter_total_ne].
  destruct (decide (i < length bs)%nat); [by rewrite alter_total_eq|].
  rewrite !list_lookup_total_alt, list_lookup_alter_eq.
  by rewrite (proj2 (lookup_ge_None bs i)) by lia.
Qed.

(** The list keeps its shape when fields other than the links change. *)
Lemma lru_alter bs l f i :
  (forall x, b_next (f x) = b_next x) -> (forall x, b_prev (f x) = b_prev x) ->
  lru bs l -> lru (alter f i bs) l.
Proof.
  intros Hn Hp (Hlen & Hperm & Hseg). split_and!; [by rewrite length_alter|done|].
  eapply seg_ext; [| |exact Hseg]; intros; [by apply nx_alter|by apply pv_alter].
Qed.

Lemma lru_mem bs l i : lru bs l -> i ∈ l <-> (i < NBUF)%nat.
Proof. intros (_ & H & _). rewrite H, elem_of_seq. lia. Qed.

Lemma lru_nodup bs l : lru bs l -> NoDup l.
Proof. intros (_ & H & _). rewrite H. apply NoDup_seq. Qed.

(** The two link writes that take [b] out of the list, and the four that put
    it at its front. *)
Definition unlink (b : nat) (bs : list buf) : list buf :=
  let bs1 := alter (set_b_prev (pv bs b)) (nx bs b) bs in
  alter (set_b_next (nx bs1 b)) (pv bs1 b) bs1.
Definition push_front (b : nat) (bs : list buf) : list buf :=
  let bs1 := alter (set_b_next (nx bs HEAD)) b bs in
  let bs2 := alter (set_b_prev HEAD) b bs1 in
  let bs3 := alter (set_b_prev b) (nx bs2 HEAD) bs2 in
  alter (set_b_next b) HEAD bs3.

Lemma core_eq_unlink b bs : core_eq bs (unlink b bs).
Proof. unfold unlink. cbv zeta. repeat (etransitivity; [|apply core_eq_alter; done]). done. Qed.
Lemma core_eq_push_front b bs : core_eq bs (push_front b bs).
Proof. unfold push_front. cbv zeta. repeat (etransitivity; [|apply core_eq_alter; done]). done. Qed.

Lemma nx_unlink b bs i :
  (pv bs b < length bs)%nat -> nx bs b <> b ->
  nx (unlink b bs) i = upd (nx bs) (pv bs b) (nx bs b) i.
Proof.
  intros Hp Hn. unfold unlink. cbv zeta.
  assert (Hb : pv (alter (set_b_prev (pv bs b)) (nx bs b) bs) b = pv bs b)
    by (unfold pv at 1; by rewrite alter_total_ne).
  rewrite nx_alter_next by (by rewrite length_alter, Hb).
  rewrite Hb. unfold upd. by rewrite !nx_alter by done.
Qed.

Lemma pv_unlink b bs i :
  (nx bs b < length bs)%nat -> pv (unlink b bs) i = upd (pv bs) (nx bs b) (pv bs b) i.
Proof. intros Hn. unfold unlink. cbv zeta. rewrite pv_alter by done. by apply pv_alter_prev. Qed.

Lemma nx_push_front b bs i :
  (b < length bs)%nat -> (HEAD < length bs)%nat ->
  nx (push_front b bs) i = upd (upd (nx bs) b (nx bs HEAD)) HEAD b i.
Proof.
  intros Hb HH. unfold push_front. cbv zeta.
  rewrite nx_alter_next by (by rewrite !length_alter). unfold upd at 1 2.
  rewrite !nx_alter by done. by rewrite nx_alter_next.
Qed.

Lemma pv_push_front b bs i :
  (b < length bs)%nat -> (nx bs HEAD < length bs)%nat -> b <> HEAD ->
  pv (push_front b bs) i = upd (upd (pv bs) b HEAD) (nx bs HEAD) b i.
Proof.
  intros Hb Hn HbH. unfold push_front. cbv zeta. rewrite pv_alter by done.
  assert (HH : nx (alter (set_b_prev HEAD) b (alter (set_b_next (nx bs HEAD)) b bs)) HEAD
               = nx bs HEAD) by (unfold nx at 1; by rewrite !alter_total_ne).
  rewrite HH, pv_alter_prev by (by rewrite !length_alter). unfold upd at 1 2.
  rewrite pv_alter_prev by (by rewrite !length_alter). unfold upd.
  by rewrite !pv_alter by done.
Qed.

Lemma seg_bound nx pv l x y i :
  seg nx pv x l y -> i ∈ l -> (nx i = y \/ nx i ∈ l) /\ (pv i = x \/ pv i ∈ l).
Proof.
  intros H Hi. apply list_elem_of_split in Hi as (l1 & l2 & ->).
  apply seg_app in H as [H1 H2]. split.
  - destruct l2; simpl in H2; [left|right]; destruct H2 as [-> _]; set_solver.
  - destruct l1 as [|p l1 _] using rev_ind.
    + destruct H1 as [_ ->]. by left.
    + apply seg_app in H1 as [_ [_ ->]]. right. set_solver.
Qed.

Lemma seg_neq nx pv l x y i :
  seg nx pv x l y -> NoDup l -> x ∉ l -> y ∉ l -> i ∈ l -> nx i <> i /\ pv i <> i.
Proof.
  intros H Hnd Hx Hy Hi. apply list_elem_of_split in Hi as (l1 & l2 & ->).
  apply NoDup_app in Hnd as (_ & Hd & Hnd). apply NoDup_cons in Hnd as [Hnd _].
  apply seg_app in H as [Hs1 Hs2]. split.
  - destruct l2; simpl in Hs2; destruct Hs2 as [-> _]; set_solver.
  - destruct l1 as [|p l1 _] using rev_ind.
    + destruct Hs1 as [_ ->]. set_solver.
    + apply seg_app in Hs1 as [_ [_ ->]]. set_solver.
Qed.

Lemma seg_push_front bs l b :
  length bs = S NBUF -> seg (nx bs) (pv bs) HEAD l HEAD -> NoDup l ->
  (forall i, i ∈ l -> (i < NBUF)%nat) -> b ∉ l -> (b < NBUF)%nat ->
  seg (nx (push_front b bs)) (pv (push_front b bs)) HEAD (b :: l) HEAD.
Proof.
  intros Hlen Hseg Hnd Hmem Hbl Hb.
  assert (HH : HEAD ∉ l) by (intros Hin%Hmem; unfold HEAD in *; lia).
  assert (HnH : (nx bs HEAD < S NBUF)%nat).
  { destruct l as [|z l]; destruct Hseg as [-> _]; [unfold HEAD; lia|].
    specialize (Hmem z). set_unfold. naive_solver lia. }
  eapply seg_push with (b := b) in Hseg; [|done|done|done|done|unfold HEAD; lia..].
  eapply seg_ext; [| |exact Hseg]; intros i _.
  - apply nx_push_front; rewrite Hlen; unfold HEAD; lia.
  - apply pv_push_front; rewrite ?Hlen; unfold HEAD in *; lia.
Qed.

Lemma lru_move_front bs l1 l2 b :
  lru bs (l1 ++ b :: l2) -> lru (push_front b (unlink b bs)) (b :: l1 ++ l2).
Proof.
  intros H. pose proof (lru_nodup _ _ H) as Hnd.
  assert (Hmem : forall i, i ∈ l1 ++ b :: l2 -> (i < NBUF)%nat) by (intros i; by apply (lru_mem bs)).
  destruct H as (Hlen & Hperm & Hseg).
  assert (Hlen' : length (unlink b bs) = S NBUF) by (destruct (core_eq_unlink b bs); congruence).
  split_and!.
  { destruct (core_eq_push_front b (unlink b bs)). congruence. }
  { rewrite <- Hperm. by rewrite Permutation_middle. }
  assert (HH : HEAD ∉ l1 ++ b :: l2) by (intros Hin%Hmem; unfold HEAD in *; lia).
  assert (Hlt : forall i, i = HEAD \/ i ∈ l1 ++ b :: l2 -> (i < S NBUF)%nat)
    by (intros i [->|Hi%Hmem]; unfold HEAD; lia).
  destruct (seg_bound _ _ _ _ _ b Hseg) as [Hn%Hlt Hp%Hlt]; [set_solver|].
  destruct (seg_neq _ _ _ _ _ b Hseg Hnd HH HH) as [Hnb _]; [set_solver|].
  pose proof (seg_unlink _ _ _ _ _ _ _ Hseg Hnd HH HH) as Hu.
  apply NoDup_app in Hnd as (Hnd1 & Hd & Hnd2). apply NoDup_cons in Hnd2 as [Hb2 Hnd2].
  apply seg_push_front; [done| |apply NoDup_app; set_solver|set_solver|set_solver|apply Hmem; set_solver].
  eapply seg_ext; [| |exact Hu]; intros i _; [apply nx_unlink; [lia|done]|apply pv_unlink; lia].
Qed.

(** ** Walking the list *)

Lemma scan_next s test l : forall x fuel,
  seg (nx (k_bcache s)) (pv (k_bcache s)) x l HEAD -> HEAD ∉ l -> (length l < fuel)%nat ->
  scan fuel b_next test (nx (k_bcache s) x) s
  = Ok (find (fun i => test (k_bcache s !!! i)) l) s.
Proof.
  induction l as [|z l IH]; intros x fuel Hs HH Hf; (destruct fuel as [|fuel]; [simpl in Hf; lia|]);
    cbn [seg] in Hs; cbn [scan find].
  - destruct Hs as [-> _]. done.
  - destruct Hs as (-> & _ & Hs). rewrite bool_decide_eq_false_2 by set_solver.
    unfold mbind, M_bind, get_buf, gets. destruct (test (k_bcache s !!! z)); [done|].
    apply IH; [done|set_solver|simpl in Hf; lia].
Qed.

Lemma scan_prev s test l : forall y fuel,
  seg (nx (k_bcache s)) (pv (k_bcache s)) HEAD l y -> HEAD ∉ l -> (length l < fuel)%nat ->
  scan fuel b_prev test (pv (k_bcache s) y) s
  = Ok (find (fun i => test (k_bcache s !!! i)) (rev l)) s.
Proof.
  induction l as [|z l IH] using rev_ind; intros y fuel Hs HH Hf;
    (destruct fuel as [|fuel]; [simpl in Hf; lia|]); cbn [scan].
  - destruct Hs as [_ ->]. done.
  - apply seg_app in Hs as [Hs [_ ->]]. rewrite rev_app_distr. cbn [rev app find].
    rewrite bool_decide_eq_false_2 by set_solver.
    unfold mbind, M_bind, get_buf, gets. destruct (test (k_bcache s !!! z)); [done|].
    apply IH; [done|set_solver|rewrite length_app in Hf; simpl in Hf; lia].
Qed.

Lemma lru_length bs l : lru bs l -> length l = NBUF.
Proof. intros (_ & H & _). by rewrite H, length_seq. Qed.

Lemma lru_head bs l : lru bs l -> HEAD ∉ l.
Proof. intros H. rewrite (lru_mem _ _ _ H). unfold HEAD. lia. Qed.

(** ** Initialisation *)

(** A buffer with its lock initialised. *)
Definition binit_buf (x : buf) : buf := core (set_b_lock (mkSleeplock false 0) x).

Lemma binit_loop_spec n : forall b s,
  length (k_bcache s) = S NBUF -> (b + n = NBUF)%nat ->
  seg (nx (k_bcache s)) (pv (k_bcache s)) HEAD (rev (seq 0 b)) HEAD ->
  wp (binit_loop b n) (fun _ s' => lru (k_bcache s') (rev (seq 0 NBUF))
    /\ forall i, core (k_bcache s' !!! i) =
         if decide (b <= i < NBUF)%nat then binit_buf (k_bcache s !!! i)
         else core (k_bcache s !!! i)) s.
Proof.
  induction n as [|n IH]; intros b s Hlen Hbn Hseg; cbn [binit_loop].
  { apply wp_ret. replace b with NBUF in * by lia. split.
    - split_and!; [done| |done]. by rewrite <- Permutation_rev.
    - intros i. case_decide; [lia|done]. }
  wp_step. unfold get_buf at 1. wp_steps. unfold set_next, set_prev, upd_buf. wp_steps.
  unfold get_buf. wp_steps. cbn [k_bcache set_k_bcache].
  match goal with |- wp _ _ (set_k_bcache ?x _) => set (bs' := x) end.
  assert (Hb : (b < length (k_bcache s))%nat) by lia.
  assert (Hbs : bs' = alter (set_b_lock (mkSleeplock false 0)) b (push_front b (k_bcache s))).
  { unfold bs', push_front. cbv zeta. fold (nx (k_bcache s) HEAD).
    match goal with |- context [b_next (?l !!! HEAD)] => fold (nx l HEAD) end.
    rewrite nx_alter by done. by rewrite !(alter_swap (set_b_lock _)) by done. }
  destruct (core_eq_push_front b (k_bcache s)) as [Hlen' Hcore].
  eapply wp_mono; [apply IH; cbn [k_bcache set_k_bcache]|]; rewrite ?Hbs.
  - rewrite length_alter. congruence.
  - lia.
  - rewrite seq_S, rev_app_distr. cbn [rev app Nat.add].
    eapply seg_ext, seg_push_front; [intros; by apply nx_alter|intros; by apply pv_alter|done|done| | | |lia].
    + rewrite <- Permutation_rev. apply NoDup_seq.
    + intros i. rewrite <- Permutation_rev, elem_of_seq. lia.
    + rewrite <- Permutation_rev, elem_of_seq. lia.
  - cbn [k_bcache set_k_bcache]. intros _ s' [Hl Hc]. split; [done|]. intros i.
    rewrite Hc. destruct (decide (i = b)) as [->|Hne].
    + rewrite decide_False, decide_True by lia. rewrite alter_total_eq by lia.
      unfold binit_buf. specialize (Hcore b). revert Hcore.
      generalize (push_front b (k_bcache s) !!! b), (k_bcache s !!! b).
      intros [] []. unfold core. cbn. by injection 1 as -> -> -> -> -> ->.
    + rewrite alter_total_ne by done. unfold binit_buf. specialize (Hcore i). revert Hcore.
      generalize (push_front b (k_bcache s) !!! i), (k_bcache s !!! i).
      intros [] []. unfold core. cbn. injection 1 as -> -> -> -> -> ->.
      repeat case_decide; try done; lia.
Qed.

Lemma binit_spec s :
  length (k_bcache s) = S NBUF ->
  wp binit (fun _ s' => lru (k_bcache s') (rev (seq 0 NBUF))
    /\ forall i, (i < NBUF)%nat -> core (k_bcache s' !!! i) = binit_buf (k_bcache s !!! i)) s.
Proof.
  intros Hlen. unfold binit, set_prev, set_next, upd_buf. wp_steps. cbn [k_bcache set_k_bcache].
  eapply wp_mono; [apply binit_loop_spec|]; cbn [k_bcache set_k_bcache].
  - by rewrite !length_alter.
  - done.
  - cbn [seq rev seg]. split.
    + rewrite nx_alter_next by (rewrite length_alter, Hlen; unfold HEAD; lia). apply upd_eq.
    + rewrite pv_alter, pv_alter_prev by (try done; rewrite Hlen; unfold HEAD; lia). apply upd_eq.
  - intros _ s' [Hl Hc]. split; [done|]. intros i Hi. rewrite Hc, decide_True by lia.
    by rewrite !alter_total_ne by (unfold HEAD; lia).
Qed.
