(* ===== verification/BioFrame.v ===== *)
(** * What the buffer layer touches

    The operations of bio.c and ide.c change the buffers, the disk and the
    process table, and nothing else, whether they return or block. *)

From S2P Require Import Prelude State Sleep Ide Bio.
Open Scope Z_scope.

Definition bio_only (s s' : kernel) : Prop :=
  exists bc ide pt, s' = set_k_ptable pt (set_k_ide ide (set_k_bcache bc s)).

#[export] Instance bio_only_preorder : PreOrder bio_only.
Proof.
  split.
  - intros s. exists (k_bcache s), (k_ide s), (k_ptable s). by destruct s.
  - intros s1 s2 s3 (bc & ide & pt & ->) (bc' & ide' & pt' & ->). by exists bc', ide', pt'.
Qed.

Lemma bio_only_bcache bc s : bio_only s (set_k_bcache bc s).
Proof. exists bc, (k_ide s), (k_ptable s). by destruct s. Qed.
Lemma bio_only_ide d s : bio_only s (set_k_ide d s).
Proof. exists (k_bcache s), d, (k_ptable s). by destruct s. Qed.
Lemma bio_only_ptable pt s : bio_only s (set_k_ptable pt s).
Proof. exists (k_bcache s), (k_ide s), pt. by destruct s. Qed.

Lemma upd_buf_only b f : moves bio_only (upd_buf b f).
Proof. apply moves_modify. intros s. apply bio_only_bcache. Qed.
Lemma upd_ide_only f : moves bio_only (upd_ide f).
Proof. apply moves_modify. intros s. apply bio_only_ide. Qed.
Lemma get_buf_only b : moves bio_only (get_buf b).
Proof. apply moves_gets, _. Qed.
Lemma get_proc_only p : moves bio_only (get_proc p).
Proof. apply moves_gets, _. Qed.
Lemma myproc_only : moves bio_only myproc.
Proof. intros s. unfold myproc. by destruct (k_cur s). Qed.
Lemma upd_proc_only p f : moves bio_only (upd_proc p f).
Proof. apply moves_modify. intros s. apply bio_only_ptable. Qed.
Lemma wakeup_only c : moves bio_only (wakeup c).
Proof. apply moves_modify. intros s. apply bio_only_ptable. Qed.
Lemma sleep_on_only {A} c : moves bio_only (sleep_on c : kM A).
Proof. intros s. cbn. reflexivity. Qed.
#[export] Hint Resolve upd_buf_only upd_ide_only get_buf_only get_proc_only myproc_only upd_proc_only
  wakeup_only sleep_on_only : moves.

Lemma sleep_only {A} c : moves bio_only (sleep c : kM A).
Proof. unfold sleep. moves_steps. Qed.
#[export] Hint Resolve sleep_only : moves.

Lemma holdingsleep_only lk : moves bio_only (holdingsleep lk).
Proof. unfold holdingsleep. moves_steps. Qed.
Lemma acquire_buf_only b : moves bio_only (acquiresleep (buf_lock b)).
Proof. unfold acquiresleep. moves_steps. apply moves_modify. intros s. apply bio_only_bcache. Qed.
Lemma release_buf_only b : moves bio_only (releasesleep (buf_lock b)).
Proof. unfold releasesleep. moves_steps. apply moves_modify. intros s. apply bio_only_bcache. Qed.
#[export] Hint Resolve holdingsleep_only acquire_buf_only release_buf_only : moves.

Lemma idestart_only b : moves bio_only (idestart b).
Proof. unfold idestart. moves_steps. Qed.
#[export] Hint Resolve idestart_only : moves.
Lemma ideintr_only : moves bio_only ideintr.
Proof.
  unfold ideintr. moves_steps. destruct (ide_queue _) as [|b q]; moves_steps. destruct q; moves_steps.
Qed.
#[export] Hint Resolve ideintr_only : moves.
Lemma iderw_wait_only b n : moves bio_only (iderw_wait b n).
Proof. induction n as [|n IH]; cbn [iderw_wait]; moves_steps. Qed.
#[export] Hint Resolve iderw_wait_only : moves.
Lemma iderw_only b : moves bio_only (iderw b).
Proof. unfold iderw, iderw_submit. moves_steps. Qed.
#[export] Hint Resolve iderw_only : moves.

Lemma scan_only n dir test : forall b, moves bio_only (scan n dir test b).
Proof. induction n as [|n IH]; intros b; cbn [scan]; moves_steps. Qed.
#[export] Hint Resolve scan_only : moves.
Lemma bget_only dev bno : moves bio_only (bget dev bno).
Proof. unfold bget. moves_steps. Qed.
#[export] Hint Resolve bget_only : moves.
Lemma bread_only dev bno : moves bio_only (bread dev bno).
Proof. unfold bread. moves_steps. Qed.
Lemma bwrite_only b : moves bio_only (bwrite b).
Proof. unfold bwrite. moves_steps. Qed.
Lemma set_next_only b n : moves bio_only (set_next b n).
Proof. unfold set_next. moves_steps. Qed.
Lemma set_prev_only b n : moves bio_only (set_prev b n).
Proof. unfold set_prev. moves_steps. Qed.
#[export] Hint Resolve bread_only bwrite_only set_next_only set_prev_only : moves.
Lemma brelse_only b : moves bio_only (brelse b).
Proof. unfold brelse. moves_steps. Qed.
Lemma bdata_only b : moves bio_only (bdata b).
Proof. unfold bdata. moves_steps. Qed.
Lemma set_bdata_only b d : moves bio_only (set_bdata b d).
Proof. unfold set_bdata. moves_steps. Qed.
#[export] Hint Resolve brelse_only bdata_only set_bdata_only : moves.

(** A coarser relation. *)
Lemma moves_weaken {S A} (R R' : S -> S -> Prop) (m : M S A) :
  (forall s s', R s s' -> R' s s') -> moves R m -> moves R' m.
Proof. intros H Hm s. specialize (Hm s). destruct (m s); auto. Qed.
