(* ===== verification/BioSpec.v ===== *)
(** * The buffer cache: invariant and specifications

    [bio_inv] is the well-formedness of the cache, [view] the contents of a
    block as a reader gets it.  Each operation of bio.c is specified by what
    it does to the buffer it works on, and by what it leaves alone. *)

From S2P Require Import Prelude State Sleep Ide Bio.
Open Scope Z_scope.

(** ** States that differ in the cache, the disk and wakeups *)

Definition bio_frame (s s' : kernel) : Prop :=
  exists bc ide pt, s' = set_k_ptable pt (set_k_ide ide (set_k_bcache bc s))
    /\ woken (k_ptable s) pt.

#[export] Instance bio_frame_refl : Reflexive bio_frame.
Proof.
  intros s. exists (k_bcache s), (k_ide s), (k_ptable s). split; [by destruct s|done].
Qed.

#[export] Instance bio_frame_trans : Transitive bio_frame.
Proof.
  intros s1 s2 s3 (bc & ide & pt & -> & H) (bc' & ide' & pt' & -> & H').
  exists bc', ide', pt'. split; [done|]. cbn in H'. by etransitivity.
Qed.

Lemma frame_bcache s bc : bio_frame s (set_k_bcache bc s).
Proof. exists bc, (k_ide s), (k_ptable s). split; [by destruct s|done]. Qed.
Lemma frame_ide s d : bio_frame s (set_k_ide d s).
Proof. exists (k_bcache s), d, (k_ptable s). split; [by destruct s|done]. Qed.
Lemma frame_wakeup s c : bio_frame s (set_k_ptable (wakeup1_proc c <$> k_ptable s) s).
Proof.
  exists (k_bcache s), (k_ide s), (wakeup1_proc c <$> k_ptable s).
  split; [by destruct s|apply woken_wakeup1].
Qed.

(** The pid of the running process. *)
Definition cpid (s : kernel) : Z :=
  match k_cur s with Some p => p_pid (k_ptable s !!! p) | None => 0 end.

Lemma frame_cpid s s' : bio_frame s s' -> cpid s' = cpid s.
Proof.
  intros (bc & ide & pt & -> & H). unfold cpid. cbn.
  destruct (k_cur s) as [p|]; [|done]. by apply woken_pid.
Qed.
Lemma frame_cur s s' : bio_frame s s' -> k_cur s' = k_cur s.
Proof. by intros (bc & ide & pt & -> & H). Qed.
Lemma frame_log s s' : bio_frame s s' -> k_log s' = k_log s.
Proof. by intros (bc & ide & pt & -> & H). Qed.
Lemma frame_sb s s' : bio_frame s s' -> k_sb s' = k_sb s.
Proof. by intros (bc & ide & pt & -> & H). Qed.
Lemma frame_icache s s' : bio_frame s s' -> k_icache s' = k_icache s.
Proof. by intros (bc & ide & pt & -> & H). Qed.

(** ** Flags, keys and contents *)

Definition bvalid (x : buf) : bool := negb (Z.land (b_flags x) B_VALID =? 0).
Definition bdirty (x : buf) : bool := negb (Z.land (b_flags x) B_DIRTY =? 0).

(** Empty, valid, or valid and dirty. *)
Definition flags_ok (f : Z) : Prop := f = 0 \/ f = 2 \/ f = 6.

Definition bkey (x : buf) : Z * Z := (b_dev x, b_blockno x).
Definition key_ok (dev bno : Z) : Prop := (dev = 0 \/ dev = 1) /\ 0 <= bno < FSSIZE.

Lemma bkey_is_spec dev bno x : bkey_is dev bno x = true <-> bkey x = (dev, bno).
Proof.
  unfold bkey_is, bkey. rewrite andb_true_iff, !Z.eqb_eq. naive_solver.
Qed.

(** The registers select the block's sector. *)
Lemma sector_of_block x :
  key_ok (b_dev x) (b_blockno x) ->
  ide_disk_of x = b_dev x /\ ide_sector_of x = b_blockno x.
Proof.
  intros [Hd Hb]. unfold FSSIZE in Hb. split.
  { unfold ide_disk_of. by destruct Hd as [-> | ->]. }
  unfold ide_sector_of. cbv zeta. revert Hb. generalize (b_blockno x). intros n Hn.
  assert (Hall : forallb (fun n =>
    let sector := i32 (n * sector_per_block) in
    Z.lor (Z.lor (Z.land sector 255) (Z.shiftl (Z.land (Z.shiftr sector 8) 255) 8))
          (Z.lor (Z.shiftl (Z.land (Z.shiftr sector 16) 255) 16)
                 (Z.shiftl (Z.land (Z.shiftr sector 24) 15) 24)) =? n)
    (Z.of_nat <$> seq 0 1000) = true) by (vm_compute; reflexivity).
  rewrite forallb_forall in Hall. specialize (Hall n). apply Z.eqb_eq, Hall.
  apply list_elem_of_In, list_elem_of_fmap. exists (Z.to_nat n).
  split; [lia|]. apply elem_of_seq. lia.
Qed.

(** ** The invariant *)

Record buf_ok (d : gmap (Z * Z) block) (x : buf) : Prop := mkBufOk {
  bo_flags : flags_ok (b_flags x);
  bo_key : key_ok (b_dev x) (b_blockno x);
  bo_refcnt : 0 <= b_refcnt x < 2147483648;
  bo_unref : b_refcnt x = 0 -> sl_locked (b_lock x) = false;
  bo_data : block_ok (b_data x);
  bo_clean : sl_locked (b_lock x) = false -> bvalid x = true -> bdirty x = false ->
             b_data x = dget d (b_dev x) (b_blockno x)
}.

Record ide_idle (d : idestate) : Prop := mkIdeIdle {
  id_queue : ide_queue d = [];
  id_err : ide_err d = false;
  id_disk1 : ide_havedisk1 d = true;
  id_blocks : forall dev bno, block_ok (dget (ide_disk d) dev bno)
}.

Record bio_inv (s : kernel) : Prop := mkBioInv {
  bi_lru : exists l, lru (k_bcache s) l;
  bi_cur : is_Some (k_cur s);
  bi_ide : ide_idle (k_ide s);
  bi_bufs : forall b, (b < NBUF)%nat -> buf_ok (ide_disk (k_ide s)) (k_bcache s !!! b);
  bi_unique : forall i j, (i < NBUF)%nat -> (j < NBUF)%nat ->
    bkey (k_bcache s !!! i) = bkey (k_bcache s !!! j) ->
    bkey (k_bcache s !!! i) <> (0, 0) -> i = j
}.

Arguments bi_lru {s}.
Arguments bi_cur {s}.
Arguments bi_ide {s}.
Arguments bi_bufs {s}.
Arguments bi_unique {s}.
Arguments bo_flags {d x}.
Arguments bo_key {d x}.
Arguments bo_refcnt {d x}.
Arguments bo_unref {d x}.
Arguments bo_data {d x}.
Arguments bo_clean {d x}.
Arguments id_queue {d}.
Arguments id_err {d}.
Arguments id_disk1 {d}.
Arguments id_blocks {d}.

(** The process holds buffer [b]. *)
Definition holds (s : kernel) (b : nat) : Prop :=
  b_lock (k_bcache s !!! b) = mkSleeplock true (cpid s).

(** The contents of a block: the valid cached copy if there is one. *)
Definition cached (s : kernel) (dev bno : Z) : option nat :=
  find (fun i => bkey_is dev bno (k_bcache s !!! i) && bvalid (k_bcache s !!! i)) (seq 0 NBUF).
Definition view (s : kernel) (dev bno : Z) : block :=
  match cached s dev bno with
  | Some i => b_data (k_bcache s !!! i)
  | None => dget (ide_disk (k_ide s)) dev bno
  end.

Lemma cached_Some s dev bno i :
  cached s dev bno = Some i ->
  (i < NBUF)%nat /\ bkey (k_bcache s !!! i) = (dev, bno) /\ bvalid (k_bcache s !!! i) = true.
Proof.
  unfold cached. intros [Hin Ht]%find_some. apply in_seq in Hin.
  apply andb_true_iff in Ht as [Hk Hv]. apply bkey_is_spec in Hk. split_and!; [lia|done..].
Qed.

Lemma cached_None s dev bno i :
  cached s dev bno = None -> (i < NBUF)%nat -> bkey (k_bcache s !!! i) = (dev, bno) ->
  bvalid (k_bcache s !!! i) = false.
Proof.
  unfold cached. intros H Hi Hk.
  pose proof (find_none _ _ H i) as Hf. cbn beta in Hf.
  rewrite (proj2 (bkey_is_spec _ _ _) Hk) in Hf. apply Hf. apply in_seq. lia.
Qed.

Lemma view_hit s dev bno i :
  bio_inv s -> (dev, bno) <> (0, 0) -> (i < NBUF)%nat ->
  bkey (k_bcache s !!! i) = (dev, bno) -> bvalid (k_bcache s !!! i) = true ->
  view s dev bno = b_data (k_bcache s !!! i).
Proof.
  intros Hinv H0 Hi Hk Hv. unfold view. destruct (cached s dev bno) as [j|] eqn:E.
  - apply cached_Some in E as (Hj & Hkj & _). f_equal. f_equal.
    apply (bi_unique Hinv); congruence.
  - rewrite (cached_None s dev bno i) in Hv; done.
Qed.

Lemma view_miss s dev bno :
  (forall i, (i < NBUF)%nat -> bkey (k_bcache s !!! i) = (dev, bno) ->
     bvalid (k_bcache s !!! i) = false) ->
  view s dev bno = dget (ide_disk (k_ide s)) dev bno.
Proof.
  intros H. unfold view. destruct (cached s dev bno) as [j|] eqn:E; [|done].
  apply cached_Some in E as (Hj & Hkj & Hv). by rewrite H in Hv.
Qed.

(** The cache in the list order or another: only the cores matter. *)
Lemma core_fields x y :
  core x = core y ->
  b_flags x = b_flags y /\ b_dev x = b_dev y /\ b_blockno x = b_blockno y /\
  b_lock x = b_lock y /\ b_refcnt x = b_refcnt y /\ b_data x = b_data y.
Proof. destruct x, y. unfold core. cbn. intros H. by simplify_eq. Qed.

Lemma buf_ok_core d x y : core x = core y -> buf_ok d x -> buf_ok d y.
Proof.
  destruct x, y. unfold core. cbn. intros H. simplify_eq. intros []. by split.
Qed.

(** ** The disk driver on an idle disk *)

(** Symbolic execution of the table accesses. *)
Ltac kstep :=
  lazymatch goal with
  | |- wp (get_buf _) _ _ => unfold get_buf at 1; apply wp_gets
  | |- wp (upd_buf _ _) _ _ => unfold upd_buf at 1; apply wp_modify
  | |- wp (upd_ide _) _ _ => unfold upd_ide at 1; apply wp_modify
  | |- wp (set_next _ _) _ _ => unfold set_next, upd_buf at 1; apply wp_modify
  | |- wp (set_prev _ _) _ _ => unfold set_prev, upd_buf at 1; apply wp_modify
  | |- wp (wakeup _) _ _ => unfold wakeup, wakeup1; apply wp_modify
  | |- _ => wp_step
  end; ksimpl.
Ltac ksteps := repeat kstep.

(** Evaluates the flag tests on known flags. *)
Ltac flags :=
  repeat match goal with
  | |- context [Z.land ?n ?m =? ?k] =>
    let v := eval vm_compute in (Z.land n m =? k) in
    lazymatch v with
    | true => change (Z.land n m =? k) with true
    | false => change (Z.land n m =? k) with false
    end
  end; cbn [negb andb].

Lemma holding_ok lk (Q : bool -> kernel -> Prop) s :
  is_Some (k_cur s) -> lk_get lk s = mkSleeplock true (cpid s) ->
  Q true s -> wp (holdingsleep lk) Q s.
Proof.
  intros [p Hp] Hl HQ. unfold holdingsleep. wp_steps. rewrite Hl. cbn [sl_locked sl_pid].
  assert (Hc : cpid s = p_pid (k_ptable s !!! p)) by (unfold cpid; by rewrite Hp).
  unfold myproc, get_proc, gets, wp, mbind, M_bind. rewrite Hp, Hc. by rewrite Z.eqb_refl.
Qed.

(** Two updates of one element as one. *)
Lemma alter_fuse {A} `{Inhabited A} (f g h : A -> A) (l : list A) i :
  f (g (l !!! i)) = h (l !!! i) -> alter f i (alter g i l) = alter h i l.
Proof.
  intros E. rewrite list_alter_alter_eq. apply list_alter_ext; [|done].
  intros x Hx. cbn. apply lookup_total_lookup in Hx. by subst x.
Qed.

Lemma alter_same {A} `{Inhabited A} (f g : A -> A) (l : list A) i :
  f (l !!! i) = g (l !!! i) -> alter f i l = alter g i l.
Proof.
  intros E. apply list_alter_ext; [|done]. intros x Hx.
  apply lookup_total_lookup in Hx. by subst x.
Qed.

(** The buffer after its request. *)
Definition buf_done (data : block) (x : buf) : buf := set_b_flags 2 (set_b_data data x).

Section iderw.
Context (s : kernel) (b : nat).
Let x := k_bcache s !!! b.
Hypothesis Hlen : length (k_bcache s) = S NBUF.
Hypothesis Hb : (b < NBUF)%nat.
Hypothesis Hcur : is_Some (k_cur s).
Hypothesis Hidle : ide_idle (k_ide s).
Hypothesis Hh : holds s b.
Hypothesis Hk : key_ok (b_dev x) (b_blockno x).

(** Up to the request's submission to the idle disk. *)
Lemma iderw_submit_idle (Q : unit -> kernel -> Prop) :
  (Z.land (b_flags x) (Z.lor B_VALID B_DIRTY) =? B_VALID) = false ->
  wp (idestart b) Q (set_k_ide (set_ide_queue [b] (k_ide s)) s) ->
  wp (iderw_submit b) Q s.
Proof.
  intros Hf HQ. destruct Hidle as [Hq Herr Hd1 Hbl]. unfold iderw_submit.
  wp_step. apply holding_ok; [done|done|].
  wp_step. apply wp_panic_if; [done|]. ksteps. apply wp_panic_if; [done|]. ksteps.
  apply wp_panic_if; [by rewrite Hd1, andb_false_r|]. ksteps.
  rewrite Hq. cbn [app head]. by rewrite bool_decide_eq_true_2.
Qed.

Lemma iderw_read :
  b_flags x = 0 ->
  wp (iderw b) (fun _ s' => bio_frame s s'
    /\ k_bcache s' = alter (buf_done (dget (ide_disk (k_ide s)) (b_dev x) (b_blockno x))) b (k_bcache s)
    /\ ide_idle (k_ide s') /\ ide_disk (k_ide s') = ide_disk (k_ide s)
    /\ ide_writes (k_ide s') = ide_writes (k_ide s)) s.
Proof.
  intros Hf. destruct (sector_of_block _ Hk) as [Hsd Hss].
  destruct Hidle as [Hq Herr Hd1 Hbl].
  unfold iderw. wp_step. apply iderw_submit_idle; [by rewrite Hf|].
  unfold idestart. ksteps. fold x. apply wp_panic_if; [destruct Hk; lia|]. wp_step.
  apply wp_panic_if; [done|]. rewrite Hf. flags. ksteps.
  cbn [length iderw_wait]. ksteps. fold x. rewrite Hf. flags. unfold ideintr. ksteps.
  fold x. rewrite Herr, Hf. flags. ksteps. rewrite Hsd, Hss.
  rewrite !alter_total_eq by (rewrite ?length_alter; lia). fold x. ksimpl. rewrite Hf. flags.
  apply wp_ret. ksimpl. split_and!; [| |done..].
  - eexists _, _, _. split; [done|]. apply woken_wakeup1.
  - apply alter_fuse. fold x. unfold buf_done. ksimpl. by rewrite Hf.
Qed.

Lemma iderw_write :
  b_flags x = 6 -> block_ok (b_data x) ->
  wp (iderw b) (fun _ s' => bio_frame s s'
    /\ k_bcache s' = alter (buf_done (b_data x)) b (k_bcache s)
    /\ ide_idle (k_ide s')
    /\ ide_disk (k_ide s') = <[(b_dev x, b_blockno x) := b_data x]> (ide_disk (k_ide s))
    /\ ide_writes (k_ide s') = ide_writes (k_ide s) ++ [(b_dev x, b_blockno x, b_data x)]) s.
Proof.
  intros Hf Hdata. destruct (sector_of_block _ Hk) as [Hsd Hss].
  destruct Hidle as [Hq Herr Hd1 Hbl].
  unfold iderw. wp_step. apply iderw_submit_idle; [by rewrite Hf|].
  unfold idestart. ksteps. fold x. apply wp_panic_if; [destruct Hk; lia|]. wp_step.
  apply wp_panic_if; [done|]. rewrite Hf. flags. ksteps.
  cbn [length iderw_wait]. ksteps. fold x. rewrite Hf. flags. unfold ideintr. ksteps.
  fold x. rewrite Hf. flags. ksteps. rewrite Hsd, Hss.
  rewrite !alter_total_eq by (rewrite ?length_alter; lia). fold x. ksimpl. rewrite Hf. flags.
  apply wp_ret. ksimpl. split_and!; [| | |done|done].
  - eexists _, _, _. split; [done|]. apply woken_wakeup1.
  - apply alter_same. fold x. unfold buf_done. ksimpl. rewrite Hf. by destruct x.
  - split; try done. intros dev bno. unfold dget. ksimpl.
    destruct (decide ((dev, bno) = (b_dev x, b_blockno x))) as [->|Hne].
    + by rewrite lookup_insert_eq.
    + rewrite lookup_insert_ne by done. apply Hbl.
Qed.
End iderw.

(** ** Taking a buffer *)

Lemma acquiresleep_ok lk (Q : unit -> kernel -> Prop) s :
  is_Some (k_cur s) -> sl_locked (lk_get lk s) = false ->
  Q tt (lk_set lk (mkSleeplock true (cpid s)) s) -> wp (acquiresleep lk) Q s.
Proof.
  intros [p Hp] Hl HQ. unfold acquiresleep. wp_steps. rewrite Hl.
  assert (Hc : cpid s = p_pid (k_ptable s !!! p)) by (unfold cpid; by rewrite Hp).
  rewrite Hc in HQ. unfold myproc, get_proc, gets, modify, wp, mbind, M_bind. by rewrite Hp.
Qed.

(** The block is in the cache. *)
Definition incache (s : kernel) (dev bno : Z) : Prop :=
  exists i, (i < NBUF)%nat /\ bkey (k_bcache s !!! i) = (dev, bno).
(** Nobody has a reference to the block's buffer. *)
Definition unref (s : kernel) (dev bno : Z) : Prop :=
  forall i, (i < NBUF)%nat -> bkey (k_bcache s !!! i) = (dev, bno) -> b_refcnt (k_bcache s !!! i) = 0.
(** A buffer can be recycled. *)
Definition room (s : kernel) : Prop :=
  exists i, (i < NBUF)%nat /\ bunused (k_bcache s !!! i) = true.

(** A buffer just taken by process [pid]. *)
Definition bheld (pid : Z) (x : buf) : buf := set_b_lock (mkSleeplock true pid) (set_b_refcnt 1 x).

Lemma bget_hit s dev bno :
  bio_inv s -> (dev, bno) <> (0, 0) -> unref s dev bno -> incache s dev bno ->
  exists b, (b < NBUF)%nat /\ bkey (k_bcache s !!! b) = (dev, bno) /\
    bget dev bno s = Ok b (set_k_bcache (alter (bheld (cpid s)) b (k_bcache s)) s).
Proof.
  intros Hinv Hk0 Hun (b & Hb & Hk). exists b. split_and!; [done..|].
  destruct (bi_lru Hinv) as [l Hl].
  assert (Hfind : find (fun i => bkey_is dev bno (k_bcache s !!! i)) l = Some b).
  { destruct (find _ l) as [j|] eqn:E.
    - apply find_some in E as [Hj Hkj]. apply list_elem_of_In, (lru_mem _ _ _ Hl) in Hj.
      apply bkey_is_spec in Hkj. f_equal. apply (bi_unique Hinv); congruence.
    - pose proof (find_none _ _ E b) as Hn. cbn beta in Hn.
      rewrite (proj2 (bkey_is_spec _ _ _) Hk) in Hn.
      discriminate Hn. by apply list_elem_of_In, (lru_mem _ _ _ Hl). }
  destruct Hl as (Hlen & Hperm & Hseg).
  assert (Hl : lru (k_bcache s) l) by done.
  unfold bget. erewrite bind_ok by done. fold (nx (k_bcache s) HEAD).
  erewrite bind_ok by (apply scan_next; [exact Hseg|by eapply lru_head|
    rewrite (lru_length _ _ Hl); lia]).
  rewrite Hfind.
  enough (Hw : wp (upd_buf b (fun x => set_b_refcnt (u32 (b_refcnt x + 1)) x);;
      acquiresleep (buf_lock b);; mret b)
      (fun r s' => r = b /\ s' = set_k_bcache (alter (bheld (cpid s)) b (k_bcache s)) s) s).
  { apply wp_ok in Hw as (? & ? & -> & -> & ->). done. }
  kstep. kstep. wp_step.
  destruct (bi_bufs Hinv b Hb) as [_ _ _ Hunref _ _].
  apply acquiresleep_ok.
  - apply (bi_cur Hinv).
  - cbn [lk_get buf_lock]. ksimpl. rewrite alter_total_eq by lia. by apply Hunref, Hun.
  - apply wp_ret. split; [done|]. cbn [lk_set buf_lock]. ksimpl. unfold set_k_bcache. f_equal.
    apply alter_fuse. rewrite Hun by done. unfold bheld. done.
Qed.

Lemma bget_miss s dev bno :
  bio_inv s -> ~ incache s dev bno -> room s ->
  exists b, (b < NBUF)%nat /\ bunused (k_bcache s !!! b) = true /\
    bget dev bno s = Ok b (set_k_bcache (alter (fun x => bheld (cpid s)
      (set_b_flags 0 (set_b_blockno bno (set_b_dev dev x)))) b (k_bcache s)) s).
Proof.
  intros Hinv Hnc (b0 & Hb0 & Hu0).
  destruct (bi_lru Hinv) as [l Hl].
  assert (Hmiss : find (fun i => bkey_is dev bno (k_bcache s !!! i)) l = None).
  { destruct (find _ l) as [j|] eqn:E; [|done]. exfalso. apply Hnc.
    apply find_some in E as [Hj Hkj]. exists j.
    apply list_elem_of_In, (lru_mem _ _ _ Hl) in Hj. split; [done|]. by apply bkey_is_spec. }
  destruct (find (fun i => bunused (k_bcache s !!! i)) (rev l)) as [b|] eqn:Hfind; last first.
  { pose proof (find_none _ _ Hfind b0) as Hn. cbn beta in Hn. rewrite Hu0 in Hn.
    discriminate Hn. rewrite <- in_rev. by apply list_elem_of_In, (lru_mem _ _ _ Hl). }
  pose proof Hfind as Hf. apply find_some in Hf as [Hin Hu]. rewrite <- in_rev in Hin.
  apply list_elem_of_In, (lru_mem _ _ _ Hl) in Hin.
  exists b. split_and!; [done..|].
  pose proof Hl as (Hlen & Hperm & Hseg).
  unfold bget. erewrite bind_ok by done. fold (nx (k_bcache s) HEAD).
  erewrite bind_ok by (apply scan_next; [exact Hseg|by eapply lru_head|
    rewrite (lru_length _ _ Hl); lia]).
  rewrite Hmiss. erewrite bind_ok by done. fold (pv (k_bcache s) HEAD).
  erewrite bind_ok by (apply scan_prev; [exact Hseg|by eapply lru_head|
    rewrite (lru_length _ _ Hl); lia]).
  rewrite Hfind.
  match goal with |- ?m s = Ok b ?t => enough (Hw : wp m (fun r s' => r = b /\ s' = t) s) end.
  { apply wp_ok in Hw as (? & ? & -> & -> & ->). done. }
  kstep. kstep. wp_step.
  destruct (bi_bufs Hinv b Hin) as [_ _ _ Hunref _ _].
  unfold bunused in Hu. apply andb_true_iff in Hu as [Hr _]. apply Z.eqb_eq in Hr.
  apply acquiresleep_ok.
  - apply (bi_cur Hinv).
  - cbn [lk_get buf_lock]. ksimpl. rewrite alter_total_eq by lia. by apply Hunref.
  - apply wp_ret. split; [done|]. cbn [lk_set buf_lock]. ksimpl. unfold set_k_bcache. f_equal.
    by apply alter_fuse.
Qed.

(** A dirty cached copy of the block exists. *)
Definition dirty (s : kernel) (dev bno : Z) : Prop :=
  exists i, (i < NBUF)%nat /\ bkey (k_bcache s !!! i) = (dev, bno) /\ bdirty (k_bcache s !!! i) = true.

(** [view] and [dirty] depend on the keys, flags and data only. *)
Definition same_slot (x y : buf) : Prop :=
  bkey x = bkey y /\ b_flags x = b_flags y /\ b_data x = b_data y.

Lemma find_ext {A} (f g : A -> bool) l : (forall x, In x l -> f x = g x) -> find f l = find g l.
Proof.
  induction l as [|a l IH]; intros H; [done|]. cbn.
  rewrite H by (by left). destruct (g a); [done|]. apply IH. intros. apply H. by right.
Qed.

Lemma view_ext s s' dev bno :
  (forall i, (i < NBUF)%nat -> same_slot (k_bcache s' !!! i) (k_bcache s !!! i)) ->
  ide_disk (k_ide s') = ide_disk (k_ide s) -> view s' dev bno = view s dev bno.
Proof.
  intros H Hd. unfold view.
  assert (Hc : cached s' dev bno = cached s dev bno).
  { apply find_ext. intros i Hi%in_seq. destruct (H i) as (Hk & Hf & _); [lia|].
    unfold bkey_is, bvalid. unfold bkey in Hk. by simplify_eq; rewrite Hf; f_equal; congruence. }
  rewrite Hc, Hd. destruct (cached s dev bno) as [i|] eqn:E; [|done].
  apply cached_Some in E as (Hi & _). by destruct (H i Hi) as (_ & _ & ?).
Qed.

Lemma dirty_ext s s' dev bno :
  (forall i, (i < NBUF)%nat -> same_slot (k_bcache s' !!! i) (k_bcache s !!! i)) ->
  dirty s' dev bno <-> dirty s dev bno.
Proof.
  intros H. unfold dirty, bdirty.
  split; intros (i & Hi & Hk & Hd); exists i; destruct (H i Hi) as (Ek & Ef & _);
    split_and!; [done|congruence| |done|congruence|]; [by rewrite <- Ef|by rewrite Ef].
Qed.

(** The process has taken buffer [b] of block [(dev, bno)]. *)
Record took (s s' : kernel) (dev bno : Z) (b : nat) : Prop := mkTook {
  tk_b : (b < NBUF)%nat;
  tk_inv : bio_inv s';
  tk_frame : bio_frame s s';
  tk_key : bkey (k_bcache s' !!! b) = (dev, bno);
  tk_holds : holds s' b;
  tk_ref : b_refcnt (k_bcache s' !!! b) = 1;
  tk_free : b_refcnt (k_bcache s !!! b) = 0;
  tk_valid : bvalid (k_bcache s' !!! b) = true;
  tk_data : b_data (k_bcache s' !!! b) = view s dev bno;
  tk_clean : bdirty (k_bcache s' !!! b) = false ->
    b_data (k_bcache s' !!! b) = dget (ide_disk (k_ide s)) dev bno;
  tk_others : forall i, i <> b -> k_bcache s' !!! i = k_bcache s !!! i;
  tk_disk : ide_disk (k_ide s') = ide_disk (k_ide s);
  tk_writes : ide_writes (k_ide s') = ide_writes (k_ide s);
  tk_view : forall d n, (d, n) <> (0, 0) -> view s' d n = view s d n;
  tk_dirty : forall d n, dirty s' d n <-> dirty s d n
}.

Arguments tk_b {s s' dev bno b}.
Arguments tk_inv {s s' dev bno b}.
Arguments tk_frame {s s' dev bno b}.
Arguments tk_key {s s' dev bno b}.
Arguments tk_holds {s s' dev bno b}.
Arguments tk_ref {s s' dev bno b}.
Arguments tk_free {s s' dev bno b}.
Arguments tk_valid {s s' dev bno b}.
Arguments tk_data {s s' dev bno b}.
Arguments tk_clean {s s' dev bno b}.
Arguments tk_others {s s' dev bno b}.
Arguments tk_disk {s s' dev bno b}.
Arguments tk_writes {s s' dev bno b}.
Arguments tk_view {s s' dev bno b}.
Arguments tk_dirty {s s' dev bno b}.

(** Taking a buffer keeps the invariant, whatever slot it replaces. *)
Lemma bio_inv_take s s' b y :
  bio_inv s -> (b < NBUF)%nat -> bio_frame s s' -> k_bcache s' !!! b = y ->
  b_next y = nx (k_bcache s) b -> b_prev y = pv (k_bcache s) b ->
  length (k_bcache s') = length (k_bcache s) ->
  (forall i, i <> b -> k_bcache s' !!! i = k_bcache s !!! i) ->
  ide_idle (k_ide s') -> ide_disk (k_ide s') = ide_disk (k_ide s) ->
  buf_ok (ide_disk (k_ide s)) y ->
  (bkey y <> (0, 0) -> forall i, (i < NBUF)%nat -> i <> b -> bkey (k_bcache s !!! i) <> bkey y) ->
  bio_inv s'.
Proof.
  intros Hinv Hb Hfr Hy Hn Hp Hlen Hoth Hidle Hd Hok Huniq. split.
  - destruct (bi_lru Hinv) as (l & Hl & Hperm & Hseg). exists l. split_and!; [congruence|done|].
    eapply seg_ext; [| |exact Hseg]; intros i _; unfold nx, pv;
      (destruct (decide (i = b)) as [->|]; [by rewrite Hy|by rewrite Hoth]).
  - rewrite (frame_cur _ _ Hfr). apply (bi_cur Hinv).
  - done.
  - intros i Hi. rewrite Hd. destruct (decide (i = b)) as [->|]; [by rewrite Hy|].
    rewrite Hoth by done. by apply (bi_bufs Hinv).
  - intros i j Hi Hj Hk H0.
    destruct (decide (i = b)) as [->|], (decide (j = b)) as [->|]; [done| | |].
    + rewrite Hy in *. rewrite (Hoth j) in * by done. by destruct (Huniq H0 j).
    + rewrite (Hoth i), Hy in * by done. destruct (Huniq ltac:(congruence) i); done.
    + rewrite !Hoth in * by done. by apply (bi_unique Hinv).
Qed.

(** The view after the slot of a clean, unreferenced buffer [b] has been
    filled with the disk's contents of another block. *)
Lemma view_fill s s' b dev bno :
  bio_inv s -> bio_inv s' -> (b < NBUF)%nat -> (dev, bno) <> (0, 0) ->
  b_refcnt (k_bcache s !!! b) = 0 -> bdirty (k_bcache s !!! b) = false ->
  (bkey (k_bcache s !!! b) = (dev, bno) -> bvalid (k_bcache s !!! b) = false) ->
  (forall i, (i < NBUF)%nat -> i <> b -> bkey (k_bcache s !!! i) <> (dev, bno)) ->
  (forall i, i <> b -> k_bcache s' !!! i = k_bcache s !!! i) ->
  bkey (k_bcache s' !!! b) = (dev, bno) -> bvalid (k_bcache s' !!! b) = true ->
  ide_disk (k_ide s') = ide_disk (k_ide s) ->
  b_data (k_bcache s' !!! b) = dget (ide_disk (k_ide s)) dev bno ->
  b_data (k_bcache s' !!! b) = view s dev bno /\
  forall d n, (d, n) <> (0, 0) -> view s' d n = view s d n.
Proof.
  intros Hinv Hinv' Hb Hk0 Href Hcl Hkb Huniq Hoth Hk' Hv' Hd Hdata.
  assert (Hv : view s dev bno = dget (ide_disk (k_ide s)) dev bno).
  { apply view_miss. intros i Hi Hki. destruct (decide (i = b)) as [->|Hne]; [by apply Hkb|].
    by destruct (Huniq i Hi Hne). }
  split; [congruence|]. intros d n Hdn.
  destruct (decide ((d, n) = (dev, bno))) as [E|Hne].
  { injection E as -> ->. rewrite (view_hit s' dev bno b) by done. congruence. }
  destruct (decide (bkey (k_bcache s !!! b) = (d, n) /\ bvalid (k_bcache s !!! b) = true)) as [[Hkd Hvd]|Hno].
  - rewrite (view_hit s d n b) by done. rewrite view_miss.
    + destruct (bi_bufs Hinv b Hb) as [_ _ _ Hun _ Hclean].
      rewrite Hd, Hclean by auto. unfold bkey in Hkd. by simplify_eq.
    + intros i Hi Hki. destruct (decide (i = b)) as [->|Hib]; [congruence|].
      rewrite Hoth in * by done. destruct Hib. apply (bi_unique Hinv); congruence.
  - unfold view. assert (Hc : cached s' d n = cached s d n).
    { apply find_ext. intros i Hi%in_seq. destruct (decide (i = b)) as [->|Hib]; [|by rewrite Hoth].
      destruct (bkey_is d n (k_bcache s' !!! b)) eqn:E'; [apply bkey_is_spec in E'; congruence|].
      destruct (bkey_is d n (k_bcache s !!! b)) eqn:E; [|done].
      apply bkey_is_spec in E. destruct (bvalid (k_bcache s !!! b)) eqn:Ev; [|done].
      by destruct Hno. }
    rewrite Hc, Hd. destruct (cached s d n) as [i|] eqn:E; [|done].
    destruct (decide (i = b)) as [->|Hib]; [|by rewrite Hoth].
    apply cached_Some in E as (_ & ? & ?). by destruct Hno.
Qed.

Lemma dirty_fill s s' b :
  bdirty (k_bcache s !!! b) = false -> bdirty (k_bcache s' !!! b) = false ->
  (forall i, i <> b -> k_bcache s' !!! i = k_bcache s !!! i) ->
  forall d n, dirty s' d n <-> dirty s d n.
Proof.
  intros Hb Hb' Hoth d n. split; intros (i & Hi & Hk & Hd); exists i;
    (destruct (decide (i = b)) as [->|Hib]; [congruence|]).
  - by rewrite Hoth in * by done.
  - by rewrite Hoth by done.
Qed.

Lemma bread_fill s b dev bno g :
  bio_inv s -> (b < NBUF)%nat -> key_ok dev bno -> (dev, bno) <> (0, 0) ->
  b_refcnt (k_bcache s !!! b) = 0 -> bdirty (k_bcache s !!! b) = false ->
  (bkey (k_bcache s !!! b) = (dev, bno) -> bvalid (k_bcache s !!! b) = false) ->
  (forall i, (i < NBUF)%nat -> i <> b -> bkey (k_bcache s !!! i) <> (dev, bno)) ->
  g (k_bcache s !!! b) = bheld (cpid s) (set_b_flags 0 (set_b_blockno bno
    (set_b_dev dev (k_bcache s !!! b)))) ->
  wp (iderw b) (fun _ s' => took s s' dev bno b) (set_k_bcache (alter g b (k_bcache s)) s).
Proof.
  intros Hinv Hb Hkey Hk0 Href Hcl Hkb Huniq Hg.
  destruct (bi_lru Hinv) as (l & Hlen & Hperm & Hseg).
  set (s1 := set_k_bcache (alter g b (k_bcache s)) s).
  assert (Hx : k_bcache s1 !!! b = g (k_bcache s !!! b)) by (apply alter_total_eq; lia).
  eapply wp_mono; [apply iderw_read|].
  - unfold s1. ksimpl. rewrite length_alter. done.
  - done.
  - apply (bi_cur Hinv).
  - apply (bi_ide Hinv).
  - unfold holds. rewrite Hx, Hg. done.
  - rewrite Hx, Hg. done.
  - rewrite Hx, Hg. done.
  - intros _ s' (Hfr & Hbc & Hidle & Hd & Hw). unfold s1 in Hbc, Hd, Hw. ksimpl in Hbc. ksimpl in Hd. ksimpl in Hw.
    assert (Hfr' : bio_frame s s') by (etransitivity; [apply frame_bcache|done]).
    assert (Hoth : forall i, i <> b -> k_bcache s' !!! i = k_bcache s !!! i).
    { intros i Hi. rewrite Hbc, !alter_total_ne by done. done. }
    assert (Hy : k_bcache s' !!! b = buf_done (dget (ide_disk (k_ide s)) dev bno) (g (k_bcache s !!! b))).
    { rewrite Hbc, !alter_total_eq by (rewrite ?length_alter; lia). by rewrite Hg. }
    rewrite Hg in Hy.
    assert (Hinv' : bio_inv s').
    { apply bio_inv_take with (s := s) (b := b) (y := k_bcache s' !!! b); try done; [by rewrite Hy|by rewrite Hy| | |].
      - by rewrite Hbc, !length_alter.
      - rewrite Hy. split; cbn; try done; [by right; left|].
        apply (id_blocks (bi_ide Hinv)).
      - rewrite Hy. done. }
    destruct (view_fill s s' b dev bno) as [Hdata Hview]; try done; try (by rewrite Hy).
    split; try done; try (by rewrite Hy).
    + unfold holds. rewrite Hy, (frame_cpid _ _ Hfr'). done.
    + apply (dirty_fill s s' b); [done|by rewrite Hy|done].
Qed.

Lemma bread_spec s dev bno :
  bio_inv s -> key_ok dev bno -> (dev, bno) <> (0, 0) ->
  unref s dev bno -> incache s dev bno \/ room s ->
  wp (bread dev bno) (fun b s' => took s s' dev bno b) s.
Proof.
  intros Hinv Hkey Hk0 Hun Hav.
  assert (Hlen : length (k_bcache s) = S NBUF) by (by destruct (bi_lru Hinv) as (l & ? & _)).
  assert (Hdec : incache s dev bno \/ ~ incache s dev bno).
  { destruct (find (fun i => bkey_is dev bno (k_bcache s !!! i)) (seq 0 NBUF)) as [i|] eqn:E.
    - left. apply find_some in E as [Hi%in_seq Hk]. exists i. split; [lia|]. by apply bkey_is_spec.
    - right. intros (i & Hi & Hk). apply bkey_is_spec in Hk.
      pose proof (find_none _ _ E i) as Hn. cbn beta in Hn. rewrite Hk in Hn.
      discriminate Hn. apply in_seq. lia. }
  unfold bread. wp_step. destruct Hdec as [Hin|Hnin].
  - destruct (bget_hit s dev bno Hinv Hk0 Hun Hin) as (b & Hb & Hk & E).
    eapply wp_intro; [exact E|]. ksteps.
    assert (Hfree : b_refcnt (k_bcache s !!! b) = 0) by by apply Hun.
    assert (Huniq : forall i, (i < NBUF)%nat -> i <> b -> bkey (k_bcache s !!! i) <> (dev, bno)).
    { intros i Hi Hib Hki. destruct Hib. apply (bi_unique Hinv); congruence. }
    rewrite alter_total_eq by lia. pose proof (bi_bufs Hinv b Hb) as Hok.
    assert (Hfl : b_flags (bheld (cpid s) (k_bcache s !!! b)) = b_flags (k_bcache s !!! b)) by done.
    rewrite Hfl. destruct (decide (b_flags (k_bcache s !!! b) = 0)) as [Hf|Hf].
    + rewrite Hf. flags. eapply wp_mono; [apply bread_fill with (dev := dev) (bno := bno)|].
      all: try done.
      * unfold bdirty. by rewrite Hf.
      * unfold bvalid. by rewrite Hf.
      * unfold bkey in Hk. destruct (k_bcache s !!! b). cbn in *. by simplify_eq.
    + assert (Hval : bvalid (k_bcache s !!! b) = true).
      { unfold bvalid. destruct (bo_flags Hok) as [?|[-> | ->]]; done. }
      rewrite (proj2 (Z.eqb_neq _ _)); last first.
      { unfold bvalid in Hval. by apply negb_true_iff, Z.eqb_neq in Hval. }
      wp_steps. set (s' := set_k_bcache _ s).
      assert (Hoth : forall i, i <> b -> k_bcache s' !!! i = k_bcache s !!! i).
      { intros i Hi. unfold s'. ksimpl. by rewrite alter_total_ne. }
      assert (Hy : k_bcache s' !!! b = bheld (cpid s) (k_bcache s !!! b)) by (apply alter_total_eq; lia).
      assert (Hfr : bio_frame s s') by apply frame_bcache.
      assert (Hslots : forall i, (i < NBUF)%nat -> same_slot (k_bcache s' !!! i) (k_bcache s !!! i)).
      { intros i _. destruct (decide (i = b)) as [->|Hib]; [by rewrite Hy|by rewrite Hoth]. }
      split; try done; try (by rewrite Hy).
      * apply bio_inv_take with (s := s) (b := b) (y := bheld (cpid s) (k_bcache s !!! b)); try done.
        -- unfold s'. ksimpl. by rewrite length_alter.
        -- apply (bi_ide Hinv).
        -- destruct Hok. by split.
        -- intros _ i Hi Hib. unfold bkey in Hk |- *. cbn [bheld b_dev b_blockno set_b_lock set_b_refcnt].
           rewrite Hk. by apply Huniq.
      * unfold holds. by rewrite Hy.
      * rewrite Hy. symmetry. by apply view_hit.
      * rewrite Hy. intros Hnd. destruct Hok as [_ _ _ Hu _ Hcl].
        unfold bkey in Hk. injection Hk as <- <-. by apply Hcl; auto.
      * intros d n _. by apply view_ext.
      * intros d n. by apply dirty_ext.
  - destruct Hav as [?|Hroom]; [done|].
    destruct (bget_miss s dev bno Hinv Hnin Hroom) as (b & Hb & Hu & E).
    eapply wp_intro; [exact E|]. ksteps. rewrite alter_total_eq by lia.
    assert (Hfl : b_flags (bheld (cpid s) (set_b_flags 0 (set_b_blockno bno
      (set_b_dev dev (k_bcache s !!! b))))) = 0) by done.
    rewrite Hfl. flags.
    unfold bunused in Hu. apply andb_true_iff in Hu as [Hr Hcl].
    apply Z.eqb_eq in Hr. eapply wp_mono; [apply bread_fill with (dev := dev) (bno := bno)|].
    all: try done.
    + unfold bdirty. by rewrite Hcl.
    + intros Hk. destruct Hnin. by exists b.
    + intros i Hi Hib Hk. destruct Hnin. by exists i.
Qed.

(** ** Writing and releasing a buffer *)

Lemma holds_locked s b : holds s b -> sl_locked (b_lock (k_bcache s !!! b)) = true.
Proof. unfold holds. by intros ->. Qed.

(** A held buffer is changed in place. *)
Lemma bio_inv_held s b f :
  bio_inv s -> (b < NBUF)%nat -> holds s b ->
  (forall x, b_next (f x) = b_next x) -> (forall x, b_prev (f x) = b_prev x) ->
  bkey (f (k_bcache s !!! b)) = bkey (k_bcache s !!! b) ->
  b_lock (f (k_bcache s !!! b)) = b_lock (k_bcache s !!! b) ->
  b_refcnt (f (k_bcache s !!! b)) = b_refcnt (k_bcache s !!! b) ->
  flags_ok (b_flags (f (k_bcache s !!! b))) -> block_ok (b_data (f (k_bcache s !!! b))) ->
  bio_inv (set_k_bcache (alter f b (k_bcache s)) s).
Proof.
  intros Hinv Hb Hh Hn Hp Hk Hl Hr Hfl Hda.
  destruct (bi_lru Hinv) as (l & Hlru).
  assert (Hlen : length (k_bcache s) = S NBUF) by apply Hlru.
  assert (Hk' : forall i, bkey (alter f b (k_bcache s) !!! i) = bkey (k_bcache s !!! i)).
  { intros i. rewrite alter_total by lia. case_decide; [by subst i|done]. }
  split; ksimpl.
  - exists l. by apply lru_alter.
  - apply (bi_cur Hinv).
  - apply (bi_ide Hinv).
  - intros i Hi. rewrite alter_total by lia. case_decide; [|by apply (bi_bufs Hinv)].
    apply holds_locked in Hh. destruct (bi_bufs Hinv b Hb).
    unfold bkey in Hk. injection Hk as Hk1 Hk2.
    split; try done; rewrite ?Hk1, ?Hk2, ?Hr, ?Hl; try done. congruence.
  - intros i j Hi Hj. rewrite !Hk'. by apply (bi_unique Hinv).
Qed.

Lemma view_set_data s b d dev bno :
  bio_inv s -> (b < NBUF)%nat -> holds s b -> bvalid (k_bcache s !!! b) = true ->
  bkey (k_bcache s !!! b) = (dev, bno) -> (dev, bno) <> (0, 0) -> block_ok d ->
  forall dv n, (dv, n) <> (0, 0) ->
    view (set_k_bcache (alter (set_b_data d) b (k_bcache s)) s) dv n
    = if decide ((dv, n) = (dev, bno)) then d else view s dv n.
Proof.
  intros Hinv Hb Hh Hv Hk H0 Hd dv n Hn.
  assert (Hlen : length (k_bcache s) = S NBUF) by (by destruct (bi_lru Hinv) as (l & ? & _)).
  assert (Hinv' : bio_inv (set_k_bcache (alter (set_b_data d) b (k_bcache s)) s)).
  { apply bio_inv_held; try done. apply (bi_bufs Hinv b Hb). }
  case_decide as E.
  - injection E as -> ->. rewrite (view_hit _ dev bno b); try done; ksimpl; by rewrite alter_total_eq by lia.
  - unfold view.
    assert (Hc : cached (set_k_bcache (alter (set_b_data d) b (k_bcache s)) s) dv n = cached s dv n).
    { apply find_ext. intros i Hi%in_seq. ksimpl. rewrite alter_total by lia.
      case_decide; [by subst i|done]. }
    rewrite Hc. destruct (cached s dv n) as [i|] eqn:Ei; [|done]. ksimpl.
    apply cached_Some in Ei as (Hi & Hki & _). rewrite alter_total_ne; [done|].
    intros ->. congruence.
Qed.

(** What bwrite does. *)
Record wrote (s s' : kernel) (b : nat) : Prop := mkWrote {
  wr_inv : bio_inv s';
  wr_frame : bio_frame s s';
  wr_bcache : k_bcache s' = alter (set_b_flags 2) b (k_bcache s);
  wr_disk : ide_disk (k_ide s') =
    <[bkey (k_bcache s !!! b) := b_data (k_bcache s !!! b)]> (ide_disk (k_ide s));
  wr_writes : ide_writes (k_ide s') =
    ide_writes (k_ide s) ++ [(bkey (k_bcache s !!! b), b_data (k_bcache s !!! b))];
  wr_view : forall d n, (d, n) <> (0, 0) -> view s' d n = view s d n
}.

Arguments wr_inv {s s' b}.
Arguments wr_frame {s s' b}.
Arguments wr_bcache {s s' b}.
Arguments wr_disk {s s' b}.
Arguments wr_writes {s s' b}.
Arguments wr_view {s s' b}.

Lemma bwrite_spec s b :
  bio_inv s -> (b < NBUF)%nat -> holds s b -> bvalid (k_bcache s !!! b) = true ->
  bkey (k_bcache s !!! b) <> (0, 0) ->
  wp (bwrite b) (fun _ s' => wrote s s' b) s.
Proof.
  intros Hinv Hb Hh Hv H0.
  assert (Hlen : length (k_bcache s) = S NBUF) by (by destruct (bi_lru Hinv) as (l & ? & _)).
  pose proof (bi_bufs Hinv b Hb) as Hok.
  assert (Hf : b_flags (k_bcache s !!! b) = 2 \/ b_flags (k_bcache s !!! b) = 6).
  { unfold bvalid in Hv. destruct (bo_flags Hok) as [E|E]; [by rewrite E in Hv|done]. }
  unfold bwrite. wp_step. apply holding_ok; [apply (bi_cur Hinv)|done|].
  wp_step. apply wp_panic_if; [done|]. ksteps.
  set (s1 := set_k_bcache (alter _ b (k_bcache s)) s).
  assert (Hx : k_bcache s1 !!! b = set_b_flags (Z.lor (b_flags (k_bcache s !!! b)) B_DIRTY)
                                     (k_bcache s !!! b))
    by (unfold s1; ksimpl; by rewrite alter_total_eq by lia).
  eapply wp_mono; [apply iderw_write|].
  - unfold s1. ksimpl. by rewrite length_alter.
  - done.
  - apply (bi_cur Hinv).
  - apply (bi_ide Hinv).
  - unfold holds. by rewrite Hx.
  - rewrite Hx. apply (bo_key Hok).
  - rewrite Hx. ksimpl. by destruct Hf as [-> | ->].
  - rewrite Hx. apply (bo_data Hok).
  - intros _ s' (Hfr & Hbc & Hidle & Hd & Hw). rewrite Hx in Hbc, Hd, Hw. ksimpl in Hbc.
    ksimpl in Hd. ksimpl in Hw. unfold s1 in Hbc, Hd, Hw. ksimpl in Hbc. ksimpl in Hd. ksimpl in Hw.
    assert (Hbc' : k_bcache s' = alter (set_b_flags 2) b (k_bcache s)).
    { rewrite Hbc. apply alter_fuse. unfold buf_done. ksimpl. by destruct (k_bcache s !!! b). }
    assert (Hfr' : bio_frame s s') by (etransitivity; [apply frame_bcache|done]).
    assert (Hk' : forall i, bkey (k_bcache s' !!! i) = bkey (k_bcache s !!! i)).
    { intros i. rewrite Hbc', alter_total by lia. case_decide; [by subst i|done]. }
    assert (Hinv' : bio_inv s').
    { split.
      - destruct (bi_lru Hinv) as [l Hl]. exists l. rewrite Hbc'. by apply lru_alter.
      - rewrite (frame_cur _ _ Hfr'). apply (bi_cur Hinv).
      - done.
      - intros i Hi. rewrite Hbc', alter_total by lia. rewrite Hd. case_decide as E.
        + subst i. apply holds_locked in Hh. destruct Hok. split; ksimpl; try done; [by right; left|congruence].
        + pose proof (bi_bufs Hinv i Hi) as [? ? ? ? ? Hcl]. split; try done.
          intros Hl Hvi Hdi. unfold dget. rewrite lookup_insert_ne; [by apply Hcl|].
          intros Ek. destruct E. apply (bi_unique Hinv); try done; unfold bkey in *; congruence.
      - intros i j Hi Hj. rewrite !Hk'. by apply (bi_unique Hinv). }
    split; try done.
    intros d n Hdn. destruct (decide (bkey (k_bcache s !!! b) = (d, n))) as [Ek|Ek].
    + rewrite (view_hit s d n b), (view_hit s' d n b) by (try done; rewrite Hbc', alter_total_eq by lia; done).
      by rewrite Hbc', alter_total_eq by lia.
    + unfold view. assert (Hc : cached s' d n = cached s d n).
      { apply find_ext. intros i Hi%in_seq. rewrite Hbc', alter_total by lia. case_decide; [|done].
        subst i. unfold bkey_is. ksimpl. destruct (bkey_is d n (k_bcache s !!! b)) eqn:Eb.
        - by apply bkey_is_spec in Eb.
        - unfold bkey_is in Eb. by rewrite Eb. }
      rewrite Hc, Hd. destruct (cached s d n) as [i|] eqn:Ei.
      * rewrite Hbc', alter_total by lia. case_decide; [by subst i|done].
      * unfold dget. by rewrite lookup_insert_ne.
Qed.

(** What brelse does. *)
Record released (s s' : kernel) (b : nat) : Prop := mkReleased {
  rl_inv : bio_inv s';
  rl_frame : bio_frame s s';
  rl_buf : core (k_bcache s' !!! b) =
    core (set_b_refcnt 0 (set_b_lock (mkSleeplock false 0) (k_bcache s !!! b)));
  rl_others : forall i, i <> b -> core (k_bcache s' !!! i) = core (k_bcache s !!! i);
  rl_ide : k_ide s' = k_ide s;
  rl_view : forall d n, view s' d n = view s d n;
  rl_dirty : forall d n, dirty s' d n <-> dirty s d n;
  rl_lru : forall l1 l2, lru (k_bcache s) (l1 ++ b :: l2) -> lru (k_bcache s') (b :: l1 ++ l2)
}.

Arguments rl_inv {s s' b}.
Arguments rl_frame {s s' b}.
Arguments rl_buf {s s' b}.
Arguments rl_others {s s' b}.
Arguments rl_ide {s s' b}.
Arguments rl_view {s s' b}.
Arguments rl_dirty {s s' b}.
Arguments rl_lru {s s' b}.

(** brelse of the last reference, as the state it ends in. *)
Lemma brelse_run s b :
  length (k_bcache s) = S NBUF -> (b < NBUF)%nat -> is_Some (k_cur s) ->
  holds s b -> b_refcnt (k_bcache s !!! b) = 1 ->
  wp (brelse b) (fun _ s' => exists pt, woken (k_ptable s) pt /\
    s' = set_k_ptable pt (set_k_bcache (push_front b (unlink b
           (alter (fun x => set_b_refcnt 0 (set_b_lock (mkSleeplock false 0) x)) b (k_bcache s)))) s)) s.
Proof.
  intros Hlen Hb Hcur Hh Hr. unfold brelse. wp_step. apply holding_ok; [done|done|].
  wp_step. apply wp_panic_if; [done|]. unfold releasesleep. wp_step. wp_step. apply wp_modify.
  cbn [lk_set lk_chan buf_lock]. ksteps.
  rewrite (alter_fuse _ _ (fun x => set_b_refcnt 0 (set_b_lock (mkSleeplock false 0) x)))
    by (ksimpl; by rewrite Hr).
  rewrite alter_total_eq by lia. ksimpl. rewrite Z.eqb_refl. ksteps.
  eexists. split; [apply woken_wakeup1|].
  unfold push_front, unlink. cbv zeta.
  set (bs := alter (fun x => set_b_refcnt 0 (set_b_lock (mkSleeplock false 0) x)) b (k_bcache s)).
  assert (Hn : b_next (k_bcache s !!! b) = nx bs b).
  { unfold bs. rewrite nx_alter by done. done. }
  assert (Hp : b_prev (k_bcache s !!! b) = pv bs b).
  { unfold bs. rewrite pv_alter by done. done. }
  rewrite Hn, Hp. done.
Qed.

Lemma brelse_spec s b :
  bio_inv s -> (b < NBUF)%nat -> holds s b -> b_refcnt (k_bcache s !!! b) = 1 ->
  (bdirty (k_bcache s !!! b) = false -> bvalid (k_bcache s !!! b) = true ->
   b_data (k_bcache s !!! b) = dget (ide_disk (k_ide s)) (b_dev (k_bcache s !!! b))
                                    (b_blockno (k_bcache s !!! b))) ->
  wp (brelse b) (fun _ s' => released s s' b) s.
Proof.
  intros Hinv Hb Hh Hr Hcl.
  assert (Hlen : length (k_bcache s) = S NBUF) by (by destruct (bi_lru Hinv) as (l & ? & _)).
  eapply wp_mono; [apply brelse_run; try done; apply (bi_cur Hinv)|].
  intros _ s' (pt & Hw & ->).
  set (f := fun x => set_b_refcnt 0 (set_b_lock (mkSleeplock false 0) x)).
  set (s' := set_k_ptable pt _).
  assert (Hcore : core_eq (alter f b (k_bcache s)) (k_bcache s')).
  { etransitivity; [apply core_eq_unlink|apply core_eq_push_front]. }
  assert (Hcb : core (k_bcache s' !!! b) = core (f (k_bcache s !!! b))).
  { destruct Hcore as [_ ->]. by rewrite alter_total_eq by lia. }
  assert (Hco : forall i, i <> b -> core (k_bcache s' !!! i) = core (k_bcache s !!! i)).
  { intros i Hi. destruct Hcore as [_ ->]. by rewrite alter_total_ne. }
  assert (Hslots : forall i, same_slot (k_bcache s' !!! i) (k_bcache s !!! i)).
  { intros i. destruct (decide (i = b)) as [->|Hi].
    - apply core_fields in Hcb as (? & Ed & En & _ & _ & ?). unfold same_slot, bkey.
      rewrite Ed, En. by split_and!.
    - apply Hco, core_fields in Hi as (? & Ed & En & _ & _ & ?). unfold same_slot, bkey.
      rewrite Ed, En. by split_and!. }
  assert (Hlru : forall l1 l2, lru (k_bcache s) (l1 ++ b :: l2) -> lru (k_bcache s') (b :: l1 ++ l2)).
  { intros l1 l2 Hl. apply lru_move_front. by apply lru_alter. }
  assert (Hfr : bio_frame s s').
  { by exists (k_bcache s'), (k_ide s), pt. }
  split; try done.
  - split.
    + destruct (bi_lru Hinv) as [l Hl].
      assert (Hin : b ∈ l) by (by apply (lru_mem _ _ _ Hl)).
      apply list_elem_of_split in Hin as (l1 & l2 & ->). eauto.
    + apply (bi_cur Hinv).
    + apply (bi_ide Hinv).
    + intros i Hi. change (k_ide s') with (k_ide s). destruct (decide (i = b)) as [->|Hib].
      * eapply buf_ok_core; [symmetry; exact Hcb|]. destruct (bi_bufs Hinv b Hb).
        split; cbn; try done. by auto.
      * eapply buf_ok_core; [symmetry; by apply Hco|]. by apply (bi_bufs Hinv).
    + intros i j Hi Hj. destruct (Hslots i) as [-> _], (Hslots j) as [-> _].
      by apply (bi_unique Hinv).
  - intros d n. apply view_ext; [|done]. intros. apply Hslots.
  - intros d n. apply dirty_ext. intros. apply Hslots.
Qed.

(** ** Buffers in use *)

(** The process holds the buffers [H]; no other buffer is referenced. *)
Definition only_held (s : kernel) (H : list nat) : Prop :=
  forall i, (i < NBUF)%nat -> i ∉ H -> b_refcnt (k_bcache s !!! i) = 0.
(** The dirty blocks are blocks [L] of device [dev]. *)
Definition dirty_in (s : kernel) (dev : Z) (L : list Z) : Prop :=
  forall d n, dirty s d n -> d = dev /\ n ∈ L.

(** With fewer than NBUF buffers held or dirty, one can be recycled. *)
Lemma have_room s H dev L :
  bio_inv s -> only_held s H -> dirty_in s dev L -> dev <> 0 ->
  (length H + length L < NBUF)%nat -> room s.
Proof.
  intros Hinv Hh Hd Hdev Hlt.
  destruct (find (fun i => bunused (k_bcache s !!! i)) (seq 0 NBUF)) as [i|] eqn:E.
  { apply find_some in E as [Hi%in_seq Hu]. exists i. split; [lia|done]. }
  exfalso.
  set (P := filter (fun i => ~ (i ∈ H)) (seq 0 NBUF)).
  assert (HP : forall i, i ∈ P -> (i < NBUF)%nat /\ (i ∉ H) /\ bdirty (k_bcache s !!! i) = true).
  { intros i [Hn Hi]%list_elem_of_filter. apply elem_of_seq in Hi.
    assert (Hi' : (i < NBUF)%nat) by lia. split_and!; [done..|].
    pose proof (find_none _ _ E i) as Hf. cbn beta in Hf. unfold bunused in Hf.
    rewrite (Hh i) in Hf by done. assert (Hin : In i (seq 0 NBUF)) by (apply in_seq; lia). specialize (Hf Hin).
    unfold bdirty. by destruct (Z.land _ B_DIRTY =? 0). }
  assert (HL : (length (map (fun i => b_blockno (k_bcache s !!! i)) P) <= length L)%nat).
  { apply NoDup_incl_length.
    - apply NoDup_ListNoDup, NoDup_fmap_2_strong; [|apply NoDup_filter, NoDup_seq].
      intros i j (Hi & _ & Hdi)%HP (Hj & _ & Hdj)%HP Eb.
      destruct (Hd (b_dev (k_bcache s !!! i)) (b_blockno (k_bcache s !!! i))) as [Ei _]; [by exists i|].
      destruct (Hd (b_dev (k_bcache s !!! j)) (b_blockno (k_bcache s !!! j))) as [Ej _]; [by exists j|].
      apply (bi_unique Hinv); try done; unfold bkey; congruence.
    - intros n (i & <- & Hi%list_elem_of_In)%in_map_iff. apply HP in Hi as (Hi & _ & Hdi).
      apply list_elem_of_In. apply (Hd (b_dev (k_bcache s !!! i))). by exists i. }
  rewrite length_map in HL.
  assert (HH : (length (filter (fun i => i ∈ H) (seq 0 NBUF)) <= length H)%nat).
  { apply NoDup_incl_length; [apply NoDup_ListNoDup, NoDup_filter, NoDup_seq|].
    intros i Hi%list_elem_of_In. apply list_elem_of_filter in Hi as [Hi _]. by apply list_elem_of_In. }
  assert (Hsum : (length (filter (fun i => i ∈ H) (seq 0 NBUF)) + length P = NBUF)%nat).
  { unfold P. rewrite <- length_app. rewrite <- (length_seq NBUF 0) at 3.
    apply Permutation_length, filter_app_complement. }
  lia.
Qed.
