(* ===== verification/BioProps.v ===== *)
(** * What the buffer cache promises

    The contract of bread, bwrite, brelse and bget, in terms of the contents
    [view] that a block has for the rest of the kernel. *)

From S2P Require Import Prelude State Sleep Ide Bio BioSpec.
Open Scope Z_scope.

(** C20. bread returns the block.  With the cache consistent, the block not in
    use and either cached or a buffer free, bread returns a buffer that the
    caller has locked and that holds the block's contents; no block's contents
    change, the disk is not written, and at most one buffer caches the block. *)
Theorem bread_returns_block s dev bno :
  bio_inv s -> key_ok dev bno -> (dev, bno) <> (0, 0) ->
  unref s dev bno -> incache s dev bno \/ room s ->
  exists b s', bread dev bno s = Ok b s' /\ bio_inv s' /\ holds s' b /\
    bkey (k_bcache s' !!! b) = (dev, bno) /\ b_data (k_bcache s' !!! b) = view s dev bno /\
    (forall d n, (d, n) <> (0, 0) -> view s' d n = view s d n) /\
    ide_disk (k_ide s') = ide_disk (k_ide s) /\
    (forall i, (i < NBUF)%nat -> bkey (k_bcache s' !!! i) = (dev, bno) -> i = b).
Proof.
  intros Hinv Hk H0 Hu Hr.
  destruct (proj1 (wp_ok _ _ _) (bread_spec s dev bno Hinv Hk H0 Hu Hr)) as (b & s' & E & T).
  exists b, s'. split_and!; try apply T; [done|].
  intros i Hi Hki. apply (bi_unique (tk_inv T)); [done|apply (tk_b T)| |].
  - by rewrite Hki, (tk_key T).
  - by rewrite Hki.
Qed.

(** bwrite reaches the disk.  For a buffer the caller holds, bwrite
    returns, the block on the disk is then the buffer's data and nothing else
    on the disk or in the contents of the blocks has changed, and the buffer
    is clean. *)
Theorem bwrite_reaches_disk s b :
  bio_inv s -> (b < NBUF)%nat -> holds s b -> bvalid (k_bcache s !!! b) = true ->
  bkey (k_bcache s !!! b) <> (0, 0) ->
  exists s', bwrite b s = Ok tt s' /\ bio_inv s' /\ holds s' b /\
    ide_disk (k_ide s') = <[bkey (k_bcache s !!! b) := b_data (k_bcache s !!! b)]> (ide_disk (k_ide s)) /\
    (forall d n, (d, n) <> (0, 0) -> view s' d n = view s d n) /\
    b_flags (k_bcache s' !!! b) = B_VALID.
Proof.
  intros Hinv Hb Hh Hv H0.
  destruct (proj1 (wp_ok _ _ _) (bwrite_spec s b Hinv Hb Hh Hv H0)) as ([] & s' & E & W).
  destruct (bi_lru Hinv) as (l & Hlen & _).
  assert (Eb : k_bcache s' !!! b = set_b_flags 2 (k_bcache s !!! b))
    by (by rewrite (wr_bcache W), alter_total_eq by lia).
  exists s'. split_and!; try apply W; [done| |by rewrite Eb].
  unfold holds. rewrite Eb, (frame_cpid _ _ (wr_frame W)). exact Hh.
Qed.

(** brelse makes the buffer the most recently used.  Released by its only
    user, the buffer is unlocked and unreferenced, it moves to the front of the
    recycling list and the other buffers keep their order, and no block's
    contents change. *)
Theorem brelse_most_recent s b l1 l2 :
  bio_inv s -> (b < NBUF)%nat -> holds s b -> b_refcnt (k_bcache s !!! b) = 1 ->
  (bdirty (k_bcache s !!! b) = false -> bvalid (k_bcache s !!! b) = true ->
   b_data (k_bcache s !!! b) = dget (ide_disk (k_ide s)) (b_dev (k_bcache s !!! b)) (b_blockno (k_bcache s !!! b))) ->
  lru (k_bcache s) (l1 ++ b :: l2) ->
  exists s', brelse b s = Ok tt s' /\ bio_inv s' /\ lru (k_bcache s') (b :: l1 ++ l2) /\
    b_refcnt (k_bcache s' !!! b) = 0 /\ sl_locked (b_lock (k_bcache s' !!! b)) = false /\
    (forall d n, view s' d n = view s d n).
Proof.
  intros Hinv Hb Hh Hr Hc Hl.
  destruct (proj1 (wp_ok _ _ _) (brelse_spec s b Hinv Hb Hh Hr Hc)) as ([] & s' & E & R).
  pose proof (rl_buf R) as Hcore. apply core_fields in Hcore as (_ & _ & _ & El & Er & _).
  exists s'. split_and!; [done|apply (rl_inv R)|by apply (rl_lru R)|by rewrite Er|by rewrite El|apply (rl_view R)].
Qed.

(** bget gives up only when it must: a block that is not cached makes it
    panic exactly when every buffer is referenced or dirty. *)
Theorem bget_panics_iff_full s dev bno :
  bio_inv s -> ~ incache s dev bno ->
  bget dev bno s = Panic "bget: no buffers" <-> ~ room s.
Proof.
  intros Hinv Hnc. split.
  - intros E Hr. destruct (bget_miss s dev bno Hinv Hnc Hr) as (b & _ & _ & E'). congruence.
  - intros Hr. destruct (bi_lru Hinv) as [l Hl].
    assert (Hmiss : find (fun i => bkey_is dev bno (k_bcache s !!! i)) l = None).
    { destruct (find _ l) as [j|] eqn:E; [|done]. exfalso. apply Hnc.
      apply find_some in E as [Hj Hkj]. apply list_elem_of_In, (lru_mem _ _ _ Hl) in Hj.
      exists j. split; [done|]. by apply bkey_is_spec. }
    assert (Hfull : find (fun i => bunused (k_bcache s !!! i)) (rev l) = None).
    { destruct (find _ (rev l)) as [j|] eqn:E; [|done]. exfalso. apply Hr.
      apply find_some in E as [Hj Hu]. apply in_rev in Hj. apply list_elem_of_In, (lru_mem _ _ _ Hl) in Hj.
      by exists j. }
    pose proof Hl as (_ & _ & Hseg). unfold bget. erewrite bind_ok by done. fold (nx (k_bcache s) HEAD).
    erewrite bind_ok by (apply scan_next; [exact Hseg|by eapply lru_head|rewrite (lru_length _ _ Hl); lia]).
    rewrite Hmiss. erewrite bind_ok by done. fold (pv (k_bcache s) HEAD).
    erewrite bind_ok by (apply scan_prev; [exact Hseg|by eapply lru_head|rewrite (lru_length _ _ Hl); lia]).
    by rewrite Hfull.
Qed.
