(* ===== verification/Log.v ===== *)
(** * log.c: the write-ahead log

    The operations of log.c over the buffer cache, and [readsb] of fs.c, which
    initlog calls. *)

From S2P Require Import Prelude State Sleep Ide Bio.
Open Scope Z_scope.

(** ** Words of a block *)

(** The 32-bit word at byte offset [off]. *)
Definition word32 (d : block) (off : Z) : Z := le_dec (slice d (Z.to_nat off) 4).
Definition put32 (d : block) (off v : Z) : block := splice d (Z.to_nat off) (enc32 v).

(** fs.c readsb: the super block as stored in block 1. *)
Definition dec_superblock (d : block) : superblock :=
  mkSuperblock (word32 d 0) (word32 d 4) (word32 d 8) (word32 d 12)
    (word32 d 16) (word32 d 20) (word32 d 24).

Definition readsb (dev : Z) : kM superblock :=
  bp ← bread dev 1;
  d ← bdata bp;
  brelse bp;;
  mret (dec_superblock d).

(** ** The log *)

Definition upd_log (f : logstate -> logstate) : kM unit :=
  modify (fun s => set_k_log (f (k_log s)) s).

(** struct logheader as stored in the header block. *)
Definition hdr_n (d : block) : Z := i32 (word32 d 0).
Definition hdr_block (d : block) (i : Z) : Z := i32 (word32 d (4 + 4 * i)).

(** The copy loop of install_trans, from [tail] on. *)
Fixpoint install_from (tail : Z) (n : nat) : kM unit :=
  match n with
  | O => mret tt
  | S n' =>
    l ← gets k_log;
    lbuf ← bread (l_dev l) (l_start l + tail + 1);
    dbuf ← bread (l_dev l) (nthz (lh_block l) tail);
    d ← bdata lbuf;
    set_bdata dbuf d;;
    bwrite dbuf;;
    brelse lbuf;;
    brelse dbuf;;
    install_from (tail + 1) n'
  end.
Definition install_trans : kM unit :=
  l ← gets k_log;
  install_from 0 (Z.to_nat (lh_n l)).

(** The copy loop of read_head; lh.block has LOGSIZE elements. *)
Fixpoint read_head_loop (d : block) (i : Z) (n : nat) : kM unit :=
  match n with
  | O => mret tt
  | S n' =>
    if LOGSIZE <=? i then fault "read_head: lh.block"
    else
      upd_log (fun l => set_lh_block (setz (lh_block l) i (hdr_block d i)) l);;
      read_head_loop d (i + 1) n'
  end.
Definition read_head : kM unit :=
  l ← gets k_log;
  buf ← bread (l_dev l) (l_start l);
  d ← bdata buf;
  upd_log (set_lh_n (hdr_n d));;
  read_head_loop d 0 (Z.to_nat (hdr_n d));;
  brelse buf.

(** The block numbers from index [i] on, stored into the header. *)
Fixpoint put_blocks (d : block) (i : Z) (bl : list Z) : block :=
  match bl with
  | [] => d
  | x :: bl' => put_blocks (put32 d (4 + 4 * i) x) (i + 1) bl'
  end.
Definition put_head (d : block) (n : Z) (bl : list Z) : block :=
  put_blocks (put32 d 0 n) 0 (take (Z.to_nat n) bl).

Definition write_head : kM unit :=
  l ← gets k_log;
  buf ← bread (l_dev l) (l_start l);
  d ← bdata buf;
  set_bdata buf (put_head d (lh_n l) (lh_block l));;
  bwrite buf;;
  brelse buf.

Definition recover_from_log : kM unit :=
  read_head;;
  install_trans;;
  upd_log (set_lh_n 0);;
  write_head.

(** sizeof(struct logheader) is 4 + 4 * LOGSIZE. *)
Definition initlog (dev : Z) : kM unit :=
  panic_if (BSIZE <=? 4 + 4 * LOGSIZE) "initlog: too big logheader";;
  sb ← readsb dev;
  upd_log (fun l => set_l_dev dev (set_l_size (i32 (sb_nlog sb)) (set_l_start (i32 (sb_logstart sb)) l)));;
  recover_from_log.

Definition begin_op : kM unit :=
  l ← gets k_log;
  if l_committing l then sleep ChLog
  else if LOGSIZE <? lh_n l + (l_outstanding l + 1) * MAXOPBLOCKS then sleep ChLog
  else upd_log (set_l_outstanding (l_outstanding l + 1)).

(** The copy loop of write_log, from [tail] on. *)
Fixpoint write_log_from (tail : Z) (n : nat) : kM unit :=
  match n with
  | O => mret tt
  | S n' =>
    l ← gets k_log;
    to ← bread (l_dev l) (l_start l + tail + 1);
    from ← bread (l_dev l) (nthz (lh_block l) tail);
    d ← bdata from;
    set_bdata to d;;
    bwrite to;;
    brelse from;;
    brelse to;;
    write_log_from (tail + 1) n'
  end.
Definition write_log : kM unit :=
  l ← gets k_log;
  write_log_from 0 (Z.to_nat (lh_n l)).

Definition commit : kM unit :=
  l ← gets k_log;
  when 0 <? lh_n l do
    (write_log;;
     write_head;;
     install_trans;;
     upd_log (set_lh_n 0);;
     write_head).

Definition end_op : kM unit :=
  upd_log (fun l => set_l_outstanding (l_outstanding l - 1) l);;
  l ← gets k_log;
  panic_if (l_committing l) "log.committing";;
  if l_outstanding l =? 0 then
    upd_log (set_l_committing true);;
    commit;;
    upd_log (set_l_committing false);;
    wakeup ChLog
  else wakeup ChLog.

(** The search loop of log_write: the first index from [i] on that holds
    [blockno], or the end. *)
Fixpoint log_find (blockno : Z) (bl : list Z) (i : Z) (n : nat) : Z :=
  match n with
  | O => i
  | S n' => if nthz bl i =? blockno then i else log_find blockno bl (i + 1) n'
  end.

Definition log_write (b : nat) : kM unit :=
  l ← gets k_log;
  panic_if ((LOGSIZE <=? lh_n l) || (l_size l - 1 <=? lh_n l)) "too big a transaction";;
  panic_if (l_outstanding l <? 1) "log_write outside of trans";;
  bf ← get_buf b;
  let i := log_find (b_blockno bf) (lh_block l) 0 (Z.to_nat (lh_n l)) in
  upd_log (fun l => set_lh_block (setz (lh_block l) i (b_blockno bf)) l);;
  (when i =? lh_n l do upd_log (fun l => set_lh_n (lh_n l + 1) l));;
  upd_buf b (fun x => set_b_flags (Z.lor (b_flags x) B_DIRTY) x).
