(* ===== verification/LogSpec.v ===== *)
(** * The log: what each operation does to the disk

    The header block's format, and the specifications of the operations of
    log.c over the cache invariant: which disk writes they perform, in order,
    and what the cache shows afterwards. *)

From S2P Require Import Prelude State Sleep Ide Bio BioSpec Log.
Open Scope Z_scope.

(** ** Words of a block *)

Lemma zero_block_ok : block_ok zero_block.
Proof. split; [done|]. apply Forall_replicate. unfold is_byte. lia. Qed.

Lemma length_enc32 v : length (enc32 v) = 4%nat.
Proof. apply length_le_enc. Qed.

Lemma block_ok_put32 d off v : block_ok d -> 0 <= off <= 508 -> block_ok (put32 d off v).
Proof.
  intros [Hl Hb] Ho. unfold put32. split.
  - rewrite length_splice; rewrite ?length_enc32; lia.
  - apply bytes_splice; [done|apply bytes_le_enc].
Qed.

Lemma word32_put32 d off v :
  block_ok d -> 0 <= off <= 508 -> word32 (put32 d off v) off = u32 v.
Proof.
  intros [Hl _] Ho. unfold word32, put32. rewrite <- (length_enc32 v).
  rewrite slice_splice_same by (rewrite length_enc32; lia). apply dec_enc32.
Qed.

Lemma word32_put32_ne d off v off' :
  block_ok d -> 0 <= off <= 508 -> 0 <= off' ->
  off' + 4 <= off \/ off + 4 <= off' -> word32 (put32 d off v) off' = word32 d off'.
Proof.
  intros [Hl _] Ho Ho' Hd. unfold word32, put32.
  rewrite slice_splice_disjoint; [done| |]; rewrite length_enc32; lia.
Qed.

(** ** The header block *)

Lemma put_blocks_ok bl : forall d i,
  block_ok d -> 0 <= i -> i + Z.of_nat (length bl) <= LOGSIZE -> block_ok (put_blocks d i bl).
Proof.
  unfold LOGSIZE, MAXOPBLOCKS. induction bl as [|x bl IH]; intros d i Hd Hi Hl; [done|].
  cbn [put_blocks length] in *. apply IH; [|lia..]. apply block_ok_put32; [done|lia].
Qed.

Lemma put_blocks_before bl : forall d i off,
  block_ok d -> 0 <= i -> i + Z.of_nat (length bl) <= LOGSIZE -> 0 <= off -> off + 4 <= 4 + 4 * i ->
  word32 (put_blocks d i bl) off = word32 d off.
Proof.
  unfold LOGSIZE, MAXOPBLOCKS. induction bl as [|x bl IH]; intros d i off Hd Hi Hl H0 Ho; [done|].
  cbn [put_blocks length] in *. rewrite IH; [|apply block_ok_put32; [done|lia]|lia..].
  apply word32_put32_ne; [done|lia..].
Qed.

Lemma put_blocks_word bl : forall d i k x,
  block_ok d -> 0 <= i -> i + Z.of_nat (length bl) <= LOGSIZE -> bl !! k = Some x ->
  word32 (put_blocks d i bl) (4 + 4 * (i + Z.of_nat k)) = u32 x.
Proof.
  unfold LOGSIZE, MAXOPBLOCKS. induction bl as [|y bl IH]; intros d i k x Hd Hi Hl Hk; [done|].
  cbn [put_blocks length] in *. destruct k as [|k]; simpl in Hk.
  - injection Hk as ->. replace (i + Z.of_nat 0) with i by lia.
    rewrite put_blocks_before; [|apply block_ok_put32; [done|lia]|unfold LOGSIZE, MAXOPBLOCKS; lia..].
    apply word32_put32; [done|lia].
  - replace (i + Z.of_nat (S k)) with (i + 1 + Z.of_nat k) by lia.
    apply IH; [apply block_ok_put32; [done|lia]|lia|lia|done].
Qed.

(** A block number that fits an int. *)
Definition blockno_ok (n : Z) : Prop := 0 <= n < 2147483648.

Section head.
Context (d : block) (n : Z) (bl : list Z).
Hypothesis Hd : block_ok d.
Hypothesis Hn : 0 <= n <= LOGSIZE.
Hypothesis Hlen : n <= Z.of_nat (length bl).
Hypothesis Hbl : Forall blockno_ok (take (Z.to_nat n) bl).

Lemma length_take_n : Z.of_nat (length (take (Z.to_nat n) bl)) = n.
Proof using Hn Hlen. rewrite length_take. lia. Qed.

Lemma put_head_ok : block_ok (put_head d n bl).
Proof using Hd Hn Hlen.
  apply put_blocks_ok; [apply block_ok_put32; [done|lia]|lia|rewrite length_take_n; lia].
Qed.

(** What read_head finds is what write_head wrote. *)
Lemma hdr_n_put : hdr_n (put_head d n bl) = n.
Proof using Hd Hn Hlen.
  unfold hdr_n, put_head. rewrite put_blocks_before;
    [|apply block_ok_put32; [done|lia]|lia|rewrite length_take_n; lia|lia..].
  rewrite word32_put32 by (try done; lia). unfold LOGSIZE, MAXOPBLOCKS in Hn. zlia.
Qed.

Lemma hdr_block_put i : 0 <= i < n -> hdr_block (put_head d n bl) i = nthz bl i.
Proof using Hd Hn Hlen Hbl.
  intros Hi. unfold hdr_block, put_head.
  destruct (lookup_lt_is_Some_2 bl (Z.to_nat i)) as [x Hx]; [lia|].
  assert (Hbx : blockno_ok x).
  { apply (Forall_lookup_1 _ _ (Z.to_nat i) _ Hbl). by rewrite lookup_take_lt by lia. }
  replace (4 + 4 * i) with (4 + 4 * (0 + Z.of_nat (Z.to_nat i))) by lia.
  rewrite (put_blocks_word _ _ _ _ x);
    [|apply block_ok_put32; [done|lia]|lia|rewrite length_take_n; lia|rewrite lookup_take_lt by lia; done].
  unfold nthz. rewrite (lookup_total_lookup _ _ _ Hx). unfold blockno_ok in Hbx. zlia.
Qed.
End head.

(** ** Disk writes *)

Definition apply_writes (ws : list (Z * Z * block)) (d : gmap (Z * Z) block) : gmap (Z * Z) block :=
  foldl (fun d w => <[w.1 := w.2]> d) d ws.

(** Going from [s] to [s'] performs the disk writes [ws]. *)
Definition advances (s s' : kernel) (ws : list (Z * Z * block)) : Prop :=
  ide_writes (k_ide s') = ide_writes (k_ide s) ++ ws /\
  ide_disk (k_ide s') = apply_writes ws (ide_disk (k_ide s)).

Lemma advances_refl s : advances s s [].
Proof. split; [by rewrite app_nil_r|done]. Qed.

Lemma advances_trans s1 s2 s3 ws1 ws2 :
  advances s1 s2 ws1 -> advances s2 s3 ws2 -> advances s1 s3 (ws1 ++ ws2).
Proof.
  intros [Hw1 Hd1] [Hw2 Hd2]. split.
  - by rewrite Hw2, Hw1, app_assoc.
  - rewrite Hd2, Hd1. unfold apply_writes. by rewrite foldl_app.
Qed.

Lemma advances_ide s s' s'' ws :
  advances s s' ws -> k_ide s'' = k_ide s' -> advances s s'' ws.
Proof. intros [??] E. split; by rewrite E. Qed.

(** ** Holding two buffers and copying one to the other *)

Lemma took_only s s' dev bno b H :
  only_held s H -> took s s' dev bno b -> only_held s' (b :: H).
Proof.
  intros Hh Ht i Hi Hn. rewrite (tk_others Ht) by set_solver. apply Hh; set_solver.
Qed.

Lemma released_only s s' b H :
  only_held s (b :: H) -> b ∉ H -> (b < NBUF)%nat -> released s s' b -> only_held s' H.
Proof.
  intros Hh Hb Hlt Hr i Hi Hn. destruct (decide (i = b)) as [->|Hib].
  - pose proof (rl_buf Hr) as Hc. apply core_fields in Hc as (_ & _ & _ & _ & -> & _). done.
  - pose proof (rl_others Hr i Hib) as Hc. apply core_fields in Hc as (_ & _ & _ & _ & -> & _).
    apply Hh; set_solver.
Qed.

(** The process holds the buffers [b1] of block [n1] and [b2] of block [n2]. *)
Record two_held (s s2 : kernel) (dev n1 n2 : Z) (b1 b2 : nat) : Prop := mkTwo {
  th_lt1 : (b1 < NBUF)%nat; th_lt2 : (b2 < NBUF)%nat; th_ne : b1 <> b2;
  th_inv : bio_inv s2;
  th_frame : bio_frame s s2;
  th_key1 : bkey (k_bcache s2 !!! b1) = (dev, n1);
  th_key2 : bkey (k_bcache s2 !!! b2) = (dev, n2);
  th_holds1 : holds s2 b1; th_holds2 : holds s2 b2;
  th_ref1 : b_refcnt (k_bcache s2 !!! b1) = 1; th_ref2 : b_refcnt (k_bcache s2 !!! b2) = 1;
  th_valid1 : bvalid (k_bcache s2 !!! b1) = true; th_valid2 : bvalid (k_bcache s2 !!! b2) = true;
  th_data1 : b_data (k_bcache s2 !!! b1) = view s dev n1;
  th_clean1 : bdirty (k_bcache s2 !!! b1) = false ->
    b_data (k_bcache s2 !!! b1) = dget (ide_disk (k_ide s)) dev n1;
  th_disk : ide_disk (k_ide s2) = ide_disk (k_ide s);
  th_writes : ide_writes (k_ide s2) = ide_writes (k_ide s);
  th_view : forall d n, (d, n) <> (0, 0) -> view s2 d n = view s d n;
  th_dirty : forall d n, dirty s2 d n <-> dirty s d n;
  th_only : only_held s2 [b1; b2]
}.

Arguments th_lt1 {s s2 dev n1 n2 b1 b2}.
Arguments th_lt2 {s s2 dev n1 n2 b1 b2}.
Arguments th_ne {s s2 dev n1 n2 b1 b2}.
Arguments th_inv {s s2 dev n1 n2 b1 b2}.
Arguments th_frame {s s2 dev n1 n2 b1 b2}.
Arguments th_key1 {s s2 dev n1 n2 b1 b2}.
Arguments th_key2 {s s2 dev n1 n2 b1 b2}.
Arguments th_holds1 {s s2 dev n1 n2 b1 b2}.
Arguments th_holds2 {s s2 dev n1 n2 b1 b2}.
Arguments th_ref1 {s s2 dev n1 n2 b1 b2}.
Arguments th_ref2 {s s2 dev n1 n2 b1 b2}.
Arguments th_valid1 {s s2 dev n1 n2 b1 b2}.
Arguments th_valid2 {s s2 dev n1 n2 b1 b2}.
Arguments th_data1 {s s2 dev n1 n2 b1 b2}.
Arguments th_clean1 {s s2 dev n1 n2 b1 b2}.
Arguments th_disk {s s2 dev n1 n2 b1 b2}.
Arguments th_writes {s s2 dev n1 n2 b1 b2}.
Arguments th_view {s s2 dev n1 n2 b1 b2}.
Arguments th_dirty {s s2 dev n1 n2 b1 b2}.
Arguments th_only {s s2 dev n1 n2 b1 b2}.

Lemma took_two s s1 s2 dev n1 n2 b1 b2 :
  only_held s [] -> took s s1 dev n1 b1 -> took s1 s2 dev n2 b2 -> (dev, n1) <> (0, 0) ->
  two_held s s2 dev n1 n2 b1 b2.
Proof.
  intros Hh T1 T2 H0.
  assert (Hne : b1 <> b2).
  { intros ->. pose proof (tk_free T2). pose proof (tk_ref T1). lia. }
  assert (E1 : k_bcache s2 !!! b1 = k_bcache s1 !!! b1) by (by apply (tk_others T2)).
  destruct T1, T2. split; try done; rewrite ?E1; try done; try congruence.
  - by transitivity s1.
  - unfold holds in *. rewrite E1. by rewrite tk_holds, (frame_cpid _ _ tk_frame0).
  - intros d n Hdn. by rewrite tk_view0, tk_view.
  - intros d n. by rewrite tk_dirty0, tk_dirty.
  - intros i Hi Hn. rewrite tk_others0, tk_others by set_solver. apply Hh; set_solver.
Qed.

Lemma took_two' s s1 s2 dev n1 n2 b1 b2 :
  only_held s [] -> took s s1 dev n2 b2 -> took s1 s2 dev n1 b1 -> (dev, n1) <> (0, 0) ->
  two_held s s2 dev n1 n2 b1 b2.
Proof.
  intros Hh T1 T2 H0.
  assert (Hne : b1 <> b2).
  { intros ->. pose proof (tk_free T2). pose proof (tk_ref T1). lia. }
  assert (E1 : k_bcache s2 !!! b2 = k_bcache s1 !!! b2) by (by apply (tk_others T2)).
  destruct T1, T2. split; try done; rewrite ?E1; try done; try congruence.
  - by transitivity s1.
  - unfold holds in *. rewrite E1. by rewrite tk_holds, (frame_cpid _ _ tk_frame0).
  - rewrite tk_data0. by apply tk_view.
  - intros Hc. rewrite tk_clean0 by done. by rewrite tk_disk.
  - intros d n Hdn. by rewrite tk_view0, tk_view.
  - intros d n. by rewrite tk_dirty0, tk_dirty.
  - intros i Hi Hn. rewrite tk_others0, tk_others by set_solver. apply Hh; set_solver.
Qed.

(** Block [n1] has been copied to block [n2], on the disk too. *)
Record copied (s s' : kernel) (dev n1 n2 : Z) : Prop := mkCopied {
  cp_inv : bio_inv s';
  cp_frame : bio_frame s s';
  cp_adv : advances s s' [((dev, n2), view s dev n1)];
  cp_view : forall d n, (d, n) <> (0, 0) ->
    view s' d n = if decide ((d, n) = (dev, n2)) then view s dev n1 else view s d n;
  cp_dirty : forall d n, dirty s' d n <-> dirty s d n /\ (d, n) <> (dev, n2);
  cp_only : only_held s' []
}.

Arguments cp_inv {s s' dev n1 n2}.
Arguments cp_frame {s s' dev n1 n2}.
Arguments cp_adv {s s' dev n1 n2}.
Arguments cp_view {s s' dev n1 n2}.
Arguments cp_dirty {s s' dev n1 n2}.
Arguments cp_only {s s' dev n1 n2}.

Section copy.
Context (s s2 : kernel) (dev n1 n2 : Z) (b1 b2 : nat).
Hypothesis Hn : n1 <> n2.
Hypothesis Hn1 : (dev, n1) <> (0, 0).
Hypothesis Hn2 : (dev, n2) <> (0, 0).
Hypothesis T : two_held s s2 dev n1 n2 b1 b2.

Let d := view s dev n1.
Let s3 := set_k_bcache (alter (set_b_data d) b2 (k_bcache s2)) s2.

Lemma copy_len : length (k_bcache s2) = S NBUF.
Proof using T. by destruct (bi_lru (th_inv T)) as (l & ? & _). Qed.

Lemma copy_data_ok : block_ok d.
Proof using T.
  unfold d. rewrite <- (th_data1 T).
  apply (bi_bufs (th_inv T)). apply (th_lt1 T).
Qed.

Lemma copy_s3 : bio_inv s3 /\ holds s3 b2 /\ bvalid (k_bcache s3 !!! b2) = true
  /\ k_bcache s3 !!! b2 = set_b_data d (k_bcache s2 !!! b2)
  /\ (forall i, i <> b2 -> k_bcache s3 !!! i = k_bcache s2 !!! i).
Proof using T.
  pose proof copy_len as Hlen. pose proof copy_data_ok as Hd.
  pose proof (th_lt2 T) as Hb2. pose proof (th_holds2 T). pose proof (th_valid2 T).
  assert (E : k_bcache s3 !!! b2 = set_b_data d (k_bcache s2 !!! b2)).
  { unfold s3. ksimpl. by rewrite alter_total_eq by lia. }
  split_and!; [| | |done|].
  - apply bio_inv_held; try done; [apply (th_inv T)|].
    apply (bi_bufs (th_inv T) b2 Hb2).
  - unfold holds. by rewrite E.
  - by rewrite E.
  - intros i Hi. unfold s3. ksimpl. by rewrite alter_total_ne.
Qed.

(** After the write of the copy. *)
Lemma copy_s4 s4 : wrote s3 s4 b2 ->
  bio_frame s s4 /\ advances s s4 [((dev, n2), d)]
  /\ (forall dv n, (dv, n) <> (0, 0) ->
        view s4 dv n = if decide ((dv, n) = (dev, n2)) then d else view s dv n)
  /\ (forall dv n, dirty s4 dv n <-> dirty s dv n /\ (dv, n) <> (dev, n2))
  /\ k_bcache s4 !!! b2 = set_b_flags 2 (set_b_data d (k_bcache s2 !!! b2))
  /\ (forall i, i <> b2 -> k_bcache s4 !!! i = k_bcache s2 !!! i).
Proof using T Hn2.
  intros W. pose proof copy_len as Hlen. destruct copy_s3 as (Hinv3 & Hh3 & Hv3 & E3 & O3).
  pose proof (th_lt2 T) as Hb2.
  assert (Hlen3 : length (k_bcache s3) = S NBUF) by (unfold s3; ksimpl; by rewrite length_alter).
  assert (E4 : k_bcache s4 !!! b2 = set_b_flags 2 (set_b_data d (k_bcache s2 !!! b2))).
  { rewrite (wr_bcache W), alter_total_eq by lia. by rewrite E3. }
  assert (O4 : forall i, i <> b2 -> k_bcache s4 !!! i = k_bcache s2 !!! i).
  { intros i Hi. rewrite (wr_bcache W), alter_total_ne by done. by apply O3. }
  assert (K3 : bkey (k_bcache s3 !!! b2) = (dev, n2)) by (rewrite E3; apply (th_key2 T)).
  split_and!; [| | | |done|done].
  - transitivity s2; [apply (th_frame T)|]. transitivity s3; [apply frame_bcache|apply (wr_frame W)].
  - split.
    + rewrite (wr_writes W), K3, E3. unfold s3. ksimpl. by rewrite (th_writes T).
    + rewrite (wr_disk W), K3, E3. unfold s3. ksimpl. by rewrite (th_disk T).
  - intros dv n Hdn. rewrite (wr_view W) by done. unfold s3.
    rewrite (view_set_data s2 b2 d dev n2); try done; try apply T; [|apply copy_data_ok].
    case_decide; [done|by apply (th_view T)].
  - intros dv n. rewrite <- (th_dirty T). split.
    + intros (i & Hi & Hk & Hd). destruct (decide (i = b2)) as [->|Hib]; [by rewrite E4 in Hd|].
      rewrite O4 in Hk, Hd by done. split; [by exists i|]. intros Ek. destruct Hib.
      apply (bi_unique (th_inv T)); [done|done| |]; rewrite Hk, Ek; [|done]. symmetry. apply (th_key2 T).
    + intros [(i & Hi & Hk & Hd) Hne]. exists i. destruct (decide (i = b2)) as [->|Hib].
      * rewrite (th_key2 T) in Hk. congruence.
      * by rewrite O4.
Qed.

Lemma copy_tail {A} (k : kM A) Q :
  (forall s', copied s s' dev n1 n2 -> wp k Q s') ->
  wp (d ← bdata b1; set_bdata b2 d;; bwrite b2;; brelse b1;; brelse b2;; k) Q s2.
Proof using T Hn Hn1 Hn2.
  intros HQ. pose proof copy_len as Hlen.
  destruct copy_s3 as (Hinv3 & Hh3 & Hv3 & E3 & O3).
  pose proof (th_lt1 T) as Hb1. pose proof (th_lt2 T) as Hb2. pose proof (th_ne T) as Hne.
  unfold bdata, set_bdata. ksteps. rewrite (th_data1 T). fold d. fold s3.
  assert (K3 : bkey (k_bcache s3 !!! b2) = (dev, n2)) by (rewrite E3; exact (th_key2 T)).
  eapply wp_mono; [apply bwrite_spec; [done..|by rewrite K3]|]. cbn beta. intros _ s4 W. wp_step.
  destruct (copy_s4 s4 W) as (F4 & A4 & V4 & D4 & E4 & O4).
  assert (C4 : cpid s4 = cpid s2).
  { rewrite (frame_cpid _ _ (wr_frame W)). apply (frame_cpid s2 s3), frame_bcache. }
  assert (L4 : dget (ide_disk (k_ide s4)) dev n1 = dget (ide_disk (k_ide s)) dev n1).
  { destruct A4 as [_ ->]. cbn. unfold dget. rewrite lookup_insert_ne; [done|congruence]. }
  eapply wp_mono.
  { apply brelse_spec; [apply (wr_inv W)|done| | |].
    - unfold holds. rewrite O4, C4 by done. apply (th_holds1 T).
    - rewrite O4 by done. apply (th_ref1 T).
    - rewrite O4 by done. pose proof (th_key1 T) as K1. unfold bkey in K1. injection K1 as -> ->.
      intros Hd _. rewrite L4. by apply (th_clean1 T). }
  cbn beta. intros _ s5 R. wp_step.
  assert (E5 : core (k_bcache s5 !!! b2) = core (set_b_flags 2 (set_b_data d (k_bcache s2 !!! b2)))).
  { by rewrite (rl_others R), E4 by done. }
  apply core_fields in E5 as (Ef & Ed & Eb & El & Er & Eda). ksimpl in Ef. ksimpl in Ed.
  ksimpl in Eb. ksimpl in El. ksimpl in Er. ksimpl in Eda.
  pose proof (th_key2 T) as K2. unfold bkey in K2. injection K2 as K2d K2b.
  eapply wp_mono.
  { apply brelse_spec; [apply (rl_inv R)|done| | |].
    - unfold holds. rewrite El, (frame_cpid _ _ (rl_frame R)), C4. apply (th_holds2 T).
    - rewrite Er. apply (th_ref2 T).
    - intros _ _. rewrite Eda, Ed, Eb, (rl_ide R), K2d, K2b. destruct A4 as [_ ->]. cbn.
      unfold dget. by rewrite lookup_insert_eq. }
  cbn beta. intros _ s6 R'. apply HQ. split.
  - apply (rl_inv R').
  - transitivity s4; [done|]. transitivity s5; [apply (rl_frame R)|apply (rl_frame R')].
  - eapply advances_ide; [exact A4|]. by rewrite (rl_ide R'), (rl_ide R).
  - intros dv n Hdn. rewrite (rl_view R'), (rl_view R). by apply V4.
  - intros dv n. rewrite (rl_dirty R'), (rl_dirty R). apply D4.
  - assert (H4 : only_held s4 [b1; b2]).
    { intros i Hi Hni. rewrite O4 by set_solver. by apply (th_only T). }
    eapply (released_only _ _ b2 []); [|set_solver|done|exact R'].
    eapply released_only; [exact H4|set_solver|done|exact R].
Qed.
End copy.

(** ** Sequences of block copies *)

Lemma apply_writes_union ws d : apply_writes ws d = apply_writes ws ∅ ∪ d.
Proof.
  induction ws as [|[k v] ws IH] using rev_ind; [cbn; by rewrite map_empty_union|].
  unfold apply_writes in *. rewrite !foldl_app. cbn. by rewrite IH, insert_union_l.
Qed.

(** The block last written to [k], if any. *)
Definition written (ws : list (Z * Z * block)) (k : Z * Z) : option block := apply_writes ws ∅ !! k.

Lemma lookup_apply_writes ws d k :
  apply_writes ws d !! k = match written ws k with Some v => Some v | None => d !! k end.
Proof.
  rewrite apply_writes_union. unfold written.
  destruct (apply_writes ws ∅ !! k) as [v|] eqn:E.
  - by apply lookup_union_Some_l.
  - by apply lookup_union_r.
Qed.

Lemma dget_apply_writes ws d dev n :
  dget (apply_writes ws d) dev n = default (dget d dev n) (written ws (dev, n)).
Proof. unfold dget. rewrite lookup_apply_writes. by destruct (written ws (dev, n)). Qed.

Lemma written_app ws1 ws2 k :
  written (ws1 ++ ws2) k = match written ws2 k with Some v => Some v | None => written ws1 k end.
Proof.
  unfold written at 1. unfold apply_writes. rewrite foldl_app.
  change (apply_writes ws2 (apply_writes ws1 ∅) !! k = match written ws2 k with Some v => Some v | None => written ws1 k end).
  by rewrite lookup_apply_writes.
Qed.

Lemma written_nil k : written [] k = None.
Proof. apply lookup_empty. Qed.

Lemma written_one k v k' : written [(k, v)] k' = if decide (k' = k) then Some v else None.
Proof.
  unfold written. cbn. case_decide as E; [subst; by rewrite lookup_insert_eq|].
  by rewrite lookup_insert_ne, lookup_empty.
Qed.

Lemma written_cons k v ws k' :
  written ((k, v) :: ws) k' = match written ws k' with
    | Some x => Some x | None => if decide (k' = k) then Some v else None end.
Proof. change ((k, v) :: ws) with ([(k, v)] ++ ws). by rewrite written_app, written_one. Qed.

Lemma written_None ws k : written ws k = None <-> k ∉ ws.*1.
Proof.
  induction ws as [|[k0 v] ws IH]; [rewrite written_nil; set_solver|].
  rewrite written_cons. cbn. rewrite not_elem_of_cons, <- IH.
  destruct (written ws k); [naive_solver|]. case_decide; naive_solver.
Qed.

Lemma written_Some_in ws k v : written ws k = Some v -> k ∈ ws.*1.
Proof.
  intros E. destruct (decide (k ∈ ws.*1)) as [|Hn]; [done|]. apply written_None in Hn. congruence.
Qed.

(** Going from [s] to [s'] with no buffer held at the end writes [ws] through
    the cache. *)
Record logstep (s s' : kernel) (ws : list (Z * Z * block)) : Prop := mkLogstep {
  ls_inv : bio_inv s';
  ls_frame : bio_frame s s';
  ls_adv : advances s s' ws;
  ls_view : forall d n, (d, n) <> (0, 0) -> view s' d n = default (view s d n) (written ws (d, n));
  ls_dirty : forall d n, dirty s' d n <-> dirty s d n /\ (d, n) ∉ ws.*1;
  ls_only : only_held s' []
}.

Arguments ls_inv {s s' ws}.
Arguments ls_frame {s s' ws}.
Arguments ls_adv {s s' ws}.
Arguments ls_view {s s' ws}.
Arguments ls_dirty {s s' ws}.
Arguments ls_only {s s' ws}.

Lemma logstep_refl s : bio_inv s -> only_held s [] -> logstep s s [].
Proof.
  intros Hi Ho. split; [done|done|apply advances_refl| | |done].
  - intros d n _. by rewrite written_nil.
  - set_solver.
Qed.

Lemma logstep_trans s1 s2 s3 ws1 ws2 :
  logstep s1 s2 ws1 -> logstep s2 s3 ws2 -> logstep s1 s3 (ws1 ++ ws2).
Proof.
  intros L1 L2. split; [apply (ls_inv L2)| | | | |apply (ls_only L2)].
  - transitivity s2; [apply (ls_frame L1)|apply (ls_frame L2)].
  - eapply advances_trans; [apply (ls_adv L1)|apply (ls_adv L2)].
  - intros d n H. rewrite (ls_view L2), (ls_view L1), written_app by done.
    by destruct (written ws2 (d, n)).
  - intros d n. rewrite (ls_dirty L2), (ls_dirty L1), fmap_app, not_elem_of_app. tauto.
Qed.

Lemma copied_logstep s s' dev n1 n2 :
  copied s s' dev n1 n2 -> logstep s s' [((dev, n2), view s dev n1)].
Proof.
  intros C. split; [apply (cp_inv C)|apply (cp_frame C)|apply (cp_adv C)| | |apply (cp_only C)].
  - intros d n H. rewrite (cp_view C), written_one by done. by case_decide.
  - intros d n. rewrite (cp_dirty C). cbn. rewrite list_elem_of_singleton. done.
Qed.

Lemma logstep_dirty_in s s' ws dev L : logstep s s' ws -> dirty_in s dev L -> dirty_in s' dev L.
Proof. intros Hl Hd d n Hn. apply Hd. by apply (ls_dirty Hl) in Hn as [? _]. Qed.
