(* ===== verification/LogRun.v ===== *)
(** * Runs of the log operations

    write_log, write_head, install_trans, read_head, commit and
    recover_from_log return, and the disk writes they make are the ones of the
    log protocol. *)

From S2P Require Import Prelude State Sleep Ide Bio BioSpec Log LogSpec.
Open Scope Z_scope.

(** ** One block copy *)

Lemma dirty_incache s dev n : dirty s dev n -> incache s dev n.
Proof. intros (i & ? & ? & _). by exists i. Qed.

Lemma only_held_unref s dev n : only_held s [] -> unref s dev n.
Proof. intros H i Hi _. apply H; [done|set_solver]. Qed.

Lemma took_unref s s' dev n b n' :
  only_held s [] -> took s s' dev n b -> n' <> n -> unref s' dev n'.
Proof.
  intros Hh T Hne i Hi Hk. destruct (decide (i = b)) as [->|Hib].
  - rewrite (tk_key T) in Hk. congruence.
  - rewrite (tk_others T) by done. apply Hh; [done|set_solver].
Qed.

Lemma took_dirty_in s s' dev n b dv L :
  took s s' dev n b -> dirty_in s dv L -> dirty_in s' dv L.
Proof. intros T Hd d m Hm. apply Hd. by apply (tk_dirty T). Qed.

Section copy_step.
Context (s : kernel) (dev : Z) (L : list Z).
Hypothesis Hinv : bio_inv s.
Hypothesis Hheld : only_held s [].
Hypothesis Hdirty : dirty_in s dev L.
Hypothesis Hdev : dev <> 0.
Hypothesis Hroom : (length L < NBUF)%nat.

Lemma read_first n : key_ok dev n -> wp (bread dev n) (fun b s' => took s s' dev n b) s.
Proof using Hinv Hheld Hdirty Hdev Hroom.
  intros Hk. apply bread_spec; [done|done|congruence|by apply only_held_unref|].
  right. by apply (have_room s [] dev L).
Qed.

Lemma read_second s1 b n n' :
  took s s1 dev n b -> key_ok dev n' -> n' <> n ->
  dirty s dev n' \/ (S (length L) < NBUF)%nat ->
  wp (bread dev n') (fun b' s2 => took s1 s2 dev n' b') s1.
Proof using Hinv Hheld Hdirty Hdev Hroom.
  intros T Hk Hne Hor.
  apply bread_spec; [apply (tk_inv T)|done|congruence|by eapply took_unref|].
  destruct Hor as [Hd|Hlt].
  - left. apply dirty_incache. by apply (tk_dirty T).
  - right. apply (have_room s1 [b] dev L); [apply (tk_inv T)| |by eapply took_dirty_in|done|cbn; lia].
    by eapply took_only.
Qed.

(** The order of install_trans: the source first. *)
Lemma copy_src_first {A} n1 n2 (k : kM A) Q :
  key_ok dev n1 -> key_ok dev n2 -> n1 <> n2 ->
  dirty s dev n2 \/ (S (length L) < NBUF)%nat ->
  (forall s', copied s s' dev n1 n2 -> wp k Q s') ->
  wp (b1 ← bread dev n1; b2 ← bread dev n2; d ← bdata b1;
      set_bdata b2 d;; bwrite b2;; brelse b1;; brelse b2;; k) Q s.
Proof using Hinv Hheld Hdirty Hdev Hroom.
  intros K1 K2 Hne Hor HQ. wp_step.
  eapply wp_mono; [by apply read_first|]. cbn beta. intros b1 s1 T1. wp_step.
  eapply wp_mono; [by apply (read_second s1 b1 n1)|]. cbn beta. intros b2 s2 T2.
  apply (copy_tail s s2 dev n1 n2); try done; [congruence..|].
  eapply took_two; [done|done|done|congruence].
Qed.

(** The order of write_log: the destination first. *)
Lemma copy_dst_first {A} n1 n2 (k : kM A) Q :
  key_ok dev n1 -> key_ok dev n2 -> n1 <> n2 ->
  dirty s dev n1 \/ (S (length L) < NBUF)%nat ->
  (forall s', copied s s' dev n1 n2 -> wp k Q s') ->
  wp (b2 ← bread dev n2; b1 ← bread dev n1; d ← bdata b1;
      set_bdata b2 d;; bwrite b2;; brelse b1;; brelse b2;; k) Q s.
Proof using Hinv Hheld Hdirty Hdev Hroom.
  intros K1 K2 Hne Hor HQ. wp_step.
  eapply wp_mono; [by apply read_first|]. cbn beta. intros b2 s1 T1. wp_step.
  eapply wp_mono; [by apply (read_second s1 b2 n2)|]. cbn beta. intros b1 s2 T2.
  apply (copy_tail s s2 dev n1 n2); try done; [congruence..|].
  eapply took_two'; [done|done|done|congruence].
Qed.
End copy_step.

(** ** Rewriting a block *)

Section update.
Context (s s1 : kernel) (dev n : Z) (b : nat) (d : block).
Hypothesis T : took s s1 dev n b.
Hypothesis Hn : (dev, n) <> (0, 0).
Hypothesis Hd : block_ok d.
Let s2 := set_k_bcache (alter (set_b_data d) b (k_bcache s1)) s1.

Lemma update_s2 : bio_inv s2 /\ k_bcache s2 !!! b = set_b_data d (k_bcache s1 !!! b)
  /\ (forall i, i <> b -> k_bcache s2 !!! i = k_bcache s1 !!! i).
Proof using T Hd.
  destruct (bi_lru (tk_inv T)) as (l & Hlen & _).
  pose proof (tk_b T) as Hb. pose proof (tk_holds T). split_and!.
  - apply bio_inv_held; try done; [apply (tk_inv T)|]. apply (bi_bufs (tk_inv T) b Hb).
  - unfold s2. ksimpl. by rewrite alter_total_eq by lia.
  - intros i Hi. unfold s2. ksimpl. by rewrite alter_total_ne.
Qed.

Lemma update_s3 s3 : only_held s [] -> wrote s2 s3 b ->
  bio_frame s s3 /\ advances s s3 [((dev, n), d)]
  /\ (forall dv m, (dv, m) <> (0, 0) ->
        view s3 dv m = default (view s dv m) (written [((dev, n), d)] (dv, m)))
  /\ (forall dv m, dirty s3 dv m <-> dirty s dv m /\ (dv, m) <> (dev, n))
  /\ k_bcache s3 !!! b = set_b_flags 2 (set_b_data d (k_bcache s1 !!! b))
  /\ only_held s3 [b].
Proof using T Hd Hn.
  intros Hh W. destruct update_s2 as (Hinv2 & E2 & O2).
  destruct (bi_lru Hinv2) as (l & Hlen2 & _). pose proof (tk_b T) as Hb.
  assert (E3 : k_bcache s3 !!! b = set_b_flags 2 (set_b_data d (k_bcache s1 !!! b))).
  { rewrite (wr_bcache W), alter_total_eq by lia. by rewrite E2. }
  assert (O3 : forall i, i <> b -> k_bcache s3 !!! i = k_bcache s1 !!! i).
  { intros i Hi. rewrite (wr_bcache W), alter_total_ne by done. by apply O2. }
  assert (K2 : bkey (k_bcache s2 !!! b) = (dev, n)) by (rewrite E2; apply (tk_key T)).
  split_and!; [| | | |done|].
  - transitivity s1; [apply (tk_frame T)|]. transitivity s2; [apply frame_bcache|apply (wr_frame W)].
  - split.
    + rewrite (wr_writes W), K2, E2. unfold s2. ksimpl. by rewrite (tk_writes T).
    + rewrite (wr_disk W), K2, E2. unfold s2. ksimpl. by rewrite (tk_disk T).
  - intros dv m Hdm. rewrite (wr_view W) by done. unfold s2.
    rewrite (view_set_data s1 b d dev n); try done; try apply T.
    rewrite written_one. case_decide; [done|by apply (tk_view T)].
  - intros dv m. rewrite <- (tk_dirty T). split.
    + intros (i & Hi & Hk & Hdi). destruct (decide (i = b)) as [->|Hib]; [by rewrite E3 in Hdi|].
      rewrite O3 in Hk, Hdi by done. split; [by exists i|]. intros Ek. destruct Hib.
      apply (bi_unique (tk_inv T)); [done|done| |]; rewrite Hk, Ek; [|done]. symmetry. apply (tk_key T).
    + intros [(i & Hi & Hk & Hdi) Hne]. exists i. destruct (decide (i = b)) as [->|Hib].
      * rewrite (tk_key T) in Hk. congruence.
      * by rewrite O3.
  - intros i Hi Hni. rewrite O3 by set_solver. rewrite (tk_others T) by set_solver. apply Hh; [done|set_solver].
Qed.

(** The buffer written and released. *)
Lemma update_tail :
  only_held s [] ->
  wp (set_bdata b d;; bwrite b;; brelse b) (fun _ s' => logstep s s' [((dev, n), d)]) s1.
Proof using T Hd Hn.
  intros Hh. destruct update_s2 as (Hinv2 & E2 & O2). pose proof (tk_b T) as Hb.
  assert (K2 : bkey (k_bcache s2 !!! b) = (dev, n)) by (rewrite E2; apply (tk_key T)).
  unfold set_bdata. ksteps. fold s2.
  assert (Hh2 : holds s2 b) by (unfold holds; rewrite E2; apply (tk_holds T)).
  assert (Hv2 : bvalid (k_bcache s2 !!! b) = true) by (rewrite E2; apply (tk_valid T)).
  eapply wp_mono; [apply bwrite_spec; [done..|by rewrite K2]|]. cbn beta. intros _ s3 W.
  destruct (update_s3 s3 Hh W) as (F3 & A3 & V3 & D3 & E3 & O3).
  pose proof (tk_key T) as K1. unfold bkey in K1. injection K1 as K1d K1n.
  eapply wp_mono.
  { apply brelse_spec; [apply (wr_inv W)|done| | |].
    - unfold holds. rewrite E3. ksimpl. rewrite (frame_cpid _ _ F3), <- (frame_cpid _ _ (tk_frame T)).
      apply (tk_holds T).
    - rewrite E3. apply (tk_ref T).
    - intros _ _. rewrite E3. ksimpl. rewrite K1d, K1n. destruct A3 as [_ ->]. cbn.
      unfold dget. by rewrite lookup_insert_eq. }
  cbn beta. intros _ s4 R. split.
  - apply (rl_inv R).
  - transitivity s3; [done|apply (rl_frame R)].
  - eapply advances_ide; [exact A3|apply (rl_ide R)].
  - intros dv m H. rewrite (rl_view R). by apply V3.
  - intros dv m. rewrite (rl_dirty R), D3. cbn. by rewrite list_elem_of_singleton.
  - by eapply released_only; [exact O3|set_solver|done|exact R].
Qed.
End update.

(** ** The log area *)

(** The log of device ROOTDEV lies between blocks [l_start] and
    [l_start + l_size]. *)
Record lgeom (l : logstate) : Prop := mkLgeom {
  lg_dev : l_dev l = ROOTDEV;
  lg_start : 0 < l_start l;
  lg_size : 1 < l_size l;
  lg_end : l_start l + l_size l <= FSSIZE;
  lg_len : Z.of_nat (length (lh_block l)) = LOGSIZE
}.
Arguments lg_dev {l}.
Arguments lg_start {l}.
Arguments lg_size {l}.
Arguments lg_end {l}.
Arguments lg_len {l}.

Lemma root_key n : (ROOTDEV, n) <> (0, 0).
Proof. unfold ROOTDEV. congruence. Qed.

(** A block outside of the log. *)
Definition home_ok (l : logstate) (n : Z) : Prop :=
  0 <= n < FSSIZE /\ (n < l_start l \/ l_start l + l_size l <= n).

Lemma home_key l n : home_ok l n -> key_ok ROOTDEV n.
Proof. intros [? _]. split; [by right|done]. Qed.
Lemma log_key l n : lgeom l -> 0 <= n < l_size l -> key_ok ROOTDEV (l_start l + n).
Proof. intros G H. split; [by right|]. pose proof (lg_start G). pose proof (lg_end G). lia. Qed.

(** The blocks of the log from entry [i] on receive [vals]. *)
Fixpoint log_writes (l : logstate) (i : Z) (vals : list block) : list (Z * Z * block) :=
  match vals with
  | [] => []
  | v :: vals' => ((ROOTDEV, l_start l + i + 1), v) :: log_writes l (i + 1) vals'
  end.
(** The home blocks receive [vals]. *)
Definition home_writes (homes : list Z) (vals : list block) : list (Z * Z * block) :=
  zip_with (fun h v => ((ROOTDEV, h), v)) homes vals.

Lemma log_writes_keys l vals : forall i k,
  k ∈ (log_writes l i vals).*1 <->
  exists j, 0 <= j < Z.of_nat (length vals) /\ k = (ROOTDEV, l_start l + i + j + 1).
Proof.
  induction vals as [|v vals IH]; intros i k; cbn [log_writes fmap list_fmap length].
  - split; [set_solver|]. intros (j & ? & _). lia.
  - rewrite elem_of_cons, IH. cbn [fst]. split.
    + intros [->|(j & Hj & ->)]; [exists 0|exists (j + 1)]; split; try lia; f_equal; lia.
    + intros (j & Hj & ->). destruct (decide (j = 0)) as [->|Hne].
      * left. f_equal. lia.
      * right. exists (j - 1). split; [lia|f_equal; lia].
Qed.

Lemma log_writes_home l vals i n :
  home_ok l n -> 0 <= i -> i + Z.of_nat (length vals) < l_size l ->
  written (log_writes l i vals) (ROOTDEV, n) = None.
Proof.
  intros [_ Hn] Hi Hlt. apply written_None. rewrite log_writes_keys.
  intros (j & Hj & E). injection E as ->. lia.
Qed.

Lemma home_writes_keys homes vals k :
  length vals = length homes ->
  k ∈ (home_writes homes vals).*1 <-> exists h, h ∈ homes /\ k = (ROOTDEV, h).
Proof.
  revert vals. induction homes as [|h homes IH]; intros [|v vals] Hl; try done; cbn.
  - set_solver.
  - injection Hl as Hl. rewrite elem_of_cons, IH by done. set_solver.
Qed.

(** Copying the home blocks to the log. *)
Lemma write_log_from_spec L todo : forall i s,
  bio_inv s -> only_held s [] -> lgeom (k_log s) ->
  dirty_in s ROOTDEV L -> (length L < NBUF)%nat ->
  (forall h, h ∈ todo -> home_ok (k_log s) h /\ dirty s ROOTDEV h) ->
  (forall j, (j < length todo)%nat -> nthz (lh_block (k_log s)) (i + Z.of_nat j) = todo !!! j) ->
  0 <= i -> i + Z.of_nat (length todo) < l_size (k_log s) ->
  wp (write_log_from i (length todo))
     (fun _ s' => logstep s s' (log_writes (k_log s) i (view s ROOTDEV <$> todo))) s.
Proof.
  induction todo as [|h todo IH]; intros i s Hinv Hh G Hd HL Hhome Hbl Hi Hlt; cbn [write_log_from length].
  { apply wp_ret. by apply logstep_refl. }
  pose proof (Hbl 0%nat ltac:(cbn; lia)) as Hb0. rewrite Z.add_0_r in Hb0. cbn in Hb0, Hlt.
  destruct (Hhome h ltac:(set_solver)) as [Hho Hhd].
  assert (Hlog : l_start (k_log s) + i + 1 = l_start (k_log s) + (i + 1)) by lia.
  wp_step. apply wp_gets. rewrite (lg_dev G), Hb0.
  apply (copy_dst_first s ROOTDEV L); try done.
  { by eapply home_key. }
  { rewrite Hlog. apply log_key; [done|lia]. }
  { destruct Hho as [_ ?]. lia. }
  { by left. }
  intros s1 C. apply copied_logstep in C as S1.
  pose proof (frame_log _ _ (ls_frame S1)) as Elog.
  assert (Hview : forall x, x ∈ todo -> view s1 ROOTDEV x = view s ROOTDEV x).
  { intros x Hx. rewrite (ls_view S1) by apply root_key.
    destruct (Hhome x ltac:(set_solver)) as [[_ Hxo] _].
    rewrite written_one, decide_False by (intros [=]; lia). done. }
  eapply wp_mono; [apply IH|].
  - apply (ls_inv S1).
  - apply (ls_only S1).
  - by rewrite Elog.
  - by eapply logstep_dirty_in.
  - done.
  - rewrite Elog. intros x Hx. destruct (Hhome x ltac:(set_solver)) as [Hxo Hxd].
    split; [done|]. apply (ls_dirty S1). split; [done|]. cbn. rewrite list_elem_of_singleton.
    destruct Hxo as [_ ?]. intros [=]. lia.
  - rewrite Elog. intros j Hj. etransitivity; [|exact (Hbl (S j) ltac:(cbn; lia))]. f_equal. lia.
  - lia.
  - rewrite Elog. lia.
  - cbn beta. intros _ s2 S2. cbn [fmap list_fmap log_writes].
    rewrite Elog in S2. rewrite (list_fmap_ext (view s1 ROOTDEV) (view s ROOTDEV) todo) in S2.
    + eapply (logstep_trans s s1 s2 [_]); done.
    + intros j x Hx. apply Hview. by eapply list_elem_of_lookup_2.
Qed.

(** Copying the log to the home blocks. *)
Lemma install_from_spec L todo : forall vals i s,
  bio_inv s -> only_held s [] -> lgeom (k_log s) ->
  dirty_in s ROOTDEV L -> (length L < NBUF)%nat ->
  (forall h, h ∈ todo -> home_ok (k_log s) h) ->
  (NoDup todo /\ (forall h, h ∈ todo -> dirty s ROOTDEV h)) \/ (S (length L) < NBUF)%nat ->
  (forall j, (j < length todo)%nat -> nthz (lh_block (k_log s)) (i + Z.of_nat j) = todo !!! j) ->
  length vals = length todo ->
  (forall j, (j < length todo)%nat ->
     view s ROOTDEV (l_start (k_log s) + i + Z.of_nat j + 1) = vals !!! j) ->
  0 <= i -> i + Z.of_nat (length todo) < l_size (k_log s) ->
  wp (install_from i (length todo)) (fun _ s' => logstep s s' (home_writes todo vals)) s.
Proof.
  induction todo as [|h todo IH];
    intros [|v vals] i s Hinv Hh G Hd HL Hhome Hroom Hbl Hlen Hv Hi Hlt; try done; cbn [install_from length].
  { apply wp_ret. by apply logstep_refl. }
  pose proof (Hbl 0%nat ltac:(cbn; lia)) as Hb0. rewrite Z.add_0_r in Hb0.
  pose proof (Hv 0%nat ltac:(cbn; lia)) as Hv0. rewrite Z.add_0_r in Hv0. cbn in Hb0, Hlt, Hv0.
  pose proof (Hhome h ltac:(set_solver)) as Hho.
  assert (Hlog : l_start (k_log s) + i + 1 = l_start (k_log s) + (i + 1)) by lia.
  wp_step. apply wp_gets. rewrite (lg_dev G), Hb0.
  apply (copy_src_first s ROOTDEV L); try done.
  { rewrite Hlog. apply log_key; [done|lia]. }
  { by eapply home_key. }
  { destruct Hho as [_ ?]. lia. }
  { destruct Hroom as [[_ Hr]|]; [left; apply Hr; set_solver|by right]. }
  intros s1 C. apply copied_logstep in C as S1. rewrite Hv0 in S1.
  pose proof (frame_log _ _ (ls_frame S1)) as Elog.
  eapply wp_mono; [apply (IH vals)|].
  - apply (ls_inv S1).
  - apply (ls_only S1).
  - by rewrite Elog.
  - by eapply logstep_dirty_in.
  - done.
  - rewrite Elog. set_solver.
  - destruct Hroom as [[Hnd Hr]|]; [left|by right]. apply NoDup_cons in Hnd as [Hnh Hnd].
    split; [done|]. intros x Hx. apply (ls_dirty S1). split; [apply Hr; set_solver|].
    cbn. rewrite list_elem_of_singleton. intros [=]. by subst.
  - rewrite Elog. intros j Hj. etransitivity; [|exact (Hbl (S j) ltac:(cbn; lia))]. f_equal. lia.
  - by injection Hlen.
  - rewrite Elog. intros j Hj. etransitivity; [|exact (Hv (S j) ltac:(cbn; lia))].
    replace (l_start (k_log s) + (i + 1) + Z.of_nat j + 1)
      with (l_start (k_log s) + i + Z.of_nat (S j) + 1) by lia.
    rewrite (ls_view S1) by apply root_key.
    rewrite written_one, decide_False; [done|]. intros [=]. destruct Hho as [_ ?]. lia.
  - lia.
  - rewrite Elog. lia.
  - cbn beta. intros _ s2 S2. by eapply (logstep_trans s s1 s2 [_]).
Qed.

(** ** The header *)

Lemma write_head_spec s L :
  bio_inv s -> only_held s [] -> lgeom (k_log s) -> dirty_in s ROOTDEV L -> (length L < NBUF)%nat ->
  0 <= lh_n (k_log s) <= LOGSIZE ->
  wp write_head (fun _ s' => logstep s s' [((ROOTDEV, l_start (k_log s)),
       put_head (view s ROOTDEV (l_start (k_log s))) (lh_n (k_log s)) (lh_block (k_log s)))]) s.
Proof.
  intros Hinv Hh G Hd HL Hn. pose proof (lg_size G). unfold write_head.
  wp_step. apply wp_gets. rewrite (lg_dev G). wp_step.
  eapply wp_mono; [apply (read_first s ROOTDEV L); try done|].
  { rewrite <- (Z.add_0_r (l_start _)). apply log_key; [done|lia]. }
  cbn beta. intros b s1 T. unfold bdata at 1. ksteps.
  assert (Hbok : block_ok (view s ROOTDEV (l_start (k_log s)))).
  { rewrite <- (tk_data T). apply (bi_bufs (tk_inv T)). apply (tk_b T). }
  rewrite (tk_data T).
  apply (update_tail s s1 ROOTDEV (l_start (k_log s)) b); [done|apply root_key| |done].
  apply put_head_ok; [done|done|]. pose proof (lg_len G). lia.
Qed.

(** ** commit *)

(** The block numbers in the header in memory. *)
Definition logged (l : logstate) : list Z := take (Z.to_nat (lh_n l)) (lh_block l).

(** The log in memory: the logged blocks are the dirty blocks. *)
Record log_inv (s : kernel) : Prop := mkLogInv {
  li_geom : lgeom (k_log s);
  li_n : 0 <= lh_n (k_log s) < l_size (k_log s);
  li_max : lh_n (k_log s) < Z.of_nat NBUF;
  li_homes : forall h, h ∈ logged (k_log s) -> home_ok (k_log s) h;
  li_nodup : NoDup (logged (k_log s));
  li_dirty : forall h, h ∈ logged (k_log s) -> dirty s ROOTDEV h;
  li_only : dirty_in s ROOTDEV (logged (k_log s))
}.
Arguments li_geom {s}.
Arguments li_n {s}.
Arguments li_max {s}.
Arguments li_homes {s}.
Arguments li_nodup {s}.
Arguments li_dirty {s}.
Arguments li_only {s}.

Lemma length_logged s : log_inv s -> Z.of_nat (length (logged (k_log s))) = lh_n (k_log s).
Proof.
  intros I. unfold logged. rewrite length_take. pose proof (li_n I). pose proof (li_max I).
  pose proof (lg_len (li_geom I)). unfold NBUF, LOGSIZE, MAXOPBLOCKS in *. lia.
Qed.

Lemma nthz_logged l j : (j < length (logged l))%nat -> nthz (lh_block l) (Z.of_nat j) = logged l !!! j.
Proof.
  intros Hj. unfold nthz, logged in *. rewrite Nat2Z.id.
  rewrite length_take in Hj. rewrite !list_lookup_total_alt, lookup_take_lt by lia. done.
Qed.

Lemma logstep_set_log s s' ws l : logstep s s' ws -> logstep (set_k_log l s) (set_k_log l s') ws.
Proof.
  intros [Hi (bc & ide & pt & -> & Hw) Ha Hv Hd Ho]. split; try done.
  - destruct Hi. by split.
  - exists bc, ide, pt. done.
Qed.

(** The disk writes of a commit: the blocks to the log, the header, the blocks
    to their homes, the empty header. *)
Definition commit_writes (s : kernel) : list (Z * Z * block) :=
  let l := k_log s in
  let vals := view s ROOTDEV <$> logged l in
  let hd := put_head (view s ROOTDEV (l_start l)) (lh_n l) (lh_block l) in
  log_writes l 0 vals ++ [((ROOTDEV, l_start l), hd)] ++ home_writes (logged l) vals
    ++ [((ROOTDEV, l_start l), put_head hd 0 (lh_block l))].

Lemma written_log_at l vals : forall i j,
  (j < length vals)%nat ->
  written (log_writes l i vals) (ROOTDEV, l_start l + i + Z.of_nat j + 1) = Some (vals !!! j).
Proof.
  induction vals as [|v vals IH]; intros i j Hj; cbn in Hj; [lia|].
  cbn [log_writes]. rewrite written_cons. destruct j as [|j].
  - destruct (written (log_writes l (i + 1) vals) _) as [x|] eqn:E.
    + apply written_Some_in in E. apply log_writes_keys in E as (j & Hj' & E). injection E as E. lia.
    + rewrite decide_True by (f_equal; lia). done.
  - replace (l_start l + i + Z.of_nat (S j) + 1) with (l_start l + (i + 1) + Z.of_nat j + 1) by lia.
    by rewrite IH by lia.
Qed.

Lemma log_writes_head l vals i :
  0 <= i -> written (log_writes l i vals) (ROOTDEV, l_start l) = None.
Proof.
  intros Hi. apply written_None. rewrite log_writes_keys. intros (j & Hj & E). injection E as E. lia.
Qed.

Lemma home_writes_log l homes vals n :
  length vals = length homes -> (forall h, h ∈ homes -> home_ok l h) ->
  l_start l <= n < l_start l + l_size l -> written (home_writes homes vals) (ROOTDEV, n) = None.
Proof.
  intros Hl Hh Hn. apply written_None. rewrite home_writes_keys by done.
  intros (h & Hi & E). injection E as ->. destruct (Hh h Hi) as [_ ?]. lia.
Qed.

Section commit.
Context (s : kernel).
Hypothesis Hinv : bio_inv s.
Hypothesis Hheld : only_held s [].
Hypothesis Hlog : log_inv s.
Let l := k_log s.
Let vals := view s ROOTDEV <$> logged l.
Let hd := put_head (view s ROOTDEV (l_start l)) (lh_n l) (lh_block l).

Lemma commit_room : (length (logged l) < NBUF)%nat.
Proof using Hlog. pose proof (length_logged s Hlog). pose proof (li_max Hlog). unfold l. lia. Qed.

Lemma write_log_spec : wp write_log (fun _ s' => logstep s s' (log_writes l 0 vals)) s.
Proof using Hinv Hheld Hlog.
  unfold write_log. wp_step. apply wp_gets. pose proof (length_logged s Hlog).
  replace (Z.to_nat (lh_n (k_log s))) with (length (logged l)) by (unfold l; lia).
  apply (write_log_from_spec (logged l)); try done.
  - apply (li_geom Hlog).
  - apply (li_only Hlog).
  - apply commit_room.
  - intros h Hh. split; [by apply (li_homes Hlog)|by apply (li_dirty Hlog)].
  - intros j Hj. by apply nthz_logged.
  - pose proof (li_n Hlog). unfold l. lia.
Qed.

(** After the header write the transaction is in the log. *)
Lemma commit_point s1 s2 :
  logstep s s1 (log_writes l 0 vals) -> logstep s1 s2 [((ROOTDEV, l_start l), hd)] ->
  wp install_trans (fun _ s' => logstep s2 s' (home_writes (logged l) vals)) s2.
Proof using Hinv Hheld Hlog.
  intros S1 S2. pose proof (length_logged s Hlog) as Hll. pose proof (logstep_trans _ _ _ _ _ S1 S2) as S12.
  assert (Elog : k_log s2 = l) by (rewrite (frame_log _ _ (ls_frame S12)); done).
  pose proof (li_n Hlog). pose proof (lg_start (li_geom Hlog)).
  unfold install_trans. wp_step. apply wp_gets. rewrite Elog.
  replace (Z.to_nat (lh_n l)) with (length (logged l)) by (unfold l; lia).
  assert (Hlv : length vals = length (logged l)) by (unfold vals; by rewrite length_fmap).
  apply (install_from_spec (logged l)); try done; rewrite ?Elog.
  - apply (ls_inv S12).
  - apply (ls_only S12).
  - apply (li_geom Hlog).
  - eapply logstep_dirty_in; [exact S12|apply (li_only Hlog)].
  - apply commit_room.
  - apply (li_homes Hlog).
  - left. split; [apply (li_nodup Hlog)|]. intros h Hh. apply (ls_dirty S12).
    split; [by apply (li_dirty Hlog)|]. destruct (li_homes Hlog h Hh) as [_ Hho].
    rewrite fmap_app, not_elem_of_app, log_writes_keys. cbn. rewrite list_elem_of_singleton.
    unfold l in *. rewrite Hlv, Hll. split; [|intros [=]; lia]. intros (j & Hj & E). injection E as E. lia.
  - intros j Hj. by apply nthz_logged.
  - intros j Hj. rewrite (ls_view S12) by apply root_key.
    rewrite written_app, written_one, decide_False by (intros [=]; lia).
    rewrite written_log_at by (rewrite Hlv; done). done.
  - unfold l. lia.
Qed.

Lemma commit_writes_view s3 :
  logstep s s3 (log_writes l 0 vals ++ [((ROOTDEV, l_start l), hd)] ++ home_writes (logged l) vals) ->
  view s3 ROOTDEV (l_start l) = hd.
Proof using Hlog.
  intros S3. rewrite (ls_view S3) by apply root_key. rewrite !written_app.
  pose proof (lg_start (li_geom Hlog)). pose proof (lg_size (li_geom Hlog)).
  rewrite (home_writes_log l); [|unfold vals; by rewrite length_fmap|apply (li_homes Hlog)|unfold l; lia].
  by rewrite written_one, decide_True.
Qed.

Lemma commit_spec :
  0 < lh_n l ->
  wp commit (fun _ s' => logstep (set_k_log (set_lh_n 0 l) s) s' (commit_writes s)) s.
Proof using Hinv Hheld Hlog.
  intros Hn. unfold commit. wp_step. apply wp_gets. fold l.
  rewrite (proj2 (Z.ltb_lt 0 _) Hn). wp_step.
  eapply wp_mono; [apply write_log_spec|]. cbn beta. intros _ s1 S1. wp_step.
  pose proof (frame_log _ _ (ls_frame S1)) as E1.
  pose proof (li_n Hlog) as Hn'. pose proof (li_max Hlog) as Hm.
  pose proof (li_geom Hlog) as G. pose proof (lg_start G) as Hst.
  assert (Hmax : lh_n (k_log s) <= LOGSIZE) by (unfold NBUF, LOGSIZE, MAXOPBLOCKS in *; lia).
  eapply wp_mono; [apply (write_head_spec s1 (logged l)); rewrite ?E1; try done|].
  { apply (ls_inv S1). }
  { apply (ls_only S1). }
  { eapply logstep_dirty_in; [exact S1|apply (li_only Hlog)]. }
  { apply commit_room. }
  { lia. }
  cbn beta. rewrite E1. fold l.
  rewrite (ls_view S1) by apply root_key. rewrite log_writes_head by lia. cbn [default]. fold hd.
  intros _ s2 S2. wp_step. pose proof (frame_log _ _ (ls_frame S2)) as E2.
  eapply wp_mono; [by apply (commit_point s1 s2)|]. cbn beta. intros _ s3 S3. wp_step.
  pose proof (frame_log _ _ (ls_frame S3)) as E3.
  pose proof (logstep_trans _ _ _ _ _ S1 (logstep_trans _ _ _ _ _ S2 S3)) as S13.
  apply (logstep_set_log _ _ _ (set_lh_n 0 l)) in S13 as S13'.
  unfold upd_log. apply wp_modify. rewrite E3, E2, E1. fold l.
  eapply wp_mono; [apply (write_head_spec _ (logged l)); try done|].
  { apply (ls_inv S13'). }
  { apply (ls_only S13'). }
  { by destruct G. }
  { eapply logstep_dirty_in; [exact S13'|exact (li_only Hlog)]. }
  { apply commit_room. }
  cbn beta. cbn [k_log set_k_log set_lh_n l_start lh_n lh_block].
  intros _ s4 S4. change (view (set_k_log (set_lh_n 0 l) s3)) with (view s3) in S4.
  rewrite (commit_writes_view s3 S13) in S4.
  pose proof (logstep_trans _ _ _ _ _ S13' S4) as S14. unfold commit_writes. fold l vals hd.
  by rewrite <- !app_assoc in S14.
Qed.
End commit.

(** ** recover_from_log *)

(** Releasing a block that was only read. *)
Lemma read_tail s s1 dev n b :
  took s s1 dev n b -> only_held s [] -> wp (brelse b) (fun _ s' => logstep s s' []) s1.
Proof.
  intros T Hh. pose proof (tk_key T) as K1. unfold bkey in K1. injection K1 as K1d K1n.
  eapply wp_mono.
  { apply brelse_spec; [apply (tk_inv T)|apply (tk_b T)|apply (tk_holds T)|apply (tk_ref T)|].
    intros Hd _. rewrite K1d, K1n, (tk_disk T). by apply (tk_clean T). }
  cbn beta. intros _ s2 R. split.
  - apply (rl_inv R).
  - transitivity s1; [apply (tk_frame T)|apply (rl_frame R)].
  - split; rewrite (rl_ide R); [rewrite (tk_writes T); by rewrite app_nil_r|apply (tk_disk T)].
  - intros d m H. rewrite (rl_view R), written_nil. by apply (tk_view T).
  - intros d m. rewrite (rl_dirty R), (tk_dirty T). set_solver.
  - eapply released_only; [by eapply took_only|set_solver|apply (tk_b T)|exact R].
Qed.

Lemma took_set_log s s' dev n b l : took s s' dev n b -> took (set_k_log l s) (set_k_log l s') dev n b.
Proof.
  intros []. split; try done.
  - destruct tk_inv. by split.
  - destruct tk_frame as (bc & ide & pt & -> & Hw). by exists bc, ide, pt.
Qed.

(** The home blocks named by a header block. *)
Definition hdr_homes (d : block) : list Z :=
  (fun j => hdr_block d (Z.of_nat j)) <$> seq 0 (Z.to_nat (hdr_n d)).

Lemma read_head_loop_spec d n : forall i s,
  0 <= i -> i + Z.of_nat n <= LOGSIZE -> Z.of_nat (length (lh_block (k_log s))) = LOGSIZE ->
  wp (read_head_loop d i n) (fun _ s' => exists bl,
      s' = set_k_log (set_lh_block bl (k_log s)) s /\ Z.of_nat (length bl) = LOGSIZE
      /\ (forall j, 0 <= j -> nthz bl j =
            if (i <=? j) && (j <? i + Z.of_nat n) then hdr_block d j else nthz (lh_block (k_log s)) j)) s.
Proof.
  induction n as [|n IH]; intros i s Hi Hlt Hl; cbn [read_head_loop].
  - apply wp_ret. exists (lh_block (k_log s)). split_and!; [by destruct s as [???? []]|done|].
    intros j Hj. zcases.
  - rewrite (proj2 (Z.leb_gt LOGSIZE i)) by lia. wp_step. unfold upd_log. apply wp_modify.
    eapply wp_mono; [apply IH; [lia|lia|]|].
    + cbn. by rewrite length_setz.
    + cbn beta. intros _ s' (bl & -> & Hbl & Hnth). exists bl. split_and!; [done|done|].
      intros j Hj. rewrite (Hnth j Hj). cbn. destruct (decide (j = i)) as [->|Hne].
      * rewrite nthz_setz_eq by lia. zcases.
      * rewrite nthz_setz_ne by lia. zcases.
Qed.

(** The header block names a log that fits. *)
Record hdr_ok (l : logstate) (d : block) : Prop := mkHdrOk {
  ho_n : 0 <= hdr_n d < l_size l;
  ho_max : hdr_n d <= LOGSIZE;
  ho_homes : forall h, h ∈ hdr_homes d -> home_ok l h
}.
Arguments ho_n {l d}.
Arguments ho_max {l d}.
Arguments ho_homes {l d}.

(** The blocks of the log, in the contents [V]. *)
Definition log_vals (l : logstate) (V : Z -> block) (n : nat) : list block :=
  (fun j => V (l_start l + Z.of_nat j + 1)) <$> seq 0 n.

(** The disk writes of recovery from the contents [V]. *)
Definition recover_writes (l : logstate) (V : Z -> block) : list (Z * Z * block) :=
  let hd := V (l_start l) in
  home_writes (hdr_homes hd) (log_vals l V (Z.to_nat (hdr_n hd)))
    ++ [((ROOTDEV, l_start l), put_head hd 0 [])].

Lemma length_hdr_homes d : length (hdr_homes d) = Z.to_nat (hdr_n d).
Proof. unfold hdr_homes. by rewrite length_fmap, length_seq. Qed.
Lemma length_log_vals l V n : length (log_vals l V n) = n.
Proof. unfold log_vals. by rewrite length_fmap, length_seq. Qed.

Lemma fmap_seq_total {A} `{Inhabited A} (f : nat -> A) n j :
  (j < n)%nat -> (f <$> seq 0 n) !!! j = f j.
Proof. intros Hj. apply list_lookup_total_correct. by rewrite list_lookup_fmap, lookup_seq_lt. Qed.

Section recover.
Context (s : kernel).
Hypothesis Hinv : bio_inv s.
Hypothesis Hheld : only_held s [].
Hypothesis Hclean : dirty_in s ROOTDEV [].
Hypothesis G : lgeom (k_log s).
Let l := k_log s.
Let hd := view s ROOTDEV (l_start l).
Hypothesis Hhd : hdr_ok l hd.

(** The log in memory after read_head. *)
Definition head_read (l' : logstate) : Prop := exists bl,
  l' = set_lh_block bl (set_lh_n (hdr_n hd) l) /\ Z.of_nat (length bl) = LOGSIZE /\
  (forall j, (j < length (hdr_homes hd))%nat -> nthz bl (Z.of_nat j) = hdr_homes hd !!! j).

Lemma read_head_spec :
  wp read_head (fun _ s' => exists l', head_read l' /\ logstep (set_k_log l' s) s' []) s.
Proof using Hinv Hheld Hclean G Hhd.
  pose proof (lg_size G). pose proof (lg_len G). unfold read_head.
  wp_step. apply wp_gets. rewrite (lg_dev G). wp_step.
  eapply wp_mono; [apply (read_first s ROOTDEV []); try done|].
  { unfold NBUF. cbn. lia. }
  { rewrite <- (Z.add_0_r (l_start _)). apply log_key; [done|lia]. }
  cbn beta. intros b s1 T. unfold bdata at 1. ksteps. rewrite (tk_data T). fold l. fold hd.
  pose proof (frame_log _ _ (tk_frame T)) as E1.
  unfold upd_log. apply wp_modify. wp_step.
  eapply wp_mono; [apply read_head_loop_spec; [done| |]|].
  - pose proof (ho_n Hhd). pose proof (ho_max Hhd). lia.
  - cbn. rewrite E1. apply (lg_len G).
  - cbn beta. intros _ s2 (bl & -> & Hbl & Hnth). rewrite E1 in *. fold l in Hnth |- *.
    cbn [k_log set_k_log set_lh_n set_lh_block lh_n lh_block] in Hnth |- *.
    set (l' := set_lh_block bl (set_lh_n (hdr_n hd) l)).
    change (set_k_log l' (set_k_log (set_lh_n (hdr_n hd) l) s1)) with (set_k_log l' s1).
    eapply wp_mono; [exact (read_tail _ _ _ _ _ (took_set_log _ _ _ _ _ l' T) Hheld)|].
    cbn beta. intros _ s3 S3. exists l'. split; [|done]. exists bl. split_and!; [done|done|].
    intros j Hj. rewrite length_hdr_homes in Hj. rewrite Hnth by lia.
    unfold hdr_homes. rewrite fmap_seq_total by done. zcases.
Qed.

Let homes := hdr_homes hd.
Let vals := log_vals l (view s ROOTDEV) (Z.to_nat (hdr_n hd)).

Lemma recover_install l' s1 :
  head_read l' -> logstep (set_k_log l' s) s1 [] ->
  wp install_trans (fun _ s' => logstep (set_k_log l' s) s' (home_writes homes vals)) s1.
Proof using Hinv Hheld Hclean G Hhd.
  intros (bl & El & Hbl & Hnth) S1. pose proof (frame_log _ _ (ls_frame S1)) as E1. cbn in E1.
  unfold install_trans. wp_step. apply wp_gets. rewrite E1, El. cbn [lh_n set_lh_block set_lh_n].
  pose proof (ho_n Hhd). pose proof (ho_max Hhd). pose proof (ho_homes Hhd) as Hho.
  rewrite <- length_hdr_homes. fold homes in Hnth, Hho |- *.
  assert (Hlen : length vals = length homes).
  { unfold vals, homes. by rewrite length_log_vals, length_hdr_homes. }
  assert (Hlh : length homes = Z.to_nat (hdr_n hd)) by apply length_hdr_homes.
  eapply wp_mono; [apply (install_from_spec [] homes vals 0)|]; rewrite ?E1, ?El; try done.
  - apply (ls_inv S1).
  - apply (ls_only S1).
  - by destruct G.
  - eapply logstep_dirty_in; [exact S1|exact Hclean].
  - unfold NBUF. cbn. lia.
  - right. unfold NBUF. cbn. lia.
  - intros j Hj. rewrite (ls_view S1) by apply root_key. rewrite written_nil. cbn [default].
    unfold vals, log_vals. rewrite fmap_seq_total by lia. cbn. by rewrite Z.add_0_r.
  - cbn. lia.
  - cbn beta. intros _ s2 S2. rewrite <- El. exact (logstep_trans _ _ _ _ _ S1 S2).
Qed.

Lemma recover_spec :
  wp recover_from_log (fun _ s' => exists l', head_read l' /\
    logstep (set_k_log (set_lh_n 0 l') s) s' (recover_writes l (view s ROOTDEV))) s.
Proof using Hinv Hheld Hclean G Hhd.
  unfold recover_from_log. wp_step.
  eapply wp_mono; [apply read_head_spec|]. cbn beta. intros _ s1 (l' & Hl' & S1). wp_step.
  eapply wp_mono; [by apply (recover_install l' s1)|]. cbn beta. intros _ s2 S2. wp_step.
  pose proof (frame_log _ _ (ls_frame S2)) as E2. cbn in E2.
  unfold upd_log. apply wp_modify. rewrite E2.
  apply (logstep_set_log _ _ _ (set_lh_n 0 l')) in S2 as S2'.
  change (set_k_log (set_lh_n 0 l') (set_k_log l' s)) with (set_k_log (set_lh_n 0 l') s) in S2'.
  destruct Hl' as (bl & El & Hbl & Hnth).
  pose proof (ho_homes Hhd) as Hho. pose proof (lg_start G). pose proof (lg_size G).
  eapply wp_mono; [apply (write_head_spec _ [])|].
  - apply (ls_inv S2').
  - apply (ls_only S2').
  - rewrite El. by destruct G.
  - eapply logstep_dirty_in; [exact S2'|exact Hclean].
  - unfold NBUF. cbn. lia.
  - done.
  - cbn beta. intros _ s3 S3. exists l'. split; [by exists bl|].
    pose proof (logstep_trans _ _ _ _ _ S2' S3) as S23.
    assert (Eh : view (set_k_log (set_lh_n 0 l') s2) ROOTDEV (l_start l) = hd).
    { rewrite (ls_view S2') by apply root_key.
      rewrite (home_writes_log l); [done| |done|unfold l; lia].
      unfold vals, homes. by rewrite length_log_vals, length_hdr_homes. }
    assert (Es : l_start (k_log (set_k_log (set_lh_n 0 l') s2)) = l_start l) by (rewrite El; done).
    rewrite Es, Eh in S23. exact S23.
Qed.
End recover.
