(* ===== verification/LogCrash.v ===== *)
(** * Crashes of the log

    What a machine finds on the disk when it boots after a crash in the middle
    of commit or of recovery: the disk after a prefix of the writes. *)

From S2P Require Import Prelude State Sleep Ide Bio BioSpec Log LogSpec LogRun.
Open Scope Z_scope.

(** ** Clean blocks *)

Lemma view_clean s d n :
  bio_inv s -> only_held s [] -> ~ dirty s d n -> view s d n = dget (ide_disk (k_ide s)) d n.
Proof.
  intros Hinv Hh Hd. unfold view. destruct (cached s d n) as [i|] eqn:E; [|done].
  apply cached_Some in E as (Hi & Hk & Hv). pose proof (bi_bufs Hinv i Hi) as Hok.
  rewrite (bo_clean Hok); [by unfold bkey in Hk; injection Hk as -> ->| |done|].
  - apply (bo_unref Hok). apply Hh; [done|set_solver].
  - destruct (bdirty (k_bcache s !!! i)) eqn:Eb; [|done]. destruct Hd. by exists i.
Qed.

Lemma view_ok s d n : bio_inv s -> block_ok (view s d n).
Proof.
  intros Hinv. unfold view. destruct (cached s d n) as [i|] eqn:E.
  - apply cached_Some in E as (Hi & _). apply (bi_bufs Hinv i Hi).
  - apply (bi_ide Hinv).
Qed.

(** ** Recovery as a function of the disk *)

(** The disk that recovery leaves when it finds [D]. *)
Definition replay (l : logstate) (D : gmap (Z * Z) block) : gmap (Z * Z) block :=
  apply_writes (recover_writes l (dget D ROOTDEV)) D.

Lemma home_writes_map f homes h :
  written (home_writes homes (f <$> homes)) (ROOTDEV, h) = if decide (h ∈ homes) then Some (f h) else None.
Proof.
  induction homes as [|x homes IH]; cbn [fmap list_fmap home_writes zip_with].
  { by rewrite written_nil. }
  fold (home_writes homes (f <$> homes)). rewrite written_cons, IH.
  destruct (decide (h ∈ homes)); [rewrite decide_True by set_solver; done|].
  destruct (decide (h = x)) as [->|Hne].
  - by rewrite !decide_True by set_solver.
  - rewrite !decide_False; [done|set_solver|congruence].
Qed.

Lemma take_home_writes f homes k :
  take k (home_writes homes (f <$> homes)) = home_writes (take k homes) (f <$> take k homes).
Proof.
  revert k. induction homes as [|h homes IH]; intros [|k]; try done.
  cbn [take fmap list_fmap home_writes zip_with]. f_equal. apply IH.
Qed.

(** A value of the log read for a home block that occurs once. *)
Lemma written_home_nth homes vals j :
  NoDup homes -> length vals = length homes -> (j < length homes)%nat ->
  written (home_writes homes vals) (ROOTDEV, homes !!! j) = Some (vals !!! j).
Proof.
  revert vals j. induction homes as [|h homes IH]; intros [|v vals] [|j] Hnd Hl Hj; cbn in Hj, Hl; try lia.
  - cbn [home_writes zip_with]. fold (home_writes homes vals). rewrite written_cons. cbn.
    apply NoDup_cons in Hnd as [Hh _].
    assert (E : written (home_writes homes vals) (ROOTDEV, h) = None).
    { apply written_None. rewrite home_writes_keys by lia. intros (x & Hx & [=]). by subst. }
    by rewrite E, decide_True.
  - apply NoDup_cons in Hnd as [_ Hnd]. cbn [home_writes zip_with]. fold (home_writes homes vals).
    rewrite written_cons. change ((h :: homes) !!! S j) with (homes !!! j).
    change ((v :: vals) !!! S j) with (vals !!! j). by rewrite IH by (done || lia).
Qed.

(** ** The header *)

Lemma hdr_homes_put d n bl :
  block_ok d -> 0 <= n <= LOGSIZE -> n <= Z.of_nat (length bl) ->
  Forall blockno_ok (take (Z.to_nat n) bl) -> hdr_homes (put_head d n bl) = take (Z.to_nat n) bl.
Proof.
  intros Hd Hn Hl Hb. unfold hdr_homes. rewrite hdr_n_put by done.
  apply list_eq. intros j. rewrite list_lookup_fmap. destruct (decide (j < Z.to_nat n)%nat) as [Hj|Hj].
  - rewrite lookup_seq_lt, lookup_take_lt by done. cbn. rewrite hdr_block_put by (done || lia).
    destruct (lookup_lt_is_Some_2 bl j) as [x Hx]; [lia|].
    unfold nthz. by rewrite Nat2Z.id, (list_lookup_total_correct _ _ _ Hx), Hx.
  - rewrite lookup_seq_ge, lookup_take_ge by lia. done.
Qed.

Lemma hdr_homes_none d : hdr_n d = 0 -> hdr_homes d = [].
Proof. unfold hdr_homes. by intros ->. Qed.

Lemma home_blockno l L : (forall h, h ∈ L -> home_ok l h) -> Forall blockno_ok L.
Proof.
  intros H. apply Forall_forall. intros x Hx. destruct (H x Hx) as [? _]. unfold blockno_ok, FSSIZE in *. lia.
Qed.

Lemma hdr_ok_none l d : 1 < l_size l -> hdr_n d = 0 -> hdr_ok l d.
Proof. intros Hs H. split; rewrite ?hdr_homes_none, ?H by done; unfold LOGSIZE, MAXOPBLOCKS; [lia|lia|set_solver]. Qed.

(** ** Recovery after a crash of recovery *)

Lemma recover_writes_ext l V V' :
  hdr_ok l (V (l_start l)) -> 0 < l_size l ->
  (forall n, l_start l <= n < l_start l + l_size l -> V' n = V n) ->
  recover_writes l V' = recover_writes l V.
Proof.
  intros Hh Hs HV. pose proof (ho_n Hh). unfold recover_writes. rewrite (HV (l_start l)) by lia.
  do 2 f_equal. unfold log_vals. apply list_fmap_ext. intros j x Hx.
  apply lookup_seq in Hx as [-> Hj]. cbn. apply HV. lia.
Qed.

Lemma recover_writes_home l V n :
  home_ok l n -> 0 < l_size l ->
  written (recover_writes l V) (ROOTDEV, n) =
  written (home_writes (hdr_homes (V (l_start l))) (log_vals l V (Z.to_nat (hdr_n (V (l_start l)))))) (ROOTDEV, n).
Proof.
  intros [_ Hn] Hs. unfold recover_writes. rewrite written_app, written_one, decide_False; [done|].
  intros [=]. lia.
Qed.

Lemma replay_home l D n :
  home_ok l n -> 0 < l_size l -> hdr_n (dget D ROOTDEV (l_start l)) = 0 ->
  dget (replay l D) ROOTDEV n = dget D ROOTDEV n.
Proof.
  intros Hn Hs H0. unfold replay. rewrite dget_apply_writes, recover_writes_home by done.
  by rewrite hdr_homes_none.
Qed.

(** The header is written last. *)
Lemma hdr_n_clear d : block_ok d -> hdr_n (put_head d 0 []) = 0.
Proof. intros Hd. apply hdr_n_put; [done|unfold LOGSIZE, MAXOPBLOCKS; lia|cbn; lia]. Qed.

Lemma written_take_home homes vals k n :
  length vals = length homes -> (forall h, h ∈ homes -> h <> n) ->
  written (take k (home_writes homes vals)) (ROOTDEV, n) = None.
Proof.
  intros Hl Hh. apply written_None. intros Hin. rewrite fmap_take in Hin.
  apply elem_of_take in Hin as (i & Hi & _). apply list_elem_of_lookup_2 in Hi.
  apply home_writes_keys in Hi as (h & Hh1 & [=]); [|done]. by eapply Hh.
Qed.

(** A recovery cut short after [k] writes leaves a disk from which recovery
    reaches the same home blocks. *)
Lemma replay_prefix l D k :
  lgeom l -> hdr_ok l (dget D ROOTDEV (l_start l)) -> block_ok (dget D ROOTDEV (l_start l)) ->
  let D' := apply_writes (take k (recover_writes l (dget D ROOTDEV))) D in
  hdr_ok l (dget D' ROOTDEV (l_start l)) /\ block_ok (dget D' ROOTDEV (l_start l)) /\
  forall n, home_ok l n -> dget (replay l D') ROOTDEV n = dget (replay l D) ROOTDEV n.
Proof.
  intros G Hh Hb D'. pose proof (lg_size G) as Hs. pose proof (ho_homes Hh) as Hho.
  set (V := dget D ROOTDEV) in *. set (hd := V (l_start l)) in *.
  assert (Hl : length (log_vals l V (Z.to_nat (hdr_n hd))) = length (hdr_homes hd))
    by (by rewrite length_log_vals, length_hdr_homes).
  destruct (decide (k <= length (hdr_homes hd))%nat) as [Hk|Hk].
  - assert (ED : D' = apply_writes (take k (home_writes (hdr_homes hd) (log_vals l V (Z.to_nat (hdr_n hd))))) D).
    { unfold D', recover_writes. fold hd. rewrite take_app_le; [done|].
      unfold home_writes. rewrite length_zip_with. lia. }
    assert (Elog : forall n, l_start l <= n < l_start l + l_size l -> dget D' ROOTDEV n = V n).
    { intros n Hn. rewrite ED, dget_apply_writes, written_take_home; [done|done|].
      intros h Hin ->. destruct (Hho n Hin) as [_ ?]. lia. }
    assert (Ew : recover_writes l (dget D' ROOTDEV) = recover_writes l V)
      by (apply recover_writes_ext; [done|lia|done]).
    rewrite (Elog (l_start l)) by lia. split_and!; [done|done|]. intros n Hn.
    unfold replay. rewrite Ew. fold V. rewrite !dget_apply_writes.
    destruct (written (recover_writes l V) (ROOTDEV, n)) as [v|] eqn:E; [done|]. cbn [default].
    rewrite recover_writes_home in E by (done || lia). apply written_None in E.
    rewrite ED, dget_apply_writes, written_take_home; [done|done|]. intros h Hin ->. apply E.
    apply home_writes_keys; [done|by exists n].
  - assert (ED : D' = replay l D).
    { unfold D', replay. rewrite take_ge; [done|]. unfold recover_writes, home_writes. fold V hd.
      rewrite length_app, length_zip_with. cbn. lia. }
    assert (Eh : dget (replay l D) ROOTDEV (l_start l) = put_head hd 0 []).
    { unfold replay. rewrite dget_apply_writes. unfold recover_writes. fold V hd.
      by rewrite written_app, written_one, decide_True. }
    assert (H0 : hdr_n (put_head hd 0 []) = 0) by (by apply hdr_n_clear).
    rewrite ED, Eh. split_and!; [by apply hdr_ok_none| |].
    + apply put_head_ok; [done|unfold LOGSIZE, MAXOPBLOCKS; lia|cbn; lia].
    + intros n Hn. rewrite replay_home; [done|done|lia|by rewrite Eh].
Qed.

(** ** A crash in the middle of commit *)

Section commit_crash.
Context (s : kernel).
Hypothesis Hinv : bio_inv s.
Hypothesis Hheld : only_held s [].
Hypothesis Hlog : log_inv s.
Let l := k_log s.
Let D := ide_disk (k_ide s).
(** The log on the disk is empty. *)
Hypothesis Hempty : hdr_n (dget D ROOTDEV (l_start l)) = 0.

Let L := logged l.
Let vals := view s ROOTDEV <$> L.
Let hd := put_head (view s ROOTDEV (l_start l)) (lh_n l) (lh_block l).
Let G : lgeom l := li_geom Hlog.

Lemma crash_sizes : 0 < l_start l /\ 1 < l_size l /\ Z.of_nat (length L) = lh_n l
  /\ lh_n l < l_size l /\ lh_n l <= LOGSIZE /\ length vals = length L
  /\ lh_n l <= Z.of_nat (length (lh_block l)).
Proof using Hlog.
  pose proof (lg_start G). pose proof (lg_size G). pose proof (length_logged s Hlog).
  pose proof (li_n Hlog). pose proof (li_max Hlog). pose proof (lg_len G).
  unfold vals, L, l, NBUF, LOGSIZE, MAXOPBLOCKS in *. rewrite length_fmap. lia.
Qed.

Lemma hd_n : hdr_n hd = lh_n l.
Proof using Hinv Hlog.
  destruct crash_sizes as (?&?&?&?&?&?&?). pose proof (li_n Hlog). unfold l in *.
  apply hdr_n_put; [by apply view_ok|lia|done].
Qed.
Lemma hd_homes : hdr_homes hd = L.
Proof using Hinv Hlog.
  destruct crash_sizes as (?&?&?&?&?&?&?). pose proof (li_n Hlog). unfold l in *.
  apply hdr_homes_put; [by apply view_ok|lia|done|].
  apply (home_blockno (k_log s)), (li_homes Hlog).
Qed.
Lemma hd_block : block_ok hd.
Proof using Hinv Hlog.
  destruct crash_sizes as (?&?&?&?&?&?&?). pose proof (li_n Hlog). unfold l in *.
  apply put_head_ok; [by apply view_ok|lia|done].
Qed.
Lemma hd_ok : hdr_ok l hd.
Proof using Hinv Hlog.
  destruct crash_sizes as (?&?&?&?&?&?&?). pose proof (li_n Hlog). unfold l in *.
  split; rewrite ?hd_n, ?hd_homes; [unfold l; lia|unfold l; lia|apply (li_homes Hlog)].
Qed.

(** Before the header write: the old blocks. *)
Lemma crash_before k : (k <= length L)%nat ->
  let D' := apply_writes (take k (log_writes l 0 vals)) D in
  hdr_n (dget D' ROOTDEV (l_start l)) = 0 /\ block_ok (dget D' ROOTDEV (l_start l)) /\
  forall n, home_ok l n -> dget (replay l D') ROOTDEV n = dget D ROOTDEV n.
Proof using Hinv Hlog Hempty.
  intros Hk D'. destruct crash_sizes as (?&?&?&?&?&Hlv&?).
  assert (Hpre : forall n, (forall j, 0 <= j < lh_n l -> n <> l_start l + 0 + j + 1) ->
            dget D' ROOTDEV n = dget D ROOTDEV n).
  { intros n Hn. unfold D'. rewrite dget_apply_writes.
    assert (E : written (take k (log_writes l 0 vals)) (ROOTDEV, n) = None); [|by rewrite E].
    apply written_None. intros Hin. rewrite fmap_take in Hin.
    apply elem_of_take in Hin as (i & Hi & _). apply list_elem_of_lookup_2, log_writes_keys in Hi.
    destruct Hi as (j & Hj & E). injection E as E. apply (Hn j); [lia|done]. }
  assert (Eh : dget D' ROOTDEV (l_start l) = dget D ROOTDEV (l_start l)) by (apply Hpre; lia).
  rewrite Eh. split_and!; [done|apply (bi_ide Hinv)|]. intros n Hn.
  rewrite replay_home; [|done|lia|by rewrite Eh]. apply Hpre. destruct Hn as [_ ?]. lia.
Qed.

(** From the header write on: the new blocks. *)
Definition D1 : gmap (Z * Z) block := apply_writes (log_writes l 0 vals ++ [((ROOTDEV, l_start l), hd)]) D.

Lemma D1_head : dget D1 ROOTDEV (l_start l) = hd.
Proof using. unfold D1. by rewrite dget_apply_writes, written_app, written_one, decide_True. Qed.

Lemma D1_log j : (j < length L)%nat -> dget D1 ROOTDEV (l_start l + Z.of_nat j + 1) = vals !!! j.
Proof using Hlog.
  destruct crash_sizes as (?&?&?&?&?&Hlv&?). intros Hj.
  unfold D1. rewrite dget_apply_writes, written_app, written_one, decide_False by (intros [=]; lia).
  replace (l_start l + Z.of_nat j + 1) with (l_start l + 0 + Z.of_nat j + 1) by lia.
  by rewrite written_log_at by lia.
Qed.

Lemma D1_recover : recover_writes l (dget D1 ROOTDEV) =
  home_writes L vals ++ [((ROOTDEV, l_start l), put_head hd 0 [])].
Proof using Hinv Hlog.
  destruct crash_sizes as (?&?&?&?&?&Hlv&?).
  unfold recover_writes. rewrite D1_head, hd_homes, hd_n. do 2 f_equal.
  apply list_eq. intros j. unfold log_vals. rewrite list_lookup_fmap.
  destruct (decide (j < length L)%nat) as [Hj|Hj].
  - rewrite lookup_seq_lt by lia. cbn. rewrite D1_log by done.
    rewrite <- list_lookup_lookup_total_lt by lia. done.
  - rewrite lookup_seq_ge, (lookup_ge_None_2 vals) by lia. done.
Qed.

Lemma D1_replay n : home_ok l n -> dget (replay l D1) ROOTDEV n = view s ROOTDEV n.
Proof using Hinv Hheld Hlog.
  intros Hn. destruct crash_sizes as (?&?&?&?&?&Hlv&?).
  unfold replay. rewrite D1_recover, dget_apply_writes, written_app, written_one.
  rewrite decide_False by (destruct Hn as [_ ?]; intros [=]; lia).
  unfold vals. rewrite home_writes_map. destruct (decide (n ∈ L)) as [Hin|Hin]; [done|]. cbn [default].
  unfold D1. rewrite dget_apply_writes, written_app, written_one.
  rewrite decide_False by (destruct Hn as [_ ?]; intros [=]; lia).
  rewrite log_writes_home by (done || lia). cbn [default].
  symmetry. apply view_clean; [done|done|]. intros Hd. by apply (li_only Hlog) in Hd as [_ ?].
Qed.
End commit_crash.

(** ** Booting *)

(** A machine that has booted from the disk [D], its cache clean, and has read
    the position of the log. *)
Record boots (D : gmap (Z * Z) block) (l : logstate) (sb : kernel) : Prop := mkBoots {
  bt_inv : bio_inv sb;
  bt_held : only_held sb [];
  bt_clean : dirty_in sb ROOTDEV [];
  bt_geom : lgeom (k_log sb);
  bt_start : l_start (k_log sb) = l_start l;
  bt_size : l_size (k_log sb) = l_size l;
  bt_disk : ide_disk (k_ide sb) = D
}.
Arguments bt_inv {D l sb}.
Arguments bt_held {D l sb}.
Arguments bt_clean {D l sb}.
Arguments bt_geom {D l sb}.
Arguments bt_start {D l sb}.
Arguments bt_size {D l sb}.
Arguments bt_disk {D l sb}.

Lemma clean_view sb n :
  bio_inv sb -> only_held sb [] -> dirty_in sb ROOTDEV [] ->
  view sb ROOTDEV n = dget (ide_disk (k_ide sb)) ROOTDEV n.
Proof.
  intros Hi Hh Hc. apply view_clean; [done|done|]. intros Hd. apply Hc in Hd as [_ Hd]. set_solver.
Qed.

Lemma home_ok_geom l l' n : l_start l' = l_start l -> l_size l' = l_size l -> home_ok l n -> home_ok l' n.
Proof. unfold home_ok. by intros -> ->. Qed.

Lemma hdr_ok_geom l l' d : l_start l' = l_start l -> l_size l' = l_size l -> hdr_ok l d -> hdr_ok l' d.
Proof.
  intros E1 E2 [Hn Hm Hh]. split; [by rewrite E2|done|]. intros h Hi. by eapply home_ok_geom, Hh.
Qed.

Lemma replay_geom l l' D : l_start l' = l_start l -> replay l' D = replay l D.
Proof. intros E. unfold replay, recover_writes, log_vals. by rewrite E. Qed.

Lemma recover_writes_view l V V' : (forall n, V' n = V n) -> recover_writes l V' = recover_writes l V.
Proof.
  intros E. unfold recover_writes. rewrite E. do 2 f_equal. unfold log_vals. apply list_fmap_ext.
  intros j x _. apply E.
Qed.

(** What recovery does after a boot. *)
Lemma recover_boot D l sb :
  boots D l sb -> hdr_ok l (dget D ROOTDEV (l_start l)) ->
  exists s', recover_from_log sb = Ok tt s' /\
    advances sb s' (recover_writes l (dget D ROOTDEV)) /\ ide_disk (k_ide s') = replay l D /\
    bio_inv s' /\ only_held s' [] /\ dirty_in s' ROOTDEV [] /\ lgeom (k_log s') /\ lh_n (k_log s') = 0 /\
    l_start (k_log s') = l_start l /\ l_size (k_log s') = l_size l.
Proof.
  intros B Hh.
  assert (Hv : forall n, view sb ROOTDEV n = dget D ROOTDEV n).
  { intros n. rewrite <- (bt_disk B). apply clean_view; apply B. }
  assert (W := recover_spec sb (bt_inv B) (bt_held B) (bt_clean B) (bt_geom B)).
  rewrite Hv, (bt_start B) in W. specialize (W (hdr_ok_geom _ _ _ (bt_start B) (bt_size B) Hh)).
  apply wp_ok in W as ([] & s' & Er & l' & (bl & El & Hbl & Hnth) & S).
  exists s'. split; [done|].
  assert (Ew : recover_writes (k_log sb) (view sb ROOTDEV) = recover_writes l (dget D ROOTDEV)).
  { rewrite (recover_writes_view _ (dget D ROOTDEV)) by done.
    unfold recover_writes, log_vals. by rewrite (bt_start B). }
  rewrite Ew in S. pose proof (ls_adv S) as [Hw Hd]. cbn in Hw, Hd.
  assert (Elog : k_log s' = set_lh_n 0 l') by (by rewrite (frame_log _ _ (ls_frame S))).
  split_and!.
  - by split.
  - rewrite Hd, (bt_disk B). done.
  - apply (ls_inv S).
  - apply (ls_only S).
  - eapply logstep_dirty_in; [exact S|exact (bt_clean B)].
  - rewrite Elog, El. destruct (bt_geom B). by split.
  - by rewrite Elog.
  - rewrite Elog, El. apply (bt_start B).
  - rewrite Elog, El. apply (bt_size B).
Qed.

(** The disk after a crash of a run from [s] to [s'], [k] writes into it. *)
Definition crash_disk (s s' : kernel) (k : nat) : gmap (Z * Z) block :=
  apply_writes (take k (drop (length (ide_writes (k_ide s))) (ide_writes (k_ide s')))) (ide_disk (k_ide s)).

Lemma crash_disk_advances s s' ws k :
  advances s s' ws -> crash_disk s s' k = apply_writes (take k ws) (ide_disk (k_ide s)).
Proof. intros [Hw _]. unfold crash_disk. by rewrite Hw, drop_app_length. Qed.

Lemma apply_writes_app ws1 ws2 d : apply_writes (ws1 ++ ws2) d = apply_writes ws2 (apply_writes ws1 d).
Proof. unfold apply_writes. by rewrite foldl_app. Qed.

(** The disk of a crash of commit, recovered. *)
Lemma commit_crash_replay s s' k :
  bio_inv s -> only_held s [] -> log_inv s ->
  hdr_n (dget (ide_disk (k_ide s)) ROOTDEV (l_start (k_log s))) = 0 ->
  advances s s' (commit_writes s) ->
  let D := crash_disk s s' k in
  hdr_ok (k_log s) (dget D ROOTDEV (l_start (k_log s))) /\
  forall n, home_ok (k_log s) n -> dget (replay (k_log s) D) ROOTDEV n =
    if Z.of_nat k <=? lh_n (k_log s) then dget (ide_disk (k_ide s)) ROOTDEV n else view s ROOTDEV n.
Proof.
  intros Hinv Hh Hlog He Ha D. unfold D. rewrite (crash_disk_advances s s' _ k Ha). clear D.
  destruct (crash_sizes s Hlog) as (Hst & Hsz & Hn & ? & ? & Hlv & ?).
  set (l := k_log s) in *. set (vals := view s ROOTDEV <$> logged l) in *.
  set (hd := put_head (view s ROOTDEV (l_start l)) (lh_n l) (lh_block l)).
  assert (Hll : length (log_writes l 0 vals) = length vals).
  { generalize 0. induction vals as [|v vals' IH] in |- *; intros i; [done|]. cbn. by rewrite IH. }
  destruct (Z.leb_spec (Z.of_nat k) (lh_n l)) as [Hk|Hk].
  - unfold commit_writes. fold l vals. rewrite take_app_le by lia.
    destruct (crash_before s Hinv Hlog He k) as (Hz & _ & Hr); [fold l; lia|]. split; [|done].
    by apply hdr_ok_none.
  - assert (Ec : take k (commit_writes s) = (log_writes l 0 vals ++ [((ROOTDEV, l_start l), hd)]) ++
              take (k - S (length vals)) (recover_writes l (dget (D1 s) ROOTDEV))).
    { pose proof (D1_recover s Hinv Hlog) as E1. fold l vals hd in E1. rewrite E1. unfold commit_writes. fold l vals hd. rewrite app_assoc.
      rewrite take_app_ge by (rewrite length_app; cbn; lia). do 2 f_equal. rewrite length_app. cbn. lia. }
    rewrite Ec, apply_writes_app.
    change (apply_writes (log_writes l 0 vals ++ [((ROOTDEV, l_start l), hd)]) (ide_disk (k_ide s))) with (D1 s).
    pose proof (D1_head s) as Eh. fold l in Eh.
    destruct (replay_prefix l (D1 s) (k - S (length vals))) as (Hz & _ & Hr).
    + apply (li_geom Hlog).
    + rewrite Eh. by apply hd_ok.
    + rewrite Eh. by apply hd_block.
    + split; [exact Hz|]. intros n Hn'. rewrite Hr by done.
      by apply D1_replay.
Qed.

(** C1. A commit is atomic with respect to crashes.  The commit of a
    transaction returns; and if the machine stops after any number [k] of its
    disk writes and boots again, recovery returns and every block outside of
    the log then has its contents from before the transaction, when the header
    had not been written, or its new contents, when it had. *)
Theorem commit_crash_atomic s :
  bio_inv s -> only_held s [] -> log_inv s -> 0 < lh_n (k_log s) ->
  hdr_n (dget (ide_disk (k_ide s)) ROOTDEV (l_start (k_log s))) = 0 ->
  exists s', commit s = Ok tt s' /\
    forall k sb, boots (crash_disk s s' k) (k_log s) sb ->
    exists s'', recover_from_log sb = Ok tt s'' /\
      forall n, home_ok (k_log s) n -> dget (ide_disk (k_ide s'')) ROOTDEV n =
        if Z.of_nat k <=? lh_n (k_log s)
        then dget (ide_disk (k_ide s)) ROOTDEV n else view s ROOTDEV n.
Proof.
  intros Hinv Hh Hlog Hn He.
  destruct (proj1 (wp_ok _ _ _) (commit_spec s Hinv Hh Hlog Hn)) as ([] & s' & Ec & S).
  exists s'. split; [done|]. intros k sb B.
  assert (Ha : advances s s' (commit_writes s)) by exact (ls_adv S).
  destruct (commit_crash_replay s s' k Hinv Hh Hlog He Ha) as [Hok Hr].
  destruct (recover_boot _ _ _ B Hok) as (s'' & Er & _ & Ed & _). exists s''. split; [done|].
  intros n Hn'. rewrite Ed. by apply Hr.
Qed.

(** The machine crashes while it recovers, and boots again. *)
Definition restarts (sb sb' : kernel) : Prop :=
  exists s1 k, recover_from_log sb = Ok tt s1 /\ boots (crash_disk sb s1 k) (k_log sb) sb'.

Lemma restarts_step D l sb sb' :
  boots D l sb -> lgeom l -> hdr_ok l (dget D ROOTDEV (l_start l)) -> restarts sb sb' ->
  exists D', boots D' l sb' /\ hdr_ok l (dget D' ROOTDEV (l_start l)) /\
    forall n, home_ok l n -> dget (replay l D') ROOTDEV n = dget (replay l D) ROOTDEV n.
Proof.
  intros B G Hh (s1 & k & Er & B'). destruct (recover_boot _ _ _ B Hh) as (s1' & Er' & Ha & _).
  rewrite Er in Er'. injection Er' as <-. rewrite (crash_disk_advances _ _ _ k Ha), (bt_disk B) in B'.
  destruct (replay_prefix l D k G Hh) as (H1 & H2 & H3).
  { rewrite <- (bt_disk B). apply (bi_ide (bt_inv B)). }
  eexists. split; [|split; [exact H1|exact H3]].
  destruct B' as [? ? ? ? Es Ez ?]. rewrite (bt_start B) in Es. rewrite (bt_size B) in Ez. by split.
Qed.

(** C2. Recovery can be interrupted any number of times.  From a disk with a
    well-formed header, however often the machine crashes in the middle of
    recovery and starts again, the recovery that completes leaves every block
    outside of the log as the first one would have. *)
Theorem recovery_restartable D l sb sb' :
  boots D l sb -> lgeom l -> hdr_ok l (dget D ROOTDEV (l_start l)) -> rtc restarts sb sb' ->
  exists s1 s2, recover_from_log sb = Ok tt s1 /\ recover_from_log sb' = Ok tt s2 /\
    forall n, home_ok l n ->
      dget (ide_disk (k_ide s2)) ROOTDEV n = dget (ide_disk (k_ide s1)) ROOTDEV n.
Proof.
  intros B G Hh Hr. destruct (recover_boot _ _ _ B Hh) as (s1 & E1 & _ & D1 & _).
  assert (Hs : exists D', boots D' l sb' /\ hdr_ok l (dget D' ROOTDEV (l_start l)) /\
    forall n, home_ok l n -> dget (replay l D') ROOTDEV n = dget (replay l D) ROOTDEV n).
  { clear s1 E1 D1. revert D B Hh. induction Hr as [sb|sb sb1 sb2 Hr _ IH]; intros D B Hh.
    - by exists D.
    - destruct (restarts_step D l sb sb1 B G Hh Hr) as (D' & B' & Hh' & E').
      destruct (IH D' B' Hh') as (D'' & B'' & Hh'' & E''). exists D''. split_and!; [done|done|].
      intros n Hn. rewrite E'' by done. by apply E'. }
  destruct Hs as (D' & B' & Hh' & E). destruct (recover_boot _ _ _ B' Hh') as (s2 & E2 & _ & D2 & _).
  exists s1, s2. split_and!; [done|done|]. intros n Hn. rewrite D1, D2. by apply E.
Qed.
