(* ===== verification/LogOps.v ===== *)
(** * begin_op, log_write and end_op

    What the three calls of a file-system operation do to the log, and why an
    operation that writes at most MAXOPBLOCKS blocks never overflows it. *)

From S2P Require Import Prelude State Sleep Ide Bio BioFrame BioSpec BioProps Log LogSpec LogRun LogCrash.
Open Scope Z_scope.

(** ** log_write *)

(** The search loop finds the block or the end of the list. *)
Lemma log_find_spec bno bl n : forall i,
  0 <= i -> i + Z.of_nat n <= Z.of_nat (length bl) ->
  let r := log_find bno bl i n in
  i <= r <= i + Z.of_nat n /\
  (r < i + Z.of_nat n -> nthz bl r = bno) /\
  (forall j, i <= j < r -> nthz bl j <> bno).
Proof.
  induction n as [|n IH]; intros i Hi Hl; cbn [log_find].
  - split; [lia|split; lia].
  - destruct (Z.eqb_spec (nthz bl i) bno) as [E|E].
    + split; [lia|split; [done|lia]].
    + destruct (IH (i + 1)) as (H1 & H2 & H3); [lia|lia|]. split; [lia|split].
      * intros Hr. apply H2. lia.
      * intros j Hj. destruct (decide (j = i)) as [->|]; [done|]. apply H3. lia.
Qed.

Lemma elem_of_logged l x :
  0 <= lh_n l <= Z.of_nat (length (lh_block l)) ->
  x ∈ logged l <-> exists j, 0 <= j < lh_n l /\ nthz (lh_block l) j = x.
Proof.
  intros Hn. unfold logged. rewrite elem_of_take. split.
  - intros (j & Hj & Hlt). exists (Z.of_nat j). split; [lia|]. unfold nthz. rewrite Nat2Z.id.
    by apply list_lookup_total_correct.
  - intros (j & Hj & E). exists (Z.to_nat j). split; [|lia]. unfold nthz in E.
    rewrite <- E. apply list_lookup_lookup_total_lt. lia.
Qed.

(** The log after log_write of block [bno]. *)
Definition log_add (bno : Z) (l : logstate) : logstate :=
  let i := log_find bno (lh_block l) 0 (Z.to_nat (lh_n l)) in
  set_lh_n (if i =? lh_n l then lh_n l + 1 else lh_n l) (set_lh_block (setz (lh_block l) i bno) l).

(** A block is logged once: a second write of it is absorbed. *)
Lemma logged_add bno l :
  0 <= lh_n l < Z.of_nat (length (lh_block l)) ->
  (bno ∈ logged l -> log_add bno l = l) /\
  (bno ∉ logged l -> lh_n (log_add bno l) = lh_n l + 1 /\ logged (log_add bno l) = logged l ++ [bno]).
Proof.
  intros Hn. destruct (log_find_spec bno (lh_block l) (Z.to_nat (lh_n l)) 0) as (H1 & H2 & H3); [lia|lia|].
  unfold log_add. set (i := log_find bno (lh_block l) 0 (Z.to_nat (lh_n l))) in *.
  rewrite (elem_of_logged l) by lia. split.
  - intros (j & Hj & E).
    assert (Hi : i < lh_n l). { destruct (Z.lt_ge_cases i (lh_n l)); [done|]. exfalso. apply (H3 j); [lia|done]. }
    rewrite (proj2 (Z.eqb_neq i (lh_n l))) by lia.
    assert (Es : setz (lh_block l) i bno = lh_block l).
    { unfold setz. apply list_insert_id. rewrite <- (H2 ltac:(lia)). unfold nthz.
      apply list_lookup_lookup_total_lt. lia. }
    rewrite Es. by destruct l.
  - intros Hnot. assert (Hi : i = lh_n l).
    { destruct (Z.lt_ge_cases i (lh_n l)); [|lia]. destruct Hnot. exists i. split; [lia|]. apply H2. lia. }
    rewrite (proj2 (Z.eqb_eq i (lh_n l)) Hi). split; [done|]. unfold logged. cbn.
    replace (Z.to_nat (lh_n l + 1)) with (S (Z.to_nat (lh_n l))) by lia. rewrite Hi. unfold setz.
    erewrite take_S_r by (apply list_lookup_insert_eq; lia). by rewrite take_insert_ge by lia.
Qed.

Definition log_fits (l : logstate) : Prop := lh_n l < LOGSIZE /\ lh_n l < l_size l - 1.

(** log_write's effect, and its panics. *)
Lemma log_write_run s b :
  1 <= l_outstanding (k_log s) -> log_fits (k_log s) ->
  log_write b s = Ok tt (set_k_bcache (alter (fun x => set_b_flags (Z.lor (b_flags x) B_DIRTY) x) b (k_bcache s))
    (set_k_log (log_add (b_blockno (k_bcache s !!! b)) (k_log s)) s)).
Proof.
  intros Ho [H1 H2]. unfold log_write, gets, panic_if, get_buf, upd_log, upd_buf, modify, mbind, M_bind, gets, mret, M_ret.
  rewrite (proj2 (Z.leb_gt LOGSIZE _)), (proj2 (Z.leb_gt (l_size (k_log s) - 1) _)) by lia.
  rewrite (proj2 (Z.ltb_ge _ 1)) by lia. cbn [orb].
  unfold log_add. cbn. set (i := log_find _ _ _ _). by destruct (i =? lh_n (k_log s)).
Qed.

Lemma log_write_full s b : ~ log_fits (k_log s) -> log_write b s = Panic "too big a transaction".
Proof.
  intros H. unfold log_write, gets, panic_if, mbind, M_bind.
  assert (E : (LOGSIZE <=? lh_n (k_log s)) || (l_size (k_log s) - 1 <=? lh_n (k_log s)) = true).
  { unfold log_fits in H. zcases. }
  by rewrite E.
Qed.

Section log_write.
Context (s : kernel) (b : nat) (n : Z).
Hypothesis Hinv : bio_inv s.
Hypothesis Hlog : log_inv s.
Hypothesis Hb : (b < NBUF)%nat.
Hypothesis Hh : holds s b.
Hypothesis Hv : bvalid (k_bcache s !!! b) = true.
Hypothesis Hk : bkey (k_bcache s !!! b) = (ROOTDEV, n).
Hypothesis Hn : home_ok (k_log s) n.
Hypothesis Hfits : log_fits (k_log s).
Hypothesis Hsize : l_size (k_log s) <= LOGSIZE.
Let f := fun x : buf => set_b_flags (Z.lor (b_flags x) B_DIRTY) x.
Let s1 := set_k_bcache (alter f b (k_bcache s)) (set_k_log (log_add n (k_log s)) s).

Lemma lw_flags : b_flags (f (k_bcache s !!! b)) = 6.
Proof using Hinv Hb Hv.
  pose proof (bo_flags (bi_bufs Hinv b Hb)) as Hf. unfold bvalid in Hv. unfold f. cbn.
  destruct Hf as [E|[E|E]]; rewrite E in Hv |- *; done.
Qed.

Lemma lw_bio : bio_inv s1.
Proof using Hinv Hb Hh Hv.
  assert (H : bio_inv (set_k_bcache (alter f b (k_bcache s)) s)).
  { apply bio_inv_held; try done; [rewrite lw_flags; right; by right|]. apply (bi_bufs Hinv b Hb). }
  destruct H. by split.
Qed.

Lemma lw_bufs i : k_bcache s1 !!! i = if decide (i = b) then f (k_bcache s !!! b) else k_bcache s !!! i.
Proof using Hinv Hb.
  destruct (bi_lru Hinv) as (l & Hlen & _). unfold s1. ksimpl. rewrite alter_total by lia.
  case_decide as E; [by subst|done].
Qed.

Lemma lw_dirty d m : dirty s1 d m <-> dirty s d m \/ (d, m) = (ROOTDEV, n).
Proof using Hinv Hb Hv Hk.
  unfold dirty. split.
  - intros (i & Hi & Hki & Hd). rewrite lw_bufs in Hki, Hd. case_decide as E.
    + right. by rewrite <- Hki, <- Hk.
    + left. by exists i.
  - intros [(i & Hi & Hki & Hd)|E].
    + exists i. rewrite lw_bufs. case_decide as E; [subst i|done]. split_and!; [done|done|].
      unfold bdirty. by rewrite lw_flags.
    + exists b. rewrite lw_bufs, decide_True by done. split_and!; [done|by rewrite E, <- Hk|].
      unfold bdirty. by rewrite lw_flags.
Qed.

Lemma lw_view d m : view s1 d m = view s d m.
Proof using Hinv Hb Hv.
  unfold view. assert (Hc : cached s1 d m = cached s d m).
  { apply find_ext. intros i _. rewrite lw_bufs. case_decide as E; [subst i|done].
    unfold bvalid at 1. rewrite lw_flags. cbn [negb]. by rewrite Hv. }
  rewrite Hc. destruct (cached s d m) as [i|]; [|done]. rewrite lw_bufs. by case_decide as E; [subst|].
Qed.

Lemma lw_log : log_inv s1.
Proof using Hinv Hlog Hb Hh Hv Hk Hn Hfits Hsize.
  pose proof (li_n Hlog) as Hln. destruct Hfits as [Hf1 Hf2].
  pose proof (li_geom Hlog) as G. pose proof (lg_len G) as Hlen.
  destruct (logged_add n (k_log s)) as [Hin Hout]; [lia|].
  assert (G1 : lgeom (k_log s1)).
  { destruct G. split; cbn; try done. by rewrite length_setz. }
  assert (Hho : forall h, home_ok (k_log s) h -> home_ok (k_log s1) h) by (intros h; done).
  destruct (decide (n ∈ logged (k_log s))) as [Hi|Hi].
  - rewrite (Hin Hi) in *. unfold s1 in *. rewrite (Hin Hi) in *.
    split; cbn; try apply Hlog.
    + intros h Hx. apply lw_dirty. left. by apply (li_dirty Hlog).
    + intros d m Hx. apply lw_dirty in Hx as [Hx|[= -> ->]]; [by apply (li_only Hlog)|done].
  - destruct (Hout Hi) as [En El].
    split; [done| | | | | |]; unfold s1; cbn [k_log set_k_bcache set_k_log]; rewrite ?En, ?El.
    + cbn. lia.
    + unfold NBUF. unfold LOGSIZE, MAXOPBLOCKS in *. lia.
    + intros h Hx. apply elem_of_app in Hx as [Hx|Hx]; apply Hho; [by apply (li_homes Hlog)|].
      by apply list_elem_of_singleton in Hx as ->.
    + apply NoDup_app. split_and!; [apply (li_nodup Hlog)|set_solver|apply NoDup_singleton].
    + intros h Hx. apply lw_dirty. apply elem_of_app in Hx as [Hx|Hx]; [left; by apply (li_dirty Hlog)|].
      apply list_elem_of_singleton in Hx as ->. by right.
    + intros d m Hx. apply lw_dirty in Hx as [Hx|[= -> ->]]; [|set_solver].
      apply (li_only Hlog) in Hx as [-> ?]. set_solver.
Qed.
End log_write.

(** C5. log_write keeps the invariants of the log and of the cache.  Called
    inside an operation with a held, valid buffer of a block outside of the log
    and room in the log, it returns; the block is then pinned as dirty and
    logged exactly once, and no block's contents change. *)
Theorem log_write_logs s b n :
  bio_inv s -> log_inv s -> (b < NBUF)%nat -> holds s b -> bvalid (k_bcache s !!! b) = true ->
  bkey (k_bcache s !!! b) = (ROOTDEV, n) -> home_ok (k_log s) n ->
  1 <= l_outstanding (k_log s) -> log_fits (k_log s) -> l_size (k_log s) <= LOGSIZE ->
  exists s', log_write b s = Ok tt s' /\ bio_inv s' /\ log_inv s' /\ holds s' b /\
    dirty s' ROOTDEV n /\ (forall d m, view s' d m = view s d m) /\
    logged (k_log s') = if decide (n ∈ logged (k_log s)) then logged (k_log s) else logged (k_log s) ++ [n].
Proof.
  intros Hinv Hlog Hb Hh Hv Hk Hn Ho Hf Hs. eexists. split; [by apply log_write_run|].
  pose proof Hk as Hk'. unfold bkey in Hk'. injection Hk' as _ ->.
  split_and!.
  - by apply lw_bio.
  - by apply lw_log.
  - unfold holds. rewrite lw_bufs, decide_True by done. exact Hh.
  - apply (lw_dirty s b n); try done. by right.
  - intros d m. by apply lw_view.
  - destruct Hf as [Hf1 Hf2]. pose proof (li_n Hlog). pose proof (lg_len (li_geom Hlog)).
    destruct (logged_add n (k_log s)) as [Hin Hout]; [lia|]. cbn [k_log set_k_bcache set_k_log].
    case_decide as E; [by rewrite Hin|by apply Hout].
Qed.

(** ** end_op *)

Lemma commit_nothing s : lh_n (k_log s) = 0 -> commit s = Ok tt s.
Proof. intros E. unfold commit, gets, mbind, M_bind. by rewrite E. Qed.

(** The transaction is installed. *)
Record installed (s s' : kernel) : Prop := mkInstalled {
  in_inv : bio_inv s';
  in_held : only_held s' [];
  in_log : log_inv s';
  in_empty : lh_n (k_log s') = 0;
  in_view : forall n, home_ok (k_log s) n -> view s' ROOTDEV n = view s ROOTDEV n;
  in_disk : forall n, home_ok (k_log s) n -> dget (ide_disk (k_ide s')) ROOTDEV n = view s ROOTDEV n;
  in_header : hdr_n (dget (ide_disk (k_ide s')) ROOTDEV (l_start (k_log s))) = 0
}.

Lemma log_inv_empty s l : lgeom l -> lh_n l = 0 -> dirty_in s ROOTDEV [] -> log_inv (set_k_log l s).
Proof.
  intros G E Hd. pose proof (lg_size G).
  assert (EL : logged l = []) by (unfold logged; by rewrite E).
  split; cbn; rewrite ?EL, ?E; try done; [lia|set_solver|apply NoDup_nil_2|set_solver].
Qed.

Lemma commit_writes_home s n :
  bio_inv s -> only_held s [] -> log_inv s -> home_ok (k_log s) n ->
  default (dget (ide_disk (k_ide s)) ROOTDEV n) (written (commit_writes s) (ROOTDEV, n)) = view s ROOTDEV n.
Proof.
  intros Hinv Hh Hlog Hn. destruct (crash_sizes s Hlog) as (? & ? & ? & ? & ? & Hlv & ?).
  unfold commit_writes. rewrite !written_app, !written_one.
  rewrite decide_False by (destruct Hn as [_ ?]; intros [=]; lia). rewrite home_writes_map.
  destruct (decide (n ∈ logged (k_log s))) as [Hin|Hin]; [done|].
  rewrite decide_False by (destruct Hn as [_ ?]; intros [=]; lia).
  rewrite log_writes_home by (done || lia). cbn. symmetry. apply view_clean; [done|done|].
  intros Hd. by apply (li_only Hlog) in Hd as [_ ?].
Qed.

Lemma commit_installs s :
  bio_inv s -> only_held s [] -> log_inv s ->
  hdr_n (dget (ide_disk (k_ide s)) ROOTDEV (l_start (k_log s))) = 0 ->
  exists s' l, commit s = Ok tt s' /\ k_log s' = l /\ set_lh_n 0 (k_log s) = l /\ installed s s' /\
    bio_frame (set_k_log l s) s'.
Proof.
  intros Hinv Hh Hlog He. pose proof (li_n Hlog) as Hln. pose proof (li_geom Hlog) as G.
  destruct (decide (lh_n (k_log s) = 0)) as [E0|E0].
  - exists s, (k_log s). split; [by apply commit_nothing|]. split_and!; [done| | |by destruct s].
    { destruct (k_log s) eqn:El. cbn in E0. by rewrite E0. }
    assert (EL : logged (k_log s) = []) by (unfold logged; by rewrite E0).
    split; try done. intros n Hn. symmetry. apply view_clean; [done|done|].
    intros Hd. apply (li_only Hlog) in Hd as [_ Hd]. rewrite EL in Hd. set_solver.
  - destruct (proj1 (wp_ok _ _ _) (commit_spec s Hinv Hh Hlog ltac:(lia))) as ([] & s' & Ec & S).
    exists s', (set_lh_n 0 (k_log s)).
    assert (Elog : k_log s' = set_lh_n 0 (k_log s)) by (by rewrite (frame_log _ _ (ls_frame S))).
    assert (Hcl : dirty_in s' ROOTDEV []).
    { intros d m Hd. apply (ls_dirty S) in Hd as [Hd Hn]. apply (li_only Hlog) in Hd as [-> Hin].
      destruct Hn. unfold commit_writes. rewrite !fmap_app, !elem_of_app.
      right. right. left. apply home_writes_keys; [by rewrite length_fmap|by exists m]. }
    split; [done|]. split_and!; [done|done| |exact (ls_frame S)].
    split; [apply (ls_inv S)|apply (ls_only S)| |by rewrite Elog| | |].
    + assert (Es : s' = set_k_log (set_lh_n 0 (k_log s)) s') by (rewrite <- Elog; by destruct s').
      rewrite Es. apply log_inv_empty; [by destruct G|done|done].
    + intros n Hn. rewrite (ls_view S) by apply root_key.
      rewrite <- (commit_writes_home s n) by done.
      destruct (written (commit_writes s) (ROOTDEV, n)) eqn:E; [done|]. cbn.
      symmetry. change (view (set_k_log (set_lh_n 0 (k_log s)) s)) with (view s).
      rewrite <- (commit_writes_home s n) by done. by rewrite E.
    + intros n Hn. destruct (ls_adv S) as [_ Hd]. rewrite Hd, dget_apply_writes. by apply (commit_writes_home s).
    + destruct (ls_adv S) as [_ Hd]. rewrite Hd, dget_apply_writes. unfold commit_writes.
      rewrite !app_assoc, written_app, written_one, decide_True by done. cbn [default].
      apply hdr_n_put; [by apply hd_block|unfold LOGSIZE, MAXOPBLOCKS; lia|lia].
Qed.

Lemma bio_inv_set_log s l : bio_inv s -> bio_inv (set_k_log l s).
Proof. intros []. by split. Qed.

Lemma bio_inv_ptable s pt :
  bio_inv s -> bio_inv (set_k_ptable pt s).
Proof. intros []. by split. Qed.

Lemma log_inv_same s s' :
  log_inv s -> (forall d n, dirty s' d n <-> dirty s d n) ->
  l_dev (k_log s') = l_dev (k_log s) -> l_start (k_log s') = l_start (k_log s) ->
  l_size (k_log s') = l_size (k_log s) -> lh_n (k_log s') = lh_n (k_log s) ->
  lh_block (k_log s') = lh_block (k_log s) -> log_inv s'.
Proof.
  intros [G Hn Hm Hh Hnd Hd Ho] Hdd E1 E2 E3 E4 E5.
  assert (EL : logged (k_log s') = logged (k_log s)) by (unfold logged; by rewrite E4, E5).
  split; rewrite ?EL, ?E4, ?E3; try done.
  - destruct G. split; by rewrite ?E1, ?E2, ?E3, ?E5.
  - intros h Hi. eapply home_ok_geom; [done|done|by apply Hh].
  - intros h Hi. apply Hdd. by apply Hd.
  - intros d n Hx. apply Hdd in Hx. by apply Ho.
Qed.

(** C3. The last end_op of a transaction makes it durable.  It returns with
    no operation outstanding; every block outside of the log then has, in the
    cache and on the disk, the contents it had in the cache before, and the log
    is empty in memory and on the disk. *)
Theorem end_op_durable s :
  bio_inv s -> only_held s [] -> log_inv s -> l_outstanding (k_log s) = 1 ->
  l_committing (k_log s) = false ->
  hdr_n (dget (ide_disk (k_ide s)) ROOTDEV (l_start (k_log s))) = 0 ->
  exists s', end_op s = Ok tt s' /\ installed s s' /\
    l_outstanding (k_log s') = 0 /\ l_committing (k_log s') = false.
Proof.
  intros Hinv Hh Hlog Ho Hc He.
  set (s1 := set_k_log (set_l_committing true (set_l_outstanding 0 (k_log s))) s).
  assert (Hlog1 : log_inv s1) by (by apply (log_inv_same s)).
  destruct (commit_installs s1) as (s2 & l2 & Ec & El & El2 & I & F);
    [by apply bio_inv_set_log|done|done|done|].
  assert (Erun : end_op s = Ok tt (set_k_ptable (wakeup1_proc ChLog <$> k_ptable s2)
            (set_k_log (set_l_committing false l2) s2))).
  { unfold end_op, upd_log, panic_if, gets, modify, mbind, M_bind, mret, M_ret. cbn -[commit]. rewrite Ho, Hc. change (1 - 1) with 0. cbn -[commit].
    match goal with |- context [commit ?x] => change x with s1 end. rewrite Ec. unfold wakeup, wakeup1, modify. cbn. by rewrite El. }
  eexists. split; [exact Erun|]. destruct I as [I1 I2 I3 I4 I5 I6 I7].
  split; [|split; [cbn; by rewrite <- El2|done]].
  split; try done.
  - by apply bio_inv_ptable, bio_inv_set_log.
  - eapply log_inv_same; [exact I3|..]; cbn; by rewrite ?El.
  - cbn. rewrite <- El2. done.
Qed.

(** ** Room in the log *)

(** The loops of commit leave the log in memory alone. *)
Lemma bio_log {A} (m : kM A) : moves bio_only m -> moves (same k_log) m.
Proof. apply moves_weaken. by intros s s' (bc & ide & pt & ->). Qed.

Lemma write_log_from_log n : forall i, moves (same k_log) (write_log_from i n).
Proof. induction n as [|n IH]; intros i; cbn [write_log_from]; moves_steps; auto using bio_log with moves. Qed.
Lemma install_from_log n : forall i, moves (same k_log) (install_from i n).
Proof. induction n as [|n IH]; intros i; cbn [install_from]; moves_steps; auto using bio_log with moves. Qed.
Lemma write_head_log : moves (same k_log) write_head.
Proof. unfold write_head. moves_steps; auto using bio_log with moves. Qed.

Lemma commit_log s s' : commit s = Ok tt s' ->
  k_log s' = k_log s /\ lh_n (k_log s) <= 0 \/ k_log s' = set_lh_n 0 (k_log s).
Proof.
  intros E. unfold commit in E. apply bind_inv in E as (l & s0 & [= <- <-] & E).
  destruct (Z.ltb_spec 0 (lh_n (k_log s))); [|injection E as <-; left; split; [done|lia]].
  right. apply bind_inv in E as ([] & s1 & E1 & E).
  apply bind_inv in E as ([] & s2 & E2 & E). apply bind_inv in E as ([] & s3 & E3 & E).
  apply bind_inv in E as ([] & s4 & [= <-] & E).
  apply (moves_ok (same k_log)) in E1; [|unfold write_log; moves_steps; apply write_log_from_log].
  apply (moves_ok (same k_log)) in E2; [|apply write_head_log].
  apply (moves_ok (same k_log)) in E3; [|unfold install_trans; moves_steps; apply install_from_log].
  apply (moves_ok (same k_log)) in E; [|apply write_head_log].
  unfold same in *. rewrite E. cbn. by rewrite E3, E2, E1.
Qed.

(** File-system operations at work: each outstanding one may still write as
    many blocks as its entry of the list says.  Other code leaves the log
    alone. *)
Inductive op_step : kernel * list nat -> kernel * list nat -> Prop :=
  | op_begin s s' rs : begin_op s = Ok tt s' -> op_step (s, rs) (s', Z.to_nat MAXOPBLOCKS :: rs)
  | op_write s s' b r1 r r2 : log_write b s = Ok tt s' -> op_step (s, r1 ++ S r :: r2) (s', r1 ++ r :: r2)
  | op_end s s' r1 r r2 : end_op s = Ok tt s' -> op_step (s, r1 ++ r :: r2) (s', r1 ++ r2)
  | op_other s s' rs : k_log s' = k_log s -> op_step (s, rs) (s', rs).

Record log_room (s : kernel) (rs : list nat) : Prop := mkRoom {
  rm_committing : l_committing (k_log s) = false;
  rm_outstanding : l_outstanding (k_log s) = Z.of_nat (length rs);
  rm_n : 0 <= lh_n (k_log s);
  rm_sum : lh_n (k_log s) + Z.of_nat (sum_list rs) <= LOGSIZE;
  rm_max : Forall (fun r => (r <= 10)%nat) rs
}.

Lemma sum_list_10 rs : Forall (fun r => (r <= 10)%nat) rs -> (sum_list rs <= 10 * length rs)%nat.
Proof. induction 1 as [|r rs Hr _ IH]; cbn; lia. Qed.

(** begin_op admits the operation only if MAXOPBLOCKS blocks for every
    outstanding one still fit. *)
Lemma begin_op_ok s s' : begin_op s = Ok tt s' ->
  l_committing (k_log s) = false /\
  lh_n (k_log s) + (l_outstanding (k_log s) + 1) * MAXOPBLOCKS <= LOGSIZE /\
  s' = set_k_log (set_l_outstanding (l_outstanding (k_log s) + 1) (k_log s)) s.
Proof.
  intros E. unfold begin_op in E. apply bind_inv in E as (l & s0 & [= <- <-] & E).
  assert (Hs : forall A (c : chan) (a : A) x, (sleep c : kM A) s <> Ok a x).
  { intros A c a x. unfold sleep, gets, mbind, M_bind. by destruct (k_cur s). }
  destruct (l_committing (k_log s)); [by apply Hs in E|].
  destruct (Z.ltb_spec LOGSIZE (lh_n (k_log s) + (l_outstanding (k_log s) + 1) * MAXOPBLOCKS)); [by apply Hs in E|].
  injection E as <-. split_and!; [done|lia|done].
Qed.

Lemma log_add_n bno l : 0 <= lh_n l ->
  (lh_n (log_add bno l) = lh_n l \/ lh_n (log_add bno l) = lh_n l + 1) /\
  l_outstanding (log_add bno l) = l_outstanding l /\ l_committing (log_add bno l) = l_committing l.
Proof. intros H. unfold log_add. cbn. destruct (_ =? _); auto. Qed.

Lemma end_op_log s s' : end_op s = Ok tt s' -> l_committing (k_log s) = false ->
  l_outstanding (k_log s') = l_outstanding (k_log s) - 1 /\ l_committing (k_log s') = false /\
  (lh_n (k_log s') = lh_n (k_log s) \/ lh_n (k_log s') = 0).
Proof.
  intros E Hc. unfold end_op in E. apply bind_inv in E as ([] & s1 & [= <-] & E).
  apply bind_inv in E as (l & s2 & [= <- <-] & E). cbn in E. rewrite Hc in E.
  apply bind_inv in E as ([] & s2 & [= <-] & E).
  destruct (Z.eqb_spec (l_outstanding (k_log s) - 1) 0) as [E0|E0].
  - apply bind_inv in E as ([] & s3 & [= <-] & E). apply bind_inv in E as ([] & s4 & E4 & E).
    apply bind_inv in E as ([] & s5 & [= <-] & E). injection E as <-. cbn.
    apply commit_log in E4 as [[E4 _]|E4]; cbn in E4; rewrite E4; cbn; auto.
  - injection E as <-. cbn. auto.
Qed.

Lemma op_step_room s rs s' rs' : op_step (s, rs) (s', rs') -> log_room s rs -> log_room s' rs'.
Proof.
  intros Hs [H1 H2 H3 H4 H5]. inversion Hs as [? ? ? E|? ? b r1 r r2 E|? ? r1 r r2 E|? ? ? E]; subst.
  - apply begin_op_ok in E as (_ & Hl & ->). pose proof (sum_list_10 rs H5).
    split; cbn; try done; [lia| |by constructor]. unfold LOGSIZE, MAXOPBLOCKS in *. cbn in *. lia.
  - rewrite sum_list_with_app in *. cbn in *.
    destruct (decide (log_fits (k_log s))) as [Hf|Hf]; [|by rewrite log_write_full in E].
    rewrite length_app in *. cbn in *.
    rewrite log_write_run in E by (done || lia). injection E as <-.
    destruct (log_add_n (b_blockno (k_bcache s !!! b)) (k_log s) H3) as (Hn & Ho & Hc).
    apply Forall_app in H5 as [H5 H6]. apply Forall_cons in H6 as [H6 H7].
    split; cbn -[log_add].
    + by rewrite Hc.
    + rewrite Ho, length_app. cbn. lia.
    + lia.
    + rewrite sum_list_with_app. cbn -[log_add]. lia.
    + apply Forall_app. split; [done|]. constructor; [lia|done].
  - rewrite sum_list_with_app in *. rewrite length_app in *. cbn in *.
    apply Forall_app in H5 as [H5 H6]. apply Forall_cons in H6 as [H6 H7].
    apply end_op_log in E as (Ho & Hc & Hn); [|done].
    split; try done.
    + rewrite Ho, length_app. lia.
    + lia.
    + rewrite sum_list_with_app. lia.
    + by apply Forall_app.
  - rewrite <- E in *. by split.
Qed.

(** No operation is outstanding and nothing is logged. *)
Definition log_idle (s : kernel) : Prop :=
  l_committing (k_log s) = false /\ l_outstanding (k_log s) = 0 /\ lh_n (k_log s) = 0.

Lemma log_idle_room s : log_idle s -> log_room s [].
Proof. intros (H1 & H2 & H3). split; try done; rewrite H3; unfold LOGSIZE, MAXOPBLOCKS; cbn; lia. Qed.

Lemma reachable_room s0 s rs : log_idle s0 -> rtc op_step (s0, []) (s, rs) -> log_room s rs.
Proof.
  intros Hi Hr. apply log_idle_room in Hi. revert Hi. remember (s0, @nil nat) as p eqn:Ep.
  remember (s, rs) as q eqn:Eq. revert s0 s rs Ep Eq.
  enough (H : forall p q, rtc op_step p q -> log_room p.1 p.2 -> log_room q.1 q.2).
  { intros s0 s rs -> -> H0. by apply (H _ _ Hr). }
  clear. induction 1 as [|[s1 r1] [s2 r2] q Hs _ IH]; [done|]. intros H. apply IH. by eapply op_step_room.
Qed.

(** C6. The log does not overflow.  Whatever the interleaving of operations,
    each of which writes at most MAXOPBLOCKS blocks between its begin_op and
    its end_op, the logged blocks and the blocks still to come fit LOGSIZE
    entries.  A log_write inside an operation's allowance returns as long as the
    log has a block for it besides its header, and panics otherwise; so on a log
    of more than LOGSIZE blocks it always returns.  (This is about log_write.
    The commit of LOGSIZE blocks also needs a buffer besides those that hold
    them, and NBUF is LOGSIZE: [commit_wants_buffer].) *)
Theorem log_never_overflows s0 s rs :
  log_idle s0 -> rtc op_step (s0, []) (s, rs) ->
  lh_n (k_log s) + Z.of_nat (sum_list rs) <= LOGSIZE /\
  (forall b r, S r ∈ rs ->
     (lh_n (k_log s) + 1 < l_size (k_log s) -> exists s', log_write b s = Ok tt s') /\
     (l_size (k_log s) <= lh_n (k_log s) + 1 -> log_write b s = Panic "too big a transaction")) /\
  (LOGSIZE < l_size (k_log s) -> forall b r, S r ∈ rs -> exists s', log_write b s = Ok tt s').
Proof.
  intros Hi Hr. pose proof (reachable_room s0 s rs Hi Hr) as [H1 H2 H3 H4 H5].
  assert (Hw : forall b r, S r ∈ rs -> lh_n (k_log s) < LOGSIZE /\ (lh_n (k_log s) + 1 < l_size (k_log s) -> exists s', log_write b s = Ok tt s')).
  { intros b r Hin. apply list_elem_of_split in Hin as (r1 & r2 & ->).
    rewrite sum_list_with_app in H4. cbn in H4. rewrite length_app in H2. cbn in H2.
    split; [lia|]. intros Hs. eexists. apply log_write_run; [lia|]. split; lia. }
  split_and!; [done|intros b r Hin; split; [by eapply Hw|]|].
  - intros Hs. apply log_write_full. unfold log_fits. lia.
  - intros Hs b r Hin. destruct (Hw b r Hin) as [Hn Hok]. apply Hok. lia.
Qed.

(** The commit of a transaction that leaves no buffer free cannot read the log. *)
Lemma commit_wants_buffer s :
  bio_inv s -> 0 < lh_n (k_log s) -> ~ room s -> ~ incache s (l_dev (k_log s)) (l_start (k_log s) + 0 + 1) ->
  commit s = Panic "bget: no buffers".
Proof.
  intros Hb Hn Hr Hc. apply (bget_panics_iff_full s _ _ Hb Hc) in Hr. unfold commit, write_log. rewrite (bind_ok _ _ s (k_log s) s) by done.
  rewrite (proj2 (Z.ltb_lt _ _) Hn). destruct (Z.to_nat (lh_n (k_log s))) as [|n] eqn:En; [lia|].
  unfold bread, gets, mbind, M_bind. rewrite En. cbn [write_log_from]. unfold bread, gets, mbind, M_bind. by rewrite Hr.
Qed.
