(* ===== verification/Boot.v ===== *)
(** * Concrete machine states

    A machine after binit, and the same machine in the middle of a transaction
    that has written one block.  The theorems on the buffer cache and on the
    log are evaluated on them. *)

From S2P Require Import Prelude State Sleep Ide Bio BioSpec BioProps Log LogSpec LogRun LogCrash LogOps.
Open Scope Z_scope.

(** Memory all zero. *)
Definition power_on : kernel := inhabitant.

(** The buffers after binit. *)
Definition bcache0 : list buf :=
  match binit power_on with Ok _ s => k_bcache s | _ => [] end.

(** The log of an image made by mkfs: blocks 2 to 31. *)
Definition log0 : logstate := mkLog 2 30 0 false ROOTDEV 0 (replicate 30 0).

Definition machine (bs : list buf) (l : logstate) (D : gmap (Z * Z) block) : kernel :=
  set_k_bcache bs (set_k_log l (set_k_ide (mkIde [] true None false D [])
    (set_k_cur (Some O) power_on))).

Definition disk_ok (D : gmap (Z * Z) block) : Prop := forall dev bno, block_ok (dget D dev bno).

Lemma disk_ok_empty : disk_ok ∅.
Proof. intros dev bno. unfold dget. rewrite lookup_empty. apply zero_block_ok. Qed.

Lemma disk_ok_apply ws D :
  disk_ok D -> Forall (fun w => block_ok w.2) ws -> disk_ok (apply_writes ws D).
Proof.
  revert D. induction ws as [|[k v] ws IH]; intros D HD Hw; [done|].
  apply Forall_cons in Hw as [Hv Hw]. apply IH; [|done]. intros dev bno. unfold dget. cbn.
  destruct (decide (k = (dev, bno))) as [->|Hne].
  - by rewrite lookup_insert_eq.
  - rewrite lookup_insert_ne by done. apply HD.
Qed.

(** All slots free and empty. *)
Definition fresh (x : buf) : Prop :=
  b_flags x = 0 /\ b_dev x = 0 /\ b_blockno x = 0 /\ b_refcnt x = 0 /\
  sl_locked (b_lock x) = false /\ b_data x = zero_block.

Lemma bcache0_lru : lru bcache0 (rev (seq 0 NBUF)).
Proof.
  destruct (proj1 (wp_ok _ _ _) (binit_spec power_on eq_refl)) as ([] & s' & E & H & _).
  unfold bcache0. by rewrite E.
Qed.

Lemma bcache0_fresh i : (i < NBUF)%nat -> fresh (bcache0 !!! i).
Proof.
  intros Hi.
  destruct (proj1 (wp_ok _ _ _) (binit_spec power_on eq_refl)) as ([] & s' & E & _ & H).
  specialize (H i Hi). unfold bcache0. rewrite E.
  assert (Ei : k_bcache power_on !!! i = (inhabitant : buf)).
  { apply lookup_total_replicate_2. unfold NBUF in Hi. lia. }
  rewrite Ei in H. unfold binit_buf in H. apply core_fields in H as (H1 & H2 & H3 & H4 & H5 & H6).
  unfold fresh. rewrite H1, H2, H3, H4, H5, H6. split_and!; reflexivity.
Qed.

Lemma fresh_ok D x : fresh x -> buf_ok D x.
Proof.
  intros (E1 & E2 & E3 & E4 & E5 & E6). split.
  - by left.
  - rewrite E2, E3. split; [by left|unfold FSSIZE; lia].
  - lia.
  - done.
  - rewrite E6. apply zero_block_ok.
  - unfold bvalid. by rewrite E1.
Qed.

(** A machine whose buffers are all free. *)
Section boot.
Context (bs : list buf) (l : logstate) (D : gmap (Z * Z) block).
Hypothesis Hlru : exists o, lru bs o.
Hypothesis Hfresh : forall i, (i < NBUF)%nat -> fresh (bs !!! i).
Hypothesis HD : disk_ok D.
Let sb := machine bs l D.

Lemma boot_inv : bio_inv sb.
Proof using Hlru Hfresh HD.
  split.
  - exact Hlru.
  - by exists O.
  - by split.
  - intros b Hb. apply fresh_ok. by apply Hfresh.
  - intros i j Hi Hj _ Hne. destruct (Hfresh i Hi) as (_ & E2 & E3 & _).
    destruct Hne. unfold bkey. cbn. by rewrite E2, E3.
Qed.

Lemma boot_held : only_held sb [].
Proof using Hfresh. intros i Hi _. by destruct (Hfresh i Hi) as (_ & _ & _ & ? & _). Qed.

Lemma boot_clean : dirty_in sb ROOTDEV [].
Proof using Hfresh.
  intros d n (i & Hi & _ & Hd). destruct (Hfresh i Hi) as (E & _).
  unfold bdirty in Hd. cbn in Hd. by rewrite E in Hd.
Qed.

Lemma boot_log : lgeom l -> lh_n l = 0 -> log_inv sb.
Proof using Hfresh. intros G H. apply (log_inv_empty sb l G H boot_clean). Qed.

Lemma boot_boots : lgeom l -> boots D l sb.
Proof using Hlru Hfresh HD.
  intros G. split; try done; [apply boot_inv|apply boot_held|apply boot_clean].
Qed.
End boot.

Lemma log0_geom : lgeom log0.
Proof. by split. Qed.

Lemma machine_boots D : disk_ok D -> boots D log0 (machine bcache0 log0 D).
Proof.
  intros HD. apply boot_boots; [exists (rev (seq 0 NBUF)); apply bcache0_lru|apply bcache0_fresh|done|apply log0_geom].
Qed.

(** The machine with block [n] modified in the buffer [b] and logged. *)
Definition modified (n : Z) (d : block) (x : buf) : buf :=
  set_b_flags 6 (set_b_dev ROOTDEV (set_b_blockno n (set_b_data d x))).

Section transaction.
Context (bs : list buf) (l : logstate) (D : gmap (Z * Z) block) (b : nat) (n : Z) (d : block).
Hypothesis Hlru : exists o, lru bs o.
Hypothesis Hfresh : forall i, (i < NBUF)%nat -> fresh (bs !!! i).
Hypothesis HD : disk_ok D.
Hypothesis Hb : (b < NBUF)%nat.
Hypothesis Hn : key_ok ROOTDEV n.
Hypothesis Hd : block_ok d.
Hypothesis Hlen : length bs = S NBUF.
Let bs' := alter (modified n d) b bs.
Let s := machine bs' l D.

Lemma tx_other i : i <> b -> bs' !!! i = bs !!! i.
Proof using. intros H. by apply alter_total_ne. Qed.
Lemma tx_buf : bs' !!! b = modified n d (bs !!! b).
Proof using Hb Hlen. unfold bs'. by rewrite alter_total_eq by lia. Qed.

Lemma tx_dirty dv m : dirty s dv m <-> (dv, m) = (ROOTDEV, n).
Proof using Hfresh Hb Hlen.
  split.
  - intros (i & Hi & Hk & Hdi). cbn in Hk, Hdi. destruct (decide (i = b)) as [->|Hne].
    + rewrite tx_buf in Hk. by rewrite <- Hk.
    + rewrite tx_other in Hdi by done. destruct (Hfresh i Hi) as (E & _).
      unfold bdirty in Hdi. by rewrite E in Hdi.
  - intros [= -> ->]. exists b. split_and!; [done|cbn; by rewrite tx_buf..].
Qed.

Lemma tx_inv : bio_inv s.
Proof using Hlru Hfresh HD Hb Hn Hd Hlen.
  split.
  - destruct Hlru as [o Ho]. exists o. by apply lru_alter.
  - by exists O.
  - by split.
  - intros i Hi. cbn. destruct (decide (i = b)) as [->|Hne].
    + rewrite tx_buf. destruct (Hfresh b Hb) as (_ & _ & _ & E4 & E5 & _).
      split; try done; cbn; [right; by right|rewrite E4; lia].
    + rewrite tx_other by done. by apply fresh_ok, Hfresh.
  - intros i j Hi Hj He Hne. cbn in He, Hne.
    assert (H0 : forall k, (k < NBUF)%nat -> k <> b -> bkey (bs' !!! k) = (0, 0)).
    { intros k Hk Hkb. rewrite tx_other by done. destruct (Hfresh k Hk) as (_ & E2 & E3 & _).
      unfold bkey. by rewrite E2, E3. }
    destruct (decide (i = b)) as [->|Hib]; [|by rewrite H0 in Hne].
    destruct (decide (j = b)) as [->|Hjb]; [done|]. by rewrite (H0 j) in He.
Qed.

Lemma tx_held : only_held s [].
Proof using Hfresh Hb Hlen.
  intros i Hi _. cbn. destruct (decide (i = b)) as [->|Hne].
  - rewrite tx_buf. by destruct (Hfresh b Hb) as (_ & _ & _ & E4 & _).
  - rewrite tx_other by done. by destruct (Hfresh i Hi) as (_ & _ & _ & E4 & _).
Qed.

Lemma tx_view : view s ROOTDEV n = d.
Proof using Hlru Hfresh HD Hb Hn Hd Hlen.
  rewrite (view_hit s ROOTDEV n b tx_inv (root_key n) Hb); cbn; by rewrite tx_buf.
Qed.

Lemma tx_log : lgeom l -> home_ok l n -> lh_n l = 1 -> nthz (lh_block l) 0 = n -> log_inv s.
Proof using Hlru Hfresh HD Hb Hn Hd Hlen.
  intros G Hho H1 Hnth.
  assert (EL : logged (k_log s) = [n]).
  { unfold logged. cbn. rewrite H1. pose proof (lg_len G) as HG. unfold nthz in Hnth.
    destruct (lh_block l) as [|x r]; [done|]. change (x = n) in Hnth. rewrite Hnth. done. }
  pose proof (lg_size G).
  split; [done|cbn; lia|cbn; rewrite H1; unfold NBUF; lia|rewrite EL; set_solver| | |]; rewrite ?EL.
  - apply NoDup_singleton.
  - intros h Hh. apply tx_dirty. set_solver.
  - intros dv m Hm. apply tx_dirty in Hm as [= -> ->]. set_solver.
Qed.
End transaction.

(** One transaction that has written block 100. *)
Definition block_a : block := replicate 512 97.
Definition log1 : logstate := mkLog 2 30 1 false ROOTDEV 1 (100 :: replicate 29 0).
Definition tx_machine : kernel := machine (alter (modified 100 block_a) 29%nat bcache0) log1 ∅.

Lemma block_a_ok : block_ok block_a.
Proof. split; [done|]. apply Forall_replicate. unfold is_byte. lia. Qed.

Lemma bcache0_some_lru : exists o, lru bcache0 o.
Proof. exists (rev (seq 0 NBUF)). apply bcache0_lru. Qed.

Lemma tx_machine_ok :
  bio_inv tx_machine /\ only_held tx_machine [] /\ log_inv tx_machine /\
  view tx_machine ROOTDEV 100 = block_a.
Proof.
  assert (Hk : key_ok ROOTDEV 100) by (split; [by right|unfold FSSIZE; lia]).
  assert (Hlen : length bcache0 = S NBUF) by apply bcache0_lru.
  pose proof bcache0_some_lru. pose proof bcache0_fresh. pose proof disk_ok_empty. pose proof block_a_ok.
  assert ((29 < NBUF)%nat) by (unfold NBUF; lia).
  split_and!; [by apply tx_inv|by apply tx_held| |by apply tx_view].
  apply tx_log; [assumption..| | | |]; [by split| |reflexivity|reflexivity].
  split; [unfold FSSIZE; lia|cbn; lia].
Qed.

(** ** The theorems on the log, evaluated *)

Lemma commit_writes_ok s : bio_inv s -> log_inv s -> Forall (fun w => block_ok w.2) (commit_writes s).
Proof.
  intros Hinv Hlog. pose proof (hd_block s Hinv Hlog) as Hhd. unfold commit_writes.
  assert (Hlw : forall i vals, Forall block_ok vals ->
            Forall (fun w => block_ok w.2) (log_writes (k_log s) i vals)).
  { intros i vals Hv. revert i. induction Hv; intros i; constructor; cbn; auto. }
  assert (Hv : Forall block_ok (view s ROOTDEV <$> logged (k_log s))).
  { apply Forall_fmap, Forall_forall. intros x _. by apply view_ok. }
  apply Forall_app. split; [by apply Hlw|]. constructor; [done|]. apply Forall_app. split.
  - revert Hv. generalize (view s ROOTDEV <$> logged (k_log s)). generalize (logged (k_log s)).
    intros L. induction L as [|h L IH]; intros [|v vals] Hv; cbn; try constructor.
    + by apply Forall_cons in Hv as [? _].
    + apply IH. by apply Forall_cons in Hv as [_ ?].
  - constructor; [|done]. cbn. apply put_head_ok; [done|unfold LOGSIZE, MAXOPBLOCKS; lia|cbn; lia].
Qed.

(** The crash of the transaction on block 100, before and after its header
    write. *)
Lemma commit_crash_atomic_witness :
  exists s', commit tx_machine = Ok tt s' /\ forall k,
    exists s'', recover_from_log (machine bcache0 log0 (crash_disk tx_machine s' k)) = Ok tt s'' /\
      dget (ide_disk (k_ide s'')) ROOTDEV 100 = if Z.of_nat k <=? 1 then zero_block else block_a.
Proof.
  destruct tx_machine_ok as (Hinv & Hh & Hlog & Hv).
  assert (Hn : 0 < lh_n (k_log tx_machine)) by (change (0 < 1); lia).
  assert (He : hdr_n (dget (ide_disk (k_ide tx_machine)) ROOTDEV (l_start (k_log tx_machine))) = 0)
    by reflexivity.
  destruct (commit_crash_atomic tx_machine Hinv Hh Hlog Hn He) as (s' & Ec & Hk).
  exists s'. split; [exact Ec|]. intros k.
  destruct (proj1 (wp_ok _ _ _) (commit_spec tx_machine Hinv Hh Hlog Hn)) as ([] & s1 & Ec' & S).
  assert (s1 = s') by congruence. subst s1.
  assert (HD : disk_ok (crash_disk tx_machine s' k)).
  { rewrite (crash_disk_advances tx_machine s' (commit_writes tx_machine) k) by exact (ls_adv S).
    apply disk_ok_apply; [exact disk_ok_empty|]. by apply Forall_take, commit_writes_ok. }
  destruct (machine_boots _ HD) as [B1 B2 B3 B4 B5 B6 B7].
  destruct (Hk k (machine bcache0 log0 (crash_disk tx_machine s' k))) as (s'' & Er & Hd).
  { split; [exact B1|exact B2|exact B3|exact B4|reflexivity|reflexivity|exact B7]. }
  exists s''. split; [exact Er|]. rewrite (Hd 100), Hv; [reflexivity|].
  split; [unfold FSSIZE; lia|right; change (2 + 30 <= 100); lia].
Defined.

(** Recovery of an image with an empty log, interrupted once. *)
Lemma recovery_restartable_witness :
  exists s1 s2, recover_from_log (machine bcache0 log0 ∅) = Ok tt s1 /\
    recover_from_log (machine bcache0 log0 ∅) = Ok tt s2 /\
    dget (ide_disk (k_ide s2)) ROOTDEV 100 = dget (ide_disk (k_ide s1)) ROOTDEV 100.
Proof.
  assert (B : boots ∅ log0 (machine bcache0 log0 ∅)) by exact (machine_boots ∅ disk_ok_empty).
  assert (Hh : hdr_ok log0 (dget ∅ ROOTDEV (l_start log0))) by (apply hdr_ok_none; [cbn; lia|reflexivity]).
  assert (Hr : rtc restarts (machine bcache0 log0 ∅) (machine bcache0 log0 ∅)).
  { apply rtc_once. destruct (recover_boot _ _ _ B Hh) as (s1 & E1 & _). exists s1, O.
    split; [exact E1|]. exact B. }
  destruct (recovery_restartable ∅ log0 _ _ B log0_geom Hh Hr) as (s1 & s2 & E1 & E2 & Hd).
  exists s1, s2. split; [exact E1|split; [exact E2|]]. apply Hd.
  split; [unfold FSSIZE; lia|right; cbn; lia].
Defined.

Lemma end_op_durable_witness :
  exists s', end_op tx_machine = Ok tt s' /\ dget (ide_disk (k_ide s')) ROOTDEV 100 = block_a.
Proof.
  destruct tx_machine_ok as (Hinv & Hh & Hlog & Hv).
  destruct (end_op_durable tx_machine Hinv Hh Hlog) as (s' & Ee & I & _); [reflexivity..|].
  exists s'. split; [exact Ee|]. rewrite (in_disk _ _ I); [exact Hv|].
  split; [unfold FSSIZE; lia|right; change (2 + 30 <= 100); lia].
Defined.

(** A machine with one operation outstanding and an empty log. *)
Definition log_open : logstate := mkLog 2 30 1 false ROOTDEV 0 (replicate 30 0).

(** Block 100 read and logged. *)
Lemma log_write_logs_witness :
  exists b s1 s2, bread ROOTDEV 100 (machine bcache0 log_open ∅) = Ok b s1 /\
    log_write b s1 = Ok tt s2 /\ logged (k_log s2) = [100].
Proof.
  assert (G : lgeom log_open) by (split; done).
  assert (B : boots ∅ log_open (machine bcache0 log_open ∅))
    by exact (boot_boots _ _ _ bcache0_some_lru bcache0_fresh disk_ok_empty G).
  assert (Hk : key_ok ROOTDEV 100) by (split; [right; reflexivity|unfold FSSIZE; lia]).
  destruct (proj1 (wp_ok _ _ _) (read_first _ ROOTDEV [] (bt_inv B) (bt_held B) (bt_clean B)
     ltac:(discriminate) ltac:(unfold NBUF; cbn; lia) 100 Hk)) as (b & s1 & E1 & T).
  exists b, s1. pose proof (frame_log _ _ (tk_frame T)) as El.
  assert (El' : k_log s1 = log_open) by exact El.
  assert (Hlog : log_inv s1).
  { apply (log_inv_same (machine bcache0 log_open ∅)); try (rewrite El; reflexivity).
    - apply boot_log; [apply bcache0_fresh|exact G|reflexivity].
    - exact (tk_dirty T). }
  assert (Ho : 1 <= l_outstanding (k_log s1)) by (rewrite El'; cbn; lia).
  assert (Hf : log_fits (k_log s1)) by (rewrite El'; split; reflexivity).
  assert (Hs : l_size (k_log s1) <= LOGSIZE) by (rewrite El'; discriminate).
  assert (Hn : home_ok (k_log s1) 100) by (rewrite El'; split; [unfold FSSIZE; lia|right; cbn; lia]).
  destruct (log_write_logs s1 b 100 (tk_inv T) Hlog (tk_b T) (tk_holds T) (tk_valid T) (tk_key T) Hn Ho Hf Hs)
    as (s2 & E2 & _ & _ & _ & _ & _ & Hl).
  exists s2. split; [exact E1|split; [exact E2|]]. rewrite Hl, El'. reflexivity.
Defined.

Lemma log_never_overflows_witness :
  exists s rs, rtc op_step (set_k_log (mkLog 2 31 0 false ROOTDEV 0 (replicate 30 0)) power_on, []) (s, rs) /\
    rs = [10%nat] /\ exists s', log_write 0 s = Ok tt s'.
Proof.
  set (s0 := set_k_log (mkLog 2 31 0 false ROOTDEV 0 (replicate 30 0)) power_on).
  set (s1 := set_k_log (mkLog 2 31 1 false ROOTDEV 0 (replicate 30 0)) s0).
  assert (Hr : rtc op_step (s0, []) (s1, [10%nat])) by (apply rtc_once; apply op_begin; reflexivity).
  assert (Hi : log_idle s0) by (split; [reflexivity|split; reflexivity]).
  exists s1, [10%nat]. split; [exact Hr|split; [reflexivity|]].
  apply (proj2 (proj2 (log_never_overflows s0 s1 [10%nat] Hi Hr)) ltac:(reflexivity) 0%nat 9%nat). set_solver.
Defined.

(** ** The theorems on the buffer cache, evaluated *)

Definition booted : kernel := machine bcache0 log0 ∅.

Lemma booted_ok : boots ∅ log0 booted.
Proof. exact (machine_boots ∅ disk_ok_empty). Qed.

Lemma booted_room : room booted.
Proof.
  apply (have_room booted [] ROOTDEV []); [apply booted_ok|apply booted_ok|apply booted_ok|discriminate|].
  unfold NBUF. cbn. lia.
Qed.

Lemma booted_took : exists b s1, bread ROOTDEV 100 booted = Ok b s1 /\ took booted s1 ROOTDEV 100 b.
Proof.
  assert (Hk : key_ok ROOTDEV 100) by (split; [right; reflexivity|unfold FSSIZE; lia]).
  destruct (proj1 (wp_ok _ _ _) (read_first _ ROOTDEV [] (bt_inv booted_ok) (bt_held booted_ok)
     (bt_clean booted_ok) ltac:(discriminate) ltac:(unfold NBUF; cbn; lia) 100 Hk)) as (b & s1 & E1 & T).
  exists b, s1. split; [exact E1|exact T].
Qed.

Lemma bread_returns_block_witness :
  exists b s', bread ROOTDEV 100 booted = Ok b s' /\ b_data (k_bcache s' !!! b) = view booted ROOTDEV 100.
Proof.
  destruct (bread_returns_block booted ROOTDEV 100) as (b & s' & E & _ & _ & _ & Hd & _).
  - apply booted_ok.
  - split; [right; reflexivity|unfold FSSIZE; lia].
  - discriminate.
  - apply only_held_unref, booted_ok.
  - right. apply booted_room.
  - exists b, s'. split; [exact E|exact Hd].
Defined.

Lemma bwrite_reaches_disk_witness :
  exists b s1 s2, bread ROOTDEV 100 booted = Ok b s1 /\ bwrite b s1 = Ok tt s2 /\
    dget (ide_disk (k_ide s2)) ROOTDEV 100 = b_data (k_bcache s1 !!! b).
Proof.
  destruct booted_took as (b & s1 & E1 & T). exists b, s1.
  destruct (bwrite_reaches_disk s1 b (tk_inv T) (tk_b T) (tk_holds T) (tk_valid T)) as (s2 & E2 & _ & _ & Hd & _).
  - rewrite (tk_key T). discriminate.
  - exists s2. split; [exact E1|split; [exact E2|]]. rewrite Hd, (tk_key T). unfold dget.
    rewrite lookup_insert_eq. reflexivity.
Defined.

Lemma brelse_most_recent_witness :
  exists b s1 s2, bread ROOTDEV 100 booted = Ok b s1 /\ brelse b s1 = Ok tt s2 /\
    exists l, lru (k_bcache s2) (b :: l).
Proof.
  destruct booted_took as (b & s1 & E1 & T). exists b, s1.
  destruct (bi_lru (tk_inv T)) as [l Hl].
  assert (Hb : b ∈ l) by (apply (lru_mem _ _ _ Hl), (tk_b T)).
  destruct (list_elem_of_split _ _ Hb) as (l1 & l2 & El). rewrite El in Hl.
  destruct (brelse_most_recent s1 b l1 l2 (tk_inv T) (tk_b T) (tk_holds T) (tk_ref T)) as (s2 & E2 & _ & Hl2 & _).
  - intros Hd _. pose proof (tk_key T) as K. unfold bkey in K. injection K as -> ->.
    rewrite (tk_disk T). exact (tk_clean T Hd).
  - exact Hl.
  - exists s2. split; [exact E1|split; [exact E2|]]. exists (l1 ++ l2). exact Hl2.
Defined.

(** Every buffer referenced. *)
Definition busy : kernel := machine (set_b_refcnt 1 <$> bcache0) log0 ∅.

Lemma busy_bufs bs i : (i < length bs)%nat -> (set_b_refcnt 1 <$> bs) !!! i = set_b_refcnt 1 (bs !!! i).
Proof.
  intros Hi. destruct (lookup_lt_is_Some_2 bs i Hi) as [x Hx].
  rewrite (list_lookup_total_correct bs i x Hx). apply list_lookup_total_correct.
  by rewrite list_lookup_fmap, Hx.
Qed.

Lemma busy_inv bs l D :
  (exists o, lru bs o) -> (forall i, (i < NBUF)%nat -> fresh (bs !!! i)) -> disk_ok D ->
  bio_inv (machine (set_b_refcnt 1 <$> bs) l D).
Proof.
  intros [o Ho] Hf HD. pose proof Ho as (Hlen & Hperm & Hseg). split.
  - exists o. change (lru (set_b_refcnt 1 <$> bs) o). split_and!; [by rewrite length_fmap|done|].
    assert (Hle : forall i, i = HEAD \/ i ∈ o -> (i < length bs)%nat).
    { intros i [->|Hi]; [unfold HEAD; lia|]. apply (lru_mem _ _ _ Ho) in Hi. lia. }
    eapply seg_ext; [| |exact Hseg].
    + intros i Hi. unfold nx. cbn. rewrite busy_bufs; [done|]. apply Hle. apply elem_of_cons in Hi. tauto.
    + intros i Hi. unfold pv. cbn. rewrite busy_bufs; [done|]. apply Hle.
      apply elem_of_app in Hi as [?|?%list_elem_of_singleton]; tauto.
  - by exists O.
  - by split.
  - intros b Hb. cbn. rewrite busy_bufs by lia. destruct (Hf b Hb) as (E1 & E2 & E3 & E4 & E5 & E6).
    destruct (fresh_ok D _ (Hf b Hb)). split; cbn; try done.
  - intros i j Hi Hj _ Hne. cbn in Hne. rewrite busy_bufs in Hne by lia.
    destruct (Hf i Hi) as (_ & E2 & E3 & _). destruct Hne. unfold bkey. cbn. by rewrite E2, E3.
Qed.

Lemma busy_uncached bs l D dev n :
  length bs = S NBUF -> (forall i, (i < NBUF)%nat -> fresh (bs !!! i)) -> dev <> 0 ->
  ~ incache (machine (set_b_refcnt 1 <$> bs) l D) dev n.
Proof.
  intros Hlen Hf Hd (i & Hi & Hk). cbn in Hk. rewrite busy_bufs in Hk by lia.
  destruct (Hf i Hi) as (_ & E2 & _). unfold bkey in Hk. cbn in Hk. congruence.
Qed.

Lemma busy_no_room bs l D : length bs = S NBUF -> ~ room (machine (set_b_refcnt 1 <$> bs) l D).
Proof. intros Hlen (i & Hi & Hu). cbn in Hu. by rewrite busy_bufs in Hu by lia. Qed.

Lemma bget_panics_iff_full_witness :
  bget ROOTDEV 100 busy = Panic "bget: no buffers".
Proof.
  assert (Hlen : length bcache0 = S NBUF) by apply bcache0_lru.
  apply (bget_panics_iff_full busy ROOTDEV 100).
  - apply busy_inv; [apply bcache0_some_lru|apply bcache0_fresh|apply disk_ok_empty].
  - apply busy_uncached; [exact Hlen|apply bcache0_fresh|discriminate].
  - apply busy_no_room. exact Hlen.
Defined.
