(* ===== verification/Kalloc.v ===== *)
(** * kalloc.c: the physical page allocator

    The free pages form a list linked through their first words.  [kend] is
    the address of the symbol [end], which the linker places after the kernel. *)

From S2P Require Import Prelude State CString.
Open Scope Z_scope.

(** ** Memory accesses *)

Definition ld32 (a : Z) : kM Z := gets (fun s => load32 (k_mem s) a).
Definition ld8 (a : Z) : kM Z := gets (fun s => k_mem s a).
Definition upd_mem (f : mem -> mem) : kM unit := modify (fun s => set_k_mem (f (k_mem s)) s).
Definition sd32 (a v : Z) : kM unit := upd_mem (fun m => store32 m a v).
Definition upd_kmem (f : kmemstate -> kmemstate) : kM unit := modify (fun s => set_k_kmem (f (k_kmem s)) s).

(** Addresses and contents the linker gives: the symbols [end] and [data], the
    entry points forkret and trapret, and the program initcode. *)
Class Linker := {
  kend : Z; kdata : Z;
  kforkret : Z; ktrapret : Z;
  initcode_start : Z; initcode_size : Z
}.

Section kalloc.
Context `{Linker}.

(** ** The operations *)

Definition kfree (v : Z) : kM unit :=
  panic_if (negb (v mod PGSIZE =? 0) || (v <? kend) || (PHYSTOP <=? V2P v)) "kfree";;
  upd_mem (fun m => memset m v 1 PGSIZE);;
  k ← gets k_kmem;
  sd32 v (km_freelist k);;
  upd_kmem (set_km_freelist v).

Definition kalloc : kM Z :=
  k ← gets k_kmem;
  let r := km_freelist k in
  (when negb (r =? 0) do (next ← ld32 r; upd_kmem (set_km_freelist next)));;
  mret r.

(** for(; p + PGSIZE <= vend; p += PGSIZE) *)
Fixpoint freerange_loop (p vend : Z) (fuel : nat) : kM unit :=
  if u32 (p + PGSIZE) <=? vend then
    match fuel with
    | O => nofuel
    | S f => kfree p;; freerange_loop (u32 (p + PGSIZE)) vend f
    end
  else mret tt.

(** At most one iteration per page below [vend]. *)
Definition freerange (vstart vend : Z) : kM unit :=
  freerange_loop (PGROUNDUP vstart) vend (Z.to_nat (vend / PGSIZE)).

Definition kinit1 (vstart vend : Z) : kM unit :=
  upd_kmem (set_km_use_lock false);;
  freerange vstart vend.

Definition kinit2 (vstart vend : Z) : kM unit :=
  freerange vstart vend;;
  upd_kmem (set_km_use_lock true).

(** ** The free list *)

(** A page the allocator may hand out. *)
Definition page_ok (v : Z) : Prop :=
  v mod PGSIZE = 0 /\ kend <= v /\ KERNBASE < v /\ V2P v < PHYSTOP /\ v < 4294967296.

(** The pages on the list that starts at [r]. *)
Fixpoint chain (m : mem) (r : Z) (l : list Z) : Prop :=
  match l with
  | [] => r = 0
  | a :: l' => r = a /\ page_ok a /\ chain m (load32 m a) l'
  end.

Record freelist (s : kernel) (l : list Z) : Prop := mkFreelist {
  fl_chain : chain (k_mem s) (km_freelist (k_kmem s)) l;
  fl_nodup : NoDup l
}.

Lemma page_ok_nz v : page_ok v -> v <> 0.
Proof using. intros (_ & _ & ? & _). unfold KERNBASE in *. lia. Qed.

(** The bytes of a page. *)
Definition in_page (v x : Z) : Prop := v <= x < v + PGSIZE.

Lemma page_disjoint v w x : page_ok v -> page_ok w -> v <> w -> in_page v x -> ~ in_page w x.
Proof using.
  intros (Hv & _) (Hw & _) Hne. unfold in_page, PGSIZE in *. intros ? ?.
  pose proof (Z.div_mod v 4096). pose proof (Z.div_mod w 4096). lia.
Qed.

Lemma chain_pages m r l : chain m r l -> Forall page_ok l.
Proof using. revert r. induction l as [|a l IH]; intros r; cbn; [constructor|]. intros (_ & ? & ?). constructor; eauto. Qed.

(** The list depends on its pages only. *)
Lemma chain_ext m m' r l :
  (forall a x, a ∈ l -> in_page a x -> m' x = m x) -> chain m r l -> chain m' r l.
Proof using.
  revert r. induction l as [|a l IH]; intros r Hm; cbn; [done|]. intros (-> & Hp & Hc).
  split_and!; [done|done|]. replace (load32 m' a) with (load32 m a).
  - apply IH; [intros b x Hb; apply Hm; set_solver|exact Hc].
  - apply load32_eq_on. intros x Hx. symmetry. apply (Hm a); [set_solver|]. unfold in_page, PGSIZE. lia.
Qed.

Lemma kalloc_some s a l :
  freelist s (a :: l) ->
  exists s', kalloc s = Ok a s' /\ freelist s' l /\ k_mem s' = k_mem s /\ page_ok a /\
    s' = set_k_kmem (set_km_freelist (load32 (k_mem s) a) (k_kmem s)) s.
Proof using.
  intros [(E & Hp & Hc) Hnd]. eexists. split.
  - unfold kalloc, ld32, upd_kmem, gets, modify, mbind, M_bind. rewrite E.
    rewrite (proj2 (Z.eqb_neq a 0)) by (by apply page_ok_nz). cbn. done.
  - apply NoDup_cons in Hnd as [_ Hnd]. split_and!; try done.
Qed.

Lemma kalloc_none s : freelist s [] -> kalloc s = Ok 0 s.
Proof using.
  intros [E _]. cbn in E. unfold kalloc, gets, mbind, M_bind. rewrite E. done.
Qed.

(** The contents of memory after kfree: junk, and the link. *)
Definition junk (m : mem) (v r : Z) : mem := store32 (memset m v 1 PGSIZE) v r.

Lemma kfree_run s v : page_ok v ->
  kfree v s = Ok tt (set_k_kmem (set_km_freelist v (k_kmem s))
    (set_k_mem (junk (k_mem s) v (km_freelist (k_kmem s))) s)).
Proof using.
  intros (H1 & H2 & H3 & H4 & H5). unfold kfree, panic_if, upd_mem, sd32, upd_mem, upd_kmem, gets, modify, mbind, M_bind.
  rewrite H1, Z.eqb_refl, (proj2 (Z.ltb_ge v kend)), (proj2 (Z.leb_gt PHYSTOP _)) by lia. done.
Qed.

Lemma junk_outside m v r x : ~ in_page v x -> junk m v r x = m x.
Proof using.
  intros Hx. unfold junk, store32, store_bytes, in_page, PGSIZE in *.
  assert (Hl : length (enc32 r) = 4%nat) by apply length_le_enc. rewrite Hl.
  rewrite memset_spec by lia. zcases.
Qed.

Lemma kfree_ok s v l :
  freelist s l -> page_ok v -> v ∉ l -> 0 <= km_freelist (k_kmem s) < 4294967296 ->
  exists s', kfree v s = Ok tt s' /\ freelist s' (v :: l) /\
    (forall x, ~ in_page v x -> k_mem s' x = k_mem s x).
Proof using.
  intros [Hc Hnd] Hp Hv Hr. eexists. split; [by apply kfree_run|]. split.
  - split; [|by constructor]. cbn. split_and!; [done|done|].
    unfold junk. rewrite load_store32, u32_small by done.
    eapply chain_ext; [|exact Hc]. intros a x Ha Hx. apply junk_outside.
    apply (page_disjoint a); try done; [|set_solver]. pose proof (chain_pages _ _ _ Hc) as HF.
    by eapply Forall_forall in HF.
  - intros x Hx. by apply junk_outside.
Qed.
End kalloc.
