(* ===== verification/PageMath.v ===== *)
(** * Page arithmetic

    The macros of mmu.h and memlayout.h in terms of division and remainder. *)

From S2P Require Import Prelude State.
Open Scope Z_scope.

Lemma testbit_above a n i : 0 <= a < 2 ^ n -> n <= i -> Z.testbit a i = false.
Proof.
  intros Ha Hi. destruct (Z.eq_dec a 0) as [->|Hnz]; [apply Z.bits_0|].
  apply Z.bits_above_log2; [lia|]. apply Z.log2_lt_pow2; [lia|].
  assert (2 ^ n <= 2 ^ i) by (apply Z.pow_le_mono_r; lia). lia.
Qed.

(** Clearing the low [k] bits of a word. *)
Lemma land_clear k a : 0 <= k <= 32 -> 0 <= a < 4294967296 -> Z.land a (Z.shiftl (Z.ones (32 - k)) k) = a / 2 ^ k * 2 ^ k.
Proof.
  intros Hk Ha. rewrite <- Z.shiftr_div_pow2, <- Z.shiftl_mul_pow2 by lia.
  apply Z.bits_inj'. intros i Hi. rewrite Z.land_spec, !Z.shiftl_spec by lia.
  destruct (Z.lt_ge_cases i k) as [Hlt|Hge].
  - rewrite !(Z.testbit_neg_r _ (i - k)) by lia. by rewrite andb_false_r.
  - rewrite Z.shiftr_spec by lia. replace (i - k + k) with i by lia.
    destruct (Z.lt_ge_cases i 32) as [H32|H32].
    + rewrite Z.ones_spec_low by lia. by rewrite andb_true_r.
    + rewrite (testbit_above a 32) by (done || lia). done.
Qed.
Lemma land_page a : 0 <= a < 4294967296 -> Z.land a 4294963200 = a / 4096 * 4096.
Proof. apply (land_clear 12). lia. Qed.
Lemma land_word a : 0 <= a < 4294967296 -> Z.land a 4294967292 = a / 4 * 4.
Proof. apply (land_clear 2). lia. Qed.

Lemma page_mask : u32 (Z.lnot (PGSIZE - 1)) = 4294963200.
Proof. done. Qed.

Lemma PGROUNDDOWN_div a : 0 <= a < 4294967296 -> PGROUNDDOWN a = a / 4096 * 4096.
Proof. intros Ha. unfold PGROUNDDOWN. rewrite page_mask. by apply land_page. Qed.

Lemma PGROUNDUP_div a : 0 <= a -> a + 4095 < 4294967296 -> PGROUNDUP a = (a + 4095) / 4096 * 4096.
Proof.
  intros Ha Hb. unfold PGROUNDUP. rewrite page_mask. unfold PGSIZE.
  replace (a + 4096 - 1) with (a + 4095) by lia. rewrite u32_small by lia. apply land_page. lia.
Qed.

Lemma PGROUNDDOWN_bounds a : 0 <= a < 4294967296 ->
  PGROUNDDOWN a mod PGSIZE = 0 /\ PGROUNDDOWN a <= a < PGROUNDDOWN a + PGSIZE.
Proof. intros Ha. rewrite PGROUNDDOWN_div by done. unfold PGSIZE. rewrite Z_mod_mult. split; [done|]. zlia. Qed.

Lemma PGROUNDUP_bounds a : 0 <= a -> a + 4095 < 4294967296 ->
  PGROUNDUP a mod PGSIZE = 0 /\ a <= PGROUNDUP a < a + PGSIZE.
Proof. intros Ha Hb. rewrite PGROUNDUP_div by done. unfold PGSIZE. rewrite Z_mod_mult. split; [done|]. zlia. Qed.

Lemma V2P_small v : KERNBASE <= v < 4294967296 -> V2P v = v - KERNBASE.
Proof. intros. unfold V2P, KERNBASE in *. apply u32_small. lia. Qed.
Lemma P2V_small p : 0 <= p < KERNBASE -> P2V p = p + KERNBASE.
Proof. intros. unfold P2V, KERNBASE in *. apply u32_small. lia. Qed.
Lemma P2V_V2P v : KERNBASE <= v < 4294967296 -> P2V (V2P v) = v.
Proof. intros. rewrite V2P_small by done. rewrite P2V_small; unfold KERNBASE in *; lia. Qed.
