(* ===== verification/KallocSpec.v ===== *)
(** * What the page allocator promises *)

From S2P Require Import Prelude State CString Kalloc PageMath.
Open Scope Z_scope.

Section kalloc.
Context `{Linker}.

(** The [n] pages from [p] on. *)
Definition pages (p : Z) (n : nat) : list Z := (fun i : nat => p + Z.of_nat i * PGSIZE) <$> seq 0 n.

Lemma pages_S p n : pages p (S n) = p :: pages (p + PGSIZE) n.
Proof using.
  unfold pages. cbn [seq fmap list_fmap]. f_equal; [lia|].
  rewrite <- seq_shift. rewrite <- list_fmap_compose. apply list_fmap_ext. intros i x _. cbn. lia.
Qed.

Lemma elem_of_pages p n a : a ∈ pages p n <-> exists i, 0 <= i < Z.of_nat n /\ a = p + i * PGSIZE.
Proof using.
  unfold pages. rewrite list_elem_of_fmap. split.
  - intros (i & -> & Hi). apply elem_of_seq in Hi. exists (Z.of_nat i). lia.
  - intros (i & Hi & ->). exists (Z.to_nat i). rewrite elem_of_seq. split; [|lia]. by rewrite Z2Nat.id by lia.
Qed.

Lemma freelist_range s l : freelist s l -> 0 <= km_freelist (k_kmem s) < 4294967296.
Proof using.
  intros [Hc _]. destruct l as [|a l]; cbn in Hc; [rewrite Hc; lia|]. destruct Hc as (-> & Hp & _).
  destruct Hp as (_ & _ & ? & _ & ?). unfold KERNBASE in *. lia.
Qed.

Lemma freerange_loop_ok n : forall p vend fuel s l,
  0 <= p -> vend < 4294967296 - PGSIZE -> p + Z.of_nat n * PGSIZE <= vend < p + (Z.of_nat n + 1) * PGSIZE ->
  (n <= fuel)%nat -> freelist s l -> (forall a, a ∈ pages p n -> page_ok a /\ a ∉ l) ->
  exists s', freerange_loop p vend fuel s = Ok tt s' /\ freelist s' (rev (pages p n) ++ l) /\
    forall x, (forall a, a ∈ pages p n -> ~ in_page a x) -> k_mem s' x = k_mem s x.
Proof using.
  unfold PGSIZE. induction n as [|n IH]; intros p vend fuel s l Hp Hv Hn Hf Hfl Hpg.
  - exists s. split; [|split; [done|done]].
    assert (E : (u32 (p + PGSIZE) <=? vend) = false) by (unfold PGSIZE; rewrite u32_small by lia; apply Z.leb_gt; lia).
    destruct fuel; cbn [freerange_loop]; by rewrite E.
  - destruct fuel as [|fuel]; [lia|]. cbn [freerange_loop].
    assert (Eu : u32 (p + PGSIZE) = p + 4096) by (unfold PGSIZE; apply u32_small; lia).
    rewrite Eu, (proj2 (Z.leb_le _ _)) by lia.
    assert (Hhead : p ∈ pages p (S n)) by (rewrite pages_S; set_solver).
    destruct (Hpg p Hhead) as [Hpok Hpl].
    destruct (kfree_ok s p l Hfl Hpok Hpl (freelist_range s l Hfl)) as (s1 & E1 & Hfl1 & Hm1).
    destruct (IH (p + 4096) vend fuel s1 (p :: l)) as (s2 & E2 & Hfl2 & Hm2); try done; try lia.
    { intros a Ha. assert (Ha' : a ∈ pages p (S n)) by (rewrite pages_S; unfold PGSIZE; set_solver).
      destruct (Hpg a Ha') as [? Hal]. split; [done|]. apply elem_of_pages in Ha as (i & Hi & ->).
      unfold PGSIZE in *. apply not_elem_of_cons. split; [lia|done]. }
    exists s2. split; [by erewrite bind_ok by exact E1|]. split.
    + rewrite pages_S. cbn [rev]. rewrite <- app_assoc. exact Hfl2.
    + intros x Hx. rewrite Hm2, Hm1; [done| |].
      * by apply Hx.
      * intros a Ha. apply Hx. rewrite pages_S. unfold PGSIZE. set_solver.
Qed.

(** freerange hands over exactly the whole pages of the range.  From a
    free list that has none of them, it returns with every page between
    [vstart] and [vend] on the list once, in front of the pages that were
    there, and no byte outside of those pages changed. *)
Theorem freerange_frees s l vstart vend :
  freelist s l -> KERNBASE < vstart -> kend <= vstart -> vstart <= vend <= KERNBASE + PHYSTOP ->
  let p := PGROUNDUP vstart in
  let n := Z.to_nat ((vend - p) / PGSIZE) in
  p <= vend -> (forall a, a ∈ pages p n -> a ∉ l) ->
  exists s', freerange vstart vend s = Ok tt s' /\ freelist s' (rev (pages p n) ++ l) /\
    forall x, (forall a, a ∈ pages p n -> ~ in_page a x) -> k_mem s' x = k_mem s x.
Proof using.
  intros Hfl Hk Hke Hr p n Hpv Hdisj.
  destruct (PGROUNDUP_bounds vstart) as [Hal Hb]; [unfold KERNBASE in *; lia|unfold KERNBASE, PHYSTOP in *; lia|].
  fold p in Hal, Hb. unfold freerange. fold p. unfold KERNBASE, PHYSTOP, PGSIZE in *.
  apply freerange_loop_ok; unfold PGSIZE; try done; try lia.
  - subst n. zlia.
  - subst n. zlia.
  - intros a Ha. split; [|by apply Hdisj]. apply elem_of_pages in Ha as (i & Hi & ->). unfold PGSIZE in *.
    assert (p + i * 4096 < 4294967296 /\ p + i * 4096 < 2147483648 + 234881024) as [? ?] by (subst n; zlia).
    unfold page_ok, PGSIZE, KERNBASE, PHYSTOP. rewrite V2P_small by (unfold KERNBASE; lia). unfold KERNBASE.
    split_and!; [|lia..]. rewrite Z_mod_plus_full. done.
Qed.

(** kalloc and kfree are a stack of distinct pages.  kalloc takes the
    first free page and changes no memory, or returns 0 and changes nothing
    when none is left; kfree of a page that is not free puts it back, and
    kalloc then returns it. *)
Theorem kalloc_kfree s l v :
  freelist s l -> page_ok v -> v ∉ l ->
  (match l with
   | [] => kalloc s = Ok 0 s
   | a :: l' => exists s', kalloc s = Ok a s' /\ freelist s' l' /\ k_mem s' = k_mem s /\ a ∉ l'
   end) /\
  exists s1 s2, kfree v s = Ok tt s1 /\ freelist s1 (v :: l) /\
    (forall x, ~ in_page v x -> k_mem s1 x = k_mem s x) /\
    kalloc s1 = Ok v s2 /\ freelist s2 l.
Proof using.
  intros Hfl Hp Hv. split.
  - destruct l as [|a l']; [by apply kalloc_none|].
    destruct (kalloc_some s a l' Hfl) as (s' & E & Hfl' & Hm & _). exists s'. split_and!; try done.
    destruct Hfl as [_ Hnd]. by apply NoDup_cons in Hnd as [? _].
  - destruct (kfree_ok s v l Hfl Hp Hv (freelist_range s l Hfl)) as (s1 & E1 & Hfl1 & Hm1).
    destruct (kalloc_some s1 v l Hfl1) as (s2 & E2 & Hfl2 & _). by exists s1, s2.
Qed.
End kalloc.

(** ** Examples *)

(** A kernel that ends at 0x80200000, and its first two free pages. *)
#[local] Instance example_linker : Linker :=
  {| kend := 2149580800; kdata := 2148564992; kforkret := 2148540000; ktrapret := 2148550000;
     initcode_start := 2148570000; initcode_size := 44 |}.
Definition page1 : Z := 2149584896.

Lemma empty_freelist : freelist (inhabitant : kernel) [].
Proof. split; [reflexivity|apply NoDup_nil_2]. Qed.

Lemma page1_ok : page_ok page1.
Proof. unfold page_ok. split_and!; try reflexivity; discriminate. Qed.

Lemma freerange_frees_witness :
  exists s', freerange 2149584000 2149600000 inhabitant = Ok tt s' /\
    freelist s' [page1 + 8192; page1 + 4096; page1].
Proof.
  destruct (freerange_frees inhabitant [] 2149584000 2149600000) as (s' & E & Hf & _).
  - exact empty_freelist.
  - reflexivity.
  - discriminate.
  - split; discriminate.
  - discriminate.
  - intros a _. apply not_elem_of_nil.
  - exists s'. split; [exact E|exact Hf].
Defined.

Lemma kalloc_kfree_witness :
  kalloc inhabitant = Ok 0 inhabitant /\
  exists s1 s2, kfree page1 inhabitant = Ok tt s1 /\ kalloc s1 = Ok page1 s2.
Proof.
  destruct (kalloc_kfree inhabitant [] page1) as (H1 & s1 & s2 & E1 & _ & _ & E2 & _).
  - exact empty_freelist.
  - exact page1_ok.
  - apply not_elem_of_nil.
  - split; [exact H1|]. exists s1, s2. split; [exact E1|exact E2].
Defined.
