(* ===== verification/Console.v ===== *)
(** * console.c and uart.c: output, and the input line buffer

    The screen is the array of character cells and the cursor register; the
    serial port is the list of the bytes sent.  consoleread and consolewrite
    are with the file system (they lock an inode). *)

From S2P Require Import Prelude State CString Sleep Kalloc.
From Stdlib Require Import Ascii String.
Open Scope Z_scope.

(** The bytes of a string literal. *)
Definition str (s : string) : list Z := (fun a => Z.of_N (N_of_ascii a)) <$> list_ascii_of_string s.

Definition upd_cons (f : consstate -> consstate) : kM unit :=
  modify (fun s => set_k_cons (f (k_cons s)) s).

(** ** Output *)

(** uart.c; the transmitter becomes ready within the 128 polls. *)
Definition uartputc (c : Z) : kM unit :=
  k ← gets k_cons;
  when uart k do upd_cons (fun k => set_uart_out (u8 c :: uart_out k) k).

Definition BACKSPACE : Z := 256.

(** memmove of rows 1..23 to rows 0..22. *)
Definition scroll (l : list Z) : list Z :=
  slice l 80 (Z.to_nat (23 * 80)) ++ drop (Z.to_nat (23 * 80)) l.
(** memset of the cells from [pos] to the end of row 23. *)
Definition clear_from (l : list Z) (pos : Z) : list Z :=
  splice l (Z.to_nat pos) (replicate (Z.to_nat (24 * 80 - pos)) 0).

Definition cgaputc (c : Z) : kM unit :=
  k ← gets k_cons;
  let pos := crt_pos k in
  let '(cells, pos) :=
    if c =? 10 then (crt k, pos + (80 - Z.rem pos 80))
    else if c =? BACKSPACE then (crt k, if 0 <? pos then pos - 1 else pos)
    else (setz (crt k) pos (Z.lor (Z.land c 255) 1792), pos + 1) in
  panic_if ((pos <? 0) || (25 * 80 <? pos)) "pos under/overflow";;
  let '(cells, pos) :=
    if 24 <=? pos / 80 then
      let pos := pos - 80 in (clear_from (scroll cells) pos, pos)
    else (cells, pos) in
  upd_cons (fun k => set_crt_pos pos (set_crt (setz cells pos (Z.lor 32 1792)) k)).

Definition consputc (c : Z) : kM unit :=
  k ← gets k_cons;
  if panicked k then nofuel
  else
    (if c =? BACKSPACE then uartputc 8;; uartputc 32;; uartputc 8 else uartputc c);;
    cgaputc c.

Fixpoint consputs (l : list Z) : kM unit :=
  match l with [] => mret tt | c :: l' => consputc c;; consputs l' end.

(** ** Formatting *)

Definition digits : list Z := str "0123456789abcdef".

(** The do-while loop of printint: the digits, least significant first. *)
Fixpoint printint_digits (x base : Z) (fuel : nat) : list Z :=
  match fuel with
  | O => []
  | S f => nthz digits (x mod base) ::
           (if x / base =? 0 then [] else printint_digits (x / base) base f)
  end.

(** The bytes printint puts out; 32 digits are enough for any base. *)
Definition printint (xx base : Z) (sign : bool) : list Z :=
  let neg := sign && (xx <? 0) in
  let x := if neg then u32 (- xx) else u32 xx in
  rev (printint_digits x base 32 ++ (if neg then [45] else [])).

(** An argument of cprintf. *)
Inductive arg := ANum (n : Z) | AStr (s : list Z).

(** The bytes cprintf puts out; [None] if the arguments do not match the
    format. *)
Fixpoint format (fmt : list Z) (args : list arg) : option (list Z) :=
  match fmt with
  | [] => Some []
  | 37 :: [] => Some []
  | 37 :: c :: fmt' =>
    if c =? 100 then
      match args with ANum n :: args' => app (printint (i32 n) 10 true) <$> format fmt' args' | _ => None end
    else if (c =? 120) || (c =? 112) then
      match args with ANum n :: args' => app (printint (i32 n) 16 false) <$> format fmt' args' | _ => None end
    else if c =? 115 then
      match args with
      | AStr s :: args' => app s <$> format fmt' args'
      | ANum 0 :: args' => app (str "(null)") <$> format fmt' args'
      | _ => None
      end
    else if c =? 37 then cons 37 <$> format fmt' args
    else app [37; c] <$> format fmt' args
  | c :: fmt' => cons c <$> format fmt' args
  end.

Definition cprintf (fmt : list Z) (args : list arg) : kM unit :=
  match format fmt args with
  | Some l => consputs l
  | None => fault "cprintf: arguments"
  end.

(** spinlock.c getcallerpcs: the return addresses on the stack. *)
Fixpoint getcallerpcs_loop (m : mem) (ebp : Z) (n : nat) : list Z :=
  match n with
  | O => []
  | S n' =>
    if (ebp =? 0) || (ebp <? KERNBASE) || (ebp =? 4294967295) then replicate n 0
    else load32 m (ebp + 4) :: getcallerpcs_loop m (load32 m ebp) n'
  end.
Definition getcallerpcs (m : mem) (v : Z) : list Z := getcallerpcs_loop m (u32 (v - 8)) 10.

(** proc.c procdump *)
Definition state_name (st : procstate) : list Z :=
  match st with
  | UNUSED => str "unused" | EMBRYO => str "embryo" | SLEEPING => str "sleep "
  | RUNNABLE => str "runble" | RUNNING => str "run   " | ZOMBIE => str "zombie"
  end.
(** for(i=0; i<10 && pc[i] != 0; i++) *)
Fixpoint print_pcs (pcs : list Z) : kM unit :=
  match pcs with
  | [] => mret tt
  | pc :: pcs' => if pc =? 0 then mret tt else cprintf (str " %p") [ANum pc];; print_pcs pcs'
  end.
Fixpoint procdump_from (ps : list proc) : kM unit :=
  match ps with
  | [] => mret tt
  | p :: ps' =>
    (if bool_decide (p_state p = UNUSED) then mret tt
     else
       cprintf (str "%d %s %s") [ANum (p_pid p); AStr (state_name (p_state p)); AStr (cstr (ptr_list (p_name p)) 16)];;
       (when bool_decide (p_state p = SLEEPING) do
          (m ← gets k_mem; print_pcs (getcallerpcs m (u32 (ctx_ebp (p_context p) + 8)))));;
       cprintf [10] []);;
    procdump_from ps'
  end.
Definition procdump : kM unit := ps ← gets k_ptable; procdump_from ps.

(** ** The input line buffer *)

Definition INPUT_BUF : Z := 128.
Definition ctl (c : Z) : Z := c - 64.

(** while(input.e != input.w && input.buf[(input.e-1) % INPUT_BUF] != '\n') *)
Fixpoint kill_line (fuel : nat) : kM unit :=
  k ← gets k_cons;
  if negb (in_e k =? in_w k) && negb (nthz (in_buf k) (u32 (in_e k - 1) mod INPUT_BUF) =? 10) then
    match fuel with
    | O => nofuel
    | S f =>
      upd_cons (fun k => set_in_e (u32 (in_e k - 1)) k);;
      consputc BACKSPACE;;
      kill_line f
    end
  else mret tt.

(** The switch of consoleintr on the character [c]; the result says whether a
    process listing was asked for. *)
Definition consoleintr_char (c : Z) : kM bool :=
  k ← gets k_cons;
  if c =? ctl 80 then mret true
  else if c =? ctl 85 then kill_line (Z.to_nat (u32 (in_e k - in_w k)));; mret false
  else if (c =? ctl 72) || (c =? 127) then
    (when negb (in_e k =? in_w k) do
       (upd_cons (fun k => set_in_e (u32 (in_e k - 1)) k);; consputc BACKSPACE));;
    mret false
  else
    (when negb (c =? 0) && (u32 (in_e k - in_r k) <? INPUT_BUF) do
       (let c := if c =? 13 then 10 else c in
        upd_cons (fun k => set_in_e (u32 (in_e k + 1)) (set_in_buf (setz (in_buf k) (in_e k mod INPUT_BUF) (u8 c)) k));;
        consputc c;;
        k ← gets k_cons;
        when (c =? 10) || (c =? ctl 68) || (in_e k =? u32 (in_r k + INPUT_BUF)) do
          (upd_cons (fun k => set_in_w (in_e k) k);; wakeup ChInput)));;
    mret false.

(** The characters getc returns, up to the first negative one. *)
Fixpoint consoleintr_loop (cs : list Z) (dump : bool) : kM bool :=
  match cs with
  | [] => mret dump
  | c :: cs' =>
    if 0 <=? c then d ← consoleintr_char c; consoleintr_loop cs' (dump || d) else mret dump
  end.
Definition consoleintr (cs : list Z) : kM unit :=
  dump ← consoleintr_loop cs false;
  when (dump : bool) do procdump.

(** uart.c uartgetc: what each read of the status and data ports gives. *)
Definition uartgetc (present : bool) (status data : Z) : Z :=
  if negb present then -1 else if Z.land status 1 =? 0 then -1 else data.
Definition uartintr (ports : list (Z * Z)) : kM unit :=
  k ← gets k_cons;
  consoleintr ((fun p => uartgetc (uart k) p.1 p.2) <$> ports).
