(* ===== verification/ConsoleOut.v ===== *)
(** * Output on the console (console.c)

    What consputc and cprintf do to the console and to nothing else. *)

From S2P Require Import Prelude State Console.
Open Scope Z_scope.

(** The kernel has not panicked and the cursor is in the first 24 rows. *)
Record cons_ok (k : consstate) : Prop := mkConsOk {
  co_alive : panicked k = false;
  co_pos : 0 <= crt_pos k < 24 * 80 }.

(** What a character puts on the serial line. *)
Definition uart_bytes (c : Z) : list Z := if c =? BACKSPACE then [8; 32; 8] else [u8 c].

(** The console after some output: only the screen and the serial line change. *)
Record printed (l : list Z) (k k' : consstate) : Prop := mkPrinted {
  pr_ok : cons_ok k';
  pr_uart : uart_out k' = if uart k then rev (l ≫= uart_bytes) ++ uart_out k else uart_out k;
  pr_on : uart k' = uart k;
  pr_in : (in_buf k', in_r k', in_w k', in_e k') = (in_buf k, in_r k, in_w k, in_e k) }.

Lemma cgaputc_ok c s : cons_ok (k_cons s) ->
  exists cells pos, 0 <= pos < 24 * 80 /\
    cgaputc c s = Ok tt (set_k_cons (set_crt_pos pos (set_crt cells (k_cons s))) s).
Proof.
  intros [_ Hp]. unfold cgaputc, gets. unfold mbind at 1, M_bind at 1.
  set (r := if c =? 10 then _ else _).
  assert (Hr : 0 <= r.2 <= 24 * 80).
  { unfold r. destruct (c =? 10); cbn.
    - rewrite Z.rem_mod_nonneg by lia. zlia.
    - destruct (c =? BACKSPACE); cbn; [|lia]. destruct (Z.ltb_spec 0 (crt_pos (k_cons s))); lia. }
  destruct r as [cells pos]. cbn in Hr. unfold panic_if.
  rewrite (proj2 (Z.ltb_ge pos 0)), (proj2 (Z.ltb_ge _ pos)) by lia. cbn [orb].
  unfold mbind, M_bind, mret, M_ret, upd_cons, modify.
  destruct (Z.leb_spec 24 (pos / 80)).
  - eexists _, (pos - 80). split; [zlia|]. done.
  - eexists _, pos. split; [zlia|]. done.
Qed.

Lemma uartputc_run c s :
  uartputc c s = Ok tt (set_k_cons (if uart (k_cons s) then set_uart_out (u8 c :: uart_out (k_cons s)) (k_cons s)
                                    else k_cons s) s).
Proof.
  unfold uartputc, gets, upd_cons, modify, mbind, M_bind, mret, M_ret.
  destruct (uart (k_cons s)); [done|]. by destruct s.
Qed.

Lemma consputc_ok c s : cons_ok (k_cons s) ->
  exists k', consputc c s = Ok tt (set_k_cons k' s) /\ printed [c] (k_cons s) k'.
Proof.
  intros Hk. pose proof (co_alive _ Hk) as Ha. unfold consputc, gets. unfold mbind at 1, M_bind at 1. rewrite Ha.
  set (k1 := if uart (k_cons s) then set_uart_out (rev (uart_bytes c) ++ uart_out (k_cons s)) (k_cons s) else k_cons s).
  assert (E : (if c =? BACKSPACE then uartputc 8;; uartputc 32;; uartputc 8 else uartputc c) s = Ok tt (set_k_cons k1 s)).
  { unfold k1, uart_bytes. destruct (c =? BACKSPACE).
    - unfold mbind, M_bind. rewrite !uartputc_run. ksimpl. destruct (uart (k_cons s)) eqn:E; repeat (ksimpl; rewrite ?E); done.
    - rewrite uartputc_run. by destruct (uart (k_cons s)). }
  rewrite (bind_ok _ _ _ _ _ E). destruct (cgaputc_ok c (set_k_cons k1 s)) as (cells & pos & Hp & Ec).
  { ksimpl. destruct Hk. unfold k1. by destruct (uart (k_cons s)). }
  rewrite Ec. eexists. split; [done|]. ksimpl. unfold k1.
  destruct (uart (k_cons s)) eqn:Eu; split; cbn; rewrite ?Eu, ?app_nil_r; try done; split; done.
Qed.

Lemma printed_trans l1 l2 k1 k2 k3 : printed l1 k1 k2 -> printed l2 k2 k3 -> printed (l1 ++ l2) k1 k3.
Proof.
  intros [A1 A2 A3 A4] [B1 B2 B3 B4]. split; [done|..].
  - rewrite B2, A3, A2. destruct (uart k1); [|done]. by rewrite bind_app, rev_app_distr, app_assoc.
  - congruence.
  - congruence.
Qed.

Lemma printed_nil k : cons_ok k -> printed [] k k.
Proof. intros Hk. split; try done. by destruct (uart k). Qed.

Lemma consputs_ok l : forall s, cons_ok (k_cons s) ->
  exists k', consputs l s = Ok tt (set_k_cons k' s) /\ printed l (k_cons s) k'.
Proof.
  induction l as [|c l IH]; intros s Hk; cbn [consputs].
  - exists (k_cons s). split; [by destruct s|by apply printed_nil].
  - destruct (consputc_ok c s Hk) as (k1 & E1 & P1). rewrite (bind_ok _ _ _ _ _ E1).
    destruct (IH (set_k_cons k1 s)) as (k2 & E2 & P2); [apply (pr_ok _ _ _ P1)|].
    exists k2. split; [by rewrite E2|]. by apply (printed_trans [c] l _ k1).
Qed.

Lemma cprintf_ok fmt args l s : format fmt args = Some l -> cons_ok (k_cons s) ->
  exists k', cprintf fmt args s = Ok tt (set_k_cons k' s) /\ printed l (k_cons s) k'.
Proof. intros E Hk. unfold cprintf. rewrite E. by apply consputs_ok. Qed.
