(* ===== verification/Kbd.v ===== *)
(** * kbd.c: the keyboard driver

    The tables of kbd.h give the meaning of a scan code: the entries of the
    first rows, and the ones at the designated indices. *)

From S2P Require Import Prelude State Console.
Open Scope Z_scope.

Definition SHIFT : Z := 1.
Definition CTL : Z := 2.
Definition ALT : Z := 4.
Definition CAPSLOCK : Z := 8.
Definition NUMLOCK : Z := 16.
Definition SCROLLLOCK : Z := 32.
Definition E0ESC : Z := 64.

(** A uchar table of 256 elements: the first ones, and the designated ones;
    the others are 0. *)
Definition table (row : list Z) (at_ : list (Z * Z)) (i : Z) : Z :=
  match find (fun e => e.1 =? i) at_ with
  | Some e => e.2
  | None => nthz row i
  end.

Definition shiftcode : Z -> Z := table
  []
  [(29, 2); (42, 1); (54, 1); (56, 4); (157, 2); (184, 4)].
Definition togglecode : Z -> Z := table
  []
  [(58, 8); (69, 16); (70, 32)].
Definition normalmap : Z -> Z := table
  [0; 27; 49; 50; 51; 52; 53; 54; 55; 56; 57; 48; 45; 61; 8; 9; 113; 119; 101; 114; 116;
  121; 117; 105; 111; 112; 91; 93; 10; 0; 97; 115; 100; 102; 103; 104; 106; 107; 108; 59;
  39; 96; 0; 92; 122; 120; 99; 118; 98; 110; 109; 44; 46; 47; 0; 42; 0; 32; 0; 0; 0; 0;
  0; 0; 0; 0; 0; 0; 0; 0; 0; 55; 56; 57; 45; 52; 53; 54; 43; 49; 50; 51; 48; 46; 0; 0;
  0; 0]
  [(156, 10); (181, 47); (200, 226); (208, 227); (201, 230); (209, 231); (203, 228); (205, 229); (151, 224); (207, 225); (210, 232); (211, 233)].
Definition shiftmap : Z -> Z := table
  [0; 27; 33; 64; 35; 36; 37; 94; 38; 42; 40; 41; 95; 43; 8; 9; 81; 87; 69; 82; 84; 89;
  85; 73; 79; 80; 123; 125; 10; 0; 65; 83; 68; 70; 71; 72; 74; 75; 76; 58; 34; 126; 0;
  124; 90; 88; 67; 86; 66; 78; 77; 60; 62; 63; 0; 42; 0; 32; 0; 0; 0; 0; 0; 0; 0; 0; 0;
  0; 0; 0; 0; 55; 56; 57; 45; 52; 53; 54; 43; 49; 50; 51; 48; 46; 0; 0; 0; 0]
  [(156, 10); (181, 47); (200, 226); (208, 227); (201, 230); (209, 231); (203, 228); (205, 229); (151, 224); (207, 225); (210, 232); (211, 233)].
Definition ctlmap : Z -> Z := table
  [0; 0; 0; 0; 0; 0; 0; 0; 0; 0; 0; 0; 0; 0; 0; 0; 17; 23; 5; 18; 20; 25; 21; 9; 15; 16;
  0; 0; 13; 0; 1; 19; 4; 6; 7; 8; 10; 11; 12; 0; 0; 0; 0; 28; 26; 24; 3; 22; 2; 14; 13;
  0; 0; 239; 0; 0]
  [(156, 13); (181, 239); (200, 226); (208, 227); (201, 230); (209, 231); (203, 228); (205, 229); (151, 224); (207, 225); (210, 232); (211, 233)].

Definition charcode (i : Z) : Z -> Z :=
  if i =? 0 then normalmap else if i =? 1 then shiftmap else ctlmap.

(** kbdgetc with the status [st] and the byte [data] the ports give: the
    character, and the static variable [shift] after the call. *)
Definition kbdgetc (shift st data : Z) : Z * Z :=
  if Z.land st 1 =? 0 then (-1, shift)
  else if data =? 224 then (0, Z.lor shift E0ESC)
  else if negb (Z.land data 128 =? 0) then
    let data := if negb (Z.land shift E0ESC =? 0) then data else Z.land data 127 in
    (0, Z.land shift (Z.lnot (Z.lor (shiftcode data) E0ESC)))
  else
    let '(data, shift) :=
      if negb (Z.land shift E0ESC =? 0)
      then (Z.lor data 128, Z.land shift (Z.lnot E0ESC)) else (data, shift) in
    let shift := Z.lor shift (shiftcode data) in
    let shift := Z.lxor shift (togglecode data) in
    let c := charcode (Z.land shift (Z.lor CTL SHIFT)) data in
    let c := if negb (Z.land shift CAPSLOCK =? 0) then
               if (97 <=? c) && (c <=? 122) then c - 32
               else if (65 <=? c) && (c <=? 90) then c + 32 else c
             else c in
    (c, shift).

(** The characters kbdgetc returns for the bytes the ports give. *)
Fixpoint kbd_chars (shift : Z) (ports : list (Z * Z)) : list Z * Z :=
  match ports with
  | [] => ([-1], shift)
  | (st, data) :: ports' =>
    let '(c, shift) := kbdgetc shift st data in
    if c <? 0 then ([c], shift)
    else let '(cs, shift) := kbd_chars shift ports' in (c :: cs, shift)
  end.
Definition kbdintr (shift : Z) (ports : list (Z * Z)) : kM Z :=
  let '(cs, shift) := kbd_chars shift ports in
  consoleintr cs;;
  mret shift.
