(* ===== verification/Vm.v ===== *)
(** * vm.c: page tables and user memory

    Page directories and page tables are pages of [k_mem], which the kernel
    reads and writes at their kernel addresses.  loaduvm, which reads a file,
    is with exec. *)

From S2P Require Import Prelude State CString Kalloc Console.
Open Scope Z_scope.

(** ** mmu.h *)

Definition PTE_P : Z := 1.
Definition PTE_W : Z := 2.
Definition PTE_U : Z := 4.
Definition PDX (va : Z) : Z := Z.land (Z.shiftr (u32 va) 22) 1023.
Definition PTX (va : Z) : Z := Z.land (Z.shiftr (u32 va) 12) 1023.
Definition PGADDR (d t o : Z) : Z := u32 (Z.lor (Z.lor (Z.shiftl d 22) (Z.shiftl t 12)) o).
Definition PTE_ADDR (pte : Z) : Z := Z.land pte (u32 (Z.lnot 4095)).
Definition PTE_FLAGS (pte : Z) : Z := Z.land pte 4095.
Definition NPDENTRIES : nat := 1024.
Definition present (pte : Z) : bool := negb (Z.land pte PTE_P =? 0).

Section vm.
Context `{Linker}.

(** ** Page tables *)

(** The address of the PTE for [va], or 0. *)
Definition walkpgdir (pgdir va : Z) (alloc : bool) : kM Z :=
  let pde := pgdir + 4 * PDX va in
  e ← ld32 pde;
  if present e then mret (P2V (PTE_ADDR e) + 4 * PTX va)
  else if negb alloc then mret 0
  else
    pgtab ← kalloc;
    if pgtab =? 0 then mret 0
    else
      upd_mem (fun m => memset m pgtab 0 PGSIZE);;
      sd32 pde (Z.lor (Z.lor (Z.lor (V2P pgtab) PTE_P) PTE_W) PTE_U);;
      mret (pgtab + 4 * PTX va).

Fixpoint mappages_loop (pgdir a last pa perm : Z) (fuel : nat) : kM Z :=
  match fuel with
  | O => nofuel
  | S f =>
    pte ← walkpgdir pgdir a true;
    if pte =? 0 then mret (-1)
    else
      e ← ld32 pte;
      panic_if (present e) "remap";;
      sd32 pte (Z.lor (Z.lor pa perm) PTE_P);;
      if a =? last then mret 0
      else mappages_loop pgdir (u32 (a + PGSIZE)) last (u32 (pa + PGSIZE)) perm f
  end.
(** One iteration per page from the first to the last. *)
Definition mappages (pgdir va size pa perm : Z) : kM Z :=
  let a := PGROUNDDOWN (u32 va) in
  let last := PGROUNDDOWN (u32 (va + size - 1)) in
  mappages_loop pgdir a last pa perm (S (Z.to_nat (u32 (last - a) / PGSIZE))).

(** for(; a < oldsz; a += PGSIZE) *)
Fixpoint deallocuvm_loop (pgdir a oldsz : Z) (fuel : nat) : kM unit :=
  if a <? oldsz then
    match fuel with
    | O => nofuel
    | S f =>
      pte ← walkpgdir pgdir a false;
      if pte =? 0 then
        deallocuvm_loop pgdir (u32 (u32 (PGADDR (PDX a + 1) 0 0 - PGSIZE) + PGSIZE)) oldsz f
      else
        e ← ld32 pte;
        (when present e do
           (let pa := PTE_ADDR e in
            panic_if (pa =? 0) "kfree";;
            kfree (P2V pa);;
            sd32 pte 0));;
        deallocuvm_loop pgdir (u32 (a + PGSIZE)) oldsz f
    end
  else mret tt.
(** At most one iteration per page. *)
Definition deallocuvm (pgdir oldsz newsz : Z) : kM Z :=
  if oldsz <=? newsz then mret oldsz
  else
    deallocuvm_loop pgdir (PGROUNDUP newsz) oldsz (Z.to_nat (oldsz / PGSIZE + 1));;
    mret newsz.

(** for(i = 0; i < NPDENTRIES; i++), [n] entries to go. *)
Fixpoint freevm_tables (pgdir : Z) (i : Z) (n : nat) : kM unit :=
  match n with
  | O => mret tt
  | S n' =>
    e ← ld32 (pgdir + 4 * i);
    (when present e do kfree (P2V (PTE_ADDR e)));;
    freevm_tables pgdir (i + 1) n'
  end.
Definition freevm (pgdir : Z) : kM unit :=
  panic_if (pgdir =? 0) "freevm: no pgdir";;
  deallocuvm pgdir KERNBASE 0;;
  freevm_tables pgdir 0 NPDENTRIES;;
  kfree pgdir.

(** The kernel's mappings: virt, phys_start, phys_end, perm. *)
Definition kmap : list (Z * Z * Z * Z) :=
  [(KERNBASE, 0, EXTMEM, PTE_W);
   (KERNLINK, V2P KERNLINK, V2P kdata, 0);
   (kdata, V2P kdata, PHYSTOP, PTE_W);
   (DEVSPACE, DEVSPACE, 0, PTE_W)].

Fixpoint setupkvm_loop (pgdir : Z) (ks : list (Z * Z * Z * Z)) : kM Z :=
  match ks with
  | [] => mret pgdir
  | (virt, pstart, pend, perm) :: ks' =>
    r ← mappages pgdir virt (u32 (pend - pstart)) pstart perm;
    if r <? 0 then freevm pgdir;; mret 0
    else setupkvm_loop pgdir ks'
  end.
Definition setupkvm : kM Z :=
  pgdir ← kalloc;
  if pgdir =? 0 then mret 0
  else
    upd_mem (fun m => memset m pgdir 0 PGSIZE);;
    panic_if (DEVSPACE <? P2V PHYSTOP) "PHYSTOP too high";;
    setupkvm_loop pgdir kmap.

Definition upd_cpu (f : cpuregs -> cpuregs) : kM unit := modify (fun s => set_k_cpu (f (k_cpu s)) s).

Definition switchkvm : kM unit :=
  c ← gets k_cpu;
  upd_cpu (set_cpu_cr3 (V2P (cpu_kpgdir c))).

Definition kvmalloc : kM unit :=
  p ← setupkvm;
  upd_cpu (set_cpu_kpgdir p);;
  switchkvm.

(** The task state segment and the page table register; SEG_KDATA is 2. *)
Definition switchuvm (p : nat) : kM unit :=
  q ← get_proc p;
  panic_if (p_kstack q =? 0) "switchuvm: no kstack";;
  panic_if (p_pgdir q =? 0) "switchuvm: no pgdir";;
  upd_cpu (fun c => set_cpu_cr3 (V2P (p_pgdir q)) (set_cpu_iomb 65535
    (set_cpu_esp0 (u32 (p_kstack q + KSTACKSIZE)) (set_cpu_ss0 (Z.shiftl 2 3) c)))).

(** ** User memory *)

Definition inituvm (pgdir init sz : Z) : kM unit :=
  panic_if (PGSIZE <=? sz) "inituvm: more than a page";;
  mem ← kalloc;
  upd_mem (fun m => memset m mem 0 PGSIZE);;
  mappages pgdir 0 PGSIZE (V2P mem) (Z.lor PTE_W PTE_U);;
  upd_mem (fun m => memmove m mem init sz).

(** for(; a < newsz; a += PGSIZE) *)
Fixpoint allocuvm_loop (pgdir a oldsz newsz : Z) (fuel : nat) : kM Z :=
  if a <? newsz then
    match fuel with
    | O => nofuel
    | S f =>
      mem ← kalloc;
      if mem =? 0 then
        cprintf (str "allocuvm out of memory" ++ [10]) [];;
        deallocuvm pgdir newsz oldsz;;
        mret 0
      else
        upd_mem (fun m => memset m mem 0 PGSIZE);;
        r ← mappages pgdir a PGSIZE (V2P mem) (Z.lor PTE_W PTE_U);
        if r <? 0 then
          cprintf (str "allocuvm out of memory (2)" ++ [10]) [];;
          deallocuvm pgdir newsz oldsz;;
          kfree mem;;
          mret 0
        else allocuvm_loop pgdir (u32 (a + PGSIZE)) oldsz newsz f
    end
  else mret newsz.
Definition allocuvm (pgdir oldsz newsz : Z) : kM Z :=
  if KERNBASE <=? newsz then mret 0
  else if newsz <? oldsz then mret oldsz
  else allocuvm_loop pgdir (PGROUNDUP oldsz) oldsz newsz (Z.to_nat (newsz / PGSIZE + 1)).

Definition clearpteu (pgdir uva : Z) : kM unit :=
  pte ← walkpgdir pgdir uva false;
  panic_if (pte =? 0) "clearpteu";;
  e ← ld32 pte;
  sd32 pte (Z.land e (u32 (Z.lnot PTE_U))).

(** for(i = 0; i < sz; i += PGSIZE) *)
Fixpoint copyuvm_loop (pgdir d i sz : Z) (fuel : nat) : kM Z :=
  if i <? sz then
    match fuel with
    | O => nofuel
    | S f =>
      pte ← walkpgdir pgdir i false;
      panic_if (pte =? 0) "copyuvm: pte should exist";;
      e ← ld32 pte;
      panic_if (negb (present e)) "copyuvm: page not present";;
      mem ← kalloc;
      if mem =? 0 then freevm d;; mret 0
      else
        upd_mem (fun m => memmove m mem (P2V (PTE_ADDR e)) PGSIZE);;
        r ← mappages d i PGSIZE (V2P mem) (PTE_FLAGS e);
        if r <? 0 then kfree mem;; freevm d;; mret 0
        else copyuvm_loop pgdir d (u32 (i + PGSIZE)) sz f
    end
  else mret d.
Definition copyuvm (pgdir sz : Z) : kM Z :=
  d ← setupkvm;
  if d =? 0 then mret 0
  else copyuvm_loop pgdir d 0 sz (Z.to_nat (sz / PGSIZE + 1)).

(** The null pointer walkpgdir may return is dereferenced. *)
Definition uva2ka (pgdir uva : Z) : kM Z :=
  pte ← walkpgdir pgdir uva false;
  if pte =? 0 then fault "uva2ka: null pte"
  else
    e ← ld32 pte;
    if Z.land e PTE_P =? 0 then mret 0
    else if Z.land e PTE_U =? 0 then mret 0
    else mret (P2V (PTE_ADDR e)).

(** [p] is the bytes at the source pointer. *)
Fixpoint copyout_loop (pgdir va : Z) (buf : list Z) (len : Z) (fuel : nat) : kM Z :=
  if 0 <? len then
    match fuel with
    | O => nofuel
    | S f =>
      let va0 := PGROUNDDOWN va in
      pa0 ← uva2ka pgdir va0;
      if pa0 =? 0 then mret (-1)
      else
        let n := u32 (PGSIZE - (va - va0)) in
        let n := if len <? n then len else n in
        upd_mem (fun m => store_bytes m (pa0 + (va - va0)) (take (Z.to_nat n) buf));;
        copyout_loop pgdir (u32 (va0 + PGSIZE)) (drop (Z.to_nat n) buf) (len - n) f
    end
  else mret 0.
(** Every iteration but the first and the last copies a page. *)
Definition copyout (pgdir va : Z) (p : list Z) (len : Z) : kM Z :=
  copyout_loop pgdir va p len (Z.to_nat (len / PGSIZE + 2)).

(** ** Address translation *)

(** The PTE the MMU finds for [va]; 0 if there is no page table. *)
Definition pte_of (m : mem) (pgdir va : Z) : Z :=
  let e := load32 m (pgdir + 4 * PDX va) in
  if present e then load32 m (P2V (PTE_ADDR e) + 4 * PTX va) else 0.

(** The kernel address of the byte that the user address [va] names. *)
Definition translate (m : mem) (pgdir va : Z) : option Z :=
  let e := pte_of m pgdir va in
  if present e then Some (P2V (PTE_ADDR e) + u32 va mod PGSIZE) else None.
End vm.
