(* ===== verification/VmSpec.v ===== *)
(** * Page tables as maps (vm.c)

    The abstract page table of a page directory: the page tables it points to
    and the page table entry of each of the 2^20 virtual pages.  walkpgdir and
    mappages are specified on it, together with the free list: no page is in
    use twice, and none is lost. *)

From S2P Require Import Prelude State CString Kalloc PageMath KallocSpec Console Vm.
Open Scope Z_scope.

(** ** Page table entries in terms of division and remainder *)

Lemma PDX_div va : 0 <= va < 4294967296 -> PDX va = va / 4194304.
Proof.
  intros H. unfold PDX. rewrite u32_small by done. change 1023 with (Z.ones 10).
  rewrite Z.land_ones, Z.shiftr_div_pow2 by lia. change (2 ^ 22) with 4194304. change (2 ^ 10) with 1024. zlia.
Qed.

Lemma PTX_div va : 0 <= va < 4294967296 -> PTX va = va / 4096 mod 1024.
Proof.
  intros H. unfold PTX. rewrite u32_small by done. change 1023 with (Z.ones 10).
  rewrite Z.land_ones, Z.shiftr_div_pow2 by lia. done.
Qed.

(** Flags in the low bits of an aligned address. *)
Lemma lor_flags a f : 0 <= a -> a mod 4096 = 0 -> 0 <= f < 4096 -> Z.lor a f = a + f.
Proof.
  intros Ha Hm Hf. symmetry. apply Z.add_nocarry_lor.
  assert (E : Z.land a f = 0).
  { apply Z.bits_inj'. intros i Hi. rewrite Z.land_spec, Z.bits_0.
    destruct (Z.lt_ge_cases i 12) as [Hlt|Hge].
    - assert (a = Z.shiftl (a / 4096) 12) as -> by (rewrite Z.shiftl_mul_pow2 by lia; zlia).
      rewrite Z.shiftl_spec_low by lia. done.
    - rewrite (testbit_above f 12) by (done || lia). apply andb_false_r. }
  exact E.
Qed.

Lemma present_odd a f : a mod 4096 = 0 -> present (a + f) = negb (f mod 2 =? 0).
Proof.
  intros Ha. unfold present, PTE_P. change 1 with (Z.ones 1) at 1. rewrite Z.land_ones by lia.
  change (2 ^ 1) with 2. f_equal. f_equal. zlia.
Qed.

Lemma present_0 : present 0 = false.
Proof. done. Qed.

Lemma PTE_ADDR_flags a f : 0 <= a -> a + f < 4294967296 -> a mod 4096 = 0 -> 0 <= f < 4096 -> PTE_ADDR (a + f) = a.
Proof.
  intros Ha Hb Hm Hf. unfold PTE_ADDR. change (u32 (Z.lnot 4095)) with 4294963200.
  rewrite land_page by lia. zlia.
Qed.

Lemma PTE_FLAGS_flags a f : 0 <= a -> a mod 4096 = 0 -> 0 <= f < 4096 -> PTE_FLAGS (a + f) = f.
Proof.
  intros Ha Hm Hf. unfold PTE_FLAGS. change 4095 with (Z.ones 12). rewrite Z.land_ones by lia.
  change (2 ^ 12) with 4096. zlia.
Qed.

Lemma lor_bound f g : 0 <= f < 4096 -> 0 <= g < 4096 -> 0 <= Z.lor f g < 4096.
Proof.
  intros Hf Hg. split; [apply Z.lor_nonneg; lia|].
  destruct (Z.eq_dec (Z.lor f g) 0) as [->|Hn]; [lia|].
  apply (Z.log2_lt_pow2 _ 12); [pose proof (Z.lor_nonneg f g); lia|].
  rewrite Z.log2_lor by lia. apply Z.max_lub_lt.
  - destruct (Z.eq_dec f 0) as [->|]; [done|]. apply Z.log2_lt_pow2; lia.
  - destruct (Z.eq_dec g 0) as [->|]; [done|]. apply Z.log2_lt_pow2; lia.
Qed.

(** pa | perm | PTE_P *)
Lemma pte_value pa perm : 0 <= pa -> pa mod 4096 = 0 -> 0 <= perm < 4096 ->
  Z.lor (Z.lor pa perm) PTE_P = pa + Z.lor perm 1.
Proof.
  intros H1 H2 H3. rewrite <- Z.lor_assoc. unfold PTE_P. apply lor_flags; [done|done|].
  apply lor_bound; lia.
Qed.

Lemma lor_1_odd f : Z.lor f 1 mod 2 = 1.
Proof.
  assert (E : Z.odd (Z.lor f 1) = true) by (rewrite <- Z.bit0_odd, Z.lor_spec; apply orb_true_r).
  rewrite Zmod_odd, E. done.
Qed.

Section page.
Context `{Linker}.

(** What kalloc hands out is a page whose physical address has no flags. *)
Lemma page_ok_phys v : page_ok v ->
  V2P v = v - KERNBASE /\ 0 <= V2P v < PHYSTOP /\ V2P v mod 4096 = 0 /\ P2V (V2P v) = v /\ V2P v <> 0.
Proof using.
  intros (H1 & _ & H3 & H4 & H5). assert (E : V2P v = v - KERNBASE) by (apply V2P_small; lia).
  rewrite P2V_V2P by lia. rewrite E in *. unfold PGSIZE, KERNBASE, PHYSTOP in *. split_and!; try lia. zlia.
Qed.
End page.

(** [t_pts] gives the page table of a directory entry, [t_map] the entry of a
    virtual page number. *)
Record tables := mkTables { t_dir : Z; t_pts : gmap Z Z; t_map : Z -> Z }.

Definition vals {A} (m : gmap Z A) : list A := (map_to_list m).*2.
Definition tpages (T : tables) : list Z := t_dir T :: vals (t_pts T).
Definition pde (o : option Z) : Z := match o with Some t => V2P t + 7 | None => 0 end.
Definition fset (f : Z -> Z) (n v : Z) : Z -> Z := fun j => if j =? n then v else f j.

Definition VPN : Z := 1048576.

Record tab_ok (m : mem) (T : tables) : Prop := mkTabOk {
  to_dom : forall d t, t_pts T !! d = Some t -> 0 <= d < 1024;
  to_dir : forall d, 0 <= d < 1024 -> load32 m (t_dir T + 4 * d) = pde (t_pts T !! d);
  to_pte : forall n, 0 <= n < VPN ->
    match t_pts T !! (n / 1024) with
    | Some t => load32 m (t + 4 * (n mod 1024)) = t_map T n
    | None => t_map T n = 0
    end }.

Lemma tables_pages m T : tab_ok m T -> (length (tpages T) <= 1025)%nat.
Proof.
  intros HT. unfold tpages, vals. cbn [length]. rewrite length_fmap, length_map_to_list, <- size_dom.
  assert (Hsub : dom (t_pts T) ⊆ list_to_set (seqZ 0 1024)).
  { intros d Hd. apply elem_of_dom in Hd as [t Ht]. apply elem_of_list_to_set, elem_of_seqZ. pose proof (to_dom _ _ HT d t Ht). lia. }
  apply subseteq_size in Hsub. rewrite size_list_to_set in Hsub by apply NoDup_seqZ. rewrite length_seqZ in Hsub. change (Z.to_nat 1024) with 1024%nat in Hsub. apply le_n_S, Hsub.
Qed.

(** Pages that an operation leaves alone, and operations that change nothing
    but memory and the free list. *)
Definition keeps (P : list Z) (s s' : kernel) : Prop :=
  forall a x, a ∈ P -> in_page a x -> k_mem s' x = k_mem s x.
Definition mem_only (s s' : kernel) : Prop := s' = set_k_kmem (k_kmem s') (set_k_mem (k_mem s') s).

#[export] Instance mem_only_preorder : PreOrder mem_only.
Proof.
  split; unfold mem_only.
  - intros s. by destruct s.
  - intros s1 s2 s3 H1 H2. rewrite H2, H1. ksimpl. done.
Qed.

#[export] Instance keeps_preorder P : PreOrder (keeps P).
Proof.
  split; unfold keeps; [done|]. intros s1 s2 s3 H1 H2 a x Ha Hx. rewrite (H2 a x), (H1 a x); done.
Qed.

Lemma keeps_sub P Q s s' : P ⊆ Q -> keeps Q s s' -> keeps P s s'.
Proof. intros Hs HQ a x Ha Hx. apply (HQ a x); [by apply Hs|done]. Qed.

Lemma keeps_l P Q s s' : keeps (P ++ Q) s s' -> keeps P s s'.
Proof. apply keeps_sub. set_solver. Qed.

Lemma keeps_r P Q s s' : keeps (P ++ Q) s s' -> keeps Q s s'.
Proof. apply keeps_sub. set_solver. Qed.

Lemma keeps_tail u P s s' : keeps (u :: P) s s' -> keeps P s s'.
Proof. apply keeps_sub. set_solver. Qed.

Lemma keeps_app P Q Q' s s' : Q ⊆ Q' -> keeps (P ++ Q') s s' -> keeps (P ++ Q) s s'.
Proof. intros Hs. apply keeps_sub. set_solver. Qed.

Section vmspec.
Context `{Linker}.
Implicit Types (s : kernel) (T : tables) (F l : list Z) (m : mem).

(** [F] are pages used for something else. *)
Record vm_tab s F T l : Prop := mkVmTab {
  vt_free : freelist s l;
  vt_tab : tab_ok (k_mem s) T;
  vt_nodup : NoDup (F ++ tpages T ++ l);
  vt_page : Forall page_ok (F ++ tpages T ++ l) }.

(** ** Entries and pages *)

Lemma elem_vals {A} (m : gmap Z A) k a : m !! k = Some a -> a ∈ vals m.
Proof using. intros E. apply list_elem_of_fmap. exists (k, a). split; [done|]. by apply elem_of_map_to_list. Qed.

Lemma vals_insert {A} (m : gmap Z A) k a : m !! k = None -> vals (<[k := a]> m) ≡ₚ a :: vals m.
Proof using. intros E. unfold vals. by rewrite map_to_list_insert. Qed.

Lemma vals_delete {A} (m : gmap Z A) k a : m !! k = Some a -> a :: vals (delete k m) ≡ₚ vals m.
Proof using. intros E. unfold vals. rewrite <- (map_to_list_delete m k a E). done. Qed.

Lemma entry_in_page v i x : 0 <= i < 1024 -> v + 4 * i <= x < v + 4 * i + 4 -> in_page v x.
Proof using. unfold in_page, PGSIZE. lia. Qed.

Lemma load_entry_eq m m' v i : 0 <= i < 1024 ->
  (forall x, in_page v x -> m' x = m x) -> load32 m' (v + 4 * i) = load32 m (v + 4 * i).
Proof using. intros Hi Hm. apply load32_eq_on. intros x Hx. apply Hm. by eapply entry_in_page. Qed.

Lemma tab_ok_ext m m' T :
  (forall a x, a ∈ tpages T -> in_page a x -> m' x = m x) -> tab_ok m T -> tab_ok m' T.
Proof using.
  intros Hm [H1 H2 H3]. split; [done|..].
  - intros d Hd. rewrite <- H2 by done. apply load_entry_eq; [done|]. intros x. apply Hm. set_solver.
  - intros n Hn. specialize (H3 n Hn). destruct (t_pts T !! (n / 1024)) as [t|] eqn:E; [|done].
    rewrite <- H3. apply load_entry_eq; [zlia|]. intros x. apply Hm.
    apply elem_of_cons. right. by eapply elem_vals.
Qed.

Lemma freelist_ext s s' l :
  (forall a x, a ∈ l -> in_page a x -> k_mem s' x = k_mem s x) -> k_kmem s' = k_kmem s ->
  freelist s l -> freelist s' l.
Proof using. intros Hm Hk [H1 H2]. split; [|done]. rewrite Hk. by eapply chain_ext. Qed.

Lemma vt_page_in s F T l a : vm_tab s F T l -> a ∈ F ++ tpages T ++ l -> page_ok a.
Proof using. intros Hv Ha. by eapply Forall_forall; [apply (vt_page _ _ _ _ Hv)|]. Qed.

(** The MMU sees the map. *)
Lemma pte_of_map s F T l va :
  vm_tab s F T l -> 0 <= va < 4294967296 -> pte_of (k_mem s) (t_dir T) va = t_map T (va / 4096).
Proof using.
  intros Hv Hva. pose proof (vt_tab _ _ _ _ Hv) as [H1 H2 H3]. unfold pte_of.
  rewrite PDX_div, PTX_div by done. rewrite H2 by zlia.
  specialize (H3 (va / 4096)). unfold VPN in H3. replace (va / 4096 / 1024) with (va / 4194304) in H3 by zlia.
  specialize (H3 ltac:(zlia)). destruct (t_pts T !! (va / 4194304)) as [t|] eqn:E; cbn [pde]; [|done].
  destruct (page_ok_phys t) as (_ & Hp & Hm & Ht & _).
  { apply (vt_page_in _ _ _ _ _ Hv). apply elem_of_app. right. apply elem_of_app. left.
    apply elem_of_cons. right. by eapply elem_vals. }
  unfold PHYSTOP in Hp. rewrite present_odd by done. cbn. rewrite PTE_ADDR_flags, Ht by (done || lia). done.
Qed.

Lemma table_page_ok s F T l d t : vm_tab s F T l -> t_pts T !! d = Some t -> page_ok t.
Proof using.
  intros Hv Hd. apply (vt_page_in _ _ _ _ _ Hv). apply elem_of_app. right. apply elem_of_app. left.
  apply elem_of_cons. right. by eapply elem_vals.
Qed.

Lemma pde_present t : page_ok t -> present (pde (Some t)) = true /\ P2V (PTE_ADDR (pde (Some t))) = t.
Proof using.
  intros Ht. destruct (page_ok_phys t Ht) as (_ & Hp & Hm & Et & _). unfold PHYSTOP in Hp. cbn [pde].
  rewrite present_odd, PTE_ADDR_flags by (done || lia). done.
Qed.

(** ** walkpgdir *)

Lemma walk_found s F T l va alloc t :
  vm_tab s F T l -> 0 <= va < 4294967296 -> t_pts T !! (va / 4194304) = Some t ->
  walkpgdir (t_dir T) va alloc s = Ok (t + 4 * (va / 4096 mod 1024)) s.
Proof using.
  intros Hv Hva Ht. pose proof (vt_tab _ _ _ _ Hv) as [H1 H2 H3].
  destruct (pde_present t (table_page_ok _ _ _ _ _ _ Hv Ht)) as [E1 E2].
  unfold walkpgdir, ld32, gets, mbind, M_bind. rewrite PDX_div, PTX_div, H2, Ht, E1, E2 by (done || zlia). done.
Qed.

Lemma walk_absent s F T l va :
  vm_tab s F T l -> 0 <= va < 4294967296 -> t_pts T !! (va / 4194304) = None ->
  walkpgdir (t_dir T) va false s = Ok 0 s.
Proof using.
  intros Hv Hva Ht. pose proof (vt_tab _ _ _ _ Hv) as [H1 H2 H3].
  unfold walkpgdir, ld32, gets, mbind, M_bind. rewrite PDX_div, H2, Ht by (done || zlia). done.
Qed.

Lemma walk_oom s F T va :
  vm_tab s F T [] -> 0 <= va < 4294967296 -> t_pts T !! (va / 4194304) = None ->
  walkpgdir (t_dir T) va true s = Ok 0 s.
Proof using.
  intros Hv Hva Ht. pose proof (vt_tab _ _ _ _ Hv) as [H1 H2 H3].
  unfold walkpgdir, ld32, gets. unfold mbind at 1, M_bind at 1.
  rewrite PDX_div, H2, Ht by (done || zlia). cbn [pde]. rewrite present_0. cbn [negb].
  rewrite (bind_ok _ _ _ _ _ (kalloc_none s (vt_free _ _ _ _ Hv))). done.
Qed.

Lemma page_ne_bytes v w x : page_ok v -> page_ok w -> v <> w -> in_page v x -> ~ in_page w x.
Proof using. apply page_disjoint. Qed.

Lemma store32_outside m a v x : ~ (a <= x < a + 4) -> store32 m a v x = m x.
Proof using.
  intros Hx. unfold store32, store_bytes. assert (Hl : length (enc32 v) = 4%nat) by apply length_le_enc. rewrite Hl.
  zcases.
Qed.

Lemma memset_outside m v c x : ~ in_page v x -> memset m v c PGSIZE x = m x.
Proof using. intros Hx. rewrite memset_spec by (unfold PGSIZE; lia). unfold in_page in Hx. zcases. Qed.

(** A page table fresh from kalloc. *)
Definition add_table T (d t : Z) : tables := mkTables (t_dir T) (<[d := t]> (t_pts T)) (t_map T).
Definition add_mem m T (d t : Z) : mem := store32 (memset m t 0 PGSIZE) (t_dir T + 4 * d) (pde (Some t)).

Lemma tab_ok_add m T d t :
  tab_ok m T -> 0 <= d < 1024 -> t_pts T !! d = None -> page_ok t -> Forall page_ok (tpages T) -> t ∉ tpages T ->
  NoDup (tpages T) -> tab_ok (add_mem m T d t) (add_table T d t).
Proof using.
  intros [H1 H2 H3] Hd Hn Ht Hp Hf Hnd. pose proof (proj1 (Forall_forall _ _) Hp) as Hp'.
  assert (Hdir : page_ok (t_dir T)) by (apply Hp'; set_solver).
  assert (Hne : t_dir T <> t) by set_solver.
  destruct (page_ok_phys t Ht) as (_ & Hph & _). unfold PHYSTOP in Hph.
  split; cbn.
  - intros d' t'. destruct (decide (d' = d)) as [->|]; [done|]. rewrite lookup_insert_ne by done. eauto.
  - intros d' Hd'. unfold add_mem. destruct (decide (d' = d)) as [->|].
    + rewrite lookup_insert_eq, load_store32, u32_small; [done|]. cbn. lia.
    + rewrite lookup_insert_ne by done. rewrite load_store32_ne by lia. rewrite <- H2 by done.
      apply load_entry_eq; [done|]. intros x Hx. apply memset_outside. by eapply page_ne_bytes.
  - intros n Hnn. specialize (H3 n Hnn). unfold add_mem. destruct (decide (n / 1024 = d)) as [E|E].
    + rewrite E, lookup_insert_eq. rewrite E, Hn in H3. rewrite H3.
      rewrite (load32_eq_on _ (fun _ => 0)); [done|]. intros x Hx.
      pose proof (entry_in_page t (n mod 1024) x ltac:(zlia) Hx) as Hin.
      rewrite store32_outside.
      * rewrite memset_spec by (unfold PGSIZE; lia). unfold in_page in Hin. zcases.
      * intros Hc. apply (entry_in_page (t_dir T) d) in Hc; [|done]. by apply (page_ne_bytes t (t_dir T) x).
    + rewrite lookup_insert_ne by done. destruct (t_pts T !! (n / 1024)) as [t'|] eqn:E'; [|done].
      rewrite <- H3. pose proof (elem_vals _ _ _ E') as Hv. assert (Ht' : page_ok t') by (apply Hp'; set_solver).
      apply load_entry_eq; [zlia|]. intros x Hx. rewrite store32_outside.
      * apply memset_outside. apply (page_ne_bytes t' t); [done|done|set_solver|done].
      * intros Hc. apply (entry_in_page (t_dir T) d) in Hc; [|done].
        apply (page_ne_bytes t' (t_dir T) x); try done. apply NoDup_cons in Hnd as [Hnd _]. by intros ->.
Qed.

(** Nothing changes outside of the pages [P]. *)
Definition only (P : list Z) m m' : Prop := forall x, (forall a, a ∈ P -> ~ in_page a x) -> m' x = m x.

(** What an operation on the tables does besides changing the map: it keeps
    the other pages, loses none, and changes nothing but memory, and that only
    in the pages of the tables and the free ones. *)
Record vstep F s T l s' T' l' : Prop := mkVstep {
  vs_tab : vm_tab s' F T' l';
  vs_keeps : keeps F s s';
  vs_mem : mem_only s s';
  vs_dir : t_dir T' = t_dir T;
  vs_pages : (tpages T' ++ l') ≡ₚ (tpages T ++ l);
  vs_pts : t_pts T ⊆ t_pts T';
  vs_only : only (tpages T ++ l) (k_mem s) (k_mem s') }.

Lemma vstep_trans F s1 T1 l1 s2 T2 l2 s3 T3 l3 :
  vstep F s1 T1 l1 s2 T2 l2 -> vstep F s2 T2 l2 s3 T3 l3 -> vstep F s1 T1 l1 s3 T3 l3.
Proof using.
  intros [A1 A2 A3 A4 A5 A6 A7] [B1 B2 B3 B4 B5 B6 B7]. split; [done|..].
  - by transitivity s2.
  - by transitivity s2.
  - congruence.
  - by rewrite B5.
  - by transitivity (t_pts T2).
  - intros x Hx. rewrite (B7 x), (A7 x); [done|done|]. intros a Ha. apply Hx. by rewrite <- A5.
Qed.

Lemma vstep_refl F s T l : vm_tab s F T l -> vstep F s T l s T l.
Proof using. by split. Qed.

Lemma vm_tab_parts s F T l : vm_tab s F T l ->
  NoDup (tpages T) /\ Forall page_ok (tpages T) /\ Forall page_ok F /\ Forall page_ok l /\
  (forall a, a ∈ tpages T -> (a ∉ l) /\ (a ∉ F)) /\ (forall a, a ∈ l -> a ∉ F).
Proof using.
  intros [_ _ Hn Hp]. rewrite !Forall_app in Hp. apply list.NoDup_app in Hn as (_ & HF & Hn).
  apply list.NoDup_app in Hn as (Hn & HT & _). split_and!; try naive_solver.
  - intros a Ha. split; [by apply HT|]. intros Hf. apply (HF a Hf). set_solver.
  - intros a Ha Hf. apply (HF a Hf). set_solver.
Qed.

Lemma only_keeps P Q s s' :
  only P (k_mem s) (k_mem s') -> (forall a b, a ∈ P -> b ∈ Q -> page_ok a /\ page_ok b /\ a <> b) -> keeps Q s s'.
Proof using.
  intros Ho Hd b x Hb Hx. apply Ho. intros a Ha Hin. destruct (Hd a b Ha Hb) as (? & ? & ?).
  by apply (page_disjoint a b x).
Qed.

Lemma add_mem_only m T d t : 0 <= d < 1024 -> only [t; t_dir T] m (add_mem m T d t).
Proof using.
  intros Hd x Hx. unfold add_mem. rewrite store32_outside.
  - apply memset_outside. apply Hx. set_solver.
  - intros Hc. apply (Hx (t_dir T)); [set_solver|]. by eapply entry_in_page.
Qed.

Lemma pde_value t : page_ok t -> Z.lor (Z.lor (Z.lor (V2P t) PTE_P) PTE_W) PTE_U = pde (Some t).
Proof using.
  intros Ht. destruct (page_ok_phys t Ht) as (_ & Hp & Hm & _). cbn [pde]. unfold PTE_P, PTE_W, PTE_U.
  rewrite <- !Z.lor_assoc. change (Z.lor 1 (Z.lor 2 4)) with 7. apply lor_flags; lia.
Qed.

Lemma walk_alloc s F T t l va :
  vm_tab s F T (t :: l) -> 0 <= va < 4294967296 -> t_pts T !! (va / 4194304) = None ->
  exists s', walkpgdir (t_dir T) va true s = Ok (t + 4 * (va / 4096 mod 1024)) s' /\
    vstep F s T (t :: l) s' (add_table T (va / 4194304) t) l.
Proof using.
  intros Hv Hva Hn. pose proof (vt_tab _ _ _ _ Hv) as [H1 H2 H3].
  destruct (vm_tab_parts _ _ _ _ Hv) as (P1 & P2 & P3 & P4 & P5 & P6).
  destruct (kalloc_some s t l (vt_free _ _ _ _ Hv)) as (s1 & Ek & Hf1 & Hm1 & Ht & Es1).
  set (d := va / 4194304) in *. assert (Hd : 0 <= d < 1024) by (unfold d; zlia).
  assert (Hfresh : t ∉ tpages T) by (intros Hin; destruct (P5 t Hin); set_solver).
  set (s' := set_k_mem (add_mem (k_mem s1) T d t) s1). exists s'.
  assert (Hperm : (tpages (add_table T d t) ++ l) ≡ₚ (tpages T ++ t :: l)).
  { unfold tpages. cbn. rewrite vals_insert by done. solve_Permutation. }
  assert (Ho : only [t; t_dir T] (k_mem s) (k_mem s')) by (cbn; rewrite <- Hm1; by apply add_mem_only).
  assert (Hall : forall a, a ∈ [t; t_dir T] -> page_ok a).
  { intros a Ha. rewrite Forall_forall in P2, P4. apply elem_of_cons in Ha as [->|Ha]; [done|].
    apply list_elem_of_singleton in Ha as ->. apply P2. set_solver. }
  assert (Hdis : forall a b, a ∈ [t; t_dir T] -> b ∈ F ++ l -> page_ok a /\ page_ok b /\ a <> b).
  { intros a b Ha Hb. split_and!; [by apply Hall| |].
    - rewrite Forall_forall in P3, P4. apply elem_of_app in Hb as [Hb|Hb]; [auto|]. apply P4. set_solver.
    - intros <-. apply elem_of_cons in Ha as [->|Ha].
      + apply elem_of_app in Hb as [Hb|Hb]; [by apply (P6 t ltac:(set_solver))|].
        pose proof (fl_nodup _ _ (vt_free _ _ _ _ Hv)) as Hnd. apply NoDup_cons in Hnd as [? _]. done.
      + apply list_elem_of_singleton in Ha as ->. destruct (P5 (t_dir T) ltac:(set_solver)). set_solver. }
  split.
  - unfold walkpgdir, ld32, gets. unfold mbind at 1, M_bind at 1.
    rewrite PDX_div, PTX_div by done. fold d. rewrite H2, Hn by done. cbn [pde]. rewrite present_0. cbn [negb].
    rewrite (bind_ok _ _ _ _ _ Ek), (proj2 (Z.eqb_neq t 0)) by (by apply page_ok_nz).
    rewrite (pde_value t Ht). done.
  - split.
    + split.
      * apply (freelist_ext s1); [|done|done]. intros a x Ha Hx. rewrite Hm1.
        exact (only_keeps _ (F ++ l) s s' Ho Hdis a x ltac:(set_solver) Hx).
      * cbn. rewrite Hm1. by apply tab_ok_add.
      * rewrite Hperm. apply (vt_nodup _ _ _ _ Hv).
      * rewrite Hperm. apply (vt_page _ _ _ _ Hv).
    + apply (keeps_sub _ (F ++ l)); [set_solver|]. by eapply only_keeps.
    + unfold s', mem_only. rewrite Es1. ksimpl. done.
    + done.
    + done.
    + cbn. by apply insert_subseteq.
    + intros x Hx. apply Ho. intros a Ha. apply Hx. set_solver.
Qed.

(** Page tables appear only at the directory entries from [lo] to [hi]. *)
Definition new_tables T T' (lo hi : Z) : Prop :=
  forall d t, t_pts T' !! d = Some t -> is_Some (t_pts T !! d) \/ lo <= d <= hi.
Lemma new_tables_trans T1 T2 T3 lo hi lo1 hi1 lo2 hi2 :
  new_tables T1 T2 lo1 hi1 -> new_tables T2 T3 lo2 hi2 -> lo <= lo1 -> lo <= lo2 -> hi1 <= hi -> hi2 <= hi -> new_tables T1 T3 lo hi.
Proof using.
  intros A B H1 H2 H3 H4 d t E. destruct (B d t E) as [[t' E']|?]; [|right; lia]. destruct (A d t' E') as [?|?]; [by left|right; lia].
Qed.

(** walkpgdir with alloc: a page table is there, or the memory is used up. *)
Lemma walk_spec s F T l n :
  vm_tab s F T l -> 0 <= n < VPN ->
  exists r s1 T1 l1, walkpgdir (t_dir T) (4096 * n) true s = Ok r s1 /\
    vstep F s T l s1 T1 l1 /\ new_tables T T1 (n / 1024) (n / 1024) /\ t_map T1 = t_map T /\
    (r = 0 /\ l1 = [] \/
     exists t, t_pts T1 !! (n / 1024) = Some t /\ r = t + 4 * (n mod 1024) /\ r <> 0).
Proof using.
  intros Hv Hn. unfold VPN in Hn. assert (Hva : 0 <= 4096 * n < 4294967296) by lia.
  assert (E1 : 4096 * n / 4194304 = n / 1024) by zlia. assert (E2 : 4096 * n / 4096 = n) by zlia.
  assert (Hnz : forall t, page_ok t -> t + 4 * (n mod 1024) <> 0).
  { intros t (_ & _ & Ht & _). unfold KERNBASE in Ht. zlia. }
  destruct (t_pts T !! (n / 1024)) as [t|] eqn:Et.
  - exists (t + 4 * (n mod 1024)), s, T, l. split_and!; [|by apply vstep_refl|by left|done|].
    + rewrite <- E1 in Et. by rewrite (walk_found _ _ _ _ _ _ _ Hv Hva Et), E2.
    + right. exists t. split_and!; [done|done|]. apply Hnz. by eapply table_page_ok.
  - rewrite <- E1 in Et. destruct l as [|t l].
    + exists 0, s, T, []. split_and!; [by eapply walk_oom|by apply vstep_refl|by left|done|by left].
    + destruct (walk_alloc _ _ _ _ _ _ Hv Hva Et) as (s1 & Ew & Hs).
      exists (t + 4 * (n mod 1024)), s1, (add_table T (n / 1024) t), l. rewrite E1, E2 in *.
      split_and!; [done|done| |done|].
      { intros d t' Ed. cbn in Ed. destruct (decide (d = n / 1024)) as [->|Hne]; [right; lia|left]. rewrite lookup_insert_ne in Ed by done. by exists t'. }
      right. exists t. cbn. rewrite lookup_insert_eq.
      split_and!; [done|done|]. apply Hnz. apply (vt_page_in _ _ _ _ _ Hv). set_solver.
Qed.

(** Storing a page table entry. *)
Definition set_map T n v : tables := mkTables (t_dir T) (t_pts T) (fset (t_map T) n v).
Definition set_entry s (t n v : Z) : kernel := set_k_mem (store32 (k_mem s) (t + 4 * (n mod 1024)) v) s.

Lemma table_inj s F T l d d' t : vm_tab s F T l ->
  t_pts T !! d = Some t -> t_pts T !! d' = Some t -> d = d'.
Proof using.
  intros Hv Hd Hd'. destruct (vm_tab_parts _ _ _ _ Hv) as (P1 & _). apply NoDup_cons in P1 as [_ P1].
  destruct (decide (d = d')) as [|Hne]; [done|]. exfalso.
  rewrite <- (vals_delete _ _ _ Hd) in P1. apply NoDup_cons in P1 as [P1 _]. apply P1.
  apply (elem_vals _ d'). by rewrite lookup_delete_ne.
Qed.

Lemma set_entry_only s t n v : only [t] (k_mem s) (k_mem (set_entry s t n v)).
Proof using.
  intros x Hx. cbn. apply store32_outside. intros Hc. apply (Hx t); [set_solver|].
  eapply entry_in_page; [|exact Hc]. zlia.
Qed.

Lemma tab_ok_set s F T l n t v :
  vm_tab s F T l -> 0 <= n < VPN -> t_pts T !! (n / 1024) = Some t -> 0 <= v < 4294967296 ->
  tab_ok (k_mem (set_entry s t n v)) (set_map T n v).
Proof using.
  intros Hv Hn Ht Hv32. pose proof (vt_tab _ _ _ _ Hv) as [H1 H2 H3].
  destruct (vm_tab_parts _ _ _ _ Hv) as (P1 & P2 & _). rewrite Forall_forall in P2.
  pose proof (table_page_ok _ _ _ _ _ _ Hv Ht) as Hpt. pose proof (elem_vals _ _ _ Ht) as Hin.
  assert (Hout : forall a, a ∈ tpages T -> a <> t -> forall x, in_page a x ->
    k_mem (set_entry s t n v) x = k_mem s x).
  { intros a Ha Hne x Hx. apply set_entry_only. intros b ->%list_elem_of_singleton.
    apply (page_ne_bytes a t); auto. }
  split; cbn [set_map t_dir t_pts t_map]; [done|..].
  - intros d Hd. rewrite <- H2 by done. apply load_entry_eq; [done|]. apply Hout; [set_solver|].
    apply NoDup_cons in P1 as [P1 _]. by intros <-.
  - intros j Hj. specialize (H3 j Hj). unfold fset. destruct (Z.eqb_spec j n) as [->|Hne].
    + rewrite Ht. cbn. by rewrite load_store32, u32_small.
    + destruct (t_pts T !! (j / 1024)) as [t'|] eqn:E; [|done]. rewrite <- H3.
      destruct (decide (t' = t)) as [->|Hne'].
      * cbn. apply load_store32_ne. pose proof (table_inj _ _ _ _ _ _ _ Hv E Ht). zlia.
      * apply load_entry_eq; [zlia|]. apply Hout; [|done]. apply elem_of_cons. right. by eapply elem_vals.
Qed.

Lemma set_entry_step s F T l n t v :
  vm_tab s F T l -> 0 <= n < VPN -> t_pts T !! (n / 1024) = Some t -> 0 <= v < 4294967296 ->
  vstep F s T l (set_entry s t n v) (set_map T n v) l.
Proof using.
  intros Hv Hn Ht Hv32. pose proof (elem_vals _ _ _ Ht) as Hin.
  destruct (vm_tab_parts _ _ _ _ Hv) as (P1 & P2 & P3 & P4 & P5 & P6). rewrite Forall_forall in P2, P3, P4.
  assert (Hk : keeps (F ++ l) s (set_entry s t n v)).
  { apply (only_keeps [t]); [apply set_entry_only|]. intros a b ->%list_elem_of_singleton Hb.
    destruct (P5 t ltac:(set_solver)) as [? ?]. split_and!; [apply P2; set_solver| |set_solver].
    apply elem_of_app in Hb as [?|?]; auto. }
  split; [|by apply (keeps_sub _ (F ++ l)); [set_solver|]|by destruct s|done|done|done|].
  2:{ intros x Hx. apply set_entry_only. intros a ->%list_elem_of_singleton. apply Hx. set_solver. }
  split.
  - apply (freelist_ext s); [|done|apply (vt_free _ _ _ _ Hv)]. intros a x Ha Hx. apply (Hk a x); [set_solver|done].
  - by eapply tab_ok_set.
  - apply (vt_nodup _ _ _ _ Hv).
  - apply (vt_page _ _ _ _ Hv).
Qed.

(** ** mappages *)

(** The map with [k] pages from [n] on mapped to consecutive frames. *)
Definition map_range (f : Z -> Z) (n k pa fl : Z) : Z -> Z :=
  fun j => if (n <=? j) && (j <? n + k) then pa + 4096 * (j - n) + fl else f j.

Lemma map_range_0 f n pa fl j : map_range f n 0 pa fl j = f j.
Proof using. unfold map_range. zcases. Qed.

(** One iteration of the loop, up to the test for the last page. *)
Lemma mappages_iter s F T l n pa perm :
  vm_tab s F T l -> 0 <= n < VPN -> t_map T n = 0 -> 0 <= pa -> pa + 4096 <= 4294967296 -> pa mod 4096 = 0 ->
  0 <= perm < 4096 ->
  exists s1 T1 l1, vstep F s T l s1 T1 l1 /\ new_tables T T1 (n / 1024) (n / 1024) /\
    ((forall last f, mappages_loop (t_dir T) (4096 * n) last pa perm (S f) s = Ok (-1) s1) /\
     l1 = [] /\ t_map T1 = t_map T \/
     (forall last f, mappages_loop (t_dir T) (4096 * n) last pa perm (S f) s =
        if 4096 * n =? last then Ok 0 s1
        else mappages_loop (t_dir T1) (u32 (4096 * n + PGSIZE)) last (u32 (pa + PGSIZE)) perm f s1) /\
     t_map T1 = fset (t_map T) n (pa + Z.lor perm 1)).
Proof using.
  intros Hv Hn H0 Hpa Hpb Hal Hperm. destruct (walk_spec s F T l n Hv Hn) as (r & s1 & T1 & l1 & Ew & Hs & Hnt & Em & D).
  destruct D as [[-> ->]|(t & Et & -> & Hnz)].
  - exists s1, T1, []. split; [done|]. split; [done|]. left. split; [|done]. intros last f. cbn [mappages_loop].
    rewrite (bind_ok _ _ _ _ _ Ew). done.
  - pose proof (vs_tab _ _ _ _ _ _ _ Hs) as Hv1. pose proof (lor_bound perm 1 Hperm ltac:(lia)) as Hl.
    set (v := pa + Z.lor perm 1). assert (Hv32 : 0 <= v < 4294967296) by (unfold v; zlia).
    pose proof (set_entry_step s1 F T1 l1 n t v Hv1 Hn Et Hv32) as Hs2.
    exists (set_entry s1 t n v), (set_map T1 n v), l1. split; [by eapply vstep_trans|]. split; [exact Hnt|]. right. split.
    + intros last f. cbn [mappages_loop]. rewrite (bind_ok _ _ _ _ _ Ew), (proj2 (Z.eqb_neq _ _) Hnz).
      pose proof (to_pte _ _ (vt_tab _ _ _ _ Hv1) n Hn) as Hpte. rewrite Et, Em, H0 in Hpte.
      unfold ld32, gets, panic_if, sd32, upd_mem, modify. unfold mbind, M_bind. rewrite Hpte, present_0.
      rewrite pte_value by done. cbn [set_map t_dir]. rewrite (vs_dir _ _ _ _ _ _ _ Hs).
      by destruct (4096 * n =? last).
    + cbn [set_map t_map]. by rewrite Em.
Qed.

Lemma mappages_loop_spec k : forall s F T l n pa perm fuel,
  vm_tab s F T l -> 0 <= n -> n + Z.of_nat (S k) <= VPN ->
  (forall j, n <= j < n + Z.of_nat (S k) -> t_map T j = 0) ->
  0 <= pa -> pa + 4096 * Z.of_nat (S k) <= 4294967296 -> pa mod 4096 = 0 -> 0 <= perm < 4096 -> (k < fuel)%nat ->
  exists r s' T' l' k',
    mappages_loop (t_dir T) (4096 * n) (4096 * (n + Z.of_nat k)) pa perm fuel s = Ok r s' /\
    vstep F s T l s' T' l' /\ new_tables T T' (n / 1024) ((n + Z.of_nat k) / 1024) /\
    (forall j, t_map T' j = map_range (t_map T) n k' pa (Z.lor perm 1) j) /\
    (r = 0 /\ k' = Z.of_nat (S k) \/ r = -1 /\ l' = [] /\ 0 <= k' <= Z.of_nat k).
Proof using.
  induction k as [|k IH]; intros s F T l n pa perm fuel Hv Hn Hk H0 Hpa Hpb Hal Hperm Hf;
    (destruct fuel as [|fuel]; [lia|]);
    destruct (mappages_iter s F T l n pa perm) as (s1 & T1 & l1 & Hs & Hnt & [(E & -> & Em)|(E & Em)]); try done; try lia;
    try (apply H0; lia).
  1,3: exists (-1), s1, T1, [], 0; split_and!; [apply E|done|apply (new_tables_trans _ T1 _ _ _ _ _ _ _ Hnt (fun d t Ed => or_introl (mk_is_Some _ _ Ed) : _ \/ n / 1024 <= d <= n / 1024)); zlia| |right; split_and!; [done|done|lia..]];
    intros j; by rewrite Em, map_range_0.
  - exists 0, s1, T1, l1, 1. rewrite E. rewrite (proj2 (Z.eqb_eq _ _)) by lia. split_and!; [done|done|by replace (n + Z.of_nat 0) with n by lia| |by left].
    intros j. rewrite Em. unfold fset, map_range. zcases.
  - unfold VPN in *. rewrite E, (proj2 (Z.eqb_neq _ _)) by lia. unfold PGSIZE. rewrite !u32_small by lia.
    replace (4096 * n + 4096) with (4096 * (n + 1)) by lia.
    replace (n + Z.of_nat (S k)) with (n + 1 + Z.of_nat k) in * by lia.
    destruct (IH s1 F T1 l1 (n + 1) (pa + 4096) perm fuel) as (r & s' & T' & l' & k' & El & Hs' & Hnt' & Hm & D);
      try done; try lia; [apply (vs_tab _ _ _ _ _ _ _ Hs)| |zlia|].
    { intros j Hj. rewrite Em. unfold fset. rewrite (proj2 (Z.eqb_neq j n)) by lia. apply H0. lia. }
    exists r, s', T', l', (k' + 1). split_and!; [done|by eapply vstep_trans|apply (new_tables_trans _ _ _ _ _ _ _ _ _ Hnt Hnt'); zlia| |].
    + intros j. rewrite Hm, Em. unfold fset, map_range. zcases; subst; lia.
    + destruct D as [[-> ->]|(-> & -> & ?)]; [left|right; split_and!; [done|done|lia..]]. split; [done|lia].
Qed.

(** The pages that [size] bytes from [va] on touch. *)
Lemma mappages_spec s F T l va size pa perm :
  vm_tab s F T l -> 0 <= va -> 0 < size -> va + size <= 4294967296 ->
  let n := va / 4096 in
  let k := (va + size - 1) / 4096 - n + 1 in
  (forall j, n <= j < n + k -> t_map T j = 0) ->
  0 <= pa -> pa + 4096 * k <= 4294967296 -> pa mod 4096 = 0 -> 0 <= perm < 4096 ->
  exists r s' T' l' k',
    mappages (t_dir T) va size pa perm s = Ok r s' /\
    vstep F s T l s' T' l' /\ new_tables T T' (n / 1024) ((n + k - 1) / 1024) /\
    (forall j, t_map T' j = map_range (t_map T) n k' pa (Z.lor perm 1) j) /\
    (r = 0 /\ k' = k \/ r = -1 /\ l' = [] /\ 0 <= k' < k).
Proof using.
  intros Hv Hva Hsz Hb n k H0 Hpa Hpb Hal Hperm. unfold mappages.
  assert (Hn : 0 <= n) by (unfold n; zlia). assert (Hk : 1 <= k) by (unfold k, n; zlia).
  rewrite (u32_small va), (u32_small (va + size - 1)) by lia.
  rewrite !PGROUNDDOWN_div by lia. fold n.
  replace ((va + size - 1) / 4096 * 4096) with (4096 * (n + Z.of_nat (Z.to_nat (k - 1)))) by (unfold k; lia).
  replace (n * 4096) with (4096 * n) by lia.
  destruct (mappages_loop_spec (Z.to_nat (k - 1)) s F T l n pa perm
    (S (Z.to_nat (u32 (4096 * (n + Z.of_nat (Z.to_nat (k - 1))) - 4096 * n) / PGSIZE))))
    as (r & s' & T' & l' & k' & E & Hs & Hnt & Hm & D); try done.
  - unfold VPN, k, n. zlia.
  - intros j Hj. apply H0. lia.
  - lia.
  - assert (k <= 1048576) by (unfold k, n; zlia). unfold PGSIZE. rewrite u32_small by lia.
    replace (4096 * (n + Z.of_nat (Z.to_nat (k - 1))) - 4096 * n) with ((k - 1) * 4096) by lia.
    rewrite Z.div_mul by lia. lia.
  - exists r, s', T', l', k'. split_and!; [done|done| |done|].
    { by replace (n + k - 1) with (n + Z.of_nat (Z.to_nat (k - 1))) by lia. }
    destruct D as [[-> ->]|(-> & -> & ?)]; [left; split; [done|lia]|right; split_and!; [done|done|lia..]].
Qed.
End vmspec.
