(* ===== verification/VmUser.v ===== *)
(** * User address spaces (vm.c)

    The user part of a page table: which page of memory, with which flags,
    each of the virtual pages below KERNBASE has.  Those pages belong to the
    address space: no two virtual pages share one, and none is free, a page
    table or in use elsewhere. *)

From S2P Require Import Prelude State CString Kalloc PageMath KallocSpec Console ConsoleOut Vm VmSpec.
Open Scope Z_scope.

(** The virtual pages below KERNBASE. *)
Definition UPN : Z := 524288.

Record aspace := mkAspace { a_tab : tables; a_ups : gmap Z (Z * Z) }.

Definition upages (U : gmap Z (Z * Z)) : list Z := (vals U).*1.
Definition uentry (o : option (Z * Z)) : Z := match o with Some (u, f) => V2P u + f | None => 0 end.

Record as_ok (A : aspace) : Prop := mkAsOk {
  ao_dom : forall n u f, a_ups A !! n = Some (u, f) -> 0 <= n < UPN /\ 0 <= f < 4096 /\ f mod 2 = 1;
  ao_map : forall n, 0 <= n < UPN -> t_map (a_tab A) n = uentry (a_ups A !! n) }.

(** Nothing changes but memory, the free list and what is on the console. *)
Definition mem_cons (s s' : kernel) : Prop :=
  s' = set_k_cons (k_cons s') (set_k_kmem (k_kmem s') (set_k_mem (k_mem s') s)) /\
  (cons_ok (k_cons s) -> cons_ok (k_cons s')).

#[export] Instance mem_cons_preorder : PreOrder mem_cons.
Proof.
  split; unfold mem_cons.
  - intros s. by destruct s.
  - intros s1 s2 s3 [H1 C1] [H2 C2]. split; [|auto]. rewrite H2, H1. ksimpl. done.
Qed.

Lemma mem_only_cons s s' : mem_only s s' -> mem_cons s s'.
Proof. unfold mem_only, mem_cons. intros ->. ksimpl. by destruct s. Qed.

Definition apages (A : aspace) : list Z := upages (a_ups A) ++ tpages (a_tab A).

Section vmuser.
Context `{Linker}.
Implicit Types (s : kernel) (A : aspace) (F l : list Z) (m : mem).

(** The address space [A], the free pages [l] and other pages [F]. *)
Record vm_user s F A l : Prop := mkVmUser {
  vu_tab : vm_tab s (F ++ upages (a_ups A)) (a_tab A) l;
  vu_ok : as_ok A }.

(** What the operations on an address space do besides changing it: they keep
    the contents of [F] and of the user pages [K], lose no page, leave the
    kernel's part of the map alone, and change nothing but memory and the
    console. *)
Record ustep K F s A l s' A' l' : Prop := mkUstep {
  us_user : vm_user s' F A' l';
  us_keeps : keeps (F ++ K) s s';
  us_mem : mem_cons s s';
  us_dir : t_dir (a_tab A') = t_dir (a_tab A);
  us_pages : (apages A' ++ l') ≡ₚ (apages A ++ l);
  us_kern : forall n, UPN <= n -> t_map (a_tab A') n = t_map (a_tab A) n;
  us_pts : t_pts (a_tab A) ⊆ t_pts (a_tab A') }.

Lemma ustep_trans K F s1 A1 l1 s2 A2 l2 s3 A3 l3 :
  ustep K F s1 A1 l1 s2 A2 l2 -> ustep K F s2 A2 l2 s3 A3 l3 -> ustep K F s1 A1 l1 s3 A3 l3.
Proof using.
  intros [A_1 A_2 A_3 A_4 A_5 A_6 A_7] [B_1 B_2 B_3 B_4 B_5 B_6 B_7].
  split; [done|by transitivity s2|by transitivity s2|congruence|by rewrite B_5| |by transitivity (t_pts (a_tab A2))].
  intros n Hn. rewrite B_6, A_6; done.
Qed.

Lemma ustep_refl K F s A l : vm_user s F A l -> ustep K F s A l s A l.
Proof using. by split. Qed.

(** Console output does not matter to memory. *)
Lemma vm_tab_same s s' F T l : k_mem s' = k_mem s -> k_kmem s' = k_kmem s -> vm_tab s F T l -> vm_tab s' F T l.
Proof using.
  intros Em Ek [[H1 H2] H3 H4 H5]. split; [|by rewrite Em|done|done]. split; [by rewrite Em, Ek|done].
Qed.

Lemma vm_user_same s s' F A l : k_mem s' = k_mem s -> k_kmem s' = k_kmem s -> vm_user s F A l -> vm_user s' F A l.
Proof using. intros Em Ek [H1 H2]. split; [by eapply vm_tab_same|done]. Qed.

(** A page may be counted to the tables' frame in any order. *)
Lemma vm_tab_frame s F F' T l : F ≡ₚ F' -> vm_tab s F T l -> vm_tab s F' T l.
Proof using. intros E [H1 H2 H3 H4]. split; [done|done|by rewrite <- E|by rewrite <- E]. Qed.

(** ** Taking a page from the free list and giving one back *)

Lemma freelist_head s l : freelist s l -> 0 <= km_freelist (k_kmem s) < 4294967296.
Proof using.
  intros [Hc _]. destruct l as [|a l]; cbn in Hc; [lia|]. destruct Hc as (-> & (_ & _ & ? & _ & ?) & _).
  unfold KERNBASE in *. lia.
Qed.

Lemma kfree_tab s F T l u :
  vm_tab s (u :: F) T l ->
  exists s', kfree u s = Ok tt s' /\ vm_tab s' F T (u :: l) /\ keeps (F ++ tpages T) s s' /\ mem_only s s'.
Proof using.
  intros Hv. destruct (vm_tab_parts _ _ _ _ Hv) as (P1 & P2 & P3 & P4 & P5 & P6).
  assert (Hu : page_ok u) by (rewrite Forall_forall in P3; apply P3; set_solver).
  assert (Hul : u ∉ l) by (intros Hin; apply (P6 u Hin); set_solver).
  pose proof (vt_nodup _ _ _ _ Hv) as Hnd. cbn [app] in Hnd. apply NoDup_cons in Hnd as [Hu1 Hnd].
  destruct (kfree_ok s u l (vt_free _ _ _ _ Hv) Hu Hul (freelist_head _ _ (vt_free _ _ _ _ Hv))) as (s' & E & Hf & Hm).
  exists s'. assert (Hk : keeps (F ++ tpages T) s s').
  { intros a x Ha Hx. apply Hm. intros Hx'. apply (page_disjoint a u x); try done.
    - apply (vt_page_in _ _ _ _ _ Hv). set_solver.
    - set_solver. }
  split_and!; [done| |done|by rewrite kfree_run in E by done; injection E as <-; destruct s].
  assert (Hperm : (F ++ tpages T ++ u :: l) ≡ₚ ((u :: F) ++ tpages T ++ l)) by solve_Permutation.
  split; [done| |rewrite Hperm; apply (vt_nodup _ _ _ _ Hv)|rewrite Hperm; apply (vt_page _ _ _ _ Hv)].
  apply (tab_ok_ext (k_mem s)); [|apply (vt_tab _ _ _ _ Hv)]. intros a x Ha. apply Hk. set_solver.
Qed.

Lemma kalloc_tab s F T a l :
  vm_tab s F T (a :: l) ->
  exists s', kalloc s = Ok a s' /\ vm_tab s' (a :: F) T l /\ k_mem s' = k_mem s /\ mem_only s s'.
Proof using.
  intros Hv. destruct (kalloc_some s a l (vt_free _ _ _ _ Hv)) as (s' & E & Hf & Hm & Ha & Es).
  exists s'. split_and!; [done| |done|rewrite Es; by destruct s].
  assert (Hperm : ((a :: F) ++ tpages T ++ l) ≡ₚ (F ++ tpages T ++ a :: l)) by solve_Permutation.
  split; [done|rewrite Hm; apply (vt_tab _ _ _ _ Hv)|rewrite Hperm; apply (vt_nodup _ _ _ _ Hv)|
    rewrite Hperm; apply (vt_page _ _ _ _ Hv)].
Qed.

(** Writing into pages of the frame. *)
Lemma vm_tab_write s F T l u f :
  vm_tab s F T l -> u ∈ F -> only [u] (k_mem s) (f (k_mem s)) ->
  vm_tab (set_k_mem (f (k_mem s)) s) F T l.
Proof using.
  intros Hv Hu Ho. destruct (vm_tab_parts _ _ _ _ Hv) as (P1 & P2 & P3 & P4 & P5 & P6).
  rewrite Forall_forall in P2, P3, P4.
  assert (Hk : keeps (tpages T ++ l) s (set_k_mem (f (k_mem s)) s)).
  { apply (only_keeps [u]); [done|]. intros a b ->%list_elem_of_singleton Hb. split_and!; [auto| |].
    - apply elem_of_app in Hb as [?|?]; auto.
    - intros ->. apply elem_of_app in Hb as [Hb|Hb]; [by apply (P5 b Hb)|by apply (P6 b Hb)]. }
  split; [|..|apply (vt_nodup _ _ _ _ Hv)|apply (vt_page _ _ _ _ Hv)].
  - apply (freelist_ext s); [|done|apply (vt_free _ _ _ _ Hv)]. intros a x Ha. apply Hk. set_solver.
  - apply (tab_ok_ext (k_mem s)); [|apply (vt_tab _ _ _ _ Hv)]. intros a x Ha. apply Hk. set_solver.
Qed.

(** ** Unmapping *)

Definition cut (n N : Z) (U : gmap Z (Z * Z)) : gmap Z (Z * Z) := filter (fun kv => ~ (n <= kv.1 < N)) U.

Lemma lookup_cut n N U k : cut n N U !! k = if bool_decide (n <= k < N) then None else U !! k.
Proof using.
  unfold cut. destruct (U !! k) as [x|] eqn:E; case_bool_decide as D.
  - apply map_lookup_filter_None. right. intros y Hy Hn. cbn in Hn. done.
  - by apply map_lookup_filter_Some.
  - apply map_lookup_filter_None. by left.
  - apply map_lookup_filter_None. by left.
Qed.

Lemma cut_done n N U : N <= n -> cut n N U = U.
Proof using. intros Hn. apply map_eq. intros k. rewrite lookup_cut. by rewrite bool_decide_eq_false_2 by lia. Qed.

Lemma cut_skip n n' N U : n <= n' -> (forall k, n <= k < n' -> k < N -> U !! k = None) -> cut n N U = cut n' N U.
Proof using.
  intros Hn Hz. apply map_eq. intros k. rewrite !lookup_cut. repeat case_bool_decide; try done; try lia.
  symmetry. apply Hz; lia.
Qed.

Lemma cut_delete n N U : n < N -> cut n N U = cut (n + 1) N (delete n U).
Proof using.
  intros Hn. apply map_eq. intros k. rewrite !lookup_cut. destruct (decide (k = n)) as [->|].
  - rewrite bool_decide_eq_true_2, bool_decide_eq_false_2 by lia. by rewrite lookup_delete_eq.
  - rewrite lookup_delete_ne by done. repeat case_bool_decide; done || lia.
Qed.

Definition unmapped A n : aspace := mkAspace (set_map (a_tab A) n 0) (delete n (a_ups A)).

Lemma as_ok_unmapped A n : as_ok A -> as_ok (unmapped A n).
Proof using.
  intros [H1 H2]. split; cbn.
  - intros k u f Hk. apply lookup_delete_Some in Hk as [_ Hk]. eauto.
  - intros k Hk. unfold fset. destruct (Z.eqb_spec k n) as [->|]; [by rewrite lookup_delete_eq|].
    rewrite lookup_delete_ne by done. auto.
Qed.

Lemma upages_delete U n u f : U !! n = Some (u, f) -> upages U ≡ₚ u :: upages (delete n U).
Proof using. intros E. unfold upages. by rewrite <- (vals_delete U n (u, f) E). Qed.

Lemma upages_insert U n u f : U !! n = None -> upages (<[n := (u, f)]> U) ≡ₚ u :: upages U.
Proof using. intros E. unfold upages. by rewrite vals_insert. Qed.

Lemma upage_in U n u f : U !! n = Some (u, f) -> u ∈ upages U.
Proof using. intros E. rewrite (upages_delete _ _ _ _ E). by left. Qed.

Lemma elem_upages U u : u ∈ upages U <-> exists n f, U !! n = Some (u, f).
Proof using.
  unfold upages, vals. rewrite list_elem_of_fmap. split.
  - intros ([u' f] & -> & Hx). apply list_elem_of_fmap in Hx as ([n y] & [= <-] & Hx).
    apply elem_of_map_to_list in Hx. eauto.
  - intros (n & f & Hx). exists (u, f). split; [done|]. apply list_elem_of_fmap. exists (n, (u, f)).
    split; [done|]. by apply elem_of_map_to_list.
Qed.

Lemma upages_sub U U' : U ⊆ U' -> upages U ⊆ upages U'.
Proof using. intros Hs u. rewrite !elem_upages. intros (n & f & E). exists n, f. by eapply lookup_weaken. Qed.

Lemma upages_cut n N U : upages (cut n N U) ⊆ upages U.
Proof using. apply upages_sub, map_filter_subseteq. Qed.

Lemma user_page_ok s F A l n u f : vm_user s F A l -> a_ups A !! n = Some (u, f) -> page_ok u.
Proof using.
  intros [Hv _] E. apply (vt_page_in _ _ _ _ _ Hv). pose proof (upage_in _ _ _ _ E). set_solver.
Qed.

(** The entry of a mapped user page: present, with the page and the flags. *)
Lemma uentry_some u f : page_ok u -> 0 <= f < 4096 -> f mod 2 = 1 ->
  present (uentry (Some (u, f))) = true /\ PTE_ADDR (uentry (Some (u, f))) = V2P u /\
  PTE_FLAGS (uentry (Some (u, f))) = f /\ V2P u <> 0 /\ P2V (V2P u) = u /\ 0 <= V2P u + f < 4294967296.
Proof using.
  intros Hu Hf Ho. destruct (page_ok_phys u Hu) as (_ & Hp & Hm & Et & Hz). unfold PHYSTOP in Hp. cbn [uentry].
  rewrite present_odd, Ho, PTE_ADDR_flags, PTE_FLAGS_flags by (done || lia). split_and!; try done; lia.
Qed.

Lemma user_table s F A l n u f : vm_user s F A l -> a_ups A !! n = Some (u, f) ->
  exists t, t_pts (a_tab A) !! (n / 1024) = Some t.
Proof using.
  intros Hu E. pose proof (vu_ok _ _ _ _ Hu) as [H1 H2]. destruct (H1 n u f E) as (Hn & Hf & Ho).
  pose proof (to_pte _ _ (vt_tab _ _ _ _ (vu_tab _ _ _ _ Hu)) n) as Hp. unfold UPN, VPN in *.
  specialize (Hp ltac:(lia)). destruct (t_pts (a_tab A) !! (n / 1024)) as [t|]; [by eexists|].
  rewrite H2, E in Hp by lia. cbn in Hp. destruct (page_ok_phys u) as (_ & ? & _); [by eapply user_page_ok|]. zlia.
Qed.

Lemma unmap_page s F A l n u f t :
  vm_user s F A l -> a_ups A !! n = Some (u, f) -> t_pts (a_tab A) !! (n / 1024) = Some t ->
  exists s', (kfree u;; sd32 (t + 4 * (n mod 1024)) 0) s = Ok tt s' /\
    ustep (upages (delete n (a_ups A))) F s A l s' (unmapped A n) (u :: l).
Proof using.
  intros Hu E Et. pose proof (vu_ok _ _ _ _ Hu) as Ha. destruct (ao_dom _ Ha n u f E) as (Hn & _).
  assert (HV : 0 <= n < VPN) by (unfold UPN, VPN in *; lia).
  assert (Hv : vm_tab s (u :: F ++ upages (delete n (a_ups A))) (a_tab A) l).
  { eapply vm_tab_frame; [|apply (vu_tab _ _ _ _ Hu)]. rewrite (upages_delete _ _ _ _ E). solve_Permutation. }
  destruct (kfree_tab _ _ _ _ _ Hv) as (s1 & E1 & Hv1 & Hk1 & Hm1).
  pose proof (set_entry_step s1 _ _ _ n t 0 Hv1 HV Et ltac:(lia)) as Hs.
  eexists. split; [rewrite (bind_ok _ _ _ _ _ E1); done|]. fold (set_entry s1 t n 0). split.
  - split; [apply (vs_tab _ _ _ _ _ _ _ Hs)|by apply as_ok_unmapped].
  - transitivity s1; [by eapply keeps_sub; [|exact Hk1]; set_solver|apply (vs_keeps _ _ _ _ _ _ _ Hs)].
  - apply mem_only_cons. transitivity s1; [done|apply (vs_mem _ _ _ _ _ _ _ Hs)].
  - done.
  - unfold apages. cbn. rewrite (upages_delete _ _ _ _ E). solve_Permutation.
  - intros k Hk. cbn. unfold fset. by rewrite (proj2 (Z.eqb_neq k n)) by lia.
  - done.
Qed.

(** ** deallocuvm *)

(** One iteration on a page: where the loop goes on, and with what. *)
Lemma dealloc_iter s F A l n oldsz f :
  vm_user s F A l -> 0 <= n < UPN -> 4096 * n < oldsz -> oldsz <= KERNBASE ->
  let N := (oldsz + 4095) / 4096 in
  exists s1 A1 l1 n1, n < n1 /\ n1 <= UPN /\
    deallocuvm_loop (t_dir (a_tab A)) (4096 * n) oldsz (S f) s =
      deallocuvm_loop (t_dir (a_tab A1)) (4096 * n1) oldsz f s1 /\
    ustep (upages (cut n N (a_ups A))) F s A l s1 A1 l1 /\
    cut n1 N (a_ups A1) = cut n N (a_ups A) /\ t_pts (a_tab A1) = t_pts (a_tab A).
Proof using.
  intros Hu Hn Ha Ho N. pose proof (vu_ok _ _ _ _ Hu) as [H1 H2]. pose proof (vu_tab _ _ _ _ Hu) as Hv.
  unfold UPN, KERNBASE in *. assert (Hva : 0 <= 4096 * n < 4294967296) by lia.
  assert (E1 : 4096 * n / 4194304 = n / 1024) by zlia. assert (E2 : 4096 * n / 4096 = n) by zlia.
  assert (HN : n < N) by (unfold N; zlia). cbn [deallocuvm_loop]. rewrite (proj2 (Z.ltb_lt _ _) Ha).
  destruct (t_pts (a_tab A) !! (n / 1024)) as [t|] eqn:Et.
  - pose proof (walk_found s _ (a_tab A) l (4096 * n) false t Hv Hva ltac:(by rewrite E1)) as Ew. rewrite E2 in Ew.
    assert (Hnz : t + 4 * (n mod 1024) <> 0).
    { destruct (table_page_ok _ _ _ _ _ _ Hv Et) as (_ & _ & Ht & _). unfold KERNBASE in Ht. zlia. }
    rewrite (bind_ok _ _ _ _ _ Ew), (proj2 (Z.eqb_neq _ _) Hnz).
    pose proof (to_pte _ _ (vt_tab _ _ _ _ Hv) n ltac:(unfold VPN; lia)) as Hp. rewrite Et, H2 in Hp by lia.
    assert (Eld : forall B (g : Z -> kM B), (e ← ld32 (t + 4 * (n mod 1024)); g e) s = g (uentry (a_ups A !! n)) s).
    { intros B g. apply bind_ok. unfold ld32, gets. by rewrite Hp. }
    rewrite Eld. unfold PGSIZE. rewrite u32_small by lia. replace (4096 * n + 4096) with (4096 * (n + 1)) by lia.
    destruct (a_ups A !! n) as [[u fl]|] eqn:Eu.
    + destruct (H1 n u fl Eu) as (_ & Hf & Hodd).
      destruct (uentry_some u fl) as (P1 & P2 & _ & P4 & P5 & _); [by eapply user_page_ok|done|done|].
      rewrite P1, P2, P5. unfold panic_if. rewrite (proj2 (Z.eqb_neq _ _) P4).
      destruct (unmap_page s F A l n u fl t Hu Eu Et) as (s1 & Er & Hs).
      exists s1, (unmapped A n), (u :: l), (n + 1). split_and!; [lia|lia| | |by rewrite (cut_delete n N)|done].
      * erewrite bind_ok; [|erewrite bind_ok by done; exact Er]. done.
      * destruct Hs as [B1 B2 B3 B4 B5 B6 B7]. split; try done. 
        eapply keeps_app; [|exact B2]. rewrite (cut_delete n N) by lia. apply upages_cut.
    + exists s, A, l, (n + 1). split_and!; [lia|lia|done|by apply ustep_refl| |done].
      symmetry. apply cut_skip; [lia|]. intros k Hk _. by replace k with n by lia.
  - rewrite (bind_ok _ _ _ _ _ (walk_absent s _ (a_tab A) l (4096 * n) Hv Hva ltac:(by rewrite E1))). cbn [Z.eqb].
    exists s, A, l, ((n / 1024 + 1) * 1024). split_and!; [zlia|zlia| |by apply ustep_refl| |done].
    + f_equal. unfold PGADDR, PGSIZE. rewrite PDX_div by lia. rewrite E1.
      rewrite Z.shiftl_0_l, !Z.lor_0_r, Z.shiftl_mul_pow2 by lia. change (2 ^ 22) with 4194304.
      rewrite (u32_small (_ * _)) by zlia. rewrite (u32_small (_ - _)) by zlia. rewrite u32_small by zlia. lia.
    + symmetry. apply cut_skip; [zlia|]. intros k Hk _. destruct (a_ups A !! k) as [[u fl]|] eqn:Eu; [|done].
      destruct (user_table _ _ _ _ _ _ _ Hu Eu) as [t Ht]. replace (k / 1024) with (n / 1024) in Ht by zlia. congruence.
Qed.

Lemma dealloc_loop fuel : forall s F A l n oldsz,
  vm_user s F A l -> 0 <= n <= UPN -> oldsz <= KERNBASE ->
  let N := (oldsz + 4095) / 4096 in
  (Z.to_nat (N - n) <= fuel)%nat ->
  exists s' A' l', deallocuvm_loop (t_dir (a_tab A)) (4096 * n) oldsz fuel s = Ok tt s' /\
    ustep (upages (cut n N (a_ups A))) F s A l s' A' l' /\ a_ups A' = cut n N (a_ups A) /\
    t_pts (a_tab A') = t_pts (a_tab A).
Proof using.
  induction fuel as [|fuel IH]; intros s F A l n oldsz Hu Hn Ho N Hf.
  - exists s, A, l. split_and!; [|by apply ustep_refl| |done].
    + cbn [deallocuvm_loop]. rewrite (proj2 (Z.ltb_ge _ _)); [done|]. unfold N in *. zlia.
    + symmetry. apply cut_done. lia.
  - destruct (Z.lt_ge_cases (4096 * n) oldsz) as [Hlt|Hge].
    + destruct (dealloc_iter s F A l n oldsz fuel Hu) as (s1 & A1 & l1 & n1 & Hn1 & Hn2 & E & Hs & Hc & Hp);
        [unfold UPN, KERNBASE in *; lia|done|done|].
      destruct (IH s1 F A1 l1 n1 oldsz (us_user _ _ _ _ _ _ _ _ Hs)) as (s' & A' & l' & E' & Hs' & Hc' & Hp'); [lia|done|lia|].
      fold N in Hs, Hc, Hs', Hc'. rewrite Hc in Hs', Hc'.
      exists s', A', l'. split_and!; [by rewrite E|by eapply ustep_trans|done|congruence].
    + exists s, A, l. split_and!; [|by apply ustep_refl| |done].
      * cbn [deallocuvm_loop]. by rewrite (proj2 (Z.ltb_ge _ _)).
      * symmetry. apply cut_done. unfold N in *. zlia.
Qed.

(** The virtual pages from PGROUNDUP(newsz) to oldsz are freed. *)
Lemma deallocuvm_spec s F A l oldsz newsz :
  vm_user s F A l -> 0 <= newsz < oldsz -> oldsz <= KERNBASE ->
  let U := cut ((newsz + 4095) / 4096) ((oldsz + 4095) / 4096) (a_ups A) in
  exists s' A' l', deallocuvm (t_dir (a_tab A)) oldsz newsz s = Ok newsz s' /\
    ustep (upages U) F s A l s' A' l' /\ a_ups A' = U /\ t_pts (a_tab A') = t_pts (a_tab A).
Proof using.
  intros Hu Hs Ho U. unfold deallocuvm. rewrite (proj2 (Z.leb_gt _ _)) by lia. unfold KERNBASE in Ho.
  rewrite PGROUNDUP_div by lia. replace (_ / 4096 * 4096) with (4096 * ((newsz + 4095) / 4096)) by lia.
  destruct (dealloc_loop (Z.to_nat (oldsz / PGSIZE + 1)) s F A l ((newsz + 4095) / 4096) oldsz Hu) as
    (s' & A' & l' & E & H1 & H2 & H3); [unfold UPN; zlia|done|unfold PGSIZE; zlia|].
  exists s', A', l'. rewrite (bind_ok _ _ _ _ _ E). done.
Qed.

(** ** Mapping a page *)

Definition mapped A T n u f : aspace := mkAspace T (<[n := (u, f)]> (a_ups A)).

Lemma as_ok_mapped A T n u f :
  as_ok A -> 0 <= n < UPN -> 0 <= f < 4096 -> f mod 2 = 1 ->
  (forall j, t_map T j = fset (t_map (a_tab A)) n (V2P u + f) j) -> as_ok (mapped A T n u f).
Proof using.
  intros [H1 H2] Hn Hf Ho Hm. split; cbn.
  - intros k v g Hk. apply lookup_insert_Some in Hk as [[<- [= <- <-]]|[_ Hk]]; [done|eauto].
  - intros k Hk. rewrite Hm. unfold fset. destruct (Z.eqb_spec k n) as [->|]; [by rewrite lookup_insert_eq|].
    rewrite lookup_insert_ne by done. auto.
Qed.

Lemma as_ok_tab_user A T :
  as_ok A -> (forall j, j < UPN -> t_map T j = t_map (a_tab A) j) -> as_ok (mkAspace T (a_ups A)).
Proof using. intros [H1 H2] Hm. split; cbn; [done|]. intros n Hn. rewrite Hm by lia. auto. Qed.

Lemma as_ok_tab A T : as_ok A -> (forall j, t_map T j = t_map (a_tab A) j) -> as_ok (mkAspace T (a_ups A)).
Proof using. intros Ha Hm. apply as_ok_tab_user; auto. Qed.

Lemma map_user_page s F A l n u f :
  vm_tab s (u :: F ++ upages (a_ups A)) (a_tab A) l -> as_ok A -> a_ups A !! n = None -> 0 <= n < UPN -> 0 <= f < 4096 ->
  exists r s' T' l', mappages (t_dir (a_tab A)) (4096 * n) PGSIZE (V2P u) f s = Ok r s' /\
    vstep (u :: F ++ upages (a_ups A)) s (a_tab A) l s' T' l' /\
    (r = 0 /\ vm_user s' F (mapped A T' n u (Z.lor f 1)) l' /\
       (forall k, UPN <= k -> t_map T' k = t_map (a_tab A) k) \/
     r = -1 /\ l' = [] /\ forall j, t_map T' j = t_map (a_tab A) j).
Proof using.
  intros Hv Ha Hnone Hn Hf. assert (Hpu : page_ok u) by (apply (vt_page_in _ _ _ _ _ Hv); set_solver).
  destruct (page_ok_phys u Hpu) as (_ & Hp & Hal & _). unfold PHYSTOP in Hp.
  assert (E1 : 4096 * n / 4096 = n) by zlia. assert (E2 : (4096 * n + 4096 - 1) / 4096 = n) by zlia.
  pose proof (ao_map _ Ha n Hn) as Hz. rewrite Hnone in Hz. unfold UPN in Hn.
  destruct (mappages_spec s _ (a_tab A) l (4096 * n) PGSIZE (V2P u) f Hv) as (r & s' & T' & l' & k' & E & Hs & _ & Hm & D);
    unfold PGSIZE in *; rewrite ?E1, ?E2 in *; try lia.
  { intros j Hj. by replace j with n by lia. }
  exists r, s', T', l'. split; [done|]. split; [done|]. destruct D as [[-> ->]|(-> & -> & Hk)].
  - left. split; [done|].
    assert (Hm' : forall j, t_map T' j = fset (t_map (a_tab A)) n (V2P u + Z.lor f 1) j).
    { intros j. rewrite Hm. unfold map_range, fset. zcases. }
    split.
    + split.
      * apply (vm_tab_frame _ (u :: F ++ upages (a_ups A))); [|apply (vs_tab _ _ _ _ _ _ _ Hs)].
        cbn. rewrite upages_insert by done. solve_Permutation.
      * apply as_ok_mapped; [done|done|apply lor_bound; lia|apply lor_1_odd|done].
    + intros k Hk. rewrite Hm'. unfold fset, UPN in *. by rewrite (proj2 (Z.eqb_neq k n)) by lia.
  - right. split; [done|]. split; [done|]. intros j. rewrite Hm. unfold map_range. zcases.
Qed.

Definition zeroed s u : Prop := forall x, in_page u x -> k_mem s x = 0.

(** A zeroed page from kalloc, as allocuvm makes one. *)
Lemma kalloc_zeroed s F T u l :
  vm_tab s F T (u :: l) ->
  exists s', (forall B (g : Z -> kM B), (p ← kalloc; g p) s = g u (set_k_kmem (k_kmem s') s)) /\
    s' = set_k_mem (memset (k_mem s) u 0 PGSIZE) (set_k_kmem (k_kmem s') s) /\
    vm_tab s' (u :: F) T l /\ keeps F s s' /\ zeroed s' u /\ u <> 0.
Proof using.
  intros Hv. destruct (kalloc_tab _ _ _ _ _ Hv) as (s1 & E & Hv1 & Hm & Ho).
  assert (Hout : only [u] (k_mem s1) (memset (k_mem s1) u 0 PGSIZE)).
  { intros x Hx. apply memset_outside. apply Hx. set_solver. }
  pose proof (vm_tab_write s1 (u :: F) T l u (fun m => memset m u 0 PGSIZE) Hv1 ltac:(set_solver) Hout) as Hv2.
  assert (Es1 : s1 = set_k_kmem (k_kmem s1) s).
  { unfold mem_only in Ho. rewrite Hm in Ho. rewrite Ho at 1. by destruct s. }
  exists (set_k_mem (memset (k_mem s1) u 0 PGSIZE) s1). split_and!.
  - intros B g. rewrite (bind_ok _ _ _ _ _ E). by rewrite Es1 at 1.
  - rewrite Hm. by rewrite Es1 at 1.
  - exact Hv2.
  - intros a x Ha Hx. cbn. rewrite <- Hm. apply Hout. intros b ->%list_elem_of_singleton.
    pose proof (vt_nodup _ _ _ _ Hv1) as Hnd. cbn in Hnd. apply NoDup_cons in Hnd as [Hnd _].
    apply (page_disjoint a u); [apply (vt_page_in _ _ _ _ _ Hv1); set_solver|
      apply (vt_page_in _ _ _ _ _ Hv1); set_solver|set_solver|done].
  - intros x Hx. cbn. rewrite memset_spec by (unfold PGSIZE; lia). unfold in_page in Hx. zcases.
  - apply page_ok_nz. apply (vt_page_in _ _ _ _ _ Hv1). set_solver.
Qed.

(** ** allocuvm *)

(** The user pages without the ones that allocuvm is about to add. *)
Definition before (oldsz newsz : Z) (U : gmap Z (Z * Z)) : gmap Z (Z * Z) :=
  cut ((oldsz + 4095) / 4096) ((newsz + 4095) / 4096) U.

(** Out of memory: the message and the release of what was allocated. *)
Lemma oom_dealloc s F A l oldsz newsz fmt out :
  vm_user s F A l -> 0 <= oldsz < newsz -> newsz <= KERNBASE -> cons_ok (k_cons s) -> format fmt [] = Some out ->
  exists s' A' l',
    (forall B (g : kM B), (cprintf fmt [];; deallocuvm (t_dir (a_tab A)) newsz oldsz;; g) s = g s') /\
    ustep (upages (before oldsz newsz (a_ups A))) F s A l s' A' l' /\ a_ups A' = before oldsz newsz (a_ups A).
Proof using.
  intros Hu Ho Hn Hc Hf. destruct (cprintf_ok fmt [] out s Hf Hc) as (k' & E & P).
  set (s1 := set_k_cons k' s). assert (Hu1 : vm_user s1 F A l) by (by apply (vm_user_same s)).
  destruct (deallocuvm_spec s1 F A l newsz oldsz Hu1) as (s' & A' & l' & E' & Hs & Hups & _); [lia|done|].
  exists s', A', l'. split_and!.
  - intros B g. by rewrite (bind_ok _ _ _ _ _ E), (bind_ok _ _ _ _ _ E').
  - destruct Hs as [B1 B2 B3 B4 B5 B6 B7]. split; try done. transitivity s1; [|done].
    split; [by destruct s|]. intros _. apply (pr_ok _ _ _ P).
  - done.
Qed.

(** One iteration of allocuvm. *)
Lemma alloc_iter s F A l n oldsz newsz f :
  vm_user s F A l -> 0 <= oldsz -> oldsz <= 4096 * n -> 4096 * n < newsz -> newsz <= KERNBASE ->
  a_ups A !! n = None -> cons_ok (k_cons s) ->
  (exists s' A' l', allocuvm_loop (t_dir (a_tab A)) (4096 * n) oldsz newsz (S f) s = Ok 0 s' /\
     ustep (upages (before oldsz newsz (a_ups A))) F s A l s' A' l' /\ a_ups A' = before oldsz newsz (a_ups A) /\
     (length l + length (tpages (a_tab A)) <= 1026)%nat) \/
  (exists s' A' l' u,
     allocuvm_loop (t_dir (a_tab A)) (4096 * n) oldsz newsz (S f) s =
       allocuvm_loop (t_dir (a_tab A')) (4096 * (n + 1)) oldsz newsz f s' /\
     ustep (upages (a_ups A)) F s A l s' A' l' /\ a_ups A' = <[n := (u, 7)]> (a_ups A) /\ zeroed s' u).
Proof using.
  intros Hu Ho Hon Hnew Hk Hnone Hc. pose proof (vu_tab _ _ _ _ Hu) as Hv. pose proof (vu_ok _ _ _ _ Hu) as Ha.
  assert (Hn : 0 <= n < UPN) by (unfold UPN, KERNBASE in *; lia).
  cbn [allocuvm_loop]. rewrite (proj2 (Z.ltb_lt _ _) Hnew). destruct l as [|u l].
  { left. rewrite (bind_ok _ _ _ _ _ (kalloc_none s (vt_free _ _ _ _ Hv))). cbn [Z.eqb].
    destruct (oom_dealloc s F A [] oldsz newsz (str "allocuvm out of memory" ++ [10]) (str "allocuvm out of memory" ++ [10]))
      as (s' & A' & l' & E & Hs & HU); [done|lia|done|done|reflexivity|].
    exists s', A', l'. split_and!; [by rewrite E|done|done|]. pose proof (tables_pages _ _ (vt_tab _ _ _ _ Hv)). cbn [length]. lia. }
  destruct (kalloc_zeroed _ _ _ _ _ Hv) as (s1 & E1 & Es1 & Hv1 & Hk1 & Hz & Hnz). rewrite E1, (proj2 (Z.eqb_neq u 0) Hnz).
  rewrite (bind_ok _ _ _ tt s1) by (by rewrite Es1).
  assert (M1 : mem_cons s s1) by (apply mem_only_cons; unfold mem_only; rewrite Es1; by destruct s).
  destruct (map_user_page s1 F A l n u (Z.lor PTE_W PTE_U) Hv1 Ha Hnone Hn ltac:(change (Z.lor PTE_W PTE_U) with 6; lia))
    as (r & s2 & T2 & l2 & E2 & Hs2 & D). rewrite (bind_ok _ _ _ _ _ E2).
  pose proof (vs_keeps _ _ _ _ _ _ _ Hs2) as Hk2.
  assert (M2 : mem_cons s s2) by (transitivity s1; [done|apply mem_only_cons, (vs_mem _ _ _ _ _ _ _ Hs2)]).
  destruct D as [(-> & Hu2 & Hkern)|(-> & -> & Hm)].
  - right. exists s2, (mapped A T2 n u 7), l2, u. split_and!; [| |done|].
    + cbn [Z.ltb Z.compare]. unfold PGSIZE, KERNBASE in *. rewrite u32_small by lia.
      cbn [mapped a_tab]. rewrite (vs_dir _ _ _ _ _ _ _ Hs2). by replace (4096 * n + 4096) with (4096 * (n + 1)) by lia.
    + split; try done.
      * transitivity s1; [done|by eapply keeps_tail].
      * apply (vs_dir _ _ _ _ _ _ _ Hs2).
      * pose proof (vs_pages _ _ _ _ _ _ _ Hs2) as Hp. unfold apages. cbn. rewrite upages_insert by done.
        rewrite <- app_assoc, Hp. solve_Permutation.
      * apply (vs_pts _ _ _ _ _ _ _ Hs2).
    + intros x Hx. rewrite (Hk2 u x); [by apply Hz|set_solver|done].
  - left. cbn [Z.ltb Z.compare]. set (A2 := mkAspace T2 (a_ups A)).
    assert (Hu2 : vm_user s2 (u :: F) A2 []) by (split; [apply (vs_tab _ _ _ _ _ _ _ Hs2)|by apply as_ok_tab]).
    rewrite <- (vs_dir _ _ _ _ _ _ _ Hs2). change (t_dir T2) with (t_dir (a_tab A2)).
    destruct (oom_dealloc s2 (u :: F) A2 [] oldsz newsz (str "allocuvm out of memory (2)" ++ [10])
      (str "allocuvm out of memory (2)" ++ [10])) as (s3 & A3 & l3 & E3 & Hs3 & HU); [done|lia|done|by apply M2|reflexivity|].
    rewrite E3. destruct Hs3 as [[V3 O3] B2 B3 B4 B5 B6 B7].
    destruct (kfree_tab s3 (F ++ upages (a_ups A3)) (a_tab A3) l3 u V3) as (s4 & E4 & V4 & Hk4 & M4).
    exists s4, A3, (u :: l3). split_and!; [by rewrite (bind_ok _ _ _ _ _ E4)|split|done|].
    + by split.
    + change (a_ups A2) with (a_ups A) in *.
      transitivity s1; [eapply keeps_app; [|exact Hk1]; apply upages_cut|].
      transitivity s2; [apply keeps_tail in Hk2; eapply keeps_app; [|exact Hk2]; apply upages_cut|].
      transitivity s3; [by eapply keeps_tail|]. apply keeps_l in Hk4. by rewrite HU in Hk4.
    + transitivity s2; [done|]. transitivity s3; [done|by apply mem_only_cons].
    + rewrite B4. apply (vs_dir _ _ _ _ _ _ _ Hs2).
    + pose proof (vs_pages _ _ _ _ _ _ _ Hs2) as Hp. unfold apages in *. cbn in B5, Hp.
      rewrite <- Permutation_middle, B5. rewrite <- app_assoc, Hp. solve_Permutation.
    + intros k Hk'. rewrite B6 by done. apply Hm.
    + transitivity (t_pts T2); [apply (vs_pts _ _ _ _ _ _ _ Hs2)|done].
    + pose proof (Permutation_length (vs_pages _ _ _ _ _ _ _ Hs2)) as Hp. rewrite !length_app in Hp. pose proof (tables_pages _ _ (vt_tab _ _ _ _ (vu_tab _ _ _ _ Hu2))).
      cbn [length A2 a_tab] in *. lia.
Qed.

(** Fresh zeroed pages, writable by the user, from [n] to [N], the others as
    they were. *)
Definition grown s (n N : Z) (U U' : gmap Z (Z * Z)) : Prop :=
  forall k, if bool_decide (n <= k < N) then exists u, U' !! k = Some (u, 7) /\ zeroed s u else U' !! k = U !! k.

Lemma before_insert oldsz newsz U n x :
  oldsz <= 4096 * n -> 4096 * n < newsz -> before oldsz newsz (<[n := x]> U) = before oldsz newsz U.
Proof using.
  intros H1 H2. apply map_eq. intros k. unfold before. rewrite !lookup_cut. destruct (decide (k = n)) as [->|].
  - by rewrite bool_decide_eq_true_2 by zlia.
  - by rewrite lookup_insert_ne.
Qed.

Lemma alloc_loop fuel : forall s F A l n oldsz newsz,
  vm_user s F A l -> 0 <= oldsz -> oldsz <= 4096 * n -> newsz <= KERNBASE -> cons_ok (k_cons s) ->
  let N := (newsz + 4095) / 4096 in
  (forall k, n <= k < N -> a_ups A !! k = None) -> (Z.to_nat (N - n) <= fuel)%nat ->
  (exists s' A' l', allocuvm_loop (t_dir (a_tab A)) (4096 * n) oldsz newsz fuel s = Ok 0 s' /\
     ustep (upages (before oldsz newsz (a_ups A))) F s A l s' A' l' /\ a_ups A' = before oldsz newsz (a_ups A) /\
     (length l + length (tpages (a_tab A)) <= 1026 + Z.to_nat (N - n))%nat) \/
  (exists s' A' l', allocuvm_loop (t_dir (a_tab A)) (4096 * n) oldsz newsz fuel s = Ok newsz s' /\
     ustep (upages (a_ups A)) F s A l s' A' l' /\ grown s' n N (a_ups A) (a_ups A')).
Proof using.
  assert (Hdone : forall s F A l n oldsz newsz fu, vm_user s F A l -> newsz <= 4096 * n ->
    exists s' A' l', allocuvm_loop (t_dir (a_tab A)) (4096 * n) oldsz newsz fu s = Ok newsz s' /\
      ustep (upages (a_ups A)) F s A l s' A' l' /\ grown s' n ((newsz + 4095) / 4096) (a_ups A) (a_ups A')).
  { intros s F A l n oldsz newsz fu Hu Hge. exists s, A, l. split_and!; [|by apply ustep_refl|].
    - destruct fu; cbn [allocuvm_loop]; by rewrite (proj2 (Z.ltb_ge _ _)).
    - intros k. rewrite bool_decide_eq_false_2 by zlia. done. }
  induction fuel as [|fuel IH]; intros s F A l n oldsz newsz Hu Ho Hon Hk Hc N Hz Hf.
  { right. apply Hdone; [done|]. unfold N in *. zlia. }
  destruct (Z.lt_ge_cases (4096 * n) newsz) as [Hlt|Hge]; [|right; by apply Hdone].
  destruct (alloc_iter s F A l n oldsz newsz fuel Hu Ho Hon Hlt Hk) as
    [(s' & A' & l' & E & Hs & HU & Hle)|(s1 & A1 & l1 & u & E & Hs & HU & Hzero)]; [apply Hz; unfold N; zlia|done|left; exists s', A', l'; split_and!; done || lia|].
  assert (Hsub : upages (a_ups A) ⊆ upages (a_ups A1)).
  { rewrite HU. apply upages_sub, insert_subseteq. apply Hz. unfold N. zlia. }
  destruct (IH s1 F A1 l1 (n + 1) oldsz newsz (us_user _ _ _ _ _ _ _ _ Hs) Ho ltac:(lia) Hk) as
    [(s' & A' & l' & E' & Hs' & HU' & Hle)|(s' & A' & l' & E' & Hs' & HU')].
  - apply (us_mem _ _ _ _ _ _ _ _ Hs). done.
  - intros k Hk'. rewrite HU, lookup_insert_ne by lia. apply Hz. unfold N in *. lia.
  - unfold N in *. lia.
  - left. rewrite HU, before_insert in Hs', HU' by done. exists s', A', l'. split_and!; [by rewrite E| |done|].
    + eapply ustep_trans; [|done]. destruct Hs as [B1 B2 B3 B4 B5 B6 B7]. split; try done.
      eapply keeps_app; [|exact B2]. apply upages_cut.
    + pose proof (Permutation_length (us_pages _ _ _ _ _ _ _ _ Hs)) as Hp. unfold apages in Hp. rewrite HU, upages_insert in Hp by (apply Hz; unfold N; zlia).
      rewrite !length_app in Hp. cbn [length] in Hp. fold N in Hle. assert (n < N) by (unfold N; zlia). lia.
  - right. exists s', A', l'. split_and!; [by rewrite E| |].
    + eapply ustep_trans; [done|]. destruct Hs' as [B1 B2 B3 B4 B5 B6 B7]. split; try done.
      by apply (keeps_app _ _ (upages (a_ups A1))).
    + intros k. specialize (HU' k). fold N in HU'. case_bool_decide as D1; case_bool_decide as D2; try lia; [done| |].
      * rewrite HU' . assert (k = n) as -> by lia. rewrite HU, lookup_insert_eq. exists u. split; [done|].
        intros x Hx. rewrite (us_keeps _ _ _ _ _ _ _ _ Hs' u x); [by apply Hzero| |done].
        apply elem_of_app. right. apply elem_upages. exists n, 7. by rewrite HU, lookup_insert_eq.
      * rewrite HU', HU, lookup_insert_ne; [done|]. intros <-. apply D2. unfold N. zlia.
Qed.

Lemma allocuvm_spec s F A l oldsz newsz :
  vm_user s F A l -> 0 <= oldsz <= newsz -> newsz < KERNBASE -> cons_ok (k_cons s) ->
  let n := (oldsz + 4095) / 4096 in
  let N := (newsz + 4095) / 4096 in
  (forall k, n <= k < N -> a_ups A !! k = None) ->
  exists r s' A' l', allocuvm (t_dir (a_tab A)) oldsz newsz s = Ok r s' /\
    ustep (upages (a_ups A)) F s A l s' A' l' /\
    (r = 0 /\ a_ups A' = a_ups A /\ (length l + length (tpages (a_tab A)) <= 1026 + Z.to_nat (N - n))%nat \/ r = newsz /\ grown s' n N (a_ups A) (a_ups A')).
Proof using.
  intros Hu Ho Hk Hc n N Hz. unfold allocuvm. unfold KERNBASE in *.
  rewrite (proj2 (Z.leb_gt _ _)), (proj2 (Z.ltb_ge _ _)) by lia. rewrite PGROUNDUP_div by lia. fold n.
  replace (n * 4096) with (4096 * n) by lia.
  assert (Eb : before oldsz newsz (a_ups A) = a_ups A).
  { unfold before. fold n N. rewrite (cut_skip n N N); [apply cut_done; lia|unfold n, N; zlia|]. intros; apply Hz; lia. }
  destruct (alloc_loop (Z.to_nat (newsz / PGSIZE + 1)) s F A l n oldsz newsz Hu) as
    [(s' & A' & l' & E & Hs & HU & Hle)|(s' & A' & l' & E & Hs & HU)]; try done; [lia|unfold n; zlia|unfold KERNBASE; lia|unfold n, PGSIZE; zlia|..].
  - rewrite Eb in *. exists 0, s', A', l'. split_and!; [done|done|by left].
  - exists newsz, s', A', l'. split_and!; [done|done|by right].
Qed.

(** ** freevm *)

Lemma kfree_page s R l u :
  freelist s l -> NoDup (u :: R ++ l) -> Forall page_ok (u :: R) ->
  exists s', kfree u s = Ok tt s' /\ freelist s' (u :: l) /\ keeps R s s' /\ mem_only s s'.
Proof using.
  intros Hf Hnd Hp. apply NoDup_cons in Hnd as [Hu _]. apply Forall_cons in Hp as [Hpu HR]. rewrite Forall_forall in HR.
  destruct (kfree_ok s u l Hf Hpu ltac:(set_solver) (freelist_head _ _ Hf)) as (s' & E & Hf' & Hm).
  exists s'. split_and!; [done|done| |by rewrite kfree_run in E by done; injection E as <-; destruct s].
  intros a x Ha Hx. apply Hm. apply (page_disjoint a u); auto. set_solver.
Qed.

(** The directory [d] with the page tables [P] that are still to be freed,
    which are at the entries from [i] on. *)
Record dir_left s F (d i : Z) (P : gmap Z Z) l : Prop := mkDirLeft {
  dl_free : freelist s l;
  dl_nodup : NoDup (F ++ d :: vals P ++ l);
  dl_page : Forall page_ok (F ++ d :: vals P ++ l);
  dl_dir : forall j, i <= j < 1024 -> load32 (k_mem s) (d + 4 * j) = pde (P !! j);
  dl_done : forall j t, P !! j = Some t -> i <= j < 1024 }.

Lemma free_table s F d i P l t :
  dir_left s F d i P l -> 0 <= i -> P !! i = Some t ->
  exists s', kfree t s = Ok tt s' /\ dir_left s' F d (i + 1) (delete i P) (t :: l) /\ keeps F s s' /\ mem_only s s'.
Proof using.
  intros [H1 H2 H3 H4 H5] Hi Ht. pose proof (vals_delete _ _ _ Ht) as Ev.
  assert (Hperm : (F ++ d :: vals P ++ l) ≡ₚ (t :: (F ++ d :: vals (delete i P)) ++ l)) by (rewrite <- Ev; solve_Permutation).
  destruct (kfree_page s (F ++ d :: vals (delete i P)) l t H1) as (s' & E & Hf & Hk & Hm).
  { by rewrite <- Hperm. }
  { rewrite Hperm in H3. apply Forall_cons in H3 as [? H3]. apply Forall_app in H3 as [? _]. by constructor. }
  exists s'. split_and!; [done| |by eapply keeps_sub; [|exact Hk]; set_solver|done].
  assert (Hperm' : (F ++ d :: vals (delete i P) ++ t :: l) ≡ₚ (F ++ d :: vals P ++ l)) by (rewrite <- Ev; solve_Permutation).
  split; [done|by rewrite Hperm'|by rewrite Hperm'|..].
  - intros j Hj. rewrite lookup_delete_ne by lia. rewrite <- H4 by lia. apply load_entry_eq; [lia|].
    intros x Hx. apply (Hk d x); [set_solver|done].
  - intros j v Hj. apply lookup_delete_Some in Hj as [? Hj]. specialize (H5 j v Hj). lia.
Qed.

Lemma freevm_tables_spec n : forall s F d i P l,
  dir_left s F d i P l -> 0 <= i -> i + Z.of_nat n = 1024 ->
  exists s' l', freevm_tables d i n s = Ok tt s' /\ freelist s' l' /\ l' ≡ₚ vals P ++ l /\
    keeps F s s' /\ mem_only s s'.
Proof using.
  induction n as [|n IH]; intros s F d i P l Hd Hi Hn; cbn [freevm_tables].
  - exists s, l. split_and!; [done|apply (dl_free _ _ _ _ _ _ Hd)| |done|done].
    assert (P = ∅) as ->; [|done]. apply map_empty. intros j. destruct (P !! j) as [t|] eqn:E; [|done].
    apply (dl_done _ _ _ _ _ _ Hd) in E. lia.
  - pose proof (dl_dir _ _ _ _ _ _ Hd i ltac:(lia)) as He.
    rewrite (bind_ok _ _ s (pde (P !! i)) s) by (unfold ld32, gets; by rewrite He).
    destruct (P !! i) as [t|] eqn:Et.
    + assert (Hpt : page_ok t).
      { pose proof (dl_page _ _ _ _ _ _ Hd) as HF. rewrite Forall_forall in HF. apply HF.
        pose proof (elem_vals _ _ _ Et). set_solver. }
      destruct (pde_present t Hpt) as [-> ->].
      destruct (free_table _ _ _ _ _ _ _ Hd Hi Et) as (s1 & E1 & Hd1 & Hk1 & Hm1).
      destruct (IH s1 F d (i + 1) _ _ Hd1 ltac:(lia) ltac:(lia)) as (s' & l' & E' & Hf' & Hp & Hk & Hm).
      exists s', l'. split_and!; [by rewrite (bind_ok _ _ _ _ _ E1)|done| |by transitivity s1|by transitivity s1].
      rewrite Hp, <- (vals_delete _ _ _ Et). solve_Permutation.
    + cbn [pde]. rewrite present_0. destruct (IH s F d (i + 1) P l) as (s' & l' & E' & R); [|lia|lia|].
      { destruct Hd as [D1 D2 D3 D4 D5]. split; try done; [intros; apply D4; lia|]. intros j t Hj.
        destruct (decide (j = i)) as [->|]; [congruence|]. specialize (D5 j t Hj). lia. }
      exists s', l'. split; [|done]. by rewrite (bind_ok _ _ s tt s).
Qed.

(** freevm frees every page of the address space. *)
Lemma freevm_spec s F A l :
  vm_user s F A l ->
  exists s' l', freevm (t_dir (a_tab A)) s = Ok tt s' /\ freelist s' l' /\ l' ≡ₚ apages A ++ l /\
    keeps F s s' /\ mem_cons s s'.
Proof using.
  intros Hu. unfold freevm, panic_if.
  assert (Hd : page_ok (t_dir (a_tab A))) by (apply (vt_page_in _ _ _ _ _ (vu_tab _ _ _ _ Hu)); set_solver).
  rewrite (proj2 (Z.eqb_neq _ _)) by (by apply page_ok_nz). rewrite (bind_ok _ _ s tt s) by done.
  destruct (deallocuvm_spec s F A l KERNBASE 0 Hu) as (s1 & A1 & l1 & E1 & Hs1 & HU & _); [by unfold KERNBASE|done|].
  rewrite (bind_ok _ _ _ _ _ E1). destruct Hs1 as [[V1 O1] B2 B3 B4 B5 B6 B7]. rewrite HU in V1.
  assert (Eu : a_ups A1 = ∅).
  { rewrite HU. apply map_empty. intros k. rewrite lookup_cut. case_bool_decide as D; [done|].
    destruct (a_ups A !! k) as [[u f]|] eqn:E; [|done]. apply (ao_dom _ (vu_ok _ _ _ _ Hu)) in E as [E _].
    unfold UPN, KERNBASE in *. destruct D. change ((2147483648 + 4095) / 4096) with 524288. zlia. }
  rewrite <- HU, Eu in V1. change (upages ∅) with (@nil Z) in V1. rewrite app_nil_r in V1.
  rewrite <- B4. destruct (freevm_tables_spec 1024 s1 F (t_dir (a_tab A1)) 0 (t_pts (a_tab A1)) l1) as
    (s2 & l2 & E2 & Hf2 & Hp2 & Hk2 & Hm2); [|lia|lia|].
  { destruct V1 as [V1 [T1 T2 T3] V3 V4]. by split. }
  rewrite (bind_ok _ _ _ _ _ E2). pose proof (vt_nodup _ _ _ _ V1) as Hnd. pose proof (vt_page _ _ _ _ V1) as Hpg.
  assert (Hperm : (t_dir (a_tab A1) :: F ++ l2) ≡ₚ (F ++ tpages (a_tab A1) ++ l1)).
  { rewrite Hp2. unfold tpages. solve_Permutation. }
  destruct (kfree_page s2 F l2 (t_dir (a_tab A1)) Hf2) as (s3 & E3 & Hf3 & Hk3 & Hm3).
  { by rewrite Hperm. }
  { rewrite <- Hperm in Hpg. apply Forall_cons in Hpg as [? Hpg]. apply Forall_app in Hpg as [? _]. by constructor. }
  exists s3, (t_dir (a_tab A1) :: l2). split_and!; [done|done| | |].
  - rewrite <- B5, Hp2. unfold apages, tpages. rewrite Eu. done.
  - transitivity s1; [by eapply keeps_l|]. by transitivity s2.
  - transitivity s1; [done|]. apply mem_only_cons. by transitivity s2.
Qed.
End vmuser.
