(* ===== verification/VmCopy.v ===== *)
(** * The kernel's mappings and the copy of an address space (vm.c)

    setupkvm makes a page directory with the mappings of [kmap] and no user
    pages; copyuvm makes one with a copy of every user page.  When memory runs
    out both give back all they took. *)

From S2P Require Import Prelude State CString Kalloc PageMath KallocSpec Console ConsoleOut Vm VmSpec VmUser.
Open Scope Z_scope.

(** Where the linker put the kernel's data: kernel.ld aligns it to a page, and
    the kernel is smaller than the memory it manages. *)
Class LinkedAt `{Linker} : Prop := {
  kdata_aligned : kdata mod 4096 = 0;
  kdata_range : KERNLINK < kdata < KERNBASE + PHYSTOP }.

Section kvm.
Context `{Linker}.
Implicit Types (s : kernel) (A : aspace) (F l : list Z) (m : mem).

(** ** setupkvm *)

(** Mappings in ascending order of their addresses, from [lo] on. *)
Fixpoint ks_ok (lo : Z) (ks : list (Z * Z * Z * Z)) : Prop :=
  match ks with
  | [] => True
  | (virt, pstart, pend, perm) :: ks' =>
    let size := u32 (pend - pstart) in
    lo <= virt /\ virt mod 4096 = 0 /\ 0 < size /\ size mod 4096 = 0 /\ virt + size <= 4294967296 /\
    0 <= pstart /\ pstart mod 4096 = 0 /\ pstart + size <= 4294967296 /\ 0 <= perm < 4096 /\
    ks_ok (virt + size) ks'
  end.

Fixpoint ks_map (f : Z -> Z) (ks : list (Z * Z * Z * Z)) : Z -> Z :=
  match ks with
  | [] => f
  | (virt, pstart, pend, perm) :: ks' =>
    ks_map (map_range f (virt / 4096) (u32 (pend - pstart) / 4096) pstart (Z.lor perm 1)) ks'
  end.

Lemma kmap_ok `{!LinkedAt} : ks_ok KERNBASE kmap.
Proof using.
  pose proof kdata_aligned as Ha. pose proof kdata_range as Hr. unfold kmap, ks_ok, PTE_W.
  assert (E1 : V2P KERNLINK = 1048576) by done. assert (E2 : V2P kdata = kdata - KERNBASE).
  { apply V2P_small. unfold KERNLINK, KERNBASE, EXTMEM, PHYSTOP in *. lia. }
  rewrite E1, E2. unfold KERNLINK, KERNBASE, EXTMEM, PHYSTOP, DEVSPACE in *.
  rewrite (u32_small (1048576 - 0)), (u32_small (kdata - 2147483648 - 1048576)),
    (u32_small (234881024 - _)) by lia.
  change (u32 (0 - 4261412864)) with 33554432. split_and!; try lia; zlia.
Qed.

Lemma ks_map_ext ks : forall f g, (forall j, f j = g j) -> forall j, ks_map f ks j = ks_map g ks j.
Proof using.
  induction ks as [|[[[virt ps] pe] perm] ks IH]; intros f g E j; cbn; [done|]. apply IH. intros i.
  unfold map_range. by rewrite E.
Qed.

(** Below [lo] the mappings change nothing. *)
Lemma ks_map_below ks : forall f lo j, ks_ok lo ks -> 4096 * j < lo -> ks_map f ks j = f j.
Proof using.
  induction ks as [|[[[virt ps] pe] perm] ks IH]; intros f lo j Hk Hj; cbn; [done|].
  cbn in Hk. destruct Hk as (K1 & K2 & K3 & K4 & _ & _ & _ & _ & _ & K5). rewrite (IH _ _ _ K5) by lia.
  unfold map_range. destruct (Z.leb_spec (virt / 4096) j); [|done]. zlia.
Qed.

(** Sizes that are whole pages. *)
Lemma page_count virt size : virt mod 4096 = 0 -> 0 < size -> size mod 4096 = 0 ->
  (virt + size - 1) / 4096 - virt / 4096 + 1 = size / 4096.
Proof using. intros. zlia. Qed.

(** All that was taken is free again. *)
Definition given_back F s l s' : Prop :=
  exists l', freelist s' l' /\ l' ≡ₚ l /\ keeps F s s' /\ mem_cons s s'.

(** The page tables of the kernel's half of the directory. *)
Definition kernel_tables T : Prop := forall d t, t_pts T !! d = Some t -> 512 <= d < 1024.
Lemma kernel_tables_pages T : kernel_tables T -> (length (tpages T) <= 513)%nat.
Proof using.
  intros HT. unfold tpages, vals. cbn [length]. rewrite length_fmap, length_map_to_list, <- size_dom.
  assert (Hsub : dom (t_pts T) ⊆ list_to_set (seqZ 512 512)).
  { intros d Hd. apply elem_of_dom in Hd as [t Ht]. apply elem_of_list_to_set, elem_of_seqZ. specialize (HT d t Ht). lia. }
  apply subseteq_size in Hsub. rewrite size_list_to_set in Hsub by apply NoDup_seqZ. rewrite length_seqZ in Hsub. change (Z.to_nat 512) with 512%nat in Hsub. apply le_n_S, Hsub.
Qed.

Lemma setupkvm_loop_spec ks : forall s F A l lo,
  vm_user s F A l -> a_ups A = ∅ -> kernel_tables (a_tab A) -> KERNBASE <= lo -> ks_ok lo ks ->
  (forall j, lo <= 4096 * j -> j < VPN -> t_map (a_tab A) j = 0) ->
  exists r s', setupkvm_loop (t_dir (a_tab A)) ks s = Ok r s' /\
    (r = 0 /\ given_back F s (apages A ++ l) s' /\ (length (apages A ++ l) <= 513)%nat \/
     exists T' l', r = t_dir (a_tab A) /\ vm_user s' F (mkAspace T' ∅) l' /\ t_dir T' = t_dir (a_tab A) /\
       (tpages T' ++ l') ≡ₚ (apages A ++ l) /\ keeps F s s' /\ mem_cons s s' /\ only (apages A ++ l) (k_mem s) (k_mem s') /\ kernel_tables T' /\
       forall j, t_map T' j = ks_map (t_map (a_tab A)) ks j).
Proof using.
  induction ks as [|[[[virt ps] pe] perm] ks IH]; intros s F A l lo Hu He Hkt Hlo Hks Hz; cbn [setupkvm_loop].
  - exists (t_dir (a_tab A)), s. split; [done|]. right. exists (a_tab A), l. destruct A as [T U]. cbn in *. subst U.
    by split_and!.
  - cbn in Hks. destruct Hks as (K1 & K2 & K3 & K4 & K5 & K6 & K7 & K8 & K9 & K10). set (size := u32 (pe - ps)) in *.
    pose proof (page_count virt size K2 K3 K4) as Hpc. unfold KERNBASE in Hlo.
    destruct (mappages_spec s _ (a_tab A) l virt size ps perm (vu_tab _ _ _ _ Hu)) as
      (r & s1 & T1 & l1 & k1 & E1 & Hs1 & Hnt1 & Hm1 & D); rewrite ?Hpc in *; try done; try lia.
    { intros j Hj. apply Hz; unfold VPN; zlia. }
    { zlia. }
    rewrite (bind_ok _ _ _ _ _ E1). pose proof (vs_pages _ _ _ _ _ _ _ Hs1) as Hp1.
    pose proof (vs_keeps _ _ _ _ _ _ _ Hs1) as Hk1. apply keeps_l in Hk1.
    pose proof (mem_only_cons _ _ (vs_mem _ _ _ _ _ _ _ Hs1)) as M1.
    assert (Hu1 : vm_user s1 F (mkAspace T1 ∅) l1).
    { rewrite <- He. split; [apply (vs_tab _ _ _ _ _ _ _ Hs1)|]. apply (as_ok_tab_user A); [apply (vu_ok _ _ _ _ Hu)|].
      intros j Hj. rewrite Hm1. unfold map_range, UPN in *. destruct (Z.leb_spec (virt / 4096) j); [zlia|done]. }
    assert (Epg : apages A = tpages (a_tab A)) by (unfold apages; by rewrite He).
    assert (Hkt1 : kernel_tables T1).
    { intros d t Ed. destruct (Hnt1 d t Ed) as [[t' Et']|Hd]; [by apply (Hkt d t')|]. split; [zlia|]. apply (to_dom _ _ (vt_tab _ _ _ _ (vs_tab _ _ _ _ _ _ _ Hs1)) d t Ed). }
    destruct D as [[-> ->]|(-> & -> & Hk)]; cbn [Z.ltb Z.compare].
    + destruct (IH s1 F (mkAspace T1 ∅) l1 (virt + size) Hu1) as (r & s' & E' & D); [done|done|unfold KERNBASE; lia|done| |].
      { cbn. intros j Hj Hj'. rewrite Hm1. unfold map_range. destruct (Z.ltb_spec j (virt / 4096 + size / 4096)); [zlia|].
        rewrite andb_false_r. apply Hz; [lia|done]. }
      cbn [a_tab] in *. rewrite (vs_dir _ _ _ _ _ _ _ Hs1) in *. exists r, s'. split; [done|].
      destruct D as [(-> & (l' & Hf & Hp & Hk & Hmc) & Hle)|(T' & l' & -> & Hu' & Hd & Hp & Hk & Hmc & Ho & Hkt' & Hm)].
      * left. split; [done|]. split; [|rewrite Epg, <- Hp1; exact Hle]. exists l'. split_and!; [done| |by transitivity s1|by transitivity s1].
        rewrite Hp, Epg. exact Hp1.
      * right. exists T', l'. split_and!; try done; [|by transitivity s1|by transitivity s1| |].
        { rewrite Hp, Epg. exact Hp1. }
        { intros x Hx. rewrite Ho by (intros a Ha; apply Hx; rewrite Epg, <- Hp1; exact Ha).
          apply (vs_only _ _ _ _ _ _ _ Hs1). intros a Ha. apply Hx. by rewrite Epg. }
        intros j. cbn [ks_map]. rewrite Hm. apply ks_map_ext. exact Hm1.
    + rewrite <- (vs_dir _ _ _ _ _ _ _ Hs1). destruct (freevm_spec s1 F (mkAspace T1 ∅) [] Hu1) as (s' & l' & E' & Hf & Hp & Hk' & Hmc).
      exists 0, s'. split; [by rewrite (bind_ok _ _ _ _ _ E')|]. left. split; [done|].
      split; [|rewrite Epg, <- Hp1, app_nil_r; by apply kernel_tables_pages]. exists l'.
      split_and!; [done| |by transitivity s1|by transitivity s1]. rewrite Hp, Epg. exact Hp1.
Qed.

(** The map of a kernel without user pages. *)
Definition kernel_map : Z -> Z := ks_map (fun _ => 0) kmap.

Lemma zero_dir s F d l :
  freelist s l -> NoDup (F ++ d :: l) -> Forall page_ok (F ++ d :: l) -> zeroed s d ->
  vm_user s F (mkAspace (mkTables d ∅ (fun _ => 0)) ∅) l.
Proof using.
  intros Hf Hn Hp Hz. split.
  - change (upages (a_ups _)) with (@nil Z). rewrite app_nil_r. split; [done| |done|done]. split; cbn.
    + intros d' t. by rewrite lookup_empty.
    + intros i Hi. rewrite lookup_empty. rewrite (load32_eq_on _ (fun _ => 0)); [done|]. intros x Hx. apply Hz.
      by eapply entry_in_page.
    + intros n Hn'. by rewrite lookup_empty.
  - split; cbn; [|by intros; rewrite lookup_empty]. intros n u f. by rewrite lookup_empty.
Qed.

Lemma setupkvm_spec `{!LinkedAt} s F l :
  freelist s l -> NoDup (F ++ l) -> Forall page_ok (F ++ l) ->
  exists r s', setupkvm s = Ok r s' /\
    (r = 0 /\ given_back F s l s' /\ (length l <= 513)%nat \/
     exists T l', r = t_dir T /\ vm_user s' F (mkAspace T ∅) l' /\ (tpages T ++ l') ≡ₚ l /\ keeps F s s' /\
       mem_cons s s' /\ only l (k_mem s) (k_mem s') /\ kernel_tables T /\ forall j, t_map T j = kernel_map j).
Proof using.
  intros Hf Hn Hp. unfold setupkvm. destruct l as [|d l].
  { exists 0, s. rewrite (bind_ok _ _ _ _ _ (kalloc_none s Hf)). split; [done|]. left. split; [done|]. split; [by exists []|cbn; lia]. }
  destruct (kalloc_some s d l Hf) as (s1 & E1 & Hf1 & Hm1 & Hd & Es1). rewrite (bind_ok _ _ _ _ _ E1).
  rewrite (proj2 (Z.eqb_neq d 0)) by (by apply page_ok_nz).
  set (s2 := set_k_mem (memset (k_mem s1) d 0 PGSIZE) s1). rewrite (bind_ok _ _ _ tt s2) by done.
  change (panic_if (DEVSPACE <? P2V PHYSTOP) "PHYSTOP too high") with (@mret (M kernel) _ unit tt).
  rewrite (bind_ok _ _ _ tt s2) by done.
  rewrite Forall_forall in Hp. assert (Hout : forall a x, a ∈ F ++ l -> in_page a x -> k_mem s2 x = k_mem s x).
  { intros a x Ha Hx. cbn. rewrite memset_outside, Hm1; [done|]. apply (page_disjoint a d); [apply Hp; set_solver|done| |done].
    rewrite <- Permutation_middle in Hn. apply NoDup_cons in Hn as [Hn _]. set_solver. }
  assert (Hu : vm_user s2 F (mkAspace (mkTables d ∅ (fun _ => 0)) ∅) l).
  { apply zero_dir; [|done|by apply Forall_forall|].
    - apply (freelist_ext s1); [|done|done]. intros a x Ha Hx. rewrite Hm1. apply (Hout a x); [set_solver|done].
    - intros x Hx. cbn. rewrite memset_spec by (unfold PGSIZE; lia). unfold in_page in Hx. zcases. }
  destruct (setupkvm_loop_spec kmap s2 F _ l KERNBASE Hu) as (r & s' & E & D); [done|by intros d' t' Ed|lia|apply kmap_ok|done|].
  cbn [a_tab t_dir] in *. exists r, s'. split; [done|].
  assert (Hk : keeps F s s2) by (intros a x Ha; apply Hout; set_solver).
  assert (Hmc : mem_cons s s2) by (apply mem_only_cons; unfold s2, mem_only; rewrite Es1; by destruct s).
  destruct D as [(-> & (l' & Hf' & Hp' & Hk' & Hmc') & Hle)|(T' & l' & -> & Hu' & Hd' & Hp' & Hk' & Hmc' & Ho & Hkt & Hm)].
  - left. split; [done|]. split; [|exact Hle]. exists l'. split_and!; [done|exact Hp'|by transitivity s2|by transitivity s2].
  - right. exists T', l'. split_and!; try done; [by transitivity s2|by transitivity s2|].
    intros x Hx. rewrite Ho by (intros a Ha; apply Hx; exact Ha). cbn. rewrite memset_outside, Hm1; [done|]. apply Hx. set_solver.
Qed.

(** ** copyuvm *)

Definition same_page s u v : Prop := forall o, 0 <= o < PGSIZE -> k_mem s (v + o) = k_mem s (u + o).

(** [V] has a copy of each of the pages of [U] below [n], with its flags. *)
Definition copied s (n : Z) (U V : gmap Z (Z * Z)) : Prop :=
  forall k, match V !! k with
            | Some (v, f) => 0 <= k < n /\ exists u, U !! k = Some (u, f) /\ same_page s u v
            | None => ~ 0 <= k < n
            end.

(** The source address space, while the copy [D] is being made. *)
Lemma source_tab s F A D l :
  vm_user s (F ++ apages A) D l -> tab_ok (k_mem s) (a_tab A) ->
  vm_tab s (F ++ upages (a_ups A) ++ apages D) (a_tab A) l.
Proof using.
  intros [[H1 H2 H3 H4] _] Ht.
  assert (Hperm : ((F ++ upages (a_ups A) ++ apages D) ++ tpages (a_tab A) ++ l) ≡ₚ
    ((((F ++ apages A) ++ upages (a_ups D)) ++ tpages (a_tab D) ++ l))) by (unfold apages; solve_Permutation).
  split; [done|done|by rewrite Hperm|by rewrite Hperm].
Qed.

Lemma source_kept s s' F A :
  tab_ok (k_mem s) (a_tab A) -> keeps (F ++ apages A) s s' -> tab_ok (k_mem s') (a_tab A).
Proof using.
  intros Ht Hk. apply (tab_ok_ext (k_mem s)); [|done]. intros a x Ha. apply Hk.
  apply elem_of_app. right. apply elem_of_app. by right.
Qed.

Lemma lor_1_id f : 0 <= f -> f mod 2 = 1 -> Z.lor f 1 = f.
Proof using.
  intros Hf Ho. apply Z.bits_inj'. intros i Hi. rewrite Z.lor_spec. destruct (Z.eq_dec i 0) as [->|].
  - rewrite !Z.bit0_odd. rewrite Zmod_odd in Ho. by destruct (Z.odd f).
  - assert (Z.testbit 1 i = false) as ->; [|apply orb_false_r]. apply (testbit_above 1 1); lia.
Qed.

(** kalloc and the copy of page [u] into it. *)
Lemma kalloc_copy s F T p l u :
  vm_tab s F T (p :: l) -> u ∈ F ->
  exists s', (forall B (g : Z -> kM B), (q ← kalloc; g q) s = g p (set_k_kmem (k_kmem s') s)) /\
    s' = set_k_mem (memmove (k_mem s) p u PGSIZE) (set_k_kmem (k_kmem s') s) /\
    vm_tab s' (p :: F) T l /\ keeps F s s' /\ same_page s' u p /\ p <> 0.
Proof using.
  intros Hv Hu. destruct (kalloc_tab _ _ _ _ _ Hv) as (s1 & E & Hv1 & Hm & Ho).
  assert (Hout : only [p] (k_mem s1) (memmove (k_mem s1) p u PGSIZE)).
  { intros x Hx. specialize (Hx p ltac:(set_solver)). unfold in_page in Hx.
    rewrite memmove_spec by (unfold PGSIZE; lia). zcases. }
  pose proof (vm_tab_write s1 (p :: F) T l p (fun m => memmove m p u PGSIZE) Hv1 ltac:(set_solver) Hout) as Hv2.
  assert (Es1 : s1 = set_k_kmem (k_kmem s1) s).
  { unfold mem_only in Ho. rewrite Hm in Ho. rewrite Ho at 1. by destruct s. }
  assert (Hk : keeps F s (set_k_mem (memmove (k_mem s1) p u PGSIZE) s1)).
  { intros a x Ha Hx. cbn. rewrite <- Hm. apply Hout. intros b ->%list_elem_of_singleton.
    pose proof (vt_nodup _ _ _ _ Hv1) as Hnd. cbn in Hnd. apply NoDup_cons in Hnd as [Hnd _].
    apply (page_disjoint a p); [apply (vt_page_in _ _ _ _ _ Hv1); set_solver|
      apply (vt_page_in _ _ _ _ _ Hv1); set_solver|set_solver|done]. }
  exists (set_k_mem (memmove (k_mem s1) p u PGSIZE) s1). split_and!.
  - intros B g. rewrite (bind_ok _ _ _ _ _ E). by rewrite Es1 at 1.
  - rewrite Hm. by rewrite Es1 at 1.
  - exact Hv2.
  - exact Hk.
  - intros o Ho'. rewrite (Hk u (u + o) Hu) by (unfold in_page; lia). cbn. rewrite Hm.
    rewrite memmove_spec by (unfold PGSIZE; lia). zcases. f_equal. lia.
  - apply page_ok_nz. apply (vt_page_in _ _ _ _ _ Hv1). set_solver.
Qed.

Lemma copied_keeps s s' n U V F :
  copied s n U V -> keeps F s s' -> upages U ⊆ F -> upages V ⊆ F -> copied s' n U V.
Proof using.
  intros Hc Hk HU HV k. specialize (Hc k). destruct (V !! k) as [[v f]|] eqn:EV; [|done].
  destruct Hc as (Hn & u & EU & Hs). split; [done|]. exists u. split; [done|]. intros o Ho.
  pose proof (upage_in _ _ _ _ EU). pose proof (upage_in _ _ _ _ EV).
  rewrite (Hk v), (Hk u); [by apply Hs|..]; auto; unfold in_page; lia.
Qed.

Lemma copied_pages s n U V : copied s n U V -> (length (upages V) <= Z.to_nat n)%nat.
Proof using.
  intros Hc. unfold upages, vals. rewrite !length_fmap, length_map_to_list, <- size_dom.
  assert (Hsub : dom V ⊆ list_to_set (seqZ 0 n)).
  { intros k Hk. apply elem_of_dom in Hk as [x Hx]. apply elem_of_list_to_set, elem_of_seqZ. specialize (Hc k). rewrite Hx in Hc. destruct x. lia. }
  apply subseteq_size in Hsub. rewrite size_list_to_set in Hsub by apply NoDup_seqZ. by rewrite length_seqZ in Hsub.
Qed.

Lemma copied_insert s n U V u v f :
  copied s n U V -> 0 <= n -> V !! n = None -> U !! n = Some (u, f) -> same_page s u v ->
  copied s (n + 1) U (<[n := (v, f)]> V).
Proof using.
  intros Hc Hn HV HU Hs k. specialize (Hc k). destruct (decide (k = n)) as [->|Hne].
  - rewrite lookup_insert_eq. split; [lia|]. by exists u.
  - rewrite lookup_insert_ne by done. destruct (V !! k) as [[v' f']|]; [|lia].
    destruct Hc as [? Hc]. split; [lia|done].
Qed.

(** What the copy keeps while it grows. *)
Record cstep F s D l s' D' l' : Prop := mkCstep {
  cs_user : vm_user s' F D' l';
  cs_keeps : keeps F s s';
  cs_mem : mem_cons s s';
  cs_dir : t_dir (a_tab D') = t_dir (a_tab D);
  cs_pages : (apages D' ++ l') ≡ₚ (apages D ++ l);
  cs_kern : forall k, UPN <= k -> t_map (a_tab D') k = t_map (a_tab D) k }.

Lemma cstep_trans F s1 D1 l1 s2 D2 l2 s3 D3 l3 :
  cstep F s1 D1 l1 s2 D2 l2 -> cstep F s2 D2 l2 s3 D3 l3 -> cstep F s1 D1 l1 s3 D3 l3.
Proof using.
  intros [A1 A2 A3 A4 A5 A6] [B1 B2 B3 B4 B5 B6]. split; [done|by transitivity s2|by transitivity s2|congruence|by rewrite B5|].
  intros k Hk. rewrite B6, A6; done.
Qed.

(** Memory ran out with page [p] in hand, or without. *)
Lemma copy_failed s F D l p B (g : kM B) :
  vm_user s (p ++ F) D l -> (length p <= 1)%nat ->
  exists s', ((match p with [] => mret tt | u :: _ => kfree u end);; freevm (t_dir (a_tab D));; g) s = g s' /\
    exists l', freelist s' l' /\ l' ≡ₚ apages D ++ p ++ l /\ keeps F s s' /\ mem_cons s s'.
Proof using.
  intros Hu Hp. destruct p as [|u [|? ?]]; cbn in Hp; try lia.
  - destruct (freevm_spec s F D l Hu) as (s' & l' & E & Hf & Hp' & Hk & Hm). exists s'.
    rewrite (bind_ok _ _ s tt s), (bind_ok _ _ _ _ _ E) by done. split; [done|]. by exists l'.
  - destruct Hu as [Hv Ho]. destruct (kfree_tab s (F ++ upages (a_ups D)) (a_tab D) l u Hv) as (s1 & E1 & Hv1 & Hk1 & Hm1).
    destruct (freevm_spec s1 F D (u :: l)) as (s' & l' & E & Hf & Hp' & Hk & Hm); [by split|]. exists s'.
    rewrite (bind_ok _ _ _ _ _ E1), (bind_ok _ _ _ _ _ E). split; [done|]. exists l'. split_and!; [done|done| |].
    + transitivity s1; [|done]. apply keeps_l in Hk1. by eapply keeps_l.
    + transitivity s1; [by apply mem_only_cons|done].
Qed.

(** The source page found by one iteration. *)
Lemma copy_source s F A D l n u f B (g : Z -> kM B) :
  vm_user s (F ++ apages A) D l -> as_ok A -> tab_ok (k_mem s) (a_tab A) -> a_ups A !! n = Some (u, f) ->
  exists pte, pte <> 0 /\ walkpgdir (t_dir (a_tab A)) (4096 * n) false s = Ok pte s /\
    (e ← ld32 pte; g e) s = g (uentry (Some (u, f))) s /\ page_ok u.
Proof using.
  intros Hu Ha Ht EU. pose proof (source_tab _ _ _ _ _ Hu Ht) as Hv. destruct (ao_dom _ Ha n u f EU) as (Hn & Hf & Ho).
  assert (Hp : page_ok u).
  { apply (vt_page_in _ _ _ _ _ Hv). pose proof (upage_in _ _ _ _ EU). set_solver. }
  pose proof (to_pte _ _ Ht n ltac:(unfold UPN, VPN in *; lia)) as Hpte. rewrite (ao_map _ Ha n Hn), EU in Hpte.
  destruct (t_pts (a_tab A) !! (n / 1024)) as [t|] eqn:Et.
  - exists (t + 4 * (n mod 1024)). unfold UPN in Hn. split_and!; [| | |done].
    + destruct (table_page_ok _ _ _ _ _ _ Hv Et) as (_ & _ & Ht' & _). unfold KERNBASE in Ht'. zlia.
    + rewrite (walk_found s _ _ _ _ _ t Hv) by (try lia; rewrite <- Et; f_equal; zlia).
      by replace (4096 * n / 4096) with n by zlia.
    + apply bind_ok. unfold ld32, gets. by rewrite Hpte.
  - destruct (page_ok_phys u Hp) as (_ & ? & _). cbn in Hpte. zlia.
Qed.

Lemma copy_iter s F A D l n sz fu u f :
  vm_user s (F ++ apages A) D l -> as_ok A -> tab_ok (k_mem s) (a_tab A) -> 0 <= n -> 4096 * n < sz -> sz <= KERNBASE ->
  a_ups A !! n = Some (u, f) -> copied s n (a_ups A) (a_ups D) ->
  (exists s', copyuvm_loop (t_dir (a_tab A)) (t_dir (a_tab D)) (4096 * n) sz (S fu) s = Ok 0 s' /\
     given_back (F ++ apages A) s (apages D ++ l) s' /\ (length (apages D ++ l) <= 1026 + Z.to_nat n)%nat) \/
  (exists s' D' l',
     copyuvm_loop (t_dir (a_tab A)) (t_dir (a_tab D)) (4096 * n) sz (S fu) s =
       copyuvm_loop (t_dir (a_tab A)) (t_dir (a_tab D')) (4096 * (n + 1)) sz fu s' /\
     cstep (F ++ apages A) s D l s' D' l' /\ copied s' (n + 1) (a_ups A) (a_ups D')).
Proof using.
  intros Hu Ha Ht Hn Hsz Hk EU Hc. destruct (ao_dom _ Ha n u f EU) as (Hn' & Hf & Ho).
  assert (HVn : a_ups D !! n = None).
  { specialize (Hc n). destruct (a_ups D !! n) as [[? ?]|]; [lia|done]. }
  pose proof (copied_pages _ _ _ _ Hc) as Hpg.
  cbn [copyuvm_loop]. rewrite (proj2 (Z.ltb_lt _ _) Hsz).
  edestruct (copy_source s F A D l n u f) as (pte & Hnz & Ew & Eld & Hpu); [done..|].
  rewrite (bind_ok _ _ _ _ _ Ew), (proj2 (Z.eqb_neq _ _) Hnz), (bind_ok (panic_if false _) _ s tt s) by done.
  rewrite Eld. clear Eld. destruct (uentry_some u f Hpu Hf Ho) as (-> & -> & -> & _ & Epv & _). rewrite Epv.
  cbn [negb]. rewrite (bind_ok (panic_if false _) _ s tt s) by done. destruct l as [|p l].
  { left. rewrite (bind_ok _ _ _ _ _ (kalloc_none s (vt_free _ _ _ _ (vu_tab _ _ _ _ Hu)))). cbn [Z.eqb].
    destruct (copy_failed s (F ++ apages A) D [] [] Z (mret 0) Hu ltac:(cbn; lia)) as (s' & E & R).
    rewrite (bind_ok _ _ s tt s) in E by done. exists s'. split_and!; [by rewrite E|done|]. pose proof (tables_pages _ _ (vt_tab _ _ _ _ (vu_tab _ _ _ _ Hu))). unfold apages. rewrite !length_app. cbn [length]. lia. }
  assert (HuF : u ∈ (F ++ apages A) ++ upages (a_ups D)).
  { pose proof (upage_in _ _ _ _ EU). unfold apages. set_solver. }
  destruct (kalloc_copy _ _ _ _ _ u (vu_tab _ _ _ _ Hu) HuF) as (s1 & E1 & Es1 & Hv1 & Hk1 & Hsame & Hpz).
  rewrite E1, (proj2 (Z.eqb_neq p 0) Hpz), (bind_ok _ _ _ tt s1) by (by rewrite Es1).
  assert (M1 : mem_cons s s1) by (apply mem_only_cons; unfold mem_only; rewrite Es1; by destruct s).
  destruct (map_user_page s1 (F ++ apages A) D l n p f Hv1 (vu_ok _ _ _ _ Hu) HVn Hn' Hf)
    as (r & s2 & T2 & l2 & E2 & Hs2 & Dc). rewrite (bind_ok _ _ _ _ _ E2).
  pose proof (vs_keeps _ _ _ _ _ _ _ Hs2) as Hk2. pose proof (vs_pages _ _ _ _ _ _ _ Hs2) as Hp2.
  assert (M2 : mem_cons s s2) by (transitivity s1; [done|apply mem_only_cons, (vs_mem _ _ _ _ _ _ _ Hs2)]).
  destruct Dc as [(-> & Hu2 & Hkern)|(-> & -> & Hm)]; cbn [Z.ltb Z.compare].
  - right. rewrite lor_1_id in Hu2 by lia. exists s2, (mapped D T2 n p f), l2.
    assert (Hkk : keeps ((F ++ apages A) ++ upages (a_ups D)) s s2) by (transitivity s1; [done|by eapply keeps_tail]).
    split_and!.
    + unfold PGSIZE, KERNBASE in *. rewrite u32_small by lia. cbn [mapped a_tab].
      rewrite (vs_dir _ _ _ _ _ _ _ Hs2). by replace (4096 * n + 4096) with (4096 * (n + 1)) by lia.
    + split; [done|by eapply keeps_l|done|apply (vs_dir _ _ _ _ _ _ _ Hs2)| |done].
      unfold apages. cbn. rewrite upages_insert by done. rewrite <- app_assoc, Hp2. solve_Permutation.
    + cbn. apply (copied_insert _ _ _ _ u); [|done|done|done|].
      * apply (copied_keeps s _ _ _ _ _ Hc Hkk); unfold apages; set_solver.
      * intros o Ho'. rewrite (Hk2 p), (Hk2 u); [by apply Hsame|set_solver|unfold in_page; lia|set_solver|unfold in_page; lia].
  - left. rewrite <- (vs_dir _ _ _ _ _ _ _ Hs2). set (D2 := mkAspace T2 (a_ups D)).
    assert (Hu2 : vm_user s2 ([p] ++ F ++ apages A) D2 []).
    { split; [apply (vs_tab _ _ _ _ _ _ _ Hs2)|]. by apply as_ok_tab; [apply (vu_ok _ _ _ _ Hu)|]. }
    destruct (copy_failed s2 (F ++ apages A) D2 [] [p] Z (mret 0) Hu2 ltac:(cbn; lia)) as (s' & E & l' & Hf' & Hp' & Hk' & Hm').
    rewrite app_nil_r in Hp2. assert (Hpp : (apages D2 ++ [p] ++ []) ≡ₚ (apages D ++ p :: l)) by (unfold apages; cbn; rewrite Hp2; solve_Permutation).
    exists s'. split; [exact E|]. split.
    + exists l'. split_and!; [done|by rewrite Hp'| |by transitivity s2].
      transitivity s1; [by eapply keeps_l|]. transitivity s2; [|done]. apply keeps_tail in Hk2. by eapply keeps_l.
    + rewrite <- Hpp. pose proof (tables_pages _ _ (vt_tab _ _ _ _ (vu_tab _ _ _ _ Hu2))). unfold apages. rewrite !length_app. cbn [length D2 a_tab a_ups] in *. lia.
Qed.

Lemma copy_loop fuel : forall s F A D l n sz,
  vm_user s (F ++ apages A) D l -> as_ok A -> tab_ok (k_mem s) (a_tab A) -> 0 <= n -> sz <= KERNBASE ->
  let N := (sz + 4095) / 4096 in
  (forall k, n <= k < N -> is_Some (a_ups A !! k)) -> copied s n (a_ups A) (a_ups D) -> n <= N -> (Z.to_nat (N - n) <= fuel)%nat ->
  exists r s', copyuvm_loop (t_dir (a_tab A)) (t_dir (a_tab D)) (4096 * n) sz fuel s = Ok r s' /\
    (r = 0 /\ given_back (F ++ apages A) s (apages D ++ l) s' /\ (length (apages D ++ l) <= 1026 + Z.to_nat N)%nat \/
     exists D' l', r = t_dir (a_tab D) /\ cstep (F ++ apages A) s D l s' D' l' /\ copied s' N (a_ups A) (a_ups D')).
Proof using.
  induction fuel as [|fuel IH]; intros s F A D l n sz Hu Ha Ht Hn Hk N Hall Hc HnN Hf.
  - exists (t_dir (a_tab D)), s. split.
    + cbn [copyuvm_loop]. rewrite (proj2 (Z.ltb_ge _ _)); [done|]. unfold N in *. zlia.
    + right. exists D, l. split_and!; [done|by split|]. by replace N with n by lia.
  - destruct (Z.lt_ge_cases (4096 * n) sz) as [Hlt|Hge].
    + destruct (Hall n) as [[u f] EU]; [unfold N in *; zlia|].
      destruct (copy_iter s F A D l n sz fuel u f Hu Ha Ht Hn Hlt Hk EU Hc) as [(s' & E & Hg & Hle)|(s1 & D1 & l1 & E & Hs & Hc1)].
      { exists 0, s'. split; [done|left]. split_and!; [done|done|lia]. }
      destruct (IH s1 F A D1 l1 (n + 1) sz (cs_user _ _ _ _ _ _ _ Hs) Ha) as (r & s' & E' & R); try done.
      * by apply (source_kept s _ F); [|apply (cs_keeps _ _ _ _ _ _ _ Hs)].
      * lia.
      * intros k Hk'. apply Hall. unfold N. lia.
      * unfold N in *. zlia.
      * unfold N in *. lia.
      * exists r, s'. split; [by rewrite E|]. destruct R as [(-> & (l' & R1 & R2 & R3 & R4) & Hle)|(D' & l' & -> & Hs' & Hc')].
        { left. split; [done|]. split; [|by rewrite <- (cs_pages _ _ _ _ _ _ _ Hs)]. exists l'. split_and!; [done|rewrite R2; apply (cs_pages _ _ _ _ _ _ _ Hs)| |].
          - transitivity s1; [apply (cs_keeps _ _ _ _ _ _ _ Hs)|done].
          - transitivity s1; [apply (cs_mem _ _ _ _ _ _ _ Hs)|done]. }
        right. exists D', l'. split_and!; [apply (cs_dir _ _ _ _ _ _ _ Hs)|by eapply cstep_trans|done].
    + exists (t_dir (a_tab D)), s. split; [cbn [copyuvm_loop]; by rewrite (proj2 (Z.ltb_ge _ _))|].
      right. exists D, l. split_and!; [done|by split|]. replace N with n; [done|]. unfold N in *. zlia.
Qed.

(** copyuvm: a copy of the user pages below [sz] with the kernel's mappings,
    or 0 with nothing taken. *)
Lemma copyuvm_spec `{!LinkedAt} s F A l sz :
  vm_user s F A l -> 0 <= sz <= KERNBASE ->
  let N := (sz + 4095) / 4096 in
  (forall k, 0 <= k < N -> is_Some (a_ups A !! k)) ->
  exists r s', copyuvm (t_dir (a_tab A)) sz s = Ok r s' /\
    (r = 0 /\ given_back (F ++ apages A) s l s' /\ (length l <= 1026 + Z.to_nat N)%nat \/
     exists D l', r = t_dir (a_tab D) /\ vm_user s' (F ++ apages A) D l' /\ (apages D ++ l') ≡ₚ l /\
       keeps (F ++ apages A) s s' /\ mem_cons s s' /\ copied s' N (a_ups A) (a_ups D) /\
       forall k, UPN <= k -> t_map (a_tab D) k = kernel_map k).
Proof using.
  intros Hu Hsz N Hall. destruct Hu as [Hv Ha]. pose proof (vt_nodup _ _ _ _ Hv) as Hnd. pose proof (vt_page _ _ _ _ Hv) as Hp.
  assert (Hperm : ((F ++ upages (a_ups A)) ++ tpages (a_tab A) ++ l) ≡ₚ ((F ++ apages A) ++ l)) by (unfold apages; solve_Permutation).
  destruct (setupkvm_spec s (F ++ apages A) l (vt_free _ _ _ _ Hv)) as (d & s1 & E1 & D1); [by rewrite <- Hperm|by rewrite <- Hperm|].
  unfold copyuvm. rewrite (bind_ok _ _ _ _ _ E1). destruct D1 as [(-> & Hg & Hle)|(T & l1 & -> & Hu1 & Hp1 & Hk1 & Hm1 & _ & _ & Hmap)].
  { exists 0, s1. split; [done|left]. split_and!; [done|done|lia]. }
  assert (Hd : t_dir T <> 0).
  { apply page_ok_nz. apply (vt_page_in _ _ _ _ _ (vu_tab _ _ _ _ Hu1)). cbn. set_solver. }
  rewrite (proj2 (Z.eqb_neq _ _) Hd). set (D0 := mkAspace T ∅).
  destruct (copy_loop (Z.to_nat (sz / PGSIZE + 1)) s1 F A D0 l1 0 sz Hu1 Ha) as (r & s' & E & R); try lia.
  - by apply (source_kept s _ F); [apply (vt_tab _ _ _ _ Hv)|].
  - exact Hall.
  - intros k. cbn. rewrite lookup_empty. lia.
  - zlia.
  - unfold PGSIZE. zlia.
  - exists r, s'. split; [done|]. destruct R as [(-> & (l' & R1 & R2 & R3 & R4) & Hle)|(D' & l' & -> & Hs & Hc)].
    + left. split; [done|]. split; [|by rewrite <- Hp1]. exists l'. split_and!; [done|by rewrite R2, <- Hp1|by transitivity s1|by transitivity s1].
    + right. destruct Hs as [C1 C2 C3 C4 C5 C6]. exists D', l'. split_and!; [done|done|by rewrite C5, <- Hp1| | |done|].
      * by transitivity s1.
      * by transitivity s1.
      * intros k Hk. rewrite C6 by done. apply Hmap.
Qed.
End kvm.
