(* ===== verification/VmProps.v ===== *)
(** * What the virtual memory code promises (vm.c)

    The statements speak of what the processor's address translation finds
    ([pte_of], [translate]) and of the pages of memory: every page is free, a
    page table, a user page or in use elsewhere, and stays accounted for. *)

From S2P Require Import Prelude State CString Kalloc PageMath KallocSpec Console ConsoleOut Vm VmSpec VmUser VmCopy.
Open Scope Z_scope.

Section props.
Context `{Linker}.
Implicit Types (s : kernel) (A : aspace) (F l : list Z) (m : mem).

(** The translation of a user address. *)
Lemma translate_user s F A l va :
  vm_user s F A l -> 0 <= va < KERNBASE ->
  translate (k_mem s) (t_dir (a_tab A)) va =
    match a_ups A !! (va / 4096) with Some (u, _) => Some (u + va mod 4096) | None => None end.
Proof using.
  intros Hu Hva. unfold KERNBASE in Hva. unfold translate.
  rewrite (pte_of_map _ _ _ _ _ (vu_tab _ _ _ _ Hu)) by lia.
  rewrite (ao_map _ (vu_ok _ _ _ _ Hu)) by (unfold UPN; zlia).
  destruct (a_ups A !! (va / 4096)) as [[u f]|] eqn:E; [|done].
  destruct (ao_dom _ (vu_ok _ _ _ _ Hu) _ _ _ E) as (_ & Hf & Ho).
  destruct (uentry_some u f) as (-> & -> & _ & _ & -> & _); [by eapply user_page_ok|done|done|].
  rewrite u32_small by lia. done.
Qed.

(** The byte that the user address [va] names, if it names one. *)
Definition user_byte s (pgdir va : Z) : option Z := k_mem s <$> translate (k_mem s) pgdir va.

(** A page kept by an operation keeps the bytes seen through it. *)
Lemma user_byte_kept s F A l s' F' A' l' va K :
  vm_user s F A l -> vm_user s' F' A' l' -> t_dir (a_tab A') = t_dir (a_tab A) -> 0 <= va < KERNBASE ->
  a_ups A' !! (va / 4096) = a_ups A !! (va / 4096) -> keeps K s s' ->
  (forall u f, a_ups A !! (va / 4096) = Some (u, f) -> u ∈ K) ->
  user_byte s' (t_dir (a_tab A)) va = user_byte s (t_dir (a_tab A)) va.
Proof using.
  intros Hu Hu' Hd Hva E Hk HK. unfold user_byte. rewrite <- Hd at 1.
  rewrite (translate_user _ _ _ _ _ Hu' Hva), (translate_user _ _ _ _ _ Hu Hva), E.
  destruct (a_ups A !! (va / 4096)) as [[u f]|] eqn:EU; [|done]. cbn. f_equal. apply (Hk u); [by eapply HK|unfold in_page, PGSIZE; zlia].
Qed.

(** The bytes seen through an address space whose pages are kept. *)
Lemma space_kept s F A l s' F' l' va : vm_user s F A l -> vm_user s' F' A l' -> keeps (upages (a_ups A)) s s' -> 0 <= va < KERNBASE ->
  translate (k_mem s') (t_dir (a_tab A)) va = translate (k_mem s) (t_dir (a_tab A)) va /\
  user_byte s' (t_dir (a_tab A)) va = user_byte s (t_dir (a_tab A)) va.
Proof using.
  intros H1 H2 Hk Hva. unfold user_byte. rewrite (translate_user _ _ _ _ _ H1 Hva), (translate_user _ _ _ _ _ H2 Hva). split; [done|].
  destruct (a_ups A !! (va / 4096)) as [[u f]|] eqn:E; [|done]. cbn. f_equal. apply (Hk u); [by eapply upage_in|unfold in_page, PGSIZE; zlia].
Qed.


(** mappages maps the pages of its range and no other.  On pages that are
    not mapped it returns; with 0 every address of the range is translated by
    an entry for its frame with the given flags, with -1 the free pages are
    used up; no other address changes, other pages keep their contents, and
    the pages taken for page tables are exactly those that left the free
    list. *)
Theorem mappages_maps s F T l va size pa perm :
  vm_tab s F T l -> 0 <= va -> 0 < size -> va + size <= 4294967296 ->
  let first := va / 4096 in
  let last := (va + size - 1) / 4096 in
  (forall a, 0 <= a < 4294967296 -> first <= a / 4096 <= last -> pte_of (k_mem s) (t_dir T) a = 0) ->
  0 <= pa -> pa + 4096 * (last - first + 1) <= 4294967296 -> pa mod 4096 = 0 -> 0 <= perm < 4096 ->
  exists r s' T' l', mappages (t_dir T) va size pa perm s = Ok r s' /\ vm_tab s' F T' l' /\
    t_dir T' = t_dir T /\ (tpages T' ++ l') ≡ₚ (tpages T ++ l) /\ keeps F s s' /\
    (r = 0 /\ (forall a, 0 <= a < 4294967296 -> pte_of (k_mem s') (t_dir T) a =
        if (first <=? a / 4096) && (a / 4096 <=? last)
        then pa + 4096 * (a / 4096 - first) + Z.lor perm 1 else pte_of (k_mem s) (t_dir T) a) \/
     r = -1 /\ l' = []).
Proof using.
  intros Hv Hva Hsz Hb first last Hz Hpa Hpb Hal Hperm.
  destruct (mappages_spec s F T l va size pa perm Hv Hva Hsz Hb) as (r & s' & T' & l' & k' & E & Hs & _ & Hm & D); try done.
  { intros j Hj. rewrite <- (Hz (4096 * j)); [|unfold first, last in *; zlia..].
    rewrite (pte_of_map _ _ _ _ _ Hv) by zlia. f_equal. zlia. }
  pose proof (vs_dir _ _ _ _ _ _ _ Hs) as Hd. exists r, s', T', l'.
  split_and!; [done|apply (vs_tab _ _ _ _ _ _ _ Hs)|done|apply (vs_pages _ _ _ _ _ _ _ Hs)|apply (vs_keeps _ _ _ _ _ _ _ Hs)|].
  destruct D as [[-> ->]|(-> & -> & _)]; [left|by right]. split; [done|]. intros a Ha. rewrite <- Hd at 1.
  rewrite (pte_of_map _ _ _ _ _ (vs_tab _ _ _ _ _ _ _ Hs)), (pte_of_map _ _ _ _ _ Hv), Hm by done.
  fold first last. unfold map_range. fold first. zcases.
Qed.

(** allocuvm grows an address space or leaves it as it was.  When it
    returns the new size, every address from the rounded-up old size to the
    rounded-up new one has a page of its own, all zero; when it returns 0 no
    user address has changed, and the free pages were fewer than the new pages
    and a complete set of page tables.  Either way the addresses outside of that range
    name the same bytes as before, and no page of memory is lost. *)
Theorem allocuvm_grows s F A l oldsz newsz :
  vm_user s F A l -> 0 <= oldsz <= newsz -> newsz < KERNBASE -> cons_ok (k_cons s) ->
  let dir := t_dir (a_tab A) in
  (forall va, (oldsz + 4095) / 4096 <= va / 4096 < (newsz + 4095) / 4096 -> translate (k_mem s) dir va = None) ->
  exists r s' A' l', allocuvm dir oldsz newsz s = Ok r s' /\ vm_user s' F A' l' /\ t_dir (a_tab A') = dir /\
    (apages A' ++ l') ≡ₚ (apages A ++ l) /\
    (forall va, 0 <= va < KERNBASE -> user_byte s' dir va =
       if bool_decide (r = newsz /\ (oldsz + 4095) / 4096 <= va / 4096 < (newsz + 4095) / 4096)
       then Some 0 else user_byte s dir va) /\
    (r = 0 /\ Z.of_nat (length l) <= 1025 + ((newsz + 4095) / 4096 - (oldsz + 4095) / 4096) \/ r = newsz).
Proof using.
  intros Hu Ho Hk Hc dir Hz. unfold KERNBASE in Hk.
  destruct (allocuvm_spec s F A l oldsz newsz Hu Ho Hk Hc) as (r & s' & A' & l' & E & [U1 U2 U3 U4 U5 U6 U7] & D).
  { intros k Hk'. specialize (Hz (4096 * k)). replace (4096 * k / 4096) with k in Hz by zlia. specialize (Hz Hk').
    rewrite (translate_user _ _ _ _ _ Hu) in Hz by (unfold KERNBASE; zlia).
    replace (4096 * k / 4096) with k in Hz by zlia. by destruct (a_ups A !! k) as [[? ?]|]. }
  assert (Hsame : forall va, 0 <= va < KERNBASE -> a_ups A' !! (va / 4096) = a_ups A !! (va / 4096) ->
    user_byte s' dir va = user_byte s dir va).
  { intros va Hva Ev. apply (user_byte_kept s F A l s' F A' l' va (upages (a_ups A))); try done; [by eapply keeps_r|apply upage_in]. }
  exists r, s', A', l'. split_and!; [done|done|done|done| |].
  2:{ destruct D as [(-> & _ & Hle)|[-> _]]; [left|by right]. split; [done|]. unfold tpages in Hle. cbn [length] in Hle. zlia. }
  intros va Hva. destruct D as [(-> & HU & _)|[-> HU]].
  - rewrite Hsame by (done || by rewrite HU). case_bool_decide as Hb; [|done]. destruct Hb as [<- Hb]. zlia.
  - specialize (HU (va / 4096)). case_bool_decide as Hb.
    + rewrite bool_decide_eq_true_2 by done. destruct HU as (u & Eu & Hzero). unfold user_byte, dir. rewrite <- U4.
      rewrite (translate_user _ _ _ _ _ U1 Hva), Eu. cbn. f_equal. apply Hzero. unfold in_page, PGSIZE. zlia.
    + rewrite bool_decide_eq_false_2 by naive_solver. by apply Hsame.
Qed.

Lemma map_to_list_split (P : Z * (Z * Z) -> Prop) `{!forall x, Decision (P x)} (U : gmap Z (Z * Z)) :
  map_to_list U ≡ₚ map_to_list (filter P U) ++ map_to_list (filter (fun x => ~ P x) U).
Proof using.
  apply NoDup_Permutation; [apply NoDup_map_to_list|apply list.NoDup_app; split_and!; try apply NoDup_map_to_list|].
  - intros [k x] H1 H2. apply elem_of_map_to_list, map_lookup_filter_Some in H1 as [_ H1].
    apply elem_of_map_to_list, map_lookup_filter_Some in H2 as [_ H2]. done.
  - intros [k x]. rewrite elem_of_app, !elem_of_map_to_list, !map_lookup_filter_Some.
    destruct (decide (P (k, x))); naive_solver.
Qed.

(** deallocuvm unmaps the pages above the new size and frees them.  The
    addresses from the rounded-up new size to the rounded-up old one are no
    longer mapped, every other user address names the same byte, and the pages
    they had are on the free list: none is lost. *)
Theorem deallocuvm_shrinks s F A l oldsz newsz :
  vm_user s F A l -> 0 <= newsz < oldsz -> oldsz <= KERNBASE ->
  let dir := t_dir (a_tab A) in
  exists s' A' l', deallocuvm dir oldsz newsz s = Ok newsz s' /\ vm_user s' F A' l' /\ t_dir (a_tab A') = dir /\
    (forall va, 0 <= va < KERNBASE -> user_byte s' dir va =
       if bool_decide ((newsz + 4095) / 4096 <= va / 4096 < (oldsz + 4095) / 4096) then None else user_byte s dir va) /\
    exists freed, l' ≡ₚ freed ++ l /\
      forall u, u ∈ freed <-> exists n f, (newsz + 4095) / 4096 <= n < (oldsz + 4095) / 4096 /\ a_ups A !! n = Some (u, f).
Proof using.
  intros Hu Hs Ho dir. destruct (deallocuvm_spec s F A l oldsz newsz Hu Hs Ho) as (s' & A' & l' & E & [U1 U2 U3 U4 U5 U6 U7] & HU & Hp).
  exists s', A', l'. split_and!; [done|done|done| |].
  - intros va Hva. case_bool_decide as Hb.
    + unfold user_byte, dir. rewrite <- U4. rewrite (translate_user _ _ _ _ _ U1 Hva), HU, lookup_cut.
      by rewrite bool_decide_eq_true_2.
    + assert (EU : a_ups A' !! (va / 4096) = a_ups A !! (va / 4096)).
      { by rewrite HU, lookup_cut, bool_decide_eq_false_2. }
      apply (user_byte_kept s F A l s' F A' l' va _ Hu U1 U4 Hva EU (keeps_r _ _ _ _ U2)). intros u f Eu. rewrite <- HU. apply (upage_in _ (va / 4096) u f).
      by rewrite EU.
  - set (n := (newsz + 4095) / 4096) in *. set (N := (oldsz + 4095) / 4096) in *.
    set (G := filter (fun kv : Z * (Z * Z) => n <= kv.1 < N) (a_ups A)). exists (upages G). split.
    + assert (Hsplit : upages (a_ups A) ≡ₚ upages G ++ upages (cut n N (a_ups A))).
      { unfold upages, vals. rewrite (map_to_list_split (fun kv => n <= kv.1 < N)). by rewrite !fmap_app. }
      assert (Ht : tpages (a_tab A') = tpages (a_tab A)) by (unfold tpages; by rewrite U4, Hp).
      unfold apages in U5. rewrite Ht, HU, Hsplit in U5. 
      apply (Permutation_app_inv_l (upages (cut n N (a_ups A)) ++ tpages (a_tab A))). rewrite U5. solve_Permutation.
    + intros u. rewrite elem_upages. unfold G. split.
      * intros (k & f & E'). apply map_lookup_filter_Some in E' as [E' Hk]. by exists k, f.
      * intros (k & f & Hk & E'). exists k, f. by apply map_lookup_filter_Some.
Qed.

(** freevm gives back every page of an address space: the user pages, the
    page tables and the directory join the free list, once each, and the other
    pages keep their contents. *)
Theorem freevm_frees s F A l :
  vm_user s F A l ->
  exists s' l', freevm (t_dir (a_tab A)) s = Ok tt s' /\ freelist s' l' /\
    l' ≡ₚ upages (a_ups A) ++ tpages (a_tab A) ++ l /\ NoDup l' /\ keeps F s s'.
Proof using.
  intros Hu. destruct (freevm_spec s F A l Hu) as (s' & l' & E & Hf & Hp & Hk & _). exists s', l'.
  split_and!; [done|done| |apply (fl_nodup _ _ Hf)|done]. rewrite Hp. unfold apages. by rewrite app_assoc.
Qed.

(** copyuvm makes an independent copy.  It returns 0, having given back
    every page it took, or a directory of its own in which each address below
    [sz] names a byte in a page of its own with the contents of the parent's,
    and no address from [sz], rounded up, to KERNBASE is mapped; the parent is
    unchanged. *)
Theorem copyuvm_copies `{!LinkedAt} s F A l sz :
  vm_user s F A l -> 0 <= sz <= KERNBASE ->
  (forall va, 0 <= va < sz -> is_Some (translate (k_mem s) (t_dir (a_tab A)) va)) ->
  exists r s', copyuvm (t_dir (a_tab A)) sz s = Ok r s' /\ keeps (F ++ apages A) s s' /\ mem_cons s s' /\
    (r = 0 /\ (exists l', freelist s' l' /\ l' ≡ₚ l) /\ Z.of_nat (length l) <= 1026 + (sz + 4095) / 4096 \/
     exists D l', r = t_dir (a_tab D) /\ vm_user s' (F ++ apages A) D l' /\ (apages D ++ l') ≡ₚ l /\
       (forall va, 0 <= va < sz -> exists a b,
          translate (k_mem s) (t_dir (a_tab A)) va = Some a /\ translate (k_mem s') (t_dir (a_tab A)) va = Some a /\
          translate (k_mem s') r va = Some b /\
          k_mem s' b = k_mem s' a /\ k_mem s' a = k_mem s a) /\
       (forall va, (sz + 4095) / 4096 <= va / 4096 -> va < KERNBASE -> translate (k_mem s') r va = None)).
Proof using.
  intros Hu Hsz Hall. assert (Hups : forall k, 0 <= k < (sz + 4095) / 4096 -> is_Some (a_ups A !! k)).
  { intros k Hk. destruct (Hall (4096 * k)) as [a Ea]; [zlia|].
    rewrite (translate_user _ _ _ _ _ Hu) in Ea by (unfold KERNBASE in *; zlia).
    replace (4096 * k / 4096) with k in Ea by zlia. by destruct (a_ups A !! k). }
  destruct (copyuvm_spec s F A l sz Hu Hsz Hups) as (r & s' & E & R). exists r, s'. split; [done|].
  destruct R as [(-> & (l' & R1 & R2 & R3 & R4) & Hle)|(D & l' & -> & Hu' & Hp & Hk & Hm & Hc & Hkern)].
  { split_and!; [done|done|]. left. split_and!; [done|by exists l'|]. zlia. }
  split_and!; [done|done|]. right. exists D, l'. split_and!; [done|done|done| |].
  - intros va Hva. destruct (Hups (va / 4096)) as [[u f] EU]; [zlia|].
    pose proof (Hc (va / 4096)) as Hck. destruct (a_ups D !! (va / 4096)) as [[v g]|] eqn:ED; [|zlia].
    destruct Hck as (_ & u' & EU' & Hsame). rewrite EU in EU'. injection EU' as <- <-.
    exists (u + va mod 4096), (v + va mod 4096). split_and!.
    + rewrite (translate_user _ _ _ _ _ Hu) by lia. by rewrite EU.
    + unfold translate. rewrite (pte_of_map _ _ _ _ _ (source_tab _ _ _ _ _ Hu' ltac:(by apply (source_kept s _ F); [apply (vt_tab _ _ _ _ (vu_tab _ _ _ _ Hu))|])))
        by (unfold KERNBASE in *; lia).
      rewrite (ao_map _ (vu_ok _ _ _ _ Hu)), EU by (unfold UPN, KERNBASE in *; zlia).
      destruct (ao_dom _ (vu_ok _ _ _ _ Hu) _ _ _ EU) as (_ & Hf & Ho).
      destruct (uentry_some u f) as (-> & -> & _ & _ & -> & _); [by apply (user_page_ok s F A l (va / 4096) u f)|done|done|].
      rewrite u32_small by (unfold KERNBASE in *; lia). done.
    + rewrite (translate_user _ _ _ _ _ Hu') by lia. by rewrite ED.
    + apply Hsame. unfold PGSIZE. zlia.
    + apply (Hk u); [|unfold in_page, PGSIZE; zlia]. pose proof (upage_in _ _ _ _ EU). unfold apages. set_solver.
  - intros va Hva Hb. rewrite (translate_user _ _ _ _ _ Hu') by zlia.
    pose proof (Hc (va / 4096)) as Hck. destruct (a_ups D !! (va / 4096)) as [[v g]|]; [|done]. lia.
Qed.

Lemma land_low a b : 0 <= a -> a mod 4096 = 0 -> 0 <= b < 4096 -> Z.land a b = 0.
Proof using.
  intros Ha Hm Hb. pose proof (Z.add_lor_land a b). rewrite lor_flags in * by done. lia.
Qed.

Lemma kernel_map_eq `{!LinkedAt} n : kernel_map n =
  if (1040384 <=? n) && (n <? 1048576) then 4096 * n + 3
  else if (kdata / 4096 <=? n) && (n <? 581632) then 4096 * n - KERNBASE + 3
  else if (524544 <=? n) && (n <? kdata / 4096) then 4096 * n - KERNBASE + 1
  else if (524288 <=? n) && (n <? 524544) then 4096 * n - KERNBASE + 3 else 0.
Proof using.
  pose proof kdata_aligned as Ha. pose proof kdata_range as Hr.
  assert (E2 : V2P kdata = kdata - KERNBASE) by (apply V2P_small; unfold KERNLINK, KERNBASE, EXTMEM, PHYSTOP in *; lia).
  unfold kernel_map, kmap. cbn [ks_map]. unfold map_range. rewrite E2. change (V2P KERNLINK) with 1048576.
  unfold KERNLINK, KERNBASE, EXTMEM, PHYSTOP, DEVSPACE, PTE_W in *.
  rewrite (u32_small (1048576 - 0)), (u32_small (kdata - 2147483648 - 1048576)), (u32_small (234881024 - _)) by lia.
  change (u32 (0 - 4261412864) / 4096) with 8192. change (4261412864 / 4096) with 1040384.
  change ((1048576 - 0) / 4096) with 256. change (2147483648 / 4096) with 524288.
  change ((2147483648 + 1048576) / 4096) with 524544. change (Z.lor 2 1) with 3. change (Z.lor 0 1) with 1.
  replace (524544 + (kdata - 2147483648 - 1048576) / 4096) with (kdata / 4096) by zlia.
  replace (kdata / 4096 + (234881024 - (kdata - 2147483648)) / 4096) with 581632 by zlia.
  destruct ((kdata / 4096 <=? n) && (n <? 581632)) eqn:E3.
  - apply andb_true_iff in E3 as [E3 E4]. replace (kdata - 2147483648 + 4096 * (n - kdata / 4096) + 3) with (4096 * n - 2147483648 + 3) by zlia.
    zcases.
  - change (1040384 + 8192) with 1048576. change (524288 + 256) with 524544.
    replace (4261412864 + 4096 * (n - 1040384) + 3) with (4096 * n + 3) by lia.
    replace (1048576 + 4096 * (n - 524544) + 1) with (4096 * n - 2147483648 + 1) by lia.
    replace (0 + 4096 * (n - 524288) + 3) with (4096 * n - 2147483648 + 3) by lia. done.
Qed.

(** The entry of a kernel's address: memory up to PHYSTOP is KERNBASE below, devices
    are at their own addresses, nothing below KERNBASE is mapped, the kernel's
    text is not writable and no entry is open to user code. *)
Definition kernel_entry (e va : Z) : Prop :=
  (va < KERNBASE -> e = 0) /\
  (KERNBASE <= va < KERNBASE + PHYSTOP -> present e = true /\ PTE_ADDR e = PGROUNDDOWN va - KERNBASE) /\
  (DEVSPACE <= va -> present e = true /\ PTE_ADDR e = PGROUNDDOWN va) /\
  (KERNLINK <= va < kdata -> Z.land e PTE_W = 0) /\ Z.land e PTE_U = 0.

Lemma kernel_map_entry `{!LinkedAt} va : 0 <= va < 4294967296 -> kernel_entry (kernel_map (va / 4096)) va.
Proof using.
  intros Hva. remember (kernel_map (va / 4096)) as e eqn:Ee. unfold kernel_entry.
  pose proof kdata_aligned as Hka. pose proof kdata_range as Hkr.
  rewrite kernel_map_eq in Ee. rewrite (PGROUNDDOWN_div va) by exact Hva.
  unfold KERNLINK, KERNBASE, EXTMEM, PHYSTOP, DEVSPACE, PTE_W, PTE_U in *.
  assert (Hland : forall a f, 0 <= a -> a mod 4096 = 0 -> f = 1 \/ f = 3 -> Z.land (a + f) 4 = 0 /\ (f = 1 -> Z.land (a + f) 2 = 0) /\
    present (a + f) = true /\ (a + f < 4294967296 -> PTE_ADDR (a + f) = a)).
  { intros a f Ha Hm' Hf'. rewrite present_odd by done. split_and!; [| |by destruct Hf' as [-> | ->]|intros; apply PTE_ADDR_flags; lia].
    - rewrite <- (lor_flags a f), Z.land_lor_distr_l by lia. rewrite (land_low a 4) by lia. by destruct Hf' as [-> | ->].
    - intros ->. rewrite <- (lor_flags a 1), Z.land_lor_distr_l by lia. by rewrite (land_low a 2) by lia. }
  set (n := va / 4096) in *. assert (Hn' : 4096 * n <= va < 4096 * n + 4096) by (unfold n; zlia).
  destruct ((1040384 <=? n) && (n <? 1048576)) eqn:R1.
  { destruct (Hland (4096 * n) 3) as (L1 & L2 & L3 & L4); [lia|zlia|by right|]. subst e. rewrite L4 by lia. split_and!; intros; try (split; [done|]); try lia; try done. }
  assert (R1' : ~ 1040384 <= n) by lia. clear R1.
  destruct ((kdata / 4096 <=? n) && (n <? 581632)) eqn:R2.
  { destruct (Hland (4096 * n - 2147483648) 3) as (L1 & L2 & L3 & L4); [zlia|zlia|by right|]. subst e. rewrite L4 by lia.
    split_and!; intros; try (split; [done|]); try zlia; try done. }
  destruct ((524544 <=? n) && (n <? kdata / 4096)) eqn:R3.
  { destruct (Hland (4096 * n - 2147483648) 1) as (L1 & L2 & L3 & L4); [lia|zlia|by left|]. subst e. rewrite L4 by zlia.
    split_and!; intros; try (split; [done|]); try zlia; try done; auto. }
  destruct ((524288 <=? n) && (n <? 524544)) eqn:R4.
  { destruct (Hland (4096 * n - 2147483648) 3) as (L1 & L2 & L3 & L4); [lia|zlia|by right|]. subst e. rewrite L4 by lia.
    split_and!; intros; try (split; [done|]); try lia; try done. }
  subst e. split_and!; intros; try (split; [done|]); try done; zlia.
Qed.

(** setupkvm maps the kernel, and only the kernel.  It returns a directory with
    the entries of a kernel, or 0 when at most 513 pages were free, having given
    back every page it took. *)
Theorem setupkvm_maps_kernel `{!LinkedAt} s F l :
  freelist s l -> NoDup (F ++ l) -> Forall page_ok (F ++ l) ->
  exists r s', setupkvm s = Ok r s' /\
    (r = 0 /\ (length l <= 513)%nat /\ (exists l', freelist s' l' /\ l' ≡ₚ l) \/
     exists T l', r = t_dir T /\ vm_tab s' F T l' /\ (tpages T ++ l') ≡ₚ l /\
       forall va, 0 <= va < 4294967296 -> kernel_entry (pte_of (k_mem s') r va) va).
Proof using.
  intros Hf Hn Hp. destruct (setupkvm_spec s F l Hf Hn Hp) as (r & s' & E & D). exists r, s'. split; [done|].
  destruct D as [(-> & (l' & D1 & D2 & _) & Hle)|(T & l' & -> & Hu & Hperm & _ & _ & _ & _ & Hm)]; [left; split_and!; [done|done|by exists l']|].
  right. pose proof (vu_tab _ _ _ _ Hu) as Hv. cbn in Hv. change (upages ∅) with (@nil Z) in Hv. rewrite app_nil_r in Hv.
  exists T, l'. split_and!; [done|done|done|]. intros va Hva. rewrite (pte_of_map _ _ _ _ _ Hv), Hm by done. by apply kernel_map_entry.
Qed.
End props.
