(* ===== verification/VmOut.v ===== *)
(** * Writing to user memory: uva2ka, copyout and clearpteu

    What copyout does to the bytes a process sees, in terms of the user pages of
    its address space. *)

From S2P Require Import Prelude State CString Kalloc PageMath KallocSpec Console ConsoleOut Vm VmSpec VmUser VmCopy VmProps.
Open Scope Z_scope.

Section out.
Context `{Linker}.
Implicit Types (s : kernel) (A : aspace) (F l : list Z).

(** The page may be accessed from user code. *)
Definition user_flag (f : Z) : bool := negb (Z.land f PTE_U =? 0).
Definition accessible A (n : Z) : bool := match a_ups A !! n with Some (_, f) => user_flag f | None => false end.

Lemma upage_inj s F A l n m u f g : vm_user s F A l -> a_ups A !! n = Some (u, f) -> a_ups A !! m = Some (u, g) -> n = m.
Proof using.
  intros Hu En Em. pose proof (vt_nodup _ _ _ _ (vu_tab _ _ _ _ Hu)) as Hnd. apply list.NoDup_app in Hnd as (Hnd & _).
  apply list.NoDup_app in Hnd as (_ & _ & Hnd). destruct (decide (n = m)) as [|Hne]; [done|]. exfalso.
  rewrite (upages_delete _ _ _ _ En) in Hnd. apply NoDup_cons in Hnd as [Hnd _]. apply Hnd, (upage_in _ m u g). by rewrite lookup_delete_ne.
Qed.

(** ** uva2ka *)

Lemma entry_user u f : page_ok u -> 0 <= f < 4096 -> f mod 2 = 1 -> Z.land (uentry (Some (u, f))) PTE_U = Z.land f PTE_U.
Proof using.
  intros Hp Hf Ho. destruct (uentry_some u f Hp Hf Ho) as (_ & _ & E & _). rewrite <- E at 2. unfold PTE_FLAGS, PTE_U.
  rewrite <- Z.land_assoc. done.
Qed.

Lemma user_pte s F A l n u f : vm_user s F A l -> a_ups A !! n = Some (u, f) ->
  exists t, t_pts (a_tab A) !! (n / 1024) = Some t /\ walkpgdir (t_dir (a_tab A)) (4096 * n) false s = Ok (t + 4 * (n mod 1024)) s /\
    t + 4 * (n mod 1024) <> 0 /\ load32 (k_mem s) (t + 4 * (n mod 1024)) = uentry (Some (u, f)).
Proof using.
  intros Hu E. destruct (user_table _ _ _ _ _ _ _ Hu E) as [t Et]. destruct (ao_dom _ (vu_ok _ _ _ _ Hu) _ _ _ E) as (Hn & _).
  unfold UPN in Hn. pose proof (vu_tab _ _ _ _ Hu) as Hv. exists t. split_and!; [done| | |].
  - rewrite (walk_found _ _ _ _ _ _ t Hv) by (try lia; rewrite <- Et; f_equal; zlia). by replace (4096 * n / 4096) with n by zlia.
  - destruct (table_page_ok _ _ _ _ _ _ Hv Et) as (_ & _ & Ht & _). unfold KERNBASE in Ht. zlia.
  - pose proof (to_pte _ _ (vt_tab _ _ _ _ Hv) n ltac:(unfold VPN; lia)) as Hp. rewrite Et in Hp. rewrite Hp.
    rewrite (ao_map _ (vu_ok _ _ _ _ Hu)), E by (unfold UPN; lia). done.
Qed.

Lemma uva2ka_mapped s F A l n u f : vm_user s F A l -> a_ups A !! n = Some (u, f) ->
  uva2ka (t_dir (a_tab A)) (4096 * n) s = Ok (if user_flag f then u else 0) s.
Proof using.
  intros Hu E. destruct (user_pte _ _ _ _ _ _ _ Hu E) as (t & _ & Ew & Hnz & El).
  destruct (ao_dom _ (vu_ok _ _ _ _ Hu) _ _ _ E) as (_ & Hf & Ho). pose proof (user_page_ok _ _ _ _ _ _ _ Hu E) as Hp.
  unfold uva2ka. rewrite (bind_ok _ _ _ _ _ Ew), (proj2 (Z.eqb_neq _ _) Hnz). unfold ld32. rewrite (bind_ok _ _ s (uentry (Some (u, f))) s) by (unfold gets; by rewrite El).
  destruct (uentry_some u f Hp Hf Ho) as (E1 & E2 & _ & _ & E3 & _). unfold present in E1. apply negb_true_iff in E1. rewrite E1, (entry_user u f Hp Hf Ho), E2, E3.
  unfold user_flag. by destruct (Z.land f PTE_U =? 0).
Qed.

(** Without a page table the null pointer is dereferenced. *)
Lemma uva2ka_null s F A l va : vm_user s F A l -> 0 <= va < 4294967296 -> t_pts (a_tab A) !! (va / 4194304) = None ->
  uva2ka (t_dir (a_tab A)) va s = Fault "uva2ka: null pte".
Proof using.
  intros Hu Hva E. unfold uva2ka. by rewrite (bind_ok _ _ _ _ _ (walk_absent _ _ _ _ _ (vu_tab _ _ _ _ Hu) Hva E)).
Qed.

(** The upper half of the address space is that of the kernel. *)
Definition kernel_half A : Prop := forall k, UPN <= k -> t_map (a_tab A) k = kernel_map k.

(** A kernel address is refused, if there is a page table for it. *)
Lemma uva2ka_kernel `{!LinkedAt} s F A l n : vm_user s F A l -> kernel_half A -> UPN <= n < VPN ->
  uva2ka (t_dir (a_tab A)) (4096 * n) s = Ok 0 s \/ uva2ka (t_dir (a_tab A)) (4096 * n) s = Fault "uva2ka: null pte".
Proof using.
  intros Hu Hk Hn. pose proof (vu_tab _ _ _ _ Hu) as Hv. unfold UPN, VPN in Hn. destruct (t_pts (a_tab A) !! (4096 * n / 4194304)) as [t|] eqn:Et; [left|right; eapply uva2ka_null; eauto; lia].
  unfold uva2ka. rewrite (bind_ok _ _ _ _ _ (walk_found _ _ _ _ (4096 * n) false t Hv ltac:(lia) Et)). replace (4096 * n / 4096) with n by zlia.
  replace (4096 * n / 4194304) with (n / 1024) in Et by zlia. destruct (table_page_ok _ _ _ _ _ _ Hv Et) as (_ & _ & Ht & _). unfold KERNBASE in Ht.
  rewrite (proj2 (Z.eqb_neq _ 0)) by zlia. pose proof (to_pte _ _ (vt_tab _ _ _ _ Hv) n ltac:(unfold VPN; lia)) as Hp. rewrite Et in Hp.
  unfold ld32. rewrite (bind_ok _ _ s (kernel_map n) s) by (unfold gets; by rewrite Hp, Hk by (unfold UPN; lia)).
  destruct (kernel_map_entry (4096 * n) ltac:(lia)) as (_ & _ & _ & _ & E). replace (4096 * n / 4096) with n in E by zlia. rewrite E. by destruct (_ =? 0).
Qed.

(** ** Stores to a user page *)

Lemma store_user s F A l n u f o bs : vm_user s F A l -> a_ups A !! n = Some (u, f) -> 0 <= o -> o + Z.of_nat (length bs) <= 4096 ->
  let s' := set_k_mem (store_bytes (k_mem s) (u + o) bs) s in
  vm_user s' F A l /\ only [u] (k_mem s) (k_mem s') /\
  forall va, 0 <= va < KERNBASE -> user_byte s' (t_dir (a_tab A)) va =
    if (4096 * n + o <=? va) && (va <? 4096 * n + o + Z.of_nat (length bs)) then Some (nthz bs (va - (4096 * n + o))) else user_byte s (t_dir (a_tab A)) va.
Proof using.
  intros Hu E Ho Hl s'. pose proof (vu_tab _ _ _ _ Hu) as Hv. pose proof (user_page_ok _ _ _ _ _ _ _ Hu E) as Hp.
  assert (Hon : only [u] (k_mem s) (store_bytes (k_mem s) (u + o) bs)).
  { intros x Hx. pose proof (Hx u ltac:(by left)) as Hnx. unfold in_page, PGSIZE in Hnx. unfold store_bytes. zcases. }
  assert (Hu' : vm_user s' F A l).
  { split; [|apply Hu]. apply (vm_tab_write s _ _ _ u (fun m => store_bytes m (u + o) bs)); [done| |done]. apply elem_of_app. right. by eapply upage_in. }
  split_and!; [done|done|]. intros va Hva. unfold user_byte. rewrite (translate_user _ _ _ _ _ Hu' Hva), (translate_user _ _ _ _ _ Hu Hva).
  destruct (a_ups A !! (va / 4096)) as [[w g]|] eqn:Ew; cbn [fmap option_fmap option_map].
  - destruct (decide (w = u)) as [->|Hne].
    + assert (Hn : va / 4096 = n) by (by eapply upage_inj). cbn. unfold store_bytes.
      assert (Hc : (u + o <=? u + va mod 4096) && (u + va mod 4096 <? u + o + Z.of_nat (length bs)) = (4096 * n + o <=? va) && (va <? 4096 * n + o + Z.of_nat (length bs))) by (zcases; zlia).
      rewrite Hc. destruct ((4096 * n + o <=? va) && (va <? 4096 * n + o + Z.of_nat (length bs))); [|reflexivity]. do 2 f_equal. zlia.
    + replace ((4096 * n + o <=? va) && (va <? 4096 * n + o + Z.of_nat (length bs))) with false.
      * cbn. f_equal. apply Hon. intros a ->%list_elem_of_singleton. apply (page_disjoint w u); try done; [by eapply user_page_ok|unfold in_page, PGSIZE; zlia].
      * symmetry. apply andb_false_iff. rewrite Z.leb_gt, Z.ltb_ge. destruct (Z.lt_ge_cases va (4096 * n + o)); [by left|right].
        destruct (decide (va / 4096 = n)) as [Hn|Hn]; [|zlia]. rewrite Hn, E in Ew. congruence.
  - replace ((4096 * n + o <=? va) && (va <? 4096 * n + o + Z.of_nat (length bs))) with false; [done|].
    symmetry. apply andb_false_iff. rewrite Z.leb_gt, Z.ltb_ge. destruct (Z.lt_ge_cases va (4096 * n + o)); [by left|right].
    destruct (decide (va / 4096 = n)) as [Hn|Hn]; [|zlia]. rewrite Hn, E in Ew. congruence.
Qed.

(** ** copyout *)

(** Only the contents of user pages change. *)
Record out_step F A l s s' : Prop := mkOutStep {
  ot_user : vm_user s' F A l;
  ot_mem : s' = set_k_mem (k_mem s') s;
  ot_only : only (upages (a_ups A)) (k_mem s) (k_mem s')
}.

Lemma out_step_refl F A l s : vm_user s F A l -> out_step F A l s s.
Proof using. intros Hu. split; [done|by destruct s|done]. Qed.
Lemma out_step_trans F A l s1 s2 s3 : out_step F A l s1 s2 -> out_step F A l s2 s3 -> out_step F A l s1 s3.
Proof using.
  intros [A1 A2 A3] [B1 B2 B3]. split; [done|rewrite B2, A2; by destruct s1|]. intros x Hx. rewrite B3, A3; done.
Qed.

Lemma user_only_keeps F A l s s' : vm_user s' F A l -> only (upages (a_ups A)) (k_mem s) (k_mem s') -> keeps F s s'.
Proof using.
  intros [[_ _ Hn Hp] _] Ho. apply (only_keeps (upages (a_ups A))); [done|]. intros a b Ha Hb. rewrite Forall_forall in Hp.
  split_and!; [apply Hp; set_solver|apply Hp; set_solver|]. intros ->. apply list.NoDup_app in Hn as (Hn & _). apply list.NoDup_app in Hn as (_ & Hn & _). by apply (Hn b).
Qed.
Lemma out_step_keeps F A l s s' : out_step F A l s s' -> keeps F s s'.
Proof using. intros [B1 _ B3]. by eapply user_only_keeps. Qed.

(** The bytes [bs] at the user address [va]. *)
Definition bytes_put s s' (dir va : Z) (bs : list Z) : Prop := forall x, 0 <= x < KERNBASE ->
  user_byte s' dir x = if (va <=? x) && (x <? va + Z.of_nat (length bs)) then Some (nthz bs (x - va)) else user_byte s dir x.

Lemma bytes_put_nil s dir va : bytes_put s s dir va [].
Proof using. intros x _. cbn [length]. zcases. Qed.

(** The first [m] bytes and then the rest. *)
Lemma put_twice (o : option Z) (bs : list Z) (va va' x m : Z) : let len := Z.of_nat (length bs) in
  0 < m <= len -> (m = len \/ va' = va + m) -> va + m <= va' ->
  (if (va' <=? x) && (x <? va' + (len - m)) then Some (nthz (drop (Z.to_nat m) bs) (x - va'))
   else if (va <=? x) && (x <? va + m) then Some (nthz (take (Z.to_nat m) bs) (x - va)) else o) =
  if (va <=? x) && (x <? va + len) then Some (nthz bs (x - va)) else o.
Proof using.
  intros len Hm Hor Hva. unfold nthz. destruct (Z.leb_spec va' x), (Z.ltb_spec x (va' + (len - m))); cbn [andb].
  - rewrite (proj2 (Z.leb_le va x)), (proj2 (Z.ltb_lt x _)) by lia. cbn [andb]. f_equal.
    rewrite lookup_total_drop. f_equal. lia.
  - destruct (Z.leb_spec va x), (Z.ltb_spec x (va + m)), (Z.ltb_spec x (va + len)); cbn [andb]; try lia; done.
  - destruct (Z.leb_spec va x), (Z.ltb_spec x (va + m)), (Z.ltb_spec x (va + len)); cbn [andb]; try lia; try done.
    by rewrite lookup_total_take, decide_True by lia.
  - destruct (Z.leb_spec va x), (Z.ltb_spec x (va + m)), (Z.ltb_spec x (va + len)); cbn [andb]; try lia; try done.
Qed.

Lemma bytes_put_twice s1 s2 s3 dir va va' bs m :
  0 < m <= Z.of_nat (length bs) -> (m = Z.of_nat (length bs) \/ va' = va + m) -> va + m <= va' ->
  bytes_put s1 s2 dir va (take (Z.to_nat m) bs) -> bytes_put s2 s3 dir va' (drop (Z.to_nat m) bs) -> bytes_put s1 s3 dir va bs.
Proof using.
  intros Hm Hor Hva H1 H2 x Hx. rewrite (H2 x Hx), (H1 x Hx), length_take, length_drop.
  replace (Z.of_nat (Z.to_nat m `min` length bs)) with m by lia. replace (Z.of_nat (length bs - Z.to_nat m)) with (Z.of_nat (length bs) - m) by lia.
  by apply put_twice.
Qed.

Lemma copyout_loop_spec fuel : forall s F A l va bs,
  let dir := t_dir (a_tab A) in
  let len := Z.of_nat (length bs) in
  let last := (va + len + 4095) / 4096 in
  vm_user s F A l -> 0 <= va -> va + len <= KERNBASE ->
  (forall k, va / 4096 <= k < last -> is_Some (a_ups A !! k)) -> (Z.to_nat (last - va / 4096) <= fuel)%nat ->
  exists r s', copyout_loop dir va bs len fuel s = Ok r s' /\ out_step F A l s s' /\
    (r = 0 /\ bytes_put s s' dir va bs /\ (0 < len -> forall k, va / 4096 <= k < last -> accessible A k = true) \/
     r = -1 /\ exists k, va / 4096 <= k < last /\ accessible A k = false).
Proof using.
  induction fuel as [|fuel IH]; intros s F A l va bs dir len last Hu Hva Hk Hall Hf; cbn [copyout_loop].
  - assert (len = 0) by (unfold last in Hf; zlia). rewrite (proj2 (Z.ltb_ge 0 len)) by lia. exists 0, s. split_and!; [done|by apply out_step_refl|]. left.
    split_and!; [done| |lia]. intros x Hx. fold len. zcases.
  - destruct (Z.ltb_spec 0 len) as [Hl|Hl].
    2:{ exists 0, s. split_and!; [done|by apply out_step_refl|]. left. split_and!; [done| |lia]. intros x Hx. fold len. zcases. }
    unfold KERNBASE in Hk. rewrite PGROUNDDOWN_div by lia. set (n := va / 4096). replace (n * 4096) with (4096 * n) by lia.
    destruct (Hall n) as [[u f] E]; [unfold n, last; zlia|]. unfold dir. rewrite (bind_ok _ _ _ _ _ (uva2ka_mapped _ _ _ _ _ _ _ Hu E)).
    assert (Hacc : accessible A n = user_flag f) by (unfold accessible; by rewrite E). destruct (user_flag f).
    2:{ exists (-1), s. split_and!; [done|by apply out_step_refl|]. right. split; [done|]. exists n. split; [unfold n, last; zlia|done]. }
    rewrite (proj2 (Z.eqb_neq u 0)) by (by apply page_ok_nz, (user_page_ok _ _ _ _ _ _ _ Hu E)). unfold PGSIZE. rewrite (u32_small (4096 - _)) by (unfold n; zlia).
    set (m := if len <? 4096 - (va - 4096 * n) then len else 4096 - (va - 4096 * n)).
    assert (Hm : 0 < m <= len /\ (va - 4096 * n) + m <= 4096 /\ (m = len \/ va + m = 4096 * (n + 1))) by (unfold m, n in *; zcases; zlia).
    set (bs1 := take (Z.to_nat m) bs). assert (Hl1 : Z.of_nat (length bs1) = m) by (unfold bs1; rewrite length_take; lia).
    destruct (store_user s F A l n u f (va - 4096 * n) bs1 Hu E) as (Hu1 & Ho1 & Hb1); [unfold n; zlia|lia|].
    set (s1 := set_k_mem _ s) in *. rewrite (bind_ok _ _ s tt s1) by done. replace (4096 * n + (va - 4096 * n)) with va in Hb1 by lia.
    assert (Hs1 : out_step F A l s s1) by (split; [done|done|intros x Hx; apply Ho1; intros a ->%list_elem_of_singleton; apply Hx; by eapply upage_in]).
    set (bs2 := drop (Z.to_nat m) bs). assert (Hl2 : Z.of_nat (length bs2) = len - m) by (unfold bs2; rewrite length_drop; lia).
    rewrite u32_small by (unfold n; zlia). rewrite <- Hl2. replace (4096 * n + 4096) with (4096 * (n + 1)) by lia.
    assert (Elast : (4096 * (n + 1) + Z.of_nat (length bs2) + 4095) / 4096 = last) by (unfold last, n in *; zlia).
    destruct (IH s1 F A l (4096 * (n + 1)) bs2 Hu1) as (r & s' & E' & Hs' & R); rewrite ?Elast; [unfold n; zlia|unfold KERNBASE, n in *; zlia| |unfold n in *; zlia|].
    { intros k Hk'. apply Hall. fold n. zlia. }
    exists r, s'. split_and!; [done|by eapply out_step_trans|]. rewrite Elast in R.
    destruct R as [(-> & Hb & Ha)|(-> & k & Hk' & Ha)]; [left|right; split; [done|]; exists k; split; [unfold n in *; zlia|done]].
    split_and!; [done| |].
    + by apply (bytes_put_twice s s1 s' dir va (4096 * (n + 1)) bs m); try lia.
    + intros _ k Hk'. destruct (decide (k = n)) as [->|Hne]; [done|]. apply Ha; [unfold last, n in *; zlia|unfold n in *; zlia].
Qed.

Lemma copyout_spec s F A l va bs :
  let dir := t_dir (a_tab A) in
  let len := Z.of_nat (length bs) in
  let last := (va + len + 4095) / 4096 in
  vm_user s F A l -> 0 <= va -> va + len <= KERNBASE -> (forall k, va / 4096 <= k < last -> is_Some (a_ups A !! k)) ->
  exists r s', copyout dir va bs len s = Ok r s' /\ out_step F A l s s' /\
    (r = 0 /\ bytes_put s s' dir va bs /\ (0 < len -> forall k, va / 4096 <= k < last -> accessible A k = true) \/
     r = -1 /\ exists k, va / 4096 <= k < last /\ accessible A k = false).
Proof using.
  intros dir len last Hu Hva Hk Hall. unfold copyout. apply copyout_loop_spec; try done. unfold PGSIZE, len. zlia.
Qed.

(** To a kernel address nothing is copied. *)
Lemma copyout_kernel `{!LinkedAt} s F A l va bs len : vm_user s F A l -> kernel_half A -> KERNBASE <= va < 4294967296 -> 0 < len ->
  copyout (t_dir (a_tab A)) va bs len s = Ok (-1) s \/ copyout (t_dir (a_tab A)) va bs len s = Fault "uva2ka: null pte".
Proof using.
  intros Hu Hk Hva Hlen. unfold KERNBASE in Hva. unfold copyout, PGSIZE. destruct (Z.to_nat (len / 4096 + 2)) as [|f] eqn:Ef; [zlia|]. cbn [copyout_loop].
  rewrite (proj2 (Z.ltb_lt 0 len)), PGROUNDDOWN_div by lia. replace (va / 4096 * 4096) with (4096 * (va / 4096)) by lia. unfold mbind, M_bind.
  destruct (uva2ka_kernel s F A l (va / 4096) Hu Hk) as [-> | ->]; [unfold UPN, VPN; zlia|by left|by right].
Qed.

(** ** clearpteu *)

Definition guarded A (n u : Z) : aspace := mkAspace (set_map (a_tab A) n (uentry (Some (u, 3)))) (<[n := (u, 3)]> (a_ups A)).

Lemma clear_user_bit a : 0 <= a < 4294963200 -> a mod 4096 = 0 -> Z.land (a + 7) (u32 (Z.lnot PTE_U)) = a + 3.
Proof using.
  intros Ha Hm. change (u32 (Z.lnot PTE_U)) with (Z.ldiff (Z.ones 32) 4).
  assert (E : Z.land (a + 7) (Z.ldiff (Z.ones 32) 4) = Z.ldiff (a + 7) 4).
  { rewrite !Z.ldiff_land, Z.land_assoc. f_equal. rewrite Z.land_ones by lia. apply Z.mod_small. lia. }
  rewrite E, <- Z.sub_nocarry_ldiff; [lia|]. apply Z.bits_inj'. intros i Hi. rewrite Z.ldiff_spec, Z.bits_0.
  destruct (decide (i = 2)) as [->|Hne].
  - replace (Z.testbit (a + 7) 2) with true; [done|]. symmetry. apply Z.testbit_true; [lia|]. zlia.
  - change 4 with (2 ^ 2). rewrite Z.pow2_bits_eqb by lia. by rewrite (proj2 (Z.eqb_neq 2 i)) by lia.
Qed.

Lemma as_ok_guarded A n u f : as_ok A -> a_ups A !! n = Some (u, f) -> as_ok (guarded A n u).
Proof using.
  intros [H1 H2] E. destruct (H1 n u f E) as (Hn & _). split; cbn [guarded a_ups a_tab].
  - intros k v g. destruct (decide (k = n)) as [->|Hne]; [rewrite lookup_insert_eq; intros [= <- <-]; split_and!; done || lia|].
    rewrite lookup_insert_ne by done. apply H1.
  - intros k Hk. cbn [set_map t_map]. unfold fset. destruct (Z.eqb_spec k n) as [->|Hne]; [by rewrite lookup_insert_eq|].
    rewrite lookup_insert_ne by done. by apply H2.
Qed.

Lemma upages_guarded A n u f : a_ups A !! n = Some (u, f) -> upages (a_ups (guarded A n u)) ≡ₚ upages (a_ups A).
Proof using.
  intros E. cbn [guarded a_ups]. rewrite (upages_delete (a_ups A) n u f E), <- insert_delete_eq. by rewrite upages_insert by apply lookup_delete_eq.
Qed.

Lemma clearpteu_spec s F A l n u : vm_user s F A l -> a_ups A !! n = Some (u, 7) ->
  exists s', clearpteu (t_dir (a_tab A)) (4096 * n) s = Ok tt s' /\ vm_user s' F (guarded A n u) l /\
    keeps (F ++ upages (a_ups A)) s s' /\ s' = set_k_mem (k_mem s') s.
Proof using.
  intros Hu E. destruct (user_pte _ _ _ _ _ _ _ Hu E) as (t & Et & Ew & Hnz & El). pose proof (user_page_ok _ _ _ _ _ _ _ Hu E) as Hp.
  destruct (ao_dom _ (vu_ok _ _ _ _ Hu) _ _ _ E) as (Hn & _). destruct (page_ok_phys u Hp) as (_ & Hb & Hm & _). unfold PHYSTOP in Hb.
  pose proof (set_entry_step s _ _ _ n t (uentry (Some (u, 3))) (vu_tab _ _ _ _ Hu) ltac:(unfold UPN, VPN in *; lia) Et ltac:(cbn; lia)) as Hs.
  exists (set_entry s t n (uentry (Some (u, 3)))). split_and!; [|split| |done].
  - unfold clearpteu. rewrite (bind_ok _ _ _ _ _ Ew), (proj2 (Z.eqb_neq _ _) Hnz), (bind_ok _ _ s tt s) by done.
    unfold ld32. rewrite (bind_ok _ _ s (uentry (Some (u, 7))) s) by (unfold gets; by rewrite El). cbn [uentry]. rewrite clear_user_bit by (done || lia). done.
  - eapply vm_tab_frame; [|apply (vs_tab _ _ _ _ _ _ _ Hs)]. by rewrite (upages_guarded A n u 7 E).
  - eapply as_ok_guarded; [apply Hu|done].
  - apply (vs_keeps _ _ _ _ _ _ _ Hs).
Qed.
End out.
