(* ===== verification/Fs.v ===== *)
(** * fs.c: disk blocks and inodes

    Block allocation, the inode cache and the block map of an inode.  A
    pointer to an inode is its index in [k_icache]. *)

From S2P Require Import Prelude State CString Sleep Ide Bio Log Console.
Open Scope Z_scope.

(** ** Blocks *)

Definition bzero (dev bno : Z) : kM unit :=
  bp ← bread dev bno;
  set_bdata bp zero_block;;
  log_write bp;;
  brelse bp.

Definition BBLOCK (b : Z) (sb : superblock) : Z := u32 (b / BPB + sb_bmapstart sb).
Definition IBLOCK (i : Z) (sb : superblock) : Z := u32 (i / IPB + sb_inodestart sb).

(** The bit of block [bi] in its bitmap block. *)
Definition bmask (bi : Z) : Z := Z.shiftl 1 (bi mod 8).
Definition bused (d : block) (bi : Z) : bool := negb (Z.land (nthz d (bi / 8)) (bmask bi) =? 0).
Definition bmark (d : block) (bi : Z) : block := setz d (bi / 8) (Z.lor (nthz d (bi / 8)) (bmask bi)).
Definition bclear (d : block) (bi : Z) : block :=
  setz d (bi / 8) (Z.land (nthz d (bi / 8)) (u8 (Z.lnot (bmask bi)))).

(** for(bi = 0; bi < BPB && b + bi < sb.size; bi++): the first free bit. *)
Fixpoint balloc_scan (d : block) (b bi size : Z) (n : nat) : option Z :=
  match n with
  | O => None
  | S n' =>
    if b + bi <? size then
      if bused d bi then balloc_scan d b (bi + 1) size n' else Some bi
    else None
  end.

(** for(b = 0; b < sb.size; b += BPB), [n] bitmap blocks to go. *)
Fixpoint balloc_from (dev b : Z) (n : nat) : kM Z :=
  sb ← gets k_sb;
  if b <? sb_size sb then
    match n with
    | O => nofuel
    | S n' =>
      bp ← bread dev (BBLOCK b sb);
      d ← bdata bp;
      match balloc_scan d b 0 (sb_size sb) (Z.to_nat BPB) with
      | Some bi =>
        set_bdata bp (bmark d bi);;
        log_write bp;;
        brelse bp;;
        bzero dev (b + bi);;
        mret (b + bi)
      | None =>
        brelse bp;;
        balloc_from dev (b + BPB) n'
      end
    end
  else panic "balloc: out of blocks".
Definition balloc (dev : Z) : kM Z :=
  sb ← gets k_sb;
  balloc_from dev 0 (Z.to_nat (sb_size sb / BPB + 1)).

(** bfree reads the super block again, into the global [sb]. *)
Definition bfree (dev b : Z) : kM unit :=
  sb ← readsb dev;
  modify (set_k_sb sb);;
  bp ← bread dev (BBLOCK b sb);
  d ← bdata bp;
  let bi := b mod BPB in
  panic_if (negb (bused d bi)) "freeing free block";;
  set_bdata bp (bclear d bi);;
  log_write bp;;
  brelse bp.

(** ** On-disk inodes *)

Definition word16 (d : block) (off : Z) : Z := i16 (le_dec (slice d (Z.to_nat off) 2)).

(** The dinode at byte offset [off] of a block. *)
Definition dec_dinode (d : block) (off : Z) : dinode :=
  mkDinode (word16 d off) (word16 d (off + 2)) (word16 d (off + 4)) (word16 d (off + 6))
    (word32 d (off + 8)) ((fun k : nat => word32 d (off + 12 + 4 * Z.of_nat k)) <$> seq 0 13).
Definition enc_dinode (di : dinode) : list Z :=
  enc16 (di_type di) ++ enc16 (di_major di) ++ enc16 (di_minor di) ++ enc16 (di_nlink di) ++
  enc32 (di_size di) ++ concat (enc32 <$> di_addrs di).
Definition put_dinode (d : block) (off : Z) (di : dinode) : block :=
  splice d (Z.to_nat off) (enc_dinode di).
Definition inode_off (inum : Z) : Z := (inum mod IPB) * DINODE_SIZE.

Definition iinit_locks (s : kernel) : kernel :=
  set_k_icache (set_i_lock (mkSleeplock false 0) <$> k_icache s) s.
Definition iinit (dev : Z) : kM unit :=
  modify iinit_locks;;
  sb ← readsb dev;
  modify (set_k_sb sb);;
  cprintf (str "sb: size %d nblocks %d ninodes %d nlog %d logstart %d inodestart %d bmap start %d" ++ [10])
    [ANum (sb_size sb); ANum (sb_nblocks sb); ANum (sb_ninodes sb); ANum (sb_nlog sb);
     ANum (sb_logstart sb); ANum (sb_inodestart sb); ANum (sb_bmapstart sb)].

(** ** The inode cache *)

Definition icached (dev inum : Z) (ip : inode) : bool :=
  (0 <? i_ref ip) && (i_dev ip =? dev) && (i_inum ip =? inum).

Definition iget (dev inum : Z) : kM nat :=
  ics ← gets k_icache;
  match find (fun i => icached dev inum (ics !!! i)) (seq 0 NINODE) with
  | Some i => upd_inode i (fun ip => set_i_ref (i_ref ip + 1) ip);; mret i
  | None =>
    match find (fun i => i_ref (ics !!! i) =? 0) (seq 0 NINODE) with
    | None => panic "iget: no inodes"
    | Some i =>
      upd_inode i (fun ip => set_i_valid false (set_i_ref 1 (set_i_inum inum (set_i_dev dev ip))));;
      mret i
    end
  end.

Definition idup (ip : nat) : kM nat :=
  upd_inode ip (fun x => set_i_ref (i_ref x + 1) x);;
  mret ip.

(** for(inum = 1; inum < sb.ninodes; inum++), [n] inodes to go. *)
Fixpoint ialloc_from (dev ty inum : Z) (n : nat) : kM nat :=
  match n with
  | O => panic "ialloc: no inodes"
  | S n' =>
    sb ← gets k_sb;
    bp ← bread dev (IBLOCK inum sb);
    d ← bdata bp;
    if di_type (dec_dinode d (inode_off inum)) =? 0 then
      set_bdata bp (put_dinode d (inode_off inum) (mkDinode ty 0 0 0 0 (replicate 13 0)));;
      log_write bp;;
      brelse bp;;
      iget dev inum
    else
      brelse bp;;
      ialloc_from dev ty (inum + 1) n'
  end.
Definition ialloc (dev ty : Z) : kM nat :=
  sb ← gets k_sb;
  ialloc_from dev ty 1 (Z.to_nat (sb_ninodes sb - 1)).

Definition dinode_of (x : inode) : dinode :=
  mkDinode (i_type x) (i_major x) (i_minor x) (i_nlink x) (i_size x) (i_addrs x).

Definition iupdate (ip : nat) : kM unit :=
  x ← get_inode ip;
  sb ← gets k_sb;
  bp ← bread (i_dev x) (IBLOCK (i_inum x) sb);
  d ← bdata bp;
  set_bdata bp (put_dinode d (inode_off (i_inum x)) (dinode_of x));;
  log_write bp;;
  brelse bp.

Definition ilock (ip : nat) : kM unit :=
  x ← get_inode ip;
  panic_if (i_ref x <? 1) "ilock";;
  acquiresleep (inode_lock ip);;
  x ← get_inode ip;
  if i_valid x then mret tt
  else
    sb ← gets k_sb;
    bp ← bread (i_dev x) (IBLOCK (i_inum x) sb);
    d ← bdata bp;
    let di := dec_dinode d (inode_off (i_inum x)) in
    upd_inode ip (fun x => set_i_type (di_type di) (set_i_major (di_major di) (set_i_minor (di_minor di)
      (set_i_nlink (di_nlink di) (set_i_size (di_size di) (set_i_addrs (di_addrs di) x))))));;
    brelse bp;;
    upd_inode ip (set_i_valid true);;
    panic_if (di_type di =? 0) "ilock: no type".

Definition iunlock (ip : nat) : kM unit :=
  h ← holdingsleep (inode_lock ip);
  x ← get_inode ip;
  panic_if (negb h || (i_ref x <? 1)) "iunlock";;
  releasesleep (inode_lock ip).

(** ** The blocks of an inode *)

(** Element [i] of an array of words in a block. *)
Definition aref (d : block) (i : Z) : Z := word32 d (4 * i).

Definition bmap (ip : nat) (bn : Z) : kM Z :=
  x ← get_inode ip;
  if bn <? NDIRECT then
    let addr := nthz (i_addrs x) bn in
    if addr =? 0 then
      addr ← balloc (i_dev x);
      upd_inode ip (fun x => set_i_addrs (setz (i_addrs x) bn addr) x);;
      mret addr
    else mret addr
  else
    let bn := bn - NDIRECT in
    if bn <? NINDIRECT then
      addr ← (let addr := nthz (i_addrs x) NDIRECT in
              if addr =? 0 then
                addr ← balloc (i_dev x);
                upd_inode ip (fun x => set_i_addrs (setz (i_addrs x) NDIRECT addr) x);;
                mret addr
              else mret addr);
      bp ← bread (i_dev x) addr;
      d ← bdata bp;
      addr ← (if aref d bn =? 0 then
                addr ← balloc (i_dev x);
                d ← bdata bp;
                set_bdata bp (put32 d (4 * bn) addr);;
                log_write bp;;
                mret addr
              else mret (aref d bn));
      brelse bp;;
      mret addr
    else panic "bmap: out of range".

(** for(i = 0; i < NDIRECT; i++), [n] entries to go. *)
Fixpoint itrunc_direct (ip : nat) (i : Z) (n : nat) : kM unit :=
  match n with
  | O => mret tt
  | S n' =>
    x ← get_inode ip;
    (when negb (nthz (i_addrs x) i =? 0) do
       (bfree (i_dev x) (nthz (i_addrs x) i);;
        upd_inode ip (fun x => set_i_addrs (setz (i_addrs x) i 0) x)));;
    itrunc_direct ip (i + 1) n'
  end.
(** for(j = 0; j < NINDIRECT; j++) *)
Fixpoint itrunc_indirect (dev : Z) (bp : nat) (j : Z) (n : nat) : kM unit :=
  match n with
  | O => mret tt
  | S n' =>
    d ← bdata bp;
    (when negb (aref d j =? 0) do bfree dev (aref d j));;
    itrunc_indirect dev bp (j + 1) n'
  end.
Definition itrunc (ip : nat) : kM unit :=
  itrunc_direct ip 0 (Z.to_nat NDIRECT);;
  x ← get_inode ip;
  let a := nthz (i_addrs x) NDIRECT in
  (when negb (a =? 0) do
     (bp ← bread (i_dev x) a;
      itrunc_indirect (i_dev x) bp 0 (Z.to_nat NINDIRECT);;
      brelse bp;;
      bfree (i_dev x) a;;
      upd_inode ip (fun x => set_i_addrs (setz (i_addrs x) NDIRECT 0) x)));;
  upd_inode ip (set_i_size 0);;
  iupdate ip.

Definition iput (ip : nat) : kM unit :=
  acquiresleep (inode_lock ip);;
  x ← get_inode ip;
  (when i_valid x && (i_nlink x =? 0) do
     (when i_ref x =? 1 do
        (itrunc ip;;
         upd_inode ip (set_i_type 0);;
         iupdate ip;;
         upd_inode ip (set_i_valid false))));;
  releasesleep (inode_lock ip);;
  upd_inode ip (fun x => set_i_ref (i_ref x - 1) x).

Definition iunlockput (ip : nat) : kM unit :=
  iunlock ip;;
  iput ip.

(** stati: the fields of struct stat. *)
Record stat := mkStat { st_type : Z; st_dev : Z; st_ino : Z; st_nlink : Z; st_size : Z }.
Definition stati (x : inode) : stat :=
  mkStat (i_type x) (i_dev x) (i_inum x) (i_nlink x) (i_size x).
