(* ===== verification/FsFile.v ===== *)
(** * fs.c and console.c: the contents of files, directories and paths

    Reading gives the bytes that the code stores at the destination pointer,
    writing takes the bytes at the source pointer, so that these definitions
    do not depend on where the caller's buffer is.  A path is the list of its
    characters. *)

From S2P Require Import Prelude State CString Sleep Ide Bio Log Console Fs.
Open Scope Z_scope.

(** ** The console device *)

(** while(n > 0): the value of n at the end, or that the caller was killed, and
    the characters stored. *)
Fixpoint consoleread_loop (n : nat) (target : nat) : kM (option nat * list Z) :=
  match n with
  | O => mret (Some O, [])
  | S n' =>
    k ← gets k_cons;
    if in_r k =? in_w k then
      p ← myproc;
      q ← get_proc p;
      if p_killed q then mret (None, []) else sleep ChInput
    else
      let c := nthz (in_buf k) (in_r k mod INPUT_BUF) in
      upd_cons (fun k => set_in_r (u32 (in_r k + 1)) k);;
      if c =? ctl 68 then
        (when bool_decide (n < target)%nat do upd_cons (fun k => set_in_r (u32 (in_r k - 1)) k));;
        mret (Some n, [])
      else if c =? 10 then mret (Some n', [c])
      else
        r ← consoleread_loop n' target;
        mret (r.1, c :: r.2)
  end.
Definition consoleread (ip : nat) (n : Z) : kM (Z * list Z) :=
  iunlock ip;;
  r ← consoleread_loop (Z.to_nat n) (Z.to_nat n);
  ilock ip;;
  match r with
  | (Some m, l) => mret (n - Z.of_nat m, l)
  | (None, l) => mret (-1, l)
  end.

Definition consolewrite (ip : nat) (buf : list Z) (n : Z) : kM Z :=
  iunlock ip;;
  consputs (take (Z.to_nat n) buf);;
  ilock ip;;
  mret n.

(** devsw: the functions that consoleinit installs at CONSOLE. *)
Definition CONSOLE : Z := 1.
Definition consoleinit : kM unit :=
  modify (fun s => set_k_devwrite (setz (k_devwrite s) CONSOLE DevConsole)
    (set_k_devread (setz (k_devread s) CONSOLE DevConsole) s));;
  upd_cons (set_cons_locking true).

Definition dev_at (l : list devfn) (major : Z) : devfn := default DevNull (l !! Z.to_nat major).

(** ** File contents *)

(** for(tot=0; tot<n; ...), [rem] bytes to go: the bytes stored. *)
Fixpoint readi_loop (ip : nat) (off rem : Z) (fuel : nat) : kM (list Z) :=
  if 0 <? rem then
    match fuel with
    | O => nofuel
    | S f =>
      x ← get_inode ip;
      addr ← bmap ip (off / BSIZE);
      bp ← bread (i_dev x) addr;
      d ← bdata bp;
      let m := Z.min rem (BSIZE - off mod BSIZE) in
      brelse bp;;
      r ← readi_loop ip (off + m) (rem - m) f;
      mret (slice d (Z.to_nat (off mod BSIZE)) (Z.to_nat m) ++ r)
    end
  else mret [].

(** Every iteration but the first and the last reads a block. *)
Definition readi (ip : nat) (off n : Z) : kM (Z * list Z) :=
  x ← get_inode ip;
  if i_type x =? T_DEV then
    if (i_major x <? 0) || (NDEV <=? i_major x) then mret (-1, [])
    else
      dr ← gets k_devread;
      match dev_at dr (i_major x) with
      | DevNull => mret (-1, [])
      | DevConsole => consoleread ip (i32 n)
      end
  else if (i_size x <? off) || (u32 (off + n) <? off) then mret (-1, [])
  else
    let n := if i_size x <? u32 (off + n) then i_size x - off else n in
    l ← readi_loop ip off n (Z.to_nat (n / BSIZE + 2));
    mret (i32 n, l).

(** The bytes [src] stored from offset [off] on: the offset at the end. *)
Fixpoint writei_loop (ip : nat) (src : list Z) (off rem : Z) (fuel : nat) : kM Z :=
  if 0 <? rem then
    match fuel with
    | O => nofuel
    | S f =>
      x ← get_inode ip;
      addr ← bmap ip (off / BSIZE);
      bp ← bread (i_dev x) addr;
      d ← bdata bp;
      let m := Z.min rem (BSIZE - off mod BSIZE) in
      set_bdata bp (splice d (Z.to_nat (off mod BSIZE)) (take (Z.to_nat m) src));;
      log_write bp;;
      brelse bp;;
      writei_loop ip (drop (Z.to_nat m) src) (off + m) (rem - m) f
    end
  else mret off.

Definition writei (ip : nat) (src : list Z) (off n : Z) : kM Z :=
  x ← get_inode ip;
  if i_type x =? T_DEV then
    if (i_major x <? 0) || (NDEV <=? i_major x) then mret (-1)
    else
      dw ← gets k_devwrite;
      match dev_at dw (i_major x) with
      | DevNull => mret (-1)
      | DevConsole => consolewrite ip src (i32 n)
      end
  else if (i_size x <? off) || (u32 (off + n) <? off) then mret (-1)
  else if MAXFILE * BSIZE <? u32 (off + n) then mret (-1)
  else
    off ← writei_loop ip src off n (Z.to_nat (n / BSIZE + 2));
    x ← get_inode ip;
    (when (0 <? n) && (i_size x <? off) do
       (upd_inode ip (set_i_size off);; iupdate ip));;
    mret (i32 n).

(** ** Directories *)

Definition namecmp (s t : list Z) : Z := strncmp (ptr_list s) (ptr_list t) DIRSIZ.

(** struct dirent *)
Definition de_inum (de : list Z) : Z := le_dec (take 2 de).
Definition de_name (de : list Z) : list Z := drop 2 de.
Definition enc_dirent (inum : Z) (name : list Z) : list Z := enc16 inum ++ name.

(** for(off = 0; off < dp->size; off += sizeof(de)) *)
Fixpoint dirlookup_from (dp : nat) (name : list Z) (off : Z) (fuel : nat) : kM (option (nat * Z)) :=
  x ← get_inode dp;
  if off <? i_size x then
    match fuel with
    | O => nofuel
    | S f =>
      r ← readi dp off DIRENT_SIZE;
      panic_if (negb (r.1 =? DIRENT_SIZE)) "dirlookup read";;
      let de := r.2 in
      if de_inum de =? 0 then dirlookup_from dp name (u32 (off + DIRENT_SIZE)) f
      else if namecmp name (de_name de) =? 0 then
        ip ← iget (i_dev x) (de_inum de);
        mret (Some (ip, off))
      else dirlookup_from dp name (u32 (off + DIRENT_SIZE)) f
    end
  else mret None.
(** The inode, and the offset of its entry. *)
Definition dirlookup (dp : nat) (name : list Z) : kM (option (nat * Z)) :=
  x ← get_inode dp;
  panic_if (negb (i_type x =? T_DIR)) "dirlookup not DIR";;
  dirlookup_from dp name 0 (Z.to_nat (i_size x / DIRENT_SIZE + 1)).

(** The offset of an empty entry, or the end of the directory. *)
Fixpoint dirlink_slot (dp : nat) (off : Z) (fuel : nat) : kM Z :=
  x ← get_inode dp;
  if off <? i_size x then
    match fuel with
    | O => nofuel
    | S f =>
      r ← readi dp off DIRENT_SIZE;
      panic_if (negb (r.1 =? DIRENT_SIZE)) "dirlink read";;
      if de_inum r.2 =? 0 then mret off
      else dirlink_slot dp (off + DIRENT_SIZE) f
    end
  else mret off.
Definition dirlink (dp : nat) (name : list Z) (inum : Z) : kM Z :=
  r ← dirlookup dp name;
  match r with
  | Some (ip, _) => iput ip;; mret (-1)
  | None =>
    x ← get_inode dp;
    off ← dirlink_slot dp 0 (Z.to_nat (i_size x / DIRENT_SIZE + 1));
    r ← writei dp (enc_dirent inum (strncpy (ptr_list name) DIRSIZ)) off DIRENT_SIZE;
    panic_if (negb (r =? DIRENT_SIZE)) "dirlink";;
    mret 0
  end.

(** ** Paths *)

Definition SLASH : Z := 47.

(** while( *path == '/') path++; *)
Fixpoint skip_slashes (path : list Z) : list Z :=
  match path with
  | c :: path' => if c =? SLASH then skip_slashes path' else path
  | [] => []
  end.
(** while( *path != '/' && *path != 0) path++; the characters passed over and
    the rest. *)
Fixpoint take_elem (path : list Z) : list Z * list Z :=
  match path with
  | c :: path' =>
    if (c =? SLASH) || (c =? 0) then ([], path)
    else let '(e, r) := take_elem path' in (c :: e, r)
  | [] => ([], [])
  end.

(** [name] is the buffer of DIRSIZ bytes that is overwritten. *)
Definition skipelem (path name : list Z) : option (list Z * list Z) :=
  let path := skip_slashes path in
  match path with
  | [] => None
  | c :: _ =>
    if c =? 0 then None
    else
      let '(e, r) := take_elem path in
      let name := if (DIRSIZ <=? length e)%nat then splice name 0 (take DIRSIZ e)
                  else splice name 0 (e ++ [0]) in
      Some (skip_slashes r, name)
  end.

(** Whether *path is '\0'. *)
Definition at_end (path : list Z) : bool := match path with [] => true | c :: _ => c =? 0 end.

(** while((path = skipelem(path, name)) != 0) *)
Fixpoint namex_loop (ip : nat) (path : list Z) (parent : bool) (name : list Z) (fuel : nat)
    : kM (option nat * list Z) :=
  match skipelem path name with
  | None =>
    if parent then iput ip;; mret (None, name) else mret (Some ip, name)
  | Some (path, name) =>
    match fuel with
    | O => nofuel
    | S f =>
      ilock ip;;
      x ← get_inode ip;
      if negb (i_type x =? T_DIR) then iunlockput ip;; mret (None, name)
      else if parent && at_end path then iunlock ip;; mret (Some ip, name)
      else
        next ← dirlookup ip name;
        match next with
        | None => iunlockput ip;; mret (None, name)
        | Some (nip, _) => iunlockput ip;; namex_loop nip path parent name f
        end
    end
  end.
(** The inode, and the name buffer; one iteration per path element. *)
Definition namex (path : list Z) (parent : bool) (name : list Z) : kM (option nat * list Z) :=
  ip ← (match path with
        | c :: _ =>
          if c =? SLASH then iget ROOTDEV ROOTINO
          else p ← myproc; q ← get_proc p;
               match p_cwd q with Some i => idup i | None => fault "namex: no cwd" end
        | [] => p ← myproc; q ← get_proc p;
                match p_cwd q with Some i => idup i | None => fault "namex: no cwd" end
        end);
  namex_loop ip path parent name (length path).

(** The name buffer on the stack, whose initial contents do not matter. *)
Definition namei (path : list Z) : kM (option nat) :=
  r ← namex path false (replicate DIRSIZ 0);
  mret r.1.
Definition nameiparent (path : list Z) : kM (option nat * list Z) :=
  namex path true (replicate DIRSIZ 0).

(** ** Swap *)

Definition SWAPBASE : Z := 500.
Definition SWAPMAX : Z := 100000 - SWAPBASE.

(** for (i=0; i < 8; ++i), [n] blocks to go: the bytes stored. *)
Fixpoint swapread_loop (blkno i : Z) (n : nat) : kM (list Z) :=
  match n with
  | O => mret []
  | S n' =>
    bp ← bread 0 (u32 (blkno + SWAPBASE + i));
    d ← bdata bp;
    brelse bp;;
    r ← swapread_loop blkno (i + 1) n';
    mret (d ++ r)
  end.
Definition swapread (blkno : Z) : kM (list Z) :=
  panic_if ((blkno <? 0) || (SWAPMAX <=? blkno)) "swapread: blkno exceed range";;
  swapread_loop blkno 0 8.

Fixpoint swapwrite_loop (src : list Z) (blkno i : Z) (n : nat) : kM unit :=
  match n with
  | O => mret tt
  | S n' =>
    bp ← bread 0 (u32 (blkno + SWAPBASE + i));
    set_bdata bp (take 512 src);;
    bwrite bp;;
    brelse bp;;
    swapwrite_loop (drop 512 src) blkno (i + 1) n'
  end.
Definition swapwrite (src : list Z) (blkno : Z) : kM unit :=
  panic_if ((blkno <? 0) || (SWAPMAX <=? blkno)) "swapread: blkno exceed range";;
  swapwrite_loop src blkno 0 8.
