(* ===== verification/ConsoleProps.v ===== *)
(** * The console: output, numbers and the input line (console.c)

    The screen never overflows its cursor, every character reaches the serial
    line in order, printint writes what it is given, and the input ring with
    its three indices is a line editor: a list of finished characters and the
    line being typed. *)

From S2P Require Import Prelude State CString Sleep Ide Bio Log Console ConsoleOut Fs FsFile.
Open Scope Z_scope.

(** ** Output *)

(** Console output never runs off the screen.  With the kernel not
    panicked and the cursor in the first 24 rows, cprintf of any text returns;
    the cursor is again in the first 24 rows, the input buffer is untouched,
    and if there is a serial line the formatted text was sent on it, in
    order. *)
Theorem cprintf_output fmt args l s :
  format fmt args = Some l -> cons_ok (k_cons s) ->
  exists k', cprintf fmt args s = Ok tt (set_k_cons k' s) /\ cons_ok k' /\
    (in_buf k', in_r k', in_w k', in_e k') =
      (in_buf (k_cons s), in_r (k_cons s), in_w (k_cons s), in_e (k_cons s)) /\
    (uart (k_cons s) = true -> rev (uart_out k') = rev (uart_out (k_cons s)) ++ (l ≫= uart_bytes)).
Proof.
  intros E Hk. destruct (cprintf_ok fmt args l s E Hk) as (k' & Ec & [P1 P2 P3 P4]).
  exists k'. split_and!; try done. intros Hu. by rewrite P2, Hu, rev_app_distr, rev_involutive.
Qed.

Lemma cprintf_output_witness :
  exists k', cprintf (str "apicid %d" ++ [10]) [ANum 42] inhabitant = Ok tt (set_k_cons k' inhabitant) /\
    cons_ok k'.
Proof.
  destruct (cprintf_output (str "apicid %d" ++ [10]) [ANum 42] (str "apicid 42" ++ [10]) inhabitant)
    as (k' & E & H & _); [reflexivity|by split|]. exists k'. split; [exact E|exact H].
Defined.

(** ** Numbers *)

(** How a reader takes the digits: the value of a character, and of a string
    of them, most significant first. *)
Definition digit_val (c : Z) : Z :=
  if (48 <=? c) && (c <=? 57) then c - 48 else if (97 <=? c) && (c <=? 102) then c - 87 else -1.
Definition num (base : Z) (l : list Z) : Z := foldl (fun a c => a * base + digit_val c) 0 l.

Lemma digit_val_digits i : 0 <= i < 16 -> digit_val (nthz digits i) = i.
Proof.
  intros Hi. assert (H : Forall (fun i => digit_val (nthz digits (Z.of_nat i)) = Z.of_nat i) (seq 0 16)).
  { repeat (constructor; [reflexivity|]). constructor. }
  rewrite Forall_forall in H. specialize (H (Z.to_nat i)). rewrite Z2Nat.id in H by lia. apply H.
  apply elem_of_seq. lia.
Qed.

Lemma num_snoc base l c : num base (l ++ [c]) = num base l * base + digit_val c.
Proof. unfold num. by rewrite foldl_app. Qed.

Lemma printint_digits_num base n : 2 <= base <= 16 -> forall x,
  0 <= x < base ^ Z.of_nat (S n) ->
  num base (rev (printint_digits x base (S n))) = x /\
  Forall (fun c => 0 <= digit_val c < base) (printint_digits x base (S n)) /\
  printint_digits x base (S n) <> [] /\
  forall k, (1 <= k)%nat -> x < base ^ Z.of_nat k -> (length (printint_digits x base (S n)) <= k)%nat.
Proof.
  intros Hb. induction n as [|n IH]; intros x Hx.
  - assert (Hm : 0 <= x mod base < base) by (apply Z.mod_pos_bound; lia). cbn in Hx. rewrite Z.pow_1_r in Hx.
    cbn [printint_digits]. rewrite Z.div_small by lia. cbn [Z.eqb rev app]. split_and!.
    + unfold num. cbn. rewrite digit_val_digits by lia. apply Z.mod_small. lia.
    + constructor; [|constructor]. rewrite digit_val_digits; lia.
    + done.
    + intros k Hk _. cbn. lia.
  - assert (Hm : 0 <= x mod base < base) by (apply Z.mod_pos_bound; lia).
    assert (Hd : x = base * (x / base) + x mod base) by (apply Z.div_mod; lia).
    remember (S n) as n' eqn:En. cbn [printint_digits]. destruct (Z.eqb_spec (x / base) 0) as [H0|H0].
    + cbn. split_and!; [|constructor; [rewrite digit_val_digits; lia|constructor]|done|lia].
      unfold num. cbn. rewrite digit_val_digits by lia. lia.
    + assert (Hq : 0 <= x / base < base ^ Z.of_nat (S n)).
      { split; [apply Z.div_pos; lia|]. apply Z.div_lt_upper_bound; [lia|]. subst n'.
        rewrite (Nat2Z.inj_succ (S n)), Z.pow_succ_r in Hx by lia. lia. }
      subst n'. destruct (IH (x / base) Hq) as (I1 & I2 & I3 & I4). split_and!.
      * cbn [rev]. rewrite num_snoc, I1, digit_val_digits by lia. lia.
      * constructor; [rewrite digit_val_digits; lia|done].
      * done.
      * intros k Hk Hx'. cbn [length]. destruct k as [|[|k]]; [lia| |].
        { rewrite Z.pow_1_r in Hx'. rewrite Z.div_small in H0; lia. }
        specialize (I4 (S k) ltac:(lia)). assert (x / base < base ^ Z.of_nat (S k)); [|specialize (I4 H); lia].
        apply Z.div_lt_upper_bound; [lia|]. rewrite (Nat2Z.inj_succ (S k)), Z.pow_succ_r in Hx' by lia. lia.
Qed.

(** printint writes the number it is given.  For decimal and hexadecimal,
    the characters are an optional minus sign and digits of the base that read
    back as the magnitude (INT_MIN included, and the unsigned value when the
    sign is not asked for), and with the sign there are at most 11 of them, so
    that the 16 bytes of buf suffice. *)
Theorem printint_reads_back xx base sign :
  (base = 10 \/ base = 16) -> -2147483648 <= xx < 2147483648 ->
  let neg := sign && (xx <? 0) in
  exists ds, printint xx base sign = (if neg then [45] else []) ++ ds /\
    num base ds = (if neg then - xx else u32 xx) /\
    Forall (fun c => 0 <= digit_val c < base) ds /\ ds <> [] /\
    (length (printint xx base sign) <= 11)%nat.
Proof.
  intros Hb Hx neg. unfold printint. fold neg. set (x := if neg then u32 (- xx) else u32 xx).
  assert (Hr : 0 <= x < 4294967296) by (unfold x; destruct neg; apply u32_range).
  assert (H10 : x < base ^ Z.of_nat 10).
  { destruct Hb as [-> | ->]; cbn; lia. }
  assert (H32 : x < base ^ Z.of_nat 32).
  { destruct Hb as [-> | ->]; [change (10 ^ Z.of_nat 32) with 100000000000000000000000000000000|]; cbn; lia. }
  destruct (printint_digits_num base 31 ltac:(lia) x ltac:(lia)) as (N1 & N2 & N3 & N4).
  specialize (N4 10%nat ltac:(lia) H10).
  exists (rev (printint_digits x base 32)). rewrite rev_app_distr. split_and!.
  - by destruct neg.
  - rewrite N1. unfold x. destruct neg eqn:E; [|done]. apply andb_true_iff in E as [_ E]. apply u32_small. lia.
  - by apply Forall_rev.
  - intros E. apply N3. rewrite <- (rev_involutive (printint_digits x base 32)), E. done.
  - rewrite length_app, !length_rev. destruct neg; cbn [length]; lia.
Qed.

Lemma printint_reads_back_witness :
  exists ds, printint (-2147483648) 10 true = [45] ++ ds /\ num 10 ds = 2147483648.
Proof.
  destruct (printint_reads_back (-2147483648) 10 true) as (ds & E & N & _); [by left|lia|].
  exists ds. split; [exact E|exact N].
Defined.

(** ** The input line *)

(** [d] is what a reader can take, [p] the line being typed; both are in the
    ring, and their indices wrap around at 2^32. *)
Record line (k : consstate) (d p : list Z) : Prop := mkLine {
  ln_len : length (in_buf k) = 128%nat;
  ln_r : 0 <= in_r k < 4294967296;
  ln_w : in_w k = u32 (in_r k + Z.of_nat (length d));
  ln_e : in_e k = u32 (in_r k + Z.of_nat (length d + length p));
  ln_bound : Z.of_nat (length d + length p) <= INPUT_BUF;
  ln_data : forall i c, (d ++ p) !! i = Some c -> nthz (in_buf k) ((in_r k + Z.of_nat i) mod INPUT_BUF) = c }.

(** The line discipline: what a typed character does to the two lists. *)
Definition edit (c : Z) (dp : list Z * list Z) : list Z * list Z :=
  let '(d, p) := dp in
  if c =? ctl 80 then (d, p)
  else if c =? ctl 85 then (d, [])
  else if (c =? ctl 72) || (c =? 127) then (d, take (length p - 1) p)
  else if negb (c =? 0) && (Z.of_nat (length d + length p) <? INPUT_BUF) then
    let c := if c =? 13 then 10 else c in
    let p := p ++ [c] in
    if (c =? 10) || (c =? ctl 68) || (Z.of_nat (length d + length p) =? INPUT_BUF) then (d ++ p, []) else (d, p)
  else (d, p).

Lemma line_same k k' d p :
  (in_buf k', in_r k', in_w k', in_e k') = (in_buf k, in_r k, in_w k, in_e k) -> line k d p -> line k' d p.
Proof. intros E [H1 H2 H3 H4 H5 H6]. injection E as E1 E2 E3 E4. split; by rewrite ?E1, ?E2, ?E3, ?E4. Qed.

Lemma line_index n i : 0 <= n < 4294967296 -> 0 <= i <= INPUT_BUF -> u32 (n + i) mod INPUT_BUF = (n + i) mod INPUT_BUF.
Proof. unfold INPUT_BUF. intros. zlia. Qed.

Lemma line_idle k d p : line k d p -> (in_e k =? in_w k) = bool_decide (p = []).
Proof.
  intros [_ H2 H3 H4 H5 _]. rewrite H3, H4. unfold INPUT_BUF in H5. destruct p as [|c p].
  - cbn. rewrite Nat.add_0_r. apply Z.eqb_refl.
  - rewrite bool_decide_eq_false_2 by done. apply Z.eqb_neq. cbn [length] in *. zlia.
Qed.

Lemma line_room k d p : line k d p -> u32 (in_e k - in_r k) = Z.of_nat (length d + length p).
Proof. intros [_ H2 _ H4 H5 _]. rewrite H4. unfold INPUT_BUF in H5. zlia. Qed.

Lemma line_back k d p c : line k d (p ++ [c]) -> line (set_in_e (u32 (in_e k - 1)) k) d p.
Proof.
  intros [H1 H2 H3 H4 H5 H6]. rewrite length_app in *. cbn [length] in *.
  split; ksimpl; try done; [|lia|].
  - rewrite H4. unfold INPUT_BUF in H5. zlia.
  - intros i x Hi. apply H6. rewrite app_assoc. by apply lookup_app_l_Some.
Qed.

Lemma line_last k d p c : line k d (p ++ [c]) -> nthz (in_buf k) (u32 (in_e k - 1) mod INPUT_BUF) = c.
Proof.
  intros [H1 H2 H3 H4 H5 H6]. rewrite length_app in *. cbn [length] in *.
  rewrite <- (H6 (length d + length p)%nat c).
  - f_equal. rewrite H4. unfold INPUT_BUF in *. zlia.
  - rewrite app_assoc. apply lookup_app_Some. right. rewrite length_app. split; [lia|].
    by replace (length d + length p - (length d + length p))%nat with O by lia.
Qed.

Lemma line_put k d p c : line k d p -> Z.of_nat (length d + length p) < INPUT_BUF ->
  line (set_in_e (u32 (in_e k + 1)) (set_in_buf (setz (in_buf k) (in_e k mod INPUT_BUF) c) k)) d (p ++ [c]).
Proof.
  intros [H1 H2 H3 H4 H5 H6] Hl. unfold INPUT_BUF in *.
  split; ksimpl; rewrite ?length_app, ?length_setz; cbn [length]; try done.
  - rewrite H4, u32_add_l. f_equal. lia.
  - unfold INPUT_BUF. lia.
  - intros i x Hi. rewrite H4, line_index by (unfold INPUT_BUF; lia). unfold INPUT_BUF.
    rewrite app_assoc in Hi. apply lookup_app_Some in Hi as [Hi|[Hi Hx]].
    + pose proof (lookup_lt_Some _ _ _ Hi) as Hlt. rewrite length_app in Hlt.
      rewrite nthz_setz_ne; [by apply H6|zlia|zlia|]. intros E. zlia.
    + apply list_lookup_singleton_Some in Hx as [Hx <-]. rewrite length_app in *.
      replace i with (length d + length p)%nat by lia. apply nthz_setz_eq. rewrite H1. zlia.
Qed.

Lemma line_commit k d p : line k d p -> line (set_in_w (in_e k) k) (d ++ p) [].
Proof.
  intros [H1 H2 H3 H4 H5 H6]. split; ksimpl; rewrite ?length_app, ?app_nil_r; cbn [length]; try done.
  - by rewrite Nat.add_0_r.
  - by rewrite Nat.add_0_r.
Qed.

(** consputc after a change of the line. *)
Lemma line_echo c s d p : cons_ok (k_cons s) -> line (k_cons s) d p ->
  exists k', consputc c s = Ok tt (set_k_cons k' s) /\ cons_ok k' /\ line k' d p.
Proof.
  intros Hk Hl. destruct (consputc_ok c s Hk) as (k' & E & [P1 _ _ P4]). exists k'.
  split_and!; [done|done|]. by apply (line_same (k_cons s)).
Qed.

Lemma kill_line_ok p : forall s d fuel, cons_ok (k_cons s) -> line (k_cons s) d p -> 10 ∉ p -> (length p <= fuel)%nat ->
  exists k', kill_line fuel s = Ok tt (set_k_cons k' s) /\ cons_ok k' /\ line k' d [].
Proof.
  induction p as [|c p IH] using rev_ind; intros s d fuel Hk Hl Hn Hf.
  - exists (k_cons s). split_and!; [|done|done]. destruct fuel; cbn [kill_line]; unfold gets, mbind, M_bind;
      rewrite (line_idle _ _ _ Hl), bool_decide_eq_true_2 by done; by destruct s.
  - rewrite length_app in Hf. cbn in Hf. destruct fuel as [|fuel]; [lia|]. cbn [kill_line].
    unfold gets. unfold mbind at 1, M_bind at 1.
    rewrite (line_idle _ _ _ Hl), bool_decide_eq_false_2, (line_last _ _ _ _ Hl) by (intros E; by destruct p).
    rewrite (proj2 (Z.eqb_neq c 10)) by set_solver. cbn [negb andb].
    unfold upd_cons, modify. unfold mbind at 1, M_bind at 1.
    set (s1 := set_k_cons _ s). destruct (line_echo BACKSPACE s1 d p) as (k1 & E1 & Hk1 & Hl1).
    { destruct Hk. by split. }
    { by apply (line_back _ _ _ c). }
    rewrite (bind_ok _ _ _ _ _ E1).
    destruct (IH (set_k_cons k1 s1) d fuel) as (k' & E' & H'); [done|done|set_solver|lia|].
    exists k'. rewrite E'. done.
Qed.

Lemma line_pending k d p : line k d p -> u32 (in_e k - in_w k) = Z.of_nat (length p).
Proof. intros [_ H2 H3 H4 H5 _]. rewrite H3, H4. unfold INPUT_BUF in H5. zlia. Qed.

Lemma line_full k d p : line k d p -> (in_e k =? u32 (in_r k + INPUT_BUF)) = (Z.of_nat (length d + length p) =? INPUT_BUF).
Proof.
  intros [_ H2 _ H4 H5 _]. rewrite H4. unfold INPUT_BUF in *.
  destruct (Z.eqb_spec (Z.of_nat (length d + length p)) 128) as [->|]; [apply Z.eqb_refl|]. apply Z.eqb_neq. zlia.
Qed.

(** The console after some typing: the line as edited, and nothing else but
    the sleepers on the input that were woken. *)
Record typed (s s' : kernel) (dp : list Z * list Z) : Prop := mkTyped {
  ty_ok : cons_ok (k_cons s');
  ty_line : line (k_cons s') dp.1 dp.2;
  ty_open : 10 ∉ dp.2;
  ty_woken : woken (k_ptable s) (k_ptable s');
  ty_rest : s' = set_k_ptable (k_ptable s') (set_k_cons (k_cons s') s) }.

Lemma typed_cons s k' d p :
  cons_ok k' -> line k' d p -> 10 ∉ p -> typed s (set_k_cons k' s) (d, p).
Proof. intros. split; ksimpl; try done. Qed.

Lemma typed_trans s1 s2 s3 dp dp' : typed s1 s2 dp -> typed s2 s3 dp' -> typed s1 s3 dp'.
Proof.
  intros [A1 A2 A3 A4 A5] [B1 B2 B3 B4 B5]. split; [done|done|done|by transitivity (k_ptable s2)|].
  rewrite B5, A5. ksimpl. done.
Qed.

(** The default case of the switch: a character is added to the line. *)
Lemma type_char c s d p :
  cons_ok (k_cons s) -> line (k_cons s) d p -> 10 ∉ p -> 0 < c < 256 -> Z.of_nat (length d + length p) < INPUT_BUF ->
  c <> 13 ->
  exists s',
    (upd_cons (fun k => set_in_e (u32 (in_e k + 1)) (set_in_buf (setz (in_buf k) (in_e k mod INPUT_BUF) (u8 c)) k));;
     consputc c;;
     k ← gets k_cons;
     when (c =? 10) || (c =? ctl 68) || (in_e k =? u32 (in_r k + INPUT_BUF)) do
       (upd_cons (fun k => set_in_w (in_e k) k);; wakeup ChInput)) s = Ok tt s' /\
    typed s s' (if (c =? 10) || (c =? ctl 68) || (Z.of_nat (length d + length (p ++ [c])) =? INPUT_BUF)
                then (d ++ p ++ [c], []) else (d, p ++ [c])).
Proof.
  intros Hk Hl Hn Hc Hr H13. replace (u8 c) with c by zlia.
  set (s1 := set_k_cons (set_in_e (u32 (in_e (k_cons s) + 1))
    (set_in_buf (setz (in_buf (k_cons s)) (in_e (k_cons s) mod INPUT_BUF) c) (k_cons s))) s).
  rewrite (bind_ok _ _ s tt s1) by done.
  destruct (line_echo c s1 d (p ++ [c])) as (k1 & E1 & Hk1 & Hl1).
  { destruct Hk. by split. }
  { by apply line_put. }
  rewrite (bind_ok _ _ _ _ _ E1), (bind_ok _ _ _ k1 (set_k_cons k1 s1)) by done.
  rewrite (line_full _ _ _ Hl1). destruct (_ || _) eqn:Ec.
  - eexists. split; [done|]. split; ksimpl; [by destruct Hk1|by apply line_commit|set_solver| |done].
    apply woken_wakeup1.
  - eexists. split; [done|]. apply (typed_cons s); [done|done|].
    apply orb_false_iff in Ec as [Ec _]. apply orb_false_iff in Ec as [Ec _]. apply Z.eqb_neq in Ec. set_solver.
Qed.

Lemma consoleintr_char_ok c s d p :
  cons_ok (k_cons s) -> line (k_cons s) d p -> 10 ∉ p -> 0 <= c < 256 ->
  exists s', consoleintr_char c s = Ok (c =? ctl 80) s' /\ typed s s' (edit c (d, p)).
Proof.
  intros Hk Hl Hn Hc. unfold consoleintr_char, edit, gets. unfold mbind at 1, M_bind at 1.
  assert (Hsame : typed s s (d, p)).
  { split; try done. by destruct s. }
  destruct (Z.eqb_spec c (ctl 80)) as [->|H80]; [by exists s|].
  destruct (Z.eqb_spec c (ctl 85)) as [->|H85].
  { rewrite (line_pending _ _ _ Hl). destruct (kill_line_ok p s d (Z.to_nat (Z.of_nat (length p)))) as (k' & E & Hk' & Hl');
      [done|done|done|lia|]. eexists. split; [rewrite (bind_ok _ _ _ _ _ E); done|]. apply typed_cons; [done|done|set_solver]. }
  destruct ((c =? ctl 72) || (c =? 127)) eqn:E72.
  { rewrite (line_idle _ _ _ Hl). destruct p as [|x p _] using rev_ind.
    - exists s. rewrite bool_decide_eq_true_2 by done. done.
    - rewrite bool_decide_eq_false_2 by (intros E; by destruct p). cbn [negb].
      set (s1 := set_k_cons (set_in_e (u32 (in_e (k_cons s) - 1)) (k_cons s)) s).
      destruct (line_echo BACKSPACE s1 d p) as (k1 & E1 & Hk1 & Hl1).
      { destruct Hk. by split. }
      { by apply (line_back _ _ _ x). }
      eexists. split.
      { erewrite bind_ok; [|rewrite (bind_ok _ _ s tt s1) by done; exact E1]. done. }
      rewrite length_app. cbn [length]. rewrite Nat.add_sub, take_app_length.
      apply (typed_cons s); [done|done|set_solver]. }
  rewrite (line_room _ _ _ Hl). destruct (negb (c =? 0) && (Z.of_nat (length d + length p) <? INPUT_BUF)) eqn:Er.
  - apply andb_true_iff in Er as [E0 Er]. apply negb_true_iff, Z.eqb_neq in E0. apply Z.ltb_lt in Er.
    set (c1 := if c =? 13 then 10 else c).
    destruct (type_char c1 s d p Hk Hl Hn) as (s' & E & T); [unfold c1; destruct (c =? 13); lia|done|
      unfold c1; destruct (Z.eqb_spec c 13); lia|].
    exists s'. split; [|exact T]. rewrite (bind_ok _ _ _ _ _ E). done.
  - by exists s.
Qed.

(** C40. The console input is a line editor.  Fed any characters but the one
    that asks for a process listing, the interrupt handler edits the typed line as [edit] says: backspace and kill-line work
    on the unfinished line only, a carriage return ends it as a newline, and
    an ended line, an end-of-file character or a full buffer hands the line
    over to the readers, which are woken; nothing else of the kernel changes. *)
Theorem consoleintr_edits cs s d p :
  cons_ok (k_cons s) -> line (k_cons s) d p -> 10 ∉ p -> Forall (fun c => 0 <= c < 256) cs -> ctl 80 ∉ cs ->
  exists s', consoleintr cs s = Ok tt s' /\ typed s s' (foldl (fun dp c => edit c dp) (d, p) cs).
Proof.
  intros Hk Hl Hn Hcs H80.
  assert (L : exists s', consoleintr_loop cs false s = Ok false s' /\ typed s s' (foldl (fun dp c => edit c dp) (d, p) cs)).
  { revert s d p Hk Hl Hn. induction Hcs as [|c cs Hc Hcs IH]; intros s d p Hk Hl Hn; cbn [consoleintr_loop foldl].
    - exists s. split; [done|]. split; try done. by destruct s.
    - rewrite (proj2 (Z.leb_le 0 c)) by lia.
      destruct (consoleintr_char_ok c s d p Hk Hl Hn Hc) as (s1 & E1 & T1).
      rewrite (bind_ok _ _ _ _ _ E1), (proj2 (Z.eqb_neq c (ctl 80))) by set_solver.
      destruct (edit c (d, p)) as [d1 p1] eqn:Ee.
      destruct (IH ltac:(set_solver) s1 d1 p1 (ty_ok _ _ _ T1) (ty_line _ _ _ T1) (ty_open _ _ _ T1)) as (s' & E' & T').
      exists s'. split; [done|]. by eapply typed_trans. }
  destruct L as (s' & E & T). exists s'. split; [|done]. unfold consoleintr. rewrite (bind_ok _ _ _ _ _ E). done.
Qed.

(** ** Reading the line *)

Lemma line_empty k d p : line k d p -> (in_r k =? in_w k) = bool_decide (d = []).
Proof.
  intros [_ H2 H3 _ H5 _]. rewrite H3. unfold INPUT_BUF in H5. destruct d as [|c d].
  - cbn. rewrite Z.add_0_r, u32_small by done. apply Z.eqb_refl.
  - rewrite bool_decide_eq_false_2 by done. apply Z.eqb_neq. cbn [length] in *. zlia.
Qed.

Lemma line_take k c d p : line k (c :: d) p ->
  nthz (in_buf k) (in_r k mod INPUT_BUF) = c /\ line (set_in_r (u32 (in_r k + 1)) k) d p.
Proof.
  intros [H1 H2 H3 H4 H5 H6]. cbn [length app] in *. unfold INPUT_BUF in *. split.
  - rewrite <- (H6 0%nat c eq_refl). unfold INPUT_BUF. do 2 f_equal. lia.
  - split; ksimpl; [done|apply u32_range|..].
    + rewrite H3, u32_add_l. f_equal. lia.
    + rewrite H4, u32_add_l. f_equal. lia.
    + unfold INPUT_BUF. lia.
    + intros i x Hi. rewrite <- (H6 (S i) x Hi). unfold INPUT_BUF. f_equal. zlia.
Qed.

Lemma line_untake k : 0 <= in_r k < 4294967296 -> set_in_r (u32 (u32 (in_r k + 1) - 1)) (set_in_r (u32 (in_r k + 1)) k) = k.
Proof.
  intros H. replace (u32 (u32 (in_r k + 1) - 1)) with (in_r k) by zlia. by destruct k.
Qed.

Definition plain (c : Z) : Prop := c <> 10 /\ c <> ctl 68.

(** The characters before a newline or an end of file are taken one by one. *)
Lemma consoleread_plain l : forall n target s d p,
  line (k_cons s) (l ++ d) p -> Forall plain l -> (length l <= n)%nat ->
  exists k', line k' d p /\
    consoleread_loop n target s =
      (r ← consoleread_loop (n - length l) target; mret (r.1, l ++ r.2)) (set_k_cons k' s).
Proof.
  induction l as [|c l IH]; intros n target s d p Hl Hp Hn.
  - exists (k_cons s). split; [done|]. rewrite Nat.sub_0_r. unfold mbind, M_bind.
    replace (set_k_cons (k_cons s) s) with s by (by destruct s).
    by destruct (consoleread_loop n target s) as [[? ?] ?| | | | |].
  - apply Forall_cons in Hp as [[H10 H4] Hp]. cbn [length] in Hn. destruct n as [|n]; [lia|].
    destruct (line_take _ _ _ _ Hl) as [Hc Hl1].
    set (s1 := set_k_cons (set_in_r (u32 (in_r (k_cons s) + 1)) (k_cons s)) s).
    destruct (IH n target s1 d p Hl1 Hp ltac:(lia)) as (k' & Hl' & E). exists k'. split; [done|].
    cbn [consoleread_loop]. rewrite (bind_ok _ _ s (k_cons s) s) by done.
    rewrite (line_empty _ _ _ Hl), bool_decide_eq_false_2, Hc by done.
    rewrite (bind_ok _ _ s tt s1), (proj2 (Z.eqb_neq c (ctl 68))), (proj2 (Z.eqb_neq c 10)) by done.
    unfold mbind, M_bind in *. rewrite E. cbn [Nat.sub length].
    change (set_k_cons k' s1) with (set_k_cons k' s).
    by destruct (consoleread_loop (n - length l) target (set_k_cons k' s)) as [[? ?] ?| | | | |].
Qed.

(** A read of the console returns one line.  Of the characters handed over
    by the editor, a read of n takes them up to and including the first
    newline; an end-of-file character ends the read before it, and stays for
    the next read unless nothing was read; n characters end it as well; and if
    none of these comes the reader sleeps with the characters taken. *)
Theorem consoleread_line n s l rest p :
  line (k_cons s) (l ++ rest) p -> Forall plain l -> (length l <= n)%nat ->
  ((length l < n)%nat -> head rest = Some 10 -> exists k', line k' (tail rest) p /\
     consoleread_loop n n s = Ok (Some (n - length l - 1)%nat, l ++ [10]) (set_k_cons k' s)) /\
  ((length l < n)%nat -> head rest = Some (ctl 68) -> exists k', line k' (if bool_decide (l = []) then tail rest else rest) p /\
     consoleread_loop n n s = Ok (Some (n - length l)%nat, l) (set_k_cons k' s)) /\
  (length l = n -> exists k', line k' rest p /\ consoleread_loop n n s = Ok (Some 0%nat, l) (set_k_cons k' s)) /\
  ((length l < n)%nat -> rest = [] -> forall cur, k_cur s = Some cur -> p_killed (k_ptable s !!! cur) = false ->
     exists s', line (k_cons s') [] p /\ consoleread_loop n n s = Sleeps ChInput s').
Proof.
  intros Hl Hp Hn. destruct (consoleread_plain l n n s rest p Hl Hp Hn) as (k1 & Hl1 & E).
  rewrite E. clear E. set (s1 := set_k_cons k1 s). split_and!.
  - intros Hlt Hh. destruct rest as [|c rest]; [done|]. injection Hh as ->. destruct (line_take _ _ _ _ Hl1) as [Hc Hl2].
    destruct (n - length l)%nat as [|m] eqn:Em; [lia|]. eexists. split; [exact Hl2|]. cbn [consoleread_loop].
    unfold mbind, M_bind, gets. unfold s1. ksimpl.
    rewrite (line_empty _ _ _ Hl1), bool_decide_eq_false_2 by done. unfold upd_cons, modify. ksimpl. rewrite Hc.
    replace (S m - 1)%nat with m by lia. done.
  - intros Hlt Hh. destruct rest as [|c rest]; [done|]. injection Hh as ->. destruct (line_take _ _ _ _ Hl1) as [Hc Hl2].
    destruct (n - length l)%nat as [|m] eqn:Em; [lia|]. cbn [consoleread_loop].
    unfold mbind, M_bind, gets. unfold s1. ksimpl.
    rewrite (line_empty _ _ _ Hl1), (bool_decide_eq_false_2 (ctl 68 :: rest = [])) by done. unfold upd_cons, modify. ksimpl. rewrite Hc.
    change (ctl 68 =? ctl 68) with true. cbn iota. destruct l as [|x l].
    + cbn [length] in Em. rewrite Nat.sub_0_r in Em. rewrite (bool_decide_eq_false_2 (S m < n)%nat) by lia.
      rewrite bool_decide_eq_true_2 by done. eexists. split; [exact Hl2|]. done.
    + rewrite (bool_decide_eq_true_2 (S m < n)%nat) by (cbn [length] in Em; lia). rewrite bool_decide_eq_false_2 by done.
      exists k1. split; [exact Hl1|]. unfold mret, M_ret. ksimpl.
      rewrite line_untake by apply (ln_r _ _ _ Hl1). cbn [fst snd]. by rewrite app_nil_r.
  - intros <-. exists k1. split; [done|]. rewrite Nat.sub_diag. unfold mbind, M_bind. cbn.
    by rewrite app_nil_r.
  - intros Hlt -> cur Hcur Hk. destruct (n - length l)%nat as [|m] eqn:Em; [lia|]. cbn [consoleread_loop].
    unfold mbind, M_bind, gets. unfold s1. ksimpl.
    rewrite (line_empty _ _ _ Hl1), bool_decide_eq_true_2 by done. unfold myproc. ksimpl. rewrite Hcur.
    unfold get_proc, gets. ksimpl. rewrite Hk. unfold sleep, mbind, M_bind, gets. ksimpl. rewrite Hcur.
    eexists. split; [|done]. ksimpl. done.
Qed.

(** ** Typing and reading a line *)

Lemma line_initial : line (k_cons inhabitant) [] [].
Proof. split; try done. Qed.

(** The keys h, i, x, backspace and return. *)
Lemma consoleintr_edits_witness :
  exists s', consoleintr [104; 105; 120; 8; 13] inhabitant = Ok tt s' /\ typed inhabitant s' ([104; 105; 10], []).
Proof.
  destruct (consoleintr_edits [104; 105; 120; 8; 13] inhabitant [] []) as (s' & E & T);
    [by split|exact line_initial|set_solver|repeat (constructor; [lia|]); constructor|set_solver|].
  exists s'. split; [exact E|exact T].
Defined.

(** A console that was handed the line "hi". *)
Definition typed_hi : kernel :=
  set_k_cons (set_in_w 3 (set_in_e 3 (set_in_buf (104 :: 105 :: 10 :: replicate 125 0) inhabitant))) inhabitant.

Lemma consoleread_line_witness :
  exists k', consoleread_loop 100 100 typed_hi = Ok (Some 97%nat, [104; 105; 10]) (set_k_cons k' typed_hi).
Proof.
  destruct (consoleread_line 100 typed_hi [104; 105] [10] []) as (H & _).
  - split; try done. intros [|[|[|i]]] c Hi; cbn in Hi; try (injection Hi as <-; reflexivity).
    discriminate.
  - repeat (constructor; [by split|]). constructor.
  - cbn. lia.
  - destruct H as (k' & _ & E); [cbn; lia|done|]. exists k'. exact E.
Defined.
