(* ===== verification/File.v ===== *)
(** * pipe.c and file.c: pipes and open files

    [k_pipes] maps the address of a pipe's page to the pipe; a pointer to an
    open file is its index in [k_ftable]. *)

From S2P Require Import Prelude State CString Sleep Ide Bio Log Kalloc Console Fs FsFile.
Open Scope Z_scope.

(** ** Pipes *)

Definition PIPESIZE : Z := 512.

Definition get_pipe (p : Z) : kM pipe :=
  ps ← gets k_pipes;
  match ps !! p with Some x => mret x | None => fault "no pipe" end.
Definition upd_pipe (p : Z) (f : pipe -> pipe) : kM unit :=
  modify (fun s => set_k_pipes (alter f p (k_pipes s)) s).

(** One byte into, and out of, the ring. *)
Definition pipe_put (c : Z) (x : pipe) : pipe :=
  set_p_nwrite (u32 (p_nwrite x + 1)) (set_p_data (setz (p_data x) (p_nwrite x mod PIPESIZE) c) x).
Definition pipe_get (x : pipe) : Z := nthz (p_data x) (p_nread x mod PIPESIZE).
Definition pipe_drop (x : pipe) : pipe := set_p_nread (u32 (p_nread x + 1)) x.

Section file.
Context `{Linker}.

Definition pipeclose (p : Z) (writable : bool) : kM unit :=
  (if writable then
     upd_pipe p (set_p_writeopen false);; wakeup (ChPipeRead p)
   else
     upd_pipe p (set_p_readopen false);; wakeup (ChPipeWrite p));;
  x ← get_pipe p;
  when negb (p_readopen x) && negb (p_writeopen x) do
    (modify (fun s => set_k_pipes (delete p (k_pipes s)) s);;
     kfree p).

(** for(i = 0; i < n; i++); a full pipe puts the writer to sleep. *)
Fixpoint pipewrite_loop (p : Z) (l : list Z) : kM Z :=
  match l with
  | [] => mret 0
  | c :: l' =>
    x ← get_pipe p;
    if p_nwrite x =? u32 (p_nread x + PIPESIZE) then
      q ← (cur ← myproc; get_proc cur);
      if negb (p_readopen x) || p_killed q then mret (-1)
      else wakeup (ChPipeRead p);; sleep (ChPipeWrite p)
    else
      upd_pipe p (pipe_put c);;
      pipewrite_loop p l'
  end.
Definition pipewrite (p : Z) (addr : list Z) (n : Z) : kM Z :=
  r ← pipewrite_loop p (take (Z.to_nat n) addr);
  if r <? 0 then mret (-1)
  else wakeup (ChPipeRead p);; mret n.

(** for(i = 0; i < n; i++): the bytes stored. *)
Fixpoint piperead_loop (p : Z) (n : nat) : kM (list Z) :=
  match n with
  | O => mret []
  | S n' =>
    x ← get_pipe p;
    if p_nread x =? p_nwrite x then mret []
    else
      upd_pipe p pipe_drop;;
      r ← piperead_loop p n';
      mret (pipe_get x :: r)
  end.
Definition piperead (p : Z) (n : Z) : kM (Z * list Z) :=
  x ← get_pipe p;
  if (p_nread x =? p_nwrite x) && p_writeopen x then
    q ← (cur ← myproc; get_proc cur);
    if p_killed q then mret (-1, []) else sleep (ChPipeRead p)
  else
    l ← piperead_loop p (Z.to_nat n);
    wakeup (ChPipeWrite p);;
    mret (Z.of_nat (length l), l).

(** ** Open files *)

Definition filealloc : kM (option nat) :=
  fs ← gets k_ftable;
  match find (fun i => f_ref (fs !!! i) =? 0) (seq 0 NFILE) with
  | Some f => upd_file f (set_f_ref 1);; mret (Some f)
  | None => mret None
  end.

Definition filedup (f : nat) : kM nat :=
  x ← get_file f;
  panic_if (f_ref x <? 1) "filedup";;
  upd_file f (fun x => set_f_ref (f_ref x + 1) x);;
  mret f.

Definition fileclose (f : nat) : kM unit :=
  x ← get_file f;
  panic_if (f_ref x <? 1) "fileclose";;
  upd_file f (fun x => set_f_ref (f_ref x - 1) x);;
  ff ← get_file f;
  if 0 <? f_ref ff then mret tt
  else
    upd_file f (fun x => set_f_type FD_NONE (set_f_ref 0 x));;
    match f_type ff with
    | FD_PIPE => pipeclose (f_pipe ff) (f_writable ff)
    | FD_INODE =>
      begin_op;;
      match f_ip ff with Some ip => iput ip | None => fault "fileclose: no inode" end;;
      end_op
    | FD_NONE => mret tt
    end.

(** pipealloc: the two ends, or nothing; the page's old contents do not
    matter. *)
Definition pipealloc : kM (option (nat * nat)) :=
  f0 ← filealloc;
  match f0 with
  | None => mret None
  | Some f0 =>
    f1 ← filealloc;
    match f1 with
    | None => fileclose f0;; mret None
    | Some f1 =>
      p ← kalloc;
      if p =? 0 then fileclose f0;; fileclose f1;; mret None
      else
        modify (fun s => set_k_pipes (<[p := mkPipe (replicate 512 0) 0 0 true true]> (k_pipes s)) s);;
        upd_file f0 (fun x => set_f_pipe p (set_f_writable false (set_f_readable true (set_f_type FD_PIPE x))));;
        upd_file f1 (fun x => set_f_pipe p (set_f_writable true (set_f_readable false (set_f_type FD_PIPE x))));;
        mret (Some (f0, f1))
    end
  end.

(** The inode of an open file of type FD_INODE. *)
Definition file_ip (x : file) : kM nat :=
  match f_ip x with Some ip => mret ip | None => fault "file: no inode" end.

Definition filestat (f : nat) : kM (option stat) :=
  x ← get_file f;
  match f_type x with
  | FD_INODE =>
    ip ← file_ip x;
    ilock ip;;
    i ← get_inode ip;
    iunlock ip;;
    mret (Some (stati i))
  | _ => mret None
  end.

Definition fileread (f : nat) (n : Z) : kM (Z * list Z) :=
  x ← get_file f;
  if negb (f_readable x) then mret (-1, [])
  else
    match f_type x with
    | FD_PIPE => piperead (f_pipe x) n
    | FD_INODE =>
      ip ← file_ip x;
      ilock ip;;
      r ← readi ip (f_off x) (u32 n);
      (when 0 <? r.1 do upd_file f (fun x => set_f_off (u32 (f_off x + r.1)) x));;
      iunlock ip;;
      mret r
    | FD_NONE => panic "fileread"
    end.

(** The bytes one transaction writes at most. *)
Definition filewrite_max : Z := ((MAXOPBLOCKS - 1 - 1 - 2) / 2) * 512.

(** while(i < n): the value of i at the end. *)
Fixpoint filewrite_loop (f ip : nat) (addr : list Z) (i n : Z) (fuel : nat) : kM Z :=
  if i <? n then
    match fuel with
    | O => nofuel
    | S fu =>
      let n1 := if filewrite_max <? n - i then filewrite_max else n - i in
      begin_op;;
      ilock ip;;
      x ← get_file f;
      r ← writei ip (drop (Z.to_nat i) addr) (f_off x) n1;
      (when 0 <? r do upd_file f (fun x => set_f_off (u32 (f_off x + r)) x));;
      iunlock ip;;
      end_op;;
      if r <? 0 then mret i
      else
        panic_if (negb (r =? n1)) "short filewrite";;
        filewrite_loop f ip addr (i + r) n fu
    end
  else mret i.
Definition filewrite (f : nat) (addr : list Z) (n : Z) : kM Z :=
  x ← get_file f;
  if negb (f_writable x) then mret (-1)
  else
    match f_type x with
    | FD_PIPE => pipewrite (f_pipe x) addr n
    | FD_INODE =>
      ip ← file_ip x;
      i ← filewrite_loop f ip addr 0 n (Z.to_nat (n / filewrite_max + 1));
      mret (if i =? n then n else -1)
    | FD_NONE => panic "filewrite"
    end.
End file.
