(* ===== verification/PipeProps.v ===== *)
(** * Pipes are queues (pipe.c)

    The abstract contents of a pipe is the list of the bytes written and not
    yet read.  [ring x q] relates the ring buffer with its two counters, which
    wrap around at 2^32, to that list. *)

From S2P Require Import Prelude State CString Sleep Ide Bio Log Kalloc Console Fs FsFile File.
Open Scope Z_scope.

Record ring (x : pipe) (q : list Z) : Prop := mkRing {
  rg_len : length (p_data x) = Z.to_nat PIPESIZE;
  rg_nread : 0 <= p_nread x < 4294967296;
  rg_nwrite : p_nwrite x = u32 (p_nread x + Z.of_nat (length q));
  rg_bound : Z.of_nat (length q) <= PIPESIZE;
  rg_data : forall k c, q !! k = Some c -> nthz (p_data x) ((p_nread x + Z.of_nat k) mod PIPESIZE) = c }.

(** The tests of pipewrite and piperead. *)
Lemma ring_full x q : ring x q -> (p_nwrite x =? u32 (p_nread x + PIPESIZE)) = (Z.of_nat (length q) =? PIPESIZE).
Proof.
  intros [_ H2 H3 H4 _]. rewrite H3. unfold PIPESIZE in *.
  destruct (Z.eqb_spec (Z.of_nat (length q)) 512) as [->|]; [apply Z.eqb_refl|]. apply Z.eqb_neq. zlia.
Qed.

Lemma ring_empty x q : ring x q -> (p_nread x =? p_nwrite x) = bool_decide (q = []).
Proof.
  intros [_ H2 H3 H4 _]. rewrite H3. unfold PIPESIZE in *. destruct q as [|c q].
  - cbn. rewrite Z.add_0_r, u32_small by done. apply Z.eqb_refl.
  - rewrite bool_decide_eq_false_2 by done. apply Z.eqb_neq. cbn [length] in *. zlia.
Qed.

(** 512 divides 2^32, so the wrap of a counter does not move the ring. *)
Lemma ring_index n k : 0 <= n < 4294967296 -> 0 <= k <= PIPESIZE -> u32 (n + k) mod PIPESIZE = (n + k) mod PIPESIZE.
Proof. unfold PIPESIZE. intros. zlia. Qed.

Lemma ring_slot_ne n k j :
  0 <= k < PIPESIZE -> 0 <= j < PIPESIZE -> k <> j -> (n + k) mod PIPESIZE <> (n + j) mod PIPESIZE.
Proof. unfold PIPESIZE. intros Hk Hj Hne E. apply Hne. zlia. Qed.

Lemma ring_put x q c : ring x q -> Z.of_nat (length q) < PIPESIZE -> ring (pipe_put c x) (q ++ [c]).
Proof.
  intros [H1 H2 H3 H4 H5] Hq. unfold PIPESIZE in *.
  split; cbn; [by rewrite length_setz|done| | |].
  - rewrite H3, u32_add_l, length_app. cbn. f_equal. lia.
  - rewrite length_app. cbn. unfold PIPESIZE. lia.
  - intros k d Hk. rewrite H3, ring_index by (unfold PIPESIZE; lia). unfold PIPESIZE.
    apply lookup_app_Some in Hk as [Hk|[Hk Hd]].
    + pose proof (lookup_lt_Some _ _ _ Hk). rewrite nthz_setz_ne; [by apply H5|zlia|zlia|].
      apply (ring_slot_ne _ (Z.of_nat (length q)) (Z.of_nat k)); unfold PIPESIZE; lia.
    + apply list_lookup_singleton_Some in Hd as [Hk' <-]. replace k with (length q) by lia.
      apply nthz_setz_eq. rewrite H1. zlia.
Qed.

Lemma ring_get x c q : ring x (c :: q) -> pipe_get x = c /\ ring (pipe_drop x) q.
Proof.
  intros [H1 H2 H3 H4 H5]. unfold PIPESIZE in *. cbn [length] in *. split.
  - unfold pipe_get, PIPESIZE. rewrite <- (H5 0%nat c eq_refl). f_equal. f_equal. lia.
  - split; cbn; [done|apply u32_range| | |].
    + rewrite H3, u32_add_l. f_equal. lia.
    + unfold PIPESIZE. lia.
    + intros k d Hk. rewrite <- (H5 (S k) d Hk). unfold PIPESIZE. f_equal. zlia.
Qed.

Lemma ring_fresh : ring (mkPipe (replicate 512 0) 0 0 true true) [].
Proof. split; cbn; try done. Qed.

(** ** Any interleaving of a writer and a reader *)

(** The pipe, the bytes written so far and the bytes read so far. *)
Inductive pipe_step : pipe * list Z * list Z -> pipe * list Z * list Z -> Prop :=
| step_put x w r c :
    p_nwrite x <> u32 (p_nread x + PIPESIZE) -> pipe_step (x, w, r) (pipe_put c x, w ++ [c], r)
| step_get x w r :
    p_nread x <> p_nwrite x -> pipe_step (x, w, r) (pipe_drop x, w, r ++ [pipe_get x]).

Definition pipe_start : pipe * list Z * list Z := (mkPipe (replicate 512 0) 0 0 true true, [], []).

Definition fifo (st : pipe * list Z * list Z) : Prop :=
  exists q, st.1.2 = st.2 ++ q /\ ring st.1.1 q.

Lemma fifo_step st st' : fifo st -> pipe_step st st' -> fifo st'.
Proof.
  intros (q & Hw & Hr) Hs. destruct Hs as [x w r c Hne|x w r Hne]; cbn in *.
  - exists (q ++ [c]). split; [cbn; by rewrite Hw, app_assoc|]. apply ring_put; [done|].
    pose proof (ring_full x q Hr) as F. rewrite (proj2 (Z.eqb_neq _ _) Hne) in F.
    symmetry in F. apply Z.eqb_neq in F. pose proof (rg_bound _ _ Hr). lia.
  - pose proof (ring_empty x q Hr) as F. rewrite (proj2 (Z.eqb_neq _ _) Hne) in F.
    destruct q as [|c q]; [done|]. destruct (ring_get x c q Hr) as [-> Hr']. exists q. cbn.
    split; [|done]. by rewrite <- app_assoc.
Qed.

(** C31. A pipe delivers the bytes in order.  However the writes and the reads
    of single bytes interleave, and however often the counters wrap around,
    what was read is a prefix of what was written and the rest, at most
    PIPESIZE bytes, is in the ring. *)
Theorem pipe_fifo st :
  rtc pipe_step pipe_start st -> exists q, st.1.2 = st.2 ++ q /\ ring st.1.1 q /\ Z.of_nat (length q) <= PIPESIZE.
Proof.
  assert (H0 : fifo pipe_start) by (exists []; split; [done|apply ring_fresh]).
  intros Hs. assert (fifo st) as (q & ? & Hr).
  { revert H0. induction Hs; [done|]. intros. eauto using fifo_step. }
  exists q. split_and!; [done|done|apply (rg_bound _ _ Hr)].
Qed.

(** ** pipewrite and piperead on the queue *)

Definition wake (c : chan) (s : kernel) : kernel := set_k_ptable (wakeup1_proc c <$> k_ptable s) s.
Definition asleep (p : nat) (c : chan) (s : kernel) : kernel :=
  set_k_ptable (alter (fun q => set_p_state SLEEPING (set_p_chan (Some c) q)) p (k_ptable s)) s.
Definition with_pipe (p : Z) (x : pipe) (s : kernel) : kernel := set_k_pipes (<[p := x]> (k_pipes s)) s.

Section pipe.
Context `{Linker}.
Implicit Types (s : kernel) (x : pipe) (q : list Z).

Lemma get_pipe_run s p x : k_pipes s !! p = Some x -> get_pipe p s = Ok x s.
Proof using. intros E. unfold get_pipe, mbind, M_bind, gets. by rewrite E. Qed.

Lemma upd_pipe_run s p x f : k_pipes s !! p = Some x -> upd_pipe p f s = Ok tt (with_pipe p (f x) s).
Proof using.
  intros E. unfold upd_pipe, modify, with_pipe. do 3 f_equal. apply map_eq. intros i.
  destruct (decide (i = p)) as [->|]; [by rewrite lookup_alter_eq, lookup_insert_eq, E|].
  by rewrite lookup_alter_ne, lookup_insert_ne by done.
Qed.

Lemma with_pipe_twice s p x x' : with_pipe p x' (with_pipe p x s) = with_pipe p x' s.
Proof using. unfold with_pipe. ksimpl. by rewrite insert_insert_eq. Qed.

Lemma with_pipe_id s p x : k_pipes s !! p = Some x -> with_pipe p x s = s.
Proof using. intros E. unfold with_pipe. rewrite insert_id by done. by destruct s. Qed.

Lemma with_pipe_lookup s p x : k_pipes (with_pipe p x s) !! p = Some x.
Proof using. unfold with_pipe. ksimpl. apply lookup_insert_eq. Qed.

Definition same_ends x x' : Prop := p_readopen x' = p_readopen x /\ p_writeopen x' = p_writeopen x.

(** The bytes that fit are written, the loop goes on with the others. *)
Lemma pipewrite_loop_fits p l1 l2 : forall s x q,
  k_pipes s !! p = Some x -> ring x q -> Z.of_nat (length q + length l1) <= PIPESIZE ->
  exists x', ring x' (q ++ l1) /\ same_ends x x' /\
    pipewrite_loop p (l1 ++ l2) s = pipewrite_loop p l2 (with_pipe p x' s).
Proof using.
  induction l1 as [|c l1 IH]; intros s x q Hp Hr Hl.
  - exists x. rewrite app_nil_r, with_pipe_id by done. done.
  - cbn [length] in Hl.
    destruct (IH (with_pipe p (pipe_put c x) s) (pipe_put c x) (q ++ [c])) as (x' & Hr' & Hs & E).
    { apply with_pipe_lookup. }
    { apply ring_put; [done|lia]. }
    { rewrite length_app. cbn. lia. }
    exists x'. split; [by rewrite <- app_assoc in Hr'|]. split; [done|].
    cbn [app pipewrite_loop]. rewrite (bind_ok _ _ _ _ _ (get_pipe_run _ _ _ Hp)), (ring_full x q Hr).
    rewrite (proj2 (Z.eqb_neq _ _)) by lia.
    rewrite (bind_ok _ _ _ _ _ (upd_pipe_run _ _ _ _ Hp)), E. by rewrite with_pipe_twice.
Qed.

Lemma pipewrite_loop_blocked p c l s x q cur :
  k_pipes s !! p = Some x -> ring x q -> Z.of_nat (length q) = PIPESIZE -> k_cur s = Some cur ->
  pipewrite_loop p (c :: l) s =
    if negb (p_readopen x) || p_killed (k_ptable s !!! cur) then Ok (-1) s
    else Sleeps (ChPipeWrite p) (asleep cur (ChPipeWrite p) (wake (ChPipeRead p) s)).
Proof using.
  intros Hp Hr Hq Hc. cbn [pipewrite_loop].
  rewrite (bind_ok _ _ _ _ _ (get_pipe_run _ _ _ Hp)), (ring_full x q Hr), (proj2 (Z.eqb_eq _ _) Hq).
  unfold mbind, M_bind, myproc. rewrite Hc. cbn.
  destruct (negb (p_readopen x) || p_killed (k_ptable s !!! cur)); [done|].
  unfold sleep, mbind, M_bind, gets. ksimpl. cbn. rewrite Hc. done.
Qed.

(** C32. pipewrite appends to the queue.  The bytes that fit the ring are
    appended.  If that is all of them the readers are woken and n is returned;
    otherwise the writer sleeps on a full pipe, having woken the readers, or
    gets -1 when no reader is left or it was killed. *)
Theorem pipewrite_queue s p x q addr n cur :
  k_pipes s !! p = Some x -> ring x q -> k_cur s = Some cur -> Z.of_nat (length addr) = n ->
  let room := PIPESIZE - Z.of_nat (length q) in
  exists x', ring x' (q ++ take (Z.to_nat room) addr) /\ same_ends x x' /\
    let s1 := with_pipe p x' s in
    pipewrite p addr n s =
      if n <=? room then Ok n (wake (ChPipeRead p) s1)
      else if negb (p_readopen x) || p_killed (k_ptable s !!! cur) then Ok (-1) s1
      else Sleeps (ChPipeWrite p) (asleep cur (ChPipeWrite p) (wake (ChPipeRead p) s1)).
Proof using.
  intros Hp Hr Hc Hn room. pose proof (rg_bound _ _ Hr) as Hb.
  unfold pipewrite. rewrite (take_ge addr (Z.to_nat n)) by lia.
  assert (Er : room = PIPESIZE - Z.of_nat (length q)) by done. clearbody room.
  pose proof (take_drop (Z.to_nat room) addr) as Et.
  destruct (pipewrite_loop_fits p (take (Z.to_nat room) addr) (drop (Z.to_nat room) addr) s x q Hp Hr)
    as (x' & Hr' & Hs & E); [rewrite length_take; lia|].
  rewrite Et in E. exists x'. split; [done|]. split; [done|]. cbn zeta.
  destruct (Z.leb_spec n room) as [Hl|Hl].
  - rewrite drop_ge in E by lia. rewrite (bind_ok _ _ _ 0 (with_pipe p x' s)) by (by rewrite E). cbn. done.
  - destruct (drop (Z.to_nat room) addr) as [|c l] eqn:Ed.
    { apply (f_equal length) in Ed. rewrite length_drop in Ed. cbn in Ed. lia. }
    rewrite (pipewrite_loop_blocked p c l (with_pipe p x' s) x' (q ++ take (Z.to_nat room) addr) cur) in E;
      [|apply with_pipe_lookup|done|rewrite length_app, length_take; lia|done].
    destruct Hs as [Hs _]. rewrite Hs in E. cbn [with_pipe k_ptable set_k_pipes] in E.
    unfold mbind, M_bind. rewrite E. ksimpl.
    by destruct (negb (p_readopen x) || p_killed (k_ptable s !!! cur)).
Qed.

Lemma piperead_loop_takes p n : forall s x q,
  k_pipes s !! p = Some x -> ring x q ->
  exists x', ring x' (drop n q) /\ same_ends x x' /\ piperead_loop p n s = Ok (take n q) (with_pipe p x' s).
Proof using.
  induction n as [|n IH]; intros s x q Hp Hr.
  - exists x. rewrite with_pipe_id by done. done.
  - cbn [piperead_loop]. rewrite (bind_ok _ _ _ _ _ (get_pipe_run _ _ _ Hp)), (ring_empty x q Hr).
    destruct q as [|c q].
    + exists x. rewrite bool_decide_eq_true_2 by done. rewrite with_pipe_id by done. done.
    + rewrite bool_decide_eq_false_2 by done. destruct (ring_get x c q Hr) as [Hg Hr'].
      destruct (IH (with_pipe p (pipe_drop x) s) (pipe_drop x) q (with_pipe_lookup _ _ _) Hr') as (x' & Hr2 & Hs & E).
      exists x'. split; [done|]. split; [done|].
      rewrite (bind_ok _ _ _ _ _ (upd_pipe_run _ _ _ _ Hp)), (bind_ok _ _ _ _ _ E), with_pipe_twice, Hg. done.
Qed.

(** C33. piperead takes from the front of the queue.  A reader of an empty pipe
    that can still be written to sleeps, or gets -1 when it was killed;
    otherwise the first n bytes of the queue, or all there are, are removed
    and returned, and the writers are woken. *)
Theorem piperead_queue s p x q n cur :
  k_pipes s !! p = Some x -> ring x q -> k_cur s = Some cur ->
  if bool_decide (q = []) && p_writeopen x then
    piperead p n s = if p_killed (k_ptable s !!! cur) then Ok (-1, []) s
                     else Sleeps (ChPipeRead p) (asleep cur (ChPipeRead p) s)
  else exists x', ring x' (drop (Z.to_nat n) q) /\ same_ends x x' /\
    piperead p n s =
      Ok (Z.of_nat (Nat.min (Z.to_nat n) (length q)), take (Z.to_nat n) q)
         (wake (ChPipeWrite p) (with_pipe p x' s)).
Proof using.
  intros Hp Hr Hc. unfold piperead. rewrite (bind_ok _ _ _ _ _ (get_pipe_run _ _ _ Hp)), (ring_empty x q Hr).
  destruct (bool_decide (q = []) && p_writeopen x).
  - unfold mbind, M_bind, myproc. rewrite Hc. cbn.
    destruct (p_killed (k_ptable s !!! cur)); [done|].
    unfold sleep, mbind, M_bind, gets. rewrite Hc. done.
  - destruct (piperead_loop_takes p (Z.to_nat n) s x q Hp Hr) as (x' & Hr' & Hs & E).
    exists x'. split; [done|]. split; [done|]. rewrite (bind_ok _ _ _ _ _ E). cbn.
    by rewrite length_take.
Qed.
End pipe.

(** ** A process on a fresh pipe *)

Definition user_pipe : kernel :=
  with_pipe 4096 pipe_start.1.1 (set_k_cur (Some 0%nat) inhabitant).

Lemma user_pipe_lookup : k_pipes user_pipe !! 4096 = Some pipe_start.1.1.
Proof. apply with_pipe_lookup. Qed.

Lemma pipe_fifo_witness :
  exists x q, [10; 20] = [10] ++ q /\ ring x q.
Proof.
  destruct (pipe_fifo (pipe_drop (pipe_put 20 (pipe_put 10 pipe_start.1.1)), [10; 20], [10])) as (q & E & Hr & _).
  - apply rtc_l with (pipe_put 10 pipe_start.1.1, [10], []); [by apply (step_put _ [] [])|].
    apply rtc_l with (pipe_put 20 (pipe_put 10 pipe_start.1.1), [10; 20], []); [by apply (step_put _ [10] [])|].
    apply rtc_once. by refine (step_get (pipe_put 20 (pipe_put 10 pipe_start.1.1)) [10; 20] [] _).
  - eexists _, q. split; [exact E|exact Hr].
Defined.

(** A write of 600 bytes fills the pipe and sleeps. *)
Lemma pipewrite_queue_witness :
  exists x', ring x' (take 512 (replicate 600 7)) /\
    pipewrite 4096 (replicate 600 7) 600 user_pipe =
      Sleeps (ChPipeWrite 4096)
        (asleep 0 (ChPipeWrite 4096) (wake (ChPipeRead 4096) (with_pipe 4096 x' user_pipe))).
Proof.
  destruct (pipewrite_queue user_pipe 4096 pipe_start.1.1 [] (replicate 600 7) 600 0
              user_pipe_lookup ring_fresh eq_refl) as (x' & Hr & _ & E); [by rewrite length_replicate|].
  exists x'. split; [exact Hr|exact E].
Defined.

(** A read from the empty pipe sleeps. *)
Lemma piperead_queue_witness :
  piperead 4096 10 user_pipe = Sleeps (ChPipeRead 4096) (asleep 0 (ChPipeRead 4096) user_pipe).
Proof. exact (piperead_queue user_pipe 4096 pipe_start.1.1 [] 10 0 user_pipe_lookup ring_fresh eq_refl). Defined.
