(* ===== verification/FsTxn.v ===== *)
(** * Blocks inside a file system operation

    Between begin_op and end_op the file system reads a block with bread,
    changes it with log_write and lets it go with brelse.  [txn s H] says that
    the caches and the log are in order and that the process holds the buffers
    [H], each with its block number; the lemmas say what the calls do to the
    contents [fsview s] of the blocks. *)

From S2P Require Import Prelude State Sleep Ide Bio BioFrame BioSpec Log LogSpec LogRun LogCrash LogOps.
Open Scope Z_scope.

Definition fsview (s : kernel) (n : Z) : block := view s ROOTDEV n.

(** Buffer [b] is held and has block [n]. *)
Record hold (s : kernel) (b : nat) (n : Z) : Prop := mkHold {
  ho_b : (b < NBUF)%nat;
  ho_holds : holds s b;
  ho_key : bkey (k_bcache s !!! b) = (ROOTDEV, n);
  ho_valid : bvalid (k_bcache s !!! b) = true;
  ho_ref : b_refcnt (k_bcache s !!! b) = 1;
  ho_clean : bdirty (k_bcache s !!! b) = false -> b_data (k_bcache s !!! b) = dget (ide_disk (k_ide s)) ROOTDEV n
}.
Arguments ho_b {s b n}.
Arguments ho_holds {s b n}.
Arguments ho_key {s b n}.
Arguments ho_valid {s b n}.
Arguments ho_ref {s b n}.
Arguments ho_clean {s b n}.

Record txn (s : kernel) (H : list (nat * Z)) : Prop := mkTxn {
  tn_bio : bio_inv s;
  tn_log : log_inv s;
  tn_size : l_size (k_log s) <= LOGSIZE;
  tn_held : forall b n, (b, n) ∈ H -> hold s b n;
  tn_nodup : NoDup H.*1;
  tn_only : only_held s H.*1
}.
Arguments tn_bio {s H}.
Arguments tn_log {s H}.
Arguments tn_size {s H}.
Arguments tn_held {s H}.
Arguments tn_nodup {s H}.
Arguments tn_only {s H}.

(** Only the buffers, the disk, the log and the cached inodes change, and
    processes wake up. *)
Definition fs_part (s s' : kernel) : Prop := exists bc ide pt lg ic,
  s' = set_k_ptable pt (set_k_ide ide (set_k_bcache bc (set_k_log lg (set_k_icache ic s)))) /\ woken (k_ptable s) pt.

#[export] Instance fs_part_preorder : PreOrder fs_part.
Proof.
  split.
  - intros s. exists (k_bcache s), (k_ide s), (k_ptable s), (k_log s), (k_icache s). split; [by destruct s|done].
  - intros s1 s2 s3 (bc & ide & pt & lg & ic & -> & H) (bc' & ide' & pt' & lg' & ic' & -> & H').
    exists bc', ide', pt', lg', ic'. split; [done|]. cbn in H'. by etransitivity.
Qed.

Lemma fs_part_intro s s' :
  s' = set_k_ptable (k_ptable s') (set_k_ide (k_ide s') (set_k_bcache (k_bcache s') (set_k_log (k_log s') (set_k_icache (k_icache s') s)))) ->
  woken (k_ptable s) (k_ptable s') -> fs_part s s'.
Proof. intros E Hw. by exists (k_bcache s'), (k_ide s'), (k_ptable s'), (k_log s'), (k_icache s'). Qed.

(** What is left alone by everything that only works on blocks. *)
Record tframe (s s' : kernel) : Prop := mkTframe {
  tf_part : fs_part s s';
  tf_sb : k_sb s' = k_sb s;
  tf_cur : k_cur s' = k_cur s;
  tf_start : l_start (k_log s') = l_start (k_log s);
  tf_size : l_size (k_log s') = l_size (k_log s);
  tf_out : l_outstanding (k_log s') = l_outstanding (k_log s)
}.
Arguments tf_part {s s'}.
Arguments tf_sb {s s'}.
Arguments tf_cur {s s'}.
Arguments tf_start {s s'}.
Arguments tf_size {s s'}.
Arguments tf_out {s s'}.

#[export] Instance tframe_preorder : PreOrder tframe.
Proof. split; [intros s; by split|]. intros s1 s2 s3 [] []. split; [by transitivity s2|congruence..]. Qed.

Lemma bio_tframe s s' : bio_frame s s' -> tframe s s'.
Proof. intros (bc & ide & pt & -> & Hw). split; [|done..]. exists bc, ide, pt, (k_log s), (k_icache s). split; [by destruct s|done]. Qed.

(** The same without a change of the log. *)
Definition fs_read (s s' : kernel) : Prop := fs_part s s' /\ k_log s' = k_log s.
#[export] Instance fs_read_preorder : PreOrder fs_read.
Proof. split; [by intros s|]. intros s1 s2 s3 [P1 E1] [P2 E2]. split; [by transitivity s2|congruence]. Qed.

(** The contents after the writes [W], the last one last. *)
Definition put_all (W : list (Z * block)) (V : Z -> block) : Z -> block :=
  foldl (fun V w n => if decide (n = w.1) then w.2 else V n) V W.

(** From [s] to [s'] exactly the blocks [W] are written and logged; of the
    cached inodes at most [oi] changes. *)
Record fsstep (oi : option nat) (s s' : kernel) (W : list (Z * block)) : Prop := mkFsstep {
  fs_frame : tframe s s';
  fs_icache : forall j, oi <> Some j -> k_icache s' !!! j = k_icache s !!! j;
  fs_ninodes : length (k_icache s') = length (k_icache s);
  fs_view : forall n, fsview s' n = put_all W (fsview s) n;
  fs_logged : forall n, n ∈ logged (k_log s') <-> n ∈ logged (k_log s) \/ n ∈ W.*1;
  fs_n : lh_n (k_log s) <= lh_n (k_log s');
  fs_log : W = [] -> k_log s' = k_log s
}.
Arguments fs_frame {oi s s' W}.
Arguments fs_icache {oi s s' W}.
Arguments fs_ninodes {oi s s' W}.
Arguments fs_view {oi s s' W}.
Arguments fs_logged {oi s s' W}.
Arguments fs_n {oi s s' W}.
Arguments fs_log {oi s s' W}.

Lemma put_all_cons m d W V : put_all ((m, d) :: W) V = put_all W (fun n => if decide (n = m) then d else V n).
Proof. done. Qed.

Lemma put_all_app W1 W2 V : put_all (W1 ++ W2) V = put_all W2 (put_all W1 V).
Proof. unfold put_all. by rewrite foldl_app. Qed.

Lemma put_all_ext W V V' : (forall n, V n = V' n) -> forall n, put_all W V n = put_all W V' n.
Proof.
  revert V V'. induction W as [|[m d] W IH]; intros V V' HV n; [apply HV|]. rewrite !put_all_cons. apply IH. intros k. case_decide; [done|apply HV].
Qed.

Lemma put_all_notin W V n : n ∉ W.*1 -> put_all W V n = V n.
Proof.
  revert V. induction W as [|[m d] W IH]; intros V Hn; [done|]. rewrite put_all_cons. cbn in Hn.
  rewrite IH by set_solver. rewrite decide_False; [done|set_solver].
Qed.

Lemma fsstep_refl oi s : fsstep oi s s [].
Proof. split; [done|done|done|done| |lia|done]. intros n. set_solver. Qed.

Lemma fsstep_weaken oi s s' W : fsstep None s s' W -> fsstep oi s s' W.
Proof. intros []. split; auto. Qed.

Lemma fsstep_trans oi s1 s2 s3 W1 W2 : fsstep oi s1 s2 W1 -> fsstep oi s2 s3 W2 -> fsstep oi s1 s3 (W1 ++ W2).
Proof.
  intros [F1 I1 C1 V1 L1 N1 G1] [F2 I2 C2 V2 L2 N2 G2]. split; [by etransitivity| |congruence| | |lia|].
  - intros j Hj. by rewrite I2, I1.
  - intros n. rewrite V2, put_all_app. by apply put_all_ext.
  - intros n. rewrite L2, L1, fmap_app, elem_of_app. tauto.
  - intros [-> ->]%app_nil. by rewrite G2, G1.
Qed.

Lemma fsstep_read s s' : fsstep None s s' [] -> fs_read s s'.
Proof. intros S. split; [apply (tf_part (fs_frame S))|by apply (fs_log S)]. Qed.

(** The log grows by at most the blocks written that are not in it yet. *)
Lemma lh_n_length s : log_inv s -> lh_n (k_log s) = Z.of_nat (length (logged (k_log s))).
Proof. intros H. by rewrite length_logged. Qed.

Lemma fsstep_cover oi s s' W H H' L :
  txn s H -> txn s' H' -> fsstep oi s s' W -> (forall n, n ∈ W.*1 -> n ∈ logged (k_log s) \/ n ∈ L) ->
  lh_n (k_log s') <= lh_n (k_log s) + Z.of_nat (length L).
Proof.
  intros T T' F HL. rewrite !lh_n_length by apply T || apply T'.
  assert (length (logged (k_log s')) <= length (logged (k_log s) ++ L))%nat; [|rewrite length_app in *; lia].
  apply submseteq_length, NoDup_submseteq; [apply (li_nodup (tn_log T'))|].
  intros n Hn. apply (fs_logged F) in Hn. rewrite elem_of_app. destruct Hn as [|Hn]; [by left|by apply HL].
Qed.

Lemma fsstep_bound_len oi s s' W H H' :
  txn s H -> txn s' H' -> fsstep oi s s' W -> lh_n (k_log s') <= lh_n (k_log s) + Z.of_nat (length W).
Proof.
  intros T T' F. rewrite <- (length_fmap fst W). eapply fsstep_cover; [done|done|exact F|]. intros n Hn. by right.
Qed.

Section steps.
Context (s : kernel) (H : list (nat * Z)) (T : txn s H).

(** Reading. *)
Lemma bread_txn n :
  0 <= n < FSSIZE -> n ∉ H.*2 -> Z.of_nat (length H) + lh_n (k_log s) < Z.of_nat NBUF ->
  wp (bread ROOTDEV n) (fun b s' => fsstep None s s' [] /\ txn s' ((b, n) :: H)) s.
Proof using T.
  intros Hn Hnot Hroom. assert (Hkey : key_ok ROOTDEV n) by (split; [by right|done]).
  assert (Hun : unref s ROOTDEV n).
  { intros i Hi Hk. apply (tn_only T); [done|]. intros ([b m] & -> & Hin)%list_elem_of_fmap. cbn in *.
    pose proof (ho_key (tn_held T b m Hin)) as Hk'. rewrite Hk' in Hk. injection Hk as ->. apply Hnot.
    apply list_elem_of_fmap. by exists (b, n). }
  assert (Hrm : room s).
  { eapply (have_room s H.*1 ROOTDEV); [apply T|apply (tn_only T)|apply (li_only (tn_log T))|done|].
    pose proof (length_logged s (tn_log T)). rewrite length_fmap. lia. }
  eapply wp_mono; [apply bread_spec; [apply T|done|apply root_key|done|by right]|].
  cbn beta. intros b s' K. pose proof (tk_frame K) as F.
  assert (Hb : b ∉ H.*1).
  { intros ([b' m] & -> & Hin)%list_elem_of_fmap. pose proof (ho_ref (tn_held T _ _ Hin)) as Hr. cbn in *.
    rewrite (tk_free K) in Hr. done. }
  split.
  - split; [by apply bio_tframe|by rewrite (frame_icache _ _ F)|by rewrite (frame_icache _ _ F)|intros m; apply (tk_view K), root_key| |by rewrite (frame_log _ _ F)|by rewrite (frame_log _ _ F)].
    intros m. rewrite (frame_log _ _ F). set_solver.
  - split; rewrite ?(frame_log _ _ F); try apply T.
    + apply (tk_inv K).
    + eapply log_inv_same; [apply (tn_log T)|apply (tk_dirty K)|by rewrite (frame_log _ _ F)..].
    + intros b' m [[= -> ->]|Hin]%elem_of_cons.
      * split; try apply K. rewrite (tk_disk K). apply (tk_clean K).
      * pose proof (tn_held T b' m Hin) as Hh. assert (b' <> b) by (intros ->; apply Hb, list_elem_of_fmap; by exists (b, m)).
        assert (E : k_bcache s' !!! b' = k_bcache s !!! b') by (by apply (tk_others K)).
        destruct Hh. split; rewrite ?E, ?(tk_disk K); try done. unfold holds. by rewrite E, (frame_cpid _ _ F).
    + cbn. apply list.NoDup_cons. split; [done|apply (tn_nodup T)].
    + cbn. eapply took_only; [apply (tn_only T)|exact K].
Qed.

Lemma hold_data b n : hold s b n -> b_data (k_bcache s !!! b) = fsview s n.
Proof using T.
  intros Hh. symmetry. apply view_hit; try apply Hh; [apply T|apply root_key].
Qed.

Lemma bdata_txn b n : (b, n) ∈ H -> bdata b s = Ok (fsview s n) s.
Proof using T.
  intros Hin. unfold bdata, get_buf, mbind, M_bind, gets. cbn. by rewrite (hold_data b n) by by apply (tn_held T).
Qed.

(** Changing a held block and logging it. *)
Lemma write_txn b n d :
  1 <= l_outstanding (k_log s) -> (b, n) ∈ H -> home_ok (k_log s) n -> block_ok d -> log_fits (k_log s) ->
  exists s1 s', set_bdata b d s = Ok tt s1 /\ log_write b s1 = Ok tt s' /\ fsstep None s s' [(n, d)] /\ txn s' H.
Proof using T.
  intros Ho Hin Hn Hd Hf. pose proof (tn_held T b n Hin) as Hh. destruct (bi_lru (tn_bio T)) as (lr & Hlen & _).
  pose proof (ho_b Hh) as Hb. set (s1 := set_k_bcache (alter (set_b_data d) b (k_bcache s)) s).
  assert (E1 : forall i, k_bcache s1 !!! i = if decide (i = b) then set_b_data d (k_bcache s !!! b) else k_bcache s !!! i).
  { intros i. unfold s1. ksimpl. rewrite alter_total by lia. case_decide; [by subst|done]. }
  assert (Eb : k_bcache s1 !!! b = set_b_data d (k_bcache s !!! b)) by (by rewrite E1, decide_True).
  assert (I1 : bio_inv s1).
  { apply bio_inv_held; try done; [apply T|apply Hh|]. apply (bi_bufs (tn_bio T) b Hb). }
  assert (D1 : forall dv m, dirty s1 dv m <-> dirty s dv m).
  { intros dv m. unfold dirty. split; intros (i & Hi & Hk & Hdi); exists i.
    - rewrite E1 in Hk, Hdi. by case_decide; [subst i|].
    - rewrite !E1. by case_decide; [subst i|]. }
  assert (L1 : log_inv s1) by (eapply log_inv_same; [apply (tn_log T)|exact D1|done..]).
  assert (H1 : holds s1 b) by (unfold holds; rewrite Eb; apply Hh).
  assert (V1 : bvalid (k_bcache s1 !!! b) = true) by (rewrite Eb; apply Hh).
  assert (K1 : bkey (k_bcache s1 !!! b) = (ROOTDEV, n)) by (rewrite Eb; apply Hh).
  set (s' := set_k_bcache (alter (fun x => set_b_flags (Z.lor (b_flags x) B_DIRTY) x) b (k_bcache s1)) (set_k_log (log_add n (k_log s1)) s1)).
  assert (Hrun : log_write b s1 = Ok tt s').
  { rewrite log_write_run by done. pose proof (ho_key Hh) as Hk. unfold bkey in Hk. injection Hk as _ Hk.
    rewrite Eb. cbn [b_blockno set_b_data]. by rewrite Hk. }
  exists s1, s'. split_and!; [done|done| |].
  - split; [split; [by apply fs_part_intro; destruct s|done..]|done|done| | | |done].
    + intros m. unfold fsview, s'. rewrite (lw_view s1 b n) by done. rewrite put_all_cons. unfold s1.
      rewrite (view_set_data s b d ROOTDEV n); try done; try apply Hh; try apply T; try apply root_key.
      unfold put_all. cbn [foldl]. repeat case_decide; congruence.
    + intros m. pose proof (li_n (tn_log T)). pose proof (lg_len (li_geom (tn_log T))). destruct Hf as [Hf1 Hf2].
      destruct (logged_add n (k_log s)) as [A1 A2]; [lia|]. unfold s'. cbn [k_log set_k_bcache set_k_log s1].
      destruct (decide (n ∈ logged (k_log s))) as [Hl|Hl]; [rewrite (A1 Hl)|rewrite (proj2 (A2 Hl))]; set_solver.
    + unfold s'. cbn. destruct (_ =? _); lia.
  - split; try done.
    + by apply (lw_bio s1 b).
    + apply (lw_log s1 b n); try done. apply T.
    + apply T.
    + intros b' m Hin'. pose proof (tn_held T b' m Hin') as Hh'. pose proof (lw_bufs s1 b n I1 Hb b') as E'. fold s' in E'.
      destruct (decide (b' = b)) as [->|Hne].
      * assert (m = n) as -> by (pose proof (ho_key Hh); pose proof (ho_key Hh'); congruence).
        split; [done|unfold holds; rewrite E'; exact H1|rewrite E'; exact K1| | |].
        -- unfold bvalid. rewrite E'. by rewrite (lw_flags s1 b I1 Hb V1).
        -- rewrite E'. change (b_refcnt (k_bcache s1 !!! b) = 1). rewrite Eb. apply Hh.
        -- unfold bdirty. rewrite E'. by rewrite (lw_flags s1 b I1 Hb V1).
      * rewrite E1, decide_False in E' by done. destruct Hh'. split; try done; try (unfold holds); rewrite E'; done.
    + apply T.
    + intros i Hi Hni. pose proof (lw_bufs s1 b n I1 Hb i) as E'. fold s' in E'. rewrite E'.
      destruct (decide (i = b)) as [->|Hne].
      * destruct Hni. apply list_elem_of_fmap. by exists (b, n).
      * rewrite E1, decide_False by done. by apply (tn_only T).
Qed.
End steps.

(** Letting a block go. *)
Lemma brelse_txn s H b n :
  txn s ((b, n) :: H) -> wp (brelse b) (fun _ s' => fsstep None s s' [] /\ txn s' H) s.
Proof.
  intros T. pose proof (tn_held T b n ltac:(left)) as Hh. pose proof (tn_nodup T) as Hnd. cbn in Hnd. apply list.NoDup_cons in Hnd as [Hb Hnd].
  pose proof (ho_key Hh) as Hk. unfold bkey in Hk. injection Hk as Hk1 Hk2.
  eapply wp_mono; [apply brelse_spec; try apply Hh; [apply T|]|].
  { intros Hc _. rewrite Hk1, Hk2. by apply (ho_clean Hh). }
  cbn beta. intros _ s' R. pose proof (rl_frame R) as F. split.
  - split; [by apply bio_tframe|by rewrite (frame_icache _ _ F)|by rewrite (frame_icache _ _ F)|intros m; apply (rl_view R)| |by rewrite (frame_log _ _ F)|by rewrite (frame_log _ _ F)].
    intros m. rewrite (frame_log _ _ F). set_solver.
  - split; rewrite ?(frame_log _ _ F); try apply T; try done.
    + apply (rl_inv R).
    + eapply log_inv_same; [apply (tn_log T)|apply (rl_dirty R)|by rewrite (frame_log _ _ F)..].
    + intros b' m Hin. pose proof (tn_held T b' m ltac:(by right)) as Hh'.
      assert (b' <> b) by (intros ->; apply Hb, list_elem_of_fmap; by exists (b, m)).
      pose proof (rl_others R b' ltac:(done)) as Hc. apply core_fields in Hc as (E1 & E2 & E3 & E4 & E5 & E6).
      destruct Hh'. split; try done; unfold holds, bvalid, bkey, bdirty in *; rewrite ?E1, ?E2, ?E3, ?E4, ?E5, ?E6, ?(frame_cpid _ _ F), ?(rl_ide R); done.
    + eapply released_only; [apply (tn_only T)|done|apply Hh|exact R].
Qed.
