(* ===== verification/FsAlloc.v ===== *)
(** * Allocating disk blocks

    The free bit map: what its bits mean, and what balloc does to it. *)

From S2P Require Import Prelude State Sleep Ide Bio BioSpec Log LogSpec LogRun LogOps Fs FsTxn.
Open Scope Z_scope.

(** ** Bits of a block *)

Lemma land_pow2 x k : 0 <= k -> Z.land x (2 ^ k) = if Z.testbit x k then 2 ^ k else 0.
Proof.
  intros Hk. apply Z.bits_inj'. intros n Hn. rewrite Z.land_spec, Z.pow2_bits_eqb by done.
  destruct (Z.testbit x k) eqn:E; [rewrite Z.pow2_bits_eqb by done|rewrite Z.bits_0]; destruct (Z.eqb_spec k n) as [->|]; try done;
    rewrite ?E, ?andb_true_r, ?andb_false_r; done.
Qed.

Lemma bmask_pow bi : bmask bi = 2 ^ (bi mod 8).
Proof. unfold bmask. rewrite Z.shiftl_mul_pow2 by zlia. lia. Qed.

Lemma bused_testbit d bi : bused d bi = Z.testbit (nthz d (bi / 8)) (bi mod 8).
Proof.
  unfold bused. rewrite bmask_pow, land_pow2 by zlia. assert (0 < 2 ^ (bi mod 8)) by (apply Z.pow_pos_nonneg; zlia).
  destruct (Z.testbit _ _); [|done]. by rewrite (proj2 (Z.eqb_neq _ _)) by lia.
Qed.

Lemma lor_byte x k : is_byte x -> 0 <= k < 8 -> is_byte (Z.lor x (2 ^ k)).
Proof.
  unfold is_byte. intros Hx Hk. split; [apply Z.lor_nonneg; split; [lia|]; apply Z.pow_nonneg; lia|].
  assert (H : Z.lor x (2 ^ k) = 0 \/ Z.log2 (Z.lor x (2 ^ k)) < 8).
  { right. rewrite Z.log2_lor by (try apply Z.pow_nonneg; lia). apply Z.max_lub_lt; [|rewrite Z.log2_pow2; lia].
    destruct (decide (x = 0)) as [->|]; [done|]. apply Z.log2_lt_pow2; lia. }
  assert (0 <= Z.lor x (2 ^ k)) by (apply Z.lor_nonneg; split; [lia|]; apply Z.pow_nonneg; lia).
  destruct H as [->|H]; [lia|]. destruct (decide (Z.lor x (2 ^ k) = 0)); [lia|]. apply Z.log2_lt_pow2 in H; lia.
Qed.

Lemma byte_at d i : block_ok d -> 0 <= i < 512 -> is_byte (nthz d i).
Proof.
  intros [Hl Hb] Hi. unfold nthz. apply (Forall_lookup_1 _ d (Z.to_nat i)); [exact Hb|].
  apply list_lookup_lookup_total_lt. unfold BSIZE in *. lia.
Qed.

Lemma block_ok_bmark d bi : block_ok d -> 0 <= bi < BPB -> block_ok (bmark d bi).
Proof.
  intros Hd Hi. unfold BPB, BSIZE in Hi. unfold bmark. destruct Hd as [Hl Hb]. split; [by rewrite length_setz|].
  unfold setz. apply Forall_insert; [done|]. rewrite bmask_pow. apply lor_byte; [|zlia]. apply byte_at; [by split|zlia].
Qed.

(** Marking a block changes its bit and no other. *)
Lemma bused_bmark d bi bj : block_ok d -> 0 <= bi < BPB -> 0 <= bj < BPB -> bused (bmark d bi) bj = (bi =? bj) || bused d bj.
Proof.
  intros [Hl _] Hi Hj. unfold BPB, BSIZE in *. rewrite !bused_testbit. unfold bmark.
  destruct (decide (bi / 8 = bj / 8)) as [E|E].
  - rewrite <- E, nthz_setz_eq by zlia. rewrite Z.lor_spec, bmask_pow, Z.pow2_bits_eqb by zlia.
    rewrite orb_comm. f_equal. destruct (Z.eqb_spec bi bj), (Z.eqb_spec (bi mod 8) (bj mod 8)); try done; exfalso; zlia.
  - rewrite nthz_setz_ne by zlia. destruct (Z.eqb_spec bi bj); [congruence|done].
Qed.

(** The scan finds the first free bit. *)
Lemma balloc_scan_spec d b size n : forall bi,
  match balloc_scan d b bi size n with
  | Some r => bi <= r < bi + Z.of_nat n /\ b + r < size /\ bused d r = false /\ (forall j, bi <= j < r -> bused d j = true)
  | None => forall j, bi <= j < bi + Z.of_nat n -> b + j < size -> bused d j = true
  end.
Proof.
  induction n as [|n IH]; intros bi; cbn [balloc_scan]; [lia|].
  destruct (Z.ltb_spec (b + bi) size); [|intros j ? ?; lia].
  destruct (bused d bi) eqn:E.
  - specialize (IH (bi + 1)). destruct (balloc_scan d b (bi + 1) size n) as [r|].
    + destruct IH as (H1 & H2 & H3 & H4). split_and!; try lia; try done.
      intros j Hj. destruct (decide (j = bi)) as [->|]; [done|]. apply H4. lia.
    + intros j Hj Hs. destruct (decide (j = bi)) as [->|]; [done|]. apply IH; lia.
  - split_and!; try lia; done.
Qed.

(** ** Reading and changing one block *)

Section block.
Context (s : kernel) (H : list (nat * Z)) (T : txn s H).
Context {A : Type} (Q : A -> kernel -> Prop).

Lemma wp_read_block n (k : block -> kM A) :
  0 <= n < FSSIZE -> n ∉ H.*2 -> Z.of_nat (length H) + lh_n (k_log s) < Z.of_nat NBUF ->
  (forall s', fsstep None s s' [] -> txn s' H -> wp (k (fsview s n)) Q s') ->
  wp (bp ← bread ROOTDEV n; d ← bdata bp; brelse bp;; k d) Q s.
Proof using T.
  intros Hn Hnot Hroom Hk. wp_step. eapply wp_mono; [by apply (bread_txn s H T)|]. cbn beta. intros b s1 [F1 T1].
  wp_step. eapply wp_intro; [apply (bdata_txn s1 _ T1 b n); left|]. wp_step. eapply wp_mono; [by apply (brelse_txn s1 H b n)|].
  cbn beta. intros _ s2 [F2 T2]. rewrite (fs_view F1). apply Hk; [|done]. apply (fsstep_trans None s s1 s2 [] [] F1 F2).
Qed.
End block.

Lemma log_room s H : txn s H -> lh_n (k_log s) + 1 < l_size (k_log s) -> log_fits (k_log s).
Proof. intros T Hl. pose proof (tn_size T). split; lia. Qed.

Lemma home_ok_frame s s' n : tframe s s' -> home_ok (k_log s) n -> home_ok (k_log s') n.
Proof. intros F [H1 H2]. split; [done|]. rewrite (tf_start F), (tf_size F). done. Qed.

Lemma same_n oi s s' H H' : txn s H -> txn s' H' -> fsstep oi s s' [] -> lh_n (k_log s') = lh_n (k_log s).
Proof. intros T T' F. pose proof (fsstep_bound_len oi s s' [] H H' T T' F). pose proof (fs_n F). cbn in *. lia. Qed.

Lemma fits_same oi s s' H H' : txn s H -> txn s' H' -> fsstep oi s s' [] -> log_fits (k_log s) -> log_fits (k_log s').
Proof. intros T T' F [H1 H2]. split; rewrite (same_n oi s s' H H' T T' F); [done|]. by rewrite (tf_size (fs_frame F)). Qed.

(** bzero clears a block. *)
Lemma bzero_txn s H n :
  txn s H -> 1 <= l_outstanding (k_log s) -> home_ok (k_log s) n -> n ∉ H.*2 -> Z.of_nat (length H) + lh_n (k_log s) < Z.of_nat NBUF -> log_fits (k_log s) ->
  wp (bzero ROOTDEV n) (fun _ s' => fsstep None s s' [(n, zero_block)] /\ txn s' H) s.
Proof.
  intros T Ho Hh Hnot Hroom Hf. unfold bzero. wp_step. eapply wp_mono; [apply (bread_txn s H T); [apply Hh|done|done]|].
  cbn beta. intros b s1 [F1 T1]. destruct (write_txn s1 _ T1 b n zero_block) as (s2 & s3 & E2 & E3 & F3 & T3);
    [by rewrite (tf_out (fs_frame F1))|left|by eapply home_ok_frame; [apply (fs_frame F1)|]|apply zero_block_ok|exact (fits_same _ _ _ _ _ T T1 F1 Hf)|].
  wp_step. eapply wp_intro; [exact E2|]. wp_step. eapply wp_intro; [exact E3|].
  eapply wp_mono; [by apply (brelse_txn s3 H b n)|]. cbn beta. intros _ s4 [F4 T4]. split; [|done].
  apply (fsstep_trans None s s3 s4 [(n, zero_block)] [] (fsstep_trans None s s1 s3 [] _ F1 F3) F4).
Qed.

(** ** balloc *)

(** The file system has one bit map block, which is not part of the log, and
    what the bit map says is free is neither the bit map nor part of the log. *)
Record bitmap_ok (s : kernel) : Prop := mkBitmapOk {
  bm_size : 0 < sb_size (k_sb s) <= FSSIZE;
  bm_home : home_ok (k_log s) (sb_bmapstart (k_sb s));
  bm_block : block_ok (fsview s (sb_bmapstart (k_sb s)));
  bm_free : forall b, 0 <= b < sb_size (k_sb s) -> bused (fsview s (sb_bmapstart (k_sb s))) b = false ->
    home_ok (k_log s) b /\ b <> sb_bmapstart (k_sb s)
}.
Arguments bm_size {s}.
Arguments bm_home {s}.
Arguments bm_block {s}.
Arguments bm_free {s}.

(** The bit map, and whether a block is free in it. *)
Definition bitmap (s : kernel) : block := fsview s (sb_bmapstart (k_sb s)).
Definition is_free (s : kernel) (b : Z) : Prop := 0 <= b < sb_size (k_sb s) /\ bused (bitmap s) b = false.

(** The held blocks are in use, and none is the bit map. *)
Definition held_used (s : kernel) (H : list (nat * Z)) : Prop :=
  forall n, n ∈ H.*2 -> n <> sb_bmapstart (k_sb s) /\ ~ is_free s n.

Lemma bmapstart_u32 s : bitmap_ok s -> BBLOCK 0 (k_sb s) = sb_bmapstart (k_sb s).
Proof. intros B. destruct (bm_home B) as [Hr _]. unfold BBLOCK, FSSIZE in *. rewrite u32_small; [done|]. change (0 / BPB) with 0. lia. Qed.

(** Steps that leave the bit map alone. *)
Lemma bitmap_step oi s s' W :
  fsstep oi s s' W -> sb_bmapstart (k_sb s) ∉ W.*1 -> bitmap s' = bitmap s.
Proof. intros S Hn. unfold bitmap. rewrite (tf_sb (fs_frame S)), (fs_view S). by apply put_all_notin. Qed.

Lemma bitmap_ok_step oi s s' W :
  fsstep oi s s' W -> sb_bmapstart (k_sb s) ∉ W.*1 -> bitmap_ok s -> bitmap_ok s'.
Proof.
  intros S Hn B. pose proof (bitmap_step oi s s' W S Hn) as E. pose proof (fs_frame S) as F. unfold bitmap in E.
  rewrite (tf_sb F) in E. split; rewrite ?(tf_sb F), ?E; [apply B|by eapply home_ok_frame; [|apply B]|apply B|].
  intros c Hc Hu. destruct (bm_free B c Hc Hu). split; [by eapply home_ok_frame|done].
Qed.

(** balloc takes the first free block, marks it and clears it, or panics when
    there is none. *)
Lemma balloc_txn s H :
  txn s H -> 1 <= l_outstanding (k_log s) -> bitmap_ok s -> held_used s H ->
  Z.of_nat (length H) + lh_n (k_log s) + 1 < Z.of_nat NBUF -> lh_n (k_log s) + 2 < l_size (k_log s) ->
  (exists b s', balloc ROOTDEV s = Ok b s' /\ is_free s b /\ (forall j, 0 <= j < b -> ~ is_free s j) /\
     fsstep None s s' [(sb_bmapstart (k_sb s), bmark (bitmap s) b); (b, zero_block)] /\ txn s' H) \/
  ((forall b, ~ is_free s b) /\ balloc ROOTDEV s = Panic "balloc: out of blocks").
Proof.
  intros T Ho B Hu Hroom Hfit. pose proof (bm_size B) as Hsz. pose proof (tn_size T) as Hls. unfold FSSIZE in Hsz.
  unfold balloc. rewrite (bind_ok _ _ s (k_sb s) s) by done.
  assert (Z.to_nat (sb_size (k_sb s) / BPB + 1) = 1%nat) as -> by (rewrite Z.div_small by (unfold BPB, BSIZE; lia); done).
  cbn [balloc_from]. rewrite (bind_ok _ _ s (k_sb s) s) by done. rewrite (proj2 (Z.ltb_lt 0 _)) by lia.
  rewrite (bmapstart_u32 s B). set (bm := sb_bmapstart (k_sb s)).
  destruct (proj1 (wp_ok _ _ _) (bread_txn s H T bm (proj1 (bm_home B)) ltac:(intros Hin; by destruct (Hu bm Hin)) ltac:(lia))) as (bp & s1 & E1 & F1 & T1).
  rewrite (bind_ok _ _ _ _ _ E1), (bind_ok _ _ _ _ _ (bdata_txn s1 _ T1 bp bm ltac:(left))).
  assert (Ev : fsview s1 bm = bitmap s) by (by rewrite (fs_view F1)). rewrite Ev.
  pose proof (same_n _ _ _ _ _ T T1 F1) as En. pose proof (tf_size (fs_frame F1)) as Es.
  pose proof (balloc_scan_spec (bitmap s) 0 (sb_size (k_sb s)) (Z.to_nat BPB) 0) as Hscan.
  destruct (balloc_scan (bitmap s) 0 0 (sb_size (k_sb s)) (Z.to_nat BPB)) as [bi|].
  - destruct Hscan as (H1 & H2 & H3 & H4). rewrite Z2Nat.id in H1 by done. left. rewrite !Z.add_0_l.
    destruct (bm_free B bi ltac:(lia) H3) as [Hbh Hbn].
    destruct (write_txn s1 _ T1 bp bm (bmark (bitmap s) bi)) as (s2 & s3 & E2 & E3 & F3 & T3);
      [by rewrite (tf_out (fs_frame F1))|left|by eapply home_ok_frame; [apply (fs_frame F1)|apply (bm_home B)]|apply block_ok_bmark; [apply (bm_block B)|lia]|split; lia|].
    destruct (proj1 (wp_ok _ _ _) (brelse_txn s3 H bp bm T3)) as ([] & s4 & E4 & F4 & T4).
    assert (F14 : fsstep None s s4 [(bm, bmark (bitmap s) bi)]) by apply (fsstep_trans None s s3 s4 [_] [] (fsstep_trans None s s1 s3 [] _ F1 F3) F4).
    pose proof (fsstep_bound_len None s s4 _ H H T T4 F14) as Hb. cbn in Hb.
    assert (Hls4 : l_size (k_log s4) = l_size (k_log s)) by apply (tf_size (fs_frame F14)).
    destruct (proj1 (wp_ok _ _ _) (bzero_txn s4 H bi T4 ltac:(by rewrite (tf_out (fs_frame F14))) ltac:(by eapply home_ok_frame; [apply (fs_frame F14)|])
      ltac:(intros Hin; destruct (Hu bi Hin) as [_ Hnf]; apply Hnf; split; [lia|done]) ltac:(lia) ltac:(split; lia))) as ([] & s5 & E5 & F5 & T5).
    exists bi, s5. split_and!; try done; [|split; [lia|done]| |by apply (fsstep_trans None s s4 s5 [_] [_] F14 F5)].
    + rewrite (bind_ok _ _ _ _ _ E2), (bind_ok _ _ _ _ _ E3), (bind_ok _ _ _ _ _ E4), (bind_ok _ _ _ _ _ E5). done.
    + intros j Hj [_ Hfr]. rewrite H4 in Hfr; [done|lia].
  - right. destruct (proj1 (wp_ok _ _ _) (brelse_txn s1 H bp bm T1)) as ([] & s2 & E2 & F2 & T2). split.
    + intros b [Hb Hfr]. rewrite Hscan in Hfr; [done| |lia]. unfold BPB, BSIZE. lia.
    + rewrite (bind_ok _ _ _ _ _ E2). rewrite (bind_ok _ _ s2 (k_sb s2) s2) by done.
      rewrite (tf_sb (fs_frame F2)), (tf_sb (fs_frame F1)). by rewrite (proj2 (Z.ltb_ge _ _)) by (unfold BPB, BSIZE; lia).
Qed.

(** ** What is free afterwards *)

Fixpoint count (f : Z -> bool) (n : nat) : nat :=
  match n with
  | O => 0
  | S n' => (if f (Z.of_nat n') then 1 else 0) + count f n'
  end.

Lemma count_ext f g n : (forall i, 0 <= i < Z.of_nat n -> f i = g i) -> count f n = count g n.
Proof. induction n as [|n IH]; intros H; [done|]. cbn. rewrite (H (Z.of_nat n)) by lia. rewrite IH; [done|]. intros. apply H. lia. Qed.

Lemma count_pos f n : (0 < count f n)%nat -> exists i, 0 <= i < Z.of_nat n /\ f i = true.
Proof.
  induction n as [|n IH]; cbn; [lia|]. destruct (f (Z.of_nat n)) eqn:E; [intros _; exists (Z.of_nat n); split; [lia|done]|].
  intros H. destruct IH as (i & Hi & Hf); [lia|]. exists i. split; [lia|done].
Qed.

Lemma count_drop f g n b :
  0 <= b < Z.of_nat n -> f b = true -> (forall i, 0 <= i < Z.of_nat n -> g i = negb (b =? i) && f i) -> count f n = S (count g n).
Proof.
  induction n as [|n IH]; intros Hb Hf Hg; [lia|]. cbn. rewrite (Hg (Z.of_nat n)) by lia.
  destruct (Z.eqb_spec b (Z.of_nat n)) as [->|Hne].
  - rewrite Hf. cbn. f_equal. apply count_ext. intros i Hi. rewrite Hg by lia.
    by rewrite (proj2 (Z.eqb_neq _ _)) by lia.
  - cbn. rewrite IH by (done || lia || (intros; apply Hg; lia)). lia.
Qed.

(** The number of free blocks. *)
Definition nfree (s : kernel) : nat := count (fun b => negb (bused (bitmap s) b)) (Z.to_nat (sb_size (k_sb s))).

Lemma nfree_free s : (0 < nfree s)%nat -> exists b, is_free s b.
Proof. intros (b & Hb & Hf)%count_pos. exists b. split; [lia|]. by destruct (bused _ _). Qed.

Section after.
Context (s s' : kernel) (b : Z).
Hypothesis B : bitmap_ok s.
Hypothesis Hb : is_free s b.
Hypothesis S : fsstep None s s' [(sb_bmapstart (k_sb s), bmark (bitmap s) b); (b, zero_block)].

Lemma after_ne : b <> sb_bmapstart (k_sb s) /\ home_ok (k_log s) b.
Proof using B Hb. destruct Hb as [H1 H2]. by destruct (bm_free B b H1 H2). Qed.

Lemma after_view n : fsview s' n = if decide (n = b) then zero_block else if decide (n = sb_bmapstart (k_sb s)) then bmark (bitmap s) b else fsview s n.
Proof using S. rewrite (fs_view S), !put_all_cons. done. Qed.

Lemma after_bitmap : bitmap s' = bmark (bitmap s) b.
Proof using B Hb S.
  unfold bitmap at 1. rewrite (tf_sb (fs_frame S)), after_view. destruct after_ne as [Hne _].
  rewrite decide_False by congruence. by rewrite decide_True.
Qed.

Lemma after_bused c : 0 <= c < sb_size (k_sb s) -> bused (bitmap s') c = (b =? c) || bused (bitmap s) c.
Proof using B Hb S.
  intros Hc. rewrite after_bitmap. pose proof (bm_size B). destruct Hb as [H1 _].
  apply bused_bmark; [apply (bm_block B)|unfold BPB, BSIZE, FSSIZE in *; lia..].
Qed.

Lemma after_ok : bitmap_ok s'.
Proof using B Hb S.
  pose proof (fs_frame S) as F. pose proof after_bitmap as E. unfold bitmap at 1 in E.
  split; rewrite ?(tf_sb F).
  - apply B.
  - eapply home_ok_frame; [done|apply B].
  - rewrite (tf_sb F) in E. rewrite E. apply block_ok_bmark; [apply (bm_block B)|].
    destruct Hb as [H1 _]. pose proof (bm_size B). unfold BPB, BSIZE, FSSIZE in *. lia.
  - intros c Hc Hu. rewrite (tf_sb F) in E. rewrite E, <- after_bitmap, after_bused in Hu by done.
    apply orb_false_iff in Hu as [_ Hu]. destruct (bm_free B c Hc Hu). split; [by eapply home_ok_frame|done].
Qed.

Lemma after_nfree : nfree s = Datatypes.S (nfree s').
Proof using B Hb S.
  unfold nfree. rewrite (tf_sb (fs_frame S)). pose proof (bm_size B). destruct Hb as [H1 H2].
  apply (count_drop _ _ _ b); [lia|by rewrite H2|]. intros i Hi. rewrite after_bused by lia. by destruct (b =? i).
Qed.
End after.
