(* ===== verification/FsMap.v ===== *)
(** * The blocks of a file

    Which block of the disk holds a byte of a file, given the contents of the
    disk and the file's inode, and what bmap does to that: it maps one more
    block when it has to, and changes no byte of the file. *)

From S2P Require Import Prelude State Sleep Ide Bio BioSpec Log LogSpec LogRun LogOps Fs FsTxn FsAlloc.
Open Scope Z_scope.

(** ** Files as bytes *)

(** The indirect block, and the address of block [bn]; 0 is no block. *)
Definition ind (x : inode) : Z := nthz (i_addrs x) NDIRECT.
Definition faddr (V : Z -> block) (x : inode) (bn : Z) : Z :=
  if bn <? NDIRECT then nthz (i_addrs x) bn
  else if ind x =? 0 then 0 else aref (V (ind x)) (bn - NDIRECT).
(** Byte [i] of the file; a hole reads as zero. *)
Definition fbyte (V : Z -> block) (x : inode) (i : Z) : Z :=
  let a := faddr V x (i / BSIZE) in if a =? 0 then 0 else nthz (V a) (i mod BSIZE).

(** Block [c] belongs to the file. *)
Definition in_file (V : Z -> block) (x : inode) (c : Z) : Prop :=
  c <> 0 /\ (c = ind x \/ exists m, 0 <= m < MAXFILE /\ faddr V x m = c).

(** Every block of the file is in [P], and no block is used twice. *)
Record file_ok (P : Z -> Prop) (V : Z -> block) (x : inode) : Prop := mkFileOk {
  fo_len : length (i_addrs x) = 13%nat;
  fo_ind : ind x <> 0 -> P (ind x);
  fo_data : forall bn, 0 <= bn < MAXFILE -> faddr V x bn <> 0 -> P (faddr V x bn) /\ faddr V x bn <> ind x;
  fo_inj : forall bn bm, 0 <= bn < MAXFILE -> 0 <= bm < MAXFILE -> faddr V x bn <> 0 -> faddr V x bn = faddr V x bm -> bn = bm
}.
Arguments fo_len {P V x}.
Arguments fo_ind {P V x}.
Arguments fo_data {P V x}.
Arguments fo_inj {P V x}.

Lemma MAXFILE_eq : MAXFILE = 140. Proof. done. Qed.

Lemma byte_block i : 0 <= i < MAXFILE * BSIZE -> 0 <= i / BSIZE < MAXFILE.
Proof. rewrite MAXFILE_eq. unfold BSIZE. zlia. Qed.

Lemma aref_zero k : 0 <= k < NINDIRECT -> aref zero_block k = 0.
Proof.
  intros Hk. unfold NINDIRECT, BSIZE in Hk. change (512 / 4) with 128 in Hk. unfold aref, word32, slice, zero_block.
  rewrite drop_replicate, take_replicate. replace (Nat.min 4 (512 - Z.to_nat (4 * k))) with 4%nat by lia. done.
Qed.

Lemma nthz_zero i : 0 <= i < BSIZE -> nthz zero_block i = 0.
Proof. intros Hi. unfold nthz, zero_block, BSIZE in *. apply lookup_total_replicate_2. lia. Qed.

(** One more block [a] is mapped, as a data block or as the indirect block. *)
Section extend.
Context (P P' : Z -> Prop) (V V' : Z -> block) (x x' : inode) (a : Z).
Hypothesis F : file_ok P V x.
Hypothesis Hlen : length (i_addrs x') = 13%nat.
Hypothesis Ha : a <> 0.
Hypothesis Hfresh : ~ P a.
Hypothesis HP : forall c, P c -> P' c.
Hypothesis HPa : P' a.
Hypothesis HV : forall c, P c -> c <> ind x -> V' c = V c.
Hypothesis HVa : V' a = zero_block.

Lemma extend_data bn :
  ind x' = ind x -> faddr V x bn = 0 -> 0 <= bn < MAXFILE ->
  (forall m, 0 <= m < MAXFILE -> faddr V' x' m = if decide (m = bn) then a else faddr V x m) ->
  file_ok P' V' x' /\ forall i, 0 <= i < MAXFILE * BSIZE -> fbyte V' x' i = fbyte V x i.
Proof using All.
  intros Ei Hz Hbn Hf.
  assert (Hne : forall m, 0 <= m < MAXFILE -> faddr V x m <> a) by (intros m Hm E; apply Hfresh; rewrite <- E; apply (fo_data F m Hm); congruence).
  assert (Hai : a <> ind x) by (intros E; apply Hfresh; rewrite E; apply (fo_ind F); congruence).
  split; [split; [done| | |]|].
  - rewrite Ei. intros H. by apply HP, (fo_ind F).
  - intros m Hm. rewrite Ei, Hf by done. case_decide; [done|]. intros Hnz. destruct (fo_data F m Hm Hnz). auto.
  - intros m m' Hm Hm'. rewrite !Hf by done. repeat case_decide; subst; try done.
    + intros _ E. destruct (Hne m'); [done|congruence].
    + intros _ E. destruct (Hne m); done.
    + by apply (fo_inj F).
  - intros i Hi. pose proof (byte_block i Hi) as Hb. unfold fbyte. rewrite Hf by done. case_decide as Eb.
    + rewrite Eb, Hz. cbn. rewrite HVa, nthz_zero by (unfold BSIZE; zlia). by destruct (a =? 0).
    + destruct (Z.eqb_spec (faddr V x (i / BSIZE)) 0) as [|Hnz]; [done|]. destruct (fo_data F _ Hb Hnz). by rewrite HV.
Qed.

Lemma extend_ind :
  ind x = 0 -> ind x' = a -> (forall m, 0 <= m < MAXFILE -> faddr V' x' m = faddr V x m) ->
  file_ok P' V' x' /\ forall i, 0 <= i < MAXFILE * BSIZE -> fbyte V' x' i = fbyte V x i.
Proof using All.
  intros Ei Ei' Hf. split; [split; [done| | |]|].
  - by rewrite Ei'.
  - intros m Hm. rewrite Ei', Hf by done. intros H. destruct (fo_data F m Hm H) as [H1 _]. split; [auto|congruence].
  - intros m m' Hm Hm'. rewrite !Hf by done. by apply (fo_inj F).
  - intros i Hi. pose proof (byte_block i Hi) as Hb. unfold fbyte. rewrite Hf by done.
    destruct (Z.eqb_spec (faddr V x (i / BSIZE)) 0) as [|Hnz]; [done|]. destruct (fo_data F _ Hb Hnz). by rewrite HV.
Qed.
End extend.

(** ** Files in a kernel state *)

(** A block that can belong to the file: in use, and neither the bit map nor
    the block of the inode, nor part of the log. *)
Record data_block (s : kernel) (inum a : Z) : Prop := mkDataBlock {
  db_home : home_ok (k_log s) a;
  db_size : 0 <= a < sb_size (k_sb s);
  db_used : bused (bitmap s) a = true;
  db_bm : a <> sb_bmapstart (k_sb s);
  db_inode : a <> IBLOCK inum (k_sb s)
}.

Record file_in (s : kernel) (x : inode) : Prop := mkFileIn {
  fi_dev : i_dev x = ROOTDEV;
  fi_file : file_ok (data_block s (i_inum x)) (fsview s) x;
  fi_inode : home_ok (k_log s) (IBLOCK (i_inum x) (k_sb s));
  fi_inode_used : ~ is_free s (IBLOCK (i_inum x) (k_sb s));
  fi_inode_bm : IBLOCK (i_inum x) (k_sb s) <> sb_bmapstart (k_sb s);
  fi_zero : ~ is_free s 0
}.
Arguments fi_dev {s x}.
Arguments fi_file {s x}.
Arguments fi_inode {s x}.
Arguments fi_inode_used {s x}.
Arguments fi_inode_bm {s x}.
Arguments fi_zero {s x}.

(** The inode changes in its addresses only. *)
Definition same_meta (x x' : inode) : Prop := x' = set_i_addrs (i_addrs x') x.

(** Changes of the inode cache leave the blocks alone. *)
Lemma txn_icache s H ic : txn s H -> txn (set_k_icache ic s) H.
Proof.
  intros T. destruct T as [[] L Hs Hh Hn Hu]. split; try done.
  - destruct L. by split.
  - intros b n Hin. by destruct (Hh b n Hin).
Qed.
Lemma txn_sb s H sb : txn s H -> txn (set_k_sb sb s) H.
Proof.
  intros T. destruct T as [[] L Hs Hh Hn Hu]. split; try done.
  - destruct L. by split.
  - intros b n Hin. by destruct (Hh b n Hin).
Qed.
Lemma txn_intro s : bio_inv s -> log_inv s -> l_size (k_log s) <= LOGSIZE -> only_held s [] -> txn s [].
Proof. intros. split; try done; [intros b n []%not_elem_of_nil|constructor]. Qed.
Lemma bitmap_icache s ic : bitmap_ok s -> bitmap_ok (set_k_icache ic s).
Proof. intros []. by split. Qed.
Lemma data_block_icache s ic inum a : data_block s inum a -> data_block (set_k_icache ic s) inum a.
Proof. intros []. by split. Qed.
Lemma file_ok_mono (P P' : Z -> Prop) V x : (forall c, P c -> P' c) -> file_ok P V x -> file_ok P' V x.
Proof. intros H [F1 F2 F3 F4]. split; auto. intros bn Hb Hn. destruct (F3 bn Hb Hn). auto. Qed.
Lemma fsstep_icache s ip f : fsstep (Some ip) s (set_k_icache (alter f ip (k_icache s)) s) [].
Proof.
  split; [split; [by apply fs_part_intro; destruct s|done..]| |cbn; apply length_alter|done| |cbn; lia|done].
  - intros j Hj. cbn. rewrite alter_total_ne; [done|congruence].
  - intros n. cbn. set_solver.
Qed.

(** A file is not changed by steps that keep its blocks and its inode's block. *)
Lemma file_in_step oi s s' W x :
  file_in s x -> fsstep oi s s' W ->
  (forall a, 0 <= a < sb_size (k_sb s) -> bused (bitmap s) a = true -> bused (bitmap s') a = true) ->
  (forall a, data_block s (i_inum x) a -> fsview s' a = fsview s a) ->
  file_in s' x /\ (forall bn, 0 <= bn < MAXFILE -> faddr (fsview s') x bn = faddr (fsview s) x bn) /\
  (forall i, 0 <= i < MAXFILE * BSIZE -> fbyte (fsview s') x i = fbyte (fsview s) x i).
Proof.
  intros [Hd F Hi Hu Hb Hz] S Hused HV. pose proof (fs_frame S) as TF.
  assert (Hdb : forall a, data_block s (i_inum x) a -> data_block s' (i_inum x) a).
  { intros a []. split; rewrite ?(tf_sb TF); auto. by eapply home_ok_frame. }
  assert (Hfa : forall bn, 0 <= bn < MAXFILE -> faddr (fsview s') x bn = faddr (fsview s) x bn).
  { intros bn Hbn. unfold faddr. destruct (bn <? NDIRECT); [done|]. destruct (Z.eqb_spec (ind x) 0); [done|]. by rewrite HV by by apply (fo_ind F). }
  assert (Hfree : forall a, ~ is_free s a -> ~ is_free s' a).
  { intros a Hn [H1 H2]. rewrite (tf_sb TF) in H1. apply Hn. split; [done|]. destruct (bused (bitmap s) a) eqn:E; [|done].
    by rewrite Hused in H2. }
  split_and!; [|done|].
  - split; rewrite ?(tf_sb TF); auto; [|by eapply home_ok_frame].
    split; [apply F|intros H; by apply Hdb, (fo_ind F)| |].
    + intros bn Hbn. rewrite Hfa by done. intros Hnz. destruct (fo_data F bn Hbn Hnz). auto.
    + intros bn bm Hbn Hbm. rewrite !Hfa by done. by apply (fo_inj F).
  - intros i Hi'. pose proof (byte_block i Hi') as Hbn. unfold fbyte. rewrite Hfa by done.
    destruct (Z.eqb_spec (faddr (fsview s) x (i / BSIZE)) 0) as [|Hnz]; [done|]. destruct (fo_data F _ Hbn Hnz). by rewrite HV.
Qed.

(** ** balloc for a file *)

Record fresh_block (s s' : kernel) (x : inode) (a : Z) (W : list (Z * block)) : Prop := mkFresh {
  fr_step : fsstep None s s' W;
  fr_blocks : W.*1 = [sb_bmapstart (k_sb s); a];
  fr_bitmap : bitmap_ok s';
  fr_free : nfree s = S (nfree s');
  fr_nz : a <> 0;
  fr_new : is_free s a;
  fr_data : data_block s' (i_inum x) a;
  fr_zero : fsview s' a = zero_block;
  fr_file : file_in s' x;
  fr_addr : forall bn, 0 <= bn < MAXFILE -> faddr (fsview s') x bn = faddr (fsview s) x bn;
  fr_byte : forall i, 0 <= i < MAXFILE * BSIZE -> fbyte (fsview s') x i = fbyte (fsview s) x i;
  fr_old : forall n, n <> a -> n <> sb_bmapstart (k_sb s) -> fsview s' n = fsview s n;
  fr_mono : forall c, data_block s (i_inum x) c -> data_block s' (i_inum x) c;
  fr_shrink : forall c, is_free s' c -> is_free s c
}.

Lemma balloc_file s H x :
  txn s H -> 1 <= l_outstanding (k_log s) -> bitmap_ok s -> held_used s H -> file_in s x -> (0 < nfree s)%nat ->
  Z.of_nat (length H) + lh_n (k_log s) + 1 < Z.of_nat NBUF -> lh_n (k_log s) + 2 < l_size (k_log s) ->
  exists a s' W, balloc ROOTDEV s = Ok a s' /\ txn s' H /\ fresh_block s s' x a W.
Proof.
  intros T Ho B Hu F Hfr Hroom Hfit. destruct (balloc_txn s H T Ho B Hu Hroom Hfit) as [(a & s' & E & Hfree & _ & S & T')|[Hno _]]; last first.
  { destruct (nfree_free s Hfr) as [b Hb]. by destruct (Hno b). }
  destruct (after_ne s a B Hfree) as [Hne Hh]. exists a, s'. eexists. split_and!; [done|done|].
  assert (Hdn : forall c, data_block s (i_inum x) c -> c <> a) by (intros c [] ->; destruct Hfree; congruence).
  assert (Hold : forall n, n <> a -> n <> sb_bmapstart (k_sb s) -> fsview s' n = fsview s n).
  { intros n H1 H2. rewrite (after_view s s' a S). by rewrite !decide_False. }
  assert (Hused : forall c, 0 <= c < sb_size (k_sb s) -> bused (bitmap s) c = true -> bused (bitmap s') c = true).
  { intros c Hc E'. rewrite (after_bused s s' a B Hfree S) by done. rewrite E'. apply orb_true_r. }
  destruct (file_in_step None s s' _ x F S Hused) as (F' & Hfa & Hfb).
  { intros c Hc. apply Hold; [by apply Hdn|apply Hc]. }
  split; try exact S; try done.
  - by apply (after_ok s s' a).
  - by apply (after_nfree s s' a).
  - intros ->. by apply (fi_zero F).
  - pose proof (fs_frame S) as TF. split; rewrite ?(tf_sb TF); try done.
    + by eapply home_ok_frame.
    + apply Hfree.
    + rewrite (after_bused s s' a B Hfree S) by apply Hfree. by rewrite Z.eqb_refl.
    + intros ->. by apply (fi_inode_used F).
  - rewrite (after_view s s' a S). by rewrite decide_True.
  - intros c []. pose proof (fs_frame S) as TF. split; rewrite ?(tf_sb TF); auto. by eapply home_ok_frame.
  - intros c [Hc1 Hc2]. rewrite (tf_sb (fs_frame S)) in Hc1. split; [done|]. destruct (bused (bitmap s) c) eqn:Eu; [|done]. by rewrite Hused in Hc2.
Qed.

(** ** bmap *)

(** The inode in the cache. *)
Definition inode_at (s : kernel) (ip : nat) : inode := k_icache s !!! ip.

Record mapped (ip : nat) (s s' : kernel) (bn a : Z) (W : list (Z * block)) : Prop := mkMapped {
  mp_step : fsstep (Some ip) s s' W;
  mp_blocks : forall n, n ∈ W.*1 -> n = sb_bmapstart (k_sb s) \/ (n = ind (inode_at s' ip) /\ n <> 0) \/ n = a;
  mp_bitmap : bitmap_ok s';
  mp_free : (nfree s <= nfree s' + 2)%nat;
  mp_meta : same_meta (inode_at s ip) (inode_at s' ip);
  mp_file : file_in s' (inode_at s' ip);
  mp_at : faddr (fsview s') (inode_at s' ip) bn = a;
  mp_nz : a <> 0;
  mp_addr : forall m, 0 <= m < MAXFILE -> faddr (fsview s) (inode_at s ip) m <> 0 ->
    faddr (fsview s') (inode_at s' ip) m = faddr (fsview s) (inode_at s ip) m;
  mp_ind : ind (inode_at s ip) <> 0 -> ind (inode_at s' ip) = ind (inode_at s ip);
  mp_new : forall c, in_file (fsview s') (inode_at s' ip) c -> in_file (fsview s) (inode_at s ip) c \/ is_free s c;
  mp_mono : forall c, is_free s' c -> is_free s c;
  mp_byte : forall i, 0 <= i < MAXFILE * BSIZE -> fbyte (fsview s') (inode_at s' ip) i = fbyte (fsview s) (inode_at s ip) i
}.

Lemma nthz_set (l : list Z) k m v : 0 <= k -> 0 <= m < Z.of_nat (length l) -> nthz (setz l k v) m = if decide (m = k) then v else nthz l m.
Proof. intros Hk Hm. case_decide as E; [subst; apply nthz_setz_eq; lia|apply nthz_setz_ne; lia]. Qed.

(** A block just allocated is entered in the inode. *)
Section slot.
Context (ip : nat) (s s1 : kernel) (a k : Z) (W : list (Z * block)).
Let x := inode_at s ip.
Hypothesis Hip : (ip < length (k_icache s))%nat.
Hypothesis F : file_in s x.
Hypothesis R : fresh_block s s1 x a W.
Hypothesis Hk : 0 <= k <= NDIRECT.
Hypothesis Hz : nthz (i_addrs x) k = 0.
Let s2 := set_k_icache (alter (fun x => set_i_addrs (setz (i_addrs x) k a) x) ip (k_icache s1)) s1.

Lemma slot_inode : inode_at s2 ip = set_i_addrs (setz (i_addrs x) k a) x.
Proof using R Hip.
  pose proof (fr_step _ _ _ _ _ R) as S. unfold s2, inode_at. ksimpl. rewrite alter_total_eq by (rewrite (fs_ninodes S); done).
  by rewrite (fs_icache S).
Qed.

Lemma slot_step : fsstep (Some ip) s s2 W.
Proof using R. rewrite <- (app_nil_r W). eapply fsstep_trans; [apply fsstep_weaken, (fr_step _ _ _ _ _ R)|apply fsstep_icache]. Qed.

Lemma slot_data_old c : data_block s (i_inum x) c -> fsview s1 c = fsview s c.
Proof using R.
  intros D. apply (fr_old _ _ _ _ _ R); [|apply D]. intros ->. destruct D as [_ _ D _ _]. pose proof (fr_new _ _ _ _ _ R) as [_ N]. congruence.
Qed.

Lemma slot_file :
  file_ok (data_block s1 (i_inum x)) (fsview s1) (set_i_addrs (setz (i_addrs x) k a) x) ->
  file_in s2 (inode_at s2 ip).
Proof using R Hip F.
  intros F'. rewrite slot_inode. destruct (fr_file _ _ _ _ _ R) as [D1 _ D3 D4 D5 D6].
  split; try done. eapply file_ok_mono; [|exact F']. intros c. apply data_block_icache.
Qed.

Lemma slot_direct : k < NDIRECT -> mapped ip s s2 k a W.
Proof using All.
  intros Hlt. unfold NDIRECT in *. pose proof (fo_len (fi_file F)) as Hl. set (x' := set_i_addrs (setz (i_addrs x) k a) x).
  assert (Ei : ind x' = ind x) by (unfold ind, x'; cbn; apply nthz_setz_ne; unfold NDIRECT; lia).
  assert (Hfa : forall m, 0 <= m < MAXFILE -> faddr (fsview s1) x' m = if decide (m = k) then a else faddr (fsview s) x m).
  { intros m Hm. rewrite <- (fr_addr _ _ _ _ _ R) by done. unfold faddr. rewrite Ei. unfold NDIRECT. destruct (Z.ltb_spec m 12).
    - unfold x'. cbn. apply nthz_set; lia.
    - rewrite decide_False by lia. done. }
  assert (Hk0 : faddr (fsview s) x k = 0) by (unfold faddr; rewrite (proj2 (Z.ltb_lt k NDIRECT)) by done; done).
  destruct (extend_data (data_block s (i_inum x)) (data_block s1 (i_inum x)) (fsview s) (fsview s1) x x' a) with (bn := k) as [F' B'];
    try done; try apply R.
  - apply F.
  - unfold x'. cbn. by rewrite length_setz.
  - intros [_ _ D _ _]. pose proof (fr_new _ _ _ _ _ R) as [_ N]. congruence.
  - intros c D _. by apply slot_data_old.
  - rewrite MAXFILE_eq. lia.
  - assert (F2 : file_in s2 (inode_at s2 ip)) by by apply slot_file.
    split; rewrite ?slot_inode in *; fold x'; try done.
    + apply slot_step.
    + intros n. rewrite (fr_blocks _ _ _ _ _ R). set_solver.
    + apply bitmap_icache, R.
    + pose proof (fr_free _ _ _ _ _ R). change (nfree s2) with (nfree s1). lia.
    + change (fsview s2) with (fsview s1). rewrite Hfa by (rewrite MAXFILE_eq; lia). by rewrite decide_True.
    + apply R.
    + intros m Hm Hnz. change (fsview s2) with (fsview s1). rewrite Hfa by done. rewrite decide_False; [done|]. intros ->. done.
    + intros c [Hc0 Hc]. change (fsview s2) with (fsview s1) in Hc. rewrite Ei in Hc. destruct Hc as [->|(m & Hm & <-)]; [left; split; [done|by left]|].
      rewrite Hfa by done. case_decide; [right; apply R|]. left. rewrite Hfa, decide_False in Hc0 by done. split; [done|]. right. by exists m.
    + intros c. apply (fr_shrink _ _ _ _ _ R).
Qed.

Lemma slot_ind : k = NDIRECT ->
  file_in s2 (inode_at s2 ip) /\ ind (inode_at s2 ip) = a /\
  (forall m, 0 <= m < MAXFILE -> faddr (fsview s2) (inode_at s2 ip) m = faddr (fsview s) x m) /\
  forall i, 0 <= i < MAXFILE * BSIZE -> fbyte (fsview s2) (inode_at s2 ip) i = fbyte (fsview s) x i.
Proof using All.
  intros Ek. pose proof (fo_len (fi_file F)) as Hl. set (x' := set_i_addrs (setz (i_addrs x) k a) x).
  assert (Ei : ind x' = a) by (unfold ind, x'; cbn; rewrite Ek; apply nthz_setz_eq; unfold NDIRECT; lia).
  assert (Hi0 : ind x = 0) by (unfold ind; by rewrite <- Ek).
  assert (Hfa : forall m, 0 <= m < MAXFILE -> faddr (fsview s1) x' m = faddr (fsview s) x m).
  { intros m Hm. unfold faddr. rewrite Ei, Hi0. destruct (Z.ltb_spec m NDIRECT).
    - unfold x'. cbn. apply nthz_setz_ne; unfold NDIRECT in *; lia.
    - rewrite (proj2 (Z.eqb_neq a 0)) by apply R. rewrite (fr_zero _ _ _ _ _ R). cbn. apply aref_zero. unfold MAXFILE in Hm. lia. }
  destruct (extend_ind (data_block s (i_inum x)) (data_block s1 (i_inum x)) (fsview s) (fsview s1) x x' a) as [F' B']; try done; try apply R.
  - apply F.
  - unfold x'. cbn. by rewrite length_setz.
  - intros [_ _ D _ _]. pose proof (fr_new _ _ _ _ _ R) as [_ N]. congruence.
  - intros c D _. by apply slot_data_old.
  - split; [by apply slot_file|]. rewrite slot_inode. fold x'. done.
Qed.
End slot.

(** A block that is mapped already. *)
Lemma mapped_same ip s s' bn :
  fsstep None s s' [] -> bitmap_ok s -> file_in s (inode_at s ip) -> 0 <= bn < MAXFILE -> faddr (fsview s) (inode_at s ip) bn <> 0 ->
  mapped ip s s' bn (faddr (fsview s) (inode_at s ip) bn) [].
Proof.
  intros S B F Hbn Hnz. assert (Ex : inode_at s' ip = inode_at s ip) by (by apply (fs_icache S)).
  assert (Hbm : sb_bmapstart (k_sb s) ∉ ([] : list (Z * block)).*1) by set_solver.
  pose proof (bitmap_step _ _ _ _ S Hbm) as Eb.
  destruct (file_in_step None s s' [] _ F S) as (F' & Hfa & Hfb); [by rewrite Eb|intros a _; apply (fs_view S)|].
  split; rewrite ?Ex; try done; auto.
  - by apply fsstep_weaken.
  - intros n. set_solver.
  - by eapply bitmap_ok_step.
  - unfold nfree. rewrite Eb, (tf_sb (fs_frame S)). lia.
  - unfold same_meta. by destruct (inode_at s ip).
  - intros c [Hc0 Hc]. left. split; [done|]. destruct Hc as [->|(m & Hm & <-)]; [by left|]. right. exists m. by rewrite Hfa.
  - intros c [Hc1 Hc2]. rewrite Eb in Hc2. rewrite (tf_sb (fs_frame S)) in Hc1. by split.
Qed.

(** A block just allocated is entered in the indirect block. *)
Section entry.
Context (ip : nat) (s s1 s2 : kernel) (a k : Z) (W : list (Z * block)).
Let x := inode_at s ip.
Hypothesis F : file_in s x.
Hypothesis R : fresh_block s s1 x a W.
Hypothesis Hk : 0 <= k < NINDIRECT.
Hypothesis Hi : ind x <> 0.
Hypothesis Hz : aref (fsview s (ind x)) k = 0.
Hypothesis S2 : fsstep None s1 s2 [(ind x, put32 (fsview s1 (ind x)) (4 * k) a)].
Hypothesis Hd : block_ok (fsview s (ind x)).

Lemma entry_ind : data_block s (i_inum x) (ind x).
Proof using F Hi. by apply (fo_ind (fi_file F)). Qed.

Lemma entry_view c : fsview s2 c = if decide (c = ind x) then put32 (fsview s (ind x)) (4 * k) a else fsview s1 c.
Proof using F R Hi S2. rewrite (fs_view S2), put_all_cons. rewrite (slot_data_old ip s s1 a W R (ind x)) by by apply entry_ind. done. Qed.

Lemma entry_ne : a <> ind x.
Proof using F R Hi. intros E. pose proof entry_ind as [_ _ D _ _]. pose proof (fr_new _ _ _ _ _ R) as [_ N]. congruence. Qed.

Lemma entry_bm : sb_bmapstart (k_sb s1) ∉ ([(ind x, put32 (fsview s1 (ind x)) (4 * k) a)] : list (Z * block)).*1.
Proof using F R Hi.
  cbn. rewrite (tf_sb (fs_frame (fr_step _ _ _ _ _ R))). intros E%list_elem_of_singleton. by destruct entry_ind.
Qed.

Lemma entry_addr m : 0 <= m < MAXFILE -> faddr (fsview s2) x m = if decide (m = NDIRECT + k) then a else faddr (fsview s) x m.
Proof using All.
  intros Hm. pose proof (fr_new _ _ _ _ _ R) as [Hn _]. pose proof (bm_size (fr_bitmap _ _ _ _ _ R)) as Hsz.
  rewrite (tf_sb (fs_frame (fr_step _ _ _ _ _ R))) in Hsz. unfold NINDIRECT, BSIZE, FSSIZE in *. change (512 / 4) with 128 in *.
  unfold faddr. unfold NDIRECT in *. destruct (Z.ltb_spec m 12); [by rewrite decide_False by lia|].
  rewrite (proj2 (Z.eqb_neq (ind x) 0)) by done. rewrite entry_view, decide_True by done. unfold aref. rewrite MAXFILE_eq in Hm.
  case_decide as E.
  - replace (m - 12) with k by lia. rewrite word32_put32 by (done || lia). apply u32_small. lia.
  - apply word32_put32_ne; [done|lia|lia|lia].
Qed.

Lemma entry_bused c : bused (bitmap s2) c = bused (bitmap s1) c.
Proof using F R Hi S2. by rewrite (bitmap_step _ _ _ _ S2 entry_bm). Qed.

Lemma entry_data c : data_block s1 (i_inum x) c -> data_block s2 (i_inum x) c.
Proof using F R Hi S2.
  intros []. pose proof (fs_frame S2) as TF. split; rewrite ?(tf_sb TF), ?entry_bused; try done. by eapply home_ok_frame.
Qed.

Lemma entry_file : file_in s2 x /\ forall i, 0 <= i < MAXFILE * BSIZE -> fbyte (fsview s2) x i = fbyte (fsview s) x i.
Proof using All.
  assert (H0 : faddr (fsview s) x (NDIRECT + k) = 0).
  { unfold faddr. unfold NDIRECT. rewrite (proj2 (Z.ltb_ge _ _)) by lia. rewrite (proj2 (Z.eqb_neq _ _)) by done.
    by replace (12 + k - 12) with k by lia. }
  assert (Hr : 0 <= NDIRECT + k < MAXFILE) by (unfold MAXFILE, NDIRECT; lia).
  destruct (extend_data (data_block s (i_inum x)) (data_block s2 (i_inum x)) (fsview s) (fsview s2) x x a) with (bn := NDIRECT + k) as [F' B'].
  - apply F.
  - apply F.
  - apply R.
  - intros [_ _ D _ _]. pose proof (fr_new _ _ _ _ _ R) as [_ N]. congruence.
  - intros c D. apply entry_data. by apply (fr_mono _ _ _ _ _ R).
  - apply entry_data, R.
  - intros c D Hne. rewrite entry_view, decide_False by done. by apply (slot_data_old ip s s1 a W R).
  - rewrite entry_view, decide_False by apply entry_ne. apply R.
  - done.
  - done.
  - done.
  - intros m Hm. by apply entry_addr.
  - split; [|done]. pose proof (fs_frame S2) as TF. destruct (fr_file _ _ _ _ _ R) as [D1 _ D3 D4 D5 D6].
    split; rewrite ?(tf_sb TF); try done; [by eapply home_ok_frame| |]; intros [N1 N2]; rewrite entry_bused in N2; rewrite (tf_sb TF) in N1.
    + by apply D4.
    + by apply D6.
Qed.

Lemma entry_nfree : nfree s = S (nfree s2).
Proof using F R Hi S2.
  rewrite (fr_free _ _ _ _ _ R). unfold nfree. by rewrite (bitmap_step _ _ _ _ S2 entry_bm), (tf_sb (fs_frame S2)).
Qed.

Lemma entry_mapped : mapped ip s s2 (NDIRECT + k) a (W ++ [(ind x, put32 (fsview s1 (ind x)) (4 * k) a)]).
Proof using All.
  destruct entry_file as [F' B']. pose proof (fr_step _ _ _ _ _ R) as S1.
  assert (Ex : inode_at s2 ip = x) by (unfold x, inode_at; by rewrite (fs_icache S2), (fs_icache S1)).
  assert (Hr : 0 <= NDIRECT + k < MAXFILE) by (unfold MAXFILE, NDIRECT; lia).
  split; rewrite ?Ex; try done; fold x.
  - apply fsstep_weaken. by eapply fsstep_trans.
  - intros n. rewrite fmap_app, (fr_blocks _ _ _ _ _ R). cbn. rewrite !elem_of_cons. intros [->|[->|[->|[]%not_elem_of_nil]]]; auto.
  - eapply bitmap_ok_step; [exact S2|apply entry_bm|apply R].
  - rewrite entry_nfree. lia.
  - unfold same_meta. by destruct x.
  - rewrite entry_addr by done. by rewrite decide_True.
  - apply R.
  - intros m Hm Hnz. rewrite entry_addr by done. rewrite decide_False; [done|]. intros ->. apply Hnz.
    unfold faddr. unfold NDIRECT. rewrite (proj2 (Z.ltb_ge _ _)) by lia. rewrite (proj2 (Z.eqb_neq _ _)) by done.
    by replace (12 + k - 12) with k by lia.
  - intros c [Hc0 Hc]. destruct Hc as [->|(m & Hm & <-)]; [left; split; [done|by left]|].
    rewrite entry_addr in * by done. case_decide; [right; apply R|]. left. split; [done|]. right. by exists m.
  - intros c [Hc1 Hc2]. apply (fr_shrink _ _ _ _ _ R). rewrite entry_bused in Hc2. rewrite (tf_sb (fs_frame S2)) in Hc1. by split.
Qed.
End entry.

Lemma fsview_ok s n : bio_inv s -> block_ok (fsview s n).
Proof.
  intros I. unfold fsview, view. destruct (cached s ROOTDEV n) as [i|] eqn:E; [|apply (bi_ide I)].
  apply cached_Some in E as (Hi & _). apply (bi_bufs I i Hi).
Qed.

(** The second half of bmap: the entry of the indirect block. *)
Definition bmap_entry (dev a bn : Z) : kM Z :=
  bp ← bread dev a;
  d ← bdata bp;
  addr ← (if aref d bn =? 0 then
            addr ← balloc dev;
            d ← bdata bp;
            set_bdata bp (put32 d (4 * bn) addr);;
            log_write bp;;
            mret addr
          else mret (aref d bn));
  brelse bp;;
  mret addr.

Lemma faddr_ext V V' x m : (forall n, V n = V' n) -> faddr V x m = faddr V' x m.
Proof. intros H. unfold faddr. by rewrite H. Qed.
Lemma fbyte_ext V V' x i : (forall n, V n = V' n) -> fbyte V x i = fbyte V' x i.
Proof. intros H. unfold fbyte. rewrite (faddr_ext V V') by done. by rewrite H. Qed.

(** Blocks may be read before and after. *)
Lemma mapped_between ip s0 s s1 s2 bn a W :
  fsstep None s0 s [] -> mapped ip s s1 bn a W -> fsstep None s1 s2 [] -> mapped ip s0 s2 bn a W.
Proof.
  intros S0 [M1 M2 M3 M4 M5 M6 M7 M8 M9 M10 M12 M13 M11] S2. pose proof (fs_frame S0) as F0. pose proof (fs_frame S2) as F2.
  assert (E0 : inode_at s ip = inode_at s0 ip) by (by apply (fs_icache S0)).
  assert (E2 : inode_at s2 ip = inode_at s1 ip) by (by apply (fs_icache S2)).
  pose proof (bitmap_step _ _ _ _ S0 ltac:(set_solver+)) as Eb0. pose proof (bitmap_step _ _ _ _ S2 ltac:(set_solver+)) as Eb2.
  destruct (file_in_step None s1 s2 [] _ M6 S2 ltac:(by rewrite Eb2) ltac:(intros; apply (fs_view S2))) as (F & _).
  assert (A0 : forall x m, faddr (fsview s) x m = faddr (fsview s0) x m) by (intros; apply faddr_ext, (fs_view S0)).
  assert (A2 : forall x m, faddr (fsview s2) x m = faddr (fsview s1) x m) by (intros; apply faddr_ext, (fs_view S2)).
  rewrite E0 in *. split; rewrite ?E2; try done.
  - rewrite <- (app_nil_r W). eapply fsstep_trans; [|apply fsstep_weaken, S2]. apply (fsstep_trans (Some ip) s0 s s1 [] W); [by apply fsstep_weaken|done].
  - by rewrite <- (tf_sb F0).
  - eapply bitmap_ok_step; [exact S2|set_solver+|done].
  - unfold nfree in *. by rewrite Eb2, (tf_sb F2), <- Eb0, <- (tf_sb F0).
  - by rewrite A2.
  - intros m Hm. rewrite A2, <- A0. auto.
  - intros c [Hc0 Hc]. destruct (M12 c) as [[N0 N]|[N1 N2]].
    + split; [done|]. destruct Hc as [?|(m & Hm & ?)]; [by left|right; exists m; by rewrite <- A2].
    + left. split; [done|]. destruct N as [?|(m & Hm & ?)]; [by left|right; exists m; by rewrite <- A0].
    + right. rewrite Eb0 in N2. rewrite (tf_sb F0) in N1. by split.
  - intros c [N1 N2]. rewrite Eb2 in N2. rewrite (tf_sb F2) in N1. destruct (M13 c (conj N1 N2)) as [N3 N4]. rewrite Eb0 in N4. rewrite (tf_sb F0) in N3. by split.
  - intros i Hi. rewrite (fbyte_ext (fsview s2) (fsview s1)) by apply (fs_view S2). rewrite (fbyte_ext (fsview s0) (fsview s)) by (intros; symmetry; apply (fs_view S0)). auto.
Qed.

(** The entry is allocated while the indirect block is held. *)
Lemma bmap_entry_alloc ip s bp k :
  let x := inode_at s ip in
  txn s [(bp, ind x)] -> 1 <= l_outstanding (k_log s) -> bitmap_ok s -> file_in s x -> (0 < nfree s)%nat -> 0 <= k < NINDIRECT -> ind x <> 0 -> aref (fsview s (ind x)) k = 0 ->
  lh_n (k_log s) + 3 < l_size (k_log s) \/ (sb_bmapstart (k_sb s) ∈ logged (k_log s) /\ lh_n (k_log s) + 2 < l_size (k_log s)) ->
  exists a s' W, (addr ← balloc ROOTDEV; d ← bdata bp; set_bdata bp (put32 d (4 * k) addr);; log_write bp;; mret addr) s = Ok a s' /\
    txn s' [(bp, ind x)] /\ mapped ip s s' (NDIRECT + k) a W /\ (nfree s <= nfree s' + 1)%nat.
Proof.
  intros x T Ho B F Hfr Hk Hi Hz Hlog. pose proof (tn_size T) as Hsz. unfold LOGSIZE, MAXOPBLOCKS in Hsz.
  pose proof (fo_ind (fi_file F) Hi) as D.
  assert (Hu : held_used s [(bp, ind x)]).
  { intros n Hn. cbn in Hn. apply list_elem_of_singleton in Hn as ->. split; [apply D|]. intros [_ N]. pose proof (db_used _ _ _ D). congruence. }
  destruct (balloc_file s [(bp, ind x)] x T Ho B Hu F Hfr) as (a & s2 & W & E2 & T2 & R2); [unfold NBUF; cbn; lia|lia|].
  pose proof (fr_step _ _ _ _ _ R2) as S2. pose proof (fr_blocks _ _ _ _ _ R2) as HW.
  assert (Hn2 : lh_n (k_log s2) + 1 < l_size (k_log s2)).
  { rewrite (tf_size (fs_frame S2)). destruct Hlog as [Hl|[Hin Hl]].
    - pose proof (fsstep_cover _ _ _ _ _ _ W.*1 T T2 S2 ltac:(by right)) as Hc. rewrite HW in Hc. cbn in Hc. lia.
    - pose proof (fsstep_cover _ _ _ _ _ _ [a] T T2 S2) as Hc. rewrite HW in Hc. cbn in Hc. lapply Hc; [lia|]. set_solver. }
  destruct (write_txn s2 _ T2 bp (ind x) (put32 (fsview s2 (ind x)) (4 * k) a)) as (s3 & s4 & E3 & E4 & S4 & T4).
  { by rewrite (tf_out (fs_frame S2)). } { left. } { eapply home_ok_frame; [apply (fs_frame S2)|apply D]. }
  { apply block_ok_put32; [apply fsview_ok, T2|]. unfold NINDIRECT, BSIZE in Hk. change (512 / 4) with 128 in Hk. lia. }
  { eapply log_room; [exact T2|done]. }
  exists a, s4, (W ++ [(ind x, put32 (fsview s2 (ind x)) (4 * k) a)]). split_and!; [|done| |].
  - rewrite (bind_ok _ _ _ _ _ E2), (bind_ok _ _ _ _ _ (bdata_txn s2 _ T2 bp _ ltac:(left))), (bind_ok _ _ _ _ _ E3). by rewrite (bind_ok _ _ _ _ _ E4).
  - eapply entry_mapped; try done. apply fsview_ok, T.
  - rewrite (entry_nfree ip s s2 s4 a k W F R2 Hi S4). lia.
Qed.

Lemma bmap_entry_spec ip s k :
  let x := inode_at s ip in
  txn s [] -> 1 <= l_outstanding (k_log s) -> bitmap_ok s -> file_in s x -> (0 < nfree s)%nat -> 0 <= k < NINDIRECT -> ind x <> 0 ->
  lh_n (k_log s) + 3 < l_size (k_log s) \/ (sb_bmapstart (k_sb s) ∈ logged (k_log s) /\ lh_n (k_log s) + 2 < l_size (k_log s)) ->
  exists a s' W, bmap_entry ROOTDEV (ind x) k s = Ok a s' /\ txn s' [] /\ mapped ip s s' (NDIRECT + k) a W /\ (nfree s <= nfree s' + 1)%nat.
Proof.
  intros x T Ho B F Hfr Hk Hi Hlog. pose proof (tn_size T) as Hsz. unfold LOGSIZE, MAXOPBLOCKS in Hsz.
  pose proof (fo_ind (fi_file F) Hi) as D.
  destruct (proj1 (wp_ok _ _ _) (bread_txn s [] T (ind x) (proj1 (db_home _ _ _ D)) ltac:(set_solver+) ltac:(unfold NBUF; cbn; lia))) as (bp & s1 & E1 & S1 & T1).
  unfold bmap_entry. rewrite (bind_ok _ _ _ _ _ E1), (bind_ok _ _ _ _ _ (bdata_txn s1 _ T1 bp _ ltac:(left))).
  assert (Ev : fsview s1 (ind x) = fsview s (ind x)) by apply (fs_view S1). rewrite Ev.
  assert (Ex1 : inode_at s1 ip = x) by (by apply (fs_icache S1)). pose proof (fs_frame S1) as TF1.
  pose proof (bitmap_step _ _ _ _ S1 ltac:(set_solver+)) as Eb1.
  destruct (file_in_step None s s1 [] x F S1 ltac:(by rewrite Eb1) ltac:(intros; apply (fs_view S1))) as (F1 & _).
  assert (B1 : bitmap_ok s1) by (eapply bitmap_ok_step; [exact S1|set_solver+|done]).
  enough (exists a s' W, (if aref (fsview s (ind x)) k =? 0 then addr ← balloc ROOTDEV; d ← bdata bp; set_bdata bp (put32 d (4 * k) addr);; log_write bp;; mret addr
            else mret (aref (fsview s (ind x)) k)) s1 = Ok a s' /\ txn s' [(bp, ind x)] /\ mapped ip s1 s' (NDIRECT + k) a W /\ (nfree s1 <= nfree s' + 1)%nat) as (a & s2 & W & E2 & T2 & M2 & N2).
  { destruct (proj1 (wp_ok _ _ _) (brelse_txn s2 [] bp (ind x) T2)) as ([] & s3 & E3 & S3 & T3).
    pose proof (bitmap_step _ _ _ _ S3 ltac:(set_solver+)) as Eb3.
    exists a, s3, W. split_and!; [|done|by eapply mapped_between|unfold nfree in *; by rewrite Eb3, (tf_sb (fs_frame S3)), <- Eb1, <- (tf_sb TF1)].
    rewrite (bind_ok _ _ _ _ _ E2). by rewrite (bind_ok _ _ _ _ _ E3). }
  destruct (Z.eqb_spec (aref (fsview s (ind x)) k) 0) as [Hz|Hnz].
  - rewrite <- Ex1 in *. rewrite <- Ev in Hz. apply bmap_entry_alloc; try done.
    + by rewrite (tf_out TF1).
    + unfold nfree. by rewrite Eb1, (tf_sb TF1).
    + rewrite (same_n _ _ _ _ _ T T1 S1), (tf_size TF1), (tf_sb TF1), (fs_logged S1). set_solver.
  - exists (aref (fsview s (ind x)) k), s1, []. split_and!; [done|done| |lia].
    assert (Ea : faddr (fsview s1) x (NDIRECT + k) = aref (fsview s (ind x)) k).
    { unfold faddr. rewrite (proj2 (Z.ltb_ge _ _)) by lia. rewrite (proj2 (Z.eqb_neq _ _)) by done. rewrite Ev. f_equal. lia. }
    rewrite <- Ea, <- Ex1. apply mapped_same; rewrite ?Ex1, ?Ea; try done; [apply fsstep_refl|]. unfold MAXFILE, NDIRECT. lia.
Qed.

Lemma bmap_unfold ip bn s :
  let x := inode_at s ip in
  i_dev x = ROOTDEV ->
  bmap ip bn s =
    if bn <? NDIRECT then
      if nthz (i_addrs x) bn =? 0 then
        (addr ← balloc ROOTDEV; upd_inode ip (fun x => set_i_addrs (setz (i_addrs x) bn addr) x);; mret addr) s
      else Ok (nthz (i_addrs x) bn) s
    else if bn - NDIRECT <? NINDIRECT then
      (addr ← (if ind x =? 0 then
                 addr ← balloc ROOTDEV; upd_inode ip (fun x => set_i_addrs (setz (i_addrs x) NDIRECT addr) x);; mret addr
               else mret (ind x)); bmap_entry ROOTDEV addr (bn - NDIRECT)) s
    else Panic "bmap: out of range".
Proof.
  intros x Hd. unfold bmap. rewrite (bind_ok _ _ s x s) by done. rewrite Hd. destruct (bn <? NDIRECT); [by destruct (_ =? 0)|].
  by destruct (bn - NDIRECT <? NINDIRECT).
Qed.

(** bmap of a mapped block only reads. *)
Lemma bmap_mapped ip s bn :
  let x := inode_at s ip in
  txn s [] -> file_in s x -> 0 <= bn < MAXFILE -> faddr (fsview s) x bn <> 0 ->
  exists s', bmap ip bn s = Ok (faddr (fsview s) x bn) s' /\ txn s' [] /\ fsstep None s s' [].
Proof.
  intros x T F Hbn Hnz. rewrite bmap_unfold by apply F. fold x. unfold faddr in *. destruct (bn <? NDIRECT) eqn:Hlt.
  - rewrite (proj2 (Z.eqb_neq _ _)) by done. exists s. split_and!; [done|done|apply fsstep_refl].
  - apply Z.ltb_ge in Hlt. rewrite (proj2 (Z.ltb_lt _ _)) by (unfold MAXFILE in Hbn; lia).
    destruct (Z.eqb_spec (ind x) 0) as [|Hi]; [done|]. rewrite (bind_ok _ _ s (ind x) s) by done.
    pose proof (fo_ind (fi_file F) Hi) as D. pose proof (tn_size T) as Hsz. pose proof (li_n (tn_log T)). unfold LOGSIZE, MAXOPBLOCKS in Hsz.
    destruct (proj1 (wp_ok _ _ _) (bread_txn s [] T (ind x) (proj1 (db_home _ _ _ D)) ltac:(set_solver+) ltac:(unfold NBUF; cbn; lia))) as (bp & s1 & E1 & S1 & T1).
    destruct (proj1 (wp_ok _ _ _) (brelse_txn s1 [] bp (ind x) T1)) as ([] & s2 & E2 & S2 & T2).
    exists s2. split_and!; [|done|apply (fsstep_trans None s s1 s2 [] [] S1 S2)].
    unfold bmap_entry. rewrite (bind_ok _ _ _ _ _ E1), (bind_ok _ _ _ _ _ (bdata_txn s1 _ T1 bp _ ltac:(left))), (fs_view S1).
    change (put_all [] (fsview s) (ind x)) with (fsview s (ind x)). rewrite (proj2 (Z.eqb_neq _ _)) by done.
    rewrite (bind_ok _ _ s1 (aref (fsview s (ind x)) (bn - NDIRECT)) s1) by done. by rewrite (bind_ok _ _ _ _ _ E2).
Qed.

(** Mapping the indirect block first. *)
Lemma mapped_after_ind ip s s1 s2 s' bn a b W W' :
  (ip < length (k_icache s))%nat -> file_in s (inode_at s ip) -> ind (inode_at s ip) = 0 ->
  fresh_block s s1 (inode_at s ip) b W ->
  s2 = set_k_icache (alter (fun x => set_i_addrs (setz (i_addrs x) NDIRECT b) x) ip (k_icache s1)) s1 ->
  mapped ip s2 s' bn a W' -> (nfree s2 <= nfree s' + 1)%nat -> mapped ip s s' bn a (W ++ W').
Proof.
  intros Hip F Hi0 R E2 M Hfr. pose proof (slot_ind ip s s1 b NDIRECT W Hip F R ltac:(unfold NDIRECT; lia) Hi0 eq_refl) as (F2 & I2 & A2 & B2).
  pose proof (slot_step ip s s1 b NDIRECT W R) as S2. pose proof (slot_inode ip s s1 b NDIRECT W Hip R) as X2. rewrite <- E2 in *.
  pose proof (fr_nz _ _ _ _ _ R) as Hb. pose proof (mp_ind _ _ _ _ _ _ M ltac:(by rewrite I2)) as Hind. rewrite I2 in Hind.
  split.
  - eapply fsstep_trans; [exact S2|apply M].
  - intros n. rewrite fmap_app, elem_of_app, (fr_blocks _ _ _ _ _ R). intros [Hn|Hn].
    + rewrite Hind. apply elem_of_cons in Hn as [->|Hn%list_elem_of_singleton]; [by left|]. right. left. by subst.
    + rewrite <- (tf_sb (fs_frame S2)). by apply (mp_blocks _ _ _ _ _ _ M).
  - apply M.
  - pose proof (fr_free _ _ _ _ _ R). assert (nfree s2 = nfree s1) by (by rewrite E2). lia.
  - pose proof (mp_meta _ _ _ _ _ _ M) as Hm. unfold same_meta in *. rewrite Hm, X2. done.
  - apply M.
  - apply (mp_at _ _ _ _ _ _ M).
  - apply (mp_nz _ _ _ _ _ _ M).
  - intros m Hm Hnz. rewrite (mp_addr _ _ _ _ _ _ M); rewrite ?A2; done.
  - done.
  - intros c Hc. destruct (mp_new _ _ _ _ _ _ M c Hc) as [[N0 N]|N]; [|right; rewrite E2 in N; by apply (fr_shrink _ _ _ _ _ R)].
    destruct N as [->|(m & Hm & <-)]; [right; rewrite I2; apply R|]. left. split; [done|]. right. exists m. by rewrite <- A2.
  - intros c Hc%(mp_mono _ _ _ _ _ _ M). rewrite E2 in Hc. by apply (fr_shrink _ _ _ _ _ R).
  - intros i Hi. rewrite (mp_byte _ _ _ _ _ _ M) by done. by apply B2.
Qed.

(** bmap returns the block of the file, mapping it if need be. *)
Lemma bmap_spec ip s bn :
  let x := inode_at s ip in
  txn s [] -> 1 <= l_outstanding (k_log s) -> bitmap_ok s -> (ip < length (k_icache s))%nat -> file_in s x -> 0 <= bn < MAXFILE -> (2 <= nfree s)%nat ->
  lh_n (k_log s) + 4 < l_size (k_log s) ->
  exists a s' W, bmap ip bn s = Ok a s' /\ txn s' [] /\ mapped ip s s' bn a W.
Proof.
  intros x T Ho B Hip F Hbn Hfr Hlog. pose proof (tn_size T) as Hsz. unfold LOGSIZE, MAXOPBLOCKS in Hsz.
  assert (Hu : held_used s []) by (intros n Hn; cbn in Hn; set_solver).
  destruct (decide (faddr (fsview s) x bn = 0)) as [Hz|Hnz]; last first.
  { destruct (bmap_mapped ip s bn T F Hbn Hnz) as (s' & E & T' & S'). eexists _, s', []. split_and!; [exact E|done|by apply mapped_same]. }
  rewrite bmap_unfold by apply F. fold x. unfold faddr in Hz. destruct (bn <? NDIRECT) eqn:Hlt.
  - apply Z.ltb_lt in Hlt. rewrite Hz. cbn [Z.eqb]. destruct (balloc_file s [] x T Ho B Hu F) as (a & s1 & W & E1 & T1 & R1); [lia|unfold NBUF; cbn; lia|lia|].
    eexists a, _, W. split_and!; [rewrite (bind_ok _ _ _ _ _ E1); done|by apply txn_icache|].
    apply slot_direct; try done; lia.
  - apply Z.ltb_ge in Hlt. rewrite (proj2 (Z.ltb_lt _ _)) by (unfold MAXFILE in Hbn; lia).
    assert (Hk : 0 <= bn - NDIRECT < NINDIRECT) by (unfold MAXFILE in Hbn; lia).
    destruct (Z.eqb_spec (ind x) 0) as [Hi|Hi].
    + destruct (balloc_file s [] x T Ho B Hu F) as (b & s1 & W & E1 & T1 & R1); [lia|unfold NBUF; cbn; lia|lia|].
      set (s2 := set_k_icache (alter (fun x => set_i_addrs (setz (i_addrs x) NDIRECT b) x) ip (k_icache s1)) s1).
      pose proof (slot_ind ip s s1 b NDIRECT W Hip F R1 ltac:(unfold NDIRECT; lia) Hi eq_refl) as (F2 & I2 & A2 & B2).
      fold s2 in F2, I2, A2, B2. pose proof (slot_step ip s s1 b NDIRECT W R1) as S2. fold s2 in S2.
      assert (T2 : txn s2 []) by by apply txn_icache. pose proof (fr_nz _ _ _ _ _ R1) as Hb. pose proof (fr_blocks _ _ _ _ _ R1) as HW.
      pose proof (fsstep_cover _ _ _ _ _ _ W.*1 T T2 S2 ltac:(by right)) as Hc. rewrite HW in Hc. cbn [length] in Hc.
      destruct (bmap_entry_spec ip s2 (bn - NDIRECT)) as (a & s3 & W' & E3 & T3 & M3 & N3); try done.
      { by rewrite (tf_out (fs_frame S2)). }
      { apply bitmap_icache, R1. }
      { change (nfree s2) with (nfree s1). pose proof (fr_free _ _ _ _ _ R1). lia. }
      { by rewrite I2. }
      { right. rewrite (tf_sb (fs_frame S2)), (tf_size (fs_frame S2)). split; [|lia]. apply (fs_logged S2). right. rewrite HW. left. }
      exists a, s3, (W ++ W'). split_and!; [|done|].
      * rewrite (bind_ok _ _ s b s2) by (rewrite (bind_ok _ _ _ _ _ E1); done). rewrite <- I2. exact E3.
      * replace (NDIRECT + (bn - NDIRECT)) with bn in M3 by lia. by eapply mapped_after_ind.
    + rewrite (bind_ok _ _ s (ind x) s) by done.
      destruct (bmap_entry_spec ip s (bn - NDIRECT)) as (a & s3 & W' & E3 & T3 & M3 & N3); try done; [lia|left; lia|].
      exists a, s3, W'. split_and!; [done|done|]. by replace (NDIRECT + (bn - NDIRECT)) with bn in M3 by lia.
Qed.
