(* ===== verification/FsData.v ===== *)
(** * Reading and writing files

    readi and writei over the bytes of a file. *)

From S2P Require Import Prelude State Sleep Ide Bio BioSpec Log LogSpec LogRun LogOps Console Fs FsTxn FsAlloc FsMap FsFile.
Open Scope Z_scope.

(** The [n] bytes of the file from offset [off] on. *)
Definition fbytes (V : Z -> block) (x : inode) (off n : Z) : list Z :=
  (fun k : nat => fbyte V x (off + Z.of_nat k)) <$> seq 0 (Z.to_nat n).

Lemma fbytes_app V x off m r : 0 <= m -> 0 <= r -> fbytes V x off (m + r) = fbytes V x off m ++ fbytes V x (off + m) r.
Proof.
  intros Hm Hr. unfold fbytes. rewrite Z2Nat.inj_add, seq_app, fmap_app by done. f_equal. cbn.
  rewrite <- (Nat.add_0_r (Z.to_nat m)), <- fmap_add_seq, <- list_fmap_compose. apply list_fmap_ext.
  intros i k _. cbn. f_equal. lia.
Qed.

Lemma length_fbytes V x off n : length (fbytes V x off n) = Z.to_nat n.
Proof. unfold fbytes. by rewrite length_fmap, length_seq. Qed.

(** A part of a file. *)
Lemma fbytes_slice V x n off m : 0 <= off -> 0 <= m -> off + m <= n ->
  slice (fbytes V x 0 n) (Z.to_nat off) (Z.to_nat m) = fbytes V x off m.
Proof.
  intros Ho Hm Hn. replace n with (off + (m + (n - off - m))) by lia. rewrite !fbytes_app by lia. unfold slice.
  rewrite drop_app_length' by (by rewrite length_fbytes). by rewrite take_app_length' by (by rewrite length_fbytes).
Qed.

Lemma fbytes_ext V x V' x' off n :
  (forall i, off <= i < off + n -> fbyte V x i = fbyte V' x' i) -> fbytes V x off n = fbytes V' x' off n.
Proof.
  intros H. unfold fbytes. apply list_fmap_ext. intros i k Hk. apply lookup_seq in Hk as [-> Hk]. apply H. lia.
Qed.

(** A piece of one block of the file. *)
Lemma slice_fbytes V x off m :
  let a := faddr V x (off / BSIZE) in
  a <> 0 -> block_ok (V a) -> 0 <= off -> 0 <= m -> off mod BSIZE + m <= BSIZE ->
  slice (V a) (Z.to_nat (off mod BSIZE)) (Z.to_nat m) = fbytes V x off m.
Proof.
  intros a Ha [Hl _] Ho Hm Hom. unfold BSIZE in *. apply list_eq. intros i. unfold fbytes. rewrite list_lookup_fmap.
  destruct (decide (i < Z.to_nat m)%nat) as [Hi|Hi].
  - rewrite lookup_slice by done. rewrite lookup_seq_lt by done. cbn. unfold fbyte.
    replace ((off + Z.of_nat i) / BSIZE) with (off / 512) by (unfold BSIZE; zlia). fold a.
    rewrite (proj2 (Z.eqb_neq a 0)) by done. replace ((off + Z.of_nat i) mod BSIZE) with (off mod 512 + Z.of_nat i) by (unfold BSIZE; zlia).
    unfold nthz. replace (Z.to_nat (off mod 512 + Z.of_nat i)) with (Z.to_nat (off mod 512) + i)%nat by zlia.
    apply list_lookup_lookup_total_lt. rewrite Hl. zlia.
  - unfold slice. rewrite lookup_take_ge by lia. by rewrite lookup_seq_ge by lia.
Qed.

(** The blocks that [rem] bytes from [off] on touch. *)
Definition mapped_range (V : Z -> block) (x : inode) (off rem : Z) : Prop :=
  forall i, off <= i < off + rem -> faddr V x (i / BSIZE) <> 0.

Lemma file_in_same s s' x :
  file_in s x -> fsstep None s s' [] -> file_in s' x /\ forall V, (forall n, V n = fsview s n) -> forall n, V n = fsview s' n.
Proof.
  intros F S. pose proof (bitmap_step _ _ _ _ S ltac:(set_solver+)) as Eb.
  destruct (file_in_step None s s' [] x F S ltac:(by rewrite Eb) ltac:(intros; apply (fs_view S))) as (F' & _).
  split; [done|]. intros V HV n. rewrite HV. symmetry. apply (fs_view S).
Qed.

Lemma readi_loop_spec ip n : forall s off rem,
  txn s [] -> file_in s (inode_at s ip) -> 0 <= off -> 0 <= rem -> off + rem <= MAXFILE * BSIZE ->
  mapped_range (fsview s) (inode_at s ip) off rem -> (0 < rem -> off mod BSIZE + rem <= BSIZE * Z.of_nat n) ->
  exists s', readi_loop ip off rem n s = Ok (fbytes (fsview s) (inode_at s ip) off rem) s' /\ txn s' [] /\ fsstep None s s' [].
Proof.
  induction n as [|n IH]; intros s off rem T F Ho Hr Hmax Hmap Hn; cbn [readi_loop].
  { assert (rem = 0) as -> by (unfold BSIZE in Hn; zlia). exists s. split_and!; [done|done|apply fsstep_refl]. }
  destruct (Z.ltb_spec 0 rem) as [Hpos|]; [|exists s; split_and!; [by replace rem with 0 by lia|done|apply fsstep_refl]].
  set (x := inode_at s ip) in *. rewrite (bind_ok _ _ s x s) by done. set (m := Z.min rem (BSIZE - off mod BSIZE)).
  assert (Hb : 0 <= off / BSIZE < MAXFILE) by (apply byte_block; lia).
  assert (Hnz : faddr (fsview s) x (off / BSIZE) <> 0) by (apply Hmap; lia).
  destruct (bmap_mapped ip s (off / BSIZE) T F Hb Hnz) as (s1 & E1 & T1 & S1). fold x in E1. rewrite (bind_ok _ _ _ _ _ E1), (fi_dev F).
  set (a := faddr (fsview s) x (off / BSIZE)) in *. destruct (fo_data (fi_file F) _ Hb Hnz) as [D _]. fold a in D.
  destruct (file_in_same s s1 x F S1) as [F1 V1]. assert (Ex1 : inode_at s1 ip = x) by (by apply (fs_icache S1)).
  pose proof (tn_size T1) as Hsz. pose proof (li_n (tn_log T1)) as Hln. unfold LOGSIZE, MAXOPBLOCKS in Hsz.
  assert (Hm : 0 < m <= rem /\ off mod BSIZE + m <= BSIZE) by (unfold m, BSIZE; zlia).
  assert (Hb0 : 0 < BSIZE) by (unfold BSIZE; lia).
  match goal with |- context [_ = Ok ?res _ /\ _] => enough (wp (bp ← bread ROOTDEV a; d ← bdata bp; brelse bp;;
     (r ← readi_loop ip (off + m) (rem - m) n; mret (slice d (Z.to_nat (off mod BSIZE)) (Z.to_nat m) ++ r))) (fun v s' => v = res /\ txn s' [] /\ fsstep None s1 s' []) s1) as Hwp end.
  { apply wp_ok in Hwp as (v & s' & E & -> & T' & S'). exists s'. split_and!; [exact E|done|apply (fsstep_trans None s s1 s' [] [] S1 S')]. }
  apply (wp_read_block s1 [] T1); [apply D|set_solver+|unfold NBUF; cbn; lia|]. intros s2 S2 T2. rewrite (fs_view S1). change (put_all [] (fsview s) a) with (fsview s a).
  destruct (file_in_same s1 s2 x F1 S2) as [F2 V2]. assert (Ex2 : inode_at s2 ip = x) by (rewrite <- Ex1; by apply (fs_icache S2)).
  pose proof (V2 (fsview s) (V1 (fsview s) (fun _ => eq_refl))) as V02.
  assert (Hrest : rem - m = 0 \/ (off + m) mod BSIZE = 0 /\ m = BSIZE - off mod BSIZE) by (unfold m, BSIZE; zlia).
  destruct (IH s2 (off + m) (rem - m)) as (s3 & E3 & T3 & S3); rewrite ?Ex2; try done; try lia.
  - intros i Hi. rewrite <- (faddr_ext (fsview s)) by done. apply Hmap. lia.
  - eapply wp_intro; [rewrite (bind_ok _ _ _ _ _ E3); reflexivity|]. split_and!; [|done|apply (fsstep_trans None s1 s2 s3 [] [] S2 S3)].
    rewrite Ex2, (fbytes_ext (fsview s2) x (fsview s) x) by (intros; apply fbyte_ext; intros; by rewrite V02).
    unfold a. rewrite (slice_fbytes (fsview s) x off m); [|done|apply fsview_ok, T|lia|lia|lia].
    replace rem with (m + (rem - m)) at 2 by lia. by rewrite fbytes_app by lia.
Qed.

(** The size of a file, with all blocks below it mapped. *)
Definition sized (V : Z -> block) (x : inode) : Prop :=
  0 <= i_size x <= MAXFILE * BSIZE /\ mapped_range V x 0 (i_size x).

Lemma readi_spec ip s off n :
  let x := inode_at s ip in
  txn s [] -> file_in s x -> sized (fsview s) x -> i_type x <> T_DEV -> 0 <= off < 4294967296 -> 0 <= n < 4294967296 ->
  let m := Z.min n (i_size x - off) in
  exists s', readi ip off n s =
      Ok (if (i_size x <? off) || (4294967296 <=? off + n) then (-1, []) else (m, fbytes (fsview s) x off m)) s' /\
    txn s' [] /\ fsstep None s s' [].
Proof.
  intros x T F [Hsz Hmap] Hty Ho Hn m. unfold readi. rewrite (bind_ok _ _ s x s) by done. rewrite (proj2 (Z.eqb_neq _ _)) by done.
  assert (Ew : (u32 (off + n) <? off) = (4294967296 <=? off + n)).
  { destruct (Z.leb_spec 4294967296 (off + n)); [apply Z.ltb_lt|apply Z.ltb_ge]; zlia. }
  rewrite Ew. destruct (Z.ltb_spec (i_size x) off); [exists s; split_and!; [done|done|apply fsstep_refl]|].
  destruct (Z.leb_spec 4294967296 (off + n)); [exists s; split_and!; [done|done|apply fsstep_refl]|]. cbn [orb].
  assert (En : (if i_size x <? u32 (off + n) then i_size x - off else n) = m).
  { rewrite u32_small by lia. unfold m. destruct (Z.ltb_spec (i_size x) (off + n)); lia. }
  rewrite En. clear En. assert (Hm : 0 <= m /\ off + m <= i_size x) by (unfold m; lia). rewrite MAXFILE_eq in Hsz. unfold BSIZE in Hsz.
  destruct (readi_loop_spec ip (Z.to_nat (m / BSIZE + 2)) s off m) as (s' & E & T' & S'); try done; try lia.
  - rewrite MAXFILE_eq. unfold BSIZE. lia.
  - intros i Hi. apply Hmap. lia.
  - intros _. unfold BSIZE. rewrite Z2Nat.id by zlia. zlia.
  - exists s'. split_and!; [|done|done]. rewrite (bind_ok _ _ _ _ _ E). cbn. rewrite i32_small by lia. done.
Qed.

(** Inode [x] in slot [ip] is a file or directory with the contents [C]. *)
Record is_file (s : kernel) (ip : nat) (x : inode) (C : list Z) : Prop := mkIsFile {
  if_txn : txn s [];
  if_inode : inode_at s ip = x;
  if_file : file_in s x;
  if_sized : sized (fsview s) x;
  if_type : i_type x <> T_DEV;
  if_contents : fbytes (fsview s) x 0 (i_size x) = C }.

Lemma is_file_same s s' ip x C : is_file s ip x C -> txn s' [] -> fsstep None s s' [] -> is_file s' ip x C.
Proof.
  intros [D1 D2 D3 [D4 D4'] D5 D6] T S. destruct (file_in_same s s' x D3 S) as [F V].
  pose proof (V (fsview s) (fun _ => eq_refl)) as Hv. split; try done.
  - rewrite <- D2. by apply (fs_icache S).
  - split; [done|]. intros i Hi. rewrite <- (faddr_ext (fsview s)) by done. by apply D4'.
  - rewrite <- D6. apply fbytes_ext. intros i _. apply fbyte_ext. intros n. by rewrite Hv.
Qed.

Lemma is_file_size s ip x C : is_file s ip x C -> i_size x = Z.of_nat (length C) /\ Z.of_nat (length C) <= 71680.
Proof.
  intros [_ _ _ [[H1 H2] _] _ <-]. rewrite length_fbytes. rewrite MAXFILE_eq in H2. unfold BSIZE in H2. lia.
Qed.

Lemma is_file_bytes s ip x C : is_file s ip x C -> bytes C.
Proof.
  intros D. rewrite <- (if_contents _ _ _ _ D). unfold fbytes. apply Forall_fmap, Forall_forall. intros j _. cbn.
  unfold fbyte. destruct (_ =? 0); [by split|]. destruct (fsview_ok s (faddr (fsview s) x ((0 + Z.of_nat j) / BSIZE)) (tn_bio (if_txn _ _ _ _ D))) as [Hl Hb].
  unfold nthz. rewrite list_lookup_total_alt. destruct (_ !! _) eqn:E; [|by split]. by eapply Forall_lookup in Hb.
Qed.

(** readi of a range of the file. *)
Lemma is_file_read s ip x C off n : is_file s ip x C -> 0 <= off < 4294967296 -> 0 <= n < 4294967296 ->
  let m := Z.min n (Z.of_nat (length C) - off) in
  exists s', readi ip off n s = Ok (if (Z.of_nat (length C) <? off) || (4294967296 <=? off + n) then (-1, []) else (m, slice C (Z.to_nat off) (Z.to_nat m))) s' /\
    txn s' [] /\ fsstep None s s' [].
Proof.
  intros D Ho Hn m. destruct (is_file_size _ _ _ _ D) as [Hs _]. pose proof (if_inode _ _ _ _ D) as Ex. subst x. pose proof D as [D1 _ D3 D4 D5 D6].
  destruct (readi_spec ip s off n D1 D3 D4 D5 Ho Hn) as (s' & E & T' & S'). exists s'. split_and!; [|done|done].
  rewrite E, Hs. fold m. destruct ((Z.of_nat (length C) <? off) || (4294967296 <=? off + n)) eqn:Hc; [reflexivity|]. do 2 f_equal. apply orb_false_iff in Hc as [C1 _]. apply Z.ltb_ge in C1.
  rewrite <- D6 at 1. symmetry. apply fbytes_slice; unfold m; lia.
Qed.

(** ** Writing *)

(** One block of the file is overwritten from [o] on. *)
Section write.
Context (ip : nat) (s s1 : kernel) (bn o : Z) (src : list Z).
Let x := inode_at s ip.
Let a := faddr (fsview s) x bn.
Let d := splice (fsview s a) (Z.to_nat o) src.
Hypothesis I : bio_inv s.
Hypothesis F : file_in s x.
Hypothesis Hbn : 0 <= bn < MAXFILE.
Hypothesis Ha : a <> 0.
Hypothesis Ho : 0 <= o.
Hypothesis Hlen : o + Z.of_nat (length src) <= BSIZE.
Hypothesis S : fsstep None s s1 [(a, d)].

Lemma write_db : data_block s (i_inum x) a /\ a <> ind x.
Proof using F Hbn Ha. by apply (fo_data (fi_file F)). Qed.

Lemma write_view c : fsview s1 c = if decide (c = a) then d else fsview s c.
Proof using S. by rewrite (fs_view S), put_all_cons. Qed.

Lemma write_bm : sb_bmapstart (k_sb s) ∉ ([(a, d)] : list (Z * block)).*1.
Proof using F Hbn Ha. cbn. intros E%list_elem_of_singleton. destruct write_db as [D _]. by destruct D. Qed.

Lemma write_addr m : faddr (fsview s1) x m = faddr (fsview s) x m.
Proof using F Hbn Ha S.
  unfold faddr. destruct (m <? NDIRECT); [done|]. destruct (ind x =? 0); [done|].
  rewrite write_view, decide_False; [done|]. intros E. by destruct write_db.
Qed.

Lemma write_file : file_in s1 x.
Proof using F Hbn Ha S.
  pose proof (bitmap_step _ _ _ _ S write_bm) as Eb. pose proof (fs_frame S) as TF. destruct F as [D1 D2 D3 D4 D5 D6].
  assert (Hfree : forall c, ~ is_free s c -> ~ is_free s1 c) by (intros c Hn [N1 N2]; rewrite Eb in N2; rewrite (tf_sb TF) in N1; by apply Hn).
  assert (Hdb : forall c, data_block s (i_inum x) c -> data_block s1 (i_inum x) c).
  { intros c []. split; rewrite ?(tf_sb TF), ?Eb; try done. by eapply home_ok_frame. }
  split; rewrite ?(tf_sb TF); auto; [|by eapply home_ok_frame].
  destruct D2 as [E1 E2 E3 E4]. split; [done|auto| |].
  - intros m Hm. rewrite write_addr. intros Hnz. destruct (E3 m Hm Hnz). auto.
  - intros m m' Hm Hm'. rewrite !write_addr. by apply E4.
Qed.

Lemma write_byte i : 0 <= i < MAXFILE * BSIZE ->
  fbyte (fsview s1) x i =
    if decide (bn * BSIZE + o <= i < bn * BSIZE + o + Z.of_nat (length src)) then nthz src (i - (bn * BSIZE + o)) else fbyte (fsview s) x i.
Proof using All.
  intros Hi. pose proof (byte_block i Hi) as Hb. unfold fbyte. rewrite write_addr. pose proof (fsview_ok s a I) as [Hl _].
  assert (Hs : (Z.to_nat o + length src <= length (fsview s a))%nat) by (unfold BSIZE in Hlen; lia).
  destruct (decide (i / BSIZE = bn)) as [E|E].
  - rewrite E. fold a. rewrite (proj2 (Z.eqb_neq a 0)) by done. rewrite write_view, decide_True by done. unfold d, nthz.
    assert (Ei : i = bn * BSIZE + i mod BSIZE) by (unfold BSIZE in *; zlia). assert (0 <= i mod BSIZE < BSIZE) by (unfold BSIZE; zlia).
    case_decide.
    + rewrite !list_lookup_total_alt. f_equal. rewrite lookup_splice_in by (done || lia). f_equal. lia.
    + rewrite !list_lookup_total_alt. f_equal. apply lookup_splice_out; [done|lia].
  - rewrite decide_False by (unfold BSIZE in *; zlia). destruct (Z.eqb_spec (faddr (fsview s) x (i / BSIZE)) 0) as [|Hnz]; [done|].
    rewrite write_view, decide_False; [done|]. intros E'. apply E. by apply (fo_inj (fi_file F)).
Qed.
End write.

(** Which of the bit map and the indirect block are still to be logged. *)
Definition unlogged (s : kernel) (ip : nat) : Z :=
  (if decide (sb_bmapstart (k_sb s) ∈ logged (k_log s)) then 0 else 1) +
  (if decide (ind (inode_at s ip) <> 0 /\ ind (inode_at s ip) ∈ logged (k_log s)) then 0 else 1).

(** Each block that is written costs one entry of the log, beside those two. *)
Lemma unlogged_step ip s s' W a :
  txn s [] -> txn s' [] -> fsstep (Some ip) s s' W ->
  (forall n, n ∈ W.*1 -> n = sb_bmapstart (k_sb s) \/ (n = ind (inode_at s' ip) /\ n <> 0) \/ n = a) ->
  (ind (inode_at s ip) <> 0 -> ind (inode_at s' ip) = ind (inode_at s ip)) ->
  lh_n (k_log s') + unlogged s' ip <= lh_n (k_log s) + unlogged s ip + 1.
Proof.
  intros T T' S HW Hi. set (bm := sb_bmapstart (k_sb s)) in *. set (i' := ind (inode_at s' ip)) in *. set (i := ind (inode_at s ip)) in *.
  set (L := (if decide (bm ∈ W.*1 /\ bm ∉ logged (k_log s)) then [bm] else []) ++
            (if decide (i' <> 0 /\ i' ∈ W.*1 /\ i' ∉ logged (k_log s)) then [i'] else []) ++ [a]).
  assert (Hc : lh_n (k_log s') <= lh_n (k_log s) + Z.of_nat (length L)).
  { eapply fsstep_cover; [done|done|exact S|]. intros n Hn. destruct (decide (n ∈ logged (k_log s))); [by left|right].
    unfold L. rewrite !elem_of_app. destruct (HW n Hn) as [->|[[-> ?]| ->]].
    - left. rewrite decide_True by done. by apply list_elem_of_singleton.
    - right. left. rewrite decide_True by done. by apply list_elem_of_singleton.
    - right. right. by apply list_elem_of_singleton. }
  unfold L in Hc. rewrite !length_app in Hc. unfold unlogged. rewrite (tf_sb (fs_frame S)). fold bm i i'.
  pose proof (fs_logged S bm) as Lb. pose proof (fs_logged S i') as Li.
  assert (H1 : Z.of_nat (length (if decide (bm ∈ W.*1 /\ bm ∉ logged (k_log s)) then [bm] else [])) +
    (if decide (bm ∈ logged (k_log s')) then 0 else 1) <= if decide (bm ∈ logged (k_log s)) then 0 else 1).
  { repeat case_decide; cbn; try lia; tauto. }
  assert (H2 : Z.of_nat (length (if decide (i' <> 0 /\ i' ∈ W.*1 /\ i' ∉ logged (k_log s)) then [i'] else [])) +
    (if decide (i' <> 0 /\ i' ∈ logged (k_log s')) then 0 else 1) <= if decide (i <> 0 /\ i ∈ logged (k_log s)) then 0 else 1).
  { destruct (decide (i <> 0 /\ i ∈ logged (k_log s))) as [[Hi0 Hil]|]; [rewrite (Hi Hi0) in *|]; repeat case_decide; cbn; try lia; tauto. }
  cbn [length] in Hc. lia.
Qed.

(** [data] is stored at offset [off], touching [k] blocks. *)
Record wstep (ip : nat) (s s' : kernel) (off : Z) (data : list Z) (k : nat) (W : list (Z * block)) : Prop := mkWstep {
  ws_txn : txn s' [];
  ws_step : fsstep (Some ip) s s' W;
  ws_bitmap : bitmap_ok s';
  ws_file : file_in s' (inode_at s' ip);
  ws_meta : same_meta (inode_at s ip) (inode_at s' ip);
  ws_free : (nfree s <= nfree s' + 2 * k)%nat;
  ws_log : lh_n (k_log s') + unlogged s' ip <= lh_n (k_log s) + unlogged s ip + Z.of_nat k;
  ws_mono : forall m, 0 <= m < MAXFILE -> faddr (fsview s) (inode_at s ip) m <> 0 -> faddr (fsview s') (inode_at s' ip) m = faddr (fsview s) (inode_at s ip) m;
  ws_ind : ind (inode_at s ip) <> 0 -> ind (inode_at s' ip) = ind (inode_at s ip);
  ws_blocks : forall c, c ∈ W.*1 -> c = sb_bmapstart (k_sb s) \/ in_file (fsview s') (inode_at s' ip) c;
  ws_new : forall c, in_file (fsview s') (inode_at s' ip) c -> in_file (fsview s) (inode_at s ip) c \/ is_free s c;
  ws_shrink : forall c, is_free s' c -> is_free s c;
  ws_map : mapped_range (fsview s') (inode_at s' ip) off (Z.of_nat (length data));
  ws_byte : forall i, 0 <= i < MAXFILE * BSIZE -> fbyte (fsview s') (inode_at s' ip) i =
    if decide (off <= i < off + Z.of_nat (length data)) then nthz data (i - off) else fbyte (fsview s) (inode_at s ip) i
}.

Lemma wstep_refl ip s off : txn s [] -> bitmap_ok s -> file_in s (inode_at s ip) -> wstep ip s s off [] 0 [].
Proof.
  intros T B F. split; try done; try lia.
  - apply fsstep_refl.
  - unfold same_meta. by destruct (inode_at s ip).
  - intros c []%not_elem_of_nil.
  - intros c Hc. by left.
  - intros i Hi. cbn in Hi. lia.
  - intros i Hi. rewrite decide_False by (cbn; lia). done.
Qed.

Lemma same_meta_trans x y z : same_meta x y -> same_meta y z -> same_meta x z.
Proof. unfold same_meta. intros H1 H2. etransitivity; [exact H2|]. by rewrite H1. Qed.

Lemma wstep_trans ip s1 s2 s3 off d1 d2 k1 k2 W1 W2 :
  0 <= off -> off + Z.of_nat (length (d1 ++ d2)) <= MAXFILE * BSIZE ->
  wstep ip s1 s2 off d1 k1 W1 -> wstep ip s2 s3 (off + Z.of_nat (length d1)) d2 k2 W2 -> wstep ip s1 s3 off (d1 ++ d2) (k1 + k2) (W1 ++ W2).
Proof.
  intros Ho Hmax [] []. rewrite length_app in Hmax. split; try done; try lia.
  - by eapply fsstep_trans.
  - by eapply same_meta_trans.
  - intros m Hm Hnz. rewrite ws_mono1; [by apply ws_mono0|done|by rewrite ws_mono0].
  - intros c. rewrite fmap_app, elem_of_app. intros [Hc|Hc]; [|rewrite <- (tf_sb (fs_frame ws_step0)); auto].
    destruct (ws_blocks0 c Hc) as [|[Hc0 Hin]]; [by left|right]. split; [done|]. destruct Hin as [->|(m & Hm & <-)].
    + left. by rewrite ws_ind1.
    + right. exists m. split; [done|]. by apply ws_mono1.
  - intros c Hc. destruct (ws_new1 c Hc) as [Hc'|Hc']; [auto|right; auto].
  - auto.
  - intros i Hi. rewrite length_app in Hi. destruct (decide (i < off + Z.of_nat (length d1))).
    + rewrite ws_mono1; [apply ws_map0; lia|apply byte_block; lia|apply ws_map0; lia].
    + apply ws_map1. lia.
  - intros i Hi. rewrite ws_byte1 by done. rewrite length_app. unfold nthz. destruct (decide (off + Z.of_nat (length d1) <= i < off + Z.of_nat (length d1) + Z.of_nat (length d2))).
    + rewrite decide_True by lia. rewrite !list_lookup_total_alt. f_equal. rewrite lookup_app_r by lia. f_equal. lia.
    + rewrite ws_byte0 by done. unfold nthz. destruct (decide (off <= i < off + Z.of_nat (length d1))).
      * rewrite decide_True by lia. rewrite !list_lookup_total_alt. f_equal. by rewrite lookup_app_l by lia.
      * by rewrite decide_False by lia.
Qed.

(** One round of the loop. *)
Lemma writei_block ip s off data :
  txn s [] -> 1 <= l_outstanding (k_log s) -> bitmap_ok s -> (ip < length (k_icache s))%nat -> file_in s (inode_at s ip) ->
  0 <= off < MAXFILE * BSIZE -> off mod BSIZE + Z.of_nat (length data) <= BSIZE -> bytes data -> (2 <= nfree s)%nat ->
  lh_n (k_log s) + 4 < l_size (k_log s) ->
  exists s' W, wstep ip s s' off data 1 W /\
    forall A (k : kM A), (addr ← bmap ip (off / BSIZE); bp ← bread ROOTDEV addr; d ← bdata bp;
      set_bdata bp (splice d (Z.to_nat (off mod BSIZE)) data);; log_write bp;; brelse bp;; k) s = k s'.
Proof.
  intros T Ho B Hip F Hoff Hlen Hby Hfr Hlog. pose proof (byte_block off Hoff) as Hbn. pose proof (tn_size T) as Hsz. unfold LOGSIZE, MAXOPBLOCKS in Hsz.
  assert (Hom : 0 <= off mod BSIZE < BSIZE /\ off = off / BSIZE * BSIZE + off mod BSIZE) by (unfold BSIZE; zlia). destruct Hom as [Hom Hoe].
  destruct (bmap_spec ip s (off / BSIZE) T Ho B Hip F Hbn Hfr Hlog) as (a & s1 & W & E1 & T1 & M1).
  pose proof (mp_step _ _ _ _ _ _ M1) as S1. pose proof (mp_file _ _ _ _ _ _ M1) as F1. pose proof (mp_at _ _ _ _ _ _ M1) as Ea. pose proof (mp_nz _ _ _ _ _ _ M1) as Hnz.
  destruct (fo_data (fi_file F1) (off / BSIZE) Hbn ltac:(by rewrite Ea)) as [D Hai]. rewrite Ea in D, Hai.
  assert (Hn1 : lh_n (k_log s1) + 1 < l_size (k_log s1)).
  { rewrite (tf_size (fs_frame S1)). pose proof (fsstep_cover _ _ _ _ _ _ [sb_bmapstart (k_sb s); ind (inode_at s1 ip); a] T T1 S1) as Hc.
    lapply Hc; [cbn; lia|]. intros n Hn. right. destruct (mp_blocks _ _ _ _ _ _ M1 n Hn) as [->|[[-> _]| ->]]; set_solver+. }
  destruct (proj1 (wp_ok _ _ _) (bread_txn s1 [] T1 a (proj1 (db_home _ _ _ D)) ltac:(set_solver+) ltac:(rewrite (tf_size (fs_frame S1)) in Hn1; unfold NBUF; cbn; lia))) as (bp & s2 & E2 & S2 & T2).
  set (d := splice (fsview s1 a) (Z.to_nat (off mod BSIZE)) data).
  assert (Hd : block_ok d).
  { destruct (fsview_ok s1 a (tn_bio T1)) as [Hl Hb]. split; [unfold d; rewrite length_splice; unfold BSIZE in *; lia|by apply bytes_splice]. }
  pose proof (fs_frame S2) as TF2. pose proof (same_n _ _ _ _ _ T1 T2 S2) as En2.
  destruct (write_txn s2 _ T2 bp a d) as (s3 & s4 & E3 & E4 & S4 & T4);
    [by rewrite (tf_out TF2), (tf_out (fs_frame S1))|left|eapply home_ok_frame; [exact TF2|apply D]|done| |].
  { eapply log_room; [exact T2|]. by rewrite En2, (tf_size TF2). }
  destruct (proj1 (wp_ok _ _ _) (brelse_txn s4 [] bp a T4)) as ([] & s5 & E5 & S5 & T5).
  assert (S15 : fsstep None s1 s5 [(a, d)]) by apply (fsstep_trans None s1 s4 s5 [(a, d)] [] (fsstep_trans None s1 s2 s4 [] _ S2 S4) S5).
  exists s5, (W ++ [(a, d)]). split; last first.
  { intros A k. rewrite (bind_ok _ _ _ _ _ E1), (bind_ok _ _ _ _ _ E2), (bind_ok _ _ _ _ _ (bdata_txn s2 _ T2 bp a ltac:(left))), (fs_view S2).
    change (put_all [] (fsview s1) a) with (fsview s1 a). fold d. by rewrite (bind_ok _ _ _ _ _ E3), (bind_ok _ _ _ _ _ E4), (bind_ok _ _ _ _ _ E5). }
  assert (Ex : inode_at s5 ip = inode_at s1 ip) by (by apply (fs_icache S15)).
  assert (Hbm : sb_bmapstart (k_sb s1) ∉ ([(a, d)] : list (Z * block)).*1) by (cbn; intros ?%list_elem_of_singleton; by destruct D).
  assert (S05 : fsstep (Some ip) s s5 (W ++ [(a, d)])) by (eapply fsstep_trans; [exact S1|by apply fsstep_weaken]).
  pose proof (write_addr ip s1 s5 (off / BSIZE) (off mod BSIZE) data) as HA. rewrite Ea in HA. fold d in HA.
  pose proof (write_file ip s1 s5 (off / BSIZE) (off mod BSIZE) data) as HF. rewrite Ea in HF. fold d in HF.
  pose proof (write_byte ip s1 s5 (off / BSIZE) (off mod BSIZE) data) as HB. rewrite Ea in HB. fold d in HB.
  split; rewrite ?Ex; try done.
  - eapply bitmap_ok_step; [exact S15|done|apply M1].
  - by apply HF.
  - apply M1.
  - pose proof (mp_free _ _ _ _ _ _ M1). unfold nfree in *. rewrite (bitmap_step _ _ _ _ S15 Hbm), (tf_sb (fs_frame S15)). lia.
  - apply (unlogged_step ip s s5 _ a T T5 S05); rewrite Ex; [|apply (mp_ind _ _ _ _ _ _ M1)].
    intros n. rewrite fmap_app, elem_of_app. intros [Hn|Hn%list_elem_of_singleton]; [by apply (mp_blocks _ _ _ _ _ _ M1)|by right; right].
  - intros m Hm Hm0. rewrite HA by done. by apply (mp_addr _ _ _ _ _ _ M1).
  - apply (mp_ind _ _ _ _ _ _ M1).
  - intros c. rewrite fmap_app, elem_of_app. intros Hc.
    assert (Hc' : c = sb_bmapstart (k_sb s) \/ (c = ind (inode_at s1 ip) /\ c <> 0) \/ c = a).
    { destruct Hc as [Hn|Hn%list_elem_of_singleton]; [by apply (mp_blocks _ _ _ _ _ _ M1)|by right; right]. }
    destruct Hc' as [|[[-> ?]| ->]]; [by left|right; split; [done|by left]|right; split; [done|right]].
    exists (off / BSIZE). by rewrite HA.
  - intros c [Hc0 Hc]. apply (mp_new _ _ _ _ _ _ M1). split; [done|]. destruct Hc as [|(m & Hm & <-)]; [by left|right; exists m; by rewrite HA].
  - intros c [Hc1 Hc2]. apply (mp_mono _ _ _ _ _ _ M1). rewrite (bitmap_step _ _ _ _ S15 Hbm) in Hc2. rewrite (tf_sb (fs_frame S15)) in Hc1. by split.
  - intros i Hi. rewrite HA by done. replace (i / BSIZE) with (off / BSIZE) by (unfold BSIZE in *; zlia). by rewrite Ea.
  - intros i Hi. rewrite (HB (tn_bio T1) F1 Hbn Hnz (proj1 Hom) Hlen S15) by done. rewrite <- Hoe. case_decide; [done|]. by apply (mp_byte _ _ _ _ _ _ M1).
Qed.

(** How many blocks [rem] bytes from [off] on touch. *)
Definition nblocks (off rem : Z) : Z := if 0 <? rem then (off + rem - 1) / BSIZE - off / BSIZE + 1 else 0.

Lemma nblocks_next off rem :
  0 <= off -> 0 < rem -> let m := Z.min rem (BSIZE - off mod BSIZE) in
  0 < m <= rem /\ off mod BSIZE + m <= BSIZE /\ nblocks off rem = 1 + nblocks (off + m) (rem - m) /\ 0 <= nblocks (off + m) (rem - m) /\
  (0 < rem - m -> (off + m) mod BSIZE = 0 /\ off mod BSIZE + m = BSIZE).
Proof.
  intros Ho Hr m. unfold nblocks. rewrite (proj2 (Z.ltb_lt 0 rem)) by done. unfold m, BSIZE.
  destruct (Z.ltb_spec 0 (rem - Z.min rem (512 - off mod 512))); zlia.
Qed.

Lemma writei_loop_spec ip n : forall s off rem src junk,
  txn s [] -> 1 <= l_outstanding (k_log s) -> bitmap_ok s -> (ip < length (k_icache s))%nat -> file_in s (inode_at s ip) ->
  0 <= off -> 0 <= rem -> Z.of_nat (length src) = rem -> bytes src -> off + rem <= MAXFILE * BSIZE ->
  (0 < rem -> off mod BSIZE + rem <= BSIZE * Z.of_nat n) -> 2 * nblocks off rem <= Z.of_nat (nfree s) ->
  (0 < rem -> lh_n (k_log s) + unlogged s ip + nblocks off rem + 3 < l_size (k_log s)) ->
  exists s' W, writei_loop ip (src ++ junk) off rem n s = Ok (off + rem) s' /\ wstep ip s s' off src (Z.to_nat (nblocks off rem)) W.
Proof.
  induction n as [|n IH]; intros s off rem src junk T Ho B Hip F Hoff Hr Hsrc Hby Hmax Hn Hfr Hlog; cbn [writei_loop].
  - assert (rem = 0) as -> by (destruct (decide (0 < rem)); [unfold BSIZE in Hn; zlia|lia]). destruct src; [|done].
    exists s, []. split; [by rewrite Z.add_0_r|by apply wstep_refl].
  - destruct (Z.ltb_spec 0 rem) as [Hpos|]; last first.
    { assert (rem = 0) as -> by lia. destruct src; [|done]. exists s, []. split; [by rewrite Z.add_0_r|by apply wstep_refl]. }
    destruct (nblocks_next off rem Hoff Hpos) as (Hm & Hom & Enb & Hnb & Hal). set (m := Z.min rem (BSIZE - off mod BSIZE)) in *.
    rewrite (bind_ok _ _ s (inode_at s ip) s) by done. rewrite (fi_dev F).
    assert (Hul : 0 <= unlogged s ip) by (unfold unlogged; repeat case_decide; lia).
    assert (Hlt : length (take (Z.to_nat m) src) = Z.to_nat m) by (rewrite length_take; lia).
    destruct (writei_block ip s off (take (Z.to_nat m) src)) as (s1 & W1 & M1 & Erun); try done; [lia|lia|by apply Forall_take|lia|lia|].
    cbv zeta. fold m. rewrite take_app_le, drop_app_le by lia. rewrite (Erun _ (writei_loop ip (drop (Z.to_nat m) src ++ junk) (off + m) (rem - m) n)).
    pose proof (ws_step _ _ _ _ _ _ _ M1) as S1. pose proof (ws_free _ _ _ _ _ _ _ M1) as Hf1. pose proof (ws_log _ _ _ _ _ _ _ M1) as Hl1.
    destruct (IH s1 (off + m) (rem - m) (drop (Z.to_nat m) src) junk) as (s2 & W2 & E2 & M2); try done; try lia.
    + apply M1.
    + by rewrite (tf_out (fs_frame S1)).
    + apply M1.
    + by rewrite (fs_ninodes S1).
    + apply M1.
    + rewrite length_drop. lia.
    + by apply Forall_drop.
    + rewrite (tf_size (fs_frame S1)). lia.
    + exists s2, (W1 ++ W2). split; [rewrite E2; f_equal; lia|]. rewrite <- (take_drop (Z.to_nat m) src), Enb.
      replace (Z.to_nat (1 + nblocks (off + m) (rem - m))) with (1 + Z.to_nat (nblocks (off + m) (rem - m)))%nat by lia.
      apply (wstep_trans ip s s1 s2); [done|rewrite take_drop; lia|done|].
      rewrite Hlt. by replace (Z.of_nat (Z.to_nat m)) with m by lia.
Qed.

(** ** The inode on the disk *)

Lemma length_enc_dinode di : length (di_addrs di) = 13%nat -> length (enc_dinode di) = 64%nat.
Proof.
  intros H. unfold enc_dinode, enc16. rewrite !length_app, !length_le_enc, length_enc32.
  assert (E : forall l : list Z, length (concat (enc32 <$> l)) = (4 * length l)%nat).
  { induction l as [|z l IH]; [done|].
    change (concat (enc32 <$> (z :: l))) with (enc32 z ++ concat (enc32 <$> l)). rewrite length_app, length_enc32, IH. cbn [length]. lia. }
  rewrite E, H. lia.
Qed.

Lemma bytes_enc_dinode di : bytes (enc_dinode di).
Proof.
  unfold enc_dinode. repeat (apply Forall_app; split; [apply bytes_le_enc|]). induction (di_addrs di) as [|z l IH]; [constructor|].
  change (concat (enc32 <$> (z :: l))) with (enc32 z ++ concat (enc32 <$> l)). apply Forall_app. split; [apply bytes_le_enc|done].
Qed.

Lemma inode_off_range inum : 0 <= inode_off inum <= 448.
Proof. unfold inode_off, IPB, DINODE_SIZE, BSIZE. change (512 / 64) with 8. zlia. Qed.

Lemma block_ok_put_dinode d inum di : block_ok d -> length (di_addrs di) = 13%nat -> block_ok (put_dinode d (inode_off inum) di).
Proof.
  intros [Hl Hb] Ha. pose proof (inode_off_range inum). unfold put_dinode. split.
  - rewrite length_splice; rewrite ?(length_enc_dinode di Ha); lia.
  - apply bytes_splice; [done|apply bytes_enc_dinode].
Qed.

(** The block of the inode with the inode as it is in memory. *)
Definition inode_block (s : kernel) (x : inode) : block :=
  put_dinode (fsview s (IBLOCK (i_inum x) (k_sb s))) (inode_off (i_inum x)) (dinode_of x).

Lemma iupdate_spec ip s :
  let x := inode_at s ip in
  txn s [] -> 1 <= l_outstanding (k_log s) -> file_in s x -> lh_n (k_log s) + 1 < l_size (k_log s) ->
  exists s', iupdate ip s = Ok tt s' /\ txn s' [] /\ fsstep None s s' [(IBLOCK (i_inum x) (k_sb s), inode_block s x)].
Proof.
  intros x T Ho F Hlog. pose proof (tn_size T) as Hsz. unfold LOGSIZE, MAXOPBLOCKS in Hsz. unfold iupdate.
  rewrite (bind_ok _ _ s x s), (bind_ok _ _ s (k_sb s) s), (fi_dev F) by done. set (ib := IBLOCK (i_inum x) (k_sb s)).
  destruct (proj1 (wp_ok _ _ _) (bread_txn s [] T ib (proj1 (fi_inode F)) ltac:(set_solver+) ltac:(unfold NBUF; cbn; lia))) as (bp & s1 & E1 & S1 & T1).
  rewrite (bind_ok _ _ _ _ _ E1), (bind_ok _ _ _ _ _ (bdata_txn s1 _ T1 bp ib ltac:(left))), (fs_view S1). change (put_all [] (fsview s) ib) with (fsview s ib).
  fold (inode_block s x). pose proof (fs_frame S1) as TF. pose proof (same_n _ _ _ _ _ T T1 S1) as En.
  destruct (write_txn s1 _ T1 bp ib (inode_block s x)) as (s2 & s3 & E2 & E3 & S3 & T3);
    [by rewrite (tf_out TF)|left|eapply home_ok_frame; [exact TF|apply F]| | |].
  - apply block_ok_put_dinode; [apply fsview_ok, T|apply (fo_len (fi_file F))].
  - eapply log_room; [exact T1|]. by rewrite En, (tf_size TF).
  - destruct (proj1 (wp_ok _ _ _) (brelse_txn s3 [] bp ib T3)) as ([] & s4 & E4 & S4 & T4).
    exists s4. split_and!; [by rewrite (bind_ok _ _ _ _ _ E2), (bind_ok _ _ _ _ _ E3)|done|].
    apply (fsstep_trans None s s3 s4 [_] [] (fsstep_trans None s s1 s3 [] _ S1 S3) S4).
Qed.

(** iupdate does not touch the file. *)
Lemma iupdate_file s s' x :
  file_in s x -> bitmap_ok s -> fsstep None s s' [(IBLOCK (i_inum x) (k_sb s), inode_block s x)] ->
  file_in s' x /\ bitmap_ok s' /\ (forall m, 0 <= m < MAXFILE -> faddr (fsview s') x m = faddr (fsview s) x m) /\
  (forall i, 0 <= i < MAXFILE * BSIZE -> fbyte (fsview s') x i = fbyte (fsview s) x i).
Proof.
  intros F B S. assert (Hbm : sb_bmapstart (k_sb s) ∉ ([(IBLOCK (i_inum x) (k_sb s), inode_block s x)] : list (Z * block)).*1).
  { cbn. intros E%list_elem_of_singleton. by apply (fi_inode_bm F). }
  pose proof (bitmap_step _ _ _ _ S Hbm) as Eb. destruct (file_in_step None s s' _ x F S ltac:(by rewrite Eb)) as (F' & HA & HB).
  - intros a D. rewrite (fs_view S). apply put_all_notin. cbn. intros E%list_elem_of_singleton. by destruct D.
  - split_and!; try done. by eapply bitmap_ok_step.
Qed.

(** The size of an inode does not matter for its blocks. *)
Lemma file_in_size s x n : file_in s x -> file_in s (set_i_size n x).
Proof. intros [D1 [E1 E2 E3 E4] D3 D4 D5 D6]. split; try done. Qed.
