(* ===== verification/FsProps.v ===== *)
(** * What files promise

    balloc, readi and writei inside a file system operation. *)

From S2P Require Import Prelude State Sleep Ide Bio BioSpec Log LogSpec LogRun LogOps Console Fs FsTxn FsAlloc FsMap FsFile FsData File.
Open Scope Z_scope.

(** C23. balloc hands out a block that nobody uses.  Inside an operation, with
    room in the log, it either takes the first block that is free in the bit
    map, which is then marked, and only it, and reads as zeroes, with every
    block but the bit map and itself unchanged; or no block is free and it
    panics. *)
Theorem balloc_takes_free s H :
  txn s H -> 1 <= l_outstanding (k_log s) -> bitmap_ok s -> held_used s H ->
  Z.of_nat (length H) + lh_n (k_log s) + 1 < Z.of_nat NBUF -> lh_n (k_log s) + 2 < l_size (k_log s) ->
  (exists b s', balloc ROOTDEV s = Ok b s' /\ is_free s b /\ (forall j, 0 <= j < b -> ~ is_free s j) /\ txn s' H /\ bitmap_ok s' /\
     fsview s' b = zero_block /\ (forall c, is_free s' c <-> is_free s c /\ c <> b) /\ nfree s = S (nfree s') /\
     (forall n, n <> b -> n <> sb_bmapstart (k_sb s) -> fsview s' n = fsview s n) /\ k_sb s' = k_sb s) \/
  ((forall b, ~ is_free s b) /\ balloc ROOTDEV s = Panic "balloc: out of blocks").
Proof.
  intros T Ho B Hu Hroom Hfit. destruct (balloc_txn s H T Ho B Hu Hroom Hfit) as [(b & s' & E & Hfree & Hfirst & S & T')|Hno]; [left|by right].
  pose proof (tf_sb (fs_frame S)) as Esb. exists b, s'. split_and!; try done.
  - by apply (after_ok s s' b).
  - rewrite (after_view s s' b S). by rewrite decide_True.
  - intros c. unfold is_free at 1. rewrite Esb. split.
    + intros [Hc Hn]. rewrite (after_bused s s' b B Hfree S) in Hn by done. apply orb_false_iff in Hn as [Hn1 Hn2].
      apply Z.eqb_neq in Hn1. split; [by split|congruence].
    + intros [[Hc Hn] Hne]. split; [done|]. rewrite (after_bused s s' b B Hfree S) by done. rewrite Hn, orb_false_r. apply Z.eqb_neq. congruence.
  - by apply (after_nfree s s' b).
  - intros n H1 H2. rewrite (after_view s s' b S). by rewrite !decide_False.
Qed.

(** C22. readi returns the bytes of the file.  For a file that is not a device
    it returns -1 when the offset is beyond the end of the file or the range
    wraps around, and otherwise as many of the bytes asked for as the file has
    from that offset on, exactly those; it changes no block. *)
Theorem readi_reads ip s off n :
  let x := inode_at s ip in
  txn s [] -> file_in s x -> sized (fsview s) x -> i_type x <> T_DEV -> 0 <= off < 4294967296 -> 0 <= n < 4294967296 ->
  let m := Z.min n (i_size x - off) in
  exists s', readi ip off n s =
      Ok (if (i_size x <? off) || (4294967296 <=? off + n) then (-1, [])
          else (m, slice (fbytes (fsview s) x 0 (i_size x)) (Z.to_nat off) (Z.to_nat m))) s' /\
    txn s' [] /\ (forall b, fsview s' b = fsview s b) /\ inode_at s' ip = x.
Proof.
  intros x T F Hs Hty Ho Hn m. destruct (readi_spec ip s off n T F Hs Hty Ho Hn) as (s' & E & T' & S'). exists s'.
  split_and!; [|done|apply (fs_view S')|by apply (fs_icache S')]. rewrite E. fold x. fold m. destruct (_ || _) eqn:C; [done|]. do 2 f_equal.
  apply orb_false_iff in C as [C1 C2]. apply Z.ltb_ge in C1. fold x in C1. destruct Hs as [Hs _].
  symmetry. apply fbytes_slice; unfold m; lia.
Qed.

(** ** writei *)

Lemma lookup_fbytes V x off n i : fbytes V x off n !! i = if decide (Z.of_nat i < n) then Some (fbyte V x (off + Z.of_nat i)) else None.
Proof.
  unfold fbytes. rewrite list_lookup_fmap. case_decide; [rewrite lookup_seq_lt by lia; done|by rewrite lookup_seq_ge by lia].
Qed.

(** The contents after [src] is stored at [off]. *)
Lemma fbytes_splice V x V' x' off src n :
  0 <= off <= n ->
  (forall i, 0 <= i < Z.max n (off + Z.of_nat (length src)) -> fbyte V' x' i =
    if decide (off <= i < off + Z.of_nat (length src)) then nthz src (i - off) else fbyte V x i) ->
  fbytes V' x' 0 (Z.max n (off + Z.of_nat (length src))) = splice (fbytes V x 0 n) (Z.to_nat off) src.
Proof.
  intros Ho Hb. apply list_eq. intros i. rewrite lookup_fbytes. unfold splice.
  pose proof (length_fbytes V x 0 n) as Hl.
  destruct (decide (Z.of_nat i < off)) as [H1|H1]; [|destruct (decide (Z.of_nat i < off + Z.of_nat (length src))) as [H2|H2]].
  - rewrite lookup_app_l by (rewrite length_take; lia). rewrite lookup_take_lt, lookup_fbytes by lia.
    rewrite !decide_True by lia. rewrite Hb by lia. by rewrite decide_False by lia.
  - rewrite lookup_app_r by (rewrite length_take; lia). rewrite length_take, Hl. rewrite lookup_app_l by lia.
    rewrite decide_True by lia. rewrite Hb, decide_True by lia. symmetry. unfold nthz.
    replace (Z.to_nat (0 + Z.of_nat i - off)) with (i - Nat.min (Z.to_nat off) (Z.to_nat n))%nat by lia. apply list_lookup_lookup_total_lt. lia.
  - rewrite lookup_app_r by (rewrite length_take; lia). rewrite length_take, Hl, lookup_app_r, lookup_drop, lookup_fbytes by lia.
    replace (Z.of_nat (Z.to_nat off + length src + (i - Nat.min (Z.to_nat off) (Z.to_nat n) - length src))) with (Z.of_nat i) by lia.
    destruct (decide (Z.of_nat i < n)); [|by rewrite decide_False by lia]. rewrite decide_True by lia. rewrite Hb by lia. by rewrite decide_False by lia.
Qed.

(** Everything that holds when writei returns. *)
Record written_file (ip : nat) (s s' : kernel) (src : list Z) (off : Z) : Prop := mkWritten {
  wf_txn : txn s' [];
  wf_bitmap : bitmap_ok s';
  wf_file : file_in s' (inode_at s' ip);
  wf_sized : sized (fsview s') (inode_at s' ip);
  wf_meta : i_type (inode_at s' ip) = i_type (inode_at s ip) /\ i_inum (inode_at s' ip) = i_inum (inode_at s ip);
  wf_size : i_size (inode_at s' ip) = Z.max (i_size (inode_at s ip)) (off + Z.of_nat (length src));
  wf_contents : fbytes (fsview s') (inode_at s' ip) 0 (i_size (inode_at s' ip)) =
    splice (fbytes (fsview s) (inode_at s ip) 0 (i_size (inode_at s ip))) (Z.to_nat off) src;
  wf_blocks : forall c, c <> sb_bmapstart (k_sb s) -> c <> IBLOCK (i_inum (inode_at s ip)) (k_sb s) ->
    ~ is_free s c -> ~ in_file (fsview s) (inode_at s ip) c -> fsview s' c = fsview s c;
  wf_others : forall j, j <> ip -> inode_at s' j = inode_at s j;
  wf_log : lh_n (k_log s') <= lh_n (k_log s) + nblocks off (Z.of_nat (length src)) + 3;
  wf_ondisk : i_size (inode_at s ip) < off + Z.of_nat (length src) ->
    fsview s' (IBLOCK (i_inum (inode_at s ip)) (k_sb s)) =
      put_dinode (fsview s (IBLOCK (i_inum (inode_at s ip)) (k_sb s))) (inode_off (i_inum (inode_at s ip))) (dinode_of (inode_at s' ip))
}.

Section writei.
Context (ip : nat) (s s1 : kernel) (src : list Z) (off : Z) (k : nat) (W : list (Z * block)).
Let x := inode_at s ip.
Let x1 := inode_at s1 ip.
Let n := Z.of_nat (length src).
Hypothesis T : txn s [].
Hypothesis Ho : 1 <= l_outstanding (k_log s).
Hypothesis Hip : (ip < length (k_icache s))%nat.
Hypothesis F : file_in s x.
Hypothesis Hsz : sized (fsview s) x.
Hypothesis Hoff : 0 <= off <= i_size x.
Hypothesis Hmax : off + n <= MAXFILE * BSIZE.
Hypothesis Hk : Z.of_nat k = nblocks off n.
Hypothesis Hlog : lh_n (k_log s) + nblocks off n + 5 < l_size (k_log s).
Hypothesis M : wstep ip s s1 off src k W.

Lemma wd_meta : i_size x1 = i_size x /\ i_inum x1 = i_inum x /\ i_type x1 = i_type x.
Proof using M. pose proof (ws_meta _ _ _ _ _ _ _ M) as E. unfold same_meta in E. unfold x1. rewrite E. done. Qed.

Lemma wd_log : lh_n (k_log s1) <= lh_n (k_log s) + nblocks off n + 2.
Proof using All.
  pose proof (ws_log _ _ _ _ _ _ _ M) as H. assert (0 <= unlogged s1 ip /\ unlogged s ip <= 2) by (unfold unlogged; repeat case_decide; lia). lia.
Qed.

(** Every block below the new size is mapped. *)
Lemma wd_mapped : mapped_range (fsview s1) x1 0 (Z.max (i_size x) (off + n)).
Proof using All.
  destruct Hsz as [H1 H2]. intros i Hi. destruct (decide (i < i_size x)).
  - unfold x1. rewrite (ws_mono _ _ _ _ _ _ _ M); [apply H2; lia|apply byte_block; lia|apply H2; lia].
  - apply (ws_map _ _ _ _ _ _ _ M). fold n. lia.
Qed.

(** The blocks of others are not written. *)
Lemma wd_blocks c : c <> sb_bmapstart (k_sb s) -> ~ is_free s c -> ~ in_file (fsview s) x c -> fsview s1 c = fsview s c.
Proof using M.
  intros H1 H2 H3. rewrite (fs_view (ws_step _ _ _ _ _ _ _ M)). apply put_all_notin. intros Hc.
  destruct (ws_blocks _ _ _ _ _ _ _ M c Hc) as [|Hin]; [done|]. destruct (ws_new _ _ _ _ _ _ _ M c Hin); auto.
Qed.

Lemma wd_inode : fsview s1 (IBLOCK (i_inum x) (k_sb s)) = fsview s (IBLOCK (i_inum x) (k_sb s)).
Proof using M F.
  apply wd_blocks; [apply F|apply F|]. intros [H0 [Hi|(m & Hm & Ha)]].
  - assert (D : data_block s (i_inum x) (ind x)) by (apply (fo_ind (fi_file F)); congruence). by destruct D.
  - destruct (fo_data (fi_file F) m Hm) as [D _]; [congruence|]. by destruct D.
Qed.

(** The size of the file does not change. *)
Lemma writei_inside : off + n <= i_size x -> written_file ip s s1 src off.
Proof using All.
  intros Hle. destruct wd_meta as (Em & Ei & Ey). pose proof wd_log as Hl. pose proof wd_mapped as Hm. rewrite Z.max_l in Hm by done.
  assert (Es : i_size (inode_at s1 ip) = Z.max (i_size (inode_at s ip)) (off + n)) by (fold x x1; lia). destruct Hsz as [Hr _].
  split; fold n; try done.
  - apply M.
  - apply M.
  - apply M.
  - split; [fold x1; lia|]. fold x1. by rewrite Em.
  - rewrite Es. apply fbytes_splice; [done|]. intros i Hi. apply (ws_byte _ _ _ _ _ _ _ M). fold x n in Hi. lia.
  - intros c H1 _ H2 H3. by apply wd_blocks.
  - intros j Hj. apply (fs_icache (ws_step _ _ _ _ _ _ _ M)). congruence.
  - lia.
  - fold x. lia.
Qed.

(** The file grows, and its inode is written. *)
Lemma writei_grows s2 s3 :
  i_size x < off + n -> s2 = set_k_icache (alter (set_i_size (off + n)) ip (k_icache s1)) s1 ->
  txn s3 [] -> fsstep None s2 s3 [(IBLOCK (i_inum x1) (k_sb s2), inode_block s2 (set_i_size (off + n) x1))] ->
  written_file ip s s3 src off.
Proof using All.
  intros Hgt E2 T3 S3. pose proof (ws_step _ _ _ _ _ _ _ M) as S1. destruct wd_meta as (Em & Ei & Ey). pose proof wd_log as Hl. pose proof wd_mapped as Hm.
  rewrite Z.max_r in Hm by lia. set (x2 := set_i_size (off + n) x1) in *. destruct Hsz as [Hr _].
  assert (V2 : forall c, fsview s2 c = fsview s1 c) by (by rewrite E2). assert (Esb : k_sb s2 = k_sb s) by (rewrite E2; apply (tf_sb (fs_frame S1))).
  assert (Ex3 : inode_at s3 ip = x2).
  { unfold inode_at. rewrite (fs_icache S3), E2 by done. cbn. by rewrite alter_total_eq by (rewrite (fs_ninodes S1); done). }
  assert (F2 : file_in s2 x2).
  { rewrite E2. destruct (file_in_size s1 x1 (off + n) (ws_file _ _ _ _ _ _ _ M)) as [D1 D2 D3 D4 D5 D6]. split; try done.
    eapply file_ok_mono; [|exact D2]. intros c. apply data_block_icache. }
  assert (B2 : bitmap_ok s2) by (rewrite E2; apply bitmap_icache, M).
  destruct (iupdate_file s2 s3 x2 F2 B2 S3) as (F3 & B3 & A3 & Y3).
  assert (T2 : txn s2 []) by (rewrite E2; apply txn_icache, M).
  assert (Hl3 : lh_n (k_log s3) <= lh_n (k_log s2) + 1) by exact (fsstep_bound_len _ _ _ _ _ _ T2 T3 S3).
  assert (El : lh_n (k_log s2) = lh_n (k_log s1)) by (by rewrite E2).
  split; rewrite ?Ex3; fold n x; try done.
  - split; [cbn; rewrite MAXFILE_eq in *; lia|]. intros i Hi. cbn [i_size x2 set_i_size] in Hi. rewrite A3 by (apply byte_block; lia).
    rewrite (faddr_ext (fsview s2) (fsview s1)) by done. apply Hm. lia.
  - cbn. lia.
  - cbn [i_size x2 set_i_size]. replace (off + n) with (Z.max (i_size x) (off + n)) at 1 by lia. apply fbytes_splice; [done|]. intros i Hi. fold n in Hi.
    rewrite Y3 by lia. rewrite (fbyte_ext (fsview s2) (fsview s1)) by done. apply (ws_byte _ _ _ _ _ _ _ M). lia.
  - intros c H1 H2 H3 H4. rewrite (fs_view S3), put_all_cons. cbn [put_all foldl]. rewrite decide_False by (rewrite Ei, Esb; done).
    rewrite V2. by apply wd_blocks.
  - intros j Hj. unfold inode_at. rewrite (fs_icache S3), E2 by done. cbn. rewrite alter_total_ne by done. apply (fs_icache S1). congruence.
  - lia.
  - intros _. rewrite (fs_view S3), put_all_cons, Ei, Esb. cbn [put_all foldl]. rewrite decide_True by done.
    unfold inode_block. cbn [x2 i_inum set_i_size]. rewrite Ei, Esb, V2, wd_inode. done.
Qed.
End writei.

Lemma writei_spec ip s src more off :
  let x := inode_at s ip in
  let n := Z.of_nat (length src) in
  txn s [] -> 1 <= l_outstanding (k_log s) -> bitmap_ok s -> (ip < length (k_icache s))%nat ->
  file_in s x -> sized (fsview s) x -> i_type x <> T_DEV -> 0 <= off < 4294967296 -> n < 4294967296 -> bytes src ->
  2 * nblocks off n <= Z.of_nat (nfree s) -> lh_n (k_log s) + nblocks off n + 5 < l_size (k_log s) ->
  if (i_size x <? off) || (MAXFILE * BSIZE <? off + n) then writei ip (src ++ more) off n s = Ok (-1) s
  else exists s', writei ip (src ++ more) off n s = Ok n s' /\ written_file ip s s' src off /\
    (n <= filewrite_max -> lh_n (k_log s') <= lh_n (k_log s) + 7 <= lh_n (k_log s) + MAXOPBLOCKS).
Proof.
  intros x n T Ho B Hip F Hsz Hty Hoff Hn Hby Hfr Hlog. unfold writei. rewrite (bind_ok _ _ s x s) by done. rewrite (proj2 (Z.eqb_neq _ _)) by done.
  assert (Hn0 : 0 <= n) by (unfold n; lia). destruct (Z.ltb_spec (i_size x) off) as [|Hle]; [done|]. rewrite MAXFILE_eq in *. unfold BSIZE in *. cbn [orb].
  destruct (Z.ltb_spec (140 * 512) (off + n)) as [Hbig|Hmax].
  { destruct (Z.ltb_spec (u32 (off + n)) off); [done|]. cbn [orb]. rewrite (proj2 (Z.ltb_lt _ _)); [done|]. zlia. }
  rewrite u32_small by lia. rewrite (proj2 (Z.ltb_ge (off + n) off)), (proj2 (Z.ltb_ge _ (off + n))) by lia. cbn [orb].
  assert (Hul : unlogged s ip <= 2) by (unfold unlogged; repeat case_decide; lia).
  destruct (writei_loop_spec ip (Z.to_nat (n / 512 + 2)) s off n src more) as (s1 & W & E1 & M1); try done; try (rewrite ?MAXFILE_eq; unfold BSIZE; lia).
  { intros _. unfold BSIZE. rewrite Z2Nat.id by zlia. zlia. }
  assert (Hnb : 0 <= nblocks off n /\ (n <= 1536 -> nblocks off n <= 4)) by (unfold nblocks, BSIZE; destruct (Z.ltb_spec 0 n); zlia).
  enough (exists s', (x0 ← get_inode ip; (when (0 <? n) && (i_size x0 <? off + n) do (upd_inode ip (set_i_size (off + n));; iupdate ip));; mret (i32 n)) s1 = Ok n s' /\
    written_file ip s s' src off) as (s' & E' & W').
  { exists s'. split_and!; [by rewrite (bind_ok _ _ _ _ _ E1)|done|]. change filewrite_max with 1536. unfold MAXOPBLOCKS.
    intros H. pose proof (wf_log _ _ _ _ _ W') as Hl. fold n in Hl. lia. }
  assert (Hi32 : i32 n = n) by (apply i32_small; lia). rewrite (bind_ok _ _ s1 (inode_at s1 ip) s1) by done.
  assert (Hk : Z.of_nat (Z.to_nat (nblocks off n)) = nblocks off n) by lia.
  destruct (wd_meta ip s s1 src off _ W M1) as [Em Ei]. fold x in Em. rewrite Em.
  destruct ((0 <? n) && (i_size x <? off + n)) eqn:Eg; last first.
  { exists s1. split; [by rewrite (bind_ok _ _ s1 tt s1), Hi32 by done|]. eapply writei_inside; try done; fold x n; rewrite ?MAXFILE_eq; unfold BSIZE; try lia. }
  apply andb_true_iff in Eg as [_ Hg%Z.ltb_lt]. pose proof (wd_log ip s s1 src off _ W T Ho Hip F Hsz ltac:(fold x; lia) ltac:(rewrite MAXFILE_eq; unfold BSIZE; fold n; lia) Hk Hlog M1) as Hl1.
  fold n in Hl1. pose proof (ws_step _ _ _ _ _ _ _ M1) as S1. set (s2 := set_k_icache (alter (set_i_size (off + n)) ip (k_icache s1)) s1).
  assert (Ex2 : inode_at s2 ip = set_i_size (off + n) (inode_at s1 ip)) by (unfold inode_at, s2; ksimpl; apply alter_total_eq; by rewrite (fs_ninodes S1)).
  destruct (iupdate_spec ip s2) as (s3 & E3 & T3 & S3).
  - apply txn_icache, M1.
  - unfold s2. cbn. by rewrite (tf_out (fs_frame S1)).
  - rewrite Ex2. destruct (file_in_size s1 (inode_at s1 ip) (off + n) (ws_file _ _ _ _ _ _ _ M1)) as [D1 D2 D3 D4 D5 D6]. split; try done.
    eapply file_ok_mono; [|exact D2]. intros c. apply data_block_icache.
  - unfold s2. cbn. rewrite (tf_size (fs_frame S1)). lia.
  - exists s3. split.
    + rewrite (bind_ok _ _ s1 tt s3), Hi32 by (rewrite (bind_ok _ _ s1 tt s2); done). done.
    + rewrite Ex2 in S3. eapply writei_grows; try done; fold x n; rewrite ?MAXFILE_eq; unfold BSIZE; try lia.
Qed.

(** C21. writei stores the bytes, all of them, and nothing else.  Inside an
    operation, for a file that is not a device, with enough free blocks and
    room in the log, it returns -1 and changes nothing when the offset is
    beyond the end of the file or the file would become too large; otherwise
    it returns the count, the file's contents are the old ones with the bytes
    put at the offset, the blocks are still used once each, no block in use by
    anything else is written, the inode on the disk has the new size when the
    file grew, and at most three blocks beside those that the bytes touch are
    logged: seven for the largest chunk of filewrite, within MAXOPBLOCKS. *)
Theorem writei_writes ip s src more off :
  let x := inode_at s ip in
  let n := Z.of_nat (length src) in
  txn s [] -> 1 <= l_outstanding (k_log s) -> bitmap_ok s -> (ip < length (k_icache s))%nat ->
  file_in s x -> sized (fsview s) x -> i_type x <> T_DEV -> 0 <= off < 4294967296 -> n < 4294967296 -> bytes src ->
  2 * nblocks off n <= Z.of_nat (nfree s) -> lh_n (k_log s) + nblocks off n + 5 < l_size (k_log s) ->
  if (i_size x <? off) || (MAXFILE * BSIZE <? off + n) then writei ip (src ++ more) off n s = Ok (-1) s
  else exists s', writei ip (src ++ more) off n s = Ok n s' /\ written_file ip s s' src off /\
    (n <= filewrite_max -> lh_n (k_log s') <= lh_n (k_log s) + 7 <= lh_n (k_log s) + MAXOPBLOCKS).
Proof. exact (writei_spec ip s src more off). Qed.

(** ** The log of an image made by mkfs

    mkfs makes nlog = LOGSIZE blocks, one of which is the header. *)

(** Process [p] runs. *)
Definition on {A} (p : nat) (m : kM A) : kM A := modify (set_k_cur (Some p));; m.

(** The blocks [ns] are cleared, one after the other. *)
Fixpoint bzero_all (ns : list Z) : kM unit :=
  match ns with
  | [] => mret tt
  | n :: ns' => bzero ROOTDEV n;; bzero_all ns'
  end.

(** Operations of three processes, each of which clears its blocks. *)
Definition three_ops (p q r : nat) (xs ys zs : list Z) : kM unit :=
  on p begin_op;; on q begin_op;; on r begin_op;;
  on p (bzero_all xs);; on q (bzero_all ys);; on r (bzero_all zs).

(** In operations, with [n] blocks in the log of LOGSIZE blocks. *)
Record logging (s : kernel) (L : list Z) : Prop := {
  lg_txn : txn s [];
  lg_out : 1 <= l_outstanding (k_log s);
  lg_log_size : l_size (k_log s) = LOGSIZE;
  lg_blocks : forall n, n ∈ logged (k_log s) <-> n ∈ L
}.
Lemma logging_n s L : logging s L -> NoDup L -> lh_n (k_log s) = Z.of_nat (length L).
Proof.
  intros [T _ _ Hb] Hl. rewrite lh_n_length by apply T. f_equal. apply Permutation_length, NoDup_Permutation; [apply (li_nodup (tn_log T))|done|done].
Qed.

Lemma bzero_logs s L n : logging s L -> NoDup (n :: L) -> home_ok (k_log s) n -> (length L < 29)%nat ->
  exists s', bzero ROOTDEV n s = Ok tt s' /\ logging s' (n :: L) /\ (forall m, home_ok (k_log s) m -> home_ok (k_log s') m).
Proof.
  intros G Hnd Hn Hlen. pose proof (logging_n s L G ltac:(by apply list.NoDup_cons in Hnd as [_ ?])) as En. destruct G as [T Ho Hs Hb].
  destruct (proj1 (wp_ok _ _ _) (bzero_txn s [] n T Ho Hn ltac:(apply not_elem_of_nil) ltac:(rewrite En; change (Z.of_nat NBUF) with 30; cbn [length]; lia) ltac:(split; rewrite ?Hs, En; unfold LOGSIZE, MAXOPBLOCKS; lia))) as ([] & s' & E & S & T').
  exists s'. split_and!; [done| |intros m; apply home_ok_frame, S]. split; [done|by rewrite (tf_out (fs_frame S))|by rewrite (tf_size (fs_frame S))|].
  intros m. rewrite (fs_logged S), Hb. cbn. set_solver.
Qed.
Lemma bzero_overflows s L n : logging s L -> NoDup L -> home_ok (k_log s) n -> length L = 29%nat -> bzero ROOTDEV n s = Panic "too big a transaction".
Proof.
  intros G Hnd Hn Hlen. pose proof (logging_n s L G Hnd) as En. destruct G as [T Ho Hs Hb]. rewrite Hlen in En.
  destruct (proj1 (wp_ok _ _ _) (bread_txn s [] T n (proj1 Hn) ltac:(apply not_elem_of_nil) ltac:(rewrite En; change (Z.of_nat NBUF) with 30; cbn [length]; lia))) as (b & s1 & E & S & T').
  unfold bzero. rewrite (bind_ok _ _ _ _ _ E). unfold set_bdata, upd_buf, modify, mbind, M_bind. rewrite log_write_full; [done|].
  unfold log_fits. cbn [k_log set_k_bcache]. rewrite (fs_log S eq_refl), En, Hs. unfold LOGSIZE, MAXOPBLOCKS. lia.
Qed.
Lemma bzero_all_logs ns : forall s L, logging s L -> NoDup (rev ns ++ L) -> Forall (home_ok (k_log s)) ns ->
  if decide (length ns + length L <= 29)%nat then exists s', bzero_all ns s = Ok tt s' /\ logging s' (rev ns ++ L) /\ (forall m, home_ok (k_log s) m -> home_ok (k_log s') m)
  else (length L <= 29)%nat -> bzero_all ns s = Panic "too big a transaction".
Proof.
  induction ns as [|n ns IH]; intros s L G Hnd Hns; cbn [bzero_all rev length] in *.
  { destruct (decide _); [by exists s|lia]. }
  rewrite <- app_assoc in *. cbn [app] in *. apply Forall_cons in Hns as [Hn Hns]. assert (Hnd' : NoDup (n :: L)) by (by apply list.NoDup_app in Hnd as (_ & _ & ?)).
  destruct (decide (length L = 29%nat)) as [E|E].
  { rewrite decide_False by lia. intros _. unfold mbind, M_bind. by rewrite (bzero_overflows s L n G ltac:(by apply list.NoDup_cons in Hnd' as [_ ?]) Hn E). }
  destruct (decide (length L <= 29)%nat) as [Hle|Hle]; [|rewrite decide_False by lia; intros ?; lia].
  destruct (bzero_logs s L n G Hnd' Hn ltac:(lia)) as (s1 & E1 & G1 & H1). specialize (IH s1 (n :: L) G1 Hnd (Forall_impl _ _ _ Hns H1)). cbn [length] in IH.
  destruct (decide (length ns + S (length L) <= 29)%nat) as [Hd|Hd].
  - rewrite decide_True by lia. destruct IH as (s' & E' & G' & H'). exists s'. rewrite (bind_ok _ _ _ _ _ E1). auto.
  - rewrite decide_False by lia. intros _. rewrite (bind_ok _ _ _ _ _ E1). apply IH. lia.
Qed.

Lemma logging_on s L p : logging s L -> logging (set_k_cur (Some p) s) L.
Proof.
  intros [[T1 T2 T3 T4 T5 T6] Ho Hs Hb]. split; try done. apply txn_intro; [destruct T1; by split|by apply (log_inv_same s)|done|done].
Qed.
Lemma begin_on s p k : txn s [] -> l_committing (k_log s) = false -> lh_n (k_log s) = 0 -> l_outstanding (k_log s) = k -> 0 <= k <= 2 ->
  let s' := set_k_log (set_l_outstanding (k + 1) (k_log s)) (set_k_cur (Some p) s) in on p begin_op s = Ok tt s' /\ txn s' [].
Proof.
  intros T Hc Hn Ho Hk s'. split.
  - unfold on, begin_op. rewrite (bind_ok _ _ s tt (set_k_cur (Some p) s)) by done. rewrite (bind_ok _ _ _ (k_log s) (set_k_cur (Some p) s)) by done.
    rewrite Hc, Hn, Ho, (proj2 (Z.ltb_ge _ _)) by (unfold LOGSIZE, MAXOPBLOCKS; lia). unfold upd_log, modify. cbn. by rewrite ?Ho.
  - destruct T as [T1 T2 T3 T4 T5 T6]. apply txn_intro; [destruct T1; by split|by apply (log_inv_same s)|done|done].
Qed.

(** The three operations begin, whatever the state. *)
Lemma three_begin s p q r :
  txn s [] -> log_idle s -> l_size (k_log s) = LOGSIZE ->
  exists s', (forall m : kM unit, (on p begin_op;; on q begin_op;; on r begin_op;; m) s = m s') /\ logging s' [] /\ (forall n, home_ok (k_log s) n -> home_ok (k_log s') n).
Proof.
  intros T (Hc & Ho & Hn) Hs. destruct (begin_on s p 0 T Hc Hn Ho ltac:(lia)) as [E1 T1]. set (s1 := set_k_log _ _) in *.
  destruct (begin_on s1 q 1 T1 Hc Hn eq_refl ltac:(lia)) as [E2 T2]. set (s2 := set_k_log _ (set_k_cur (Some q) s1)) in *.
  destruct (begin_on s2 r 2 T2 Hc Hn eq_refl ltac:(lia)) as [E3 T3]. set (s3 := set_k_log _ (set_k_cur (Some r) s2)) in *.
  exists s3. split_and!; [intros m; by rewrite (bind_ok _ _ _ _ _ E1), (bind_ok _ _ _ _ _ E2), (bind_ok _ _ _ _ _ E3)| |done].
  split; [done|cbn; lia|done|]. intros n. unfold logged. cbn. by rewrite Hn.
Qed.

(** C19. The log that mkfs makes is one block short of what begin_op promises.
    Three processes begin an operation each on an idle log of LOGSIZE blocks, and
    each clears blocks with bzero, no more than MAXOPBLOCKS of them and all
    different, while the others wait.  This returns unless all three use up what
    they are allowed; then the last log_write panics. *)
Theorem mkfs_log_one_short s p q r xs ys zs :
  txn s [] -> log_idle s -> l_size (k_log s) = LOGSIZE ->
  Forall (fun ns => Z.of_nat (length ns) <= MAXOPBLOCKS) [xs; ys; zs] -> NoDup (xs ++ ys ++ zs) -> Forall (home_ok (k_log s)) (xs ++ ys ++ zs) ->
  if decide (Z.of_nat (length (xs ++ ys ++ zs)) = 3 * MAXOPBLOCKS) then three_ops p q r xs ys zs s = Panic "too big a transaction"
  else exists s', three_ops p q r xs ys zs s = Ok tt s'.
Proof.
  intros T Hi Hs Hlen Hnd Hh. rewrite !Forall_cons in Hlen. destruct Hlen as (Hx & Hy & Hz & _). unfold MAXOPBLOCKS in *.
  destruct (three_begin s p q r T Hi Hs) as (s0 & E0 & G0 & H0). rewrite !Forall_app in Hh. destruct Hh as (Hhx & Hhy & Hhz). rewrite !length_app.
  assert (Hnd' : NoDup (rev zs ++ rev ys ++ rev xs ++ [])) by (rewrite app_nil_r, <- !rev_app_distr, <- app_assoc, <- Permutation_rev; done).
  pose proof Hnd' as (_ & _ & Hnd2)%list.NoDup_app. pose proof Hnd2 as (_ & _ & Hnd3)%list.NoDup_app.
  unfold three_ops. rewrite E0. set (s1 := set_k_cur (Some p) s0).
  pose proof (bzero_all_logs xs s1 [] (logging_on _ _ p G0) Hnd3 (Forall_impl _ _ _ Hhx H0)) as D. rewrite decide_True in D by (cbn [length]; lia). destruct D as (s2 & E2 & G2 & H2).
  set (s3 := set_k_cur (Some q) s2).
  pose proof (bzero_all_logs ys s3 _ (logging_on _ _ q G2) Hnd2 (Forall_impl _ _ _ Hhy (fun n Hn => H2 n (H0 n Hn)))) as D. rewrite length_app, length_rev in D. cbn [length] in D.
  rewrite decide_True in D by lia. destruct D as (s4 & E4 & G4 & H4). set (s5 := set_k_cur (Some r) s4).
  pose proof (bzero_all_logs zs s5 _ (logging_on _ _ r G4) Hnd' (Forall_impl _ _ _ Hhz (fun n Hn => H4 n (H2 n (H0 n Hn))))) as D. rewrite !length_app, !length_rev in D. cbn [length] in D.
  rewrite (bind_ok _ _ s0 tt s2) by (unfold on; by rewrite (bind_ok _ _ s0 tt s1)). rewrite (bind_ok _ _ s2 tt s4) by (unfold on; by rewrite (bind_ok _ _ s2 tt s3)).
  unfold on. rewrite (bind_ok _ _ s4 tt s5) by done. destruct (decide (_ = 3 * 10)) as [Hd|Hd].
  - rewrite decide_False in D by lia. apply D. lia.
  - rewrite decide_True in D by lia. destruct D as (s6 & E6 & _). by exists s6.
Qed.
