(* ===== verification/FsBoot.v ===== *)
(** * A file system in memory

    A machine with a small file system, in an operation, on which the theorems
    on files are evaluated: a file of 600 bytes in blocks 60 and 61. *)

From S2P Require Import Prelude State Sleep Ide Bio BioSpec Log LogSpec LogRun LogCrash LogOps Boot Console Fs FsTxn FsAlloc FsMap FsFile FsData File FsProps.
Open Scope Z_scope.

(** The layout mkfs gives a disk of 1000 blocks: the bit map is block 58. *)
Definition sb1 : superblock := mkSuperblock 1000 941 200 30 2 32 58.
(** Blocks 0 to 61 are in use. *)
Definition bitmap1 : block := replicate 7 255 ++ [63] ++ replicate 504 0.
Definition disk1 : gmap (Z * Z) block :=
  <[(ROOTDEV, 58) := bitmap1]> (<[(ROOTDEV, 60) := replicate 512 97]> (<[(ROOTDEV, 61) := replicate 512 98]> ∅)).
Definition inode1 : inode :=
  mkInode ROOTDEV 5 1 (mkSleeplock true 0) true T_FILE 0 0 1 600 ([60; 61] ++ replicate 11 0).
Definition fs_machine : kernel :=
  set_k_icache (inode1 :: replicate 49 inhabitant) (set_k_sb sb1 (machine bcache0 log_open disk1)).

Lemma disk1_ok : disk_ok disk1.
Proof.
  assert (H : forall n b, is_byte b -> bytes (replicate n b)) by (intros; by apply bytes_replicate).
  intros dev bno. unfold dget, disk1.
  repeat (rewrite lookup_insert; case_decide; cbn [default]).
  - split; [done|]. apply Forall_app; split; [apply H; unfold is_byte; lia|].
    apply Forall_app; split; [constructor; [unfold is_byte; lia|constructor]|apply H; unfold is_byte; lia].
  - split; [done|]. apply H. unfold is_byte. lia.
  - split; [done|]. apply H. unfold is_byte. lia.
  - rewrite lookup_empty. apply zero_block_ok.
Qed.

Lemma fs_machine_txn : txn fs_machine [].
Proof.
  assert (G : lgeom log_open) by (split; done). apply txn_icache, txn_sb, txn_intro.
  - exact (boot_inv bcache0 log_open disk1 bcache0_some_lru bcache0_fresh disk1_ok).
  - exact (boot_log bcache0 log_open disk1 bcache0_fresh G eq_refl).
  - discriminate.
  - exact (boot_held bcache0 log_open disk1 bcache0_fresh).
Qed.

Definition view1 (n : Z) : block := dget disk1 ROOTDEV n.

Lemma fs_machine_view n : fsview fs_machine n = view1 n.
Proof.
  apply view_miss. intros i Hi _. change (k_bcache fs_machine) with bcache0. destruct (bcache0_fresh i Hi) as (E & _).
  unfold bvalid. by rewrite E.
Qed.

Lemma fs_machine_bitmap : bitmap fs_machine = bitmap1.
Proof. unfold bitmap. rewrite fs_machine_view. reflexivity. Qed.

Lemma bitmap1_bits b : 0 <= b < 1000 -> bused bitmap1 b = (b <? 62).
Proof.
  intros Hb. pose proof (range_forallb (fun b => Bool.eqb (bused bitmap1 b) (b <? 62)) 1000 ltac:(vm_compute; reflexivity) b Hb) as H.
  by apply Bool.eqb_prop in H.
Qed.

Lemma fs_machine_bitmap_ok : bitmap_ok fs_machine.
Proof.
  assert (Hh : forall b, 0 <= b < 1000 -> b < 2 \/ 32 <= b -> home_ok (k_log fs_machine) b) by (intros b ? ?; split; [unfold FSSIZE; lia|cbn; lia]).
  split; change (k_sb fs_machine) with sb1; cbn [sb_size sb_bmapstart sb1].
  - unfold FSSIZE. lia.
  - apply Hh; lia.
  - apply fsview_ok, fs_machine_txn.
  - intros b Hb Hu. rewrite fs_machine_view in Hu. change (view1 58) with bitmap1 in Hu. rewrite bitmap1_bits in Hu by done.
    apply Z.ltb_ge in Hu. split; [apply Hh; lia|lia].
Qed.

Lemma inode1_addr V m : 0 <= m < MAXFILE -> faddr V inode1 m = if m =? 0 then 60 else if m =? 1 then 61 else 0.
Proof.
  intros Hm. unfold faddr. change (ind inode1) with 0. cbn [Z.eqb]. unfold NDIRECT. destruct (Z.ltb_spec m 12); [|zcases].
  pose proof (range_forallb (fun m => nthz (i_addrs inode1) m =? if m =? 0 then 60 else if m =? 1 then 61 else 0) 12 eq_refl m) as H1.
  apply Z.eqb_eq. apply H1. lia.
Qed.

Lemma fs_machine_file : file_in fs_machine inode1 /\ sized (fsview fs_machine) inode1.
Proof.
  assert (Hd : forall a, a = 60 \/ a = 61 -> data_block fs_machine 5 a).
  { intros a Ha. split; try (rewrite fs_machine_bitmap); change (k_sb fs_machine) with sb1; cbn [sb_size sb_bmapstart sb1].
    - split; [unfold FSSIZE; lia|cbn; lia].
    - lia.
    - rewrite bitmap1_bits by lia. apply Z.ltb_lt. lia.
    - lia.
    - change (IBLOCK 5 sb1) with 32. lia. }
  assert (Hn : forall b, 0 <= b < 62 -> ~ is_free fs_machine b).
  { intros b Hb [_ Hu]. rewrite fs_machine_bitmap, bitmap1_bits in Hu by lia. apply Z.ltb_ge in Hu. lia. }
  split.
  - split; try done.
    + split; [done|done| |].
      * intros m Hm. rewrite inode1_addr by done. change (ind inode1) with 0. intros Hz. split; [apply Hd; zcases|done].
      * intros m m' Hm Hm'. rewrite !inode1_addr by done. zcases.
    + change (IBLOCK (i_inum inode1) (k_sb fs_machine)) with 32. split; [unfold FSSIZE; lia|cbn; lia].
    + change (IBLOCK (i_inum inode1) (k_sb fs_machine)) with 32. apply Hn. lia.
    + apply Hn. lia.
  - split; [rewrite MAXFILE_eq; unfold BSIZE; cbn; lia|]. intros i Hi. cbn in Hi. rewrite inode1_addr by (rewrite MAXFILE_eq; unfold BSIZE; zlia).
    unfold BSIZE. destruct (Z.eqb_spec (i / 512) 0); [done|]. destruct (Z.eqb_spec (i / 512) 1); [done|]. zlia.
Qed.

Lemma fs_machine_nfree : nfree fs_machine = 938%nat.
Proof. unfold nfree. rewrite fs_machine_bitmap. change (k_sb fs_machine) with sb1. vm_compute. reflexivity. Qed.

Lemma fs_machine_contents : fbytes (fsview fs_machine) inode1 0 600 = replicate 512 97 ++ replicate 88 98.
Proof.
  rewrite (fbytes_ext _ _ view1 inode1) by (intros; apply fbyte_ext, fs_machine_view). vm_compute. reflexivity.
Qed.

Lemma fs_machine_log : k_log fs_machine = log_open.
Proof. reflexivity. Qed.
Lemma fs_machine_inode : inode_at fs_machine 0 = inode1.
Proof. reflexivity. Qed.
Lemma fs_machine_sb : k_sb fs_machine = sb1.
Proof. reflexivity. Qed.
Lemma fs_machine_icache : (0 < length (k_icache fs_machine))%nat.
Proof. cbn. lia. Qed.

(** The first free block is block 62. *)
Lemma balloc_takes_free_witness : exists s', balloc ROOTDEV fs_machine = Ok 62 s' /\ fsview s' 62 = zero_block.
Proof.
  assert (Hf : forall b, 0 <= b < 1000 -> is_free fs_machine b <-> 62 <= b).
  { intros b Hb. unfold is_free. rewrite fs_machine_bitmap, fs_machine_sb, bitmap1_bits by done. cbn. rewrite Z.ltb_ge. lia. }
  destruct (balloc_takes_free fs_machine [] fs_machine_txn) as [(b & s' & E & Hb & Hj & _ & _ & Hz & _)|[Hno _]].
  - rewrite fs_machine_log. cbn. lia.
  - exact fs_machine_bitmap_ok.
  - intros n Hn. destruct (not_elem_of_nil n Hn).
  - rewrite fs_machine_log. unfold NBUF. cbn. lia.
  - rewrite fs_machine_log. cbn. lia.
  - assert (b = 62) as ->.
    { destruct Hb as [Hr Hu]. rewrite fs_machine_sb in Hr. cbn in Hr. assert (62 <= b) by (apply Hf; [lia|split; [rewrite fs_machine_sb; cbn; lia|exact Hu]]).
      destruct (decide (b = 62)); [assumption|]. exfalso. apply (Hj 62); [lia|]. apply Hf; lia. }
    exists s'. split; assumption.
  - exfalso. apply (Hno 62). apply Hf; lia.
Defined.

(** Bytes 500 to 549, over the end of the first block. *)
Lemma readi_reads_witness : exists s', readi 0 500 50 fs_machine = Ok (50, replicate 12 97 ++ replicate 38 98) s'.
Proof.
  destruct fs_machine_file as [F S].
  destruct (readi_reads 0 fs_machine 500 50) as (s' & E & _).
  - exact fs_machine_txn.
  - exact F.
  - exact S.
  - discriminate.
  - lia.
  - lia.
  - exists s'. rewrite E. rewrite fs_machine_inode. change (i_size inode1) with 600. rewrite fs_machine_contents. reflexivity.
Defined.

(** 600 bytes stored from byte 500 on: the file grows to 1100 bytes. *)
Lemma writei_writes_witness : exists s', writei 0 (replicate 600 99 ++ [1; 2]) 500 600 fs_machine = Ok 600 s' /\
  fbytes (fsview s') (inode_at s' 0) 0 1100 = replicate 500 97 ++ replicate 600 99.
Proof.
  destruct fs_machine_file as [F S].
  assert (Hb : bytes (replicate 600 99)) by (apply bytes_replicate; unfold is_byte; lia).
  pose proof (writei_writes 0 fs_machine (replicate 600 99) [1; 2] 500) as H. cbv zeta in H.
  rewrite length_replicate, fs_machine_inode, fs_machine_log, fs_machine_nfree in H.
  change (nblocks 500 (Z.of_nat 600)) with 3 in H. change (i_size inode1) with 600 in H.
  destruct H as (s' & E & Wf & _); [exact fs_machine_txn|cbn; lia|exact fs_machine_bitmap_ok|exact fs_machine_icache|exact F|exact S|discriminate|lia|lia|exact Hb|lia|cbn; lia|].
  exists s'. split; [exact E|]. pose proof (wf_contents _ _ _ _ _ Wf) as Hc. rewrite (wf_size _ _ _ _ _ Wf) in Hc.
  rewrite fs_machine_inode, length_replicate in Hc. change (i_size inode1) with 600 in Hc. change (600 `max` (500 + Z.of_nat 600)) with 1100 in Hc.
  rewrite Hc, fs_machine_contents. vm_compute. reflexivity.
Defined.

(** Processes 0, 1 and 2 clear blocks 100 to 129. *)
Lemma mkfs_log_one_short_witness :
  three_ops 0 1 2 (seqZ 100 10) (seqZ 110 10) (seqZ 120 10) (machine bcache0 log0 ∅) = Panic "too big a transaction".
Proof.
  assert (T : txn (machine bcache0 log0 ∅) []).
  { apply txn_intro; [exact (boot_inv bcache0 log0 ∅ bcache0_some_lru bcache0_fresh disk_ok_empty)|exact (boot_log bcache0 log0 ∅ bcache0_fresh log0_geom eq_refl)|discriminate|exact (boot_held bcache0 log0 ∅ bcache0_fresh)]. }
  assert (El : k_log (machine bcache0 log0 ∅) = log0) by reflexivity. set (s := machine bcache0 log0 ∅) in *. clearbody s.
  apply (mkfs_log_one_short s 0 1 2 (seqZ 100 10) (seqZ 110 10) (seqZ 120 10) T); [unfold log_idle; rewrite El; split_and!; reflexivity|rewrite El; reflexivity|repeat constructor; discriminate| |rewrite El].
  - change (NoDup (seqZ 100 30)). apply NoDup_seqZ.
  - change (Forall (home_ok log0) (seqZ 100 30)). apply Forall_seqZ. intros n Hn. split; [unfold FSSIZE; lia|cbn; lia].
Defined.
