(* ===== verification/DirProps.v ===== *)
(** * Directories and paths

    A directory is the list of the entries of 16 bytes in its file; [dir_find]
    is the entry of a name.  dirlookup finds it, dirlink adds to it; skipelem
    takes a path apart. *)

From S2P Require Import Prelude State CString Sleep Ide Bio BioSpec Log LogSpec LogRun LogCrash LogOps Boot Console Fs FsFile FsTxn FsAlloc FsMap FsData FsProps FsBoot.
Open Scope Z_scope.

(** ** The entries of a directory *)

(** The name in a buffer: up to the first NUL, at most DIRSIZ bytes. *)
Definition dname (l : list Z) : list Z := cstr (ptr_list l) DIRSIZ.

(** Entry [k] of the contents [C]. *)
Definition dirent (C : list Z) (k : nat) : list Z := slice C (16 * k) 16.
Definition named (name de : list Z) : bool := negb (de_inum de =? 0) && bool_decide (dname (de_name de) = dname name).

(** The first entry for a name: its index and inode number. *)
Definition dir_find (name C : list Z) : option (nat * Z) :=
  match find (fun k => named name (dirent C k)) (seq 0 (length C / 16)) with
  | Some k => Some (k, de_inum (dirent C k))
  | None => None
  end.

(** Inode [x] in slot [ip] is a directory with the contents [C]. *)
Record is_dir (s : kernel) (ip : nat) (x : inode) (C : list Z) : Prop := mkIsDir {
  id_txn : txn s [];
  id_inode : inode_at s ip = x;
  id_file : file_in s x;
  id_sized : sized (fsview s) x;
  id_type : i_type x = T_DIR;
  id_size : i_size x = 16 * Z.of_nat (length C / 16);
  id_contents : fbytes (fsview s) x 0 (i_size x) = C }.

Lemma dir_is_file s ip x C : is_dir s ip x C -> is_file s ip x C.
Proof. intros [D1 D2 D3 D4 D5 D6 D7]. split; try done. by rewrite D5. Qed.

Section dir.
Context (s : kernel) (ip : nat) (x : inode) (C : list Z) (D : is_dir s ip x C).

Lemma dir_length : length C = (16 * (length C / 16))%nat.
Proof using D.
  pose proof (id_contents _ _ _ _ D) as E. apply (f_equal length) in E. rewrite length_fbytes, (id_size _ _ _ _ D) in E. lia.
Qed.

Lemma dir_max : 16 * Z.of_nat (length C / 16) <= 71680.
Proof using D. pose proof (id_sized _ _ _ _ D) as [[_ H] _]. rewrite (id_size _ _ _ _ D) in H. rewrite MAXFILE_eq in H. unfold BSIZE in H. lia. Qed.

Lemma is_dir_same s' : txn s' [] -> fsstep None s s' [] -> is_dir s' ip x C.
Proof using D.
  intros T S. destruct (is_file_same s s' ip x C (dir_is_file _ _ _ _ D) T S) as [F1 F2 F3 F4 F5 F6]. destruct D. by split.
Qed.

(** Reading one entry. *)
Lemma read_dirent k : (k < length C / 16)%nat ->
  exists s', readi ip (16 * Z.of_nat k) DIRENT_SIZE s = Ok (DIRENT_SIZE, dirent C k) s' /\ is_dir s' ip x C /\ fsstep None s s' [].
Proof using D.
  intros Hk. pose proof dir_max as Hm. pose proof (id_size _ _ _ _ D) as Hs. pose proof (id_inode _ _ _ _ D) as Hx.
  destruct (readi_spec ip s (16 * Z.of_nat k) DIRENT_SIZE) as (s' & E & T & S); rewrite ?Hx.
  1-3: apply D. 1: rewrite (id_type _ _ _ _ D); done. 1: lia. 1: unfold DIRENT_SIZE; lia.
  rewrite Hx, Hs in E. unfold DIRENT_SIZE in E |- *. rewrite (proj2 (Z.ltb_ge _ _)), (proj2 (Z.leb_gt _ _)) in E by lia. cbn [orb] in E.
  replace (16 `min` _) with 16 in E by lia. exists s'. split_and!; [|by apply is_dir_same|done]. rewrite E. do 2 f_equal.
  unfold dirent. rewrite <- (id_contents _ _ _ _ D) at 1. rewrite Hs.
  replace (16 * Z.of_nat (length C / 16)) with (16 * Z.of_nat k + (16 + (16 * Z.of_nat (length C / 16) - 16 * Z.of_nat k - 16))) by lia.
  rewrite !fbytes_app by lia. unfold slice. rewrite drop_app_length' by (rewrite length_fbytes; lia).
  rewrite take_app_length' by (by rewrite length_fbytes). done.
Qed.
End dir.

(** ** dirlookup *)

Lemma bytes_dirent s ip x C k : is_dir s ip x C -> bytes (dirent C k).
Proof. intros D. apply Forall_take, Forall_drop. eapply is_file_bytes, dir_is_file, D. Qed.

Lemma namecmp_named name nm : bytes name -> bytes nm -> (namecmp name nm =? 0) = bool_decide (dname nm = dname name).
Proof.
  intros Hn Hm. unfold namecmp, strncmp.
  pose proof (strncmp_from_eq (ptr_list name) (ptr_list nm) DIRSIZ (ptr_list_bytes _ Hn) (ptr_list_bytes _ Hm) 0) as H.
  destruct (Z.eqb_spec (strncmp_from (ptr_list name) (ptr_list nm) 0 DIRSIZ) 0) as [E|E].
  - rewrite bool_decide_true; [done|]. symmetry. by apply H.
  - rewrite bool_decide_false; [done|]. intros Hd. apply E, H. symmetry. exact Hd.
Qed.

Lemma dirlookup_from_spec name ip x C n : bytes name -> forall s k fuel,
  is_dir s ip x C -> (k + n = length C / 16)%nat -> (n < fuel)%nat ->
  exists s1, is_dir s1 ip x C /\ fsstep None s s1 [] /\
    dirlookup_from ip name (16 * Z.of_nat k) fuel s =
    match find (fun k => named name (dirent C k)) (seq k n) with
    | None => Ok None s1
    | Some j => (i ← iget ROOTDEV (de_inum (dirent C j)); mret (Some (i, 16 * Z.of_nat j))) s1
    end.
Proof.
  intros Hn. induction n as [|n IH]; intros s k fuel D Hk Hf; destruct fuel as [|fuel]; try lia; cbn [dirlookup_from].
  - pose proof (id_inode _ _ _ _ D) as Hx. rewrite (bind_ok _ _ s x s) by (by rewrite <- Hx).
    rewrite (proj2 (Z.ltb_ge _ _)) by (rewrite (id_size _ _ _ _ D); lia). exists s. split_and!; [done|apply fsstep_refl|done].
  - pose proof (id_inode _ _ _ _ D) as Hx. rewrite (bind_ok _ _ s x s) by (by rewrite <- Hx).
    rewrite (proj2 (Z.ltb_lt _ _)) by (rewrite (id_size _ _ _ _ D); lia).
    destruct (read_dirent s ip x C D k ltac:(lia)) as (s1 & E1 & D1 & S1). rewrite (bind_ok _ _ _ _ _ E1).
    cbn [fst snd]. rewrite Z.eqb_refl. cbn [negb]. rewrite (bind_ok _ _ s1 tt s1) by done.
    pose proof (dir_max _ _ _ _ D) as Hm.
    rewrite u32_small by (unfold DIRENT_SIZE; lia).
    replace (16 * Z.of_nat k + DIRENT_SIZE) with (16 * Z.of_nat (S k)) by (unfold DIRENT_SIZE; lia).
    destruct (IH s1 (S k) fuel D1 ltac:(lia) ltac:(lia)) as (s2 & D2 & S2 & E2).
    assert (S12 : fsstep None s s2 []) by (apply (fsstep_trans None s s1 s2 [] [] S1 S2)).
    cbn [find seq]. unfold named at 1. rewrite namecmp_named; [|done|unfold de_name; apply Forall_drop; by eapply bytes_dirent].
    destruct (de_inum (dirent C k) =? 0); cbn [negb andb]; [by exists s2|].
    case_bool_decide; [|by exists s2]. exists s1. split_and!; [done|done|]. by rewrite (fi_dev (id_file _ _ _ _ D)).
Qed.

(** iget returns a slot for the inode, or panics when there is none. *)
Lemma iget_spec dev inum s : length (k_icache s) = NINODE ->
  (exists i s', iget dev inum s = Ok i s' /\ (i < NINODE)%nat /\ i_dev (inode_at s' i) = dev /\ i_inum (inode_at s' i) = inum /\
     (1 <= i_ref (inode_at s' i)) /\ s' = set_k_icache (k_icache s') s /\ forall j, j <> i -> inode_at s' j = inode_at s j) \/
  (iget dev inum s = Panic "iget: no inodes" /\
     forall i, (i < NINODE)%nat -> i_ref (inode_at s i) <> 0 /\ icached dev inum (inode_at s i) = false).
Proof.
  intros Hl. unfold iget. rewrite (bind_ok _ _ s (k_icache s) s) by done.
  assert (Hin : forall f i, (i < NINODE)%nat -> alter f i (k_icache s) !!! i = f (k_icache s !!! i)).
  { intros f i Hi. rewrite list_lookup_total_alter, decide_True; [done|]. split; [done|lia]. }
  assert (Hout : forall f i j, j <> i -> alter f i (k_icache s) !!! j = k_icache s !!! j).
  { intros f i j Hj. rewrite list_lookup_total_alter, decide_False; [done|]. intros [? _]. congruence. }
  destruct (find _ _) as [i|] eqn:E1; [|destruct (find (fun i => i_ref _ =? 0) _) as [i|] eqn:E2].
  - left. apply find_seq_some in E1 as (Hi & Hc & _). unfold icached in Hc. apply andb_true_iff in Hc as [[Hr Hd]%andb_true_iff Hn].
    exists i. eexists. split; [reflexivity|]. cbn. unfold inode_at. ksimpl. rewrite Hin by lia. cbn. split_and!; try lia; try done. intros j. apply Hout.
  - left. apply find_seq_some in E2 as (Hi & _ & _).
    exists i. eexists. split; [reflexivity|]. cbn. unfold inode_at. ksimpl. rewrite Hin by lia. cbn. split_and!; try lia; try done. intros j. apply Hout.
  - right. split; [done|]. intros i Hi. apply (find_seq_none _ _ _ i) in E1, E2; try lia. cbv beta in E1, E2. unfold inode_at. split; [lia|done].
Qed.

(** dirlookup, up to the iget of the inode it finds. *)
Lemma dirlookup_run s ip x C name :
  is_dir s ip x C -> bytes name ->
  exists s1, is_dir s1 ip x C /\ fsstep None s s1 [] /\
    dirlookup ip name s =
    match dir_find name C with
    | None => Ok None s1
    | Some (k, inum) => (i ← iget ROOTDEV inum; mret (Some (i, 16 * Z.of_nat k))) s1
    end.
Proof.
  intros D Hn. pose proof (id_inode _ _ _ _ D) as Hx. pose proof (id_size _ _ _ _ D) as Hs.
  assert (Hq : 0 <= Z.of_nat (length C / 16)) by lia.
  destruct (dirlookup_from_spec name ip x C (length C / 16) Hn s 0 (Z.to_nat (i_size x / DIRENT_SIZE + 1)) D) as (s1 & D1 & S1 & E1).
  { lia. } { rewrite Hs. unfold DIRENT_SIZE. zlia. }
  exists s1. split_and!; [done|done|]. unfold dirlookup. rewrite (bind_ok _ _ s x s) by (by rewrite <- Hx).
  rewrite (id_type _ _ _ _ D). rewrite (bind_ok _ _ s tt s) by done. change 0 with (16 * Z.of_nat 0). rewrite E1.
  unfold dir_find. by destruct (find _ _).
Qed.

(** C24. dirlookup finds names.  For a directory, with the log in a consistent
    state: it returns nothing when no entry has the name, and otherwise the
    offset of the first entry that has it with a cached inode for its inode
    number, or panics when the inode cache is full.  (Names are compared up to
    their NUL and to DIRSIZ bytes.)  No block changes, and no other slot of the
    inode cache. *)
Theorem dirlookup_finds s ip x C name :
  is_dir s ip x C -> bytes name -> length (k_icache s) = NINODE ->
  match dir_find name C with
  | None => exists s', dirlookup ip name s = Ok None s' /\ is_dir s' ip x C /\ fsstep None s s' []
  | Some (k, inum) =>
    (exists i s', dirlookup ip name s = Ok (Some (i, 16 * Z.of_nat k)) s' /\ (i < NINODE)%nat /\
       i_dev (inode_at s' i) = ROOTDEV /\ i_inum (inode_at s' i) = inum /\ 1 <= i_ref (inode_at s' i) /\
       (forall j, j <> i -> inode_at s' j = inode_at s j) /\ forall b, fsview s' b = fsview s b) \/
    (dirlookup ip name s = Panic "iget: no inodes" /\
       forall i, (i < NINODE)%nat -> i_ref (inode_at s i) <> 0 /\ icached ROOTDEV inum (inode_at s i) = false)
  end.
Proof.
  intros D Hn Hl. destruct (dirlookup_run s ip x C name D Hn) as (s1 & D1 & S1 & E1).
  rewrite E1. destruct (dir_find name C) as [[k inum]|]; [|by exists s1].
  assert (Hc : forall j, inode_at s1 j = inode_at s j) by (intros j; by apply (fs_icache S1)).
  destruct (iget_spec ROOTDEV inum s1) as [(i & s2 & E2 & Hi & Hd & Hin & Hr & Hs2 & Ho)|[E2 Hno]].
  { rewrite (fs_ninodes S1). done. }
  - left. exists i, s2. rewrite (bind_ok _ _ _ _ _ E2). split_and!; try done.
    + intros j Hj. by rewrite (Ho j Hj), Hc.
    + intros b. rewrite Hs2. transitivity (fsview s1 b); [done|]. apply (fs_view S1).
  - right. unfold mbind, M_bind. rewrite E2. split; [done|]. intros i Hi. rewrite <- Hc. by apply Hno.
Qed.

(** ** dirlink *)

(** The first free entry, or the end. *)
Definition dir_slot (C : list Z) : nat :=
  default (length C / 16)%nat (find (fun k => de_inum (dirent C k) =? 0) (seq 0 (length C / 16))).

Lemma dir_slot_le C : (dir_slot C <= length C / 16)%nat.
Proof.
  unfold dir_slot. generalize (length C / 16)%nat as n. intros n.
  destruct (find _ _) as [j|] eqn:E; [|done]. apply find_seq_some in E as (Hj & _). simpl. lia.
Qed.

Lemma dirlink_slot_spec ip x C n : forall s k fuel,
  is_dir s ip x C -> (k + n = length C / 16)%nat -> (n < fuel)%nat ->
  exists s1, is_dir s1 ip x C /\ fsstep None s s1 [] /\
    dirlink_slot ip (16 * Z.of_nat k) fuel s =
    Ok (16 * Z.of_nat (default (k + n)%nat (find (fun k => de_inum (dirent C k) =? 0) (seq k n)))) s1.
Proof.
  induction n as [|n IH]; intros s k fuel D Hk Hf; destruct fuel as [|fuel]; try lia; cbn [dirlink_slot];
    pose proof (id_inode _ _ _ _ D) as Hx; rewrite (bind_ok _ _ s x s) by (by rewrite <- Hx).
  - rewrite (proj2 (Z.ltb_ge _ _)) by (rewrite (id_size _ _ _ _ D); lia). exists s. split_and!; [done|apply fsstep_refl|].
    cbn. by rewrite Nat.add_0_r.
  - rewrite (proj2 (Z.ltb_lt _ _)) by (rewrite (id_size _ _ _ _ D); lia).
    destruct (read_dirent s ip x C D k ltac:(lia)) as (s1 & E1 & D1 & S1). rewrite (bind_ok _ _ _ _ _ E1).
    cbn [fst snd]. rewrite Z.eqb_refl. cbn [negb]. rewrite (bind_ok _ _ s1 tt s1) by done. cbn [find seq].
    destruct (de_inum (dirent C k) =? 0); [by exists s1|].
    replace (16 * Z.of_nat k + DIRENT_SIZE) with (16 * Z.of_nat (S k)) by (unfold DIRENT_SIZE; lia).
    destruct (IH s1 (S k) fuel D1 ltac:(lia) ltac:(lia)) as (s2 & D2 & S2 & E2).
    exists s2. split_and!; [done|apply (fsstep_trans None s s1 s2 [] [] S1 S2)|]. rewrite E2.
    by replace (k + S n)%nat with (S k + n)%nat by lia.
Qed.

(** The contents with an entry put at index [k]. *)
Lemma dirent_splice C k de j :
  length de = 16%nat -> (16 * k <= length C)%nat -> dirent (splice C (16 * k) de) j = if decide (j = k) then de else dirent C j.
Proof.
  intros Hd Hk. unfold dirent, slice. apply list_eq. intros i. destruct (decide (i < 16)%nat).
  - rewrite lookup_take_lt, lookup_drop by lia. case_decide as Hj.
    + subst j. unfold splice. rewrite lookup_app_r by (rewrite length_take; lia). rewrite length_take, lookup_app_l by lia. f_equal. lia.
    + rewrite lookup_take_lt, lookup_drop by lia. unfold splice. destruct (decide (j < k)%nat).
      * rewrite lookup_app_l by (rewrite length_take; lia). by rewrite lookup_take_lt by lia.
      * rewrite lookup_app_r by (rewrite length_take; lia). rewrite length_take, lookup_app_r, lookup_drop by lia. f_equal. lia.
  - rewrite lookup_take_ge by lia. case_decide; [by rewrite lookup_ge_None_2 by lia|by rewrite lookup_take_ge by lia].
Qed.

Lemma length_splice_slot C k (de : list Z) :
  length de = 16%nat -> length C = (16 * (length C / 16))%nat -> (k <= length C / 16)%nat ->
  (length (splice C (16 * k) de) = 16 * Nat.max (length C / 16) (S k))%nat.
Proof. intros Hd Hc Hk. unfold splice. rewrite !length_app, length_take, length_drop. lia. Qed.

Lemma find_app {A} (f : A -> bool) l1 l2 : find f (l1 ++ l2) = match find f l1 with Some x => Some x | None => find f l2 end.
Proof. induction l1 as [|x l1 IH]; cbn; [done|]. by destruct (f x). Qed.

Lemma find_seq_ext (f g : nat -> bool) i n : (forall k, (i <= k < i + n)%nat -> f k = g k) -> find f (seq i n) = find g (seq i n).
Proof.
  revert i. induction n as [|n IH]; intros i H; cbn; [done|]. rewrite <- (H i) by lia. destruct (f i); [done|]. apply IH. intros. apply H. lia.
Qed.

Lemma find_seq_first (f : nat -> bool) n k : (k < n)%nat -> f k = true -> (forall j, (j < k)%nat -> f j = false) -> find f (seq 0 n) = Some k.
Proof.
  intros Hk Hf Hn. replace n with (k + S (n - S k))%nat by lia. rewrite seq_app, find_app. cbn.
  destruct (find f (seq 0 k)) as [j|] eqn:E; [|by rewrite Hf]. apply find_seq_some in E as (Hj & Hj' & _). rewrite Hn in Hj' by lia. done.
Qed.

(** A new entry in the free slot changes what is found for its name only. *)
Lemma dir_find_splice C k de name inum nm :
  length C = (16 * (length C / 16))%nat -> k = dir_slot C -> length de = 16%nat -> de_inum de = inum -> inum <> 0 ->
  dname (de_name de) = dname name -> dir_find name C = None ->
  dir_find nm (splice C (16 * k) de) = if decide (dname nm = dname name) then Some (k, inum) else dir_find nm C.
Proof.
  intros HC Hk Hd Hi Hi0 Hn Hnone. set (n := (length C / 16)%nat) in *.
  assert (Hslot : (k < n)%nat /\ de_inum (dirent C k) = 0 \/ k = n).
  { subst k. unfold dir_slot. fold n. destruct (find _ _) as [j|] eqn:E; [left|by right]. apply find_seq_some in E as (Hj & Hj' & _). cbv beta in Hj'. apply Z.eqb_eq in Hj'. simpl. split; [lia|done]. }
  assert (Hold : forall j, (j < n)%nat -> named name (dirent C j) = false).
  { intros j Hj. unfold dir_find in Hnone. fold n in Hnone. destruct (find _ _) as [j'|] eqn:E; [done|]. apply (find_seq_none _ _ _ j E). lia. }
  assert (Hkn : (16 * k <= length C)%nat) by (destruct Hslot as [[? _]| ->]; lia).
  pose proof (length_splice_slot C k de Hd HC) as Hl. fold n in Hl. specialize (Hl ltac:(lia)).
  assert (Hn' : (length (splice C (16 * k) de) / 16 = Nat.max n (S k))%nat).
  { rewrite Hl. rewrite Nat.mul_comm. by apply Nat.div_mul. }
  assert (He : forall j, named nm (dirent (splice C (16 * k) de) j) = if decide (j = k) then named nm de else named nm (dirent C j)).
  { intros j. rewrite dirent_splice by done. by case_decide. }
  assert (Hde : named nm de = bool_decide (dname nm = dname name)).
  { unfold named. rewrite Hi, Hn. rewrite (proj2 (Z.eqb_neq _ _)) by done. cbn. apply bool_decide_ext. split; congruence. }
  unfold dir_find. rewrite Hn'. fold n. case_decide as Hnm.
  - rewrite (find_seq_first _ _ k); [|lia| |].
    + by rewrite dirent_splice, decide_True, Hi by done.
    + rewrite He, decide_True, Hde by done. by apply bool_decide_true.
    + intros j Hj. rewrite He, decide_False by lia. rewrite <- (Hold j) by lia. unfold named. by rewrite Hnm.
  - rewrite bool_decide_false in Hde by done.
    assert (Hf : find (fun j => named nm (dirent (splice C (16 * k) de) j)) (seq 0 n) = find (fun j => named nm (dirent C j)) (seq 0 n)).
    { apply find_seq_ext. intros j Hj. rewrite He. case_decide as Hjk; [|done]. subst j. rewrite Hde.
      destruct Hslot as [[_ E0]| ->]; [|lia]. unfold named. by rewrite E0. }
    assert (Hfs : find (fun j => named nm (dirent (splice C (16 * k) de) j)) (seq 0 (Nat.max n (S k))) = find (fun j => named nm (dirent C j)) (seq 0 n)).
    { destruct Hslot as [[Hlt _]|Hkn']; [by rewrite Nat.max_l by lia|]. rewrite Nat.max_r by lia. rewrite <- Hf, Hkn'. rewrite seq_S, find_app.
      match goal with |- match ?o with _ => _ end = _ => destruct o as [j|]; [reflexivity|] end.
      cbn [find]. rewrite <- Hkn', He, decide_True, Hde by done. reflexivity. }
    rewrite Hfs. clear Hf Hfs Hn' Hl. clearbody n. destruct (find _ _) as [j|] eqn:E; [|reflexivity]. do 2 f_equal.
    rewrite dirent_splice by assumption. rewrite decide_False; [reflexivity|].
    intros ->. apply find_seq_some in E as (Hj & Hj' & _). destruct Hslot as [[_ E0]|E0]; [|lia]. unfold named in Hj'. rewrite E0 in Hj'. discriminate.
Qed.

Section dirlink.
Context (name : list Z) (inum : Z) (Hn : bytes name) (Hi : 0 < inum < 65536).
Let de := enc_dirent inum (strncpy (ptr_list name) DIRSIZ).

Lemma new_dirent : length de = 16%nat /\ bytes de /\ de_inum de = inum /\ dname (de_name de) = dname name.
Proof using All.
  unfold de, enc_dirent, enc16, de_inum, de_name, dname. split_and!.
  - rewrite length_app, length_strncpy. by rewrite length_le_enc.
  - apply Forall_app. split; [apply bytes_le_enc|]. apply bytes_strncpy_from, ptr_list_bytes, Hn.
  - rewrite take_app_length' by (by rewrite length_le_enc). rewrite le_dec_enc. apply Z.mod_small. change (256 ^ Z.of_nat 2) with 65536. lia.
  - rewrite drop_app_length' by (by rewrite length_le_enc). apply cstr_strncpy.
Qed.

(** What dirlink needs of the state besides the directory. *)
Record can_link (s : kernel) (ip : nat) : Prop := mkCanLink {
  cl_op : 1 <= l_outstanding (k_log s);
  cl_bitmap : bitmap_ok s;
  cl_slot : (ip < length (k_icache s))%nat;
  cl_free : (2 <= nfree s)%nat;
  cl_log : lh_n (k_log s) + 6 < l_size (k_log s) }.

Lemma can_link_same s s' ip : txn s [] -> txn s' [] -> fsstep None s s' [] -> can_link s ip -> can_link s' ip.
Proof using.
  intros T T' S [C1 C2 C3 C4 C5]. pose proof (fsstep_bound_len _ _ _ _ _ _ T T' S) as Hl. cbn in Hl.
  pose proof (fs_frame S) as Fr. split.
  - by rewrite (tf_out Fr).
  - eapply bitmap_ok_step; [exact S|set_solver+|done].
  - by rewrite (fs_ninodes S).
  - unfold nfree. rewrite (bitmap_step _ _ _ _ S ltac:(set_solver+)), (tf_sb Fr). done.
  - rewrite (tf_size Fr). lia.
Qed.

Lemma dirlink_run s ip x C :
  is_dir s ip x C -> can_link s ip -> dir_find name C = None ->
  exists s2, is_dir s2 ip x C /\ fsstep None s s2 [] /\ can_link s2 ip /\
    dirlink ip name inum s =
      (r ← writei ip de (16 * Z.of_nat (dir_slot C)) 16; panic_if (negb (r =? 16)) "dirlink";; mret 0) s2.
Proof using Hn.
  intros D L Hnone. destruct (dirlookup_run s ip x C name D Hn) as (s1 & D1 & S1 & E1). rewrite Hnone in E1.
  unfold dirlink. rewrite (bind_ok _ _ _ _ _ E1). rewrite (bind_ok _ _ s1 x s1) by (by rewrite <- (id_inode _ _ _ _ D1)).
  destruct (dirlink_slot_spec ip x C (length C / 16) s1 0 (Z.to_nat (i_size x / DIRENT_SIZE + 1)) D1) as (s2 & D2 & S2 & E2).
  { done. } { rewrite (id_size _ _ _ _ D). unfold DIRENT_SIZE. zlia. }
  pose proof (fsstep_trans None s s1 s2 [] [] S1 S2) as S. change ([] ++ []) with ([] : list (Z * block)) in S.
  exists s2. split_and!; [done|done|apply (can_link_same s s2 ip); try done; [apply D|apply D2]|].
  change 0 with (16 * Z.of_nat 0) at 1. rewrite (bind_ok _ _ _ _ _ E2). done.
Qed.
End dirlink.

(** C25. dirlink adds a name.  For a directory without an entry for the name,
    inside an operation with room in the log and two free blocks: if the
    directory cannot grow any more dirlink panics; otherwise it returns 0, and
    the directory maps the new name to the inode number, in the first free
    entry or a new one at the end, and every other name as before.  No other
    inode and no block in use by another file changes. *)
Theorem dirlink_inserts s ip x C name inum :
  is_dir s ip x C -> can_link s ip -> bytes name -> 0 < inum < 65536 -> dir_find name C = None ->
  let k := dir_slot C in
  if MAXFILE * BSIZE <? 16 * Z.of_nat k + 16 then dirlink ip name inum s = Panic "dirlink"
  else exists s' x' C', dirlink ip name inum s = Ok 0 s' /\ is_dir s' ip x' C' /\
    (forall nm, dir_find nm C' = if decide (dname nm = dname name) then Some (k, inum) else dir_find nm C) /\
    (forall j, j <> ip -> inode_at s' j = inode_at s j) /\
    (forall c, c <> sb_bmapstart (k_sb s) -> c <> IBLOCK (i_inum x) (k_sb s) ->
       ~ is_free s c -> ~ in_file (fsview s) x c -> fsview s' c = fsview s c).
Proof.
  intros D L Hn Hi Hnone k. destruct (new_dirent name inum Hn Hi) as (N1 & N2 & N3 & N4).
  destruct (dirlink_run name inum Hn s ip x C D L Hnone) as (s2 & D2 & S2 & [L1 L2 L3 L4 L5] & ->). fold k.
  set (de := enc_dirent inum (strncpy (ptr_list name) DIRSIZ)) in *.
  pose proof (id_inode _ _ _ _ D2) as Hx. pose proof (id_size _ _ _ _ D2) as Hs. pose proof (dir_length _ _ _ _ D2) as HC. pose proof (dir_max _ _ _ _ D2) as Hm.
  pose proof (dir_slot_le C) as Hk. fold k in Hk.
  assert (Hnb : nblocks (16 * Z.of_nat k) 16 = 1) by (unfold nblocks, BSIZE; cbn; zlia).
  pose proof (writei_spec ip s2 de [] (16 * Z.of_nat k)) as W. cbv zeta in W. rewrite N1, app_nil_r, Hx in W. change (Z.of_nat 16) with 16 in W.
  rewrite Hnb in W. specialize (W (id_txn _ _ _ _ D2) L1 L2 L3 (id_file _ _ _ _ D2) (id_sized _ _ _ _ D2)).
  specialize (W ltac:(by rewrite (id_type _ _ _ _ D2)) ltac:(lia) ltac:(lia) N2 ltac:(lia) ltac:(lia)).
  rewrite Hs, (proj2 (Z.ltb_ge _ _)) in W by lia. cbn [orb] in W. destruct (MAXFILE * BSIZE <? 16 * Z.of_nat k + 16).
  { by rewrite (bind_ok _ _ _ _ _ W). }
  destruct W as (s3 & E3 & W & _). rewrite (bind_ok _ _ _ _ _ E3). rewrite (bind_ok _ _ s3 tt s3) by done.
  pose proof (wf_contents _ _ _ _ _ W) as Hc. rewrite Hx, (id_contents _ _ _ _ D2) in Hc.
  replace (Z.to_nat (16 * Z.of_nat k)) with (16 * k)%nat in Hc by lia.
  exists s3, (inode_at s3 ip), (splice C (16 * k) de). split_and!; [done| | | |].
  - split; [apply (wf_txn _ _ _ _ _ W)|done|apply (wf_file _ _ _ _ _ W)|apply (wf_sized _ _ _ _ _ W)| | |exact Hc].
    { rewrite (proj1 (wf_meta _ _ _ _ _ W)), Hx. apply (id_type _ _ _ _ D2). }
    rewrite (length_splice_slot C k de N1 HC Hk), (wf_size _ _ _ _ _ W), Hx, Hs, N1. rewrite Nat.mul_comm, Nat.div_mul by done. lia.
  - intros nm. apply (dir_find_splice C k de name inum nm); try assumption; [reflexivity|lia].
  - intros j Hj. rewrite (wf_others _ _ _ _ _ W j Hj). by apply (fs_icache S2).
  - intros c H1 H2 H3 H4. pose proof (fs_frame S2) as Fr. rewrite (wf_blocks _ _ _ _ _ W c); rewrite ?Hx, ?(tf_sb Fr); try done.
    + apply (fs_view S2).
    + unfold is_free. rewrite (tf_sb Fr). rewrite (bitmap_step _ _ _ _ S2 ltac:(set_solver+)). done.
    + intros Hin. apply H4. revert Hin. unfold in_file. intros [? [?|(m & Hm1 & Hm2)]]; split; auto. right. exists m. split; [done|].
      rewrite <- Hm2. apply faddr_ext. intros b. symmetry. apply (fs_view S2).
Qed.

(** ** A directory *)

Definition dir1 : inode := set_i_type T_DIR (set_i_size 592 inode1).
Definition dir_machine : kernel := set_k_icache (dir1 :: replicate 49 inhabitant) fs_machine.
Definition contents1 : list Z := replicate 512 97 ++ replicate 80 98.

Lemma dir_machine_dir : is_dir dir_machine 0 dir1 contents1.
Proof.
  destruct fs_machine_file as [[D1 D2 D3 D4 D5 D6] [_ S2]]. split.
  - apply txn_icache. exact fs_machine_txn.
  - reflexivity.
  - split; try done. eapply file_ok_mono; [|split; [apply (fo_len D2)|apply (fo_ind D2)|apply (fo_data D2)|apply (fo_inj D2)]].
    intros c. apply data_block_icache.
  - split; [rewrite MAXFILE_eq; unfold BSIZE; cbn; lia|]. intros i Hi. apply S2. cbn in Hi |- *. lia.
  - reflexivity.
  - reflexivity.
  - rewrite (fbytes_ext _ _ view1 dir1) by (intros; apply fbyte_ext, fs_machine_view). vm_compute. reflexivity.
Qed.

Lemma dirlookup_finds_witness : exists i s', dirlookup 0 (replicate 14 97) dir_machine = Ok (Some (i, 0)) s' /\ i_inum (inode_at s' i) = 24929.
Proof.
  pose proof (dirlookup_finds dir_machine 0 dir1 contents1 (replicate 14 97) dir_machine_dir) as H.
  destruct H as [(i & s' & E & _ & _ & Hi & _)|[_ Hno]].
  - apply bytes_replicate. by unfold is_byte.
  - reflexivity.
  - exists i, s'. split; [exact E|exact Hi].
  - destruct (Hno 1%nat) as [Hr _]; [unfold NINODE; lia|]. by destruct Hr.
Defined.

Lemma dir_machine_link : can_link dir_machine 0.
Proof.
  split; [cbn; lia|apply bitmap_icache, fs_machine_bitmap_ok|cbn; lia| |cbn; lia].
  change (nfree dir_machine) with (nfree fs_machine). rewrite fs_machine_nfree. lia.
Qed.

(** The name x for inode 7, in a new entry at the end. *)
Lemma dirlink_inserts_witness : exists s' x' C', dirlink 0 [120] 7 dir_machine = Ok 0 s' /\ is_dir s' 0 x' C' /\
  dir_find [120] C' = Some (37%nat, 7) /\ dir_find (replicate 14 98) C' = Some (32%nat, 25186).
Proof.
  destruct (dirlink_inserts dir_machine 0 dir1 contents1 [120] 7 dir_machine_dir dir_machine_link) as (s' & x' & C' & E & D & Hf & _).
  - constructor; [by unfold is_byte|constructor].
  - lia.
  - reflexivity.
  - exists s', x', C'. split; [exact E|]. split; [exact D|]. rewrite !Hf. split; reflexivity.
Defined.
