(* ===== verification/Path.v ===== *)
(** * Paths

    namex takes a path apart with skipelem, one element at a time.  The
    elements it gets are those between the slashes. *)

From S2P Require Import Prelude State CString FsFile DirProps.
Open Scope Z_scope.

(** The parts of a path between its slashes, [cur] being the part before it. *)
Fixpoint split_path (cur path : list Z) : list (list Z) :=
  match path with
  | [] => [cur]
  | c :: p => if c =? SLASH then cur :: split_path [] p else split_path (cur ++ [c]) p
  end.
(** The elements: the parts that are not empty. *)
Definition elements (path : list Z) : list (list Z) := filter (fun e => e <> []) (split_path [] path).

(** What the loop of namex gets from skipelem: the names, each with whether it
    is the last one. *)
Fixpoint walk (path name : list Z) (fuel : nat) : option (list (list Z * bool)) :=
  match skipelem path name with
  | None => Some []
  | Some (path', name') =>
    match fuel with
    | O => None
    | S f => l ← walk path' name' f; Some ((dname name', at_end path') :: l)
    end
  end.

(** A list with its last element marked. *)
Fixpoint mark_last {A} (l : list A) : list (A * bool) :=
  match l with
  | [] => []
  | x :: l' => (x, bool_decide (l' = [])) :: mark_last l'
  end.

Definition plain (l : list Z) : Prop := Forall (fun c => c <> 0 /\ c <> SLASH) l.

(** ** The elements *)

Lemma split_path_plain e cur path : plain e -> split_path cur (e ++ path) = split_path (cur ++ e) path.
Proof.
  intros He. revert cur. induction He as [|c e [_ Hc] _ IH]; intros cur; cbn; [by rewrite app_nil_r|].
  rewrite (proj2 (Z.eqb_neq _ _)) by done. rewrite IH. by rewrite <- app_assoc.
Qed.

Lemma elements_slash path : elements (SLASH :: path) = elements path.
Proof. unfold elements. cbn [split_path]. rewrite Z.eqb_refl, filter_cons_False; [done|]. by intros []. Qed.

Lemma elements_skip path : elements (skip_slashes path) = elements path.
Proof.
  induction path as [|c p IH]; [done|]. cbn [skip_slashes]. destruct (Z.eqb_spec c SLASH) as [->|]; [|done].
  by rewrite elements_slash.
Qed.

(** A first element and the rest, which is empty or starts with a slash. *)
Lemma elements_cons e rest :
  plain e -> e <> [] -> (rest = [] \/ exists p, rest = SLASH :: p) -> elements (e ++ rest) = e :: elements rest.
Proof.
  intros He Hne [-> | [p ->]]; unfold elements; rewrite split_path_plain by done; cbn [split_path app].
  - rewrite filter_cons_True by done. by rewrite filter_cons_False by (by intros []).
  - rewrite Z.eqb_refl, filter_cons_True by done. by rewrite filter_cons_False by (by intros []).
Qed.

Lemma skip_slashes_length path : (length (skip_slashes path) <= length path)%nat.
Proof. induction path as [|c p IH]; cbn; [done|]. destruct (c =? SLASH); cbn; lia. Qed.

Lemma skip_slashes_head path : skip_slashes path = [] \/ exists c p, skip_slashes path = c :: p /\ c <> SLASH.
Proof.
  induction path as [|c p IH]; [by left|]. cbn. destruct (Z.eqb_spec c SLASH) as [_|Hc]; [done|]. right. by exists c, p.
Qed.

Lemma skip_slashes_nonul path : Forall (fun c => c <> 0) path -> Forall (fun c => c <> 0) (skip_slashes path).
Proof. unfold bytes. induction 1 as [|c p Hc Hp IH]; cbn; [constructor|]. destruct (c =? SLASH); [done|by constructor]. Qed.

Lemma take_elem_split path : Forall (fun c => c <> 0) path ->
  let '(e, r) := take_elem path in path = e ++ r /\ plain e /\ (r = [] \/ exists p, r = SLASH :: p).
Proof.
  induction 1 as [|c p Hc Hp IH]; cbn; [split_and!; [done|constructor|by left]|].
  destruct (Z.eqb_spec c SLASH) as [->|Hs]; cbn [orb]; [split_and!; [done|constructor|right; by exists p]|].
  rewrite (proj2 (Z.eqb_neq _ _)) by done. destruct (take_elem p) as [e r]. destruct IH as (-> & He & Hr).
  split_and!; [done|constructor; done|done].
Qed.

(** ** The name buffer *)

Lemma cstr_from_list (l rest : list Z) n : forall pre,
  Forall (fun c => c <> 0) l -> (length l = n \/ (length l < n)%nat /\ exists r, rest = 0 :: r) ->
  cstr_from (ptr_list (pre ++ l ++ rest)) (Z.of_nat (length pre)) n = l.
Proof.
  revert n. induction l as [|c l IH]; intros n pre Hl Hn.
  - destruct n as [|n]; [done|]. destruct Hn as [?|[_ (r & ->)]]; [done|]. cbn [cstr_from app]. by rewrite ptr_list_mid.
  - destruct n as [|n]; [cbn in Hn; lia|]. apply Forall_cons in Hl as [Hc Hl]. cbn [cstr_from app]. rewrite ptr_list_mid by done.
    rewrite (proj2 (Z.eqb_neq _ _)) by done. f_equal. rewrite cons_middle, app_assoc.
    replace (Z.of_nat (length pre) + 1) with (Z.of_nat (length (pre ++ [c]))) by (rewrite length_app; cbn; lia).
    apply IH; [done|]. cbn in Hn. destruct Hn as [?|[? ?]]; [left; lia|right; split; [lia|done]].
Qed.

Lemma plain_nonul e : plain e -> Forall (fun c => c <> 0) e.
Proof. intros H. eapply Forall_impl; [exact H|]. by intros c [? _]. Qed.

(** What skipelem leaves in the buffer is the element, cut to DIRSIZ bytes. *)
Lemma dname_buffer name e :
  length name = DIRSIZ -> plain e ->
  let name' := if (DIRSIZ <=? length e)%nat then splice name 0 (take DIRSIZ e) else splice name 0 (e ++ [0]) in
  dname name' = take DIRSIZ e /\ length name' = DIRSIZ.
Proof.
  intros Hl He. destruct (Nat.leb_spec DIRSIZ (length e)) as [Hd|Hd]; cbn zeta.
  - split; [|rewrite length_splice; [done|rewrite length_take; lia]]. unfold dname, cstr, splice.
    rewrite take_0, app_nil_l. change 0 with (Z.of_nat (length (@nil Z))). rewrite <- (app_nil_l (take DIRSIZ e ++ _)).
    apply cstr_from_list; [by apply Forall_take, plain_nonul|left; rewrite length_take; lia].
  - split; [|rewrite length_splice; [done|rewrite length_app; cbn; lia]]. rewrite take_ge by lia. unfold dname, cstr, splice.
    rewrite take_0, app_nil_l, <- app_assoc. change 0 with (Z.of_nat (length (@nil Z))) at 2. rewrite <- (app_nil_l (e ++ _)).
    apply cstr_from_list; [by apply plain_nonul|right; split; [done|by eexists]].
Qed.

(** After a non-empty element there is a next one unless the rest is empty. *)
Lemma elements_head c p : c <> 0 -> c <> SLASH -> Forall (fun c => c <> 0) p -> elements (c :: p) <> [].
Proof.
  intros Hc Hs Hp. assert (Hcp : Forall (fun c => c <> 0) (c :: p)) by (by constructor).
  pose proof (take_elem_split (c :: p) Hcp) as Ht. destruct (take_elem (c :: p)) as [e r]. destruct Ht as (E & He & Hr).
  assert (Hne : e <> []). { intros ->. destruct Hr as [-> | [p' ->]]; cbn in E; [done|]. by injection E. }
  by rewrite E, (elements_cons e r He Hne Hr).
Qed.

Lemma at_end_elements r : Forall (fun c => c <> 0) r -> at_end (skip_slashes r) = bool_decide (elements r = []).
Proof.
  intros Hr. rewrite <- (elements_skip r). pose proof (skip_slashes_nonul r Hr) as Hr'.
  destruct (skip_slashes_head r) as [-> | (c & p & E & Hc)]; [done|]. rewrite E in Hr' |- *. apply Forall_cons in Hr' as [Hc0 Hp].
  rewrite bool_decide_false by (by apply elements_head). cbn. by apply Z.eqb_neq.
Qed.

(** One call of skipelem. *)
Lemma skipelem_spec path name : Forall (fun c => c <> 0) path -> length name = DIRSIZ ->
  match elements path with
  | [] => skipelem path name = None
  | e :: es => plain e /\ exists path' name', skipelem path name = Some (path', name') /\ elements path' = es /\ dname name' = take DIRSIZ e /\
      length name' = DIRSIZ /\ at_end path' = bool_decide (es = []) /\ Forall (fun c => c <> 0) path' /\ (length path' < length path)%nat
  end.
Proof.
  intros Hp Hn. unfold skipelem. rewrite <- (elements_skip path).
  pose proof (skip_slashes_nonul path Hp) as Hp'. pose proof (skip_slashes_length path) as Hl.
  destruct (skip_slashes_head path) as [-> | (c & p & E & Hc)]; [done|]. rewrite E in Hp', Hl |- *.
  assert (c <> 0) as Hc0 by (by inversion Hp'). rewrite (proj2 (Z.eqb_neq _ _)) by done.
  pose proof (take_elem_split (c :: p) Hp') as Ht. destruct (take_elem (c :: p)) as [e r] eqn:Ee. destruct Ht as (Hs & He & Hr).
  assert (Hne : e <> []). { intros ->. destruct Hr as [-> | [p' ->]]; cbn in Hs; [done|]. injection Hs as -> _. done. }
  destruct (dname_buffer name e Hn He) as [Hd Hd']. set (name' := if (DIRSIZ <=? length e)%nat then _ else _) in *.
  pose proof (skip_slashes_length r) as Hlr. pose proof (f_equal length Hs) as Hls. rewrite length_app in Hls.
  assert (length e <> O) by (by destruct e). rewrite Hs in Hp'. apply Forall_app in Hp' as [_ Hnr].
  rewrite Hs, (elements_cons e r He Hne Hr). split; [done|]. exists (skip_slashes r), name'.
  split_and!; [done|apply elements_skip|done|done|by apply at_end_elements|by apply skip_slashes_nonul|]. cbn in Hl, Hls. lia.
Qed.

Lemma skip_slashes_bytes path : bytes path -> bytes (skip_slashes path).
Proof. unfold bytes. induction 1 as [|c p Hc Hp IH]; cbn; [constructor|]. destruct (c =? SLASH); [done|by constructor]. Qed.
Lemma take_elem_bytes path : bytes path -> bytes (take_elem path).1 /\ bytes (take_elem path).2.
Proof.
  unfold bytes. induction 1 as [|c p Hc Hp IH]; cbn; [split; constructor|]. destruct (_ || _); [split; [constructor|by constructor]|].
  destruct (take_elem p) as [e r]. destruct IH as [IH1 IH2]. cbn in IH1, IH2 |- *. split; [by constructor|done].
Qed.
Lemma skipelem_bytes path name path' name' : skipelem path name = Some (path', name') -> bytes path -> bytes name -> bytes path' /\ bytes name'.
Proof.
  intros E Hp Hn. unfold skipelem in E. pose proof (take_elem_bytes _ (skip_slashes_bytes _ Hp)) as [He Hr].
  destruct (skip_slashes path) as [|c p]; [done|]. destruct (c =? 0); [done|]. destruct (take_elem (c :: p)) as [e r]. injection E as <- <-. cbn in He, Hr.
  split; [by apply skip_slashes_bytes|]. match goal with |- bytes (if ?b then _ else _) => destruct b end; apply bytes_splice; try done; [by apply Forall_take|]. apply Forall_app. split; [done|]. repeat constructor; unfold is_byte; lia.
Qed.

(** namex visits the elements of a path.  For a path without NULs, whatever
    was in the name buffer: repeated calls of skipelem end, and give exactly the
    parts of the path between slashes that are not empty, in order, each cut to
    DIRSIZ bytes, and the rest of the path is empty after the last one only, so
    nameiparent stops there. *)
Theorem path_elements path name fuel :
  Forall (fun c => c <> 0) path -> length name = DIRSIZ -> (length path <= fuel)%nat ->
  walk path name fuel = Some ((fun eb => (take DIRSIZ eb.1, eb.2)) <$> mark_last (elements path)).
Proof.
  revert path name. induction fuel as [|fuel IH]; intros path name Hp Hn Hf.
  { destruct path; [done|cbn in Hf; lia]. }
  cbn [walk]. pose proof (skipelem_spec path name Hp Hn) as Hs. destruct (elements path) as [|e es]; [by rewrite Hs|].
  destruct Hs as (_ & path' & name' & -> & Ees & Hd & Hl & Ha & Hp' & Hlt). rewrite IH by (done || lia).
  cbn [mbind option_bind mark_last fmap list_fmap fst snd]. by rewrite Hd, Ha, Ees.
Qed.

(** "//a/bb//" has two elements. *)
Lemma path_elements_witness :
  walk [47; 47; 97; 47; 98; 98; 47; 47] (replicate DIRSIZ 120) 8 = Some [([97], false); ([98; 98], true)].
Proof.
  rewrite (path_elements [47; 47; 97; 47; 98; 98; 47; 47] (replicate DIRSIZ 120) 8).
  - reflexivity.
  - repeat (constructor; [discriminate|]). constructor.
  - reflexivity.
  - cbn. lia.
Defined.
