(* ===== verification/Namei.v ===== *)
(** * Path names and the inode cache (fs.c)

    namei finds the inode of a path by walking the directories on the disk, with
    an inode of the cache locked at each step.  [node] is a file or directory on
    the disk, [fs_in] a state of the cache over a set of them, and [resolve] what
    a path means.  A small file system closes the file. *)

From S2P Require Import Prelude State CString Sleep Ide Bio BioSpec Log LogSpec LogRun LogCrash LogOps Boot Console Fs FsFile FsTxn FsAlloc FsMap FsData FsProps FsBoot DirProps Path.
Open Scope Z_scope.

(** ** Files on the disk *)

(** The inode [inum] on the disk, and its copy in the cache. *)
Definition di_at (s : kernel) (inum : Z) : dinode := dec_dinode (fsview s (IBLOCK inum (k_sb s))) (inode_off inum).
Definition core (inum : Z) (di : dinode) : inode :=
  mkInode ROOTDEV inum 1 (mkSleeplock false 0) true (di_type di) (di_major di) (di_minor di) (di_nlink di) (di_size di) (di_addrs di).

Record node (s : kernel) (inum ty : Z) (C : list Z) : Prop := mkNode {
  nd_type : di_type (di_at s inum) = ty;
  nd_some : ty <> 0;
  nd_links : di_nlink (di_at s inum) <> 0;
  nd_file : file_in s (core inum (di_at s inum));
  nd_sized : sized (fsview s) (core inum (di_at s inum));
  nd_dir : ty = T_DIR -> di_size (di_at s inum) = 16 * Z.of_nat (length C / 16);
  nd_contents : fbytes (fsview s) (core inum (di_at s inum)) 0 (di_size (di_at s inum)) = C
}.

Lemma node_same s s' inum ty C : node s inum ty C -> fsstep None s s' [] -> node s' inum ty C.
Proof.
  intros [N1 N2 N3 N4 [N5 N5'] N6 N7] S. destruct (file_in_same s s' _ N4 S) as [F V]. pose proof (V (fsview s) (fun _ => eq_refl)) as Hv.
  assert (E : di_at s' inum = di_at s inum) by (unfold di_at; by rewrite (tf_sb (fs_frame S)), Hv).
  split; rewrite ?E; try done.
  - split; [done|]. intros i Hi. rewrite <- (faddr_ext (fsview s)) by done. by apply N5'.
  - rewrite <- N7. apply fbytes_ext. intros i _. apply fbyte_ext. intros n. by rewrite Hv.
Qed.

(** A cached copy of the inode is as good as the one on the disk. *)
Lemma node_is_file s ip inum ty C :
  let x := inode_at s ip in
  txn s [] -> node s inum ty C -> i_dev x = ROOTDEV -> i_inum x = inum -> dinode_of x = di_at s inum -> ty <> T_DEV ->
  is_file s ip x C /\ i_type x = ty /\ (ty = T_DIR -> is_dir s ip x C).
Proof.
  intros x T [N1 N2 N3 N4 [N5 N5'] N6 N7] Hd Hi Hx Hty. assert (Ex : inode_at s ip = x) by done. rewrite <- Hx in *. clear Hx. clearbody x.
  assert (F : file_in s x) by (destruct N4 as [D1 [E1 E2 E3 E4] D3 D4 D5 D6]; destruct x; cbn in *; subst; split; try done; by split).
  assert (Hs : sized (fsview s) x) by (destruct x; cbn in *; by split).
  assert (Hc : fbytes (fsview s) x 0 (i_size x) = C) by (rewrite <- N7; by destruct x).
  cbn in N1. split_and!; [split; try done; by rewrite N1|done|]. intros E. split; try done; [by rewrite N1|by apply N6].
Qed.

(** ** The inode cache *)

(** How often the slot [i] is in the list [L] of references held. *)
Definition held_by (L : list nat) (i : nat) : Z := Z.of_nat (length (filter (fun j => j = i) L)).
Lemma held_by_cons j L i : held_by (j :: L) i = (if decide (j = i) then 1 else 0) + held_by L i.
Proof. unfold held_by. rewrite filter_cons. destruct (decide (j = i)); cbn [length]; lia. Qed.
Lemma held_by_pos L i : 0 <= held_by L i.
Proof. unfold held_by. lia. Qed.

(** A slot of the cache: its lock is held by the current process or free, and
    when it is in use it caches an inode of the disk. *)
Record slot_ok (s : kernel) (lk : option nat) (i : nat) : Prop := mkSlot {
  sl_ref : 0 <= i_ref (inode_at s i);
  sl_lock : sl_locked (i_lock (inode_at s i)) = bool_decide (lk = Some i);
  sl_own : lk = Some i -> sl_pid (i_lock (inode_at s i)) = cpid s;
  sl_dev : 0 < i_ref (inode_at s i) -> i_dev (inode_at s i) = ROOTDEV;
  sl_copy : 0 < i_ref (inode_at s i) -> i_valid (inode_at s i) = true -> dinode_of (inode_at s i) = di_at s (i_inum (inode_at s i))
}.

(** The files [tree] on the disk, with the inode cache [ic0] and the references
    [L] to its slots besides; the slot [lk] is locked and the buffers [H] are held. *)
Record fs_in (H : list (nat * Z)) (tree : Z -> option (Z * list Z)) (ic0 : list inode) (L : list nat) (lk : option nat) (s : kernel) : Prop := mkFsAt {
  fa_txn : txn s H;
  fa_cur : is_Some (k_cur s);
  fa_tree : forall inum ty C, tree inum = Some (ty, C) -> node s inum ty C;
  fa_len : length (k_icache s) = NINODE;
  fa_slot : forall i, (i < NINODE)%nat -> slot_ok s lk i;
  fa_inj : forall i j, (i < NINODE)%nat -> (j < NINODE)%nat -> 0 < i_ref (inode_at s i) -> 0 < i_ref (inode_at s j) -> i_inum (inode_at s i) = i_inum (inode_at s j) -> i = j;
  fa_held : forall i, (i < NINODE)%nat -> i_ref (inode_at s i) = i_ref (ic0 !!! i) + held_by L i /\ (0 < i_ref (ic0 !!! i) -> i_inum (inode_at s i) = i_inum (ic0 !!! i));
  fa_refs : forall i, (i < NINODE)%nat -> 0 <= i_ref (ic0 !!! i)
}.

Lemma part_cpid s s' : fs_part s s' -> cpid s' = cpid s /\ k_cur s' = k_cur s.
Proof.
  intros (bc & ide & pt & lg & ic & -> & Hw). unfold cpid. cbn. destruct (k_cur s) as [p|]; [|done]. by rewrite (woken_pid _ _ p Hw).
Qed.

(** Reading blocks changes none of this. *)
Lemma fs_in_step H tree ic0 L lk s s' H' : fs_in H tree ic0 L lk s -> fsstep None s s' [] -> txn s' H' -> fs_in H' tree ic0 L lk s'.
Proof.
  intros [A1 A2 A3 A4 A5 A6 A7 A8] S T. destruct (part_cpid _ _ (tf_part (fs_frame S))) as [Ep Ec].
  assert (Hi : forall i, inode_at s' i = inode_at s i) by (intros i; by apply (fs_icache S)).
  assert (Hd : forall n, di_at s' n = di_at s n) by (intros n; unfold di_at; by rewrite (tf_sb (fs_frame S)), (fs_view S)).
  split; try done.
  - by rewrite Ec.
  - intros inum ty C E. apply (node_same s); [by apply A3|done].
  - by rewrite (fs_ninodes S).
  - intros i Hl. destruct (A5 i Hl) as [B1 B2 B3 B4 B5]. split; rewrite ?Hi, ?Hd, ?Ep; done.
  - intros i j. rewrite !Hi. apply A6.
  - intros i. rewrite Hi. apply A7.
Qed.

Lemma node_icache s ic inum ty C : node s inum ty C -> node (set_k_icache ic s) inum ty C.
Proof.
  intros [N1 N2 N3 N4 N5 N6 N7]. split; try done. destruct N4 as [D1 D2 D3 D4 D5 D6]. split; try done.
  apply (file_ok_mono (data_block s (i_inum (core inum (di_at s inum))))); [|done]. intros c. apply data_block_icache.
Qed.

(** A change of one slot. *)
Definition upd_slot (i : nat) (f : inode -> inode) (s : kernel) : kernel := set_k_icache (alter f i (k_icache s)) s.

Lemma inode_upd i f s j : (i < length (k_icache s))%nat -> inode_at (upd_slot i f s) j = if decide (i = j) then f (inode_at s i) else inode_at s j.
Proof.
  intros Hi. unfold inode_at, upd_slot. cbn. destruct (decide (i = j)) as [<-|Hne]; [by apply alter_total_eq|]. apply alter_total_ne. congruence.
Qed.
Lemma upd_slot_read i f s : fs_read s (upd_slot i f s).
Proof. split; [by apply fs_part_intro; destruct s|done]. Qed.

Lemma fs_in_upd H tree ic0 L lk s i f L' lk' :
  let x := inode_at s i in
  fs_in H tree ic0 L lk s -> (i < NINODE)%nat ->
  (slot_ok s lk i -> slot_ok (upd_slot i f s) lk' i) ->
  (forall j, j <> i -> bool_decide (lk' = Some j) = bool_decide (lk = Some j)) ->
  (forall j, j <> i -> held_by L' j = held_by L j) -> i_ref (f x) = i_ref (ic0 !!! i) + held_by L' i ->
  (0 < i_ref x -> i_inum (f x) = i_inum x) ->
  (forall j, (j < NINODE)%nat -> j <> i -> 0 < i_ref (f x) -> 0 < i_ref (inode_at s j) -> i_inum (inode_at s j) <> i_inum (f x)) ->
  fs_in H tree ic0 L' lk' (upd_slot i f s).
Proof.
  intros x A Hi Hok Hlk Hother Href Hinum Hinj. pose proof A as [A1 A2 A3 A4 A5 A6 A7 A8]. pose proof (fun j => inode_upd i f s j ltac:(lia)) as Hu. fold x in Hu.
  split; try done.
  - by apply txn_icache.
  - intros inum ty C E. by apply node_icache, A3.
  - cbn. by rewrite length_alter.
  - intros j Hj. destruct (decide (j = i)) as [->|Hne]; [by apply Hok, A5|]. destruct (A5 j Hj) as [B1 B2 B3 B4 B5].
    assert (Hl : lk' = Some j -> lk = Some j) by (intros E; specialize (Hlk j Hne); rewrite (bool_decide_true _ E) in Hlk; symmetry in Hlk; by apply bool_decide_eq_true in Hlk).
    split; rewrite ?Hu, ?(decide_False (P := i = j)) by congruence; try done; [by rewrite Hlk|]. intros E. exact (B3 (Hl E)).
  - intros j k Hj Hk. rewrite !Hu. destruct (decide (i = j)) as [<-|], (decide (i = k)) as [<-|]; [done|..|by apply A6].
    + intros H1 H2 H3. exfalso. apply (Hinj k Hk); [congruence|done|done|done].
    + intros H1 H2 H3. exfalso. by apply (Hinj j Hj); [congruence|..].
  - intros j Hj. rewrite Hu. destruct (A7 j Hj) as [C1 C2]. destruct (decide (i = j)) as [<-|]; [|by rewrite Hother]. split; [done|]. intros H0.
    rewrite Hinum; [by apply C2|]. fold x in C1. pose proof (held_by_pos L i). lia.
Qed.

(** iget takes a reference. *)
Lemma iget_held tree ic0 L lk s inum ty C :
  fs_in [] tree ic0 L lk s -> tree inum = Some (ty, C) -> (exists i, (i < NINODE)%nat /\ i_ref (inode_at s i) = 0) ->
  exists i s', iget ROOTDEV inum s = Ok i s' /\ fs_in [] tree ic0 (i :: L) lk s' /\ (i < NINODE)%nat /\ i_inum (inode_at s' i) = inum /\ fs_read s s' /\
    forall j, 0 < i_ref (inode_at s j) -> i_inum (inode_at s' j) = i_inum (inode_at s j).
Proof.
  intros A Ht (i0 & Hi0 & Hr0). unfold iget. rewrite (bind_ok _ _ s (k_icache s) s) by done.
  assert (Hheld : forall i j, j <> i -> held_by (i :: L) j = held_by L j) by (intros i j Hj; rewrite held_by_cons, decide_False by congruence; lia).
  destruct (find _ _) as [i|] eqn:E1; [|destruct (find (fun i => i_ref _ =? 0) _) as [i|] eqn:E2].
  - apply find_seq_some in E1 as (Hi & Hc & _). unfold icached in Hc. apply andb_true_iff in Hc as [[Hr Hd]%andb_true_iff Hn].
    apply Z.ltb_lt in Hr. apply Z.eqb_eq in Hn. fold (inode_at s i) in Hr, Hn. exists i, (upd_slot i (fun ip => set_i_ref (i_ref ip + 1) ip) s).
    split_and!; [done| |lia|rewrite inode_upd, decide_True by (rewrite ?(fa_len _ _ _ _ _ _ A); done || lia); done|apply upd_slot_read|].
    2:{ intros j _. rewrite inode_upd by (rewrite (fa_len _ _ _ _ _ _ A); lia). by destruct (decide (i = j)) as [<-|]. }
    destruct (fa_held _ _ _ _ _ _ A i ltac:(lia)) as [C1 C2]. apply (fs_in_upd _ tree ic0 L lk); try done; [lia| |by apply Hheld| |].
    + intros [B1 B2 B3 B4 B5]. split; rewrite ?inode_upd, ?decide_True by (rewrite ?(fa_len _ _ _ _ _ _ A); done || lia); cbn; try done; try lia; auto.
    + cbn. rewrite held_by_cons, decide_True by done. lia.
    + intros j Hj Hne _ Hrj E. apply Hne. apply (fa_inj _ _ _ _ _ _ A); [done|lia|done|done|done].
  - apply find_seq_some in E2 as (Hi & Hr & _). apply Z.eqb_eq in Hr. fold (inode_at s i) in Hr.
    exists i, (upd_slot i (fun ip => set_i_valid false (set_i_ref 1 (set_i_inum inum (set_i_dev ROOTDEV ip)))) s).
    split_and!; [done| |lia|rewrite inode_upd, decide_True by (rewrite ?(fa_len _ _ _ _ _ _ A); done || lia); done|apply upd_slot_read|].
    2:{ intros j Hj. rewrite inode_upd by (rewrite (fa_len _ _ _ _ _ _ A); lia). destruct (decide (i = j)) as [<-|]; [lia|done]. }
    destruct (fa_held _ _ _ _ _ _ A i ltac:(lia)) as [C1 C2]. apply (fs_in_upd _ tree ic0 L lk); try done; [lia| |by apply Hheld| | |].
    + intros [B1 B2 B3 B4 B5]. split; rewrite ?inode_upd, ?decide_True by (rewrite ?(fa_len _ _ _ _ _ _ A); done || lia); cbn; try done; lia.
    + cbn. rewrite held_by_cons, decide_True by done. lia.
    + rewrite Hr. lia.
    + intros j Hj Hne _ Hrj E. apply (find_seq_none _ _ _ j) in E1; [|lia]. unfold icached in E1. fold (inode_at s j) in E1.
      rewrite (proj2 (Z.ltb_lt _ _) Hrj), (sl_dev _ _ _ (fa_slot _ _ _ _ _ _ A j Hj) Hrj), E in E1. cbn [set_i_inum i_inum set_i_valid set_i_ref] in E1. rewrite !Z.eqb_refl in E1. done.
  - exfalso. apply (find_seq_none _ _ _ i0) in E2; [|lia]. cbv beta in E2. unfold inode_at in Hr0. rewrite Hr0 in E2. done.
Qed.

(** Locking: the lock of slot [i] is taken. *)
Lemma acquire_slot H tree ic0 L s i : fs_in H tree ic0 L None s -> (i < NINODE)%nat ->
  exists pid, acquiresleep (inode_lock i) s = Ok tt (upd_slot i (set_i_lock (mkSleeplock true pid)) s) /\
    fs_in H tree ic0 L (Some i) (upd_slot i (set_i_lock (mkSleeplock true pid)) s).
Proof.
  intros A Hi. destruct (fa_cur _ _ _ _ _ _ A) as [p Ep]. pose proof (fa_len _ _ _ _ _ _ A) as Hlen. destruct (fa_slot _ _ _ _ _ _ A i Hi) as [B1 B2 B3 B4 B5].
  exists (p_pid (k_ptable s !!! p)). split.
  - unfold acquiresleep. rewrite (bind_ok _ _ s (i_lock (inode_at s i)) s) by done. rewrite B2, bool_decide_false by done.
    rewrite (bind_ok _ _ s p s) by (unfold myproc; by rewrite Ep). by rewrite (bind_ok _ _ s (k_ptable s !!! p) s).
  - destruct (fa_held _ _ _ _ _ _ A i Hi) as [C1 C2]. apply (fs_in_upd _ tree ic0 L None); try done.
    + intros _. split; rewrite ?inode_upd, ?decide_True by lia; cbn; try done; [by rewrite bool_decide_true|]. intros _. unfold cpid. cbn. by rewrite Ep.
    + intros j Hj. rewrite !bool_decide_false; [done|done|congruence].
    + intros j Hj Hne H1 H2 E. apply Hne. by apply (fa_inj _ _ _ _ _ _ A).
Qed.

(** Processes wake up. *)
Lemma txn_procs s H pt c : txn s H -> cpid (set_k_ptable pt s) = cpid s -> txn (set_k_cpu c (set_k_ptable pt s)) H.
Proof.
  intros [T1 T2 T3 T4 T5 T6] Hw. split; try done; [destruct T1; by split|by apply (log_inv_same s)|].
  intros b n Hin. destruct (T4 b n Hin) as [B1 B2 B3 B4 B5 B6]. split; try done. unfold holds in *. cbn in B2 |- *. rewrite B2. f_equal. by symmetry.
Qed.
Lemma fs_in_procs H tree ic0 L lk s pt c : fs_in H tree ic0 L lk s -> cpid (set_k_ptable pt s) = cpid s -> fs_in H tree ic0 L lk (set_k_cpu c (set_k_ptable pt s)).
Proof.
  intros [A1 A2 A3 A4 A5 A6 A7 A8] Hw. split; try done.
  - by apply txn_procs.
  - intros inum ty C E. destruct (A3 inum ty C E) as [N1 N2 N3 N4 N5 N6 N7]. split; try done. destruct N4 as [D1 D2 D3 D4 D5 D6]. split; try done.
    apply (file_ok_mono (data_block s (i_inum (core inum (di_at s inum))))); [|done]. intros a []. by split.
  - intros i Hi. destruct (A5 i Hi) as [B1 B2 B3 B4 B5]. split; try done. intros E. rewrite <- Hw in B3. by apply B3.
Qed.
Lemma fs_in_wake H tree ic0 L lk s c : fs_in H tree ic0 L lk s -> fs_in H tree ic0 L lk (set_k_ptable (wakeup1_proc c <$> k_ptable s) s).
Proof.
  intros A. pose proof (woken_wakeup1 c (k_ptable s)) as Hw. set (pt := wakeup1_proc c <$> k_ptable s) in *.
  replace (set_k_ptable pt s) with (set_k_cpu (k_cpu s) (set_k_ptable pt s)) by (by destruct s). apply fs_in_procs; [done|]. apply part_cpid, fs_part_intro; [by destruct s|done].
Qed.

Lemma release_slot H tree ic0 L s i : fs_in H tree ic0 L (Some i) s -> (i < NINODE)%nat ->
  exists s', releasesleep (inode_lock i) s = Ok tt s' /\ fs_in H tree ic0 L None s' /\ fs_read s s' /\
    forall j, inode_at s' j = if decide (i = j) then set_i_lock (mkSleeplock false 0) (inode_at s i) else inode_at s j.
Proof.
  intros A Hi. pose proof (fa_len _ _ _ _ _ _ A) as Hlen. set (s1 := upd_slot i (set_i_lock (mkSleeplock false 0)) s).
  assert (A1 : fs_in H tree ic0 L None s1).
  { destruct (fa_held _ _ _ _ _ _ A i Hi) as [C1 C2]. apply (fs_in_upd _ tree ic0 L (Some i)); try done.
    + intros [B1 B2 B3 B4 B5]. split; rewrite ?inode_upd, ?decide_True by lia; cbn; done.
    + intros j Hj. rewrite !bool_decide_false; [done|congruence|done].
    + intros j Hj Hne H1 H2 E. apply Hne. by apply (fa_inj _ _ _ _ _ _ A). }
  exists (set_k_ptable (wakeup1_proc (ChInodeLock i) <$> k_ptable s1) s1). split_and!; [done|by apply fs_in_wake| |].
  - transitivity s1; [apply upd_slot_read|]. split; [|done]. apply fs_part_intro; [by destruct s1|]. apply woken_wakeup1.
  - intros j. change (inode_at (set_k_ptable _ s1) j) with (inode_at s1 j). unfold s1. apply inode_upd. lia.
Qed.

(** ilock of a slot with a reference. *)
Lemma ilock_node tree ic0 L s i inum ty C :
  fs_in [] tree ic0 L None s -> (i < NINODE)%nat -> 0 < i_ref (inode_at s i) -> i_inum (inode_at s i) = inum -> tree inum = Some (ty, C) ->
  exists s', ilock i s = Ok tt s' /\ fs_in [] tree ic0 L (Some i) s' /\ fs_read s s' /\
    i_inum (inode_at s' i) = inum /\ dinode_of (inode_at s' i) = di_at s' inum /\ i_ref (inode_at s' i) = i_ref (inode_at s i).
Proof.
  intros A Hi Hr Hn Ht. unfold ilock. rewrite (bind_ok _ _ s (inode_at s i) s) by done. rewrite (proj2 (Z.ltb_ge _ 1)) by lia. rewrite (bind_ok _ _ s tt s) by done.
  destruct (acquire_slot _ _ _ _ s i A Hi) as (pid & E1 & A1). set (s1 := upd_slot i _ s) in *. rewrite (bind_ok _ _ _ _ _ E1), (bind_ok _ _ s1 (inode_at s1 i) s1) by done.
  assert (P1 : fs_read s s1) by apply upd_slot_read. pose proof (fa_len _ _ _ _ _ _ A) as Hlen.
  assert (X1 : inode_at s1 i = set_i_lock (mkSleeplock true pid) (inode_at s i)) by (unfold s1; by rewrite inode_upd, decide_True by lia).
  assert (N1 : i_inum (inode_at s1 i) = inum) by (by rewrite X1). assert (R1 : i_ref (inode_at s1 i) = i_ref (inode_at s i)) by (by rewrite X1).
  destruct (fa_slot _ _ _ _ _ _ A1 i Hi) as [_ _ _ Hdev Hcopy]. rewrite R1 in Hdev, Hcopy. specialize (Hdev Hr). specialize (Hcopy Hr).
  destruct (i_valid (inode_at s1 i)) eqn:Hval.
  { exists s1. split_and!; [done|done|done|done|rewrite <- N1; by apply Hcopy|done]. }
  rewrite (bind_ok _ _ s1 (k_sb s1) s1), Hdev, N1 by done. set (ib := IBLOCK inum (k_sb s1)).
  pose proof (fa_tree _ _ _ _ _ _ A1 inum ty C Ht) as Nd. pose proof (fi_inode (nd_file _ _ _ _ Nd)) as Hib. cbn [core i_inum] in Hib. fold ib in Hib.
  pose proof (fa_txn _ _ _ _ _ _ A1) as T1. pose proof (tn_size T1) as Hsz. pose proof (li_n (tn_log T1)). unfold LOGSIZE, MAXOPBLOCKS in Hsz.
  destruct (proj1 (wp_ok _ _ _) (bread_txn s1 [] T1 ib (proj1 Hib) ltac:(set_solver+) ltac:(change (Z.of_nat NBUF) with 30; cbn [length]; lia))) as (bp & s2 & E2 & S2 & T2).
  rewrite (bind_ok _ _ _ _ _ E2), (bind_ok _ _ _ _ _ (bdata_txn s2 _ T2 bp ib ltac:(left))), (fs_view S2). change (put_all [] (fsview s1) ib) with (fsview s1 ib).
  set (di := di_at s1 inum). change (dec_dinode (fsview s1 ib) (inode_off inum)) with di. pose proof (fs_in_step _ _ _ _ _ _ _ _ A1 S2 T2) as A2. pose proof (fa_len _ _ _ _ _ _ A2) as Hlen2.
  set (f := fun x => set_i_type _ _). set (s3 := upd_slot i f s2). rewrite (bind_ok _ _ s2 tt s3) by done.
  assert (X2 : inode_at s2 i = inode_at s1 i) by (by apply (fs_icache S2)). assert (X3 : inode_at s3 i = f (inode_at s1 i)) by (unfold s3; rewrite inode_upd, decide_True, X2 by lia; done).
  assert (A3 : fs_in [(bp, ib)] tree ic0 L (Some i) s3).
  { destruct (fa_held _ _ _ _ _ _ A2 i Hi) as [C1 _]. apply (fs_in_upd _ tree ic0 L (Some i)); try done.
    - intros [B1 B2 B3 B4 B5]. fold s3. split; rewrite ?X3, <- ?X2; try done. cbn. intros _. by rewrite X2, Hval.
    - intros j Hj Hne H1 H2 E. apply Hne. by apply (fa_inj _ _ _ _ _ _ A2). }
  destruct (proj1 (wp_ok _ _ _) (brelse_txn s3 [] bp ib (fa_txn _ _ _ _ _ _ A3))) as ([] & s4 & E4 & S4 & T4). rewrite (bind_ok _ _ _ _ _ E4).
  pose proof (fs_in_step _ _ _ _ _ _ _ _ A3 S4 T4) as A4. pose proof (fa_len _ _ _ _ _ _ A4) as Hlen4.
  set (s5 := upd_slot i (set_i_valid true) s4). rewrite (bind_ok _ _ s4 tt s5) by done.
  assert (X4 : inode_at s4 i = f (inode_at s1 i)) by (rewrite <- X3; by apply (fs_icache S4)).
  assert (X5 : inode_at s5 i = set_i_valid true (f (inode_at s1 i))) by (unfold s5; rewrite inode_upd, decide_True, X4 by lia; done).
  assert (D5 : di_at s5 inum = di).
  { unfold di, di_at. change (fsview s5) with (fsview s4). change (k_sb s5) with (k_sb s4). rewrite (fs_view S4), (tf_sb (fs_frame S4)).
    change (fsview s3) with (fsview s2). change (k_sb s3) with (k_sb s2). cbn [put_all foldl]. by rewrite (fs_view S2), (tf_sb (fs_frame S2)). }
  rewrite (proj2 (Z.eqb_neq (di_type di) 0)) by (unfold di; rewrite (nd_type _ _ _ _ Nd); apply Nd).
  exists s5. split_and!; [done| | |by rewrite X5|rewrite D5, X5; by destruct di|by rewrite X5].
  - destruct (fa_held _ _ _ _ _ _ A4 i Hi) as [C1 _]. apply (fs_in_upd _ tree ic0 L (Some i)); try done.
    + intros [B1 B2 B3 B4 B5]. fold s5. split; rewrite ?X5, <- ?X4; try done. intros _ _. cbn [i_inum set_i_valid]. rewrite X4. cbn [f set_i_type i_inum].
      change (i_inum _) with (i_inum (inode_at s1 i)). rewrite N1, D5. by destruct di.
    + intros j Hj Hne H1 H2 E. apply Hne. by apply (fa_inj _ _ _ _ _ _ A4).
  - transitivity s1; [done|]. transitivity s2; [by apply fsstep_read|]. transitivity s3; [apply upd_slot_read|]. transitivity s4; [by apply fsstep_read|apply upd_slot_read].
Qed.

Lemma fs_in_perm H tree ic0 L L' lk s : L ≡ₚ L' -> fs_in H tree ic0 L lk s -> fs_in H tree ic0 L' lk s.
Proof. intros Hp [A1 A2 A3 A4 A5 A6 A7 A8]. split; try done. intros i Hi. unfold held_by. rewrite <- Hp. by apply A7. Qed.

Lemma iunlock_slot tree ic0 L s i : fs_in [] tree ic0 L (Some i) s -> (i < NINODE)%nat -> 0 < i_ref (inode_at s i) ->
  exists s', iunlock i s = Ok tt s' /\ fs_in [] tree ic0 L None s' /\ fs_read s s' /\
    forall j, inode_at s' j = if decide (i = j) then set_i_lock (mkSleeplock false 0) (inode_at s i) else inode_at s j.
Proof.
  intros A Hi Hr. destruct (fa_cur _ _ _ _ _ _ A) as [p Ep]. destruct (fa_slot _ _ _ _ _ _ A i Hi) as [_ B2 B3 _ _].
  rewrite bool_decide_true in B2 by done. specialize (B3 eq_refl). unfold cpid in B3. rewrite Ep in B3.
  destruct (release_slot _ _ _ _ s i A Hi) as (s' & E & A' & P & X). exists s'. split_and!; [|done..].
  unfold iunlock. rewrite (bind_ok _ _ s true s).
  - rewrite (bind_ok _ _ s (inode_at s i) s) by done. rewrite (proj2 (Z.ltb_ge _ 1)) by lia. by rewrite (bind_ok _ _ s tt s).
  - unfold holdingsleep. rewrite (bind_ok _ _ s (i_lock (inode_at s i)) s) by done. rewrite B2, (bind_ok _ _ s p s) by (unfold myproc; by rewrite Ep).
    rewrite (bind_ok _ _ s (k_ptable s !!! p) s) by done. by rewrite B3, Z.eqb_refl.
Qed.

Lemma iput_slot tree ic0 L s i ty C :
  fs_in [] tree ic0 (i :: L) None s -> (i < NINODE)%nat -> tree (i_inum (inode_at s i)) = Some (ty, C) ->
  exists s', iput i s = Ok tt s' /\ fs_in [] tree ic0 L None s' /\ fs_read s s' /\ forall j, i_inum (inode_at s' j) = i_inum (inode_at s j).
Proof.
  intros A Hi Ht. pose proof (fa_len _ _ _ _ _ _ A) as Hlen. destruct (acquire_slot _ _ _ _ s i A Hi) as (pid & E1 & A1). set (s1 := upd_slot i _ s) in *.
  assert (X1 : inode_at s1 i = set_i_lock (mkSleeplock true pid) (inode_at s i)) by (unfold s1; by rewrite inode_upd, decide_True by lia).
  destruct (fa_held _ _ _ _ _ _ A1 i Hi) as [Hr1 _]. rewrite held_by_cons, decide_True in Hr1 by done. pose proof (held_by_pos L i). pose proof (fa_refs _ _ _ _ _ _ A1 i Hi).
  unfold iput. rewrite (bind_ok _ _ _ _ _ E1), (bind_ok _ _ s1 (inode_at s1 i) s1) by done.
  assert (Hn : i_valid (inode_at s1 i) && (i_nlink (inode_at s1 i) =? 0) = false).
  { destruct (i_valid (inode_at s1 i)) eqn:Hv; [|done]. destruct (fa_slot _ _ _ _ _ _ A1 i Hi) as [_ _ _ _ B5]. specialize (B5 ltac:(lia) Hv).
    rewrite X1 in B5 at 2. change (i_inum (set_i_lock _ (inode_at s i))) with (i_inum (inode_at s i)) in B5.
    pose proof (nd_links _ _ _ _ (fa_tree _ _ _ _ _ _ A1 _ ty C Ht)) as Hl. rewrite <- B5 in Hl. by apply Z.eqb_neq. }
  rewrite Hn. rewrite (bind_ok _ _ s1 tt s1) by done.
  destruct (release_slot _ _ _ _ s1 i A1 Hi) as (s2 & E2 & A2 & P2 & X2). rewrite (bind_ok _ _ _ _ _ E2). pose proof (fa_len _ _ _ _ _ _ A2) as Hlen2.
  exists (upd_slot i (fun x => set_i_ref (i_ref x - 1) x) s2). split_and!; [done| | |].
  - assert (R2 : i_ref (inode_at s2 i) = i_ref (inode_at s1 i)) by (by rewrite X2, decide_True).
    apply (fs_in_upd _ tree ic0 (i :: L) None); try done.
    + intros [B1 B2 B3 B4 B5]. split; rewrite ?inode_upd, ?decide_True by lia; cbn [i_ref i_lock i_dev i_valid i_inum set_i_ref]; try done; try lia; auto with lia.
    + intros j Hj. rewrite held_by_cons, decide_False by congruence. lia.
    + cbn. lia.
    + intros j Hj Hne H1 H2 E. apply Hne. cbn in H1. apply (fa_inj _ _ _ _ _ _ A2); try done. lia.
  - transitivity s1; [apply upd_slot_read|]. transitivity s2; [done|apply upd_slot_read].
  - intros j. rewrite inode_upd by lia. destruct (decide (i = j)) as [<-|Hne]; [by cbn; rewrite X2, decide_True, X1|]. rewrite X2, decide_False by done.
    unfold s1. by rewrite inode_upd, decide_False by (done || lia).
Qed.

Lemma iunlockput_slot tree ic0 L s i ty C :
  fs_in [] tree ic0 (i :: L) (Some i) s -> (i < NINODE)%nat -> tree (i_inum (inode_at s i)) = Some (ty, C) ->
  exists s', iunlockput i s = Ok tt s' /\ fs_in [] tree ic0 L None s' /\ fs_read s s' /\ forall j, i_inum (inode_at s' j) = i_inum (inode_at s j).
Proof.
  intros A Hi Ht. destruct (fa_held _ _ _ _ _ _ A i Hi) as [Hr _]. rewrite held_by_cons, decide_True in Hr by done. pose proof (held_by_pos L i). pose proof (fa_refs _ _ _ _ _ _ A i Hi).
  destruct (iunlock_slot _ _ _ s i A Hi ltac:(lia)) as (s1 & E1 & A1 & P1 & X1). destruct (iput_slot tree ic0 L s1 i ty C A1 Hi) as (s2 & E2 & A2 & P2 & X2); [by rewrite X1, decide_True|].
  exists s2. split_and!; [unfold iunlockput; by rewrite (bind_ok _ _ _ _ _ E1)|done|by transitivity s1|]. intros j. rewrite X2, X1. by destruct (decide (i = j)) as [<-|].
Qed.

(** ** What a path means *)

(** The name [e] as a C string. *)
Lemma dname_plain e : plain e -> dname (e ++ [0]) = take DIRSIZ e.
Proof.
  intros He%plain_nonul. unfold dname, cstr. change 0 with (Z.of_nat (length (@nil Z))) at 2.
  destruct (Nat.lt_ge_cases (length e) DIRSIZ) as [Hd|Hd].
  - rewrite take_ge by lia. change (e ++ [0]) with ([] ++ e ++ [0]). apply cstr_from_list; [done|right; eauto].
  - rewrite <- (take_drop DIRSIZ e) at 1. rewrite <- app_assoc. rewrite <- (app_nil_l (take DIRSIZ e ++ _)).
    apply cstr_from_list; [by apply Forall_take|left; rewrite length_take; lia].
Qed.

Lemma dir_find_ext a b C : dname a = dname b -> dir_find a C = dir_find b C.
Proof. intros E. unfold dir_find, named. by rewrite E. Qed.

(** The inode that the elements [es] lead to from [inum]. *)
Fixpoint resolve (tree : Z -> option (Z * list Z)) (inum : Z) (es : list (list Z)) : option Z :=
  match es with
  | [] => Some inum
  | e :: es' =>
    match tree inum with
    | Some (ty, C) => if ty =? T_DIR then match dir_find (e ++ [0]) C with Some (_, i) => resolve tree i es' | None => None end else None
    | None => None
    end
  end.

(** For nameiparent: the directory of the last element. *)
Definition resolve_parent (tree : Z -> option (Z * list Z)) (inum : Z) (es : list (list Z)) : option Z :=
  match es with
  | [] => None
  | _ :: _ => match resolve tree inum (removelast es) with
              | Some d => if bool_decide (fst <$> tree d = Some T_DIR) then Some d else None
              | None => None
              end
  end.

(** Every entry of a directory names a file. *)
Definition closed (tree : Z -> option (Z * list Z)) : Prop :=
  forall inum C e k i, tree inum = Some (T_DIR, C) -> dir_find e C = Some (k, i) -> is_Some (tree i).

(** Room for two inodes in the cache. *)
Definition two_free (ic0 : list inode) : Prop :=
  exists a b, (a < NINODE)%nat /\ (b < NINODE)%nat /\ a <> b /\ i_ref (ic0 !!! a) = 0 /\ i_ref (ic0 !!! b) = 0.

Lemma free_slot_left H tree ic0 L lk s ip : fs_in H tree ic0 L lk s -> L = [] \/ L = [ip] -> two_free ic0 -> exists i, (i < NINODE)%nat /\ i_ref (inode_at s i) = 0.
Proof.
  intros A HL (a & b & Ha & Hb & Hab & Ra & Rb). destruct (decide (a = ip)) as [->|Hne]; [exists b|exists a]; (split; [done|]).
  - rewrite (proj1 (fa_held _ _ _ _ _ _ A b Hb)), Rb. destruct HL as [->| ->]; [done|]. by rewrite held_by_cons, decide_False.
  - rewrite (proj1 (fa_held _ _ _ _ _ _ A a Ha)), Ra. destruct HL as [->| ->]; [done|]. by rewrite held_by_cons, decide_False.
Qed.

(** The answer of namex: an inode with a reference, or nothing. *)
Definition found (tree : Z -> option (Z * list Z)) (ic0 : list inode) (o : option Z) (r : option nat) (s' : kernel) : Prop :=
  match o with
  | None => r = None /\ fs_in [] tree ic0 [] None s'
  | Some d => exists i, r = Some i /\ (i < NINODE)%nat /\ i_inum (inode_at s' i) = d /\ is_Some (tree d) /\ fs_in [] tree ic0 [i] None s'
  end.
Definition meaning (tree : Z -> option (Z * list Z)) (parent : bool) (inum : Z) (es : list (list Z)) : option Z :=
  if parent then resolve_parent tree inum es else resolve tree inum es.

Lemma meaning_cons tree parent inum e es C k i : tree inum = Some (T_DIR, C) -> dir_find (e ++ [0]) C = Some (k, i) -> (parent = true -> es <> []) ->
  meaning tree parent inum (e :: es) = meaning tree parent i es.
Proof.
  intros Ht Hd Hp. unfold meaning. destruct parent; [|cbn [resolve]; by rewrite Ht, Z.eqb_refl, Hd].
  destruct es as [|e2 es]; [by destruct Hp|]. unfold resolve_parent. change (removelast (e :: e2 :: es)) with (e :: removelast (e2 :: es)). cbn [resolve]. by rewrite Ht, Z.eqb_refl, Hd.
Qed.
Lemma meaning_none tree parent inum e es ty C : tree inum = Some (ty, C) -> ty <> T_DIR \/ (parent = true -> es <> []) /\ ty = T_DIR /\ dir_find (e ++ [0]) C = None ->
  meaning tree parent inum (e :: es) = None.
Proof.
  intros Ht Hd. unfold meaning. destruct parent.
  - destruct es as [|e2 es]; cbn [resolve_parent removelast resolve]; rewrite ?Ht.
    + destruct Hd as [Hd|[[] _]]; [|done..]. cbn. rewrite bool_decide_false; [done|congruence].
    + destruct Hd as [Hd|(_ & -> & Hd)]; [by rewrite (proj2 (Z.eqb_neq _ _) Hd)|]. by rewrite Z.eqb_refl, Hd.
  - cbn [resolve]. rewrite Ht. destruct Hd as [Hd|(_ & -> & Hd)]; [by rewrite (proj2 (Z.eqb_neq _ _) Hd)|]. by rewrite Z.eqb_refl, Hd.
Qed.

(** ** namex *)

Section namex.
Context (tree : Z -> option (Z * list Z)) (ic0 : list inode) (Hclosed : closed tree) (Hfree : two_free ic0).

(** The lookup of one element in the directory [ip]. *)
Lemma lookup_step s ip inum C name e :
  fs_in [] tree ic0 [ip] (Some ip) s -> (ip < NINODE)%nat -> i_inum (inode_at s ip) = inum -> dinode_of (inode_at s ip) = di_at s inum ->
  tree inum = Some (T_DIR, C) -> bytes name -> dname name = dname (e ++ [0]) ->
  match dir_find (e ++ [0]) C with
  | None => exists s', dirlookup ip name s = Ok None s' /\ fs_in [] tree ic0 [ip] (Some ip) s' /\ fs_read s s' /\ i_inum (inode_at s' ip) = inum
  | Some (_, i) => exists nip off s', dirlookup ip name s = Ok (Some (nip, off)) s' /\ fs_in [] tree ic0 [nip; ip] (Some ip) s' /\ fs_read s s' /\
      (nip < NINODE)%nat /\ i_inum (inode_at s' nip) = i /\ i_inum (inode_at s' ip) = inum
  end.
Proof using Hclosed Hfree.
  intros A Hip Hi Hd Ht Hb Hn. destruct (fa_held _ _ _ _ _ _ A ip Hip) as [Hr _]. rewrite held_by_cons, decide_True in Hr by done. pose proof (fa_refs _ _ _ _ _ _ A ip Hip).
  change (held_by [] ip) with 0 in Hr. pose proof (sl_dev _ _ _ (fa_slot _ _ _ _ _ _ A ip Hip) ltac:(lia)) as Hdev.
  destruct (node_is_file s ip inum T_DIR C (fa_txn _ _ _ _ _ _ A) (fa_tree _ _ _ _ _ _ A _ _ _ Ht) Hdev Hi Hd ltac:(done)) as (_ & _ & D). specialize (D eq_refl).
  destruct (dirlookup_run s ip _ C name D Hb) as (s1 & D1 & S1 & E1). rewrite (dir_find_ext _ _ C Hn) in E1. rewrite E1.
  pose proof (fs_in_step _ _ _ _ _ _ _ _ A S1 (id_txn _ _ _ _ D1)) as A1. assert (P1 : fs_read s s1) by (by apply fsstep_read).
  assert (X1 : inode_at s1 ip = inode_at s ip) by (by apply (fs_icache S1)).
  destruct (dir_find (e ++ [0]) C) as [[k i]|] eqn:Ef; [|exists s1; split_and!; [done|done|done|by rewrite X1]].
  destruct (Hclosed inum C _ k i Ht Ef) as [[ty' C'] Ht'].
  destruct (iget_held tree ic0 [ip] (Some ip) s1 i ty' C' A1 Ht') as (nip & s2 & E2 & A2 & Hnip & Hni & P2 & Hkeep); [eapply (free_slot_left _ _ _ _ _ _ ip A1); [by right|done]|].
  exists nip, (16 * Z.of_nat k), s2. rewrite (bind_ok _ _ _ _ _ E2). split_and!; [done|done|by transitivity s1|done|done|]. rewrite Hkeep, X1; [done|]. rewrite X1. lia.
Qed.

Lemma namex_loop_spec parent fuel : forall s ip inum path name,
  fs_in [] tree ic0 [ip] None s -> (ip < NINODE)%nat -> i_inum (inode_at s ip) = inum -> is_Some (tree inum) ->
  Forall (fun c => c <> 0) path -> bytes path -> bytes name -> length name = DIRSIZ -> (length path <= fuel)%nat ->
  exists r s', namex_loop ip path parent name fuel s = Ok r s' /\ fs_read s s' /\ found tree ic0 (meaning tree parent inum (elements path)) r.1 s' /\
    (parent = true -> r.1 <> None -> exists e, last (elements path) = Some e /\ dname r.2 = take DIRSIZ e).
Proof using Hclosed Hfree.
  induction fuel as [|fuel IH]; intros s ip inum path name A Hip Hi [[ty C] Ht] Hnul Hbp Hbn Hl Hf.
  all: pose proof (skipelem_spec path name Hnul Hl) as Hs; cbn [namex_loop].
  all: assert (Hnil : elements path = [] -> exists r s', (if parent then iput ip;; mret (None, name) else mret (Some ip, name)) s = Ok r s' /\ fs_read s s' /\
    found tree ic0 (meaning tree parent inum []) r.1 s' /\ (parent = true -> r.1 <> None -> exists e, last [] = Some e /\ dname r.2 = take DIRSIZ e)).
  1,3: intros _; destruct parent; [|exists (Some ip, name), s; split_and!; [done|done| |done]; cbn; exists ip; split_and!; [done|done|done|eauto|done]].
  1,2: destruct (iput_slot tree ic0 [] s ip ty C A Hip ltac:(by rewrite Hi)) as (s1 & E1 & A1 & P1 & _); exists (None, name), s1; rewrite (bind_ok _ _ _ _ _ E1); by split_and!.
  1: destruct path; [|cbn in Hf; lia]; by rewrite Hs in *; apply Hnil.
  destruct (elements path) as [|e es] eqn:Ee; [rewrite Hs; by apply Hnil|]. clear Hnil.
  destruct Hs as (Hpl & path' & name' & Es & Ees & Hdn & Hln & Hae & Hnul' & Hlt). rewrite Es. destruct (skipelem_bytes _ _ _ _ Es Hbp Hbn) as [Hbp' Hbn'].
  destruct (fa_held _ _ _ _ _ _ A ip Hip) as [Hr _]. rewrite held_by_cons, decide_True in Hr by done. pose proof (fa_refs _ _ _ _ _ _ A ip Hip). change (held_by [] ip) with 0 in Hr.
  destruct (ilock_node tree ic0 [ip] s ip inum ty C A Hip ltac:(lia) Hi Ht) as (s1 & E1 & A1 & P1 & I1 & D1 & R1). rewrite (bind_ok _ _ _ _ _ E1), (bind_ok _ _ s1 (inode_at s1 ip) s1) by done.
  pose proof (nd_type _ _ _ _ (fa_tree _ _ _ _ _ _ A1 _ _ _ Ht)) as Hty. rewrite <- D1 in Hty. cbn [dinode_of di_type] in Hty. rewrite Hty.
  destruct (Z.eqb_spec ty T_DIR) as [->|Hnd]; cbn [negb].
  2:{ destruct (iunlockput_slot tree ic0 [] s1 ip ty C A1 Hip ltac:(by rewrite I1)) as (s2 & E2 & A2 & P2 & _). exists (None, name'), s2. rewrite (bind_ok _ _ _ _ _ E2).
      split_and!; [done|by transitivity s1| |done]. rewrite (meaning_none _ _ _ _ _ ty C Ht) by (by left). by split. }
  rewrite Hae. destruct (parent && bool_decide (es = [])) eqn:Hlast.
  { apply andb_true_iff in Hlast as [-> ->%bool_decide_eq_true]. destruct (iunlock_slot tree ic0 [ip] s1 ip A1 Hip ltac:(lia)) as (s2 & E2 & A2 & P2 & X2).
    exists (Some ip, name'), s2. rewrite (bind_ok _ _ _ _ _ E2). split_and!; [done|by transitivity s1| |eauto]. cbn [meaning resolve_parent removelast resolve]. rewrite Ht. cbn [fmap option_fmap option_map fst].
    rewrite bool_decide_true by done. exists ip. split_and!; [done|done|by rewrite X2, decide_True|eauto|done]. }
  assert (Hes : parent = true -> es <> []) by (intros -> ->; by rewrite bool_decide_true in Hlast).
  pose proof (lookup_step s1 ip inum C name' e A1 Hip I1 D1 Ht Hbn' ltac:(by rewrite Hdn, dname_plain)) as Hlk.
  destruct (dir_find (e ++ [0]) C) as [[k i]|] eqn:Ef.
  - destruct Hlk as (nip & off & s2 & E2 & A2 & P2 & Hnip & Hni & I2). rewrite (bind_ok _ _ _ _ _ E2).
    destruct (iunlockput_slot tree ic0 [nip] s2 ip T_DIR C (fs_in_perm _ _ _ _ _ _ _ (Permutation_swap _ _ _) A2) Hip ltac:(by rewrite I2)) as (s3 & E3 & A3 & P3 & X3). rewrite (bind_ok _ _ _ _ _ E3).
    destruct (IH s3 nip i path' name' A3 Hnip) as (r & s' & E & P & Hfound & Hp); [by rewrite X3|by eapply Hclosed|done..|lia|].
    exists r, s'. split_and!; [done|by transitivity s1; [|transitivity s2; [|transitivity s3]]| |].
    + rewrite (meaning_cons _ _ _ _ _ C k i) by done. by rewrite <- Ees.
    + intros Hpar Hr'. destruct (Hp Hpar Hr') as (e' & El & Hd'). exists e'. split; [|done]. rewrite Ees in El. by rewrite last_cons, El.
  - destruct Hlk as (s2 & E2 & A2 & P2 & I2). rewrite (bind_ok _ _ _ _ _ E2). destruct (iunlockput_slot tree ic0 [] s2 ip T_DIR C A2 Hip ltac:(by rewrite I2)) as (s3 & E3 & A3 & P3 & _).
    exists (None, name'), s3. rewrite (bind_ok _ _ _ _ _ E3). split_and!; [done|by transitivity s1; [|transitivity s2]| |done]. rewrite (meaning_none _ _ _ _ _ T_DIR C Ht) by (right; by split_and!). by split.
Qed.

(** Where a path starts: at the root or at the current directory. *)
Definition starts (s : kernel) (path : list Z) (inum : Z) : Prop :=
  if bool_decide (head path = Some SLASH) then inum = ROOTINO
  else exists p i, k_cur s = Some p /\ p_cwd (k_ptable s !!! p) = Some i /\ (i < NINODE)%nat /\ 0 < i_ref (inode_at s i) /\ i_inum (inode_at s i) = inum.

(** namei and nameiparent find what the path means. *)
Lemma namex_spec parent s path name inum :
  fs_in [] tree ic0 [] None s -> starts s path inum -> is_Some (tree inum) ->
  Forall (fun c => c <> 0) path -> bytes path -> bytes name -> length name = DIRSIZ ->
  exists r s', namex path parent name s = Ok r s' /\ fs_read s s' /\ found tree ic0 (meaning tree parent inum (elements path)) r.1 s' /\
    (parent = true -> r.1 <> None -> exists e, last (elements path) = Some e /\ dname r.2 = take DIRSIZ e).
Proof using Hclosed Hfree.
  intros A Hst [[ty C] Ht] Hnul Hbp Hbn Hl.
  assert (Hgo : forall ip s1, fs_in [] tree ic0 [ip] None s1 -> (ip < NINODE)%nat -> i_inum (inode_at s1 ip) = inum -> fs_read s s1 ->
    exists r s', namex_loop ip path parent name (length path) s1 = Ok r s' /\ fs_read s s' /\ found tree ic0 (meaning tree parent inum (elements path)) r.1 s' /\
    (parent = true -> r.1 <> None -> exists e, last (elements path) = Some e /\ dname r.2 = take DIRSIZ e)).
  { intros ip s1 A1 Hip Hi P1. destruct (namex_loop_spec parent (length path) s1 ip inum path name A1 Hip Hi) as (r & s' & E & P & R); [by rewrite Ht|done..|].
    exists r, s'. split_and!; [done|by transitivity s1|apply R|apply R]. }
  unfold starts in Hst. unfold namex. case_bool_decide as Hh.
  - subst inum. destruct path as [|c path]; [done|]. injection Hh as ->. cbn [Z.eqb Pos.eqb SLASH].
    destruct (iget_held tree ic0 [] None s ROOTINO ty C A Ht) as (ip & s1 & E1 & A1 & Hip & Hi & P1 & _); [eapply (free_slot_left _ _ _ _ _ _ 0%nat A); [by left|done]|].
    rewrite (bind_ok _ _ _ _ _ E1). by apply Hgo.
  - destruct Hst as (p & i & Hc & Hcwd & Hi & Hr & Hin). pose proof (fa_len _ _ _ _ _ _ A) as Hlen.
    set (f := fun x => set_i_ref (i_ref x + 1) x). set (s1 := upd_slot i f s).
    assert (Ed : (p ← myproc; q ← get_proc p; match p_cwd q with Some i => idup i | None => fault "namex: no cwd" end) s = Ok i s1).
    { rewrite (bind_ok _ _ s p s) by (unfold myproc; by rewrite Hc). rewrite (bind_ok _ _ s (k_ptable s !!! p) s) by done. by rewrite Hcwd. }
    assert (Ep : (match path with c :: _ => if c =? SLASH then iget ROOTDEV ROOTINO else p ← myproc; q ← get_proc p; match p_cwd q with Some i => idup i | None => fault "namex: no cwd" end
      | [] => p ← myproc; q ← get_proc p; match p_cwd q with Some i => idup i | None => fault "namex: no cwd" end end) s = Ok i s1).
    { destruct path as [|c path]; [done|]. rewrite (proj2 (Z.eqb_neq c SLASH)) by (intros ->; by apply Hh). done. }
    rewrite (bind_ok _ _ _ _ _ Ep). destruct (fa_held _ _ _ _ _ _ A i Hi) as [C1 C2]. apply Hgo; [|done|unfold s1; rewrite inode_upd, decide_True by lia; done|apply upd_slot_read].
    apply (fs_in_upd _ tree ic0 [] None); try done.
    + intros [B1 B2 B3 B4 B5]. split; rewrite ?inode_upd, ?decide_True by lia; cbn; try done; try lia; auto.
    + intros j Hj. by rewrite held_by_cons, decide_False by congruence.
    + rewrite held_by_cons, decide_True by done. cbn. rewrite C1. change (held_by [] i) with 0. lia.
    + intros j Hj Hne _ Hrj E. apply Hne. by apply (fa_inj _ _ _ _ _ _ A).
Qed.
End namex.

(** ** Paths *)

(** C26. namei and nameiparent find what a path means.  Over a set of files on the
    disk in which the directories name files of the set, with two free slots in the
    inode cache, namei returns an inode that refers to the file the path resolves
    to, and nothing when it resolves to none; nameiparent does so for the directory
    of the last element, and gives that element.  Every other reference count is as
    before, no inode is locked, and the disk and the log are unchanged. *)
Theorem namei_resolves tree ic0 s path inum :
  closed tree -> two_free ic0 -> fs_in [] tree ic0 [] None s -> starts s path inum -> is_Some (tree inum) ->
  Forall (fun c => c <> 0) path -> bytes path ->
  (exists r s', namei path s = Ok r s' /\ fs_read s s' /\ found tree ic0 (resolve tree inum (elements path)) r s') /\
  (exists r s', nameiparent path s = Ok r s' /\ fs_read s s' /\ found tree ic0 (resolve_parent tree inum (elements path)) r.1 s' /\
     (r.1 <> None -> exists e, last (elements path) = Some e /\ dname r.2 = take DIRSIZ e)).
Proof.
  intros Hc H2 A Hst Hi Hnz Hb. assert (B0 : bytes (replicate DIRSIZ 0)) by (by apply Forall_replicate).
  destruct (namex_spec tree ic0 Hc H2 false s path _ inum A Hst Hi Hnz Hb B0 (length_replicate _ _)) as (r & s1 & E1 & P1 & F1 & _).
  destruct (namex_spec tree ic0 Hc H2 true s path _ inum A Hst Hi Hnz Hb B0 (length_replicate _ _)) as (q & s2 & E2 & P2 & F2 & L2).
  split; [exists r.1, s1|exists q, s2; split_and!; auto]. split_and!; [|done|done]. unfold namei. by rewrite (bind_ok _ _ _ _ _ E1).
Qed.

(** ** A tree in memory

    A machine whose disk has a root directory in block 60 and a program in block
    61: 4 bytes to load at address 0, and 4 bytes of zeroes. *)
Definition rootdir1 : list Z := enc16 1 ++ [46] ++ replicate 13 0 ++ enc16 2 ++ str "run" ++ replicate 11 0.
Definition prog1 : list Z :=
  concat (enc32 <$> [1179403647; 0; 0; 0; 0; 0; 4; 52; 0; 0; 0]) ++ enc16 1 ++ enc16 0 ++ enc32 0 ++
  concat (enc32 <$> [1; 84; 0; 0; 4; 8; 5; 4096]) ++ [1; 2; 3; 4].
Definition tree1 (inum : Z) : option (Z * list Z) :=
  if inum =? 1 then Some (T_DIR, rootdir1) else if inum =? 2 then Some (T_FILE, prog1) else None.
Definition inodes1 : block :=
  replicate 64 0 ++ enc_dinode (mkDinode T_DIR 0 0 1 32 (60 :: replicate 12 0)) ++ enc_dinode (mkDinode T_FILE 0 0 1 88 (61 :: replicate 12 0)) ++ replicate 320 0.
Definition pad_block (l : list Z) : block := l ++ replicate (512 - length l) 0.
Definition disk2 : gmap (Z * Z) block :=
  <[(ROOTDEV, 58) := bitmap1]> (<[(ROOTDEV, 32) := inodes1]> (<[(ROOTDEV, 60) := pad_block rootdir1]> (<[(ROOTDEV, 61) := pad_block prog1]> ∅))).
Definition icache1 : list inode := replicate NINODE (mkInode 0 0 0 (mkSleeplock false 0) false 0 0 0 0 0 (replicate 13 0)).
Definition with_tree (s : kernel) : kernel :=
  set_k_icache icache1 (set_k_sb sb1 (set_k_bcache bcache0 (set_k_log log0 (set_k_ide (mkIde [] true None false disk2 []) s)))).

Lemma bytes_forallb l : forallb (fun b => (0 <=? b) && (b <? 256)) l = true -> bytes l.
Proof.
  induction l as [|b l IH]; [constructor|]. cbn. intros [[Hb1%Z.leb_le Hb2%Z.ltb_lt]%andb_true_iff Hl]%andb_true_iff. constructor; [unfold is_byte; lia|by apply IH].
Qed.
Lemma disk2_ok : disk_ok disk2.
Proof.
  intros dev bno. unfold dget, disk2. repeat (rewrite lookup_insert; case_decide; cbn [default]).
  1-4: split; [by vm_compute|]; apply bytes_forallb; by vm_compute.
  rewrite lookup_empty. apply zero_block_ok.
Qed.

Section tree.
Context (s : kernel) (Hcur : is_Some (k_cur s)).

Lemma with_fs_txn bs lg D ic sb : (exists o, lru bs o) -> (forall i, (i < NBUF)%nat -> fresh (bs !!! i)) -> disk_ok D -> lgeom lg -> lh_n lg = 0 -> l_size lg <= LOGSIZE ->
  txn (set_k_icache ic (set_k_sb sb (set_k_bcache bs (set_k_log lg (set_k_ide (mkIde [] true None false D []) s))))) [].
Proof using Hcur.
  intros Hl Hf HD G Hn Hsz. apply txn_intro; [| |done|exact (boot_held bs lg D Hf)].
  - destruct (boot_inv bs lg D Hl Hf HD) as [B1 B2 B3 B4 B5]. by split.
  - by apply (log_inv_same (machine bs lg D) _ (boot_log bs lg D Hf G Hn)).
Qed.
Lemma with_tree_txn : txn (with_tree s) [].
Proof using Hcur. apply (with_fs_txn bcache0 log0 disk2 icache1 sb1 bcache0_some_lru bcache0_fresh disk2_ok log0_geom); [reflexivity|discriminate]. Qed.
Lemma with_tree_view n : fsview (with_tree s) n = dget disk2 ROOTDEV n.
Proof using.
  apply view_miss. intros i Hi _. change (k_bcache (with_tree s)) with bcache0. destruct (bcache0_fresh i Hi) as (E & _). unfold bvalid. by rewrite E.
Qed.
Lemma with_tree_dinode inum : di_at (with_tree s) inum = dec_dinode (dget disk2 ROOTDEV (IBLOCK inum sb1)) (inode_off inum).
Proof using. unfold di_at. by rewrite with_tree_view. Qed.

(** A file in one block. *)
Lemma with_tree_node inum ty a C :
  0 < inum < 8 -> a = 60 \/ a = 61 -> ty <> 0 -> dec_dinode inodes1 (inode_off inum) = mkDinode ty 0 0 1 (Z.of_nat (length C)) (a :: replicate 12 0) ->
  dget disk2 ROOTDEV a = pad_block C -> (length C <= 512)%nat -> (ty = T_DIR -> Z.of_nat (length C) = 16 * Z.of_nat (length C / 16)) -> node (with_tree s) inum ty C.
Proof using.
  intros Hi Ha Hty E Hd Hlen Hdir. assert (Ei : IBLOCK inum sb1 = 32) by (unfold IBLOCK; change IPB with 8; rewrite Z.div_small by lia; reflexivity).
  assert (Ed : di_at (with_tree s) inum = mkDinode ty 0 0 1 (Z.of_nat (length C)) (a :: replicate 12 0)) by (rewrite with_tree_dinode, Ei; exact E).
  assert (Hsb : k_sb (with_tree s) = sb1) by reflexivity. assert (Hlg : k_log (with_tree s) = log0) by reflexivity. pose proof (with_tree_view a) as Hv. rewrite Hd in Hv.
  assert (Hbm : bitmap (with_tree s) = bitmap1) by (unfold bitmap; rewrite with_tree_view; reflexivity). clear E Hd. set (w := with_tree s) in *. clearbody w.
  assert (Hn : forall b, 0 <= b < 62 -> ~ is_free w b).
  { intros b Hb [_ Hu]. rewrite Hbm, bitmap1_bits in Hu by (rewrite ?Hsb; lia). apply Z.ltb_ge in Hu. lia. }
  assert (Hh : forall b, 32 <= b < 62 -> home_ok (k_log w) b) by (intros b Hb; rewrite Hlg; split; [unfold FSSIZE; lia|cbn; lia]).
  set (x := core inum (mkDinode ty 0 0 1 (Z.of_nat (length C)) (a :: replicate 12 0))). assert (Had : forall V m, 0 <= m < MAXFILE -> faddr V x m = if m =? 0 then a else 0).
  { intros V m Hm. unfold faddr. change (ind x) with 0. cbn [Z.eqb]. unfold NDIRECT. destruct (Z.ltb_spec m 12); [|zcases].
    destruct (Z.eqb_spec m 0) as [->|Hz]; [done|]. unfold nthz. replace (Z.to_nat m) with (S (Z.to_nat (m - 1))) by lia. apply (lookup_total_replicate_2 12). lia. }
  split; rewrite ?Ed; cbn [di_type di_nlink di_size]; [done|done|lia| | |done|]; fold x.
  - split; rewrite ?Hsb; change (i_inum x) with inum; rewrite ?Ei; [done| |apply Hh; lia|apply Hn; lia|done|apply Hn; lia]. split; [done|done| |].
    + intros m Hm. rewrite Had by done. intros Hz. destruct (m =? 0); [|done]. split; [|change (ind x) with 0; lia]. split; rewrite ?Hbm, ?Hsb, ?Ei; cbn [sb_size sb_bmapstart sb1]; [apply Hh; lia|lia| |lia|lia].
      rewrite bitmap1_bits by lia. apply Z.ltb_lt. lia.
    + intros m m' Hm Hm'. rewrite !Had by done. zcases.
  - split; [rewrite MAXFILE_eq; unfold BSIZE; cbn; lia|]. intros i Hi'. cbn in Hi'. rewrite Had by (rewrite MAXFILE_eq; unfold BSIZE; zlia). unfold BSIZE. rewrite (proj2 (Z.eqb_eq (i / 512) 0)) by zlia. lia.
  - apply list_eq. intros i. unfold fbytes. rewrite list_lookup_fmap, Nat2Z.id. destruct (decide (i < length C)%nat) as [Hlt|Hge].
    2:{ rewrite lookup_seq_ge, (lookup_ge_None_2 C) by lia. done. }
    rewrite lookup_seq_lt by done. cbn [fmap option_fmap option_map]. unfold fbyte. rewrite Had by (rewrite MAXFILE_eq; unfold BSIZE; zlia). unfold BSIZE. replace ((0 + Z.of_nat (0 + i)) / 512) with 0 by zlia. cbn [Z.eqb].
    rewrite (proj2 (Z.eqb_neq a 0)) by lia. rewrite Hv, Z.mod_small by lia. unfold nthz, pad_block. replace (Z.to_nat (0 + Z.of_nat (0 + i))) with i by lia.
    rewrite lookup_total_app_l by done. symmetry. by apply list_lookup_lookup_total_lt.
Qed.

Lemma with_tree_in : fs_in [] tree1 icache1 [] None (with_tree s).
Proof using Hcur.
  assert (Hs : forall i, (i < NINODE)%nat -> icache1 !!! i = mkInode 0 0 0 (mkSleeplock false 0) false 0 0 0 0 0 (replicate 13 0)) by (intros i Hi; by apply lookup_total_replicate_2).
  assert (Hs' : forall i, (i < NINODE)%nat -> inode_at (with_tree s) i = mkInode 0 0 0 (mkSleeplock false 0) false 0 0 0 0 0 (replicate 13 0)) by exact Hs.
  split; [exact with_tree_txn|done| |apply length_replicate|..].
  - intros inum ty C. unfold tree1. destruct (Z.eqb_spec inum 1) as [->|]; [|destruct (Z.eqb_spec inum 2) as [->|]; [|done]]; intros [= <- <-].
    + apply (with_tree_node _ _ 60); [lia|by left|done|by vm_compute|by vm_compute|apply Nat.leb_le; by vm_compute|by vm_compute].
    + apply (with_tree_node _ _ 61); [lia|by right|done|by vm_compute|by vm_compute|apply Nat.leb_le; by vm_compute|done].
  - intros i Hi. split; rewrite Hs' by done; done.
  - intros i j Hi Hj. rewrite Hs' by done. cbn. lia.
  - intros i Hi. rewrite Hs', Hs by done. done.
  - intros i Hi. by rewrite Hs.
Qed.
End tree.

Lemma tree1_closed : closed tree1.
Proof.
  intros inum C e k i. unfold tree1. destruct (Z.eqb_spec inum 1) as [->|]; [|destruct (inum =? 2); [|done]; intros [= ?]; done]. intros [= <-]. unfold dir_find.
  change (seq 0 (length rootdir1 / 16)) with [0%nat; 1%nat]. cbn [find].
  destruct (named e (dirent rootdir1 0)); [|destruct (named e (dirent rootdir1 1)); [|done]]; intros [= _ <-]; vm_compute; eauto.
Qed.
Lemma icache1_free : two_free icache1.
Proof. exists 0%nat, 1%nat. split_and!; by (apply Nat.ltb_lt; vm_compute) || done. Qed.

(** The file "/run" is inode 2. *)
Lemma namei_resolves_witness : exists i s', namei (str "/run") (with_tree (set_k_cur (Some 0%nat) power_on)) = Ok (Some i) s' /\ i_inum (inode_at s' i) = 2.
Proof.
  set (s := set_k_cur (Some 0%nat) power_on). assert (Hc : is_Some (k_cur s)) by (exists 0%nat; reflexivity). assert (Hst : starts (with_tree s) (str "/run") 1) by reflexivity. clearbody s.
  destruct (namei_resolves tree1 icache1 (with_tree s) (str "/run") 1) as [(r & s' & E & _ & F) _].
  - exact tree1_closed.
  - exact icache1_free.
  - exact (with_tree_in s Hc).
  - exact Hst.
  - exists (T_DIR, rootdir1). reflexivity.
  - repeat (constructor; [discriminate|]). constructor.
  - apply bytes_forallb. reflexivity.
  - replace (resolve tree1 1 (elements (str "/run"))) with (Some 2) in F by (vm_compute; reflexivity). destruct F as (i & Er & _ & Ei & _). exists i, s'. rewrite <- Er. split; [exact E|exact Ei].
Defined.
