(* ===== verification/Proc.v ===== *)
(** * proc.c: processes

    A pointer to a process is its index in [k_ptable]; the trap frame and the
    context of a process, which the code keeps on its kernel stack, are fields
    of the record. *)

From S2P Require Import Prelude State CString Sleep Ide Bio Log Kalloc Console Vm Fs FsFile File.
Open Scope Z_scope.

Section proc.
Context `{Linker}.

(** ** Creation *)

Definition FL_IF : Z := 512.
Definition TRAPFRAME_SIZE : Z := 76.

Definition allocproc : kM (option nat) :=
  ps ← gets k_ptable;
  match find (fun i => bool_decide (p_state (ps !!! i) = UNUSED)) (seq 0 NPROC) with
  | None => mret None
  | Some p =>
    pid ← gets k_nextpid;
    upd_proc p (fun q => set_p_pid pid (set_p_state EMBRYO q));;
    modify (set_k_nextpid (i32 (pid + 1)));;
    kstack ← kalloc;
    upd_proc p (set_p_kstack kstack);;
    if kstack =? 0 then
      upd_proc p (set_p_state UNUSED);;
      mret None
    else
      sd32 (kstack + KSTACKSIZE - TRAPFRAME_SIZE - 4) ktrapret;;
      upd_proc p (set_p_context (mkContext 0 0 0 0 kforkret));;
      mret (Some p)
  end.

(** (SEG_UCODE << 3) | DPL_USER and (SEG_UDATA << 3) | DPL_USER *)
Definition user_cs : Z := Z.lor (Z.shiftl 3 3) 3.
Definition user_ds : Z := Z.lor (Z.shiftl 4 3) 3.
Definition init_tf : trapframe :=
  mkTrapframe 0 0 0 0 0 0 0 0 0 0 user_ds user_ds 0 0 0 user_cs FL_IF PGSIZE user_ds.

(** What safestrcpy leaves in the 16 bytes of a name. *)
Definition set_name (t : list Z) (q : proc) : proc :=
  set_p_name (splice (p_name q) 0 (safestrcpy (ptr_list t) 16)) q.

Definition userinit : kM unit :=
  r ← allocproc;
  modify (set_k_initproc r);;
  match r with
  | None => fault "userinit: no process"
  | Some p =>
    pgdir ← setupkvm;
    upd_proc p (set_p_pgdir pgdir);;
    panic_if (pgdir =? 0) "userinit: out of memory?";;
    cprintf (str "%p %p" ++ [10]) [ANum initcode_start; ANum initcode_size];;
    inituvm pgdir initcode_start initcode_size;;
    upd_proc p (fun q => set_name (str "initcode") (set_p_tf init_tf (set_p_sz PGSIZE q)));;
    cwd ← namei [SLASH];
    upd_proc p (fun q => set_p_state RUNNABLE (set_p_cwd cwd q))
  end.

Definition growproc (n : Z) : kM Z :=
  p ← myproc;
  q ← get_proc p;
  let sz := p_sz q in
  if 0 <? n then
    sz ← allocuvm (p_pgdir q) sz (u32 (sz + n));
    if sz =? 0 then mret (-1)
    else upd_proc p (set_p_sz sz);; switchuvm p;; mret 0
  else if n <? 0 then
    sz ← deallocuvm (p_pgdir q) sz (u32 (sz + n));
    if sz =? 0 then mret (-1)
    else upd_proc p (set_p_sz sz);; switchuvm p;; mret 0
  else upd_proc p (set_p_sz sz);; switchuvm p;; mret 0.

(** for(i = 0; i < NOFILE; i++) of fork, [n] descriptors to go. *)
Fixpoint fork_files (cur np : nat) (i n : nat) : kM unit :=
  match n with
  | O => mret tt
  | S n' =>
    q ← get_proc cur;
    match p_ofile q !!! i with
    | Some f =>
      g ← filedup f;
      upd_proc np (fun r => set_p_ofile (<[i := Some g]> (p_ofile r)) r)
    | None => mret tt
    end;;
    fork_files cur np (S i) n'
  end.

Definition fork : kM Z :=
  cur ← myproc;
  r ← allocproc;
  match r with
  | None => mret (-1)
  | Some np =>
    q ← get_proc cur;
    pgdir ← copyuvm (p_pgdir q) (p_sz q);
    upd_proc np (set_p_pgdir pgdir);;
    if pgdir =? 0 then
      c ← get_proc np;
      kfree (p_kstack c);;
      upd_proc np (fun c => set_p_state UNUSED (set_p_kstack 0 c));;
      mret (-1)
    else
      upd_proc np (fun c => set_p_tf (set_tf_eax 0 (p_tf q)) (set_p_parent (Some cur) (set_p_sz (p_sz q) c)));;
      fork_files cur np 0 NOFILE;;
      match p_cwd q with
      | Some ip => cwd ← idup ip; upd_proc np (set_p_cwd (Some cwd))
      | None => fault "fork: no cwd"
      end;;
      upd_proc np (set_name (p_name q));;
      c ← get_proc np;
      upd_proc np (set_p_state RUNNABLE);;
      mret (p_pid c)
  end.

(** ** Exit and wait *)

(** for(fd = 0; fd < NOFILE; fd++) of exit, [n] descriptors to go. *)
Fixpoint exit_files (cur fd n : nat) : kM unit :=
  match n with
  | O => mret tt
  | S n' =>
    q ← get_proc cur;
    match p_ofile q !!! fd with
    | Some f =>
      fileclose f;;
      upd_proc cur (fun q => set_p_ofile (<[fd := None]> (p_ofile q)) q)
    | None => mret tt
    end;;
    exit_files cur (S fd) n'
  end.

Definition wakeup1_ptr (p : option nat) : kM unit :=
  match p with Some i => wakeup1 (ChProc i) | None => mret tt end.

(** Pass abandoned children to init, [n] processes to go. *)
Fixpoint reparent (cur : nat) (init : option nat) (i n : nat) : kM unit :=
  match n with
  | O => mret tt
  | S n' =>
    q ← get_proc i;
    (when bool_decide (p_parent q = Some cur) do
       (upd_proc i (set_p_parent init);;
        when bool_decide (p_state q = ZOMBIE) do wakeup1_ptr init));;
    reparent cur init (S i) n'
  end.

(** sched, once the process has changed its state. *)
Definition sched : kM unit :=
  p ← myproc;
  q ← get_proc p;
  panic_if (bool_decide (p_state q = RUNNING)) "sched running";;
  modify (set_k_cur None).

(** What exit does with the lock of the process table. *)
Definition exit_tail (cur : nat) (init : option nat) : kM unit :=
  q ← get_proc cur;
  wakeup1_ptr (p_parent q);;
  reparent cur init 0 NPROC;;
  upd_proc cur (set_p_state ZOMBIE);;
  sched.

(** exit never returns: the scheduler runs on. *)
Definition exit {A} : kM A :=
  cur ← myproc;
  init ← gets k_initproc;
  panic_if (bool_decide (Some cur = init)) "init exiting";;
  exit_files cur 0 NOFILE;;
  begin_op;;
  q ← get_proc cur;
  match p_cwd q with Some ip => iput ip | None => fault "exit: no cwd" end;;
  end_op;;
  upd_proc cur (set_p_cwd None);;
  exit_tail cur init;;
  gone.

(** The scan of wait, [n] processes to go: the pid of the exited child it has
    cleaned up, or whether there are children. *)
Fixpoint wait_scan (cur i n : nat) (havekids : bool) : kM (Z + bool) :=
  match n with
  | O => mret (inr havekids)
  | S n' =>
    q ← get_proc i;
    if negb (bool_decide (p_parent q = Some cur)) then wait_scan cur (S i) n' havekids
    else if bool_decide (p_state q = ZOMBIE) then
      kfree (p_kstack q);;
      upd_proc i (set_p_kstack 0);;
      freevm (p_pgdir q);;
      upd_proc i (fun q => set_p_state UNUSED (set_p_killed false (set_p_name (setz (p_name q) 0 0)
        (set_p_parent None (set_p_pid 0 q)))));;
      mret (inl (p_pid q))
    else wait_scan cur (S i) n' true
  end.
Definition wait : kM Z :=
  cur ← myproc;
  r ← wait_scan cur 0 NPROC false;
  match r with
  | inl pid => mret pid
  | inr havekids =>
    q ← get_proc cur;
    if negb havekids || p_killed q then mret (-1) else sleep (ChProc cur)
  end.

(** ** Scheduling *)

(** The scan of the scheduler: the first runnable process from [i] on. *)
Definition scheduler_next (ps : list proc) (i : nat) : option nat :=
  find (fun j => bool_decide (p_state (ps !!! j) = RUNNABLE)) (seq i (NPROC - i)).
(** One turn of the scheduler, the table being as it finds it at that time: the
    process it switches to and where it goes on, or the end of the table. *)
Definition scheduler_step (ps : list proc) (i : nat) : option nat * nat :=
  match scheduler_next ps i with
  | Some p => (Some p, S p)
  | None => (None, O)
  end.
(** The switch to process [p] and, later, back. *)
Definition scheduler_run (p : nat) : kM unit :=
  modify (set_k_cur (Some p));;
  switchuvm p;;
  upd_proc p (set_p_state RUNNING).
Definition scheduler_back : kM unit :=
  switchkvm;;
  modify (set_k_cur None).

Definition yield : kM unit :=
  p ← myproc;
  upd_proc p (set_p_state RUNNABLE);;
  sched.

(** forkret with its static variable [first]; its new value. *)
Definition forkret (first : bool) : kM bool :=
  (when first do (iinit ROOTDEV;; initlog ROOTDEV));;
  mret false.

(** The process resumes after sleep. *)
Definition sleep_tidy (p : nat) : kM unit := upd_proc p (set_p_chan None).

Definition kill (pid : Z) : kM Z :=
  ps ← gets k_ptable;
  match find (fun i => p_pid (ps !!! i) =? pid) (seq 0 NPROC) with
  | Some p =>
    upd_proc p (fun q => let q := set_p_killed true q in
      if bool_decide (p_state q = SLEEPING) then set_p_state RUNNABLE q else q);;
    mret 0
  | None => mret (-1)
  end.
End proc.
