(* ===== verification/Fork.v ===== *)
(** * fork

    The child that fork makes: its slot, its memory, and the references it takes
    to the open files and the current directory of its parent. *)

From S2P Require Import Prelude State CString Sleep Ide Bio Log Kalloc PageMath KallocSpec Console ConsoleOut Vm VmSpec VmUser VmCopy VmProps Fs FsFile File Proc.
Open Scope Z_scope.

Section fork.
Context `{L : Linker}.
Implicit Types (s : kernel) (A : aspace) (F l : list Z).

(** ** allocproc *)

(** What allocproc makes of a slot. *)
Definition slot_taken (pid kst : Z) (q : proc) : proc :=
  set_p_context (mkContext 0 0 0 0 kforkret) (set_p_kstack kst (set_p_pid pid (set_p_state EMBRYO q))).
(** A slot it gave up on. *)
Definition slot_left (pid : Z) (q : proc) : proc := set_p_state UNUSED (set_p_kstack 0 (set_p_pid pid (set_p_state EMBRYO q))).

Definition free_slot s (p : nat) : Prop :=
  (p < NPROC)%nat /\ p_state (k_ptable s !!! p) = UNUSED /\ forall i, (i < p)%nat -> p_state (k_ptable s !!! i) <> UNUSED.

Lemma find_free_slot s :
  match find (fun i => bool_decide (p_state (k_ptable s !!! i) = UNUSED)) (seq 0 NPROC) with
  | Some p => free_slot s p
  | None => forall i, (i < NPROC)%nat -> p_state (k_ptable s !!! i) <> UNUSED
  end.
Proof using.
  destruct (find _ _) as [p|] eqn:E.
  - apply find_seq_some in E as (Hp & Hu & Hb). apply bool_decide_eq_true in Hu. split_and!; [lia|done|].
    intros i Hi Hu'. specialize (Hb i ltac:(lia)). cbv beta in Hb. by rewrite bool_decide_eq_true_2 in Hb.
  - intros i Hi Hu. apply (find_seq_none _ _ _ i) in E; [|lia]. cbv beta in E. by rewrite bool_decide_eq_true_2 in E.
Qed.

(** Only the process table and the counter of pids change besides memory. *)
Definition only_procs s s' : Prop :=
  k_ftable s' = k_ftable s /\ k_icache s' = k_icache s /\ k_cur s' = k_cur s /\ k_initproc s' = k_initproc s.

Lemma mem_only_set s s' pt m : mem_only s s' ->
  set_k_ptable pt (set_k_mem m s') = set_k_mem m (set_k_kmem (k_kmem s') (set_k_ptable pt s)) /\ k_ptable s' = k_ptable s.
Proof using. unfold mem_only. intros E. rewrite E. by split. Qed.

Lemma allocproc_spec s F T l :
  vm_tab s F T l -> length (k_ptable s) = NPROC ->
  (allocproc s = Ok None s /\ forall i, (i < NPROC)%nat -> p_state (k_ptable s !!! i) <> UNUSED) \/
  exists p, free_slot s p /\
    ((l = [] /\ exists s', allocproc s = Ok None s' /\ k_ptable s' = alter (slot_left (k_nextpid s)) p (k_ptable s) /\
        vm_tab s' F T [] /\ k_mem s' = k_mem s /\ only_procs s s') \/
     exists kst l' s', l = kst :: l' /\ allocproc s = Ok (Some p) s' /\
        s' = set_k_mem (k_mem s') (set_k_kmem (k_kmem s') (set_k_nextpid (i32 (k_nextpid s + 1))
          (set_k_ptable (alter (slot_taken (k_nextpid s) kst) p (k_ptable s)) s))) /\
        vm_tab s' (kst :: F) T l' /\ keeps (F ++ tpages T) s s' /\ only [kst] (k_mem s) (k_mem s')).
Proof using.
  intros Hv Hlen. unfold allocproc. rewrite (bind_ok _ _ s (k_ptable s) s) by done. pose proof (find_free_slot s) as Hfree.
  destruct (find _ _) as [p|]; [right; exists p; split; [done|]|by left]. destruct Hfree as (Hp & Hu & _).
  rewrite (bind_ok _ _ s (k_nextpid s) s) by done.
  set (s1 := set_k_ptable (alter (fun q => set_p_pid (k_nextpid s) (set_p_state EMBRYO q)) p (k_ptable s)) s).
  rewrite (bind_ok _ _ s tt s1) by done. set (s2 := set_k_nextpid (i32 (k_nextpid s + 1)) s1). rewrite (bind_ok _ _ s1 tt s2) by done.
  assert (Hv2 : vm_tab s2 F T l) by (by apply (vm_tab_same s)). destruct l as [|kst l]; [left|right].
  - split; [done|]. rewrite (bind_ok _ _ _ _ _ (kalloc_none s2 (vt_free _ _ _ _ Hv2))). eexists. split; [reflexivity|].
    split_and!; [|by apply (vm_tab_same s2)|done|by split_and!]. cbn [set_k_ptable k_ptable s2 s1 set_k_nextpid]. by rewrite !list_alter_alter_eq.
  - destruct (kalloc_tab _ _ _ _ _ Hv2) as (s3 & E3 & Hv3 & Hm3 & Ho3). rewrite (bind_ok _ _ _ _ _ E3).
    assert (Hkst : page_ok kst) by (apply (vt_page_in _ _ _ _ _ Hv); set_solver).
    set (s4 := set_k_ptable (alter (set_p_kstack kst) p (k_ptable s3)) s3). rewrite (bind_ok _ _ s3 tt s4) by done.
    rewrite (proj2 (Z.eqb_neq kst 0)) by (by apply page_ok_nz).
    set (f := fun m : mem => store32 m (kst + KSTACKSIZE - TRAPFRAME_SIZE - 4) ktrapret).
    assert (Hf : only [kst] (k_mem s4) (f (k_mem s4))).
    { intros x Hx. apply store32_outside. intros Hin. apply (Hx kst); [by left|]. unfold in_page, PGSIZE, KSTACKSIZE, TRAPFRAME_SIZE in *. lia. }
    assert (Hv4 : vm_tab s4 (kst :: F) T l) by (by apply (vm_tab_same s3)).
    pose proof (vm_tab_write s4 (kst :: F) T l kst f Hv4 ltac:(by left) Hf) as Hv5.
    set (s5 := set_k_ptable (alter (set_p_context (mkContext 0 0 0 0 kforkret)) p (k_ptable s4)) (set_k_mem (f (k_mem s4)) s4)).
    assert (Hk5 : keeps (F ++ tpages T) s4 s5).
    { apply (only_keeps [kst]); [exact Hf|]. intros b c ->%list_elem_of_singleton Hc. split_and!; [done|apply (vt_page_in _ _ _ _ _ Hv); rewrite app_assoc; apply elem_of_app; by left|].
      intros ->. pose proof (vt_nodup _ _ _ _ Hv) as Hnd. rewrite app_assoc in Hnd. apply list.NoDup_app in Hnd as (_ & Hnd & _). apply (Hnd c Hc). by left. }
    exists kst, l, s5. split; [done|]. split; [reflexivity|]. split_and!; [|by apply (vm_tab_same (set_k_mem (f (k_mem s4)) s4))| |].
    + change s5 with (set_k_ptable (alter (set_p_context (mkContext 0 0 0 0 kforkret)) p (alter (set_p_kstack kst) p (k_ptable s3))) (set_k_mem (f (k_mem s3)) s3)) at 1.
      rewrite (proj1 (mem_only_set _ _ _ _ Ho3)), (proj2 (mem_only_set _ _ [] (k_mem s3) Ho3)). cbn [s2 s1 set_k_ptable k_ptable set_k_nextpid]. by rewrite !list_alter_alter_eq.
    + intros a x Ha Hx. rewrite (Hk5 a x Ha Hx). exact (f_equal (fun m => m x) Hm3).
    + change (k_mem s4) with (k_mem s3) in Hf. rewrite Hm3 in Hf. intros x Hx. cbn [s5 set_k_ptable set_k_mem k_mem s4]. rewrite Hm3. by apply Hf.
Qed.

(** ** The open files *)

Definition dup (ft : list file) (o : option nat) : list file :=
  match o with Some f => alter (fun x => set_f_ref (f_ref x + 1) x) f ft | None => ft end.
Definition dup_all (ft : list file) (os : list (option nat)) : list file := foldl dup ft os.
(** The descriptors that refer to file [f]. *)
Definition refers (f : nat) (os : list (option nat)) : Z := Z.of_nat (length (filter (fun o => o = Some f) os)).

Lemma length_dup ft o : length (dup ft o) = length ft.
Proof using. destruct o; cbn; [by rewrite length_alter|done]. Qed.
Lemma dup_ref ft o f : (f < length ft)%nat -> f_ref (dup ft o !!! f) = f_ref (ft !!! f) + (if decide (o = Some f) then 1 else 0).
Proof using.
  intros Hf. destruct o as [g|]; cbn [dup]; [|rewrite decide_False by done; lia]. destruct (decide (g = f)) as [->|Hne].
  - rewrite alter_total_eq by done. rewrite decide_True by done. done.
  - rewrite alter_total_ne by done. rewrite decide_False by congruence. lia.
Qed.
Lemma dup_all_ref os : forall ft f, (f < length ft)%nat -> f_ref (dup_all ft os !!! f) = f_ref (ft !!! f) + refers f os.
Proof using.
  induction os as [|o os IH]; intros ft f Hf; [exact (eq_sym (Z.add_0_r _))|]. change (dup_all ft (o :: os)) with (dup_all (dup ft o) os).
  rewrite IH by (by rewrite length_dup). rewrite dup_ref by done. unfold refers. rewrite filter_cons. destruct (decide (o = Some f)); cbn [length]; lia.
Qed.

Definition files_open (ft : list file) (os : list (option nat)) : Prop :=
  forall f, Some f ∈ os -> (f < length ft)%nat /\ 1 <= f_ref (ft !!! f).
Lemma files_open_dup ft o os : files_open ft os -> files_open (dup ft o) os.
Proof using.
  intros Ho f Hf. destruct (Ho f Hf) as [H1 H2]. rewrite length_dup, dup_ref by done. split; [done|]. case_decide; lia.
Qed.

(** The child's descriptors when those below [i] have been copied. *)
Definition partly (qs : list (option nat)) (i : nat) : list (option nat) := take i qs ++ replicate (NOFILE - i) None.

Lemma partly_step qs i : length qs = NOFILE -> (i < NOFILE)%nat -> <[i := qs !!! i]> (partly qs i) = partly qs (S i).
Proof using.
  intros Hl Hi. unfold partly. rewrite (take_S_r _ _ (qs !!! i)) by (apply list_lookup_lookup_total_lt; lia).
  replace (NOFILE - i)%nat with (S (NOFILE - S i)) by lia. cbn [replicate].
  rewrite insert_app_r_alt by (rewrite length_take; lia). rewrite length_take, Nat.min_l, Nat.sub_diag by lia. cbn. by rewrite <- app_assoc.
Qed.
Lemma partly_none qs i : length qs = NOFILE -> (i < NOFILE)%nat -> qs !!! i = None -> partly qs i = partly qs (S i).
Proof using.
  intros Hl Hi E. rewrite <- partly_step by done. rewrite E. symmetry. apply list_insert_id. unfold partly.
  rewrite lookup_app_r by (rewrite length_take; lia). apply lookup_replicate_2. rewrite length_take. lia.
Qed.

Lemma alter_same_here (f : proc -> proc) (l : list proc) i : f (l !!! i) = l !!! i -> alter f i l = l.
Proof using.
  intros E. apply list_eq. intros j. destruct (decide (j = i)) as [->|Hne]; [|by rewrite list_lookup_alter_ne].
  rewrite list_lookup_alter_eq. destruct (l !! i) as [x|] eqn:Ex; [|done]. cbn. rewrite (list_lookup_total_correct _ _ _ Ex) in E. by rewrite E.
Qed.
Lemma set_p_ofile_id q : set_p_ofile (p_ofile q) q = q.
Proof using. by destruct q. Qed.

Lemma fork_files_spec cur np n : forall s i,
  let qs := p_ofile (k_ptable s !!! cur) in
  cur <> np -> (np < length (k_ptable s))%nat -> length qs = NOFILE -> (i + n = NOFILE)%nat -> files_open (k_ftable s) qs ->
  p_ofile (k_ptable s !!! np) = partly qs i ->
  fork_files cur np i n s =
    Ok tt (set_k_ftable (dup_all (k_ftable s) (drop i qs)) (set_k_ptable (alter (set_p_ofile qs) np (k_ptable s)) s)).
Proof using.
  induction n as [|n IH]; intros s i qs Hne Hnp Hl Hi Ho Hc; cbn [fork_files].
  { rewrite drop_ge, alter_same_here; [by destruct s| |lia]. rewrite <- (set_p_ofile_id (k_ptable s !!! np)) at 2. f_equal. rewrite Hc. unfold partly.
    replace (NOFILE - i)%nat with 0%nat by lia. by rewrite take_ge, app_nil_r by lia. }
  rewrite (bind_ok _ _ s (k_ptable s !!! cur) s) by done. fold qs.
  rewrite (drop_S qs (qs !!! i) i) by (apply list_lookup_lookup_total_lt; lia). change (dup_all (k_ftable s) (qs !!! i :: drop (S i) qs)) with (dup_all (dup (k_ftable s) (qs !!! i)) (drop (S i) qs)).
  destruct (qs !!! i) as [f|] eqn:Ef.
  - destruct (Ho f) as [Hf Hr]; [rewrite <- Ef; apply list_elem_of_lookup_total_2; lia|].
    set (s1 := set_k_ftable (dup (k_ftable s) (Some f)) s). rewrite (bind_ok _ _ s tt (set_k_ptable (alter (fun r => set_p_ofile (<[i := Some f]> (p_ofile r)) r) np (k_ptable s1)) s1)).
    2:{ rewrite (bind_ok _ _ s f s1); [done|]. unfold filedup. rewrite (bind_ok _ _ s (k_ftable s !!! f) s) by done. rewrite (proj2 (Z.ltb_ge _ 1)) by lia. done. }
    set (s2 := set_k_ptable _ s1). assert (Eq : p_ofile (k_ptable s2 !!! cur) = qs) by (cbn; by rewrite alter_total_ne).
    assert (Es2 : k_ptable s2 !!! np = set_p_ofile (<[i := Some f]> (p_ofile (k_ptable s !!! np))) (k_ptable s !!! np)) by (cbn; by rewrite alter_total_eq).
    rewrite (IH s2 (S i)); rewrite ?Eq; [|done|cbn; by rewrite length_alter|done|lia|by apply files_open_dup|rewrite Es2; cbn; rewrite Hc, <- Ef; apply partly_step; lia || done].
    f_equal. cbn [set_k_ftable set_k_ptable k_ptable s2 s1 k_ftable]. by rewrite list_alter_alter_eq.
  - rewrite (bind_ok _ _ s tt s) by done. cbn [dup]. apply IH; [done|done|done|lia|done|]. by rewrite <- partly_none by (done || lia).
Qed.

(** ** fork *)

(** A process in a system call: its address space is [A], the free pages are [l]
    and the other pages in use [F]; its files are open, and an unused slot has no
    open files. *)
Record parent s (cur : nat) F A l (ip : nat) : Prop := {
  pa_cur : k_cur s = Some cur;
  pa_len : length (k_ptable s) = NPROC;
  pa_lt : (cur < NPROC)%nat;
  pa_used : p_state (k_ptable s !!! cur) <> UNUSED;
  pa_vm : vm_user s F A l;
  pa_dir : p_pgdir (k_ptable s !!! cur) = t_dir (a_tab A);
  pa_sz : 0 <= p_sz (k_ptable s !!! cur) <= KERNBASE;
  pa_mapped : forall va, 0 <= va < p_sz (k_ptable s !!! cur) -> is_Some (translate (k_mem s) (t_dir (a_tab A)) va);
  pa_files : length (p_ofile (k_ptable s !!! cur)) = NOFILE;
  pa_open : files_open (k_ftable s) (p_ofile (k_ptable s !!! cur));
  pa_cwd : p_cwd (k_ptable s !!! cur) = Some ip;
  pa_unused : forall i, (i < NPROC)%nat -> p_state (k_ptable s !!! i) = UNUSED -> p_ofile (k_ptable s !!! i) = replicate NOFILE None
}.

(** The child's slot. *)
Definition child_of (cur : nat) (q : proc) (pid kst dir : Z) (ip : nat) (c : proc) : proc :=
  set_p_state RUNNABLE (set_name (p_name q) (set_p_cwd (Some ip) (set_p_ofile (p_ofile q)
    (set_p_tf (set_tf_eax 0 (p_tf q)) (set_p_parent (Some cur) (set_p_sz (p_sz q) (set_p_pgdir dir (slot_taken pid kst c)))))))).

(** A fork that failed, for want of a slot or of memory: what it took is given
    back, and no process has changed. *)
Record fork_failed s (sz : Z) l s' : Prop := {
  ff_why : (forall i, (i < NPROC)%nat -> p_state (k_ptable s !!! i) <> UNUSED) \/ Z.of_nat (length l) <= 1027 + (sz + 4095) / 4096;
  ff_free : exists l', freelist s' l' /\ l' ≡ₚ l;
  ff_procs : forall i, p_state (k_ptable s !!! i) <> UNUSED -> k_ptable s' !!! i = k_ptable s !!! i;
  ff_unused : forall i, p_state (k_ptable s !!! i) = UNUSED -> p_state (k_ptable s' !!! i) = UNUSED;
  ff_only : only_procs s s'
}.

(** After allocproc, when there is no memory for the child. *)
Lemma fork_oom s cur F A l ip np kst l1 s1 s2 l2 :
  parent s cur F A l ip -> l = kst :: l1 -> free_slot s np -> k_ptable s1 = alter (slot_taken (k_nextpid s) kst) np (k_ptable s) ->
  vm_user s1 (kst :: F) A l1 -> keeps (F ++ apages A) s s1 -> only_procs s s1 ->
  mem_cons s1 s2 -> keeps ((kst :: F) ++ apages A) s1 s2 -> freelist s2 l2 -> l2 ≡ₚ l1 -> Z.of_nat (length l1) <= 1026 + (p_sz (k_ptable s !!! cur) + 4095) / 4096 ->
  exists s', (upd_proc np (set_p_pgdir 0);; c ← get_proc np; kfree (p_kstack c);; upd_proc np (fun c => set_p_state UNUSED (set_p_kstack 0 c));; mret (-1)) s2 = Ok (-1) s' /\
    keeps (F ++ apages A) s s' /\ fork_failed s (p_sz (k_ptable s !!! cur)) l s'.
Proof using.
  intros P -> (Hnp & Hun & _) Ep Hu1 Hk1 Ho1 [Em _] Hk2 Hf2 Hp2 Hle. set (s3 := set_k_ptable (alter (set_p_pgdir 0) np (k_ptable s2)) s2).
  pose proof (pa_len _ _ _ _ _ _ P) as Hlen.
  assert (Ept2 : k_ptable s2 = k_ptable s1) by (by rewrite Em). assert (Ho2 : only_procs s1 s2) by (rewrite Em; by split_and!).
  rewrite (bind_ok _ _ s2 tt s3), (bind_ok _ _ s3 (k_ptable s3 !!! np) s3) by done.
  replace (p_kstack (k_ptable s3 !!! np)) with kst.
  2:{ cbn. rewrite alter_total_eq by (rewrite Ept2, Ep, length_alter; lia). rewrite Ept2, Ep, alter_total_eq by lia. done. }
  assert (Hnd : NoDup (kst :: (F ++ apages A) ++ l2)).
  { rewrite Hp2. assert (Hperm : (kst :: (F ++ apages A) ++ l1) ≡ₚ (((kst :: F) ++ upages (a_ups A)) ++ tpages (a_tab A) ++ l1)) by (unfold apages; solve_Permutation).
    rewrite Hperm. apply (vt_nodup _ _ _ _ (vu_tab _ _ _ _ Hu1)). }
  assert (Hpg : Forall page_ok (kst :: F ++ apages A)).
  { pose proof (vt_page _ _ _ _ (vu_tab _ _ _ _ Hu1)) as Hpg. unfold apages. rewrite !Forall_app in Hpg. apply Forall_cons_2; [|rewrite !Forall_app].
    - destruct Hpg as ([Hpg _] & _). by apply Forall_cons in Hpg as [? _].
    - destruct Hpg as ([Hpg ?] & ? & _). apply Forall_cons in Hpg as [_ ?]. done. }
  assert (Hf3 : freelist s3 l2) by (by apply (freelist_ext s2)).
  destruct (kfree_page s3 (F ++ apages A) l2 kst Hf3 Hnd Hpg) as (s4 & E4 & Hf4 & Hk4 & Ho4). rewrite (bind_ok _ _ _ _ _ E4).
  assert (Es4 : k_ptable s4 = k_ptable s3 /\ only_procs s3 s4) by (rewrite Ho4; by split_and!). destruct Es4 as [Ep4 Eo4].
  eexists. split; [reflexivity|]. split.
  - intros a x Ha Hx. cbn. rewrite (Hk4 a x Ha Hx). cbn. rewrite (Hk2 a x); [by apply (Hk1 a x)| |done]. apply elem_of_app in Ha as [Ha|Ha]; apply elem_of_app; [left; by right|by right].
  - assert (Et : forall i, i <> np -> k_ptable s4 !!! i = k_ptable s !!! i).
    { intros i Hi. rewrite Ep4. cbn. rewrite alter_total_ne, Ept2, Ep, alter_total_ne by done. done. }
    split; cbn -[Z.add Z.of_nat].
    + right. cbn [length]. lia.
    + exists (kst :: l2). split; [by apply (freelist_ext s4)|by rewrite Hp2].
    + intros i Hi. rewrite alter_total_ne by (intros ->; congruence). apply Et. by intros ->.
    + intros i Hi. destruct (decide (i = np)) as [->|Hne]; [|rewrite alter_total_ne by done; by rewrite Et].
      rewrite alter_total_eq; [done|]. rewrite Ep4. cbn. rewrite length_alter, Ept2, Ep, length_alter. lia.
    + destruct Ho1 as (A1 & A2 & A3 & A4), Ho2 as (B1 & B2 & B3 & B4), Eo4 as (C1 & C2 & C3 & C4). unfold only_procs. cbn in *. split_and!; congruence.
Qed.

(** With the child's memory in [dir]. *)
Definition fork_rest (cur np : nat) (q : proc) : kM Z :=
  upd_proc np (fun c => set_p_tf (set_tf_eax 0 (p_tf q)) (set_p_parent (Some cur) (set_p_sz (p_sz q) c)));;
  fork_files cur np 0 NOFILE;;
  match p_cwd q with
  | Some ip => cwd ← idup ip; upd_proc np (set_p_cwd (Some cwd))
  | None => fault "fork: no cwd"
  end;;
  upd_proc np (set_name (p_name q));;
  c ← get_proc np;
  upd_proc np (set_p_state RUNNABLE);;
  mret (p_pid c).

Lemma fork_rest_runs s cur F A l ip np kst dir s2 :
  let q := k_ptable s !!! cur in
  parent s cur F A l ip -> free_slot s np ->
  k_ptable s2 = alter (set_p_pgdir dir) np (alter (slot_taken (k_nextpid s) kst) np (k_ptable s)) -> k_ftable s2 = k_ftable s ->
  exists s', fork_rest cur np q s2 = Ok (k_nextpid s) s' /\
    k_ptable s' = alter (child_of cur q (k_nextpid s) kst dir ip) np (k_ptable s) /\
    k_ftable s' = dup_all (k_ftable s) (p_ofile q) /\ k_icache s' = alter (fun x => set_i_ref (i_ref x + 1) x) ip (k_icache s2) /\
    k_mem s' = k_mem s2 /\ k_kmem s' = k_kmem s2 /\ k_cur s' = k_cur s2 /\ k_initproc s' = k_initproc s2.
Proof using.
  intros q P (Hnp & Hun & _) Ep Ef. pose proof (pa_len _ _ _ _ _ _ P) as Hlen.
  assert (Hne : cur <> np) by (intros <-; by apply (pa_used _ _ _ _ _ _ P)). unfold fork_rest.
  set (f3 := fun c => set_p_tf (set_tf_eax 0 (p_tf q)) (set_p_parent (Some cur) (set_p_sz (p_sz q) c))).
  set (s3 := set_k_ptable (alter f3 np (k_ptable s2)) s2). rewrite (bind_ok _ _ s2 tt s3) by done.
  assert (Ec : k_ptable s3 !!! cur = q) by (cbn; by rewrite alter_total_ne, Ep, !alter_total_ne).
  assert (En : k_ptable s3 !!! np = f3 (set_p_pgdir dir (slot_taken (k_nextpid s) kst (k_ptable s !!! np)))).
  { cbn. rewrite alter_total_eq by (rewrite Ep, !length_alter; lia). by rewrite Ep, !alter_total_eq by (rewrite ?length_alter; lia). }
  rewrite (bind_ok _ _ _ _ _ (fork_files_spec cur np NOFILE s3 0 Hne ltac:(cbn; rewrite length_alter, Ep, !length_alter; lia)
    ltac:(rewrite Ec; apply (pa_files _ _ _ _ _ _ P)) eq_refl ltac:(rewrite Ec; cbn; rewrite Ef; apply (pa_open _ _ _ _ _ _ P))
    ltac:(rewrite En; exact (pa_unused _ _ _ _ _ _ P np Hnp Hun)))). rewrite Ec, drop_0. fold q.
  rewrite (pa_cwd _ _ _ _ _ _ P : p_cwd q = Some ip). set (s4 := set_k_ftable _ _).
  set (s5 := set_k_icache (alter (fun x => set_i_ref (i_ref x + 1) x) ip (k_icache s4)) s4).
  set (s6 := set_k_ptable (alter (set_p_cwd (Some ip)) np (k_ptable s5)) s5).
  rewrite (bind_ok _ _ s4 tt s6) by (by rewrite (bind_ok _ _ s4 ip s5)).
  set (s7 := set_k_ptable (alter (set_name (p_name q)) np (k_ptable s6)) s6). rewrite (bind_ok _ _ s6 tt s7), (bind_ok _ _ s7 (k_ptable s7 !!! np) s7) by done.
  set (s8 := set_k_ptable (alter (set_p_state RUNNABLE) np (k_ptable s7)) s7). rewrite (bind_ok _ _ s7 tt s8) by done.
  assert (E8 : k_ptable s8 = alter (child_of cur q (k_nextpid s) kst dir ip) np (k_ptable s)).
  { cbn [s8 s7 s6 s5 s4 s3 set_k_ptable set_k_icache set_k_ftable k_ptable]. rewrite Ep. by rewrite !list_alter_alter_eq. }
  assert (E7 : p_pid (k_ptable s7 !!! np) = p_pid (k_ptable s8 !!! np)).
  { cbn [s8 set_k_ptable k_ptable]. rewrite alter_total_eq; [done|]. cbn [s7 s6 s5 s4 s3 set_k_ptable set_k_icache set_k_ftable k_ptable]. rewrite Ep, !length_alter. lia. }
  exists s8. rewrite E7, E8, alter_total_eq by lia. split_and!; [done|done|cbn; by rewrite Ef|done..].
Qed.

(** C11. fork makes a copy of the process.  It returns -1, only without an unused
    slot or enough free pages and with the pages it took given back and no
    process changed, or the pid of a child in the first unused
    slot: the child is runnable, has the parent's registers with 0 in %eax, its
    size, its open files and its directory, each with one more reference, and an
    address space of its own pages with the parent's bytes at every address; the
    parent, its memory and every other process are as before. *)
Theorem fork_copies `{!LinkedAt} s cur F A l ip :
  let q := k_ptable s !!! cur in
  parent s cur F A l ip ->
  exists r s', fork s = Ok r s' /\ keeps (F ++ apages A) s s' /\
    (r = -1 /\ fork_failed s (p_sz q) l s' \/
     exists np kst D l', let c := k_ptable s' !!! np in
       free_slot s np /\ r = k_nextpid s /\
       vm_user s' ((kst :: F) ++ apages A) D l' /\ (kst :: apages D ++ l') ≡ₚ l /\
       c = child_of cur q r kst (t_dir (a_tab D)) ip (k_ptable s !!! np) /\
       (forall i, i <> np -> k_ptable s' !!! i = k_ptable s !!! i) /\
       (forall va, 0 <= va < p_sz q -> user_byte s' (p_pgdir c) va = user_byte s (p_pgdir q) va) /\
       (forall va, (p_sz q + 4095) / 4096 <= va / 4096 -> va < KERNBASE -> user_byte s' (p_pgdir c) va = None) /\
       (forall f, (f < length (k_ftable s))%nat -> f_ref (k_ftable s' !!! f) = f_ref (k_ftable s !!! f) + refers f (p_ofile q)) /\
       k_icache s' = alter (fun x => set_i_ref (i_ref x + 1) x) ip (k_icache s)).
Proof using.
  intros q P. pose proof (pa_vm _ _ _ _ _ _ P) as Hu. pose proof (pa_len _ _ _ _ _ _ P) as Hlen. pose proof (pa_sz _ _ _ _ _ _ P) as Hsz. fold q in Hsz.
  unfold fork. rewrite (bind_ok _ _ s cur s) by (unfold myproc; by rewrite (pa_cur _ _ _ _ _ _ P)).
  destruct (allocproc_spec s _ _ l (vu_tab _ _ _ _ Hu) Hlen) as [[E Hfull]|(np & Hfs & [(-> & s1 & E & Ep & Hv & Em & Ho)|(kst & l1 & s1 & -> & E & Es1 & Hv & Hk & _)])];
    rewrite (bind_ok _ _ _ _ _ E).
  { exists (-1), s. split_and!; [done|done|]. left. split; [done|]. split; [by left| |done|done|by split_and!]. exists l. split; [|done]. apply (vt_free _ _ _ _ (vu_tab _ _ _ _ Hu)). }
  { exists (-1), s1. split_and!; [done|by intros a x _ _; rewrite Em|]. left. split; [done|]. destruct Hfs as (Hnp & Hun & _).
    split; [right; cbn; unfold KERNBASE in Hsz; zlia|exists []; split; [apply (vt_free _ _ _ _ Hv)|done]| | |done]; intros i Hi; rewrite Ep.
    - rewrite alter_total_ne; [done|]. by intros ->.
    - destruct (decide (i = np)) as [->|Hne]; [by rewrite alter_total_eq by lia|by rewrite alter_total_ne]. }
  assert (Ep : k_ptable s1 = alter (slot_taken (k_nextpid s) kst) np (k_ptable s) /\ only_procs s s1) by (rewrite Es1; by split_and!). destruct Ep as [Ep Ho].
  assert (Hu1 : vm_user s1 (kst :: F) A l1) by (split; [exact Hv|apply Hu]). rewrite <- app_assoc in Hk.
  assert (Hkc : keeps (upages (a_ups A)) s s1) by (apply (keeps_sub _ (F ++ upages (a_ups A) ++ tpages (a_tab A))); [|done]; intros a Ha; apply elem_of_app; right; apply elem_of_app; by left).
  assert (Hne : cur <> np) by (intros <-; by apply (pa_used _ _ _ _ _ _ P), Hfs).
  rewrite (bind_ok _ _ s1 q s1) by (unfold get_proc, gets; by rewrite Ep, alter_total_ne).
  rewrite (pa_dir _ _ _ _ _ _ P : p_pgdir q = _).
  destruct (copyuvm_copies s1 (kst :: F) A l1 (p_sz q) Hu1 Hsz) as (r & s2 & E2 & Hk2 & Hm2 & R).
  { intros va Hva. rewrite (proj1 (space_kept s F A (kst :: l1) s1 _ l1 va Hu Hu1 Hkc ltac:(lia))). by apply (pa_mapped _ _ _ _ _ _ P). }
  rewrite (bind_ok _ _ _ _ _ E2). destruct R as [(-> & (l2 & Hf2 & Hp2) & Hle)|(D & l2 & -> & HuD & Hp2 & Hcp & Hno)].
  { destruct (fork_oom s cur F A (kst :: l1) ip np kst l1 s1 s2 l2 P eq_refl Hfs Ep Hu1 Hk Ho Hm2 Hk2 Hf2 Hp2 Hle) as (s' & E' & Hk' & Hff).
    exists (-1), s'. split_and!; [exact E'|done|by left]. }
  destruct Hm2 as [Em2 _]. assert (Ept2 : k_ptable s2 = k_ptable s1 /\ only_procs s1 s2) by (rewrite Em2; by split_and!). destruct Ept2 as [Ept2 Ho2].
  set (s3 := set_k_ptable (alter (set_p_pgdir (t_dir (a_tab D))) np (k_ptable s2)) s2). rewrite (bind_ok _ _ s2 tt s3) by done.
  rewrite (proj2 (Z.eqb_neq _ 0)) by (apply page_ok_nz, (vt_page_in _ _ _ _ _ (vu_tab _ _ _ _ HuD)); set_solver).
  destruct (fork_rest_runs s cur F A (kst :: l1) ip np kst (t_dir (a_tab D)) s3 P Hfs) as (s' & E' & Ept' & Eft & Eic & Em' & Ekm & _).
  { cbn. by rewrite Ept2, Ep. } { cbn. destruct Ho2 as (-> & _), Ho as (-> & _). done. }
  exists (k_nextpid s), s'. split; [exact E'|]. split.
  { intros a x Ha Hx. rewrite Em'. cbn. rewrite (Hk2 a x); [by apply (Hk a x)| |done]. cbn [app]. by right. }
  right. exists np, kst, D, l2. rewrite Ept', alter_total_eq by (rewrite Hlen; apply Hfs).
  split_and!; [apply Hfs..|done|by apply (vm_user_same s2)|by rewrite Hp2|done|intros i Hi; by rewrite alter_total_ne| | | |].
  - intros va Hva. destruct (Hcp va Hva) as (a & b & T0 & T1 & T2 & B1 & B2). transitivity (user_byte s1 (t_dir (a_tab A)) va).
    2:{ apply (space_kept s F A (kst :: l1) s1 (kst :: F) l1); [done|done|done|lia]. }
    unfold user_byte. cbn [child_of p_pgdir]. rewrite Em'. cbn. rewrite T2, T0. cbn. by rewrite B1, B2.
  - intros va Hva Hb. unfold user_byte. rewrite Em'. cbn. by rewrite Hno.
  - intros f Hf. rewrite Eft. by apply dup_all_ref.
  - rewrite Eic. cbn. destruct Ho2 as (_ & -> & _), Ho as (_ & -> & _). done.
Qed.
End fork.
