(* ===== verification/ProcProps.v ===== *)
(** * The process table: fairness of the scheduler

    The scheduler goes round the table; other processors and the processes it
    runs change the table between its turns, so each turn is given a table of
    its own. *)

From S2P Require Import Prelude State Sleep Kalloc Vm Proc.
Open Scope Z_scope.

Section fair.
Local Open Scope nat_scope.

(** The tables the scheduler finds at its turns. *)
Context (ts : nat -> list proc).

(** Where turn [k] starts, and the process it switches to. *)
Fixpoint scheduler_pos (i k : nat) : nat :=
  match k with
  | O => i
  | S k' => snd (scheduler_step (ts k') (scheduler_pos i k'))
  end.
Definition scheduler_pick (i k : nat) : option nat := fst (scheduler_step (ts k) (scheduler_pos i k)).

Context (p : nat) (Hp : p < NPROC).

(** How many slots the scheduler looks at before it comes to slot [p], the end
    of the table counting for one. *)
Definition ahead (i : nat) : nat := if decide (i <= p) then p - i else NPROC - i + 1 + p.

(** The same for what it finds there: a slot, or the end of the table. *)
Definition ahead_of (o : option nat) : nat := match o with Some j => ahead j | None => 1 + p end.

Lemma scheduler_step_ahead ps i :
  i <= NPROC -> p_state (ps !!! p) = RUNNABLE ->
  let '(o, i') := scheduler_step ps i in
  i' <= NPROC /\ ahead_of o <= ahead i /\ (o = Some p \/ ahead i' < ahead_of o).
Proof using Hp.
  intros Hi Hr. unfold scheduler_step, scheduler_next.
  destruct (find _ _) as [j|] eqn:E; cbn [fst snd ahead_of].
  - apply find_seq_some in E as (H1 & H2 & H3). split; [lia|].
    assert (~ (i <= p < j)).
    { intros Hin. apply H3 in Hin. by rewrite bool_decide_true in Hin. }
    unfold ahead. split; [repeat case_decide; lia|]. destruct (decide (j = p)) as [->|]; [by left|right].
    repeat case_decide; lia.
  - split; [lia|]. unfold ahead. case_decide as D.
    + apply (find_seq_none _ _ _ p) in E; [|lia]. cbv beta in E. by rewrite bool_decide_true in E.
    + split; [lia|]. right. case_decide; lia.
Qed.

Lemma scheduler_run_ahead i n :
  i <= NPROC -> (forall k, k < n -> p_state (ts k !!! p) = RUNNABLE) ->
  (forall k, k < n -> scheduler_pick i k <> Some p) ->
  scheduler_pos i n <= NPROC /\ n + ahead (scheduler_pos i n) <= ahead i /\
  forall k, k < n -> ahead (scheduler_pos i n) < ahead_of (scheduler_pick i k).
Proof using Hp.
  intros Hi. induction n as [|n IH]; intros Hr Hn; cbn; [split_and!; [done|lia|lia]|].
  destruct IH as (H1 & H2 & H3); [intros; apply Hr; lia|intros; apply Hn; lia|].
  pose proof (scheduler_step_ahead (ts n) _ H1 (Hr n ltac:(lia))) as H. pose proof (Hn n ltac:(lia)) as Hne.
  unfold scheduler_pick in *. destruct (scheduler_step (ts n) (scheduler_pos i n)) as [o i'] eqn:E. cbn in *.
  destruct H as (G1 & G2 & [?|G3]); [done|]. split_and!; [done|lia|].
  intros k ?. destruct (decide (k = n)) as [->|]; [by rewrite E|]. specialize (H3 k ltac:(lia)). lia.
Qed.

Lemma scheduler_distinct i k :
  i <= NPROC -> (forall j, j <= k -> p_state (ts j !!! p) = RUNNABLE) ->
  (forall j, j < k -> scheduler_pick i j <> Some p) ->
  forall a b, a < b <= k -> scheduler_pick i a <> scheduler_pick i b.
Proof using Hp.
  intros Hi Hr Hn a b Hab Heq.
  destruct (scheduler_run_ahead i b Hi) as (G1 & _ & G3); [intros; apply Hr; lia|intros; apply Hn; lia|].
  specialize (G3 a ltac:(lia)). rewrite Heq in G3.
  pose proof (scheduler_step_ahead (ts b) _ G1 (Hr b ltac:(lia))) as G.
  unfold scheduler_pick in G3. destruct (scheduler_step _ _) as [o i']. cbn [fst] in G3. lia.
Qed.

Lemma scheduler_waits i n :
  i <= NPROC -> (forall j, j < n -> p_state (ts j !!! p) = RUNNABLE) ->
  (forall j, j < n -> scheduler_pick i j <> Some p) -> n <= NPROC.
Proof using Hp.
  intros Hi Hr Hn. destruct (scheduler_run_ahead i n Hi Hr Hn) as (_ & H & _).
  unfold ahead in H. repeat case_decide; lia.
Qed.
End fair.

(** C8. Every runnable process gets its turn.  Wherever the scheduler is in the
    table, and whatever other processes and processors do to the table between
    its turns, a process that stays RUNNABLE is chosen after at most NPROC other
    turns, and no other process is chosen twice before it. *)
Theorem scheduler_fair (ts : nat -> list proc) (p i : nat) :
  (p < NPROC)%nat -> (i <= NPROC)%nat ->
  (forall k, (k <= NPROC)%nat -> p_state (ts k !!! p) = RUNNABLE) ->
  exists k, (k <= NPROC)%nat /\ scheduler_pick ts i k = Some p /\
    forall a b, (a < b <= k)%nat -> scheduler_pick ts i a <> scheduler_pick ts i b.
Proof.
  intros Hp Hi Hr.
  destruct (first_below (fun k => scheduler_pick ts i k = Some p) (S NPROC)) as [(k & H1 & H2 & H3)|Hno].
  - exists k. split_and!; [lia|exact H2|]. apply (scheduler_distinct ts p Hp i k Hi); [intros; apply Hr; lia|exact H3].
  - exfalso. pose proof (scheduler_waits ts p Hp i (S NPROC) Hi) as H.
    assert (S NPROC <= NPROC)%nat; [|lia]. apply H; [intros; apply Hr; lia|exact Hno].
Qed.

Lemma scheduler_fair_witness :
  let ts := fun k : nat => <[(3 + k)%nat := set_p_state RUNNABLE inhabitant]> (<[2%nat := set_p_state RUNNABLE inhabitant]>
    (replicate NPROC inhabitant)) in
  exists k, (k <= NPROC)%nat /\ scheduler_pick ts 3 k = Some 2%nat /\
    forall a b, (a < b <= k)%nat -> scheduler_pick ts 3 a <> scheduler_pick ts 3 b.
Proof.
  intros ts. apply (scheduler_fair ts 2 3); [unfold NPROC; lia|unfold NPROC; lia|].
  intros k _. unfold ts. rewrite list_lookup_total_insert_ne by lia. by rewrite list_lookup_total_insert by (rewrite length_replicate; unfold NPROC; lia).
Defined.
