(* ===== verification/ProcLife.v ===== *)
(** * The life of processes: the invariant of the process table

    [proc_step] is one critical section of the code that works on the process
    table, on any processor.  [proc_inv] is what holds between them; its last
    part says that a process asleep in wait has something to wait for. *)

From stdpp Require Import relations.
From S2P Require Import Prelude State Sleep Kalloc KallocSpec Vm Fs File Proc ProcProps.
Open Scope Z_scope.

(** ** The invariant *)

(** Process [i], in the slot [q], is asleep in wait. *)
Definition in_wait (i : nat) (q : proc) : Prop := p_state q = SLEEPING /\ p_chan q = Some (ChProc i).

(** Process [i] has children, none of which has exited. *)
Definition may_wait (pt : list proc) (i : nat) : Prop :=
  (exists j, (j < NPROC)%nat /\ p_parent (pt !!! j) = Some i) /\
  (forall j, (j < NPROC)%nat -> p_parent (pt !!! j) = Some i -> p_state (pt !!! j) <> ZOMBIE).

Record table_ok (init : option nat) (pt : list proc) : Prop := mkTableOk {
  to_len : length pt = NPROC;
  to_init i : init = Some i -> (i < NPROC)%nat /\ p_state (pt !!! i) <> UNUSED;
  to_chan i : (i < NPROC)%nat -> p_state (pt !!! i) = SLEEPING -> is_Some (p_chan (pt !!! i));
  (** Parents are other processes, init has none, and a free slot is no one's
      child. *)
  to_parent i j : (i < NPROC)%nat -> p_parent (pt !!! i) = Some j ->
    (j < NPROC)%nat /\ j <> i /\ init <> Some i /\ p_state (pt !!! i) <> UNUSED;
  (** Who sleeps in wait has a child that runs, no child that has exited, and
      was not killed. *)
  to_wait i : (i < NPROC)%nat -> in_wait i (pt !!! i) ->
    p_killed (pt !!! i) = false /\ may_wait pt i }.

(** With the process this processor runs. *)
Record proc_inv (s : kernel) : Prop := mkProcInv {
  pi_table : table_ok (k_initproc s) (k_ptable s);
  pi_cur p : k_cur s = Some p -> (p < NPROC)%nat /\ p_state (k_ptable s !!! p) = RUNNING }.

(** ** Changes of one slot *)

Section slot.
Context (init : option nat) (pt : list proc) (T : table_ok init pt).

Lemma alter_alter (f g : proc -> proc) (l : list proc) i : alter f i (alter g i l) = alter (fun q => f (g q)) i l.
Proof using. revert i. induction l as [|x l IH]; intros [|i]; cbn; [done..|]. f_equal. apply IH. Qed.

Lemma lookup_alter_here (f : proc -> proc) (l : list proc) i : length l = NPROC -> (i < NPROC)%nat -> alter f i l !!! i = f (l !!! i).
Proof using. intros El Hi. rewrite list_lookup_total_alter. rewrite decide_True by (split; [done|lia]). done. Qed.

Lemma table_alter i f :
  (i < NPROC)%nat -> let q := pt !!! i in
  (init = Some i -> p_state (f q) <> UNUSED) ->
  (p_state (f q) = SLEEPING -> is_Some (p_chan (f q))) ->
  (forall j, p_parent (f q) = Some j -> (j < NPROC)%nat /\ j <> i /\ init <> Some i /\ p_state (f q) <> UNUSED) ->
  (in_wait i (f q) -> in_wait i q /\ p_killed (f q) = p_killed q \/ p_killed (f q) = false /\ may_wait pt i) ->
  (forall k, (k < NPROC)%nat -> in_wait k (pt !!! k) -> p_parent (f q) = Some k -> p_state (f q) <> ZOMBIE) ->
  (forall k, (k < NPROC)%nat -> in_wait k (pt !!! k) -> p_parent q = Some k -> p_parent (f q) = Some k) ->
  table_ok init (alter f i pt).
Proof using T.
  intros Hi q H0 H1 H2 H3 H4 H5. destruct T as [T1 T0 T2 T3 T4].
  assert (Hs : forall j, (j < NPROC)%nat -> alter f i pt !!! j = if decide (j = i) then f q else pt !!! j).
  { intros j Hj. case_decide as D; [subst j; by apply lookup_alter_here|]. rewrite list_lookup_total_alter. rewrite decide_False; [done|]. intros [? _]. by apply D. }
  split.
  - by rewrite length_alter.
  - intros j Ej. destruct (T0 j Ej) as [Hj ?]. split; [done|]. rewrite (Hs j Hj). case_decide as D; [subst j; by apply H0|done].
  - intros j Hj. rewrite (Hs j Hj). case_decide; [done|]. by apply T2.
  - intros j k Hj. rewrite (Hs j Hj). case_decide as D; [subst j; apply H2|by apply T3].
  - intros k Hk Hw. assert (Hk' : p_killed (alter f i pt !!! k) = false /\ may_wait pt k /\ (k = i \/ in_wait k (pt !!! k))).
    { rewrite (Hs k Hk) in Hw |- *. case_decide as D; [subst k|split_and!; [by apply T4|by apply T4|by right]].
      destruct (H3 Hw) as [[Hw' ->]|[? ?]]; [|auto]. split_and!; [by apply T4|by apply T4|by left]. }
    destruct Hk' as (G1 & ((j & Hj & Gj) & G3) & G4). split; [done|split].
    + exists j. split; [done|]. rewrite (Hs j Hj). case_decide as D; [subst j|done].
      destruct G4 as [->|G4]; [by destruct (T3 i i Hi Gj) as (_ & [] & _)|by apply H5].
    + intros l Hl. rewrite (Hs l Hl). case_decide as D; [|by apply G3]. intros Ef.
      destruct G4 as [->|G4]; [by destruct (H2 i Ef) as (_ & [] & _)|by apply (H4 k)].
Qed.

(** The state of a process that is not asleep changes, but not to ZOMBIE. *)
Lemma table_state i f :
  (i < NPROC)%nat -> let q := pt !!! i in p_parent (f q) = p_parent q ->
  p_state (f q) <> UNUSED -> p_state (f q) <> ZOMBIE -> (p_state (f q) = SLEEPING -> is_Some (p_chan (f q))) -> ~ in_wait i (f q) ->
  table_ok init (alter f i pt).
Proof using T.
  intros Hi q Hp Hu Hz Hc Hw. apply table_alter; fold q; [done|done|done| |done|done|].
  - intros j. rewrite Hp. intros E. destruct (to_parent _ _ T i j Hi E) as (? & ? & ? & ?). done.
  - intros k _ _. by rewrite Hp.
Qed.

Lemma table_woken pt' : woken pt pt' -> table_ok init pt'.
Proof using T.
  intros W. pose proof (fun i => woken_lookup _ _ i W) as Hl. destruct T as [T1 T0 T2 T3 T4].
  assert (Hpar : forall i, p_parent (pt' !!! i) = p_parent (pt !!! i)).
  { intros i. by destruct (Hl i) as [->|[_ ->]]. }
  split.
  - rewrite <- (Forall2_length _ _ _ W). done.
  - intros i Ei. destruct (T0 i Ei). split; [done|]. by destruct (Hl i) as [->|[_ ->]].
  - intros i Hi. destruct (Hl i) as [->|[_ ->]]; [by apply T2|done].
  - intros i j Hi. rewrite Hpar. intros E. destruct (T3 i j Hi E) as (? & ? & ? & Hu). split_and!; [done..|].
    by destruct (Hl i) as [->|[_ ->]].
  - intros i Hi. destruct (Hl i) as [->|[_ ->]]; [|intros [? _]; done]. intros Hw. destruct (T4 i Hi Hw) as (G1 & (j & Hj & Gj) & G3).
    split; [done|split].
    + exists j. by rewrite Hpar.
    + intros k Hk. rewrite Hpar. intros Gk. specialize (G3 k Hk Gk). by destruct (Hl k) as [->|[_ ->]].
Qed.
End slot.

(** ** Code that leaves the process table alone *)

Definition procs (s : kernel) := (k_ptable s, k_cur s, k_initproc s).
Abbreviation aside := (same procs).

Lemma modify_aside (f : kernel -> kernel) : (forall s, procs (f s) = procs s) -> moves aside (modify f).
Proof. intros H. by apply moves_modify. Qed.
Lemma ld32_aside a : moves aside (ld32 a).
Proof. unfold ld32. moves_steps. Qed.
Lemma upd_mem_aside f : moves aside (upd_mem f).
Proof. by apply modify_aside. Qed.
Lemma upd_kmem_aside f : moves aside (upd_kmem f).
Proof. by apply modify_aside. Qed.
Lemma get_proc_aside p : moves aside (get_proc p).
Proof. apply moves_gets. apply _. Qed.
Lemma upd_cpu_aside f : moves aside (upd_cpu f).
Proof. by apply modify_aside. Qed.
#[local] Hint Resolve ld32_aside upd_mem_aside upd_kmem_aside get_proc_aside upd_cpu_aside : moves.

Section aside.
Context `{Linker}.
Lemma sd32_aside a v : moves aside (sd32 a v).
Proof using. apply upd_mem_aside. Qed.
#[local] Hint Resolve sd32_aside : moves.
Lemma kfree_aside v : moves aside (kfree v).
Proof using. unfold kfree. moves_steps. Qed.
Lemma kalloc_aside : moves aside kalloc.
Proof using. unfold kalloc. moves_steps. Qed.
#[local] Hint Resolve kfree_aside kalloc_aside : moves.
Lemma walkpgdir_aside d va al : moves aside (walkpgdir d va al).
Proof using. unfold walkpgdir. moves_steps. Qed.
#[local] Hint Resolve walkpgdir_aside : moves.
Lemma mappages_aside d va size pa perm : moves aside (mappages d va size pa perm).
Proof using.
  unfold mappages. generalize (PGROUNDDOWN (u32 va)) as a, (PGROUNDDOWN (u32 (va + size - 1))) as last.
  intros a last. generalize (S (Z.to_nat (u32 (last - a) / PGSIZE))) as n. intros n. revert a pa.
  induction n as [|n IH]; intros a pa; cbn [mappages_loop]; moves_steps.
Qed.
Lemma deallocuvm_aside d o n : moves aside (deallocuvm d o n).
Proof using.
  unfold deallocuvm. moves_steps. generalize (PGROUNDUP n) as a, (Z.to_nat (o / PGSIZE + 1)) as fuel. intros a fuel. revert a.
  induction fuel as [|fuel IH]; intros a; cbn [deallocuvm_loop]; moves_steps.
Qed.
#[local] Hint Resolve mappages_aside deallocuvm_aside : moves.
Lemma freevm_tables_aside d i n : moves aside (freevm_tables d i n).
Proof using. revert i. induction n as [|n IH]; intros i; cbn [freevm_tables]; moves_steps. Qed.
#[local] Hint Resolve freevm_tables_aside : moves.
Lemma freevm_aside d : moves aside (freevm d).
Proof using. unfold freevm. moves_steps. Qed.
#[local] Hint Resolve freevm_aside : moves.
Lemma setupkvm_aside : moves aside setupkvm.
Proof using.
  unfold setupkvm. moves_steps. generalize kmap as ks. induction ks as [|[[[v ps] pe] perm] ks IH]; cbn [setupkvm_loop]; moves_steps.
Qed.
#[local] Hint Resolve setupkvm_aside : moves.
Lemma copyuvm_aside d sz : moves aside (copyuvm d sz).
Proof using.
  unfold copyuvm. moves_steps. generalize 0 as i, (Z.to_nat (sz / PGSIZE + 1)) as fuel. intros i fuel. revert i.
  induction fuel as [|fuel IH]; intros i; cbn [copyuvm_loop]; moves_steps.
Qed.
Lemma filedup_aside f : moves aside (filedup f).
Proof using. unfold filedup, get_file, upd_file. moves_steps. by apply modify_aside. Qed.
Lemma idup_aside i : moves aside (idup i).
Proof using. unfold idup, upd_inode. moves_steps. by apply modify_aside. Qed.
Lemma switchuvm_aside p : moves aside (switchuvm p).
Proof using. unfold switchuvm. moves_steps. Qed.
End aside.
#[export] Hint Resolve sd32_aside kfree_aside kalloc_aside freevm_aside copyuvm_aside filedup_aside idup_aside switchuvm_aside : moves.

(** ** Code that never blocks *)

Definition calm {S A} (m : M S A) : Prop :=
  forall s, match m s with Sleeps _ _ | Gone _ => False | _ => True end.

Section calm.
Context {S : Type}.
Lemma calm_bind {A B} (m : M S A) (f : A -> M S B) : calm m -> (forall a, calm (f a)) -> calm (m ≫= f).
Proof using. intros Hm Hf s. unfold mbind, M_bind. specialize (Hm s). destruct (m s) as [a s'| | | | |]; try done. apply Hf. Qed.
Lemma calm_if {A} (b : bool) (m1 m2 : M S A) : calm m1 -> calm m2 -> calm (if b then m1 else m2).
Proof using. by destruct b. Qed.
Lemma calm_panic_if b msg : calm (panic_if b msg : M S unit).
Proof using. by destruct b. Qed.
End calm.

(** Structural decomposition of a goal [calm m]. *)
Ltac calm_step :=
  lazymatch goal with
  | |- calm (_ ≫= _) => apply calm_bind; [|intros ?]
  | |- calm (panic_if _ _) => apply calm_panic_if
  | |- calm (match ?b with true => _ | false => _ end) => apply calm_if
  | |- calm _ => first [assumption | done | solve [auto with calm]]
  end.
Ltac calm_steps := repeat calm_step.
Create HintDb calm.

Section freeing.
Context `{Linker}.
Lemma kfree_calm v : calm (kfree v).
Proof using. unfold kfree, upd_mem, sd32, upd_kmem. calm_steps. Qed.
#[local] Hint Resolve kfree_calm : calm.
Lemma walkpgdir_calm d va : calm (walkpgdir d va false).
Proof using. unfold walkpgdir, ld32. cbn [negb]. calm_steps. Qed.
#[local] Hint Resolve walkpgdir_calm : calm.
Lemma deallocuvm_calm d o n : calm (deallocuvm d o n).
Proof using.
  unfold deallocuvm. calm_steps. generalize (PGROUNDUP n) as a, (Z.to_nat (o / PGSIZE + 1)) as fuel. intros a fuel. revert a.
  induction fuel as [|fuel IH]; intros a; cbn [deallocuvm_loop]; unfold ld32, sd32, upd_mem; calm_steps; apply IH.
Qed.
Lemma freevm_tables_calm d i n : calm (freevm_tables d i n).
Proof using. revert i. induction n as [|n IH]; intros i; cbn [freevm_tables]; unfold ld32; calm_steps; apply IH. Qed.
#[local] Hint Resolve deallocuvm_calm freevm_tables_calm : calm.
Lemma freevm_calm d : calm (freevm d).
Proof using. unfold freevm. calm_steps. Qed.
End freeing.

Lemma aside_ok {A} (m : kM A) s a s' : moves aside m -> m s = Ok a s' ->
  k_ptable s' = k_ptable s /\ k_cur s' = k_cur s /\ k_initproc s' = k_initproc s.
Proof. intros Hm E. pose proof (moves_ok _ _ _ _ _ Hm E) as Hs. unfold same, procs in Hs. by injection Hs as -> -> ->. Qed.

Lemma proc_inv_same s s' : k_ptable s' = k_ptable s -> k_cur s' = k_cur s -> k_initproc s' = k_initproc s ->
  proc_inv s -> proc_inv s'.
Proof. intros E1 E2 E3 [I1 I3]. split; rewrite ?E1, ?E2, ?E3; done. Qed.

(** ** The steps *)

Section steps.
Context `{Linker}.

(** The fields of the life cycle, equal but for the mark of a process that is
    not asleep. *)
Definition same_life (q q' : proc) : Prop :=
  p_state q' = p_state q /\ p_parent q' = p_parent q /\ p_chan q' = p_chan q /\
  (p_state q = SLEEPING -> p_killed q' = p_killed q).

(** What fork may do with the slot of the new process [p]: fill it in, make
    the caller its parent, start it or give it up. *)
Record embryo_step (s : kernel) (q q' : proc) : Prop := mkEmbryoStep {
  es_from : p_state q = EMBRYO;
  es_to : p_state q' = EMBRYO \/ p_state q' = RUNNABLE \/ p_state q' = UNUSED /\ p_parent q' = None;
  es_parent : p_parent q' = p_parent q \/ p_parent q = None /\ p_parent q' = k_cur s }.

(** A process that sleeps ends in sched, which this part of the code calls. *)
Inductive proc_step (s s' : kernel) : Prop :=
| st_wakeup c : wakeup c s = Ok tt s' -> proc_step s s'
| st_sleep A c s1 : (forall i, c <> ChProc i) -> (sleep c : kM A) s = Sleeps c s1 -> sched s1 = Ok tt s' -> proc_step s s'
| st_tidy p : k_cur s = Some p -> sleep_tidy p s = Ok tt s' -> proc_step s s'
| st_wait pid : wait s = Ok pid s' -> proc_step s s'
| st_wait_sleeps c s1 : wait s = Sleeps c s1 -> sched s1 = Ok tt s' -> proc_step s s'
| st_exit p : k_cur s = Some p -> Some p <> k_initproc s -> exit_tail p (k_initproc s) s = Ok tt s' -> proc_step s s'
| st_kill pid r : kill pid s = Ok r s' -> proc_step s s'
| st_yield : yield s = Ok tt s' -> proc_step s s'
| st_sched i p : k_cur s = None -> scheduler_next (k_ptable s) i = Some p -> scheduler_run p s = Ok tt s' -> proc_step s s'
| st_alloc r : allocproc s = Ok r s' -> proc_step s s'
| st_embryo p f : (p < NPROC)%nat -> k_initproc s <> Some p -> embryo_step s (k_ptable s !!! p) (f (k_ptable s !!! p)) ->
    upd_proc p f s = Ok tt s' -> proc_step s s'
(** Another processor goes on, with the process it runs. *)
| st_cpu o : (forall p, o = Some p -> (p < NPROC)%nat /\ p_state (k_ptable s !!! p) = RUNNING) ->
    s' = set_k_cur o s -> proc_step s s'
(** Anything else. *)
| st_other : Forall2 same_life (k_ptable s) (k_ptable s') -> k_cur s' = k_cur s -> k_initproc s' = k_initproc s -> proc_step s s'.

Implicit Types s : kernel.

Lemma inv_table s pt :
  proc_inv s -> table_ok (k_initproc s) pt -> (forall p, k_cur s = Some p -> p_state (pt !!! p) = RUNNING) ->
  proc_inv (set_k_ptable pt s).
Proof using. intros [I1 I3] T Hr. split; ksimpl; [done|]. intros p E. split; [by apply I3|by apply Hr]. Qed.

Lemma inv_alter s i f :
  proc_inv s -> table_ok (k_initproc s) (alter f i (k_ptable s)) ->
  (k_cur s = Some i -> p_state (f (k_ptable s !!! i)) = RUNNING) -> proc_inv (set_k_ptable (alter f i (k_ptable s)) s).
Proof using.
  intros I T Hc. apply inv_table; [done|done|]. intros p Ep. destruct (pi_cur _ I p Ep) as [Hp Hr].
  rewrite list_lookup_total_alter. case_decide as D; [|done]. destruct D as [-> _]. by apply Hc.
Qed.

Lemma wakeup1_inv c s : proc_inv s -> proc_inv (set_k_ptable (wakeup1_proc c <$> k_ptable s) s).
Proof using.
  intros I. apply inv_table; [done|eapply table_woken, woken_wakeup1; apply I|].
  intros p Ep. destruct (pi_cur _ I p Ep) as [_ Hr].
  by destruct (woken_lookup _ _ p (woken_wakeup1 c (k_ptable s))) as [->|[E _]]; [|rewrite E in Hr].
Qed.

(** The running process, whatever it becomes, leaves the processor. *)
Lemma inv_leave s p f :
  proc_inv s -> table_ok (k_initproc s) (alter f p (k_ptable s)) -> k_cur s = Some p ->
  proc_inv (set_k_cur None (set_k_ptable (alter f p (k_ptable s)) s)).
Proof using. intros [I1 I3] T E. split; ksimpl; done. Qed.

(** What sched leaves. *)
Lemma sched_inv s p s' : k_cur s = Some p -> sched s = Ok tt s' -> s' = set_k_cur None s.
Proof using.
  intros Ep E. unfold sched, myproc, get_proc in E. apply bind_inv in E as (a & s1 & E1 & E). rewrite Ep in E1. injection E1 as <- <-.
  apply bind_inv in E as (q & s2 & [= <- <-] & E). apply bind_inv in E as ([] & s3 & E1 & E).
  unfold panic_if in E1. destruct (bool_decide _); [done|]. injection E1 as <-. by injection E as <-.
Qed.

Lemma sleep_sched_inv s A c s1 s' :
  proc_inv s -> (forall p, k_cur s = Some p -> c = ChProc p -> table_ok (k_initproc s)
      (alter (fun q => set_p_state SLEEPING (set_p_chan (Some c) q)) p (k_ptable s))) ->
  (sleep c : kM A) s = Sleeps c s1 -> sched s1 = Ok tt s' -> proc_inv s'.
Proof using.
  intros I Hw E E'. unfold sleep in E. rewrite (bind_ok _ _ s (k_cur s) s) in E by done.
  destruct (k_cur s) as [p|] eqn:Ep; [|discriminate E]. injection E as <-.
  apply (sched_inv _ p) in E' as ->; [|exact Ep]. apply inv_leave; [done| |done].
  destruct (pi_cur _ I p Ep) as [Hp Hr]. destruct (decide (c = ChProc p)) as [D|D]; [by apply Hw|].
  apply table_state; [apply I|done|done|done|done|done|]. intros [_ Hc]. cbn in Hc. by injection Hc.
Qed.

Lemma wakeup_inv c s s' : proc_inv s -> wakeup c s = Ok tt s' -> proc_inv s'.
Proof using. intros I [= <-]. by apply wakeup1_inv. Qed.

Lemma tidy_inv p s s' : proc_inv s -> k_cur s = Some p -> sleep_tidy p s = Ok tt s' -> proc_inv s'.
Proof using.
  intros I Ep [= <-]. destruct (pi_cur _ I p Ep) as [Hp Hr]. apply inv_alter; [done| |done].
  apply table_state; [apply I|done|done|cbn; by rewrite Hr..|]. intros [_ ?]. done.
Qed.

Lemma yield_inv s s' : proc_inv s -> yield s = Ok tt s' -> proc_inv s'.
Proof using.
  intros I E. unfold yield, myproc in E. apply bind_inv in E as (p & s1 & E1 & E).
  destruct (k_cur s) as [p'|] eqn:Ep; [|done]. injection E1 as <- <-. apply bind_inv in E as ([] & s2 & [= <-] & E).
  apply (sched_inv _ p') in E as ->; [|exact Ep]. destruct (pi_cur _ I p' Ep) as [Hp Hr]. apply inv_leave; [done| |done].
  apply table_state; [apply I|done..|]. intros [? _]. done.
Qed.

Lemma kill_inv pid r s s' : proc_inv s -> kill pid s = Ok r s' -> proc_inv s'.
Proof using.
  intros I E. unfold kill in E. rewrite (bind_ok _ _ s (k_ptable s) s) in E by done. destruct (find _ _) as [p|] eqn:Ef; [|by injection E as _ <-].
  apply find_seq_some in Ef as (Hp & _ & _). injection E as _ <-. pose proof (pi_table _ I) as T.
  set (q := k_ptable s !!! p). match goal with |- context [alter ?g p _] => set (f := g) end.
  assert (Ef : p_parent (f q) = p_parent q /\ p_chan (f q) = p_chan q /\
    (p_state (f q) = p_state q /\ p_state q <> SLEEPING \/ p_state (f q) = RUNNABLE /\ p_state q = SLEEPING)).
  { unfold f. cbn. case_bool_decide; cbn; tauto. }
  clearbody f. destruct Ef as (F1 & F2 & F3). apply inv_alter; [done| |].
  - apply table_alter; [done|lia|..]; fold q.
    + intros Ei. destruct (to_init _ _ T p Ei) as [_ Hu]. destruct F3 as [[-> _]|[-> _]]; done.
    + intros Hs. destruct F3 as [[E1 E2]|[E1 _]]; congruence.
    + intros j. rewrite F1. intros Hj. destruct (to_parent _ _ T p j ltac:(lia) Hj) as (? & ? & ? & Hu). split_and!; [done..|].
      destruct F3 as [[-> _]|[-> _]]; done.
    + intros [Hs _]. destruct F3 as [[E1 E2]|[E1 _]]; rewrite Hs in E1; congruence.
    + intros k Hk Hw. rewrite F1. intros Hj. destruct (to_wait _ _ T k Hk Hw) as (_ & [_ G]). specialize (G p ltac:(lia) Hj).
      destruct F3 as [[-> _]|[-> _]]; done.
    + intros k _ _. by rewrite F1.
  - intros Ep. destruct (pi_cur _ I p Ep) as [_ Hr]. fold q in Hr |- *. destruct F3 as [[-> _]|[_ ?]]; congruence.
Qed.

Lemma run_inv i p s s' :
  proc_inv s -> k_cur s = None -> scheduler_next (k_ptable s) i = Some p -> scheduler_run p s = Ok tt s' -> proc_inv s'.
Proof using.
  intros I Ec En E. apply find_seq_some in En as (Hp & Hr%bool_decide_eq_true & _).
  unfold scheduler_run in E. apply bind_inv in E as ([] & s1 & [= <-] & E).
  apply bind_inv in E as ([] & s2 & E1 & [= <-]).
  apply (aside_ok _ _ _ _ (switchuvm_aside p)) in E1 as (E1 & E2 & E3). rewrite E1. cbn in E1, E2, E3 |- *.
  assert (T : table_ok (k_initproc s) (alter (set_p_state RUNNING) p (k_ptable s))).
  { apply table_state; [apply I|lia|done..|]. intros [? _]. done. }
  split; ksimpl; rewrite ?E3; [done|]. rewrite E2. intros x [= <-]. split; [lia|].
  rewrite lookup_alter_here; [done|apply I|lia].
Qed.

Lemma embryo_inv p f s s' :
  proc_inv s -> (p < NPROC)%nat -> k_initproc s <> Some p -> embryo_step s (k_ptable s !!! p) (f (k_ptable s !!! p)) ->
  upd_proc p f s = Ok tt s' -> proc_inv s'.
Proof using.
  intros I Hp Hi [S1 S2 S3] [= <-]. pose proof (pi_table _ I) as T. set (q := k_ptable s !!! p) in *.
  assert (Hs : p_state (f q) <> SLEEPING /\ p_state (f q) <> ZOMBIE) by (destruct S2 as [->|[->|[-> _]]]; done).
  destruct Hs as [Hs Hz]. apply inv_alter; [done| |].
  - apply table_alter; fold q; [done|done|done|done| |intros [? _]; done|done|].
    + intros j Ej. assert (p_state (f q) <> UNUSED) by (destruct S2 as [->|[->|[_ Hn]]]; congruence).
      destruct S3 as [S3|[_ S3]]; rewrite S3 in Ej.
      * destruct (to_parent _ _ T p j Hp Ej) as (? & ? & ? & _). done.
      * destruct (pi_cur _ I j Ej) as [? Hr]. split_and!; [done| |done|done]. intros ->. fold q in Hr. congruence.
    + intros k _ _ Ek. destruct S3 as [S3|[S3 _]]; congruence.
  - intros Ec. destruct (pi_cur _ I p Ec) as [_ Hr]. fold q in Hr. congruence.
Qed.

Lemma cpu_inv o s :
  proc_inv s -> (forall p, o = Some p -> (p < NPROC)%nat /\ p_state (k_ptable s !!! p) = RUNNING) -> proc_inv (set_k_cur o s).
Proof using. intros [I1 I3] Ho. by split. Qed.

Lemma other_inv s s' :
  proc_inv s -> Forall2 same_life (k_ptable s) (k_ptable s') -> k_cur s' = k_cur s -> k_initproc s' = k_initproc s -> proc_inv s'.
Proof using.
  intros [[T1 T0 T2 T3 T4] I3] Hl Ec Ei.
  assert (Hsame : forall i, (i < NPROC)%nat -> same_life (k_ptable s !!! i) (k_ptable s' !!! i)).
  { intros i Hi. assert (Hi' : (i < length (k_ptable s'))%nat) by (rewrite <- (Forall2_length _ _ _ Hl); lia).
    rewrite <- T1 in Hi. apply list_lookup_lookup_total_lt in Hi, Hi'.
    by destruct (Forall2_lookup_lr _ _ _ _ _ _ Hl Hi Hi') as (? & ? & ? & ?). }
  split; rewrite ?Ec, ?Ei.
  - split.
    + by rewrite <- (Forall2_length _ _ _ Hl).
    + intros i Hi. destruct (T0 i Hi) as [Hi' ?]. split; [done|]. destruct (Hsame i Hi') as (-> & _). done.
    + intros i Hi. destruct (Hsame i Hi) as (-> & _ & -> & _). by apply T2.
    + intros i j Hi. destruct (Hsame i Hi) as (-> & -> & _). by apply T3.
    + intros i Hi. destruct (Hsame i Hi) as (E1 & _ & E3 & E4). unfold in_wait. rewrite E1, E3. intros Hw.
      rewrite E4 by apply Hw. destruct (T4 i Hi Hw) as (G1 & (j & Hj & Gj) & G3). split; [done|split].
      * exists j. split; [done|]. destruct (Hsame j Hj) as (_ & -> & _). done.
      * intros k Hk. destruct (Hsame k Hk) as (-> & -> & _). by apply G3.
  - intros p Ep. destruct (I3 p Ep) as [Hp Hr]. split; [done|]. destruct (Hsame p Hp) as (-> & _). done.
Qed.

(** A slot that leaves UNUSED for EMBRYO, or comes back. *)
Lemma free_slot_inv p f s :
  proc_inv s -> (p < NPROC)%nat -> k_initproc s <> Some p -> p_state (k_ptable s !!! p) = UNUSED \/ p_state (k_ptable s !!! p) = EMBRYO ->
  p_parent (k_ptable s !!! p) = None -> p_parent (f (k_ptable s !!! p)) = None ->
  p_state (f (k_ptable s !!! p)) = UNUSED \/ p_state (f (k_ptable s !!! p)) = EMBRYO ->
  proc_inv (set_k_ptable (alter f p (k_ptable s)) s).
Proof using.
  intros I Hp Hi Hs Hn Hn' Hs'. set (q := k_ptable s !!! p) in *. apply inv_alter; [done| |].
  - apply table_alter; fold q; [apply I|done|done|..].
    + intros E. destruct Hs'; congruence.
    + intros j. by rewrite Hn'.
    + intros [E _]. destruct Hs'; congruence.
    + intros k _ _ _. destruct Hs'; congruence.
    + intros k _ _ E. congruence.
  - intros Ec. destruct (pi_cur _ I p Ec) as [_ Hr]. fold q in Hr. destruct Hs; congruence.
Qed.

(** A slot taken for a new process. *)
Record fresh_slot (s : kernel) (p : nat) : Prop := mkFreshSlot {
  fs_range : (p < NPROC)%nat;
  fs_init : k_initproc s <> Some p;
  fs_parent : p_parent (k_ptable s !!! p) = None;
  fs_state : p_state (k_ptable s !!! p) = EMBRYO }.

Lemma fresh_slot_same s s' p :
  k_ptable s' = k_ptable s -> k_initproc s' = k_initproc s -> fresh_slot s p -> fresh_slot s' p.
Proof using. intros E1 E2 [F1 F2 F3 F4]. split; rewrite ?E1, ?E2; done. Qed.

Lemma fresh_slot_upd s s' p f :
  proc_inv s -> fresh_slot s p -> p_parent (f (k_ptable s !!! p)) = None -> p_state (f (k_ptable s !!! p)) = EMBRYO ->
  upd_proc p f s = Ok tt s' -> proc_inv s' /\ fresh_slot s' p /\ k_cur s' = k_cur s.
Proof using.
  intros I [F1 F2 F3 F4] Hn Hs [= <-]. split; [apply free_slot_inv; auto|]. split; [|done].
  split; ksimpl; [done|done|..]; rewrite lookup_alter_here; try done; apply I.
Qed.

Lemma allocproc_inv r s s' :
  proc_inv s -> allocproc s = Ok r s' ->
  proc_inv s' /\ k_cur s' = k_cur s /\ forall p, r = Some p -> fresh_slot s' p.
Proof using.
  intros I E. unfold allocproc in E. rewrite (bind_ok _ _ s (k_ptable s) s) in E by done.
  destruct (find _ _) as [p|] eqn:Ef; [|by injection E as <- <-].
  apply find_seq_some in Ef as (Hp & Hu%bool_decide_eq_true & _).
  assert (Hi : k_initproc s <> Some p) by (intros Ei; by destruct (to_init _ _ (pi_table _ I) p Ei)).
  assert (Hn : p_parent (k_ptable s !!! p) = None).
  { destruct (p_parent _) as [j|] eqn:Ej; [|done]. by destruct (to_parent _ _ (pi_table _ I) p j ltac:(lia) Ej) as (_ & _ & _ & []). }
  apply bind_inv in E as (pid & s0 & [= <- <-] & E). apply bind_inv in E as ([] & s1 & [= <-] & E).
  apply bind_inv in E as ([] & s2 & [= <-] & E). match type of E with _ ?st = _ => set (s2 := st) in E end.
  assert (I2 : proc_inv s2).
  { unfold s2. apply (proc_inv_same (set_k_ptable (alter (fun q => set_p_pid (k_nextpid s) (set_p_state EMBRYO q)) p (k_ptable s)) s)); [done..|].
    apply free_slot_inv; auto; lia. }
  assert (F2 : fresh_slot s2 p).
  { split; [lia|done|..]; unfold s2; ksimpl; rewrite lookup_alter_here; try done; try exact Hn; first [lia|apply I]. }
  assert (C2 : k_cur s2 = k_cur s) by done. clearbody s2.
  apply bind_inv in E as (ks & s3 & E3 & E). apply (aside_ok _ _ _ _ kalloc_aside) in E3 as (A1 & A2 & A3).
  apply (proc_inv_same _ s3) in I2; [|done..]. apply (fresh_slot_same _ s3) in F2; [|done..]. rewrite <- A2 in C2.
  apply bind_inv in E as ([] & s4 & E4 & E).
  destruct (fresh_slot_upd _ _ _ (set_p_kstack ks) I2 F2 (fs_parent _ _ F2) (fs_state _ _ F2) E4) as (I4 & F4 & C4). rewrite C2 in C4.
  destruct (ks =? 0).
  - apply bind_inv in E as ([] & s5 & [= <-] & [= <- <-]). split_and!; [|done|done].
    apply free_slot_inv; try apply F4; auto. right. apply F4.
  - apply bind_inv in E as ([] & s5 & E5 & E). apply (aside_ok _ _ _ _ (sd32_aside _ _)) in E5 as (B1 & B2 & B3).
    apply (proc_inv_same _ s5) in I4; [|done..]. apply (fresh_slot_same _ s5) in F4; [|done..].
    apply bind_inv in E as ([] & s6 & E6 & [= <- <-]).
    destruct (fresh_slot_upd _ _ _ (set_p_context (mkContext 0 0 0 0 kforkret)) I4 F4 (fs_parent _ _ F4) (fs_state _ _ F4) E6) as (I6 & F6 & C6).
    split_and!; [done|congruence|]. by intros x [= <-].
Qed.

(** *** wait *)

(** The slot of a child that wait has cleaned up. *)
Definition reaped (q : proc) : proc :=
  set_p_state UNUSED (set_p_killed false (set_p_name (setz (p_name q) 0 0) (set_p_parent None (set_p_pid 0 (set_p_kstack 0 q))))).

(** The scan changes nothing unless it finds a child that has exited. *)
Lemma wait_scan_out cur i n h s :
  match wait_scan cur i n h s with
  | Ok (inr h') s' => s' = s /\
      (forall j, (i <= j < i + n)%nat -> p_parent (k_ptable s !!! j) = Some cur -> p_state (k_ptable s !!! j) <> ZOMBIE) /\
      (h' = true -> h = true \/ exists j, (i <= j < i + n)%nat /\ p_parent (k_ptable s !!! j) = Some cur)
  | Ok (inl _) s' => exists z, (i <= z < i + n)%nat /\ p_parent (k_ptable s !!! z) = Some cur /\
      p_state (k_ptable s !!! z) = ZOMBIE /\ k_ptable s' = alter reaped z (k_ptable s) /\
      k_cur s' = k_cur s /\ k_initproc s' = k_initproc s
  | Sleeps _ _ | Gone _ => False
  | _ => True
  end.
Proof using.
  revert i h. induction n as [|n IH]; intros i h; cbn [wait_scan].
  { cbn. split_and!; [done|lia|by left]. }
  rewrite (bind_ok _ _ s (k_ptable s !!! i) s) by done. case_bool_decide as Hp; cbn [negb].
  - case_bool_decide as Hz.
    + set (q := k_ptable s !!! i) in *. unfold mbind, M_bind.
      pose proof (kfree_calm (p_kstack q) s) as C1. destruct (kfree _ s) as [[] s1| | | | |] eqn:E1; try done.
      apply (aside_ok _ _ _ _ (kfree_aside _)) in E1 as (A1 & A2 & A3). cbn. clear C1. set (s2 := set_k_ptable _ s1).
      pose proof (freevm_calm (p_pgdir q) s2) as C2. destruct (freevm _ s2) as [[] s3| | | | |] eqn:E2; try done.
      apply (aside_ok _ _ _ _ (freevm_aside _)) in E2 as (B1 & B2 & B3). clear C2.
      change (k_cur s2) with (k_cur s1) in B2. change (k_initproc s2) with (k_initproc s1) in B3.
      exists i. split_and!; [lia|lia|done|done|..]; ksimpl; [|congruence..].
      rewrite B1. unfold s2. ksimpl. rewrite A1, !alter_alter. done.
    + specialize (IH (S i) true). destruct (wait_scan _ _ _ _ s) as [[pid|h'] s'| | | | |]; try done.
      * destruct IH as (z & ? & ?). exists z. split; [lia|done].
      * destruct IH as (-> & H1 & H2). split_and!; [done| |].
        -- intros j Hj. destruct (decide (j = i)) as [->|]; [done|]. apply H1. lia.
        -- intros _. right. exists i. split; [lia|done].
  - specialize (IH (S i) h). destruct (wait_scan _ _ _ _ s) as [[pid|h'] s'| | | | |]; try done.
    + destruct IH as (z & ? & ?). exists z. split; [lia|done].
    + destruct IH as (-> & H1 & H2). split_and!; [done| |].
      * intros j Hj. destruct (decide (j = i)) as [->|]; [done|]. apply H1. lia.
      * intros Hh. destruct (H2 Hh) as [?|(j & ? & ?)]; [by left|right]. exists j. split; [lia|done].
Qed.

Lemma reaped_inv s s' cur z :
  proc_inv s -> k_cur s = Some cur -> (z < NPROC)%nat -> p_parent (k_ptable s !!! z) = Some cur ->
  k_ptable s' = alter reaped z (k_ptable s) -> k_cur s' = k_cur s -> k_initproc s' = k_initproc s -> proc_inv s'.
Proof using.
  intros I Ec Hz Hp E1 E2 E3. apply (proc_inv_same (set_k_ptable (alter reaped z (k_ptable s)) s)); [done..|].
  pose proof (pi_table _ I) as T. destruct (pi_cur _ I cur Ec) as [Hc Hr].
  destruct (to_parent _ _ T z cur Hz Hp) as (_ & Hne & Hi & _). apply inv_alter; [done| |congruence].
  apply table_alter; [done..|by intros [? _]|done|].
  intros k _ [Hk _]. rewrite Hp. intros [= <-]. congruence.
Qed.

Lemma wait_inv s : proc_inv s ->
  match wait s with
  | Ok _ s' => proc_inv s'
  | Sleeps _ s1 => forall s', sched s1 = Ok tt s' -> proc_inv s'
  | Gone _ => False
  | _ => True
  end.
Proof using.
  intros I. unfold wait, myproc, mbind, M_bind. destruct (k_cur s) as [cur|] eqn:Ec; [|done].
  pose proof (wait_scan_out cur 0 NPROC false s) as Hs.
  destruct (wait_scan cur 0 NPROC false s) as [[pid|h] s1| | | | |]; try done.
  - destruct Hs as (z & Hz & Hp & _ & E1 & E2 & E3). cbn. eapply (reaped_inv s _ cur z); try done. lia.
  - destruct Hs as (-> & Hnz & Hh). cbn. destruct h; cbn; [|done]. destruct (p_killed _) eqn:Ek; cbn; [done|].
    destruct (Hh eq_refl) as [?|(j & Hj & Ej)]; [done|]. destruct (sleep _ s) as [| |c s1| | |] eqn:Es; try done.
    + unfold sleep, gets, mbind, M_bind in Es. by rewrite Ec in Es.
    + intros s' E'. eapply (sleep_sched_inv s _ (ChProc cur)); [done| | |exact E'].
      2: { assert (c = ChProc cur) as ->; [|exact Es]. unfold sleep, gets, mbind, M_bind in Es. rewrite Ec in Es. by injection Es. }
      intros p Ep _. assert (p = cur) as -> by congruence. destruct (pi_cur _ I cur Ec) as [Hc Hr].
      apply table_alter; [apply I|done|done|done| |right; split; [done|]|done|].
      * intros l El. cbn in El. destruct (to_parent _ _ (pi_table _ I) cur l Hc El) as (? & ? & ? & _). done.
      * split; [exists j; split; [lia|done]|]. intros l Hl. apply Hnz. lia.
      * intros k _ _. done.
    + unfold sleep, gets, mbind, M_bind in Es. by rewrite Ec in Es.
Qed.

(** *** exit *)

Lemma in_wait_woken pt pt' k : woken pt pt' -> in_wait k (pt' !!! k) -> in_wait k (pt !!! k).
Proof using. intros W. destruct (woken_lookup _ _ k W) as [->|[_ ->]]; [done|]. by intros [? _]. Qed.

Lemma wakeup1_not_in_wait pt k : (k < length pt)%nat -> ~ in_wait k ((wakeup1_proc (ChProc k) <$> pt) !!! k).
Proof using.
  intros Hk. rewrite !list_lookup_total_alt, list_lookup_fmap. apply lookup_lt_is_Some in Hk as [q ->].
  cbn. unfold wakeup1_proc, in_wait. case_bool_decide; [by intros [? _]|done].
Qed.

Lemma wakeup1_set_parent c x i (pt : list proc) :
  wakeup1_proc c <$> alter (set_p_parent x) i pt = alter (set_p_parent x) i (wakeup1_proc c <$> pt).
Proof using.
  revert i. induction pt as [|q pt IH]; intros [|i]; [done..| |].
  - cbn. f_equal. unfold wakeup1_proc. cbn. by case_bool_decide.
  - cbn. f_equal. apply IH.
Qed.

(** While the process [cur] exits, its parent is not asleep in wait. *)
Record exiting (cur : nat) (s : kernel) : Prop := mkExiting {
  ex_inv : proc_inv s;
  ex_cur : k_cur s = Some cur;
  ex_init : k_initproc s <> Some cur;
  ex_parent k : p_parent (k_ptable s !!! cur) = Some k -> ~ in_wait k (k_ptable s !!! k) }.

Lemma exiting_wakeup cur c s : exiting cur s -> exiting cur (set_k_ptable (wakeup1_proc c <$> k_ptable s) s).
Proof using.
  intros [E1 E2 E3 E4]. pose proof (woken_wakeup1 c (k_ptable s)) as W. split; [by apply wakeup1_inv|done|done|].
  ksimpl. intros k. assert (p_parent ((wakeup1_proc c <$> k_ptable s) !!! cur) = p_parent (k_ptable s !!! cur)) as ->.
  { by destruct (woken_lookup _ _ cur W) as [->|[_ ->]]. }
  intros Ek Hw. by apply (E4 k Ek), (in_wait_woken _ _ _ W).
Qed.

Lemma exiting_adopt cur i s :
  exiting cur s -> (i < NPROC)%nat -> p_parent (k_ptable s !!! i) = Some cur ->
  (p_state (k_ptable s !!! i) = ZOMBIE -> forall k, k_initproc s = Some k -> ~ in_wait k (k_ptable s !!! k)) ->
  exiting cur (set_k_ptable (alter (set_p_parent (k_initproc s)) i (k_ptable s)) s).
Proof using.
  intros [I Ec Ei Ep] Hi Hp Hz. pose proof (pi_table _ I) as T. destruct (pi_cur _ I cur Ec) as [Hc Hr].
  destruct (to_parent _ _ T i cur Hi Hp) as (_ & Hne & Hni & Hu). split; [|done|done|].
  - apply inv_alter; [done| |intros ?; congruence]. apply table_alter; cbn; [done|done|done|by apply (to_chan _ _ T)| |by left| |].
    + intros j Ej. destruct (to_init _ _ T j Ej) as [? _]. split_and!; [done|congruence|done|done].
    + intros k Hk Hw Ek Hz'. by apply (Hz Hz' k Ek).
    + intros k _ [Hs _]. rewrite Hp. intros [= <-]. congruence.
  - ksimpl. intros k. rewrite !list_lookup_total_alter. rewrite decide_False by (intros [? _]; congruence). intros Ek.
    case_decide as D; [|by apply Ep]. destruct D as [-> _]. apply (Ep k Ek).
Qed.

Lemma reparent_inv cur i n s s' :
  exiting cur s -> (i + n <= NPROC)%nat -> reparent cur (k_initproc s) i n s = Ok tt s' -> exiting cur s'.
Proof using.
  revert i s. induction n as [|n IH]; intros i s X Hi E; cbn [reparent] in E; [by injection E as <-|].
  rewrite (bind_ok _ _ s (k_ptable s !!! i) s) in E by done. apply bind_inv in E as ([] & s1 & E1 & E).
  assert (X1 : exiting cur s1 /\ k_initproc s1 = k_initproc s).
  2: { destruct X1 as [X1 E2]. rewrite <- E2 in E. eapply IH; [done| |exact E]. lia. }
  case_bool_decide as Hp; [|by injection E1 as <-]. apply bind_inv in E1 as ([] & s2 & [= <-] & E1).
  case_bool_decide as Hz.
  - destruct (k_initproc s) as [k|] eqn:Ek.
    + injection E1 as <-. split; [|done]. ksimpl. rewrite wakeup1_set_parent.
      pose proof (exiting_wakeup cur (ChProc k) s X) as X'.
      apply (exiting_adopt cur i) in X'; [|lia|ksimpl|ksimpl].
      * ksimpl in X'. by rewrite Ek in X'.
      * by destruct (woken_lookup _ _ i (woken_wakeup1 (ChProc k) (k_ptable s))) as [->|[_ ->]].
      * intros _ k'. rewrite Ek. intros [= <-]. apply wakeup1_not_in_wait.
        destruct (to_init _ _ (pi_table _ (ex_inv _ _ X)) k Ek) as [? _]. by rewrite (to_len _ _ (pi_table _ (ex_inv _ _ X))).
    + injection E1 as <-. split; [|done]. rewrite <- Ek. apply exiting_adopt; [done|lia|done|]. intros _ k. by rewrite Ek.
  - injection E1 as <-. split; [|done]. apply exiting_adopt; [done|lia|done|done].
Qed.

Lemma exit_inv p s s' :
  proc_inv s -> k_cur s = Some p -> Some p <> k_initproc s -> exit_tail p (k_initproc s) s = Ok tt s' ->
  proc_inv s' /\ k_cur s' = None.
Proof using.
  intros I Ec Hi E. unfold exit_tail in E. rewrite (bind_ok _ _ s (k_ptable s !!! p) s) in E by done.
  pose proof (pi_table _ I) as T. destruct (pi_cur _ I p Ec) as [Hp Hr].
  apply bind_inv in E as ([] & s1 & E1 & E).
  assert (X1 : exiting p s1 /\ k_initproc s1 = k_initproc s).
  { destruct (p_parent (k_ptable s !!! p)) as [k|] eqn:Ek.
    - injection E1 as <-. split; [|done]. split; [by apply wakeup1_inv|done|done|]. ksimpl. intros k'.
      destruct (woken_lookup _ _ p (woken_wakeup1 (ChProc k) (k_ptable s))) as [->|[Hs _]]; [|congruence].
      rewrite Ek. intros [= <-]. apply wakeup1_not_in_wait. destruct (to_parent _ _ T p k Hp Ek) as [? _]. by rewrite (to_len _ _ T).
    - injection E1 as <-. split; [|done]. split; [done|done|done|]. intros k. by rewrite Ek. }
  destruct X1 as [X1 Ei]. rewrite <- Ei in E. apply bind_inv in E as ([] & s2 & E2 & E).
  apply reparent_inv in E2 as [I2 Ec2 Ei2 Ep2]; [|done|done]. apply bind_inv in E as ([] & s3 & [= <-] & E).
  apply (sched_inv _ p) in E as ->; [|exact Ec2]. split; [|done]. apply inv_leave; [done| |done].
  destruct (pi_cur _ I2 p Ec2) as [_ Hr2]. pose proof (pi_table _ I2) as T2.
  apply table_alter; cbn; [done|done|done|done| |by intros [? _]| |by intros].
  - intros j Ej. destruct (to_parent _ _ T2 p j Hp Ej) as (? & ? & ? & _). done.
  - intros k _ Hw Ek _. by apply (Ep2 k Ek).
Qed.

(** *** The invariant *)

Lemma proc_step_inv s s' : proc_inv s -> proc_step s s' -> proc_inv s'.
Proof using.
  intros I [c E|A c s1 Hc E E'|p Ec E|pid E|c s1 E E'|p Ec Hi E|pid r E|E|i p Ec En E|r E|p f Hp Hi He E|o Ho ->|Hl Ec Ei].
  - exact (wakeup_inv c s s' I E).
  - eapply (sleep_sched_inv s A c); [done|naive_solver|exact E|exact E'].
  - exact (tidy_inv p s s' I Ec E).
  - pose proof (wait_inv s I) as Hw. by rewrite E in Hw.
  - pose proof (wait_inv s I) as Hw. rewrite E in Hw. by apply Hw.
  - by eapply exit_inv.
  - exact (kill_inv pid r s s' I E).
  - exact (yield_inv s s' I E).
  - exact (run_inv i p s s' I Ec En E).
  - by eapply allocproc_inv.
  - exact (embryo_inv p f s s' I Hp Hi He E).
  - by apply cpu_inv.
  - exact (other_inv s s' I Hl Ec Ei).
Qed.

Lemma proc_steps_inv s s' : proc_inv s -> rtc proc_step s s' -> proc_inv s'.
Proof using. intros I Hs. induction Hs; eauto using proc_step_inv. Qed.

(** *** fork *)

Lemma aside_step s s' : k_ptable s' = k_ptable s -> k_cur s' = k_cur s -> k_initproc s' = k_initproc s -> proc_step s s'.
Proof using. intros E1 E2 E3. apply st_other; [|done|done]. rewrite E1. by apply Forall_Forall2_diag, Forall_forall. Qed.

(** fork by [cur], which started in [s0], is filling in the slot [np]. *)
Record forking (s0 : kernel) (cur np : nat) (s : kernel) : Prop := mkForking {
  fk_steps : rtc proc_step s0 s;
  fk_cur : k_cur s = Some cur;
  fk_range : (np < NPROC)%nat;
  fk_len : length (k_ptable s) = NPROC;
  fk_init : k_initproc s <> Some np;
  fk_state : p_state (k_ptable s !!! np) = EMBRYO }.

Lemma forking_aside {A} s0 cur np (m : kM A) s a s' : forking s0 cur np s -> moves aside m -> m s = Ok a s' -> forking s0 cur np s'.
Proof using.
  intros [F1 F2 F3 F4 F5 F6] Hm E. apply (aside_ok _ _ _ _ Hm) in E as (A1 & A2 & A3). split; rewrite ?A1, ?A2, ?A3; try done.
  eapply rtc_r; [done|]. by apply aside_step.
Qed.

Lemma forking_upd s0 cur np f s s' :
  forking s0 cur np s -> upd_proc np f s = Ok tt s' -> p_state (f (k_ptable s !!! np)) = EMBRYO ->
  p_parent (f (k_ptable s !!! np)) = p_parent (k_ptable s !!! np) \/
    p_parent (k_ptable s !!! np) = None /\ p_parent (f (k_ptable s !!! np)) = Some cur ->
  forking s0 cur np s'.
Proof using.
  intros [F1 F2 F3 F4 F5 F6] E Hs Hp. assert (proc_step s s').
  { apply (st_embryo s s' np f); [done|done| |done]. split; [done|by left|]. by rewrite F2. }
  injection E as <-. split; ksimpl; [by eapply rtc_r|done|done|by rewrite length_alter|done|]. by rewrite lookup_alter_here.
Qed.

Lemma fork_files_steps s0 cur np i n s s' :
  forking s0 cur np s -> fork_files cur np i n s = Ok tt s' -> forking s0 cur np s'.
Proof using.
  revert i s. induction n as [|n IH]; intros i s F E; cbn [fork_files] in E; [by injection E as <-|].
  rewrite (bind_ok _ _ s (k_ptable s !!! cur) s) in E by done. apply bind_inv in E as ([] & s1 & E1 & E).
  apply (IH (S i) s1); [|done]. destruct (p_ofile _ !!! i) as [g|]; [|by injection E1 as <-].
  apply bind_inv in E1 as (h & s2 & E2 & E1). eapply forking_aside in E2; [|done|apply filedup_aside].
  refine (forking_upd _ _ _ _ _ _ E2 E1 _ _); [apply E2|by left].
Qed.

(** fork is a sequence of such steps. *)
Lemma fork_steps r s s' : proc_inv s -> fork s = Ok r s' -> rtc proc_step s s'.
Proof using.
  intros I E. unfold fork, myproc in E. apply bind_inv in E as (cur & s1 & E1 & E).
  destruct (k_cur s) as [cur'|] eqn:Ec; [|done]. injection E1 as <- <-. apply bind_inv in E as (o & s1 & E1 & E).
  destruct (allocproc_inv _ _ _ I E1) as (I1 & C1 & Hf). apply (st_alloc s s1 o) in E1.
  destruct o as [np|]; [|injection E as _ <-; by apply rtc_once].
  destruct (Hf np eq_refl) as [F1 F2 F3 F4].
  assert (F : forking s cur' np s1) by (split; [by apply rtc_once|congruence|done|apply I1|done|done]). clear Hf.
  rewrite (bind_ok _ _ s1 (k_ptable s1 !!! cur') s1) in E by done. apply bind_inv in E as (d & s2 & E2 & E).
  pose proof (aside_ok _ _ _ _ (copyuvm_aside _ _) E2) as (A1 & _ & _). eapply forking_aside in E2; [|exact F|apply copyuvm_aside].
  apply bind_inv in E as ([] & s3 & E3 & E).
  assert (Hn : p_parent (k_ptable s3 !!! np) = None).
  { injection E3 as <-. ksimpl. rewrite A1. rewrite lookup_alter_here; [done|apply I1|done]. }
  pose proof (forking_upd _ _ _ _ _ _ E2 E3 (fk_state _ _ _ _ E2) (or_introl eq_refl)) as G. destruct (d =? 0).
  - rewrite (bind_ok _ _ s3 (k_ptable s3 !!! np) s3) in E by done. apply bind_inv in E as ([] & s4 & E4 & E).
    pose proof (aside_ok _ _ _ _ (kfree_aside _) E4) as (B1 & _ & _). eapply forking_aside in E4; [|exact G|apply kfree_aside].
    apply bind_inv in E as ([] & s5 & E5 & [= _ <-]). destruct E4 as [G1 G2 G3 G4 G5 G6]. eapply rtc_r; [exact G1|].
    eapply st_embryo; [exact G3|exact G5| |exact E5]. split; [done|do 2 right; cbn; by rewrite B1|by left].
  - apply bind_inv in E as ([] & s4 & E4 & E).
    pose proof (forking_upd _ _ _ _ _ _ G E4 (fk_state _ _ _ _ G) (or_intror (conj Hn eq_refl))) as G4.
    apply bind_inv in E as ([] & s5 & E5 & E). apply fork_files_steps with (s0 := s) in E5; [|done].
    apply bind_inv in E as ([] & s6 & E6 & E). assert (G6 : forking s cur' np s6).
    { destruct (p_cwd _); [|done]. apply bind_inv in E6 as (ip & s7 & E7 & E6).
      eapply forking_aside in E7; [|exact E5|apply idup_aside].
      refine (forking_upd _ _ _ _ _ _ E7 E6 _ _); [apply E7|by left]. }
    apply bind_inv in E as ([] & s7 & E7 & E).
    pose proof (forking_upd _ _ _ _ _ _ G6 E7 (fk_state _ _ _ _ G6) (or_introl eq_refl)) as G7.
    rewrite (bind_ok _ _ s7 (k_ptable s7 !!! np) s7) in E by done. apply bind_inv in E as ([] & s8 & E8 & [= _ <-]).
    destruct G7 as [K1 K2 K3 K4 K5 K6]. eapply rtc_r; [exact K1|]. eapply st_embryo; [exact K3|exact K5| |exact E8].
    split; [done|by right; left|by left].
Qed.

(** *** Waking the parent *)

(** Processes only went from SLEEPING to RUNNABLE. *)
Definition settled (pt pt' : list proc) : Prop :=
  length pt' = length pt /\
  forall i, p_state (pt' !!! i) = p_state (pt !!! i) \/ p_state (pt !!! i) = SLEEPING /\ p_state (pt' !!! i) = RUNNABLE.

#[local] Instance settled_preorder : PreOrder settled.
Proof using.
  split; [intros pt; split; [done|by left]|]. intros p1 p2 p3 [L1 H1] [L2 H2]. split; [congruence|]. intros i.
  destruct (H1 i) as [E1|[E1 E1']], (H2 i) as [E2|[E2 E2']]; rewrite ?E2, ?E1; auto; try congruence.
  right. split; congruence.
Qed.

Lemma settled_wakeup c pt : settled pt (wakeup1_proc c <$> pt).
Proof using.
  pose proof (woken_wakeup1 c pt) as W. split; [by rewrite length_fmap|]. intros i.
  destruct (woken_lookup _ _ i W) as [->|[? ->]]; [by left|by right].
Qed.

Lemma settled_parent x i pt : settled pt (alter (set_p_parent x) i pt).
Proof using.
  split; [by rewrite length_alter|]. intros j. left. rewrite list_lookup_total_alter. by case_decide as D; [destruct D as [-> _]|].
Qed.

(** The part of the kernel exit_tail does not look at. *)
Definition settles (s s' : kernel) : Prop := settled (k_ptable s) (k_ptable s') /\ k_cur s' = k_cur s.

Lemma wakeup1_ptr_ok o s : exists s', wakeup1_ptr o s = Ok tt s' /\ settles s s'.
Proof using.
  destruct o as [i|]; eexists; (split; [reflexivity|]); split; [apply settled_wakeup|done|reflexivity|done].
Qed.

Lemma reparent_ok cur init i n s : exists s', reparent cur init i n s = Ok tt s' /\ settles s s'.
Proof using.
  revert i s. induction n as [|n IH]; intros i s; cbn [reparent]; [exists s; split_and!; [done|split; [reflexivity|done]]|].
  rewrite (bind_ok _ _ s (k_ptable s !!! i) s) by done.
  assert (Hs : exists s1, (when bool_decide (p_parent (k_ptable s !!! i) = Some cur) do
       (upd_proc i (set_p_parent init);; when bool_decide (p_state (k_ptable s !!! i) = ZOMBIE) do wakeup1_ptr init)) s = Ok tt s1 /\ settles s s1).
  { case_bool_decide as D; [|exists s; split_and!; [done|split; [reflexivity|done]]].
    rewrite (bind_ok _ _ s tt (set_k_ptable (alter (set_p_parent init) i (k_ptable s)) s)) by done. case_bool_decide as D'.
    - destruct (wakeup1_ptr_ok init (set_k_ptable (alter (set_p_parent init) i (k_ptable s)) s)) as (s1 & E1 & H1 & C1).
      exists s1. split; [exact E1|]. split; [|exact C1]. etrans; [apply settled_parent|exact H1].
    - eexists. split; [reflexivity|]. split; [apply settled_parent|done]. }
  destruct Hs as (s1 & E1 & H1 & C1). rewrite (bind_ok _ _ _ _ _ E1). destruct (IH (S i) s1) as (s2 & E2 & H2 & C2).
  exists s2. split; [exact E2|]. split; [by etrans|congruence].
Qed.

Lemma exit_tail_ok p init s :
  k_cur s = Some p -> (p < NPROC)%nat -> length (k_ptable s) = NPROC ->
  exists s' pt, exit_tail p init s = Ok tt s' /\ k_ptable s' = alter (set_p_state ZOMBIE) p pt /\ length pt = NPROC /\
    exists s1, wakeup1_ptr (p_parent (k_ptable s !!! p)) s = Ok tt s1 /\ settled (k_ptable s1) pt.
Proof using.
  intros Ec Hp Hl. unfold exit_tail. rewrite (bind_ok _ _ s (k_ptable s !!! p) s) by done.
  destruct (wakeup1_ptr_ok (p_parent (k_ptable s !!! p)) s) as (s1 & E1 & [L1 _] & C1). rewrite (bind_ok _ _ _ _ _ E1).
  destruct (reparent_ok p init 0 NPROC s1) as (s2 & E2 & H2 & C2). rewrite (bind_ok _ _ _ _ _ E2).
  assert (length (k_ptable s2) = NPROC) by (destruct H2 as [-> _]; congruence).
  set (s3 := set_k_ptable (alter (set_p_state ZOMBIE) p (k_ptable s2)) s2). rewrite (bind_ok _ _ s2 tt s3) by done.
  exists (set_k_cur None s3), (k_ptable s2). split_and!; [|done|done|by exists s1].
  unfold sched. rewrite (bind_ok _ _ s3 p s3).
  2: { unfold myproc. change (k_cur s3) with (k_cur s2). by rewrite C2, C1, Ec. }
  rewrite (bind_ok _ _ s3 (k_ptable s3 !!! p) s3) by done. 
  assert (k_ptable s3 !!! p = set_p_state ZOMBIE (k_ptable s2 !!! p)) as -> by (by apply lookup_alter_here). done.
Qed.

End steps.

(** C9. The process table stays well formed.  From a table that satisfies the
    invariant, whatever sequence of operations the processors perform on it
    (wakeup, sleep, wait, exit, kill, yield, the scheduler, the steps of fork
    and any change of the other fields), the invariant holds: the table keeps
    its size, who sleeps has a channel, parents are other processes, free slots
    and init have none, the process of the processor is RUNNING, and a process
    asleep in wait was not killed, has a child, and none of its children has
    exited.  It holds after fork too, which is a sequence of such steps. *)
Theorem process_table_invariant `{Linker} s s' :
  proc_inv s -> rtc proc_step s s' ->
  proc_inv s' /\ forall r s'', fork s' = Ok r s'' -> rtc proc_step s s'' /\ proc_inv s''.
Proof.
  intros I Hs. pose proof (proc_steps_inv s s' I Hs) as I'. split; [done|]. intros r s'' E.
  pose proof (fork_steps r s' s'' I' E) as Hf. split; [by etrans|]. by eapply proc_steps_inv.
Qed.

(** C7. No exit is missed.  In every state the operations on the process table
    reach, a process asleep in wait has a child that has neither exited nor been
    cleaned up; and when one of its children exits, exit gets to the scheduler
    with the child a ZOMBIE and the parent RUNNABLE. *)
Theorem exit_wakes_wait `{Linker} s s' i :
  proc_inv s -> rtc proc_step s s' -> (i < NPROC)%nat -> in_wait i (k_ptable s' !!! i) ->
  (exists j, (j < NPROC)%nat /\ p_parent (k_ptable s' !!! j) = Some i /\
     p_state (k_ptable s' !!! j) <> UNUSED /\ p_state (k_ptable s' !!! j) <> ZOMBIE) /\
  (forall j, k_cur s' = Some j -> p_parent (k_ptable s' !!! j) = Some i ->
     exists s'', exit_tail j (k_initproc s') s' = Ok tt s'' /\ proc_step s' s'' /\
       p_state (k_ptable s'' !!! i) = RUNNABLE /\ p_state (k_ptable s'' !!! j) = ZOMBIE).
Proof.
  intros I Hs Hi Hw. apply (proc_steps_inv s s' I) in Hs as I'. pose proof (pi_table _ I') as T.
  destruct (to_wait _ _ T i Hi Hw) as (_ & (j & Hj & Ej) & Hz). split.
  - exists j. split_and!; [done|done| |by apply Hz]. by destruct (to_parent _ _ T j i Hj Ej) as (_ & _ & _ & ?).
  - clear j Hj Ej. intros j Ec Ej. destruct (pi_cur _ I' j Ec) as [Hj Hr].
    destruct (to_parent _ _ T j i Hj Ej) as (_ & Hne & Hni & _). pose proof (to_len _ _ T) as Hl.
    destruct (exit_tail_ok j (k_initproc s') s' Ec Hj Hl) as (s'' & pt & E & Ept & Hpl & s1 & E1 & [_ Hst]).
    exists s''. split_and!; [done|by apply (st_exit s' s'' j)| |].
    + rewrite Ept, list_lookup_total_alter, decide_False by (intros [? _]; congruence).
      assert (p_state (k_ptable s1 !!! i) = RUNNABLE) as Hs1.
      { rewrite Ej in E1. injection E1 as <-. ksimpl. rewrite !list_lookup_total_alt, list_lookup_fmap.
        rewrite list_lookup_lookup_total_lt by lia. cbn. unfold wakeup1_proc. by rewrite bool_decide_true. }
      destruct (Hst i) as [->|[? _]]; congruence.
    + by rewrite Ept, lookup_alter_here.
Qed.

(** *** A parent that waits for its child *)

Definition family : list proc :=
  set_p_state RUNNING inhabitant :: set_p_parent (Some O) (set_p_state RUNNING inhabitant) :: replicate (NPROC - 2) inhabitant.
Definition family_kernel : kernel := set_k_cur (Some O) (set_k_initproc (Some O) (set_k_ptable family inhabitant)).
(** The parent sleeps and the other processor goes on with the child. *)
Definition family_asleep : kernel := set_k_cur (Some 1%nat)
  (set_k_ptable (alter (fun q => set_p_state SLEEPING (set_p_chan (Some (ChProc O)) q)) O family) family_kernel).

Lemma family_rest i : (2 <= i)%nat -> family !!! i = inhabitant.
Proof.
  intros Hi. destruct i as [|[|i]]; [lia|lia|].
  change (family !!! S (S i)) with ((replicate (NPROC - 2) inhabitant : list proc) !!! i). rewrite list_lookup_total_alt.
  destruct (replicate _ _ !! i) as [q|] eqn:E; [|done]. by apply lookup_replicate in E as [-> _].
Qed.

Lemma family_inv : proc_inv family_kernel.
Proof.
  assert (Hi : forall i, i = 0%nat \/ i = 1%nat \/ family !!! i = inhabitant).
  { intros i. destruct (decide (2 <= i)%nat); [right; right; by apply family_rest|lia]. }
  split; [split|]; cbn [family_kernel set_k_cur set_k_initproc set_k_ptable k_ptable k_initproc k_cur].
  - done.
  - intros i [= <-]. split; [unfold NPROC; lia|done].
  - intros i _. destruct (Hi i) as [-> | [-> | ->]]; done.
  - intros i j _. destruct (Hi i) as [-> | [-> | ->]]; try done. intros [= <-]. split_and!; [unfold NPROC; lia|done..].
  - intros i _ [Hs _]. destruct (Hi i) as [-> | [-> | E]]; [done|done|]. by rewrite E in Hs.
  - intros p [= <-]. split; [unfold NPROC; lia|done].
Qed.

#[local] Existing Instance example_linker.

Lemma family_steps : rtc proc_step family_kernel family_asleep.
Proof.
  apply (rtc_l _ _ (set_k_cur None family_asleep)).
  - eapply (st_wait_sleeps _ _ (ChProc O)); [vm_compute; reflexivity|vm_compute; reflexivity].
  - apply rtc_once, (st_cpu _ _ (Some 1%nat)); [|done]. intros p [= <-]. split; [unfold NPROC; lia|done].
Qed.

Lemma process_table_invariant_witness : proc_inv family_asleep.
Proof. apply (process_table_invariant family_kernel family_asleep family_inv family_steps). Defined.

Lemma exit_wakes_wait_witness :
  exists s'', exit_tail 1 (Some O) family_asleep = Ok tt s'' /\ p_state (k_ptable s'' !!! O) = RUNNABLE.
Proof.
  destruct (exit_wakes_wait family_kernel family_asleep 0 family_inv family_steps) as [_ Hx].
  - unfold NPROC. lia.
  - by split.
  - destruct (Hx 1%nat eq_refl eq_refl) as (s'' & E & _ & Hr & _). exists s''. by split.
Defined.
