(* ===== verification/ProcWait.v ===== *)
(** * wait gives back what a child used

    wait with the memory of the processes: the kernel stack and the address
    space of the child that has exited go back to the page allocator. *)

From S2P Require Import Prelude State CString Sleep Kalloc PageMath KallocSpec Console ConsoleOut Vm VmSpec VmUser VmCopy VmProps Proc ProcProps ProcLife.
Open Scope Z_scope.

Section wait.
Context `{Linker}.

Lemma vm_user_table s F A l pt : vm_user s F A l -> vm_user (set_k_ptable pt s) F A l.
Proof using. intros [[[V1 V2] V3 V4 V5] V6]. split; [split; [split|..]|]; done. Qed.

Lemma wait_scan_skip cur i n z h s :
  (i <= z < i + n)%nat ->
  (forall j, (i <= j < z)%nat -> p_parent (k_ptable s !!! j) = Some cur -> p_state (k_ptable s !!! j) <> ZOMBIE) ->
  exists h', wait_scan cur i n h s = wait_scan cur z (i + n - z) h' s.
Proof using.
  revert i h. induction n as [|n IH]; intros i h Hz Hn; [lia|]. destruct (decide (i = z)) as [->|].
  { exists h. f_equal. lia. }
  cbn [wait_scan]. rewrite (bind_ok _ _ s (k_ptable s !!! i) s) by done.
  assert (Hn' : forall j, (S i <= j < z)%nat -> p_parent (k_ptable s !!! j) = Some cur -> p_state (k_ptable s !!! j) <> ZOMBIE)
    by (intros; apply Hn; [lia|done]).
  replace (i + S n - z)%nat with (S i + n - z)%nat by lia.
  case_bool_decide as Hp; cbn [negb]; [|apply IH; [lia|done]].
  rewrite bool_decide_false by (by apply Hn; [lia|]). apply IH; [lia|done].
Qed.
End wait.

(** C10. wait reports and cleans up a child that has exited.  Let slot [z] be the
    first child of the process that is a ZOMBIE.  wait returns its pid without
    sleeping; the slot is free again, and no other slot changes; and the pages
    of its kernel stack, of its memory and of its page tables are back on the
    free list, once each, while the other pages [F] keep their contents. *)
Theorem wait_reaps `{Linker} s cur z F A l :
  let q := k_ptable s !!! z in
  k_cur s = Some cur -> (z < NPROC)%nat -> p_parent q = Some cur -> p_state q = ZOMBIE ->
  (forall j, (j < z)%nat -> p_parent (k_ptable s !!! j) = Some cur -> p_state (k_ptable s !!! j) <> ZOMBIE) ->
  vm_user s (p_kstack q :: F) A l -> p_pgdir q = t_dir (a_tab A) ->
  exists s' l', wait s = Ok (p_pid q) s' /\ k_ptable s' = alter reaped z (k_ptable s) /\
    freelist s' l' /\ l' ≡ₚ p_kstack q :: apages A ++ l /\ NoDup l' /\ keeps F s s'.
Proof.
  intros q Ec Hz Hp Hs Hfirst Hu Hd. unfold wait, myproc. rewrite (bind_ok _ _ s cur s) by (by rewrite Ec).
  destruct (wait_scan_skip cur 0 NPROC z false s) as [h' Eh]; [lia|intros; by apply Hfirst; [lia|]|].
  replace (0 + NPROC - z)%nat with (S (NPROC - S z)) in Eh by lia.
  destruct Hu as [Hv Ha]. destruct (kfree_tab s (F ++ upages (a_ups A)) (a_tab A) l (p_kstack q) Hv) as (s1 & E1 & Hv1 & K1 & M1).
  set (s2 := set_k_ptable (alter (set_p_kstack 0) z (k_ptable s1)) s1).
  assert (Hu2 : vm_user s2 F A (p_kstack q :: l)) by (apply vm_user_table; by split).
  destruct (freevm_spec s2 F A _ Hu2) as (s3 & l' & E3 & Hf & Hperm & K3 & M3 & _).
  assert (Es : exists s4, wait_scan cur 0 NPROC false s = Ok (inl (p_pid q)) s4 /\ k_mem s4 = k_mem s3 /\ k_kmem s4 = k_kmem s3 /\
    k_ptable s4 = alter reaped z (k_ptable s)).
  { rewrite Eh. cbn [wait_scan]. rewrite (bind_ok _ _ s q s) by done. rewrite bool_decide_true by done. cbn [negb].
    rewrite bool_decide_true by done. rewrite (bind_ok _ _ _ _ _ E1). rewrite (bind_ok _ _ s1 tt s2) by done.
    rewrite Hd, (bind_ok _ _ _ _ _ E3). eexists. split; [reflexivity|]. ksimpl. split_and!; [done|done|].
    rewrite M3. ksimpl. unfold s2. ksimpl. rewrite M1. ksimpl. by rewrite !alter_alter. }
  destruct Es as (s4 & Es & Em & Ek & Et). rewrite (bind_ok _ _ _ _ _ Es). exists s4, l'. split_and!; [done|done| |..].
  - destruct Hf as [C1 C2]. split; [|done]. by rewrite Em, Ek.
  - rewrite Hperm. solve_Permutation.
  - apply Hf.
  - intros a x Ha' Hx. rewrite Em, (K3 a x Ha' Hx). unfold s2. ksimpl. apply (K1 a x); [|done]. rewrite !elem_of_app. by left; left.
Qed.

(** ** A concrete address space

    A page directory with one page table and one user page at address 0, and
    three free pages.  The theorems on virtual memory are evaluated on it. *)

#[local] Existing Instance example_linker.

#[local] Instance example_linked : LinkedAt.
Proof. split; [reflexivity|]. split; reflexivity. Qed.

Definition frame (i : Z) : Z := page1 + 4096 * i.

Lemma frame_ok i : 0 <= i < 1000 -> page_ok (frame i).
Proof.
  intros Hi. unfold page_ok, frame, page1, PGSIZE, KERNBASE, PHYSTOP. rewrite V2P_small by (unfold KERNBASE; lia).
  unfold KERNBASE. cbn [kend example_linker]. split_and!; lia || zlia.
Qed.

(** The directory at frame 0 and the page table at frame 1. *)
Definition dir0 : tables := mkTables (frame 0) ∅ (fun _ => 0).
Definition tab1 : tables := add_table dir0 0 (frame 1).
Definition kernel1 : kernel := set_k_mem (add_mem (fun _ => 0) dir0 0 (frame 1)) inhabitant.
Definition others : list Z := [frame 2; frame 3; frame 4; frame 5].

Lemma nodup_frames : NoDup (others ++ [frame 0; frame 1]).
Proof. apply (bool_decide_unpack _). vm_compute. exact I. Qed.

Lemma frames_ok : Forall page_ok (others ++ [frame 0; frame 1]).
Proof. repeat (constructor; [apply frame_ok; lia|]). constructor. Qed.

Lemma tpages1 : tpages tab1 = [frame 0; frame 1].
Proof. unfold tpages, tab1, vals. cbn. by rewrite map_to_list_insert_empty || reflexivity. Qed.

Lemma kernel1_tab : vm_tab kernel1 others tab1 [].
Proof.
  assert (Hz : tab_ok (fun _ => 0) dir0) by (split; cbn; intros; rewrite lookup_empty in *; try done).
  pose proof nodup_frames as Hn. pose proof frames_ok as Hp. split.
  - split; [reflexivity|apply NoDup_nil_2].
  - refine (tab_ok_add (fun _ => 0) dir0 0 (frame 1) Hz _ _ (frame_ok 1 _) _ _ _); [lia|done|lia|..].
    + constructor; [apply frame_ok; lia|constructor].
    + intros Hin%list_elem_of_singleton. discriminate.
    + apply NoDup_singleton.
  - rewrite tpages1, app_nil_r. exact Hn.
  - rewrite tpages1, app_nil_r. exact Hp.
Qed.

(** The user page at frame 2, then frames 3 to 5 freed. *)
Definition kernel2 : kernel := set_entry kernel1 (frame 1) 0 (uentry (Some (frame 2, 7))).
Definition space2 : aspace := mkAspace (set_map tab1 0 (uentry (Some (frame 2, 7)))) {[0 := (frame 2, 7)]}.

Lemma space2_ok : as_ok space2.
Proof.
  split; cbn.
  - intros n u f Hn. apply lookup_singleton_Some in Hn as [<- [= <- <-]]. unfold UPN. split_and!; lia || done.
  - intros n Hn. unfold fset. destruct (Z.eqb_spec n 0) as [->|Hne]; [done|].
    by rewrite lookup_singleton_ne.
Qed.

Lemma upages2 : upages (a_ups space2) = [frame 2].
Proof. unfold upages, vals. cbn. by rewrite map_to_list_singleton. Qed.

Lemma kernel2_tab : vm_tab kernel2 others (a_tab space2) [].
Proof.
  apply (set_entry_step kernel1 others tab1 [] 0 (frame 1) _ kernel1_tab); [unfold VPN; lia|reflexivity|].
  destruct (uentry_some (frame 2) 7) as (_ & _ & _ & _ & _ & Hr); [apply frame_ok; lia|lia|done|exact Hr].
Qed.

(** A machine with that address space and three free pages. *)
Lemma machine3 : exists s, vm_user s [] space2 [frame 5; frame 4; frame 3] /\ cons_ok (k_cons s).
Proof.
  assert (P1 : [frame 3; frame 4; frame 5; frame 2] ≡ₚ others) by (unfold others; solve_Permutation).
  pose proof (vm_tab_frame _ _ _ _ _ (symmetry P1) kernel2_tab) as H0.
  destruct (kfree_tab _ _ _ _ _ H0) as (s1 & _ & H1 & _ & M1).
  destruct (kfree_tab _ _ _ _ _ H1) as (s2 & _ & H2 & _ & M2).
  destruct (kfree_tab _ _ _ _ _ H2) as (s3 & _ & H3 & _ & M3).
  exists s3. split.
  - split; [rewrite upages2; exact H3|apply space2_ok].
  - assert (M : mem_cons kernel2 s3) by (apply mem_only_cons; transitivity s1; [done|by transitivity s2]).
    apply M. split; [reflexivity|]. split; [discriminate|reflexivity].
Qed.

Lemma space2_translate s l va : vm_user s [] space2 l -> 4096 <= va < KERNBASE -> translate (k_mem s) (frame 0) va = None.
Proof.
  intros Hu Hva. change (frame 0) with (t_dir (a_tab space2)).
  rewrite (translate_user _ _ _ _ _ Hu) by lia. cbn [a_ups space2]. rewrite lookup_singleton_ne by zlia. done.
Qed.

Lemma mappages_maps_witness :
  exists s r s', mappages (frame 0) 8192 4096 4096 6 s = Ok r s'.
Proof.
  destruct machine3 as (s & Hu & _). pose proof (vu_tab _ _ _ _ Hu) as Hv.
  destruct (mappages_maps s _ _ _ 8192 4096 4096 6 Hv) as (r & s' & T' & l' & E & _); try lia; try done.
  - intros a Ha Hr. rewrite (pte_of_map _ _ _ _ _ Hv Ha). cbn. unfold fset. rewrite (proj2 (Z.eqb_neq _ _)); [done|]. zlia.
  - exists s, r, s'. exact E.
Defined.

Lemma allocuvm_grows_witness :
  exists s r s', allocuvm (frame 0) 4096 8193 s = Ok r s' /\ (r = 0 \/ r = 8193).
Proof.
  destruct machine3 as (s & Hu & Hc).
  destruct (allocuvm_grows s [] space2 _ 4096 8193 Hu) as (r & s' & A' & l' & E & _ & _ & _ & _ & D); try lia; try done.
  - intros va Hva. cbn in Hva. apply (space2_translate s _ va Hu). unfold KERNBASE. zlia.
  - exists s, r, s'. split; [exact E|naive_solver].
Defined.

Lemma deallocuvm_shrinks_witness :
  exists s s' (l' : list Z), deallocuvm (frame 0) 4096 0 s = Ok 0 s' /\ frame 2 ∈ l'.
Proof.
  destruct machine3 as (s & Hu & _).
  destruct (deallocuvm_shrinks s [] space2 _ 4096 0 Hu) as (s' & A' & l' & E & _ & _ & _ & fr & Hp & Hf); [lia|by unfold KERNBASE|].
  exists s, s', l'. split; [exact E|]. rewrite Hp. apply elem_of_app. left. apply Hf. exists 0, 7. split; [zlia|reflexivity].
Defined.

Lemma freevm_frees_witness : exists s s' l', freevm (frame 0) s = Ok tt s' /\ freelist s' l' /\ frame 2 ∈ l'.
Proof.
  destruct machine3 as (s & Hu & _). destruct (freevm_frees s [] space2 _ Hu) as (s' & l' & E & Hf & Hp & _).
  exists s, s', l'. split; [exact E|]. split; [exact Hf|]. rewrite Hp, upages2. by left.
Defined.

Lemma copyuvm_copies_witness : exists s r s', copyuvm (frame 0) 4096 s = Ok r s'.
Proof.
  destruct machine3 as (s & Hu & _). destruct (copyuvm_copies s [] space2 _ 4096 Hu) as (r & s' & E & _).
  - by unfold KERNBASE.
  - intros va Hva. rewrite (translate_user _ _ _ _ _ Hu) by (unfold KERNBASE; lia).
    replace (va / 4096) with 0 by zlia. cbn. by eexists.
  - exists s, r, s'. exact E.
Defined.

Lemma setupkvm_maps_kernel_witness : exists s r s', setupkvm s = Ok r s'.
Proof.
  destruct machine3 as (s & Hu & _). pose proof (vu_tab _ _ _ _ Hu) as [H1 H2 H3 H4].
  destruct (setupkvm_maps_kernel s [] [frame 5; frame 4; frame 3] H1) as (r & s' & E & _).
  - apply (fl_nodup _ _ H1).
  - apply Forall_app in H4 as [_ H4]. by apply Forall_app in H4 as [_ H4].
  - exists s, r, s'. exact E.
Defined.

(** A machine with a kernel stack, an address space and two free pages. *)
Lemma machine_stack : exists s, vm_user s [frame 5] space2 [frame 4; frame 3].
Proof.
  assert (P1 : [frame 3; frame 4; frame 5; frame 2] ≡ₚ others) by (unfold others; solve_Permutation).
  pose proof (vm_tab_frame _ _ _ _ _ (symmetry P1) kernel2_tab) as H0.
  destruct (kfree_tab _ _ _ _ _ H0) as (s1 & _ & H1 & _ & M1).
  destruct (kfree_tab _ _ _ _ _ H1) as (s2 & _ & H2 & _ & M2).
  exists s2. split; [rewrite upages2; exact H2|apply space2_ok].
Qed.

Definition orphanage : list proc :=
  set_p_state RUNNING inhabitant ::
  set_p_pid 7 (set_p_kstack (frame 5) (set_p_pgdir (frame 0) (set_p_parent (Some O) (set_p_state ZOMBIE inhabitant)))) ::
  replicate (NPROC - 2) inhabitant.

Lemma wait_reaps_witness : exists s s' l', wait s = Ok 7 s' /\ freelist s' l' /\ frame 5 ∈ l'.
Proof.
  destruct machine_stack as (s & Hu).
  destruct (wait_reaps (set_k_cur (Some O) (set_k_ptable orphanage s)) 0 1 [] space2 [frame 4; frame 3]) as (s' & l' & E & _ & Hf & Hl & _).
  - reflexivity.
  - unfold NPROC. lia.
  - reflexivity.
  - reflexivity.
  - intros j Hj. destruct j; [discriminate|lia].
  - destruct Hu as [[[V1 V2] V3 V4 V5] V6]. split; [split; [split|..]|]; done.
  - reflexivity.
  - exists (set_k_cur (Some O) (set_k_ptable orphanage s)), s', l'. split; [exact E|]. split; [exact Hf|]. rewrite Hl. by left.
Defined.
