(* ===== verification/Syscall.v ===== *)
(** * syscall.c: system call arguments

    The kernel reads and writes user memory through the page table of the
    current process; an access to an address that is not mapped is a fault. *)

From S2P Require Import Prelude State CString Sleep Kalloc Console Vm.
Open Scope Z_scope.

(** ** User memory *)

(** The byte at a user address. *)
Definition uload (m : mem) (pgdir va : Z) : option Z := m <$> translate m pgdir va.

Fixpoint uread_bytes (m : mem) (pgdir va : Z) (n : nat) : option (list Z) :=
  match n with
  | O => Some []
  | S n' => b ← uload m pgdir va; l ← uread_bytes m pgdir (va + 1) n'; Some (b :: l)
  end.
Fixpoint uwrite_bytes (m : mem) (pgdir va : Z) (l : list Z) : option mem :=
  match l with
  | [] => Some m
  | b :: l' => a ← translate m pgdir va; uwrite_bytes (st8 m a b) pgdir (va + 1) l'
  end.

Definition curproc : kM proc := p ← myproc; get_proc p.

Definition uread (va : Z) (n : nat) : kM (list Z) :=
  q ← curproc;
  m ← gets k_mem;
  match uread_bytes m (p_pgdir q) va n with
  | Some l => mret l
  | None => fault "read of an unmapped user address"
  end.
Definition uwrite (va : Z) (l : list Z) : kM unit :=
  q ← curproc;
  m ← gets k_mem;
  match uwrite_bytes m (p_pgdir q) va l with
  | Some m' => modify (set_k_mem m')
  | None => fault "write of an unmapped user address"
  end.

(** ** Arguments; [None] for a result of -1 *)

Definition fetchint (addr : Z) : kM (option Z) :=
  q ← curproc;
  if (p_sz q <=? addr) || (p_sz q <? u32 (addr + 4)) then mret None
  else
    l ← uread addr 4;
    mret (Some (i32 (le_dec l))).

(** for(s = *pp; s < ep; s++): the characters before the NUL. *)
Fixpoint fetchstr_loop (m : mem) (pgdir s ep : Z) (fuel : nat) : kM (option (list Z)) :=
  if s <? ep then
    match fuel with
    | O => nofuel
    | S f =>
      match uload m pgdir s with
      | None => fault "read of an unmapped user address"
      | Some c =>
        if c =? 0 then mret (Some [])
        else r ← fetchstr_loop m pgdir (s + 1) ep f; mret (cons c <$> r)
      end
    end
  else mret None.
(** The string at [addr]; its length is the result of the C function. *)
Definition fetchstr (addr : Z) : kM (option (list Z)) :=
  q ← curproc;
  if p_sz q <=? addr then mret None
  else
    m ← gets k_mem;
    fetchstr_loop m (p_pgdir q) addr (p_sz q) (Z.to_nat (p_sz q - addr)).

Definition argint (n : Z) : kM (option Z) :=
  q ← curproc;
  fetchint (u32 (tf_esp (p_tf q) + 4 + 4 * n)).

Definition argptr (n size : Z) : kM (option Z) :=
  q ← curproc;
  r ← argint n;
  match r with
  | None => mret None
  | Some i =>
    if (size <? 0) || (p_sz q <=? u32 i) || (p_sz q <? u32 (u32 i + size)) then mret None
    else mret (Some (u32 i))
  end.

Definition argstr (n : Z) : kM (option (list Z)) :=
  r ← argint n;
  match r with
  | None => mret None
  | Some addr => fetchstr (u32 addr)
  end.
