(* ===== verification/SyscallProps.v ===== *)
(** * System call arguments stay inside the process

    The kernel takes the arguments of a system call from the user's stack and
    uses the pointers among them; nothing about them can be trusted.  What
    argint, argptr and argstr let through lies below the size of the process,
    and the checks themselves never touch anything else. *)

From S2P Require Import Prelude State CString Sleep Kalloc Console Vm Syscall.
Open Scope Z_scope.

(** Every address below [sz] is mapped. *)
Definition user_mapped (m : mem) (pgdir sz : Z) : Prop :=
  forall va, 0 <= va < sz -> is_Some (translate m pgdir va).
Definition mem_bytes (m : mem) : Prop := forall a, is_byte (m a).

Lemma uread_mapped m pgdir sz n : forall va,
  user_mapped m pgdir sz -> 0 <= va -> va + Z.of_nat n <= sz ->
  exists l, uread_bytes m pgdir va n = Some l /\ length l = n.
Proof.
  induction n as [|n IH]; intros va Hm H0 Hn; [by exists []|]. cbn [uread_bytes].
  destruct (Hm va) as [a Ha]; [lia|]. unfold uload. rewrite Ha. cbn [fmap option_fmap option_map mbind option_bind].
  destruct (IH (va + 1) Hm) as (l & -> & El); [lia|lia|]. cbn. exists (m a :: l). split; [done|]. cbn. by rewrite El.
Qed.

Lemma uread_bytes_bytes m pgdir n : forall va l, mem_bytes m -> uread_bytes m pgdir va n = Some l -> bytes l.
Proof.
  induction n as [|n IH]; intros va l Hb E; cbn in E; [injection E as <-; constructor|].
  unfold uload in E. destruct (translate m pgdir va) as [a|]; [|done]. cbn in E.
  destruct (uread_bytes m pgdir (va + 1) n) as [r|] eqn:Er; [|done]. cbn in E. injection E as <-. constructor; [apply Hb|by eapply IH].
Qed.

(** The current process. *)
Section args.
Context (s : kernel) (p : nat).
Hypothesis Hp : k_cur s = Some p.
Let q := k_ptable s !!! p.
Hypothesis Hsz : 0 <= p_sz q <= KERNBASE.
Hypothesis Hmap : user_mapped (k_mem s) (p_pgdir q) (p_sz q).
Hypothesis Hbytes : mem_bytes (k_mem s).

Lemma curproc_run : curproc s = Ok q s.
Proof using Hp. unfold curproc, myproc, gets, mbind, M_bind. rewrite Hp. done. Qed.

(** The word at a user address, if it lies in the process. *)
Definition user_word (a : Z) : option Z :=
  if a + 4 <=? p_sz q then le_dec <$> uread_bytes (k_mem s) (p_pgdir q) a 4 else None.

Lemma user_word_range a w : 0 <= a -> user_word a = Some w -> 0 <= w < 4294967296.
Proof using Hmap Hbytes.
  intros Ha. unfold user_word. destruct (Z.leb_spec (a + 4) (p_sz q)); [|done].
  destruct (uread_mapped _ _ _ 4 a Hmap Ha ltac:(lia)) as (l & E & El). rewrite E. intros [= <-].
  pose proof (le_dec_range l (uread_bytes_bytes _ _ _ _ _ Hbytes E)) as Hr. rewrite El in Hr. exact Hr.
Qed.

Lemma fetchint_run a : 0 <= a < 4294967296 -> fetchint a s = Ok (i32 <$> user_word a) s.
Proof using Hp Hsz Hmap.
  intros Ha. unfold KERNBASE in Hsz. unfold fetchint. rewrite (bind_ok _ _ _ _ _ curproc_run). unfold user_word.
  destruct (Z.leb_spec (p_sz q) a); cbn [orb]; [by rewrite (proj2 (Z.leb_gt _ _)) by lia|].
  rewrite u32_small by lia. destruct (Z.ltb_spec (p_sz q) (a + 4)); [by rewrite (proj2 (Z.leb_gt _ _)) by lia|].
  rewrite (proj2 (Z.leb_le _ _)) by lia. destruct (uread_mapped _ _ _ 4 a Hmap) as (l & E & El); [lia|lia|].
  unfold uread. rewrite (bind_ok _ _ s l s); [by rewrite E|]. rewrite (bind_ok _ _ _ _ _ curproc_run), (bind_ok _ _ s (k_mem s) s) by done. by rewrite E.
Qed.

Lemma argint_run n : argint n s = Ok (i32 <$> user_word (u32 (tf_esp (p_tf q) + 4 + 4 * n))) s.
Proof using Hp Hsz Hmap. unfold argint. rewrite (bind_ok _ _ _ _ _ curproc_run). apply fetchint_run, u32_range. Qed.

(** An argument word, and its value as an address. *)
Definition arg_word (n : Z) : option Z := user_word (u32 (tf_esp (p_tf q) + 4 + 4 * n)).
Lemma arg_word_addr n w : arg_word n = Some w -> 0 <= w < 4294967296 /\ u32 (i32 w) = w.
Proof using Hmap Hbytes.
  intros Ew. assert (0 <= w < 4294967296) by (eapply user_word_range; [apply u32_range|exact Ew]).
  split; [done|]. rewrite u32_i32. by apply u32_small.
Qed.

Lemma uread_run a k l : uread_bytes (k_mem s) (p_pgdir q) a k = Some l -> uread a k s = Ok l s.
Proof using Hp. intros E. unfold uread. rewrite (bind_ok _ _ _ _ _ curproc_run), (bind_ok _ _ s (k_mem s) s) by done. by rewrite E. Qed.

Lemma argptr_run n size : size < 2147483648 ->
  argptr n size s = Ok (w ← arg_word n; if (0 <=? size) && (w <? p_sz q) && (w + size <=? p_sz q) then Some w else None) s.
Proof using Hp Hsz Hmap Hbytes.
  intros Hsize. unfold KERNBASE in Hsz. unfold argptr. rewrite (bind_ok _ _ _ _ _ curproc_run), (bind_ok _ _ _ _ _ (argint_run n)). fold (arg_word n).
  destruct (arg_word n) as [w|] eqn:Ew; [|done]. cbn [fmap option_fmap option_map mbind option_bind].
  destruct (arg_word_addr n w Ew) as [Hr ->]. destruct (Z.ltb_spec size 0); [by rewrite (proj2 (Z.leb_gt 0 size))|].
  rewrite (proj2 (Z.leb_le 0 size)) by done. cbn [orb andb]. destruct (Z.leb_spec (p_sz q) w); [by rewrite (proj2 (Z.ltb_ge w (p_sz q)))|].
  rewrite (proj2 (Z.ltb_lt w _)) by done. rewrite u32_small by lia. cbn [orb andb].
  destruct (Z.ltb_spec (p_sz q) (w + size)); [by rewrite (proj2 (Z.leb_gt (w + size) _))|by rewrite (proj2 (Z.leb_le (w + size) _))].
Qed.

(** The string at a user address: the characters before the first NUL below
    the size of the process. *)
Fixpoint user_string (a : Z) (n : nat) : option (list Z) :=
  match n with
  | O => None
  | S n' => c ← uload (k_mem s) (p_pgdir q) a; if c =? 0 then Some [] else l ← user_string (a + 1) n'; Some (c :: l)
  end.

Lemma fetchstr_loop_run n : forall a,
  0 <= a -> a + Z.of_nat n = p_sz q -> fetchstr_loop (k_mem s) (p_pgdir q) a (p_sz q) n s = Ok (user_string a n) s.
Proof using Hmap.
  induction n as [|n IH]; intros a Ha Hn; cbn [fetchstr_loop user_string].
  - by rewrite (proj2 (Z.ltb_ge _ _)) by lia.
  - rewrite (proj2 (Z.ltb_lt _ _)) by lia. destruct (Hmap a) as [pa Epa]; [lia|]. unfold uload. rewrite Epa. cbn [fmap option_fmap option_map mbind option_bind].
    destruct (k_mem s pa =? 0); [done|]. rewrite (bind_ok _ _ _ _ _ (IH (a + 1) ltac:(lia) ltac:(lia))). by destruct (user_string (a + 1) n).
Qed.

(** A string that is found is in the process, NUL and all. *)
Lemma user_string_spec n : forall a l,
  user_string a n = Some l ->
  (length l < n)%nat /\ Forall (fun c => c <> 0) l /\ uread_bytes (k_mem s) (p_pgdir q) a (S (length l)) = Some (l ++ [0]).
Proof using.
  induction n as [|n IH]; intros a l E; [done|]. cbn [user_string] in E.
  destruct (uload (k_mem s) (p_pgdir q) a) as [c|] eqn:Ec; [|done]. cbn [mbind option_bind] in E.
  destruct (Z.eqb_spec c 0) as [->|Hc].
  - injection E as <-. split_and!; [cbn; lia|constructor|]. cbn [length uread_bytes]. by rewrite Ec.
  - destruct (user_string (a + 1) n) as [r|] eqn:Er; [|done]. cbn in E. injection E as <-. destruct (IH _ _ Er) as (H1 & H2 & H3).
    split_and!; [cbn; lia|by constructor|]. change (length (c :: r)) with (S (length r)). remember (S (length r)) as k. cbn [uread_bytes]. rewrite Ec. cbn. by rewrite H3.
Qed.
Lemma argstr_run n : argstr n s = Ok (w ← arg_word n; if w <? p_sz q then user_string w (Z.to_nat (p_sz q - w)) else None) s.
Proof using Hp Hsz Hmap Hbytes.
  unfold argstr. rewrite (bind_ok _ _ _ _ _ (argint_run n)). fold (arg_word n). destruct (arg_word n) as [w|] eqn:Ew; [|done].
  cbn [fmap option_fmap option_map mbind option_bind].
  destruct (arg_word_addr n w Ew) as [Hr ->]. unfold fetchstr. rewrite (bind_ok _ _ _ _ _ curproc_run).
  destruct (Z.leb_spec (p_sz q) w); [by rewrite (proj2 (Z.ltb_ge w (p_sz q)))|]. rewrite (proj2 (Z.ltb_lt w _)) by done.
  rewrite (bind_ok _ _ s (k_mem s) s) by done. apply fetchstr_loop_run; [lia|fold q; lia].
Qed.
End args.

(** C28. What a system call takes from user space lies in the process.  For a
    process whose pages below its size are mapped, and whatever its registers
    and its stack hold: the argument word is read only if it lies below the
    size; argptr succeeds exactly when the size is not negative and the whole
    block lies below the size of the process, and the kernel can then read the
    block without a fault; argstr succeeds exactly when there is a NUL between
    the pointer and the size of the process, and returns the characters before
    it.  None of them changes the state or faults. *)
Theorem user_args_confined s p n size :
  let q := k_ptable s !!! p in
  let word := arg_word s p n in
  k_cur s = Some p -> 0 <= p_sz q <= KERNBASE -> user_mapped (k_mem s) (p_pgdir q) (p_sz q) -> mem_bytes (k_mem s) ->
  size < 2147483648 ->
  argint n s = Ok (i32 <$> word) s /\
  argptr n size s = Ok (w ← word; if (0 <=? size) && (w <? p_sz q) && (w + size <=? p_sz q) then Some w else None) s /\
  (forall w, argptr n size s = Ok (Some w) s ->
     0 <= w /\ w + size <= p_sz q /\ exists l, uread w (Z.to_nat size) s = Ok l s /\ length l = Z.to_nat size) /\
  argstr n s = Ok (w ← word; if w <? p_sz q then user_string s p w (Z.to_nat (p_sz q - w)) else None) s /\
  (forall l, argstr n s = Ok (Some l) s -> Forall (fun c => c <> 0) l /\
     exists w, word = Some w /\ w + Z.of_nat (length l) < p_sz q /\ uread w (S (length l)) s = Ok (l ++ [0]) s).
Proof.
  intros q word Hp Hsz Hmap Hb Hsize.
  pose proof (argptr_run s p Hp Hsz Hmap Hb n size Hsize) as Ep. pose proof (argstr_run s p Hp Hsz Hmap Hb n) as Es. fold q word in Ep, Es.
  pose proof (arg_word_addr s p Hmap Hb n) as Hw. fold word in Hw. pose proof (uread_run s p Hp) as Eu.
  split_and!; [exact (argint_run s p Hp Hsz Hmap n)|done| |done|].
  - intros w. rewrite Ep. destruct word as [w'|] eqn:Ew; [|done]. cbn [mbind option_bind]. destruct (_ && _) eqn:C; [|done]. intros [= ->].
    apply andb_true_iff in C as [[C1 C2]%andb_true_iff C3]. apply Z.leb_le in C1, C3. destruct (Hw w eq_refl) as [Hr _]. split_and!; [lia|lia|].
    destruct (uread_mapped _ _ _ (Z.to_nat size) w Hmap) as (l & E & El); [lia|lia|]. exists l. split; [by apply Eu|done].
  - intros l. rewrite Es. destruct word as [w|] eqn:Ew; [|done]. cbn [mbind option_bind]. destruct (Z.ltb_spec w (p_sz q)); [|done]. intros [= E].
    destruct (user_string_spec s p _ _ _ E) as (H1 & H2 & H3). split; [done|]. exists w. split_and!; [done|lia|]. by apply Eu.
Qed.

(** ** A process of one page *)

Lemma mem_bytes_store32 m a v : mem_bytes m -> mem_bytes (store32 m a v).
Proof.
  intros H x. unfold store32, store_bytes. case_match eqn:E; [|apply H].
  apply andb_true_iff in E as [E1%Z.leb_le E2%Z.ltb_lt]. unfold nthz.
  apply (Forall_lookup_1 is_byte (enc32 v) (Z.to_nat (x - a))); [apply bytes_le_enc|]. apply list_lookup_lookup_total_lt. lia.
Qed.

(** A directory, a page table and one page at the start of user space; the
    first argument on the stack points to a string of two characters. *)
Definition dir_at : Z := 2149580800.
Definition one_page_mem : mem :=
  store32 (store32 (store32 (store32 (fun _ => 0) dir_at (V2P (dir_at + 4096) + 7))
    (dir_at + 4096) (V2P (dir_at + 8192) + 7)) (dir_at + 8192 + 104) 200) (dir_at + 8192 + 200) 26984.
Definition one_page_proc : proc :=
  set_p_pgdir dir_at (set_p_sz 4096 (set_p_tf (set_tf_esp 100 inhabitant) inhabitant)).
Definition one_page_kernel : kernel :=
  set_k_mem one_page_mem (set_k_cur (Some O) (set_k_ptable (one_page_proc :: replicate 63 inhabitant) inhabitant)).

Lemma one_page_mapped : user_mapped one_page_mem dir_at 4096.
Proof.
  assert (H : forallb (fun i => bool_decide (is_Some (translate one_page_mem dir_at (Z.of_nat i)))) (seq 0 4096) = true) by (vm_compute; reflexivity).
  intros va Hva. rewrite forallb_forall in H. specialize (H (Z.to_nat va)).
  rewrite Z2Nat.id, bool_decide_eq_true in H by lia. apply H, in_seq. lia.
Qed.

Lemma one_page_bytes : mem_bytes one_page_mem.
Proof. unfold one_page_mem. do 4 apply mem_bytes_store32. intros a. split; done. Qed.

Lemma user_args_confined_witness :
  argptr 0 3896 one_page_kernel = Ok (Some 200) one_page_kernel /\
  argptr 0 3897 one_page_kernel = Ok None one_page_kernel /\
  argstr 0 one_page_kernel = Ok (Some [104; 105]) one_page_kernel.
Proof.
  assert (Hsz : 0 <= p_sz (k_ptable one_page_kernel !!! O) <= KERNBASE) by (split; vm_compute; discriminate).
  split_and!.
  - rewrite (proj1 (proj2 (user_args_confined one_page_kernel O 0 3896 eq_refl Hsz one_page_mapped one_page_bytes eq_refl))). reflexivity.
  - rewrite (proj1 (proj2 (user_args_confined one_page_kernel O 0 3897 eq_refl Hsz one_page_mapped one_page_bytes eq_refl))). reflexivity.
  - rewrite (proj1 (proj2 (proj2 (proj2 (user_args_confined one_page_kernel O 0 1 eq_refl Hsz one_page_mapped one_page_bytes eq_refl))))). reflexivity.
Defined.
