(* ===== verification/Exec.v ===== *)
(** * exec.c, and loaduvm of vm.c: running a program *)

From S2P Require Import Prelude State CString Sleep Ide Bio Log Kalloc Console Vm Fs FsFile File Proc Syscall.
Open Scope Z_scope.

Section exec.
Context `{Linker}.

(** ** loaduvm *)

(** for(i = 0; i < sz; i += PGSIZE) *)
Fixpoint loaduvm_loop (pgdir addr : Z) (ip : nat) (offset i sz : Z) (fuel : nat) : kM Z :=
  if i <? sz then
    match fuel with
    | O => nofuel
    | S f =>
      pte ← walkpgdir pgdir (u32 (addr + i)) false;
      panic_if (pte =? 0) "loaduvm: address should exist";;
      e ← ld32 pte;
      let n := if sz - i <? PGSIZE then sz - i else PGSIZE in
      r ← readi ip (u32 (offset + i)) n;
      upd_mem (fun m => store_bytes m (P2V (PTE_ADDR e)) r.2);;
      if negb (u32 r.1 =? n) then mret (-1)
      else loaduvm_loop pgdir addr ip offset (u32 (i + PGSIZE)) sz f
    end
  else mret 0.
Definition loaduvm (pgdir addr : Z) (ip : nat) (offset sz : Z) : kM Z :=
  panic_if (negb (addr mod PGSIZE =? 0)) "loaduvm: addr must be page aligned";;
  loaduvm_loop pgdir addr ip offset 0 sz (Z.to_nat (sz / PGSIZE + 1)).

(** ** ELF files: elf.h *)

Definition ELF_MAGIC : Z := 1179403647.
Definition ELFHDR_SIZE : Z := 52.
Definition PROGHDR_SIZE : Z := 32.
Definition ELF_PROG_LOAD : Z := 1.

Definition half (d : list Z) (off : nat) : Z := le_dec (slice d off 2).
Definition word (d : list Z) (off : nat) : Z := le_dec (slice d off 4).

Record elfhdr := mkElf { elf_magic : Z; elf_entry : Z; elf_phoff : Z; elf_phnum : Z }.
Definition dec_elfhdr (d : list Z) : elfhdr := mkElf (word d 0) (word d 24) (word d 28) (half d 44).

Record proghdr := mkPh { ph_type : Z; ph_off : Z; ph_vaddr : Z; ph_filesz : Z; ph_memsz : Z }.
Definition dec_proghdr (d : list Z) : proghdr :=
  mkPh (word d 0) (word d 4) (word d 8) (word d 16) (word d 20).

(** ** exec *)

(** The loop over the program headers, [n] to go: the size of the image, or
    [None] to go to bad. *)
Fixpoint exec_load (ip : nat) (pgdir off sz : Z) (n : nat) : kM (option Z) :=
  match n with
  | O => mret (Some sz)
  | S n' =>
    r ← readi ip (u32 off) PROGHDR_SIZE;
    if negb (r.1 =? PROGHDR_SIZE) then mret None
    else
      let ph := dec_proghdr r.2 in
      if negb (ph_type ph =? ELF_PROG_LOAD) then exec_load ip pgdir (i32 (off + PROGHDR_SIZE)) sz n'
      else if ph_memsz ph <? ph_filesz ph then mret None
      else if u32 (ph_vaddr ph + ph_memsz ph) <? ph_vaddr ph then mret None
      else
        sz ← allocuvm pgdir sz (u32 (ph_vaddr ph + ph_memsz ph));
        if sz =? 0 then mret None
        else if negb (ph_vaddr ph mod PGSIZE =? 0) then mret None
        else
          l ← loaduvm pgdir (ph_vaddr ph) ip (ph_off ph) (ph_filesz ph);
          if l <? 0 then mret None
          else exec_load ip pgdir (i32 (off + PROGHDR_SIZE)) sz n'
  end.

(** Push the argument strings: the stack pointer and the pointers pushed. *)
Fixpoint exec_args (pgdir sp argc : Z) (argv : list (list Z)) : kM (option (Z * list Z)) :=
  match argv with
  | [] => mret (Some (sp, []))
  | a :: argv' =>
    if MAXARG <=? argc then mret None
    else
      let len := Z.of_nat (length a) + 1 in
      let sp := Z.land (u32 (sp - len)) (u32 (Z.lnot 3)) in
      r ← copyout pgdir sp (a ++ [0]) len;
      if r <? 0 then mret None
      else
        rest ← exec_args pgdir sp (argc + 1) argv';
        match rest with
        | None => mret None
        | Some (sp', ps) => mret (Some (sp', sp :: ps))
        end
  end.

(** for(last=s=path; *s; s++): the characters after the last slash. *)
Fixpoint last_elem (path last : list Z) : list Z :=
  match path with
  | [] => last
  | c :: path' => last_elem path' (if c =? SLASH then path' else last)
  end.

(** bad: with the page table [pgdir], and the inode if still locked. *)
Definition exec_bad (pgdir : Z) (ip : option nat) : kM Z :=
  (when negb (pgdir =? 0) do freevm pgdir);;
  match ip with Some ip => iunlockput ip;; end_op | None => mret tt end;;
  mret (-1).

(** The stack image: return address, argc, argv pointer, argv, 0. *)
Definition exec_ustack (sp argc : Z) (ps : list Z) : list Z :=
  concat (enc32 <$> [4294967295; argc; u32 (sp - (argc + 1) * 4)] ++ ps ++ [0]).

(** From the end of the image on. *)
Definition exec_stack (cur : nat) (path : list Z) (argv : list (list Z)) (elf : elfhdr) (pgdir sz : Z) : kM Z :=
  let sz := PGROUNDUP sz in
  sz ← allocuvm pgdir sz (u32 (sz + 2 * PGSIZE));
  if sz =? 0 then exec_bad pgdir None
  else
    clearpteu pgdir (u32 (sz - 2 * PGSIZE));;
    r ← exec_args pgdir sz 0 argv;
    match r with
    | None => exec_bad pgdir None
    | Some (sp, ps) =>
      let argc := Z.of_nat (length ps) in
      let sp' := u32 (sp - (3 + argc + 1) * 4) in
      r ← copyout pgdir sp' (exec_ustack sp argc ps) ((3 + argc + 1) * 4);
      if r <? 0 then exec_bad pgdir None
      else
        upd_proc cur (set_name (last_elem path path));;
        q ← get_proc cur;
        upd_proc cur (fun q => set_p_tf (set_tf_esp sp' (set_tf_eip (elf_entry elf) (p_tf q)))
          (set_p_sz sz (set_p_pgdir pgdir q)));;
        switchuvm cur;;
        freevm (p_pgdir q);;
        mret 0
    end.

Definition exec (path : list Z) (argv : list (list Z)) : kM Z :=
  cur ← myproc;
  begin_op;;
  r ← namei path;
  match r with
  | None =>
    end_op;;
    cprintf (str "exec: fail" ++ [10]) [];;
    mret (-1)
  | Some ip =>
    ilock ip;;
    h ← readi ip 0 ELFHDR_SIZE;
    let elf := dec_elfhdr h.2 in
    if negb (h.1 =? ELFHDR_SIZE) then exec_bad 0 (Some ip)
    else if negb (elf_magic elf =? ELF_MAGIC) then exec_bad 0 (Some ip)
    else
      pgdir ← setupkvm;
      if pgdir =? 0 then exec_bad 0 (Some ip)
      else
        r ← exec_load ip pgdir (i32 (elf_phoff elf)) 0 (Z.to_nat (elf_phnum elf));
        match r with
        | None => exec_bad pgdir (Some ip)
        | Some sz =>
          iunlockput ip;;
          end_op;;
          exec_stack cur path argv elf pgdir sz
        end
  end.
End exec.
