(* ===== verification/ExecLoad.v ===== *)
(** * Loading a program (exec.c, loaduvm of vm.c)

    The program headers of a file say which parts of it go where.  [load_prog]
    is the image they describe; exec_load builds it in an address space, or says
    that it cannot. *)

From S2P Require Import Prelude State CString Sleep Ide Bio BioSpec Log LogSpec LogRun LogOps Kalloc PageMath KallocSpec Console ConsoleOut Vm VmSpec VmUser VmCopy VmProps VmOut Fs FsFile FsTxn FsAlloc FsMap FsData File Proc Syscall Exec.
Open Scope Z_scope.

(** ** Memory and files are apart *)

(** What work on both may change: memory, the console, and the caches of blocks
    and inodes; processes wake up. *)
Definition exec_part (s s' : kernel) : Prop := exists s1, mem_cons s s1 /\ fs_read s1 s'.

Lemma mem_part s s' : mem_cons s s' -> exec_part s s'.
Proof. intros Hm. by exists s'. Qed.
Lemma fs_exec_part s s' : fs_read s s' -> exec_part s s'.
Proof. intros Hf. by exists s. Qed.
Lemma exec_part_parts s s' : exec_part s s' ->
  woken (k_ptable s) (k_ptable s') /\ k_cpu s' = k_cpu s /\ k_cur s' = k_cur s /\ k_log s' = k_log s /\ (cons_ok (k_cons s) -> cons_ok (k_cons s')).
Proof. intros (s1 & [E Hc] & (bc & ide & pt & lg & ic & -> & Hw) & El). rewrite El. rewrite E in Hw. cbn in Hw |- *. by rewrite E. Qed.

#[export] Instance exec_part_preorder : PreOrder exec_part.
Proof.
  split; [intros s; by exists s|]. intros s1 s2 s3 (t & [Et Ht] & (bc & ide & pt & lg & ic & E2 & Hw) & El) (u & [Eu Hu] & Hf).
  set (w := set_k_cons (k_cons u) (set_k_kmem (k_kmem u) (set_k_mem (k_mem u) s1))). exists w. split.
  - split; [done|]. intros Hc. cbn. apply Hu. rewrite E2. cbn. by apply Ht.
  - transitivity u; [|done]. split; [|rewrite Eu; cbn; rewrite El, Et; done]. exists bc, ide, pt, lg, ic. split; [rewrite Eu, E2, Et; unfold w; ksimpl; done|]. rewrite Et in Hw. exact Hw.
Qed.

(** Memory can change under a file. *)
Lemma txn_mem s s' H : mem_cons s s' -> txn s H -> txn s' H.
Proof.
  intros [E _] T. rewrite E. destruct T as [[] L Hs Hh Hn Hu]. split; try done.
  - destruct L. by split.
  - intros b n Hin. by destruct (Hh b n Hin).
Qed.
Lemma is_file_mem s s' ip x C : mem_cons s s' -> is_file s ip x C -> is_file s' ip x C.
Proof.
  intros Hm [D1 D2 D3 D4 D5 D6]. pose proof (txn_mem _ _ _ Hm D1) as T. destruct Hm as [E _]. rewrite E in T |- *. split; try done.
  destruct D3 as [F1 F2 F3 F4 F5 F6]. split; try done. apply (file_ok_mono (data_block s (i_inum x))); [|done]. intros c []. by split.
Qed.

Lemma fs_read_mem s s' : fs_read s s' -> k_mem s' = k_mem s /\ k_kmem s' = k_kmem s.
Proof. by intros [(bc & ide & pt & lg & ic & -> & _) _]. Qed.

(** ** The image of a program *)

(** The bytes of the file that a program header loads. *)
Definition put_seg (C : list Z) (ph : proghdr) (img : Z -> Z) : Z -> Z := fun va =>
  if (ph_vaddr ph <=? va) && (va <? ph_vaddr ph + ph_filesz ph) then nthz C (ph_off ph + (va - ph_vaddr ph)) else img va.

(** A segment that can be loaded above an image of [sz] bytes: it is not empty
    and below KERNBASE, starts at a page, and its bytes are in the file. *)
Definition seg_ok (C : list Z) (sz : Z) (ph : proghdr) : bool :=
  (ph_filesz ph <=? ph_memsz ph) && (ph_vaddr ph + ph_memsz ph <? KERNBASE) && (0 <? Z.max sz (ph_vaddr ph + ph_memsz ph)) &&
  (ph_vaddr ph mod PGSIZE =? 0) && ((ph_filesz ph =? 0) || (ph_off ph + ph_filesz ph <=? Z.of_nat (length C))).

(** The [n] program headers at offset [off], over an image [img] of [sz] bytes:
    the size and the image. *)
Fixpoint load_prog (C : list Z) (off sz : Z) (img : Z -> Z) (n : nat) : option (Z * (Z -> Z)) :=
  match n with
  | O => Some (sz, img)
  | S n' =>
    if Z.of_nat (length C) <? off + PROGHDR_SIZE then None
    else
      let ph := dec_proghdr (slice C (Z.to_nat off) 32) in
      if negb (ph_type ph =? ELF_PROG_LOAD) then load_prog C (off + PROGHDR_SIZE) sz img n'
      else if seg_ok C sz ph then load_prog C (off + PROGHDR_SIZE) (Z.max sz (ph_vaddr ph + ph_memsz ph)) (put_seg C ph img) n'
      else None
  end.

Lemma load_prog_grows C n : forall off sz img sz' img', load_prog C off sz img n = Some (sz', img') -> sz <= sz'.
Proof.
  induction n as [|n IH]; intros off sz img sz' img'; cbn [load_prog]; [intros [= <- _]; lia|].
  destruct (_ <? _); [done|]. cbv zeta. destruct (negb _); [apply IH|]. destruct (seg_ok _ _ _); [|done]. intros Hl%IH. lia.
Qed.

Lemma seg_ok_spec C sz ph : seg_ok C sz ph = true <->
  ph_filesz ph <= ph_memsz ph /\ ph_vaddr ph + ph_memsz ph < KERNBASE /\ 0 < Z.max sz (ph_vaddr ph + ph_memsz ph) /\ ph_vaddr ph mod PGSIZE = 0 /\
  (ph_filesz ph = 0 \/ ph_off ph + ph_filesz ph <= Z.of_nat (length C)).
Proof. unfold seg_ok. rewrite !andb_true_iff, orb_true_iff, !Z.leb_le, !Z.ltb_lt, !Z.eqb_eq. tauto. Qed.

Lemma word_range d o : bytes d -> 0 <= word d o < 4294967296.
Proof.
  intros Hd. unfold word. assert (Hb : bytes (slice d o 4)) by (by apply Forall_take, Forall_drop). pose proof (le_dec_range _ Hb) as Hr.
  assert (Hl : (length (slice d o 4) <= 4)%nat) by (unfold slice; rewrite length_take; lia).
  assert (256 ^ Z.of_nat (length (slice d o 4)) <= 256 ^ 4) by (apply Z.pow_le_mono_r; lia). lia.
Qed.

(** ** Reading and memory *)

(** What the code needs of the file it reads from: an invariant that says what
    it contains, and that neither reading nor work on memory breaks. *)
Class Reads (P : kernel -> Prop) (ip : nat) (C : list Z) : Prop := {
  rd_file : forall s, P s -> exists x, is_file s ip x C;
  rd_mem : forall s s', P s -> mem_cons s s' -> P s';
  rd_step : forall s s', P s -> fsstep None s s' [] -> txn s' [] -> P s'
}.
#[export] Instance is_file_reads ip x C : Reads (fun s => is_file s ip x C) ip C.
Proof. split; [eauto|intros s s' D Hm; by apply (is_file_mem s)|intros s s' D S T; by apply (is_file_same s)]. Qed.

Section load.
Context `{Linker} (P : kernel -> Prop) (ip : nat) (C : list Z) `{HR : !Reads P ip C}.
Implicit Types (s : kernel) (A : aspace) (F l : list Z).

Lemma reads_size s : P s -> Z.of_nat (length C) <= 71680.
Proof using HR. intros [x D]%rd_file. by apply (is_file_size s ip x C). Qed.
Lemma reads_bytes s : P s -> bytes C.
Proof using HR. intros [x D]%rd_file. by apply (is_file_bytes s ip x C). Qed.
Lemma reads_read s off n : P s -> 0 <= off < 4294967296 -> 0 <= n < 4294967296 ->
  let m := Z.min n (Z.of_nat (length C) - off) in
  exists s', readi ip off n s = Ok (if (Z.of_nat (length C) <? off) || (4294967296 <=? off + n) then (-1, []) else (m, slice C (Z.to_nat off) (Z.to_nat m))) s' /\
    P s' /\ fs_read s s'.
Proof using HR.
  intros Hp Ho Hn m. destruct (rd_file s Hp) as [x D]. destruct (is_file_read s ip x C off n D Ho Hn) as (s' & E & T & S).
  exists s'. split_and!; [done|by apply (rd_step s)|by apply fsstep_read].
Qed.

Lemma vm_user_fs s s' F A l : fs_read s s' -> vm_user s F A l -> vm_user s' F A l.
Proof using. intros [E1 E2]%fs_read_mem. by apply vm_user_same. Qed.
Lemma user_byte_fs s s' dir va : fs_read s s' -> user_byte s' dir va = user_byte s dir va.
Proof using. intros [E _]%fs_read_mem. unfold user_byte. by rewrite E. Qed.

(** ** loaduvm *)

(** The contents of user pages and the caches change, nothing else. *)
Record load_step F A l s s' : Prop := mkLoadStep {
  lo_user : vm_user s' F A l;
  lo_part : exec_part s s';
  lo_only : only (upages (a_ups A)) (k_mem s) (k_mem s')
}.
Lemma load_step_trans F A l s1 s2 s3 : load_step F A l s1 s2 -> load_step F A l s2 s3 -> load_step F A l s1 s3.
Proof using. intros [A1 A2 A3] [B1 B2 B3]. split; [done|by transitivity s2|]. intros x Hx. rewrite B3, A3; done. Qed.
Lemma load_step_fs F A l s s' : vm_user s F A l -> fs_read s s' -> load_step F A l s s'.
Proof using. intros Hu Hf. split; [by apply (vm_user_fs s)|by apply fs_exec_part|]. intros x _. by destruct (fs_read_mem _ _ Hf) as [-> _]. Qed.

(** One page: the bytes of the file at [off] go to the start of page [k]. *)
Lemma load_page s F A l k off n :
  let dir := t_dir (a_tab A) in
  vm_user s F A l -> P s -> is_Some (a_ups A !! k) -> 0 <= off < 4294967296 -> 0 < n <= 4096 ->
  exists r s', (forall B (g : Z * list Z -> kM B),
      (pte ← walkpgdir dir (4096 * k) false; panic_if (pte =? 0) "loaduvm: address should exist";; e ← ld32 pte;
       r ← readi ip off n; upd_mem (fun m => store_bytes m (P2V (PTE_ADDR e)) r.2);; g r) s = g r s') /\
    P s' /\ load_step F A l s s' /\
    (u32 r.1 = n <-> off + n <= Z.of_nat (length C)) /\
    (u32 r.1 = n -> bytes_put s s' dir (4096 * k) (slice C (Z.to_nat off) (Z.to_nat n))).
Proof using HR.
  intros dir Hu D [[u f] Ek] Ho Hn. destruct (user_pte _ _ _ _ _ _ _ Hu Ek) as (t & _ & Ew & Hnz & El). pose proof (reads_size s D) as Hmax.
  destruct (ao_dom _ (vu_ok _ _ _ _ Hu) _ _ _ Ek) as (Hk & Hf & Hodd). destruct (uentry_some u f (user_page_ok _ _ _ _ _ _ _ Hu Ek) Hf Hodd) as (_ & E2 & _ & _ & E3 & _).
  destruct (reads_read s off n D Ho ltac:(lia)) as (s1 & E1 & D1 & Hp).
  match type of E1 with _ = Ok ?r0 _ => set (r := r0) in * end. set (s2 := set_k_mem (store_bytes (k_mem s1) u r.2) s1).
  assert (Hr : Z.of_nat (length r.2) <= 4096).
  { unfold r. destruct (_ || _); [cbn; lia|]. cbn [snd]. unfold slice. rewrite length_take. lia. }
  destruct (store_user s1 F A l k u f 0 r.2 (vm_user_fs _ _ _ _ _ Hp Hu) Ek ltac:(lia) ltac:(lia)) as (Hu2 & Ho2 & Hb2). rewrite Z.add_0_r in Hu2, Ho2, Hb2. fold s2 in Hu2, Ho2, Hb2.
  assert (Hm : mem_cons s1 s2) by (split; [by destruct s1|done]).
  exists r, s2. split_and!; [|by apply (rd_mem s1)| | |].
  - intros B g. unfold dir. rewrite (bind_ok _ _ _ _ _ Ew), (proj2 (Z.eqb_neq _ _) Hnz), (bind_ok _ _ s tt s) by done. unfold ld32.
    rewrite (bind_ok _ _ s (uentry (Some (u, f))) s) by (unfold gets; by rewrite El). rewrite E2, E3, (bind_ok _ _ _ _ _ E1). by rewrite (bind_ok _ _ s1 tt s2).
  - apply (load_step_trans F A l s s1 s2); [by apply load_step_fs|]. split; [done|by apply mem_part|]. intros y Hy. apply Ho2. intros a ->%list_elem_of_singleton. apply Hy. by eapply upage_in.
  - unfold r. destruct (Z.ltb_spec (Z.of_nat (length C)) off), (Z.leb_spec 4294967296 (off + n)); cbn [orb fst]; try (change (u32 (-1)) with 4294967295; lia). rewrite u32_small by lia. lia.
  - intros Er y Hy. unfold dir. rewrite (Hb2 y Hy), (user_byte_fs s) by done.
    assert (E : r.2 = slice C (Z.to_nat off) (Z.to_nat n)); [|by rewrite E, Z.add_0_r]. unfold r in Er |- *.
    destruct (Z.ltb_spec (Z.of_nat (length C)) off), (Z.leb_spec 4294967296 (off + n)); cbn [orb fst snd] in Er |- *; try (change (u32 (-1)) with 4294967295 in Er; lia).
    rewrite u32_small in Er by lia. by rewrite Er.
Qed.

Lemma loaduvm_loop_spec F A l a off sz fuel : forall s j,
  let dir := t_dir (a_tab A) in
  let size := Z.of_nat (length C) in
  vm_user s F A l -> P s -> 0 <= a -> 4096 * a + sz <= KERNBASE -> (forall k, a <= k < a + (sz + 4095) / 4096 -> is_Some (a_ups A !! k)) ->
  0 <= off < 4294967296 -> 0 <= j -> (j = 0 \/ sz <= 4096 * j \/ off + 4096 * j <= size) -> (Z.to_nat ((sz + 4095) / 4096 - j) <= fuel)%nat ->
  exists r s', loaduvm_loop dir (4096 * a) ip off (4096 * j) sz fuel s = Ok r s' /\ P s' /\ load_step F A l s s' /\
    if decide (sz <= 4096 * j \/ off + sz <= size)
    then r = 0 /\ bytes_put s s' dir (4096 * (a + j)) (slice C (Z.to_nat (off + 4096 * j)) (Z.to_nat (sz - 4096 * j)))
    else r = -1.
Proof using HR.
  induction fuel as [|fuel IH]; intros s j dir size Hu D Ha Hk Hall Ho Hj Hor Hf; cbn [loaduvm_loop].
  all: pose proof (reads_size s D) as Hmax; fold size in Hmax; unfold KERNBASE in Hk.
  all: destruct (Z.ltb_spec (4096 * j) sz) as [Hlt|Hge].
  1: exfalso; zlia.
  1,3: exists 0, s; split_and!; [done|done|by apply load_step_fs|]; rewrite decide_True by (by left); split; [done|];
    replace (Z.to_nat (sz - 4096 * j)) with 0%nat by lia; apply bytes_put_nil.
  unfold PGSIZE. rewrite (u32_small (4096 * a + 4096 * j)), (u32_small (off + 4096 * j)), (u32_small (4096 * j + 4096)) by zlia. set (o := off + 4096 * j). replace (4096 * a + 4096 * j) with (4096 * (a + j)) by lia. replace (4096 * j + 4096) with (4096 * (j + 1)) by lia.
  set (n := if _ <? 4096 then _ else _). assert (Hn : 0 < n <= 4096 /\ (n = 4096 \/ n = sz - 4096 * j) /\ n <= sz - 4096 * j) by (unfold n; zcases).
  destruct (load_page s F A l (a + j) o n Hu D) as (r & s1 & E1 & D1 & S1 & Hr & Hb1); [apply Hall; zlia|unfold o; zlia|lia|]. fold dir in E1, Hb1. rewrite E1. clear E1.
  destruct (Z.eqb_spec (u32 r.1) n) as [En|En]; cbn [negb].
  2:{ exists (-1), s1. split_and!; [done|done|done|]. rewrite decide_False; [done|]. unfold o in Hr. lia. }
  apply Hr in En as Hsz. unfold o in Hsz.
  destruct (IH s1 (j + 1) (lo_user _ _ _ _ _ S1) D1 Ha) as (r' & s' & E' & D' & S' & R); [unfold KERNBASE; lia|done|done|lia|fold size; lia|zlia|].
  fold dir in E'. exists r', s'. split_and!; [done|done|by eapply load_step_trans|]. fold size dir in R.
  destruct (decide (sz <= 4096 * j \/ off + sz <= size)) as [Hd|Hd]; [rewrite decide_True in R by lia|rewrite decide_False in R by lia; done].
  destruct R as [-> Hb]. split; [done|]. apply (bytes_put_twice s s1 s' dir (4096 * (a + j)) (4096 * (a + (j + 1))) _ n); [rewrite length_slice; lia|rewrite length_slice; lia|lia| |].
  - unfold slice. rewrite take_take. replace (Z.to_nat n `min` Z.to_nat (sz - 4096 * j))%nat with (Z.to_nat n) by lia. by apply Hb1.
  - unfold slice in Hb |- *. rewrite skipn_firstn_comm, drop_drop.
    destruct (decide (n = 4096)) as [E4|E4].
    + rewrite E4. replace (Z.to_nat o + Z.to_nat 4096)%nat with (Z.to_nat (off + 4096 * (j + 1))) by (unfold o; lia).
      replace (Z.to_nat (sz - 4096 * j) - Z.to_nat 4096)%nat with (Z.to_nat (sz - 4096 * (j + 1))) by lia. done.
    + replace (Z.to_nat (sz - 4096 * (j + 1))) with 0%nat in Hb by lia. by replace (Z.to_nat (sz - 4096 * j) - Z.to_nat n)%nat with 0%nat by lia.
Qed.

Lemma loaduvm_spec s F A l a off sz :
  let dir := t_dir (a_tab A) in
  let size := Z.of_nat (length C) in
  vm_user s F A l -> P s -> 0 <= a -> 0 <= sz -> 4096 * a + sz <= KERNBASE -> (forall k, a <= k < a + (sz + 4095) / 4096 -> is_Some (a_ups A !! k)) ->
  0 <= off < 4294967296 ->
  exists r s', loaduvm dir (4096 * a) ip off sz s = Ok r s' /\ P s' /\ load_step F A l s s' /\
    if decide (sz = 0 \/ off + sz <= size) then r = 0 /\ bytes_put s s' dir (4096 * a) (slice C (Z.to_nat off) (Z.to_nat sz)) else r = -1.
Proof using HR.
  intros dir size Hu D Ha Hsz Hk Hall Ho. unfold loaduvm. replace (4096 * a mod PGSIZE =? 0) with true by (symmetry; apply Z.eqb_eq; unfold PGSIZE; zlia). cbn [negb].
  rewrite (bind_ok _ _ s tt s) by done.
  destruct (loaduvm_loop_spec F A l a off sz (Z.to_nat (sz / PGSIZE + 1)) s 0 Hu D Ha Hk Hall Ho) as (r & s' & E & D' & S & R); [lia|by left|unfold PGSIZE; zlia|].
  exists r, s'. split_and!; [exact E|done|done|]. rewrite Z.mul_0_r, Z.add_0_r, Z.sub_0_r, Z.add_0_r in R. fold size in R.
  destruct (decide (sz = 0 \/ off + sz <= size)); [rewrite decide_True in R by lia|rewrite decide_False in R by lia]; done.
Qed.

(** ** The image in memory *)

(** The image [img] of [sz] bytes in an address space. *)
Record image_at s F A l (sz : Z) (img : Z -> Z) : Prop := {
  ia_vm : vm_user s F A l;
  ia_sz : 0 <= sz < KERNBASE;
  ia_pages : forall k, 0 <= k -> is_Some (a_ups A !! k) <-> k < (sz + 4095) / 4096;
  ia_flags : forall k u f, a_ups A !! k = Some (u, f) -> f = 7;
  ia_zero : forall va, sz <= va -> img va = 0;
  ia_bytes : forall va, 0 <= va < 4096 * ((sz + 4095) / 4096) -> user_byte s (t_dir (a_tab A)) va = Some (img va)
}.

Lemma image_pages s F A l sz img : image_at s F A l sz img -> Z.of_nat (length (upages (a_ups A))) <= (sz + 4095) / 4096.
Proof using.
  intros [Hu Hsz Hp _ _ _]. unfold upages, vals. rewrite !length_fmap, length_map_to_list, <- size_dom.
  assert (Hsub : dom (a_ups A) ⊆ list_to_set (seqZ 0 ((sz + 4095) / 4096))).
  { intros k Hk. apply elem_of_dom in Hk as [[u f] Ek]. apply elem_of_list_to_set, elem_of_seqZ. destruct (ao_dom _ (vu_ok _ _ _ _ Hu) k u f Ek) as [Hk _].
    split; [lia|]. apply Hp; [lia|eauto]. }
  apply subseteq_size in Hsub. rewrite size_list_to_set in Hsub by apply NoDup_seqZ. rewrite length_seqZ in Hsub. unfold KERNBASE in *. zlia.
Qed.

(** ** exec_load *)

(** Work on the new address space: no page is lost, the others are kept, and so
    is the kernel's part. *)
Record build F s A l s' A' l' : Prop := mkBuild {
  bd_vm : vm_user s' F A' l';
  bd_part : exec_part s s';
  bd_keeps : keeps F s s';
  bd_dir : t_dir (a_tab A') = t_dir (a_tab A);
  bd_pages : (apages A' ++ l') ≡ₚ (apages A ++ l);
  bd_kern : forall k, UPN <= k -> t_map (a_tab A') k = t_map (a_tab A) k
}.
Lemma build_refl F s A l : vm_user s F A l -> build F s A l s A l.
Proof using. by split. Qed.
Lemma build_trans F s1 A1 l1 s2 A2 l2 s3 A3 l3 : build F s1 A1 l1 s2 A2 l2 -> build F s2 A2 l2 s3 A3 l3 -> build F s1 A1 l1 s3 A3 l3.
Proof using.
  intros [A_1 A_2 A_3 A_4 A_5 A_6] [B_1 B_2 B_3 B_4 B_5 B_6].
  split; [done|by transitivity s2|by transitivity s2|congruence|by rewrite B_5|]. intros k Hk. rewrite B_6, A_6; done.
Qed.
Lemma build_ustep K F s A l s' A' l' : ustep K F s A l s' A' l' -> build F s A l s' A' l'.
Proof using. intros [B1 B2 B3 B4 B5 B6 B7]. split; try done; [by apply mem_part|by eapply keeps_l]. Qed.
Lemma build_load F s A l s' : load_step F A l s s' -> build F s A l s' A l.
Proof using. intros [B1 B2 B3]. split; try done. by eapply user_only_keeps. Qed.
Lemma build_fs F s A l s' : vm_user s F A l -> fs_read s s' -> build F s A l s' A l.
Proof using. intros Hu Hf. by apply build_load, load_step_fs. Qed.

(** allocuvm for a segment that ends at [top]. *)
Lemma alloc_segment s F A l sz img top :
  image_at s F A l sz img -> cons_ok (k_cons s) -> 0 <= top ->
  exists r s' A' l', allocuvm (t_dir (a_tab A)) sz top s = Ok r s' /\ build F s A l s' A' l' /\ mem_cons s s' /\
    (r = 0 /\ (top < KERNBASE -> 0 < Z.max sz top -> Z.of_nat (length l + length (apages A)) <= 1026 + (Z.max sz top + 4095) / 4096) \/
     r = Z.max sz top /\ top < KERNBASE /\ image_at s' F A' l' (Z.max sz top) img).
Proof using.
  intros I Hc Ht. pose proof (image_pages _ _ _ _ _ _ I) as Hlen. pose proof I as [Hu Hsz Hp Hfl Hz Hb]. destruct (Z.lt_ge_cases top KERNBASE) as [Hk|Hk].
  2:{ exists 0, s, A, l. split_and!; [|by apply build_refl|done|left; lia]. unfold allocuvm. by rewrite (proj2 (Z.leb_le _ _) Hk). }
  destruct (Z.lt_ge_cases top sz) as [Hlt|Hge].
  { exists sz, s, A, l. rewrite Z.max_l by lia. split_and!; [|by apply build_refl|done|by right]. unfold allocuvm. by rewrite (proj2 (Z.leb_gt _ _) Hk), (proj2 (Z.ltb_lt _ _) Hlt). }
  rewrite Z.max_r by lia. set (n := (sz + 4095) / 4096) in *. set (N := (top + 4095) / 4096). unfold KERNBASE in *.
  destruct (allocuvm_spec s F A l sz top Hu) as (r & s' & A' & l' & E & Hs & D); [lia|unfold KERNBASE; lia|done| |].
  { intros k Hk'. fold n in Hk'. destruct (a_ups A !! k) as [y|] eqn:Ek; [|done]. exfalso. assert (k < n) by (apply Hp; [unfold n in *; zlia|eauto]). lia. }
  fold n N in D. exists r, s', A', l'. split_and!; [done|by eapply build_ustep|apply Hs|]. destruct D as [(-> & _ & Hle)|[-> Hg]]; [left|right].
  { split; [done|]. intros _ _. unfold apages. rewrite length_app. assert (n <= N) by (unfold n, N; zlia). lia. }
  split_and!; [done|done|]. split; [apply Hs|unfold KERNBASE; lia| | |auto with lia|]; fold N.
  - intros k Hk'. specialize (Hg k). case_bool_decide as Hd; [destruct Hg as (u & -> & _); split; [lia|eauto]|].
    rewrite Hg, Hp by done. assert (n <= N) by (unfold n, N; zlia). lia.
  - intros k u f Ek. specialize (Hg k). case_bool_decide; [destruct Hg as (v & Ev & _); congruence|]. rewrite Hg in Ek. by eapply Hfl.
  - intros va Hva. rewrite (us_dir _ _ _ _ _ _ _ _ Hs). specialize (Hg (va / 4096)). case_bool_decide as Hd.
    + destruct Hg as (u & Ek & Hzero). unfold user_byte. rewrite <- (us_dir _ _ _ _ _ _ _ _ Hs), (translate_user _ _ _ _ _ (us_user _ _ _ _ _ _ _ _ Hs)), Ek by (unfold N, KERNBASE in *; zlia).
      cbn. rewrite Hzero by (unfold in_page, PGSIZE; zlia). rewrite Hz; [done|]. unfold n in Hd. zlia.
    + rewrite <- Hb by zlia. apply (user_byte_kept s F A l s' F A' l' va (upages (a_ups A))); try done; [apply Hs|apply Hs|unfold N, KERNBASE in *; zlia|eapply keeps_r, Hs|apply upage_in].
Qed.

(** The bytes of a segment in the image. *)
Lemma image_put s s' F A l top img ph :
  let dir := t_dir (a_tab A) in
  image_at s F A l top img -> bytes_put s s' dir (ph_vaddr ph) (slice C (Z.to_nat (ph_off ph)) (Z.to_nat (ph_filesz ph))) -> vm_user s' F A l ->
  0 <= ph_vaddr ph /\ 0 <= ph_off ph /\ 0 <= ph_filesz ph -> ph_vaddr ph + ph_filesz ph <= top -> ph_filesz ph = 0 \/ ph_off ph + ph_filesz ph <= Z.of_nat (length C) ->
  image_at s' F A l top (put_seg C ph img).
Proof using.
  intros dir [I1 I2 I3 I4 I5 I6] Hput Hu H0 Htop Hd. split; try done.
  - intros va Hva. unfold put_seg. rewrite (proj2 (Z.ltb_ge va _)) by lia. rewrite andb_false_r. by apply I5.
  - intros va Hva. rewrite Hput by (unfold KERNBASE in *; zlia). unfold put_seg.
    replace (Z.of_nat (length (slice _ _ _))) with (ph_filesz ph) by (destruct Hd as [->|Hd]; [done|rewrite length_slice; lia]).
    destruct ((ph_vaddr ph <=? va) && (va <? ph_vaddr ph + ph_filesz ph)) eqn:Hr; [|by apply I6].
    apply andb_true_iff in Hr as [Hr1%Z.leb_le Hr2%Z.ltb_lt]. f_equal. unfold nthz. rewrite !list_lookup_total_alt, lookup_slice by lia. do 2 f_equal. lia.
Qed.

(** A segment: the code of exec for it, which goes on with [g]. *)
Lemma load_segment s F A l sz img ph :
  let dir := t_dir (a_tab A) in
  let top := Z.max sz (ph_vaddr ph + ph_memsz ph) in
  image_at s F A l sz img -> P s -> cons_ok (k_cons s) ->
  0 <= ph_vaddr ph < 4294967296 -> 0 <= ph_memsz ph < 4294967296 -> 0 <= ph_filesz ph < 4294967296 -> 0 <= ph_off ph < 4294967296 ->
  exists s' A' l' ok, build F s A l s' A' l' /\ P s' /\
    (forall g, (if ph_memsz ph <? ph_filesz ph then mret None
       else if u32 (ph_vaddr ph + ph_memsz ph) <? ph_vaddr ph then mret None
       else
         sz ← allocuvm dir sz (u32 (ph_vaddr ph + ph_memsz ph));
         if sz =? 0 then mret None
         else if negb (ph_vaddr ph mod PGSIZE =? 0) then mret None
         else
           l ← loaduvm dir (ph_vaddr ph) ip (ph_off ph) (ph_filesz ph);
           if l <? 0 then mret None else g sz) s = (if ok : bool then g top s' else Ok None s' : outcome kernel (option Z))) /\
    if ok then seg_ok C sz ph = true /\ image_at s' F A' l' top (put_seg C ph img)
    else seg_ok C sz ph = true -> Z.of_nat (length l + length (apages A)) <= 1026 + (top + 4095) / 4096.
Proof using HR.
  intros dir top I D Hc Hv Hm Hf Ho. pose proof (ia_vm _ _ _ _ _ _ I) as Hu. set (end_ := ph_vaddr ph + ph_memsz ph) in *.
  destruct (Z.ltb_spec (ph_memsz ph) (ph_filesz ph)) as [H1|H1].
  { exists s, A, l, false. split_and!; [by apply build_refl|done|done|]. intros Hs%seg_ok_spec. lia. }
  destruct (Z.ltb_spec (u32 end_) (ph_vaddr ph)) as [H2|H2].
  { exists s, A, l, false. split_and!; [by apply build_refl|done|done|]. intros Hs%seg_ok_spec. fold end_ in Hs. unfold KERNBASE in Hs. rewrite u32_small in H2; lia. }
  assert (He : 0 <= end_ < 4294967296) by zlia. rewrite (u32_small end_) by done. clear H2.
  destruct (alloc_segment s F A l sz img end_ I Hc ltac:(lia)) as (r & s1 & A1 & l1 & E1 & B1 & M1 & R). fold dir top in E1, R. pose proof (rd_mem _ _ D M1) as D1.
  destruct R as [[-> Hb]|(-> & Hk & I1)].
  { exists s1, A1, l1, false. split_and!; [done|done|intros g; by rewrite (bind_ok _ _ _ _ _ E1)|]. intros Hs%seg_ok_spec. fold end_ top in Hs. apply Hb; lia. }
  destruct (Z.eqb_spec top 0) as [H3|H3].
  { exists s1, A1, l1, false. split_and!; [done|done|intros g; rewrite (bind_ok _ _ _ _ _ E1); by rewrite H3|]. intros Hs%seg_ok_spec. fold end_ top in Hs. lia. }
  destruct (Z.eqb_spec (ph_vaddr ph mod PGSIZE) 0) as [H4|H4].
  2:{ exists s1, A1, l1, false. split_and!; [done|done|intros g; rewrite (bind_ok _ _ _ _ _ E1), (proj2 (Z.eqb_neq _ _) H3); done|]. intros Hs%seg_ok_spec. lia. }
  unfold PGSIZE in H4. set (a := ph_vaddr ph / 4096). assert (Ea : ph_vaddr ph = 4096 * a) by (unfold a; zlia). unfold KERNBASE in Hk.
  destruct (loaduvm_spec s1 F A1 l1 a (ph_off ph) (ph_filesz ph) (bd_vm _ _ _ _ _ _ _ B1) D1) as (r2 & s2 & E2 & D2 & S2 & R2); [unfold a; zlia|lia|unfold KERNBASE, end_ in *; lia| |done|].
  { intros k Hk'. apply (ia_pages _ _ _ _ _ _ I1); [unfold a in *; zlia|]. unfold top, end_, a in *. zlia. }
  rewrite (bd_dir _ _ _ _ _ _ _ B1), <- Ea in E2, R2. fold dir in E2, R2.
  assert (B2 : build F s A l s2 A1 l1) by (eapply build_trans; [exact B1|by apply build_load]).
  assert (E : forall g, (sz ← allocuvm dir sz end_; if sz =? 0 then mret None else if negb true then mret None
      else l ← loaduvm dir (ph_vaddr ph) ip (ph_off ph) (ph_filesz ph); if l <? 0 then mret None else g sz) s = (if r2 <? 0 then mret None else g top : kM (option Z)) s2).
  { intros g. rewrite (bind_ok _ _ _ _ _ E1), (proj2 (Z.eqb_neq _ _) H3). cbn [negb]. by rewrite (bind_ok _ _ _ _ _ E2). }
  destruct (decide (ph_filesz ph = 0 \/ ph_off ph + ph_filesz ph <= Z.of_nat (length C))) as [Hd|Hd].
  2:{ exists s2, A1, l1, false. split_and!; [done|done|intros g; rewrite E; by subst r2|]. intros Hs%seg_ok_spec. lia. }
  destruct R2 as [-> Hput]. exists s2, A1, l1, true. split_and!; [done|done|exact E|apply seg_ok_spec; fold end_ top; unfold KERNBASE, PGSIZE; lia|].
  apply (image_put s1 s2 F A1 l1 top img ph I1); [by rewrite (bd_dir _ _ _ _ _ _ _ B1)|apply S2|lia|unfold top, end_; lia|done].
Qed.

(** exec_load builds the image of the program, or returns None for a program
    that has none, or for want of memory. *)
Lemma exec_load_spec F n : forall s A l off sz img,
  image_at s F A l sz img -> P s -> cons_ok (k_cons s) -> 0 <= off < 4294967296 ->
  exists r s' A' l', exec_load ip (t_dir (a_tab A)) (i32 off) sz n s = Ok r s' /\ build F s A l s' A' l' /\ P s' /\
    match load_prog C off sz img n with
    | None => r = None
    | Some (sz', img') => r = Some sz' /\ image_at s' F A' l' sz' img' \/ r = None /\ Z.of_nat (length l + length (apages A)) <= 1026 + (sz' + 4095) / 4096
    end.
Proof using HR.
  induction n as [|n IH]; intros s A l off sz img I D Hc Ho; cbn [exec_load load_prog].
  { exists (Some sz), s, A, l. split_and!; [done|by eapply build_refl, I|done|by left]. }
  replace (u32 (i32 off)) with off by (unfold u32, i32; zlia). pose proof (reads_size s D) as Hmax.
  destruct (reads_read s off PROGHDR_SIZE D Ho ltac:(unfold PROGHDR_SIZE; lia)) as (s1 & E1 & D1 & P1). rewrite (bind_ok _ _ _ _ _ E1). unfold PROGHDR_SIZE in *.
  pose proof (build_fs F s A l s1 (ia_vm _ _ _ _ _ _ I) P1) as B1.
  assert (Hc1 : cons_ok (k_cons s1)) by (by apply (exec_part_parts _ _ (fs_exec_part _ _ P1))).
  destruct (Z.ltb_spec (Z.of_nat (length C)) (off + 32)) as [Hsh|Hin].
  { exists None, s1, A, l. split_and!; [|done|done|done].
    destruct (Z.ltb_spec (Z.of_nat (length C)) off), (Z.leb_spec 4294967296 (off + 32)); cbn [orb fst]; try done. by rewrite (proj2 (Z.eqb_neq _ 32)) by lia. }
  rewrite (proj2 (Z.ltb_ge _ off)), (proj2 (Z.leb_gt _ (off + 32))) by lia. cbn [orb fst snd]. rewrite Z.min_l by lia. cbn [Z.eqb Pos.eqb negb]. change (Z.to_nat 32) with 32%nat.
  set (ph := dec_proghdr _). assert (Hnext : i32 (i32 off + 32) = i32 (off + 32)) by (unfold i32; zlia). rewrite Hnext.
  assert (I1 : image_at s1 F A l sz img) by (destruct I as [J1 J2 J3 J4 J5 J6]; split; try done; [apply B1|intros va Hva; rewrite (user_byte_fs s) by done; by apply J6]).
  destruct (negb (ph_type ph =? ELF_PROG_LOAD)).
  { destruct (IH s1 A l (off + 32) sz img I1 D1 Hc1 ltac:(lia)) as (r & s' & A' & l' & E & B & D' & R). exists r, s', A', l'. split_and!; [done|by eapply build_trans|done|done]. }
  assert (Hph : forall o, 0 <= word (slice C (Z.to_nat off) 32) o < 4294967296) by (intros o; apply word_range, Forall_take, Forall_drop; by eapply reads_bytes).
  destruct (load_segment s1 F A l sz img ph I1 D1 Hc1 (Hph _) (Hph _) (Hph _) (Hph _)) as (s2 & A2 & l2 & ok & B2 & D2 & E2 & R2). rewrite E2.
  pose proof (build_trans _ _ _ _ _ _ _ _ _ _ B1 B2) as B12. destruct ok.
  - destruct R2 as [Hok I2]. rewrite Hok. assert (Hc2 : cons_ok (k_cons s2)) by (by apply (exec_part_parts _ _ (bd_part _ _ _ _ _ _ _ B2))).
    destruct (IH s2 A2 l2 (off + 32) _ _ I2 D2 Hc2 ltac:(lia)) as (r & s' & A' & l' & E & B & D' & R). rewrite (bd_dir _ _ _ _ _ _ _ B2) in E.
    exists r, s', A', l'. split_and!; [done|by eapply build_trans|done|].
    assert (Hlen : (length l2 + length (apages A2) = length l + length (apages A))%nat) by (pose proof (Permutation_length (bd_pages _ _ _ _ _ _ _ B2)) as Hp; rewrite !length_app in Hp; lia).
    by rewrite Hlen in R.
  - exists None, s2, A2, l2. split_and!; [done|done|done|]. destruct (seg_ok C sz ph); [|done]. specialize (R2 eq_refl).
    destruct (load_prog _ _ _ _ _) as [[sz' img']|] eqn:El; [|done]. right. split; [done|]. apply load_prog_grows in El. zlia.
Qed.
End load.
