(* ===== verification/ExecProps.v ===== *)
(** * exec (exec.c)

    exec gives a program two more pages above its image, makes the lower one
    inaccessible, and puts the arguments and the frame of main into the upper
    one.  [arg_ptrs] is where the strings go.  The whole of exec, from the path to
    the process, follows: [program_at] is what a path names, [running] the process
    before and after, [outside] the file system between two operations. *)

From S2P Require Import Prelude State CString Sleep Ide Bio BioSpec Log LogSpec LogRun LogOps Kalloc PageMath KallocSpec Console ConsoleOut Vm VmSpec VmUser VmCopy VmProps VmOut Fs FsFile FsTxn FsAlloc FsMap FsData DirProps Path Namei File Proc Syscall Exec ExecLoad.
Open Scope Z_scope.

(** ** Where the arguments go *)

(** The string [a] with its NUL below [sp], at a multiple of 4. *)
Definition push_arg (sp : Z) (a : list Z) : Z := (sp - (Z.of_nat (length a) + 1)) / 4 * 4.
Fixpoint arg_ptrs (sp : Z) (argv : list (list Z)) : list Z :=
  match argv with [] => [] | a :: argv' => push_arg sp a :: arg_ptrs (push_arg sp a) argv' end.
Definition args_sp (sp : Z) (argv : list (list Z)) : Z := foldl push_arg sp argv.

Lemma push_arg_below sp a : push_arg sp a + (Z.of_nat (length a) + 1) <= sp < push_arg sp a + (Z.of_nat (length a) + 1) + 4.
Proof. unfold push_arg. zlia. Qed.
Lemma args_sp_below argv : forall sp, args_sp sp argv <= sp.
Proof.
  induction argv as [|a argv IH]; intros sp; cbn; [lia|]. pose proof (IH (push_arg sp a)). pose proof (push_arg_below sp a). unfold args_sp in *. lia.
Qed.
Lemma arg_ptrs_length argv : forall sp, length (arg_ptrs sp argv) = length argv.
Proof. induction argv as [|a argv IH]; intros sp; cbn; auto. Qed.

Lemma arg_ptrs_in argv : forall sp, Forall2 (fun p a => args_sp sp argv <= p /\ p + (Z.of_nat (length a) + 1) <= sp) (arg_ptrs sp argv) argv.
Proof.
  induction argv as [|a argv IH]; intros sp; cbn [arg_ptrs args_sp foldl]; [constructor|]. pose proof (push_arg_below sp a). pose proof (args_sp_below argv (push_arg sp a)).
  constructor; [unfold args_sp in *; lia|]. eapply Forall2_impl; [apply IH|]. cbn. unfold args_sp. intros p b Hp. lia.
Qed.

(** Code that [E] says the outcome of. *)
Ltac run_as E := match goal with |- exists r s', ?X = _ /\ _ => match type of E with _ = ?Y => replace X with Y by (symmetry; exact E) end end.

(** The same for a goal that also tells of a fault. *)
Ltac run_fork E := match goal with |- (?X = _ /\ _) \/ _ => match type of E with _ = ?Y => replace X with Y by (symmetry; exact E) end end.

Section exec.
Context `{Linker}.
Implicit Types (s : kernel) (A O : aspace) (F l : list Z).

(** The bytes [bs] are at the user address [va]. *)
Definition user_bytes s (dir va : Z) (bs : list Z) : Prop :=
  forall i b, bs !! i = Some b -> user_byte s dir (va + Z.of_nat i) = Some b.

Lemma put_bytes s s' dir va bs : 0 <= va -> va + Z.of_nat (length bs) <= KERNBASE -> bytes_put s s' dir va bs -> user_bytes s' dir va bs.
Proof using.
  intros Hva Hk Hp i b E. pose proof (lookup_lt_Some _ _ _ E) as Hi. rewrite Hp by lia.
  rewrite (proj2 (Z.leb_le va _)), (proj2 (Z.ltb_lt (va + Z.of_nat i) _)) by lia. cbn [andb]. f_equal. unfold nthz.
  replace (Z.to_nat (va + Z.of_nat i - va)) with i by lia. by apply list_lookup_total_correct.
Qed.
Lemma user_bytes_kept s s' dir va bs : 0 <= va -> va + Z.of_nat (length bs) <= KERNBASE ->
  (forall x, va <= x < va + Z.of_nat (length bs) -> user_byte s' dir x = user_byte s dir x) -> user_bytes s dir va bs -> user_bytes s' dir va bs.
Proof using. intros Hva Hk Hs Hb i b E. pose proof (lookup_lt_Some _ _ _ E) as Hi. rewrite Hs by lia. by apply Hb. Qed.

(** ** Pushing onto the stack *)

(** Page [n + 1] is the stack and page [n] its guard. *)
Record stack_at A (n : Z) : Prop := {
  sa_n : 0 <= n;
  sa_top : 4096 * (n + 2) <= KERNBASE;
  sa_mapped : forall k, 0 <= k < n + 2 -> is_Some (a_ups A !! k);
  sa_guard : accessible A n = false;
  sa_page : accessible A (n + 1) = true
}.

Lemma push_bytes s F A l n va bs :
  let dir := t_dir (a_tab A) in
  let len := Z.of_nat (length bs) in
  vm_user s F A l -> stack_at A n -> 0 <= va -> 0 < len -> 4096 * n < va + len <= 4096 * (n + 2) ->
  exists r s', copyout dir va bs len s = Ok r s' /\ out_step F A l s s' /\
    if decide (4096 * (n + 1) <= va) then r = 0 /\ bytes_put s s' dir va bs else r = -1.
Proof using.
  intros dir len Hu [S1 S2 S3 S4 S5] Hva Hlen Hr. unfold KERNBASE in S2.
  destruct (copyout_spec s F A l va bs Hu Hva) as (r & s' & E & Hs & D); [unfold KERNBASE; lia|intros k Hk; apply S3; zlia|]. fold len in D.
  exists r, s'. split_and!; [done|done|]. destruct (decide (4096 * (n + 1) <= va)) as [Hd|Hd].
  - destruct D as [(-> & Hb & _)|(-> & k & Hk & Ha)]; [done|]. exfalso. assert (k = n + 1) as -> by zlia. congruence.
  - destruct D as [(-> & Hb & Ha)|(-> & _)]; [|done]. exfalso. specialize (Ha Hlen n ltac:(zlia)). congruence.
Qed.

(** The arguments fit between [lo] and [sp], and argv. *)
Definition args_in (lo sp argc : Z) (argv : list (list Z)) : Prop := argc + Z.of_nat (length argv) <= MAXARG /\ lo <= args_sp sp argv.
#[export] Instance args_in_dec lo sp argc argv : Decision (args_in lo sp argc argv).
Proof. unfold args_in. apply _. Defined.

(** An argument is longer than what is below the stack, so that the stack pointer
    wraps around below it. *)
Definition too_long (lo : Z) (argv : list (list Z)) : Prop := Exists (fun a => lo <= Z.of_nat (length a)) argv.

Lemma exec_args_spec `{!LinkedAt} F A l n argv : forall s sp argc,
  let dir := t_dir (a_tab A) in
  let lo := 4096 * (n + 1) in
  vm_user s F A l -> kernel_half A -> stack_at A n -> lo <= sp <= 4096 * (n + 2) -> argc <= MAXARG -> Forall (fun a => Z.of_nat (length a) < KERNBASE) argv ->
  exists s', out_step F A l s s' /\
    if decide (args_in lo sp argc argv) then
      exec_args dir sp argc argv s = Ok (Some (args_sp sp argv, arg_ptrs sp argv)) s' /\
      Forall2 (fun p a => user_bytes s' dir p (a ++ [0])) (arg_ptrs sp argv) argv /\
      (forall x, 0 <= x < KERNBASE -> x < args_sp sp argv \/ sp <= x -> user_byte s' dir x = user_byte s dir x)
    else exec_args dir sp argc argv s = Ok None s' \/ exec_args dir sp argc argv s = Fault "uva2ka: null pte" /\ too_long lo argv.
Proof using.
  induction argv as [|a argv IH]; intros s sp argc dir lo Hu Hkh Hst Hsp Hc Hall; cbn [exec_args].
  { exists s. split; [by apply out_step_refl|]. rewrite decide_True by (unfold args_in; cbn [length args_sp foldl]; lia). split_and!; [done|constructor|done]. }
  apply Forall_cons in Hall as [Ha Hall]. pose proof (push_arg_below sp a) as Hp. pose proof (sa_top _ _ Hst) as Htop. pose proof (sa_n _ _ Hst) as Hn. unfold KERNBASE in Htop.
  destruct (Z.leb_spec MAXARG argc) as [Hm|Hm].
  { exists s. split; [by apply out_step_refl|]. rewrite decide_False by (unfold args_in; cbn [length]; lia). by left. }
  change (u32 (Z.lnot 3)) with 4294967292. rewrite land_word by (unfold u32; zlia).
  assert (El : Z.of_nat (length (a ++ [0])) = Z.of_nat (length a) + 1) by (rewrite length_app; cbn [length]; lia).
  destruct (Z.lt_ge_cases sp (Z.of_nat (length a) + 1)) as [Hw|Hw].
  { exists s. split; [by apply out_step_refl|]. pose proof (args_sp_below argv (push_arg sp a)) as Hle. rewrite decide_False by (unfold args_in; cbn [args_sp foldl]; fold (args_sp (push_arg sp a) argv); lia).
    replace (u32 (sp - (Z.of_nat (length a) + 1))) with (sp - (Z.of_nat (length a) + 1) + 4294967296) by (unfold KERNBASE in Ha; unfold u32; zlia). unfold mbind, M_bind.
    destruct (copyout_kernel s F A l ((sp - (Z.of_nat (length a) + 1) + 4294967296) / 4 * 4) (a ++ [0]) (Z.of_nat (length a) + 1) Hu Hkh) as [E|E]; [unfold KERNBASE in *; zlia|lia|left|right]; fold dir in E; rewrite E; [done|].
    split; [done|]. constructor. lia. }
  rewrite u32_small by lia. fold (push_arg sp a).
  rewrite <- El in Hp |- *. set (va := push_arg sp a) in *.
  destruct (push_bytes s F A l n va (a ++ [0]) Hu Hst) as (r & s1 & E1 & Hs1 & D); [unfold va, push_arg in *; zlia|lia|lia|]. unfold dir. rewrite (bind_ok _ _ _ _ _ E1). fold dir lo in D |- *.
  pose proof (args_sp_below argv va) as Hle. destruct (decide (lo <= va)) as [Hd|Hd].
  2:{ subst r. exists s1. split; [done|]. rewrite decide_False; [by left|]. unfold args_in. cbn [args_sp foldl]. fold va (args_sp va argv). lia. }
  destruct D as [-> Hb]. cbn [Z.ltb Z.compare]. destruct (IH s1 va (argc + 1) (ot_user _ _ _ _ _ Hs1) Hkh Hst ltac:(lia) ltac:(lia) Hall) as (s' & Hs' & D').
  exists s'. split; [by eapply out_step_trans|]. fold dir lo in D'.
  assert (Eq : args_in lo sp argc (a :: argv) <-> args_in lo va (argc + 1) argv) by (unfold args_in; cbn [args_sp foldl length]; fold va (args_sp va argv); lia).
  destruct (decide (args_in lo va (argc + 1) argv)) as [Hi|Hi].
  2:{ rewrite decide_False by tauto. destruct D' as [D'|[D' Hl]]; [left; by rewrite (bind_ok _ _ _ _ _ D')|right]. unfold mbind, M_bind. rewrite D'. split; [done|by right]. }
  rewrite decide_True by tauto. destruct D' as (E' & Hf & Hx). rewrite (bind_ok _ _ _ _ _ E'). cbn [arg_ptrs args_sp foldl]. fold va (args_sp va argv). split_and!; [done|constructor; [|done]|].
  - apply (user_bytes_kept s1); [lia|unfold KERNBASE; lia| |apply (put_bytes s); [lia|unfold KERNBASE; lia|done]]. intros x Hx'. apply Hx; unfold KERNBASE; lia.
  - intros x Hx1 Hx2. rewrite Hx, Hb by (done || lia). destruct (Z.leb_spec va x), (Z.ltb_spec x (va + Z.of_nat (length (a ++ [0])))); cbn [andb]; done || lia.
Qed.

(** ** exec_stack *)

(** A failed exec gives the new address space back. *)
Lemma exec_bad_frees s F A l :
  vm_user s F A l ->
  exists s' l', exec_bad (t_dir (a_tab A)) None s = Ok (-1) s' /\ freelist s' l' /\ l' ≡ₚ apages A ++ l /\ keeps F s s' /\ mem_cons s s'.
Proof using.
  intros Hu. assert (Hd : page_ok (t_dir (a_tab A))) by (apply (vt_page_in _ _ _ _ _ (vu_tab _ _ _ _ Hu)); set_solver).
  destruct (freevm_spec _ _ _ _ Hu) as (s' & l' & E & R). exists s', l'. split; [|done]. unfold exec_bad.
  rewrite (proj2 (Z.eqb_neq _ _)) by (by apply page_ok_nz). cbn [negb]. by rewrite (bind_ok _ _ _ _ _ E).
Qed.

(** The program is in the address space [A], up to [sz], and the process [cur]
    still has its old one, [O]. *)
Record loaded s (cur : nat) F O A l (sz : Z) : Prop := {
  ld_vm : vm_user s (F ++ apages O) A l;
  ld_old : tab_ok (k_mem s) (a_tab O);
  ld_old_ok : as_ok O;
  ld_cur : (cur < length (k_ptable s))%nat;
  ld_dir : p_pgdir (k_ptable s !!! cur) = t_dir (a_tab O);
  ld_kstack : p_kstack (k_ptable s !!! cur) <> 0;
  ld_cons : cons_ok (k_cons s);
  ld_sz : 0 <= sz <= KERNBASE;
  ld_pages : forall k, 0 <= k -> is_Some (a_ups A !! k) <-> k < (sz + 4095) / 4096;
  ld_kern : kernel_half A
}.

(** The two pages, the lower one cleared of PTE_U. *)
Lemma stack_pages s cur F O A l sz :
  let n := (sz + 4095) / 4096 in
  let dir := t_dir (a_tab A) in
  loaded s cur F O A l sz -> 4096 * (n + 2) < KERNBASE ->
  exists r s1, allocuvm dir (4096 * n) (4096 * (n + 2)) s = Ok r s1 /\
    ((r = 0 /\ Z.of_nat (length l) <= 1027 /\ exists A1 l1, ustep (upages (a_ups A)) (F ++ apages O) s A l s1 A1 l1) \/
     (r = 4096 * (n + 2) /\ exists s2 A2 l2, clearpteu dir (4096 * n) s1 = Ok tt s2 /\
        ustep (upages (a_ups A)) (F ++ apages O) s A l s2 A2 l2 /\ stack_at A2 n /\
        forall k, 0 <= k < n -> a_ups A2 !! k = a_ups A !! k)).
Proof using.
  intros n dir L Hn. destruct L as [Hu _ _ _ _ _ Hc Hsz Hpg _]. unfold KERNBASE in *. assert (0 <= n) by (unfold n; zlia).
  assert (E1 : (4096 * n + 4095) / 4096 = n) by zlia. assert (E2 : (4096 * (n + 2) + 4095) / 4096 = n + 2) by zlia.
  destruct (allocuvm_spec s _ A l (4096 * n) (4096 * (n + 2)) Hu) as (r & s1 & A1 & l1 & E & Hs & D); [lia|unfold KERNBASE; lia|done| |].
  { intros k Hk. rewrite E1, E2 in Hk. destruct (a_ups A !! k) as [x|] eqn:Ek; [|done]. exfalso. assert (k < n) by (apply Hpg; [lia|by exists x]). lia. }
  rewrite E1, E2 in D. exists r, s1. split; [done|]. destruct D as [(-> & _ & Hle)|[-> Hg]]; [left|right].
  { unfold tpages in Hle. cbn [length] in Hle. split_and!; [done|lia|eauto]. }
  split; [done|]. pose proof (Hg n) as Gn. pose proof (Hg (n + 1)) as Gm. rewrite bool_decide_eq_true_2 in Gn, Gm by lia.
  destruct Gn as (u & En & _). destruct Gm as (v & Em & _).
  destruct (clearpteu_spec s1 _ A1 l1 n u (us_user _ _ _ _ _ _ _ _ Hs) En) as (s2 & Ec & Hu2 & Hk2 & Hm2).
  exists s2, (guarded A1 n u), l1. split_and!; [by unfold dir; rewrite <- (us_dir _ _ _ _ _ _ _ _ Hs)| | |].
  - destruct Hs as [B1 B2 B3 B4 B5 B6 B7]. split; try done.
    + transitivity s1; [done|]. apply (keeps_app _ _ (upages (a_ups A1))); [|done]. intros w (k & f & Ek)%elem_upages. apply elem_upages. exists k, f.
      destruct (ao_dom _ (vu_ok _ _ _ _ Hu) k w f Ek) as [Hk _]. assert (k < n) by (apply Hpg; [lia|eauto]). specialize (Hg k). rewrite bool_decide_eq_false_2 in Hg by lia. by rewrite Hg.
    + transitivity s1; [done|]. rewrite Hm2. by split.
    + rewrite <- B5. unfold apages. by rewrite (upages_guarded A1 n u 7 En).
    + intros k Hk. rewrite <- B6 by done. cbn [guarded a_tab set_map t_map]. unfold fset. rewrite (proj2 (Z.eqb_neq k n)) by (unfold UPN in Hk; lia). done.
  - split; [done|unfold KERNBASE; lia| |unfold accessible; cbn [guarded a_ups]; by rewrite lookup_insert_eq|unfold accessible; cbn [guarded a_ups]; rewrite lookup_insert_ne by lia; by rewrite Em].
    intros k Hk. cbn [guarded a_ups]. destruct (decide (k = n)) as [->|Hne]; [by rewrite lookup_insert_eq|]. rewrite lookup_insert_ne by done.
    specialize (Hg k). case_bool_decide as Hb; [destruct Hg as (w & -> & _); done|]. rewrite Hg. apply Hpg; lia.
  - intros k Hk. cbn [guarded a_ups]. rewrite lookup_insert_ne by lia. specialize (Hg k). by rewrite bool_decide_eq_false_2 in Hg by lia.
Qed.

(** The stack of a program: above the guard page, the words from [sp] on are the
    return address, argc, argv, the elements of argv and 0, and each element
    points to its string. *)
Record main_frame s (dir sp : Z) (ptrs : list Z) (argv : list (list Z)) : Prop := {
  mf_words : user_bytes s dir sp (concat (enc32 <$> [4294967295; Z.of_nat (length argv); sp + 12] ++ ptrs ++ [0]));
  mf_strings : Forall2 (fun p a => user_bytes s dir p (a ++ [0])) ptrs argv
}.

(** The slot of the process that runs the new program. *)
Definition execed (path : list Z) (entry dir sz sp : Z) (q : proc) : proc :=
  set_p_tf (set_tf_esp sp (set_tf_eip entry (p_tf q))) (set_p_sz sz (set_p_pgdir dir (set_name (last_elem path path) q))).

Definition frame_sp (sz : Z) (argv : list (list Z)) : Z := args_sp sz argv - 4 * (4 + Z.of_nat (length argv)).

(** The arguments and the frame fit the page below [sz]. *)
Definition args_fit (sz : Z) (argv : list (list Z)) : Prop := Z.of_nat (length argv) <= MAXARG /\ sz - PGSIZE <= frame_sp sz argv.

Lemma words_length l : length (concat (enc32 <$> l)) = (4 * length l)%nat.
Proof using. induction l as [|x l IH]; [done|]. cbn [fmap list_fmap concat length]. rewrite length_app, IH. change (length (enc32 x)) with 4%nat. lia. Qed.
Lemma exec_ustack_length sp argc ps : length (exec_ustack sp argc ps) = (4 * (4 + length ps))%nat.
Proof using. unfold exec_ustack. rewrite words_length, !length_app. cbn [length]. lia. Qed.

Lemma main_frame_kept s s' dir top argv :
  0 <= frame_sp top argv -> top <= KERNBASE -> (forall x, 0 <= x < KERNBASE -> user_byte s' dir x = user_byte s dir x) ->
  main_frame s dir (frame_sp top argv) (arg_ptrs top argv) argv -> main_frame s' dir (frame_sp top argv) (arg_ptrs top argv) argv.
Proof using.
  intros H0 Htop Hsee [M1 M2]. pose proof (args_sp_below argv top) as Hle. unfold frame_sp in H0. split.
  - apply (user_bytes_kept s); [done| |intros x Hx; apply Hsee|done]; rewrite words_length, !length_app, arg_ptrs_length in *; cbn [length] in *; unfold frame_sp in *; lia.
  - apply Forall2_same_length_lookup_2; [apply arg_ptrs_length|]. intros i p a Ep Ea. destruct (Forall2_lookup_lr _ _ _ _ _ _ (arg_ptrs_in argv top) Ep Ea) as [Hp1 Hp2].
    apply (user_bytes_kept s); [lia| |intros x Hx; apply Hsee|exact (Forall2_lookup_lr _ _ _ _ _ _ M2 Ep Ea)]; rewrite length_app in *; cbn [length] in *; lia.
Qed.

(** The arguments and then the frame. *)
Lemma exec_push `{!LinkedAt} s F A l n argv :
  let dir := t_dir (a_tab A) in
  let sz := 4096 * (n + 2) in
  let code (bad : kM Z) (rest : Z -> kM Z) :=
    r ← exec_args dir sz 0 argv;
    match r with
    | None => bad
    | Some (sp, ps) =>
      let argc := Z.of_nat (length ps) in
      let sp' := u32 (sp - (3 + argc + 1) * 4) in
      r ← copyout dir sp' (exec_ustack sp argc ps) ((3 + argc + 1) * 4);
      if r <? 0 then bad else rest sp'
    end in
  vm_user s F A l -> kernel_half A -> stack_at A n -> Forall (fun a => Z.of_nat (length a) < KERNBASE) argv ->
  (too_long (4096 * (n + 1)) argv /\ forall bad rest, code bad rest s = Fault "uva2ka: null pte") \/
  exists s', out_step F A l s s' /\ (forall bad rest, code bad rest s = (if decide (args_fit sz argv) then rest (frame_sp sz argv) else bad) s') /\
    (args_fit sz argv -> main_frame s' dir (frame_sp sz argv) (arg_ptrs sz argv) argv /\
       forall x, 0 <= x < 4096 * (n + 1) -> user_byte s' dir x = user_byte s dir x).
Proof using.
  intros dir sz code Hu Hkh Hst Hall. pose proof (sa_top _ _ Hst) as Htop. pose proof (sa_n _ _ Hst) as Hn. unfold KERNBASE in Htop.
  destruct (exec_args_spec F A l n argv s sz 0 Hu Hkh Hst ltac:(unfold sz; lia) ltac:(done) Hall) as (s1 & Hs1 & D). fold dir in D.
  pose proof (args_sp_below argv sz) as Hle. pose proof (arg_ptrs_length argv sz) as Hlen.
  destruct (decide (args_in _ sz 0 argv)) as [[Hi1 Hi2]|Hi].
  2:{ destruct D as [D|[D Hl]]; [right|left; split; [done|]; intros bad rest; unfold code, mbind, M_bind; by rewrite D]. assert (Hf : ~ args_fit sz argv).
      { intros [H1 H2]. apply Hi. unfold args_in, frame_sp, PGSIZE, sz in *. lia. }
      exists s1. split_and!; [done| |done]. intros bad rest. unfold code. rewrite (bind_ok _ _ _ _ _ D). by rewrite decide_False. }
  right.
  destruct D as (E1 & Hf & Hx). set (sp := args_sp sz argv) in *. set (ps := arg_ptrs sz argv) in *. unfold MAXARG in Hi1.
  assert (Eu : u32 (sp - (3 + Z.of_nat (length ps) + 1) * 4) = frame_sp sz argv) by (unfold frame_sp; fold sp; rewrite Hlen, u32_small; unfold sz in *; lia).
  pose proof (exec_ustack_length sp (Z.of_nat (length ps)) ps) as Hul. set (us := exec_ustack _ _ _) in *.
  assert (El : (3 + Z.of_nat (length ps) + 1) * 4 = Z.of_nat (length us)) by lia. assert (Efs : frame_sp sz argv = sp - Z.of_nat (length us)) by (unfold frame_sp; fold sp; lia).
  destruct (push_bytes s1 F A l n (frame_sp sz argv) us (ot_user _ _ _ _ _ Hs1) Hst) as (r & s2 & E2 & Hs2 & D); [unfold sz in *; lia..|]. fold dir in E2, D.
  exists s2. split; [by eapply out_step_trans|]. assert (Ec : forall bad rest, code bad rest s = (if r <? 0 then bad else rest (frame_sp sz argv)) s2).
  { intros bad rest. unfold code. rewrite (bind_ok _ _ _ _ _ E1). cbv beta iota zeta. rewrite Eu, El. by rewrite (bind_ok _ _ _ _ _ E2). }
  assert (Eq : args_fit sz argv <-> 4096 * (n + 1) <= frame_sp sz argv) by (unfold args_fit, PGSIZE, sz, MAXARG; lia).
  destruct (decide (4096 * (n + 1) <= _)) as [Hd|Hd]; [|subst r; split; [intros bad rest; rewrite Ec; by rewrite decide_False by tauto|tauto]].
  destruct D as [-> Hb]. split; [intros bad rest; rewrite Ec; by rewrite decide_True by tauto|]. intros _.
  assert (Hkept : forall x, 0 <= x < KERNBASE -> x < frame_sp sz argv \/ sp <= x -> user_byte s2 dir x = user_byte s1 dir x).
  { intros x Hx1 Hx2. rewrite (Hb x Hx1). destruct (Z.leb_spec (frame_sp sz argv) x), (Z.ltb_spec x (frame_sp sz argv + Z.of_nat (length us))); cbn [andb]; done || lia. }
  split; [split|].
  - replace (concat _) with us; [apply (put_bytes s1); [lia|unfold KERNBASE, sz in *; lia|done]|].
    unfold us, exec_ustack. rewrite Hlen. do 4 f_equal. rewrite u32_small by (unfold sz in *; lia). do 2 f_equal. lia.
  - apply Forall2_same_length_lookup_2; [done|]. intros i p a Ep Ea. destruct (Forall2_lookup_lr _ _ _ _ _ _ (arg_ptrs_in argv sz) Ep Ea) as [Hp1 Hp2]. fold sp in Hp1.
    apply (user_bytes_kept s1); [lia|rewrite length_app; cbn [length]; unfold KERNBASE, sz in *; lia| |exact (Forall2_lookup_lr _ _ _ _ _ _ Hf Ep Ea)].
    rewrite length_app. cbn [length]. intros x Hx'. apply Hkept; unfold KERNBASE, sz in *; lia.
  - intros x Hx'. rewrite Hkept, Hx by (unfold KERNBASE; lia). done.
Qed.

(** The address spaces change places. *)
Lemma swap_spaces s F O A l : vm_user s (F ++ apages O) A l -> tab_ok (k_mem s) (a_tab O) -> as_ok O -> vm_user s (F ++ apages A) O l.
Proof using.
  intros Hu Ht Ho. split; [|done]. apply (vm_tab_frame _ (F ++ upages (a_ups O) ++ apages A)); [solve_Permutation|]. by apply source_tab.
Qed.

(** Apart from memory and the console, the process table and the CPU change. *)
Definition only_procs s s' : Prop := mem_cons (set_k_cpu (k_cpu s') (set_k_ptable (k_ptable s') s)) s'.
Lemma only_procs_mem s s1 s' : mem_cons s s1 -> only_procs s1 s' -> only_procs s s'.
Proof using.
  intros [E Hc] Hm. unfold only_procs. etransitivity; [|exact Hm]. split; [rewrite E; reflexivity|done].
Qed.

(** The process gets the new address space and the old one is freed. *)
Lemma exec_commit s (cur : nat) path entry sz sp F O A l :
  let q := k_ptable s !!! cur in
  let dir := t_dir (a_tab A) in
  vm_user s (F ++ apages O) A l -> tab_ok (k_mem s) (a_tab O) -> as_ok O ->
  (cur < length (k_ptable s))%nat -> p_pgdir q = t_dir (a_tab O) -> p_kstack q <> 0 ->
  exists s' l', (upd_proc cur (set_name (last_elem path path));;
      q ← get_proc cur;
      upd_proc cur (fun q => set_p_tf (set_tf_esp sp (set_tf_eip entry (p_tf q))) (set_p_sz sz (set_p_pgdir dir q)));;
      switchuvm cur;; freevm (p_pgdir q);; mret 0) s = Ok 0 s' /\
    vm_user s' F A l' /\ l' ≡ₚ apages O ++ l /\ keeps (F ++ apages A) s s' /\
    k_ptable s' = alter (execed path entry dir sz sp) cur (k_ptable s) /\ cpu_cr3 (k_cpu s') = V2P dir /\ only_procs s s'.
Proof using.
  intros q dir Hu Ht Ho Hc Hd Hk. pose proof (swap_spaces _ _ _ _ _ Hu Ht Ho) as HO.
  assert (Hdir : dir <> 0) by (apply page_ok_nz, (vt_page_in _ _ _ _ _ (vu_tab _ _ _ _ Hu)); set_solver).
  set (s1 := set_k_ptable (alter (set_name (last_elem path path)) cur (k_ptable s)) s). rewrite (bind_ok _ _ s tt s1) by done.
  rewrite (bind_ok _ _ s1 (k_ptable s1 !!! cur) s1) by done. assert (E1 : p_pgdir (k_ptable s1 !!! cur) = t_dir (a_tab O)) by (cbn; rewrite alter_total_eq by done; done).
  rewrite E1. set (s2 := set_k_ptable (alter (execed path entry dir sz sp) cur (k_ptable s)) s).
  rewrite (bind_ok _ _ s1 tt s2) by (unfold upd_proc, modify; cbn; by rewrite list_alter_alter_eq).
  assert (E2 : p_kstack (k_ptable s2 !!! cur) = p_kstack q /\ p_pgdir (k_ptable s2 !!! cur) = dir) by (cbn; rewrite alter_total_eq by done; done). destruct E2 as [E2 E3].
  assert (Es : exists c, switchuvm cur s2 = Ok tt (set_k_cpu c s2) /\ cpu_cr3 c = V2P dir).
  { unfold switchuvm. rewrite (bind_ok _ _ s2 (k_ptable s2 !!! cur) s2) by done. rewrite E2, E3, !(proj2 (Z.eqb_neq _ _)) by done. eexists. split; reflexivity. }
  destruct Es as (c & Es & Ec). rewrite (bind_ok _ _ _ _ _ Es). set (s3 := set_k_cpu c s2).
  destruct (freevm_spec s3 (F ++ apages A) O l) as (s' & l' & E & Hf & Hp & Hkeep & Hm); [by apply (vm_user_same s)|]. rewrite (bind_ok _ _ _ _ _ E).
  exists s', l'. pose proof Hm as [Hm' _]. split_and!; [done| |done|done|by rewrite Hm'|by rewrite Hm'|unfold only_procs; replace (set_k_cpu _ _) with s3; [done|]; by rewrite Hm'].
  destruct Hu as [[B1 B2 B3 B4] B5]. split; [|done].
  assert (Hperm : ((F ++ upages (a_ups A)) ++ tpages (a_tab A) ++ l') ≡ₚ (((F ++ apages O) ++ upages (a_ups A)) ++ tpages (a_tab A) ++ l)) by (rewrite Hp; solve_Permutation).
  split; [done| |by rewrite Hperm|by rewrite Hperm]. by apply (source_kept s3 s' F).
Qed.

(** What an exec that fails at this point leaves behind. *)
Record exec_failed s F O A l s' : Prop := {
  xf_free : exists l', freelist s' l' /\ l' ≡ₚ apages A ++ l;
  xf_keeps : keeps (F ++ apages O) s s';
  xf_same : mem_cons s s'
}.

Lemma exec_bad_fails K s F O A l s1 A1 l1 :
  ustep K (F ++ apages O) s A l s1 A1 l1 -> exists s', exec_bad (t_dir (a_tab A)) None s1 = Ok (-1) s' /\ exec_failed s F O A l s'.
Proof using.
  intros [B1 B2 B3 B4 B5 B6 B7]. destruct (exec_bad_frees _ _ _ _ B1) as (s' & l' & E & Hf & Hp & Hk & Hm). rewrite <- B4.
  exists s'. split; [done|]. split; [exists l'; split; [done|by rewrite Hp]| |by transitivity s1]. transitivity s1; [by eapply keeps_l|done].
Qed.

(** exec's last part gives the program its stack or leaves the old program
    alone.  With the program loaded it returns -1, for want of address space, of
    memory or of room for the arguments, and then the new address space is back
    on the free list, the old one and the process unchanged; or it returns 0, and
    the process has the new address space, of which the image is unchanged, the
    page above it inaccessible, and the stack that of a call of main with the
    arguments; the old address space is back on the free list.  Or an argument
    that is longer than the image makes it follow a null pointer. *)
Lemma exec_stack_runs `{!LinkedAt} s cur path argv elf F O A l sz :
  let base := PGROUNDUP sz in
  let top := base + 2 * PGSIZE in
  let dir := t_dir (a_tab A) in
  loaded s cur F O A l sz -> Forall (fun a => Z.of_nat (length a) < KERNBASE) argv ->
  (exec_stack cur path argv elf dir sz s = Fault "uva2ka: null pte" /\ too_long (base + PGSIZE) argv) \/
  exists r s', exec_stack cur path argv elf dir sz s = Ok r s' /\
    (r = -1 /\ exec_failed s F O A l s' /\ (KERNBASE <= top \/ Z.of_nat (length l) <= 1027 \/ ~ args_fit top argv) \/
     r = 0 /\ args_fit top argv /\ exists A' l',
       vm_user s' F A' l' /\ t_dir (a_tab A') = dir /\ (apages A' ++ l') ≡ₚ (apages A ++ apages O ++ l) /\ keeps F s s' /\
       (forall k, UPN <= k -> t_map (a_tab A') k = t_map (a_tab A) k) /\
       k_ptable s' = alter (execed path (elf_entry elf) dir top (frame_sp top argv)) cur (k_ptable s) /\
       cpu_cr3 (k_cpu s') = V2P dir /\
       (forall va, 0 <= va < base -> user_byte s' dir va = user_byte s dir va) /\
       accessible A' (base / PGSIZE) = false /\
       main_frame s' dir (frame_sp top argv) (arg_ptrs top argv) argv /\ only_procs s s').
Proof using.
  intros base top dir L Hall. destruct (ld_sz _ _ _ _ _ _ _ L) as [Hz1 Hz2]. pose proof (ld_vm _ _ _ _ _ _ _ L) as Hu. unfold KERNBASE in Hz2.
  set (n := (sz + 4095) / 4096). assert (Hn : 0 <= n <= 524289) by (unfold n; zlia).
  assert (Eb : base = 4096 * n) by (unfold base; rewrite PGROUNDUP_div by lia; fold n; lia). assert (Et : top = 4096 * (n + 2)) by (unfold top, PGSIZE; lia).
  unfold exec_stack. fold base. change (base + 2 * PGSIZE) with top. rewrite (u32_small top) by lia. clearbody top base. subst top base.
  destruct (Z.le_gt_cases KERNBASE (4096 * (n + 2))) as [Hbig|Hsmall].
  { unfold allocuvm. rewrite (proj2 (Z.leb_le _ _) Hbig), (bind_ok _ _ s 0 s) by done. cbn [Z.eqb].
    destruct (exec_bad_fails [] s F O A l s A l (ustep_refl _ _ _ _ _ Hu)) as (s' & E & R). right. exists (-1), s'. split; [exact E|left]. tauto. }
  destruct (stack_pages s cur F O A l sz L Hsmall) as (r & s1 & E1 & D). fold n dir in E1, D. rewrite (bind_ok _ _ _ _ _ E1).
  destruct D as [(-> & Hle & A1 & l1 & Hs1)|(-> & s2 & A2 & l2 & E2 & Hs2 & Hst & Hsame)].
  { destruct (exec_bad_fails _ s F O A l s1 A1 l1 Hs1) as (s' & E & R). right. exists (-1), s'. split; [exact E|left]. tauto. }
  rewrite (proj2 (Z.eqb_neq (4096 * (n + 2)) 0)) by lia. replace (u32 (4096 * (n + 2) - 2 * PGSIZE)) with (4096 * n) by (unfold PGSIZE; rewrite u32_small; lia).
  rewrite (bind_ok _ _ _ _ _ E2). pose proof (us_dir _ _ _ _ _ _ _ _ Hs2) as Ed. fold dir in Ed.
  assert (Hkh : kernel_half A2) by (intros k Hk; rewrite (us_kern _ _ _ _ _ _ _ _ Hs2) by done; by apply L).
  pose (rest := fun sp' : Z => upd_proc cur (set_name (last_elem path path));; q ← get_proc cur;
        upd_proc cur (fun q => set_p_tf (set_tf_esp sp' (set_tf_eip (elf_entry elf) (p_tf q))) (set_p_sz (4096 * (n + 2)) (set_p_pgdir dir q)));;
        switchuvm cur;; freevm (p_pgdir q);; mret 0).
  destruct (exec_push s2 (F ++ apages O) A2 l2 n argv (us_user _ _ _ _ _ _ _ _ Hs2) Hkh Hst Hall) as [[Hl Hf]|(s3 & Hs3 & Hp & Hfr)].
  { left. split; [rewrite Ed in Hf; exact (Hf (exec_bad dir None) rest)|by replace (4096 * n + PGSIZE) with (4096 * (n + 1)) by (unfold PGSIZE; lia)]. }
  rewrite Ed in Hp, Hfr. right. specialize (Hp (exec_bad dir None) rest). run_as Hp.
  assert (Hs3' : ustep [] (F ++ apages O) s A l s3 A2 l2).
  { pose proof (out_step_keeps _ _ _ _ _ Hs3) as Hk3. destruct Hs2 as [B1 B2 B3 B4 B5 B6 B7], Hs3 as [C1 C2 C3]. split; try done.
    - rewrite app_nil_r. transitivity s2; [by eapply keeps_l|done].
    - transitivity s2; [done|]. rewrite C2. by split. }
  destruct (decide (args_fit (4096 * (n + 2)) argv)) as [Hfit|Hfit].
  2:{ destruct (exec_bad_fails _ s F O A l s3 A2 l2 Hs3') as (s' & E & R). exists (-1), s'. split; [exact E|left]. tauto. }
  destruct (Hfr Hfit) as [Hmf Hlow]. pose proof (us_keeps _ _ _ _ _ _ _ _ Hs3') as Hk3. rewrite app_nil_r in Hk3.
  assert (Ept : k_ptable s3 = k_ptable s) by (by rewrite (proj1 (us_mem _ _ _ _ _ _ _ _ Hs3'))). rewrite <- Ept. destruct L as [_ L2 L3 L4 L5 L6 _ _ _ _]. rewrite <- Ept in L4, L5, L6.
  destruct (exec_commit s3 cur path (elf_entry elf) (4096 * (n + 2)) (frame_sp (4096 * (n + 2)) argv) F O A2 l2) as (s' & l' & E & R1 & R2 & R3 & R4 & R5 & R6);
    [apply Hs3'|by apply (source_kept s _ F)|done..|]. rewrite Ed in E, R4, R5.
  assert (Hsee : forall va, 0 <= va < KERNBASE -> user_byte s' dir va = user_byte s3 dir va).
  { intros va Hva. rewrite <- Ed. apply (space_kept s3 (F ++ apages O) A2 l2 s' F l'); [apply Hs3'|done| |done]. apply (keeps_sub _ (F ++ apages A2)); [set_solver|done]. }
  exists 0, s'. split; [exact E|right]. split_and!; [done|done|]. exists A2, l'. split_and!; [done|done| | |apply Hs3'|done|done| | | |by apply (only_procs_mem s s3); [apply Hs3'|]].
  - transitivity (apages O ++ (apages A2 ++ l2)); [rewrite R2; solve_Permutation|]. rewrite (us_pages _ _ _ _ _ _ _ _ Hs3'). solve_Permutation.
  - transitivity s3; [by eapply keeps_l|by eapply keeps_l].
  - intros va Hva. rewrite Hsee, Hlow by (unfold KERNBASE in *; lia).
    apply (user_byte_kept s _ A l s2 _ A2 l2 va (upages (a_ups A)) Hu (us_user _ _ _ _ _ _ _ _ Hs2) Ed); [unfold KERNBASE in *; lia|apply Hsame; zlia|eapply keeps_r, Hs2|apply upage_in].
  - replace (4096 * n / PGSIZE) with n by (unfold PGSIZE; zlia). apply (sa_guard _ _ Hst).
  - apply (main_frame_kept s3); [|lia|done|done]. destruct Hfit as [_ Hfit]. unfold PGSIZE in Hfit. lia.
Qed.
End exec.

(** ** The file system around exec *)

(** Memory can change under the inode cache. *)
Lemma fs_in_mem H tree ic0 L lk s s' : mem_cons s s' -> fs_in H tree ic0 L lk s -> fs_in H tree ic0 L lk s'.
Proof.
  intros Hm [A1 A2 A3 A4 A5 A6 A7 A8]. pose proof (txn_mem _ _ _ Hm A1) as T. destruct Hm as [E _]. rewrite E in T |- *. split; try done.
  - intros inum ty C Ht. destruct (A3 inum ty C Ht) as [N1 N2 N3 N4 N5 N6 N7]. split; try done. destruct N4 as [D1 D2 D3 D4 D5 D6]. split; try done.
    apply (file_ok_mono (data_block s (i_inum (core inum (di_at s inum))))); [|done]. intros a []. by split.
  - intros i Hi. destruct (A5 i Hi) as [B1 B2 B3 B4 B5]. by split.
Qed.

(** The log may count its operations. *)
Definition same_log (l l' : logstate) : Prop :=
  l_dev l' = l_dev l /\ l_start l' = l_start l /\ l_size l' = l_size l /\ lh_n l' = lh_n l /\ lh_block l' = lh_block l.
Lemma fs_in_log tree ic0 L lk s l' : same_log (k_log s) l' -> fs_in [] tree ic0 L lk s -> fs_in [] tree ic0 L lk (set_k_log l' s).
Proof.
  intros (E1 & E2 & E3 & E4 & E5) [A1 A2 A3 A4 A5 A6 A7 A8]. destruct A1 as [T1 T2 T3 T4 T5 T6].
  assert (Hh : forall n, home_ok (k_log s) n -> home_ok l' n) by (intros n [Hn1 Hn2]; split; [done|]; by rewrite E2, E3). split; try done.
  - apply txn_intro; [by apply bio_inv_set_log|by apply (log_inv_same s)|cbn; by rewrite E3|done].
  - intros inum ty C Ht. destruct (A3 inum ty C Ht) as [N1 N2 N3 N4 N5 N6 N7]. split; try done. destruct N4 as [D1 D2 D3 D4 D5 D6]. split; try done; [|by apply Hh].
    apply (file_ok_mono (data_block s (i_inum (core inum (di_at s inum))))); [|done]. intros a []. split; try done. by apply Hh.
  - intros i Hi. destruct (A5 i Hi) as [B1 B2 B3 B4 B5]. by split.
Qed.

(** No block is logged and [n] operations are going on. *)
Definition idle (n : Z) (s : kernel) : Prop := l_committing (k_log s) = false /\ l_outstanding (k_log s) = n /\ lh_n (k_log s) = 0.

Lemma begin_idle tree ic0 L lk s : fs_in [] tree ic0 L lk s -> idle 0 s ->
  exists l', begin_op s = Ok tt (set_k_log l' s) /\ fs_in [] tree ic0 L lk (set_k_log l' s) /\ idle 1 (set_k_log l' s).
Proof.
  intros A (I1 & I2 & I3). exists (set_l_outstanding 1 (k_log s)). split_and!; [|by apply fs_in_log|by split_and!].
  unfold begin_op. rewrite (bind_ok _ _ s (k_log s) s) by done. rewrite I1, I2, I3. done.
Qed.
Lemma end_idle tree ic0 L lk s : fs_in [] tree ic0 L lk s -> idle 1 s ->
  exists s', end_op s = Ok tt s' /\ fs_in [] tree ic0 L lk s' /\ idle 0 s' /\ fs_part s s'.
Proof.
  intros A (I1 & I2 & I3). set (s1 := set_k_log (set_l_outstanding 0 (k_log s)) s).
  assert (A1 : fs_in [] tree ic0 L lk s1) by (by apply fs_in_log). exists (set_k_ptable (wakeup1_proc ChLog <$> k_ptable s1) s1).
  split_and!; [|by apply fs_in_wake|by split_and!|apply fs_part_intro; [by destruct s|apply woken_wakeup1]].
  unfold end_op. rewrite (bind_ok _ _ s tt s1) by (unfold upd_log, modify; by rewrite I2). rewrite (bind_ok _ _ s1 (k_log s1) s1) by done. cbn [s1 k_log set_k_log set_l_outstanding l_committing l_outstanding]. rewrite I1.
  rewrite (bind_ok _ _ s1 tt s1) by done. cbn [Z.eqb]. set (s2 := set_k_log (set_l_committing true (k_log s1)) s1). rewrite (bind_ok _ _ s1 tt s2) by done.
  rewrite (bind_ok _ _ s2 tt s2). 2:{ unfold commit. rewrite (bind_ok _ _ s2 (k_log s2) s2) by done. cbn. by rewrite I3. }
  assert (El : set_l_committing false (k_log s2) = k_log s1) by (cbn; destruct (k_log s); cbn in *; by rewrite I1).
  rewrite (bind_ok _ _ s2 tt s1); [done|]. unfold upd_log, modify. by rewrite El.
Qed.

(** Between operations; and in one, with the inode that exec reads from locked. *)
Definition outside (tree : Z -> option (Z * list Z)) (ic0 : list inode) (s : kernel) : Prop := fs_in [] tree ic0 [] None s /\ idle 0 s.
Record reading (tree : Z -> option (Z * list Z)) (ic0 : list inode) (ip : nat) (d : Z) (s : kernel) : Prop := {
  rg_fs : fs_in [] tree ic0 [ip] (Some ip) s;
  rg_slot : (ip < NINODE)%nat;
  rg_idle : idle 1 s;
  rg_inum : i_inum (inode_at s ip) = d;
  rg_copy : dinode_of (inode_at s ip) = di_at s d
}.
Lemma reading_reads tree ic0 ip d ty C : tree d = Some (ty, C) -> ty <> T_DEV -> Reads (reading tree ic0 ip d) ip C.
Proof.
  intros Ht Hty. split.
  - intros s [A1 Hip A0 A2 A3]. destruct (fa_held _ _ _ _ _ _ A1 ip Hip) as [Hr _]. rewrite held_by_cons, decide_True in Hr by done. pose proof (fa_refs _ _ _ _ _ _ A1 ip Hip). change (held_by [] ip) with 0 in Hr.
    exists (inode_at s ip). apply (node_is_file s ip d ty C); try done; [apply A1|by apply A1|]. apply (sl_dev _ _ _ (fa_slot _ _ _ _ _ _ A1 ip Hip)). lia.
  - intros s s' [A1 Hip A0 A2 A3] Hm. pose proof (fs_in_mem _ _ _ _ _ _ _ Hm A1) as A1'. destruct Hm as [E _]. rewrite E in A1' |- *. by split.
  - intros s s' [A1 Hip A0 A2 A3] S T. assert (X : inode_at s' ip = inode_at s ip) by (by apply (fs_icache S)). split; [by eapply fs_in_step|done|unfold idle in *; by rewrite (fs_log S)|by rewrite X|].
    rewrite X, A3. unfold di_at. by rewrite (tf_sb (fs_frame S)), (fs_view S).
Qed.

(** The file is closed and the operation ends. *)
Lemma close_file tree ic0 s ip d : reading tree ic0 ip d s -> is_Some (tree d) ->
  exists s1 s', iunlockput ip s = Ok tt s1 /\ end_op s1 = Ok tt s' /\ outside tree ic0 s' /\ fs_part s s'.
Proof.
  intros [A Hip Hi E _] [[ty C] Ht]. rewrite <- E in Ht. destruct (iunlockput_slot tree ic0 [] s ip ty C A Hip Ht) as (s1 & E1 & A1 & [P1 L1] & _).
  destruct (end_idle tree ic0 [] None s1 A1) as (s2 & E2 & A2 & I2 & P2); [unfold idle in *; by rewrite L1|].
  exists s1, s2. split_and!; [done|done|done|by transitivity s1].
Qed.

(** The path is looked up and the inode locked. *)
Lemma exec_opens tree ic0 s path inum :
  closed tree -> two_free ic0 -> outside tree ic0 s -> starts s path inum -> is_Some (tree inum) -> Forall (fun c => c <> 0) path -> bytes path -> cons_ok (k_cons s) ->
  let code (good : nat -> kM Z) :=
    begin_op;;
    r ← namei path;
    match r with None => end_op;; cprintf (str "exec: fail" ++ [10]) [];; mret (-1) | Some ip => ilock ip;; good ip end in
  exists s1 s', fs_part s s1 /\ mem_cons s1 s' /\ k_mem s' = k_mem s /\ k_kmem s' = k_kmem s /\
    match resolve tree inum (elements path) with
    | None => (forall good, code good s = Ok (-1) s') /\ outside tree ic0 s'
    | Some d => exists ip, (forall good, code good s = good ip s') /\
        reading tree ic0 ip d s' /\ is_Some (tree d)
    end.
Proof.
  intros Hcl H2 [A Hi] Hst Hin Hnz Hb Hc code. destruct (begin_idle tree ic0 [] None s A Hi) as (lg & E1 & A1 & I1). set (s1 := set_k_log lg s) in *.
  assert (P1 : fs_part s s1) by (by apply fs_part_intro; destruct s).
  destruct (namex_spec tree ic0 Hcl H2 false s1 path (replicate DIRSIZ 0) inum A1 Hst Hin Hnz Hb) as (r & s2 & E2 & [P2 L2] & Hf & _); [by apply Forall_replicate|apply length_replicate|].
  cbn [meaning] in Hf. assert (E2' : namei path s1 = Ok r.1 s2) by (unfold namei; by rewrite (bind_ok _ _ _ _ _ E2)). assert (I2 : idle 1 s2) by (unfold idle in *; by rewrite L2).
  assert (P12 : fs_part s s2) by (by transitivity s1).
  destruct (resolve tree inum (elements path)) as [d|] eqn:Er; cbn [found] in Hf.
  - destruct Hf as (i & Ei & Hlt & Hd & [[ty C] Ht] & A2).
    destruct (ilock_node tree ic0 [i] s2 i d ty C A2 Hlt) as (s3 & E3 & A3 & [P3 L3] & R1 & R2 & _); [|done|done|].
    { destruct (fa_held _ _ _ _ _ _ A2 i Hlt) as [-> _]. rewrite held_by_cons, decide_True by done. pose proof (fa_refs _ _ _ _ _ _ A2 i Hlt). change (held_by [] i) with 0. lia. }
    assert (P : fs_part s s3) by (by transitivity s2). exists s3, s3. split_and!; [done|done|by destruct P as (? & ? & ? & ? & ? & -> & _)..|].
    exists i. split_and!; [|split; try done; unfold idle in *; by rewrite L3|by rewrite Ht].
    intros good. unfold code. by rewrite (bind_ok _ _ _ _ _ E1), (bind_ok _ _ _ _ _ E2'), Ei, (bind_ok _ _ _ _ _ E3).
  - destruct Hf as [Ei A2]. destruct (end_idle tree ic0 [] None s2 A2 I2) as (s3 & E3 & A3 & I3 & P3). assert (P : fs_part s s3) by (by transitivity s2).
    assert (Hc3 : cons_ok (k_cons s3)) by (by destruct P as (? & ? & ? & ? & ? & -> & _)).
    destruct (cprintf_ok (str "exec: fail" ++ [10]) [] _ s3 eq_refl Hc3) as (k' & E4 & Hk').
    assert (M : mem_cons s3 (set_k_cons k' s3)) by (split; [reflexivity|intros _; apply Hk']).
    exists s3, (set_k_cons k' s3). split_and!; [done|done|by destruct P as (? & ? & ? & ? & ? & -> & _)..| |].
    + intros good. unfold code. by rewrite (bind_ok _ _ _ _ _ E1), (bind_ok _ _ _ _ _ E2'), Ei, (bind_ok _ _ _ _ _ E3), (bind_ok _ _ _ _ _ E4).
    + split; [by apply (fs_in_mem _ _ _ _ _ s3)|done].
Qed.

(** ** The process around exec *)

(** Nothing of the pages [K] changes, and of the processes only whether they sleep. *)
Record aside K s s' : Prop := mkAside {
  ad_procs : woken (k_ptable s) (k_ptable s');
  ad_cpu : k_cpu s' = k_cpu s;
  ad_cur : k_cur s' = k_cur s;
  ad_cons : cons_ok (k_cons s) -> cons_ok (k_cons s');
  ad_keeps : keeps K s s'
}.
#[export] Instance aside_preorder K : PreOrder (aside K).
Proof. split; [by split|]. intros s1 s2 s3 [A1 A2 A3 A4 A5] [B1 B2 B3 B4 B5]. split; [by etransitivity|congruence|congruence|auto|by transitivity s2]. Qed.
Lemma aside_mem K s s' : mem_cons s s' -> keeps K s s' -> aside K s s'.
Proof. intros [E Hc] Hk. split; [by rewrite E..|done|done]. Qed.
Lemma aside_fs K s s' : fs_part s s' -> aside K s s'.
Proof. intros (bc & ide & pt & lg & ic & -> & Hw). by split. Qed.
Lemma aside_exec K s s' : exec_part s s' -> keeps K s s' -> aside K s s'.
Proof. intros (H1 & H2 & H3 & _ & H4)%exec_part_parts Hk. by split. Qed.

Section exec_runs.
Context `{Linker}.

(** The process [cur] runs in the address space [O]. *)
Record running (cur : nat) F O l s : Prop := mkRunning {
  rn_vm : vm_user s F O l;
  rn_cur : k_cur s = Some cur;
  rn_len : (cur < length (k_ptable s))%nat;
  rn_dir : p_pgdir (k_ptable s !!! cur) = t_dir (a_tab O);
  rn_kstack : p_kstack (k_ptable s !!! cur) <> 0;
  rn_cons : cons_ok (k_cons s)
}.
Lemma running_perm F O l l' : l' ≡ₚ l -> ((F ++ upages (a_ups O)) ++ tpages (a_tab O) ++ l') ≡ₚ ((F ++ apages O) ++ l).
Proof using. intros ->. unfold apages. solve_Permutation. Qed.
Lemma running_aside cur F O l s s' l' : running cur F O l s -> aside (F ++ apages O) s s' -> freelist s' l' -> l' ≡ₚ l -> running cur F O l' s'.
Proof using.
  intros [[[B1 B2 B3 B4] Ho] R2 R3 R4 R5 R6] [A1 A2 A3 A4 A5] Hf Hl. pose proof (woken_lookup _ _ cur A1) as Hw. pose proof (running_perm F O _ _ Hl) as Hp. pose proof (running_perm F O l l (reflexivity l)) as Hq.
  split; [|by rewrite A3|by rewrite <- (Forall2_length _ _ _ A1)|by destruct Hw as [->|[_ ->]]|by destruct Hw as [->|[_ ->]]|auto].
  split; [|done]. split; [done|by apply (source_kept s _ F)|by rewrite Hp, <- Hq|by rewrite Hp, <- Hq].
Qed.
Lemma freelist_fs s s' l : fs_part s s' -> freelist s l -> freelist s' l.
Proof using. intros (bc & ide & pt & lg & ic & -> & _). by apply freelist_ext. Qed.
Lemma running_fs cur F O l s s' : running cur F O l s -> fs_part s s' -> running cur F O l s'.
Proof using.
  intros R P. apply (running_aside _ _ _ l s); [done|by apply aside_fs| |done]. apply (freelist_fs s); [done|]. apply R.
Qed.

(** ** What goes wrong before the stack *)

Lemma exec_bad_closes tree ic0 s ip d : reading tree ic0 ip d s -> is_Some (tree d) ->
  exists s', exec_bad 0 (Some ip) s = Ok (-1) s' /\ outside tree ic0 s' /\ fs_part s s'.
Proof using.
  intros R Hd. destruct (close_file tree ic0 s ip d R Hd) as (s1 & s' & E1 & E2 & Ho & P). exists s'. split_and!; [|done|done].
  unfold exec_bad. cbn [Z.eqb negb]. rewrite (bind_ok _ _ s tt s) by done. by rewrite (bind_ok _ _ s tt s') by (by rewrite (bind_ok _ _ _ _ _ E1)).
Qed.
Lemma exec_bad_unloads tree ic0 s ip d ty C K A l : tree d = Some (ty, C) -> ty <> T_DEV -> reading tree ic0 ip d s -> vm_user s K A l ->
  exists s' l', exec_bad (t_dir (a_tab A)) (Some ip) s = Ok (-1) s' /\ outside tree ic0 s' /\ aside K s s' /\ freelist s' l' /\ l' ≡ₚ apages A ++ l.
Proof using.
  intros Ht Hty R Hu. destruct (freevm_spec s K A l Hu) as (s1 & l' & E1 & Hf & Hp & Hk & Hm). pose proof (reading_reads tree ic0 ip d ty C Ht Hty) as HR.
  destruct (exec_bad_closes tree ic0 s1 ip d (rd_mem _ _ R Hm) ltac:(by rewrite Ht)) as (s' & E2 & Ho & P). exists s', l'.
  assert (Hdir : t_dir (a_tab A) <> 0) by (apply page_ok_nz, (vt_page_in _ _ _ _ _ (vu_tab _ _ _ _ Hu)); set_solver).
  split_and!; [|done|transitivity s1; [by apply aside_mem|by apply aside_fs]|by apply (freelist_fs s1)|done].
  unfold exec_bad in *. rewrite (proj2 (Z.eqb_neq _ _) Hdir). cbn [negb]. by rewrite (bind_ok _ _ s tt s1) by (by rewrite E1).
Qed.

(** ** What a program is *)

Definition header_ok (C : list Z) : bool := (ELFHDR_SIZE <=? Z.of_nat (length C)) && (elf_magic (dec_elfhdr (slice C 0 52)) =? ELF_MAGIC).

(** The header, the size and the image of the program in a file. *)
Definition program (C : list Z) : option (elfhdr * Z * (Z -> Z)) :=
  let elf := dec_elfhdr (slice C 0 52) in
  if header_ok C then p ← load_prog C (elf_phoff elf) 0 (fun _ => 0) (Z.to_nat (elf_phnum elf)); Some (elf, p.1, p.2) else None.
Definition program_at (tree : Z -> option (Z * list Z)) (inum : Z) (path : list Z) : option (elfhdr * Z * (Z -> Z)) :=
  d ← resolve tree inum (elements path); x ← tree d; program x.2.

Lemma exec_header tree ic0 s ip d ty C : tree d = Some (ty, C) -> ty <> T_DEV -> reading tree ic0 ip d s ->
  exists s', fs_read s s' /\ reading tree ic0 ip d s' /\ bytes C /\ forall bad good,
    (h ← readi ip 0 ELFHDR_SIZE;
     let elf := dec_elfhdr h.2 in
     if negb (h.1 =? ELFHDR_SIZE) then bad else if negb (elf_magic elf =? ELF_MAGIC) then bad else good elf) s =
    ((if header_ok C then good (dec_elfhdr (slice C 0 52)) else bad) s' : outcome kernel Z).
Proof using.
  intros Ht Hty R. pose proof (reading_reads tree ic0 ip d ty C Ht Hty) as HR. pose proof (reads_size _ ip C s R) as Hmax. pose proof (reads_bytes _ ip C s R) as Hby.
  destruct (reads_read _ ip C s 0 ELFHDR_SIZE R) as (s' & E & R' & P); [lia|unfold ELFHDR_SIZE; lia|]. exists s'. split_and!; [done..|]. intros bad good.
  rewrite (bind_ok _ _ _ _ _ E). unfold ELFHDR_SIZE, header_ok, ELFHDR_SIZE in *. rewrite (proj2 (Z.ltb_ge _ 0)) by lia. change (4294967296 <=? 0 + 52) with false. cbn [orb fst snd].
  change (Z.to_nat 0) with 0%nat. destruct (Z.leb_spec 52 (Z.of_nat (length C))).
  - rewrite Z.min_l by lia. change (Z.to_nat 52) with 52%nat. cbn [Z.eqb Pos.eqb negb andb]. by destruct (_ =? ELF_MAGIC).
  - rewrite (proj2 (Z.eqb_neq _ 52)) by lia. done.
Qed.

(** ** Loading *)

(** The file has been loaded and closed. *)
Record built tree ic0 cur F O l (sz : Z) (img : Z -> Z) s s' A l' : Prop := {
  bt_outside : outside tree ic0 s';
  bt_loaded : loaded s' cur F O A l' sz;
  bt_image : image_at s' (F ++ apages O) A l' sz img;
  bt_aside : aside (F ++ apages O) s s';
  bt_pages : (apages A ++ l') ≡ₚ l
}.
(** Nothing has happened to the process. *)
Record unchanged tree ic0 cur F O l s s' : Prop := {
  un_outside : outside tree ic0 s';
  un_running : exists l', running cur F O l' s' /\ l' ≡ₚ l;
  un_aside : aside (F ++ apages O) s s'
}.
Lemma unchanged_intro tree ic0 cur F O l s s' l' : running cur F O l s -> outside tree ic0 s' -> aside (F ++ apages O) s s' -> freelist s' l' -> l' ≡ₚ l -> unchanged tree ic0 cur F O l s s'.
Proof using. intros R Ho Ha Hf Hl. split; [done| |done]. exists l'. split; [|done]. by eapply running_aside. Qed.

Lemma unchanged_from tree ic0 cur F O l s s1 s' : aside (F ++ apages O) s s1 -> unchanged tree ic0 cur F O l s1 s' -> unchanged tree ic0 cur F O l s s'.
Proof using. intros Ha [U1 U2 U3]. split; [done|done|by transitivity s1]. Qed.
Lemma built_from tree ic0 cur F O l sz img s s1 s' A l' : aside (F ++ apages O) s s1 -> built tree ic0 cur F O l sz img s1 s' A l' -> built tree ic0 cur F O l sz img s s' A l'.
Proof using. intros Ha [U1 U2 U3 U4 U5]. split; try done. by transitivity s1. Qed.

Lemma image_fs s s' F A l sz img : fs_part s s' -> image_at s F A l sz img -> image_at s' F A l sz img.
Proof using.
  intros (bc & ide & pt & lg & ic & -> & _) [J1 J2 J3 J4 J5 J6]. split; try done. by apply (vm_user_same s).
Qed.
Lemma image_empty s F T l : vm_user s F (mkAspace T ∅) l -> image_at s F (mkAspace T ∅) l 0 (fun _ => 0).
Proof using.
  intros Hu. split; try done; cbn [a_ups]; change ((0 + 4095) / 4096) with 0.
  - intros k Hk. rewrite lookup_empty. split; [by intros []|lia].
  - intros va Hva. lia.
Qed.

(** From setupkvm to the end of the file system operation. *)
Lemma exec_space `{!LinkedAt} tree ic0 s ip d ty C cur F O l elf (n : nat) :
  let prog := load_prog C (elf_phoff elf) 0 (fun _ => 0) n in
  let code (go : Z -> Z -> kM Z) :=
    pgdir ← setupkvm;
    if pgdir =? 0 then exec_bad 0 (Some ip)
    else
      r ← exec_load ip pgdir (i32 (elf_phoff elf)) 0 n;
      match r with None => exec_bad pgdir (Some ip) | Some sz => iunlockput ip;; end_op;; go pgdir sz end in
  tree d = Some (ty, C) -> ty <> T_DEV -> reading tree ic0 ip d s -> running cur F O l s -> 0 <= elf_phoff elf < 4294967296 ->
  exists s',
    (exists sz img A l', prog = Some (sz, img) /\ built tree ic0 cur F O l sz img s s' A l' /\ forall go, code go s = go (t_dir (a_tab A)) sz s') \/
    (forall sz img, prog = Some (sz, img) -> Z.of_nat (length l) <= 1026 + (sz + 4095) / 4096) /\ unchanged tree ic0 cur F O l s s' /\ forall go, code go s = Ok (-1) s'.
Proof using.
  intros prog code Ht Hty R Rn Ho. pose proof (reading_reads tree ic0 ip d ty C Ht Hty) as HR. assert (Hd : is_Some (tree d)) by (by rewrite Ht).
  pose proof (rn_vm _ _ _ _ _ Rn) as [[B1 B2 B3 B4] Hok]. pose proof (running_perm F O l l (reflexivity l)) as Hq.
  destruct (setupkvm_spec s (F ++ apages O) l B1) as (r & s1 & E1 & D); [by rewrite <- Hq|by rewrite <- Hq|].
  destruct D as [(-> & (l1 & Hf1 & Hp1 & Hk1 & Hm1) & Hle)|(T & l1 & -> & Hu1 & Hp1 & Hk1 & Hm1 & _ & HT & HTm)].
  { destruct (exec_bad_closes tree ic0 s1 ip d (rd_mem _ _ R Hm1) Hd) as (s' & E2 & Ho2 & P2). exists s'. right. split_and!.
    - intros sz img E%load_prog_grows. zlia.
    - apply (unchanged_intro _ _ _ _ _ _ _ _ l1); [done|done|transitivity s1; [by apply aside_mem|by apply aside_fs]|by apply (freelist_fs s1)|done].
    - intros go. unfold code. by rewrite (bind_ok _ _ _ _ _ E1). }
  assert (Hdir : t_dir T <> 0) by (apply page_ok_nz, (vt_page_in _ _ _ _ _ (vu_tab _ _ _ _ Hu1)); cbn; set_solver).
  pose proof (image_empty _ _ _ _ Hu1) as I1. assert (Hc1 : cons_ok (k_cons s1)) by (apply Hm1, Rn).
  destruct (exec_load_spec _ ip C (F ++ apages O) n s1 _ l1 (elf_phoff elf) 0 _ I1 (rd_mem _ _ R Hm1) Hc1 Ho) as (r & s2 & A & l2 & E2 & Bd & R2 & D). cbn [a_tab] in E2. fold prog in D.
  assert (Ha2 : aside (F ++ apages O) s s2) by (transitivity s1; [by apply aside_mem|apply aside_exec; apply Bd]).
  assert (Hp2 : (apages A ++ l2) ≡ₚ l) by (by rewrite (bd_pages _ _ _ _ _ _ _ Bd)).
  assert (Hr : r = None /\ (forall sz img, prog = Some (sz, img) -> Z.of_nat (length l) <= 1026 + (sz + 4095) / 4096) \/ exists sz img, prog = Some (sz, img) /\ r = Some sz /\ image_at s2 (F ++ apages O) A l2 sz img).
  { apply Permutation_length in Hp1. rewrite length_app in Hp1. destruct prog as [[sz img]|]; [|by left]. destruct D as [[-> I]|[-> Hle]]; [right; eauto|left]. split; [done|].
    intros ? ? [= -> ->]. unfold apages in Hle. cbn [a_tab a_ups] in Hle. change (upages ∅) with (@nil Z) in Hle. rewrite length_app in Hle. cbn [length] in Hle. lia. }
  destruct Hr as [[-> Hle]|(sz & img & Epr & -> & I2)].
  - destruct (exec_bad_unloads tree ic0 s2 ip d ty C _ A l2 Ht Hty R2 (bd_vm _ _ _ _ _ _ _ Bd)) as (s' & l' & E3 & Ho3 & Ha3 & Hf3 & Hp3). rewrite (bd_dir _ _ _ _ _ _ _ Bd) in E3. cbn [a_tab] in E3.
    exists s'. right. split_and!; [done|apply (unchanged_intro _ _ _ _ _ _ _ _ l'); [done|done|by transitivity s2|done|by rewrite Hp3]|].
    intros go. unfold code. rewrite (bind_ok _ _ _ _ _ E1), (proj2 (Z.eqb_neq _ _) Hdir). by rewrite (bind_ok _ _ _ _ _ E2).
  - destruct (close_file tree ic0 s2 ip d R2 Hd) as (s3 & s' & E3 & E4 & Ho4 & P). exists s'. left. exists sz, img, A, l2. pose proof (image_fs _ _ _ _ _ _ _ P I2) as I4.
    assert (Ha4 : aside (F ++ apages O) s s') by (transitivity s2; [done|by apply aside_fs]). split_and!; [done| |].
    2:{ intros go. unfold code. rewrite (bind_ok _ _ _ _ _ E1), (proj2 (Z.eqb_neq _ _) Hdir). rewrite (bind_ok _ _ _ _ _ E2), (bind_ok _ _ _ _ _ E3), (bind_ok _ _ _ _ _ E4). by rewrite (bd_dir _ _ _ _ _ _ _ Bd). }
    split; [done| |done|done|done].
    destruct Rn as [_ N2 N3 N4 N5 N6], Ha4 as [A1 A2 A3 A4 A5]. pose proof (woken_lookup _ _ cur A1) as Hw. pose proof I4 as [J1 J2 J3 _ _ _].
    split; [done|by apply (source_kept s _ F)|done|by rewrite <- (Forall2_length _ _ _ A1)|by destruct Hw as [->|[_ ->]]|by destruct Hw as [->|[_ ->]]|auto|unfold KERNBASE in *; lia|done|].
    intros k Hk. rewrite (bd_kern _ _ _ _ _ _ _ Bd) by done. apply HTm.
Qed.

(** ** exec *)

(** The process [cur] runs the program: its image, and above it a guard page and
    the stack of a call of main. *)
Record runs tree ic0 (cur : nat) F O l path argv (elf : elfhdr) (sz : Z) (img : Z -> Z) s s' A' l' : Prop := {
  rs_outside : outside tree ic0 s';
  rs_running : running cur F A' l' s';
  rs_pages : (apages A' ++ l') ≡ₚ (apages O ++ l);
  rs_keeps : keeps F s s';
  rs_proc : exists pt, woken (k_ptable s) pt /\
    k_ptable s' = alter (execed path (elf_entry elf) (t_dir (a_tab A')) (PGROUNDUP sz + 2 * PGSIZE) (frame_sp (PGROUNDUP sz + 2 * PGSIZE) argv)) cur pt;
  rs_cr3 : cpu_cr3 (k_cpu s') = V2P (t_dir (a_tab A'));
  rs_kern : kernel_half A';
  rs_image : forall va, 0 <= va < PGROUNDUP sz -> user_byte s' (t_dir (a_tab A')) va = Some (img va);
  rs_guard : accessible A' (PGROUNDUP sz / PGSIZE) = false;
  rs_frame : main_frame s' (t_dir (a_tab A')) (frame_sp (PGROUNDUP sz + 2 * PGSIZE) argv) (arg_ptrs (PGROUNDUP sz + 2 * PGSIZE) argv) argv
}.

(** exec_stack after the file has been loaded. *)
Lemma exec_finish `{!LinkedAt} tree ic0 cur F O l sz img s0 s A l0 path argv elf :
  let top := PGROUNDUP sz + 2 * PGSIZE in
  running cur F O l s0 -> built tree ic0 cur F O l sz img s0 s A l0 -> Forall (fun a => Z.of_nat (length a) < KERNBASE) argv ->
  (exec_stack cur path argv elf (t_dir (a_tab A)) sz s = Fault "uva2ka: null pte" /\ too_long (PGROUNDUP sz + PGSIZE) argv) \/
  exists r s', exec_stack cur path argv elf (t_dir (a_tab A)) sz s = Ok r s' /\
    (r = -1 /\ unchanged tree ic0 cur F O l s0 s' /\ (KERNBASE <= top \/ Z.of_nat (length l) <= 2052 + (sz + 4095) / 4096 \/ ~ args_fit top argv) \/
     r = 0 /\ args_fit top argv /\ exists A' l', runs tree ic0 cur F O l path argv elf sz img s0 s' A' l').
Proof using.
  intros top Rn [T1 T2 T3 T4 T5] Hall. destruct (exec_stack_runs s cur path argv elf F O A l0 sz T2 Hall) as [Hf|(r & s' & E & D)]; [by left|right]. exists r, s'. split; [done|].
  pose proof (ia_sz _ _ _ _ _ _ T3) as Hsz. unfold KERNBASE in Hsz. assert (Eb : PGROUNDUP sz = 4096 * ((sz + 4095) / 4096)) by (rewrite PGROUNDUP_div by lia; lia).
  destruct T1 as [Hin Hid]. destruct D as [(-> & [(l' & Hf & Hp) Hk Hm] & Hwhy)|(-> & Hfit & A' & l' & V & Ed & Hp & Hk & Hkern & Hpt & Hcr & Himg & Hg & Hfr & Ho)]; [left|right].
  - split_and!; [done| |].
    + apply (unchanged_intro _ _ _ _ _ _ _ _ l'); [done| |transitivity s; [done|by apply aside_mem]|done|by rewrite Hp].
      split; [by apply (fs_in_mem _ _ _ _ _ s)|]. destruct Hm as [Em _]. by rewrite Em.
    + destruct Hwhy as [?|[Hle|?]]; [by left|right; left|by right; right]. pose proof (image_pages _ _ _ _ _ _ T3) as Hi. pose proof (tables_pages _ _ (vt_tab _ _ _ _ (vu_tab _ _ _ _ (ia_vm _ _ _ _ _ _ T3)))) as Ht.
      apply Permutation_length in T5. unfold apages in T5. rewrite !length_app in T5. lia.
  - split_and!; [done|done|]. destruct Rn as [_ N2 N3 N4 N5 N6], T4 as [A1 A2 A3 A4 A5], T2 as [_ _ _ L4 L5 L6 L7 _ _ T6]. exists A', l'.
    assert (Ep : k_ptable s' !!! cur = execed path (elf_entry elf) (t_dir (a_tab A)) top (frame_sp top argv) (k_ptable s !!! cur)) by (rewrite Hpt; by apply alter_total_eq).
    split; rewrite ?Ed; try done.
    + assert (Hin' : fs_in [] tree ic0 [] None (set_k_cpu (k_cpu s') (set_k_ptable (k_ptable s') s))).
      { apply fs_in_procs; [done|]. unfold cpid. cbn. rewrite A3, N2, Ep. done. }
      split; [by apply (fs_in_mem _ _ _ _ _ _ _ Ho)|]. destruct Ho as [Em _]. by rewrite Em.
    + split; [done| |by rewrite Hpt, length_alter|by rewrite Ep, Ed|by rewrite Ep|by apply Ho]. destruct Ho as [Em _]. rewrite Em. cbn. congruence.
    + rewrite Hp. rewrite app_assoc, (Permutation_app_comm (apages A)), <- app_assoc, T5. done.
    + transitivity s; [by eapply keeps_l|done].
    + by exists (k_ptable s).
    + intros k Hk'. by rewrite Hkern, T6.
    + intros va Hva. rewrite Himg by done. apply (ia_bytes _ _ _ _ _ _ T3). lia.
Qed.

(** C12. exec runs the program that the path names, or leaves the process alone.
    The file system is between operations, two slots of the inode cache are free,
    the path does not name a device (exec would read from it), and the arguments
    are strings of a user program, shorter than KERNBASE.  Then exec returns 0 or
    -1 and leaves the file system between operations, unless some argument is
    longer than the image of the program and the page above it: for such an
    argument the stack pointer wraps around, and exec may also follow the null
    pointer that uva2ka does not test.
    0 means that the path resolves to a file with a program, and
    that the process has a new address space with the image of the program as its
    headers describe it, zeroes elsewhere, an inaccessible page above it, and the
    stack of a call of main with the arguments; that the old address space is back
    on the free list; and that nothing else has changed but sleeping processes that
    woke up.  And -1 means that the path names no program, or one that does not fit
    the address space, or arguments that do not fit the stack, or that memory was
    short; the process, its memory and the free pages are then as before. *)
Theorem exec_runs `{!LinkedAt} tree ic0 s cur F O l path argv inum :
  closed tree -> two_free ic0 -> outside tree ic0 s -> running cur F O l s ->
  starts s path inum -> is_Some (tree inum) -> Forall (fun c => c <> 0) path -> bytes path ->
  (forall d, resolve tree inum (elements path) = Some d -> fst <$> tree d <> Some T_DEV) ->
  Forall (fun a => Z.of_nat (length a) < KERNBASE) argv ->
  (exec path argv s = Fault "uva2ka: null pte" /\
     exists elf sz img, program_at tree inum path = Some (elf, sz, img) /\ too_long (PGROUNDUP sz + PGSIZE) argv) \/
  exists r s', exec path argv s = Ok r s' /\
    (r = -1 /\ unchanged tree ic0 cur F O l s s' /\
       (forall elf sz img, program_at tree inum path = Some (elf, sz, img) -> let top := PGROUNDUP sz + 2 * PGSIZE in
          KERNBASE <= top \/ Z.of_nat (length l) <= 2052 + (sz + 4095) / 4096 \/ ~ args_fit top argv) \/
     r = 0 /\ exists elf sz img, program_at tree inum path = Some (elf, sz, img) /\ args_fit (PGROUNDUP sz + 2 * PGSIZE) argv /\
       exists A' l', runs tree ic0 cur F O l path argv elf sz img s s' A' l').
Proof using.
  intros Hcl H2 Hout Rn Hst Hin Hnz Hb Hdev Hargs. unfold exec. rewrite (bind_ok _ _ s cur s) by (unfold myproc; by rewrite (rn_cur _ _ _ _ _ Rn)).
  destruct (exec_opens tree ic0 s path inum Hcl H2 Hout Hst Hin Hnz Hb (rn_cons _ _ _ _ _ Rn)) as (s0 & s1 & P & M & Em & Ek & D).
  assert (Ha : aside (F ++ apages O) s s1) by (transitivity s0; [by apply aside_fs|apply aside_mem; [done|]]; intros a x _ _; rewrite Em; by destruct P as (? & ? & ? & ? & ? & -> & _)).
  assert (Hf : freelist s1 l) by (apply (freelist_ext s); [intros; by rewrite Em|done|apply Rn]). unfold program_at in *.
  destruct (resolve tree inum (elements path)) as [d|] eqn:Er; cbn [mbind option_bind] in *.
  2:{ right. destruct D as [E Ho]. exists (-1), s1. split; [apply E|left]. split_and!; [done|by apply (unchanged_intro _ _ _ _ _ _ _ _ l)|done]. }
  destruct D as (ip & E & R & [[ty C] Ht]). specialize (Hdev d eq_refl). rewrite Ht in Hdev |- *. cbn [fmap option_fmap option_map fst snd mbind option_bind] in *. assert (Hty : ty <> T_DEV) by congruence.
  assert (Rn1 : running cur F O l s1) by (by eapply running_aside). rewrite E. clear E.
  destruct (exec_header tree ic0 s1 ip d ty C Ht Hty R) as (s2 & [P2 L2] & R2 & HbC & E2).
  specialize (E2 (exec_bad 0 (Some ip)) (fun elf => pgdir ← setupkvm; if pgdir =? 0 then exec_bad 0 (Some ip) else r ← exec_load ip pgdir (i32 (elf_phoff elf)) 0 (Z.to_nat (elf_phnum elf));
    match r with None => exec_bad pgdir (Some ip) | Some sz => iunlockput ip;; end_op;; exec_stack cur path argv elf pgdir sz end)). run_fork E2.
  assert (Ha2 : aside (F ++ apages O) s s2) by (transitivity s1; [done|by apply aside_fs]). pose proof (running_fs _ _ _ _ _ _ Rn1 P2) as Rn2.
  unfold program in *. destruct (header_ok C).
  2:{ destruct (exec_bad_closes tree ic0 s2 ip d R2 ltac:(by rewrite Ht)) as (s' & E & Ho & P'). right. exists (-1), s'. split; [done|left].
      split_and!; [done| |done]. apply (unchanged_intro _ _ _ _ _ _ _ _ l); [done|done|transitivity s2; [done|by apply aside_fs]|by apply (freelist_fs s1); [transitivity s2|]|done]. }
  set (elf := dec_elfhdr (slice C 0 52)) in *.
  destruct (exec_space tree ic0 s2 ip d ty C cur F O l elf (Z.to_nat (elf_phnum elf)) Ht Hty R2 Rn2) as (s' & D); [by apply word_range, Forall_take, Forall_drop|].
  destruct D as [(sz & img & A & l' & Epr & B & E)|(Hle & U & E)]; run_fork (E (exec_stack cur path argv elf)).
  - rewrite Epr in *. cbn [mbind option_bind fst snd] in *.
    destruct (exec_finish tree ic0 cur F O l sz img s s' A l' path argv elf Rn (built_from _ _ _ _ _ _ _ _ _ _ _ _ _ Ha2 B) Hargs) as [[E3 Hl]|(r & s3 & E3 & D)].
    { left. split; [exact E3|]. by exists elf, sz, img. }
    right. exists r, s3. split; [done|].
    destruct D as [(-> & U & Hwhy)|(-> & Hfit & A' & l3 & Hr)]; [left|right; split; [done|]; exists elf, sz, img; eauto]. split_and!; [done|done|]. intros ? ? ? [= <- <- <-]. done.
  - right. exists (-1), s'. split; [done|left]. split_and!; [done|by apply (unchanged_from _ _ _ _ _ _ _ s2)|]. destruct (load_prog _ _ _ _ _) as [[sz img]|]; [|done]. intros ? ? ? [= <- <- <-]. right. left. specialize (Hle _ _ eq_refl). lia.
Qed.
End exec_runs.
