(* ===== verification/Sysfile.v ===== *)
(** * sysfile.c: the file system calls

    The result of each call is the int that goes to the user's %eax. *)

From S2P Require Import Prelude State CString Sleep Ide Bio Log Kalloc Console Vm Fs FsFile File Proc Syscall Exec.
Open Scope Z_scope.

Section sysfile.
Context `{Linker}.

(** The descriptor and the open file, or [None] for -1. *)
Definition argfd (n : Z) : kM (option (Z * nat)) :=
  r ← argint n;
  match r with
  | None => mret None
  | Some fd =>
    if (fd <? 0) || (Z.of_nat NOFILE <=? fd) then mret None
    else
      q ← curproc;
      match p_ofile q !!! Z.to_nat fd with
      | Some f => mret (Some (fd, f))
      | None => mret None
      end
  end.

(** The first free descriptor, or -1. *)
Definition fdalloc (f : nat) : kM Z :=
  p ← myproc;
  q ← get_proc p;
  match find (fun fd => bool_decide (p_ofile q !!! fd = None)) (seq 0 NOFILE) with
  | Some fd =>
    upd_proc p (fun q => set_p_ofile (<[fd := Some f]> (p_ofile q)) q);;
    mret (Z.of_nat fd)
  | None => mret (-1)
  end.

Definition clear_fd (fd : nat) : kM unit :=
  p ← myproc;
  upd_proc p (fun q => set_p_ofile (<[fd := None]> (p_ofile q)) q).

Definition sys_dup : kM Z :=
  r ← argfd 0;
  match r with
  | None => mret (-1)
  | Some (_, f) =>
    fd ← fdalloc f;
    if fd <? 0 then mret (-1)
    else filedup f;; mret fd
  end.

(** The arguments of read and write: the file, the address and the size. *)
Definition rw_args : kM (option (nat * Z * Z)) :=
  r ← argfd 0;
  match r with
  | None => mret None
  | Some (_, f) =>
    n ← argint 2;
    match n with
    | None => mret None
    | Some n =>
      p ← argptr 1 n;
      match p with None => mret None | Some p => mret (Some (f, p, n)) end
    end
  end.

Definition sys_read : kM Z :=
  a ← rw_args;
  match a with
  | None => mret (-1)
  | Some (f, p, n) =>
    r ← fileread f n;
    uwrite p r.2;;
    mret r.1
  end.

Definition sys_write : kM Z :=
  a ← rw_args;
  match a with
  | None => mret (-1)
  | Some (f, p, n) =>
    l ← uread p (Z.to_nat n);
    filewrite f l n
  end.

Definition sys_close : kM Z :=
  r ← argfd 0;
  match r with
  | None => mret (-1)
  | Some (fd, f) =>
    clear_fd (Z.to_nat fd);;
    fileclose f;;
    mret 0
  end.

(** struct stat as it is laid out: two bytes of padding after type and after
    nlink keep what was there. *)
Definition STAT_SIZE : Z := 20.
Definition put_stat (p : Z) (st : stat) : kM unit :=
  uwrite p (enc16 (st_type st));;
  uwrite (p + 4) (enc32 (st_dev st) ++ enc32 (st_ino st) ++ enc16 (st_nlink st));;
  uwrite (p + 16) (enc32 (st_size st)).

Definition sys_fstat : kM Z :=
  r ← argfd 0;
  match r with
  | None => mret (-1)
  | Some (_, f) =>
    p ← argptr 1 STAT_SIZE;
    match p with
    | None => mret (-1)
    | Some p =>
      st ← filestat f;
      match st with
      | None => mret (-1)
      | Some st => put_stat p st;; mret 0
      end
    end
  end.

(** The nlink field is a short. *)
Definition nlink_add (ip : nat) (d : Z) : kM unit :=
  upd_inode ip (fun x => set_i_nlink (i16 (i_nlink x + d)) x).

(** bad: of sys_link *)
Definition link_bad (ip : nat) : kM Z :=
  ilock ip;;
  nlink_add ip (-1);;
  iupdate ip;;
  iunlockput ip;;
  end_op;;
  mret (-1).

Definition sys_link : kM Z :=
  old ← argstr 0;
  match old with
  | None => mret (-1)
  | Some old =>
    new ← argstr 1;
    match new with
    | None => mret (-1)
    | Some new =>
      begin_op;;
      r ← namei old;
      match r with
      | None => end_op;; mret (-1)
      | Some ip =>
        ilock ip;;
        x ← get_inode ip;
        if i_type x =? T_DIR then iunlockput ip;; end_op;; mret (-1)
        else
          nlink_add ip 1;;
          iupdate ip;;
          iunlock ip;;
          r ← nameiparent new;
          match r with
          | (None, _) => link_bad ip
          | (Some dp, name) =>
            ilock dp;;
            d ← get_inode dp;
            x ← get_inode ip;
            l ← (if negb (i_dev d =? i_dev x) then mret (-1) else dirlink dp name (i_inum x));
            if l <? 0 then iunlockput dp;; link_bad ip
            else
              iunlockput dp;;
              iput ip;;
              end_op;;
              mret 0
          end
      end
    end
  end.

(** for(off=2*sizeof(de); off<dp->size; off+=sizeof(de)) *)
Fixpoint isdirempty_from (dp : nat) (off : Z) (fuel : nat) : kM bool :=
  x ← get_inode dp;
  if off <? i_size x then
    match fuel with
    | O => nofuel
    | S f =>
      r ← readi dp off DIRENT_SIZE;
      panic_if (negb (r.1 =? DIRENT_SIZE)) "isdirempty: readi";;
      if negb (de_inum r.2 =? 0) then mret false
      else isdirempty_from dp (off + DIRENT_SIZE) f
    end
  else mret true.
Definition isdirempty (dp : nat) : kM bool :=
  x ← get_inode dp;
  isdirempty_from dp (2 * DIRENT_SIZE) (Z.to_nat (i_size x / DIRENT_SIZE + 1)).

(** bad: of sys_unlink *)
Definition unlink_bad (dp : nat) : kM Z :=
  iunlockput dp;;
  end_op;;
  mret (-1).

Definition sys_unlink : kM Z :=
  path ← argstr 0;
  match path with
  | None => mret (-1)
  | Some path =>
    begin_op;;
    r ← nameiparent path;
    match r with
    | (None, _) => end_op;; mret (-1)
    | (Some dp, name) =>
      ilock dp;;
      if (namecmp name (str ".") =? 0) || (namecmp name (str "..") =? 0) then unlink_bad dp
      else
        r ← dirlookup dp name;
        match r with
        | None => unlink_bad dp
        | Some (ip, off) =>
          ilock ip;;
          x ← get_inode ip;
          panic_if (i_nlink x <? 1) "unlink: nlink < 1";;
          empty ← (if i_type x =? T_DIR then isdirempty ip else mret true);
          if negb empty then iunlockput ip;; unlink_bad dp
          else
            r ← writei dp (replicate 16 0) off DIRENT_SIZE;
            panic_if (negb (r =? DIRENT_SIZE)) "unlink: writei";;
            (when i_type x =? T_DIR do (nlink_add dp (-1);; iupdate dp));;
            iunlockput dp;;
            nlink_add ip (-1);;
            iupdate ip;;
            iunlockput ip;;
            end_op;;
            mret 0
        end
    end
  end.

(** The locked inode, or [None] for 0. *)
Definition create (path : list Z) (ty major minor : Z) : kM (option nat) :=
  r ← nameiparent path;
  match r with
  | (None, _) => mret None
  | (Some dp, name) =>
    ilock dp;;
    r ← dirlookup dp name;
    match r with
    | Some (ip, _) =>
      iunlockput dp;;
      ilock ip;;
      x ← get_inode ip;
      if (ty =? T_FILE) && (i_type x =? T_FILE) then mret (Some ip)
      else iunlockput ip;; mret None
    | None =>
      d ← get_inode dp;
      ip ← ialloc (i_dev d) ty;
      ilock ip;;
      upd_inode ip (fun x => set_i_nlink 1 (set_i_minor minor (set_i_major major x)));;
      iupdate ip;;
      x ← get_inode ip;
      (when ty =? T_DIR do
         (nlink_add dp 1;;
          iupdate dp;;
          r1 ← dirlink ip (str ".") (i_inum x);
          panic_if (r1 <? 0) "create dots";;
          d ← get_inode dp;
          r2 ← dirlink ip (str "..") (i_inum d);
          panic_if (r2 <? 0) "create dots"));;
      r ← dirlink dp name (i_inum x);
      panic_if (r <? 0) "create: dirlink";;
      iunlockput dp;;
      mret (Some ip)
    end
  end.

(** The second half of sys_open, with the inode locked. *)
Definition open_file (ip : nat) (omode : Z) : kM Z :=
  fa ← filealloc;
  match fa with
  | None => iunlockput ip;; end_op;; mret (-1)
  | Some f =>
    fd ← fdalloc f;
    if fd <? 0 then fileclose f;; iunlockput ip;; end_op;; mret (-1)
    else
      iunlock ip;;
      end_op;;
      upd_file f (fun x => set_f_writable (negb (Z.land omode O_WRONLY =? 0) || negb (Z.land omode O_RDWR =? 0))
        (set_f_readable (Z.land omode O_WRONLY =? 0)
        (set_f_off 0 (set_f_ip (Some ip) (set_f_type FD_INODE x)))));;
      mret fd
  end.

Definition sys_open : kM Z :=
  path ← argstr 0;
  match path with
  | None => mret (-1)
  | Some path =>
    omode ← argint 1;
    match omode with
    | None => mret (-1)
    | Some omode =>
      begin_op;;
      if negb (Z.land omode O_CREATE =? 0) then
        r ← create path T_FILE 0 0;
        match r with
        | None => end_op;; mret (-1)
        | Some ip => open_file ip omode
        end
      else
        r ← namei path;
        match r with
        | None => end_op;; mret (-1)
        | Some ip =>
          ilock ip;;
          x ← get_inode ip;
          if (i_type x =? T_DIR) && negb (omode =? O_RDONLY) then
            iunlockput ip;; end_op;; mret (-1)
          else open_file ip omode
        end
    end
  end.

Definition sys_mkdir : kM Z :=
  begin_op;;
  path ← argstr 0;
  r ← (match path with None => mret None | Some path => create path T_DIR 0 0 end);
  match r with
  | None => end_op;; mret (-1)
  | Some ip => iunlockput ip;; end_op;; mret 0
  end.

Definition sys_mknod : kM Z :=
  begin_op;;
  path ← argstr 0;
  r ← (match path with
       | None => mret None
       | Some path =>
         major ← argint 1;
         match major with
         | None => mret None
         | Some major =>
           minor ← argint 2;
           match minor with
           | None => mret None
           | Some minor => create path T_DEV (i16 major) (i16 minor)
           end
         end
       end);
  match r with
  | None => end_op;; mret (-1)
  | Some ip => iunlockput ip;; end_op;; mret 0
  end.

Definition sys_chdir : kM Z :=
  cur ← myproc;
  begin_op;;
  path ← argstr 0;
  r ← (match path with None => mret None | Some path => namei path end);
  match r with
  | None => end_op;; mret (-1)
  | Some ip =>
    ilock ip;;
    x ← get_inode ip;
    if negb (i_type x =? T_DIR) then iunlockput ip;; end_op;; mret (-1)
    else
      iunlock ip;;
      q ← get_proc cur;
      match p_cwd q with Some c => iput c | None => fault "chdir: no cwd" end;;
      end_op;;
      upd_proc cur (set_p_cwd (Some ip));;
      mret 0
  end.

(** for(i=0;; i++): the argument strings, or [None] for -1; argv has MAXARG
    elements. *)
Fixpoint exec_argv (uargv i : Z) (n : nat) : kM (option (list (list Z))) :=
  match n with
  | O => mret None
  | S n' =>
    uarg ← fetchint (u32 (uargv + 4 * i));
    match uarg with
    | None => mret None
    | Some uarg =>
      if uarg =? 0 then mret (Some [])
      else
        a ← fetchstr (u32 uarg);
        match a with
        | None => mret None
        | Some a => r ← exec_argv uargv (i + 1) n'; mret (cons a <$> r)
        end
    end
  end.
Definition sys_exec : kM Z :=
  path ← argstr 0;
  match path with
  | None => mret (-1)
  | Some path =>
    uargv ← argint 1;
    match uargv with
    | None => mret (-1)
    | Some uargv =>
      argv ← exec_argv (u32 uargv) 0 (Z.to_nat MAXARG);
      match argv with
      | None => mret (-1)
      | Some argv => exec path argv
      end
    end
  end.

Definition sys_pipe : kM Z :=
  fd ← argptr 0 8;
  match fd with
  | None => mret (-1)
  | Some fd =>
    r ← pipealloc;
    match r with
    | None => mret (-1)
    | Some (rf, wf) =>
      fd0 ← fdalloc rf;
      if fd0 <? 0 then fileclose rf;; fileclose wf;; mret (-1)
      else
        fd1 ← fdalloc wf;
        if fd1 <? 0 then
          clear_fd (Z.to_nat fd0);;
          fileclose rf;;
          fileclose wf;;
          mret (-1)
        else
          uwrite fd (enc32 fd0 ++ enc32 fd1);;
          mret 0
    end
  end.

Definition sys_swapread : kM Z :=
  ptr ← argptr 0 PGSIZE;
  match ptr with
  | None => mret (-1)
  | Some ptr =>
    blkno ← argint 1;
    match blkno with
    | None => mret (-1)
    | Some blkno => l ← swapread blkno; uwrite ptr l;; mret 0
    end
  end.
Definition sys_swapwrite : kM Z :=
  ptr ← argptr 0 PGSIZE;
  match ptr with
  | None => mret (-1)
  | Some ptr =>
    blkno ← argint 1;
    match blkno with
    | None => mret (-1)
    | Some blkno => l ← uread ptr (Z.to_nat PGSIZE); swapwrite l blkno;; mret 0
    end
  end.
End sysfile.
