(* ===== verification/Trap.v ===== *)
(** * sysproc.c, syscall.c and trap.c: system calls and interrupts *)

From S2P Require Import Prelude State CString Sleep Ide Bio Log Kalloc Console Kbd Vm Fs FsFile File Proc Syscall Exec Sysfile.
Open Scope Z_scope.

Section trap.
Context `{Linker}.

(** ** sysproc.c *)

Definition sys_fork : kM Z := fork.
Definition sys_exit : kM Z := exit.
Definition sys_wait : kM Z := wait.
Definition sys_kill : kM Z :=
  pid ← argint 0;
  match pid with None => mret (-1) | Some pid => kill pid end.
Definition sys_getpid : kM Z := q ← curproc; mret (p_pid q).
Definition sys_sbrk : kM Z :=
  n ← argint 0;
  match n with
  | None => mret (-1)
  | Some n =>
    q ← curproc;
    r ← growproc n;
    if r <? 0 then mret (-1) else mret (i32 (p_sz q))
  end.
(** The test of the loop of sys_sleep at time [ticks0]: the comparison is
    unsigned. *)
Definition sleep_test (ticks ticks0 n : Z) : bool := u32 (ticks - ticks0) <? u32 n.
Definition sys_sleep : kM Z :=
  n ← argint 0;
  match n with
  | None => mret (-1)
  | Some n =>
    ticks0 ← gets k_ticks;
    ticks ← gets k_ticks;
    if sleep_test ticks ticks0 n then
      q ← curproc;
      if p_killed q then mret (-1) else sleep ChTicks
    else mret 0
  end.
Definition sys_uptime : kM Z := t ← gets k_ticks; mret (i32 t).

(** ** syscall.c *)

(** The table of system calls. *)
Definition syscalls (num : Z) : option (kM Z) :=
  match num with
  | 1 => Some sys_fork | 2 => Some sys_exit | 3 => Some sys_wait | 4 => Some sys_pipe
  | 5 => Some sys_read | 6 => Some sys_kill | 7 => Some sys_exec | 8 => Some sys_fstat
  | 9 => Some sys_chdir | 10 => Some sys_dup | 11 => Some sys_getpid | 12 => Some sys_sbrk
  | 13 => Some sys_sleep | 14 => Some sys_uptime | 15 => Some sys_open | 16 => Some sys_write
  | 17 => Some sys_mknod | 18 => Some sys_unlink | 19 => Some sys_link | 20 => Some sys_mkdir
  | 21 => Some sys_close | 22 => Some sys_swapread | 23 => Some sys_swapwrite
  | _ => None
  end.

Definition set_eax (p : nat) (v : Z) : kM unit :=
  upd_proc p (fun q => set_p_tf (set_tf_eax (u32 v) (p_tf q)) q).

Definition syscall : kM unit :=
  p ← myproc;
  q ← get_proc p;
  let num := i32 (tf_eax (p_tf q)) in
  match syscalls num with
  | Some f => r ← f; set_eax p r
  | None =>
    cprintf (str "%d %s: unknown sys call %d" ++ [10])
      [ANum (p_pid q); AStr (cstr (ptr_list (p_name q)) 16); ANum num];;
    set_eax p (-1)
  end.

(** ** trap.c *)

Definition T_SYSCALL : Z := 64.
Definition T_IRQ0 : Z := 32.
Definition IRQ_TIMER : Z := 0.
Definition IRQ_KBD : Z := 1.
Definition IRQ_COM1 : Z := 4.
Definition IRQ_IDE : Z := 14.
Definition IRQ_SPURIOUS : Z := 31.

(** What the hardware says: the CPU, the faulting address, the bytes the
    keyboard or serial port gives, the driver's shift state. *)
Record hw := mkHw { hw_cpu : Z; hw_cr2 : Z; hw_ports : list (Z * Z); hw_shift : Z }.

Definition killed (s : kernel) : bool :=
  match k_cur s with Some p => p_killed (k_ptable s !!! p) | None => false end.

(** The switch on the trap number; the result is the keyboard's shift state. *)
Definition trap_switch (tf : trapframe) (h : hw) : kM Z :=
  let no := tf_trapno tf in
  if no =? T_IRQ0 + IRQ_TIMER then
    (when hw_cpu h =? 0 do
       (modify (fun s => set_k_ticks (u32 (k_ticks s + 1)) s);; wakeup ChTicks));;
    mret (hw_shift h)
  else if no =? T_IRQ0 + IRQ_IDE then ideintr;; mret (hw_shift h)
  else if no =? T_IRQ0 + IRQ_IDE + 1 then mret (hw_shift h)
  else if no =? T_IRQ0 + IRQ_KBD then kbdintr (hw_shift h) (hw_ports h)
  else if no =? T_IRQ0 + IRQ_COM1 then uartintr (hw_ports h);; mret (hw_shift h)
  else if (no =? T_IRQ0 + 7) || (no =? T_IRQ0 + IRQ_SPURIOUS) then
    cprintf (str "cpu%d: spurious interrupt at %x:%x" ++ [10])
      [ANum (hw_cpu h); ANum (tf_cs tf); ANum (tf_eip tf)];;
    mret (hw_shift h)
  else
    cur ← gets k_cur;
    match cur with
    | Some p =>
      if Z.land (tf_cs tf) 3 =? 0 then
        cprintf (str "unexpected trap %d from cpu %d eip %x (cr2=0x%x)" ++ [10])
          [ANum no; ANum (hw_cpu h); ANum (tf_eip tf); ANum (hw_cr2 h)];;
        panic "trap"
      else
        q ← get_proc p;
        cprintf (str "pid %d %s: trap %d err %d on cpu %d eip 0x%x addr 0x%x--kill proc" ++ [10])
          [ANum (p_pid q); AStr (cstr (ptr_list (p_name q)) 16); ANum no; ANum (tf_err tf);
           ANum (hw_cpu h); ANum (tf_eip tf); ANum (hw_cr2 h)];;
        upd_proc p (set_p_killed true);;
        mret (hw_shift h)
    | None =>
      cprintf (str "unexpected trap %d from cpu %d eip %x (cr2=0x%x)" ++ [10])
        [ANum no; ANum (hw_cpu h); ANum (tf_eip tf); ANum (hw_cr2 h)];;
      panic "trap"
    end.

(** if(myproc() && myproc()->killed && (tf->cs&3) == DPL_USER) exit(); *)
Definition exit_if_killed (tf : trapframe) : kM unit :=
  k ← gets killed;
  if k && (Z.land (tf_cs tf) 3 =? 3) then exit else mret tt.

(** trap up to the point where it yields the CPU or returns: whether it
    yielded, and the shift state.  A process that yielded goes on with
    [exit_if_killed] when it runs again. *)
Definition trap (tf : trapframe) (h : hw) : kM (bool * Z) :=
  if tf_trapno tf =? T_SYSCALL then
    p ← myproc;
    k ← gets killed;
    if k : bool then exit
    else
      upd_proc p (set_p_tf tf);;
      syscall;;
      k ← gets killed;
      if k : bool then exit else mret (false, hw_shift h)
  else
    sh ← trap_switch tf h;
    exit_if_killed tf;;
    cur ← gets k_cur;
    match cur with
    | Some p =>
      q ← get_proc p;
      if bool_decide (p_state q = RUNNING) && (tf_trapno tf =? T_IRQ0 + IRQ_TIMER)
      then yield;; mret (true, sh)
      else exit_if_killed tf;; mret (false, sh)
    | None => mret (false, sh)
    end.
End trap.
