(* ===== verification/Swap.v ===== *)
(** * The swap area

    swapwrite and swapread move a page between memory and eight blocks of disk 0,
    past the log. *)

From S2P Require Import Prelude State Sleep Ide Bio BioSpec Log LogSpec LogRun Kalloc Vm Fs FsFile File Syscall SyscallProps Sysfile LogCrash Boot KallocSpec VmSpec.
Open Scope Z_scope.

(** No buffer is in use, and the dirty ones are blocks [L] of the file system. *)
Record quiet (s : kernel) (L : list Z) : Prop := mkQuiet {
  qu_inv : bio_inv s;
  qu_held : only_held s [];
  qu_dirty : dirty_in s ROOTDEV L;
  qu_room : (length L < NBUF)%nat
}.

Lemma quiet_step s s' L ws : quiet s L -> logstep s s' ws -> quiet s' L.
Proof. intros [] Hl. split; [apply Hl|apply Hl|by eapply logstep_dirty_in|done]. Qed.

(** The page starts at block [blkno] of the area, all of it on the disk. *)
Definition swap_ok (blkno : Z) : Prop := 0 <= blkno <= FSSIZE - SWAPBASE - 8.
Definition swap_block (blkno : Z) (i : nat) : Z := blkno + SWAPBASE + Z.of_nat i.

Lemma swap_read s L blkno (i : nat) : quiet s L -> 0 <= blkno -> swap_block blkno i < FSSIZE ->
  wp (bread 0 (u32 (blkno + SWAPBASE + Z.of_nat i))) (fun b s' => took s s' 0 (swap_block blkno i) b) s.
Proof.
  intros [Hinv Hh Hd Hr] H0 Hlt. unfold swap_block, SWAPBASE, FSSIZE in *. rewrite u32_small by lia.
  apply bread_spec; [done|split; [by left|unfold FSSIZE; lia]|intros [=]; lia|by apply only_held_unref|].
  right. by apply (have_room s [] ROOTDEV L).
Qed.

Definition swap_writes (blkno : Z) (i : nat) (bs : list block) : list (Z * Z * block) :=
  imap (fun j d => ((0, swap_block blkno (i + j)), d)) bs.

Lemma swapwrite_loop_spec L blkno bs : forall s (i : nat), quiet s L -> 0 <= blkno ->
  Forall block_ok bs -> swap_block blkno (i + length bs) <= FSSIZE ->
  wp (swapwrite_loop (concat bs) blkno (Z.of_nat i) (length bs)) (fun _ s' => logstep s s' (swap_writes blkno i bs)) s.
Proof.
  induction bs as [|d bs IH]; intros s i Hq H0 Hok Hlt; cbn [length swapwrite_loop concat].
  { apply wp_ret. apply logstep_refl; apply Hq. }
  apply Forall_cons in Hok as [Hd Hok]. pose proof (proj1 Hd) as Hlen. cbn [length] in Hlt.
  rewrite take_app_length' by done. rewrite drop_app_length' by done. wp_step.
  eapply wp_mono; [apply (swap_read s L); [done|done|unfold swap_block in *; lia]|]. cbn beta. intros b s1 T.
  assert (Hne : (0, swap_block blkno i) <> (0, 0)) by (intros [=]; unfold swap_block, SWAPBASE in *; lia).
  pose proof (update_tail s s1 0 (swap_block blkno i) b d T Hne Hd (qu_held _ _ Hq)) as Hu.
  assert (Hk : forall (k : kM unit) Q, wp (set_bdata b d;; bwrite b;; brelse b) (fun _ s' => wp k Q s') s1 -> wp (set_bdata b d;; bwrite b;; brelse b;; k) Q s1).
  { intros k Q. unfold wp, mbind, M_bind. destruct (set_bdata b d s1) as [? u| | | | |]; try done. destruct (bwrite b u) as [? v| | | | |]; try done. by destruct (brelse b v). }
  apply Hk. eapply wp_mono; [exact Hu|]. cbn beta. intros _ s2 L2.
  replace (Z.of_nat i + 1) with (Z.of_nat (S i)) by lia.
  eapply wp_mono; [apply (IH s2 (S i)); [by eapply quiet_step|done|done|]|].
  - by replace (S i + length bs)%nat with (i + S (length bs))%nat by lia.
  - cbn beta. intros _ s3 L3. unfold swap_writes. cbn [imap]. rewrite Nat.add_0_r.
    replace (imap _ bs) with (swap_writes blkno (S i) bs); [exact (logstep_trans _ _ _ _ _ L2 L3)|].
    apply imap_ext. intros j x _. cbn. by replace (i + S j)%nat with (S (i + j)) by lia.
Qed.

Lemma swapread_loop_spec L blkno n : forall s (i : nat), quiet s L -> 0 <= blkno -> swap_block blkno (i + n) <= FSSIZE ->
  wp (swapread_loop blkno (Z.of_nat i) n)
    (fun r s' => r = concat ((fun j => view s 0 (swap_block blkno j)) <$> seq i n) /\ logstep s s' []) s.
Proof.
  induction n as [|n IH]; intros s i Hq H0 Hlt; cbn [swapread_loop seq fmap list_fmap concat].
  { apply wp_ret. split; [done|]. apply logstep_refl; apply Hq. }
  wp_step. eapply wp_mono; [apply (swap_read s L); [done|done|unfold swap_block in *; lia]|]. cbn beta. intros b s1 T.
  unfold bdata, get_buf. wp_step. wp_step. apply wp_gets. apply wp_ret. wp_step.
  eapply wp_mono; [apply (read_tail _ _ _ _ _ T), Hq|]. cbn beta. intros _ s2 L2.
  replace (Z.of_nat i + 1) with (Z.of_nat (S i)) by lia. wp_step.
  eapply wp_mono; [apply (IH s2 (S i)); [by eapply quiet_step|done|by replace (S i + n)%nat with (i + S n)%nat by lia]|].
  cbn beta. intros r s3 [-> L3]. apply wp_ret. split; [|exact (logstep_trans _ _ _ _ _ L2 L3)].
  rewrite (tk_data T). do 2 f_equal. apply list_fmap_ext. intros j k Hk. apply lookup_seq in Hk as [-> _].
  rewrite (ls_view L2), written_nil; [done|]. intros [=]. unfold swap_block, SWAPBASE in *. lia.
Qed.

(** ** Blocks past the end of the disk *)

(** Such a block is never cached, and the driver rejects the request for it. *)
Lemma bread_past_end s L n : quiet s L -> FSSIZE <= n -> bread 0 n s = Panic "incorrect blockno".
Proof.
  intros [Hinv Hh Hd Hr] Hn. assert (Hlen : length (k_bcache s) = S NBUF) by (by destruct (bi_lru Hinv) as (l & ? & _)).
  destruct (bget_miss s 0 n Hinv) as (b & Hb & _ & E); [|by apply (have_room s [] ROOTDEV L)|].
  { intros (i & Hi & Hk). destruct (bo_key (bi_bufs Hinv i Hi)) as [_ Hk']. unfold bkey in Hk. injection Hk as _ Hk. lia. }
  unfold bread. rewrite (bind_ok _ _ _ _ _ E). clear E. set (s1 := set_k_bcache _ s).
  assert (Ex : k_bcache s1 !!! b = bheld (cpid s) (set_b_flags 0 (set_b_blockno n (set_b_dev 0 (k_bcache s !!! b)))))
    by (unfold s1; ksimpl; by rewrite alter_total_eq by lia).
  assert (Eh : holdingsleep (buf_lock b) s1 = Ok true s1).
  { destruct (proj1 (wp_ok (holdingsleep (buf_lock b)) (fun r s' => r = true /\ s' = s1) s1)) as (? & ? & -> & -> & ->); [|done].
    apply holding_ok; [apply (bi_cur Hinv)| |done]. cbn [lk_get buf_lock]. by rewrite Ex. }
  rewrite (bind_ok _ _ s1 (k_bcache s1 !!! b) s1) by done. rewrite Ex.
  assert (Ei : iderw b s1 = Panic "incorrect blockno"); [|replace (Z.land _ B_VALID =? 0) with true by done; unfold mbind, M_bind; by rewrite Ei].
  assert (Es : iderw_submit b s1 = Panic "incorrect blockno"); [|unfold iderw, mbind, M_bind; by rewrite Es].
  unfold iderw_submit. rewrite (bind_ok _ _ _ _ _ Eh). rewrite (bind_ok _ _ s1 tt s1), (bind_ok _ _ s1 (k_bcache s1 !!! b) s1) by done. rewrite Ex.
  rewrite (bind_ok _ _ s1 tt s1), (bind_ok _ _ s1 (k_ide s1) s1), (bind_ok _ _ s1 tt s1) by done.
  change (k_ide s1) with (k_ide s). rewrite (id_queue (bi_ide Hinv)). cbn [app head]. rewrite bool_decide_eq_true_2 by done.
  rewrite (bind_ok _ _ s1 tt (set_k_ide (set_ide_queue [b] (k_ide s)) s1)).
  2:{ unfold upd_ide, modify. change (k_ide s1) with (k_ide s). by rewrite (id_queue (bi_ide Hinv)). }
  unfold idestart. set (s2 := set_k_ide _ s1). rewrite (bind_ok _ _ s2 (k_bcache s1 !!! b) s2) by done. rewrite Ex. cbn [bheld set_b_lock set_b_refcnt set_b_flags set_b_blockno b_blockno].
  rewrite (proj2 (Z.leb_le FSSIZE n)) by done. done.
Qed.

Lemma bind_panic {S A B} (m : M S A) (f : A -> M S B) s msg : m s = Panic msg -> (m ≫= f) s = Panic msg.
Proof. unfold mbind, M_bind. by intros ->. Qed.

(** The step for one block: read it or panic. *)
Lemma swap_step s L blkno (i : nat) : quiet s L -> 0 <= blkno < SWAPMAX -> (i < 8)%nat ->
  (swap_block blkno i < FSSIZE /\ exists b s', bread 0 (u32 (blkno + SWAPBASE + Z.of_nat i)) s = Ok b s' /\ took s s' 0 (swap_block blkno i) b) \/
  (FSSIZE <= swap_block blkno i /\ bread 0 (u32 (blkno + SWAPBASE + Z.of_nat i)) s = Panic "incorrect blockno").
Proof.
  intros Hq H0 Hi. destruct (Z.lt_ge_cases (swap_block blkno i) FSSIZE) as [Hlt|Hge]; [left|right]; (split; [done|]).
  - destruct (proj1 (wp_ok _ _ _) (swap_read s L blkno i Hq ltac:(lia) Hlt)) as (b & s' & E & T). by exists b, s'.
  - apply (bread_past_end _ L); [done|]. unfold swap_block, SWAPMAX, SWAPBASE in *. rewrite u32_small by lia. lia.
Qed.

Lemma swapread_loop_panics L blkno n : forall s (i : nat), quiet s L -> 0 <= blkno < SWAPMAX -> (i + n < 8)%nat ->
  FSSIZE <= swap_block blkno (i + n) -> swapread_loop blkno (Z.of_nat i) (S n) s = Panic "incorrect blockno".
Proof.
  induction n as [|n IH]; intros s i Hq H0 Hi Hge; cbn [swapread_loop];
    (destruct (swap_step s L blkno i Hq H0 ltac:(lia)) as [(Hlt & b & s1 & E & T)|[_ E]]; [|by apply bind_panic]).
  { rewrite Nat.add_0_r in Hge. lia. }
  rewrite (bind_ok _ _ _ _ _ E), (bind_ok _ _ s1 (b_data (k_bcache s1 !!! b)) s1) by done.
  destruct (proj1 (wp_ok _ _ _) (read_tail _ _ _ _ _ T (qu_held _ _ Hq))) as ([] & s2 & E2 & L2). rewrite (bind_ok _ _ _ _ _ E2).
  apply bind_panic. replace (Z.of_nat i + 1) with (Z.of_nat (S i)) by lia.
  apply IH; [by eapply quiet_step|done|lia|by replace (S i + n)%nat with (i + S n)%nat by lia].
Qed.

Lemma swapwrite_loop_panics L blkno bs : forall s (i : nat) d, quiet s L -> 0 <= blkno < SWAPMAX -> (i + length bs < 8)%nat ->
  Forall block_ok (d :: bs) -> FSSIZE <= swap_block blkno (i + length bs) ->
  swapwrite_loop (concat (d :: bs)) blkno (Z.of_nat i) (S (length bs)) s = Panic "incorrect blockno".
Proof.
  induction bs as [|d' bs IH]; intros s i d Hq H0 Hi Hok Hge; cbn [swapwrite_loop length] in *;
    (destruct (swap_step s L blkno i Hq H0 ltac:(lia)) as [(Hlt & b & s1 & E & T)|[_ E]]; [|by apply bind_panic]).
  { rewrite Nat.add_0_r in Hge. lia. }
  apply Forall_cons in Hok as [Hd Hok]. change (concat (d :: d' :: bs)) with (d ++ concat (d' :: bs)). rewrite take_app_length', drop_app_length' by (symmetry; apply Hd).
  rewrite (bind_ok _ _ _ _ _ E). assert (Hne : (0, swap_block blkno i) <> (0, 0)) by (intros [=]; unfold swap_block, SWAPBASE in *; lia).
  destruct (proj1 (wp_ok _ _ _) (update_tail s s1 0 (swap_block blkno i) b d T Hne Hd (qu_held _ _ Hq))) as ([] & s2 & E2 & L2).
  apply bind_inv in E2 as ([] & s3 & E3 & E2). apply bind_inv in E2 as ([] & s4 & E4 & E2).
  rewrite (bind_ok _ _ _ _ _ E3), (bind_ok _ _ _ _ _ E4), (bind_ok _ _ _ _ _ E2). replace (Z.of_nat i + 1) with (Z.of_nat (S i)) by lia.
  apply IH; [by eapply quiet_step|done|lia|done|by replace (S i + length bs)%nat with (i + S (length bs))%nat by lia].
Qed.

(** ** The calls *)

(** The bytes of a page as [n] blocks. *)
Fixpoint blocks_of (n : nat) (src : list Z) : list block :=
  match n with
  | O => []
  | S n' => take 512 src :: blocks_of n' (drop 512 src)
  end.

Lemma blocks_of_spec n : forall src, bytes src -> length src = (512 * n)%nat ->
  length (blocks_of n src) = n /\ Forall block_ok (blocks_of n src) /\ concat (blocks_of n src) = src.
Proof.
  induction n as [|n IH]; intros src Hb Hl; cbn [blocks_of concat length].
  { split_and!; [done|constructor|]. by rewrite (nil_length_inv src) by lia. }
  destruct (IH (drop 512 src)) as (E1 & E2 & E3); [by apply Forall_drop|rewrite length_drop; lia|].
  split_and!; [by rewrite E1|constructor; [|done]|by rewrite E3, take_drop].
  split; [rewrite length_take; lia|by apply Forall_take].
Qed.

Lemma swap_writes_keys blkno i bs d n : (d, n) ∈ (swap_writes blkno i bs).*1 -> d = 0 /\ exists j, (j < length bs)%nat /\ n = swap_block blkno (i + j).
Proof.
  unfold swap_writes. intros ([k x] & E & Hin)%list_elem_of_fmap. apply elem_of_lookup_imap in Hin as (j & y & E' & Hj).
  injection E' as -> ->. cbn in E. injection E as -> ->. split; [done|]. exists j. split; [by eapply lookup_lt_Some|done].
Qed.

Lemma swap_writes_at blkno bs : forall i j x, bs !! j = Some x -> written (swap_writes blkno i bs) (0, swap_block blkno (i + j)) = Some x.
Proof.
  induction bs as [|y bs IH]; intros i j x E; [done|].
  replace (swap_writes blkno i (y :: bs)) with (((0, swap_block blkno i), y) :: swap_writes blkno (S i) bs).
  2:{ unfold swap_writes. cbn [imap]. rewrite Nat.add_0_r. f_equal. apply imap_ext. intros k z _. cbn. by replace (i + S k)%nat with (S (i + k)) by lia. }
  rewrite written_cons. destruct j as [|j].
  - injection E as <-. rewrite Nat.add_0_r. rewrite decide_True by done.
    destruct (written _ _) eqn:Ew; [|done]. apply written_Some_in, swap_writes_keys in Ew as (_ & k & _ & Hk). unfold swap_block in Hk. lia.
  - replace (i + S j)%nat with (S i + j)%nat by lia. by rewrite (IH (S i) j x E).
Qed.

Lemma swapwrite_run s L src blkno : quiet s L -> bytes src -> length src = Z.to_nat PGSIZE -> swap_ok blkno ->
  exists s', swapwrite src blkno s = Ok tt s' /\ logstep s s' (swap_writes blkno 0 (blocks_of 8 src)).
Proof.
  intros Hq Hb Hl Hk. unfold swap_ok, FSSIZE, SWAPBASE in Hk. destruct (blocks_of_spec 8 src Hb Hl) as (E1 & E2 & E3).
  unfold swapwrite. rewrite (proj2 (Z.ltb_ge blkno 0)), (proj2 (Z.leb_gt SWAPMAX blkno)) by (unfold SWAPMAX, SWAPBASE; lia). cbn [orb].
  rewrite (bind_ok _ _ s tt s) by done.
  pose proof (swapwrite_loop_spec L blkno (blocks_of 8 src) s 0 Hq ltac:(lia) E2) as W. rewrite E1, E3 in W.
  destruct (proj1 (wp_ok _ _ _) (W ltac:(unfold swap_block, SWAPBASE, FSSIZE; lia))) as ([] & s' & E & Hs). by exists s'.
Qed.

Lemma swapread_run s L blkno : quiet s L -> swap_ok blkno ->
  exists s', swapread blkno s = Ok (concat ((fun j => view s 0 (swap_block blkno j)) <$> seq 0 8)) s' /\ logstep s s' [].
Proof.
  intros Hq Hk. unfold swap_ok, FSSIZE, SWAPBASE in Hk.
  unfold swapread. rewrite (proj2 (Z.ltb_ge blkno 0)), (proj2 (Z.leb_gt SWAPMAX blkno)) by (unfold SWAPMAX, SWAPBASE; lia). cbn [orb].
  rewrite (bind_ok _ _ s tt s) by done.
  destruct (proj1 (wp_ok _ _ _) (swapread_loop_spec L blkno 8 s 0 Hq ltac:(lia) ltac:(unfold swap_block, SWAPBASE, FSSIZE; lia))) as (r & s' & E & -> & Hs).
  by exists s'.
Qed.

(** C29. A page that was swapped out comes back.  swapwrite of a page to a block
    within the disk ends with the page's bytes in the eight blocks on the disk
    and no other block changed; swapread of that block in any later state in
    which nobody wrote to these eight blocks returns the page's bytes and
    changes no block. *)
Theorem swap_roundtrip s L src blkno :
  quiet s L -> bytes src -> length src = Z.to_nat PGSIZE -> swap_ok blkno ->
  exists s1, swapwrite src blkno s = Ok tt s1 /\ quiet s1 L /\ bio_frame s s1 /\
    (forall i x, blocks_of 8 src !! i = Some x -> dget (ide_disk (k_ide s1)) 0 (swap_block blkno i) = x) /\
    (forall d n, (d, n) <> (0, 0) -> ~ (d = 0 /\ blkno + SWAPBASE <= n < blkno + SWAPBASE + 8) ->
       view s1 d n = view s d n /\ dget (ide_disk (k_ide s1)) d n = dget (ide_disk (k_ide s)) d n) /\
    forall s2 L2, quiet s2 L2 -> (forall i, (i < 8)%nat -> view s2 0 (swap_block blkno i) = view s1 0 (swap_block blkno i)) ->
      exists s3, swapread blkno s2 = Ok src s3 /\ quiet s3 L2 /\ forall d n, (d, n) <> (0, 0) -> view s3 d n = view s2 d n.
Proof.
  intros Hq Hb Hl Hk. destruct (swapwrite_run s L src blkno Hq Hb Hl Hk) as (s1 & E1 & L1).
  destruct (blocks_of_spec 8 src Hb Hl) as (B1 & B2 & B3). destruct (ls_adv L1) as [_ Hdisk].
  assert (Hne : forall i, (0, swap_block blkno i) <> (0, 0)) by (intros i [=]; unfold swap_ok, swap_block, SWAPBASE in *; lia).
  pose proof (swap_writes_at blkno (blocks_of 8 src) 0) as Hat. cbn [Nat.add] in Hat.
  exists s1. split_and!; [done|by eapply quiet_step|apply (ls_frame L1)| | |].
  - intros i x Ex. rewrite Hdisk, dget_apply_writes. by rewrite (Hat i x Ex).
  - intros d n H0 Hout. assert (Hw : written (swap_writes blkno 0 (blocks_of 8 src)) (d, n) = None).
    { apply written_None. intros (-> & j & Hj & ->)%swap_writes_keys. apply Hout. rewrite B1 in Hj. unfold swap_block. lia. }
    by rewrite (ls_view L1), Hdisk, dget_apply_writes, Hw.
  - intros s2 L2 Hq2 Hv. destruct (swapread_run s2 L2 blkno Hq2 Hk) as (s3 & E3 & L3). exists s3.
    split_and!; [|by eapply quiet_step|intros d n H0; by rewrite (ls_view L3), written_nil].
    rewrite E3. f_equal. rewrite <- B3 at 1. f_equal. refine (list_eq (A := block) _ _ _). intros i. rewrite list_lookup_fmap.
    destruct (decide (i < 8)%nat) as [Hi|Hi]; [|rewrite lookup_seq_ge by lia; by rewrite (lookup_ge_None_2 (blocks_of 8 src)) by (rewrite B1; lia)].
    rewrite lookup_seq_lt by done. cbn [fmap option_fmap option_map Nat.add]. destruct (lookup_lt_is_Some_2 (blocks_of 8 src) i) as [x Ex]; [by rewrite B1|].
    rewrite Ex, Hv, (ls_view L1) by done. by rewrite (Hat i x Ex).
Qed.

(** ** The system calls *)

Lemma swapread_panics_iff s L blkno : quiet s L -> -2147483648 <= blkno < 2147483648 ->
  (swap_ok blkno /\ exists l s', swapread blkno s = Ok l s') \/ (~ swap_ok blkno /\ exists msg, swapread blkno s = Panic msg).
Proof.
  intros Hq Hr. unfold swap_ok, FSSIZE. destruct (decide (0 <= blkno <= 1000 - SWAPBASE - 8)) as [Hk|Hk]; [left|right]; (split; [done|]).
  - destruct (swapread_run s L blkno Hq Hk) as (s' & E & _). eauto.
  - unfold swapread. destruct (Z.ltb_spec blkno 0); [eexists; by apply bind_panic|].
    destruct (Z.leb_spec SWAPMAX blkno); [eexists; by apply bind_panic|]. cbn [orb]. rewrite (bind_ok _ _ s tt s) by done. eexists.
    apply (swapread_loop_panics L blkno 7 s 0); [done|lia|lia|unfold swap_block, SWAPBASE, FSSIZE in *; lia].
Qed.

Lemma swapwrite_panics_iff s L src blkno : quiet s L -> bytes src -> length src = Z.to_nat PGSIZE -> -2147483648 <= blkno < 2147483648 ->
  (swap_ok blkno /\ exists s', swapwrite src blkno s = Ok tt s') \/ (~ swap_ok blkno /\ exists msg, swapwrite src blkno s = Panic msg).
Proof.
  intros Hq Hb Hl Hr. unfold swap_ok, FSSIZE. destruct (decide (0 <= blkno <= 1000 - SWAPBASE - 8)) as [Hk|Hk]; [left|right]; (split; [done|]).
  - destruct (swapwrite_run s L src blkno Hq Hb Hl Hk) as (s' & E & _). eauto.
  - unfold swapwrite. destruct (Z.ltb_spec blkno 0); [eexists; by apply bind_panic|].
    destruct (Z.leb_spec SWAPMAX blkno); [eexists; by apply bind_panic|]. cbn [orb]. rewrite (bind_ok _ _ s tt s) by done. eexists.
    destruct (blocks_of_spec 8 src Hb Hl) as (E1 & E2 & E3). rewrite <- E3. cbn [blocks_of] in E1, E2 |- *.
    match goal with |- swapwrite_loop (concat (?d :: ?bs)) _ _ _ _ = _ => apply (swapwrite_loop_panics L blkno bs s 0 d) end;
      [done|lia|cbn [length]; lia|done|cbn [length]; unfold swap_block, SWAPBASE, FSSIZE in *; lia].
Qed.

(** C30. A user process can stop the machine with swapread and swapwrite: called
    with a buffer that is accepted, the kernel panics exactly when the block
    number is negative or the page would reach past the end of the disk. *)
Theorem swap_call_panics `{Linker} s L p ptr w :
  let q := k_ptable s !!! p in
  quiet s L -> k_cur s = Some p -> 0 <= p_sz q <= KERNBASE -> user_mapped (k_mem s) (p_pgdir q) (p_sz q) -> mem_bytes (k_mem s) ->
  arg_word s p 0 = Some ptr -> ptr + PGSIZE <= p_sz q -> arg_word s p 1 = Some w ->
  ((exists msg, sys_swapread s = Panic msg) <-> ~ swap_ok (i32 w)) /\
  ((exists msg, sys_swapwrite s = Panic msg) <-> ~ swap_ok (i32 w)).
Proof.
  intros q Hq Hp Hsz Hmap Hb E0 Hptr E1. destruct (arg_word_addr s p Hmap Hb 0 ptr E0) as [H0 _].
  assert (Ep : argptr 0 PGSIZE s = Ok (Some ptr) s).
  { rewrite (argptr_run s p Hp Hsz Hmap Hb 0 PGSIZE) by (unfold PGSIZE; lia). rewrite E0. cbn [mbind option_bind]. fold q.
    rewrite (proj2 (Z.ltb_lt ptr _)), (proj2 (Z.leb_le _ (p_sz q))) by (unfold PGSIZE in *; lia). done. }
  assert (Ei : argint 1 s = Ok (Some (i32 w)) s) by (rewrite (argint_run s p Hp Hsz Hmap 1); fold (arg_word s p 1); by rewrite E1).
  assert (Hw : -2147483648 <= i32 w < 2147483648) by (unfold i32, u32; zcases; zlia). unfold sys_swapread, sys_swapwrite. rewrite !(bind_ok _ _ _ _ _ Ep), !(bind_ok _ _ _ _ _ Ei). split.
  - destruct (swapread_panics_iff s L (i32 w) Hq Hw) as [[Hk (l & s' & E)]|[Hk (msg & E)]]; [|split; [done|]; intros _; exists msg; by apply bind_panic].
    split; [|done]. rewrite (bind_ok _ _ _ _ _ E). intros [msg Hm]. exfalso. revert Hm. unfold uwrite, curproc, myproc, gets, modify, fault, mbind, M_bind.
    destruct (k_cur s'); cbn; [|done]. by destruct (uwrite_bytes _ _ _ _).
  - destruct (uread_mapped _ _ _ (Z.to_nat PGSIZE) ptr Hmap) as (l & El & Hl); [lia|unfold PGSIZE in *; lia|].
    rewrite (bind_ok _ _ _ _ _ (uread_run s p Hp _ _ _ El)).
    destruct (swapwrite_panics_iff s L l (i32 w) Hq (uread_bytes_bytes _ _ _ _ _ Hb El) Hl Hw) as [[Hk (s' & E)]|[Hk (msg & E)]]; [|split; [done|]; intros _; exists msg; by apply bind_panic].
    split; [|done]. rewrite (bind_ok _ _ _ _ _ E). by intros [msg Hm].
Qed.

(** ** Examples *)

Lemma booted_quiet : quiet booted [].
Proof. split; [apply booted_ok|apply booted_ok|apply booted_ok|]. apply Nat.ltb_lt. reflexivity. Qed.

Lemma swap_roundtrip_witness :
  exists s1 s2, swapwrite (replicate 4096 49) 10 booted = Ok tt s1 /\ swapread 10 s1 = Ok (replicate 4096 49) s2.
Proof.
  destruct (swap_roundtrip booted [] (replicate 4096 49) 10) as (s1 & E1 & Hq & _ & _ & _ & Hr).
  - apply booted_quiet.
  - apply Forall_replicate. split; done.
  - rewrite length_replicate. reflexivity.
  - unfold swap_ok, FSSIZE, SWAPBASE. lia.
  - destruct (Hr s1 [] Hq) as (s2 & E2 & _); [done|]. exists s1, s2. split; [exact E1|exact E2].
Defined.

(** A process of one page that asks for block 26984. *)
Definition swap_user : kernel :=
  set_k_mem one_page_mem (set_k_ptable (set_p_tf (set_tf_esp 192 inhabitant) one_page_proc :: replicate 63 inhabitant) booted).

#[local] Existing Instance example_linker.
Lemma swap_call_panics_witness : exists msg, sys_swapread swap_user = Panic msg.
Proof.
  apply (proj1 (swap_call_panics swap_user [] O 0 26984 ltac:(split; [split; apply booted_quiet|apply booted_quiet|apply booted_quiet|apply booted_quiet])
    eq_refl ltac:(split; vm_compute; discriminate) one_page_mapped one_page_bytes eq_refl ltac:(vm_compute; discriminate) eq_refl)).
  unfold swap_ok, FSSIZE, SWAPBASE. rewrite i32_small by lia. lia.
Defined.
