(* ===== verification/Sh.v ===== *)
(** * The shell's parser (sh.c)

    The command line is the list [l] of its characters, which holds no NUL; a
    pointer into it is an offset, and [*ps] is the state of the parser.  The
    character at the end is the terminating NUL.  A parsed command refers to
    its words by their offsets, as in the source.

    parseexec hands out its execcmd before it has filled in the arguments, and
    parseredirs wraps it; the model keeps the redirections met so far in a list
    and wraps the finished execcmd in them at the end.  malloc is taken to
    succeed. *)

From S2P Require Import Prelude State.
Open Scope Z_scope.

Definition MAXARGS : nat := 10.

Inductive cmd :=
| EXEC (argv : list (nat * nat))
| REDIR (c : cmd) (file efile : nat) (mode fd : Z)
| PIPE (left right : cmd)
| LIST (left right : cmd)
| BACK (c : cmd).

(** " \t\r\n\v" and "<|>&;()" *)
Definition whitespace : list Z := [32; 9; 13; 10; 11].
Definition symbols : list Z := [60; 124; 62; 38; 59; 40; 41].

(** ulib.c strchr, as a test. *)
Definition strchr (s : list Z) (c : Z) : bool := existsb (Z.eqb c) s.

Section sh.
Context (l : list Z).

Definition es : nat := length l.
Definition ch (i : nat) : Z := default 0 (l !! i).

(** while(s < es && p at s) s++; *)
Fixpoint skip (p : Z -> bool) (s : nat) (n : nat) : nat :=
  match n with
  | O => s
  | S n' => if (s <? es)%nat && p (ch s) then skip p (S s) n' else s
  end.
Definition skipws (s : nat) : nat := skip (strchr whitespace) s (es - s).
Definition word_char (c : Z) : bool := negb (strchr whitespace c) && negb (strchr symbols c).

(** The token at [s] after white space: what is returned, and where it ends. *)
Definition token (s : nat) : Z * nat :=
  let c := ch s in
  if c =? 0 then (c, s)
  else if strchr [124; 40; 41; 59; 38; 60] c then (c, S s)
  else if c =? 62 then
    if ch (S s) =? 62 then (43, S (S s)) else (c, S s)
  else (97, skip word_char s (es - s)).

Definition gettoken : M nat (Z * nat * nat) := fun ps =>
  let q := skipws ps in
  let '(ret, eq) := token q in
  Ok (ret, q, eq) (skipws eq).

Definition peek (toks : list Z) : M nat bool := fun ps =>
  let s := skipws ps in
  Ok (negb (ch s =? 0) && strchr toks (ch s)) s.

(** A redirection: the file name, the mode and the descriptor. *)
Definition redir : Type := nat * nat * Z * Z.
Definition redircmd (c : cmd) (r : redir) : cmd := let '(q, eq, mode, fd) := r in REDIR c q eq mode fd.

Fixpoint parseredirs (rs : list redir) (fuel : nat) : M nat (list redir) :=
  b ← peek [60; 62];
  if b : bool then
    match fuel with
    | O => nofuel
    | S f =>
      t ← gettoken;
      w ← gettoken;
      let '(tok, _, _) := t in
      let '(tok2, q, eq) := w in
      panic_if (negb (tok2 =? 97)) "missing file for redirection";;
      if tok =? 60 then parseredirs (rs ++ [(q, eq, O_RDONLY, 0)]) f
      else if (tok =? 62) || (tok =? 43) then parseredirs (rs ++ [(q, eq, Z.lor O_WRONLY O_CREATE, 1)]) f
      else parseredirs rs f
    end
  else mret rs.

(** The loop of parseexec over the arguments. *)
Fixpoint parse_args (argv : list (nat * nat)) (rs : list redir) (fuel : nat) : M nat (list (nat * nat) * list redir) :=
  b ← peek [124; 41; 38; 59];
  if negb b then
    match fuel with
    | O => nofuel
    | S f =>
      t ← gettoken;
      let '(tok, q, eq) := t in
      if tok =? 0 then mret (argv, rs)
      else
        panic_if (negb (tok =? 97)) "syntax";;
        let argv := argv ++ [(q, eq)] in
        panic_if (MAXARGS <=? length argv)%nat "too many args";;
        rs ← parseredirs rs (S es);
        parse_args argv rs f
    end
  else mret (argv, rs).

(** while(peek(ps, es, "&")) *)
Fixpoint parse_back (c : cmd) (fuel : nat) : M nat cmd :=
  b ← peek [38];
  if b : bool then
    match fuel with
    | O => nofuel
    | S f => gettoken;; parse_back (BACK c) f
    end
  else mret c.

Fixpoint parseline (fuel : nat) : M nat cmd :=
  match fuel with
  | O => nofuel
  | S f =>
    c ← parsepipe f;
    c ← parse_back c (S es);
    b ← peek [59];
    if b : bool then
      gettoken;;
      r ← parseline f;
      mret (LIST c r)
    else mret c
  end
with parsepipe (fuel : nat) : M nat cmd :=
  match fuel with
  | O => nofuel
  | S f =>
    c ← parseexec f;
    b ← peek [124];
    if b : bool then
      gettoken;;
      r ← parsepipe f;
      mret (PIPE c r)
    else mret c
  end
with parseexec (fuel : nat) : M nat cmd :=
  match fuel with
  | O => nofuel
  | S f =>
    b ← peek [40];
    if b : bool then parseblock f
    else
      rs ← parseredirs [] (S es);
      a ← parse_args [] rs (S es);
      mret (foldl redircmd (EXEC a.1) a.2)
  end
with parseblock (fuel : nat) : M nat cmd :=
  match fuel with
  | O => nofuel
  | S f =>
    b ← peek [40];
    panic_if (negb b) "parseblock";;
    gettoken;;
    c ← parseline f;
    b ← peek [41];
    panic_if (negb b) "syntax - missing )";;
    gettoken;;
    rs ← parseredirs [] (S es);
    mret (foldl redircmd c rs)
  end.

(** Four calls deep for each character is enough. *)
Definition parse_fuel : nat := (4 * es + 8)%nat.

(** Everything of parsecmd but nulterminate. *)
Definition parsecmd_tree : M nat cmd :=
  c ← parseline parse_fuel;
  peek [];;
  s ← gets id;
  panic_if (negb (s =? es)%nat) "syntax";;
  mret c.
End sh.

(** ** NUL termination *)

Fixpoint nulterminate (c : cmd) (b : list Z) : list Z :=
  match c with
  | EXEC argv => foldl (fun b a => <[a.2 := 0]> b) b argv
  | REDIR c _ efile _ _ => <[efile := 0]> (nulterminate c b)
  | PIPE x y | LIST x y => nulterminate y (nulterminate x b)
  | BACK c => nulterminate c b
  end.

(** The command, and the buffer with its terminating NUL; the parser's panics. *)
Definition parsecmd (s : list Z) : outcome (list Z) cmd :=
  match parsecmd_tree s O with
  | Ok c _ => Ok c (nulterminate c (s ++ [0]))
  | Panic m => Panic m
  | Sleeps c _ => Sleeps c s
  | Gone _ => Gone s
  | Fault m => Fault m
  | NoFuel => NoFuel
  end.

(** ** Running a command *)

(** The system calls of runcmd, with what is done with the result. *)
Inductive syscall := Sfork | Sexec (path : nat) (argv : list nat) | Sopen (file : nat) (mode : Z) | Sclose (fd : Z)
  | Sdup (fd : Z) | Swait | Sprint (fd : Z) (what : string).
Inductive prog := Exit | Call (c : syscall) (k : Z -> prog) | CallPipe (k : Z -> Z -> Z -> prog).

Definition sh_panic (msg : string) : prog := Call (Sprint 2 msg) (fun _ => Exit).
(** fork1: the child, and the parent with the child's pid. *)
Definition fork1 (k : Z -> prog) : prog := Call Sfork (fun pid => if pid =? -1 then sh_panic "fork" else k pid).

Fixpoint runcmd (c : cmd) : prog :=
  match c with
  | EXEC [] => Exit
  | EXEC (((q, _) :: _) as argv) =>
    Call (Sexec q (fst <$> argv)) (fun _ => Call (Sprint 2 "exec failed") (fun _ => Exit))
  | REDIR c file _ mode fd =>
    Call (Sclose fd) (fun _ =>
    Call (Sopen file mode) (fun r =>
      if r <? 0 then Call (Sprint 2 "open failed") (fun _ => Exit) else runcmd c))
  | LIST x y =>
    fork1 (fun pid => if pid =? 0 then runcmd x else Call Swait (fun _ => runcmd y))
  | PIPE x y =>
    CallPipe (fun r p0 p1 =>
      if r <? 0 then sh_panic "pipe"
      else
        fork1 (fun pid =>
          if pid =? 0 then
            Call (Sclose 1) (fun _ => Call (Sdup p1) (fun _ => Call (Sclose p0) (fun _ => Call (Sclose p1) (fun _ => runcmd x))))
          else
            fork1 (fun pid =>
              if pid =? 0 then
                Call (Sclose 0) (fun _ => Call (Sdup p0) (fun _ => Call (Sclose p0) (fun _ => Call (Sclose p1) (fun _ => runcmd y))))
              else
                Call (Sclose p0) (fun _ => Call (Sclose p1) (fun _ => Call Swait (fun _ => Call Swait (fun _ => Exit)))))))
  | BACK c => fork1 (fun pid => if pid =? 0 then runcmd c else Exit)
  end.
