(* ===== verification/ShLex.v ===== *)
(** * The shell's lexer

    What [peek] and [gettoken] do in terms of the input that is left: [rem p],
    the characters from offset [p] on without their leading white space. *)

From S2P Require Import Prelude State Sh.
Open Scope Z_scope.

#[global] Arguments strchr : simpl never.
#[global] Arguments word_char : simpl never.
Abbreviation is_ws := (strchr whitespace).

(** A list of characters without its leading white space. *)
Fixpoint strip (t : list Z) : list Z :=
  match t with
  | c :: t' => if is_ws c then strip t' else t
  | [] => []
  end.
(** The longest prefix of word characters, and what follows it. *)
Fixpoint word_of (t : list Z) : list Z :=
  match t with
  | c :: t' => if word_char c then c :: word_of t' else []
  | [] => []
  end.

Lemma strip_ws a t : Forall (fun c => is_ws c = true) a -> strip (a ++ t) = strip t.
Proof. induction 1 as [|c a Hc _ IH]; [done|]. cbn. by rewrite Hc. Qed.

Lemma strip_head c t : is_ws c = false -> strip (c :: t) = c :: t.
Proof. intros E. cbn. by rewrite E. Qed.

Lemma strip_strip t : strip (strip t) = strip t.
Proof. induction t as [|c t IH]; [done|]. cbn. destruct (is_ws c) eqn:E; [done|]. cbn. by rewrite E. Qed.

Lemma strip_nil_or t : strip t = [] \/ exists c u, strip t = c :: u /\ is_ws c = false.
Proof. induction t as [|c t IH]; [by left|]. cbn. destruct (is_ws c) eqn:E; [done|]. right. eauto. Qed.

Lemma length_strip t : (length (strip t) <= length t)%nat.
Proof. induction t as [|c t IH]; [done|]. cbn. destruct (is_ws c); cbn in *; lia. Qed.

(** A character that is not white space stays, with all that follows it. *)
Lemma strip_app_cons a c t : is_ws c = false -> exists a', strip (a ++ c :: t) = a' ++ c :: t.
Proof.
  intros E. induction a as [|d a [a' IH]]; cbn; [rewrite E; by exists []|].
  destruct (is_ws d); [by exists a'|by exists (d :: a)].
Qed.

Lemma length_strip_app a c t : is_ws c = false -> (length (strip (a ++ c :: t)) >= S (length t))%nat.
Proof. intros E. destruct (strip_app_cons a c t E) as [a' ->]. rewrite length_app. cbn. lia. Qed.

Lemma word_char_not_ws c : word_char c = true -> is_ws c = false.
Proof. unfold word_char. by destruct (is_ws c). Qed.

Lemma word_of_app w t :
  Forall (fun c => word_char c = true) w -> match t with c :: _ => word_char c = false | [] => True end ->
  word_of (w ++ t) = w.
Proof. induction 1 as [|c w Hc _ IH]; intros Ht; cbn; [destruct t; cbn; [done|by rewrite Ht]|]. by rewrite Hc, IH. Qed.

Section lex.
Context (l : list Z) (Hl : Forall (fun c => c <> 0) l).
#[local] Abbreviation ch := (ch l).
#[local] Abbreviation es := (es l).

Definition rem (p : nat) : list Z := strip (drop p l).

Lemma ch_es p : ch p = 0 <-> (es <= p)%nat.
Proof using Hl.
  unfold Sh.ch, Sh.es. split; intros H.
  - destruct (l !! p) as [c|] eqn:E; [|by apply lookup_ge_None_1].
    cbn in H. subst c. by apply (Forall_lookup_1 _ _ _ _ Hl) in E.
  - by rewrite lookup_ge_None_2.
Qed.

Lemma drop_ch p : (p < es)%nat -> drop p l = ch p :: drop (S p) l.
Proof using. intros H. unfold Sh.ch. destruct (lookup_lt_is_Some_2 l p H) as [c E]. rewrite E. by apply drop_S. Qed.

(** A skipping loop that is run to its end. *)
Lemma skip_spec p s n :
  (es - s <= n)%nat -> (s <= es)%nat ->
  (s <= skip l p s n <= es)%nat /\
  (forall i, (s <= i < skip l p s n)%nat -> p (ch i) = true) /\
  ((skip l p s n < es)%nat -> p (ch (skip l p s n)) = false).
Proof using.
  revert s. induction n as [|n IH]; intros s Hn Hs; cbn [skip]; [split_and!; intros; lia|].
  destruct (Nat.ltb_spec s es) as [Hlt|]; cbn [andb]; [|split_and!; intros; lia].
  destruct (p (ch s)) eqn:E; [|split_and!; intros; [lia|lia|lia|done]].
  destruct (IH (S s)) as (I1 & I2 & I3); [lia|lia|]. split_and!; [lia|lia| |done].
  intros i Hi. destruct (decide (i = s)) as [->|]; [done|]. apply I2. lia.
Qed.

Lemma skip_drop p s n :
  (es - s <= n)%nat -> (s <= es)%nat ->
  drop s l = slice l s (skip l p s n - s) ++ drop (skip l p s n) l.
Proof using.
  intros Hn Hs. destruct (skip_spec p s n Hn Hs) as (H1 & _ & _). unfold slice.
  rewrite <- (take_drop (skip l p s n - s) (drop s l)) at 1. rewrite drop_drop. do 2 f_equal. lia.
Qed.

Lemma skipws_spec p : (p <= es)%nat -> (p <= skipws l p <= es)%nat /\ drop (skipws l p) l = rem p.
Proof using.
  intros Hp. destruct (skip_spec is_ws p (es - p)) as (H1 & H2 & H3); [lia|done|]. split; [done|].
  unfold rem. rewrite (skip_drop is_ws p (es - p)) by lia. unfold skipws in *. rewrite strip_ws.
  - destruct (decide (skip l is_ws p (es - p) < es)%nat) as [Hlt|Hge].
    + rewrite drop_ch, strip_head by auto. done.
    + rewrite drop_ge by (unfold Sh.es in *; lia). done.
  - apply Forall_lookup_2. intros i c E. apply lookup_lt_Some in E as Hi. unfold slice in Hi. rewrite length_take in Hi.
    rewrite lookup_slice in E by lia. specialize (H2 (p + i)%nat). unfold Sh.ch in H2. rewrite E in H2. apply H2. lia.
Qed.

Lemma rem_skipws p : (p <= es)%nat -> rem (skipws l p) = rem p.
Proof using. intros Hp. unfold rem at 1. rewrite (proj2 (skipws_spec p Hp)). apply strip_strip. Qed.

Lemma ch_rem p : (p <= es)%nat -> ch (skipws l p) = default 0 (head (rem p)).
Proof using.
  intros Hp. destruct (skipws_spec p Hp) as [_ <-]. unfold Sh.ch. f_equal.
  rewrite head_lookup, lookup_drop. f_equal. lia.
Qed.

Lemma length_rem p : (length (rem p) <= es - p)%nat.
Proof using. unfold rem. etransitivity; [apply length_strip|]. by rewrite length_drop. Qed.

(** peek only moves over white space. *)
Lemma peek_spec toks p :
  (p <= es)%nat ->
  exists q, peek l toks p = Ok (match rem p with c :: _ => strchr toks c | [] => false end) q /\
    (p <= q <= es)%nat /\ rem q = rem p /\ drop q l = rem p.
Proof using Hl.
  intros Hp. destruct (skipws_spec p Hp) as [H1 H2]. exists (skipws l p). split_and!; try lia; [|by apply rem_skipws|done].
  unfold peek. rewrite ch_rem by done. do 2 f_equal. destruct (rem p) as [|c t] eqn:E; [done|]. cbn.
  destruct (Z.eqb_spec c 0) as [->|]; [|done].
  assert (H : ch (skipws l p) = 0) by (by rewrite ch_rem, E). apply ch_es in H.
  rewrite drop_ge in H2; [done|unfold Sh.es in *; lia].
Qed.

(** [q, e) is a maximal run of word characters. *)
Definition word_at (a : nat * nat) : Prop :=
  let '(q, e) := a in
  (q < e <= es)%nat /\ (forall i, (q <= i < e)%nat -> word_char (ch i) = true) /\
  ((e < es)%nat -> word_char (ch e) = false).

Lemma rem_cons p c t : (p <= es)%nat -> rem p = c :: t ->
  (skipws l p < es)%nat /\ ch (skipws l p) = c /\ is_ws c = false /\ drop (S (skipws l p)) l = t /\ c <> 0.
Proof using Hl.
  intros Hp E. destruct (skipws_spec p Hp) as [H1 H2]. pose proof (ch_rem p Hp) as Hc. rewrite E in H2, Hc.
  assert (Hlt : (skipws l p < es)%nat).
  { destruct (decide (skipws l p < es)%nat); [done|]. rewrite drop_ge in H2; [done|unfold Sh.es in *; lia]. }
  rewrite drop_ch in H2 by done. split_and!; try done.
  - destruct (strip_nil_or (drop p l)) as [H|(d & u & H & ?)]; unfold rem in E; congruence.
  - congruence.
  - intros ->. apply ch_es in Hc. lia.
Qed.

Lemma gettoken_end p : (p <= es)%nat -> rem p = [] -> exists q, gettoken l p = Ok (0, q, q) q /\ q = es.
Proof using Hl.
  intros Hp E. pose proof (ch_rem p Hp) as Hc. rewrite E in Hc. cbn in Hc.
  destruct (skipws_spec p Hp) as [H1 H2]. pose proof (proj1 (ch_es _) Hc) as Hge.
  assert (Eq : skipws l p = es) by lia. exists es. split; [|done].
  unfold gettoken, token. rewrite Hc, Eq. cbn. unfold skipws. by rewrite Nat.sub_diag.
Qed.

Lemma slice_split s e : (s <= e)%nat -> drop s l = slice l s (e - s) ++ drop e l.
Proof using.
  intros H. unfold slice. rewrite <- (take_drop (e - s) (drop s l)) at 1. rewrite drop_drop. do 2 f_equal. lia.
Qed.

Lemma word_slice q e : word_at (q, e) -> word_of (drop q l) = slice l q (e - q).
Proof using.
  intros (H1 & H2 & H3). rewrite (slice_split q e) at 1 by lia. apply word_of_app.
  - apply Forall_lookup_2. intros i c E. apply lookup_lt_Some in E as Hi. unfold slice in Hi. rewrite length_take in Hi.
    rewrite lookup_slice in E by lia. specialize (H2 (q + i)%nat). unfold Sh.ch in H2. rewrite E in H2. apply H2. lia.
  - destruct (decide (e < es)%nat); [rewrite drop_ch by done; auto|]. by rewrite drop_ge by (unfold Sh.es in *; lia).
Qed.

Lemma word_char_tests c : word_char c = true -> c <> 0 ->
  (c =? 0) = false /\ strchr [124; 40; 41; 59; 38; 60] c = false /\ (c =? 62) = false.
Proof using. unfold word_char, strchr, whitespace, symbols. cbn. intros. lia. Qed.

(** A word is returned whole. *)
Lemma gettoken_word p c t :
  (p <= es)%nat -> rem p = c :: t -> word_char c = true ->
  exists q e p', gettoken l p = Ok (97, q, e) p' /\ (p <= q)%nat /\ (e <= p' <= es)%nat /\ word_at (q, e) /\
    slice l q (e - q) = word_of (c :: t) /\ rem p' = strip (drop (length (word_of (c :: t))) (c :: t)).
Proof using Hl.
  intros Hp E Hw. destruct (rem_cons p c t Hp E) as (H1 & H2 & H3 & H4 & H5). destruct (skipws_spec p Hp) as [S1 S2].
  set (q := skipws l p) in *. destruct (word_char_tests c Hw H5) as (T1 & T2 & T3).
  destruct (skip_spec word_char q (es - q)) as (K1 & K2 & K3); [lia|lia|]. set (e := skip l word_char q (es - q)) in *.
  assert (Hat : word_at (q, e)).
  { split_and!; try lia; try done. destruct (decide (q = e)) as [Eq|]; [|lia]. rewrite <- Eq, H2 in K3. rewrite K3 in Hw; [done|lia]. }
  assert (Hsl : slice l q (e - q) = word_of (c :: t)) by (by rewrite <- (word_slice q e), S2, E).
  exists q, e, (skipws l e). split_and!; try done; try lia.
  - unfold gettoken, token. fold q. by rewrite H2, T1, T2, T3.
  - destruct (skipws_spec e); lia.
  - destruct (skipws_spec e); lia.
  - rewrite rem_skipws by lia. unfold rem. f_equal. rewrite <- Hsl, <- E, <- S2. destruct Hat as (? & _ & _).
    rewrite length_slice by (unfold Sh.es in *; lia). rewrite drop_drop. f_equal. lia.
Qed.

(** The symbol at the front of the input, and what follows it. *)
Definition symbol (c : Z) (t : list Z) : Z * list Z :=
  match t with
  | d :: u => if (c =? 62) && (d =? 62) then (43, u) else (c, t)
  | [] => (c, t)
  end.

Lemma gettoken_symbol p c t :
  (p <= es)%nat -> rem p = c :: t -> word_char c = false ->
  exists q e p', gettoken l p = Ok ((symbol c t).1, q, e) p' /\ (p <= q < p')%nat /\ (p' <= es)%nat /\
    rem p' = strip (symbol c t).2 /\ strchr (43 :: symbols) (symbol c t).1 = true.
Proof using Hl.
  intros Hp E Hw. destruct (rem_cons p c t Hp E) as (H1 & H2 & H3 & H4 & H5). destruct (skipws_spec p Hp) as [S1 S2].
  set (q := skipws l p) in *.
  assert (Hsym : strchr symbols c = true) by (unfold word_char in Hw; rewrite H3 in Hw; by destruct (strchr symbols c)).
  assert (Hd : ch (S q) = default 0 (head t)).
  { rewrite <- H4, head_lookup, lookup_drop. unfold Sh.ch. by rewrite Nat.add_0_r. }
  assert (Hnx : forall e u, (q < e <= es)%nat -> drop e l = u -> (p <= q < skipws l e)%nat /\ (skipws l e <= es)%nat /\ rem (skipws l e) = strip u).
  { intros e u He <-. destruct (skipws_spec e) as [? _]; [lia|]. split_and!; try lia. by rewrite rem_skipws by lia. }
  assert (Htok : exists e, token l q = ((symbol c t).1, e) /\ (q < e <= es)%nat /\ drop e l = (symbol c t).2 /\ strchr (43 :: symbols) (symbol c t).1 = true).
  { unfold token. rewrite H2, Hd. destruct (Z.eqb_spec c 0); [done|].
    destruct (Z.eqb_spec c 62) as [->|N].
    - cbn. destruct t as [|d u]; cbn; [exists (S q); split_and!; done || lia|].
      destruct (Z.eqb_spec d 62) as [->|]; [|exists (S q); split_and!; done || lia].
      assert ((S q < es)%nat) by (destruct (decide (S q < es)%nat); [done|]; rewrite drop_ge in H4; [done|unfold Sh.es in *; lia]).
      exists (S (S q)). rewrite drop_ch in H4 by done. simplify_eq. split_and!; done || lia.
    - assert (strchr [124; 40; 41; 59; 38; 60] c = true) as -> by (unfold strchr, symbols in *; cbn in *; lia).
      exists (S q). unfold symbol. apply Z.eqb_neq in N. rewrite N. destruct t; cbn [andb fst snd]; split_and!; try done; try lia;
      unfold strchr, symbols in *; cbn in *; lia. }
  destruct Htok as (e & T1 & T2 & T3 & T4). destruct (Hnx e _ T2 T3) as (N1 & N2 & N3).
  exists q, e, (skipws l e). split_and!; try lia; try done. unfold gettoken. fold q. by rewrite T1.
Qed.
End lex.
