(* ===== verification/ShParse.v ===== *)
(** * The shell's parser always answers

    For every command line the parser returns a command or panics with one of
    its four messages: the fuel of the model is enough.  The words of the
    command are maximal runs of word characters of the line, and after
    nulterminate each of them is a C string of its own. *)

From S2P Require Import Prelude State Sh ShLex.
Open Scope Z_scope.

Definition sh_errors : list string :=
  ["missing file for redirection"; "syntax"; "too many args"; "syntax - missing )"].

(** The words a command refers to. *)
Fixpoint words (c : cmd) : list (nat * nat) :=
  match c with
  | EXEC argv => argv
  | REDIR c q e _ _ => (q, e) :: words c
  | PIPE x y | LIST x y => words x ++ words y
  | BACK c => words c
  end.
(** Every argv has room for its terminating null pointer. *)
Fixpoint args_fit (c : cmd) : Prop :=
  match c with
  | EXEC argv => (length argv < MAXARGS)%nat
  | REDIR c _ _ _ _ | BACK c => args_fit c
  | PIPE x y | LIST x y => args_fit x /\ args_fit y
  end.

(** Redirections are of the standard input and output. *)
Fixpoint redirs_std (c : cmd) : Prop :=
  match c with
  | EXEC _ => True
  | REDIR c _ _ _ fd => (fd = 0 \/ fd = 1) /\ redirs_std c
  | PIPE x y | LIST x y => redirs_std x /\ redirs_std y
  | BACK c => redirs_std c
  end.

(** A result in [Q], or one of the error messages. *)
Definition answers {A} (Q : A -> nat -> Prop) (o : outcome nat A) : Prop :=
  match o with
  | Ok a p => Q a p
  | Panic m => m ∈ sh_errors
  | _ => False
  end.

Lemma answers_bind {A B} (m : M nat A) (f : A -> M nat B) Q1 Q p :
  answers Q1 (m p) -> (forall a p', Q1 a p' -> answers Q (f a p')) -> answers Q ((m ≫= f) p).
Proof. unfold mbind, M_bind. destruct (m p); cbn; auto; done. Qed.

Ltac err := unfold sh_errors; set_solver+.

Section parse.
Context (l : list Z) (Hl : Forall (fun c => c <> 0) l).
#[local] Abbreviation es := (es l).

Definition cmd_ok (c : cmd) : Prop := Forall (word_at l) (words c) /\ args_fit c /\ redirs_std c.
Definition redir_ok (r : redir) : Prop := word_at l r.1.1 /\ (r.2 = 0 \/ r.2 = 1).

Lemma cmd_ok_redirs rs c : Forall redir_ok rs -> cmd_ok c -> cmd_ok (foldl redircmd c rs).
Proof using.
  intros Hr. revert c. induction Hr as [|[[[q e] mode] fd] rs [Hq Hfd] _ IH]; intros c Hc; [done|].
  cbn. apply IH. destruct Hc as (H1 & H2 & H3). split; [by constructor|done].
Qed.

(** The next token: nothing, a word or a symbol. *)
Lemma gettoken_any p :
  (p <= es)%nat ->
  exists tok q e p', gettoken l p = Ok (tok, q, e) p' /\ (p <= p' <= es)%nat /\
    (rem l p <> [] -> p < p')%nat /\ (tok = 97 -> word_at l (q, e)) /\
    (rem l p = [] -> tok = 0).
Proof using Hl.
  intros Hp. destruct (rem l p) as [|c t] eqn:E.
  - destruct (gettoken_end l Hl p Hp E) as (q & H & ->). exists 0, es, es, es. split_and!; done || lia.
  - destruct (word_char c) eqn:Hw.
    + destruct (gettoken_word l Hl p c t Hp E Hw) as (q & e & p' & H & H1 & H2 & H3 & _).
      exists 97, q, e, p'. destruct H3 as (? & ?). split_and!; done || lia || (split; done).
    + destruct (gettoken_symbol l Hl p c t Hp E Hw) as (q & e & p' & H & H1 & H2 & _ & H3).
      exists (symbol c t).1, q, e, p'. split_and!; try done || lia. intros H97. by rewrite H97 in H3.
Qed.

Definition advances {A} (Q : A -> Prop) (p : nat) (a : A) (p' : nat) : Prop := (p <= p' <= es)%nat /\ Q a.

Lemma parseredirs_answers n rs p :
  (p <= es)%nat -> (es - p < n)%nat -> Forall redir_ok rs ->
  answers (advances (Forall redir_ok) p) (parseredirs l rs n p).
Proof using Hl.
  revert rs p. induction n as [|n IH]; intros rs p Hp Hn Hrs; [lia|]. cbn [parseredirs].
  destruct (peek_spec l Hl [60; 62] p Hp) as (p1 & E1 & B1 & R1 & _). rewrite (bind_ok _ _ _ _ _ E1).
  destruct (rem l p) as [|c t] eqn:Ec; [by cbn; unfold advances|]. destruct (strchr _ _); [|by cbn; unfold advances].
  destruct (gettoken_any p1) as (tok & q & e & p2 & E2 & B2 & N2 & _); [lia|]. rewrite (bind_ok _ _ _ _ _ E2).
  rewrite R1 in N2. specialize (N2 ltac:(done)).
  destruct (gettoken_any p2) as (tok2 & q2 & e2 & p3 & E3 & B3 & _ & W & _); [lia|]. rewrite (bind_ok _ _ _ _ _ E3).
  cbn beta iota. destruct (Z.eqb_spec tok2 97) as [->|]; [|cbn; err]. rewrite (bind_ok _ _ p3 tt p3) by done.
  assert (Hgo : forall rs', Forall redir_ok rs' -> answers (advances (Forall redir_ok) p) (parseredirs l rs' n p3)).
  { intros rs' H'. specialize (IH rs' p3 ltac:(lia) ltac:(lia) H'). destruct (parseredirs l rs' n p3); try done.
    cbn in *. unfold advances in *. split; [lia|tauto]. }
  assert (Hrs' : forall mode fd, fd = 0 \/ fd = 1 -> Forall redir_ok (rs ++ [(q2, e2, mode, fd)])).
  { intros. apply Forall_app_2; [done|]. apply Forall_singleton. split; [by apply W|done]. }
  repeat case_match; auto.
Qed.

Lemma parse_args_answers n argv rs p :
  (p <= es)%nat -> (es - p < n)%nat -> Forall (word_at l) argv -> (length argv < MAXARGS)%nat -> Forall redir_ok rs ->
  answers (advances (fun a => Forall (word_at l) a.1 /\ (length a.1 < MAXARGS)%nat /\ Forall redir_ok a.2) p) (parse_args l argv rs n p).
Proof using Hl.
  revert argv rs p. induction n as [|n IH]; intros argv rs p Hp Hn Ha Hm Hrs; [lia|]. cbn [parse_args].
  destruct (peek_spec l Hl [124; 41; 38; 59] p Hp) as (p1 & E1 & B1 & R1 & _). rewrite (bind_ok _ _ _ _ _ E1).
  set (b := match rem l p with c :: _ => _ | [] => _ end). destruct b; cbn [negb]; [by cbn; unfold advances|].
  destruct (gettoken_any p1) as (tok & q & e & p2 & E2 & B2 & N2 & W & Z0); [lia|]. rewrite (bind_ok _ _ _ _ _ E2). cbn beta iota.
  destruct (Z.eqb_spec tok 0); [cbn; unfold advances; split; [lia|done]|].
  rewrite R1 in N2, Z0. assert (p < p2)%nat by (destruct (rem l p); [by rewrite Z0 in n0|specialize (N2 ltac:(done)); lia]).
  destruct (Z.eqb_spec tok 97) as [->|]; [|cbn; err]. rewrite (bind_ok _ _ p2 tt p2) by done.
  destruct (Nat.leb_spec MAXARGS (length (argv ++ [(q, e)]))); [cbn; err|]. rewrite (bind_ok _ _ p2 tt p2) by done.
  eapply answers_bind; [apply (parseredirs_answers _ rs p2); [lia|lia|done]|].
  intros rs' p3 [B3 Hrs']. specialize (IH (argv ++ [(q, e)]) rs' p3 ltac:(lia) ltac:(lia)).
  assert (Hw : Forall (word_at l) (argv ++ [(q, e)])) by (apply Forall_app_2; [done|]; apply Forall_singleton; auto).
  specialize (IH Hw ltac:(lia) Hrs'). destruct (parse_args _ _ _ _ _); try done. cbn in *. unfold advances in *. split; [lia|tauto].
Qed.

Lemma parse_back_answers n c p :
  (p <= es)%nat -> (es - p < n)%nat -> cmd_ok c -> answers (advances cmd_ok p) (parse_back l c n p).
Proof using Hl.
  revert c p. induction n as [|n IH]; intros c p Hp Hn Hc; [lia|]. cbn [parse_back].
  destruct (peek_spec l Hl [38] p Hp) as (p1 & E1 & B1 & R1 & _). rewrite (bind_ok _ _ _ _ _ E1).
  destruct (rem l p) as [|d t] eqn:Ec; [by cbn; unfold advances|]. destruct (strchr _ _); [|by cbn; unfold advances].
  destruct (gettoken_any p1) as (tok & q & e & p2 & E2 & B2 & N2 & _); [lia|]. rewrite (bind_ok _ _ _ _ _ E2).
  rewrite R1 in N2. specialize (N2 ltac:(done)).
  specialize (IH (BACK c) p2 ltac:(lia) ltac:(lia) Hc). destruct (parse_back _ _ _ _); try done. cbn in *. unfold advances in *. split; [lia|tauto].
Qed.

(** One symbol that is there, and the rest of the production. *)
Lemma symbol_then {A} (k : M nat A) Q p :
  (p <= es)%nat -> rem l p <> [] ->
  (forall p', (p < p' <= es)%nat -> answers Q (k p')) -> answers Q ((gettoken l;; k) p).
Proof using Hl.
  intros Hp Hr Hk. destruct (gettoken_any p Hp) as (tok & q & e & p2 & E2 & B2 & N2 & _). rewrite (bind_ok _ _ _ _ _ E2).
  apply Hk. specialize (N2 Hr). lia.
Qed.

(** peek, by whether it finds one of the characters. *)
Lemma peek_then {A} toks (k : bool -> M nat A) Q p :
  (p <= es)%nat ->
  (forall p', (p <= p' <= es)%nat -> rem l p' = rem l p -> answers Q (k false p')) ->
  (forall p' c t, (p <= p' <= es)%nat -> rem l p' = c :: t -> rem l p = c :: t -> strchr toks c = true -> answers Q (k true p')) ->
  answers Q ((peek l toks ≫= k) p).
Proof using Hl.
  intros Hp Hno Hyes. destruct (peek_spec l Hl toks p Hp) as (p1 & E1 & B1 & R1 & _). rewrite (bind_ok _ _ _ _ _ E1).
  destruct (rem l p) as [|c t] eqn:E; [by apply Hno|]. destruct (strchr toks c) eqn:T; [by eapply Hyes|by apply Hno].
Qed.

Definition parses (m : M nat cmd) (p : nat) : Prop := answers (advances cmd_ok p) (m p).

Lemma answers_advance {A} (Q : A -> Prop) p p' (o : outcome nat A) :
  (p <= p')%nat -> answers (advances Q p') o -> answers (advances Q p) o.
Proof using. destruct o; cbn; try done. unfold advances. intros ? [? ?]. split; [lia|done]. Qed.

(** What the four mutually recursive procedures promise with fuel [f]. *)
Definition promise (f : nat) : Prop :=
  (forall p, (p <= es)%nat -> (4 * (es - p) + 4 <= f)%nat -> parses (parseline l f) p) /\
  (forall p, (p <= es)%nat -> (4 * (es - p) + 3 <= f)%nat -> parses (parsepipe l f) p) /\
  (forall p, (p <= es)%nat -> (4 * (es - p) + 2 <= f)%nat -> parses (parseexec l f) p) /\
  (forall p c t, (p <= es)%nat -> rem l p = c :: t -> strchr [40] c = true -> (4 * (es - p) + 1 <= f)%nat -> parses (parseblock l f) p).

Lemma parseline_step f p : promise f -> (p <= es)%nat -> (4 * (es - p) + 4 <= S f)%nat -> parses (parseline l (S f)) p.
Proof using Hl.
  intros (IHl & IHp & _) Hp Hf. unfold parses. cbn [parseline]. eapply answers_bind; [apply (IHp p); lia|].
  intros c p1 [B1 Hc]. eapply answers_bind; [apply (parse_back_answers _ c p1); [lia|lia|done]|].
  intros c2 p2 [B2 Hc2]. apply peek_then; [lia|intros p3 B3 _; cbn; unfold advances; split; [lia|done]|].
  intros p3 d t B3 R3 _ _. apply symbol_then; [lia|by rewrite R3|]. intros p4 B4.
  eapply answers_bind; [apply (IHl p4); lia|]. intros r p5 [B5 Hr]. cbn. unfold advances. split; [lia|].
  destruct Hc2 as (? & ? & ?), Hr as (? & ? & ?). split; [by apply Forall_app_2|done].
Qed.

Lemma parsepipe_step f p : promise f -> (p <= es)%nat -> (4 * (es - p) + 3 <= S f)%nat -> parses (parsepipe l (S f)) p.
Proof using Hl.
  intros (_ & IHp & IHe & _) Hp Hf. unfold parses. cbn [parsepipe]. eapply answers_bind; [apply (IHe p); lia|].
  intros c p1 [B1 Hc]. apply peek_then; [lia|intros p3 B3 _; cbn; unfold advances; split; [lia|done]|].
  intros p3 d t B3 R3 _ _. apply symbol_then; [lia|by rewrite R3|]. intros p4 B4.
  eapply answers_bind; [apply (IHp p4); lia|]. intros r p5 [B5 Hr]. cbn. unfold advances. split; [lia|].
  destruct Hc as (? & ? & ?), Hr as (? & ? & ?). split; [by apply Forall_app_2|done].
Qed.

Lemma parseexec_step f p : promise f -> (p <= es)%nat -> (4 * (es - p) + 2 <= S f)%nat -> parses (parseexec l (S f)) p.
Proof using Hl.
  intros (_ & _ & _ & IHb) Hp Hf. unfold parses. cbn [parseexec]. apply peek_then; [lia| |].
  - intros p1 B1 _. eapply answers_bind; [apply (parseredirs_answers _ [] p1); [lia|lia|done]|].
    intros rs p2 [B2 Hrs]. eapply answers_bind; [apply (parse_args_answers _ [] rs p2); [lia|lia|done|cbn; unfold MAXARGS; lia|done]|].
    intros [argv rs'] p3 [B3 (Ha & Hm & Hrs')]. cbn. unfold advances. split; [lia|]. by apply cmd_ok_redirs.
  - intros p1 c t B1 R1 _ Hc. eapply answers_advance; [|apply (IHb p1 c t); done || lia]. lia.
Qed.

Lemma parseblock_step f p c t :
  promise f -> (p <= es)%nat -> rem l p = c :: t -> strchr [40] c = true -> (4 * (es - p) + 1 <= S f)%nat -> parses (parseblock l (S f)) p.
Proof using Hl.
  intros (IHl & _) Hp Hr Hs Hf. unfold parses. cbn [parseblock].
  destruct (peek_spec l Hl [40] p Hp) as (p1 & E1 & B1 & R1 & _). rewrite (bind_ok _ _ _ _ _ E1), Hr, Hs. cbn [negb].
  rewrite (bind_ok _ _ p1 tt p1) by done. apply symbol_then; [lia|by rewrite R1, Hr|]. intros p2 B2.
  eapply answers_bind; [apply (IHl p2); lia|]. intros c2 p3 [B3 Hc2].
  apply peek_then; [lia|intros; cbn; err|]. intros p4 d u B4 R4 _ _. cbn [negb]. rewrite (bind_ok _ _ p4 tt p4) by done.
  apply symbol_then; [lia|by rewrite R4|]. intros p5 B5.
  eapply answers_bind; [apply (parseredirs_answers _ [] p5); [lia|lia|done]|]. intros rs p6 [B6 Hrs].
  cbn. unfold advances. split; [lia|]. by apply cmd_ok_redirs.
Qed.

Lemma promise_all f : promise f.
Proof using Hl.
  induction f as [|f IH]; [split_and!; intros; lia|].
  split_and!; intros; eauto using parseline_step, parsepipe_step, parseexec_step, parseblock_step.
Qed.

Lemma parsecmd_tree_answers : answers (fun c _ => cmd_ok c) (parsecmd_tree l O).
Proof using Hl.
  unfold parsecmd_tree. destruct (promise_all (parse_fuel l)) as (Hp & _).
  eapply answers_bind; [apply (Hp 0%nat); unfold parse_fuel; lia|]. intros c p [B Hc].
  destruct (peek_spec l Hl [] p) as (p1 & E1 & _); [lia|]. rewrite (bind_ok _ _ _ _ _ E1).
  rewrite (bind_ok _ _ p1 p1 p1) by done. destruct (_ =? _)%nat; cbn; [done|err].
Qed.
End parse.

(** ** NUL termination *)

(** The C string at the start of [t]. *)
Fixpoint to_nul (t : list Z) : list Z :=
  match t with
  | c :: t' => if c =? 0 then [] else c :: to_nul t'
  | [] => []
  end.

Lemma to_nul_app w t : Forall (fun c => c <> 0) w -> to_nul (w ++ 0 :: t) = w.
Proof. induction 1 as [|c w Hc _ IH]; [done|]. cbn. rewrite IH. by destruct (Z.eqb_spec c 0). Qed.

(** Which characters nulterminate clears. *)
Definition ends (c : cmd) : list nat := snd <$> words c.

Lemma length_nulterminate c b : length (nulterminate c b) = length b.
Proof.
  revert b. induction c as [argv|c IH q e mode fd|x IHx y IHy|x IHx y IHy|c IH]; intros b; cbn; auto.
  - revert b. induction argv as [|a argv IH]; intros b; [done|]. cbn. by rewrite IH, length_insert.
  - by rewrite length_insert.
  - by rewrite IHy.
  - by rewrite IHy.
Qed.

Lemma nulterminate_lookup c b i :
  (i < length b)%nat -> nulterminate c b !! i = if decide (i ∈ ends c) then Some 0 else b !! i.
Proof.
  unfold ends. revert b. induction c as [argv|c IH q e mode fd|x IHx y IHy|x IHx y IHy|c IH]; intros b Hi; cbn; auto.
  - revert b Hi. induction argv as [|a argv IH]; intros b Hi; [done|]. cbn. rewrite IH by (by rewrite length_insert).
    destruct (decide (i = a.2)) as [->|Hne].
    + rewrite list_lookup_insert_eq by done. rewrite (decide_True (P := a.2 ∈ a.2 :: _)) by left. by case_decide.
    + rewrite list_lookup_insert_ne by done. repeat case_decide; try done; set_solver.
  - destruct (decide (i = e)) as [->|Hne].
    + rewrite list_lookup_insert_eq by (by rewrite length_nulterminate). by rewrite (decide_True (P := e ∈ e :: _)) by left.
    + rewrite list_lookup_insert_ne, IH by done. repeat case_decide; try done; set_solver.
  - rewrite IHy, IHx by (rewrite ?length_nulterminate; done). rewrite fmap_app. repeat case_decide; try done; set_solver.
  - rewrite IHy, IHx by (rewrite ?length_nulterminate; done). rewrite fmap_app. repeat case_decide; try done; set_solver.
Qed.

(** No word reaches over the end of another, so each becomes a string. *)
Lemma nulterminate_words s c q e :
  Forall (fun c => c <> 0) s -> Forall (word_at s) (words c) -> (q, e) ∈ words c ->
  to_nul (drop q (nulterminate c (s ++ [0]))) = slice s q (e - q).
Proof.
  intros Hs Hw Hin. assert (Hat : forall a, a ∈ words c -> word_at s a) by (by apply Forall_forall).
  destruct (Hat (q, e) Hin) as (B & W & _). unfold es in B.
  set (b := nulterminate c (s ++ [0])).
  assert (Hb : length b = S (length s)) by (unfold b; rewrite length_nulterminate, length_app; cbn; lia).
  assert (Hlk : forall i, (i < length b)%nat -> b !! i = if decide (i ∈ ends c) then Some 0 else (s ++ [0]) !! i).
  { intros i Hi. apply nulterminate_lookup. rewrite length_app. cbn. lia. }
  assert (E : drop q b = slice s q (e - q) ++ 0 :: drop (S e) b).
  { rewrite <- (take_drop (e - q) (drop q b)). f_equal.
    - apply list_eq. intros i. destruct (decide (i < e - q)%nat) as [Hi|]; [|unfold slice; rewrite !lookup_take_ge by lia; done].
      rewrite lookup_slice, lookup_take_lt, lookup_drop, Hlk by lia. rewrite decide_False; [by rewrite lookup_app_l by lia|].
      intros ([q' e'] & He & Hin')%list_elem_of_fmap. cbn in He. subst e'. destruct (Hat _ Hin') as (B' & _ & W').
      specialize (W (q + i)%nat ltac:(lia)). unfold es in *. rewrite W' in W; [done|lia].
    - rewrite drop_drop. replace (q + (e - q))%nat with e by lia. apply drop_S. rewrite Hlk by lia.
      rewrite decide_True; [done|]. apply list_elem_of_fmap. by exists (q, e). }
  rewrite E. apply to_nul_app. unfold slice. by apply Forall_take, Forall_drop.
Qed.

(** C35. The shell's parser answers every line.  For any command line, however
    long and however nested, parsecmd either panics with one of its four
    messages or returns a command each of whose words is a maximal run of
    characters that are neither white space nor symbols; in the buffer it
    leaves, the C string at the word is the word exactly, and every argv has
    room for its terminating null pointer. *)
Theorem parsecmd_answers s :
  Forall (fun c => c <> 0) s ->
  (exists m, parsecmd s = Panic m /\ m ∈ sh_errors) \/
  (exists c b, parsecmd s = Ok c b /\ length b = S (length s) /\ args_fit c /\
     forall q e, (q, e) ∈ words c -> word_at s (q, e) /\ to_nul (drop q b) = slice s q (e - q)).
Proof.
  intros Hs. unfold parsecmd. pose proof (parsecmd_tree_answers s Hs) as H.
  destruct (parsecmd_tree s O) as [c p|m| | | |]; try done; [right|left; by exists m].
  destruct H as (Hw & Ha & _). exists c, (nulterminate c (s ++ [0])). split_and!; try done.
  - rewrite length_nulterminate, length_app. cbn. lia.
  - intros q e Hin. split; [by apply (Forall_forall (word_at s) (words c))|]. by apply nulterminate_words.
Qed.

(** "cat <in|(wc x;ls)>>out &" *)
Definition sample_line : list Z :=
  [99;97;116;32;60;105;110;124;40;119;99;32;120;59;108;115;41;62;62;111;117;116;32;38].

Lemma parsecmd_answers_witness :
  Forall (fun c => c <> 0) sample_line /\
  ((exists m, parsecmd sample_line = Panic m /\ m ∈ sh_errors) \/
   (exists c b, parsecmd sample_line = Ok c b /\ length b = S (length sample_line) /\ args_fit c /\
      forall q e, (q, e) ∈ words c -> word_at sample_line (q, e) /\ to_nul (drop q b) = slice sample_line q (e - q))).
Proof. assert (H : Forall (fun c => c <> 0) sample_line) by (repeat constructor; done). split; [exact H|]. apply (parsecmd_answers sample_line H). Defined.
