(* ===== verification/ShPrint.v ===== *)
(** * Printing and parsing shell commands

    Commands with their words as text, how to print them as a command line,
    and that the shell's parser reads the line back as the command. *)

From S2P Require Import Prelude State Sh ShLex ShParse.
Open Scope Z_scope.

Inductive ast :=
| AExec (ws : list (list Z))
| ARedir (a : ast) (w : list Z) (mode fd : Z)
| APipe (x y : ast)
| AList (x y : ast)
| ABack (a : ast).

(** ** From positions to text *)

Section text.
Context (l : list Z).

Definition word_text (a : nat * nat) : list Z := slice l a.1 (a.2 - a.1).
Definition redir_text (r : redir) : list Z * Z * Z := (word_text r.1.1, r.1.2, r.2).

Fixpoint text (c : cmd) : ast :=
  match c with
  | EXEC argv => AExec (word_text <$> argv)
  | REDIR c q e mode fd => ARedir (text c) (word_text (q, e)) mode fd
  | PIPE x y => APipe (text x) (text y)
  | LIST x y => AList (text x) (text y)
  | BACK c => ABack (text c)
  end.

Definition wrap (a : ast) (rs : list (list Z * Z * Z)) : ast :=
  foldl (fun a r => ARedir a r.1.1 r.1.2 r.2) a rs.

Lemma text_redirs rs c : text (foldl redircmd c rs) = wrap (text c) (redir_text <$> rs).
Proof. revert c. induction rs as [|[[[q e] mode] fd] rs IH]; intros c; [done|]. cbn. by rewrite IH. Qed.
End text.

(** ** Printing *)

(** What a command is printed as: a line, a command that may be followed by
    [&], one side of a pipe, or a single command. *)
Inductive level := Line | Back | Pipe | Exec.

Definition paren (b : bool) (t : list Z) : list Z := if b then 40 :: t ++ [41] else t.
Definition show_word (w : list Z) : list Z := 32 :: w.
Definition show_redir (r : list Z * Z * Z) : list Z := 32 :: (if r.2 =? 0 then 60 else 62) :: r.1.1.
Definition show_words (ws : list (list Z)) : list Z := concat (show_word <$> ws).
Definition show_redirs (rs : list (list Z * Z * Z)) : list Z := concat (show_redir <$> rs).

Fixpoint show (a : ast) (lv : level) : list Z :=
  match a with
  | AExec ws => show_words ws
  | ARedir a w mode fd => show a Exec ++ show_redir (w, mode, fd)
  | APipe x y => paren (match lv with Exec => true | _ => false end) (show x Exec ++ 124 :: show y Pipe)
  | ABack x => paren (match lv with Exec | Pipe => true | _ => false end) (show x Back ++ [38])
  | AList x y => paren (match lv with Line => false | _ => true end) (show x Back ++ 59 :: show y Line)
  end.

(** The commands the shell's language has: words are not empty and hold no
    separators, redirections are the two that parseredirs makes, and the
    arguments fit argv. *)
Definition is_word (w : list Z) : Prop := w <> [] /\ Forall (fun c => word_char c = true /\ c <> 0) w.
Definition is_redir (r : list Z * Z * Z) : Prop :=
  is_word r.1.1 /\ ((r.1.2, r.2) = (O_RDONLY, 0) \/ (r.1.2, r.2) = (Z.lor O_WRONLY O_CREATE, 1)).

Fixpoint wf (a : ast) : Prop :=
  match a with
  | AExec ws => Forall is_word ws /\ (length ws < MAXARGS)%nat
  | ARedir a w mode fd => wf a /\ is_redir (w, mode, fd)
  | APipe x y | AList x y => wf x /\ wf y
  | ABack a => wf a
  end.

Lemma show_nonzero a lv : wf a -> Forall (fun c => c <> 0) (show a lv).
Proof.
  assert (Hw : forall w, is_word w -> Forall (fun c => c <> 0) w).
  { intros w [_ H]. eapply Forall_impl; [exact H|]. by intros ? []. }
  assert (Hp : forall b t, Forall (fun c => c <> 0) t -> Forall (fun c => c <> 0) (paren b t)).
  { intros [] t Ht; cbn; [|done]. constructor; [done|]. apply Forall_app_2; [done|by constructor]. }
  revert lv. induction a as [ws|a IH w mode fd|x IHx y IHy|x IHx y IHy|x IH]; intros lv; cbn -[show_redir].
  - intros [H _]. unfold show_words. induction H as [|w ws ? _ IH]; [constructor|]. cbn. constructor; [done|]. apply Forall_app_2; auto.
  - intros [Ha [H _]]. apply Forall_app_2; [auto|]. unfold show_redir. constructor; [done|]. constructor; [by destruct (_ =? _)|]. by apply Hw.
  - intros [Hx Hy]. apply Hp, Forall_app_2; [auto|]. constructor; auto.
  - intros [Hx Hy]. apply Hp, Forall_app_2; [auto|]. constructor; auto.
  - intros Hx. apply Hp, Forall_app_2; [auto|]. by constructor.
Qed.

(** ** What may follow *)

Definition follow (toks : list Z) (t : list Z) : Prop :=
  match strip t with c :: _ => strchr toks c = true | [] => True end.
(** No word goes on at the front of [t]. *)
Definition no_word (t : list Z) : Prop := match t with c :: _ => word_char c = false | [] => True end.

Lemma strchr_incl toks toks' c : toks ⊆ toks' -> strchr toks c = true -> strchr toks' c = true.
Proof.
  unfold strchr. rewrite !existsb_exists. intros H (x & Hx & E). exists x. split; [|done].
  apply list_elem_of_In. apply list_elem_of_In in Hx. by apply H.
Qed.

Lemma follow_incl toks toks' t : toks ⊆ toks' -> follow toks t -> follow toks' t.
Proof. unfold follow. destruct (strip t); [done|]. apply strchr_incl. Qed.

Lemma follow_no_word toks t : toks ⊆ symbols -> follow toks t -> no_word t.
Proof.
  intros H. destruct t as [|c t]; [done|]. unfold follow. cbn. unfold word_char. destruct (is_ws c) eqn:E; [done|].
  intros Hc. by rewrite (strchr_incl toks symbols c H Hc).
Qed.

Lemma is_word_head w : is_word w -> exists c w', w = c :: w' /\ word_char c = true.
Proof. intros [N H]. destruct w as [|c w]; [done|]. exists c, w. apply Forall_cons in H as [[? _] _]. done. Qed.

Lemma strip_word w t : is_word w -> strip (w ++ t) = w ++ t.
Proof. intros (c & w' & -> & H)%is_word_head. cbn. by rewrite word_char_not_ws. Qed.

Lemma word_of_word w t : is_word w -> no_word t -> word_of (w ++ t) = w.
Proof. intros [_ H] Ht. apply word_of_app; [|done]. eapply Forall_impl; [exact H|]. by intros ? []. Qed.

Lemma no_word_redirs rs t : no_word t -> no_word (show_redirs rs ++ t).
Proof. by destruct rs. Qed.
Lemma no_word_words ws t : no_word t -> no_word (show_words ws ++ t).
Proof. by destruct ws. Qed.

(** ** Reading back *)

Section read.
Context (l : list Z) (Hl : Forall (fun c => c <> 0) l).
#[local] Abbreviation es := (es l).

(** [m] run at [p] returns a value in [Q] and leaves the input [t]. *)
Definition reads {A} (m : M nat A) (p : nat) (Q : A -> Prop) (t : list Z) : Prop :=
  exists a p', m p = Ok a p' /\ (p' <= es)%nat /\ rem l p' = strip t /\ Q a.

Lemma reads_bind {A B} (m : M nat A) (f : A -> M nat B) p Q1 Q t t' :
  reads m p Q1 t -> (forall a p', (p' <= es)%nat -> rem l p' = strip t -> Q1 a -> reads (f a) p' Q t') -> reads (m ≫= f) p Q t'.
Proof using.
  intros (a & p' & E & B1 & R & H) Hf. destruct (Hf a p' B1 R H) as (b & p2 & E2 & H2). exists b, p2.
  by rewrite (bind_ok _ _ _ _ _ E).
Qed.

Lemma reads_ret {A} (a : A) p (Q : A -> Prop) t : (p <= es)%nat -> rem l p = strip t -> Q a -> reads (mret a) p Q t.
Proof using. intros. by exists a, p. Qed.

Lemma reads_peek toks p t :
  (p <= es)%nat -> rem l p = strip t ->
  reads (peek l toks) p (fun b => b = match strip t with c :: _ => strchr toks c | [] => false end) t.
Proof using Hl.
  intros Hp Hr. destruct (peek_spec l Hl toks p Hp) as (q & E & B & R & _). rewrite Hr in E, R. eexists _, q. split_and!; [exact E|lia|done|done].
Qed.

Lemma reads_symbol p c t :
  (p <= es)%nat -> rem l p = c :: t -> word_char c = false -> c <> 62 -> reads (gettoken l) p (fun tok => tok.1.1 = c) t.
Proof using Hl.
  intros Hp Hr Hw Hc. destruct (gettoken_symbol l Hl p c t Hp Hr Hw) as (q & e & p' & E & B & B' & R & _).
  assert (Hs : symbol c t = (c, t)) by (unfold symbol; destruct t; [done|]; by apply Z.eqb_neq in Hc as ->).
  rewrite Hs in *. exists (c, q, e), p'. split_and!; try done; lia.
Qed.

Lemma reads_word p w t :
  (p <= es)%nat -> rem l p = strip (w ++ t) -> is_word w -> no_word t ->
  reads (gettoken l) p (fun tok => tok.1.1 = 97 /\ word_text l (tok.1.2, tok.2) = w) t.
Proof using Hl.
  intros Hp Hr Hw Ht. destruct (is_word_head w Hw) as (c & w' & Ew & Hc).
  rewrite strip_word in Hr by done. assert (Hr' : rem l p = c :: w' ++ t) by (by rewrite Hr, Ew).
  destruct (gettoken_word l Hl p c _ Hp Hr' Hc) as (q & e & p' & E & B & B' & _ & S & R).
  change (c :: w' ++ t) with ((c :: w') ++ t) in S, R. rewrite <- Ew, word_of_word in S, R by done.
  exists (97, q, e), p'. split_and!; try done; [lia|]. rewrite R. by rewrite drop_app_length.
Qed.

(** The symbol of a redirection. *)
Lemma reads_redir_symbol p r t :
  (p <= es)%nat -> rem l p = (if r.2 =? 0 then 60 else 62) :: r.1.1 ++ t -> is_redir r ->
  reads (gettoken l) p (fun tok => tok.1.1 = if r.2 =? 0 then 60 else 62) (r.1.1 ++ t).
Proof using Hl.
  intros Hp Hr [Hw _]. destruct (is_word_head _ Hw) as (c & w' & Ew & Hc).
  destruct (r.2 =? 0); [by apply reads_symbol|].
  destruct (gettoken_symbol l Hl p 62 _ Hp Hr) as (q & e & p' & E & B & B' & R & _); [done|].
  assert (Hs : symbol 62 (r.1.1 ++ t) = (62, r.1.1 ++ t)).
  { rewrite Ew. cbn. destruct (Z.eqb_spec c 62) as [->|]; [|done]. done. }
  rewrite Hs in *. exists (62, q, e), p'. split_and!; try done; lia.
Qed.

Lemma reads_redirs rr n rs p t :
  (p <= es)%nat -> rem l p = strip (show_redirs rr ++ t) -> Forall is_redir rr -> (length rr < n)%nat ->
  no_word t -> match strip t with c :: _ => strchr [60; 62] c = false | [] => True end ->
  reads (parseredirs l rs n) p (fun rs' => redir_text l <$> rs' = (redir_text l <$> rs) ++ rr) t.
Proof using Hl.
  revert n rs p. induction rr as [|r rr IH]; intros n rs p Hp Hr Hrr Hn Hnw Ht; destruct n as [|n]; try (cbn in Hn; lia); cbn [parseredirs].
  - eapply reads_bind; [by apply reads_peek|]. intros b p1 B1 R1 ->. cbn in *.
    destruct (strip t) eqn:Es; rewrite ?Ht; apply reads_ret; rewrite ?Es; try done; by rewrite app_nil_r.
  - apply Forall_cons in Hrr as [Hr1 Hrr]. destruct r as [[w mode] fd]. cbn [show_redirs] in Hr.
    assert (Hr' : rem l p = strip ((if fd =? 0 then 60 else 62) :: w ++ show_redirs rr ++ t)) by (rewrite Hr; cbn; by rewrite <- app_assoc).
    clear Hr. rewrite strip_head in Hr' by (by destruct (fd =? 0)).
    destruct (peek_spec l Hl [60; 62] p Hp) as (p1 & E1 & B1 & R1 & _). rewrite Hr' in E1, R1.
    destruct (reads_redir_symbol p1 (w, mode, fd) (show_redirs rr ++ t)) as ([[tok q0] e0] & p2 & E2 & B2 & R2 & T2); [lia|done|done|].
    destruct (reads_word p2 w (show_redirs rr ++ t)) as ([[tok3 q] e] & p3 & E3 & B3 & R3 & T3 & W3); [done|done|apply Hr1|by apply no_word_redirs|].
    cbn in T2, T3, W3. subst tok tok3.
    destruct (IH n (rs ++ [(q, e, mode, fd)]) p3) as (rs' & p4 & E4 & B4 & R4 & Q4); try done; [cbn in Hn; lia|].
    exists rs', p4. split_and!; try done; [|rewrite Q4, fmap_app, <- app_assoc; cbn; by unfold redir_text at 2; cbn; rewrite W3].
    rewrite (bind_ok _ _ _ _ _ E1). replace (strchr [60; 62] _) with true by (by destruct (fd =? 0)).
    rewrite (bind_ok _ _ _ _ _ E2), (bind_ok _ _ _ _ _ E3). cbn beta iota. rewrite (bind_ok _ _ p3 tt p3) by done.
    destruct Hr1 as [_ [Hmf|Hmf]]; cbn in Hmf; injection Hmf as -> ->; done.
Qed.

Lemma follow_exec_tests t :
  follow [124; 41; 38; 59] t ->
  no_word t /\ match strip t with c :: _ => strchr [60; 62] c = false /\ strchr [40] c = false | [] => True end.
Proof using.
  intros H. split; [eapply follow_no_word, H; unfold symbols; set_solver+|]. unfold follow in H.
  destruct (strip t) as [|c u]; [done|]. unfold strchr in *. cbn in *. lia.
Qed.

(** Redirections end at the next word. *)
Lemma reads_redirs_ws ws rr rs p t :
  (p <= es)%nat -> rem l p = strip (show_words ws ++ show_redirs rr ++ t) ->
  Forall is_word ws -> Forall is_redir rr -> (length rr <= es)%nat -> follow [124; 41; 38; 59] t ->
  exists rr1 rr2, rr = rr1 ++ rr2 /\ (ws = [] -> rr2 = []) /\
    reads (parseredirs l rs (S es)) p (fun rs' => redir_text l <$> rs' = (redir_text l <$> rs) ++ rr1) (show_words ws ++ show_redirs rr2 ++ t).
Proof using Hl.
  intros Hp Hr Hws Hrr Hes Hf. destruct (follow_exec_tests t Hf) as [Hnw Ht]. destruct ws as [|w ws].
  - exists rr, []. rewrite app_nil_r. split_and!; try done. apply reads_redirs; try done; [lia|]. cbn. destruct (strip t); tauto.
  - exists [], rr. split_and!; try done. apply reads_redirs; try done; [cbn; lia|].
    apply Forall_cons in Hws as [Hw _]. cbn. rewrite <- app_assoc, strip_word by done.
    destruct (is_word_head w Hw) as (d & v' & -> & Hd). cbn. unfold word_char, strchr, symbols in *. cbn in *. lia.
Qed.

(** The arguments after the leading redirections; the redirections [rr] come
    after the last of them. *)
Lemma reads_args ws rr n argv rs p t :
  (p <= es)%nat -> rem l p = strip (show_words ws ++ show_redirs rr ++ t) ->
  Forall is_word ws -> Forall is_redir rr -> (ws = [] -> rr = []) -> (length argv + length ws < MAXARGS)%nat ->
  (length ws < n)%nat -> (length rr <= es)%nat -> follow [124; 41; 38; 59] t ->
  reads (parse_args l argv rs n) p (fun a => word_text l <$> a.1 = (word_text l <$> argv) ++ ws /\
    redir_text l <$> a.2 = (redir_text l <$> rs) ++ rr) t.
Proof using Hl.
  revert rr n argv rs p. induction ws as [|w ws IH]; intros rr n argv rs p Hp Hr Hws Hrr He Hm Hn Hes Hf; destruct n as [|n]; try (cbn in Hn; lia); cbn [parse_args].
  - rewrite He in * by done. cbn in Hr. eapply reads_bind; [by apply reads_peek|]. intros b p1 B1 R1 ->. unfold follow in Hf.
    destruct (strip t) as [|c u] eqn:Es.
    + cbn [negb]. destruct (gettoken_end l Hl p1 B1 R1) as (q & E & ->). exists (argv, rs), es. rewrite (bind_ok _ _ _ _ _ E). cbn.
      split_and!; try done; [|by rewrite app_nil_r|by rewrite app_nil_r]. unfold rem. by rewrite drop_ge by (unfold Sh.es; lia).
    + rewrite Hf. cbn [negb]. apply reads_ret; rewrite ?Es; try done. by rewrite !app_nil_r.
  - apply Forall_cons in Hws as [Hw Hws]. destruct (is_word_head w Hw) as (c & w' & Ew & Hc).
    destruct (follow_exec_tests t Hf) as [Hnw _].
    assert (Hr' : rem l p = strip (w ++ show_words ws ++ show_redirs rr ++ t)) by (rewrite Hr; cbn; by rewrite <- app_assoc). clear Hr.
    eapply reads_bind; [by apply reads_peek|]. intros b p1 B1 R1 ->. rewrite strip_word, Ew by done. cbn [app].
    replace (strchr [124; 41; 38; 59] c) with false by (unfold word_char, strchr, symbols in *; cbn in *; lia). cbn [negb].
    eapply reads_bind; [apply (reads_word p1 w (show_words ws ++ show_redirs rr ++ t)); try done; by apply no_word_words, no_word_redirs|].
    intros [[tok q] e] p2 B2 R2 [T2 W2]. cbn in T2, W2. subst tok. cbn [Z.eqb Pos.eqb negb].
    cbn [length] in *.
    destruct (reads_redirs_ws ws rr rs p2 t) as (rr1 & rr2 & -> & He2 & rs' & p3 & E3 & B3 & R3 & Q3); try done.
    apply Forall_app in Hrr as [_ Hrr2]. rewrite length_app in Hes.
    destruct (IH rr2 n (argv ++ [(q, e)]) rs' p3) as (a & p4 & E4 & B4 & R4 & Q4 & Q5); try done; [rewrite length_app; cbn; lia|lia|lia|].
    exists a, p4. split_and!; try done.
    + rewrite (bind_ok _ _ p2 tt p2) by done. cbn zeta.
      replace (MAXARGS <=? length (argv ++ [(q, e)]))%nat with false by (symmetry; apply Nat.leb_gt; rewrite length_app; cbn; lia).
      rewrite (bind_ok _ _ p2 tt p2) by done. by rewrite (bind_ok _ _ _ _ _ E3).
    + rewrite Q4, fmap_app, <- app_assoc. cbn. by rewrite W2, <- Ew.
    + by rewrite Q5, Q3, <- app_assoc.
Qed.

Lemma length_show_words ws t : Forall is_word ws -> (length ws <= length (strip (show_words ws ++ t)))%nat.
Proof using.
  intros H. destruct H as [|w ws Hw Hws]; [cbn; lia|].
  change (strip (show_words (w :: ws) ++ t)) with (strip ((w ++ show_words ws) ++ t)). rewrite <- app_assoc, strip_word, !length_app by done.
  destruct w; [by destruct Hw|]. cbn. induction ws as [|v ws IH]; cbn; [lia|]. apply Forall_cons in Hws as [_ Hws].
  specialize (IH Hws). unfold show_words in IH. rewrite length_app. lia.
Qed.

Lemma length_show_redirs rr u t : (length rr <= length (strip (u ++ show_redirs rr ++ t)))%nat.
Proof using.
  revert u. induction rr as [|r rr IH]; intros u; [cbn; lia|].
  replace (u ++ show_redirs (r :: rr) ++ t) with ((u ++ [32]) ++ (if r.2 =? 0 then 60 else 62) :: r.1.1 ++ show_redirs rr ++ t)
    by (cbn; rewrite <- !app_assoc; done).
  pose proof (length_strip_app (u ++ [32]) (if r.2 =? 0 then 60 else 62) (r.1.1 ++ show_redirs rr ++ t)) as H.
  specialize (IH r.1.1). pose proof (length_strip (r.1.1 ++ show_redirs rr ++ t)). cbn [length].
  assert (is_ws (if r.2 =? 0 then 60 else 62) = false) by (by destruct (r.2 =? 0)). specialize (H ltac:(done)). lia.
Qed.

(** ** One statement for each procedure *)

Definition reads_exec (a : ast) : Prop := forall rr t p f,
  (p <= es)%nat -> rem l p = strip (show a Exec ++ show_redirs rr ++ t) -> Forall is_redir rr ->
  follow [124; 41; 38; 59] t -> (4 * length (rem l p) + 2 <= f)%nat ->
  reads (parseexec l f) p (fun c => text l c = wrap a rr) t.
Definition reads_pipe (a : ast) : Prop := forall t p f,
  (p <= es)%nat -> rem l p = strip (show a Pipe ++ t) -> follow [41; 38; 59] t -> (4 * length (rem l p) + 3 <= f)%nat ->
  reads (parsepipe l f) p (fun c => text l c = a) t.
Definition reads_back (a : ast) : Prop := forall n t p f,
  (p <= es)%nat -> rem l p = strip (show a Back ++ replicate n 38 ++ t) -> follow [41; 59] t -> (4 * length (rem l p) + 3 <= f)%nat ->
  reads (c ← parsepipe l f; parse_back l c (S es)) p (fun c => text l c = Nat.iter n ABack a) t.
Definition reads_line (a : ast) : Prop := forall t p f,
  (p <= es)%nat -> rem l p = strip (show a Line ++ t) -> follow [41] t -> (4 * length (rem l p) + 4 <= f)%nat ->
  reads (parseline l f) p (fun c => text l c = a) t.

Lemma read_exec ws : wf (AExec ws) -> reads_exec (AExec ws).
Proof using Hl.
  intros [Hws Hm] rr t p f Hp Hr Hrr Hf Hfu. destruct f as [|f]; [lia|]. cbn [parseexec]. cbn [show] in Hr.
  destruct (follow_exec_tests t Hf) as [Hnw Ht].
  pose proof (length_rem l p) as Hlen. pose proof (length_show_words ws (show_redirs rr ++ t) Hws) as L1.
  pose proof (length_show_redirs rr (show_words ws) t) as L2. rewrite <- Hr in L1, L2.
  eapply reads_bind; [by apply reads_peek|]. intros b p1 B1 R1 Hb.
  assert (b = false) as ->.
  { cbn beta in Hb. subst b. destruct ws as [|w ws]; [destruct rr as [|r rr]|].
    - cbn. destruct (strip t); tauto.
    - cbn. by destruct (r.2 =? 0).
    - apply Forall_cons in Hws as [Hw _]. cbn. rewrite <- app_assoc, strip_word by done.
      destruct (is_word_head w Hw) as (d & v' & -> & Hd). cbn. unfold word_char, strchr, symbols in *. cbn in *. lia. }
  destruct (reads_redirs_ws ws rr [] p1 t) as (rr1 & rr2 & -> & He2 & H1); try done; [lia|].
  apply Forall_app in Hrr as [_ Hrr2]. rewrite length_app in L2.
  eapply reads_bind; [exact H1|]. intros rs p2 B2 R2 Q2.
  eapply reads_bind; [apply (reads_args ws rr2 (S es) [] rs p2 t); try done; lia|].
  intros [argv rs'] p3 B3 R3 [Q3 Q4]. apply reads_ret; try done. cbn in *. by rewrite text_redirs, Q4, Q2; cbn; rewrite Q3.
Qed.

Lemma read_redir a w mode fd : is_redir (w, mode, fd) -> reads_exec a -> reads_exec (ARedir a w mode fd).
Proof using.
  intros Hr H rr t p f Hp Hrem Hrr Hf Hfu. apply (H ((w, mode, fd) :: rr) t p f); try done; [|by constructor].
  rewrite Hrem. cbn [show]. change (show_redirs ((w, mode, fd) :: rr)) with (show_redir (w, mode, fd) ++ show_redirs rr).
  by rewrite <- !app_assoc.
Qed.

(** Looking ahead at an input [u] leaves it there. *)
Lemma reads_ahead {A} toks (k : bool -> M nat A) p u Q t :
  (p <= es)%nat -> rem l p = u ->
  (forall p', (p' <= es)%nat -> rem l p' = u -> reads (k (match u with c :: _ => strchr toks c | [] => false end)) p' Q t) ->
  reads (peek l toks ≫= k) p Q t.
Proof using Hl.
  intros Hp Hr Hk. destruct (peek_spec l Hl toks p Hp) as (q & E & B & R & _). rewrite Hr in E, R.
  destruct (Hk q ltac:(lia) R) as (a & p' & E' & H). exists a, p'. by rewrite (bind_ok _ _ _ _ _ E).
Qed.

(** A parenthesis that must be there. *)
Lemma reads_expect {A} c msg (k : M nat A) p u Q t :
  (p <= es)%nat -> rem l p = c :: u -> c = 40 \/ c = 41 ->
  (forall p', (p' <= es)%nat -> rem l p' = strip u -> reads k p' Q t) ->
  reads (b ← peek l [c]; panic_if (negb b) msg;; gettoken l;; k) p Q t.
Proof using Hl.
  intros Hp Hr Hc Hk. eapply reads_ahead; [done|done|]. intros p1 B1 R1.
  cbn beta iota. assert (strchr [c] c = true) as -> by (unfold strchr; cbn; lia).
  destruct (reads_symbol p1 c u) as (tok & p2 & E2 & B2 & R2 & _); [done|done|by destruct Hc as [-> | ->]|lia|].
  destruct (Hk p2 B2 R2) as (a & p' & E' & H). exists a, p'. rewrite (bind_ok _ _ p1 tt p1) by done.
  by rewrite (bind_ok _ _ _ _ _ E2).
Qed.

(** A command in parentheses. *)
Lemma read_paren a : show a Exec = paren true (show a Line) -> reads_line a -> reads_exec a.
Proof using Hl.
  intros Es H rr t p f Hp Hr Hrr Hf Hfu. destruct f as [|[|f]]; [lia|lia|]. destruct (follow_exec_tests t Hf) as [Hnw Ht].
  pose proof (length_rem l p) as Hlen. pose proof (length_show_redirs rr (show a Exec) t) as L2. rewrite <- Hr in L2.
  rewrite Es in Hr. cbn [paren app] in Hr. rewrite <- app_assoc in Hr. cbn [app] in Hr. rewrite strip_head in Hr by done.
  eapply (reads_ahead [40]); [done|exact Hr|]. intros p1 B1 R1. change (strchr [40] 40) with true. cbn iota.
  eapply (reads_expect 40 "parseblock"); [done|done|by left|]. intros p2 B2 R2.
  eapply reads_bind; [apply (H (41 :: show_redirs rr ++ t) p2 f); try done|].
  { rewrite R2. pose proof (length_strip (show a Line ++ 41 :: show_redirs rr ++ t)). rewrite Hr in Hfu. cbn [length] in Hfu. lia. }
  intros c p3 B3 R3 Hc. rewrite strip_head in R3 by done.
  eapply reads_expect; [done|done|by right|]. intros p4 B4 R4.
  eapply reads_bind; [apply (reads_redirs rr (S es) [] p4 t); try done; [lia|destruct (strip t); tauto]|].
  intros rs p5 B5 R5 Q5. apply reads_ret; try done. rewrite text_redirs, Q5, Hc. done.
Qed.

(** A command alone in a pipeline. *)
Lemma read_single_pipe a : show a Pipe = show a Exec -> reads_exec a -> reads_pipe a.
Proof using Hl.
  intros Es H t p f Hp Hr Hf Hfu. destruct f as [|f]; [lia|]. cbn [parsepipe]. rewrite Es in Hr.
  eapply reads_bind; [apply (H [] t p f); try done; [eapply follow_incl, Hf; set_solver+|lia]|].
  intros c p1 B1 R1 Hc. eapply reads_ahead; [done|done|]. intros p2 B2 R2. unfold follow in Hf.
  destruct (strip t) as [|d u] eqn:Et; [by apply reads_ret; rewrite ?Et|].
  replace (strchr [124] d) with false by (unfold strchr in *; cbn in *; lia). by apply reads_ret; rewrite ?Et.
Qed.

Lemma read_pipe x y : reads_exec x -> reads_pipe y -> reads_pipe (APipe x y).
Proof using Hl.
  intros Hx Hy t p f Hp Hr Hf Hfu. destruct f as [|f]; [lia|]. cbn [parsepipe].
  cbn [show paren] in Hr. rewrite <- app_assoc in Hr. cbn [app] in Hr.
  pose proof (length_strip_app (show x Exec) 124 (show y Pipe ++ t) eq_refl) as Hlen. rewrite <- Hr in Hlen.
  eapply reads_bind; [apply (Hx [] (124 :: show y Pipe ++ t) p f); try done; lia|].
  intros c p1 B1 R1 Hc. rewrite strip_head in R1 by done. eapply reads_ahead; [done|done|]. intros p2 B2 R2.
  change (strchr [124] 124) with true. cbn iota. eapply reads_bind; [by apply (reads_symbol p2 _ _ B2 R2)|]. intros _ p3 B3 R3 _.
  eapply reads_bind; [apply (Hy t p3 f); try done; rewrite R3; pose proof (length_strip (show y Pipe ++ t)); lia|].
  intros r p4 B4 R4 Hr4. apply reads_ret; try done. cbn. by rewrite Hc, Hr4.
Qed.

(** The [&]s after a pipeline. *)
Lemma read_backs n m c a p t :
  (p <= es)%nat -> rem l p = strip (replicate n 38 ++ t) -> follow [41; 59] t -> (n < m)%nat -> text l c = a ->
  reads (parse_back l c m) p (fun c => text l c = Nat.iter n ABack a) t.
Proof using Hl.
  revert m c a p. induction n as [|n IH]; intros m c a p Hp Hr Hf Hm Hc; destruct m as [|m]; try lia; cbn [parse_back].
  - eapply reads_ahead; [done|done|]. intros p2 B2 R2. unfold follow in Hf. cbn [replicate app] in *.
    destruct (strip t) as [|d u] eqn:Et; [by apply reads_ret; rewrite ?Et|].
    replace (strchr [38] d) with false by (unfold strchr in *; cbn in *; lia). by apply reads_ret; rewrite ?Et.
  - cbn [replicate app] in Hr. rewrite strip_head in Hr by done. eapply reads_ahead; [done|done|]. intros p2 B2 R2.
    change (strchr [38] 38) with true. cbn iota. eapply reads_bind; [by apply (reads_symbol p2 _ _ B2 R2)|]. intros _ p3 B3 R3 _.
    rewrite Nat.iter_succ_r. apply IH; try done; [lia|]. cbn. by rewrite Hc.
Qed.

Lemma read_single_back a : show a Back = show a Pipe -> reads_pipe a -> reads_back a.
Proof using Hl.
  intros Es H n t p f Hp Hr Hf Hfu. rewrite Es in Hr.
  assert (Hn : (n <= length (rem l p))%nat).
  { rewrite Hr. destruct n as [|n]; [lia|]. change (replicate (S n) 38 ++ t) with (38 :: replicate n 38 ++ t).
    pose proof (length_strip_app (show a Pipe) 38 (replicate n 38 ++ t) eq_refl). rewrite length_app, length_replicate in *. lia. }
  pose proof (length_rem l p). eapply reads_bind; [apply (H (replicate n 38 ++ t) p f); try done|].
  - destruct n; [eapply follow_incl, Hf; set_solver+|done].
  - intros c p1 B1 R1 Hc. apply read_backs; try done. lia.
Qed.

Lemma read_back a : reads_back a -> reads_back (ABack a).
Proof using.
  intros H n t p f Hp Hr Hf Hfu. destruct (H (S n) t p f) as (c & p' & E & B & R & Q); try done.
  - rewrite Hr. cbn [show paren]. rewrite <- app_assoc. done.
  - exists c, p'. split_and!; try done. by rewrite Q, Nat.iter_succ_r.
Qed.

Lemma read_single_line a : show a Line = show a Back -> reads_back a -> reads_line a.
Proof using Hl.
  intros Es H t p f Hp Hr Hf Hfu. destruct f as [|f]; [lia|]. cbn [parseline]. rewrite Es in Hr.
  destruct (H O t p f) as (c & p1 & E & B1 & R1 & Q1); try done; [eapply follow_incl, Hf; set_solver+|lia|].
  apply bind_inv in E as (c0 & p0 & E0 & E1).
  enough (Hk : reads (b ← peek l [59]; if b : bool then gettoken l;; r ← parseline l f; mret (LIST c r) else mret c) p1 (fun c => text l c = a) t).
  { destruct Hk as (c2 & p2 & E2 & H2). exists c2, p2. rewrite (bind_ok _ _ _ _ _ E0). by rewrite (bind_ok _ _ _ _ _ E1). }
  eapply reads_ahead; [done|done|]. intros p2 B2 R2. unfold follow in Hf.
  destruct (strip t) as [|d u] eqn:Et; [by apply reads_ret; rewrite ?Et|].
  replace (strchr [59] d) with false by (unfold strchr in *; cbn in *; lia). by apply reads_ret; rewrite ?Et.
Qed.

Lemma read_list x y : reads_back x -> reads_line y -> reads_line (AList x y).
Proof using Hl.
  intros Hx Hy t p f Hp Hr Hf Hfu. destruct f as [|f]; [lia|]. cbn [parseline].
  cbn [show paren] in Hr. rewrite <- app_assoc in Hr. cbn [app] in Hr.
  pose proof (length_strip_app (show x Back) 59 (show y Line ++ t) eq_refl) as Hlen. rewrite <- Hr in Hlen.
  destruct (Hx O (59 :: show y Line ++ t) p f) as (c & p1 & E & B1 & R1 & Q1); try done; [lia|].
  apply bind_inv in E as (c0 & p0 & E0 & E1). rewrite strip_head in R1 by done.
  enough (Hk : reads (b ← peek l [59]; if b : bool then gettoken l;; r ← parseline l f; mret (LIST c r) else mret c) p1 (fun c => text l c = AList x y) t).
  { destruct Hk as (c2 & p2 & E2 & H2). exists c2, p2. rewrite (bind_ok _ _ _ _ _ E0). by rewrite (bind_ok _ _ _ _ _ E1). }
  eapply reads_ahead; [done|done|]. intros p2 B2 R2. change (strchr [59] 59) with true. cbn iota.
  eapply reads_bind; [by apply (reads_symbol p2 _ _ B2 R2)|]. intros _ p3 B3 R3 _.
  eapply reads_bind; [apply (Hy t p3 f); try done; rewrite R3; pose proof (length_strip (show y Line ++ t)); lia|].
  intros r p4 B4 R4 Hr4. apply reads_ret; try done. cbn. by rewrite Q1, Hr4.
Qed.

Lemma read_all a : wf a -> reads_exec a /\ reads_pipe a /\ reads_back a /\ reads_line a.
Proof using Hl.
  induction a as [ws|a IH w mode fd|x IHx y IHy|x IHx y IHy|x IH]; intros Hwf.
  - assert (reads_exec (AExec ws)) by (by apply read_exec). split_and!; auto 6 using read_single_pipe, read_single_back, read_single_line.
  - destruct Hwf as [Hwf Hr]. destruct (IH Hwf) as (He & _). assert (reads_exec (ARedir a w mode fd)) by (by apply read_redir).
    split_and!; auto 6 using read_single_pipe, read_single_back, read_single_line.
  - destruct Hwf as [Hx Hy]. destruct (IHx Hx) as (Ex & _), (IHy Hy) as (_ & Py & _).
    assert (reads_pipe (APipe x y)) by (by apply read_pipe). split_and!; auto 6 using read_single_back, read_single_line, read_paren.
  - destruct Hwf as [Hx Hy]. destruct (IHx Hx) as (_ & _ & Bx & _), (IHy Hy) as (_ & _ & _ & Ly).
    assert (reads_line (AList x y)) by (by apply read_list). split_and!; auto 6 using read_single_pipe, read_single_back, read_paren.
  - destruct (IH Hwf) as (_ & _ & Bx & _). assert (reads_back (ABack x)) by (by apply read_back).
    assert (reads_line (ABack x)) by (by apply read_single_line). split_and!; auto 6 using read_single_pipe, read_paren.
Qed.
End read.

(** C34. Parsing a printed command gives the command back.  Every command of
    the shell's language, printed as a line with parentheses where the grammar
    needs them, is parsed by parsecmd to a command with the same structure,
    the same words, redirections in the same order and the same modes. *)
Theorem parse_show a :
  wf a -> exists c b, parsecmd (show a Line) = Ok c b /\ text (show a Line) c = a.
Proof.
  intros Hwf. set (l := show a Line). assert (Hl : Forall (fun c => c <> 0) l) by (by apply show_nonzero).
  destruct (read_all l Hl a Hwf) as (_ & _ & _ & H).
  destruct (H [] O (parse_fuel l)) as (c & p & E & B & R & Q); [lia|unfold rem; by rewrite app_nil_r|done| |].
  { pose proof (length_rem l O). unfold parse_fuel. lia. }
  destruct (peek_spec l Hl [] p B) as (q & E2 & B2 & R2 & D2). rewrite R in D2. cbn in D2.
  assert (q = es l) as ->.
  { assert (length (drop q l) = 0%nat) as L by (by rewrite D2). rewrite length_drop in L. unfold es in *. lia. }
  exists c, (nulterminate c (l ++ [0])). split; [|done]. unfold parsecmd, parsecmd_tree.
  rewrite (bind_ok _ _ _ _ _ E), (bind_ok _ _ _ _ _ E2), (bind_ok _ _ (es l) (es l) (es l)) by done.
  by rewrite Nat.eqb_refl.
Qed.

(** (cat <in | wc x) & ; ls *)
Definition sample_ast : ast :=
  AList (ABack (APipe (ARedir (AExec [[99; 97; 116]]) [105; 110] O_RDONLY 0) (AExec [[119; 99]; [120]]))) (AExec [[108; 115]]).

Lemma parse_show_witness :
  wf sample_ast /\ exists c b, parsecmd (show sample_ast Line) = Ok c b /\ text (show sample_ast Line) c = sample_ast.
Proof.
  assert (H : wf sample_ast).
  { repeat split; try (unfold MAXARGS; cbn; lia); repeat constructor; done. }
  split; [exact H|]. apply (parse_show sample_ast H).
Defined.
