(* ===== verification/ShRun.v ===== *)
(** * What the shell runs, and on which descriptors

    The calls of runcmd are carried out on the descriptor tables of the
    processes it forks, when every call succeeds; the result is the programs
    that are executed, each with its table.  [wiring] is what the command says. *)

From S2P Require Import Prelude State Sh ShParse.
Open Scope Z_scope.

(** What a descriptor refers to; pipes are numbered. *)
Inductive ofd := Std (i : nat) | OpenFile (name : nat) (mode : Z) | ReadEnd (n : nat) | WriteEnd (n : nat).
Abbreviation fdtable := (list (option ofd)).

(** fdalloc: the lowest descriptor that is not in use. *)
Fixpoint fd_alloc (T : fdtable) (o : ofd) : option (nat * fdtable) :=
  match T with
  | [] => None
  | None :: T' => Some (O, Some o :: T')
  | Some o' :: T' => match fd_alloc T' o with Some (i, T'') => Some (S i, Some o' :: T'') | None => None end
  end.
Definition fd_close (T : fdtable) (fd : Z) : fdtable := <[Z.to_nat fd := None]> T.
Definition fd_get (T : fdtable) (fd : Z) : option ofd := mjoin (T !! Z.to_nat fd).

(** A program that is executed: the name, the arguments and the descriptors. *)
Definition started : Type := nat * list nat * fdtable.

(** Carries out the calls of [p] in a process with the table [T]; [n] is the
    number of the next pipe.  A call that would fail ends the process. *)
Fixpoint run_calls (p : prog) (T : fdtable) (n : nat) : list started * nat :=
  match p with
  | Exit => ([], n)
  | Call c k =>
    match c with
    | Sfork =>
      let '(l, n) := run_calls (k 0) T n in
      let '(r, n) := run_calls (k 1) T n in (l ++ r, n)
    | Sexec path argv => ([(path, argv, T)], n)
    | Sopen file mode =>
      match fd_alloc T (OpenFile file mode) with
      | Some (fd, T') => run_calls (k (Z.of_nat fd)) T' n
      | None => ([], n)
      end
    | Sclose fd => run_calls (k 0) (fd_close T fd) n
    | Sdup fd =>
      match fd_get T fd with
      | Some o => match fd_alloc T o with Some (fd', T') => run_calls (k (Z.of_nat fd')) T' n | None => ([], n) end
      | None => ([], n)
      end
    | Swait => run_calls (k 1) T n
    | Sprint _ _ => run_calls (k 0) T n
    end
  | CallPipe k =>
    match fd_alloc T (ReadEnd n) with
    | Some (p0, T1) =>
      match fd_alloc T1 (WriteEnd n) with
      | Some (p1, T2) => run_calls (k 0 (Z.of_nat p0) (Z.of_nat p1)) T2 (S n)
      | None => ([], n)
      end
    | None => ([], n)
    end
  end.

(** The three standard descriptors of a process. *)
Record stdfds := mkStd { fd_in : ofd; fd_out : ofd; fd_err : ofd }.
Definition table_of (s : stdfds) : fdtable := [Some (fd_in s); Some (fd_out s); Some (fd_err s)] ++ replicate 13 None.

Definition set_std (fd : Z) (o : ofd) (s : stdfds) : stdfds :=
  if fd =? 0 then mkStd o (fd_out s) (fd_err s) else if fd =? 1 then mkStd (fd_in s) o (fd_err s) else mkStd (fd_in s) (fd_out s) o.

(** What a command says: which programs run, on which descriptors. *)
Fixpoint wiring (c : cmd) (s : stdfds) (n : nat) : list (nat * list nat * stdfds) * nat :=
  match c with
  | EXEC [] => ([], n)
  | EXEC (((q, _) :: _) as argv) => ([(q, fst <$> argv, s)], n)
  | REDIR c file _ mode fd => wiring c (set_std fd (OpenFile file mode) s) n
  | LIST x y => let '(l, n) := wiring x s n in let '(r, n) := wiring y s n in (l ++ r, n)
  | PIPE x y =>
    let '(l, n') := wiring x (set_std 1 (WriteEnd n) s) (S n) in
    let '(r, n') := wiring y (set_std 0 (ReadEnd n) s) n' in (l ++ r, n')
  | BACK c => wiring c s n
  end.

Lemma run_fork1 k T n : run_calls (fork1 k) T n =
  let '(l, n) := run_calls (k 0) T n in let '(r, n) := run_calls (k 1) T n in (l ++ r, n).
Proof. done. Qed.

(** Closing and opening a standard descriptor gives the same one. *)
Lemma reopen_std fd o s : fd = 0 \/ fd = 1 ->
  fd_alloc (fd_close (table_of s) fd) o = Some (Z.to_nat fd, table_of (set_std fd o s)).
Proof. by intros [-> | ->]. Qed.

Definition started_on (e : nat * list nat * stdfds) : started := (e.1, table_of e.2).

(** The table between pipe and the closing of its ends. *)
Definition table_pipe (s : stdfds) (n : nat) : fdtable :=
  [Some (fd_in s); Some (fd_out s); Some (fd_err s); Some (ReadEnd n); Some (WriteEnd n)] ++ replicate 11 None.

Lemma run_left p s m n :
  run_calls (Call (Sclose 1) (fun _ => Call (Sdup 4) (fun _ => Call (Sclose 3) (fun _ => Call (Sclose 4) (fun _ => p))))) (table_pipe s m) n =
  run_calls p (table_of (set_std 1 (WriteEnd m) s)) n.
Proof. done. Qed.

Lemma run_right p s m n :
  run_calls (Call (Sclose 0) (fun _ => Call (Sdup 3) (fun _ => Call (Sclose 3) (fun _ => Call (Sclose 4) (fun _ => p))))) (table_pipe s m) n =
  run_calls p (table_of (set_std 0 (ReadEnd m) s)) n.
Proof. done. Qed.

Lemma run_pipe k s n : run_calls (CallPipe k) (table_of s) n = run_calls (k 0 3 4) (table_pipe s n) (S n).
Proof. done. Qed.

Lemma runcmd_wiring c : forall s n, redirs_std c ->
  run_calls (runcmd c) (table_of s) n = (started_on <$> (wiring c s n).1, (wiring c s n).2).
Proof.
  induction c as [argv|c IH file efile mode fd|x IHx y IHy|x IHx y IHy|c IH]; intros s n Hr; cbn [redirs_std] in Hr.
  - destruct argv as [|[q eq] argv]; reflexivity.
  - destruct Hr as [Hfd Hr]. cbn [runcmd run_calls wiring]. rewrite reopen_std by done.
    rewrite (proj2 (Z.ltb_ge _ _)) by lia. by apply IH.
  - destruct Hr as [Hx Hy]. cbn [runcmd wiring]. rewrite run_pipe. cbn [Z.ltb Z.compare]. rewrite run_fork1. cbn [Z.eqb].
    rewrite run_left, IHx by done. destruct (wiring x _ (S n)) as [lx n1]. cbn [fst snd]. rewrite run_fork1. cbn [Z.eqb].
    rewrite run_right, IHy by done. destruct (wiring y _ n1) as [ly n2]. cbn [fst snd run_calls]. by rewrite app_nil_r, fmap_app.
  - destruct Hr as [Hx Hy]. cbn [runcmd wiring]. rewrite run_fork1. cbn [Z.eqb]. rewrite IHx by done.
    destruct (wiring x s n) as [lx n1]. cbn [fst snd run_calls]. rewrite IHy by done. destruct (wiring y s n1) as [ly n2]. cbn [fst snd]. by rewrite fmap_app.
  - cbn [runcmd wiring]. rewrite run_fork1. cbn [Z.eqb run_calls]. rewrite IH by done.
    destruct (wiring c s n) as [l n1]. cbn [fst snd]. by rewrite app_nil_r.
Qed.

(** C36. The shell connects the programs of a line as the line says.  For any
    line that parses, run by a shell whose open descriptors are the three
    standard ones, when every system call succeeds: the programs executed are
    those of the line, in order, with their arguments; a redirected one has the
    file as its input or output; the program left of a bar writes the pipe that
    the one right of it reads; everything else is inherited; and none has any
    other descriptor open, so that no pipe is held open by a third process. *)
Theorem shell_wires line c b s n :
  Forall (fun c => c <> 0) line -> parsecmd line = Ok c b ->
  run_calls (runcmd c) (table_of s) n = (started_on <$> (wiring c s n).1, (wiring c s n).2).
Proof.
  intros Hl E. apply runcmd_wiring. unfold parsecmd in E. pose proof (parsecmd_tree_answers line Hl) as H.
  destruct (parsecmd_tree line O) as [c' p|m| | | |]; try done. injection E as <- _. apply H.
Qed.

(** "ls|wc>f" *)
Definition pipe_line : list Z := [108; 115; 124; 119; 99; 62; 102].
Definition shell_fds : stdfds := mkStd (Std 0) (Std 1) (Std 2).

Definition pipe_cmd : cmd := PIPE (EXEC [(0, 2)]%nat) (REDIR (EXEC [(3, 5)]%nat) 6 7 513 1).

Lemma pipe_line_parses : exists b, parsecmd pipe_line = Ok pipe_cmd b.
Proof. eexists. vm_compute. reflexivity. Qed.

Lemma shell_wires_witness :
  run_calls (runcmd pipe_cmd) (table_of shell_fds) 0 =
    ([(0%nat, [0%nat], table_of (mkStd (Std 0) (WriteEnd 0) (Std 2)));
      (3%nat, [3%nat], table_of (mkStd (ReadEnd 0) (OpenFile 6 513) (Std 2)))], 1%nat).
Proof.
  destruct pipe_line_parses as [b E]. rewrite (shell_wires pipe_line pipe_cmd b shell_fds 0).
  - vm_compute. reflexivity.
  - repeat (constructor; [discriminate|]). constructor.
  - exact E.
Defined.
