(* ===== verification/Grep.v ===== *)
(** * grep and wc

    The regular expression matcher of grep.c with its meaning, the buffering of
    lines around it, and the counters of wc.c.  A C string is the list of its
    characters without the terminating NUL. *)

From S2P Require Import Prelude.
Open Scope Z_scope.

(** ** grep.c *)

(** matchstar(c, re, text), where [m] is matchhere of re. *)
Fixpoint matchstar (m : list Z -> bool) (c : Z) (text : list Z) : bool :=
  if m text then true
  else match text with
       | t :: text' => if (t =? c) || (c =? 46) then matchstar m c text' else false
       | [] => false
       end.

Fixpoint matchhere (re text : list Z) : bool :=
  match re with
  | [] => true
  | c :: re' =>
    let next :=
      match text with
      | t :: text' => if (c =? 46) || (c =? t) then matchhere re' text' else false
      | [] => false
      end in
    match re' with
    | d :: re'' => if d =? 42 then matchstar (matchhere re'') c text else next
    | [] => if c =? 36 then match text with [] => true | _ => false end else next
    end
  end.

(** The loop of match over the start of the match. *)
Fixpoint match_at (re text : list Z) : bool :=
  if matchhere re text then true
  else match text with
       | _ :: text' => match_at re text'
       | [] => false
       end.

Definition grep_match (re text : list Z) : bool :=
  match re with
  | c :: re' => if c =? 94 then matchhere re' text else match_at re text
  | [] => match_at re text
  end.

(** strchr(p, '\n'): the line at the front of the buffer and what follows its
    newline; a NUL ends the string that is searched. *)
Fixpoint find_line (b : list Z) : option (list Z * list Z) :=
  match b with
  | [] => None
  | c :: b' =>
    if c =? 0 then None
    else if c =? 10 then Some ([], b')
    else match find_line b' with
         | Some (line, rest) => Some (c :: line, rest)
         | None => None
         end
  end.

(** The inner loop: what is written, and what is left of the buffer at p. *)
Fixpoint grep_lines (pattern b out : list Z) (fuel : nat) : list Z * list Z :=
  match fuel with
  | O => (out, b)
  | S f =>
    match find_line b with
    | Some (line, rest) =>
      grep_lines pattern rest (if grep_match pattern line then out ++ line ++ [10] else out) f
    | None => (out, b)
    end
  end.

Section grep.
(** read(fd, ...): how many bytes a read of at most so many returns when so
    many are left; a regular file gives what it has. *)
Context (count : nat -> nat -> nat).

(** The outer loop, with the [m] bytes kept from the last round. *)
Fixpoint grep_loop (pattern file kept out : list Z) (fuel : nat) : option (list Z) :=
  let n := count (1024 - length kept - 1)%nat (length file) in
  match n with
  | O => Some out
  | _ =>
    match fuel with
    | O => None
    | S f =>
      let b := kept ++ take n file in
      let '(out, p) := grep_lines pattern b out (S (length b)) in
      grep_loop pattern (drop n file) (if (length p =? length b)%nat then [] else p) out f
    end
  end.

Definition grep (pattern file : list Z) : option (list Z) := grep_loop pattern file [] [] (length file).
End grep.

(** A regular file. *)
Definition read_file (space left : nat) : nat := Nat.min space left.

(** ** wc.c *)

Record counts := { wc_l : Z; wc_w : Z; wc_c : Z; wc_inword : bool }.

Definition wc_char (s : counts) (b : Z) : counts :=
  let c := i32 (wc_c s + 1) in
  let l := if b =? 10 then i32 (wc_l s + 1) else wc_l s in
  if existsb (Z.eqb b) [32; 13; 9; 10; 11] then {| wc_l := l; wc_w := wc_w s; wc_c := c; wc_inword := false |}
  else if wc_inword s then {| wc_l := l; wc_w := wc_w s; wc_c := c; wc_inword := true |}
  else {| wc_l := l; wc_w := i32 (wc_w s + 1); wc_c := c; wc_inword := true |}.

(** The two loops, over what the reads return. *)
Definition wc (reads : list (list Z)) : counts :=
  foldl (foldl wc_char) {| wc_l := 0; wc_w := 0; wc_c := 0; wc_inword := false |} reads.

(** ** What a pattern means *)

(** One element of a pattern: a character or [.], alone or starred. *)
Inductive item := Once (c : Z) | Star (c : Z).

(** The elements of a pattern, and whether it is anchored at the end. *)
Fixpoint items (re : list Z) : list item * bool :=
  match re with
  | [] => ([], false)
  | c :: re' =>
    match re' with
    | d :: re'' => if d =? 42 then (Star c :: (items re'').1, (items re'').2) else (Once c :: (items re').1, (items re').2)
    | [] => if c =? 36 then ([], true) else ([Once c], false)
    end
  end.

Definition char_ok (c x : Z) : Prop := c = 46 \/ c = x.
(** The strings an element stands for. *)
Definition item_lang (i : item) (w : list Z) : Prop :=
  match i with
  | Once c => exists x, w = [x] /\ char_ok c x
  | Star c => Forall (char_ok c) w
  end.
(** A string in the language of the elements: their strings one after another. *)
Definition items_lang (l : list item) (w : list Z) : Prop :=
  exists ws, Forall2 item_lang l ws /\ w = concat ws.

Definition here_means (re text : list Z) : Prop :=
  exists w rest, text = w ++ rest /\ items_lang (items re).1 w /\ ((items re).2 = true -> rest = []).

Lemma items_lang_nil w : items_lang [] w <-> w = [].
Proof.
  split; [intros (ws & H & ->); by inversion H|]. intros ->. exists []. by split.
Qed.

Lemma items_lang_cons i l w : items_lang (i :: l) w <-> exists u v, w = u ++ v /\ item_lang i u /\ items_lang l v.
Proof.
  split.
  - intros (ws & H & ->). inversion H as [|? u ? ws' H1 H2]; subst. exists u, (concat ws'). split_and!; try done. by exists ws'.
  - intros (u & v & -> & H & ws & H2 & ->). exists (u :: ws). split; [by constructor|done].
Qed.

Lemma star_means c l e text :
  (exists w rest, text = w ++ rest /\ items_lang (Star c :: l) w /\ (e = true -> rest = [])) <->
  exists u v, text = u ++ v /\ Forall (char_ok c) u /\
    exists w rest, v = w ++ rest /\ items_lang l w /\ (e = true -> rest = []).
Proof.
  split.
  - intros (w & rest & -> & (u & v & -> & Hu & Hv)%items_lang_cons & He). exists u, (v ++ rest).
    rewrite <- app_assoc. split_and!; try done. by exists v, rest.
  - intros (u & v & -> & Hu & w & rest & -> & Hw & He). exists (u ++ w), rest. rewrite <- app_assoc.
    split_and!; try done. apply items_lang_cons. by exists u, w.
Qed.

Lemma matchstar_means m c text :
  matchstar m c text = true <-> exists u v, text = u ++ v /\ Forall (char_ok c) u /\ m v = true.
Proof.
  induction text as [|t text IH]; cbn.
  - split.
    + destruct (m []) eqn:E; [|done]. intros _. exists [], []. done.
    + intros (u & v & E & _ & H). symmetry in E. apply app_nil in E as [-> ->]. by rewrite H.
  - destruct (m (t :: text)) eqn:E; [split; [|done]; intros _; exists [], (t :: text); done|].
    destruct ((t =? c) || (c =? 46)) eqn:T.
    + rewrite IH. split; intros (u & v & E2 & H1 & H2).
      * exists (t :: u), v. subst text. split_and!; try done. constructor; [unfold char_ok; lia|done].
      * destruct u as [|x u]; cbn in E2; [subst v; congruence|]. injection E2 as -> ->. apply Forall_cons in H1 as [_ H1]. by exists u, v.
    + split; [done|]. intros (u & v & E2 & H1 & H2). destruct u as [|x u]; cbn in E2; [subst v; congruence|].
      injection E2 as -> ->. apply Forall_cons in H1 as [[|] _]; lia.
Qed.

Lemma once_means c l e text :
  (exists w rest, text = w ++ rest /\ items_lang (Once c :: l) w /\ (e = true -> rest = [])) <->
  exists t text', text = t :: text' /\ char_ok c t /\
    exists w rest, text' = w ++ rest /\ items_lang l w /\ (e = true -> rest = []).
Proof.
  split.
  - intros (w & rest & -> & (u & v & -> & (x & -> & Hx) & Hv)%items_lang_cons & He). exists x, (v ++ rest).
    split_and!; try done. by exists v, rest.
  - intros (t & text' & -> & Hc & w & rest & -> & Hw & He). exists (t :: w), rest. split_and!; try done.
    apply items_lang_cons. exists [t], w. split_and!; try done. by exists t.
Qed.

(** One step of the matcher and of the reading of a pattern. *)
Lemma matchhere_star c re text : matchhere (c :: 42 :: re) text = matchstar (matchhere re) c text.
Proof. done. Qed.

Lemma matchhere_once c re text :
  head re <> Some 42 -> ~ (c = 36 /\ re = []) ->
  matchhere (c :: re) text = match text with
    | t :: text' => if (c =? 46) || (c =? t) then matchhere re text' else false
    | [] => false
    end /\ items (c :: re) = (Once c :: (items re).1, (items re).2).
Proof.
  intros H1 H2. destruct re as [|d re].
  - cbn. destruct (Z.eqb_spec c 36); [tauto|done].
  - assert (E : (d =? 42) = false) by (apply Z.eqb_neq; intros ->; done).
    cbn [matchhere items]. by rewrite E.
Qed.

Lemma matchhere_means re text : matchhere re text = true <-> here_means re text.
Proof.
  unfold here_means. remember (length re) as n eqn:En. revert re En text.
  induction n as [n IH] using lt_wf_ind. intros re -> text.
  destruct re as [|c re].
  { cbn. split; [|done]. intros _. exists [], text. split_and!; try done. by apply items_lang_nil. }
  destruct (decide (head re = Some 42)) as [H|H1].
  { destruct re as [|d re]; [done|]. cbn in H. injection H as ->. rewrite matchhere_star, matchstar_means.
    change (items (c :: 42 :: re)) with (Star c :: (items re).1, (items re).2).
    specialize (IH (length re) ltac:(cbn; lia) re eq_refl). cbn [fst snd]. rewrite star_means.
    by setoid_rewrite IH. }
  destruct (decide (c = 36 /\ re = [])) as [[-> ->]|H2].
  { cbn. split.
    - destruct text; [|done]. intros _. exists [], []. split_and!; try done. by apply items_lang_nil.
    - intros (w & rest & -> & ->%items_lang_nil & Hr). by rewrite Hr. }
  destruct (matchhere_once c re text H1 H2) as [-> ->]. cbn [fst snd]. rewrite once_means.
  specialize (IH (length re) ltac:(cbn; lia) re eq_refl). split.
  - destruct text as [|t text]; [done|]. destruct (_ || _) eqn:T; [|done]. intros H. exists t, text.
    split_and!; [done|unfold char_ok; lia|by apply IH].
  - intros (t & text' & -> & Hc & H). replace ((c =? 46) || (c =? t)) with true by (unfold char_ok in Hc; lia). by apply IH.
Qed.

Lemma match_at_means re text :
  match_at re text = true <-> exists pre rest, text = pre ++ rest /\ matchhere re rest = true.
Proof.
  induction text as [|t text IH]; cbn.
  - split.
    + destruct (matchhere re []) eqn:E; [|done]. intros _. by exists [], [].
    + intros (u & v & E & H). symmetry in E. apply app_nil in E as [-> ->]. by rewrite H.
  - destruct (matchhere re (t :: text)) eqn:E; [split; [|done]; intros _; by exists [], (t :: text)|].
    rewrite IH. split.
    + intros (u & v & -> & H). by exists (t :: u), v.
    + intros (u & v & E2 & H). destruct u as [|x u]; cbn in E2; [subst v; congruence|]. injection E2 as -> ->. by exists u, v.
Qed.

(** C39. grep's matcher decides what the pattern means.  A pattern is a
    sequence of characters and dots, alone or starred, that may be anchored by
    a caret in front and a dollar at its end; match answers whether some part
    of the text, from its start on with a caret and up to its end with a
    dollar, is made of strings of those elements one after the other. *)
Theorem grep_match_means re text :
  grep_match re text = true <->
  exists pre w rest, text = pre ++ w ++ rest /\
    let body := if decide (head re = Some 94) then tail re else re in
    (head re = Some 94 -> pre = []) /\ items_lang (items body).1 w /\ ((items body).2 = true -> rest = []).
Proof.
  assert (Hat : match_at re text = true <-> exists pre w rest, text = pre ++ w ++ rest /\ items_lang (items re).1 w /\ ((items re).2 = true -> rest = [])).
  { rewrite match_at_means. split.
    - intros (pre & t & -> & (w & rest & -> & H)%matchhere_means). by exists pre, w, rest.
    - intros (pre & w & rest & -> & H). exists pre, (w ++ rest). split; [done|]. apply matchhere_means. by exists w, rest. }
  destruct (decide (head re = Some 94)) as [H|H]; cbn zeta.
  - destruct re as [|d re]; [done|]. cbn in H. injection H as ->. cbn [grep_match tail]. change (94 =? 94) with true. cbn iota.
    rewrite matchhere_means. split.
    + intros (w & rest & -> & Hw). by exists [], w, rest.
    + intros (pre & w & rest & -> & Hp & Hw). rewrite Hp by done. by exists w, rest.
  - assert (grep_match re text = match_at re text) as ->.
    { destruct re as [|d re]; [done|]. cbn [grep_match]. assert (d <> 94) as ->%Z.eqb_neq by (intros ->; done). done. }
    rewrite Hat. split; intros (pre & w & rest & H1); exists pre, w, rest; tauto.
Qed.

(** ** Lines *)

(** The complete lines of a text, without their newlines, and what follows the
    last of them. *)
Fixpoint split_lines (b : list Z) : list (list Z) * list Z :=
  match b with
  | [] => ([], [])
  | c :: b' =>
    let '(ls, r) := split_lines b' in
    if c =? 10 then ([] :: ls, r)
    else match ls with
         | [] => ([], c :: r)
         | l :: ls' => ((c :: l) :: ls', r)
         end
  end.
Definition selected (pattern : list Z) (ls : list (list Z)) : list Z :=
  concat ((fun l => l ++ [10]) <$> filter (fun l => grep_match pattern l = true) ls).

Lemma selected_app pattern l1 l2 : selected pattern (l1 ++ l2) = selected pattern l1 ++ selected pattern l2.
Proof. unfold selected. by rewrite filter_app, fmap_app, concat_app. Qed.

Lemma split_lines_app b f :
  split_lines (b ++ f) = let '(ls, r) := split_lines b in (ls ++ (split_lines (r ++ f)).1, (split_lines (r ++ f)).2).
Proof.
  induction b as [|c b IH]; cbn; [by destruct (split_lines f)|]. rewrite IH. destruct (split_lines b) as [ls r].
  destruct (c =? 10) eqn:E; [done|]. destruct ls as [|l ls]; [|done]. cbn. rewrite E. by destruct (split_lines (r ++ f)) as [[|? ?] ?].
Qed.

(** strchr finds the end of the first line. *)
Lemma find_line_split b :
  Forall (fun c => c <> 0) b ->
  match find_line b with
  | Some (line, rest) => split_lines b = (line :: (split_lines rest).1, (split_lines rest).2) /\
      (length line + length rest < length b)%nat /\ exists pre, b = pre ++ rest
  | None => split_lines b = ([], b)
  end.
Proof.
  induction 1 as [|c b Hc _ IH]; [done|]. cbn. destruct (Z.eqb_spec c 0); [done|]. destruct (c =? 10) eqn:E.
  - split_and!; [by destruct (split_lines b)|cbn; lia|by exists [c]].
  - destruct (find_line b) as [[line rest]|].
    + destruct IH as (-> & H2 & pre & ->). cbn. split_and!; [done|cbn in *; lia|by exists (c :: pre)].
    + by rewrite IH.
Qed.

Lemma grep_lines_spec pattern b out n :
  Forall (fun c => c <> 0) b -> (length b < n)%nat ->
  grep_lines pattern b out n = (out ++ selected pattern (split_lines b).1, (split_lines b).2).
Proof.
  revert b out. induction n as [|n IH]; intros b out Hb Hn; [lia|]. cbn. pose proof (find_line_split b Hb) as H.
  destruct (find_line b) as [[line rest]|].
  - destruct H as (-> & H2 & pre & ->). apply Forall_app in Hb as [_ Hb]. rewrite IH by (done || lia). cbn [fst snd]. f_equal.
    change (line :: (split_lines rest).1) with ([line] ++ (split_lines rest).1). rewrite selected_app, (app_assoc out (selected pattern [line])). f_equal.
    unfold selected. destruct (grep_match pattern line) eqn:E.
    + rewrite filter_cons_True by done. cbn. by rewrite app_nil_r.
    + rewrite filter_cons_False by congruence. by rewrite app_nil_r.
  - rewrite H. cbn. by rewrite app_nil_r.
Qed.

Lemma split_lines_rest b : (split_lines (split_lines b).2).1 = [] /\ (length (split_lines b).2 <= length b)%nat /\
  (length (split_lines b).2 = length b -> (split_lines b).1 = [] /\ (split_lines b).2 = b) /\
  (Forall (fun c => c <> 0) b -> Forall (fun c => c <> 0) (split_lines b).2).
Proof.
  induction b as [|c b (I1 & I2 & I3 & I4)]; [done|]. cbn. destruct (split_lines b) as [ls r]. cbn in *.
  destruct (c =? 10) eqn:E; cbn; [split_and!; try done; [lia|intros ?; exfalso; lia|by intros [_ ?]%Forall_cons; auto]|].
  destruct ls as [|l ls]; cbn.
  - destruct (split_lines r) as [lr rr] eqn:Er. cbn in I1. subst lr. rewrite E. split_and!; try done; [lia| |].
    + intros H. destruct I3 as [_ ->]; [lia|done].
    + intros [? ?]%Forall_cons. constructor; auto.
  - split_and!; try done; [lia|intros H; destruct I3 as [? _]; [lia|done]|by intros [_ ?]%Forall_cons; auto].
Qed.

(** A text whose first piece has no newline goes on with the same line. *)
Lemma split_lines_long b f : (split_lines b).1 = [] ->
  match (split_lines (b ++ f)).1 with l :: _ => (length b <= length l)%nat | [] => (split_lines f).1 = [] end.
Proof.
  induction b as [|c b IH]; cbn; [by destruct (split_lines f).1; [|cbn; lia]|].
  destruct (split_lines b) as [ls r], (split_lines (b ++ f)) as [lf rf]. destruct (c =? 10); [done|].
  destruct ls; [|done]. intros _. specialize (IH eq_refl). cbn in IH. destruct lf; cbn; [done|lia].
Qed.

Lemma grep_loop_spec pattern n file kept out :
  Forall (fun c => c <> 0) (kept ++ file) -> (split_lines kept).1 = [] -> (length kept <= 1022)%nat ->
  Forall (fun l => (length l <= 1022)%nat) (split_lines (kept ++ file)).1 -> (length file <= n)%nat ->
  grep_loop read_file pattern file kept out n = Some (out ++ selected pattern (split_lines (kept ++ file)).1).
Proof.
  revert file kept out. induction n as [|n IH]; intros file kept out Hz Hk Hlen Hls Hn; cbn [grep_loop].
  - destruct file; [|cbn in Hn; lia]. unfold read_file. rewrite Nat.min_0_r, app_nil_r, Hk. cbn. by rewrite app_nil_r.
  - destruct file as [|c file]; [unfold read_file at 1; rewrite Nat.min_0_r, app_nil_r, Hk; cbn; by rewrite app_nil_r|].
    set (k := read_file (1024 - length kept - 1) (length (c :: file))).
    assert (0 < k <= length (c :: file))%nat by (unfold k, read_file; cbn; lia).
    assert (Ek' : k = Nat.min (1024 - length kept - 1) (length (c :: file))) by done.
    destruct k as [|k'] eqn:Ek; [lia|]. cbv zeta. clear Ek. set (b := kept ++ take (S k') (c :: file)). set (rest := drop (S k') (c :: file)).
    assert (Eb : kept ++ c :: file = b ++ rest) by (unfold b, rest; by rewrite <- app_assoc, take_drop).
    rewrite Eb in *. apply Forall_app in Hz as [Hb Hrest]. rewrite (grep_lines_spec pattern b) by (done || lia).
    destruct (split_lines_rest b) as (R1 & R2 & R3 & R4). pose proof (split_lines_app b rest) as Happ.
    assert (Hrl : (length rest <= n)%nat) by (unfold rest; rewrite length_drop; cbn [length] in *; lia).
    assert (Hbl : (length b <= 1023)%nat) by (unfold b; rewrite length_app, length_take; lia).
    destruct (Nat.eqb_spec (length (split_lines b).2) (length b)) as [El|Nl].
    + destruct (R3 El) as [B1 B2]. pose proof (split_lines_long b rest B1) as Hlong.
      assert (Hnone : (split_lines (b ++ rest)).1 = [] /\ (split_lines rest).1 = []).
      { destruct rest as [|x rest'] eqn:Er; [by rewrite app_nil_r|].
        assert (length b = 1023)%nat.
        { unfold b. rewrite length_app, length_take. assert (length rest > 0)%nat as Hr by (rewrite Er; cbn; lia).
          unfold rest in Hr. rewrite length_drop in Hr. lia. }
        destruct (split_lines (b ++ x :: rest')).1 as [|l0 ls0]; [done|]. apply Forall_cons in Hls as [Hl0 _]. lia. }
      destruct Hnone as [N1 N2]. rewrite N1, B1, IH; cbn [app]; rewrite ?N2; try done; [|cbn; lia].
      unfold selected. cbn. by rewrite !app_nil_r.
    + destruct (split_lines b) as [ls r] eqn:Es. cbn [fst snd] in *. rewrite Happ in *. cbn [fst] in *. apply Forall_app in Hls as [_ Hls].
      rewrite IH; try done; [|apply Forall_app_2; auto|lia]. by rewrite selected_app, app_assoc.
Qed.

(** grep prints the lines that match and no others.  Of a regular file
    without NULs whose lines fit the buffer, whatever its length, grep writes
    exactly the complete lines that the pattern matches, in order, each with
    its newline; it reads the file to its end. *)
Theorem grep_filters pattern file :
  Forall (fun c => c <> 0) file -> Forall (fun l => (length l <= 1022)%nat) (split_lines file).1 ->
  grep read_file pattern file = Some (selected pattern (split_lines file).1).
Proof. intros Hz Hl. unfold grep. rewrite grep_loop_spec; try done. cbn. lia. Qed.

(** "ab\nc\nbb" *)
Definition sample_text : list Z := [97; 98; 10; 99; 10; 98; 98].

Lemma grep_filters_witness :
  Forall (fun c => c <> 0) sample_text /\ Forall (fun l => (length l <= 1022)%nat) (split_lines sample_text).1 /\
  grep read_file [98; 36] sample_text = Some (selected [98; 36] (split_lines sample_text).1).
Proof.
  assert (H1 : Forall (fun c => c <> 0) sample_text) by (repeat constructor; done).
  assert (H2 : Forall (fun l => (length l <= 1022)%nat) (split_lines sample_text).1) by (repeat constructor; cbn; lia).
  split; [exact H1|]. split; [exact H2|]. apply (grep_filters [98; 36] sample_text H1 H2).
Defined.

(** From a pipe whose writer sends a line in two pieces, the piece without the
    newline is dropped, so the line is lost though it matches. *)
Lemma grep_loses_split_line :
  grep (fun space left => Nat.min 1 (Nat.min space left)) [97] [97; 98; 10] = Some [] /\
  grep read_file [97] [97; 98; 10] = Some [97; 98; 10].
Proof. split; vm_compute; reflexivity. Qed.

(** ** Words *)

Definition is_space (b : Z) : bool := existsb (Z.eqb b) [32; 13; 9; 10; 11].
(** A text cut at its white space: what comes before the first, and the rest. *)
Fixpoint fields (l : list Z) : list Z * list (list Z) :=
  match l with
  | [] => ([], [])
  | c :: l' => let '(f, r) := fields l' in if is_space c then ([], f :: r) else (c :: f, r)
  end.
Definition nonempty (r : list (list Z)) : Z := Z.of_nat (length (filter (fun f => f <> []) r)).
Definition text_words (l : list Z) : Z := nonempty ((fields l).1 :: (fields l).2).
Definition newlines (l : list Z) : Z := Z.of_nat (length (filter (fun c => c = 10) l)).

Lemma nonempty_cons f r : nonempty (f :: r) = (match f with [] => 0 | _ => 1 end) + nonempty r.
Proof. unfold nonempty. rewrite filter_cons. destruct f; case_decide; try done; cbn [length]; lia. Qed.
Lemma newlines_cons c l : newlines (c :: l) = b2z (c =? 10) + newlines l.
Proof. unfold newlines. rewrite filter_cons. destruct (Z.eqb_spec c 10); case_decide; try done; cbn [length b2z]; lia. Qed.

Lemma wc_chars l s :
  0 <= wc_l s <= wc_c s -> 0 <= wc_w s <= wc_c s -> wc_c s + Z.of_nat (length l) < 2147483648 ->
  let s' := foldl wc_char s l in
  wc_c s' = wc_c s + Z.of_nat (length l) /\ wc_l s' = wc_l s + newlines l /\
  wc_w s' = wc_w s + (if wc_inword s then nonempty (fields l).2 else text_words l).
Proof.
  unfold text_words. revert s. induction l as [|c l IH]; intros s Hl Hw Hc; cbn zeta.
  - cbn [foldl fields fst snd length]. rewrite nonempty_cons. change (newlines []) with 0. change (nonempty []) with 0.
    destruct (wc_inword s); split_and!; lia.
  - cbn [length foldl fields] in *. rewrite newlines_cons. destruct (fields l) as [f r]. cbn [fst snd] in IH.
    assert (Ec : forall x, x = wc_c s \/ x = wc_l s \/ x = wc_w s -> i32 (x + 1) = x + 1) by (intros; apply i32_small; lia).
    assert (El : (if c =? 10 then i32 (wc_l s + 1) else wc_l s) = wc_l s + b2z (c =? 10)) by (rewrite Ec by tauto; destruct (c =? 10); cbn; lia).
    assert (Hb : 0 <= b2z (c =? 10) <= 1) by (by destruct (c =? 10)).
    unfold wc_char at 2 4 6. fold (is_space c). rewrite El, !Ec by tauto.
    match goal with |- context [foldl wc_char ?s' l] => destruct (IH s') as (I1 & I2 & I3) end;
      [destruct (is_space c), (wc_inword s); cbn [wc_l wc_w wc_c]; lia..|].
    rewrite I1, I2, I3. destruct (is_space c), (wc_inword s); cbn [wc_l wc_w wc_c wc_inword fst snd]; rewrite ?nonempty_cons; split_and!; lia.
Qed.

(** wc counts lines, words and characters, however the reads cut the
    file.  For a file of less than 2^31 bytes the three counters are the number
    of newlines, of non-empty stretches between white space, and of bytes. *)
Theorem wc_counts reads :
  Z.of_nat (length (concat reads)) < 2147483648 ->
  wc_l (wc reads) = newlines (concat reads) /\ wc_w (wc reads) = text_words (concat reads) /\
  wc_c (wc reads) = Z.of_nat (length (concat reads)).
Proof.
  intros H. unfold wc. assert (E : forall s, foldl (foldl wc_char) s reads = foldl wc_char s (concat reads)).
  { clear H. induction reads as [|r reads IH]; intros s; [done|]. cbn. by rewrite IH, foldl_app. }
  rewrite E. edestruct wc_chars as (I1 & I2 & I3); [| | |rewrite I1, I2, I3]; cbn; try lia. 
Qed.

Lemma wc_counts_witness :
  Z.of_nat (length (concat [[97; 32; 98]; [99; 10]])) < 2147483648 /\
  wc_l (wc [[97; 32; 98]; [99; 10]]) = newlines [97; 32; 98; 99; 10] /\ wc_w (wc [[97; 32; 98]; [99; 10]]) = text_words [97; 32; 98; 99; 10] /\
  wc_c (wc [[97; 32; 98]; [99; 10]]) = 5.
Proof.
  assert (H : Z.of_nat (length (concat [[97; 32; 98]; [99; 10]])) < 2147483648) by (cbn; lia).
  split; [exact H|]. apply (wc_counts [[97; 32; 98]; [99; 10]] H).
Defined.
