(* ===== verification/Umalloc.v ===== *)
(** * The user library's memory allocator

    umalloc.c over the memory of a process: headers are two words in that
    memory, the free ring is the chain of pointers through them, and every
    access is checked against the size of the process.  The kernel's answer to
    sbrk is that of growproc; whether it finds the pages is taken from
    [um_grants], one answer a call. *)

From S2P Require Import Prelude State CString.
Open Scope Z_scope.

Record um := mkUm {
  um_mem : mem;
  um_freep : Z;
  um_brk : Z;              (** the size of the process *)
  um_grants : list bool    (** whether allocuvm finds memory *)
}.

Definition set_um_mem (x : mem) (r : um) : um := mkUm x (um_freep r) (um_brk r) (um_grants r).
Definition set_um_freep (x : Z) (r : um) : um := mkUm (um_mem r) x (um_brk r) (um_grants r).

Definition uM := M um.

(** A word of the process, or a page fault. *)
Definition can_access (s : um) (a : Z) : bool := (0 <=? a) && (a + 4 <=? PGROUNDUP (um_brk s)).
Definition ld (a : Z) : uM Z := fun s =>
  if can_access s a then Ok (load32 (um_mem s) a) s else Fault "page fault".
Definition st (a v : Z) : uM unit := fun s =>
  if can_access s a then Ok tt (set_um_mem (store32 (um_mem s) a v) s) else Fault "page fault".

(** union header: s.ptr and s.size. *)
Definition HEADER : Z := 8.
Definition hptr (p : Z) : uM Z := ld p.
Definition hsize (p : Z) : uM Z := ld (p + 4).
Definition set_hptr (p v : Z) : uM unit := st p v.
Definition set_hsize (p v : Z) : uM unit := st (p + 4) v.
(** p + n on Header pointers. *)
Definition hadd (p n : Z) : Z := u32 (p + HEADER * n).

(** sbrk: the old size of the process, or -1.  The argument is an int; what
    growproc does for it is allocuvm or deallocuvm, whose new pages are zero. *)
Definition sbrk (n : Z) : uM Z := fun s =>
  let n := i32 n in
  let sz := um_brk s in
  let newsz := u32 (sz + n) in
  if 0 <? n then
    if KERNBASE <=? newsz then Ok (-1) s
    else if newsz <? sz then Ok sz s
    else match um_grants s with
         | true :: g =>
           Ok sz (mkUm (fun x => if (PGROUNDUP sz <=? x) && (x <? PGROUNDUP newsz) then 0 else um_mem s x)
                    (um_freep s) newsz g)
         | _ :: g => Ok (-1) (mkUm (um_mem s) (um_freep s) sz g)
         | [] => Ok (-1) s
         end
  else if n <? 0 then
    if sz <=? newsz then Ok sz s
    else if newsz =? 0 then Ok (-1) s
    else Ok sz (mkUm (um_mem s) (um_freep s) newsz (um_grants s))
  else Ok sz s.

(** The for loop of free: the block of the ring after which [bp] belongs. *)
Fixpoint free_loop (fuel : nat) (bp p : Z) : uM Z :=
  match fuel with
  | O => nofuel
  | S fuel =>
    nx ← hptr p;
    if (p <? bp) && (bp <? nx) then mret p
    else if (nx <=? p) && ((p <? bp) || (bp <? nx)) then mret p
    else free_loop fuel bp nx
  end.

(** Join [bp] to the block after it, or link it to that block. *)
Definition free_next (bp p : Z) : uM unit :=
  bsize ← hsize bp;
  pptr ← hptr p;
  if hadd bp bsize =? pptr then
    nsize ← hsize pptr;
    set_hsize bp (u32 (bsize + nsize));;
    nptr ← hptr pptr;
    set_hptr bp nptr
  else set_hptr bp pptr.

(** Join [bp] to the block before it, or link that block to it. *)
Definition free_prev (bp p : Z) : uM unit :=
  psize ← hsize p;
  if hadd p psize =? bp then
    bsize ← hsize bp;
    set_hsize p (u32 (psize + bsize));;
    bptr ← hptr bp;
    set_hptr p bptr
  else set_hptr p bp.

Definition free (fuel : nat) (ap : Z) : uM unit :=
  let bp := u32 (ap - HEADER) in
  freep ← gets um_freep;
  p ← free_loop fuel bp freep;
  free_next bp p;;
  free_prev bp p;;
  modify (set_um_freep p).

Definition morecore (fuel : nat) (nu : Z) : uM Z :=
  let nu := if nu <? 4096 then 4096 else nu in
  p ← sbrk (u32 (nu * HEADER));
  if p =? -1 then mret 0
  else set_hsize p nu;; free fuel (hadd p 1);; gets um_freep.

(** The block [p] of the ring, found after [prevp], is large enough. *)
Definition malloc_take (nunits prevp p : Z) : uM Z :=
  psize ← hsize p;
  p ← (if psize =? nunits then
         pptr ← hptr p; set_hptr prevp pptr;; mret p
       else
         set_hsize p (u32 (psize - nunits));;
         size ← hsize p;
         let p := hadd p size in
         set_hsize p nunits;; mret p);
  modify (set_um_freep prevp);;
  mret (hadd p 1).

Fixpoint malloc_loop (fuel : nat) (nunits prevp p : Z) : uM Z :=
  match fuel with
  | O => nofuel
  | S fuel =>
    psize ← hsize p;
    if nunits <=? psize then malloc_take nunits prevp p
    else
      freep ← gets um_freep;
      if p =? freep then
        p ← morecore fuel nunits;
        if p =? 0 then mret 0
        else pptr ← hptr p; malloc_loop fuel nunits p pptr
      else pptr ← hptr p; malloc_loop fuel nunits p pptr
  end.

Definition nunits_of (nbytes : Z) : Z := u32 (u32 (nbytes + HEADER - 1) / HEADER + 1).

(** [base] is the address of the static header of the same name. *)
Definition malloc (base : Z) (fuel : nat) (nbytes : Z) : uM Z :=
  let nunits := nunits_of nbytes in
  freep ← gets um_freep;
  prevp ← (if freep =? 0 then
             modify (set_um_freep base);; set_hptr base base;; set_hsize base 0;; mret base
           else mret freep);
  pptr ← hptr prevp;
  malloc_loop fuel nunits prevp pptr.
