(* ===== verification/UmallocSpec.v ===== *)
(** * The heap of the user library

    The heap is a row of blocks, free or in use, from the first sbrk to the
    break.  [heap] relates such a row to the memory: the free blocks form the
    ring of malloc and free in order of address, after the static header, and
    every block in use has its size in its header. *)

From S2P Require Import Prelude State CString PageMath Umalloc.
Open Scope Z_scope.

(** A block: whether it is free, and its size in headers. *)
Abbreviation block := (bool * Z)%type.

Fixpoint units (B : list block) : Z :=
  match B with
  | [] => 0
  | b :: B => b.2 + units B
  end.

(** The blocks of one kind with their addresses, the row starting at [a]. *)
Fixpoint blocks (k : bool) (a : Z) (B : list block) : list (Z * Z) :=
  match B with
  | [] => []
  | (f, n) :: B => (if Bool.eqb f k then [(a, n)] else []) ++ blocks k (a + 8 * n) B
  end.

Abbreviation frees := (blocks true).
Abbreviation used := (blocks false).

(** No two free blocks side by side. *)
Fixpoint packed (B : list block) : Prop :=
  match B with
  | (true, _) :: ((true, _) :: _) => False
  | _ :: B => packed B
  | [] => True
  end.

(** Free neighbours made one block. *)
Fixpoint merge (B : list block) : list block :=
  match B with
  | [] => []
  | (f, n) :: B =>
    match f, merge B with
    | true, (true, m) :: B' => (true, n + m) :: B'
    | _, B' => (f, n) :: B'
    end
  end.

Definition hd_addr (e : Z) (L : list (Z * Z)) : Z :=
  match L with
  | [] => e
  | (a, _) :: _ => a
  end.

Fixpoint last_addr (d : Z) (L : list (Z * Z)) : Z :=
  match L with
  | [] => d
  | (a, _) :: L => last_addr a L
  end.

(** The headers of the list are linked in memory, the last one to [e]. *)
Fixpoint chain (m : mem) (L : list (Z * Z)) (e : Z) : Prop :=
  match L with
  | [] => True
  | (a, n) :: L => load32 m a = hd_addr e L /\ load32 m (a + 4) = n /\ chain m L e
  end.

(** Headers in order of address. *)
Fixpoint asc (lo : Z) (L : list (Z * Z)) : Prop :=
  match L with
  | [] => True
  | (a, _) :: L => lo + 8 <= a /\ asc a L
  end.

Definition in_hdr (L : list (Z * Z)) (x : Z) : Prop := exists a n, (a, n) ∈ L /\ a <= x < a + 8.

(** Memory changes only in the headers of [L]. *)
Definition only_hdrs (L : list (Z * Z)) (m m' : mem) : Prop := forall x, ~ in_hdr L x -> m' x = m x.

Record heap (base hs : Z) (s : um) (B : list block) : Prop := {
  h_base : 0 < base /\ base + 8 <= hs;
  h_brk : um_brk s = hs + 8 * units B;
  h_top : um_brk s < KERNBASE;
  h_pos : Forall (fun b : block => 0 < b.2) B;
  h_packed : packed B;
  h_ring : chain (um_mem s) ((base, 0) :: frees hs B) base;
  h_used : Forall (fun b : Z * Z => load32 (um_mem s) (b.1 + 4) = b.2) (used hs B);
  h_freep : um_freep s ∈ base :: (frees hs B).*1
}.

(** ** Rows of blocks *)

Lemma units_app B1 B2 : units (B1 ++ B2) = units B1 + units B2.
Proof. induction B1 as [|b B1 IH]; cbn [units app]; lia. Qed.

Lemma units_nonneg B : Forall (fun b : block => 0 < b.2) B -> 0 <= units B.
Proof. induction 1; cbn [units]; lia. Qed.

Lemma blocks_app k B2 B1 : forall a, blocks k a (B1 ++ B2) = blocks k a B1 ++ blocks k (a + 8 * units B1) B2.
Proof.
  induction B1 as [|[f n] B1 IH]; intros a; cbn [blocks app units snd]; [by replace (a + 8 * 0) with a by lia|].
  rewrite IH, <- app_assoc. by replace (a + 8 * n + 8 * units B1) with (a + 8 * (n + units B1)) by lia.
Qed.

Lemma blocks_bounds k B : forall a x n, Forall (fun b : block => 0 < b.2) B ->
  (x, n) ∈ blocks k a B -> 0 < n /\ a <= x /\ x + 8 * n <= a + 8 * units B.
Proof.
  induction B as [|[f m] B IH]; intros a x n Hp; cbn [blocks units snd]; [by intros ?%not_elem_of_nil|].
  apply Forall_cons in Hp as [Hm Hp]. cbn in Hm. pose proof (units_nonneg B Hp).
  rewrite elem_of_app. intros [H1|H1].
  - destruct (Bool.eqb f k); [|by apply not_elem_of_nil in H1]. apply list_elem_of_singleton in H1. injection H1 as -> ->. lia.
  - destruct (IH _ _ _ Hp H1). lia.
Qed.

(** Blocks of different kinds, or at different addresses, do not overlap. *)
Lemma blocks_disjoint k k' B : forall a x n y p, Forall (fun b : block => 0 < b.2) B ->
  (x, n) ∈ blocks k a B -> (y, p) ∈ blocks k' a B -> (k = k' /\ x = y /\ n = p) \/ x + 8 * n <= y \/ y + 8 * p <= x.
Proof.
  induction B as [|[f m] B IH]; intros a x n y p Hp; cbn [blocks]; [by intros ?%not_elem_of_nil|].
  apply Forall_cons in Hp as [Hm Hp]. cbn in Hm. rewrite !elem_of_app. intros [H1|H1] [H2|H2].
  - left. destruct (Bool.eqb_spec f k) as [->|]; [|by apply not_elem_of_nil in H1]. destruct (Bool.eqb_spec k k') as [->|]; [|by apply not_elem_of_nil in H2].
    apply list_elem_of_singleton in H1, H2. by simplify_eq.
  - right; left. destruct (Bool.eqb f k); [|by apply not_elem_of_nil in H1]. apply list_elem_of_singleton in H1. injection H1 as -> ->.
    by destruct (blocks_bounds _ _ _ _ _ Hp H2) as (_ & ? & _).
  - right; right. destruct (Bool.eqb f k'); [|by apply not_elem_of_nil in H2]. apply list_elem_of_singleton in H2. injection H2 as -> ->.
    by destruct (blocks_bounds _ _ _ _ _ Hp H1) as (_ & ? & _).
  - by apply (IH (a + 8 * m)).
Qed.

Lemma asc_blocks k B : forall lo a, lo + 8 <= a -> Forall (fun b : block => 0 < b.2) B -> asc lo (blocks k a B).
Proof.
  induction B as [|[f n] B IH]; intros lo a Hlo Hp; cbn [blocks]; [done|]. apply Forall_cons in Hp as [Hn Hp]. cbn in Hn.
  destruct (Bool.eqb f k); cbn [app asc]; [split; [done|]|]; apply IH; (done || lia).
Qed.

(** ** Chains *)

Lemma chain_app m L2 e : forall L1, chain m (L1 ++ L2) e <-> chain m L1 (hd_addr e L2) /\ chain m L2 e.
Proof.
  induction L1 as [|[a n] L1 IH]; cbn [app chain]; [tauto|]. rewrite IH.
  assert (hd_addr e (L1 ++ L2) = hd_addr (hd_addr e L2) L1) as -> by (by destruct L1 as [|[? ?] ?]). tauto.
Qed.

Lemma chain_frame m m' L e : (forall x, in_hdr L x -> m' x = m x) -> chain m L e -> chain m' L e.
Proof.
  revert e. induction L as [|[a n] L IH]; intros e H; cbn [chain]; [done|].
  assert (Hh : forall x, a <= x < a + 8 -> m' x = m x) by (intros x Hx; apply H; exists a, n; split; [left|done]).
  intros (H1 & H2 & H3). split_and!.
  - rewrite <- H1. apply load32_eq_on. intros x Hx. apply Hh. lia.
  - rewrite <- H2. apply load32_eq_on. intros x Hx. apply Hh. lia.
  - apply IH; [|done]. intros x (b & k & Hb & Hx). apply H. exists b, k. split; [by right|done].
Qed.

Lemma only_hdrs_refl L m : only_hdrs L m m.
Proof. by intros x Hx. Qed.
Lemma only_hdrs_trans L m1 m2 m3 : only_hdrs L m1 m2 -> only_hdrs L m2 m3 -> only_hdrs L m1 m3.
Proof. intros H1 H2 x Hx. by rewrite H2, H1. Qed.
Lemma only_hdrs_mono L L' m m' : (forall x, in_hdr L x -> in_hdr L' x) -> only_hdrs L m m' -> only_hdrs L' m m'.
Proof. intros H H1 x Hx. apply H1. naive_solver. Qed.

Lemma store32_out m a v x : ~ a <= x < a + 4 -> store32 m a v x = m x.
Proof.
  intros H. unfold store32, store_bytes. assert (Hl : length (enc32 v) = 4%nat) by apply length_le_enc. rewrite Hl. zcases.
Qed.

Lemma only_hdrs_store L m a n v o : (a, n) ∈ L -> o = 0 \/ o = 4 -> only_hdrs L m (store32 m (a + o) v).
Proof. intros Ha Ho x Hx. apply store32_out. intros Hr. apply Hx. exists a, n. split; [done|lia]. Qed.

Lemma last_addr_app L L2 d : last_addr d (L ++ L2) = last_addr (last_addr d L) L2.
Proof. revert d. induction L as [|[a n] L IH]; intros d; cbn [app last_addr]; [done|apply IH]. Qed.

(** ** Access *)

(** The header at [a] lies below the break. *)
Definition reaches (brk a : Z) : Prop := 0 <= a /\ a + 8 <= brk /\ brk < KERNBASE.

Lemma reaches_access s a o : reaches (um_brk s) a -> 0 <= o <= 4 -> can_access s (a + o) = true.
Proof.
  intros (H0 & H1 & H2) Ho. unfold KERNBASE in H2. unfold can_access. destruct (PGROUNDUP_bounds (um_brk s)) as [_ Hb]; [lia|lia|].
  rewrite (proj2 (Z.leb_le 0 _)), (proj2 (Z.leb_le (a + o + 4) _)) by lia. done.
Qed.

Lemma hptr_ok s a : reaches (um_brk s) a -> hptr a s = Ok (load32 (um_mem s) a) s.
Proof. intros H. unfold hptr, ld. pose proof (reaches_access s a 0 H ltac:(lia)) as E. rewrite Z.add_0_r in E. by rewrite E. Qed.
Lemma hsize_ok s a : reaches (um_brk s) a -> hsize a s = Ok (load32 (um_mem s) (a + 4)) s.
Proof. intros H. unfold hsize, ld. by rewrite (reaches_access s a 4 H) by lia. Qed.
Lemma set_hptr_ok s a v : reaches (um_brk s) a -> set_hptr a v s = Ok tt (set_um_mem (store32 (um_mem s) a v) s).
Proof. intros H. unfold set_hptr, st. pose proof (reaches_access s a 0 H ltac:(lia)) as E. rewrite Z.add_0_r in E. by rewrite E. Qed.
Lemma set_hsize_ok s a v : reaches (um_brk s) a -> set_hsize a v s = Ok tt (set_um_mem (store32 (um_mem s) (a + 4) v) s).
Proof. intros H. unfold set_hsize, st. by rewrite (reaches_access s a 4 H) by lia. Qed.

(** ** The search of free *)

(** From a block before [bp] the search runs to the last one before it. *)
Lemma free_loop_below s base bp F2 fuel : forall L p k,
  chain (um_mem s) (((p, k) :: L) ++ F2) base -> asc p L -> base <= p -> p < bp ->
  Forall (fun b => b.1 < bp) L -> Forall (fun b => bp < b.1) F2 -> Forall (fun b => reaches (um_brk s) b.1) ((p, k) :: L) ->
  free_loop (length L + S fuel) bp p s = Ok (last_addr p L) s.
Proof.
  induction L as [|[q j] L IH]; intros p k Hc Ha Hb Hp HL H2 Hr; apply Forall_cons in Hr as [Hr Hr']; cbn [fst] in Hr; cbn [length Nat.add free_loop last_addr].
  - rewrite (bind_ok _ _ _ _ _ (hptr_ok _ _ Hr)). cbn [app chain] in Hc. destruct Hc as (-> & _ & _).
    rewrite (proj2 (Z.ltb_lt p bp) Hp). destruct F2 as [|[q j] F2]; cbn [hd_addr].
    + destruct (Z.ltb_spec bp base); [lia|]. by rewrite (proj2 (Z.leb_le base p) Hb).
    + apply Forall_cons in H2 as [H2 _]. cbn in H2. by rewrite (proj2 (Z.ltb_lt bp q)) by lia.
  - rewrite (bind_ok _ _ _ _ _ (hptr_ok _ _ Hr)). destruct Hc as (-> & _ & Hc). destruct Ha as [Hpq Ha]. apply Forall_cons in HL as [Hq HL]. cbn in Hq.
    cbn [hd_addr app]. rewrite (proj2 (Z.ltb_ge bp q)), andb_false_r by lia. rewrite (proj2 (Z.leb_gt q p)) by lia. cbn [andb].
    apply (IH q j); (done || lia).
Qed.

(** From a block after [bp] it wraps around to the static header. *)
Lemma free_loop_above s base bp fuel : forall L p k,
  chain (um_mem s) ((p, k) :: L) base -> asc p L -> bp < p -> base < bp -> Forall (fun b => reaches (um_brk s) b.1) ((p, k) :: L) ->
  free_loop (S (length L) + fuel) bp p s = free_loop fuel bp base s.
Proof.
  induction L as [|[q j] L IH]; intros p k Hc Ha Hp Hb Hr; apply Forall_cons in Hr as [Hr Hr']; cbn [fst] in Hr; cbn [length Nat.add free_loop];
    rewrite (bind_ok _ _ _ _ _ (hptr_ok _ _ Hr)); destruct Hc as (-> & _ & Hc); cbn [hd_addr].
  - rewrite (proj2 (Z.ltb_ge p bp)), (proj2 (Z.ltb_ge bp base)) by lia. cbn [andb orb]. by rewrite andb_false_r.
  - destruct Ha as [Hpq Ha]. rewrite (proj2 (Z.ltb_ge p bp)), (proj2 (Z.leb_gt q p)) by lia. cbn [andb orb].
    change (S (length L + fuel)) with (S (length L) + fuel)%nat. apply (IH q j); (done || lia).
Qed.

Lemma elem_of_split_fst (L : list (Z * Z)) p : p ∈ L.*1 -> exists L1 k L2, L = L1 ++ (p, k) :: L2.
Proof. intros ([a k] & -> & H)%list_elem_of_fmap. apply list_elem_of_split in H as (L1 & L2 & ->). by exists L1, k, L2. Qed.

Lemma asc_app L1 L2 lo : asc lo (L1 ++ L2) <-> asc lo L1 /\ asc (last_addr lo L1) L2.
Proof. revert lo. induction L1 as [|[a n] L1 IH]; intros lo; cbn [app asc last_addr]; [tauto|]. rewrite IH. tauto. Qed.

Lemma asc_forall L lo : asc lo L -> Forall (fun b => lo + 8 <= b.1) L.
Proof.
  revert lo. induction L as [|[a n] L IH]; intros lo; cbn [asc]; [constructor|]. intros [H1 H2]. constructor; [done|].
  eapply Forall_impl; [apply (IH a H2)|]. intros b Hb. cbn in *. lia.
Qed.

(** Whatever header of the ring the search starts from. *)
Lemma free_loop_finds s base bp F1 F2 fuel :
  chain (um_mem s) ((base, 0) :: F1 ++ F2) base -> asc base (F1 ++ F2) -> base < bp ->
  Forall (fun b => b.1 < bp) F1 -> Forall (fun b => bp < b.1) F2 -> Forall (fun b => reaches (um_brk s) b.1) ((base, 0) :: F1 ++ F2) ->
  um_freep s ∈ base :: (F1 ++ F2).*1 -> (length F1 + length F2 + 2 <= fuel)%nat ->
  free_loop fuel bp (um_freep s) s = Ok (last_addr base F1) s.
Proof.
  intros Hc Ha Hb H1 H2 Hr Hf Hfuel.
  assert (Hbase : forall g, (length F1 + 1 <= g)%nat -> free_loop g bp base s = Ok (last_addr base F1) s).
  { intros g Hg. replace g with (length F1 + S (g - length F1 - 1))%nat by lia. apply asc_app in Ha as [Ha _].
    eapply free_loop_below; [exact Hc|done|lia|done|done|done|]. change ((base, 0) :: F1 ++ F2) with (((base, 0) :: F1) ++ F2) in Hr. by apply Forall_app in Hr as [Hr _]. }
  apply elem_of_cons in Hf as [->|Hf]; [apply Hbase; lia|]. set (p := um_freep s) in *.
  rewrite fmap_app, elem_of_app in Hf. destruct Hf as [Hf|Hf]; apply elem_of_split_fst in Hf as (L1 & k & L2 & ->); rewrite length_app in *; cbn [length] in *.
  - assert (E : (base, 0) :: (L1 ++ (p, k) :: L2) ++ F2 = ((base, 0) :: L1) ++ ((p, k) :: L2) ++ F2) by (by rewrite <- app_assoc).
    rewrite E in Hc, Hr. apply chain_app in Hc as [_ Hc]. apply Forall_app in Hr as [_ Hr]. apply Forall_app in Hr as [Hr _].
    rewrite <- app_assoc in Ha. apply asc_app in Ha as [Ha1 [Hlt Ha]]. apply asc_app in Ha as [Ha _]. apply Forall_app in H1 as [_ H1]. apply Forall_cons in H1 as [Hpb H1].
    replace fuel with (length L2 + S (fuel - length L2 - 1))%nat by lia. rewrite last_addr_app. cbn [last_addr].
    eapply free_loop_below; [exact Hc|done| |done|done|done|done]. clear -Hlt Ha1. revert base Ha1 Hlt. induction L1 as [|[a n] L1 IH]; intros base; cbn [asc last_addr]; [lia|].
    intros [? ?] ?. specialize (IH a). lia || (assert (a <= p) by (by apply IH); lia).
  - rewrite app_comm_cons, app_assoc in Hc, Hr. apply chain_app in Hc as [_ Hc]. apply Forall_app in Hr as [_ Hr].
    rewrite app_assoc in Ha. apply asc_app in Ha as [_ [_ Ha]]. apply Forall_app in H2 as [_ H2]. apply Forall_cons in H2 as [Hpb H2].
    replace fuel with (S (length L2) + (fuel - S (length L2)))%nat by lia. rewrite (free_loop_above s base bp _ L2 p k) by done. apply Hbase. lia.
Qed.

(** ** Merging *)

Definition absorb (n : Z) (B : list block) : Z * list block :=
  match B with
  | (true, k) :: B => (n + k, B)
  | _ => (n, B)
  end.

Lemma packed_cons b B : packed (b :: B) -> packed B.
Proof. by destruct b as [[] ?], B as [|[[] ?] ?]. Qed.

Lemma packed_app_r B1 B2 : packed (B1 ++ B2) -> packed B2.
Proof. induction B1 as [|b B1 IH]; [done|]. intros H. apply IH. by eapply packed_cons. Qed.

Lemma packed_app_l B1 B2 : packed (B1 ++ B2) -> packed B1.
Proof.
  induction B1 as [|[f n] B1 IH]; [done|]. intros H. pose proof (packed_cons _ _ H) as H1%IH.
  destruct f, B1 as [|[[] ?] ?]; done.
Qed.

Lemma merge_packed B : packed (merge B).
Proof.
  induction B as [|[f n] B IH]; cbn [merge]; [done|].
  destruct f; [|by destruct (merge B)]. destruct (merge B) as [|[[] m] B'] eqn:E; [done| |done]. by destruct B' as [|[[] ?] ?].
Qed.

Lemma merge_id B : packed B -> merge B = B.
Proof.
  induction B as [|[f n] B IH]; [done|]. intros H. cbn [merge]. rewrite IH by (by eapply packed_cons).
  destruct f; [|done]. by destruct B as [|[[] ?] ?].
Qed.

Lemma units_merge B : units (merge B) = units B.
Proof.
  induction B as [|[f n] B IH]; [done|]. cbn [merge units snd]. rewrite <- IH.
  destruct f; [|done]. destruct (merge B) as [|[[] m] B']; cbn [units snd]; lia.
Qed.

Lemma merge_pos B : Forall (fun b : block => 0 < b.2) B -> Forall (fun b : block => 0 < b.2) (merge B).
Proof.
  induction B as [|[f n] B IH]; [done|]. intros [Hn H%IH]%Forall_cons. cbn in Hn. cbn [merge].
  destruct f; [|by constructor]. destruct (merge B) as [|[[] m] B']; try by repeat constructor.
  - apply Forall_cons in H as [Hm H]. cbn in Hm. constructor; [cbn; lia|done].
  - by constructor.
Qed.

Lemma used_merge B : forall a, used a (merge B) = used a B.
Proof.
  induction B as [|[f n] B IH]; intros a; [done|]. cbn [merge blocks]. rewrite <- IH.
  destruct f; [|done]. destruct (merge B) as [|[[] m] B']; [done| |done]. cbn. by replace (a + 8 * (n + m)) with (a + 8 * n + 8 * m) by lia.
Qed.

Lemma merge_free n B : packed B -> merge ((true, n) :: B) = (true, (absorb n B).1) :: (absorb n B).2.
Proof. intros H. cbn [merge]. rewrite merge_id by done. by destruct B as [|[[] ?] ?]. Qed.

Lemma merge_app B1 B2 : merge (B1 ++ B2) = merge (B1 ++ merge B2).
Proof.
  induction B1 as [|[f n] B1 IH]; cbn [app merge]; [by rewrite (merge_id (merge B2)) by apply merge_packed|]. by rewrite IH.
Qed.

(** A free block behind a row that ends in none stays a block of its own. *)
Lemma packed_join B1 b B2 : packed (B1 ++ [(false, b)]) -> packed B2 -> packed ((B1 ++ [(false, b)]) ++ B2).
Proof.
  induction B1 as [|[f n] B1 IH]; intros H1 H2; [done|]. specialize (IH (packed_cons _ _ H1) H2). cbn [app] in *.
  destruct f, B1 as [|[[] ?] ?]; done.
Qed.

Lemma packed_join_free B1 k k' B2 : packed (B1 ++ [(true, k)]) -> packed ((true, k') :: B2) -> packed (B1 ++ (true, k') :: B2).
Proof.
  induction B1 as [|[f n] B1 IH]; intros H1 H2; [done|]. specialize (IH (packed_cons _ _ H1) H2). cbn [app] in *.
  destruct f, B1 as [|[[] ?] ?]; done.
Qed.

Lemma merge_join_free B1 k n B2 : packed (B1 ++ [(true, k)]) -> packed ((true, n) :: B2) ->
  merge ((B1 ++ [(true, k)]) ++ (true, n) :: B2) = B1 ++ (true, k + n) :: B2.
Proof.
  intros H1 H2. rewrite <- app_assoc, merge_app. cbn [app]. rewrite (merge_free k) by done. cbn [absorb fst snd].
  apply merge_id. eapply packed_join_free; [done|]. by destruct B2 as [|[[] ?] ?].
Qed.

(** ** Linking the block *)

Lemma load_ptr_size m a v w : load32 (store32 (store32 m (a + 4) w) a v) a = u32 v /\ load32 (store32 (store32 m (a + 4) w) a v) (a + 4) = u32 w.
Proof. split; [apply load_store32|]. rewrite load_store32_ne by lia. apply load_store32. Qed.

Lemma hadd_small a n : 0 <= a -> 0 <= n -> a + 8 * n < 4294967296 -> hadd a n = a + 8 * n.
Proof. intros. unfold hadd, HEADER. apply u32_small. lia. Qed.

Lemma hd_addr_range lo hi e L : lo <= e < hi -> Forall (fun b => lo <= b.1 < hi) L -> lo <= hd_addr e L < hi.
Proof. intros He HL. destruct L as [|[a n] L]; [done|]. by apply Forall_cons in HL as [HL _]. Qed.

Lemma only_hdrs_ptr m a n v : only_hdrs [(a, n)] m (store32 m a v).
Proof. intros x Hx. apply store32_out. intros Hr. apply Hx. exists a, n. split; [left|lia]. Qed.

Lemma only_hdrs_both m a n v w : only_hdrs [(a, n)] m (store32 (store32 m (a + 4) w) a v).
Proof. eapply only_hdrs_trans; [|apply only_hdrs_ptr]. eapply (only_hdrs_store _ _ a n _ 4); [left|by right]. Qed.

(** The first half of free: the block and the free blocks that follow it. *)
Section next.
Context (s : um) (base bp n p : Z) (B2 : list block).
Let F2 := frees (bp + 8 * n) B2.
Hypothesis Hb : 0 < base < bp.
Hypothesis Hn : 0 < n.
Hypothesis Hpos : Forall (fun b : block => 0 < b.2) B2.
Hypothesis Hbrk : bp + 8 * n + 8 * units B2 = um_brk s.
Hypothesis Htop : um_brk s < KERNBASE.
Hypothesis Hp : reaches (um_brk s) p.
Hypothesis Hptr : load32 (um_mem s) p = hd_addr base F2.
Hypothesis Hsize : load32 (um_mem s) (bp + 4) = n.
Hypothesis Hc : chain (um_mem s) F2 base.

Lemma next_bounds a k : (a, k) ∈ F2 -> bp + 8 * n <= a /\ a + 8 * k <= um_brk s /\ 0 < k.
Proof using All. intros H. destruct (blocks_bounds _ _ _ _ _ Hpos H). lia. Qed.

Lemma next_hd : 0 <= hd_addr base F2 < 4294967296.
Proof using All.
  pose proof (units_nonneg _ Hpos). unfold KERNBASE in Htop. apply hd_addr_range; [lia|]. apply Forall_forall. intros [a k] Hin. destruct (next_bounds a k Hin). cbn. lia.
Qed.

Lemma next_frame m : only_hdrs [(bp, n)] (um_mem s) m -> chain m F2 base.
Proof using All.
  intros Hm. eapply chain_frame; [|exact Hc]. intros x (a & k & Hin & Hx). apply Hm. intros (b & j & Hin' & Hx').
  apply list_elem_of_singleton in Hin'. injection Hin' as -> ->. destruct (next_bounds a k Hin). lia.
Qed.

Lemma next_reaches : reaches (um_brk s) bp.
Proof using All. pose proof (units_nonneg _ Hpos). unfold reaches. lia. Qed.

Lemma next_hadd : hadd bp n = bp + 8 * n.
Proof using All. pose proof (units_nonneg _ Hpos). unfold KERNBASE in Htop. apply hadd_small; lia. Qed.

Lemma next_joins k B : B2 = (true, k) :: B ->
  exists m, free_next bp p s = Ok tt (set_um_mem m s) /\ only_hdrs [(bp, n)] (um_mem s) m /\
    chain m ((bp, n + k) :: frees (bp + 8 * (n + k)) B) base.
Proof using All.
  intros EB. pose proof next_bounds as Hf. pose proof (next_frame _ (only_hdrs_both (um_mem s) bp n (hd_addr base (frees (bp + 8 * (n + k)) B)) (u32 (n + k)))) as Hc'.
  unfold free_next. rewrite (bind_ok _ _ _ _ _ (hsize_ok _ _ next_reaches)), (bind_ok _ _ _ _ _ (hptr_ok _ _ Hp)), Hptr, Hsize, next_hadd.
  assert (EF : F2 = (bp + 8 * n, k) :: frees (bp + 8 * (n + k)) B) by (unfold F2; rewrite EB; cbn; by replace (bp + 8 * (n + k)) with (bp + 8 * n + 8 * k) by lia).
  pose proof Hc as Hc0. rewrite EF in Hf, Hc0, Hc' |- *. cbn [hd_addr]. destruct Hc0 as (Hc1 & Hc2 & Hc3). rewrite Z.eqb_refl.
  destruct (Hf (bp + 8 * n) k) as (_ & Hk & Hk0); [left|]. assert (Hrn : reaches (um_brk s) (bp + 8 * n)) by (unfold reaches; lia).
  rewrite (bind_ok _ _ _ _ _ (hsize_ok _ _ Hrn)), Hc2, (bind_ok _ _ _ _ _ (set_hsize_ok _ _ _ next_reaches)), (bind_ok _ _ _ _ _ (hptr_ok (set_um_mem _ s) _ Hrn)).
  cbn [um_mem set_um_mem]. rewrite load_store32_ne, Hc1 by lia. eexists. split; [by rewrite set_hptr_ok by exact next_reaches|].
  cbn [um_mem set_um_mem]. split; [apply only_hdrs_both|]. destruct (load_ptr_size (um_mem s) bp (hd_addr base (frees (bp + 8 * (n + k)) B)) (u32 (n + k))) as [L1 L2].
  cbn [chain]. rewrite L1, L2. unfold KERNBASE in Htop. rewrite !(u32_small (n + k)) by lia. rewrite (u32_small (n + k)) in Hc' by lia. split_and!; [|done|apply Hc'].
  apply u32_small, hd_addr_range; [lia|]. apply Forall_forall. intros [a j] Hin. destruct (Hf a j) as (? & ? & ?); [by right|cbn; lia].
Qed.

Lemma next_links : (forall k B, B2 <> (true, k) :: B) ->
  exists m, free_next bp p s = Ok tt (set_um_mem m s) /\ only_hdrs [(bp, n)] (um_mem s) m /\ chain m ((bp, n) :: F2) base.
Proof using All.
  intros HB. unfold free_next. rewrite (bind_ok _ _ _ _ _ (hsize_ok _ _ next_reaches)), (bind_ok _ _ _ _ _ (hptr_ok _ _ Hp)), Hptr, Hsize, next_hadd.
  destruct (Z.eqb_spec (bp + 8 * n) (hd_addr base F2)) as [E|E].
  - exfalso. revert HB Hpos E. unfold F2. clear -Hb Hn. intros HB Hpos E. destruct B2 as [|[[] k] B]; [cbn in E; lia|by apply (HB k B)|]. apply Forall_cons in Hpos as [Hk Hpos']. cbn in Hk, E.
    destruct (frees (bp + 8 * n + 8 * k) B) as [|[a j] L] eqn:EF; cbn in E; [lia|].
    destruct (blocks_bounds true B (bp + 8 * n + 8 * k) a j Hpos') as (_ & ? & _); [rewrite EF; left|lia].
  - eexists. rewrite set_hptr_ok by exact next_reaches. split; [done|]. split; [apply only_hdrs_ptr|]. cbn [chain].
    rewrite load_store32, u32_small by exact next_hd. rewrite load_store32_ne by lia. split_and!; [done|done|]. apply next_frame, only_hdrs_ptr.
Qed.

Lemma free_next_spec :
  exists m, free_next bp p s = Ok tt (set_um_mem m s) /\ only_hdrs [(bp, n)] (um_mem s) m /\
    chain m ((bp, (absorb n B2).1) :: frees (bp + 8 * (absorb n B2).1) (absorb n B2).2) base.
Proof using All.
  assert (H : (forall k B, B2 <> (true, k) :: B) \/ exists k B, B2 = (true, k) :: B) by (destruct B2 as [|[[] k] B]; naive_solver).
  destruct H as [H|(k & B & E)].
  - assert (absorb n B2 = (n, B2)) as -> by (destruct B2 as [|[[] k] B]; naive_solver). by apply next_links.
  - assert (absorb n B2 = (n + k, B)) as -> by (by rewrite E). by apply next_joins.
Qed.
End next.

(** The second half: the block and the header before it. *)
Lemma free_prev_spec s base bp n p psz L :
  reaches (um_brk s) p -> reaches (um_brk s) bp -> 0 <= psz -> 0 <= n -> p + 8 <= bp -> p + 8 * psz <= bp -> bp + 8 * n <= um_brk s ->
  load32 (um_mem s) (p + 4) = psz -> chain (um_mem s) ((bp, n) :: L) base ->
  0 <= base < 4294967296 -> Forall (fun b => bp + 8 <= b.1 < 4294967296) L ->
  exists m, free_prev bp p s = Ok tt (set_um_mem m s) /\ only_hdrs [(p, psz)] (um_mem s) m /\
    chain m (if p + 8 * psz =? bp then (p, psz + n) :: L else (p, psz) :: (bp, n) :: L) base.
Proof.
  intros Hp Hbp Hpsz Hn H1 H2 H3 Hsz Hc Hbase HL. pose proof Hp as (Hp0 & _ & Htop). unfold KERNBASE in Htop.
  assert (Hfr : forall m, only_hdrs [(p, psz)] (um_mem s) m -> chain m ((bp, n) :: L) base).
  { intros m Hm. eapply chain_frame; [|exact Hc]. intros x (a & k & Hin & Hx). apply Hm. intros (b & j & Hin' & Hx').
    apply list_elem_of_singleton in Hin'. injection Hin' as -> ->. apply elem_of_cons in Hin as [[= -> ->]|Hin]; [lia|].
    rewrite Forall_forall in HL. specialize (HL _ Hin). cbn in HL. lia. }
  assert (Hhd : 0 <= hd_addr base L < 4294967296) by (apply hd_addr_range; [lia|]; eapply Forall_impl; [exact HL|]; intros b Hb; cbn in Hb; destruct Hbp; lia).
  unfold free_prev. rewrite (bind_ok _ _ _ _ _ (hsize_ok _ _ Hp)), Hsz. rewrite (hadd_small p psz) by lia. destruct (Z.eqb_spec (p + 8 * psz) bp) as [E|E].
  - destruct Hc as (Hc1 & Hc2 & Hc3). rewrite (bind_ok _ _ _ _ _ (hsize_ok _ _ Hbp)), Hc2, (bind_ok _ _ _ _ _ (set_hsize_ok _ _ _ Hp)).
    rewrite (bind_ok _ _ _ _ _ (hptr_ok (set_um_mem _ s) _ Hbp)). cbn [um_mem set_um_mem]. rewrite load_store32_ne, Hc1 by lia.
    eexists. split; [by rewrite set_hptr_ok by exact Hp|]. cbn [um_mem set_um_mem]. split; [apply only_hdrs_both|]. cbn [chain].
    destruct (load_ptr_size (um_mem s) p (hd_addr base L) (u32 (psz + n))) as [L1 L2]. rewrite L1, L2, !(u32_small (psz + n)), u32_small by lia.
    split; [done|]. split; [done|]. refine (proj2 (proj2 (Hfr _ _))). rewrite <- (u32_small (psz + n)) by lia. apply only_hdrs_both.
  - eexists. rewrite set_hptr_ok by exact Hp. split; [done|]. split; [apply only_hdrs_ptr|]. cbn [chain hd_addr].
    rewrite load_store32, u32_small, load_store32_ne by (destruct Hbp; lia). split; [done|]. split; [done|]. apply (Hfr _ (only_hdrs_ptr _ _ _ _)).
Qed.

(** ** free *)

Lemma last_split L : forall d k, exists D psz, (d, k) :: L = D ++ [(last_addr d L, psz)].
Proof.
  induction L as [|[a n] L IH]; intros d k; cbn [last_addr]; [by exists [], k|]. destruct (IH a n) as (D & psz & ->). by exists ((d, k) :: D), psz.
Qed.

Lemma asc_last L : forall d k D p j a i, asc d L -> (d, k) :: L = D ++ [(p, j)] -> (a, i) ∈ D -> a + 8 <= p.
Proof.
  induction L as [|[b n] L IH]; intros d k D p j a i Ha E Hin.
  - destruct D as [|? [|? ?]]; [by apply not_elem_of_nil in Hin|done|done].
  - destruct D as [|x D]; [by apply not_elem_of_nil in Hin|]. injection E as <- E. destruct Ha as [Ha1 Ha2].
    apply elem_of_cons in Hin as [[= -> ->]|Hin]; [|by eapply IH]. destruct D as [|[c i] D]; [injection E as <- <-; lia|].
    injection E as <- <- E. assert (b + 8 <= p); [|lia]. eapply (IH b n ((b, n) :: D) p j); [done|by rewrite E|left].
Qed.

Lemma absorb_spec n B : 0 < n -> Forall (fun b : block => 0 < b.2) B ->
  0 < (absorb n B).1 /\ Forall (fun b : block => 0 < b.2) (absorb n B).2 /\ (absorb n B).1 + units (absorb n B).2 = n + units B.
Proof.
  intros Hn HB. destruct B as [|[[] k] B]; cbn [absorb fst snd]; [done| |done]. apply Forall_cons in HB as [Hk HB]. cbn [snd units] in *. split_and!; [lia|done|lia].
Qed.

Lemma snoc_cases {A} (l : list A) : l = [] \/ exists l' x, l = l' ++ [x].
Proof. destruct l using rev_ind; [by left|right; eauto]. Qed.

(** What changes only headers of the ring leaves the blocks in use alone. *)
Lemma ring_keeps base hs B L m m' a k : base + 8 <= hs -> Forall (fun b : block => 0 < b.2) B ->
  (forall b, b ∈ L -> b ∈ (base, 0) :: frees hs B) -> only_hdrs L m m' -> (a, k) ∈ used hs B -> mem_eq_on m' m a (8 * k).
Proof.
  intros Hb Hp HL Hm Hu x Hx. apply Hm. intros (b & j & Hin%HL & Hx'). destruct (blocks_bounds _ _ _ _ _ Hp Hu) as (Hk & Ha & _).
  apply elem_of_cons in Hin as [[= -> ->]|Hin]; [lia|]. destruct (blocks_bounds _ _ _ _ _ Hp Hin) as (Hj & _).
  destruct (blocks_disjoint _ _ _ _ _ _ _ _ Hp Hu Hin) as [[? _]|]; [done|lia].
Qed.

Lemma ring_keeps_used base hs B L m m' : base + 8 <= hs -> Forall (fun b : block => 0 < b.2) B ->
  (forall b, b ∈ L -> b ∈ (base, 0) :: frees hs B) -> only_hdrs L m m' ->
  Forall (fun b : Z * Z => load32 m (b.1 + 4) = b.2) (used hs B) -> Forall (fun b : Z * Z => load32 m' (b.1 + 4) = b.2) (used hs B).
Proof.
  intros Hb Hp HL Hm. rewrite !Forall_forall. intros Hu [a k] Hin. specialize (Hu _ Hin). cbn [fst snd] in *. rewrite <- Hu. destruct (blocks_bounds _ _ _ _ _ Hp Hin) as (Hk & _).
  apply load32_eq_on. intros x Hx. eapply (ring_keeps base hs B L); [done..|exact Hin|lia].
Qed.

(** The block at [bp] is in use, between the rows [B1] and [B2]. *)
Section freeing.
Context (base hs : Z) (s : um) (B1 : list block) (n : Z) (B2 : list block).
Hypothesis H : heap base hs s (B1 ++ (false, n) :: B2).
Let bp := hs + 8 * units B1.
Let F1 := frees hs B1.
Let F2 := frees (bp + 8 * n) B2.
Let p := last_addr base F1.
Let n' := (absorb n B2).1.
Let B2' := (absorb n B2).2.

Lemma fr_pos : Forall (fun b : block => 0 < b.2) B1 /\ 0 < n /\ Forall (fun b : block => 0 < b.2) B2.
Proof using H. pose proof (h_pos _ _ _ _ H) as [H1 [H2 H3]%Forall_cons]%Forall_app. done. Qed.

Lemma fr_brk : um_brk s = bp + 8 * n + 8 * units B2.
Proof using H. rewrite (h_brk _ _ _ _ H), units_app. cbn [units snd]. unfold bp. lia. Qed.

Lemma fr_frees : frees hs (B1 ++ (false, n) :: B2) = F1 ++ F2.
Proof using. by rewrite blocks_app. Qed.

Lemma fr_low a k : (a, k) ∈ (base, 0) :: F1 -> 0 < a /\ a + 8 <= bp /\ a + 8 * k <= bp /\ 0 <= k /\ reaches (um_brk s) a.
Proof using H.
  destruct fr_pos as (P1 & P2 & P3). pose proof (h_base _ _ _ _ H). pose proof (units_nonneg _ P1). pose proof (units_nonneg _ P3). pose proof fr_brk. pose proof (h_top _ _ _ _ H).
  unfold reaches, bp in *. intros [[= -> ->]|Hin]%elem_of_cons; [lia|]. destruct (blocks_bounds _ _ _ _ _ P1 Hin). lia.
Qed.

Lemma fr_high a k : (a, k) ∈ F2 -> bp + 8 * n <= a /\ a + 8 * k <= um_brk s /\ 0 < k /\ reaches (um_brk s) a.
Proof using H.
  destruct fr_pos as (P1 & P2 & P3). pose proof (h_base _ _ _ _ H). pose proof (units_nonneg _ P1). pose proof fr_brk. pose proof (h_top _ _ _ _ H).
  intros Hin. destruct (blocks_bounds _ _ _ _ _ P3 Hin). unfold reaches, bp in *. lia.
Qed.

Lemma fr_bp : 0 < base /\ base < bp /\ reaches (um_brk s) bp /\ um_brk s < 2147483648.
Proof using H.
  destruct fr_pos as (P1 & P2 & P3). pose proof (h_base _ _ _ _ H). pose proof (units_nonneg _ P1). pose proof (units_nonneg _ P3). pose proof fr_brk. pose proof (h_top _ _ _ _ H).
  unfold reaches, KERNBASE, bp in *. lia.
Qed.

Lemma fr_search fuel : (length F1 + length F2 + 2 <= fuel)%nat -> free_loop fuel bp (um_freep s) s = Ok p s.
Proof using H.
  intros Hf. pose proof (h_ring _ _ _ _ H) as Hc. pose proof (h_freep _ _ _ _ H) as Hp. rewrite fr_frees in Hc, Hp. destruct fr_pos as (P1 & P2 & P3).
  apply (free_loop_finds s base bp F1 F2); try done.
  - rewrite <- fr_frees. apply asc_blocks; [destruct (h_base _ _ _ _ H); lia|apply (h_pos _ _ _ _ H)].
  - apply fr_bp.
  - apply Forall_forall. intros [a k] Hin. destruct (fr_low a k) as (_ & ? & _); [by right|cbn; lia].
  - apply Forall_forall. intros [a k] Hin. destruct (fr_high a k Hin) as (? & _). cbn. lia.
  - apply Forall_forall. intros [a k]. rewrite app_comm_cons, elem_of_app. intros [Hin|Hin]; [by apply (fr_low a k)|by apply (fr_high a k)].
Qed.

Lemma fr_size : load32 (um_mem s) (bp + 4) = n.
Proof using H.
  pose proof (h_used _ _ _ _ H) as Hu. rewrite blocks_app in Hu. apply Forall_app in Hu as [_ Hu]. cbn in Hu. by apply Forall_cons in Hu as [Hu _].
Qed.

(** What the two halves do to the ring. *)
Lemma fr_links : exists m, (free_next bp p;; free_prev bp p) s = Ok tt (set_um_mem m s) /\
  only_hdrs ((bp, n) :: (base, 0) :: F1) (um_mem s) m /\
  exists D psz, (base, 0) :: F1 = D ++ [(p, psz)] /\
    chain m (D ++ if p + 8 * psz =? bp then (p, psz + n') :: frees (bp + 8 * n') B2' else (p, psz) :: (bp, n') :: frees (bp + 8 * n') B2') base.
Proof using H.
  destruct (last_split F1 base 0) as (D & psz & ED). fold p in ED. destruct fr_pos as (P1 & P2 & P3), fr_bp as (Hb0 & Hb1 & Hb2 & Hb3).
  pose proof (h_ring _ _ _ _ H) as Hc. rewrite fr_frees, app_comm_cons, ED in Hc. apply chain_app in Hc as [HcD Hc2]. pose proof HcD as [HcD' [Hp1 [Hp2 _]]]%chain_app. cbn [hd_addr] in *.
  destruct (fr_low p psz) as (Hp3 & Hp4 & Hp5 & Hp6 & Hp7); [rewrite ED; apply elem_of_app; right; left|].
  destruct (free_next_spec s base bp n p B2) as (m1 & E1 & O1 & C1); try done; [symmetry; apply fr_brk|apply fr_size|].
  destruct (absorb_spec n B2 P2 P3) as (A1 & A2 & A3). fold n' B2' in C1, A1, A2, A3. pose proof fr_brk as Hbrk. pose proof (units_nonneg _ A2).
  assert (Hm1 : forall x, p <= x < p + 8 -> m1 x = um_mem s x).
  { intros x Hx. apply O1. intros (a & k & Hin & Hx'). apply list_elem_of_singleton in Hin. injection Hin as -> ->. lia. }
  destruct (free_prev_spec (set_um_mem m1 s) base bp n' p psz (frees (bp + 8 * n') B2')) as (m2 & E2 & O2 & C2); cbn [um_brk um_mem set_um_mem]; try done; [lia|lia| |lia| |].
  { rewrite <- Hp2. apply load32_eq_on. intros x Hx. apply Hm1. lia. }
  { apply Forall_forall. intros [a k] Hin. destruct (blocks_bounds _ _ _ _ _ A2 Hin). cbn. lia. }
  exists m2. split; [by rewrite (bind_ok _ _ _ _ _ E1)|]. split.
  - eapply only_hdrs_trans; [eapply only_hdrs_mono; [|exact O1]|eapply only_hdrs_mono; [|exact O2]]; intros x (a & k & Hin & Hx); apply list_elem_of_singleton in Hin; injection Hin as -> ->.
    + exists bp, n. split; [left|done].
    + exists p, psz. rewrite ED. split; [right; apply elem_of_app; right; left|done].
  - exists D, psz. split; [done|]. apply chain_app. split; [|exact C2]. replace (hd_addr base _) with p by (by destruct (_ =? _)).
    eapply chain_frame; [|exact HcD']. intros x (a & k & Hin & Hx).
    assert (Ha : a + 8 <= p) by (eapply (asc_last F1 base 0 D p psz); [apply asc_blocks; [apply (h_base _ _ _ _ H)|done]|exact ED|exact Hin]).
    rewrite O2, O1; [done| |]; intros (b & j & Hin' & Hx'); apply list_elem_of_singleton in Hin'; injection Hin' as -> ->; lia.
Qed.

Lemma fr_packed : packed B1 /\ packed B2 /\ packed ((true, n') :: B2').
Proof using H.
  pose proof (h_packed _ _ _ _ H) as Hp. pose proof (packed_app_l _ _ Hp). pose proof (packed_cons _ _ (packed_app_r _ _ Hp)) as Hp2.
  split_and!; [done|done|]. pose proof (merge_packed ((true, n) :: B2)) as Hm. by rewrite merge_free in Hm.
Qed.

Lemma fr_ring D psz : (base, 0) :: F1 = D ++ [(p, psz)] ->
  (D ++ if p + 8 * psz =? bp then (p, psz + n') :: frees (bp + 8 * n') B2' else (p, psz) :: (bp, n') :: frees (bp + 8 * n') B2') =
  (base, 0) :: frees hs (merge (B1 ++ (true, n) :: B2)).
Proof using H.
  destruct fr_packed as (P1 & P2 & P3), fr_pos as (Q1 & Q2 & Q3). rewrite merge_app, merge_free by done. fold n' B2'. pose proof fr_low as Hlow.
  intros ED. assert (Hno : packed (B1 ++ (true, n') :: B2') -> p + 8 * psz < bp ->
    (D ++ if p + 8 * psz =? bp then (p, psz + n') :: frees (bp + 8 * n') B2' else (p, psz) :: (bp, n') :: frees (bp + 8 * n') B2') =
    (base, 0) :: frees hs (merge (B1 ++ (true, n') :: B2'))).
  { intros Hpk Hlt. rewrite (proj2 (Z.eqb_neq _ _)) by lia. rewrite merge_id, blocks_app by done. fold F1. rewrite app_comm_cons, ED, <- app_assoc. done. }
  assert (Hin : (p, psz) ∈ (base, 0) :: F1) by (rewrite ED; apply elem_of_app; right; left).
  destruct (snoc_cases B1) as [EB|(C & [[] k] & EB)].
  - apply Hno; [by rewrite EB|]. unfold F1 in Hin. rewrite EB in Hin. apply list_elem_of_singleton in Hin. injection Hin as E1 E2. rewrite E1, E2. destruct fr_bp. lia.
  - assert (EF : F1 = frees hs C ++ [(hs + 8 * units C, k)]) by (unfold F1; by rewrite EB, blocks_app). rewrite EF, app_comm_cons in ED. apply app_inj_2 in ED as [<- [= E1 <-]]; [|done]. rewrite <- E1.
    rewrite EB in P1 |- *. rewrite merge_join_free, blocks_app by done. unfold bp. rewrite EB, units_app. cbn [units snd blocks Bool.eqb app].
    rewrite (proj2 (Z.eqb_eq _ _)) by lia. do 4 f_equal. lia.
  - apply Hno; [rewrite EB in P1 |- *; by apply packed_join|]. unfold F1, bp in *. rewrite EB in Hin, Q1 |- *. rewrite blocks_app in Hin. cbn in Hin. rewrite app_nil_r in Hin.
    apply Forall_app in Q1 as [Q1 [Hk _]%Forall_cons]. cbn in Hk. rewrite units_app. cbn [units snd]. pose proof (h_base _ _ _ _ H). pose proof (units_nonneg _ Q1).
    apply elem_of_cons in Hin as [[= E1 E2]|Hin]; [lia|]. destruct (blocks_bounds _ _ _ _ _ Q1 Hin). lia.
Qed.

(** free: the block is marked free, and free neighbours are merged. *)
Lemma free_spec fuel : (length F1 + length F2 + 2 <= fuel)%nat ->
  exists s', free fuel (bp + 8) s = Ok tt s' /\ heap base hs s' (merge (B1 ++ (true, n) :: B2)) /\
    only_hdrs ((bp, n) :: (base, 0) :: F1) (um_mem s) (um_mem s') /\ um_freep s' = p /\ um_grants s' = um_grants s.
Proof using H.
  intros Hf. destruct fr_bp as (Hb0 & Hb1 & Hb2 & Hb3), fr_links as (m & E & O & D & psz & ED & C). rewrite (fr_ring D psz ED) in C.
  exists (set_um_freep p (set_um_mem m s)). split_and!; [|constructor|done|done|done]; cbn [um_brk um_mem um_freep set_um_mem set_um_freep].
  - unfold free, HEADER. replace (u32 (bp + 8 - 8)) with bp by (replace (bp + 8 - 8) with bp by lia; rewrite u32_small; [done|destruct Hb2; unfold KERNBASE in *; lia]).
    rewrite (bind_ok _ _ s (um_freep s) s) by done. rewrite (bind_ok _ _ _ _ _ (fr_search _ Hf)).
    apply bind_inv in E as ([] & s1 & E1 & E2). rewrite (bind_ok _ _ _ _ _ E1), (bind_ok _ _ _ _ _ E2). done.
  - apply (h_base _ _ _ _ H).
  - rewrite units_merge, (h_brk _ _ _ _ H), !units_app. done.
  - done.
  - apply merge_pos. destruct fr_pos as (P1 & P2 & P3). apply Forall_app. split; [done|]. by constructor.
  - apply merge_packed.
  - done.
  - rewrite used_merge. destruct fr_pos as (P1 & P2 & P3). eapply (ring_keeps_used base hs _ ((bp, n) :: (base, 0) :: F1)); [apply (h_base _ _ _ _ H)|apply Forall_app; split; [done|by constructor]| |exact O|].
    + intros b Hin. rewrite blocks_app, app_comm_cons, elem_of_app. apply elem_of_cons in Hin as [->|Hin]; [right; left|by left].
    + pose proof (h_used _ _ _ _ H) as Hu. rewrite blocks_app in Hu |- *. apply Forall_app in Hu as [Hu1 Hu2]. cbn in Hu2. apply Forall_cons in Hu2 as [_ Hu2]. apply Forall_app. done.
  - change (base :: (frees hs (merge (B1 ++ (true, n) :: B2))).*1) with ((base, 0) :: frees hs (merge (B1 ++ (true, n) :: B2))).*1.
    rewrite <- (fr_ring D psz ED), fmap_app. apply elem_of_app. right. destruct (_ =? _); left.
Qed.
End freeing.
