(* ===== verification/UmallocProps.v ===== *)
(** * malloc and free give out memory

    The scan of malloc around the free ring, the memory it gets from the
    kernel, and what programs can rely on: blocks that do not overlap, that
    keep what is stored in them, and that all return to one free block. *)

From S2P Require Import Prelude State CString PageMath Umalloc UmallocSpec.
Open Scope Z_scope.

(** The ring exhausted: ask for more memory and go round again. *)
Definition malloc_more (fuel : nat) (k : Z) : uM Z :=
  p ← morecore fuel k;
  if p =? 0 then mret 0 else pptr ← hptr p; malloc_loop fuel k p pptr.

Lemma malloc_loop_step fuel k prevp p s n : reaches (um_brk s) p -> load32 (um_mem s) (p + 4) = n ->
  malloc_loop (S fuel) k prevp p s =
  if k <=? n then malloc_take k prevp p s
  else if p =? um_freep s then malloc_more fuel k s
  else malloc_loop fuel k p (load32 (um_mem s) p) s.
Proof.
  intros Hr En. cbn [malloc_loop]. rewrite (bind_ok _ _ _ _ _ (hsize_ok _ _ Hr)), En. destruct (k <=? n); [done|].
  rewrite (bind_ok _ _ s (um_freep s) s) by done. destruct (p =? um_freep s); [done|]. by rewrite (bind_ok _ _ _ _ _ (hptr_ok _ _ Hr)).
Qed.

Definition small (k : Z) (b : Z * Z) : Prop := b.2 < k.

(** A stretch of the ring is scanned until a block fits or [freep] is met. *)
Lemma malloc_scan s base k fuel : forall W prevp,
  chain (um_mem s) W base -> Forall (fun b => reaches (um_brk s) b.1) W ->
  (exists W1 a n W2, W = W1 ++ (a, n) :: W2 /\ k <= n /\
     malloc_loop (length W + fuel) k prevp (hd_addr base W) s = malloc_take k (last_addr prevp W1) a s) \/
  (Forall (small k) W /\ ~ um_freep s ∈ W.*1 /\
     malloc_loop (length W + fuel) k prevp (hd_addr base W) s = malloc_loop fuel k (last_addr prevp W) base s) \/
  (exists W1 n W2 g, W = W1 ++ (um_freep s, n) :: W2 /\ Forall (small k) (W1 ++ [(um_freep s, n)]) /\ (fuel <= g)%nat /\
     malloc_loop (length W + fuel) k prevp (hd_addr base W) s = malloc_more g k s).
Proof.
  induction W as [|[a n] W IH]; intros prevp Hc Hr; [right; left; split_and!; [constructor|apply not_elem_of_nil|done]|].
  apply Forall_cons in Hr as [Hr Hr']. cbn [fst] in Hr. destruct Hc as (Hc1 & Hc2 & Hc3). cbn [length Nat.add hd_addr].
  rewrite (malloc_loop_step _ _ _ _ _ n Hr Hc2). destruct (Z.leb_spec k n) as [Hk|Hk]; [left; by exists [], a, n, W|].
  destruct (Z.eqb_spec a (um_freep s)) as [->|Ha].
  { right; right. exists [], n, W, (length W + fuel)%nat. split_and!; [done|by repeat constructor|lia|done]. }
  rewrite Hc1. destruct (IH a Hc3 Hr') as [(W1 & b & j & W2 & -> & Hj & E)|[(H1 & H2 & E)|(W1 & j & W2 & g & -> & H1 & Hg & E)]].
  - left. exists ((a, n) :: W1), b, j, W2. done.
  - right; left. split_and!; [by constructor|by apply not_elem_of_cons|done].
  - right; right. exists ((a, n) :: W1), j, W2, g. split_and!; [done|by constructor|done|done].
Qed.

Lemma asc_not_below L : forall lo x, x <= lo -> asc lo L -> ~ x ∈ L.*1.
Proof.
  intros lo x Hx Ha ([a n] & -> & Hin)%list_elem_of_fmap. pose proof (asc_forall _ _ Ha) as Hf. rewrite Forall_forall in Hf. specialize (Hf _ Hin). cbn in *. lia.
Qed.

Lemma asc_split_unique L1 : forall lo W1 f j n L2 W2,
  asc lo (L1 ++ (f, j) :: L2) -> L1 ++ (f, j) :: L2 = W1 ++ (f, n) :: W2 -> L2 = W2.
Proof.
  induction L1 as [|[a i] L1 IH]; intros lo W1 f j n L2 W2 [_ Ha] E; destruct W1 as [|[b m] W1]; cbn [app] in E; simplify_eq; [done| | |].
  - exfalso. apply (asc_not_below _ b b ltac:(lia) Ha). rewrite fmap_app. apply elem_of_app. right. left.
  - exfalso. apply (asc_not_below _ f f ltac:(lia) Ha). rewrite fmap_app. apply elem_of_app. right. left.
  - by eapply IH.
Qed.

Section round.
Context (base hs : Z) (s : um) (B : list block).
Hypothesis H : heap base hs s B.
Let F := frees hs B.

Lemma rd_reaches a n : (a, n) ∈ (base, 0) :: F -> reaches (um_brk s) a.
Proof using H.
  pose proof (h_base _ _ _ _ H). pose proof (h_top _ _ _ _ H). pose proof (h_brk _ _ _ _ H). pose proof (units_nonneg _ (h_pos _ _ _ _ H)).
  unfold reaches. intros [[= -> ->]|Hin]%elem_of_cons; [lia|]. destruct (blocks_bounds _ _ _ _ _ (h_pos _ _ _ _ H) Hin). lia.
Qed.

Lemma rd_reach_all L : (forall b, b ∈ L -> b ∈ (base, 0) :: F) -> Forall (fun b => reaches (um_brk s) b.1) L.
Proof using H. intros HL. apply Forall_forall. intros [a n] Hin. apply (rd_reaches a n), HL, Hin. Qed.

Lemma rd_asc : asc base F.
Proof using H. apply asc_blocks; [apply (h_base _ _ _ _ H)|apply (h_pos _ _ _ _ H)]. Qed.

(** From the static header on. *)
Lemma round_base k fuel : 0 < k ->
  let run := malloc_loop (length F + fuel) k base (hd_addr base F) s in
  (exists F1 a n F2, F = F1 ++ (a, n) :: F2 /\ k <= n /\ run = malloc_take k (last_addr base F1) a s) \/
  (Forall (small k) F /\ ~ um_freep s ∈ F.*1 /\ run = malloc_loop fuel k (last_addr base F) base s) \/
  (exists W1 n W2 g, F = W1 ++ (um_freep s, n) :: W2 /\ Forall (small k) (W1 ++ [(um_freep s, n)]) /\ (fuel <= g)%nat /\ run = malloc_more g k s).
Proof using H.
  intros Hk run. pose proof (h_ring _ _ _ _ H) as (_ & _ & HcF). fold F in HcF. apply (malloc_scan s base k fuel F base HcF).
  apply rd_reach_all. intros b Hin. by right.
Qed.

(** Once around the ring: a block that fits is taken, whose predecessor is the
    one before it in order of address, or every block is too small. *)
Lemma malloc_round k fuel : 0 < k ->
  let run := malloc_loop (2 * length F + 2 + fuel) k (um_freep s) (load32 (um_mem s) (um_freep s)) s in
  (exists F1 a n F2, F = F1 ++ (a, n) :: F2 /\ k <= n /\ run = malloc_take k (last_addr base F1) a s) \/
  (Forall (small k) F /\ exists g, (fuel <= g)%nat /\ run = malloc_more g k s).
Proof using H.
  intros Hk run. unfold run. clear run. pose proof (h_ring _ _ _ _ H) as (Hb1 & Hb2 & HcF). fold F in Hb1, HcF. pose proof rd_asc as Ha.
  pose proof (rd_reaches base 0 ltac:(left)) as Hrb. pose proof (h_freep _ _ _ _ H) as Hf. fold F in Hf. apply elem_of_cons in Hf as [Ef|Hf].
  - rewrite Ef, Hb1. replace (2 * length F + 2 + fuel)%nat with (length F + S (length F + 1 + fuel))%nat by lia.
    destruct (round_base k (S (length F + 1 + fuel)) Hk) as [E|[(H1 & _ & ->)|(W1 & n & W2 & g & E & _)]]; [by left| |].
    + right. split; [done|]. rewrite (malloc_loop_step _ _ _ _ _ 0 Hrb Hb2), Ef, Z.eqb_refl. rewrite (proj2 (Z.leb_gt k 0)) by lia. exists (length F + 1 + fuel)%nat. split; [lia|done].
    + exfalso. apply (asc_not_below F base base ltac:(lia) Ha). rewrite E, Ef, fmap_app. apply elem_of_app. right. left.
  - pose proof (elem_of_split_fst F _ Hf) as (L1 & j & L2 & EF). set (f := um_freep s) in *. assert (Hfb : f <> base) by (intros E; rewrite E in Hf; by apply (asc_not_below F base base ltac:(lia) Ha)).
    pose proof HcF as HcF'. rewrite EF in HcF', Ha. apply chain_app in HcF' as [_ (Hf1 & Hf2 & HcL2)]. rewrite Hf1. pose proof Ha as [_ [_ Ha2]]%asc_app.
    replace (2 * length F + 2 + fuel)%nat with (length L2 + S (length F + (length L1 + 2 + fuel)))%nat by (rewrite EF, length_app; cbn [length]; lia).
    destruct (malloc_scan s base k (S (length F + (length L1 + 2 + fuel))) L2 f HcL2) as [(W1 & a & n & W2 & E & Hn & ->)|[(H1 & _ & ->)|(W1 & n & W2 & g & E & _)]].
    + apply rd_reach_all. intros b Hin. right. rewrite EF. apply elem_of_app. right. by right.
    + left. exists (L1 ++ (f, j) :: W1), a, n, W2. split_and!; [by rewrite EF, E, <- app_assoc|done|]. by rewrite last_addr_app.
    + rewrite (malloc_loop_step _ _ _ _ _ 0 Hrb Hb2). fold f. rewrite (proj2 (Z.leb_gt k 0)), (proj2 (Z.eqb_neq base f)) by (done || lia). rewrite Hb1.
      destruct (round_base k (length L1 + 2 + fuel) Hk) as [E|[(_ & H2 & _)|(W1 & n & W2 & g & E & H3 & Hg & ->)]]; [by left|by exfalso|].
      right. split; [|exists g; split; [lia|done]]. fold f in E, H3. rewrite E in EF. rewrite <- EF in Ha. pose proof (asc_split_unique W1 _ _ _ _ _ _ _ Ha EF) as E2.
      apply Forall_app in H3 as [H3 [H4 _]%Forall_cons]. rewrite E, E2. apply Forall_app. split; [done|by constructor].
    + exfalso. apply (asc_not_below L2 f f ltac:(lia) Ha2). rewrite E, fmap_app. apply elem_of_app. right. left.
Qed.
End round.

(** ** Taking a block *)

(** The row after [k] units of the free block of [n] have been given out: its
    tail, or all of it. *)
Definition carve (B1 : list block) (n k : Z) (B2 : list block) : list block :=
  B1 ++ (if n =? k then [] else [(true, n - k)]) ++ (false, k) :: B2.

Lemma packed_carve B1 n k B2 : packed (B1 ++ (true, n) :: B2) -> packed (carve B1 n k B2).
Proof.
  intros Hp. pose proof (packed_app_l _ _ Hp) as H1. pose proof (packed_cons _ _ (packed_app_r _ _ Hp)) as H2. unfold carve.
  induction B1 as [|[f m] B1 IH]; [by destruct (n =? k)|]. specialize (IH (packed_cons _ _ Hp) (packed_cons _ _ H1)). cbn [app] in *.
  destruct f, B1 as [|[[] ?] ?]; cbn [app] in *; try done; by destruct (n =? k).
Qed.

Section taking.
Context (base hs : Z) (s : um) (B1 : list block) (n k : Z) (B2 : list block).
Hypothesis H : heap base hs s (B1 ++ (true, n) :: B2).
Hypothesis Hk : 0 < k <= n.
Let a := hs + 8 * units B1.
Let F1 := frees hs B1.
Let F2 := frees (a + 8 * n) B2.
Let prev := last_addr base F1.

Lemma tk_pos : Forall (fun b : block => 0 < b.2) B1 /\ Forall (fun b : block => 0 < b.2) B2.
Proof using H. by pose proof (h_pos _ _ _ _ H) as [H1 [H2 H3]%Forall_cons]%Forall_app. Qed.

Lemma tk_facts : 0 < base /\ base + 8 <= hs /\ hs <= a /\ a + 8 * n + 8 * units B2 = um_brk s /\ 0 <= units B2 /\ um_brk s < 2147483648.
Proof using H.
  destruct tk_pos as (P1 & P2). pose proof (h_base _ _ _ _ H). pose proof (units_nonneg _ P1). pose proof (units_nonneg _ P2). pose proof (h_top _ _ _ _ H).
  pose proof (h_brk _ _ _ _ H) as Hb. rewrite units_app in Hb. cbn [units snd] in Hb. unfold KERNBASE, a in *. lia.
Qed.

Lemma tk_frees : frees hs (B1 ++ (true, n) :: B2) = F1 ++ (a, n) :: F2.
Proof using. by rewrite blocks_app. Qed.

Lemma tk_ring : chain (um_mem s) ((base, 0) :: F1) a /\ load32 (um_mem s) a = hd_addr base F2 /\ load32 (um_mem s) (a + 4) = n /\ chain (um_mem s) F2 base.
Proof using H. pose proof (h_ring _ _ _ _ H) as Hc. rewrite tk_frees, app_comm_cons in Hc. apply chain_app in Hc as [Hc1 (Hc2 & Hc3 & Hc4)]. done. Qed.

(** The same row with the block cut in two free ones. *)
Lemma tk_keeps L m : (forall b, b ∈ L -> b ∈ (base, 0) :: F1 \/ b = (a, n - k) \/ b = (a + 8 * (n - k), k)) -> only_hdrs L (um_mem s) m -> k < n ->
  forall b j, (b, j) ∈ used hs (B1 ++ (true, n) :: B2) -> mem_eq_on m (um_mem s) b (8 * j).
Proof using H Hk.
  intros HL Hm Hlt b j Hin. destruct tk_pos as (P1 & P2). apply (ring_keeps base hs (B1 ++ (true, n - k) :: (true, k) :: B2) L _ m b j); [apply (h_base _ _ _ _ H)| | |exact Hm|].
  - apply Forall_app. split; [done|]. constructor; [cbn; lia|]. constructor; [cbn; lia|done].
  - intros c Hc. rewrite blocks_app, app_comm_cons. apply elem_of_app. destruct (HL c Hc) as [?|[-> | ->]]; [by left|right; left|right; right; left].
  - rewrite blocks_app in Hin |- *. cbn in *. by replace (hs + 8 * units B1 + 8 * (n - k) + 8 * k) with (hs + 8 * units B1 + 8 * n) by lia.
Qed.
Lemma tk_low b j : (b, j) ∈ (base, 0) :: F1 -> 0 < b /\ b + 8 <= a /\ reaches (um_brk s) b.
Proof using H Hk.
  destruct tk_pos as (P1 & P2), tk_facts as (? & ? & ? & ? & ? & ?). unfold reaches, KERNBASE. intros [[= -> ->]|Hin]%elem_of_cons; [lia|].
  destruct (blocks_bounds _ _ _ _ _ P1 Hin). unfold a in *. lia.
Qed.

Lemma tk_prev : exists D psz, (base, 0) :: F1 = D ++ [(prev, psz)] /\ (forall b j, (b, j) ∈ D -> b + 8 <= prev).
Proof using H.
  destruct (last_split F1 base 0) as (D & psz & ED). exists D, psz. split; [done|]. intros b j Hin. destruct tk_pos as (P1 & P2).
  eapply (asc_last F1 base 0 D prev psz); [apply asc_blocks; [apply (h_base _ _ _ _ H)|done]|exact ED|exact Hin].
Qed.

Lemma tk_high b j : (b, j) ∈ F2 -> a + 8 * n <= b /\ b + 8 <= um_brk s.
Proof using H Hk.
  destruct tk_pos as (P1 & P2), tk_facts as (? & ? & ? & ? & ? & ?). intros Hin. destruct (blocks_bounds _ _ _ _ _ P2 Hin). lia.
Qed.

(** The block is split. *)
Lemma take_part : k < n ->
  let p := a + 8 * (n - k) in
  let m := store32 (store32 (um_mem s) (a + 4) (n - k)) (p + 4) k in
  malloc_take k prev a s = Ok (p + 8) (set_um_freep prev (set_um_mem m s)) /\ chain m ((base, 0) :: F1 ++ (a, n - k) :: F2) base /\
  load32 m (p + 4) = k /\ only_hdrs [(a, n - k); (p, k)] (um_mem s) m.
Proof using H Hk.
  intros Hlt p m. destruct tk_facts as (? & ? & ? & ? & ? & ?), tk_ring as (C1 & C2 & C3 & C4).
  assert (Hra : reaches (um_brk s) a) by (unfold reaches, KERNBASE; lia). assert (Hrp : reaches (um_brk s) p) by (unfold reaches, KERNBASE, p; lia).
  assert (Ho : only_hdrs [(a, n - k); (p, k)] (um_mem s) m).
  { eapply only_hdrs_trans; [eapply (only_hdrs_store _ _ a (n - k) _ 4); [left|by right]|eapply (only_hdrs_store _ _ p k _ 4); [right; left|by right]]. }
  assert (Hsame : forall x, x < a \/ a + 8 * n <= x -> m x = um_mem s x).
  { intros x Hx. apply Ho. intros (b & j & Hin & Hb). apply elem_of_cons in Hin as [[= -> ->]|Hin]; [lia|]. apply list_elem_of_singleton in Hin. injection Hin as -> ->. unfold p in *. lia. }
  split_and!; [| | |done].
  - unfold malloc_take. rewrite (bind_ok _ _ _ _ _ (hsize_ok _ _ Hra)), C3. rewrite (proj2 (Z.eqb_neq n k)) by lia. rewrite u32_small by lia.
    erewrite bind_ok; [|rewrite (bind_ok _ _ _ _ _ (set_hsize_ok _ _ _ Hra)), (bind_ok _ _ _ _ _ (hsize_ok (set_um_mem _ s) _ Hra)); cbn [um_mem set_um_mem];
      rewrite load_store32, u32_small, hadd_small by lia; fold p; rewrite (bind_ok _ _ _ _ _ (set_hsize_ok (set_um_mem _ s) _ _ Hrp)); reflexivity].
    cbn [set_um_mem um_mem]. erewrite bind_ok by reflexivity. rewrite hadd_small by (unfold p; lia). done.
  - rewrite app_comm_cons. apply chain_app. split; [eapply chain_frame; [|exact C1]|].
    + intros x (b & j & Hin & Hx). apply Hsame. destruct (tk_low b j Hin) as (_ & ? & _). lia.
    + cbn [chain]. unfold m. rewrite load_store32_ne, load_store32_ne, C2 by (unfold p; lia). split; [done|].
      rewrite load_store32_ne, load_store32, u32_small by (unfold p; lia). split; [done|]. eapply chain_frame; [|exact C4]. intros x (b & j & Hin & Hx). apply Hsame. destruct (tk_high b j Hin). lia.
  - unfold m. rewrite load_store32, u32_small by lia. done.
Qed.

(** The whole block is taken. *)
Lemma take_all : n = k ->
  let m := store32 (um_mem s) prev (hd_addr base F2) in
  malloc_take k prev a s = Ok (a + 8) (set_um_freep prev (set_um_mem m s)) /\ chain m ((base, 0) :: F1 ++ F2) base /\
  load32 m (a + 4) = k /\ exists psz, (prev, psz) ∈ (base, 0) :: F1 /\ only_hdrs [(prev, psz)] (um_mem s) m.
Proof using H Hk.
  intros E m. destruct tk_facts as (? & ? & ? & ? & ? & ?), tk_ring as (C1 & C2 & C3 & C4), tk_prev as (D & psz & ED & HD).
  assert (Hin : (prev, psz) ∈ (base, 0) :: F1) by (rewrite ED; apply elem_of_app; right; left). destruct (tk_low _ _ Hin) as (Hp0 & Hp1 & Hrp).
  assert (Hra : reaches (um_brk s) a) by (unfold reaches, KERNBASE; lia).
  assert (Hhd : 0 <= hd_addr base F2 < 4294967296) by (apply hd_addr_range; [lia|]; apply Forall_forall; intros [b j] Hb; destruct (tk_high b j Hb); cbn; lia).
  split_and!; [| | |exists psz; split; [done|apply only_hdrs_ptr]].
  - unfold malloc_take. rewrite (bind_ok _ _ _ _ _ (hsize_ok _ _ Hra)), C3. rewrite (proj2 (Z.eqb_eq n k)) by done.
    erewrite bind_ok; [|rewrite (bind_ok _ _ _ _ _ (hptr_ok _ _ Hra)), C2, (bind_ok _ _ _ _ _ (set_hptr_ok _ _ _ Hrp)); reflexivity].
    erewrite bind_ok by reflexivity. rewrite hadd_small by lia. done.
  - rewrite app_comm_cons. rewrite ED in C1 |- *. apply chain_app in C1 as [C1 [_ [C5 _]]]. rewrite <- app_assoc. apply chain_app. split.
    + eapply chain_frame; [|exact C1]. intros x (b & j & Hb & Hx). apply store32_out. specialize (HD _ _ Hb). lia.
    + cbn [chain app]. unfold m. rewrite load_store32, u32_small by done. rewrite load_store32_ne by lia. split; [done|]. split; [done|].
      eapply chain_frame; [|exact C4]. intros x (b & j & Hb & Hx). apply store32_out. destruct (tk_high _ _ Hb). lia.
  - unfold m. rewrite load_store32_ne by lia. by rewrite C3.
Qed.
(** The bytes of the blocks in use are those of [m]. *)
Definition keeps (B : list block) (m m' : mem) : Prop := forall b j, (b, j) ∈ used hs B -> mem_eq_on m' m b (8 * j).

Lemma tk_memory : exists m, malloc_take k prev a s = Ok (a + 8 * (n - k) + 8) (set_um_freep prev (set_um_mem m s)) /\
  chain m ((base, 0) :: frees hs (carve B1 n k B2)) base /\ load32 m (a + 8 * (n - k) + 4) = k /\ keeps (B1 ++ (true, n) :: B2) (um_mem s) m.
Proof using H Hk.
  destruct tk_pos as (P1 & P2). unfold carve. rewrite blocks_app. fold a F1. destruct (Z.eqb_spec n k) as [E|E]; cbn [app blocks Bool.eqb].
  - destruct (take_all E) as (E1 & C & Hl & psz & Hin & Ho). eexists. replace (a + 8 * (n - k)) with a by lia. split_and!; [exact E1|rewrite <- E; exact C|exact Hl|].
    intros b j Hb. eapply (ring_keeps base hs (B1 ++ (true, n) :: B2)); [apply (h_base _ _ _ _ H)|apply (h_pos _ _ _ _ H)| |exact Ho|exact Hb].
    intros c Hc%list_elem_of_singleton. subst c. rewrite blocks_app, app_comm_cons. apply elem_of_app. by left.
  - destruct (take_part ltac:(lia)) as (E1 & C & Hl & Ho). eexists. split_and!; [exact E1| |exact Hl|].
    + replace (a + 8 * (n - k) + 8 * k) with (a + 8 * n) by lia. exact C.
    + unfold keeps. eapply tk_keeps; [|exact Ho|lia]. intros c [->|Hc%list_elem_of_singleton]%elem_of_cons; [right; by left|right; by right].
Qed.

Lemma tk_heap m : chain m ((base, 0) :: frees hs (carve B1 n k B2)) base -> load32 m (a + 8 * (n - k) + 4) = k -> keeps (B1 ++ (true, n) :: B2) (um_mem s) m ->
  heap base hs (set_um_freep prev (set_um_mem m s)) (carve B1 n k B2).
Proof using H Hk.
  intros Hc Hl Hm. destruct tk_pos as (P1 & P2). constructor; cbn [um_brk um_mem um_freep set_um_mem set_um_freep].
  - apply (h_base _ _ _ _ H).
  - rewrite (h_brk _ _ _ _ H). unfold carve. rewrite !units_app. destruct (Z.eqb_spec n k); cbn [units snd]; lia.
  - apply (h_top _ _ _ _ H).
  - unfold carve. apply Forall_app. split; [done|]. apply Forall_app. split; [destruct (Z.eqb_spec n k); repeat constructor; cbn; lia|]. constructor; [cbn; lia|done].
  - apply packed_carve, (h_packed _ _ _ _ H).
  - done.
  - assert (Hu : Forall (fun b : Z * Z => load32 m (b.1 + 4) = b.2) (used hs (B1 ++ (true, n) :: B2))).
    { pose proof (h_used _ _ _ _ H) as Hu. rewrite Forall_forall in Hu |- *. intros [b j] Hin. specialize (Hu _ Hin). cbn [fst snd] in *. rewrite <- Hu.
      destruct (blocks_bounds _ _ _ _ _ (h_pos _ _ _ _ H) Hin) as (? & _). apply load32_eq_on. intros x Hx. apply (Hm b j Hin). lia. }
    unfold carve. rewrite blocks_app in Hu |- *. apply Forall_app in Hu as [Hu1 Hu2]. apply Forall_app. split; [done|]. cbn in Hu2. fold a in Hu2 |- *.
    destruct (Z.eqb_spec n k) as [E|E]; cbn; (constructor; [cbn [fst snd]|]).
    + by replace (a + 8 * (n - k)) with a in Hl by lia.
    + by rewrite <- E.
    + done.
    + by replace (a + 8 * (n - k) + 8 * k) with (a + 8 * n) by lia.
  - unfold carve. rewrite blocks_app, fmap_app. fold F1. destruct tk_prev as (D & psz & ED & _).
    change (base :: F1.*1 ++ ?x) with (((base, 0) :: F1).*1 ++ x). rewrite ED, fmap_app. apply elem_of_app. left. apply elem_of_app. right. left.
Qed.
End taking.

Lemma malloc_take_spec base hs s B1 n k B2 : heap base hs s (B1 ++ (true, n) :: B2) -> 0 < k <= n ->
  exists s', malloc_take k (last_addr base (frees hs B1)) (hs + 8 * units B1) s = Ok (hs + 8 * (units B1 + n - k) + 8) s' /\
    heap base hs s' (carve B1 n k B2) /\ keeps hs (B1 ++ (true, n) :: B2) (um_mem s) (um_mem s') /\ um_grants s' = um_grants s.
Proof.
  intros H Hk. destruct (tk_memory base hs s B1 n k B2 H Hk) as (m & E & C & Hl & Hm). eexists. split_and!; [|by apply (tk_heap base hs s B1 n k B2)|done|done].
  rewrite E. f_equal. lia.
Qed.

(** ** More memory *)

Lemma frees_split B : forall hs F1 a n F2, frees hs B = F1 ++ (a, n) :: F2 ->
  exists B1 B2, B = B1 ++ (true, n) :: B2 /\ F1 = frees hs B1 /\ a = hs + 8 * units B1.
Proof.
  induction B as [|[f m] B IH]; intros hs F1 a n F2 E; cbn [blocks] in E; [by destruct F1|]. destruct f; cbn [Bool.eqb app] in E.
  - destruct F1 as [|x F1]; injection E as E1 E; [simplify_eq; exists [], B; split_and!; [done|done|cbn; lia]|]. subst x.
    destruct (IH _ _ _ _ _ E) as (B1 & B2 & -> & -> & ->). exists ((true, m) :: B1), B2. cbn [units snd]. split_and!; [done|done|lia].
  - destruct (IH _ _ _ _ _ E) as (B1 & B2 & -> & -> & ->). exists ((false, m) :: B1), B2. cbn [units snd]. split_and!; [done|done|lia].
Qed.

Lemma keeps_refl hs B m : keeps hs B m m.
Proof. by intros b j _ x _. Qed.

(** What sbrk can answer to malloc. *)
Lemma sbrk_spec s n : 0 <= um_brk s < KERNBASE -> 0 < n < 2147483648 ->
  (exists g, sbrk n s = Ok (-1) (mkUm (um_mem s) (um_freep s) (um_brk s) g)) \/
  exists m g, sbrk n s = Ok (um_brk s) (mkUm m (um_freep s) (um_brk s + n) g) /\ um_brk s + n < KERNBASE /\ forall x, x < um_brk s -> m x = um_mem s x.
Proof.
  intros Hb Hn. unfold KERNBASE in Hb. unfold sbrk. rewrite i32_small, u32_small by lia. rewrite (proj2 (Z.ltb_lt 0 n)) by lia.
  destruct (Z.leb_spec KERNBASE (um_brk s + n)); [left; exists (um_grants s); by destruct s|]. rewrite (proj2 (Z.ltb_ge (um_brk s + n) (um_brk s))) by lia.
  destruct (um_grants s) as [|[] g] eqn:Eg; [left; exists []; destruct s; cbn in *; by subst| |left; by exists g].
  right. eexists _, g. split; [done|]. split; [done|]. intros x Hx. destruct (PGROUNDUP_bounds (um_brk s)) as [_ Hr]; [lia|lia|].
  by rewrite (proj2 (Z.leb_gt (PGROUNDUP (um_brk s)) x)) by lia.
Qed.

(** The new memory as a block in use at the end of the row. *)
Lemma heap_grown base hs s B nu m g : heap base hs s B -> 0 < nu -> um_brk s + 8 * nu < KERNBASE -> (forall x, x < um_brk s -> m x = um_mem s x) ->
  heap base hs (mkUm (store32 m (um_brk s + 4) nu) (um_freep s) (um_brk s + 8 * nu) g) (B ++ [(false, nu)]).
Proof.
  intros H Hnu Htop Hm. pose proof (h_brk _ _ _ _ H) as Hbrk. pose proof (h_pos _ _ _ _ H) as Hp. pose proof (h_base _ _ _ _ H) as Hb.
  pose proof (units_nonneg _ Hp) as Hu0.
  assert (Hsame : forall x, x < um_brk s -> store32 m (um_brk s + 4) nu x = um_mem s x) by (intros x Hx; rewrite store32_out by lia; by apply Hm).
  assert (Hring : frees hs (B ++ [(false, nu)]) = frees hs B) by (rewrite blocks_app; cbn; apply app_nil_r).
  constructor; cbn [um_brk um_mem um_freep]; rewrite ?Hring.
  - done.
  - rewrite units_app. cbn [units snd]. lia.
  - done.
  - apply Forall_app. split; [done|]. by repeat constructor.
  - pose proof (h_packed _ _ _ _ H) as Hpk. clear -Hpk. induction B as [|[f n] B IH]; [done|]. specialize (IH (packed_cons _ _ Hpk)). cbn [app]. destruct f, B as [|[[] ?] ?]; done.
  - eapply chain_frame; [|apply (h_ring _ _ _ _ H)]. intros x (a & n & Hin & Hx). apply Hsame. destruct (rd_reaches _ _ _ _ H a n Hin) as (_ & ? & _). lia.
  - rewrite blocks_app. apply Forall_app. split.
    + pose proof (h_used _ _ _ _ H) as Hu. rewrite Forall_forall in Hu |- *. intros [a n] Hin. specialize (Hu _ Hin). cbn [fst snd] in *. rewrite <- Hu.
      destruct (blocks_bounds _ _ _ _ _ Hp Hin) as (? & ? & ?). apply load32_eq_on. intros x Hx. apply Hsame. lia.
    + cbn. constructor; [|constructor]. cbn [fst snd]. rewrite <- Hbrk, load_store32. apply u32_small. unfold KERNBASE in Htop. lia.
  - apply (h_freep _ _ _ _ H).
Qed.

Lemma heap_freep_pos base hs s B : heap base hs s B -> 0 < um_freep s.
Proof.
  intros H. pose proof (h_base _ _ _ _ H) as Hb. pose proof (h_freep _ _ _ _ H) as Hf. apply elem_of_cons in Hf as [->|Hf]; [lia|].
  apply list_elem_of_fmap in Hf as ([a n] & E & Hin). destruct (blocks_bounds _ _ _ _ _ (h_pos _ _ _ _ H) Hin). cbn in E. lia.
Qed.

(** morecore fails without a trace, or adds a free block to the row. *)
Lemma morecore_spec base hs s B k fuel : heap base hs s B -> 0 < k < 268435456 -> (length (frees hs B) + 2 <= fuel)%nat ->
  exists p s', morecore fuel k s = Ok p s' /\
    ((p = 0 /\ heap base hs s' B /\ um_mem s' = um_mem s) \/
     (p = um_freep s' /\ p <> 0 /\ heap base hs s' (merge (B ++ [(true, Z.max 4096 k)])) /\ keeps hs B (um_mem s) (um_mem s'))).
Proof.
  intros H Hk Hfuel. unfold morecore. replace (if k <? 4096 then 4096 else k) with (Z.max 4096 k) by (destruct (Z.ltb_spec k 4096); lia). set (nu := Z.max 4096 k).
  pose proof (h_brk _ _ _ _ H) as Hbrk. pose proof (h_base _ _ _ _ H) as Hb. pose proof (units_nonneg _ (h_pos _ _ _ _ H)) as Hu. unfold HEADER. rewrite u32_small by lia.
  assert (Hb1 : 0 <= um_brk s < KERNBASE) by (pose proof (h_top _ _ _ _ H); lia).
  destruct (sbrk_spec s (nu * 8) Hb1 ltac:(lia)) as [(g & E)|(m & g & E & Htop & Hm)]; rewrite (bind_ok _ _ _ _ _ E).
  - exists 0, (mkUm (um_mem s) (um_freep s) (um_brk s) g). split; [done|]. left. split_and!; [done| |done]. destruct H. by constructor.
  - rewrite (proj2 (Z.eqb_neq (um_brk s) (-1))) by lia. replace (nu * 8) with (8 * nu) in * by lia.
    assert (Hr : reaches (um_brk s + 8 * nu) (um_brk s)) by (unfold reaches; lia).
    rewrite (bind_ok _ _ _ _ _ (set_hsize_ok (mkUm m (um_freep s) (um_brk s + 8 * nu) g) _ nu Hr)). cbn [set_um_mem um_mem um_freep um_brk um_grants].
    pose proof (heap_grown base hs s B nu m g H ltac:(lia) Htop Hm) as H1. set (s1 := mkUm (store32 m _ nu) _ _ _) in *.
    destruct (free_spec base hs s1 B nu [] H1 fuel) as (s' & E' & H' & Ho & Hp & _); [cbn [blocks length]; lia|]. unfold KERNBASE in *.
    replace (hadd (um_brk s) 1) with (hs + 8 * units B + 8) by (rewrite hadd_small by lia; lia). rewrite (bind_ok _ _ _ _ _ E').
    exists (um_freep s'), s'. split; [done|]. right. split_and!; [done| |done|].
    + pose proof (heap_freep_pos _ _ _ _ H'). lia.
    + intros b j Hin x Hx. destruct (blocks_bounds _ _ _ _ _ (h_pos _ _ _ _ H) Hin) as (Hj & Hb2 & Hb3).
      transitivity (um_mem s1 x); [|cbn; rewrite store32_out by lia; apply Hm; lia].
      eapply (ring_keeps base hs (B ++ [(true, nu)]) _ _ _ b j); [lia| | |exact Ho| |exact Hx].
      * apply Forall_app. split; [apply (h_pos _ _ _ _ H)|]. repeat constructor. cbn. lia.
      * intros c Hc. rewrite blocks_app, app_comm_cons. apply elem_of_app. apply elem_of_cons in Hc as [->|Hc]; [right; left|by left].
      * rewrite blocks_app. apply elem_of_app. by left.
Qed.

(** ** malloc *)

Lemma nunits_of_small nbytes : 0 <= nbytes <= 2147483632 ->
  nunits_of nbytes = (nbytes + 7) / 8 + 1 /\ 0 < nunits_of nbytes < 268435456 /\ nbytes <= 8 * (nunits_of nbytes - 1) < nbytes + 8.
Proof.
  intros Hn. assert (E : nunits_of nbytes = (nbytes + 7) / 8 + 1) by (unfold nunits_of, HEADER; rewrite (u32_small (nbytes + 8 - 1)) by lia; rewrite u32_small by zlia; do 2 f_equal; lia).
  rewrite E. split; [done|]. zlia.
Qed.

Lemma length_blocks k B : forall a, (length (blocks k a B) <= length B)%nat.
Proof. induction B as [|[f n] B IH]; intros a; cbn [blocks length]; [lia|]. rewrite length_app. specialize (IH (a + 8 * n)). destruct (Bool.eqb f k); cbn [length]; lia. Qed.

Lemma length_merge B : (length (merge B) <= length B)%nat.
Proof. induction B as [|[f n] B IH]; cbn [merge length]; [lia|]. destruct f; [|cbn [length]; lia]. destruct (merge B) as [|[[] m] B']; cbn [length] in *; lia. Qed.

Lemma grown_last B nu : packed B -> Forall (fun b : block => 0 < b.2) B -> exists C m, merge (B ++ [(true, nu)]) = C ++ [(true, m)] /\ nu <= m.
Proof.
  intros Hp Hpos. destruct (snoc_cases B) as [->|(C & [[] k] & ->)].
  - by exists [], nu.
  - exists C, (k + nu). split; [by apply merge_join_free|]. apply Forall_app in Hpos as [_ [Hk _]%Forall_cons]. cbn in Hk. lia.
  - exists (C ++ [(false, k)]), nu. split; [apply merge_id; by apply packed_join|lia].
Qed.

(** What malloc may answer for [k] units: no block fits and there is no more
    memory, or part of a block that fits, or of the row with more memory. *)
Inductive malloc_result (hs : Z) (B : list block) (k : Z) : Z -> list block -> Prop :=
| mr_none : Forall (small k) (frees hs B) -> malloc_result hs B k 0 B
| mr_fits B1 n B2 : B = B1 ++ (true, n) :: B2 -> k <= n ->
    malloc_result hs B k (hs + 8 * (units B1 + n - k) + 8) (carve B1 n k B2)
| mr_more B1 n B2 : Forall (small k) (frees hs B) -> merge (B ++ [(true, Z.max 4096 k)]) = B1 ++ (true, n) :: B2 -> k <= n ->
    malloc_result hs B k (hs + 8 * (units B1 + n - k) + 8) (carve B1 n k B2).

Lemma keeps_trans hs B m1 m2 m3 : keeps hs B m1 m2 -> keeps hs B m2 m3 -> keeps hs B m1 m3.
Proof. intros H1 H2 b j Hin x Hx. rewrite (H2 b j Hin x Hx). by apply (H1 b j Hin). Qed.

Lemma used_grown hs B n : used hs (merge (B ++ [(true, n)])) = used hs B.
Proof. rewrite used_merge, blocks_app. cbn. apply app_nil_r. Qed.

Lemma take_fits base hs s B k F1 a n F2 : heap base hs s B -> 0 < k -> frees hs B = F1 ++ (a, n) :: F2 -> k <= n ->
  exists B1 B2 s', B = B1 ++ (true, n) :: B2 /\ malloc_take k (last_addr base F1) a s = Ok (hs + 8 * (units B1 + n - k) + 8) s' /\
    heap base hs s' (carve B1 n k B2) /\ keeps hs B (um_mem s) (um_mem s').
Proof.
  intros H Hk EF Hn. destruct (frees_split _ _ _ _ _ _ EF) as (B1 & B2 & -> & -> & ->).
  destruct (malloc_take_spec base hs s B1 n k B2 H ltac:(lia)) as (s' & E & H' & Hm & _). by exists B1, B2, s'.
Qed.

Lemma malloc_loop_spec base hs s B k fuel : heap base hs s B -> 0 < k < 268435456 -> (4 * length B + 8 <= fuel)%nat ->
  exists r s' B', malloc_loop fuel k (um_freep s) (load32 (um_mem s) (um_freep s)) s = Ok r s' /\
    malloc_result hs B k r B' /\ heap base hs s' B' /\ keeps hs B (um_mem s) (um_mem s').
Proof.
  intros H Hk Hfuel. pose proof (length_blocks true B hs) as HF. set (f1 := (fuel - (2 * length (frees hs B) + 2))%nat).
  replace fuel with (2 * length (frees hs B) + 2 + f1)%nat by (unfold f1; lia).
  destruct (malloc_round base hs s B H k f1 ltac:(lia)) as [(F1 & a & n & F2 & EF & Hn & ->)|(Hs & g & Hg & ->)].
  - destruct (take_fits base hs s B k F1 a n F2 H ltac:(lia) EF Hn) as (B1 & B2 & s' & EB & E & H' & Hm).
    exists (hs + 8 * (units B1 + n - k) + 8), s', (carve B1 n k B2). split_and!; [done|by eapply mr_fits|done|done].
  - unfold f1 in Hg. unfold malloc_more. destruct (morecore_spec base hs s B k g H Hk ltac:(lia)) as (p & s1 & E & [(-> & H1 & Em)|(Ep & Hp0 & H1 & Hm1)]); rewrite (bind_ok _ _ _ _ _ E).
    { exists 0, s1, B. split_and!; [done|by apply mr_none|done|rewrite Em; apply keeps_refl]. }
    rewrite (proj2 (Z.eqb_neq p 0)) by done. set (B0 := merge (B ++ [(true, Z.max 4096 k)])) in *.
    assert (Hrp : reaches (um_brk s1) p).
    { pose proof (h_freep _ _ _ _ H1) as Hf. rewrite <- Ep in Hf. change (base :: (frees hs B0).*1) with ((base, 0) :: frees hs B0).*1 in Hf.
      apply list_elem_of_fmap in Hf as ([a n] & Ea & Hin). cbn in Ea. rewrite Ea. exact (rd_reaches base hs s1 B0 H1 a n Hin). }
    rewrite (bind_ok _ _ _ _ _ (hptr_ok _ _ Hrp)), Ep.
    assert (HB0 : (length (frees hs B0) <= length B + 1)%nat) by (etransitivity; [apply length_blocks|]; etransitivity; [apply length_merge|]; rewrite length_app; cbn; lia).
    replace g with (2 * length (frees hs B0) + 2 + (g - (2 * length (frees hs B0) + 2)))%nat by lia.
    destruct (malloc_round base hs s1 B0 H1 k (g - (2 * length (frees hs B0) + 2)) ltac:(lia)) as [(F1 & a & n & F2 & EF & Hn & ->)|(Hs' & _)].
    + destruct (take_fits base hs s1 B0 k F1 a n F2 H1 ltac:(lia) EF Hn) as (B1 & B2 & s' & EB & E' & H' & Hm).
      exists (hs + 8 * (units B1 + n - k) + 8), s', (carve B1 n k B2). split_and!; [done|by eapply mr_more|done|].
      eapply keeps_trans; [exact Hm1|]. intros b j Hin. apply Hm. unfold B0. by rewrite used_grown.
    + exfalso. destruct (grown_last B (Z.max 4096 k)) as (C & m & EC & Hm); [apply (h_packed _ _ _ _ H)|apply (h_pos _ _ _ _ H)|].
      unfold B0 in Hs'. rewrite EC, blocks_app in Hs'. apply Forall_app in Hs' as [_ Hs']. cbn in Hs'. apply Forall_cons in Hs' as [Hs' _]. unfold small in Hs'. cbn in Hs'. lia.
Qed.

(** Before the first call. *)
Definition fresh (base hs : Z) (s : um) : Prop :=
  um_freep s = 0 /\ 0 < base /\ base + 8 <= hs /\ um_brk s = hs /\ hs < KERNBASE.

Definition ready (base hs : Z) (s : um) (B : list block) : Prop := heap base hs s B \/ (fresh base hs s /\ B = []).

Lemma malloc_spec base hs s B nbytes fuel : ready base hs s B -> 0 <= nbytes <= 2147483632 -> (4 * length B + 8 <= fuel)%nat ->
  exists r s' B', malloc base fuel nbytes s = Ok r s' /\
    malloc_result hs B (nunits_of nbytes) r B' /\ heap base hs s' B' /\ keeps hs B (um_mem s) (um_mem s').
Proof.
  intros HR Hn Hfuel. destruct (nunits_of_small nbytes Hn) as (_ & Hk & _). unfold malloc. rewrite (bind_ok _ _ s (um_freep s) s) by done. destruct HR as [H|[(Hf & Hb1 & Hb2 & Hbrk & Htop) ->]].
  - pose proof (heap_freep_pos _ _ _ _ H). rewrite (proj2 (Z.eqb_neq (um_freep s) 0)) by lia. rewrite (bind_ok _ _ s (um_freep s) s) by done.
    assert (Hr : reaches (um_brk s) (um_freep s)).
    { pose proof (h_freep _ _ _ _ H) as Hf. change (base :: (frees hs B).*1) with ((base, 0) :: frees hs B).*1 in Hf.
      apply list_elem_of_fmap in Hf as ([a n] & Ea & Hin). cbn in Ea. rewrite Ea. exact (rd_reaches base hs s B H a n Hin). }
    rewrite (bind_ok _ _ _ _ _ (hptr_ok _ _ Hr)). by apply malloc_loop_spec.
  - rewrite Hf, Z.eqb_refl. assert (Hr : reaches (um_brk s) base) by (unfold reaches; lia).
    set (m := store32 (store32 (um_mem s) base base) (base + 4) 0).
    assert (H : heap base hs (mkUm m base (um_brk s) (um_grants s)) []).
    { constructor; cbn; try done; [lia|lia| |left]. unfold m. unfold KERNBASE in Htop. rewrite load_store32_ne, !load_store32, !u32_small by lia. done. }
    rewrite (bind_ok _ _ s base (mkUm m base (um_brk s) (um_grants s))).
    2: { rewrite (bind_ok _ _ s tt (set_um_freep base s)) by done. by rewrite (bind_ok _ _ _ _ _ (set_hptr_ok (set_um_freep base s) _ _ Hr)), (bind_ok _ _ _ _ _ (set_hsize_ok (set_um_mem _ (set_um_freep base s)) _ _ Hr)). }
    rewrite (bind_ok _ _ _ _ _ (hptr_ok (mkUm m base (um_brk s) (um_grants s)) _ Hr)).
    destruct (malloc_loop_spec base hs _ [] (nunits_of nbytes) fuel H Hk Hfuel) as (r & s' & B' & E & Hres & H' & Hm). exists r, s', B'. split_and!; [exact E|done|done|].
    intros b j Hin. by apply not_elem_of_nil in Hin.
Qed.

Lemma free_keeps base hs s (B1 : list block) n (B2 : list block) fuel : heap base hs s (B1 ++ (false, n) :: B2) -> (2 * length (B1 ++ (false, n) :: B2) + 2 <= fuel)%nat ->
  exists s', free fuel (hs + 8 * units B1 + 8) s = Ok tt s' /\ heap base hs s' (merge (B1 ++ (true, n) :: B2)) /\
    keeps hs (merge (B1 ++ (true, n) :: B2)) (um_mem s) (um_mem s').
Proof.
  intros H Hfuel. rewrite length_app in Hfuel. cbn [length] in Hfuel. pose proof (length_blocks true B1 hs). pose proof (length_blocks true B2 (hs + 8 * units B1 + 8 * n)).
  destruct (free_spec base hs s B1 n B2 H fuel) as (s' & E & H' & Ho & _); [cbv zeta; lia|]. exists s'. split_and!; [done|done|]. intros b j Hin. rewrite used_merge in Hin.
  destruct (fr_pos base hs s B1 n B2 H) as (P1 & P2 & P3). eapply (ring_keeps base hs (B1 ++ (true, n) :: B2)); [apply (h_base _ _ _ _ H)|apply Forall_app; split; [done|by constructor]| |exact Ho|exact Hin].
  intros c Hc. rewrite blocks_app, app_comm_cons, elem_of_app. apply elem_of_cons in Hc as [->|Hc]; [right; left|by left].
Qed.

(** ** Programs that use it *)

Inductive uop :=
| UMalloc (nbytes : Z)
| UFree (i : nat)
| UPut (i off : nat) (v : Z).

(** What the program holds: the pointers it got and what the bytes behind
    them should be. *)
Abbreviation held := (list (Z * list Z)).

Definition run_uop (base : Z) (fuel : nat) (h : held) (op : uop) : uM held :=
  match op with
  | UMalloc nbytes =>
    r ← malloc base fuel nbytes;
    m ← gets um_mem;
    mret (if r =? 0 then h else h ++ [(r, load_bytes m r (Z.to_nat nbytes))])
  | UFree i =>
    match h !! i with
    | Some (r, _) => free fuel r;; mret (delete i h)
    | None => mret h
    end
  | UPut i off v =>
    match h !! i with
    | Some (r, l) =>
      if decide (off < length l)%nat then
        modify (fun s => set_um_mem (st8 (um_mem s) (r + Z.of_nat off) v) s);;
        mret (<[i := (r, <[off := v]> l)]> h)
      else mret h
    | None => mret h
    end
  end.

Fixpoint run_uops (base : Z) (fuel : nat) (h : held) (ops : list uop) : uM held :=
  match ops with
  | [] => mret h
  | op :: ops => h ← run_uop base fuel h op; run_uops base fuel h ops
  end.

(** Requests whose number of bytes, with the header and rounded up, is an int, which
    is what sbrk takes. *)
Definition uop_ok (op : uop) : Prop :=
  match op with
  | UMalloc nbytes => 0 <= nbytes <= 2147483632
  | _ => True
  end.

(** The block of a pointer. *)
Definition block_of (x : Z * list Z) : Z * Z := (x.1 - 8, nunits_of (Z.of_nat (length x.2))).

Record clients (base hs : Z) (c : nat) (h : held) (s : um) (B : list block) : Prop := {
  cl_ready : ready base hs s B;
  cl_held : block_of <$> h ≡ₚ used hs B;
  cl_small : Forall (fun x : Z * list Z => Z.of_nat (length x.2) <= 2147483632) h;
  cl_bytes : Forall (fun x : Z * list Z => load_bytes (um_mem s) x.1 (length x.2) = x.2) h;
  cl_count : (length B <= 2 * c)%nat
}.

Lemma load_bytes_eq m m' a n : mem_eq_on m' m a (Z.of_nat n) -> load_bytes m' a n = load_bytes m a n.
Proof.
  intros H. unfold load_bytes. apply list_fmap_ext. intros i j E. apply lookup_seq in E as [-> Hj]. apply H. lia.
Qed.

Lemma load_bytes_st8 m a n off v : (off < n)%nat -> load_bytes (st8 m (a + Z.of_nat off) v) a n = <[off := v]> (load_bytes m a n).
Proof.
  intros Ho. unfold load_bytes. apply list_eq. intros i. rewrite list_lookup_fmap. destruct (decide (i < n)%nat) as [Hi|Hi].
  - rewrite lookup_seq_lt by done. cbn [fmap option_fmap option_map]. unfold st8. destruct (Z.eqb_spec (a + Z.of_nat (0 + i)) (a + Z.of_nat off)) as [E|E].
    + replace i with off by lia. rewrite list_lookup_insert_eq; [done|]. rewrite length_fmap, length_seq. lia.
    + rewrite list_lookup_insert_ne by lia. rewrite list_lookup_fmap, lookup_seq_lt by done. done.
  - rewrite lookup_seq_ge by lia. symmetry. apply lookup_ge_None. rewrite length_insert, length_fmap, length_seq. lia.
Qed.

Lemma used_split B : forall hs a n, (a, n) ∈ used hs B ->
  exists B1 B2, B = B1 ++ (false, n) :: B2 /\ a = hs + 8 * units B1.
Proof.
  induction B as [|[f m] B IH]; intros hs a n Hin; cbn [blocks] in Hin; [by apply not_elem_of_nil in Hin|].
  apply elem_of_app in Hin as [Hin|Hin].
  - destruct f; cbn in Hin; [by apply not_elem_of_nil in Hin|]. apply list_elem_of_singleton in Hin. injection Hin as -> ->. exists [], B. split; [done|cbn; lia].
  - destruct (IH _ _ _ Hin) as (B1 & B2 & -> & ->). exists ((f, m) :: B1), B2. cbn [units snd]. split; [done|lia].
Qed.

Lemma asc_nodup L : forall lo, asc lo L -> NoDup L.*1.
Proof.
  induction L as [|[a n] L IH]; intros lo; cbn [asc fmap list_fmap fst]; [constructor|]. intros [H1 H2]. apply list.NoDup_cons. split; [by apply (asc_not_below L a a)|by eapply IH].
Qed.

Lemma used_nodup hs B : Forall (fun b : block => 0 < b.2) B -> NoDup (used hs B).
Proof. intros H. apply (NoDup_fmap_1 fst), (asc_nodup _ (hs - 8)), asc_blocks; [lia|done]. Qed.

(** A store into a block in use is none of the heap's business. *)
Lemma heap_payload base hs s B a n x v : heap base hs s B -> (a, n) ∈ used hs B -> a + 8 <= x < a + 8 * n ->
  heap base hs (set_um_mem (st8 (um_mem s) x v) s) B.
Proof.
  intros H Hin Hx. pose proof (h_pos _ _ _ _ H) as Hp. assert (Hne : forall y, y <> x -> st8 (um_mem s) x v y = um_mem s y) by (intros y Hy; unfold st8; by rewrite (proj2 (Z.eqb_neq y x))).
  destruct (blocks_bounds _ _ _ _ _ Hp Hin) as (Hn & Ha & _). pose proof (h_base _ _ _ _ H) as Hb. constructor; cbn [um_brk um_mem um_freep set_um_mem]; try apply H.
  - eapply chain_frame; [|apply (h_ring _ _ _ _ H)]. intros y (b & j & Hb' & Hy). apply Hne. apply elem_of_cons in Hb' as [[= -> ->]|Hb']; [lia|].
    destruct (blocks_bounds _ _ _ _ _ Hp Hb') as (Hj & _). destruct (blocks_disjoint _ _ _ _ _ _ _ _ Hp Hin Hb') as [[? _]|]; [done|lia].
  - pose proof (h_used _ _ _ _ H) as Hu. rewrite Forall_forall in Hu |- *. intros [b j] Hb'. specialize (Hu _ Hb'). cbn [fst snd] in *. rewrite <- Hu.
    apply load32_eq_on. intros y Hy. apply Hne. destruct (blocks_bounds _ _ _ _ _ Hp Hb') as (Hj & _). destruct (blocks_disjoint _ _ _ _ _ _ _ _ Hp Hin Hb') as [(_ & ? & ?)|]; lia.
Qed.

(** ** The steps of a program *)

Section clients.
Context (base hs : Z).

Lemma cl_in c h s B i r l : clients base hs c h s B -> h !! i = Some (r, l) -> (r - 8, nunits_of (Z.of_nat (length l))) ∈ used hs B.
Proof.
  intros C E. rewrite <- (cl_held _ _ _ _ _ _ C). apply list_elem_of_fmap. exists (r, l). split; [done|by eapply list_elem_of_lookup_2].
Qed.

Lemma cl_heap c h s B i x : clients base hs c h s B -> h !! i = Some x -> heap base hs s B.
Proof.
  intros C E. destruct (cl_ready _ _ _ _ _ _ C) as [H|[_ EB]]; [done|]. destruct x as [r l]. pose proof (cl_in _ _ _ _ _ _ _ C E) as Hin. rewrite EB in Hin. by apply not_elem_of_nil in Hin.
Qed.

(** The bytes of one of the blocks. *)
Lemma cl_payload c h s B i r l : clients base hs c h s B -> h !! i = Some (r, l) ->
  let n := nunits_of (Z.of_nat (length l)) in Z.of_nat (length l) <= 8 * n - 8 /\ 0 < n.
Proof.
  intros C E n. pose proof (cl_small _ _ _ _ _ _ C) as Hs. rewrite Forall_forall in Hs. specialize (Hs _ (list_elem_of_lookup_2 _ _ _ E)). cbn in Hs.
  destruct (nunits_of_small (Z.of_nat (length l)) ltac:(lia)) as (_ & ? & ?). fold n in H, H0. lia.
Qed.

(** Memory that keeps the blocks in use keeps the bytes of the pointers. *)
Lemma keeps_bytes (h : held) B m m' : block_of <$> h ⊆ used hs B -> Forall (fun x : Z * list Z => Z.of_nat (length x.2) <= 2147483632) h -> keeps hs B m m' ->
  Forall (fun x : Z * list Z => load_bytes m x.1 (length x.2) = x.2) h -> Forall (fun x : Z * list Z => load_bytes m' x.1 (length x.2) = x.2) h.
Proof.
  intros Hsub Hsm Hk. rewrite !Forall_forall in *. intros Hb [r l] Hin. specialize (Hb _ Hin). specialize (Hsm _ Hin). cbn [fst snd] in *. rewrite <- Hb at 2.
  apply load_bytes_eq. intros x Hx. destruct (nunits_of_small (Z.of_nat (length l)) ltac:(lia)) as (_ & ? & ?).
  apply (Hk (r - 8) (nunits_of (Z.of_nat (length l)))); [|lia]. apply Hsub. apply list_elem_of_fmap. by exists (r, l).
Qed.
Lemma used_carve (B1 : list block) n k (B2 : list block) : used hs (carve B1 n k B2) ≡ₚ used hs (B1 ++ (true, n) :: B2) ++ [(hs + 8 * (units B1 + n - k), k)].
Proof.
  assert (E : used hs (carve B1 n k B2) = used hs B1 ++ (hs + 8 * (units B1 + n - k), k) :: used (hs + 8 * units B1 + 8 * n) B2).
  { unfold carve. rewrite blocks_app. f_equal. destruct (Z.eqb_spec n k) as [->|]; cbn; (apply (f_equal2 cons); [apply (f_equal2 pair); lia|apply (f_equal (fun z => used z B2)); lia]). }
  rewrite E, blocks_app. cbn [blocks Bool.eqb app]. rewrite <- Permutation_middle. apply Permutation_cons_append.
Qed.

Lemma length_carve (B1 : list block) n k (B2 : list block) : (length (carve B1 n k B2) <= length (B1 ++ (true, n) :: B2) + 1)%nat.
Proof. unfold carve. rewrite !length_app. destruct (n =? k); cbn [length]; lia. Qed.

(** What the rows of malloc's answers have in common. *)
Lemma malloc_result_used B k r B' : Forall (fun b : block => 0 < b.2) B -> 0 < hs -> 0 < k -> malloc_result hs B k r B' ->
  (length B' <= length B + 2)%nat /\ ((r = 0 /\ B' = B) \/ (0 < r /\ used hs B' ≡ₚ used hs B ++ [(r - 8, k)])).
Proof.
  intros Hp Hhs Hk [Hs|B1 n B2 -> Hn|B1 n B2 Hs E Hn]; [split; [lia|by left]| |]; pose proof (length_carve B1 n k B2) as Hl.
  - split; [lia|]. right. apply Forall_app in Hp as [Hp _]. pose proof (units_nonneg _ Hp). split; [lia|]. replace (_ + 8 - 8) with (hs + 8 * (units B1 + n - k)) by lia. apply used_carve.
  - rewrite <- E in Hl. pose proof (length_merge (B ++ [(true, Z.max 4096 k)])) as Hm. rewrite length_app in Hm. cbn [length] in Hm. split; [lia|]. right.
    assert (Hp1 : Forall (fun b : block => 0 < b.2) (merge (B ++ [(true, Z.max 4096 k)]))) by (apply merge_pos, Forall_app; split; [done|]; repeat constructor; cbn; lia).
    rewrite E in Hp1. apply Forall_app in Hp1 as [Hp1 _]. pose proof (units_nonneg _ Hp1). split; [lia|]. replace (_ + 8 - 8) with (hs + 8 * (units B1 + n - k)) by lia.
    rewrite used_carve, <- E, used_grown. done.
Qed.

Lemma cl_malloc c h s B nbytes fuel : clients base hs c h s B -> 0 <= nbytes <= 2147483632 -> (8 * c + 8 <= fuel)%nat ->
  exists h' s' B', run_uop base fuel h (UMalloc nbytes) s = Ok h' s' /\ clients base hs (S c) h' s' B'.
Proof.
  intros C Hn Hfuel. pose proof (cl_count _ _ _ _ _ _ C) as Hc. pose proof (cl_ready _ _ _ _ _ _ C) as HR. destruct (nunits_of_small nbytes Hn) as (_ & Hk & _).
  destruct (malloc_spec base hs s B nbytes fuel HR Hn ltac:(lia)) as (r & s' & B' & E & Hres & H' & Hm).
  assert (Hp : Forall (fun b : block => 0 < b.2) B) by (destruct HR as [H|[_ ->]]; [apply (h_pos _ _ _ _ H)|constructor]). pose proof (h_base _ _ _ _ H') as Hb.
  destruct (malloc_result_used B (nunits_of nbytes) r B' Hp ltac:(lia) ltac:(lia) Hres) as [Hl Hu].
  assert (Hby : Forall (fun x : Z * list Z => load_bytes (um_mem s') x.1 (length x.2) = x.2) h).
  { eapply keeps_bytes; [|apply C|exact Hm|apply C]. intros x. by rewrite (cl_held _ _ _ _ _ _ C). }
  unfold run_uop. rewrite (bind_ok _ _ _ _ _ E), (bind_ok _ _ s' (um_mem s') s') by done. destruct Hu as [(-> & ->)|(Hr & Hu)].
  - exists h, s', B. split; [done|]. constructor; [by left|apply C|apply C|done|lia].
  - rewrite (proj2 (Z.eqb_neq r 0)) by lia. set (l := load_bytes (um_mem s') r (Z.to_nat nbytes)). assert (El : length l = Z.to_nat nbytes) by (unfold l, load_bytes; by rewrite length_fmap, length_seq).
    exists (h ++ [(r, l)]), s', B'. split; [done|]. constructor; [by left| | | |lia].
    + rewrite fmap_app, (cl_held _ _ _ _ _ _ C), Hu. cbn. unfold block_of. cbn [fst snd]. by rewrite El, Z2Nat.id by lia.
    + apply Forall_app. split; [apply C|]. repeat constructor. cbn. rewrite El. lia.
    + apply Forall_app. split; [done|]. repeat constructor. cbn [fst snd]. by rewrite El.
Qed.

Lemma cl_free c h s B i fuel : clients base hs c h s B -> (8 * c + 8 <= fuel)%nat ->
  exists h' s' B', run_uop base fuel h (UFree i) s = Ok h' s' /\ clients base hs (S c) h' s' B'.
Proof.
  intros C Hfuel. pose proof (cl_count _ _ _ _ _ _ C) as Hc. cbn [run_uop]. destruct (h !! i) as [[r l]|] eqn:Ei.
  2: { exists h, s, B. split; [done|]. destruct C. constructor; [done..|lia]. }
  pose proof (cl_heap _ _ _ _ _ _ C Ei) as H. pose proof (cl_in _ _ _ _ _ _ _ C Ei) as Hin. pose proof (used_split _ _ _ _ Hin) as (B1 & B2 & EB & Ea). set (n := nunits_of _) in *.
  rewrite EB in H. destruct (free_keeps base hs s B1 n B2 fuel H) as (s' & E & H' & Hm); [rewrite <- EB; lia|]. replace (hs + 8 * units B1 + 8) with r in E by lia.
  rewrite (bind_ok _ _ _ _ _ E). exists (delete i h), s', (merge (B1 ++ (true, n) :: B2)). split; [done|].
  assert (Hused : block_of <$> delete i h ≡ₚ used hs (merge (B1 ++ (true, n) :: B2))).
  { pose proof (cl_held _ _ _ _ _ _ C) as Hh. rewrite EB, blocks_app in Hh. cbn in Hh. rewrite (delete_Permutation h i (r, l) Ei) in Hh. cbn in Hh.
    unfold block_of in Hh at 1. cbn [fst snd] in Hh. fold n in Hh. rewrite <- Ea, <- Permutation_middle in Hh. apply Permutation_cons_inv in Hh. rewrite Hh, used_merge, blocks_app. cbn. by rewrite <- Ea. }
  assert (Hsub : Forall (fun x : Z * list Z => Z.of_nat (length x.2) <= 2147483632) (delete i h)) by (apply Forall_delete, C).
  constructor; [by left|done|done| |].
  - eapply keeps_bytes; [|done|exact Hm|apply Forall_delete, C]. intros x. by rewrite Hused.
  - pose proof (length_merge (B1 ++ (true, n) :: B2)) as Hl. rewrite EB in Hc. rewrite length_app in Hl, Hc. cbn [length] in Hl, Hc. lia.
Qed.

Lemma cl_put c h s B i off v fuel : clients base hs c h s B ->
  exists h' s' B', run_uop base fuel h (UPut i off v) s = Ok h' s' /\ clients base hs (S c) h' s' B'.
Proof.
  intros C. pose proof (cl_count _ _ _ _ _ _ C) as Hc. cbn [run_uop]. destruct (h !! i) as [[r l]|] eqn:Ei; [destruct (decide (off < length l)%nat) as [Ho|Ho]|].
  2,3: exists h, s, B; split; [done|]; destruct C; constructor; [done..|lia].
  pose proof (cl_heap _ _ _ _ _ _ C Ei) as H. pose proof (cl_in _ _ _ _ _ _ _ C Ei) as Hin. destruct (cl_payload _ _ _ _ _ _ _ C Ei) as [Hl Hn]. set (n := nunits_of _) in *.
  set (x := r + Z.of_nat off). exists (<[i := (r, <[off := v]> l)]> h), (set_um_mem (st8 (um_mem s) x v) s), B.
  rewrite (bind_ok _ _ s tt (set_um_mem (st8 (um_mem s) x v) s)) by done. split; [done|].
  assert (Hb : forall j r' l', h !! j = Some (r', l') -> i <> j -> load_bytes (st8 (um_mem s) x v) r' (length l') = load_bytes (um_mem s) r' (length l')).
  { intros j r' l' Ej Hne. apply load_bytes_eq. intros y Hy. unfold st8. rewrite (proj2 (Z.eqb_neq y x)); [done|]. intros ->. apply Hne.
    destruct (cl_payload _ _ _ _ _ _ _ C Ej) as [Hl' Hn']. pose proof (cl_in _ _ _ _ _ _ _ C Ej) as Hin'. set (n' := nunits_of (Z.of_nat (length l'))) in *.
    assert (Heq : (r - 8, n) = (r' - 8, n')) by (destruct (blocks_disjoint _ _ _ _ _ _ _ _ (h_pos _ _ _ _ H) Hin Hin') as [(_ & Ex & En)|]; [by rewrite Ex, En|unfold x in Hy; lia]).
    pose proof (used_nodup hs B (h_pos _ _ _ _ H)) as Hnd. rewrite <- (cl_held _ _ _ _ _ _ C) in Hnd.
    apply (NoDup_lookup _ i j (r - 8, n) Hnd); rewrite list_lookup_fmap; [by rewrite Ei|rewrite Ej, Heq; done]. }
  pose proof (cl_bytes _ _ _ _ _ _ C) as Hby. rewrite Forall_lookup in Hby. constructor; [left|..|lia].
  - eapply heap_payload; [done|exact Hin|]. unfold x. lia.
  - rewrite <- (cl_held _ _ _ _ _ _ C), list_fmap_insert. rewrite list_insert_id; [done|]. rewrite list_lookup_fmap, Ei. cbn. unfold block_of. cbn. by rewrite length_insert.
  - apply Forall_insert; [apply C|]. cbn. rewrite length_insert. pose proof (cl_small _ _ _ _ _ _ C) as Hs. rewrite Forall_lookup in Hs. apply (Hs _ _ Ei).
  - apply Forall_lookup. intros j [r' l'] Ej. cbn [um_mem set_um_mem fst snd]. destruct (decide (i = j)) as [<-|Hne].
    + rewrite list_lookup_insert_eq in Ej by (by eapply lookup_lt_Some). injection Ej as <- <-. rewrite length_insert. unfold x. rewrite load_bytes_st8 by done. pose proof (Hby _ _ Ei) as Hx. cbn [fst snd] in Hx. by rewrite Hx.
    + rewrite list_lookup_insert_ne in Ej by done. rewrite (Hb _ _ _ Ej Hne). apply (Hby _ _ Ej).
Qed.
End clients.

Lemma cl_run base hs fuel : forall ops c h s B, clients base hs c h s B -> Forall uop_ok ops -> (8 * (c + length ops) + 8 <= fuel)%nat ->
  exists h' s' B', run_uops base fuel h ops s = Ok h' s' /\ clients base hs (c + length ops) h' s' B'.
Proof.
  induction ops as [|op ops IH]; intros c h s B C Hops Hfuel; cbn [run_uops length] in *; [exists h, s, B; by rewrite Nat.add_0_r|].
  apply Forall_cons in Hops as [Hop Hops].
  assert (exists h' s' B', run_uop base fuel h op s = Ok h' s' /\ clients base hs (S c) h' s' B') as (h1 & s1 & B1 & E & C1).
  { destruct op; [by eapply cl_malloc; [|done|lia]|eapply cl_free; [done|lia]|by eapply cl_put]. }
  rewrite (bind_ok _ _ _ _ _ E). destruct (IH (S c) h1 s1 B1 C1 Hops ltac:(lia)) as (h' & s' & B' & E' & C'). exists h', s', B'.
  split; [done|]. by replace (c + S (length ops))%nat with (S c + length ops)%nat by lia.
Qed.

Lemma packed_unused hs B : packed B -> used hs B = [] -> B = [] \/ exists n, B = [(true, n)].
Proof. destruct B as [|[[] n] [|[[] m] B]]; cbn; intros Hp Hu; naive_solver. Qed.

Lemma cl_disjoint base hs c h s B i j r l r' l' : clients base hs c h s B -> h !! i = Some (r, l) -> h !! j = Some (r', l') -> i <> j ->
  r + Z.of_nat (length l) <= r' \/ r' + Z.of_nat (length l') <= r.
Proof.
  intros C Ei Ej Hne. pose proof (cl_heap _ _ _ _ _ _ _ _ C Ei) as H. pose proof (h_pos _ _ _ _ H) as Hp.
  pose proof (cl_in _ _ _ _ _ _ _ _ _ C Ei) as H1. pose proof (cl_in _ _ _ _ _ _ _ _ _ C Ej) as H2.
  destruct (cl_payload _ _ _ _ _ _ _ _ _ C Ei) as [L1 _], (cl_payload _ _ _ _ _ _ _ _ _ C Ej) as [L2 _].
  destruct (blocks_disjoint _ _ _ _ _ _ _ _ Hp H1 H2) as [(_ & Ex & En)|]; [|lia]. exfalso. apply Hne.
  pose proof (used_nodup hs B Hp) as Hnd. rewrite <- (cl_held _ _ _ _ _ _ C) in Hnd.
  apply (NoDup_lookup _ i j (block_of (r, l)) Hnd); rewrite list_lookup_fmap; [by rewrite Ei|]. rewrite Ej. cbn. unfold block_of. cbn [fst snd]. by rewrite Ex, En.
Qed.

(** C37. A program may rely on malloc and free for requests of up to 2147483632
    bytes, the largest that does not overflow the argument of sbrk
    ([malloc_huge_faults] is what the next larger one does).  For any sequence of
    calls of malloc with such sizes, of free, and of stores into the blocks
    obtained, and however the kernel answers sbrk: every call returns, without a page fault; the blocks
    the program holds lie in its memory and do not overlap; each holds the
    bytes that were last stored in it; and when the program has freed all of
    them the heap is a single free block that covers all the memory obtained
    from the kernel.  (A search of the free ring takes no more steps than
    [fuel], eight for each operation.) *)
Theorem malloc_programs base hs s fuel ops :
  fresh base hs s -> Forall uop_ok ops -> (8 * length ops + 8 <= fuel)%nat ->
  exists h s', run_uops base fuel [] ops s = Ok h s' /\
    (forall i r l, h !! i = Some (r, l) -> hs < r /\ r + Z.of_nat (length l) <= um_brk s' /\ load_bytes (um_mem s') r (length l) = l) /\
    (forall i j r l r' l', h !! i = Some (r, l) -> h !! j = Some (r', l') -> i <> j ->
       r + Z.of_nat (length l) <= r' \/ r' + Z.of_nat (length l') <= r) /\
    (h = [] -> um_brk s' = hs \/ heap base hs s' [(true, (um_brk s' - hs) / 8)]).
Proof.
  intros Hf Hops Hfuel. assert (C0 : clients base hs 0 [] s []) by (constructor; [by right|done|constructor|constructor|cbn; lia]).
  destruct (cl_run base hs fuel ops 0 [] s [] C0 Hops ltac:(lia)) as (h & s' & B & E & C). exists h, s'. split_and!; [done| | |].
  - intros i r l Ei. pose proof (cl_heap _ _ _ _ _ _ _ _ C Ei) as H. pose proof (cl_in _ _ _ _ _ _ _ _ _ C Ei) as Hin. destruct (cl_payload _ _ _ _ _ _ _ _ _ C Ei) as [Hl Hn].
    destruct (blocks_bounds _ _ _ _ _ (h_pos _ _ _ _ H) Hin) as (_ & H1 & H2). rewrite (h_brk _ _ _ _ H). split_and!; [lia|lia|].
    pose proof (cl_bytes _ _ _ _ _ _ C) as Hb. rewrite Forall_lookup in Hb. apply (Hb _ _ Ei).
  - intros i j r l r' l'. by eapply cl_disjoint.
  - intros ->. pose proof (cl_held _ _ _ _ _ _ C) as Hu. apply Permutation_nil in Hu. destruct (cl_ready _ _ _ _ _ _ C) as [H|[(_ & _ & _ & ? & _) _]]; [|by left].
    pose proof (h_brk _ _ _ _ H) as Hbrk. destruct (packed_unused hs B (h_packed _ _ _ _ H) Hu) as [->|[n ->]]; cbn [units snd] in Hbrk; [left; lia|right].
    rewrite Hbrk. by replace ((hs + 8 * (n + 0) - hs) / 8) with n by zlia.
Qed.

(** A program that frees all it got. *)
Definition demo_start : um := mkUm (fun _ => 0) 0 16384 [true].
Definition demo_ops : list uop :=
  [UMalloc 10; UMalloc 20; UPut 1 3 7; UFree 0; UMalloc 4; UPut 1 0 9; UFree 0; UMalloc 100; UFree 0; UFree 0].

Lemma demo_result h s' : run_uops 4096 100 [] demo_ops demo_start = Ok h s' -> h = [] /\ um_brk s' = 16384 + 8 * 4096.
Proof.
  intros E. assert (Eh : match run_uops 4096 100 [] demo_ops demo_start with Ok h s' => (h, um_brk s') = ([], 16384 + 8 * 4096) | _ => False end) by (vm_compute; reflexivity).
  rewrite E in Eh. clear E. by injection Eh as -> ->.
Qed.

Lemma malloc_programs_witness :
  exists h s', run_uops 4096 100 [] demo_ops demo_start = Ok h s' /\ h = [] /\ heap 4096 16384 s' [(true, 4096)].
Proof.
  destruct (malloc_programs 4096 16384 demo_start 100 demo_ops) as (h & s' & E & _ & _ & Hnil).
  - split_and!; done.
  - repeat constructor; done.
  - cbn. lia.
  - exists h, s'. destruct (demo_result h s' E) as [Eh Eb]. split; [exact E|]. split; [exact Eh|].
    destruct (Hnil Eh) as [H|H]; [lia|]. rewrite Eb in H. exact H.
Defined.

(** The size is computed without a check for overflow: for the largest
    requests it wraps around to a block with no room at all, and from 2147483633
    bytes on sbrk is asked for a negative amount, returns the break unchanged, and the
    header is written behind it. *)
Lemma malloc_wraps : nunits_of 4294967295 = 1 /\ nunits_of 4294967289 = 1.
Proof. done. Qed.

Lemma malloc_huge_faults : malloc 4096 100 2147483633 demo_start = Fault "page fault".
Proof. vm_compute. reflexivity. Qed.
