(* ===== verification/Ulib.v ===== *)
(** * The user library: strings, input lines, formatted output

    ulib.c and printf.c.  As in the kernel's string routines a string that is
    only read is a function from offsets to bytes and memory that is written
    is a [mem]; the system calls read and write are the list of their answers
    and the bytes put out. *)

From S2P Require Import Prelude State CString Console ConsoleProps.
Open Scope Z_scope.

(** ** ulib.c *)

Fixpoint strcpy (m : mem) (s t : Z) (fuel : nat) : option mem :=
  match fuel with
  | O => None
  | S fuel =>
    let c := m t in
    let m := st8 m s c in
    if c =? 0 then Some m else strcpy m (s + 1) (t + 1) fuel
  end.

Fixpoint strcmp_from (p q : Z -> Z) (i : Z) (fuel : nat) : option Z :=
  match fuel with
  | O => None
  | S fuel =>
    if negb (p i =? 0) && (p i =? q i) then strcmp_from p q (i + 1) fuel
    else Some (u8 (p i) - u8 (q i))
  end.
Definition strcmp (p q : Z -> Z) (fuel : nat) : option Z := strcmp_from p q 0 fuel.

Definition ustrlen (s : Z -> Z) (fuel : nat) : option Z := strlen s fuel.

Definition umemset (m : mem) (dst c n : Z) : mem := stosb m dst c n.

(** One [read(0, &c, 1)] is the byte read, or [None] when it returns less
    than 1.  The result is the characters stored before the NUL and the reads
    that are left. *)
Fixpoint gets_loop (reads : list (option Z)) (i max : Z) (n : nat) : list Z * list (option Z) :=
  match n with
  | O => ([], reads)
  | S n =>
    if i + 1 <? max then
      match reads with
      | Some c :: reads =>
        if (c =? 10) || (c =? 13) then ([c], reads)
        else let '(l, reads) := gets_loop reads (i + 1) max n in (c :: l, reads)
      | _ :: reads => ([], reads)
      | [] => ([], [])
      end
    else ([], reads)
  end.
Definition gets (reads : list (option Z)) (max : Z) : list Z * list (option Z) :=
  let '(l, reads) := gets_loop reads 0 max (Z.to_nat max) in (l ++ [0], reads).

Fixpoint atoi_from (s : Z -> Z) (i n : Z) (fuel : nat) : option Z :=
  match fuel with
  | O => None
  | S fuel =>
    if (48 <=? s i) && (s i <=? 57) then atoi_from s (i + 1) (i32 (n * 10 + s i - 48)) fuel
    else Some n
  end.
Definition atoi (s : Z -> Z) (fuel : nat) : option Z := atoi_from s 0 0 fuel.

Definition umemmove (m : mem) (vdst vsrc n : Z) : mem := copy_up m vdst vsrc (Z.to_nat n).

(** ** printf.c *)

Definition udigits : list Z := str "0123456789ABCDEF".

Fixpoint uprintint_digits (x base : Z) (fuel : nat) : list Z :=
  match fuel with
  | O => []
  | S f => nthz udigits (x mod base) :: (if x / base =? 0 then [] else uprintint_digits (x / base) base f)
  end.

(** 10 digits are enough for a word in base 10 and 8 in base 16. *)
Definition uprintint (xx base : Z) (sgn : bool) : list Z :=
  let neg := sgn && (xx <? 0) in
  let x := if neg then u32 (- xx) else u32 xx in
  rev (uprintint_digits x base 16 ++ (if neg then [45] else [])).

(** The argument of %s. *)
Definition uprint_string (m : mem) (s : Z) (fuel : nat) : list Z :=
  if s =? 0 then str "(null)" else cstr (ptr_mem m s) fuel.

(** The bytes put out for the rest of the format, [state] being that of the
    loop; [ap] are the words of the argument list that are left. *)
Fixpoint printf_from (m : mem) (fuel : nat) (percent : bool) (fmt : list Z) (ap : list Z) : list Z :=
  match fmt with
  | [] => []
  | c :: fmt =>
    if negb percent then
      if c =? 37 then printf_from m fuel true fmt ap
      else c :: printf_from m fuel false fmt ap
    else if c =? 100 then
      uprintint (i32 (nthz ap 0)) 10 true ++ printf_from m fuel false fmt (tail ap)
    else if (c =? 120) || (c =? 112) then
      uprintint (i32 (nthz ap 0)) 16 false ++ printf_from m fuel false fmt (tail ap)
    else if c =? 115 then
      uprint_string m (nthz ap 0) fuel ++ printf_from m fuel false fmt (tail ap)
    else if c =? 99 then u8 (nthz ap 0) :: printf_from m fuel false fmt (tail ap)
    else if c =? 37 then c :: printf_from m fuel false fmt ap
    else 37 :: c :: printf_from m fuel false fmt ap
  end.
Definition printf (m : mem) (fuel : nat) (fmt : list Z) (ap : list Z) : list Z := printf_from m fuel false fmt ap.

(** ** Numbers *)

Lemma uprintint_decimal x n : 0 <= x -> uprintint_digits x 10 n = printint_digits x 10 n.
Proof.
  revert x. induction n as [|n IH]; intros x Hx; cbn [uprintint_digits printint_digits]; [done|]. rewrite IH by zlia. f_equal.
  assert (H : Forall (fun i => nthz udigits (Z.of_nat i) = nthz digits (Z.of_nat i)) (seq 0 10)) by (repeat (constructor; [reflexivity|]); constructor).
  rewrite Forall_forall in H. specialize (H (Z.to_nat (x mod 10))). rewrite Z2Nat.id in H by zlia. apply H, elem_of_seq. zlia.
Qed.

Lemma digit_char c : 0 <= digit_val c < 10 -> 48 <= c <= 57 /\ digit_val c = c - 48.
Proof. unfold digit_val. zcases. Qed.

Lemma num_from_le l : forall a, 0 <= a -> Forall (fun c => 0 <= digit_val c < 10) l -> a <= foldl (fun a c => a * 10 + digit_val c) a l.
Proof.
  induction l as [|c l IH]; intros a Ha Hl; cbn [foldl]; [lia|]. apply Forall_cons in Hl as [Hc Hl]. specialize (IH (a * 10 + digit_val c) ltac:(lia) Hl). lia.
Qed.

(** atoi reads digits up to the first other character. *)
Lemma atoi_from_digits x rest : (48 <=? x) && (x <=? 57) = false -> forall l pre n fuel,
  Forall (fun c => 0 <= digit_val c < 10) l -> 0 <= n -> foldl (fun a c => a * 10 + digit_val c) n l < 2147483648 -> (length l < fuel)%nat ->
  atoi_from (ptr_list (pre ++ l ++ x :: rest)) (Z.of_nat (length pre)) n fuel = Some (foldl (fun a c => a * 10 + digit_val c) n l).
Proof.
  intros Hx. induction l as [|c l IH]; intros pre n fuel Hl Hn Hlt Hf; destruct fuel as [|fuel]; cbn [length] in Hf; [lia| |lia|]; cbn [atoi_from app foldl]; rewrite ptr_list_mid by done.
  - by rewrite Hx.
  - apply Forall_cons in Hl as [Hc Hl]. destruct (digit_char c Hc) as [Hc1 Hc2]. rewrite (proj2 (Z.leb_le 48 c)), (proj2 (Z.leb_le c 57)) by lia. cbn [andb foldl] in *.
    pose proof (num_from_le l (n * 10 + digit_val c) ltac:(lia) Hl). rewrite i32_small by lia. replace (n * 10 + c - 48) with (n * 10 + digit_val c) by lia.
    rewrite (cons_middle c pre), app_assoc. replace (Z.of_nat (length pre) + 1) with (Z.of_nat (length (pre ++ [c]))) by (rewrite length_app; cbn; lia). apply IH; (done || lia).
Qed.

(** What printf writes for %d is what atoi reads. *)
Lemma atoi_printf m n : 0 <= n < 2147483648 -> atoi (ptr_list (printf m 0 (str "%d") [n] ++ [0])) 17 = Some n.
Proof.
  intros Hn. assert (E : printf m 0 (str "%d") [n] = rev (printint_digits n 10 16)).
  { unfold printf. cbn [printf_from str negb Z.eqb Pos.eqb]. cbn -[uprintint nthz]. replace (nthz [n] 0) with n by done. unfold uprintint. rewrite i32_small by lia. destruct (Z.ltb_spec n 0); [lia|]. cbn [andb]. rewrite u32_small, uprintint_decimal, !app_nil_r by lia. done. }
  destruct (printint_digits_num 10 15 ltac:(lia) n ltac:(cbn; lia)) as (N1 & N2 & _ & N4). specialize (N4 10%nat ltac:(lia) ltac:(cbn; lia)).
  rewrite E. unfold atoi. rewrite <- N1 at 2. unfold num.
  apply (atoi_from_digits 0 [] eq_refl (rev (printint_digits n 10 16)) [] 0); [by apply Forall_rev|lia| |rewrite length_rev; lia]. fold (num 10 (rev (printint_digits n 10 16))). rewrite N1. lia.
Qed.

(** ** Memory and strings *)

(** The copy goes upwards only: it is that of the kernel's memmove when the
    destination does not lie inside the source. *)
Lemma umemmove_spec m dst src n : 0 <= n -> dst <= src \/ src + n <= dst -> forall x, umemmove m dst src n x = memmove m dst src n x.
Proof. intros Hn H x. rewrite memmove_spec by done. unfold umemmove. rewrite copy_up_spec by lia. by rewrite Z2Nat.id by lia. Qed.

Lemma umemmove_overlap : umemmove (fun x => x) 1 0 2 2 = 0 /\ memmove (fun x => x) 1 0 2 2 = 1.
Proof. done. Qed.

Lemma strcmp_from_eq p q : ptr_bytes p -> ptr_bytes q -> forall n i l, strlen_from p i n = Some l ->
  exists r, strcmp_from p q i n = Some r /\ (r = 0 <-> cstr_from p i n = cstr_from q i n).
Proof.
  intros Hp Hq. induction n as [|n IH]; intros i l Hl; cbn [strlen_from strcmp_from cstr_from] in *; [done|].
  pose proof (Hp i) as Hb1. pose proof (Hq i) as Hb2. unfold is_byte in *.
  destruct (Z.eqb_spec (p i) 0) as [E|E]; cbn [negb andb].
  - exists (u8 (p i) - u8 (q i)). split; [done|]. rewrite E. destruct (Z.eqb_spec (q i) 0) as [->|E2]; [done|]. split; [zlia|done].
  - destruct (Z.eqb_spec (p i) (q i)) as [E2|E2].
    + destruct (IH (i + 1) l Hl) as (r & -> & Hr). exists r. split; [done|]. rewrite <- E2, (proj2 (Z.eqb_neq _ _) E), Hr. split; [by intros ->|by intros [= ->]].
    + exists (u8 (p i) - u8 (q i)). split; [done|]. split; [zlia|]. destruct (Z.eqb_spec (q i) 0); [done|]. intros [= ?]. lia.
Qed.

(** strcmp of a string with another is 0 exactly when they are equal. *)
Lemma strcmp_eq p q n l : ptr_bytes p -> ptr_bytes q -> strlen p n = Some l ->
  exists r, strcmp p q n = Some r /\ (r = 0 <-> cstr p n = cstr q n).
Proof. intros Hp Hq. by apply strcmp_from_eq. Qed.

(** ** Lines *)

(** The first line of the input, newline included. *)
Fixpoint first_line (l : list Z) : list Z :=
  match l with
  | [] => []
  | c :: l => if (c =? 10) || (c =? 13) then [c] else c :: first_line l
  end.

Lemma gets_loop_line l : forall i max n, 0 <= i -> max - i <= Z.of_nat n ->
  let line := take (Z.to_nat (max - 1 - i)) (first_line l) in
  gets_loop (Some <$> l) i max n = (line, Some <$> drop (length line) l).
Proof.
  induction l as [|c l IH]; intros i max n Hi Hn; cbn [first_line].
  - rewrite take_nil. destruct n; [done|]. cbn. by destruct (i + 1 <? max).
  - destruct n as [|n]; [by replace (Z.to_nat (max - 1 - i)) with O by lia|]. cbn [gets_loop fmap list_fmap].
    destruct (Z.ltb_spec (i + 1) max) as [Hm|Hm]; [|by replace (Z.to_nat (max - 1 - i)) with O by lia].
    replace (Z.to_nat (max - 1 - i)) with (S (Z.to_nat (max - 1 - (i + 1)))) by lia.
    destruct ((c =? 10) || (c =? 13)); [cbn [take]; rewrite take_nil; done|]. rewrite (IH (i + 1) max n) by lia. done.
Qed.

(** gets returns the first line, cut to the size of the buffer, and leaves the
    input behind it. *)
Lemma gets_line l max : 0 <= max ->
  let line := take (Z.to_nat (max - 1)) (first_line l) in
  gets (Some <$> l) max = (line ++ [0], Some <$> drop (length line) l).
Proof.
  intros Hm line. unfold gets. rewrite (gets_loop_line l 0 max (Z.to_nat max)) by lia. replace (max - 1 - 0) with (max - 1) by lia. done.
Qed.
