(* ===== verification/Mkfs.v ===== *)
(** * mkfs.c: the file system image

    mkfs builds the disk image on the host.  The image is a file of sectors,
    [mk_size] of them; a read behind its end fails, and a failed read or
    assertion ends the program ([Panic]).  What is not modelled are the
    messages and the failures of the host's open and lseek.  The host is
    little-endian, as the target is. *)

From S2P Require Import Prelude State CString Ide Bio Log Console Fs FsFile.
Open Scope Z_scope.

Definition NINODES : Z := 200.
Definition nbitmap : Z := FSSIZE / (BSIZE * 8) + 1.
Definition ninodeblocks : Z := NINODES / IPB + 1.
Definition nlog : Z := LOGSIZE.
Definition nmeta : Z := 2 + nlog + ninodeblocks + nbitmap.
Definition nblocks : Z := FSSIZE - nmeta.

(** fsfd, freeinode and freeblock. *)
Record mk := mkMk {
  mk_img : Z -> block;
  mk_size : Z;
  mk_freeinode : Z;
  mk_freeblock : Z
}.
Definition set_mk_freeinode (x : Z) (s : mk) : mk := mkMk (mk_img s) (mk_size s) x (mk_freeblock s).
Definition set_mk_freeblock (x : Z) (s : mk) : mk := mkMk (mk_img s) (mk_size s) (mk_freeinode s) x.

Definition mkM := M mk.

(** Intel byte order: the bytes stored, read back as a number. *)
Definition xshort (x : Z) : Z := le_dec [u8 x; u8 (Z.shiftr x 8)].
Definition xint (x : Z) : Z := le_dec [u8 x; u8 (Z.shiftr x 8); u8 (Z.shiftr x 16); u8 (Z.shiftr x 24)].

Definition sb : superblock :=
  mkSuperblock (xint FSSIZE) (xint nblocks) (xint NINODES) (xint nlog)
    (xint 2) (xint (2 + nlog)) (xint (2 + nlog + ninodeblocks)).

(** struct superblock as stored. *)
Definition enc_superblock (b : superblock) : list Z :=
  enc32 (sb_size b) ++ enc32 (sb_nblocks b) ++ enc32 (sb_ninodes b) ++ enc32 (sb_nlog b) ++
  enc32 (sb_logstart b) ++ enc32 (sb_inodestart b) ++ enc32 (sb_bmapstart b).

Definition upd_img (V : Z -> block) (n : Z) (d : block) : Z -> block := fun c => if c =? n then d else V c.

Definition wsect (sec : Z) (buf : block) : mkM unit :=
  modify (fun s => mkMk (upd_img (mk_img s) sec buf) (Z.max (mk_size s) (sec + 1)) (mk_freeinode s) (mk_freeblock s)).

Definition rsect (sec : Z) : mkM block :=
  n ← gets mk_size;
  panic_if (n <=? sec) "read";;
  gets (fun s => mk_img s sec).

Definition winode (inum : Z) (ip : dinode) : mkM unit :=
  let bn := IBLOCK inum sb in
  buf ← rsect bn;
  wsect bn (put_dinode buf (inode_off inum) ip).

Definition rinode (inum : Z) : mkM dinode :=
  buf ← rsect (IBLOCK inum sb);
  mret (dec_dinode buf (inode_off inum)).

Definition mk_ialloc (type : Z) : mkM Z :=
  inum ← gets mk_freeinode;
  modify (set_mk_freeinode (u32 (inum + 1)));;
  winode inum (mkDinode (xshort type) 0 0 (xshort 1) (xint 0) (replicate 13 0));;
  mret inum.

(** The loop of balloc: bits [i] to [i + n - 1]. *)
Fixpoint mark_used (buf : block) (i : Z) (n : nat) : block :=
  match n with
  | O => buf
  | S n => mark_used (setz buf (i / 8) (Z.lor (nthz buf (i / 8)) (Z.shiftl 1 (i mod 8)))) (i + 1) n
  end.

Definition mk_balloc (used : Z) : mkM unit :=
  panic_if (BSIZE * 8 <=? used) "assert";;
  wsect (sb_bmapstart sb) (mark_used zero_block 0 (Z.to_nat used)).

(** freeblock++ *)
Definition next_block : mkM Z :=
  b ← gets mk_freeblock;
  modify (set_mk_freeblock (u32 (b + 1)));;
  mret (xint b).

(** The block of the file for [fbn], taken if there is none yet. *)
Definition iappend_block (din : dinode) (fbn : Z) : mkM (dinode * Z) :=
  if fbn <? NDIRECT then
    din ← (if xint (nthz (di_addrs din) fbn) =? 0 then
             b ← next_block; mret (set_di_addrs (setz (di_addrs din) fbn b) din)
           else mret din);
    mret (din, xint (nthz (di_addrs din) fbn))
  else
    din ← (if xint (nthz (di_addrs din) NDIRECT) =? 0 then
             b ← next_block; mret (set_di_addrs (setz (di_addrs din) NDIRECT b) din)
           else mret din);
    indirect ← rsect (xint (nthz (di_addrs din) NDIRECT));
    indirect ← (if aref indirect (fbn - NDIRECT) =? 0 then
                  b ← next_block;
                  let indirect := put32 indirect (4 * (fbn - NDIRECT)) b in
                  wsect (xint (nthz (di_addrs din) NDIRECT)) indirect;; mret indirect
                else mret indirect);
    mret (din, xint (aref indirect (fbn - NDIRECT))).

Fixpoint iappend_loop (fuel : nat) (din : dinode) (off : Z) (p : list Z) : mkM (dinode * Z) :=
  match fuel with
  | O => nofuel
  | S fuel =>
    let n := Z.of_nat (length p) in
    if 0 <? n then
      let fbn := off / BSIZE in
      panic_if (MAXFILE <=? fbn) "assert";;
      '(din, x) ← iappend_block din fbn;
      let n1 := Z.min n ((fbn + 1) * BSIZE - off) in
      buf ← rsect x;
      wsect x (splice buf (Z.to_nat (off - fbn * BSIZE)) (take (Z.to_nat n1) p));;
      iappend_loop fuel din (off + n1) (drop (Z.to_nat n1) p)
    else mret (din, off)
  end.

Definition iappend (inum : Z) (p : list Z) : mkM unit :=
  din ← rinode inum;
  '(din, off) ← iappend_loop (S (length p)) din (xint (di_size din)) p;
  winode inum (set_di_size (xint off) din).

(** for(i = 0; i < FSSIZE; i++) wsect(i, zeroes) *)
Fixpoint wzeroes (i : Z) (n : nat) : mkM unit :=
  match n with
  | O => mret tt
  | S n => wsect i zero_block;; wzeroes (i + 1) n
  end.

(** The read loop: the file in pieces of a block. *)
Fixpoint append_file (fuel : nat) (inum : Z) (data : list Z) : mkM unit :=
  match fuel with
  | O => nofuel
  | S fuel =>
    let buf := take (Z.to_nat BSIZE) data in
    if 0 <? Z.of_nat (length buf) then
      iappend inum buf;; append_file fuel inum (drop (Z.to_nat BSIZE) data)
    else mret tt
  end.

(** A file to put into the image: its name on the command line and its bytes. *)
Definition mkfs_name (name : list Z) : list Z :=
  match name with
  | 95 :: name => name
  | _ => name
  end.

Fixpoint add_files (rootino : Z) (files : list (list Z * list Z)) : mkM unit :=
  match files with
  | [] => mret tt
  | (name, data) :: files =>
    panic_if (bool_decide (SLASH ∈ name)) "assert";;
    inum ← mk_ialloc T_FILE;
    iappend rootino (enc_dirent (xshort inum) (strncpy (ptr_list (mkfs_name name ++ [0])) DIRSIZ));;
    append_file (S (length data)) inum data;;
    add_files rootino files
  end.

(** The directory entry of [strcpy(de.name, name)] into zeroes. *)
Definition dot_entry (inum : Z) (name : list Z) : list Z :=
  enc_dirent (xshort inum) (splice (replicate DIRSIZ 0) 0 (name ++ [0])).

Definition mkfs (files : list (list Z * list Z)) : mkM unit :=
  modify (set_mk_freeblock nmeta);;
  wzeroes 0 (Z.to_nat FSSIZE);;
  wsect 1 (splice zero_block 0 (enc_superblock sb));;
  rootino ← mk_ialloc T_DIR;
  panic_if (negb (rootino =? ROOTINO)) "assert";;
  iappend rootino (dot_entry rootino (str "."));;
  iappend rootino (dot_entry rootino (str ".."));;
  add_files rootino files;;
  din ← rinode rootino;
  let off := xint (di_size din) in
  let off := u32 ((off / BSIZE + 1) * BSIZE) in
  winode rootino (set_di_size (xint off) din);;
  used ← gets mk_freeblock;
  mk_balloc used.

(** The state in which main starts: an empty image. *)
Definition mk_start : mk := mkMk (fun _ => zero_block) 0 1 0.
