(* ===== verification/MkfsSpec.v ===== *)
(** * What iappend does to the image

    The files of an image under construction: which blocks each inode owns and
    what bytes they hold.  Blocks are handed out in order of their number, so
    that a block behind [mk_freeblock] is still zero. *)

From S2P Require Import Prelude State CString Ide Bio BioSpec Log LogSpec Console Fs FsTxn FsAlloc FsMap FsFile FsData Mkfs.
Open Scope Z_scope.

Lemma xint_small z : 0 <= z < 4294967296 -> xint z = z.
Proof. intros H. unfold xint, u8. rewrite !Z.shiftr_div_pow2 by lia. cbn [le_dec]. zlia. Qed.

Lemma xshort_small z : 0 <= z < 65536 -> xshort z = z.
Proof. intros H. unfold xshort, u8. rewrite !Z.shiftr_div_pow2 by lia. cbn [le_dec]. zlia. Qed.

Lemma nmeta_eq : nmeta = 59. Proof. done. Qed.
Lemma mk_sb_eq : sb = mkSuperblock 1000 941 200 30 2 32 58. Proof. vm_compute. reflexivity. Qed.

(** The inode of a file of the image. *)
Definition mk_inode (i : Z) (d : dinode) : inode :=
  mkInode ROOTDEV i 1 (mkSleeplock false 0) true (di_type d) (di_major d) (di_minor d) (di_nlink d) (di_size d) (di_addrs d).

(** Block [c] has been handed out to inode [i]. *)
Definition owned (own : Z -> Z) (fb i c : Z) : Prop := nmeta <= c < fb /\ own c = i.

Record img_ok (V : Z -> block) (fb : Z) : Prop := mkImgOk {
  im_blocks : forall c, block_ok (V c);
  im_fresh : forall c, fb <= c -> V c = zero_block;
  im_fb : nmeta <= fb <= FSSIZE
}.

(** Inode [i] grows: more blocks are handed out to it, and only its blocks are
    written. *)
Record grows (i : Z) (V V' : Z -> block) (own own' : Z -> Z) (fb fb' : Z) : Prop := mkGrows {
  gr_img : img_ok V' fb';
  gr_fb : fb <= fb';
  gr_own : forall c, c < fb -> own' c = own c;
  gr_new : forall c, fb <= c < fb' -> own' c = i;
  gr_old : forall c, c < fb -> ~ owned own fb i c -> V' c = V c
}.

Lemma grows_refl i V own fb : img_ok V fb -> grows i V V own own fb fb.
Proof. intros H. split; [done|lia|done|lia|done]. Qed.

Lemma grows_trans i V1 V2 V3 own1 own2 own3 fb1 fb2 fb3 :
  grows i V1 V2 own1 own2 fb1 fb2 -> grows i V2 V3 own2 own3 fb2 fb3 -> grows i V1 V3 own1 own3 fb1 fb3.
Proof.
  intros [A1 A2 A3 A4 A5] [B1 B2 B3 B4 B5]. split; [done|lia| | |].
  - intros c Hc. rewrite B3, A3 by lia. done.
  - intros c Hc. destruct (decide (c < fb2)); [rewrite B3 by lia; apply A4; lia|apply B4; lia].
  - intros c Hc Hn. rewrite B5, A5; [done|lia|done|lia|]. intros [H1 H2]. apply Hn. split; [lia|]. by rewrite <- A3.
Qed.

(** The block handed out next. *)
Definition hand_out (own : Z -> Z) (fb i : Z) : Z -> Z := fun c => if c =? fb then i else own c.

Lemma grows_next i V own fb : img_ok V fb -> fb < FSSIZE -> grows i V V own (hand_out own fb i) fb (fb + 1).
Proof.
  intros [A1 A2 A3] Hfb. split; [split; [done| |lia]|lia| | |done].
  - intros c Hc. apply A2. lia.
  - intros c Hc. unfold hand_out. by rewrite (proj2 (Z.eqb_neq c fb)) by lia.
  - intros c Hc. unfold hand_out. replace c with fb by lia. by rewrite Z.eqb_refl.
Qed.

(** A block of the inode is written. *)
Lemma grows_write i V own fb a d : img_ok V fb -> owned own fb i a -> block_ok d -> grows i V (upd_img V a d) own own fb fb.
Proof.
  intros [A1 A2 A3] Ha Hd. unfold upd_img. split; [split; [| |done]|lia|done|lia|].
  - intros c. by destruct (c =? a).
  - intros c Hc. destruct (Z.eqb_spec c a) as [->|]; [destruct Ha; lia|by apply A2].
  - intros c Hc Hn. destruct (Z.eqb_spec c a) as [->|]; done.
Qed.

Lemma owned_grows i j V V' own own' fb fb' c : grows i V V' own own' fb fb' -> owned own fb j c -> owned own' fb' j c.
Proof. intros G [H1 H2]. split; [pose proof (gr_fb _ _ _ _ _ _ _ G); lia|]. by rewrite (gr_own _ _ _ _ _ _ _ G) by lia. Qed.

(** ** The bytes of a file *)

(** [l] is in the file, and just the blocks it needs are. *)
Record file_data (own : Z -> Z) (fb : Z) (V : Z -> block) (x : inode) (l : list Z) : Prop := mkFileData {
  fd_ok : file_ok (owned own fb (i_inum x)) V x;
  fd_max : Z.of_nat (length l) <= MAXFILE * BSIZE;
  fd_map : forall bn, 0 <= bn < MAXFILE -> faddr V x bn <> 0 <-> bn * BSIZE < Z.of_nat (length l);
  fd_ind : ind x <> 0 <-> NDIRECT * BSIZE < Z.of_nat (length l);
  fd_byte : forall j, 0 <= j < Z.of_nat (length l) -> fbyte V x j = nthz l j;
  fd_tail : forall j, Z.of_nat (length l) <= j < MAXFILE * BSIZE -> fbyte V x j = 0
}.

(** A file depends on its own blocks only. *)
Lemma file_data_ext V V' own own' fb fb' x l :
  (forall c, owned own fb (i_inum x) c -> V' c = V c /\ owned own' fb' (i_inum x) c) -> file_data own fb V x l -> file_data own' fb' V' x l.
Proof.
  intros HV [[F1 F2 F3 F4] Hm Hmap Hind Hb Ht].
  assert (Hf : forall bn, faddr V' x bn = faddr V x bn).
  { intros bn. unfold faddr. destruct (bn <? NDIRECT); [done|]. destruct (Z.eqb_spec (ind x) 0); [done|]. by rewrite (proj1 (HV _ (F2 n))). }
  assert (Hfb : forall j, 0 <= j < MAXFILE * BSIZE -> fbyte V' x j = fbyte V x j).
  { intros j Hj. unfold fbyte. rewrite Hf. destruct (Z.eqb_spec (faddr V x (j / BSIZE)) 0) as [|Hnz]; [done|].
    destruct (F3 (j / BSIZE) (byte_block j Hj) Hnz) as [Hc _]. by rewrite (proj1 (HV _ Hc)). }
  split; [split; [done| | |]|done| |done| |].
  - intros Hn. by apply HV, F2.
  - intros bn Hbn. rewrite Hf. intros Hnz. destruct (F3 bn Hbn Hnz). split; [by apply HV|done].
  - intros bn bm. rewrite !Hf. apply F4.
  - intros bn Hbn. rewrite Hf. by apply Hmap.
  - intros j Hj. rewrite Hfb by lia. by apply Hb.
  - intros j Hj. rewrite Hfb by lia. by apply Ht.
Qed.

(** Other inodes do not see an inode grow. *)
Lemma file_data_frame i V V' own own' fb fb' x l :
  grows i V V' own own' fb fb' -> i <> i_inum x -> file_data own fb V x l -> file_data own' fb' V' x l.
Proof.
  intros G Hi. apply file_data_ext. intros c Hc. split; [|by eapply owned_grows]. destruct Hc as [Hc1 Hc2].
  apply (gr_old _ _ _ _ _ _ _ G); [lia|]. intros [_ ?]. congruence.
Qed.

(** ** Taking a block *)

Section take.
Context (own : Z -> Z) (fb i : Z) (V : Z -> block) (x : inode).
Hypothesis HI : img_ok V fb.
Hypothesis Hi : i_inum x = i.
Hypothesis F : file_ok (owned own fb i) V x.
Hypothesis Hfb : fb < FSSIZE.
Let own' := hand_out own fb i.

Lemma take_new : owned own' (fb + 1) i fb /\ fb <> 0 /\ ~ owned own fb i fb.
Proof using HI. pose proof (im_fb _ _ HI) as H. rewrite nmeta_eq in H. split_and!; [split; [rewrite nmeta_eq; lia|unfold own', hand_out; by rewrite Z.eqb_refl]|lia|intros [? _]; lia]. Qed.

Lemma take_mono c : owned own fb i c -> owned own' (fb + 1) i c.
Proof using HI Hfb. by apply (owned_grows i i V V), grows_next. Qed.

(** A direct block. *)
Lemma take_direct bn : 0 <= bn < NDIRECT -> faddr V x bn = 0 ->
  let x' := set_i_addrs (setz (i_addrs x) bn fb) x in
  file_ok (owned own' (fb + 1) i) V x' /\ (forall m, 0 <= m < MAXFILE -> faddr V x' m = if decide (m = bn) then fb else faddr V x m) /\
  ind x' = ind x /\ forall j, 0 <= j < MAXFILE * BSIZE -> fbyte V x' j = fbyte V x j.
Proof using All.
  intros Hbn Hz x'. destruct take_new as (N1 & N2 & N3). pose proof (fo_len F) as Hl. unfold NDIRECT in *.
  assert (Ei : ind x' = ind x) by (unfold ind, x', NDIRECT; cbn; by rewrite nthz_setz_ne by lia).
  assert (Hf : forall m, 0 <= m < MAXFILE -> faddr V x' m = if decide (m = bn) then fb else faddr V x m).
  { intros m Hm. unfold faddr. rewrite Ei. unfold NDIRECT. destruct (Z.ltb_spec m 12); [|by rewrite decide_False by lia]. unfold x'. cbn.
    case_decide as E; [rewrite E; apply nthz_setz_eq; lia|by rewrite nthz_setz_ne by lia]. }
  destruct (extend_data (owned own fb i) (owned own' (fb + 1) i) V V x x' fb F) with (bn := bn) as [F' B']; try done.
  - unfold x'. cbn. by rewrite length_setz.
  - apply take_mono.
  - apply (im_fresh _ _ HI). lia.
  - rewrite MAXFILE_eq. lia.
Qed.

(** The indirect block. *)
Lemma take_indirect : ind x = 0 ->
  let x' := set_i_addrs (setz (i_addrs x) NDIRECT fb) x in
  file_ok (owned own' (fb + 1) i) V x' /\ (forall m, 0 <= m < MAXFILE -> faddr V x' m = faddr V x m) /\
  ind x' = fb /\ forall j, 0 <= j < MAXFILE * BSIZE -> fbyte V x' j = fbyte V x j.
Proof using All.
  intros Hz x'. destruct take_new as (N1 & N2 & N3). pose proof (fo_len F) as Hl.
  assert (Ei : ind x' = fb) by (unfold ind, x', NDIRECT; cbn; apply nthz_setz_eq; lia).
  assert (Hf : forall m, 0 <= m < MAXFILE -> faddr V x' m = faddr V x m).
  { intros m Hm. unfold faddr. rewrite Ei, Hz. rewrite MAXFILE_eq in Hm. unfold NDIRECT. destruct (Z.ltb_spec m 12).
    - unfold x', NDIRECT. cbn. by rewrite nthz_setz_ne by lia.
    - rewrite (proj2 (Z.eqb_neq fb 0)) by done. rewrite (im_fresh _ _ HI) by lia. apply aref_zero. unfold NINDIRECT, BSIZE. change (512 / 4) with 128. lia. }
  destruct (extend_ind (owned own fb i) (owned own' (fb + 1) i) V V x x' fb F) as [F' B']; try done.
  - unfold x'. cbn. by rewrite length_setz.
  - apply take_mono.
  - apply (im_fresh _ _ HI). lia.
Qed.

(** An entry of the indirect block. *)
Lemma take_entry k : ind x <> 0 -> 0 <= k < NINDIRECT -> aref (V (ind x)) k = 0 ->
  let V' := upd_img V (ind x) (put32 (V (ind x)) (4 * k) fb) in
  file_ok (owned own' (fb + 1) i) V' x /\ grows i V V' own own' fb (fb + 1) /\
  (forall m, 0 <= m < MAXFILE -> faddr V' x m = if decide (m = NDIRECT + k) then fb else faddr V x m) /\
  forall j, 0 <= j < MAXFILE * BSIZE -> fbyte V' x j = fbyte V x j.
Proof using All.
  intros Hnz Hk Hz V'. destruct take_new as (N1 & N2 & N3). unfold NINDIRECT, BSIZE in Hk. change (512 / 4) with 128 in Hk. pose proof (fo_ind F Hnz) as Ho.
  pose proof (im_blocks _ _ HI (ind x)) as Hd. unfold FSSIZE in Hfb. pose proof (im_fb _ _ HI) as Hb. rewrite nmeta_eq in Hb.
  assert (EV : forall c, V' c = if decide (c = ind x) then put32 (V (ind x)) (4 * k) fb else V c).
  { intros c. unfold V', upd_img. destruct (Z.eqb_spec c (ind x)); case_decide; done. }
  assert (Hf : forall m, 0 <= m < MAXFILE -> faddr V' x m = if decide (m = NDIRECT + k) then fb else faddr V x m).
  { intros m Hm. rewrite MAXFILE_eq in Hm. unfold faddr, NDIRECT. destruct (Z.ltb_spec m 12); [by rewrite decide_False by lia|]. rewrite (proj2 (Z.eqb_neq (ind x) 0)) by done.
    rewrite EV, decide_True by done. unfold aref. case_decide as E.
    - replace (m - 12) with k by lia. rewrite word32_put32 by (done || lia). apply u32_small. lia.
    - apply word32_put32_ne; [done|lia|lia|lia]. }
  assert (G : grows i V V' own own' fb (fb + 1)).
  { eapply grows_trans; [by apply grows_next|]. apply grows_write; [apply (gr_img _ _ _ _ _ _ _ (grows_next i V own fb HI Hfb))|by apply take_mono|]. apply block_ok_put32; [done|lia]. }
  destruct (extend_data (owned own fb i) (owned own' (fb + 1) i) V V' x x fb F) with (bn := NDIRECT + k) as [F' B']; try done.
  - apply F.
  - apply take_mono.
  - intros c Hc Hne. rewrite EV. by rewrite decide_False.
  - rewrite EV, decide_False; [apply (im_fresh _ _ HI); lia|]. intros E. rewrite <- E in Ho. by apply N3.
  - unfold faddr, NDIRECT. rewrite (proj2 (Z.ltb_ge _ _)), (proj2 (Z.eqb_neq (ind x) 0)) by (done || lia). by replace (12 + k - 12) with k by lia.
  - rewrite MAXFILE_eq. unfold NDIRECT. lia.
Qed.
End take.

(** ** The block for the next byte *)

(** How many blocks, the indirect one included, a file of [n] bytes takes. *)
Definition nb (n : Z) : Z := (n + BSIZE - 1) / BSIZE.
Definition tot (n : Z) : Z := nb n + (if NDIRECT <? nb n then 1 else 0).

Lemma next_block_run V sz fi fb : 0 <= fb < FSSIZE -> next_block (mkMk V sz fi fb) = Ok fb (mkMk V sz fi (fb + 1)).
Proof.
  intros H. unfold FSSIZE in H. unfold next_block. rewrite (bind_ok _ _ _ fb (mkMk V sz fi fb)) by done. rewrite (bind_ok _ _ _ tt (mkMk V sz fi (u32 (fb + 1)))) by done.
  rewrite u32_small, xint_small by lia. done.
Qed.

Lemma rsect_run V fi fb a : a < FSSIZE -> rsect a (mkMk V FSSIZE fi fb) = Ok (V a) (mkMk V FSSIZE fi fb).
Proof.
  intros H. unfold rsect. rewrite (bind_ok _ _ _ FSSIZE (mkMk V FSSIZE fi fb)) by done. rewrite (proj2 (Z.leb_gt FSSIZE a)) by done. done.
Qed.

Lemma wsect_run V fi fb a d : a < FSSIZE -> wsect a d (mkMk V FSSIZE fi fb) = Ok tt (mkMk (upd_img V a d) FSSIZE fi fb).
Proof. intros H. unfold wsect, modify. cbn. by rewrite Z.max_l by lia. Qed.

Lemma set_di_addrs_id d : set_di_addrs (di_addrs d) d = d.
Proof. by destruct d. Qed.

Section block.
Context (own : Z -> Z) (fb i fi : Z) (V : Z -> block) (din : dinode) (l : list Z).
Let x := mk_inode i din.
Let n := Z.of_nat (length l).
Let bn := n / BSIZE.
Let fb' := fb + tot (n + 1) - tot n.
Hypothesis HI : img_ok V fb.
Hypothesis D : file_data own fb V x l.
Hypothesis Hn : n < MAXFILE * BSIZE.
Hypothesis Hfb : fb' <= FSSIZE.

(** What taking the block gives. *)
Record block_taken (r : outcome mk (dinode * Z)) : Prop := mkTaken {
  bt_run : exists addrs a V' own', let x' := mk_inode i (set_di_addrs addrs din) in
    r = Ok (set_di_addrs addrs din, a) (mkMk V' FSSIZE fi fb') /\ grows i V V' own own' fb fb' /\
    file_ok (owned own' fb' i) V' x' /\ faddr V' x' bn = a /\ a <> 0 /\
    (forall m, 0 <= m < MAXFILE -> faddr V' x' m <> 0 <-> m * BSIZE < n + 1) /\
    (ind x' <> 0 <-> NDIRECT * BSIZE < n + 1) /\
    forall j, 0 <= j < MAXFILE * BSIZE -> fbyte V' x' j = fbyte V x j
}.

Lemma bn_range : 0 <= bn < MAXFILE /\ bn * BSIZE <= n < (bn + 1) * BSIZE /\ 0 <= n.
Proof using All. unfold bn. rewrite MAXFILE_eq in *. unfold BSIZE in *. assert (0 <= n) by (unfold n; lia). zlia. Qed.

Lemma addr_range m : 0 <= m < MAXFILE -> 0 <= faddr V x m < FSSIZE.
Proof using All.
  intros Hm. destruct (decide (faddr V x m = 0)) as [->|Hnz]; [unfold FSSIZE; lia|]. destruct (fo_data (fd_ok _ _ _ _ _ D) m Hm Hnz) as [[Hc _] _].
  pose proof (im_fb _ _ HI). rewrite nmeta_eq in *. lia.
Qed.

Lemma ind_range : 0 <= ind x < FSSIZE.
Proof using All.
  destruct (decide (ind x = 0)) as [->|Hnz]; [unfold FSSIZE; lia|]. destruct (fo_ind (fd_ok _ _ _ _ _ D) Hnz) as [Hc _]. pose proof (im_fb _ _ HI). rewrite nmeta_eq in *. lia.
Qed.

(** The block is there already. *)
Lemma block_there : faddr V x bn <> 0 -> tot (n + 1) = tot n /\
  (forall m, 0 <= m < MAXFILE -> faddr V x m <> 0 <-> m * BSIZE < n + 1) /\ (ind x <> 0 <-> NDIRECT * BSIZE < n + 1).
Proof using All.
  intros Hnz. destruct bn_range as (B1 & B2 & B3). apply (fd_map _ _ _ _ _ D) in Hnz; [|done]. fold n in Hnz. unfold tot, nb. unfold BSIZE, NDIRECT in *.
  replace ((n + 1 + 512 - 1) / 512) with ((n + 512 - 1) / 512) by zlia. split_and!; [done| |].
  - intros m Hm. rewrite (fd_map _ _ _ _ _ D) by done. fold n. unfold BSIZE. lia.
  - rewrite (fd_ind _ _ _ _ _ D). fold n. unfold BSIZE, NDIRECT. lia.
Qed.

Lemma block_new : faddr V x bn = 0 -> n = bn * BSIZE /\ tot n = (if NDIRECT <? bn then bn + 1 else bn) /\ tot (n + 1) = (if NDIRECT <=? bn then bn + 2 else bn + 1).
Proof using All.
  intros Hz. destruct bn_range as (B1 & B2 & B3). assert (E : n = bn * BSIZE).
  { destruct (decide (bn * BSIZE < n)) as [H|H]; [|lia]. by apply (fd_map _ _ _ _ _ D) in H. }
  split; [done|]. unfold tot, nb. unfold BSIZE, NDIRECT in *. replace ((n + 512 - 1) / 512) with bn by zlia. replace ((n + 1 + 512 - 1) / 512) with (bn + 1) by zlia.
  destruct (Z.ltb_spec 12 bn), (Z.leb_spec 12 bn), (Z.ltb_spec 12 (bn + 1)); lia.
Qed.

Lemma block_direct : bn < NDIRECT -> block_taken (iappend_block din bn (mkMk V FSSIZE fi fb)).
Proof using All.
  intros Hd. destruct bn_range as (B1 & B2 & B3). unfold iappend_block. rewrite (proj2 (Z.ltb_lt bn NDIRECT)) by done.
  assert (Ea : nthz (di_addrs din) bn = faddr V x bn) by (unfold faddr; by rewrite (proj2 (Z.ltb_lt bn NDIRECT))).
  pose proof (addr_range bn B1) as Hr. unfold FSSIZE in Hr. rewrite Ea, xint_small by lia. pose proof (im_fb _ _ HI) as Hf. rewrite nmeta_eq in Hf.
  destruct (Z.eqb_spec (faddr V x bn) 0) as [Hz|Hnz].
  - destruct (block_new Hz) as (En & T1 & T2). rewrite (proj2 (Z.ltb_ge NDIRECT bn)) in T1 by lia. rewrite (proj2 (Z.leb_gt NDIRECT bn)) in T2 by lia.
    assert (Ef : fb' = fb + 1) by (unfold fb'; lia). rewrite Ef in *.
    destruct (take_direct own fb i V x HI eq_refl (fd_ok _ _ _ _ _ D) ltac:(lia) bn ltac:(lia) Hz) as (F' & Hf' & Hi' & Hb').
    split. rewrite Ef. exists (setz (di_addrs din) bn fb), fb, V, (hand_out own fb i). split_and!; [|by apply grows_next; [|lia]|exact F'|by rewrite Hf', decide_True|lia| | |exact Hb'].
    + rewrite (bind_ok _ _ _ (set_di_addrs (setz (di_addrs din) bn fb) din) (mkMk V FSSIZE fi (fb + 1))) by (by rewrite (bind_ok _ _ _ _ _ (next_block_run V FSSIZE fi fb ltac:(lia)))). cbn [di_addrs set_di_addrs].
      rewrite nthz_setz_eq, xint_small; [done|unfold FSSIZE in *; lia|]. pose proof (fo_len (fd_ok _ _ _ _ _ D)) as Hl. cbn in Hl. unfold NDIRECT in *. lia.
    + intros m Hm. change (mk_inode i _) with (set_i_addrs (setz (i_addrs x) bn fb) x). rewrite Hf' by done. case_decide as E; [rewrite E; unfold BSIZE in *; lia|].
      rewrite (fd_map _ _ _ _ _ D) by done. fold n. unfold BSIZE in *. lia.
    + change (mk_inode i _) with (set_i_addrs (setz (i_addrs x) bn fb) x). rewrite Hi', (fd_ind _ _ _ _ _ D). fold n. unfold BSIZE, NDIRECT in *. lia.
  - destruct (block_there Hnz) as (T & Hm & Hi'). assert (Ef : fb' = fb) by (unfold fb'; lia). rewrite Ef in *.
    split. rewrite Ef. exists (di_addrs din), (faddr V x bn), V, own. rewrite set_di_addrs_id.
    split_and!; [|by apply grows_refl|apply D|done|done|exact Hm|exact Hi'|done].
    rewrite (bind_ok _ _ _ din (mkMk V FSSIZE fi fb)) by done. rewrite Ea, xint_small by lia. done.
Qed.
(** The rest of the work once there is an indirect block. *)
Definition entry_block (d1 : dinode) : mkM (dinode * Z) :=
  indirect ← rsect (xint (nthz (di_addrs d1) NDIRECT));
  indirect ← (if aref indirect (bn - NDIRECT) =? 0 then
                b ← next_block;
                let indirect := put32 indirect (4 * (bn - NDIRECT)) b in
                wsect (xint (nthz (di_addrs d1) NDIRECT)) indirect;; mret indirect
              else mret indirect);
  mret (d1, xint (aref indirect (bn - NDIRECT))).

Section entry.
Context (addrs : list Z) (fb1 : Z) (own1 : Z -> Z).
Let d1 := set_di_addrs addrs din.
Let x1 := mk_inode i d1.
Hypothesis Hbn : NDIRECT <= bn.
Hypothesis HI1 : img_ok V fb1.
Hypothesis F1 : file_ok (owned own1 fb1 i) V x1.
Hypothesis G1 : grows i V V own own1 fb fb1.
Hypothesis Hi1 : ind x1 <> 0.
Hypothesis Ha1 : forall m, 0 <= m < MAXFILE -> faddr V x1 m = faddr V x m.
Hypothesis Hb1 : forall j, 0 <= j < MAXFILE * BSIZE -> fbyte V x1 j = fbyte V x j.
Hypothesis Hn1 : NDIRECT * BSIZE < n + 1.
Hypothesis Hf1 : fb' = if faddr V x bn =? 0 then fb1 + 1 else fb1.

Lemma entry_aref : aref (V (ind x1)) (bn - NDIRECT) = faddr V x bn.
Proof using All.
  destruct (bn_range) as (B1 & _). rewrite <- Ha1 by done. unfold faddr. rewrite (proj2 (Z.ltb_ge bn NDIRECT)) by done. by rewrite (proj2 (Z.eqb_neq (ind x1) 0)).
Qed.

Lemma entry_block_spec : block_taken (entry_block d1 (mkMk V FSSIZE fi fb1)).
Proof using All.
  destruct (bn_range) as (B1 & B2 & B3). destruct (fo_ind F1 Hi1) as [Hir Hio]. pose proof (im_fb _ _ HI1) as Hr. unfold FSSIZE in Hr. rewrite nmeta_eq in Hir, Hr. pose proof (addr_range bn B1) as Har. unfold FSSIZE in Har.
  unfold entry_block. change (nthz (di_addrs d1) NDIRECT) with (ind x1). rewrite xint_small by lia. rewrite (bind_ok _ _ _ _ _ (rsect_run V fi fb1 (ind x1) ltac:(unfold FSSIZE; lia))), entry_aref.
  assert (Hind : ind x1 <> 0 <-> NDIRECT * BSIZE < n + 1) by tauto. pose proof entry_aref as Ea. pose proof block_new as HN. pose proof block_there as HT. pose proof Hf1 as Hf2. pose proof Hfb as Hfb2. rewrite Hf2 in Hfb2. destruct (Z.eqb_spec (faddr V x bn) 0) as [Hz|Hnz].
  - unfold FSSIZE in Hfb2. assert (Hk : 0 <= bn - NDIRECT < NINDIRECT) by (rewrite MAXFILE_eq in *; unfold NINDIRECT, BSIZE, NDIRECT in *; change (512 / 4) with 128; lia).
    destruct (take_entry own1 fb1 i V x1 HI1 eq_refl F1 ltac:(unfold FSSIZE; lia) (bn - NDIRECT) Hi1 Hk ltac:(by rewrite Ea)) as (F' & G' & Ha' & Hb'). set (V' := upd_img V _ _) in *.
    destruct (HN Hz) as (En & _). split. rewrite Hf2. exists addrs, fb1, V', (hand_out own1 fb1 i). fold d1 x1.
    assert (Eb : faddr V' x1 bn = fb1) by (rewrite Ha' by done; rewrite decide_True; [done|lia]).
    split_and!; [|by eapply grows_trans|exact F'|exact Eb|lia| |exact Hind|intros j Hj; by rewrite Hb', Hb1].
    + assert (Ed : V' (ind x1) = put32 (V (ind x1)) (4 * (bn - NDIRECT)) fb1) by (unfold V', upd_img; by rewrite Z.eqb_refl).
      rewrite (bind_ok _ _ _ (V' (ind x1)) (mkMk V' FSSIZE fi (fb1 + 1))).
      2: { rewrite (bind_ok _ _ _ _ _ (next_block_run V FSSIZE fi fb1 ltac:(unfold FSSIZE; lia))), (bind_ok _ _ _ _ _ (wsect_run V fi (fb1 + 1) (ind x1) _ ltac:(unfold FSSIZE; lia))), Ed. done. }
      assert (Ee : aref (V' (ind x1)) (bn - NDIRECT) = fb1).
      { rewrite <- Eb. unfold faddr. rewrite (proj2 (Z.ltb_ge bn NDIRECT)) by done. by rewrite (proj2 (Z.eqb_neq (ind x1) 0)). }
      rewrite Ee, xint_small by lia. done.
    + intros m Hm. rewrite Ha' by done. case_decide as E; [replace m with bn by lia; unfold BSIZE in *; lia|]. rewrite Ha1, (fd_map _ _ _ _ _ D) by done. fold n. unfold BSIZE in *. lia.
  - destruct (HT Hnz) as (T & Hm & _). split. rewrite Hf2. exists addrs, (faddr V x bn), V, own1. fold d1 x1.
    split_and!; [|done|exact F1|by rewrite Ha1|done|intros m Hm'; rewrite Ha1 by done; by apply Hm|exact Hind|exact Hb1].
    rewrite (bind_ok _ _ _ (V (ind x1)) (mkMk V FSSIZE fi fb1)) by done. rewrite Ea, xint_small by lia. done.
Qed.
End entry.

Lemma block_indirect : NDIRECT <= bn -> block_taken (iappend_block din bn (mkMk V FSSIZE fi fb)).
Proof using All.
  intros Hbn. destruct (bn_range) as (B1 & B2 & B3). pose proof ind_range as Hr. unfold FSSIZE in Hr. pose proof (im_fb _ _ HI) as Hf. rewrite nmeta_eq in Hf.
  assert (Hn1 : NDIRECT * BSIZE < n + 1) by (unfold BSIZE, NDIRECT in *; lia).
  unfold iappend_block. rewrite (proj2 (Z.ltb_ge bn NDIRECT)) by done. change (nthz (di_addrs din) NDIRECT) with (ind x). rewrite xint_small by lia.
  destruct (Z.eqb_spec (ind x) 0) as [Hz|Hnz].
  - assert (Hz' : faddr V x bn = 0) by (unfold faddr; rewrite (proj2 (Z.ltb_ge bn NDIRECT)) by done; by rewrite Hz). destruct (block_new Hz') as (En & T1 & T2).
    assert (bn = NDIRECT) as Eb. { destruct (decide (NDIRECT * BSIZE < n)) as [H|H]; [by apply (fd_ind _ _ _ _ _ D) in H|unfold BSIZE, NDIRECT in *; lia]. }
    rewrite Eb, (proj2 (Z.ltb_ge NDIRECT NDIRECT)) in T1 by lia. rewrite Eb, (proj2 (Z.leb_le NDIRECT NDIRECT)) in T2 by lia. assert (Ef : fb' = fb + 2) by (unfold fb'; lia).
    destruct (take_indirect own fb i V x HI eq_refl (fd_ok _ _ _ _ _ D) ltac:(lia) Hz) as (F' & Ha' & Hi' & Hb').
    rewrite (bind_ok _ _ _ (set_di_addrs (setz (di_addrs din) NDIRECT fb) din) (mkMk V FSSIZE fi (fb + 1))) by (by rewrite (bind_ok _ _ _ _ _ (next_block_run V FSSIZE fi fb ltac:(lia)))).
    pose proof (grows_next i V own fb HI ltac:(lia)) as G. apply (entry_block_spec (setz (di_addrs din) NDIRECT fb) (fb + 1) (hand_out own fb i)); try done.
    + apply G.
    + change (ind (set_i_addrs (setz (i_addrs x) NDIRECT fb) x) <> 0). lia.
    + rewrite Hz', Z.eqb_refl. lia.
  - rewrite (bind_ok _ _ _ din (mkMk V FSSIZE fi fb)) by done. pose proof (entry_block_spec (di_addrs din) fb own) as H. rewrite set_di_addrs_id in H.
    apply H; try done; [apply D|by apply grows_refl|]. destruct (Z.eqb_spec (faddr V x bn) 0) as [Hz'|Hnz'].
    + destruct (block_new Hz') as (En & T1 & T2). apply (fd_ind _ _ _ _ _ D) in Hnz. fold n in Hnz. unfold fb'. rewrite T1, T2, (proj2 (Z.leb_le NDIRECT bn)), (proj2 (Z.ltb_lt NDIRECT bn)) by (unfold BSIZE, NDIRECT in *; lia). lia.
    + destruct (block_there Hnz') as (T & _). unfold fb'. lia.
Qed.

Lemma iappend_block_spec : block_taken (iappend_block din bn (mkMk V FSSIZE fi fb)).
Proof using All. destruct (Z.lt_ge_cases bn NDIRECT); [by apply block_direct|by apply block_indirect]. Qed.
End block.

(** ** Storing bytes *)

Section store.
Context (P : Z -> Prop) (V : Z -> block) (x : inode) (bn o : Z) (p : list Z).
Let a := faddr V x bn.
Let V' := upd_img V a (splice (V a) (Z.to_nat o) p).
Hypothesis F : file_ok P V x.
Hypothesis Hbn : 0 <= bn < MAXFILE.
Hypothesis Ha : a <> 0.
Hypothesis Hd : block_ok (V a).
Hypothesis Ho : 0 <= o.
Hypothesis Hlen : o + Z.of_nat (length p) <= BSIZE.

Lemma store_view c : V' c = if decide (c = a) then splice (V a) (Z.to_nat o) p else V c.
Proof using. unfold V', upd_img. destruct (Z.eqb_spec c a); case_decide; done. Qed.

Lemma store_addr m : faddr V' x m = faddr V x m.
Proof using All.
  unfold faddr. destruct (m <? NDIRECT); [done|]. destruct (ind x =? 0); [done|]. rewrite store_view, decide_False; [done|].
  intros E. by destruct (fo_data F bn Hbn Ha).
Qed.

Lemma store_file : file_ok P V' x.
Proof using All.
  pose proof store_addr as HA. destruct F as [F1 F2 F3 F4]. split; [done|done| |].
  - intros m Hm. rewrite HA. by apply F3.
  - intros m m'. rewrite !HA. apply F4.
Qed.

Lemma store_byte j : 0 <= j < MAXFILE * BSIZE ->
  fbyte V' x j = if decide (bn * BSIZE + o <= j < bn * BSIZE + o + Z.of_nat (length p)) then nthz p (j - (bn * BSIZE + o)) else fbyte V x j.
Proof using All.
  intros Hj. pose proof (byte_block j Hj) as Hb. unfold fbyte. rewrite store_addr. destruct Hd as [Hl _].
  assert (Hs : (Z.to_nat o + length p <= length (V a))%nat) by (unfold BSIZE in Hlen; lia).
  destruct (decide (j / BSIZE = bn)) as [E|E].
  - rewrite E. fold a. rewrite (proj2 (Z.eqb_neq a 0)) by done. rewrite store_view, decide_True by done. unfold nthz.
    assert (Ei : j = bn * BSIZE + j mod BSIZE) by (unfold BSIZE in *; zlia). assert (0 <= j mod BSIZE < BSIZE) by (unfold BSIZE; zlia).
    case_decide.
    + rewrite !list_lookup_total_alt. f_equal. rewrite lookup_splice_in by (done || lia). f_equal. lia.
    + rewrite !list_lookup_total_alt. f_equal. apply lookup_splice_out; [done|lia].
  - rewrite decide_False by (unfold BSIZE in *; zlia). destruct (Z.eqb_spec (faddr V x (j / BSIZE)) 0) as [|Hnz]; [done|].
    rewrite store_view, decide_False; [done|]. intros E'. apply E. by apply (fo_inj F).
Qed.
End store.

Lemma tot_block n m : 0 <= n -> 0 < m -> n mod BSIZE + m <= BSIZE -> tot (n + m) = tot (n + 1).
Proof. intros Hn Hm Hb. unfold tot, nb. unfold BSIZE in *. replace ((n + m + 512 - 1) / 512) with ((n + 1 + 512 - 1) / 512) by zlia. done. Qed.

Lemma tot_mono n m : 0 <= n <= m -> tot n <= tot m.
Proof. intros H. unfold tot, nb, NDIRECT, BSIZE. assert ((n + 512 - 1) / 512 <= (m + 512 - 1) / 512) by zlia. destruct (Z.ltb_spec 12 ((n + 512 - 1) / 512)), (Z.ltb_spec 12 ((m + 512 - 1) / 512)); lia. Qed.

(** One round of the loop. *)
Lemma iappend_round own fb i fi V din l p :
  let n := Z.of_nat (length l) in
  let m := Z.of_nat (length p) in
  let fb' := fb + tot (n + m) - tot n in
  img_ok V fb -> file_data own fb V (mk_inode i din) l -> 0 < m -> n mod BSIZE + m <= BSIZE -> n < MAXFILE * BSIZE -> bytes p -> fb' <= FSSIZE ->
  exists addrs V' own', (forall A (k : dinode -> mkM A),
    ('(din, x) ← iappend_block din (n / BSIZE); buf ← rsect x;
     wsect x (splice buf (Z.to_nat (n - n / BSIZE * BSIZE)) p);; k din) (mkMk V FSSIZE fi fb) = k (set_di_addrs addrs din) (mkMk V' FSSIZE fi fb')) /\
    grows i V V' own own' fb fb' /\ file_data own' fb' V' (mk_inode i (set_di_addrs addrs din)) (l ++ p).
Proof.
  intros n m fb' HI D Hm Hblk Hn Hby Hfb. assert (0 <= n) by (unfold n; lia). assert (Et : tot (n + m) = tot (n + 1)) by (apply tot_block; lia). unfold fb' in *. rewrite Et in *.
  destruct (iappend_block_spec own fb i fi V din l HI D Hn Hfb) as [(addrs & a & V1 & own' & E & G & F & Ea & Ha & Hmap & Hind & Hb)]. fold n in E, G, F, Ea, Hmap, Hind. set (fb1 := fb + tot (n + 1) - tot n) in *.
  set (x' := mk_inode i (set_di_addrs addrs din)) in *. assert (Hbn : 0 <= n / BSIZE < MAXFILE) by (apply byte_block; lia).
  destruct (fo_data F (n / BSIZE) Hbn ltac:(by rewrite Ea)) as [Hown _]. rewrite Ea in Hown. pose proof (gr_img _ _ _ _ _ _ _ G) as HI1. pose proof (im_fb _ _ HI1) as Hr.
  assert (Ha2 : a < FSSIZE) by (destruct Hown; lia). assert (Eo : n - n / BSIZE * BSIZE = n mod BSIZE) by (unfold BSIZE; zlia). rewrite Eo.
  set (d := splice (V1 a) (Z.to_nat (n mod BSIZE)) p). pose proof (im_blocks _ _ HI1 a) as Hok. assert (Hmod : 0 <= n mod BSIZE < BSIZE) by (unfold BSIZE; zlia).
  exists addrs, (upd_img V1 a d), own'. split_and!.
  - intros A k. rewrite (bind_ok _ _ _ _ _ E), (bind_ok _ _ _ _ _ (rsect_run V1 fi fb1 a Ha2)). fold d. by rewrite (bind_ok _ _ _ _ _ (wsect_run V1 fi fb1 a d Ha2)).
  - eapply grows_trans; [exact G|]. apply grows_write; [done|exact Hown|]. destruct Hok as [Hl Hbb]. split; [unfold d; rewrite length_splice; unfold BSIZE in *; lia|by apply bytes_splice].
  - pose proof (store_addr (owned own' fb1 i) V1 x' (n / BSIZE) (n mod BSIZE) p F Hbn) as SA. pose proof (store_file (owned own' fb1 i) V1 x' (n / BSIZE) (n mod BSIZE) p F Hbn) as SF.
    pose proof (store_byte (owned own' fb1 i) V1 x' (n / BSIZE) (n mod BSIZE) p F Hbn) as SB. rewrite Ea in SA, SF, SB. fold d m in SA, SF, SB.
    specialize (SA Ha Hok ltac:(lia) Hblk). specialize (SF Ha Hok ltac:(lia) Hblk). specialize (SB Ha Hok ltac:(lia) Hblk).
    assert (Ellp : Z.of_nat (length (l ++ p)) = n + m) by (rewrite length_app; lia). rewrite MAXFILE_eq in *.
    fold x'. split; rewrite ?Ellp.
    + exact SF.
    + unfold BSIZE in *. rewrite ?MAXFILE_eq. zlia.
    + intros b Hb'. rewrite SA, Hmap by (by rewrite ?MAXFILE_eq). unfold BSIZE in *. zlia.
    + rewrite Hind. unfold BSIZE, NDIRECT in *. zlia.
    + intros j Hj. assert (Hj' : 0 <= j < MAXFILE * BSIZE) by (unfold BSIZE in *; rewrite MAXFILE_eq; zlia). rewrite MAXFILE_eq in Hj'. rewrite SB by done.
      replace (n / BSIZE * BSIZE + n mod BSIZE) with n by (unfold BSIZE; zlia). unfold nthz. case_decide as Ec.
      * rewrite !list_lookup_total_alt. f_equal. rewrite lookup_app_r by lia. f_equal. lia.
      * rewrite Hb by (by rewrite ?MAXFILE_eq). rewrite (fd_byte _ _ _ _ _ D) by (fold n; lia). unfold nthz. rewrite !list_lookup_total_alt. f_equal. by rewrite lookup_app_l by lia.
    + intros j Hj. rewrite ?MAXFILE_eq in Hj. rewrite SB by lia. replace (n / BSIZE * BSIZE + n mod BSIZE) with n by (unfold BSIZE; zlia). rewrite decide_False by lia.
      rewrite Hb by (rewrite ?MAXFILE_eq; lia). apply (fd_tail _ _ _ _ _ D). fold n. rewrite MAXFILE_eq. lia.
Qed.

Lemma set_di_addrs_twice a b d : set_di_addrs b (set_di_addrs a d) = set_di_addrs b d.
Proof. by destruct d. Qed.

Lemma iappend_loop_spec i fi fuel : forall p own fb V din l,
  let n := Z.of_nat (length l) in
  let m := Z.of_nat (length p) in
  let fb' := fb + tot (n + m) - tot n in
  img_ok V fb -> file_data own fb V (mk_inode i din) l -> n + m <= MAXFILE * BSIZE -> bytes p -> fb' <= FSSIZE -> (length p < fuel)%nat ->
  exists addrs V' own', iappend_loop fuel din n p (mkMk V FSSIZE fi fb) = Ok (set_di_addrs addrs din, n + m) (mkMk V' FSSIZE fi fb') /\
    grows i V V' own own' fb fb' /\ file_data own' fb' V' (mk_inode i (set_di_addrs addrs din)) (l ++ p).
Proof.
  induction fuel as [|fuel IH]; intros p own fb V din l n m fb' HI D Hmax Hby Hfb Hfuel; [lia|]. cbn [iappend_loop]. fold m.
  destruct (Z.ltb_spec 0 m) as [Hm|Hm].
  2: { exists (di_addrs din), V, own. assert (m = 0) by (unfold m in *; lia). assert (p = []) as -> by (apply nil_length_inv; lia). unfold fb', m. cbn [length] in *. rewrite set_di_addrs_id, app_nil_r.
       replace (n + Z.of_nat 0) with n by lia. replace (fb + tot n - tot n) with fb by lia. split_and!; [done|by apply grows_refl|done]. }
  assert (Hn0 : 0 <= n) by (unfold n; lia). rewrite MAXFILE_eq in *. rewrite (proj2 (Z.leb_gt 140 (n / BSIZE))) by (unfold BSIZE in *; zlia). rewrite (bind_ok _ _ _ tt (mkMk V FSSIZE fi fb)) by done.
  set (n1 := Z.min m ((n / BSIZE + 1) * BSIZE - n)). assert (Hn1 : 0 < n1 <= m /\ n mod BSIZE + n1 <= BSIZE) by (unfold n1, BSIZE in *; zlia).
  set (p1 := take (Z.to_nat n1) p). set (p2 := drop (Z.to_nat n1) p). assert (Ep : p = p1 ++ p2) by (symmetry; apply take_drop).
  assert (L1 : Z.of_nat (length p1) = n1) by (unfold p1; rewrite length_take; lia). assert (L2 : Z.of_nat (length p2) = m - n1) by (unfold p2; rewrite length_drop; lia).
  assert (Hby2 : bytes p1 /\ bytes p2) by (rewrite Ep in Hby; by apply Forall_app in Hby). destruct Hby2 as [Hby1 Hby2].
  assert (Hmon : tot (n + n1) <= tot (n + m)) by (apply tot_mono; lia).
  destruct (iappend_round own fb i fi V din l p1) as (addrs1 & V1 & own1 & E1 & G1 & D1); try done; rewrite ?L1; fold n; [lia|lia|rewrite MAXFILE_eq; lia|unfold fb' in *; lia|]. rewrite L1 in E1, G1, D1. fold n in E1, G1, D1.
  set (fb1 := fb + tot (n + n1) - tot n) in *. set (din1 := set_di_addrs addrs1 din) in *.
  assert (Ln : Z.of_nat (length (l ++ p1)) = n + n1) by (rewrite length_app; lia).
  destruct (IH p2 own1 fb1 V1 din1 (l ++ p1)) as (addrs & V' & own' & E2 & G2 & D2); rewrite ?Ln, ?L2; try done.
  - apply G1.
  - lia.
  - unfold fb1, fb' in *. replace (n + n1 + (m - n1)) with (n + m) by lia. lia.
  - unfold p2. rewrite length_drop. lia.
  - rewrite Ln, L2 in E2, G2, D2. replace (n + n1 + (m - n1)) with (n + m) in * by lia. replace (fb1 + tot (n + m) - tot (n + n1)) with fb' in * by (unfold fb1, fb'; lia).
    unfold din1 in E2, D2. rewrite set_di_addrs_twice in E2, D2. rewrite <- app_assoc, <- Ep in D2. exists addrs, V', own'. split_and!; [|by eapply grows_trans|done].
    etransitivity; [apply (E1 _ (fun d => iappend_loop fuel d (n + n1) p2))|exact E2].
Qed.

(** ** Inodes in their blocks *)

Definition dinode_ok (di : dinode) : Prop :=
  -32768 <= di_type di < 32768 /\ -32768 <= di_major di < 32768 /\ -32768 <= di_minor di < 32768 /\ -32768 <= di_nlink di < 32768 /\
  0 <= di_size di < 4294967296 /\ length (di_addrs di) = 13%nat /\ Forall (fun a => 0 <= a < 4294967296) (di_addrs di).

(** The fields of a stored inode read back. *)
Lemma dec_enc_dinode di : dinode_ok di -> dec_dinode (enc_dinode di) 0 = di.
Proof.
  intros (H1 & H2 & H3 & H4 & H5 & H6 & H7). destruct di as [ty ma mi nl sz addrs]. cbn [di_type di_major di_minor di_nlink di_size di_addrs] in *.
  assert (Ea : (fun k : nat => word32 (enc_dinode (mkDinode ty ma mi nl sz addrs)) (0 + 12 + 4 * Z.of_nat k)) <$> seq 0 13 = (fun a => le_dec (enc32 a)) <$> addrs).
  { do 13 (destruct addrs as [|? addrs]; [done|]). destruct addrs; [|done]. reflexivity. }
  assert (E1 : word16 (enc_dinode (mkDinode ty ma mi nl sz addrs)) 0 = i16 (le_dec (enc16 ty))) by reflexivity.
  assert (E2 : word16 (enc_dinode (mkDinode ty ma mi nl sz addrs)) (0 + 2) = i16 (le_dec (enc16 ma))) by reflexivity.
  assert (E3 : word16 (enc_dinode (mkDinode ty ma mi nl sz addrs)) (0 + 4) = i16 (le_dec (enc16 mi))) by reflexivity.
  assert (E4 : word16 (enc_dinode (mkDinode ty ma mi nl sz addrs)) (0 + 6) = i16 (le_dec (enc16 nl))) by reflexivity.
  assert (E5 : word32 (enc_dinode (mkDinode ty ma mi nl sz addrs)) (0 + 8) = le_dec (enc32 sz)) by reflexivity.
  unfold dec_dinode. rewrite Ea, E1, E2, E3, E4, E5, !dec_enc16, dec_enc32, u32_small by lia. f_equal; [zlia..|].
  clear -H7. induction H7 as [|a l Ha Hl IH]; [done|]. rewrite fmap_cons, dec_enc32, u32_small by lia. f_equal. exact IH.
Qed.

Lemma slice_splice_inner {A} (l d : list A) o k n :
  (o + length d <= length l)%nat -> (k + n <= length d)%nat -> slice (splice l o d) (o + k) n = slice d k n.
Proof.
  intros H1 H2. unfold slice. apply list_eq. intros i. destruct (decide (i < n)%nat) as [Hi|Hi]; [|by rewrite !lookup_take_ge by lia].
  rewrite !lookup_take_lt, !lookup_drop by done. rewrite lookup_splice_in by lia. f_equal. lia.
Qed.

Lemma dec_put_dinode d off di : block_ok d -> 0 <= off <= 448 -> dinode_ok di -> dec_dinode (put_dinode d off di) off = di.
Proof.
  intros [Hl _] Ho Hdi. pose proof Hdi as (_ & _ & _ & _ & _ & H6 & _). pose proof (length_enc_dinode di H6) as He. rewrite <- (dec_enc_dinode di Hdi) at 2. unfold dec_dinode, put_dinode, word16, word32.
  assert (Hs : forall k n, 0 <= k -> (Z.to_nat k + n <= 64)%nat -> slice (splice d (Z.to_nat off) (enc_dinode di)) (Z.to_nat (off + k)) n = slice (enc_dinode di) (Z.to_nat (0 + k)) n).
  { intros k n Hk Hn. rewrite Z2Nat.inj_add by lia. rewrite slice_splice_inner by (rewrite ?He; lia). done. }
  pose proof (Hs 0 2%nat ltac:(lia) ltac:(lia)) as H0. rewrite Z.add_0_r in H0. rewrite H0, !Hs by lia. f_equal.
  apply list_fmap_ext. intros i k Hk. apply lookup_seq in Hk as [-> Hk]. f_equal. rewrite <- (Z.add_assoc off), <- (Z.add_assoc 0). apply Hs; lia.
Qed.

(** The other inodes of the block stay. *)
Lemma dec_put_dinode_ne d off off' di : block_ok d -> 0 <= off <= 448 -> 0 <= off' -> off + 64 <= off' \/ off' + 64 <= off -> length (di_addrs di) = 13%nat ->
  dec_dinode (put_dinode d off di) off' = dec_dinode d off'.
Proof.
  intros [Hl _] Ho Ho' Hne Hlen. pose proof (length_enc_dinode di Hlen) as He. unfold dec_dinode, put_dinode, word16, word32.
  assert (Hs : forall k n, 0 <= k -> (Z.to_nat k + n <= 64)%nat -> slice (splice d (Z.to_nat off) (enc_dinode di)) (Z.to_nat (off' + k)) n = slice d (Z.to_nat (off' + k)) n).
  { intros k n Hk Hn. apply slice_splice_disjoint; rewrite He; lia. }
  pose proof (Hs 0 2%nat ltac:(lia) ltac:(lia)) as H0. rewrite Z.add_0_r in H0. rewrite H0, !Hs by lia. f_equal.
  apply list_fmap_ext. intros i k Hk. apply lookup_seq in Hk as [-> Hk]. f_equal. rewrite <- (Z.add_assoc off'). apply Hs; lia.
Qed.
