(* ===== verification/MkfsProps.v ===== *)
(** * The image mkfs builds is a file system

    The image after each step of main: the files it holds, the blocks they
    take, and the parts of the disk that are not written.  At the end it is a
    disk on which the conditions hold under which the kernel's operations on
    blocks and files were verified. *)

From S2P Require Import Prelude State CString Sleep Ide Bio BioSpec Log LogSpec LogRun Console Fs FsTxn FsAlloc FsMap FsFile FsData Mkfs MkfsSpec.
Open Scope Z_scope.

(** The inode in its block. *)
Definition iblk (i : Z) : Z := IBLOCK i sb.
Definition dinode_at (V : Z -> block) (i : Z) : dinode := dec_dinode (V (iblk i)) (inode_off i).

Lemma iblk_range i : 0 <= i < 208 -> iblk i = i / 8 + 32 /\ 32 <= iblk i < 58.
Proof. intros H. unfold iblk, IBLOCK. rewrite mk_sb_eq. unfold IPB, BSIZE, DINODE_SIZE. change (512 / 64) with 8. cbn [sb_inodestart]. rewrite u32_small by zlia. zlia. Qed.

(** Inode [i] is of type [ty] and holds [l]. *)
Record mk_file (own : Z -> Z) (fb : Z) (V : Z -> block) (i ty : Z) (l : list Z) : Prop := mkMkFile {
  mf_type : di_type (dinode_at V i) = ty;
  mf_dev : di_major (dinode_at V i) = 0 /\ di_minor (dinode_at V i) = 0;
  mf_nlink : di_nlink (dinode_at V i) = 1;
  mf_size : di_size (dinode_at V i) = Z.of_nat (length l);
  mf_data : file_data own fb V (mk_inode i (dinode_at V i)) l
}.

Fixpoint blocks_of (C : list (Z * list Z)) : Z :=
  match C with
  | [] => 0
  | (_, l) :: C => tot (Z.of_nat (length l)) + blocks_of C
  end.

(** The image with the inodes 1, 2, ... of types and contents [C]. *)
Record image (V : Z -> block) (fb : Z) (own : Z -> Z) (C : list (Z * list Z)) : Prop := mkImage {
  ig_img : img_ok V fb;
  ig_sb : V 1 = splice zero_block 0 (enc_superblock sb);
  ig_zero : forall c, c = 0 \/ 2 <= c < 32 \/ c = 58 -> V c = zero_block;
  ig_count : (length C <= 207)%nat;
  ig_blocks : fb = nmeta + blocks_of C;
  ig_files : forall k ty l, C !! k = Some (ty, l) -> (ty = T_DIR \/ ty = T_FILE) /\ mk_file own fb V (Z.of_nat k + 1) ty l
}.

(** Inodes on different places do not disturb each other. *)
Lemma dinode_at_put V i j di : block_ok (V (iblk i)) -> 0 <= i < 208 -> 0 <= j < 208 -> length (di_addrs di) = 13%nat -> i <> j ->
  dinode_at (upd_img V (iblk i) (put_dinode (V (iblk i)) (inode_off i) di)) j = dinode_at V j.
Proof.
  intros Hok Hi Hj Hl Hne. unfold dinode_at, upd_img. destruct (Z.eqb_spec (iblk j) (iblk i)) as [E|E]; [|done]. rewrite E.
  destruct (iblk_range i Hi) as [E1 _], (iblk_range j Hj) as [E2 _]. apply dec_put_dinode_ne; [done|apply inode_off_range|apply inode_off_range| |done].
  unfold inode_off, IPB, BSIZE, DINODE_SIZE. change (512 / 64) with 8. zlia.
Qed.

Lemma dinode_at_same V i di : block_ok (V (iblk i)) -> dinode_ok di ->
  dinode_at (upd_img V (iblk i) (put_dinode (V (iblk i)) (inode_off i) di)) i = di.
Proof. intros Hok Hd. unfold dinode_at, upd_img. rewrite Z.eqb_refl. apply dec_put_dinode; [done|apply inode_off_range|done]. Qed.

(** The addresses of a file fit their words. *)
Lemma file_addrs own fb V x l : img_ok V fb -> file_data own fb V x l -> Forall (fun a => 0 <= a < 4294967296) (i_addrs x).
Proof.
  intros HI D. pose proof (im_fb _ _ HI) as Hfb. unfold FSSIZE in Hfb. rewrite nmeta_eq in Hfb. pose proof (fd_ok _ _ _ _ _ D) as F.
  apply Forall_lookup. intros k a Hk. pose proof (lookup_lt_Some _ _ _ Hk) as Hlt. rewrite (fo_len F) in Hlt.
  destruct (decide (a = 0)) as [->|Hnz]; [lia|]. assert (Ea : nthz (i_addrs x) (Z.of_nat k) = a) by (unfold nthz; rewrite Nat2Z.id; by apply list_lookup_total_correct).
  destruct (decide (k = 12)%nat) as [->|Hne].
  - change (nthz (i_addrs x) (Z.of_nat 12)) with (ind x) in Ea. destruct (fo_ind F) as [Hc _]; [by rewrite Ea|]. rewrite Ea, nmeta_eq in Hc. lia.
  - assert (Ef : faddr V x (Z.of_nat k) = a) by (unfold faddr, NDIRECT; rewrite (proj2 (Z.ltb_lt _ _)) by lia; done).
    destruct (fo_data F (Z.of_nat k)) as [[Hc _] _]; [rewrite MAXFILE_eq; lia|by rewrite Ef|]. rewrite Ef, nmeta_eq in Hc. lia.
Qed.

(** ** Writing an inode *)

Lemma winode_run V fi fb i di : 0 <= i < 208 ->
  winode i di (mkMk V FSSIZE fi fb) = Ok tt (mkMk (upd_img V (iblk i) (put_dinode (V (iblk i)) (inode_off i) di)) FSSIZE fi fb).
Proof.
  intros Hi. destruct (iblk_range i Hi) as [_ Hr]. unfold winode. fold (iblk i). rewrite (bind_ok _ _ _ _ _ (rsect_run V fi fb (iblk i) ltac:(unfold FSSIZE; lia))).
  apply wsect_run. unfold FSSIZE. lia.
Qed.

Lemma rinode_run V fi fb i : 0 <= i < 208 -> rinode i (mkMk V FSSIZE fi fb) = Ok (dinode_at V i) (mkMk V FSSIZE fi fb).
Proof.
  intros Hi. destruct (iblk_range i Hi) as [_ Hr]. unfold rinode. fold (iblk i). by rewrite (bind_ok _ _ _ _ _ (rsect_run V fi fb (iblk i) ltac:(unfold FSSIZE; lia))).
Qed.

(** The parts of the image a new inode does not touch. *)
Section winode.
Context (V : Z -> block) (i : Z) (di : dinode).
Hypothesis Hi : 0 <= i < 208.
Hypothesis Hok : forall c, block_ok (V c).
Hypothesis Hdi : dinode_ok di.
Let V' := upd_img V (iblk i) (put_dinode (V (iblk i)) (inode_off i) di).

Lemma wi_other c : c <> iblk i -> V' c = V c.
Proof using. intros H. unfold V', upd_img. by rewrite (proj2 (Z.eqb_neq c (iblk i))). Qed.

Lemma wi_img fb : img_ok V fb -> img_ok V' fb.
Proof using All.
  intros [A1 A2 A3]. destruct (iblk_range i Hi) as [_ Hr]. split; [|intros c Hc; rewrite wi_other; [by apply A2|rewrite nmeta_eq in A3; lia]|done].
  intros c. unfold V', upd_img. destruct (c =? iblk i); [|done]. apply block_ok_put_dinode; [done|apply Hdi].
Qed.

Lemma wi_file own fb j ty l : 0 <= j < 208 -> i <> j -> mk_file own fb V j ty l -> mk_file own fb V' j ty l.
Proof using All.
  intros Hj Hne [M1 M2 M3 M4 M5]. destruct (iblk_range i Hi) as [_ Hr].
  assert (E : dinode_at V' j = dinode_at V j) by (apply dinode_at_put; [done|done|done|apply Hdi|done]). split; rewrite ?E; [exact M1|exact M2|exact M3|exact M4|].
  eapply file_data_ext; [|exact M5]. intros c Hc. split; [|done]. apply wi_other. destruct Hc as [Hc _]. rewrite nmeta_eq in Hc. lia.
Qed.

Lemma wi_data own fb x l : file_data own fb V x l -> file_data own fb V' x l.
Proof using All.
  destruct (iblk_range i Hi) as [_ Hr]. apply file_data_ext. intros c Hc. split; [|done]. apply wi_other. destruct Hc as [Hc _]. rewrite nmeta_eq in Hc. lia.
Qed.
End winode.

(** ** The steps of main *)

Lemma blocks_of_app C1 C2 : blocks_of (C1 ++ C2) = blocks_of C1 + blocks_of C2.
Proof. induction C1 as [|[ty l] C1 IH]; cbn [app blocks_of]; [done|lia]. Qed.

Lemma blocks_of_insert C k ty l ty' l' : C !! k = Some (ty, l) ->
  blocks_of (<[k := (ty', l')]> C) = blocks_of C + tot (Z.of_nat (length l')) - tot (Z.of_nat (length l)).
Proof.
  revert k. induction C as [|[ty0 l0] C IH]; intros [|k] E; cbn in E; try done; [injection E as -> ->; cbn [insert list_insert blocks_of]; lia|].
  change (<[S k := (ty', l')]> ((ty0, l0) :: C)) with ((ty0, l0) :: <[k := (ty', l')]> C). cbn [blocks_of]. rewrite (IH k E). lia.
Qed.

Lemma iappend_spec V fb own C k ty l p fi :
  let fb' := fb + tot (Z.of_nat (length l) + Z.of_nat (length p)) - tot (Z.of_nat (length l)) in
  image V fb own C -> C !! k = Some (ty, l) -> bytes p -> Z.of_nat (length l) + Z.of_nat (length p) <= MAXFILE * BSIZE -> fb' <= FSSIZE ->
  exists V' own', iappend (Z.of_nat k + 1) p (mkMk V FSSIZE fi fb) = Ok tt (mkMk V' FSSIZE fi fb') /\ image V' fb' own' (<[k := (ty, l ++ p)]> C).
Proof.
  intros fb' [HI Hsb Hz Hcnt Hblk HF] Ek Hby Hmax Hfb. pose proof (lookup_lt_Some _ _ _ Ek) as Hlt. set (i := Z.of_nat k + 1) in *. assert (Hi : 0 <= i < 208) by lia.
  destruct (HF k ty l Ek) as [Hty [M1 M2 M3 M4 M5]]. fold i in M1, M2, M3, M4, M5. destruct (iblk_range i Hi) as [_ Hir].
  destruct (iappend_loop_spec i fi (S (length p)) p own fb V (dinode_at V i) l HI M5 Hmax Hby Hfb ltac:(lia)) as (addrs & V1 & own' & E & G & D). fold fb' in E, G, D. set (n' := Z.of_nat (length l) + Z.of_nat (length p)) in *.
  pose proof (gr_img _ _ _ _ _ _ _ G) as HI1. set (di := set_di_size n' (set_di_addrs addrs (dinode_at V i))). rewrite MAXFILE_eq in Hmax. unfold BSIZE in Hmax.
  assert (Hdi : dinode_ok di).
  { pose proof (file_addrs _ _ _ _ _ HI1 D) as Ha. pose proof (fo_len (fd_ok _ _ _ _ _ D)) as Hl. destruct M2 as [M2 M2']. unfold dinode_ok, di. cbn [di_type di_major di_minor di_nlink di_size di_addrs set_di_addrs set_di_size].
    rewrite M1, M2, M2', M3. unfold T_DIR, T_FILE in Hty. split_and!; try lia; done. }
  assert (Hlow : forall c, c < nmeta -> V1 c = V c).
  { intros c Hc. apply (gr_old _ _ _ _ _ _ _ G); [destruct (im_fb _ _ HI); lia|]. intros [? _]. lia. }
  exists (upd_img V1 (iblk i) (put_dinode (V1 (iblk i)) (inode_off i) di)), own'. split.
  { unfold iappend. rewrite (bind_ok _ _ _ _ _ (rinode_run V fi fb i Hi)), M4, xint_small by lia. rewrite (bind_ok _ _ _ _ _ E), xint_small by lia. by apply winode_run. }
  pose proof (im_blocks _ _ HI1) as Hok. split.
  - by apply wi_img.
  - rewrite wi_other by lia. rewrite Hlow by (rewrite nmeta_eq; lia). done.
  - intros c Hc. rewrite wi_other, Hlow by (rewrite ?nmeta_eq; lia). by apply Hz.
  - by rewrite length_insert.
  - rewrite (blocks_of_insert C k ty l) by done. rewrite length_app, Nat2Z.inj_add. unfold fb', n'. lia.
  - intros j ty' l' Ej. destruct (decide (k = j)) as [<-|Hne].
    + rewrite list_lookup_insert_eq in Ej by done. injection Ej as <- <-. split; [done|]. fold i.
      assert (Ed : dinode_at (upd_img V1 (iblk i) (put_dinode (V1 (iblk i)) (inode_off i) di)) i = di) by (by apply dinode_at_same).
      split; rewrite ?Ed; unfold di; cbn [di_type di_major di_minor di_nlink di_size set_di_addrs set_di_size]; [exact M1|exact M2|exact M3|rewrite length_app; lia|].
      apply wi_data; [done|done|done|]. clear -D. destruct D as [[F1 F2 F3 F4] D2 D3 D4 D5 D6]. split; [split|..]; done.
    + rewrite list_lookup_insert_ne in Ej by done. destruct (HF j ty' l' Ej) as [Hty' Hj]. split; [done|]. pose proof (lookup_lt_Some _ _ _ Ej) as Hltj.
      apply wi_file; [done|done|done|lia|lia|]. destruct Hj as [N1 N2 N3 N4 N5]. destruct (iblk_range (Z.of_nat j + 1) ltac:(lia)) as [_ Hjr].
      assert (Ed : dinode_at V1 (Z.of_nat j + 1) = dinode_at V (Z.of_nat j + 1)) by (unfold dinode_at; by rewrite Hlow by (rewrite nmeta_eq; lia)).
      split; rewrite ?Ed; [exact N1|exact N2|exact N3|exact N4|]. eapply (file_data_frame i); [exact G|cbn [i_inum mk_inode]; lia|exact N5].
Qed.

Lemma file_data_nil own fb V x : i_addrs x = replicate 13 0 -> file_data own fb V x [].
Proof.
  intros E. assert (Ei : ind x = 0) by (unfold ind; by rewrite E).
  assert (Hf : forall bn, 0 <= bn < MAXFILE -> faddr V x bn = 0).
  { intros bn Hbn. unfold faddr. rewrite Ei, E. destruct (Z.ltb_spec bn NDIRECT) as [H|H]; [|done]. unfold nthz, NDIRECT in *. apply lookup_total_replicate_2. lia. }
  split; [split; [by rewrite E|by rewrite Ei| |]|done| | |cbn; lia|].
  - intros bn Hbn. by rewrite Hf.
  - intros bn bm Hbn _. by rewrite Hf.
  - intros bn Hbn. rewrite Hf by done. cbn. unfold BSIZE. split; [done|lia].
  - rewrite Ei. cbn. unfold BSIZE, NDIRECT. split; [done|lia].
  - intros j Hj. unfold fbyte. by rewrite Hf by (apply byte_block; cbn in Hj; lia).
Qed.

Lemma mk_ialloc_spec V fb own C ty : image V fb own C -> (length C < 207)%nat -> ty = T_DIR \/ ty = T_FILE ->
  let i := Z.of_nat (length C) + 1 in
  exists V', mk_ialloc ty (mkMk V FSSIZE i fb) = Ok i (mkMk V' FSSIZE (i + 1) fb) /\ image V' fb own (C ++ [(ty, [])]).
Proof.
  intros [HI Hsb Hz Hcnt Hblk HF] Hlt Hty i. assert (Hi : 0 <= i < 208) by (unfold i; lia). set (di := mkDinode ty 0 0 1 0 (replicate 13 0)). destruct (iblk_range i Hi) as [_ Hir].
  assert (Hdi : dinode_ok di) by (unfold dinode_ok, di, T_DIR, T_FILE in *; cbn; split_and!; try lia; repeat constructor; lia). pose proof (im_blocks _ _ HI) as Hok.
  exists (upd_img V (iblk i) (put_dinode (V (iblk i)) (inode_off i) di)). split.
  { unfold mk_ialloc. rewrite (bind_ok _ _ _ i (mkMk V FSSIZE i fb)) by done. rewrite (bind_ok _ _ _ tt (mkMk V FSSIZE (u32 (i + 1)) fb)) by done.
    rewrite u32_small, !xshort_small, xint_small by (unfold T_DIR, T_FILE in *; lia). fold di. by rewrite (bind_ok _ _ _ _ _ (winode_run V (i + 1) fb i di Hi)). }
  split.
  - by apply wi_img.
  - by rewrite wi_other by lia.
  - intros c Hc. rewrite wi_other by lia. by apply Hz.
  - rewrite length_app. cbn. lia.
  - rewrite blocks_of_app. change (blocks_of [(ty, [])]) with 0. lia.
  - intros j ty' l' Ej. apply lookup_app_Some in Ej as [Ej|[Hj Ej]].
    + destruct (HF j ty' l' Ej) as [Hty' Hj]. split; [done|]. pose proof (lookup_lt_Some _ _ _ Ej). apply wi_file; [done|done|done|lia|lia|done].
    + apply list_lookup_singleton_Some in Ej as [Hj0 [= <- <-]]. replace (Z.of_nat j + 1) with i by lia. split; [done|].
      assert (Ed : dinode_at (upd_img V (iblk i) (put_dinode (V (iblk i)) (inode_off i) di)) i = di) by (by apply dinode_at_same).
      split; rewrite ?Ed; [done|done|done|done|]. apply wi_data; [done|done|done|]. by apply file_data_nil.
Qed.

Lemma append_file_spec fi fuel : forall data V fb own C k ty l,
  let fb' := fb + tot (Z.of_nat (length l) + Z.of_nat (length data)) - tot (Z.of_nat (length l)) in
  image V fb own C -> C !! k = Some (ty, l) -> bytes data -> Z.of_nat (length l) + Z.of_nat (length data) <= MAXFILE * BSIZE -> fb' <= FSSIZE -> (length data < fuel)%nat ->
  exists V' own', append_file fuel (Z.of_nat k + 1) data (mkMk V FSSIZE fi fb) = Ok tt (mkMk V' FSSIZE fi fb') /\ image V' fb' own' (<[k := (ty, l ++ data)]> C).
Proof.
  induction fuel as [|fuel IH]; intros data V fb own C k ty l fb' I Ek Hby Hmax Hfb Hf; [lia|]. cbn [append_file]. change (Z.to_nat BSIZE) with 512%nat.
  set (n := Z.of_nat (length l)) in *. destruct (Z.ltb_spec 0 (Z.of_nat (length (take 512 data)))) as [Hp|Hp]; rewrite length_take in Hp.
  2: { assert (data = []) as -> by (apply nil_length_inv; lia). exists V, own. cbn [length] in *. unfold fb'. replace (n + Z.of_nat 0) with n by lia. replace (fb + tot n - tot n) with fb by lia.
       rewrite app_nil_r. rewrite list_insert_id by done. done. }
  set (p1 := take 512 data). set (p2 := drop 512 data). assert (Ep : data = p1 ++ p2) by (symmetry; apply take_drop).
  assert (El : Z.of_nat (length data) = Z.of_nat (length p1) + Z.of_nat (length p2)) by (rewrite Ep, length_app; lia). assert (Hby2 : bytes p1 /\ bytes p2) by (rewrite Ep in Hby; by apply Forall_app in Hby). destruct Hby2 as [Hby1 Hby2].
  assert (Hmon : tot (n + Z.of_nat (length p1)) <= tot (n + Z.of_nat (length data))) by (apply tot_mono; lia).
  destruct (iappend_spec V fb own C k ty l p1 fi I Ek Hby1) as (V1 & own1 & E1 & I1); [lia|fold n; unfold fb' in *; lia|]. fold n in E1, I1. set (fb1 := fb + tot (n + Z.of_nat (length p1)) - tot n) in *.
  assert (Ln : Z.of_nat (length (l ++ p1)) = n + Z.of_nat (length p1)) by (rewrite length_app; lia).
  destruct (IH p2 V1 fb1 own1 (<[k := (ty, l ++ p1)]> C) k ty (l ++ p1)) as (V' & own' & E2 & I2); rewrite ?Ln; try done.
  - rewrite list_lookup_insert_eq; [done|by eapply lookup_lt_Some].
  - lia.
  - unfold fb1, fb' in *. replace (n + Z.of_nat (length p1) + Z.of_nat (length p2)) with (n + Z.of_nat (length data)) by lia. lia.
  - unfold p2. rewrite length_drop. lia.
  - rewrite Ln in E2, I2. replace (n + Z.of_nat (length p1) + Z.of_nat (length p2)) with (n + Z.of_nat (length data)) in * by lia.
    replace (fb1 + tot (n + Z.of_nat (length data)) - tot (n + Z.of_nat (length p1))) with fb' in * by (unfold fb1, fb'; lia).
    exists V', own'. split; [by rewrite (bind_ok _ _ _ _ _ E1)|]. by rewrite list_insert_insert_eq, <- app_assoc, <- Ep in I2.
Qed.

(** The directory entries of the files, inode numbers from [i] on. *)
Definition entry (i : Z) (name : list Z) : list Z := enc_dirent i (strncpy (ptr_list (mkfs_name name ++ [0])) DIRSIZ).
Fixpoint entries (i : Z) (files : list (list Z * list Z)) : list Z :=
  match files with
  | [] => []
  | (name, _) :: files => entry i name ++ entries (i + 1) files
  end.
Fixpoint file_blocks (files : list (list Z * list Z)) : Z :=
  match files with
  | [] => 0
  | (_, data) :: files => tot (Z.of_nat (length data)) + file_blocks files
  end.

(** A file mkfs can take. *)
Definition file_fits (f : list Z * list Z) : Prop :=
  bytes f.1 /\ ~ SLASH ∈ f.1 /\ bytes f.2 /\ Z.of_nat (length f.2) <= MAXFILE * BSIZE.

Lemma mkfs_name_bytes name : bytes name -> bytes (mkfs_name name).
Proof. intros H. destruct name as [|c name]; [done|]. unfold mkfs_name. repeat (case_match; try done). by apply Forall_cons in H as [_ H]. Qed.

Lemma entry_ok i name : bytes name -> length (entry i name) = 16%nat /\ bytes (entry i name).
Proof.
  intros H. unfold entry, enc_dirent. split.
  - rewrite length_app, length_strncpy. unfold enc16. by rewrite length_le_enc.
  - apply Forall_app. split; [apply bytes_le_enc|]. apply bytes_strncpy_from, ptr_list_bytes. apply Forall_app. split; [by apply mkfs_name_bytes|]. constructor; [unfold is_byte; lia|constructor].
Qed.

Lemma length_entries files : forall i, Forall file_fits files -> length (entries i files) = (16 * length files)%nat.
Proof.
  induction files as [|[name data] files IH]; intros i H; cbn [entries length]; [done|]. apply Forall_cons in H as [(Hb & _) H]. rewrite length_app, IH by done.
  rewrite (proj1 (entry_ok i name Hb)). lia.
Qed.

Lemma file_blocks_nonneg files : 0 <= file_blocks files.
Proof. induction files as [|[name data] files IH]; cbn [file_blocks]; [lia|]. pose proof (tot_mono 0 (Z.of_nat (length data)) ltac:(lia)) as H. change (tot 0) with 0 in H. lia. Qed.

Lemma add_files_spec files : forall V fb own r G,
  let i := Z.of_nat (length G) + 2 in
  let n := Z.of_nat (length r) in
  let fb' := fb + tot (n + 16 * Z.of_nat (length files)) - tot n + file_blocks files in
  image V fb own ((T_DIR, r) :: G) -> Forall file_fits files -> (length G + length files <= 206)%nat -> n + 16 * Z.of_nat (length files) <= MAXFILE * BSIZE -> fb' <= FSSIZE ->
  exists V' own', add_files 1 files (mkMk V FSSIZE i fb) = Ok tt (mkMk V' FSSIZE (i + Z.of_nat (length files)) fb') /\
    image V' fb' own' ((T_DIR, r ++ entries i files) :: G ++ ((fun f => (T_FILE, f.2)) <$> files)).
Proof.
  induction files as [|[name data] files IH]; intros V fb own r G i n fb' I Hfit Hcnt Hmax Hfb.
  { exists V, own. unfold fb'. cbn [length entries file_blocks fmap list_fmap]. replace (n + 16 * Z.of_nat 0) with n by lia. replace (fb + tot n - tot n + 0) with fb by lia.
    rewrite !app_nil_r. by replace (i + Z.of_nat 0) with i by lia. }
  apply Forall_cons in Hfit as [(Hn1 & Hn2 & Hd1 & Hd2) Hfit]. cbn [fst snd] in *. cbn [add_files length entries file_blocks] in *.
  pose proof (file_blocks_nonneg files) as Hfn. pose proof (tot_mono 0 (Z.of_nat (length data)) ltac:(lia)) as Ht0. change (tot 0) with 0 in Ht0.
  rewrite bool_decide_false by done. rewrite (bind_ok _ _ _ tt (mkMk V FSSIZE i fb)) by done.
  destruct (mk_ialloc_spec V fb own ((T_DIR, r) :: G) T_FILE I) as (V1 & E1 & I1); [cbn; lia|by right|]. cbn [length] in E1. replace (Z.of_nat (S (length G)) + 1) with i in E1 by lia.
  rewrite (bind_ok _ _ _ _ _ E1). rewrite xshort_small by lia. fold (entry i name). destruct (entry_ok i name Hn1) as [Le Be].
  assert (M1 : tot n <= tot (n + 16)) by (apply tot_mono; lia). assert (M2 : tot (n + 16) <= tot (n + 16 * Z.of_nat (S (length files)))) by (apply tot_mono; lia).
  destruct (iappend_spec V1 fb own (((T_DIR, r) :: G) ++ [(T_FILE, [])]) 0 T_DIR r (entry i name) (i + 1) I1 eq_refl Be) as (V2 & own2 & E2 & I2); [rewrite Le; fold n; lia|rewrite Le; fold n; change (Z.of_nat 16) with 16; unfold fb' in *; lia|].
  rewrite Le in E2, I2. fold n in E2, I2. change (Z.of_nat 0 + 1) with 1 in E2. change (Z.of_nat 16) with 16 in *. set (fb2 := fb + tot (n + 16) - tot n) in *. rewrite (bind_ok _ _ _ _ _ E2).
  change (<[0%nat := (T_DIR, r ++ entry i name)]> (((T_DIR, r) :: G) ++ [(T_FILE, [])])) with ((T_DIR, r ++ entry i name) :: G ++ [(T_FILE, [])]) in I2.
  destruct (append_file_spec (i + 1) (S (length data)) data V2 fb2 own2 ((T_DIR, r ++ entry i name) :: G ++ [(T_FILE, [])]) (S (length G)) T_FILE [] I2) as (V3 & own3 & E3 & I3); try done.
  { change ((G ++ [(T_FILE, [])]) !! length G = Some (T_FILE, [])). by apply list_lookup_middle. }
  { change (Z.of_nat (length [])) with 0. change (tot 0) with 0. unfold fb', fb2 in *. rewrite Z.add_0_l. lia. }
  { lia. }
  change (Z.of_nat (length [])) with 0 in E3, I3. change (tot 0) with 0 in E3, I3. rewrite Z.add_0_l in E3, I3. cbn [app] in E3, I3. set (fb3 := fb2 + tot (Z.of_nat (length data)) - 0) in *.
  replace (Z.of_nat (S (length G)) + 1) with i in E3 by lia. rewrite (bind_ok _ _ _ _ _ E3).
  assert (EC : <[S (length G) := (T_FILE, data)]> ((T_DIR, r ++ entry i name) :: G ++ [(T_FILE, [])]) = (T_DIR, r ++ entry i name) :: G ++ [(T_FILE, data)]).
  { change (<[S (length G) := (T_FILE, data)]> (?x :: ?l)) with (x :: <[length G := (T_FILE, data)]> l). f_equal. rewrite insert_app_r_alt by lia. by replace (length G - length G)%nat with O by lia. }
  rewrite EC in I3. destruct (IH V3 fb3 own3 (r ++ entry i name) (G ++ [(T_FILE, data)])) as (V' & own' & E4 & I4); rewrite ?length_app, ?Le; cbn [length]; try done.
  - lia.
  - fold n. lia.
  - unfold fb3, fb2, fb' in *. replace (Z.of_nat (length r + 16) + 16 * Z.of_nat (length files)) with (n + 16 * Z.of_nat (S (length files))) by lia. replace (Z.of_nat (length r + 16)) with (n + 16) by lia. lia.
  - rewrite !length_app, Le in E4, I4. cbn [length] in E4, I4. replace (Z.of_nat (length r + 16) + 16 * Z.of_nat (length files)) with (n + 16 * Z.of_nat (S (length files))) in * by lia. replace (Z.of_nat (length r + 16)) with (n + 16) in * by lia.
    replace (Z.of_nat (length G + 1) + 2) with (i + 1) in * by lia. replace (fb3 + tot (n + 16 * Z.of_nat (S (length files))) - tot (n + 16) + file_blocks files) with fb' in * by (unfold fb3, fb2, fb'; lia).
    exists V', own'. rewrite E4. split; [by replace (i + 1 + Z.of_nat (length files)) with (i + Z.of_nat (S (length files))) by lia|].
    rewrite <- !app_assoc in I4. cbn [app] in I4. rewrite fmap_cons. exact I4.
Qed.

(** ** The beginning and the end *)

Lemma wzeroes_run n : forall i V fi fb, (forall c, V c = zero_block) ->
  exists V', wzeroes i n (mkMk V i fi fb) = Ok tt (mkMk V' (i + Z.of_nat n) fi fb) /\ forall c, V' c = zero_block.
Proof.
  induction n as [|n IH]; intros i V fi fb HV; cbn [wzeroes]; [exists V; by replace (i + Z.of_nat 0) with i by lia|].
  destruct (IH (i + 1) (upd_img V i zero_block) fi fb) as (V' & E & HV'); [intros c; unfold upd_img; by destruct (c =? i)|].
  exists V'. split; [|done]. rewrite (bind_ok _ _ _ tt (mkMk (upd_img V i zero_block) (i + 1) fi fb)) by (unfold wsect, modify; cbn [mk_size mk_img mk_freeinode mk_freeblock]; by rewrite Z.max_r by lia).
  rewrite E. by replace (i + 1 + Z.of_nat n) with (i + Z.of_nat (S n)) by lia.
Qed.

Lemma mark_used_spec n : forall buf i, block_ok buf -> 0 <= i -> i + Z.of_nat n <= BPB ->
  block_ok (mark_used buf i n) /\ forall b, 0 <= b < BPB -> bused (mark_used buf i n) b = bused buf b || ((i <=? b) && (b <? i + Z.of_nat n)).
Proof.
  induction n as [|n IH]; intros buf i Hok Hi Hn; cbn [mark_used].
  - split; [done|]. intros b Hb. replace (i + Z.of_nat 0) with i by lia. destruct (Z.leb_spec i b), (Z.ltb_spec b i); cbn; try lia; by rewrite orb_false_r.
  - fold (bmask i). fold (bmark buf i). destruct (IH (bmark buf i) (i + 1)) as [H1 H2]; [apply block_ok_bmark; [done|lia]|lia|lia|]. split; [done|].
    intros b Hb. rewrite H2, bused_bmark by (done || lia). destruct (Z.eqb_spec i b), (bused buf b), (Z.leb_spec i b), (Z.leb_spec (i + 1) b), (Z.ltb_spec b (i + 1 + Z.of_nat n)), (Z.ltb_spec b (i + Z.of_nat (S n))); cbn; lia || done.
Qed.

Lemma bitmap_bits used b : 0 <= used < BPB -> 0 <= b < BPB -> bused (mark_used zero_block 0 (Z.to_nat used)) b = (b <? used).
Proof.
  intros Hu Hb. destruct (mark_used_spec (Z.to_nat used) zero_block 0 zero_block_ok) as [_ H]; [lia|lia|]. rewrite H by done.
  assert (E : bused zero_block b = false). { rewrite bused_testbit. unfold BPB, BSIZE in Hb. rewrite nthz_zero by (unfold BSIZE; zlia). apply Z.testbit_0_l. }
  rewrite E. cbn [orb]. rewrite (proj2 (Z.leb_le 0 b)) by lia. cbn [andb]. by replace (0 + Z.of_nat (Z.to_nat used)) with used by lia.
Qed.

Definition dots : list Z := dot_entry 1 (str ".") ++ dot_entry 1 (str "..").

Lemma sb_block_ok : block_ok (splice zero_block 0 (enc_superblock sb)).
Proof.
  split; [vm_compute; reflexivity|]. apply bytes_splice; [apply zero_block_ok|]. unfold enc_superblock. repeat (apply Forall_app; split; [apply bytes_le_enc|]). apply bytes_le_enc.
Qed.

(** The empty image, with its super block. *)
Lemma empty_image V fi : (forall c, V c = zero_block) ->
  exists V1, wsect 1 (splice zero_block 0 (enc_superblock sb)) (mkMk V FSSIZE fi nmeta) = Ok tt (mkMk V1 FSSIZE fi nmeta) /\ image V1 nmeta (fun _ => 0) [].
Proof.
  intros HV. eexists. split; [apply wsect_run; unfold FSSIZE; lia|]. unfold upd_img. split.
  - split; [|intros c Hc; rewrite nmeta_eq in Hc; by rewrite (proj2 (Z.eqb_neq c 1)) by lia|rewrite nmeta_eq; unfold FSSIZE; lia].
    intros c. destruct (c =? 1); [apply sb_block_ok|rewrite HV; apply zero_block_ok].
  - done.
  - intros c Hc. by rewrite (proj2 (Z.eqb_neq c 1)) by lia.
  - cbn. lia.
  - done.
  - done.
Qed.

(** Everything up to the last lines of main. *)
Definition contents (files : list (list Z * list Z)) : list (Z * list Z) :=
  (T_DIR, dots ++ entries 2 files) :: ((fun f => (T_FILE, f.2)) <$> files).

(** The number of blocks the files take. *)
Definition image_blocks (files : list (list Z * list Z)) : Z :=
  nmeta + tot (32 + 16 * Z.of_nat (length files)) + file_blocks files.

(** Files that fit on the disk. *)
Definition mkfs_input (files : list (list Z * list Z)) : Prop :=
  Forall file_fits files /\ (length files <= 206)%nat /\ image_blocks files <= FSSIZE.

Definition bitmap_of (fb : Z) : block := mark_used zero_block 0 (Z.to_nat fb).

(** The last lines: the size of the root directory, and the bit map. *)
Definition finish (V : Z -> block) (fb : Z) : Z -> block :=
  let d := dinode_at V 1 in
  let d' := set_di_size ((di_size d / BSIZE + 1) * BSIZE) d in
  upd_img (upd_img V (iblk 1) (put_dinode (V (iblk 1)) (inode_off 1) d')) 58 (bitmap_of fb).

Lemma tot_dots : tot 16 = 1 /\ tot 32 = 1.
Proof. split; reflexivity. Qed.

Lemma dots_ok : length (dot_entry 1 (str ".")) = 16%nat /\ length (dot_entry 1 (str "..")) = 16%nat /\ bytes (dot_entry 1 (str ".")) /\ bytes (dot_entry 1 (str "..")).
Proof.
  split_and!; [reflexivity|reflexivity| |]; repeat (constructor; [unfold is_byte; vm_compute; split; [discriminate|reflexivity]|]); constructor.
Qed.

(** The entries for the directory itself and its parent. *)
Lemma append_dots V own : image V 59 own [(T_DIR, [])] ->
  exists V' own', (iappend 1 (dot_entry 1 (str "."));; iappend 1 (dot_entry 1 (str ".."))) (mkMk V FSSIZE 2 59) = Ok tt (mkMk V' FSSIZE 2 60) /\ image V' 60 own' [(T_DIR, dots)].
Proof.
  intros I. destruct tot_dots as [M0 M1], dots_ok as (L1 & L2 & Hd1 & Hd2).
  pose proof (iappend_spec V 59 own _ 0 T_DIR [] (dot_entry 1 (str ".")) 2 I eq_refl Hd1) as H1. rewrite L1 in H1.
  change (Z.of_nat (length []) + Z.of_nat 16) with 16 in H1. change (tot (Z.of_nat (length []))) with 0 in H1. rewrite M0 in H1. change (Z.of_nat 0 + 1) with 1 in H1. change (59 + 1 - 0) with 60 in H1.
  destruct H1 as (V1 & own1 & E1 & I1); [rewrite MAXFILE_eq; unfold BSIZE; lia|unfold FSSIZE; lia|].
  pose proof (iappend_spec V1 60 own1 _ 0 T_DIR (dot_entry 1 (str ".")) (dot_entry 1 (str "..")) 2 I1 eq_refl Hd2) as H2. rewrite L1, L2 in H2.
  change (Z.of_nat 16 + Z.of_nat 16) with 32 in H2. change (Z.of_nat 16) with 16 in H2. rewrite M0, M1 in H2. change (Z.of_nat 0 + 1) with 1 in H2. change (60 + 1 - 1) with 60 in H2.
  destruct H2 as (V2 & own2 & E2 & I2); [rewrite MAXFILE_eq; unfold BSIZE; lia|unfold FSSIZE; lia|].
  exists V2, own2. split; [by rewrite (bind_ok _ _ _ _ _ E1)|exact I2].
Qed.

Lemma bind_assoc {A B} (m : mkM A) (k : mkM B) {C} (f : B -> mkM C) s :
  (m ≫= fun _ => k ≫= f) s = ((m ≫= fun _ => k) ≫= f) s.
Proof. unfold mbind, M_bind. by destruct (m s). Qed.

Lemma mkfs_finish V fi fb own C l : image V fb own ((T_DIR, l) :: C) ->
  (din ← rinode 1;
   winode 1 (set_di_size (xint (u32 ((xint (di_size din) / BSIZE + 1) * BSIZE))) din);;
   used ← gets mk_freeblock; mk_balloc used) (mkMk V FSSIZE fi fb) = Ok tt (mkMk (finish V fb) FSSIZE fi fb).
Proof.
  intros [HI _ _ _ _ HF]. destruct (HF O T_DIR l eq_refl) as [_ [M1 M2 M3 M4 M5]]. change (Z.of_nat 0 + 1) with 1 in *. pose proof (fd_max _ _ _ _ _ M5) as Hmax. rewrite MAXFILE_eq in Hmax. unfold BSIZE in Hmax.
  rewrite (bind_ok _ _ _ _ _ (rinode_run V fi fb 1 ltac:(lia))). unfold finish. set (d := dinode_at V 1) in *. rewrite (xint_small (di_size d)) by lia. rewrite u32_small by (unfold BSIZE; zlia). rewrite xint_small by (unfold BSIZE; zlia).
  rewrite (bind_ok _ _ _ _ _ (winode_run V fi fb 1 _ ltac:(lia))). set (V1 := upd_img V _ _). rewrite (bind_ok _ _ _ fb (mkMk V1 FSSIZE fi fb)) by done.
  unfold mk_balloc. pose proof (im_fb _ _ HI) as Hfb. unfold FSSIZE in Hfb. rewrite (proj2 (Z.leb_gt (BSIZE * 8) fb)) by (unfold BSIZE; lia).
  rewrite (bind_ok _ _ _ tt (mkMk V1 FSSIZE fi fb)) by done. change (sb_bmapstart sb) with 58. apply wsect_run. unfold FSSIZE. lia.
Qed.

Lemma mkfs_run files : mkfs_input files ->
  exists V own fi, image V (image_blocks files) own (contents files) /\
    mkfs files mk_start = Ok tt (mkMk (finish V (image_blocks files)) FSSIZE fi (image_blocks files)).
Proof.
  intros (Hfit & Hcnt & Hfb). unfold mkfs. rewrite (bind_ok _ _ mk_start tt (mkMk (fun _ => zero_block) 0 1 nmeta)) by done.
  destruct (wzeroes_run (Z.to_nat FSSIZE) 0 (fun _ => zero_block) 1 nmeta) as (V0 & E0 & HV0); [done|]. rewrite (bind_ok _ _ _ _ _ E0). change (0 + Z.of_nat (Z.to_nat FSSIZE)) with FSSIZE.
  destruct (empty_image V0 1 HV0) as (V1 & E1 & I1). rewrite (bind_ok _ _ _ _ _ E1).
  destruct (mk_ialloc_spec V1 nmeta _ [] T_DIR I1) as (V2 & E2 & I2); [cbn; lia|by left|]. change (Z.of_nat (length []) + 1) with 1 in E2. rewrite (bind_ok _ _ _ _ _ E2). change (1 + 1) with 2.
  rewrite (bind_ok _ _ _ tt (mkMk V2 FSSIZE 2 nmeta)) by done. rewrite nmeta_eq in *. destruct (append_dots V2 _ I2) as (V3 & own3 & E3 & I3).
  rewrite bind_assoc, (bind_ok _ _ _ _ _ E3).
  pose proof (add_files_spec files V3 60 own3 dots [] I3 Hfit) as H4. change (Z.of_nat (length dots)) with 32 in H4. change (Z.of_nat (length []) + 2) with 2 in H4. rewrite (proj2 tot_dots) in H4.
  replace (60 + tot (32 + 16 * Z.of_nat (length files)) - 1 + file_blocks files) with (image_blocks files) in H4 by (unfold image_blocks; rewrite nmeta_eq; lia).
  destruct H4 as (V4 & own4 & E4 & I4); [cbn; lia|rewrite MAXFILE_eq; unfold BSIZE; lia|done|]. rewrite (bind_ok _ _ _ _ _ E4).
  exists V4, own4, (2 + Z.of_nat (length files)). split; [exact I4|]. by eapply mkfs_finish.
Qed.
