(* ===== verification/MkfsImage.v ===== *)
(** * The kernel on an image of mkfs

    What the kernel finds when it boots from the image: the super block, an
    empty log, a bit map that tells used from free blocks, and the files with
    their contents.  These are the conditions under which the operations of
    fs.c were verified. *)

From S2P Require Import Prelude State CString Sleep Ide Bio BioSpec Log LogSpec LogRun Boot Console Fs FsTxn FsAlloc FsMap FsFile FsData Mkfs MkfsSpec MkfsProps.
Open Scope Z_scope.

(** A kernel that runs on disk [V]: it has read the super block, and initlog
    has set up the log from it. *)
Record on_disk (s : kernel) (V : Z -> block) : Prop := mkOnDisk {
  od_view : forall n, 0 <= n < FSSIZE -> fsview s n = V n;
  od_sb : k_sb s = dec_superblock (V 1);
  od_start : l_start (k_log s) = sb_logstart (k_sb s);
  od_size : l_size (k_log s) = sb_nlog (k_sb s)
}.

(** Inode [i] of the image. *)
Definition disk_inode (V : Z -> block) (i : Z) : inode := mk_inode i (dinode_at V i).

(** ** The finished image *)

Section finished.
Context (files : list (list Z * list Z)) (V0 : Z -> block) (own : Z -> Z).
Let fb := image_blocks files.
Let V := finish V0 fb.
Hypothesis I : image V0 fb own (contents files).

Lemma fin_fb : 59 <= fb <= 1000.
Proof using I. pose proof (im_fb _ _ (ig_img _ _ _ _ I)) as H. rewrite nmeta_eq in H. exact H. Qed.

Lemma fin_other c : c <> 32 -> c <> 58 -> V c = V0 c.
Proof using. intros H1 H2. unfold V, finish, upd_img. rewrite (proj2 (Z.eqb_neq c 58)) by done. change (iblk 1) with 32. by rewrite (proj2 (Z.eqb_neq c 32)). Qed.

Lemma fin_bitmap : V 58 = bitmap_of fb.
Proof using. unfold V, finish, upd_img. by rewrite Z.eqb_refl. Qed.

Lemma fin_sb : dec_superblock (V 1) = mkSuperblock 1000 941 200 30 2 32 58.
Proof using I. rewrite fin_other, (ig_sb _ _ _ _ I) by lia. vm_compute. reflexivity. Qed.

Lemma fin_log : hdr_n (V 2) = 0.
Proof using I. rewrite fin_other, (ig_zero _ _ _ _ I) by lia. vm_compute. reflexivity. Qed.

Lemma fin_root_ok l : mk_file own fb V0 1 T_DIR l -> dinode_ok (set_di_size ((di_size (dinode_at V0 1) / BSIZE + 1) * BSIZE) (dinode_at V0 1)).
Proof using I.
  intros [M1 [M2 M2'] M3 M4 M5]. pose proof (fd_max _ _ _ _ _ M5) as Hmax. rewrite MAXFILE_eq in Hmax. unfold BSIZE in *. pose proof (file_addrs _ _ _ _ _ (ig_img _ _ _ _ I) M5) as Ha. pose proof (fo_len (fd_ok _ _ _ _ _ M5)) as Hl.
  unfold dinode_ok. cbn [di_type di_major di_minor di_nlink di_size di_addrs set_di_size]. rewrite M1, M2, M2', M3, M4. unfold T_DIR. split_and!; try zlia; done.
Qed.

Lemma fin_root : dinode_at V 1 = set_di_size ((di_size (dinode_at V0 1) / BSIZE + 1) * BSIZE) (dinode_at V0 1).
Proof using I.
  destruct (ig_files _ _ _ _ I O T_DIR _ eq_refl) as [_ M]. pose proof (fin_root_ok _ M) as Hd. set (d' := set_di_size _ _) in *.
  rewrite <- (dinode_at_same V0 1 d') by (apply (im_blocks _ _ (ig_img _ _ _ _ I)) || done). unfold dinode_at at 1. unfold V, finish. fold d'. change (iblk 1) with 32. unfold upd_img at 1. change (32 =? 58) with false. done.
Qed.

Lemma fin_inode i : 1 < i < 208 -> dinode_at V i = dinode_at V0 i.
Proof using I.
  intros Hi. destruct (ig_files _ _ _ _ I O T_DIR _ eq_refl) as [_ M]. pose proof (fin_root_ok _ M) as Hd. destruct (iblk_range i ltac:(lia)) as [_ Hr].
  rewrite <- (dinode_at_put V0 1 i (set_di_size ((di_size (dinode_at V0 1) / BSIZE + 1) * BSIZE) (dinode_at V0 1))); [|apply (im_blocks _ _ (ig_img _ _ _ _ I))|lia|lia|apply Hd|lia].
  unfold dinode_at at 1. unfold V, finish, upd_img at 1. by rewrite (proj2 (Z.eqb_neq (iblk i) 58)) by lia.
Qed.

Lemma fin_data x l : file_data own fb V0 x l -> file_data own fb V x l.
Proof using I. apply file_data_ext. intros c [Hc Ho]. split; [|done]. rewrite nmeta_eq in Hc. apply fin_other; lia. Qed.

(** The files of the image, the root directory first. *)
Lemma fin_file k ty l : contents files !! k = Some (ty, l) ->
  let x := disk_inode V (Z.of_nat k + 1) in
  file_data own fb V x l /\ i_type x = ty /\ i_nlink x = 1 /\
  i_size x = if decide (k = O) then (Z.of_nat (length l) / BSIZE + 1) * BSIZE else Z.of_nat (length l).
Proof using I.
  intros Ek x. destruct (ig_files _ _ _ _ I k ty l Ek) as [_ [M1 M2 M3 M4 M5]]. pose proof (lookup_lt_Some _ _ _ Ek) as Hlt. pose proof (ig_count _ _ _ _ I) as Hc. unfold x, disk_inode.
  apply fin_data in M5. destruct (decide (k = O)) as [->|Hne].
  - change (Z.of_nat 0 + 1) with 1 in *. rewrite fin_root. cbn [i_type i_nlink i_size mk_inode set_di_size di_type di_nlink di_size]. rewrite M4. split_and!; [|done|done|done].
    destruct M5 as [[F1 F2 F3 F4] D2 D3 D4 D5 D6]. split; [split|..]; done.
  - rewrite fin_inode by lia. cbn [i_type i_nlink i_size mk_inode]. done.
Qed.
End finished.

(** ** The kernel's view *)

Section booted.
Context (files : list (list Z * list Z)) (V0 : Z -> block) (own : Z -> Z) (s : kernel).
Let fb := image_blocks files.
Let V := finish V0 fb.
Hypothesis I : image V0 fb own (contents files).
Hypothesis O : on_disk s V.

Lemma bo_sb : k_sb s = mkSuperblock 1000 941 200 30 2 32 58.
Proof using I O. rewrite (od_sb _ _ O). by apply (fin_sb files V0 own). Qed.

Lemma bo_home c : 0 <= c < 1000 -> c < 2 \/ 32 <= c -> home_ok (k_log s) c.
Proof using I O. intros H1 H2. split; [exact H1|]. rewrite (od_start _ _ O), (od_size _ _ O), bo_sb. cbn. lia. Qed.

Lemma bo_bitmap : bitmap s = bitmap_of fb.
Proof using I O. unfold bitmap. rewrite bo_sb. cbn. rewrite (od_view _ _ O) by (unfold FSSIZE; lia). apply fin_bitmap. Qed.

Lemma bo_bits b : 0 <= b < 1000 -> bused (bitmap s) b = (b <? fb).
Proof using I O. intros Hb. pose proof (fin_fb files V0 own I). rewrite bo_bitmap. apply bitmap_bits; unfold BPB, BSIZE; fold fb in H; lia. Qed.

Lemma bo_free b : is_free s b <-> fb <= b < FSSIZE.
Proof using I O.
  unfold is_free. rewrite bo_sb. cbn [sb_size]. unfold FSSIZE. pose proof (fin_fb files V0 own I) as Hfb. fold fb in Hfb. split.
  - intros [H1 H2]. rewrite bo_bits in H2 by done. apply Z.ltb_ge in H2. lia.
  - intros H. split; [lia|]. rewrite bo_bits by lia. apply Z.ltb_ge. lia.
Qed.

Lemma bo_bitmap_ok : bitmap_ok s.
Proof using I O.
  pose proof (fin_fb files V0 own I) as Hfb. fold fb in Hfb. split; rewrite bo_sb; cbn [sb_size sb_bmapstart].
  - unfold FSSIZE. lia.
  - apply bo_home; lia.
  - change (fsview s 58) with (fsview s (sb_bmapstart (mkSuperblock 1000 941 200 30 2 32 58))). rewrite <- bo_sb. fold (bitmap s). rewrite bo_bitmap. unfold bitmap_of.
    apply mark_used_spec; [apply zero_block_ok|lia|unfold BPB, BSIZE; lia].
  - intros b Hb Hu. assert (Hf : is_free s b) by (split; [by rewrite bo_sb|unfold bitmap; by rewrite bo_sb]). apply bo_free in Hf. unfold FSSIZE in Hf. split; [apply bo_home; lia|lia].
Qed.

Lemma bo_faddr x l bn : file_data own fb V x l -> faddr (fsview s) x bn = faddr V x bn.
Proof using I O.
  intros D. unfold faddr. destruct (bn <? NDIRECT); [done|]. destruct (Z.eqb_spec (ind x) 0) as [|Hnz]; [done|]. destruct (fo_ind (fd_ok _ _ _ _ _ D) Hnz) as [Hc _].
  rewrite nmeta_eq in Hc. pose proof (fin_fb files V0 own I) as Hfb. fold fb in Hfb. by rewrite (od_view _ _ O) by (unfold FSSIZE; lia).
Qed.

Lemma bo_fbyte x l j : file_data own fb V x l -> 0 <= j < MAXFILE * BSIZE -> fbyte (fsview s) x j = fbyte V x j.
Proof using I O.
  intros D Hj. unfold fbyte. rewrite (bo_faddr x l) by done. destruct (Z.eqb_spec (faddr V x (j / BSIZE)) 0) as [|Hnz]; [done|]. destruct (fo_data (fd_ok _ _ _ _ _ D) _ (byte_block j Hj) Hnz) as [[Hc _] _].
  rewrite nmeta_eq in Hc. pose proof (fin_fb files V0 own I) as Hfb. fold fb in Hfb. by rewrite (od_view _ _ O) by (unfold FSSIZE; lia).
Qed.

Lemma bo_file_in i l : 0 <= i < 208 -> file_data own fb V (disk_inode V i) l -> file_in s (disk_inode V i).
Proof using I O.
  intros Hi D. set (x := disk_inode V i) in *. pose proof (fd_ok _ _ _ _ _ D) as [F1 F2 F3 F4]. destruct (iblk_range i Hi) as [_ Hr]. pose proof (fin_fb files V0 own I) as Hfb. fold fb in Hfb.
  assert (Ei : IBLOCK (i_inum x) (k_sb s) = iblk i) by (unfold iblk; by rewrite bo_sb, mk_sb_eq).
  assert (Hdb : forall c, owned own fb (i_inum x) c -> data_block s (i_inum x) c).
  { intros c [Hc _]. rewrite nmeta_eq in Hc. split; rewrite ?Ei; [apply bo_home; lia|rewrite bo_sb; cbn; lia|rewrite bo_bits by lia; apply Z.ltb_lt; lia|rewrite bo_sb; cbn; lia|lia]. }
  assert (Hf : forall bn, faddr (fsview s) x bn = faddr V x bn) by (intros bn; by apply (bo_faddr x l)).
  split; rewrite ?Ei.
  - done.
  - split; [done|intros Hn; by apply Hdb, F2| |].
    + intros bn Hbn. rewrite Hf. intros Hnz. destruct (F3 bn Hbn Hnz). auto.
    + intros bn bm. rewrite !Hf. apply F4.
  - apply bo_home; lia.
  - rewrite bo_free. lia.
  - rewrite bo_sb. cbn. lia.
  - rewrite bo_free. lia.
Qed.

(** The bytes of a file, and the zeroes behind it up to [n]. *)
Lemma bo_bytes x l n : file_data own fb V x l -> Z.of_nat (length l) <= n <= MAXFILE * BSIZE ->
  fbytes (fsview s) x 0 n = l ++ replicate (Z.to_nat n - length l) 0.
Proof using I O.
  intros D Hn. apply list_eq. intros k. unfold fbytes. rewrite list_lookup_fmap. destruct (decide (k < Z.to_nat n)%nat) as [Hk|Hk].
  - rewrite lookup_seq_lt by done. cbn [fmap option_fmap option_map]. rewrite (bo_fbyte x l) by (done || lia). destruct (decide (k < length l)%nat) as [Hkl|Hkl].
    + rewrite lookup_app_l by done. rewrite (fd_byte _ _ _ _ _ D) by lia. unfold nthz. replace (Z.to_nat (0 + Z.of_nat (0 + k))) with k by lia. symmetry. by apply list_lookup_lookup_total_lt.
    + rewrite lookup_app_r by lia. rewrite (fd_tail _ _ _ _ _ D) by lia. symmetry. apply lookup_replicate. split; [done|lia].
  - rewrite lookup_seq_ge by lia. symmetry. apply lookup_ge_None. rewrite length_app, length_replicate. lia.
Qed.

Lemma bo_sized x l : file_data own fb V x l -> i_size x = Z.of_nat (length l) -> sized (fsview s) x.
Proof using I O.
  intros D E. pose proof (fd_max _ _ _ _ _ D) as Hm. split; [lia|]. intros j Hj. rewrite (bo_faddr x l) by done. rewrite (fd_map _ _ _ _ _ D) by (apply byte_block; lia). unfold BSIZE. zlia.
Qed.

(** No block belongs to two files. *)
Lemma bo_disjoint x l y l' c : file_data own fb V x l -> file_data own fb V y l' -> i_inum x <> i_inum y -> in_file V x c -> ~ in_file V y c.
Proof using.
  intros D1 D2 Hne. assert (H : forall z lz, file_data own fb V z lz -> in_file V z c -> own c = i_inum z).
  { intros z lz D [Hc [->|(m & Hm & <-)]]; [by apply (fo_ind (fd_ok _ _ _ _ _ D))|by apply (fo_data (fd_ok _ _ _ _ _ D))]. }
  intros H1 H2. apply Hne. by rewrite <- (H x l D1 H1), <- (H y l' D2 H2).
Qed.
End booted.

(** C27. mkfs builds a file system.  For any files that fit (names without a
    slash, at most 206 of them, enough blocks), mkfs ends without an error;
    the super block is the documented layout and the log is empty; and on a
    kernel that runs on this disk the bit map marks just the blocks in use,
    every file is there as inode 2, 3, ... with one link and with exactly its
    bytes, inode 1 is the directory with the entries of all files followed by
    zeroes, every inode meets the conditions under which readi, writei and
    balloc are verified, and no two inodes share a block. *)
Theorem mkfs_image files : mkfs_input files ->
  exists V fi, mkfs files mk_start = Ok tt (mkMk V FSSIZE fi (image_blocks files)) /\
    dec_superblock (V 1) = mkSuperblock 1000 941 200 30 2 32 58 /\ hdr_n (V 2) = 0 /\
    forall s, on_disk s V ->
      bitmap_ok s /\ (forall b, is_free s b <-> image_blocks files <= b < FSSIZE) /\
      (forall k name data, files !! k = Some (name, data) ->
         let x := disk_inode V (Z.of_nat k + 2) in
         file_in s x /\ sized (fsview s) x /\ i_type x = T_FILE /\ i_nlink x = 1 /\ fbytes (fsview s) x 0 (i_size x) = data) /\
      (let r := disk_inode V 1 in
       let l := dots ++ entries 2 files in
       file_in s r /\ i_type r = T_DIR /\ i_size r = (Z.of_nat (length l) / BSIZE + 1) * BSIZE /\
       fbytes (fsview s) r 0 (i_size r) = l ++ replicate (Z.to_nat (i_size r) - length l) 0) /\
      (forall i j c, 0 <= i < Z.of_nat (length files) + 1 -> 0 <= j < Z.of_nat (length files) + 1 -> i <> j ->
         in_file V (disk_inode V (i + 1)) c -> ~ in_file V (disk_inode V (j + 1)) c).
Proof.
  intros Hin. destruct (mkfs_run files Hin) as (V0 & own & fi & I & E). set (V := finish V0 (image_blocks files)) in *. exists V, fi. pose proof (ig_count _ _ _ _ I) as Hcnt. unfold contents in Hcnt. cbn [length] in Hcnt. rewrite length_fmap in Hcnt.
  split_and!; [exact E|by apply (fin_sb files V0 own)|by apply (fin_log files V0 own)|]. intros s O.
  split_and!; [by apply (bo_bitmap_ok files V0 own)|intros b; by apply (bo_free files V0 own)| | |].
  - intros k name data Ek x. assert (Ec : contents files !! S k = Some (T_FILE, data)) by (change ((((fun f => (T_FILE, f.2)) <$> files) !! k) = Some (T_FILE, data)); by rewrite list_lookup_fmap, Ek).
    destruct (fin_file files V0 own I (S k) _ _ Ec) as (D & Hty & Hnl & Hsz). replace (Z.of_nat (S k) + 1) with (Z.of_nat k + 2) in * by lia. fold V x in D, Hty, Hnl, Hsz. rewrite decide_False in Hsz by done.
    pose proof (lookup_lt_Some _ _ _ Ek). pose proof (fd_max _ _ _ _ _ D). split_and!; [by apply (bo_file_in files V0 own s I O (Z.of_nat k + 2) data ltac:(lia))|by apply (bo_sized files V0 own s I O x data)|exact Hty|exact Hnl|].
    rewrite (bo_bytes files V0 own s I O x data _ D) by (rewrite Hsz; lia). rewrite Hsz, Nat2Z.id, Nat.sub_diag. apply app_nil_r.
  - intros r l. destruct (fin_file files V0 own I 0%nat _ _ eq_refl) as (D & Hty & Hnl & Hsz). change (Z.of_nat 0 + 1) with 1 in *. fold V r l in D, Hty, Hnl, Hsz. rewrite decide_True in Hsz by done.
    assert (Hl : Z.of_nat (length l) <= 3328) by (unfold l; rewrite length_app, length_entries by apply Hin; change (length dots) with 32%nat; lia).
    split_and!; [by apply (bo_file_in files V0 own s I O 1 l ltac:(lia))|exact Hty|exact Hsz|]. apply (bo_bytes files V0 own s I O r l); [exact D|]. rewrite Hsz, MAXFILE_eq. unfold BSIZE. clear -Hl. zlia.
  - intros i j c Hi Hj Hne. assert (Hlk : forall n, 0 <= n < Z.of_nat (length files) + 1 -> exists l, file_data own (image_blocks files) V (disk_inode V (n + 1)) l).
    { intros n Hn. destruct (lookup_lt_is_Some_2 (contents files) (Z.to_nat n)) as [[ty l] El]; [unfold contents; cbn; rewrite length_fmap; lia|].
      destruct (fin_file files V0 own I _ _ _ El) as (D & _). rewrite Z2Nat.id in D by lia. by exists l. }
    destruct (Hlk i Hi) as [l D1], (Hlk j Hj) as [l' D2]. apply (bo_disjoint files V0 own _ l _ l'); [exact D1|exact D2|cbn [i_inum disk_inode mk_inode]; lia].
Qed.

(** When the directory fills its blocks, the rounding of its size adds a block
    that is not there: the kernel would allocate it while reading. *)
Lemma mkfs_root_hole files V fi : mkfs_input files -> (Z.of_nat (length files) + 2) mod 32 = 0 ->
  mkfs files mk_start = Ok tt (mkMk V FSSIZE fi (image_blocks files)) ->
  let r := disk_inode V 1 in
  let bn := (Z.of_nat (length files) + 2) / 32 in bn * BSIZE < i_size r /\ faddr V r bn = 0.
Proof.
  intros Hin Hmod E r bn. destruct (mkfs_run files Hin) as (V0 & own & fi' & I & E'). rewrite E' in E. injection E as EV _. subst V.
  destruct (fin_file files V0 own I 0%nat _ _ eq_refl) as (D & _ & _ & Hsz). change (Z.of_nat 0 + 1) with 1 in *. fold r in D, Hsz. rewrite decide_True in Hsz by done.
  set (l := dots ++ entries 2 files) in *. assert (Hl : Z.of_nat (length l) = bn * BSIZE).
  { unfold l, bn. rewrite length_app, length_entries by apply Hin. change (length dots) with 32%nat. unfold BSIZE. zlia. }
  pose proof (ig_count _ _ _ _ I) as Hcnt. unfold contents in Hcnt. cbn [length] in Hcnt. rewrite length_fmap in Hcnt.
  split; [rewrite Hsz, Hl, Z.div_mul by (unfold BSIZE; lia); unfold BSIZE; lia|].
  destruct (decide (faddr (finish V0 (image_blocks files)) r bn = 0)) as [|Hnz]; [done|]. apply (fd_map _ _ _ _ _ D) in Hnz; [lia|]. unfold bn. rewrite MAXFILE_eq. zlia.
Qed.

(** ** A kernel that boots from an image *)

Definition disk_of (V : Z -> block) : gmap (Z * Z) block :=
  list_to_map ((fun k : nat => ((ROOTDEV, Z.of_nat k), V (Z.of_nat k))) <$> seq 0 1000).
Definition boot_kernel (V : Z -> block) : kernel :=
  set_k_sb (dec_superblock (V 1)) (machine bcache0 log_open (disk_of V)).

Lemma dget_disk_of V n : 0 <= n < FSSIZE -> dget (disk_of V) ROOTDEV n = V n.
Proof.
  intros Hn. unfold FSSIZE in Hn. unfold dget, disk_of. rewrite (elem_of_list_to_map_1 _ (ROOTDEV, n) (V n)); [done| |].
  - rewrite <- list_fmap_compose. apply NoDup_fmap_2; [|apply NoDup_seq]. intros a b [= E]. lia.
  - apply list_elem_of_fmap. exists (Z.to_nat n). rewrite Z2Nat.id by lia. split; [done|]. apply elem_of_seq. lia.
Qed.

Lemma boot_on_disk V : dec_superblock (V 1) = mkSuperblock 1000 941 200 30 2 32 58 -> on_disk (boot_kernel V) V.
Proof.
  intros E. split; [|done|unfold boot_kernel; cbn [k_sb set_k_sb]; by rewrite E|unfold boot_kernel; cbn [k_sb set_k_sb]; by rewrite E].
  intros n Hn. unfold fsview. rewrite view_miss; [by apply dget_disk_of|]. intros i Hi _. change (k_bcache (boot_kernel V)) with bcache0.
  destruct (bcache0_fresh i Hi) as (Ef & _). unfold bvalid. by rewrite Ef.
Qed.

Definition demo_files : list (list Z * list Z) := [(str "_cat", [1; 2; 3]); (str "README", replicate 600 65)].

Definition byteb (c : Z) : bool := (0 <=? c) && (c <? 256).
Definition file_fitsb (f : list Z * list Z) : bool :=
  forallb byteb f.1 && bool_decide (~ SLASH ∈ f.1) && forallb byteb f.2 && (Z.of_nat (length f.2) <=? MAXFILE * BSIZE).

Lemma bytes_check l : forallb byteb l = true -> bytes l.
Proof.
  intros H. apply Forall_forall. intros c Hc. rewrite forallb_forall in H. specialize (H c). unfold byteb in H.
  rewrite <- list_elem_of_In, andb_true_iff, Z.leb_le, Z.ltb_lt in H. by apply H.
Qed.

Lemma file_fits_check files : forallb file_fitsb files = true -> Forall file_fits files.
Proof.
  intros H. apply Forall_forall. intros f Hf. rewrite forallb_forall in H. specialize (H f). rewrite <- list_elem_of_In in H. specialize (H Hf). unfold file_fitsb in H.
  rewrite !andb_true_iff, bool_decide_eq_true, Z.leb_le in H. destruct H as [[[H1 H2] H3] H4]. split_and!; [by apply bytes_check|done|by apply bytes_check|done].
Qed.

Lemma demo_input : mkfs_input demo_files.
Proof. split_and!; [apply file_fits_check; vm_compute; reflexivity|cbn; lia|vm_compute; discriminate]. Qed.

Lemma mkfs_image_witness :
  exists V fi, mkfs demo_files mk_start = Ok tt (mkMk V FSSIZE fi 63) /\
    let s := boot_kernel V in
    bitmap_ok s /\ is_free s 63 /\ file_in s (disk_inode V 2) /\ fbytes (fsview s) (disk_inode V 2) 0 (i_size (disk_inode V 2)) = [1; 2; 3].
Proof.
  destruct (mkfs_image demo_files demo_input) as (V & fi & E & Hsb & _ & H). exists V, fi.
  destruct (H (boot_kernel V) (boot_on_disk V Hsb)) as (B & Hf & Hk & _). split; [exact E|]. cbv zeta.
  destruct (Hk 0%nat (str "_cat") [1; 2; 3] eq_refl) as (F & _ & _ & _ & Hb). split; [exact B|]. split; [|split; [exact F|exact Hb]].
  apply (Hf 63). vm_compute. split; [discriminate|reflexivity].
Defined.
