(* ===== verification/Mp.v ===== *)
(** * mp.c: the multiprocessor tables

    The firmware describes the processors in tables in memory.  [mem] is the
    memory at the kernel's addresses; the state holds the variables that mpinit
    fills in and what it writes to the ports. *)

From S2P Require Import Prelude State CString Console.
Open Scope Z_scope.

Definition NCPU : nat := 8.
(** The sizes of struct mp, mpconf, mpproc and mpioapic. *)
Definition MP_SIZE : Z := 16.
Definition MPCONF_SIZE : Z := 44.
Definition MPPROC_SIZE : Z := 20.
Definition MPIOAPIC_SIZE : Z := 8.

Record mpstate := mkMpstate {
  mp_apicids : list Z;     (** cpus[0 .. ncpu-1].apicid *)
  mp_ioapicid : Z;
  mp_lapic : Z;
  mp_ports : list (Z * Z)  (** the outb calls *)
}.
Definition set_mp_apicids x st := mkMpstate x (mp_ioapicid st) (mp_lapic st) (mp_ports st).
Definition set_mp_ioapicid x st := mkMpstate (mp_apicids st) x (mp_lapic st) (mp_ports st).
Definition set_mp_lapic x st := mkMpstate (mp_apicids st) (mp_ioapicid st) x (mp_ports st).
Definition set_mp_ports x st := mkMpstate (mp_apicids st) (mp_ioapicid st) (mp_lapic st) x.
Definition mp_start : mpstate := mkMpstate [] 0 0 [].

Section mp.
Context (m : mem).

(** [n] bytes to go; the result is truncated to a uchar. *)
Fixpoint sum_from (addr : Z) (acc : Z) (n : nat) : Z :=
  match n with
  | O => acc
  | S n' => sum_from (u32 (addr + 1)) (acc + m addr) n'
  end.
Definition sum (addr : Z) (len : nat) : Z := u8 (sum_from addr 0 len).

(** The bytes of the memory from [a] on. *)
Definition at_addr (a : Z) : Z -> Z := fun i => m (u32 (a + i)).
Definition half (a : Z) : Z := le_dec [m a; m (u32 (a + 1))].
Definition word (a : Z) : Z := le_dec [m a; m (u32 (a + 1)); m (u32 (a + 2)); m (u32 (a + 3))].

(** for(p = addr; p < e; p += sizeof(struct mp)); 0 is the null pointer. *)
Fixpoint mpsearch1_loop (p e : Z) (fuel : nat) : Z :=
  if p <? e then
    match fuel with
    | O => 0
    | S f =>
      if (memcmp (at_addr p) (ptr_list (str "_MP_")) 4 =? 0) && (sum p 16 =? 0) then p
      else mpsearch1_loop (u32 (p + MP_SIZE)) e f
    end
  else 0.
(** One iteration per 16 bytes. *)
Definition mpsearch1 (a len : Z) : Z :=
  let addr := P2V a in
  mpsearch1_loop addr (u32 (addr + len)) (Z.to_nat (len / MP_SIZE + 1)).

Definition mpsearch : Z :=
  let bda := P2V 1024 in
  let p := Z.shiftl (Z.lor (Z.shiftl (m (bda + 15)) 8) (m (bda + 14))) 4 in
  let r :=
    if negb (p =? 0) then mpsearch1 p 1024
    else
      let p := Z.lor (Z.shiftl (m (bda + 20)) 8) (m (bda + 19)) * 1024 in
      mpsearch1 (u32 (p - 1024)) 1024 in
  if negb (r =? 0) then r else mpsearch1 983040 65536.

(** The floating pointer and the configuration table. *)
Definition mpconfig : option (Z * Z) :=
  let mp := mpsearch in
  if (mp =? 0) || (word (u32 (mp + 4)) =? 0) then None
  else
    let conf := P2V (word (u32 (mp + 4))) in
    if negb (memcmp (at_addr conf) (ptr_list (str "PCMP")) 4 =? 0) then None
    else if negb (m (u32 (conf + 6)) =? 1) && negb (m (u32 (conf + 6)) =? 4) then None
    else if negb (sum conf (Z.to_nat (half (u32 (conf + 4)))) =? 0) then None
    else Some (mp, conf).

(** The loop over the entries: an entry of unknown type only leaves the switch,
    so that the loop goes on with the same entry. *)
Fixpoint mpinit_loop (p e : Z) (ismp : bool) (fuel : nat) : M mpstate bool :=
  if p <? e then
    match fuel with
    | O => nofuel
    | S f =>
      let ty := m p in
      if ty =? 0 then
        st ← gets id;
        (when (length (mp_apicids st) <? NCPU)%nat do
           modify (set_mp_apicids (mp_apicids st ++ [m (u32 (p + 1))])));;
        mpinit_loop (u32 (p + MPPROC_SIZE)) e ismp f
      else if ty =? 2 then
        modify (set_mp_ioapicid (m (u32 (p + 1))));;
        mpinit_loop (u32 (p + MPIOAPIC_SIZE)) e ismp f
      else if (ty =? 1) || (ty =? 3) || (ty =? 4) then
        mpinit_loop (u32 (p + 8)) e ismp f
      else mpinit_loop p e false f
    end
  else mret ismp.

(** [imcr] is what inb(0x23) reads. *)
Definition mpinit (imcr : Z) (fuel : nat) : M mpstate unit :=
  match mpconfig with
  | None => panic "Expect to run on an SMP"
  | Some (mp, conf) =>
    modify (set_mp_lapic (word (u32 (conf + 36))));;
    ismp ← mpinit_loop (u32 (conf + MPCONF_SIZE)) (u32 (conf + half (u32 (conf + 4)))) true fuel;
    panic_if (negb ismp) "Didn't find a suitable machine";;
    when negb (m (u32 (mp + 12)) =? 0) do
      modify (fun st => set_mp_ports (mp_ports st ++ [(34, 112); (35, Z.lor imcr 1)]) st)
  end.
End mp.

(** ** Equal memories

    The routines read the memory only at addresses they compute: memories with
    the same bytes give the same result. *)

#[local] Abbreviation same := (pointwise_relation Z eq).

#[export] Instance memcmp_proper : Proper (same ==> eq ==> eq ==> eq) memcmp.
Proof.
  intros m1 m2 Hm s _ <- n _ <-. unfold memcmp. generalize 0 as i.
  induction n as [|n IH]; intros i; cbn [memcmp_from]; [done|]. by rewrite IH, !Hm.
Qed.
#[export] Instance at_addr_proper : Proper (same ==> eq ==> same) at_addr.
Proof. intros m1 m2 Hm a _ <- i. apply Hm. Qed.
#[export] Instance half_proper : Proper (same ==> eq ==> eq) half.
Proof. intros m1 m2 Hm a _ <-. unfold half. by rewrite !Hm. Qed.
#[export] Instance word_proper : Proper (same ==> eq ==> eq) word.
Proof. intros m1 m2 Hm a _ <-. unfold word. by rewrite !Hm. Qed.
#[export] Instance sum_proper : Proper (same ==> eq ==> eq ==> eq) sum.
Proof.
  intros m1 m2 Hm a _ <- n _ <-. unfold sum. f_equal. generalize 0 as acc. revert a.
  induction n as [|n IH]; intros a acc; cbn [sum_from]; [done|]. by rewrite Hm, IH.
Qed.
#[export] Instance mpsearch1_proper : Proper (same ==> eq ==> eq ==> eq) mpsearch1.
Proof.
  intros m1 m2 Hm a _ <- len _ <-. unfold mpsearch1. cbv zeta. generalize (u32 (P2V a + len)) as e. generalize (P2V a) as p.
  induction (Z.to_nat (len / MP_SIZE + 1)) as [|n IH]; intros p e; cbn [mpsearch1_loop]; [done|]. by rewrite IH, !Hm.
Qed.
#[export] Instance mpsearch_proper : Proper (same ==> eq) mpsearch.
Proof. intros m1 m2 Hm. unfold mpsearch. by rewrite !Hm. Qed.
#[export] Instance mpconfig_proper : Proper (same ==> eq) mpconfig.
Proof. intros m1 m2 Hm. unfold mpconfig. by rewrite !Hm. Qed.

Lemma mpinit_loop_same m1 m2 p e ismp fuel st : same m1 m2 -> mpinit_loop m1 p e ismp fuel st = mpinit_loop m2 p e ismp fuel st.
Proof.
  intros Hm. revert p ismp st. induction fuel as [|fuel IH]; intros p ismp st; cbn [mpinit_loop]; [done|].
  rewrite !Hm. unfold mbind, M_bind, modify. repeat (case_match; try done); by simplify_eq.
Qed.
Lemma mpinit_same m1 m2 imcr fuel st : same m1 m2 -> mpinit m1 imcr fuel st = mpinit m2 imcr fuel st.
Proof.
  intros Hm. unfold mpinit. rewrite (mpconfig_proper _ _ Hm). destruct (mpconfig m2) as [[mp conf]|]; [|done].
  unfold mbind, M_bind, modify. cbv beta iota. rewrite !(mpinit_loop_same _ _ _ _ _ _ _ Hm), !Hm.
  repeat (case_match; try done); by rewrite ?Hm.
Qed.

(** ** The search *)

(** A floating pointer structure: the signature, and bytes that add up to 0. *)
Definition is_mp (m : mem) (p : Z) : bool := (memcmp (at_addr m p) (ptr_list (str "_MP_")) 4 =? 0) && (sum m p 16 =? 0).

(** The first one in the 16-byte steps from [p] to [e], or 0. *)
Lemma mpsearch1_loop_first m n : forall p e fuel,
  0 <= p -> e <= 4294967280 -> e <= p + 16 * Z.of_nat n -> (n <= fuel)%nat ->
  let r := mpsearch1_loop m p e fuel in
  (exists k : nat, r = p + 16 * Z.of_nat k /\ r < e /\ is_mp m r = true /\
     forall j, (j < k)%nat -> is_mp m (p + 16 * Z.of_nat j) = false) \/
  (r = 0 /\ forall j : nat, p + 16 * Z.of_nat j < e -> is_mp m (p + 16 * Z.of_nat j) = false).
Proof.
  induction n as [|n IH]; intros p e fuel Hp He Hn Hf r.
  { right. unfold r. destruct fuel; cbn [mpsearch1_loop]; rewrite (proj2 (Z.ltb_ge p e)) by lia; (split; [done|lia]). }
  destruct fuel as [|fuel]; [lia|]. unfold r. cbn [mpsearch1_loop]. destruct (Z.ltb_spec p e) as [Hlt|]; [|right; split; [done|lia]].
  fold (is_mp m p). destruct (is_mp m p) eqn:E.
  { left. exists O. rewrite Z.add_0_r. split_and!; [done|done|done|lia]. }
  rewrite u32_small by (unfold MP_SIZE; lia). unfold MP_SIZE.
  destruct (IH (p + 16) e fuel ltac:(lia) He ltac:(lia) ltac:(lia)) as [(k & Er & Hr & Hk & Hb)|[Er Hb]].
  - left. exists (S k). split_and!; [lia|done|done|]. intros [|j] Hj; [by rewrite Z.add_0_r|].
    replace (p + 16 * Z.of_nat (S j)) with (p + 16 + 16 * Z.of_nat j) by lia. apply Hb. lia.
  - right. split; [done|]. intros [|j] Hj; [by rewrite Z.add_0_r|].
    replace (p + 16 * Z.of_nat (S j)) with (p + 16 + 16 * Z.of_nat j) by lia. apply Hb. lia.
Qed.

(** ** The entries of the configuration table *)

Inductive entry := Eproc (apicid : Z) (rest : list Z) | Eioapic (apicno : Z) (rest : list Z) | Eother (ty : Z) (rest : list Z).

Definition entry_ok (e : entry) : Prop :=
  match e with
  | Eproc _ rest => length rest = 18%nat
  | Eioapic _ rest => length rest = 6%nat
  | Eother ty rest => (ty = 1 \/ ty = 3 \/ ty = 4) /\ length rest = 7%nat
  end.
Definition enc_entry (e : entry) : list Z :=
  match e with
  | Eproc a rest => 0 :: a :: rest
  | Eioapic a rest => 2 :: a :: rest
  | Eother ty rest => ty :: rest
  end.
Definition enc_entries (es : list entry) : list Z := concat (enc_entry <$> es).

(** What the entries say: the processors, and the last I/O APIC. *)
Definition procs_of (es : list entry) : list Z := omap (fun e => match e with Eproc a _ => Some a | _ => None end) es.
Definition ioapic_of (d : Z) (es : list entry) : Z :=
  foldl (fun d e => match e with Eioapic a _ => a | _ => d end) d es.

Definition stored (m : mem) (p : Z) (l : list Z) : Prop := forall i c, l !! i = Some c -> m (p + Z.of_nat i) = c.

Lemma stored_app m p l1 l2 : stored m p (l1 ++ l2) -> stored m p l1 /\ stored m (p + Z.of_nat (length l1)) l2.
Proof.
  intros H. split; intros i c E.
  - apply H. by apply lookup_app_l_Some.
  - rewrite <- Z.add_assoc, <- Nat2Z.inj_add. apply H. rewrite lookup_app_r by lia. by replace (length l1 + i - length l1)%nat with i by lia.
Qed.

Lemma mpinit_loop_reads m es : forall p fuel st,
  Forall entry_ok es -> stored m p (enc_entries es) -> 0 <= p -> p + Z.of_nat (length (enc_entries es)) < 4294967296 ->
  (length es <= fuel)%nat -> (length (mp_apicids st) <= NCPU)%nat ->
  mpinit_loop m p (p + Z.of_nat (length (enc_entries es))) true fuel st =
    Ok true (mkMpstate (take NCPU (mp_apicids st ++ procs_of es)) (ioapic_of (mp_ioapicid st) es) (mp_lapic st) (mp_ports st)).
Proof.
  induction es as [|e es IH]; intros p fuel st Hok Hm Hp Hmax Hf Hn.
  { cbn [enc_entries fmap list_fmap concat length]. destruct fuel; cbn [mpinit_loop]; rewrite (proj2 (Z.ltb_ge _ _)) by lia;
      cbn; rewrite app_nil_r, take_ge by done; by destruct st. }
  change (enc_entries (e :: es)) with (enc_entry e ++ enc_entries es) in *. apply Forall_cons in Hok as [He Hok].
  rewrite length_app in Hmax |- *. apply stored_app in Hm as [Hm1 Hm2]. destruct fuel as [|fuel]; [cbn in Hf; lia|]. cbn in Hf.
  assert (H0 : m p = hd 0 (enc_entry e)) by (rewrite <- (Z.add_0_r p); apply (Hm1 O); by destruct e).
  assert (Hstep : forall st', (length (mp_apicids st') <= NCPU)%nat ->
    mpinit_loop m (u32 (p + Z.of_nat (length (enc_entry e)))) (p + Z.of_nat (length (enc_entry e) + length (enc_entries es))) true fuel st' =
    Ok true (mkMpstate (take NCPU (mp_apicids st' ++ procs_of es)) (ioapic_of (mp_ioapicid st') es) (mp_lapic st') (mp_ports st'))).
  { intros st' Hst. rewrite u32_small by lia. rewrite Nat2Z.inj_add, Z.add_assoc. apply IH; try done; lia. }
  cbn [mpinit_loop]. rewrite (proj2 (Z.ltb_lt _ _)) by (destruct e; cbn; lia).
  destruct e as [a rest|a rest|ty rest]; cbn [enc_entry hd] in H0; rewrite H0.
  - assert (Ha : m (u32 (p + 1)) = a) by (rewrite u32_small by (cbn in Hmax; lia); by apply (Hm1 1%nat)).
    cbn [Z.eqb Pos.eqb]. rewrite Ha. cbn in He. replace MPPROC_SIZE with (Z.of_nat (length (enc_entry (Eproc a rest)))) by (cbn; rewrite He; done).
    rewrite (bind_ok _ _ st st st) by done. destruct (Nat.ltb_spec (length (mp_apicids st)) NCPU) as [Hlt|Hge].
    + rewrite (bind_ok _ _ st tt (set_mp_apicids (mp_apicids st ++ [a]) st)) by done. rewrite Hstep by (cbn; rewrite length_app; cbn; lia).
      cbn. by rewrite <- app_assoc.
    + rewrite (bind_ok _ _ st tt st) by done. rewrite Hstep by done. rewrite !take_app_le by lia. done.
  - assert (Ha : m (u32 (p + 1)) = a) by (rewrite u32_small by (cbn in Hmax; lia); by apply (Hm1 1%nat)).
    cbn [Z.eqb Pos.eqb]. rewrite Ha. cbn in He. replace MPIOAPIC_SIZE with (Z.of_nat (length (enc_entry (Eioapic a rest)))) by (cbn; rewrite He; done).
    rewrite (bind_ok _ _ st tt (set_mp_ioapicid a st)) by done. by rewrite Hstep.
  - cbn in He. destruct He as [Hty Hl]. replace 8 with (Z.of_nat (length (enc_entry (Eother ty rest)))) by (cbn; rewrite Hl; done).
    destruct Hty as [-> | [-> | ->]]; cbn [Z.eqb Pos.eqb orb]; by rewrite Hstep.
Qed.

(** mpinit reads the processor table.  When the configuration table found
    consists of entries of the known types, mpinit ends, with the APIC ids of
    the first NCPU processors in the order of the table, the number of the last
    I/O APIC and the address of the local APIC, and switches the interrupt mode
    if the floating pointer asks for it.  (Each entry takes one iteration.) *)
Theorem mpinit_reads m mp conf es imcr fuel :
  mpconfig m = Some (mp, conf) -> 0 <= conf -> Forall entry_ok es ->
  conf + MPCONF_SIZE + Z.of_nat (length (enc_entries es)) < 4294967296 ->
  half m (u32 (conf + 4)) = MPCONF_SIZE + Z.of_nat (length (enc_entries es)) -> stored m (conf + MPCONF_SIZE) (enc_entries es) ->
  (length es <= fuel)%nat ->
  mpinit m imcr fuel mp_start = Ok tt (mkMpstate (take NCPU (procs_of es)) (ioapic_of 0 es) (word m (u32 (conf + 36)))
    (if m (u32 (mp + 12)) =? 0 then [] else [(34, 112); (35, Z.lor imcr 1)])).
Proof.
  intros E Hc Hok Hmax Hl Hm Hf. unfold mpinit. rewrite E, Hl. unfold MPCONF_SIZE in *.
  rewrite (bind_ok _ _ mp_start tt (set_mp_lapic (word m (u32 (conf + 36))) mp_start)) by done.
  rewrite !(u32_small (conf + _)) by lia. rewrite Z.add_assoc.
  erewrite (bind_ok _ _ _ true); [|apply mpinit_loop_reads; [done|done|lia|lia|done|cbn; lia]].
  cbn [negb]. match goal with |- (_ ≫= _) ?st = _ => rewrite (bind_ok _ _ st tt st) by done end. cbn [set_mp_lapic mp_start mp_apicids mp_ioapicid mp_lapic mp_ports app].
  by destruct (m (u32 (mp + 12)) =? 0).
Qed.

(** An entry of another type: the loop never ends, and the panic message is not
    printed. *)
Lemma mpinit_unknown_entry m p e ismp fuel st :
  p < e -> ~ (m p = 0 \/ m p = 1 \/ m p = 2 \/ m p = 3 \/ m p = 4) -> mpinit_loop m p e ismp fuel st = NoFuel.
Proof.
  intros Hp Hty. revert ismp. induction fuel as [|fuel IH]; intros ismp; cbn [mpinit_loop]; rewrite (proj2 (Z.ltb_lt _ _)) by done; [done|].
  rewrite !(proj2 (Z.eqb_neq _ _)) by tauto. cbn [orb]. apply IH.
Qed.

(** A table with one processor and one I/O APIC, found in the BIOS area. *)
Definition table1 : list entry := [Eproc 7 (replicate 18 0); Eioapic 3 (replicate 6 0)].
Definition mem1 : mem :=
  store_bytes (store_bytes (fun _ => 0) (P2V 983040) [95; 77; 80; 95; 0; 144; 0; 0; 1; 4; 144; 0; 128; 0; 0; 0])
    (P2V 36864) ([80; 67; 77; 80; 72; 0; 4; 154; 0; 0; 0; 0; 0; 0; 0; 0; 0; 0; 0; 0; 0; 0; 0; 0; 0; 0; 0; 0; 0; 0; 0; 0; 0; 0; 0; 0; 0; 0; 224; 254; 0; 0; 0; 0] ++ enc_entries table1).

Lemma mpinit_reads_witness : mpinit mem1 5 2 mp_start = Ok tt (mkMpstate [7] 3 4276092928 [(34, 112); (35, 5)]).
Proof.
  rewrite (mpinit_reads mem1 (P2V 983040) (P2V 36864) table1 5 2).
  - vm_compute. reflexivity.
  - vm_compute. reflexivity.
  - vm_compute. discriminate.
  - repeat constructor.
  - vm_compute. reflexivity.
  - vm_compute. reflexivity.
  - intros i c E. assert (i < 28)%nat as Hi by (apply lookup_lt_Some in E; exact E).
    do 28 (destruct i as [|i]; [injection E as <-; vm_compute; reflexivity|]). lia.
  - cbn. lia.
Defined.
