(* ===== verification/Bootmain.v ===== *)
(** * bootmain.c: the boot loader

    The loader reads the kernel, an ELF file that starts at sector 1 of the
    disk, into memory.  It runs without paging, so [mem] is the physical memory;
    [disk] gives the bytes of each sector.  The polling of the drive is not
    modelled: a sector read returns its bytes. *)

From S2P Require Import Prelude State CString.
Open Scope Z_scope.


Section boot.
Context (disk : Z -> list Z).







(** ** Reading bytes of the file *)

Hypothesis disk_sector : forall n, length (disk n) = 512%nat.




(** ** The segments *)

Hypothesis disk_bytes : forall n, bytes (disk n).












End boot.



