(* ===== verification/Apic.v ===== *)
(** * The interrupt controllers and the clock (ioapic.c, picirq.c, lapic.c)

    A controller is its registers: the I/O APIC has a register that selects
    which of the others is read or written; the local APIC is the list of the
    writes to it, its reads being parameters; so are the reads of the clock. *)

From S2P Require Import Prelude State CString Console.
Open Scope Z_scope.

Definition T_IRQ0 : Z := 32.
Definition IRQ_TIMER : Z := 0.
Definition IRQ_ERROR : Z := 19.
Definition IRQ_SPURIOUS : Z := 31.

(** ** ioapic.c *)

Record ioapic := mkIoapic {
  io_reg : Z;        (** the register selected *)
  io_regs : Z -> Z   (** the registers *)
}.
Definition REG_ID : Z := 0.
Definition REG_VER : Z := 1.
Definition REG_TABLE : Z := 16.
Definition INT_DISABLED : Z := 65536.

Definition io_select (reg : Z) (d : ioapic) : ioapic := mkIoapic reg (io_regs d).
Definition io_store (data : Z) (d : ioapic) : ioapic :=
  mkIoapic (io_reg d) (fun r => if r =? io_reg d then data else io_regs d r).

Definition ioapicread (reg : Z) : M ioapic Z :=
  modify (io_select reg);;
  gets (fun d => io_regs d (io_reg d)).

Definition ioapicwrite (reg data : Z) : M ioapic unit :=
  modify (io_select reg);;
  modify (io_store data).

(** for(i = 0; i <= maxintr; i++), [n] interrupts to go. *)
Fixpoint ioapicinit_loop (i : Z) (n : nat) : M ioapic unit :=
  match n with
  | O => mret tt
  | S n' =>
    ioapicwrite (REG_TABLE + 2 * i) (Z.lor INT_DISABLED (T_IRQ0 + i));;
    ioapicwrite (REG_TABLE + 2 * i + 1) 0;;
    ioapicinit_loop (i + 1) n'
  end.
(** The result is whether the message about the id is printed. *)
Definition ioapicinit (ioapicid : Z) : M ioapic bool :=
  v ← ioapicread REG_VER;
  let maxintr := Z.land (Z.shiftr v 16) 255 in
  id ← ioapicread REG_ID;
  let id := Z.shiftr id 24 in
  ioapicinit_loop 0 (Z.to_nat (maxintr + 1));;
  mret (negb (id =? ioapicid)).

Definition ioapicenable (irq cpunum : Z) : M ioapic unit :=
  ioapicwrite (REG_TABLE + 2 * irq) (T_IRQ0 + irq);;
  ioapicwrite (REG_TABLE + 2 * irq + 1) (u32 (Z.shiftl cpunum 24)).

(** ** picirq.c: the outb calls *)

Definition picinit : list (Z * Z) := [(33, 255); (161, 255)].

(** ** lapic.c *)

Definition LAPIC_ID : Z := 8.
Definition TPR : Z := 32.
Definition EOI : Z := 44.
Definition SVR : Z := 60.
Definition ENABLE : Z := 256.
Definition ESR : Z := 160.
Definition ICRLO : Z := 192.
Definition INIT : Z := 1280.
Definition STARTUP : Z := 1536.
Definition DELIVS : Z := 4096.
Definition ASSERT : Z := 16384.
Definition LEVEL : Z := 32768.
Definition BCAST : Z := 524288.
Definition ICRHI : Z := 196.
Definition TIMER : Z := 200.
Definition X1 : Z := 11.
Definition PERIODIC : Z := 131072.
Definition PCINT : Z := 208.
Definition LINT0 : Z := 212.
Definition LINT1 : Z := 216.
Definition LERROR : Z := 220.
Definition MASKED : Z := 65536.
Definition TICR : Z := 224.
Definition TDCR : Z := 248.

(** The local APIC and what else lapicstartap writes. *)
Record ldev := mkLdev {
  l_writes : list (Z * Z);  (** lapic[index] = value, in order *)
  l_ports : list (Z * Z);   (** outb *)
  l_mem : mem
}.

Definition lapicw (index value : Z) : M ldev unit :=
  modify (fun d => mkLdev (l_writes d ++ [(index, value)]) (l_ports d) (l_mem d)).
Definition loutb (port value : Z) : M ldev unit :=
  modify (fun d => mkLdev (l_writes d) (l_ports d ++ [(port, value)]) (l_mem d)).

(** while(lapic[ICRLO] & DELIVS); on the values that are read. *)
Fixpoint wait_delivered (icr : list Z) : M ldev unit :=
  match icr with
  | [] => nofuel
  | v :: icr' => if Z.land v DELIVS =? 0 then mret tt else wait_delivered icr'
  end.

(** [lapic] is whether the pointer is set, [ver] the version register. *)
Definition lapicinit (lapic : bool) (ver : Z) (icr : list Z) : M ldev unit :=
  if negb lapic then mret tt
  else
    lapicw SVR (Z.lor ENABLE (T_IRQ0 + IRQ_SPURIOUS));;
    lapicw TDCR X1;;
    lapicw TIMER (Z.lor PERIODIC (T_IRQ0 + IRQ_TIMER));;
    lapicw TICR 10000000;;
    lapicw LINT0 MASKED;;
    lapicw LINT1 MASKED;;
    (when 4 <=? Z.land (Z.shiftr ver 16) 255 do lapicw PCINT MASKED);;
    lapicw LERROR (T_IRQ0 + IRQ_ERROR);;
    lapicw ESR 0;;
    lapicw ESR 0;;
    lapicw EOI 0;;
    lapicw ICRHI 0;;
    lapicw ICRLO (Z.lor (Z.lor BCAST INIT) LEVEL);;
    wait_delivered icr;;
    lapicw TPR 0.

(** [id] is lapic[ID]. *)
Definition lapicid (lapic : bool) (id : Z) : Z := if negb lapic then 0 else Z.shiftr id 24.

Definition lapiceoi (lapic : bool) : M ldev unit := when lapic do lapicw EOI 0.

Definition CMOS_PORT : Z := 112.

(** for(i = 0; i < 2; i++), [n] times. *)
Fixpoint startup_ipis (apicid addr : Z) (n : nat) : M ldev unit :=
  match n with
  | O => mret tt
  | S n' =>
    lapicw ICRHI (Z.shiftl apicid 24);;
    lapicw ICRLO (Z.lor STARTUP (Z.shiftr addr 12));;
    startup_ipis apicid addr n'
  end.
Definition lapicstartap (apicid addr : Z) : M ldev unit :=
  loutb CMOS_PORT 15;;
  loutb (CMOS_PORT + 1) 10;;
  let wrv := P2V (Z.lor (Z.shiftl 64 4) 103) in
  modify (fun d => mkLdev (l_writes d) (l_ports d)
    (store_bytes (store_bytes (l_mem d) wrv (enc16 0)) (wrv + 2) (enc16 (Z.shiftr addr 4))));;
  lapicw ICRHI (Z.shiftl apicid 24);;
  lapicw ICRLO (Z.lor (Z.lor INIT LEVEL) ASSERT);;
  lapicw ICRLO (Z.lor INIT LEVEL);;
  startup_ipis apicid addr 2.

(** *** The clock *)

Record rtcdate := mkRtcdate { second : Z; minute : Z; hour : Z; day : Z; month : Z; year : Z }.
#[export] Instance rtcdate_eq_dec : EqDecision rtcdate.
Proof. solve_decision. Defined.

(** [cmos k reg] is what the [k]-th read of the clock gives, of register [reg];
    the state is the number of reads. *)
Section cmos.
Context (cmos : nat -> Z -> Z).

Definition cmos_read (reg : Z) : M nat Z := fun k => Ok (cmos k reg) (S k).

Definition fill_rtcdate : M nat rtcdate :=
  s ← cmos_read 0;
  mi ← cmos_read 2;
  h ← cmos_read 4;
  d ← cmos_read 7;
  mo ← cmos_read 8;
  y ← cmos_read 9;
  mret (mkRtcdate s mi h d mo y).

(** for(;;): a date read twice with no update in progress between. *)
Fixpoint cmostime_loop (fuel : nat) : M nat rtcdate :=
  match fuel with
  | O => nofuel
  | S f =>
    t1 ← fill_rtcdate;
    a ← cmos_read 10;
    if negb (Z.land a 128 =? 0) then cmostime_loop f
    else
      t2 ← fill_rtcdate;
      if bool_decide (t1 = t2) then mret t1 else cmostime_loop f
  end.

Definition conv (x : Z) : Z := Z.shiftr x 4 * 10 + Z.land x 15.
Definition cmostime (fuel : nat) : M nat rtcdate :=
  sb ← cmos_read 11;
  let bcd := Z.land sb (Z.shiftl 1 2) =? 0 in
  t1 ← cmostime_loop fuel;
  let t1 := if bcd then mkRtcdate (conv (second t1)) (conv (minute t1)) (conv (hour t1)) (conv (day t1)) (conv (month t1)) (conv (year t1))
            else t1 in
  mret (mkRtcdate (second t1) (minute t1) (hour t1) (day t1) (month t1) (year t1 + 2000)).
End cmos.

(** ** Routing of interrupts *)

(** The two registers of an interrupt. *)
Definition route (d : ioapic) (i : Z) : Z * Z := (io_regs d (REG_TABLE + 2 * i), io_regs d (REG_TABLE + 2 * i + 1)).

Lemma ioapicwrite_run reg data d : exists d', ioapicwrite reg data d = Ok tt d' /\
  forall r, io_regs d' r = if r =? reg then data else io_regs d r.
Proof. eexists. split; [reflexivity|]. done. Qed.

Lemma ioapicinit_loop_routes n : forall i d, 0 <= i ->
  exists d', ioapicinit_loop i n d = Ok tt d' /\
    (forall k, i <= k < i + Z.of_nat n -> route d' k = (Z.lor INT_DISABLED (T_IRQ0 + k), 0)) /\
    (forall r, r < REG_TABLE + 2 * i \/ REG_TABLE + 2 * (i + Z.of_nat n) <= r -> io_regs d' r = io_regs d r).
Proof.
  induction n as [|n IH]; intros i d Hi; cbn [ioapicinit_loop]; [exists d; split_and!; [done|lia|done]|].
  destruct (ioapicwrite_run (REG_TABLE + 2 * i) (Z.lor INT_DISABLED (T_IRQ0 + i)) d) as (d1 & E1 & R1). rewrite (bind_ok _ _ _ _ _ E1).
  destruct (ioapicwrite_run (REG_TABLE + 2 * i + 1) 0 d1) as (d2 & E2 & R2). rewrite (bind_ok _ _ _ _ _ E2).
  destruct (IH (i + 1) d2 ltac:(lia)) as (d3 & E3 & H3 & O3). exists d3. split_and!; [done| |].
  - intros k Hk. destruct (decide (k = i)) as [->|]; [|apply H3; lia]. unfold route. rewrite !O3 by lia.
    rewrite !R2, !R1. rewrite !Z.eqb_refl. rewrite (proj2 (Z.eqb_neq (REG_TABLE + 2 * i) _)) by lia. done.
  - intros r Hr. rewrite O3, R2, R1 by lia. rewrite !(proj2 (Z.eqb_neq r _)) by lia. done.
Qed.

(** After ioapicinit every interrupt of the controller is masked, and
    ioapicenable opens exactly one, to one processor. *)
Lemma ioapic_routes ioapicid irq cpunum d :
  let maxintr := Z.land (Z.shiftr (io_regs d REG_VER) 16) 255 in
  0 <= irq <= maxintr ->
  exists b d1 d2, ioapicinit ioapicid d = Ok b d1 /\ ioapicenable irq cpunum d1 = Ok tt d2 /\
    (forall i, 0 <= i <= maxintr -> route d1 i = (Z.lor INT_DISABLED (T_IRQ0 + i), 0)) /\
    (forall i, 0 <= i <= maxintr -> route d2 i =
       if i =? irq then (T_IRQ0 + irq, u32 (Z.shiftl cpunum 24)) else (Z.lor INT_DISABLED (T_IRQ0 + i), 0)).
Proof.
  intros maxintr Hirq. unfold ioapicinit. rewrite (bind_ok _ _ d (io_regs d REG_VER) (io_select REG_VER d)) by done.
  rewrite (bind_ok _ _ _ (io_regs d REG_ID) (io_select REG_ID (io_select REG_VER d))) by done. fold maxintr.
  destruct (ioapicinit_loop_routes (Z.to_nat (maxintr + 1)) 0 (io_select REG_ID (io_select REG_VER d)) ltac:(lia)) as (d1 & E1 & H1 & _).
  rewrite (bind_ok _ _ _ _ _ E1). eexists _, d1. unfold ioapicenable.
  destruct (ioapicwrite_run (REG_TABLE + 2 * irq) (T_IRQ0 + irq) d1) as (d2 & E2 & R2).
  destruct (ioapicwrite_run (REG_TABLE + 2 * irq + 1) (u32 (Z.shiftl cpunum 24)) d2) as (d3 & E3 & R3).
  exists d3. split_and!; [reflexivity|by rewrite (bind_ok _ _ _ _ _ E2)|intros i Hi; apply H1; lia|].
  intros i Hi. specialize (H1 i ltac:(lia)). unfold route in *. rewrite !R3, !R2. destruct (Z.eqb_spec i irq) as [->|Hne].
  - rewrite !Z.eqb_refl. by rewrite (proj2 (Z.eqb_neq (REG_TABLE + 2 * irq) _)) by lia.
  - rewrite !(proj2 (Z.eqb_neq _ _)) by lia. done.
Qed.

Lemma ioapicinit_ok id d : exists b d', ioapicinit id d = Ok b d'.
Proof.
  unfold ioapicinit. rewrite (bind_ok _ _ d (io_regs d REG_VER) (io_select REG_VER d)) by done.
  rewrite (bind_ok _ _ _ (io_regs d REG_ID) (io_select REG_ID (io_select REG_VER d))) by done.
  destruct (ioapicinit_loop_routes (Z.to_nat (Z.land (Z.shiftr (io_regs d REG_VER) 16) 255 + 1)) 0 (io_select REG_ID (io_select REG_VER d)) ltac:(lia)) as (d1 & E1 & _).
  rewrite (bind_ok _ _ _ _ _ E1). eexists _, d1. reflexivity.
Qed.

(** ** The local APIC *)

(** The value a register was last set to. *)
Definition last_write (ws : list (Z * Z)) (index : Z) : option Z :=
  foldl (fun o w => if w.1 =? index then Some w.2 else o) None ws.

Lemma bind_lapicw {A} i v (f : unit -> M ldev A) ws ps dm :
  (lapicw i v ≫= f) (mkLdev ws ps dm) = f tt (mkLdev (ws ++ [(i, v)]) ps dm).
Proof. done. Qed.
Lemma bind_mret {A} (f : unit -> M ldev A) d : ((mret tt : M ldev unit) ≫= f) d = f tt d.
Proof. done. Qed.

Lemma wait_delivered_ok icr d : Exists (fun v => Z.land v DELIVS = 0) icr -> wait_delivered icr d = Ok tt d.
Proof.
  intros Hi. induction icr as [|v icr IH]; [by apply Exists_nil in Hi|]. cbn. destruct (Z.eqb_spec (Z.land v DELIVS) 0); [done|].
  apply IH. by apply Exists_cons in Hi as [?|?].
Qed.

(** lapicinit writes to the controller only. *)
Lemma lapicinit_ok lapic ver icr d : Exists (fun v => Z.land v DELIVS = 0) icr ->
  exists w, lapicinit lapic ver icr d = Ok tt (mkLdev w (l_ports d) (l_mem d)).
Proof.
  intros Hi. unfold lapicinit. destruct d as [ws ps dm]. destruct lapic; cbn [negb]; [|by exists ws].
  do 6 rewrite bind_lapicw. destruct (4 <=? Z.land (Z.shiftr ver 16) 255); [rewrite bind_lapicw|rewrite bind_mret];
    do 6 rewrite bind_lapicw; rewrite (bind_ok _ _ _ _ _ (wait_delivered_ok icr _ Hi)); eexists; reflexivity.
Qed.

(** lapicstartap also writes two ports and the warm reset vector. *)
Lemma lapicstartap_ok apicid addr d : let wrv := P2V 1127 in
  exists w p, lapicstartap apicid addr d =
    Ok tt (mkLdev w p (store_bytes (store_bytes (l_mem d) wrv (enc16 0)) (wrv + 2) (enc16 (Z.shiftr addr 4)))).
Proof.
  unfold lapicstartap. rewrite (bind_ok _ _ d tt (mkLdev (l_writes d) (l_ports d ++ [(CMOS_PORT, 15)]) (l_mem d))) by done.
  cbn [l_writes l_ports l_mem]. unfold loutb at 1. rewrite (bind_ok _ _ _ tt (mkLdev (l_writes d) ((l_ports d ++ [(CMOS_PORT, 15)]) ++ [(CMOS_PORT + 1, 10)]) (l_mem d))) by done.
  erewrite bind_ok by reflexivity. cbn [l_writes l_ports l_mem]. do 3 rewrite bind_lapicw. cbn [startup_ipis]. do 4 rewrite bind_lapicw.
  eexists _, _. reflexivity.
Qed.

(** After lapicinit, once the init message is delivered, the unit and its timer
    are on, the external lines are masked and every priority is accepted. *)
Lemma lapicinit_state ver icr d :
  Exists (fun v => Z.land v DELIVS = 0) icr -> l_writes d = [] ->
  exists d', lapicinit true ver icr d = Ok tt d' /\
    last_write (l_writes d') SVR = Some (ENABLE + 63) /\ last_write (l_writes d') TIMER = Some (PERIODIC + 32) /\
    last_write (l_writes d') LINT0 = Some MASKED /\ last_write (l_writes d') LINT1 = Some MASKED /\ last_write (l_writes d') TPR = Some 0.
Proof.
  intros Hi Hw.
  unfold lapicinit. cbn [negb]. destruct d as [ws ps dm]. cbn in Hw. subst ws.
  do 6 rewrite bind_lapicw. destruct (4 <=? Z.land (Z.shiftr ver 16) 255); [rewrite bind_lapicw|rewrite bind_mret];
    do 6 rewrite bind_lapicw; rewrite (bind_ok _ _ _ _ _ (wait_delivered_ok icr _ Hi)); (eexists; split; [reflexivity|]);
    cbn [l_writes app]; vm_compute; done.
Qed.

(** *** The clock *)

Definition bcd_enc (x : Z) : Z := Z.shiftl (x / 10) 4 + x mod 10.

Lemma conv_bcd x : 0 <= x < 100 -> conv (bcd_enc x) = x.
Proof.
  intros Hx. apply Z.eqb_eq. apply (range_forallb (fun k => conv (bcd_enc k) =? k) 100); [vm_compute; reflexivity|lia].
Qed.

(** The registers of a clock that shows [t], in BCD or in binary. *)
Definition clock (bcd : bool) (t : rtcdate) (reg : Z) : Z :=
  let e := if bcd then bcd_enc else id in
  if reg =? 0 then e (second t) else if reg =? 2 then e (minute t) else if reg =? 4 then e (hour t)
  else if reg =? 7 then e (day t) else if reg =? 8 then e (month t) else if reg =? 9 then e (year t)
  else if reg =? 11 then (if bcd then 2 else 6) else 0.

(** cmostime reads the clock back, in both of its encodings. *)
Lemma cmostime_reads bcd t fuel k :
  Forall (fun x => 0 <= x < 100) [second t; minute t; hour t; day t; month t; year t] -> (0 < fuel)%nat ->
  exists k', cmostime (fun _ => clock bcd t) fuel k = Ok (mkRtcdate (second t) (minute t) (hour t) (day t) (month t) (year t + 2000)) k'.
Proof.
  intros Ht Hf. destruct fuel as [|fuel]; [lia|]. repeat (apply Forall_cons in Ht as [? Ht]).
  set (c := fun _ : nat => clock bcd t). set (e := if bcd then bcd_enc else id).
  assert (Hfill : forall k, fill_rtcdate c k = Ok (mkRtcdate (e (second t)) (e (minute t)) (e (hour t)) (e (day t)) (e (month t)) (e (year t))) (6 + k)%nat)
    by (intros; reflexivity).
  eexists. unfold cmostime. rewrite (bind_ok _ _ k (if bcd then 2 else 6) (S k)) by done. cbn [cmostime_loop].
  erewrite bind_ok; [|rewrite (bind_ok _ _ _ _ _ (Hfill _)), (bind_ok _ _ (6 + S k)%nat 0 (7 + S k)%nat) by done; change (negb (Z.land 0 128 =? 0)) with false; cbv iota;
    rewrite (bind_ok _ _ _ _ _ (Hfill _)), bool_decide_true by done; reflexivity].
  unfold e. destruct bcd; cbn; [|done]. by rewrite !conv_bcd.
Qed.
