(* ===== verification/Progs.v ===== *)
(** * The small user programs

    cat, echo, grep, init, kill, ln, ls, mkdir, rm, wc, zombie, stat of the user
    library and the main loop of the shell.  A program runs against the answers of the
    kernel to its system calls, one after the other; the state records the calls
    it made.  [Gone] is exit, and a program that runs out of answers is left
    there ([NoFuel]).  printf writes one byte at a time. *)

From S2P Require Import Prelude State CString Console FsFile Sh ShParse Grep Ulib.
Open Scope Z_scope.

Inductive ucall :=
| Uopen (path : list Z) (mode : Z) | Uread (fd n : Z) | Uwrite (fd : Z) (data : list Z) | Uclose (fd : Z)
| Ufstat (fd : Z) | Ulink (old new : list Z) | Uunlink (path : list Z) | Umkdir (path : list Z)
| Umknod (path : list Z) (major minor : Z) | Udup (fd : Z) | Ufork | Uexec (path : list Z) (argv : list (list Z))
| Uwait | Ukill (pid : Z) | Usleep (n : Z) | Uchdir (path : list Z).

(** The value a call returns, with the bytes of read and the type, inode number
    and size of fstat. *)
Record answer := mkAnswer { a_ret : Z; a_data : list Z; a_stat : Z * Z * Z }.

Record world := mkWorld { w_calls : list ucall; w_answers : list answer }.

Definition ucallM (c : ucall) : M world answer := fun w =>
  match w_answers w with
  | [] => NoFuel
  | a :: l => Ok a (mkWorld (w_calls w ++ [c]) l)
  end.
Definition ucall_ (c : ucall) : M world Z := a ← ucallM c; mret (a_ret a).
Definition uexit {A} : M world A := fun w => Gone w.

(** write(fd, &c, 1) for each byte. *)
Fixpoint uprint (fd : Z) (l : list Z) : M world unit :=
  match l with
  | [] => mret tt
  | c :: l' => ucall_ (Uwrite fd [c]);; uprint fd l'
  end.
Definition line (l : list (list Z)) : list Z := concat l ++ [10].

(** Enough iterations for the answers there are: each takes at least one. *)
Definition with_answers {A} (f : nat -> M world A) : M world A := fun w => f (S (length (w_answers w))) w.

(** for(i = 1; i < argc; i++) *)
Fixpoint for_each {A} (f : A -> M world unit) (l : list A) : M world unit :=
  match l with
  | [] => mret tt
  | x :: l' => f x;; for_each f l'
  end.

(** ** cat.c *)

Fixpoint cat_loop (fd : Z) (fuel : nat) : M world unit :=
  match fuel with
  | O => nofuel
  | S f =>
    r ← ucallM (Uread fd 512);
    if 0 <? a_ret r then
      n ← ucall_ (Uwrite 1 (a_data r));
      if negb (n =? a_ret r) then uprint 1 (line [str "cat: write error"]);; uexit
      else cat_loop fd f
    else if a_ret r <? 0 then uprint 1 (line [str "cat: read error"]);; uexit
    else mret tt
  end.
Definition cat (fd : Z) : M world unit := with_answers (cat_loop fd).

Definition cat_main (args : list (list Z)) : M world unit :=
  match args with
  | [] => cat 0;; uexit
  | _ =>
    for_each (fun path =>
      fd ← ucall_ (Uopen path 0);
      if fd <? 0 then uprint 1 (line [str "cat: cannot open "; path]);; uexit
      else cat fd;; ucall_ (Uclose fd);; mret tt) args;;
    uexit
  end.

(** ** echo.c, kill.c, ln.c, mkdir.c, rm.c, zombie.c; [args] are argv[1], ... *)

Fixpoint echo_loop (args : list (list Z)) : M world unit :=
  match args with
  | [] => mret tt
  | a :: args' => uprint 1 (a ++ (if args' is [] then [10] else [32]));; echo_loop args'
  end.
Definition echo_main (args : list (list Z)) : M world unit := echo_loop args;; uexit.

(** atoi of an argument. *)
Definition atoi_arg (a : list Z) : Z := default 0 (atoi (ptr_list a) (S (length a))).
Definition kill_main (args : list (list Z)) : M world unit :=
  if args is [] then uprint 2 (line [str "usage: kill pid..."]);; uexit
  else for_each (fun a => ucall_ (Ukill (atoi_arg a));; mret tt) args;; uexit.

Definition ln_main (args : list (list Z)) : M world unit :=
  match args with
  | [old; new] =>
    r ← ucall_ (Ulink old new);
    (when r <? 0 do uprint 2 (line [str "link "; old; str " "; new; str ": failed"]));;
    uexit
  | _ => uprint 2 (line [str "Usage: ln old new"]);; uexit
  end.

(** The loop stops at the first failure. *)
Fixpoint until_fails (c : list Z -> ucall) (msg : list Z -> list Z) (args : list (list Z)) : M world unit :=
  match args with
  | [] => mret tt
  | a :: args' =>
    r ← ucall_ (c a);
    if r <? 0 then uprint 2 (msg a) else until_fails c msg args'
  end.
Definition mkdir_main (args : list (list Z)) : M world unit :=
  if args is [] then uprint 2 (line [str "Usage: mkdir files..."]);; uexit
  else until_fails Umkdir (fun a => line [str "mkdir: "; a; str " failed to create"]) args;; uexit.
Definition rm_main (args : list (list Z)) : M world unit :=
  if args is [] then uprint 2 (line [str "Usage: rm files..."]);; uexit
  else until_fails Uunlink (fun a => line [str "rm: "; a; str " failed to delete"]) args;; uexit.

Definition zombie_main : M world unit :=
  pid ← ucall_ Ufork;
  (when 0 <? pid do (ucall_ (Usleep 5);; mret tt));;
  uexit.

(** ** grep.c and wc.c *)

(** The inner loop of grep: each line that matches is written; what is left at p. *)
Fixpoint grep_emit (pattern b : list Z) (fuel : nat) : M world (list Z) :=
  match fuel with
  | O => nofuel
  | S f =>
    match find_line b with
    | Some (line, rest) =>
      (when grep_match pattern line do (ucall_ (Uwrite 1 (line ++ [10]));; mret tt));;
      grep_emit pattern rest f
    | None => mret b
    end
  end.
(** The outer loop, with [kept] at the start of the buffer. *)
Fixpoint grep_reads (pattern : list Z) (fd : Z) (kept : list Z) (fuel : nat) : M world unit :=
  match fuel with
  | O => nofuel
  | S f =>
    r ← ucallM (Uread fd (1024 - Z.of_nat (length kept) - 1));
    if 0 <? a_ret r then
      let b := kept ++ a_data r in
      p ← grep_emit pattern b (S (length b));
      grep_reads pattern fd (if (length p =? length b)%nat then [] else p) f
    else mret tt
  end.
Definition grep_fd (pattern : list Z) (fd : Z) : M world unit := with_answers (grep_reads pattern fd []).

Definition grep_main (args : list (list Z)) : M world unit :=
  match args with
  | [] => uprint 2 (line [str "usage: grep pattern [file ...]"]);; uexit
  | [pattern] => grep_fd pattern 0;; uexit
  | pattern :: files =>
    for_each (fun path =>
      fd ← ucall_ (Uopen path 0);
      if fd <? 0 then uprint 1 (line [str "grep: cannot open "; path]);; uexit
      else grep_fd pattern fd;; ucall_ (Uclose fd);; mret tt) files;;
    uexit
  end.

Fixpoint wc_reads (fd : Z) (s : counts) (fuel : nat) : M world counts :=
  match fuel with
  | O => nofuel
  | S f =>
    r ← ucallM (Uread fd 512);
    if 0 <? a_ret r then wc_reads fd (foldl wc_char s (a_data r)) f
    else if a_ret r <? 0 then uprint 1 (line [str "wc: read error"]);; uexit
    else mret s
  end.
Definition wc_line (s : counts) (name : list Z) : list Z :=
  line [uprintint (wc_l s) 10 true; [32]; uprintint (wc_w s) 10 true; [32]; uprintint (wc_c s) 10 true; [32]; name].
Definition wc_fd (fd : Z) (name : list Z) : M world unit :=
  s ← with_answers (wc_reads fd {| wc_l := 0; wc_w := 0; wc_c := 0; wc_inword := false |});
  uprint 1 (wc_line s name).

Definition wc_main (args : list (list Z)) : M world unit :=
  match args with
  | [] => wc_fd 0 [];; uexit
  | _ =>
    for_each (fun path =>
      fd ← ucall_ (Uopen path 0);
      if fd <? 0 then uprint 1 (line [str "wc: cannot open "; path]);; uexit
      else wc_fd fd path;; ucall_ (Uclose fd);; mret tt) args;;
    uexit
  end.

(** ** ulib.c stat *)

Definition ustat (n : list Z) : M world (Z * (Z * Z * Z)) :=
  fd ← ucall_ (Uopen n O_RDONLY);
  if fd <? 0 then mret (-1, (0, 0, 0))
  else
    r ← ucallM (Ufstat fd);
    ucall_ (Uclose fd);;
    mret (a_ret r, a_stat r).

(** ** ls.c *)

(** The characters after the last slash: p moves down from the end of the path
    to a slash, or below its start. *)
Fixpoint after_slash (n : nat) (path : list Z) : list Z :=
  match n with
  | O => if nthz path 0 =? SLASH then drop 1 path else path
  | S n' => if nthz path (Z.of_nat n) =? SLASH then drop (S n) path else after_slash n' path
  end.
(** strlen(path) is the offset of the terminating NUL, where p starts. *)
Definition fmtname (path : list Z) : list Z :=
  let p := after_slash (length path) path in
  if (DIRSIZ <=? length p)%nat then p else p ++ replicate (DIRSIZ - length p) 32.

Definition ls_line (name : list Z) (st : Z * Z * Z) : list Z :=
  let '(ty, ino, size) := st in
  line [name; [32]; uprintint (i32 ty) 10 true; [32]; uprintint (i32 ino) 10 true; [32]; uprintint (i32 size) 10 true].

(** while(read(fd, &de, sizeof(de)) == sizeof(de)) *)
Fixpoint ls_dir (path : list Z) (fd : Z) (fuel : nat) : M world unit :=
  match fuel with
  | O => nofuel
  | S f =>
    r ← ucallM (Uread fd DIRENT_SIZE);
    if negb (a_ret r =? DIRENT_SIZE) then mret tt
    else if de_inum (a_data r) =? 0 then ls_dir path fd f
    else
      let buf := path ++ [SLASH] ++ to_nul (de_name (a_data r)) in
      st ← ustat buf;
      (if st.1 <? 0 then uprint 1 (line [str "ls: cannot stat "; buf])
       else uprint 1 (ls_line (fmtname buf) st.2));;
      ls_dir path fd f
  end.

Definition ls (path : list Z) : M world unit :=
  fd ← ucall_ (Uopen path 0);
  if fd <? 0 then uprint 2 (line [str "ls: cannot open "; path])
  else
    r ← ucallM (Ufstat fd);
    if a_ret r <? 0 then
      uprint 2 (line [str "ls: cannot stat "; path]);;
      ucall_ (Uclose fd);; mret tt
    else
      let '(ty, ino, size) := a_stat r in
      (if ty =? T_FILE then uprint 1 (ls_line (fmtname path) (a_stat r))
       else if ty =? T_DIR then
         if (512 <? length path + 1 + DIRSIZ + 1)%nat then uprint 1 (line [str "ls: path too long"])
         else with_answers (ls_dir path fd)
       else mret tt);;
      ucall_ (Uclose fd);; mret tt.

Definition ls_main (args : list (list Z)) : M world unit :=
  if args is [] then ls [46];; uexit
  else for_each ls args;; uexit.

(** ** init.c *)

(** while((wpid=wait()) >= 0 && wpid != pid) *)
Fixpoint init_wait (pid : Z) (fuel : nat) : M world unit :=
  match fuel with
  | O => nofuel
  | S f =>
    wpid ← ucall_ Uwait;
    if (0 <=? wpid) && negb (wpid =? pid) then uprint 1 (line [str "zombie!"]);; init_wait pid f
    else mret tt
  end.
Fixpoint init_loop (fuel : nat) : M world unit :=
  match fuel with
  | O => nofuel
  | S f =>
    uprint 1 (line [str "init: starting sh"]);;
    pid ← ucall_ Ufork;
    if pid <? 0 then uprint 1 (line [str "init: fork failed"]);; uexit
    else if pid =? 0 then
      ucall_ (Uexec (str "sh") [str "sh"]);;
      uprint 1 (line [str "init: exec sh failed"]);;
      uexit
    else with_answers (init_wait pid);; init_loop f
  end.
Definition init_main : M world unit :=
  r ← ucall_ (Uopen (str "console") O_RDWR);
  (when r <? 0 do
     (ucall_ (Umknod (str "console") 1 1);;
      ucall_ (Uopen (str "console") O_RDWR);; mret tt));;
  ucall_ (Udup 0);;
  ucall_ (Udup 0);;
  with_answers init_loop.

(** ** sh.c: the main loop *)

(** while((fd = open("console", O_RDWR)) >= 0) *)
Fixpoint open_three (fuel : nat) : M world unit :=
  match fuel with
  | O => nofuel
  | S f =>
    fd ← ucall_ (Uopen (str "console") O_RDWR);
    if 0 <=? fd then
      if 3 <=? fd then ucall_ (Uclose fd);; mret tt else open_three f
    else mret tt
  end.

(** gets: read(0, &c, 1) until the end of the line, [n] characters at most. *)
Fixpoint ugets (n : nat) : M world (list Z) :=
  match n with
  | O => mret []
  | S n' =>
    r ← ucallM (Uread 0 1);
    if a_ret r <? 1 then mret []
    else
      let c := nthz (a_data r) 0 in
      if (c =? 10) || (c =? 13) then mret [c]
      else l ← ugets n'; mret (c :: l)
  end.

(** The line, or nothing at the end of the input; buf has 100 bytes. *)
Definition getcmd : M world (option (list Z)) :=
  uprint 2 (str "$ ");;
  l ← ugets 99;
  if nthz l 0 =? 0 then mret None else mret (Some (to_nul l)).

(** while(getcmd(buf, sizeof(buf)) >= 0): in a child, the line it parses and
    runs. *)
Fixpoint sh_loop (fuel : nat) : M world (list Z) :=
  match fuel with
  | O => nofuel
  | S f =>
    o ← getcmd;
    match o with
    | None => uexit
    | Some buf =>
      if bool_decide (take 3 buf = str "cd ") then
        let path := drop 3 (removelast buf) in
        r ← ucall_ (Uchdir path);
        (when r <? 0 do uprint 2 (line [str "cannot cd "; path]));;
        sh_loop f
      else
        pid ← ucall_ Ufork;
        if pid =? -1 then uprint 2 (line [str "fork"]);; uexit
        else if pid =? 0 then mret buf
        else ucall_ Uwait;; sh_loop f
    end
  end.
Definition sh_main : M world (list Z) := with_answers open_three;; with_answers sh_loop.

(** ** cat copies, echo prints, ls shortens *)

Definition no_stat : Z * Z * Z := (0, 0, 0).
(** The answers to a program that reads the [chunks] of a file and writes each of
    them. *)
Definition copy_answers (chunks : list (list Z)) : list answer :=
  concat ((fun d => [mkAnswer (Z.of_nat (length d)) d no_stat; mkAnswer (Z.of_nat (length d)) [] no_stat]) <$> chunks) ++
  [mkAnswer 0 [] no_stat].
Definition copy_calls (fd : Z) (chunks : list (list Z)) : list ucall :=
  concat ((fun d => [Uread fd 512; Uwrite 1 d]) <$> chunks) ++ [Uread fd 512].

(** The bytes written to a descriptor. *)
Definition written (fd : Z) (cs : list ucall) : list Z :=
  concat ((fun c => match c with Uwrite fd' d => if fd' =? fd then d else [] | _ => [] end) <$> cs).

Lemma cat_loop_copies fd chunks : forall fuel cs rest,
  Forall (fun d => d <> []) chunks -> (length chunks < fuel)%nat ->
  cat_loop fd fuel (mkWorld cs (copy_answers chunks ++ rest)) = Ok tt (mkWorld (cs ++ copy_calls fd chunks) rest).
Proof.
  induction chunks as [|d chunks IH]; intros fuel cs rest Hne Hf; destruct fuel as [|fuel]; try (cbn in Hf; lia); [done|].
  apply Forall_cons in Hne as [Hd Hne]. assert (0 < Z.of_nat (length d)) as Hl by (destruct d; [done|cbn; lia]).
  change (copy_answers (d :: chunks) ++ rest) with
    (mkAnswer (Z.of_nat (length d)) d no_stat :: mkAnswer (Z.of_nat (length d)) [] no_stat :: copy_answers chunks ++ rest).
  cbn [cat_loop]. unfold mbind at 1, M_bind at 1. cbn [ucallM w_answers w_calls a_ret a_data]. rewrite (proj2 (Z.ltb_lt _ _)) by done.
  unfold ucall_, mbind, M_bind. cbn [ucallM w_answers w_calls mret M_ret a_ret]. rewrite Z.eqb_refl. cbn [negb].
  rewrite IH; [|done|cbn in Hf; lia]. do 2 f_equal. unfold copy_calls. cbn. by rewrite <- !app_assoc.
Qed.

(** cat writes the file, however the reads cut it. *)
Lemma cat_copies fd chunks rest :
  Forall (fun d => d <> []) chunks ->
  exists cs, cat fd (mkWorld [] (copy_answers chunks ++ rest)) = Ok tt (mkWorld cs rest) /\ written 1 cs = concat chunks.
Proof.
  intros Hne. exists (copy_calls fd chunks). unfold cat, with_answers. split.
  - apply (cat_loop_copies fd chunks _ [] rest Hne). cbn [w_answers]. rewrite length_app. unfold copy_answers. rewrite length_app.
    assert (length chunks <= length (concat ((fun d => [mkAnswer (Z.of_nat (length d)) d no_stat; mkAnswer (Z.of_nat (length d)) [] no_stat]) <$> chunks)))%nat; [|lia].
    clear Hne. induction chunks as [|d chunks IH]; cbn; lia.
  - unfold written, copy_calls. rewrite fmap_app, concat_app. cbn. rewrite app_nil_r. clear Hne. induction chunks as [|d chunks IH]; cbn; [done|]. by rewrite IH.
Qed.

(** printf writes the bytes in order. *)
Lemma uprint_writes fd l : forall cs ans rest, length ans = length l ->
  uprint fd l (mkWorld cs (ans ++ rest)) = Ok tt (mkWorld (cs ++ ((fun c => Uwrite fd [c]) <$> l)) rest).
Proof.
  induction l as [|c l IH]; intros cs [|a ans] rest Hl; try done; cbn [uprint app]; [by rewrite app_nil_r|].
  unfold ucall_, mbind, M_bind. cbn [ucallM w_answers w_calls mret M_ret]. rewrite IH by (by injection Hl). by rewrite <- app_assoc.
Qed.

(** wc prints the counts of the file, however the reads cut it. *)
Definition read_answers (chunks : list (list Z)) : list answer := (fun d => mkAnswer (Z.of_nat (length d)) d no_stat) <$> chunks ++ [[]].
Lemma wc_reads_counts fd chunks : forall s fuel cs rest,
  Forall (fun d => d <> []) chunks -> (length chunks < fuel)%nat ->
  wc_reads fd s fuel (mkWorld cs (read_answers chunks ++ rest)) = Ok (foldl (foldl wc_char) s chunks) (mkWorld (cs ++ replicate (S (length chunks)) (Uread fd 512)) rest).
Proof.
  induction chunks as [|d chunks IH]; intros s fuel cs rest Hne Hf; destruct fuel as [|fuel]; try (cbn in Hf; lia); [done|].
  apply Forall_cons in Hne as [Hd Hne]. assert (0 < Z.of_nat (length d)) as Hl by (destruct d; [done|cbn; lia]).
  change (read_answers (d :: chunks) ++ rest) with (mkAnswer (Z.of_nat (length d)) d no_stat :: read_answers chunks ++ rest).
  cbn [wc_reads]. unfold mbind, M_bind. cbn [ucallM w_answers w_calls a_ret a_data]. rewrite (proj2 (Z.ltb_lt _ _)) by done.
  rewrite IH; [|done|cbn in Hf; lia]. cbn [foldl length replicate]. by rewrite <- app_assoc.
Qed.
Lemma wc_prints fd name chunks ans rest :
  Forall (fun d => d <> []) chunks -> length ans = length (wc_line (wc chunks) name) ->
  exists cs, wc_fd fd name (mkWorld [] (read_answers chunks ++ ans ++ rest)) = Ok tt (mkWorld cs rest) /\ written 1 cs = wc_line (wc chunks) name.
Proof.
  intros Hne Hl. assert (E : with_answers (wc_reads fd {| wc_l := 0; wc_w := 0; wc_c := 0; wc_inword := false |}) (mkWorld [] (read_answers chunks ++ ans ++ rest)) =
    Ok (wc chunks) (mkWorld (replicate (S (length chunks)) (Uread fd 512)) (ans ++ rest))).
  { unfold with_answers. apply (wc_reads_counts fd chunks _ _ [] (ans ++ rest) Hne). cbn [w_answers]. unfold read_answers. rewrite length_app, length_fmap, length_app. cbn. lia. }
  eexists. unfold wc_fd. rewrite (bind_ok _ _ _ _ _ E), (uprint_writes 1 _ _ ans rest Hl). split; [done|].
  unfold written. rewrite fmap_app, concat_app. generalize (wc_line (wc chunks) name) as l. intros l.
  generalize (S (length chunks)) as n. intros n. induction n as [|n IHn]; [|exact IHn]. induction l as [|c l IH]; cbn; [done|]. by f_equal.
Qed.

(** grep writes the lines of a file that match, a file being given out in parts as
    [count] says. *)
Lemma output_app fd cs1 cs2 : written fd (cs1 ++ cs2) = written fd cs1 ++ written fd cs2.
Proof. unfold written. by rewrite fmap_app, concat_app. Qed.
Lemma find_line_some b : forall l r, find_line b = Some (l, r) -> (length r < length b)%nat.
Proof.
  induction b as [|c b IH]; intros l r; cbn; [done|]. destruct (c =? 0); [done|]. destruct (c =? 10); [intros [= <- <-]; lia|].
  destruct (find_line b) as [[l' r']|]; [|done]. intros [= <- <-]. specialize (IH _ _ eq_refl). lia.
Qed.
Lemma grep_emit_lines pattern fuel : forall b out, (length b < fuel)%nat ->
  exists ans ws, (grep_lines pattern b out fuel).1 = out ++ written 1 ws /\
    forall cs rest, grep_emit pattern b fuel (mkWorld cs (ans ++ rest)) = Ok (grep_lines pattern b out fuel).2 (mkWorld (cs ++ ws) rest).
Proof.
  induction fuel as [|fuel IH]; intros b out Hb; [lia|]. cbn [grep_lines grep_emit]. destruct (find_line b) as [[l r]|] eqn:E.
  2:{ exists [], []. split; [cbn; by rewrite app_nil_r|]. intros cs rest. by rewrite app_nil_r. }
  apply find_line_some in E. destruct (grep_match pattern l).
  - destruct (IH r (out ++ l ++ [10]) ltac:(lia)) as (ans & ws & Eo & Er). exists (mkAnswer 0 [] no_stat :: ans), (Uwrite 1 (l ++ [10]) :: ws). split.
    + rewrite Eo. cbn. by rewrite <- !app_assoc.
    + intros cs rest. unfold mbind, M_bind, ucall_. cbn. unfold mbind, M_bind. cbn. rewrite Er. by rewrite <- app_assoc.
  - destruct (IH r out ltac:(lia)) as (ans & ws & Eo & Er). exists ans, ws. split; [done|]. intros cs rest. apply Er.
Qed.
Lemma grep_reads_file count pattern fd : forall fuel file kept out out', grep_loop count pattern file kept out fuel = Some out' -> (forall n m, count n m <= m)%nat ->
  exists ans ws, out' = out ++ written 1 ws /\ (0 < length ans)%nat /\
    forall n cs rest, (length ans <= n)%nat -> grep_reads pattern fd kept n (mkWorld cs (ans ++ rest)) = Ok tt (mkWorld (cs ++ ws) rest).
Proof.
  induction fuel as [|fuel IH]; intros file kept out out' E Hc; cbn [grep_loop] in E; set (k := count _ _) in E; destruct k as [|k'] eqn:Ek.
  1,3: injection E as <-; exists [mkAnswer 0 [] no_stat], [Uread fd (1024 - Z.of_nat (length kept) - 1)]; split_and!; [cbn; by rewrite app_nil_r|cbn; lia|];
    intros [|n] cs rest Hn; [cbn in Hn; lia|]; done.
  { done. }
  assert (Hk : (S k' <= length file)%nat) by (rewrite <- Ek; apply Hc). set (d := take (S k') file) in *. assert (Hd : 0 < Z.of_nat (length d)) by (unfold d; rewrite length_take; lia).
  set (b := kept ++ d) in *. destruct (grep_emit_lines pattern (S (length b)) b out ltac:(lia)) as (ans1 & ws1 & Eo & Er). destruct (grep_lines pattern b out (S (length b))) as [out1 p]. cbn [fst snd] in *. subst out1.
  destruct (IH _ _ _ _ E Hc) as (ans2 & ws2 & -> & Hpos & Er2).
  exists (mkAnswer (Z.of_nat (length d)) d no_stat :: ans1 ++ ans2), (Uread fd (1024 - Z.of_nat (length kept) - 1) :: ws1 ++ ws2). split_and!; [change (written 1 (_ :: ?w)) with (written 1 w); by rewrite output_app, app_assoc|cbn; lia|].
  intros [|n] cs rest Hn; [cbn in Hn; lia|]. cbn [length] in Hn. rewrite length_app in Hn. cbn [grep_reads app]. unfold mbind at 1, M_bind at 1. cbn [ucallM w_answers w_calls a_ret a_data]. rewrite (proj2 (Z.ltb_lt _ _) Hd).
  fold b. rewrite <- app_assoc. rewrite (bind_ok _ _ _ _ _ (Er _ _)). rewrite Er2 by lia. by rewrite <- !app_assoc.
Qed.
Lemma grep_writes count pattern fd file out : (forall n m, count n m <= m)%nat -> grep count pattern file = Some out ->
  exists ans cs, grep_fd pattern fd (mkWorld [] ans) = Ok tt (mkWorld cs []) /\ written 1 cs = out.
Proof.
  intros Hc E. destruct (grep_reads_file count pattern fd _ _ _ _ _ E Hc) as (ans & ws & -> & _ & Er). exists ans, ws. split; [|done].
  unfold grep_fd, with_answers. cbn [w_answers]. specialize (Er (S (length ans)) [] [] ltac:(lia)). by rewrite app_nil_r in Er.
Qed.

Lemma nthz_plain l i : Forall (fun c => c <> SLASH) l -> nthz l i <> SLASH.
Proof.
  intros Hl. unfold nthz. rewrite list_lookup_total_alt. destruct (l !! Z.to_nat i) as [c|] eqn:E; [|cbn; discriminate].
  rewrite Forall_lookup in Hl. by apply (Hl _ c E).
Qed.

Lemma after_slash_none n path : Forall (fun c => c <> SLASH) path -> after_slash n path = path.
Proof.
  intros Hp. induction n as [|n IH]; cbn [after_slash]; by rewrite (proj2 (Z.eqb_neq _ _)) by (by apply nthz_plain).
Qed.

Lemma after_slash_path dir name n :
  Forall (fun c => c <> SLASH) name -> after_slash (length dir + n) (dir ++ SLASH :: name) = name.
Proof.
  intros Hn. assert (Hd : drop (S (length dir)) (dir ++ SLASH :: name) = name).
  { rewrite cons_middle, app_assoc. apply drop_app_length'. rewrite length_app. cbn. lia. }
  induction n as [|n IH].
  - rewrite Nat.add_0_r. assert (Hs : nthz (dir ++ SLASH :: name) (Z.of_nat (length dir)) = SLASH).
    { unfold nthz. rewrite Nat2Z.id, list_lookup_total_alt, lookup_app_r by lia. by rewrite Nat.sub_diag. }
    destruct (length dir) as [|k] eqn:El; [change (Z.of_nat 0) with 0 in Hs|]; cbn [after_slash]; rewrite Hs, Z.eqb_refl; exact Hd.
  - rewrite Nat.add_succ_r. cbn [after_slash]. rewrite (proj2 (Z.eqb_neq _ _)); [exact IH|].
    unfold nthz. rewrite Nat2Z.id, list_lookup_total_alt, lookup_app_r by lia.
    replace (S (length dir + n) - length dir)%nat with (S n) by lia. cbn [lookup list_lookup].
    pose proof (nthz_plain name (Z.of_nat n) Hn) as H. unfold nthz in H. by rewrite Nat2Z.id, list_lookup_total_alt in H.
Qed.

(** fmtname: the last element of the path, padded with blanks to DIRSIZ. *)
Lemma fmtname_last dir name :
  Forall (fun c => c <> SLASH) name ->
  fmtname (dir ++ SLASH :: name) = name ++ replicate (DIRSIZ - length name) 32 /\
  fmtname name = name ++ replicate (DIRSIZ - length name) 32.
Proof.
  intros Hn. unfold fmtname. rewrite (after_slash_none _ name) by done.
  replace (length (dir ++ SLASH :: name)) with (length dir + S (length name))%nat by (rewrite length_app; cbn; lia).
  rewrite after_slash_path by done. destruct (Nat.leb_spec DIRSIZ (length name)) as [H|H]; [|split; reflexivity].
  replace (DIRSIZ - length name)%nat with O by lia. rewrite app_nil_r. split; reflexivity.
Qed.
