(* ===== verification/Gate.v ===== *)
(** * mmu.h, asm.h: segment and gate descriptors

    A descriptor is the eight bytes the processor reads, here as one number of
    64 bits.  [pack] lays the bit fields of a structure out from the lowest bit,
    as the compiler does on the i386.  [seg_base], [gate_offset] and the like
    are what the processor takes from a descriptor; the theorems say that it
    takes what the C code put in.  seginit and tvinit fill the tables of
    descriptors. *)

From S2P Require Import Prelude State.
Open Scope Z_scope.

(** ** Bit fields *)

(** Fields with their widths, from the lowest bit. *)
Fixpoint pack (l : list (Z * Z)) : Z :=
  match l with
  | [] => 0
  | (w, v) :: l' => v mod 2 ^ w + 2 ^ w * pack l'
  end.
(** [w] bits of [d] from bit [n] on. *)
Definition bits (d n w : Z) : Z := Z.shiftr d n mod 2 ^ w.

(** ** mmu.h *)

Definition SEG_KCODE : nat := 1.
Definition SEG_KDATA : nat := 2.
Definition SEG_UCODE : nat := 3.
Definition SEG_UDATA : nat := 4.
Definition SEG_TSS : nat := 5.
Definition NSEGS : nat := 6.
Definition DPL_USER : Z := 3.
Definition STA_X : Z := 8.
Definition STA_W : Z := 2.
Definition STA_R : Z := 2.
Definition STS_T32A : Z := 9.
Definition STS_IG32 : Z := 14.
Definition STS_TG32 : Z := 15.

Record segdesc := mkSegdesc {
  lim_15_0 : Z; base_15_0 : Z; base_23_16 : Z; sd_type : Z; sd_s : Z; sd_dpl : Z; sd_p : Z;
  lim_19_16 : Z; sd_avl : Z; sd_rsv1 : Z; sd_db : Z; sd_g : Z; base_31_24 : Z
}.
Definition seg_fields (d : segdesc) : list (Z * Z) :=
  [(16, lim_15_0 d); (16, base_15_0 d); (8, base_23_16 d); (4, sd_type d); (1, sd_s d); (2, sd_dpl d); (1, sd_p d);
   (4, lim_19_16 d); (1, sd_avl d); (1, sd_rsv1 d); (1, sd_db d); (1, sd_g d); (8, base_31_24 d)].

Definition SEG (type base lim dpl : Z) : segdesc :=
  mkSegdesc (Z.land (Z.shiftr lim 12) 65535) (Z.land (u32 base) 65535)
    (Z.land (Z.shiftr (u32 base) 16) 255) type 1 dpl 1
    (Z.shiftr (u32 lim) 28) 0 0 1 1 (Z.shiftr (u32 base) 24).
Definition SEG16 (type base lim dpl : Z) : segdesc :=
  mkSegdesc (Z.land lim 65535) (Z.land (u32 base) 65535)
    (Z.land (Z.shiftr (u32 base) 16) 255) type 1 dpl 1
    (Z.shiftr (u32 lim) 16) 0 0 1 0 (Z.shiftr (u32 base) 24).

Record gatedesc := mkGatedesc {
  off_15_0 : Z; gd_cs : Z; gd_args : Z; gd_rsv1 : Z; gd_type : Z; gd_s : Z; gd_dpl : Z; gd_p : Z; off_31_16 : Z
}.
Definition gate_fields (g : gatedesc) : list (Z * Z) :=
  [(16, off_15_0 g); (16, gd_cs g); (5, gd_args g); (3, gd_rsv1 g); (4, gd_type g); (1, gd_s g); (2, gd_dpl g);
   (1, gd_p g); (16, off_31_16 g)].

Definition SETGATE (istrap : bool) (sel off d : Z) : gatedesc :=
  mkGatedesc (Z.land (u32 off) 65535) sel 0 0 (if istrap then STS_TG32 else STS_IG32) 0 d 1
    (Z.shiftr (u32 off) 16).

(** ** asm.h: the descriptors of the boot loader, as bytes *)

Definition SEG_NULLASM : list Z := le_enc 2 0 ++ le_enc 2 0 ++ [0; 0; 0; 0].
Definition SEG_ASM (type base lim : Z) : list Z :=
  le_enc 2 (Z.land (Z.shiftr lim 12) 65535) ++ le_enc 2 (Z.land base 65535) ++
  [Z.land (Z.shiftr base 16) 255; Z.lor 144 type;
   Z.lor 192 (Z.land (Z.shiftr lim 28) 15); Z.land (Z.shiftr base 24) 255].

(** The table of bootasm.S and entryother.S. *)
Definition boot_gdt : list Z :=
  SEG_NULLASM ++ SEG_ASM (Z.lor STA_X STA_R) 0 4294967295 ++ SEG_ASM STA_W 0 4294967295.

(** ** vm.c, trap.c *)

(** c->gdt, with what it holds before in the entries that are not set. *)
Definition seginit (gdt : list Z) : list Z :=
  let set i d (t : list Z) := <[i := pack (seg_fields d)]> t in
  set SEG_UDATA (SEG STA_W 0 4294967295 DPL_USER)
  (set SEG_UCODE (SEG (Z.lor STA_X STA_R) 0 4294967295 DPL_USER)
  (set SEG_KDATA (SEG STA_W 0 4294967295 0)
  (set SEG_KCODE (SEG (Z.lor STA_X STA_R) 0 4294967295 0) gdt))).

(** The fields of struct taskstate with their sizes. *)
Definition taskstate_fields : list (string * Z) :=
  [("link", 4); ("esp0", 4); ("ss0", 2); ("padding1", 2); ("esp1", 4); ("ss1", 2); ("padding2", 2); ("esp2", 4); ("ss2", 2);
   ("padding3", 2); ("cr3", 4); ("eip", 4); ("eflags", 4); ("eax", 4); ("ecx", 4); ("edx", 4); ("ebx", 4); ("esp", 4); ("ebp", 4);
   ("esi", 4); ("edi", 4); ("es", 2); ("padding4", 2); ("cs", 2); ("padding5", 2); ("ss", 2); ("padding6", 2); ("ds", 2);
   ("padding7", 2); ("fs", 2); ("padding8", 2); ("gs", 2); ("padding9", 2); ("ldt", 2); ("padding10", 2); ("t", 2); ("iomb", 2)]%string.

(** The task state descriptor of switchuvm: [ts] is &mycpu()->ts. *)
Definition set_s (x : Z) (d : segdesc) : segdesc :=
  mkSegdesc (lim_15_0 d) (base_15_0 d) (base_23_16 d) (sd_type d) x (sd_dpl d) (sd_p d)
    (lim_19_16 d) (sd_avl d) (sd_rsv1 d) (sd_db d) (sd_g d) (base_31_24 d).
Definition TASKSTATE_SIZE : Z := foldr (fun f n => snd f + n) 0 taskstate_fields.
Definition switchuvm_tss (ts : Z) (gdt : list Z) : list Z :=
  <[SEG_TSS := pack (seg_fields (set_s 0 (SEG16 STS_T32A ts (TASKSTATE_SIZE - 1) 0)))]> gdt.

Definition T_SYSCALL : nat := 64.

(** The selector SEG_KCODE<<3. *)
Definition kcode_sel : Z := Z.shiftl (Z.of_nat SEG_KCODE) 3.
Definition tvinit (vectors : Z -> Z) : list Z :=
  let gate b v d := pack (gate_fields (SETGATE b kcode_sel (vectors v) d)) in
  <[T_SYSCALL := gate true (Z.of_nat T_SYSCALL) DPL_USER]>
    ((fun i : nat => gate false (Z.of_nat i) 0) <$> seq 0 256).

(** ** What the processor reads *)

Definition seg_base (d : Z) : Z := bits d 16 24 + bits d 56 8 * 2 ^ 24.
(** The last offset in the segment. *)
Definition seg_limit (d : Z) : Z :=
  let l := bits d 0 16 + bits d 48 4 * 2 ^ 16 in
  if bits d 55 1 =? 1 then l * 4096 + 4095 else l.
Definition seg_type (d : Z) : Z := bits d 40 4.
Definition seg_app (d : Z) : bool := bits d 44 1 =? 1.
Definition seg_dpl (d : Z) : Z := bits d 45 2.
Definition seg_present (d : Z) : bool := bits d 47 1 =? 1.

Definition gate_offset (d : Z) : Z := bits d 0 16 + bits d 48 16 * 2 ^ 16.
Definition gate_sel (d : Z) : Z := bits d 16 16.
Definition gate_type (d : Z) : Z := bits d 40 4.
Definition gate_dpl (d : Z) : Z := bits d 45 2.
Definition gate_present (d : Z) : bool := bits d 47 1 =? 1.

(** ** Lemmas *)

Lemma bits_0 d w : bits d 0 w = d mod 2 ^ w.
Proof. done. Qed.
Lemma pack_hit w v l : bits (pack ((w, v) :: l)) 0 w = v mod 2 ^ w.
Proof.
  rewrite bits_0. cbn [pack]. rewrite (Z.mul_comm (2 ^ w)), Z_mod_plus_full. apply Zmod_mod.
Qed.
(** A field further up is a field of the rest. *)
Lemma pack_skip w v l n k : 0 <= w <= n -> bits (pack ((w, v) :: l)) n k = bits (pack l) (n - w) k.
Proof.
  intros H. unfold bits. f_equal. replace n with (w + (n - w)) at 1 by lia.
  rewrite <- Z.shiftr_shiftr by lia. f_equal. cbn [pack]. rewrite Z.shiftr_div_pow2 by lia.
  pose proof (Z.pow_pos_nonneg 2 w ltac:(lia) ltac:(lia)).
  rewrite (Z.mul_comm (2 ^ w)), Z_div_plus by lia. rewrite Z.div_small; [lia|]. apply Z.mod_pos_bound. lia.
Qed.
(** Two fields one after the other. *)
Lemma bits_split d n w k : 0 <= n -> 0 <= w -> 0 <= k -> bits d n (w + k) = bits d n w + 2 ^ w * bits d (n + w) k.
Proof.
  intros H1 H2 H3. unfold bits. rewrite <- Z.shiftr_shiftr by lia. rewrite (Z.shiftr_div_pow2 _ w) by lia.
  rewrite Z.pow_add_r by lia. apply Z.rem_mul_r; [|apply Z.pow_pos_nonneg; lia].
  pose proof (Z.pow_pos_nonneg 2 w). lia.
Qed.

Ltac field := rewrite ?pack_skip by lia; apply pack_hit.

Lemma seg_fields_read d : let w := pack (seg_fields d) in
  bits w 0 16 = lim_15_0 d mod 2 ^ 16 /\ bits w 16 16 = base_15_0 d mod 2 ^ 16 /\ bits w 32 8 = base_23_16 d mod 2 ^ 8 /\
  bits w 40 4 = sd_type d mod 2 ^ 4 /\ bits w 44 1 = sd_s d mod 2 ^ 1 /\ bits w 45 2 = sd_dpl d mod 2 ^ 2 /\
  bits w 47 1 = sd_p d mod 2 ^ 1 /\ bits w 48 4 = lim_19_16 d mod 2 ^ 4 /\ bits w 52 1 = sd_avl d mod 2 ^ 1 /\
  bits w 53 1 = sd_rsv1 d mod 2 ^ 1 /\ bits w 54 1 = sd_db d mod 2 ^ 1 /\ bits w 55 1 = sd_g d mod 2 ^ 1 /\
  bits w 56 8 = base_31_24 d mod 2 ^ 8.
Proof. unfold seg_fields. cbv zeta. split_and!; field. Qed.

Lemma gate_fields_read g : let w := pack (gate_fields g) in
  bits w 0 16 = off_15_0 g mod 2 ^ 16 /\ bits w 16 16 = gd_cs g mod 2 ^ 16 /\ bits w 40 4 = gd_type g mod 2 ^ 4 /\
  bits w 45 2 = gd_dpl g mod 2 ^ 2 /\ bits w 47 1 = gd_p g mod 2 ^ 1 /\ bits w 48 16 = off_31_16 g mod 2 ^ 16.
Proof. unfold gate_fields. cbv zeta. split_and!; field. Qed.

Lemma land_mod x n : 0 <= n -> Z.land x (2 ^ n - 1) = x mod 2 ^ n.
Proof. intros H. rewrite <- Z.land_ones by done. f_equal. rewrite Z.ones_equiv. lia. Qed.
Lemma land_65535 x : Z.land x 65535 = x mod 65536.
Proof. exact (land_mod x 16 ltac:(lia)). Qed.
Lemma land_255 x : Z.land x 255 = x mod 256.
Proof. exact (land_mod x 8 ltac:(lia)). Qed.
Ltac shifts := rewrite ?land_65535, ?land_255, ?Z.shiftr_div_pow2 by lia; zlia.

Lemma seg_base_fields d : seg_base d = bits d 16 16 + 2 ^ 16 * bits d 32 8 + bits d 56 8 * 2 ^ 24.
Proof. unfold seg_base. f_equal. apply (bits_split d 16 16 8); lia. Qed.

(** The processor reads from a descriptor of SEG the base, the type, the
    privilege level and a limit that covers the page of [lim]. *)
Lemma SEG_reads type base lim dpl :
  0 <= type < 16 -> 0 <= base < 4294967296 -> 0 <= lim < 4294967296 -> 0 <= dpl < 4 ->
  let d := pack (seg_fields (SEG type base lim dpl)) in
  seg_base d = base /\ seg_limit d = lim / 4096 * 4096 + 4095 /\ seg_type d = type /\ seg_dpl d = dpl /\
  seg_app d = true /\ seg_present d = true.
Proof.
  intros Ht Hb Hl Hd d. destruct (seg_fields_read (SEG type base lim dpl)) as (E1 & E2 & E3 & E4 & E5 & E6 & E7 & E8 & _ & _ & _ & E9 & E10).
  fold d in E1, E2, E3, E4, E5, E6, E7, E8, E9, E10.
  rewrite seg_base_fields. unfold seg_limit, seg_type, seg_dpl, seg_app, seg_present. rewrite E1, E2, E3, E4, E5, E6, E7, E8, E9, E10.
  cbn [SEG lim_15_0 base_15_0 base_23_16 sd_type sd_s sd_dpl sd_p lim_19_16 sd_g base_31_24].
  split_and!; try done; try (change (1 mod 2 ^ 1 =? 1) with true; cbv iota); shifts.
Qed.

(** With the granularity of a byte: the limit is [lim] itself. *)
Lemma SEG16_reads type base lim dpl :
  0 <= type < 16 -> 0 <= base < 4294967296 -> 0 <= lim < 1048576 -> 0 <= dpl < 4 ->
  let d := pack (seg_fields (set_s 0 (SEG16 type base lim dpl))) in
  seg_base d = base /\ seg_limit d = lim /\ seg_type d = type /\ seg_dpl d = dpl /\ seg_app d = false /\ seg_present d = true.
Proof.
  intros Ht Hb Hl Hd d. destruct (seg_fields_read (set_s 0 (SEG16 type base lim dpl))) as (E1 & E2 & E3 & E4 & E5 & E6 & E7 & E8 & _ & _ & _ & E9 & E10).
  fold d in E1, E2, E3, E4, E5, E6, E7, E8, E9, E10.
  rewrite seg_base_fields. unfold seg_limit, seg_type, seg_dpl, seg_app, seg_present. rewrite E1, E2, E3, E4, E5, E6, E7, E8, E9, E10.
  cbn [set_s SEG16 lim_15_0 base_15_0 base_23_16 sd_type sd_s sd_dpl sd_p lim_19_16 sd_g base_31_24].
  split_and!; try done; try (change (0 mod 2 ^ 1 =? 1) with false; cbv iota); shifts.
Qed.

(** The processor reads from a gate the handler and the selector that SETGATE
    put there. *)
Lemma SETGATE_reads istrap sel off dpl :
  0 <= sel < 65536 -> 0 <= off < 4294967296 -> 0 <= dpl < 4 ->
  let g := pack (gate_fields (SETGATE istrap sel off dpl)) in
  gate_offset g = off /\ gate_sel g = sel /\ gate_type g = (if istrap then STS_TG32 else STS_IG32) /\
  gate_dpl g = dpl /\ gate_present g = true.
Proof.
  intros Hs Ho Hd g. destruct (gate_fields_read (SETGATE istrap sel off dpl)) as (E1 & E2 & E3 & E4 & E5 & E6).
  fold g in E1, E2, E3, E4, E5, E6. unfold gate_offset, gate_sel, gate_type, gate_dpl, gate_present.
  rewrite E1, E2, E3, E4, E5, E6. cbn [SETGATE off_15_0 gd_cs gd_type gd_dpl gd_p off_31_16].
  split_and!; try done; try (destruct istrap; done); shifts.
Qed.

Lemma lor_type type : 0 <= type < 16 -> Z.lor 144 type = 144 + type.
Proof. intros H. apply Z.eqb_eq. revert type H. by apply (range_forallb (fun t => Z.lor 144 t =? 144 + t) 16). Qed.
Lemma lor_limit l : 0 <= l < 16 -> Z.lor 192 l = 192 + l.
Proof. intros H. apply Z.eqb_eq. revert l H. by apply (range_forallb (fun t => Z.lor 192 t =? 192 + t) 16). Qed.

(** The macro of the assembler makes the bytes of the descriptor of the C macro. *)
Lemma SEG_ASM_same type base lim :
  0 <= type < 16 -> 0 <= base < 4294967296 -> 0 <= lim < 4294967296 ->
  SEG_ASM type base lim = le_enc 8 (pack (seg_fields (SEG type base lim 0))).
Proof.
  intros Ht Hb Hl. set (l := SEG_ASM type base lim). change 8%nat with (length l). rewrite <- (le_enc_dec l) at 1.
  - f_equal. subst l. unfold SEG_ASM, seg_fields, SEG. change 15 with (2 ^ 4 - 1). rewrite (land_mod _ 4), lor_type by lia.
    rewrite lor_limit by (apply Z.mod_pos_bound; lia). rewrite ?land_65535, ?land_255, ?Z.shiftr_div_pow2 by lia.
    cbn [le_enc app le_dec pack lim_15_0 base_15_0 base_23_16 sd_type sd_s sd_dpl sd_p lim_19_16 sd_avl sd_rsv1 sd_db sd_g base_31_24].
    rewrite !u32_small by done. zlia.
  - subst l. unfold SEG_ASM. rewrite ?land_65535, ?land_255, lor_type by lia. change 15 with (2 ^ 4 - 1). rewrite (land_mod _ 4), lor_limit by (try (apply Z.mod_pos_bound); lia).
    repeat (apply Forall_app; split; [apply bytes_le_enc|]). repeat constructor; zlia.
Qed.

(** The segments of the kernel and of user code cover the whole address space;
    only their privilege levels and types differ. *)
Definition flat (d type dpl : Z) : Prop :=
  seg_base d = 0 /\ seg_limit d = 4294967295 /\ seg_type d = type /\ seg_dpl d = dpl /\ seg_app d = true /\ seg_present d = true.

Lemma seginit_flat gdt : length gdt = NSEGS ->
  flat (seginit gdt !!! SEG_KCODE) (Z.lor STA_X STA_R) 0 /\ flat (seginit gdt !!! SEG_KDATA) STA_W 0 /\
  flat (seginit gdt !!! SEG_UCODE) (Z.lor STA_X STA_R) DPL_USER /\ flat (seginit gdt !!! SEG_UDATA) STA_W DPL_USER.
Proof. intros Hl. do 6 (destruct gdt as [|? gdt]; [done|]). repeat split; reflexivity. Qed.

(** The boot loader's segments are those of seginit, so the jump to 32-bit code
    and the later reload change no address. *)
Lemma boot_gdt_same gdt : length gdt = NSEGS ->
  boot_gdt = le_enc 8 0 ++ le_enc 8 (seginit gdt !!! SEG_KCODE) ++ le_enc 8 (seginit gdt !!! SEG_KDATA).
Proof. intros Hl. do 6 (destruct gdt as [|? gdt]; [done|]). reflexivity. Qed.

Definition gate_is (g off type dpl : Z) : Prop :=
  gate_offset g = off /\ gate_sel g = kcode_sel /\ gate_type g = type /\ gate_dpl g = dpl /\ gate_present g = true.

Lemma tvinit_length vectors : length (tvinit vectors) = 256%nat.
Proof. unfold tvinit. by rewrite length_insert, length_fmap, length_seq. Qed.

(** Every vector has a gate to its own handler in the kernel's code segment.  User
    code may use only the one of system calls, which leaves interrupts on. *)
Lemma tvinit_gates vectors v : (v < 256)%nat -> 0 <= vectors (Z.of_nat v) < 4294967296 ->
  gate_is (tvinit vectors !!! v) (vectors (Z.of_nat v)) (if decide (v = T_SYSCALL) then STS_TG32 else STS_IG32)
    (if decide (v = T_SYSCALL) then DPL_USER else 0).
Proof.
  intros Hv Ho. unfold tvinit. cbv zeta. destruct (decide (v = T_SYSCALL)) as [->|Hne].
  - rewrite list_lookup_total_insert_eq by (rewrite length_fmap, length_seq; done). by apply SETGATE_reads.
  - rewrite list_lookup_total_insert_ne by done. rewrite list_lookup_total_alt, list_lookup_fmap, lookup_seq_lt by done. cbn [fmap option_fmap option_map default].
    by apply (SETGATE_reads false).
Qed.
