(* ===== verification/Asm.v ===== *)
(** * swtch.S, trapasm.S, vectors.pl, usys.S: the assembly code

    A processor of the i386 with flat segments: its registers and the memory it
    addresses.  An instruction is a state transformer and a routine the sequence
    of its instructions, up to the jump that leaves it; [jumped] continues with
    the code that lies at the address the jump went to.  The addresses the
    assembler and the linker choose are parameters, and so is the code of the C
    functions the routines call.  [deliver], [int_] and [iret] are what the
    processor does at an interrupt and at its end. *)

From S2P Require Import Prelude State CString Kalloc Gate.
Open Scope Z_scope.

Record x86 := mkX86 {
  x_eax : Z; x_ecx : Z; x_edx : Z; x_ebx : Z; x_esp : Z; x_ebp : Z; x_esi : Z; x_edi : Z;
  x_ds : Z; x_es : Z; x_fs : Z; x_gs : Z; x_cs : Z; x_ss : Z;
  x_eip : Z; x_eflags : Z; x_mem : mem
}.

Inductive reg := EAX | ECX | EDX | EBX | ESP | EBP | ESI | EDI.
Inductive sreg := DS | ES | FS | GS.

Definition getr (r : reg) (s : x86) : Z :=
  match r with
  | EAX => x_eax s | ECX => x_ecx s | EDX => x_edx s | EBX => x_ebx s
  | ESP => x_esp s | EBP => x_ebp s | ESI => x_esi s | EDI => x_edi s
  end.
Definition setr (r : reg) (v : Z) (s : x86) : x86 :=
  let '(mkX86 a c d b sp bp si di ds es fs gs cs ss ip fl m) := s in
  match r with
  | EAX => mkX86 v c d b sp bp si di ds es fs gs cs ss ip fl m
  | ECX => mkX86 a v d b sp bp si di ds es fs gs cs ss ip fl m
  | EDX => mkX86 a c v b sp bp si di ds es fs gs cs ss ip fl m
  | EBX => mkX86 a c d v sp bp si di ds es fs gs cs ss ip fl m
  | ESP => mkX86 a c d b v bp si di ds es fs gs cs ss ip fl m
  | EBP => mkX86 a c d b sp v si di ds es fs gs cs ss ip fl m
  | ESI => mkX86 a c d b sp bp v di ds es fs gs cs ss ip fl m
  | EDI => mkX86 a c d b sp bp si v ds es fs gs cs ss ip fl m
  end.
Definition gets_ (r : sreg) (s : x86) : Z :=
  match r with DS => x_ds s | ES => x_es s | FS => x_fs s | GS => x_gs s end.
Definition sets_ (r : sreg) (v : Z) (s : x86) : x86 :=
  let '(mkX86 a c d b sp bp si di ds es fs gs cs ss ip fl m) := s in
  match r with
  | DS => mkX86 a c d b sp bp si di v es fs gs cs ss ip fl m
  | ES => mkX86 a c d b sp bp si di ds v fs gs cs ss ip fl m
  | FS => mkX86 a c d b sp bp si di ds es v gs cs ss ip fl m
  | GS => mkX86 a c d b sp bp si di ds es fs v cs ss ip fl m
  end.
Definition set_cs (v : Z) (s : x86) : x86 :=
  let '(mkX86 a c d b sp bp si di ds es fs gs _ ss ip fl m) := s in mkX86 a c d b sp bp si di ds es fs gs v ss ip fl m.
Definition set_ss (v : Z) (s : x86) : x86 :=
  let '(mkX86 a c d b sp bp si di ds es fs gs cs _ ip fl m) := s in mkX86 a c d b sp bp si di ds es fs gs cs v ip fl m.
Definition set_eip (v : Z) (s : x86) : x86 :=
  let '(mkX86 a c d b sp bp si di ds es fs gs cs ss _ fl m) := s in mkX86 a c d b sp bp si di ds es fs gs cs ss v fl m.
Definition set_eflags (v : Z) (s : x86) : x86 :=
  let '(mkX86 a c d b sp bp si di ds es fs gs cs ss ip _ m) := s in mkX86 a c d b sp bp si di ds es fs gs cs ss ip v m.
Definition set_mem (v : mem) (s : x86) : x86 :=
  let '(mkX86 a c d b sp bp si di ds es fs gs cs ss ip fl _) := s in mkX86 a c d b sp bp si di ds es fs gs cs ss ip fl v.

#[local] Abbreviation xM := (M x86).

(** ** Instructions *)

Definition load16 (m : mem) (a : Z) : Z := le_dec [m a; m (a + 1)].
Definition store16 (m : mem) (a v : Z) : mem := store_bytes m a (enc16 v).

Definition pushl_v (v : Z) : xM unit :=
  modify (fun s => let sp := u32 (x_esp s - 4) in set_mem (store32 (x_mem s) sp v) (setr ESP sp s)).
Definition popl_v : xM Z :=
  v ← gets (fun s => load32 (x_mem s) (x_esp s));
  modify (fun s => setr ESP (u32 (x_esp s + 4)) s);;
  mret v.

Definition pushl (r : reg) : xM unit := v ← gets (getr r); pushl_v v.
Definition pushl_i (v : Z) : xM unit := pushl_v v.
Definition popl (r : reg) : xM unit := v ← popl_v; modify (setr r v).
(** movl disp(base), dst *)
Definition movl_load (disp : Z) (base dst : reg) : xM unit :=
  v ← gets (fun s => load32 (x_mem s) (u32 (getr base s + disp))); modify (setr dst v).
(** movl src, (base) *)
Definition movl_store (src base : reg) : xM unit :=
  modify (fun s => set_mem (store32 (x_mem s) (getr base s) (getr src s)) s).
Definition movl (src dst : reg) : xM unit := v ← gets (getr src); modify (setr dst v).
Definition movl_i (v : Z) (dst : reg) : xM unit := modify (setr dst v).
(** The low half of %eax. *)
Definition movw_i (v : Z) : xM unit := modify (fun s => setr EAX (x_eax s - u16 (x_eax s) + u16 v) s).
Definition movw_s (dst : sreg) : xM unit := modify (fun s => sets_ dst (u16 (x_eax s)) s).
Definition addl_i (v : Z) (dst : reg) : xM unit := modify (fun s => setr dst (u32 (getr dst s + v)) s).

(** A segment register takes a word of the stack, of which only the low half is
    used. *)
Definition push16_v (v : Z) : xM unit :=
  modify (fun s => let sp := u32 (x_esp s - 4) in set_mem (store16 (x_mem s) sp v) (setr ESP sp s)).
Definition pop16_v : xM Z :=
  v ← gets (fun s => load16 (x_mem s) (x_esp s));
  modify (fun s => setr ESP (u32 (x_esp s + 4)) s);;
  mret v.
Definition pushl_s (r : sreg) : xM unit := v ← gets (gets_ r); push16_v v.
Definition popl_s (r : sreg) : xM unit := v ← pop16_v; modify (sets_ r v).

(** pushal stores the %esp from before it, and popal skips it. *)
Definition pushal : xM unit :=
  sp ← gets x_esp;
  pushl EAX;; pushl ECX;; pushl EDX;; pushl EBX;; pushl_v sp;; pushl EBP;; pushl ESI;; pushl EDI.
Definition popal : xM unit :=
  popl EDI;; popl ESI;; popl EBP;; addl_i 4 ESP;; popl EBX;; popl EDX;; popl ECX;; popl EAX.

Definition jmp (a : Z) : xM unit := modify (set_eip a).
Definition ret : xM unit := a ← popl_v; jmp a.
(** [next] is the address of the instruction after the call. *)
Definition call (a next : Z) : xM unit := pushl_v next;; jmp a.

(** The code at [a], where the jump before went. *)
Definition jumped {A} (a : Z) (m : xM A) : xM A := fun s =>
  if x_eip s =? a then m s else Fault "other code".

(** ** Interrupts in the processor *)

(** The descriptor tables and the kernel stack of the task state segment. *)
Record tables := mkTables { t_gdt : list Z; t_idt : list Z; t_esp0 : Z; t_ss0 : Z }.

Definition FL_IF : Z := 512.
(** TF, NT, RF and VM, which every gate clears. *)
Definition FL_GATE : Z := Z.lor 256 (Z.lor 16384 (Z.lor 65536 131072)).

Definition cpl (s : x86) : Z := Z.land (x_cs s) 3.

(** Vector [v]: the registers the processor saves, on the kernel stack when it
    comes from a less privileged level, and the jump to the gate's handler. *)
Definition deliver (t : tables) (v : nat) (err : option Z) : xM unit := fun s =>
  let g := t_idt t !!! v in
  let d := t_gdt t !!! Z.to_nat (Z.shiftr (gate_sel g) 3) in
  if negb (gate_present g) || (cpl s <? seg_dpl d) then Fault "no gate"
  else
    ((when seg_dpl d <? cpl s do
        (modify (fun s => set_ss (t_ss0 t) (setr ESP (t_esp0 t) s));;
         push16_v (x_ss s);; pushl_v (x_esp s)));;
     pushl_v (x_eflags s);; push16_v (x_cs s);; pushl_v (x_eip s);;
     (if err is Some e then pushl_v e else mret tt);;
     modify (fun s => set_cs (Z.ldiff (gate_sel g) 3 + seg_dpl d) (set_eip (gate_offset g)
       (set_eflags (Z.ldiff (x_eflags s) (if gate_type g =? STS_IG32 then Z.lor FL_IF FL_GATE else FL_GATE)) s)))) s.

Definition T_GPFLT : nat := 13.
(** int $n at address [here], followed by [next]: a gate that is not for this
    privilege level raises the general protection fault. *)
Definition int_ (t : tables) (n : nat) (here next : Z) : xM unit := fun s =>
  if gate_dpl (t_idt t !!! n) <? cpl s
  then (modify (set_eip here);; deliver t T_GPFLT (Some (8 * Z.of_nat n + 2))) s
  else (modify (set_eip next);; deliver t n None) s.

Definition iret : xM unit := fun s =>
  (ip ← popl_v; cs ← pop16_v; fl ← popl_v;
   (when cpl s <? Z.land cs 3 do (sp ← popl_v; ss ← pop16_v; modify (fun s => set_ss ss (setr ESP sp s))));;
   modify (fun s => set_cs cs (set_eip ip (set_eflags fl s)))) s.

(** ** The routines *)

(** swtch.S; the arguments are at 4(%esp) and 8(%esp). *)
Definition swtch : xM unit :=
  movl_load 4 ESP EAX;;
  movl_load 8 ESP EDX;;
  pushl EBP;; pushl EBX;; pushl ESI;; pushl EDI;;
  movl_store ESP EAX;;
  movl EDX ESP;;
  popl EDI;; popl ESI;; popl EBX;; popl EBP;;
  ret.

(** Where the assembler and the linker put the code. *)
Class Image := {
  vectors : Z -> Z;
  kalltraps : Z;
  ktrap : Z; ktrap_next : Z
}.

Section asm.
Context `{Image}.

(** vectors.pl: the processor pushes an error code for these vectors. *)
Definition has_err (i : nat) : bool :=
  (i =? 8)%nat || ((10 <=? i) && (i <=? 14))%nat || (i =? 17)%nat.
Definition vector (i : nat) : xM unit :=
  (when negb (has_err i) do pushl_i 0);;
  pushl_i (Z.of_nat i);;
  jmp kalltraps.

(** trapasm.S up to the call of trap, and after it. *)
Definition kdata_sel : Z := Z.shiftl (Z.of_nat SEG_KDATA) 3.
Definition alltraps : xM unit :=
  pushl_s DS;; pushl_s ES;; pushl_s FS;; pushl_s GS;;
  pushal;;
  movw_i kdata_sel;; movw_s DS;; movw_s ES;;
  pushl ESP;;
  call ktrap ktrap_next.
Definition trapret : xM unit :=
  popal;;
  popl_s GS;; popl_s FS;; popl_s ES;; popl_s DS;;
  addl_i 8 ESP;;
  iret.
Definition alltraps_return : xM unit := addl_i 4 ESP;; trapret.

(** From the interrupt to the call of trap. *)
Definition trap_entry (v : nat) : xM unit :=
  jumped (vectors (Z.of_nat v)) (vector v);;
  jumped kalltraps alltraps.

(** An interrupt or exception, handled by the C function [trap_c]. *)
Definition interrupt (t : tables) (v : nat) (err : option Z) (trap_c : xM unit) : xM unit :=
  deliver t v err;;
  trap_entry v;;
  jumped ktrap trap_c;;
  jumped ktrap_next alltraps_return.

(** usys.S: int $T_SYSCALL at [here] runs the kernel with the C function [trap_c]
    and comes back to the ret at [next]. *)
Definition usys (t : tables) (num here next : Z) (trap_c : xM unit) : xM unit :=
  movl_i num EAX;;
  int_ t T_SYSCALL here next;;
  trap_entry T_SYSCALL;;
  jumped ktrap trap_c;;
  jumped ktrap_next alltraps_return;;
  jumped next ret.

(** allocproc: the trap frame is left free, below it are the address of trapret
    and the context; the result has the addresses of the trap frame and of the
    context. *)
Definition TRAPFRAME_SIZE : Z := 76.
Definition CONTEXT_SIZE : Z := 20.
Context `{Linker}.
Definition allocproc_stack (m : mem) (kstack : Z) : mem * Z * Z :=
  let sp := u32 (kstack + KSTACKSIZE) in
  let sp := u32 (sp - TRAPFRAME_SIZE) in
  let tf := sp in
  let sp := u32 (sp - 4) in
  let m := store32 m sp ktrapret in
  let sp := u32 (sp - CONTEXT_SIZE) in
  let m := memset m sp 0 CONTEXT_SIZE in
  (store32 m (sp + 16) kforkret, tf, sp).

(** The first turn of a new process: swtch, then forkret, which is C, and what
    its return address leads to. *)
Definition first_turn (forkret_c : xM unit) : xM unit :=
  swtch;;
  jumped kforkret forkret_c;;
  jumped ktrapret trapret.
End asm.
