(* ===== verification/AsmProps.v ===== *)
(** * Traps and context switches: what the assembly code does *)

From S2P Require Import Prelude State CString Kalloc Gate Asm.
Open Scope Z_scope.

(** ** Memory *)

Lemma load32_at m a b v : a = b -> load32 (store32 m a v) b = u32 v.
Proof. intros ->. apply load_store32. Qed.

Lemma load16_at m a b v : a = b -> load16 (store16 m a v) b = u16 v.
Proof.
  intros ->. unfold load16, store16, store_bytes.
  assert (Hl : length (enc16 v) = 2%nat) by apply length_le_enc. rewrite Hl.
  rewrite <- dec_enc16. replace (b - b) with 0 by lia. replace (b + 1 - b) with 1 by lia. zcases.
Qed.

Lemma load32_ne16 m a b v : b + 4 <= a \/ a + 2 <= b -> load32 (store16 m a v) b = load32 m b.
Proof.
  intros H. apply load32_eq_on. intros x Hx. unfold store16, store_bytes.
  assert (Hl : length (enc16 v) = 2%nat) by apply length_le_enc. rewrite Hl. zcases.
Qed.
Lemma load16_ne32 m a b v : b + 2 <= a \/ a + 4 <= b -> load16 (store32 m a v) b = load16 m b.
Proof.
  intros H. unfold load16, store32, store_bytes.
  assert (Hl : length (enc32 v) = 4%nat) by apply length_le_enc. rewrite Hl. zcases.
Qed.
Lemma load16_ne m a b v : b + 2 <= a \/ a + 2 <= b -> load16 (store16 m a v) b = load16 m b.
Proof.
  intros H. unfold load16, store16, store_bytes.
  assert (Hl : length (enc16 v) = 2%nat) by apply length_le_enc. rewrite Hl. zcases.
Qed.

Ltac ld := repeat first
  [ rewrite load32_at by lia | rewrite load16_at by lia | rewrite load_store32_ne by lia | rewrite load32_ne16 by lia
  | rewrite load16_ne32 by lia | rewrite load16_ne by lia ].

(** ** The structures on the stack *)

Definition read_tf (m : mem) (a : Z) : trapframe :=
  mkTrapframe (load32 m a) (load32 m (a + 4)) (load32 m (a + 8)) (load32 m (a + 12)) (load32 m (a + 16))
    (load32 m (a + 20)) (load32 m (a + 24)) (load32 m (a + 28)) (load16 m (a + 32)) (load16 m (a + 36))
    (load16 m (a + 40)) (load16 m (a + 44)) (load32 m (a + 48)) (load32 m (a + 52)) (load32 m (a + 56))
    (load16 m (a + 60)) (load32 m (a + 64)) (load32 m (a + 68)) (load16 m (a + 72)).
Definition read_context (m : mem) (a : Z) : context :=
  mkContext (load32 m a) (load32 m (a + 4)) (load32 m (a + 8)) (load32 m (a + 12)) (load32 m (a + 16)).

(** Registers of 32 and of 16 bits. *)
Definition word (x : Z) : Prop := 0 <= x < 4294967296.
Definition half (x : Z) : Prop := 0 <= x < 65536.
Definition x86_ok (s : x86) : Prop :=
  (word (x_eax s) /\ word (x_ecx s) /\ word (x_edx s) /\ word (x_ebx s) /\ word (x_esp s) /\ word (x_ebp s) /\
   word (x_esi s) /\ word (x_edi s)) /\
  (half (x_ds s) /\ half (x_es s) /\ half (x_fs s) /\ half (x_gs s) /\ half (x_cs s) /\ half (x_ss s)) /\
  word (x_eip s) /\ word (x_eflags s).

Lemma u32_sub_l x y : u32 (u32 x - y) = u32 (x - y).
Proof. unfold u32. apply Zminus_mod_idemp_l. Qed.

(** The stack pointer a context leaves: above its eip. *)
Definition enter_context (c : context) (sp : Z) (s : x86) : x86 :=
  set_eip (ctx_eip c) (setr EDI (ctx_edi c) (setr ESI (ctx_esi c) (setr EBX (ctx_ebx c) (setr EBP (ctx_ebp c) (setr ESP (u32 (sp + CONTEXT_SIZE)) s))))).

(** Runs the instructions of a routine on a state given by its fields. *)
Ltac xrun := cbv beta iota zeta delta
  [ swtch movl_load movl_store pushl pushl_i popl movl movl_i movw_i movw_s addl_i ret jmp call popl_v pushl_v push16_v pop16_v pushl_s popl_s
    pushal popal vector alltraps trapret alltraps_return trap_entry jumped
    gets modify mbind M_bind mret M_ret setr getr gets_ sets_ set_cs set_ss set_eip set_eflags set_mem
    x_eax x_ecx x_edx x_ebx x_esp x_ebp x_esi x_edi x_ds x_es x_fs x_gs x_cs x_ss x_eip x_eflags x_mem
    enter_context read_context ctx_edi ctx_esi ctx_ebx ctx_ebp ctx_eip ].

Ltac unwrap := repeat first [rewrite u32_sub_l | rewrite u32_add_l | match goal with |- context [u32 ?x] => rewrite (u32_small x) by lia end].
(** Equal up to arithmetic on the addresses. *)
Ltac eqs := first [reflexivity | lazymatch goal with |- @eq Z _ _ => lia end | f_equal; eqs].
Ltac fields := cbn [x_eax x_ecx x_edx x_ebx x_esp x_ebp x_esi x_edi x_ds x_es x_fs x_gs x_cs x_ss x_eip x_eflags x_mem].
Tactic Notation "fields" "in" hyp(H) :=
  cbn [x_eax x_ecx x_edx x_ebx x_esp x_ebp x_esi x_edi x_ds x_es x_fs x_gs x_cs x_ss x_eip x_eflags x_mem] in H.

(** ** swtch *)

Lemma swtch_runs s old new :
  x86_ok s -> 16 <= x_esp s -> x_esp s + 12 <= 4294967296 ->
  load32 (x_mem s) (x_esp s + 4) = old -> load32 (x_mem s) (x_esp s + 8) = new ->
  word old -> word new -> new + CONTEXT_SIZE < 4294967296 ->
  let c := x_esp s - 16 in
  let m := store32 (store32 (store32 (store32 (store32 (x_mem s) (c + 12) (x_ebp s)) (c + 8) (x_ebx s)) (c + 4) (x_esi s)) c (x_edi s)) old c in
  swtch s = Ok tt (enter_context (read_context m new) new (setr EAX old (setr EDX new (set_mem m s)))).
Proof.
  destruct s as [a c d b sp bp si di ds es fs gs cs ss ip fl mm]. unfold x86_ok, word, half. fields.
  intros Hok H1 H2 Ho Hn Ho' Hn' Hc. cbv zeta.
  xrun. unfold CONTEXT_SIZE in *.
  unwrap. rewrite Ho, Hn. unwrap. eqs.
Qed.

(** Ranges of memory that do not meet. *)
Definition apart (a n b k : Z) : Prop := a + n <= b \/ b + k <= a.

(** A call of swtch(old, new) on a stack with room for the context. *)
Record swtch_call (s : x86) (old new : Z) : Prop := {
  sc_ok : x86_ok s;
  sc_room : 16 <= x_esp s /\ x_esp s + 12 <= 4294967296;
  sc_old : load32 (x_mem s) (x_esp s + 4) = old;
  sc_new : load32 (x_mem s) (x_esp s + 8) = new;
  sc_range : 0 <= old < 4294967292 /\ 0 <= new < 4294967276;
  sc_apart : apart old 4 (x_esp s - 16) 20 /\ apart new CONTEXT_SIZE (x_esp s - 16) 16 /\ apart new CONTEXT_SIZE old 4
}.

(** The context that the caller of swtch leaves. *)
Definition suspended (s : x86) : context :=
  mkContext (x_edi s) (x_esi s) (x_ebx s) (x_ebp s) (load32 (x_mem s) (x_esp s)).
(** The processor goes on with the context [c], with the stack pointer [sp]. *)
Definition running (c : context) (sp : Z) (s : x86) : Prop :=
  x_edi s = ctx_edi c /\ x_esi s = ctx_esi c /\ x_ebx s = ctx_ebx c /\ x_ebp s = ctx_ebp c /\
  x_eip s = ctx_eip c /\ x_esp s = sp.
(** The registers that swtch does not touch. *)
Definition same_rest (s s' : x86) : Prop :=
  x_ecx s' = x_ecx s /\ x_ds s' = x_ds s /\ x_es s' = x_es s /\ x_fs s' = x_fs s /\ x_gs s' = x_gs s /\
  x_cs s' = x_cs s /\ x_ss s' = x_ss s /\ x_eflags s' = x_eflags s.

Lemma read_context_eq m m' a : mem_eq_on m m' a CONTEXT_SIZE -> read_context m a = read_context m' a.
Proof. unfold CONTEXT_SIZE. intros H. unfold read_context. f_equal; apply load32_eq_on; intros x Hx; apply H; lia. Qed.
Lemma store32_other m a v x : x < a \/ a + 4 <= x -> store32 m a v x = m x.
Proof.
  intros H. unfold store32, store_bytes. assert (Hl : length (enc32 v) = 4%nat) by apply length_le_enc. rewrite Hl. zcases.
Qed.

Lemma swtch_spec s old new : swtch_call s old new ->
  exists s', swtch s = Ok tt s' /\ running (read_context (x_mem s) new) (new + CONTEXT_SIZE) s' /\ same_rest s s' /\
    load32 (x_mem s') old = x_esp s - 16 /\ read_context (x_mem s') (x_esp s - 16) = suspended s /\
    (forall x, (x < x_esp s - 16 \/ x_esp s <= x) -> (x < old \/ old + 4 <= x) -> x_mem s' x = x_mem s x).
Proof.
  intros [Hok [Hr1 Hr2] Ho Hn [Hb1 Hb2] (Ha1 & Ha2 & Ha3)]. unfold apart, CONTEXT_SIZE in *.
  eexists. split; [apply (swtch_runs s old new); unfold word, CONTEXT_SIZE; try done; lia|].
  set (m := store32 _ old _).
  assert (Hm : forall x, (x < x_esp s - 16 \/ x_esp s <= x) -> (x < old \/ old + 4 <= x) -> m x = x_mem s x).
  { intros x H1 H2. unfold m. rewrite !store32_other by lia. done. }
  assert (Ec : read_context m new = read_context (x_mem s) new).
  { apply read_context_eq. unfold CONTEXT_SIZE. intros x Hx. apply Hm; lia. }
  rewrite Ec. clear Ec. assert (Hw : forall x, word x -> u32 x = x) by (intros x; apply u32_small).
  destruct Hok as ((_ & _ & _ & Wb & Wsp & Wbp & Wsi & Wdi) & _ & _). unfold word in Wsp.
  assert (Hl : load32 m old = x_esp s - 16) by (unfold m; rewrite load_store32; apply u32_small; lia).
  assert (Hs : read_context m (x_esp s - 16) = suspended s).
  { unfold read_context, suspended, m. ld. rewrite !Hw by done. repeat f_equal. lia. }
  clearbody m. clear Ho Hn. destruct s as [a c d b sp bp si di ds es fs gs cs ss ip fl mm]. unfold running, same_rest. cbn -[CONTEXT_SIZE read_context u32 Z.sub Z.add] in *.
  split_and!; try done. unfold CONTEXT_SIZE. apply u32_small. lia.
Qed.

(** C13. A call of swtch and a later call that gives it the context it saved: the first
    call returns, with the registers a called function keeps and its stack
    pointer, as long as nobody wrote to the context in between. *)
Theorem swtch_resumes s old new : swtch_call s old new ->
  exists s', swtch s = Ok tt s' /\ running (read_context (x_mem s) new) (new + CONTEXT_SIZE) s' /\
    forall s2 old2, swtch_call s2 old2 (load32 (x_mem s') old) -> mem_eq_on (x_mem s2) (x_mem s') (x_esp s - 16) CONTEXT_SIZE ->
      exists s2', swtch s2 = Ok tt s2' /\ running (suspended s) (x_esp s + 4) s2' /\ same_rest s2 s2'.
Proof.
  intros Hc. destruct (swtch_spec s old new Hc) as (s' & E & Hrun & _ & Hl & Hs & _).
  exists s'. split_and!; [done|done|]. intros s2 old2 Hc2 Hm. rewrite Hl in Hc2.
  destruct (swtch_spec s2 old2 _ Hc2) as (s2' & E2 & Hrun2 & Hrest & _). exists s2'. split_and!; [done| |done].
  rewrite (read_context_eq _ _ _ Hm), Hs in Hrun2. replace (x_esp s + 4) with (x_esp s - 16 + CONTEXT_SIZE) by (unfold CONTEXT_SIZE; lia). done.
Qed.

(** ** Traps *)

Section traps.
Context `{Image} (t : tables) (gdt : list Z).

(** The tables that seginit, tvinit and switchuvm set up. *)
Record tables_ok : Prop := {
  to_len : length gdt = NSEGS;
  to_gdt : t_gdt t = seginit gdt;
  to_idt : t_idt t = tvinit vectors;
  to_vectors : forall v : nat, (v < 256)%nat -> word (vectors (Z.of_nat v));
  to_stack : t_ss0 t = kdata_sel /\ 84 <= t_esp0 t < 4294967296
}.
Hypothesis Ht : tables_ok.
Hypothesis Hnext : word ktrap_next.

Definition from_user (s : x86) : bool := 0 <? cpl s.

(** What the gate of [v] does to the flags. *)
Definition gate_mask (v : nat) : Z := if decide (v = T_SYSCALL) then FL_GATE else Z.lor FL_IF FL_GATE.

Lemma deliver_gate v err s : (v < 256)%nat -> deliver t v err s =
  ((when from_user s do
      (modify (fun s => set_ss kdata_sel (setr ESP (t_esp0 t) s));; push16_v (x_ss s);; pushl_v (x_esp s)));;
   pushl_v (x_eflags s);; push16_v (x_cs s);; pushl_v (x_eip s);;
   (if err is Some e then pushl_v e else mret tt);;
   modify (fun s => set_cs kcode_sel (set_eip (vectors (Z.of_nat v)) (set_eflags (Z.ldiff (x_eflags s) (gate_mask v)) s)))) s.
Proof using Ht.
  intros Hv. destruct Ht as [Hl Hg Hi Hvec [Hss _]]. unfold deliver, from_user, gate_mask.
  destruct (tvinit_gates vectors v Hv (Hvec v Hv)) as (E1 & E2 & E3 & E4 & E5).
  destruct (seginit_flat gdt Hl) as ((_ & _ & _ & Ed & _) & _). rewrite Hi, Hg, Hss, E1, E2, E3, E5.
  change (Z.to_nat (kcode_sel ≫ 3)) with SEG_KCODE. rewrite Ed. assert (0 <= cpl s) by (apply Z.land_nonneg; lia).
  rewrite (proj2 (Z.ltb_ge _ _)) by done. cbn [negb orb]. change (Z.ldiff kcode_sel 3 + 0) with kcode_sel.
  by destruct (decide (v = T_SYSCALL)).
Qed.

(** The trap frame of the code interrupted in [s]; a processor that was in kernel
    mode saves neither the stack pointer nor the stack segment. *)
Definition frame_at (s : x86) : Z := if from_user s then t_esp0 t - 76 else x_esp s - 68.
Definition trap_frame (s : x86) (v : nat) (err : Z) : trapframe :=
  mkTrapframe (x_edi s) (x_esi s) (x_ebp s) (frame_at s + 32) (x_ebx s) (x_edx s) (x_ecx s) (x_eax s)
    (x_gs s) (x_fs s) (x_es s) (x_ds s) (Z.of_nat v) err (x_eip s) (x_cs s) (x_eflags s)
    (if from_user s then x_esp s else load32 (x_mem s) (x_esp s))
    (if from_user s then x_ss s else load16 (x_mem s) (x_esp s + 4)).

Lemma store16_other m a v x : x < a \/ a + 2 <= x -> store16 m a v x = m x.
Proof.
  intros Hx. unfold store16, store_bytes. assert (Hl : length (enc16 v) = 2%nat) by apply length_le_enc. rewrite Hl. zcases.
Qed.

Lemma jumped_here {A} (m : M x86 A) s a : x_eip s = a -> jumped a m s = m s.
Proof. intros <-. unfold jumped. by rewrite Z.eqb_refl. Qed.

(** Runs the first routine of a sequence, of which [tac] gives the instructions. *)
Ltac xphase tac := erewrite bind_ok; [|tac; xrun; reflexivity].

(** The processor at the first instruction of trap: the frame is on the stack, and
    its address is the argument. *)
Record in_trap (s : x86) (v : nat) (err : Z) (s' : x86) : Prop := {
  it_eip : x_eip s' = ktrap;
  it_esp : x_esp s' = frame_at s - 8;
  it_ret : load32 (x_mem s') (frame_at s - 8) = ktrap_next;
  it_arg : load32 (x_mem s') (frame_at s - 4) = frame_at s;
  it_frame : read_tf (x_mem s') (frame_at s) = trap_frame s v err;
  it_segs : x_cs s' = kcode_sel /\ x_ds s' = kdata_sel /\ x_es s' = kdata_sel /\ x_ss s' = (if from_user s then kdata_sel else x_ss s);
  it_flags : x_eflags s' = Z.ldiff (x_eflags s) (gate_mask v);
  it_mem : forall x, x < frame_at s - 8 \/ (if from_user s then t_esp0 t else x_esp s) <= x -> x_mem s' x = x_mem s x
}.

(** Addresses as a base and an offset. *)
Ltac based A := repeat match goal with
  | |- context [u32 (A + ?k - 4)] => let r := eval cbv in (k - 4) in replace (u32 (A + k - 4)) with (A + r) by (unfold u32; rewrite Z.mod_small; lia)
  end.
Ltac offsets A := repeat match goal with
  | |- context [A + ?k + ?j] => let r := eval cbv in (k + j) in replace (A + k + j) with (A + r) by lia
  | |- context [A + ?k - ?j] => let r := eval cbv in (k - j) in replace (A + k - j) with (A + r) by lia
  end.
Lemma load32_off m a k j v : ((j + 4 <=? k) || (k + 4 <=? j)) = true -> load32 (store32 m (a + k) v) (a + j) = load32 m (a + j).
Proof. intros E. apply load_store32_ne. lia. Qed.
Lemma load32_off16 m a k j v : ((j + 4 <=? k) || (k + 2 <=? j)) = true -> load32 (store16 m (a + k) v) (a + j) = load32 m (a + j).
Proof. intros E. apply load32_ne16. lia. Qed.
Lemma load16_off m a k j v : ((j + 2 <=? k) || (k + 4 <=? j)) = true -> load16 (store32 m (a + k) v) (a + j) = load16 m (a + j).
Proof. intros E. apply load16_ne32. lia. Qed.
Lemma load16_off16 m a k j v : ((j + 2 <=? k) || (k + 2 <=? j)) = true -> load16 (store16 m (a + k) v) (a + j) = load16 m (a + j).
Proof. intros E. apply load16_ne. lia. Qed.
Ltac ldo := repeat match goal with
  | |- context [load32 (store32 ?m ?a ?v) ?a] => rewrite (load32_at m a a v eq_refl)
  | |- context [load16 (store16 ?m ?a ?v) ?a] => rewrite (load16_at m a a v eq_refl)
  | |- context [load32 (store32 ?m (?a + ?k) ?v) (?a + ?j)] => rewrite (load32_off m a k j v eq_refl)
  | |- context [load32 (store16 ?m (?a + ?k) ?v) (?a + ?j)] => rewrite (load32_off16 m a k j v eq_refl)
  | |- context [load16 (store32 ?m (?a + ?k) ?v) (?a + ?j)] => rewrite (load16_off m a k j v eq_refl)
  | |- context [load16 (store16 ?m (?a + ?k) ?v) (?a + ?j)] => rewrite (load16_off16 m a k j v eq_refl)
  end.

Ltac in_trap_done A Eu Hh Hw32 Hmw :=
  match goal with |- in_trap ?s _ _ _ =>
    let Ef := fresh in
    assert (Ef : frame_at s = A + 8) by (unfold frame_at; rewrite Eu; fields; lia);
    constructor; rewrite ?Ef; fields;
    [ reflexivity | lia | offsets A; ldo; apply Hw32; lia | offsets A; ldo; apply Hw32; lia
    | unfold read_tf, trap_frame; rewrite Ef, Eu; fields; offsets A; f_equal; ldo; rewrite ?Hh, ?Hw32 by lia; reflexivity
    | rewrite Eu; split_and!; (reflexivity || exact Hmw)
    | reflexivity
    | rewrite Eu; intros x Hx; repeat first [rewrite store32_other by lia | rewrite store16_other by lia]; reflexivity ]
  end.

Lemma trap_enters v err s : (v < 256)%nat -> x86_ok s -> (from_user s = false -> 76 <= x_esp s) ->
  has_err v = bool_decide (is_Some err) -> word (default 0 err) ->
  exists s', (deliver t v err;; trap_entry v) s = Ok tt s' /\ in_trap s v (default 0 err) s'.
Proof using Ht Hnext.
  intros Hv Hok Hk He Hw. destruct Ht as [_ _ _ Hvec [_ Hsp]].
  destruct s as [a c d b sp bp si di ds es fs gs cs ss ip fl mm]. unfold x86_ok, word, half in *. fields in Hok. cbn [x_esp] in Hk.
  assert (Hv' : 0 <= Z.of_nat v < 4294967296) by lia.
  assert (Hh : forall x, 0 <= x < 65536 -> u16 x = x) by (intros x Hx; apply Z.mod_small, Hx).
  assert (Hw32 : forall x, 0 <= x < 4294967296 -> u32 x = x) by apply u32_small.
  assert (Hmw : u16 (a - u16 a + u16 kdata_sel) = kdata_sel) by (change kdata_sel with 16; zlia).
  destruct (from_user _) eqn:Eu.
  - set (A := t_esp0 t - 84). assert (EA : t_esp0 t = A + 84) by (unfold A; lia). assert (HA : 0 <= A < 4294967296 - 84) by lia. clearbody A.
    destruct err as [e|]; cbn in Hw; (eapply ex_intro; split;
    [xphase ltac:(rewrite deliver_gate, Eu, EA by done); unfold trap_entry; based A;
     xphase ltac:(rewrite jumped_here; [|reflexivity]; unfold vector; rewrite He); based A;
     rewrite jumped_here; [|reflexivity]; xrun; based A; reflexivity|]).
    all: in_trap_done A Eu Hh Hw32 Hmw.
  - set (A := sp - 76). assert (EA : sp = A + 76) by (unfold A; lia). specialize (Hk eq_refl). assert (HA : 0 <= A < 4294967296 - 76) by lia. clearbody A. subst sp.
    destruct err as [e|]; cbn in Hw; (eapply ex_intro; split;
    [xphase ltac:(rewrite deliver_gate, Eu by done); unfold trap_entry; based A;
     xphase ltac:(rewrite jumped_here; [|reflexivity]; unfold vector; rewrite He); based A;
     rewrite jumped_here; [|reflexivity]; xrun; based A; reflexivity|]).
    all: in_trap_done A Eu Hh Hw32 Hmw.
Qed.

Ltac popped A := repeat match goal with
  | |- context [u32 (A + ?k)] => replace (u32 (A + k)) with (A + k) by (unfold u32; rewrite Z.mod_small; lia)
  | |- context [A + ?k + ?j] => let r := eval cbv in (k + j) in replace (A + k + j) with (A + r) by lia
  end.

(** The processor that goes on after the trap with frame [tf]. *)
Definition resume (tf : trapframe) (sp ss : Z) (m : mem) : x86 :=
  mkX86 (tf_eax tf) (tf_ecx tf) (tf_edx tf) (tf_ebx tf) sp (tf_ebp tf) (tf_esi tf) (tf_edi tf)
    (tf_ds tf) (tf_es tf) (tf_fs tf) (tf_gs tf) (tf_cs tf) ss (tf_eip tf) (tf_eflags tf) m.
Definition tf_user (tf : trapframe) : bool := 0 <? Z.land (tf_cs tf) 3.

Lemma trapret_runs s : cpl s = 0 -> 0 <= x_esp s < 4294967296 - 76 ->
  let tf := read_tf (x_mem s) (x_esp s) in
  trapret s = Ok tt (if tf_user tf then resume tf (tf_esp tf) (tf_ss tf) (x_mem s) else resume tf (x_esp s + 68) (x_ss s) (x_mem s)).
Proof using.
  destruct s as [a c d b sp bp si di ds es fs gs cs ss ip fl mm]. fields. intros Hcpl Hsp. cbv zeta. xrun. popped sp.
  unfold iret. do 3 (erewrite bind_ok; [|xrun; popped sp; reflexivity]).
  unfold cpl in *. fields in Hcpl. fields. rewrite Hcpl. unfold tf_user, resume, read_tf. cbn [tf_cs].
  destruct (0 <? Z.land (load16 mm (sp + 60)) 3); xrun; popped sp; reflexivity.
Qed.

(** A C function called in [s'] has returned. *)
Definition returned (s' s'' : x86) : Prop :=
  x_eip s'' = load32 (x_mem s') (x_esp s') /\ x_esp s'' = x_esp s' + 4 /\ x_cs s'' = x_cs s' /\ x_ss s'' = x_ss s'.

Lemma alltraps_return_runs s tf : cpl s = 0 -> 0 <= x_esp s < 4294967296 - 80 -> read_tf (x_mem s) (x_esp s + 4) = tf ->
  alltraps_return s = Ok tt (if tf_user tf then resume tf (tf_esp tf) (tf_ss tf) (x_mem s) else resume tf (x_esp s + 72) (x_ss s) (x_mem s)).
Proof using.
  intros Hc Hsp <-. unfold alltraps_return. set (s1 := setr ESP (x_esp s + 4) s).
  assert (E1 : addl_i 4 ESP s = Ok tt s1).
  { unfold addl_i, modify, s1. cbn [getr]. by rewrite u32_small by lia. }
  rewrite (bind_ok _ _ _ _ _ E1). assert (E2 : x_esp s1 = x_esp s + 4 /\ cpl s1 = cpl s /\ x_mem s1 = x_mem s /\ x_ss s1 = x_ss s) by (by destruct s).
  clearbody s1. destruct E2 as (E2 & E3 & E4 & E5). rewrite trapret_runs by (rewrite ?E2, ?E3; done || lia). rewrite E2, E4, E5.
  by replace (x_esp s + 4 + 68) with (x_esp s + 72) by lia.
Qed.

(** C14. An interrupt or an exception in user or in kernel code that trap returns from
    with the frame as it was is not seen by the code: every register is as
    before. *)
Theorem interrupt_transparent v err s trap_c :
  (v < 256)%nat -> x86_ok s -> (from_user s = false -> 76 <= x_esp s < 4294967296 - 16) ->
  has_err v = bool_decide (is_Some err) -> word (default 0 err) ->
  (forall s', in_trap s v (default 0 err) s' ->
     exists s'', trap_c s' = Ok tt s'' /\ returned s' s'' /\ read_tf (x_mem s'') (frame_at s) = read_tf (x_mem s') (frame_at s)) ->
  exists m, interrupt t v err trap_c s = Ok tt (set_mem m s).
Proof using Ht Hnext.
  intros Hv Hok Hk He Hw Hc. destruct (trap_enters v err s Hv Hok ltac:(intros E; by apply Hk) He Hw) as (s' & E & Hin).
  apply bind_inv in E as ([] & sd & E1 & E2). destruct (Hc s' Hin) as (s'' & Ec & (R1 & R2 & R3 & R4) & Hf). clear Hc.
  destruct Hin as [I1 I2 I3 I4 I5 (I6 & _ & _ & I6') I7 I8]. destruct (to_stack Ht) as [_ Hst]. rewrite I5 in Hf.
  unfold interrupt. rewrite (bind_ok _ _ _ _ _ E1), (bind_ok _ _ _ _ _ E2), (bind_ok _ _ s' tt s'') by (by rewrite jumped_here).
  rewrite jumped_here by (rewrite R1, I2; exact I3). exists (x_mem s'').
  assert (Hb : 0 <= frame_at s - 4 < 4294967296 - 80).
  { unfold frame_at in *. destruct (from_user s) eqn:Eu; [lia|]. specialize (Hk eq_refl). lia. }
  rewrite (alltraps_return_runs s'' (trap_frame s v (default 0 err))).
  - unfold tf_user. change (tf_cs (trap_frame s v (default 0 err))) with (x_cs s). fold (cpl s). fold (from_user s). rewrite R2, R4, I2, I6'.
    generalize (x_mem s''). intros m. unfold resume, trap_frame, frame_at. destruct (from_user s); destruct s; [done|]. cbn. do 2 f_equal. lia.
  - unfold cpl. by rewrite R3, I6.
  - rewrite R2, I2. lia.
  - rewrite R2, I2. by replace (frame_at s - 8 + 4 + 4) with (frame_at s) by lia.
Qed.

(** System calls may be made from user code. *)
Lemma int_syscall s here next s' : cpl s = 3 -> deliver t T_SYSCALL None (set_eip next s) = Ok tt s' -> int_ t T_SYSCALL here next s = Ok tt s'.
Proof using Ht.
  intros Hc E. unfold int_. destruct (tvinit_gates vectors T_SYSCALL) as (_ & _ & _ & E4 & _); [unfold T_SYSCALL; lia|apply (to_vectors Ht); unfold T_SYSCALL; lia|].
  rewrite (to_idt Ht), E4, Hc. cbn [decide]. exact E.
Qed.

(** C15. The routine of a system call: the kernel sees the number in tf->eax and the
    user stack in tf->esp.  When trap puts [r] into tf->eax and leaves the rest
    of the frame and the return address on the user stack, the caller goes on
    with the result and every other register as before the call. *)
Theorem usys_returns s num r here next trap_c :
  x86_ok s -> cpl s = 3 -> word num -> word r -> word next -> x_esp s + 4 <= t_esp0 t - 84 ->
  (forall s', in_trap (set_eip next (setr EAX num s)) T_SYSCALL 0 s' ->
     exists s'', trap_c s' = Ok tt s'' /\ returned s' s'' /\
       read_tf (x_mem s'') (t_esp0 t - 76) = set_tf_eax r (read_tf (x_mem s') (t_esp0 t - 76)) /\
       load32 (x_mem s'') (x_esp s) = load32 (x_mem s') (x_esp s)) ->
  exists m, usys t num here next trap_c s = Ok tt (set_mem m (setr EAX r (setr ESP (x_esp s + 4) (set_eip (load32 (x_mem s) (x_esp s)) s)))).
Proof using Ht Hnext.
  intros Hok Hcpl Hnum Hr Hnx Hroom Hc. set (s1 := set_eip next (setr EAX num s)) in *.
  assert (Hok1 : x86_ok s1) by (destruct s; unfold x86_ok, s1 in *; cbn in *; tauto).
  assert (Hu : from_user s1 = true) by (unfold from_user, cpl in *; destruct s; cbn in *; by rewrite Hcpl).
  destruct (trap_enters T_SYSCALL None s1) as (s' & E1 & Hin); try done; try (unfold T_SYSCALL; lia).
  { by rewrite Hu. }
  apply bind_inv in E1 as ([] & sd & E1 & E2). destruct (Hc s' Hin) as (s'' & Ec & (R1 & R2 & R3 & R4) & Hf & Hra). clear Hc.
  destruct Hin as [I1 I2 I3 I4 I5 (I6 & _) I7 I8]. unfold frame_at in *. rewrite Hu in *. destruct (to_stack Ht) as [_ Hst].
  unfold usys. rewrite (bind_ok _ _ s tt (setr EAX num s)) by done. rewrite (bind_ok _ _ _ _ _ (int_syscall (setr EAX num s) here next sd ltac:(by destruct s) E1)).
  rewrite (bind_ok _ _ _ _ _ E2), (bind_ok _ _ s' tt s'') by (by rewrite jumped_here).
  set (tf := set_tf_eax r (trap_frame s1 T_SYSCALL 0)). assert (Htf : read_tf (x_mem s'') (x_esp s'' + 4) = tf).
  { rewrite R2, I2. replace (t_esp0 t - 76 - 8 + 4 + 4) with (t_esp0 t - 76) by lia. by rewrite Hf, I5. }
  rewrite (bind_ok _ _ s'' tt (resume tf (x_esp s) (x_ss s) (x_mem s''))).
  2:{ rewrite jumped_here by (rewrite R1, I2; exact I3). rewrite (alltraps_return_runs s'' tf); [| |lia|done].
      - assert (Htu : tf_user tf = true) by (unfold tf, tf_user; destruct s; exact Hu). rewrite Htu.
        unfold tf, resume. destruct s. cbn in Hu |- *. unfold trap_frame. by rewrite Hu.
      - unfold cpl. by rewrite R3, I6. }
  rewrite jumped_here by (by destruct s). unfold ret, popl_v. exists (x_mem s'').
  assert (Hrd : load32 (x_mem s'') (x_esp s) = load32 (x_mem s) (x_esp s)).
  { rewrite Hra. apply load32_eq_on. intros x Hx. rewrite I8 by lia. by destruct s. }
  assert (Hnn : 0 <= x_esp s) by (by destruct Hok as ((_ & _ & _ & _ & [] & _) & _)).
  unfold tf, resume. clearbody tf. generalize dependent (x_mem s''). intros m _ _ _ Hrd. destruct s as [a c d b sp bp si di ds es fs gs cs ss ip fl mm]. fields in Hrd. fields in Hroom. fields in Hnn. xrun. rewrite Hrd, u32_small by lia. reflexivity.
Qed.

(** C16. Whatever vector a user program names in an int instruction, the kernel is
    entered through the gate of system calls, or for every other vector with a
    general protection fault at that instruction. *)
Theorem user_int_confined s n here next :
  x86_ok s -> cpl s = 3 -> (n < 256)%nat -> word here -> word next ->
  let v := if decide (n = T_SYSCALL) then T_SYSCALL else T_GPFLT in
  let s1 := set_eip (if decide (n = T_SYSCALL) then next else here) s in
  let err := if decide (n = T_SYSCALL) then 0 else 8 * Z.of_nat n + 2 in
  exists s', (int_ t n here next;; trap_entry v) s = Ok tt s' /\ in_trap s1 v err s'.
Proof using Ht Hnext.
  intros Hok Hc Hn Hh Hx v s1 err.
  assert (Hok1 : x86_ok s1) by (unfold s1; destruct s; destruct (decide _); unfold x86_ok in *; cbn in *; tauto).
  assert (Hu : from_user s1 = true) by (unfold s1, from_user, cpl in *; destruct s; cbn in *; by rewrite Hc).
  assert (Hv : (v < 256)%nat) by (unfold v; destruct (decide _); unfold T_SYSCALL, T_GPFLT; lia).
  destruct (trap_enters v (if decide (n = T_SYSCALL) then None else Some err) s1) as (s' & E & Hin); try done.
  { by rewrite Hu. }
  { by unfold v; destruct (decide _). }
  { unfold err; destruct (decide _); cbn; unfold word; lia. }
  exists s'. split; [|by unfold err in *; destruct (decide _)].
  apply bind_inv in E as ([] & sd & E1 & E2). rewrite (bind_ok _ _ s tt sd); [done|]. clear E2 Hin.
  destruct (tvinit_gates vectors n Hn (to_vectors Ht n Hn)) as (_ & _ & _ & E4 & _).
  unfold int_. rewrite (to_idt Ht), E4, Hc. by unfold v, s1, err in E1; destruct (decide (n = T_SYSCALL)) as [->|].
Qed.
End traps.

(** ** New processes *)

Section newproc.
Context `{Image} `{Linker}.

Lemma read_tf_eq m m' a : mem_eq_on m m' a TRAPFRAME_SIZE -> read_tf m a = read_tf m' a.
Proof using.
  unfold TRAPFRAME_SIZE. intros E. unfold read_tf. assert (E16 : forall k, 0 <= k <= 74 -> load16 m (a + k) = load16 m' (a + k)).
  { intros k Hk. unfold load16. by rewrite !E by lia. }
  f_equal; try (apply load32_eq_on; intros x Hx; apply E; lia); apply E16; lia.
Qed.

(** The stack that allocproc prepares: the context starts forkret, with trapret as
    its return address just below the trap frame. *)
Lemma allocproc_stack_layout m kstack : 0 <= kstack -> kstack + KSTACKSIZE < 4294967296 -> word kforkret -> word ktrapret ->
  let '(m', tf, c) := allocproc_stack m kstack in
  tf = kstack + KSTACKSIZE - TRAPFRAME_SIZE /\ c = tf - 4 - CONTEXT_SIZE /\
  read_context m' c = mkContext 0 0 0 0 kforkret /\ load32 m' (tf - 4) = ktrapret /\
  (forall x, x < c \/ tf <= x -> m' x = m x).
Proof using.
  intros Hk1 Hk2 Hf Hr. unfold allocproc_stack, KSTACKSIZE, TRAPFRAME_SIZE, CONTEXT_SIZE in *. unwrap.
  set (c := kstack + 4096 - 76 - 4 - 20). set (m1 := store32 m _ ktrapret). set (m2 := memset m1 c 0 20).
  assert (H2 : forall x, m2 x = if (c <=? x) && (x <? c + 20) then 0 else m1 x) by (intros x; by apply memset_spec).
  assert (Hz : forall a, c <= a -> a + 4 <= c + 20 -> load32 m2 a = 0) by (intros a Ha1 Ha2; unfold load32; rewrite !H2; zcases).
  split_and!; [done|done| | |].
  - unfold read_context. rewrite load_store32, !load_store32_ne, !Hz, u32_small by (unfold word in *; lia). done.
  - rewrite load_store32_ne by lia. rewrite (load32_eq_on m2 m1) by (intros x Hx; rewrite H2; zcases). unfold m1. rewrite load_store32. by apply u32_small.
  - intros x Hx. rewrite store32_other, H2 by lia. unfold m1. zcases; apply store32_other; lia.
Qed.

(** C17. The scheduler's switch to a process on the stack of allocproc goes through
    forkret, a C function that returns, to user code with the registers of the
    trap frame, whatever fork or userinit put there. *)
Theorem new_process_starts m0 kstack m tf c s old forkret_c :
  allocproc_stack m0 kstack = (m, tf, c) ->
  0 <= kstack -> kstack + KSTACKSIZE < 4294967296 -> word kforkret -> word ktrapret ->
  swtch_call s old c -> cpl s = 0 ->
  mem_eq_on (x_mem s) m c (CONTEXT_SIZE + 4) ->
  apart old 4 c (CONTEXT_SIZE + 4 + TRAPFRAME_SIZE) -> apart (x_esp s - 16) 16 c (CONTEXT_SIZE + 4 + TRAPFRAME_SIZE) ->
  let frame := read_tf (x_mem s) tf in
  tf_user frame = true ->
  (forall s', running (mkContext 0 0 0 0 kforkret) (tf - 4) s' -> read_tf (x_mem s') tf = frame -> load32 (x_mem s') (tf - 4) = ktrapret ->
     exists s'', forkret_c s' = Ok tt s'' /\ returned s' s'' /\ read_tf (x_mem s'') tf = frame) ->
  exists m', first_turn forkret_c s = Ok tt (resume frame (tf_esp frame) (tf_ss frame) m').
Proof using.
  intros Ea Hk1 Hk2 Hf Hr Hcall Hcpl Hm Ho Hs frame Hu Hc.
  pose proof (allocproc_stack_layout m0 kstack Hk1 Hk2 Hf Hr) as Hl. rewrite Ea in Hl. destruct Hl as (Etf & Ec & Lc & Lr & _).
  destruct (swtch_spec s old c Hcall) as (s' & E1 & Hrun & Hrest & _ & _ & Hsame).
  unfold apart, CONTEXT_SIZE, TRAPFRAME_SIZE, KSTACKSIZE in *.
  assert (Hsm : mem_eq_on (x_mem s') (x_mem s) c 100) by (intros x Hx; apply Hsame; lia).
  rewrite (read_context_eq (x_mem s) m c), Lc in Hrun by (intros x Hx; apply Hm; unfold CONTEXT_SIZE in Hx; lia).
  assert (Hfr : read_tf (x_mem s') tf = frame) by (apply read_tf_eq; unfold TRAPFRAME_SIZE; intros x Hx; apply Hsm; lia).
  assert (Hra : load32 (x_mem s') (tf - 4) = ktrapret).
  { rewrite <- Lr. apply load32_eq_on. intros x Hx. rewrite Hsm, Hm by lia. done. }
  replace (c + 20) with (tf - 4) in Hrun by lia. destruct (Hc s' Hrun Hfr Hra) as (s'' & E2 & (R1 & R2 & R3 & R4) & Hfr2). clear Hc.
  destruct Hrun as (_ & _ & _ & _ & Hip & Hsp). destruct Hrest as (_ & _ & _ & _ & _ & Hcs & _). cbn [ctx_eip] in Hip.
  unfold first_turn. rewrite (bind_ok _ _ _ _ _ E1), (bind_ok _ _ s' tt s'') by (by rewrite jumped_here).
  rewrite jumped_here by (by rewrite R1, Hsp). exists (x_mem s'').
  rewrite trapret_runs; [|unfold cpl in *; by rewrite R3, Hcs|rewrite R2, Hsp; lia]. rewrite R2, Hsp. replace (tf - 4 + 4) with tf by lia. by rewrite Hfr2, Hu.
Qed.
End newproc.

(** ** Concrete processor states *)

#[local] Instance image0 : Image := {|
  vectors := fun i => 2148532224 + 16 * i; kalltraps := 2148540416; ktrap := 2148544512; ktrap_next := 2148540437
|}.
#[local] Instance link0 : Linker := {|
  kend := 2148630528; kdata := 2148552704; kforkret := 2148548608; ktrapret := 2148540440;
  initcode_start := 2148560896; initcode_size := 44
|}.

Definition gdt0 : list Z := replicate NSEGS 0.
Definition tables0 : tables := mkTables (seginit gdt0) (tvinit vectors) 2150629376 kdata_sel.

Lemma tables0_ok : tables_ok tables0 gdt0.
Proof. constructor; try reflexivity; [|done]. intros v Hv. unfold word. cbn [vectors image0]. lia. Qed.

(** A user program, and the kernel in the scheduler: its call is swtch(100, 6000). *)
Definition user0 : x86 := mkX86 1 2 3 4 12288 6 7 8 35 35 0 0 27 35 64 514 (fun _ => 0).
Definition sched0 (m : mem) (sp : Z) : x86 := mkX86 1 2 3 4 sp 6 7 8 16 16 0 0 8 16 64 2 m.
Definition args (m : mem) (sp old new : Z) : mem := store32 (store32 m (sp + 4) old) (sp + 8) new.

Lemma user0_ok : x86_ok user0.
Proof. repeat split; done. Qed.
Lemma sched0_ok m sp : word sp -> x86_ok (sched0 m sp).
Proof. intros H. repeat split; done || apply H. Qed.

(** The shortest C function. *)
Lemma ret_returns s : 0 <= x_esp s < 4294967292 -> exists s'', ret s = Ok tt s'' /\ returned s s'' /\ x_mem s'' = x_mem s.
Proof.
  intros Hs. exists (set_eip (load32 (x_mem s) (x_esp s)) (setr ESP (u32 (x_esp s + 4)) s)). split; [done|].
  rewrite u32_small by lia. unfold returned. by destruct s.
Qed.

Lemma read_tf_set_eax m a r : word r -> read_tf (store32 m (a + 28) r) a = set_tf_eax r (read_tf m a).
Proof. intros Hr. unfold read_tf, set_tf_eax. ld. by rewrite u32_small by done. Qed.

Lemma sched0_call m sp old new : word sp -> 16 <= sp -> sp + 12 <= 4294967296 ->
  0 <= old < 4294967292 -> 0 <= new < 4294967276 ->
  apart old 4 (sp - 16) 20 -> apart new CONTEXT_SIZE (sp - 16) 16 -> apart new CONTEXT_SIZE old 4 ->
  swtch_call (sched0 (args m sp old new) sp) old new.
Proof.
  intros Hw H1 H2 Ho Hn A1 A2 A3. split; [by apply sched0_ok|done| | |done|done]; cbn [sched0 x_esp x_mem]; unfold args.
  - rewrite load_store32_ne, load_store32 by lia. apply u32_small. lia.
  - rewrite load_store32. apply u32_small. lia.
Qed.

(** The timer interrupts the user program. *)
Lemma interrupt_transparent_witness : exists m, interrupt tables0 32 None ret user0 = Ok tt (set_mem m user0).
Proof.
  apply (interrupt_transparent tables0 gdt0 tables0_ok ltac:(done) 32 None user0 ret); [lia|apply user0_ok|done|done|done|].
  intros s' Hin. pose proof (it_esp _ _ _ _ _ Hin) as E. destruct (ret_returns s') as (s'' & E1 & E2 & E3).
  { rewrite E. change (frame_at tables0 user0) with 2150629300. lia. }
  exists s''. by rewrite E3.
Defined.

(** The program calls read, which returns 7. *)
Definition trap_read : M x86 unit :=
  modify (fun s => set_mem (store32 (x_mem s) (2150629300 + 28) 7) s);; ret.
Lemma usys_returns_witness : exists m,
  usys tables0 5 60 64 trap_read user0 = Ok tt (set_mem m (setr EAX 7 (setr ESP 12292 (set_eip 0 user0)))).
Proof.
  apply (usys_returns tables0 gdt0 tables0_ok ltac:(done) user0 5 7 60 64 trap_read); [apply user0_ok|done|done|done|done|done|].
  intros s' Hin. pose proof (it_esp _ _ _ _ _ Hin) as E. set (s1 := set_mem (store32 (x_mem s') (2150629300 + 28) 7) s').
  assert (Es : x_esp s1 = x_esp s' /\ x_mem s1 = store32 (x_mem s') (2150629300 + 28) 7 /\ x_cs s1 = x_cs s' /\ x_ss s1 = x_ss s') by (by destruct s').
  change (frame_at tables0 _) with 2150629300 in E. destruct Es as (Es1 & Es2 & Es3 & Es4). destruct (ret_returns s1) as (s'' & E1 & (R1 & R2 & R3 & R4) & E3); [lia|].
  exists s''. split; [exact E1|]. unfold returned. rewrite R1, R2, R3, R4, E3, Es1, Es2, Es3, Es4. split; [|split].
  - rewrite load_store32_ne by lia. done.
  - apply read_tf_set_eax. done.
  - apply load_store32_ne. cbn. lia.
Defined.

(** The program tries int $48. *)
Lemma user_int_confined_witness : exists s',
  (int_ tables0 48 60 62;; trap_entry 13) user0 = Ok tt s' /\ in_trap tables0 (set_eip 60 user0) 13 386 s'.
Proof.
  apply (user_int_confined tables0 gdt0 tables0_ok ltac:(done) user0 48 60 62); [apply user0_ok|done|lia|done|done].
Defined.

(** swtch(100, 6000) on one stack, and later swtch(104, *100) on another. *)
Lemma swtch_resumes_witness : exists s' s2',
  swtch (sched0 (args (fun _ => 0) 5000 100 6000) 5000) = Ok tt s' /\
  swtch (sched0 (args (x_mem s') 7000 104 4984) 7000) = Ok tt s2' /\ running (mkContext 8 7 4 6 0) 5004 s2'.
Proof.
  set (s := sched0 (args (fun _ => 0) 5000 100 6000) 5000).
  assert (Hc : swtch_call s 100 6000) by (apply sched0_call; done || (unfold apart, CONTEXT_SIZE, word; lia)).
  destruct (swtch_resumes s 100 6000 Hc) as (s' & E & _ & Hres).
  destruct (swtch_spec s 100 6000 Hc) as (s1 & E1 & _ & _ & Hl & _). rewrite E1 in E. injection E as <-.
  destruct (Hres (sched0 (args (x_mem s1) 7000 104 4984) 7000) 104) as (s2' & E2 & Hrun & _).
  - rewrite Hl. apply sched0_call; done || (unfold apart, CONTEXT_SIZE, word; cbn [x_esp s sched0]; lia).
  - intros x Hx. cbn [sched0 x_mem x_esp s] in *. unfold CONTEXT_SIZE, args in *. rewrite !store32_other by lia. done.
  - exists s1, s2'. split_and!; [done|done|exact Hrun].
Defined.

(** A new process on the stack at 0x80400000, whose trap frame is the one of
    userinit. *)
Definition kstack0 : Z := 2151677952.
Definition newproc_mem : mem := (allocproc_stack (fun _ => 0) kstack0).1.1.
Definition newproc_tf : Z := kstack0 + 4096 - 76.
Definition newproc_sched : mem :=
  args (store16 (store16 newproc_mem (newproc_tf + 60) 27) (newproc_tf + 72) 35) 5000 100 (newproc_tf - 24).
Lemma new_process_starts_witness : exists m',
  first_turn ret (sched0 newproc_sched 5000) = Ok tt (mkX86 0 0 0 0 0 0 0 0 0 0 0 0 27 35 0 0 m').
Proof.
  destruct (new_process_starts (fun _ => 0) kstack0 newproc_mem newproc_tf (newproc_tf - 24) (sched0 newproc_sched 5000) 100 ret)
    as (m' & E); [reflexivity|done|done|done|done| |done| | | |reflexivity| |].
  - apply sched0_call; done || (unfold apart, CONTEXT_SIZE, word, newproc_tf, kstack0; lia).
  - intros x Hx. cbn [sched0 x_mem]. unfold newproc_sched, args. unfold CONTEXT_SIZE, newproc_tf, kstack0 in *.
    rewrite !store32_other, !store16_other by lia. done.
  - unfold apart, CONTEXT_SIZE, TRAPFRAME_SIZE, newproc_tf, kstack0. lia.
  - unfold apart, CONTEXT_SIZE, TRAPFRAME_SIZE, newproc_tf, kstack0. cbn [sched0 x_esp]. lia.
  - intros s' (_ & _ & _ & _ & _ & Hsp) Hf _. destruct (ret_returns s') as (s'' & E1 & E2 & E3); [rewrite Hsp; unfold newproc_tf, kstack0; lia|].
    exists s''. split; [exact E1|]. split; [exact E2|]. rewrite E3. exact Hf.
  - exists m'. rewrite E. vm_compute. reflexivity.
Defined.
