(* ===== verification/Memide.v ===== *)
(** * memide.c: a disk in memory

    The driver that takes the place of ide.c in a kernel with the file system
    image linked into it: [memdisk] is the address of the image and [disksize]
    its number of blocks. *)

From S2P Require Import Prelude State CString Sleep Ide Bio BioSpec Kalloc.
Open Scope Z_scope.

(** memdisk and disksize, from the symbols the linker gives to the image. *)
Definition mem_ideinit (fs_img_start fs_img_size : Z) : Z * Z := (fs_img_start, fs_img_size / BSIZE).
Definition mem_ideintr : kM unit := mret tt.

Section memide.
Context (memdisk disksize : Z).

(** memdisk + b->blockno*BSIZE *)
Definition image_at (blockno : Z) : Z := u32 (memdisk + u32 (blockno * BSIZE)).

Definition mem_iderw (b : nat) : kM unit :=
  h ← holdingsleep (buf_lock b);
  panic_if (negb h) "iderw: buf not locked";;
  bf ← get_buf b;
  panic_if (Z.land (b_flags bf) (Z.lor B_VALID B_DIRTY) =? B_VALID) "iderw: nothing to do";;
  panic_if (negb (b_dev bf =? 1)) "iderw: request not for disk 1";;
  panic_if (disksize <=? b_blockno bf) "iderw: block out of range";;
  let p := image_at (b_blockno bf) in
  (if negb (Z.land (b_flags bf) B_DIRTY =? 0) then
     upd_buf b (fun x => set_b_flags (Z.land (b_flags x) (Z.lnot B_DIRTY)) x);;
     upd_mem (fun m => store_bytes m p (b_data bf))
   else
     m ← gets k_mem;
     upd_buf b (set_b_data (load_bytes m p (Z.to_nat BSIZE))));;
  upd_buf b (fun x => set_b_flags (Z.lor (b_flags x) B_VALID) x).

(** The image holds the blocks of the disk. *)
Definition mirrors (m : mem) (D : gmap (Z * Z) block) : Prop :=
  forall n, 0 <= n < disksize -> load_bytes m (memdisk + n * BSIZE) (Z.to_nat BSIZE) = dget D 1 n.

Hypothesis Hfit : 0 <= memdisk /\ 0 <= disksize /\ memdisk + disksize * BSIZE <= 4294967296.

Lemma image_at_block n : 0 <= n < disksize -> image_at n = memdisk + n * BSIZE.
Proof using Hfit. intros Hn. unfold image_at, BSIZE in *. rewrite (u32_small (n * 512)), u32_small by lia. done. Qed.

Lemma load_store_same m p l : load_bytes (store_bytes m p l) p (length l) = l.
Proof using.
  apply list_eq. intros i. unfold load_bytes. rewrite list_lookup_fmap. destruct (decide (i < length l)%nat) as [Hi|Hi].
  - rewrite lookup_seq_lt by done. cbn. unfold store_bytes. rewrite (proj2 (Z.leb_le _ _)), (proj2 (Z.ltb_lt _ _)) by lia. cbn [andb].
    unfold nthz. replace (Z.to_nat (p + Z.of_nat i - p)) with i by lia. symmetry. by apply list_lookup_lookup_total_lt.
  - rewrite (lookup_ge_None_2 l) by lia. by rewrite lookup_seq_ge by lia.
Qed.
Lemma image_bytes_eq m m' p n : (forall x, p <= x < p + Z.of_nat n -> m x = m' x) -> load_bytes m p n = load_bytes m' p n.
Proof using.
  intros E. unfold load_bytes. apply list_fmap_ext. intros i k Hk. apply lookup_seq in Hk as [-> Hk]. apply E. lia.
Qed.

Section request.
Context (s : kernel) (b : nat).
Let x := k_bcache s !!! b.
Hypothesis Hlen : length (k_bcache s) = S NBUF.
Hypothesis Hb : (b < NBUF)%nat.
Hypothesis Hcur : is_Some (k_cur s).
Hypothesis Hh : holds s b.
Hypothesis Hdev : b_dev x = 1.
Hypothesis Hbno : 0 <= b_blockno x < disksize.

Lemma mem_iderw_read : b_flags x = 0 ->
  wp (mem_iderw b) (fun _ s' => k_bcache s' =
    alter (buf_done (load_bytes (k_mem s) (memdisk + b_blockno x * BSIZE) (Z.to_nat BSIZE))) b (k_bcache s) /\ k_mem s' = k_mem s) s.
Proof using Hlen Hb Hcur Hh Hdev Hbno Hfit.
  intros Hf. unfold mem_iderw. wp_step. apply holding_ok; [done|done|]. wp_step. apply wp_panic_if; [done|]. ksteps. fold x.
  rewrite Hf. apply wp_panic_if; [done|]. wp_step. rewrite Hdev. apply wp_panic_if; [done|]. wp_step. apply wp_panic_if; [apply Z.leb_gt; lia|].
  rewrite image_at_block by done. flags. ksteps. split; [|done]. apply alter_fuse. fold x. unfold buf_done. ksimpl. by rewrite Hf.
Qed.

Lemma mem_iderw_write : b_flags x = 6 ->
  wp (mem_iderw b) (fun _ s' => k_bcache s' = alter (buf_done (b_data x)) b (k_bcache s) /\
    k_mem s' = store_bytes (k_mem s) (memdisk + b_blockno x * BSIZE) (b_data x)) s.
Proof using Hlen Hb Hcur Hh Hdev Hbno Hfit.
  intros Hf. unfold mem_iderw. wp_step. apply holding_ok; [done|done|]. wp_step. apply wp_panic_if; [done|]. ksteps. fold x.
  rewrite Hf. apply wp_panic_if; [done|]. wp_step. rewrite Hdev. apply wp_panic_if; [done|]. wp_step. apply wp_panic_if; [apply Z.leb_gt; lia|].
  rewrite image_at_block by done. flags. ksteps. split; [|done]. apply alter_fuse. fold x. unfold buf_done. ksimpl. rewrite Hf. by destruct x.
Qed.

(** A request to the memory disk does to the buffer what the request to the
    controller does, and the image then holds the blocks of the controller's
    disk. *)
Theorem memide_same :
  ide_idle (k_ide s) -> disksize <= FSSIZE -> block_ok (b_data x) -> b_flags x = 0 \/ b_flags x = 6 ->
  mirrors (k_mem s) (ide_disk (k_ide s)) ->
  exists s1 s2, iderw b s = Ok tt s1 /\ mem_iderw b s = Ok tt s2 /\
    k_bcache s2 = k_bcache s1 /\ mirrors (k_mem s2) (ide_disk (k_ide s1)).
Proof using Hlen Hb Hcur Hh Hdev Hbno Hfit.
  intros Hidle Hsz Hdata Hf Hm. assert (Hk : key_ok (b_dev x) (b_blockno x)) by (split; [right; done|lia]).
  destruct Hf as [Hf|Hf].
  - destruct (proj1 (wp_ok _ _ _) (iderw_read s b Hlen Hb Hcur Hidle Hh Hk Hf)) as ([] & s1 & E1 & _ & Hb1 & _ & Hd1 & _).
    destruct (proj1 (wp_ok _ _ _) (mem_iderw_read Hf)) as ([] & s2 & E2 & Hb2 & Hm2).
    exists s1, s2. rewrite Hb1, Hb2, Hm2, Hd1. fold x. rewrite (Hm _ Hbno), Hdev. done.
  - destruct (proj1 (wp_ok _ _ _) (iderw_write s b Hlen Hb Hcur Hidle Hh Hk Hf Hdata)) as ([] & s1 & E1 & _ & Hb1 & _ & Hd1 & _).
    destruct (proj1 (wp_ok _ _ _) (mem_iderw_write Hf)) as ([] & s2 & E2 & Hb2 & Hm2).
    exists s1, s2. rewrite Hb1, Hb2, Hm2, Hd1. fold x. split_and!; [done|done|done|]. destruct Hdata as [Hl _].
    intros n Hn. unfold dget. rewrite Hdev. destruct (decide (n = b_blockno x)) as [->|Hne].
    + rewrite lookup_insert_eq. change (Z.to_nat BSIZE) with 512%nat. rewrite <- Hl. apply load_store_same.
    + rewrite lookup_insert_ne by congruence. etrans; [|apply (Hm n Hn)]. apply image_bytes_eq. intros a Ha. unfold store_bytes, BSIZE in *. rewrite Hl. zcases.
Qed.
End request.
End memide.
