(* ===== verification/Main.v ===== *)
(** * main.c: the start of the machine

    The boot processor's way from the loader to the scheduler.  The machine is
    the kernel's state together with the devices of the other files, whose
    operations are lifted to it.  What the devices answer, and the image of
    entryother.S that the linker puts into the kernel, are parameters.  pinit,
    fileinit and the other calls of initlock are not steps of the model: a lock
    is free in a zeroed state. *)

From S2P Require Import Prelude State CString Sleep Ide Bio Log Kalloc Console Vm Fs FsFile File Proc Gate Mp Apic.
Open Scope Z_scope.

Record machine := mkMachine {
  ma_k : kernel;
  ma_mp : mpstate;
  ma_lapic : list (Z * Z);   (** the writes to the local APIC *)
  ma_io : ioapic;
  ma_gdt : list Z;
  ma_idt : list Z;
  ma_idtr : bool;            (** the table is loaded *)
  ma_ports : list (Z * Z);   (** the outb calls *)
  ma_started : list bool     (** cpus[i].started *)
}.
Definition set_ma_k x m := mkMachine x (ma_mp m) (ma_lapic m) (ma_io m) (ma_gdt m) (ma_idt m) (ma_idtr m) (ma_ports m) (ma_started m).
Definition set_ma_mp x m := mkMachine (ma_k m) x (ma_lapic m) (ma_io m) (ma_gdt m) (ma_idt m) (ma_idtr m) (ma_ports m) (ma_started m).
Definition set_ma_lapic x m := mkMachine (ma_k m) (ma_mp m) x (ma_io m) (ma_gdt m) (ma_idt m) (ma_idtr m) (ma_ports m) (ma_started m).
Definition set_ma_io x m := mkMachine (ma_k m) (ma_mp m) (ma_lapic m) x (ma_gdt m) (ma_idt m) (ma_idtr m) (ma_ports m) (ma_started m).
Definition set_ma_gdt x m := mkMachine (ma_k m) (ma_mp m) (ma_lapic m) (ma_io m) x (ma_idt m) (ma_idtr m) (ma_ports m) (ma_started m).
Definition set_ma_idt x m := mkMachine (ma_k m) (ma_mp m) (ma_lapic m) (ma_io m) (ma_gdt m) x (ma_idtr m) (ma_ports m) (ma_started m).
Definition set_ma_idtr x m := mkMachine (ma_k m) (ma_mp m) (ma_lapic m) (ma_io m) (ma_gdt m) (ma_idt m) x (ma_ports m) (ma_started m).
Definition set_ma_ports x m := mkMachine (ma_k m) (ma_mp m) (ma_lapic m) (ma_io m) (ma_gdt m) (ma_idt m) (ma_idtr m) x (ma_started m).
Definition set_ma_started x m := mkMachine (ma_k m) (ma_mp m) (ma_lapic m) (ma_io m) (ma_gdt m) (ma_idt m) (ma_idtr m) (ma_ports m) x.

(** An operation on a part of the machine. *)
Definition lift {S A} (get : machine -> S) (set : S -> machine -> machine) (f : M S A) : M machine A := fun m =>
  match f (get m) with
  | Ok a s => Ok a (set s m)
  | Panic msg => Panic msg
  | Sleeps c s => Sleeps c (set s m)
  | Gone s => Gone (set s m)
  | Fault msg => Fault msg
  | NoFuel => NoFuel
  end.
Definition on_k {A} : kM A -> M machine A := lift ma_k set_ma_k.
Definition on_io {A} : M ioapic A -> M machine A := lift ma_io set_ma_io.
Definition on_mp {A} : M mpstate A -> M machine A := lift ma_mp set_ma_mp.
(** The local APIC's routines also write ports and memory. *)
Definition on_lapic {A} : M ldev A -> M machine A :=
  lift (fun m => mkLdev (ma_lapic m) (ma_ports m) (k_mem (ma_k m)))
    (fun d m => set_ma_lapic (l_writes d) (set_ma_ports (l_ports d) (set_ma_k (set_k_mem (l_mem d) (ma_k m)) m))).
Definition outb (port data : Z) : M machine unit := modify (fun m => set_ma_ports (ma_ports m ++ [(port, data)]) m).
Fixpoint outbs (l : list (Z * Z)) : M machine unit :=
  match l with
  | [] => mret tt
  | (p, d) :: l' => outb p d;; outbs l'
  end.

(** What the devices answer. *)
Record devices := mkDevices {
  d_imcr : Z;             (** inb(0x23) *)
  d_mpfuel : nat;         (** entries of the configuration table *)
  d_ver : Z;              (** lapic[VER] *)
  d_icr : list Z;         (** the reads of lapic[ICRLO] *)
  d_id : Z;               (** lapic[ID] *)
  d_uart : Z;             (** inb(COM1+5) *)
  d_idewait : list Z;     (** inb(0x1f7) of idewait *)
  d_disk1 : list Z;       (** inb(0x1f7) with disk 1 selected *)
  d_starts : nat -> bool  (** whether processor i sets c->started *)
}.

(** The image of entryother.S in the kernel, and the addresses of mpenter and of
    entrypgdir. *)
Class Entry := { entryother_start : Z; entryother_size : Z; kmpenter : Z; kentrypgdir : Z }.

(** ** entrypgdir *)

Definition PTE_PS : Z := 128.
Definition entrypgdir (i : Z) : Z :=
  if i =? Z.shiftr KERNBASE 22 then Z.lor (Z.lor (Z.lor 0 PTE_P) PTE_W) PTE_PS
  else if i =? 0 then Z.lor (Z.lor (Z.lor 0 PTE_P) PTE_W) PTE_PS
  else 0.

(** The processor's translation with CR4_PSE: an entry with PTE_PS maps 4 MB. *)
Definition entry_translate (va : Z) : option Z :=
  let e := entrypgdir (Z.shiftr va 22) in
  if Z.land e PTE_P =? 0 then None
  else if Z.land e PTE_PS =? 0 then None
  else Some (Z.land e (Z.lnot 4194303) + Z.land va 4194303).

(** ** Device set-up *)

Section main.
Context `{Linker} `{Entry} (vectors : Z -> Z) (d : devices).

Definition COM1 : Z := 1016.
Definition IRQ_KBD : Z := 1.
Definition IRQ_COM1 : Z := 4.
Definition IRQ_IDE : Z := 14.

Fixpoint uartputs (l : list Z) : kM unit :=
  match l with
  | [] => mret tt
  | c :: l' => uartputc c;; uartputs l'
  end.
Definition uartinit : M machine unit :=
  outbs [(COM1 + 2, 0); (COM1 + 3, 128); (COM1 + 0, 115200 / 9600); (COM1 + 1, 0); (COM1 + 3, 3); (COM1 + 4, 0); (COM1 + 1, 1)];;
  if d_uart d =? 255 then mret tt
  else
    on_k (upd_cons (set_uart true));;
    on_io (ioapicenable IRQ_COM1 0);;
    on_k (uartputs (str "xv6..." ++ [10])).

(** IDE_BSY 0x80, IDE_DRDY 0x40, IDE_DF 0x20, IDE_ERR 0x01; on the values read. *)
Fixpoint idewait (checkerr : bool) (status : list Z) : option Z :=
  match status with
  | [] => None
  | r :: l =>
    if negb (Z.land r (Z.lor 128 64) =? 64) then idewait checkerr l
    else if checkerr && negb (Z.land r (Z.lor 32 1) =? 0) then Some (-1) else Some 0
  end.
(** The 1000 reads of the status with disk 1 selected. *)
Definition ideinit : M machine unit :=
  n ← gets (fun m => length (mp_apicids (ma_mp m)));
  on_io (ioapicenable IRQ_IDE (Z.of_nat n - 1));;
  match idewait false (d_idewait d) with
  | None => nofuel
  | Some _ =>
    outb 502 (Z.lor 224 (Z.shiftl 1 4));;
    (when existsb (fun r => negb (r =? 0)) (take 1000 (d_disk1 d)) do on_k (upd_ide (set_ide_havedisk1 true)));;
    outb 502 (Z.lor 224 (Z.shiftl 0 4))
  end.

Definition have_lapic (m : machine) : bool := negb (mp_lapic (ma_mp m) =? 0).

(** The first entry of cpus with this processor's APIC id. *)
Fixpoint find_cpu (apicid : Z) (ids : list Z) : option nat :=
  match ids with
  | [] => None
  | a :: l => if a =? apicid then Some O else S <$> find_cpu apicid l
  end.
(** Interrupts are off until the scheduler, so that the test of FL_IF passes. *)
Definition mycpu : M machine nat := fun m =>
  match find_cpu (lapicid (have_lapic m) (d_id d)) (mp_apicids (ma_mp m)) with
  | Some i => Ok i m
  | None => Panic "unknown apicid\n"
  end.

(** for(c = cpus; c < cpus+ncpu; c++), from processor [i] on. *)
Fixpoint startothers_loop (code : Z) (i : nat) (ids : list Z) : M machine unit :=
  match ids with
  | [] => mret tt
  | apicid :: ids' =>
    me ← mycpu;
    (when negb (i =? me)%nat do
      (stack ← on_k kalloc;
       on_k (sd32 (code - 4) (u32 (stack + KSTACKSIZE)));;
       on_k (sd32 (code - 8) kmpenter);;
       on_k (sd32 (code - 12) (V2P kentrypgdir));;
       on_lapic (lapicstartap apicid (V2P code));;
       if d_starts d i then modify (fun m => set_ma_started (<[i := true]> (ma_started m)) m) else nofuel));;
    startothers_loop code (S i) ids'
  end.
Definition startothers : M machine unit :=
  let code := P2V 28672 in
  on_k (upd_mem (fun m => memmove m code entryother_start entryother_size));;
  ids ← gets (fun m => mp_apicids (ma_mp m));
  startothers_loop code 0 ids.

(** mpmain up to the call of scheduler. *)
Definition mpmain : M machine unit :=
  me ← mycpu;
  on_k (cprintf (str "cpu%d: starting %d" ++ [10]) [ANum (Z.of_nat me); ANum (Z.of_nat me)]);;
  modify (set_ma_idtr true);;
  modify (fun m => set_ma_started (<[me := true]> (ma_started m)) m).

(** The other processors, with their own local APIC and descriptor table. *)
Definition mpenter : M machine unit :=
  on_k switchkvm;;
  modify (fun m => set_ma_gdt (seginit (ma_gdt m)) m);;
  lapic ← gets have_lapic;
  on_lapic (lapicinit lapic (d_ver d) (d_icr d));;
  mpmain.

(** main, from mpinit to ideinit. *)
Definition main_devices : M machine unit :=
  mem ← gets (fun m => k_mem (ma_k m));
  on_mp (mpinit mem (d_imcr d) (d_mpfuel d));;
  lapic ← gets have_lapic;
  on_lapic (lapicinit lapic (d_ver d) (d_icr d));;
  modify (fun m => set_ma_gdt (seginit (ma_gdt m)) m);;
  outbs picinit;;
  ioapicid ← gets (fun m => mp_ioapicid (ma_mp m));
  other ← on_io (ioapicinit ioapicid);
  (when (other : bool) do on_k (cprintf (str "ioapicinit: id isn't equal to ioapicid; not a MP" ++ [10]) []));;
  on_k consoleinit;;
  on_io (ioapicenable IRQ_KBD 0);;
  uartinit;;
  modify (set_ma_idt (tvinit vectors));;
  on_k binit;;
  ideinit.

Definition main : M machine unit :=
  on_k (kinit1 kend (P2V (4 * 1024 * 1024)));;
  on_k kvmalloc;;
  main_devices;;
  startothers;;
  on_k (kinit2 (P2V (4 * 1024 * 1024)) (P2V PHYSTOP));;
  on_k userinit;;
  mpmain.
End main.
