(* ===== verification/MainProps.v ===== *)
(** * From power-on to the first process *)

From S2P Require Import Prelude State CString Sleep Ide Bio Log Kalloc PageMath KallocSpec Console ConsoleOut Vm VmSpec VmUser VmCopy VmProps Fs FsFile File Proc Fork Gate Mp Apic Main.
Open Scope Z_scope.

(** ** The boot page table *)

(** entrypgdir maps the first 4 MB at 0 and at KERNBASE, and nothing else. *)
Lemma entrypgdir_maps va : 0 <= va < 4294967296 ->
  entry_translate va =
    if va <? 4194304 then Some va
    else if (KERNBASE <=? va) && (va <? KERNBASE + 4194304) then Some (va - KERNBASE) else None.
Proof.
  intros Hva. unfold entry_translate, entrypgdir. rewrite Z.shiftr_div_pow2 by lia. change (2 ^ 22) with 4194304.
  change (Z.shiftr KERNBASE 22) with 512. change 4194303 with (Z.ones 22) at 2. rewrite Z.land_ones by lia. change (2 ^ 22) with 4194304.
  set (e := Z.lor (Z.lor (Z.lor 0 PTE_P) PTE_W) PTE_PS). change e with 131. unfold KERNBASE, PTE_P, PTE_PS.
  destruct (Z.eqb_spec (va / 4194304) 512) as [E|E]; [|destruct (Z.eqb_spec (va / 4194304) 0) as [E'|E']].
  - change (Z.land 131 1 =? 0) with false. change (Z.land 131 128 =? 0) with false. change (Z.land 131 (Z.lnot 4194303)) with 0. cbv iota. zcases; try zlia. f_equal. zlia.
  - change (Z.land 131 1 =? 0) with false. change (Z.land 131 128 =? 0) with false. change (Z.land 131 (Z.lnot 4194303)) with 0. cbv iota. zcases; try zlia. f_equal. zlia.
  - change (Z.land 0 1 =? 0) with true. cbv iota. zcases; zlia.
Qed.

Section boot.
Context {L : Linker} {HL : LinkedAt}.

(** A kernel that leaves at least 544 whole pages below 4 MB. *)
Definition kend_ok : Prop := KERNLINK < kend <= KERNBASE + 1966080.
Hypothesis Hkend : kend_ok.

(** ** Memory *)

Lemma kfree_mem v : moves mem_only (kfree v).
Proof using. unfold kfree, upd_mem, sd32, upd_mem, upd_kmem. moves_steps; intros s; unfold mem_only; by destruct s. Qed.
Lemma freerange_mem vstart vend : moves mem_only (freerange vstart vend).
Proof using HL.
  unfold freerange. generalize (PGROUNDUP vstart) as p. generalize (Z.to_nat (vend / PGSIZE)) as fuel.
  induction fuel as [|fuel IH]; intros p; cbn [freerange_loop]; moves_steps. apply kfree_mem.
Qed.

(** The pages of kinit1 and of kinit2. *)
Definition pages1 : list Z := pages (PGROUNDUP kend) (Z.to_nat ((KERNBASE + 4194304 - PGROUNDUP kend) / PGSIZE)).
Definition pages2 : list Z := pages (PGROUNDUP (KERNBASE + 4194304)) (Z.to_nat ((KERNBASE + PHYSTOP - PGROUNDUP (KERNBASE + 4194304)) / PGSIZE)).

Lemma pages1_facts : PGROUNDUP kend <= KERNBASE + 4194304 - 544 * PGSIZE /\ (544 <= length pages1)%nat /\
  (forall a, a ∈ pages1 -> a < KERNBASE + 4194304).
Proof using Hkend HL.
  unfold kend_ok, KERNLINK, KERNBASE, EXTMEM in *. destruct (PGROUNDUP_bounds kend) as [Hal Hb]; [lia|lia|]. unfold PGSIZE in *.
  assert (Hp : PGROUNDUP kend <= 2149449728) by zlia. split_and!; [lia| |].
  - unfold pages1, pages. rewrite length_fmap, length_seq. unfold KERNBASE, PGSIZE. zlia.
  - intros a Ha. apply elem_of_pages in Ha as (i & Hi & ->). unfold KERNBASE, PGSIZE in *. zlia.
Qed.

(** The kernel on its way from [s0]: the page table [T] is in use, the pages [l]
    are free and the pages [F] taken; of the rest only the devices and the low
    memory have changed. *)
Record boot_ok (s0 s : kernel) (F : list Z) (T : tables) (l : list Z) : Prop := {
  bo_tab : vm_tab s F T l;
  bo_map : forall j, t_map T j = kernel_map j;
  bo_cpu : cpu_kpgdir (k_cpu s) = t_dir T /\ cpu_cr3 (k_cpu s) = V2P (t_dir T);
  bo_cons : cons_ok (k_cons s);
  bo_same : k_ptable s = k_ptable s0 /\ k_nextpid s = k_nextpid s0 /\ k_icache s = k_icache s0 /\ k_initproc s = k_initproc s0;
  bo_low : forall x, KERNLINK <= x < kend -> k_mem s x = k_mem s0 x
}.

Lemma page_ok_above a x : page_ok a -> in_page a x -> kend <= x.
Proof using. intros (_ & Ha & _) Hx. unfold in_page in Hx. lia. Qed.

Lemma NoDup_pages p n : NoDup (pages p n).
Proof using. unfold pages. apply NoDup_fmap_2_strong; [|apply NoDup_seq]. intros x y _ _ E. unfold PGSIZE in E. lia. Qed.

(** kinit1 and kvmalloc; no byte below the end of the kernel changes. *)
Lemma boot_memory s0 : freelist s0 [] -> cons_ok (k_cons s0) ->
  exists s T l, (kinit1 kend (P2V (4 * 1024 * 1024));; kvmalloc) s0 = Ok tt s /\ boot_ok s0 s [] T l /\
    (tpages T ++ l) ≡ₚ pages1 /\ (31 <= length l)%nat /\ (forall x, x < kend -> k_mem s x = k_mem s0 x) /\
    k_bcache s = k_bcache s0.
Proof using Hkend HL.
  intros Hf Hc. destruct pages1_facts as (Hp1 & Hp2 & _). unfold kend_ok in Hkend. change (P2V (4 * 1024 * 1024)) with (KERNBASE + 4194304).
  set (sa := set_k_kmem (set_km_use_lock false (k_kmem s0)) s0). assert (Hfa : freelist sa []) by (destruct Hf as [A B]; split; [exact A|exact B]).
  destruct (freerange_frees sa [] kend (KERNBASE + 4194304) Hfa) as (s1 & E1 & Hf1 & Hm1);
    [unfold KERNLINK, EXTMEM in *; lia|lia|unfold PHYSTOP; lia|unfold PGSIZE in *; lia|intros a _; apply not_elem_of_nil|].
  fold pages1 in Hf1, Hm1. rewrite app_nil_r in Hf1. pose proof (moves_ok _ _ _ _ _ (freerange_mem _ _) E1) as Ho1.
  unfold mbind at 1, M_bind at 1. unfold kinit1. rewrite (bind_ok _ _ s0 tt sa) by done. rewrite E1.
  assert (Hpk : Forall page_ok pages1).
  { rewrite <- (rev_involutive pages1). apply Forall_rev. apply (chain_pages _ _ _ (fl_chain _ _ Hf1)). }
  destruct (setupkvm_spec s1 [] (rev pages1) Hf1) as (r & s2 & E2 & D); [apply (fl_nodup _ _ Hf1)|by apply Forall_rev|].
  unfold kvmalloc. rewrite (bind_ok _ _ _ _ _ E2). destruct D as [(_ & _ & Hle)|(T & l & -> & Hu & Hperm & _ & Hmc & Ho & Hkt & Hmap)].
  { rewrite length_rev in Hle. lia. }
  set (s3 := set_k_cpu (set_cpu_cr3 (V2P (t_dir T)) (set_cpu_kpgdir (t_dir T) (k_cpu s2))) s2). exists s3, T, l. split; [done|].
  pose proof (vu_tab _ _ _ _ Hu) as Hv. cbn in Hv. change (upages ∅) with (@nil Z) in Hv.
  assert (Hlow : forall x, x < kend -> k_mem s3 x = k_mem s0 x).
  { intros x Hx. cbn. rewrite Ho, Hm1; [done| |]; intros a Ha Hin.
    - rewrite Forall_forall in Hpk. pose proof (page_ok_above a x (Hpk a Ha) Hin). lia.
    - rewrite Forall_forall in Hpk. apply list_elem_of_In, in_rev, list_elem_of_In in Ha. pose proof (page_ok_above a x (Hpk a Ha) Hin). lia. }
  assert (Hp : (tpages T ++ l) ≡ₚ pages1) by (rewrite Hperm; symmetry; apply Permutation_rev).
  destruct Hmc as [Hmc Hco]. unfold mem_only in Ho1. split_and!; [|done| |exact Hlow|].
  - split; [|done|done| | |].
    + destruct Hv as [V1 V2 V3 V4]. split; [by apply (freelist_ext s2)|done|done|done].
    + cbn. apply Hco. rewrite Ho1. exact Hc.
    + cbn. rewrite Hmc, Ho1. split_and!; reflexivity.
    + intros x Hx. apply Hlow. lia.
  - apply kernel_tables_pages in Hkt. apply Permutation_length in Hp. rewrite length_app in Hp. lia.
  - cbn. rewrite Hmc, Ho1. reflexivity.
Qed.

(** Changes of the devices. *)
Lemma boot_ok_dev s0 s s' F T l : boot_ok s0 s F T l ->
  k_mem s' = k_mem s -> k_kmem s' = k_kmem s -> k_cpu s' = k_cpu s -> cons_ok (k_cons s') ->
  k_ptable s' = k_ptable s -> k_nextpid s' = k_nextpid s -> k_icache s' = k_icache s -> k_initproc s' = k_initproc s -> boot_ok s0 s' F T l.
Proof using HL.
  intros [[V1 V2 V3 V4] B2 B3 B4 B5 B6] Em Ek Ec Hc E1 E2 E3 E4. split; [|done|by rewrite Ec|done|by rewrite E1, E2, E3, E4|by rewrite Em].
  split; [|by rewrite Em|done|done]. destruct V1 as [C1 C2]. split; [|done]. by rewrite Em, Ek.
Qed.

(** Changes of memory below the kernel. *)
Lemma boot_ok_low s0 s m F T l : boot_ok s0 s F T l -> (forall x, KERNLINK <= x -> m x = k_mem s x) -> boot_ok s0 (set_k_mem m s) F T l.
Proof using Hkend HL.
  intros [[V1 V2 V3 V4] B2 B3 B4 B5 B6] Hm. unfold kend_ok in Hkend.
  assert (Hpg : forall a x, a ∈ F ++ tpages T ++ l -> in_page a x -> m x = k_mem s x).
  { intros a x Ha Hx. apply Hm. rewrite Forall_forall in V4. pose proof (page_ok_above a x (V4 a Ha) Hx). lia. }
  split; [|done|done|done|done|intros x Hx; cbn; rewrite Hm by lia; auto].
  split; [|apply (tab_ok_ext (k_mem s)); [|done]|done|done].
  - apply (freelist_ext s); [|done|done]. intros a x Ha. apply (Hpg a x). set_solver.
  - intros a x Ha. apply (Hpg a x). set_solver.
Qed.

Lemma boot_kalloc s0 s F T a l : boot_ok s0 s F T (a :: l) ->
  exists s', kalloc s = Ok a s' /\ boot_ok s0 s' (a :: F) T l /\ s' = set_k_kmem (k_kmem s') s.
Proof using HL.
  intros [V B2 B3 B4 B5 B6]. destruct (kalloc_tab _ _ _ _ _ V) as (s' & E & V' & Em & Ho).
  assert (Es : s' = set_k_kmem (k_kmem s') s) by (unfold mem_only in Ho; rewrite Em in Ho; rewrite Ho at 1; by destruct s).
  exists s'. split_and!; [done| |done]. split; [done|done|by rewrite Es|by rewrite Es|by rewrite Es|by rewrite Em].
Qed.

(** Pages [P] from above the others are added to the free ones. *)
Lemma boot_freed s0 s s2 F T l P : boot_ok s0 s F T l -> freelist s2 (P ++ l) -> NoDup P ->
  (forall a b, a ∈ P -> b ∈ F ++ tpages T ++ l -> b < a) ->
  (forall x, (forall a, a ∈ P -> ~ in_page a x) -> k_mem s2 x = k_mem s x) -> mem_only s s2 -> boot_ok s0 s2 F T (P ++ l).
Proof using.
  intros [[V1 V2 V3 V4] B2 B3 B4 B5 B6] Hf Hnd Hlt Hm Ho. unfold mem_only in Ho.
  assert (Hpk : Forall page_ok (P ++ l)) by apply (chain_pages _ _ _ (fl_chain _ _ Hf)).
  apply Forall_app in Hpk as [Hpk _]. rewrite Forall_forall in Hpk.
  assert (Hperm : (F ++ tpages T ++ P ++ l) ≡ₚ (P ++ (F ++ tpages T ++ l))) by solve_Permutation.
  split; [|done|by rewrite Ho|by rewrite Ho|by rewrite Ho|].
  - split; [done| | |].
    + apply (tab_ok_ext (k_mem s)); [|done]. intros a x Ha Hx. apply Hm. intros b Hb.
      assert (Ha' : a ∈ F ++ tpages T ++ l) by (apply elem_of_app; right; apply elem_of_app; by left).
      rewrite Forall_forall in V4. apply (page_disjoint a b); [auto|auto| |done]. intros ->. pose proof (Hlt b b Hb Ha'). lia.
    + rewrite Hperm. apply list.NoDup_app. split_and!; [done| |done]. intros a Ha Hin. pose proof (Hlt a a Ha Hin). lia.
    + rewrite Hperm. apply Forall_app. split; [by apply Forall_forall|done].
  - intros x Hx. rewrite Hm; [auto|]. intros a Ha Hin. pose proof (page_ok_above a x (Hpk a Ha) Hin). lia.
Qed.

Lemma pages2_above a : a ∈ pages2 -> KERNBASE + 4194304 <= a.
Proof using.
  unfold pages2. generalize (Z.to_nat ((KERNBASE + PHYSTOP - PGROUNDUP (KERNBASE + 4194304)) / PGSIZE)). intros n Ha.
  apply elem_of_pages in Ha as (i & Hi & ->). change (PGROUNDUP (KERNBASE + 4194304)) with (KERNBASE + 4194304). unfold PGSIZE. lia.
Qed.

Lemma pages2_length : (4500 <= length pages2)%nat.
Proof using.
  unfold pages2, pages. rewrite length_fmap, length_seq. change 4500%nat with (Z.to_nat 4500). apply Z2Nat.inj_le; [done|done|]. vm_compute. discriminate.
Qed.

(** kinit2 gives the rest of the memory to the allocator. *)
Lemma boot_kinit2 s0 s F T l : boot_ok s0 s F T l -> (forall a, a ∈ F ++ tpages T ++ l -> a < KERNBASE + 4194304) ->
  exists s', kinit2 (P2V (4 * 1024 * 1024)) (P2V PHYSTOP) s = Ok tt s' /\ boot_ok s0 s' F T (rev pages2 ++ l) /\ mem_only s s'.
Proof using Hkend HL.
  intros Hb Hlo. change (P2V (4 * 1024 * 1024)) with (KERNBASE + 4194304). change (P2V PHYSTOP) with (KERNBASE + PHYSTOP).
  unfold kend_ok, KERNLINK, EXTMEM in Hkend.
  destruct (freerange_frees s l (KERNBASE + 4194304) (KERNBASE + PHYSTOP) (vt_free _ _ _ _ (bo_tab _ _ _ _ _ Hb))) as (s1 & E1 & Hf1 & Hm1);
    [lia|lia|unfold PHYSTOP; lia|done| |].
  { fold pages2. intros a Ha Hin. pose proof (pages2_above a Ha). pose proof (Hlo a ltac:(set_solver)). lia. }
  fold pages2 in Hf1, Hm1. pose proof (moves_ok _ _ _ _ _ (freerange_mem _ _) E1) as Ho1.
  set (s2 := set_k_kmem (set_km_use_lock true (k_kmem s1)) s1). exists s2. unfold kinit2. rewrite (bind_ok _ _ _ _ _ E1). split; [done|].
  assert (Ho2 : mem_only s s2) by (unfold mem_only in *; unfold s2; rewrite Ho1; by destruct s).
  split; [|exact Ho2]. apply (boot_freed s0 s); [exact Hb|destruct Hf1 as [C1 C2]; split; [exact C1|exact C2]|rewrite <- Permutation_rev; apply NoDup_pages| | |exact Ho2].
  - intros a b Ha Hin. apply list_elem_of_In, in_rev, list_elem_of_In in Ha. pose proof (pages2_above a Ha). pose proof (Hlo b Hin). lia.
  - intros x Hx. apply Hm1. intros a Ha. apply Hx. by apply list_elem_of_In, in_rev, list_elem_of_In in Ha.
Qed.

(** ** The first process *)

Definition after_alloc (kst : Z) (s0 : kernel) : kernel :=
  set_k_nextpid (i32 (k_nextpid s0 + 1)) (set_k_ptable (alter (slot_taken (k_nextpid s0) kst) 0%nat (k_ptable s0)) s0).

Lemma boot_allocproc s0 s F T kst l : boot_ok s0 s F T (kst :: l) -> length (k_ptable s0) = NPROC -> p_state (k_ptable s0 !!! 0%nat) = UNUSED ->
  exists s', allocproc s = Ok (Some 0%nat) s' /\ boot_ok (after_alloc kst s0) s' (kst :: F) T l.
Proof using Hkend HL.
  intros Hb Hl Hu. pose proof (bo_same _ _ _ _ _ Hb) as (Ep & En & Ei & Ein).
  destruct (allocproc_spec s F T (kst :: l) (bo_tab _ _ _ _ _ Hb)) as [[_ Hno]|(p & Hfs & [[E _]|(k & l' & s' & E & Ea & Es & Hv & Hk & Ho)])]; [by rewrite Ep| |done|].
  { destruct (Hno 0%nat); [unfold NPROC; lia|by rewrite Ep]. }
  injection E as <- <-. destruct p as [|p]; [|destruct Hfs as (_ & _ & Hfs); destruct (Hfs 0%nat); [lia|by rewrite Ep]].
  exists s'. split; [done|]. destruct Hb as [V B2 B3 B4 B5 B6]. split; [done|done|by rewrite Es|by rewrite Es| |].
  - rewrite Es. cbn. rewrite Ep, En. done.
  - intros x Hx. rewrite Ho; [by apply B6|]. intros a ->%list_elem_of_singleton Hin. assert (Hkst : page_ok kst) by (apply (vt_page_in _ _ _ _ _ V); set_solver).
    pose proof (page_ok_above kst x Hkst Hin). lia.
Qed.

(** The same with the address space [A] of a process besides the kernel's. *)
Record boot_user (s0 s : kernel) (F : list Z) (T : tables) (A : aspace) (l : list Z) : Prop := {
  bu_user : vm_user s (F ++ tpages T) A l;
  bu_tab : tab_ok (k_mem s) T;
  bu_map : forall j, t_map T j = kernel_map j;
  bu_kernel : forall j, UPN <= j -> t_map (a_tab A) j = kernel_map j;
  bu_cpu : cpu_kpgdir (k_cpu s) = t_dir T /\ cpu_cr3 (k_cpu s) = V2P (t_dir T);
  bu_cons : cons_ok (k_cons s);
  bu_same : k_ptable s = k_ptable s0 /\ k_nextpid s = k_nextpid s0 /\ k_icache s = k_icache s0 /\ k_initproc s = k_initproc s0;
  bu_low : forall x, KERNLINK <= x < kend -> k_mem s x = k_mem s0 x
}.

Lemma boot_setupkvm s0 s F T l : boot_ok s0 s F T l -> (513 < length l)%nat ->
  exists s' T2 l', setupkvm s = Ok (t_dir T2) s' /\ boot_user s0 s' F T (mkAspace T2 ∅) l' /\ (length l <= length l' + 513)%nat /\ t_dir T2 <> 0.
Proof using HL.
  intros [V B2 B3 B4 B5 B6] Hlen. destruct V as [V1 V2 V3 V4].
  destruct (setupkvm_spec s (F ++ tpages T) l V1) as (r & s' & E & D); [by rewrite <- app_assoc|by rewrite <- app_assoc|].
  destruct D as [(_ & _ & Hle)|(T2 & l' & -> & Hu & Hperm & Hk & [Hmc Hco] & Ho & Hkt & Hmap)]; [lia|].
  assert (Hpk : Forall page_ok l) by (rewrite !Forall_app in V4; tauto). rewrite Forall_forall in Hpk.
  exists s', T2, l'. split_and!; [done| | |].
  - split; [done| |done|done|by rewrite Hmc|auto|by rewrite Hmc|].
    + apply (tab_ok_ext (k_mem s)); [|done]. intros a x Ha. apply Hk. apply elem_of_app. by right.
    + intros x Hx. rewrite Ho; [auto|]. intros a Ha Hin. pose proof (page_ok_above a x (Hpk a Ha) Hin). lia.
  - apply Permutation_length in Hperm. rewrite length_app in Hperm. pose proof (kernel_tables_pages T2 Hkt). lia.
  - apply page_ok_nz, Hpk. rewrite <- Hperm. by left.
Qed.

(** inituvm puts the initial code into the first page. *)
Lemma boot_inituvm s0 s F T T2 l : boot_user s0 s F T (mkAspace T2 ∅) l -> (1025 < length l)%nat ->
  KERNLINK <= initcode_start -> 0 <= initcode_size < PGSIZE -> initcode_start + initcode_size <= kend ->
  exists s' A u l', inituvm (t_dir T2) initcode_start initcode_size s = Ok tt s' /\ boot_user s0 s' F T A l' /\
    (length l <= length l' + 1025)%nat /\ t_dir (a_tab A) = t_dir T2 /\ a_ups A = {[0 := (u, 7)]} /\
    (forall o, 0 <= o < PGSIZE -> k_mem s' (u + o) = if o <? initcode_size then k_mem s0 (initcode_start + o) else 0).
Proof using HL Hkend.
  intros [[V Ha] B1 B2 B2' B3 B4 B5 B6] Hlen Hi1 Hi2 Hi3. destruct l as [|u l]; [cbn in Hlen; lia|].
  cbn [a_tab a_ups] in V. change (upages ∅) with (@nil Z) in V. rewrite app_nil_r in V.
  destruct (kalloc_zeroed _ _ _ _ _ V) as (s1 & E1 & Es1 & V1 & K1 & Z1 & Hu0).
  assert (Hpu : page_ok u) by (apply (vt_page_in _ _ _ _ _ V); set_solver).
  set (A0 := mkAspace T2 ∅). destruct (map_user_page s1 (F ++ tpages T) A0 l 0 u 6) as (r & s2 & T' & l' & E2 & S2 & D);
    [cbn [A0 a_ups a_tab]; change (upages ∅) with (@nil Z); by rewrite app_nil_r|exact Ha|apply lookup_empty|unfold UPN; lia|lia|].
  pose proof (vs_pages _ _ _ _ _ _ _ S2) as Hp. pose proof (tables_pages _ _ (vt_tab _ _ _ _ (vs_tab _ _ _ _ _ _ _ S2))) as Hb.
  destruct D as [(-> & Hu2 & Hk2)|(_ & -> & _)].
  2:{ apply Permutation_length in Hp. rewrite !length_app in Hp. cbn [length] in Hp, Hlen. assert (1 <= length (tpages (a_tab A0)))%nat by (cbn; lia). lia. }
  set (f := fun m : mem => memmove m u initcode_start initcode_size). set (A := mapped A0 T' 0 u (Z.lor 6 1)) in *.
  assert (Hf : only [u] (k_mem s2) (f (k_mem s2))).
  { intros x Hx. unfold f. rewrite memmove_spec by lia. pose proof (Hx u ltac:(by left)) as Hnx. unfold in_page, PGSIZE in *. zcases. }
  assert (Hin : u ∈ (F ++ tpages T) ++ upages (a_ups A)) by (apply elem_of_app; right; apply elem_upages; exists 0, 7; apply lookup_insert_eq).
  pose proof (vm_tab_write s2 _ _ _ u f (vu_tab _ _ _ _ Hu2) Hin Hf) as V3.
  assert (Hlow : forall x, KERNLINK <= x < kend -> k_mem s2 x = k_mem s0 x).
  { intros x Hx. rewrite (vs_only _ _ _ _ _ _ _ S2).
    - rewrite Es1. cbn. rewrite memset_outside; [auto|]. intros Hin'. pose proof (page_ok_above u x Hpu Hin'). lia.
    - intros a Ha' Hin'. assert (page_ok a) as Hpa.
      { apply (vt_page_in _ _ _ _ _ V), elem_of_app. right. apply elem_of_app in Ha' as [?|?]; apply elem_of_app; [by left|right; by right]. }
      pose proof (page_ok_above a x Hpa Hin'). lia. }
  exists (set_k_mem (f (k_mem s2)) s2), A, u, l'. split_and!; [|split| |exact (vs_dir _ _ _ _ _ _ _ S2)|done|].
  - unfold inituvm. rewrite (bind_ok _ _ s tt s) by (unfold panic_if; by rewrite (proj2 (Z.leb_gt _ _)) by lia).
    rewrite E1, (bind_ok _ _ _ tt s1) by (by rewrite Es1). change 0 with (4096 * 0) at 1. rewrite (bind_ok _ _ _ _ _ E2). done.
  - split; [exact V3|apply (vu_ok _ _ _ _ Hu2)].
  - apply (tab_ok_ext (k_mem s)); [|done]. intros a x Ha' Hx. assert (HaF : a ∈ F ++ tpages T) by (apply elem_of_app; by right).
    assert (Hpa : page_ok a) by (apply (vt_page_in _ _ _ _ _ V), elem_of_app; by left).
    assert (Hne : a <> u).
    { intros ->. destruct (vm_tab_parts _ _ _ _ V) as (_ & _ & _ & _ & _ & P6). by apply (P6 u); [left|]. }
    cbn. rewrite Hf by (intros b ->%list_elem_of_singleton; by apply (page_disjoint a u)).
    rewrite (vs_keeps _ _ _ _ _ _ _ S2 a x) by (done || (right; apply elem_of_app; by left)). by apply (K1 a x).
  - done.
  - intros j Hj. cbn. rewrite Hk2 by done. by apply B2'.
  - cbn. pose proof (vs_mem _ _ _ _ _ _ _ S2) as M2. unfold mem_only in M2. rewrite M2, Es1. done.
  - cbn. pose proof (vs_mem _ _ _ _ _ _ _ S2) as M2. unfold mem_only in M2. rewrite M2, Es1. done.
  - cbn. pose proof (vs_mem _ _ _ _ _ _ _ S2) as M2. unfold mem_only in M2. rewrite M2, Es1. done.
  - intros x Hx. cbn. rewrite Hf; [auto|]. intros b ->%list_elem_of_singleton Hin'. pose proof (page_ok_above u x Hpu Hin'). lia.
  - apply Permutation_length in Hp. rewrite !length_app in Hp. cbn [length] in Hp |- *. assert (1 <= length (tpages (a_tab A0)))%nat by (cbn; lia). lia.
  - intros o Ho. cbn. unfold f. rewrite memmove_spec by lia. replace (initcode_start + (u + o - u)) with (initcode_start + o) by lia.
    destruct (Z.ltb_spec o initcode_size).
    + rewrite (proj2 (Z.leb_le _ _)), (proj2 (Z.ltb_lt _ _)) by lia. apply Hlow. lia.
    + rewrite (proj2 (Z.ltb_ge (u + o) _)), andb_false_r by lia.
      rewrite (vs_keeps _ _ _ _ _ _ _ S2 u (u + o)); [apply Z1| by left|]; unfold in_page; lia.
Qed.

Lemma find_first (f : nat -> bool) n : (forall i, (i < n)%nat -> f i = false) -> find f (seq 0 n) = None.
Proof using.
  intros Hf. destruct (find f (seq 0 n)) as [i|] eqn:E; [|done]. apply find_seq_some in E as (Hi & Ht & _). rewrite Hf in Ht by lia. done.
Qed.

(** The root directory's inode, in a cache that is not in use. *)
Lemma namei_root s : (forall i, (i < NINODE)%nat -> i_ref (k_icache s !!! i) = 0) ->
  exists ic, namei [SLASH] s = Ok (Some 0%nat) (set_k_icache ic s).
Proof using.
  intros Hr. set (ic := alter (fun ip => set_i_valid false (set_i_ref 1 (set_i_inum ROOTINO (set_i_dev ROOTDEV ip)))) 0%nat (k_icache s)). exists ic.
  assert (E : iget ROOTDEV ROOTINO s = Ok 0%nat (set_k_icache ic s)).
  { unfold iget. rewrite (bind_ok _ _ s (k_icache s) s) by done. rewrite find_first by (intros i Hi; unfold icached; by rewrite Hr).
    assert (E0 : find (fun i => i_ref (k_icache s !!! i) =? 0) (seq 0 NINODE) = Some 0%nat).
    { change (seq 0 NINODE) with (0%nat :: seq 1 49). cbn [find]. rewrite Hr by (unfold NINODE; lia). done. }
    rewrite E0. done. }
  unfold namei. rewrite (bind_ok _ _ s (Some 0%nat, replicate DIRSIZ 0) (set_k_icache ic s)); [done|].
  unfold namex. change (SLASH =? SLASH) with true. cbv iota. rewrite (bind_ok _ _ _ _ _ E). done.
Qed.

Lemma boot_user_dev s0 s s' F T A l : boot_user s0 s F T A l -> k_mem s' = k_mem s -> k_kmem s' = k_kmem s -> k_cpu s' = k_cpu s -> cons_ok (k_cons s') ->
  boot_user (set_k_mem (k_mem s0) s') s' F T A l.
Proof using.
  intros [[[V1 V2 V3 V4] Ha] B1 B2 B2' B3 B4 B5 B6] Em Ek Ec Hc. split; [|by rewrite Em|done|done|by rewrite Ec|done|done|by rewrite Em].
  split; [|done]. split; [|by rewrite Em|done|done]. destruct V1 as [C1 C2]. split; [|done]. by rewrite Em, Ek.
Qed.

(** The first process as userinit leaves it. *)
Definition init_proc (pid kst pgdir : Z) (q : proc) : proc :=
  set_p_state RUNNABLE (set_p_cwd (Some 0%nat) (set_name (str "initcode") (set_p_tf init_tf (set_p_sz PGSIZE (set_p_pgdir pgdir (slot_taken pid kst q)))))).

Lemma boot_userinit s0 s F T kst l : boot_ok s0 s F T (kst :: l) -> (1600 < length l)%nat -> length (k_ptable s0) = NPROC ->
  p_state (k_ptable s0 !!! 0%nat) = UNUSED -> (forall i, (i < NINODE)%nat -> i_ref (k_icache s0 !!! i) = 0) ->
  KERNLINK <= initcode_start -> 0 <= initcode_size < PGSIZE -> initcode_start + initcode_size <= kend ->
  exists s' A u l', userinit s = Ok tt s' /\ boot_user s' s' (kst :: F) T A l' /\ (length l <= length l' + 1600)%nat /\
    k_ptable s' = alter (init_proc (k_nextpid s0) kst (t_dir (a_tab A))) 0%nat (k_ptable s0) /\ k_initproc s' = Some 0%nat /\
    a_ups A = {[0 := (u, 7)]} /\
    (forall o, 0 <= o < PGSIZE -> k_mem s' (u + o) = if o <? initcode_size then k_mem s0 (initcode_start + o) else 0).
Proof using HL Hkend.
  intros Hb Hlen Hpl Hst Hic Hi1 Hi2 Hi3. destruct (boot_allocproc s0 s F T kst l Hb Hpl Hst) as (s1 & E1 & Hb1).
  unfold userinit. rewrite (bind_ok _ _ _ _ _ E1). set (s1' := set_k_initproc (Some 0%nat) s1). rewrite (bind_ok _ _ _ tt s1') by done.
  assert (Hb1' : boot_ok (set_k_initproc (Some 0%nat) (after_alloc kst s0)) s1' (kst :: F) T l).
  { destruct Hb1 as [[V1 V2 V3 V4] B2 B3 B4 (B5 & B6 & B7 & _) B8]. split; [|done|done|done|done|done]. split; [|done|done|done]. destruct V1 as [C1 C2]. by split. }
  destruct (boot_setupkvm _ _ _ _ _ Hb1') as (s2 & T2 & l2 & E2 & Hu2 & Hl2 & Hd2); [lia|]. rewrite (bind_ok _ _ _ _ _ E2).
  destruct (bu_same _ _ _ _ _ _ Hu2) as (P2 & N2 & I2 & J2).
  set (s3 := set_k_ptable (alter (set_p_pgdir (t_dir T2)) 0%nat (k_ptable s2)) s2). rewrite (bind_ok _ _ s2 tt s3) by done.
  rewrite (bind_ok _ _ s3 tt s3) by (unfold panic_if; by rewrite (proj2 (Z.eqb_neq _ _) Hd2)).
  assert (Hfmt : exists t, format (str "%p %p" ++ [10]) [ANum initcode_start; ANum initcode_size] = Some t) by (eexists; reflexivity).
  destruct Hfmt as [t Hfmt]. destruct (cprintf_ok _ _ _ s3 Hfmt (bu_cons _ _ _ _ _ _ Hu2)) as (k4 & E4 & Pk4). rewrite (bind_ok _ _ _ _ _ E4).
  set (s4 := set_k_cons k4 s3). pose proof (boot_user_dev _ _ s4 _ _ _ _ Hu2 eq_refl eq_refl eq_refl (pr_ok _ _ _ Pk4)) as Hu4.
  destruct (boot_inituvm _ _ _ _ _ _ Hu4) as (s5 & A & u & l5 & E5 & Hu5 & Hl5 & Hd5 & Hup & Hbytes); [lia|done|done|done|]. rewrite (bind_ok _ _ _ _ _ E5).
  destruct (bu_same _ _ _ _ _ _ Hu5) as (P5 & N5 & I5 & J5). cbn in P5, N5, I5, J5.
  set (s6 := set_k_ptable (alter (fun q => set_name (str "initcode") (set_p_tf init_tf (set_p_sz PGSIZE q))) 0%nat (k_ptable s5)) s5).
  rewrite (bind_ok _ _ s5 tt s6) by done. destruct (namei_root s6) as (ic & E6).
  { intros i Hi. cbn. rewrite I5, I2. by apply Hic. }
  rewrite (bind_ok _ _ _ _ _ E6). eexists _, A, u, l5. split; [reflexivity|].
  pose proof (boot_user_dev _ _ (set_k_ptable (alter (fun q => set_p_state RUNNABLE (set_p_cwd (Some 0%nat) q)) 0%nat (k_ptable (set_k_icache ic s6))) (set_k_icache ic s6))
    _ _ _ _ Hu5 eq_refl eq_refl eq_refl (bu_cons _ _ _ _ _ _ Hu5)) as Hu7.
  split_and!; [|lia|cbn|cbn; by rewrite J5, J2|done|exact Hbytes].
  - destruct Hu7 as [C1 C2 C3 C4 C5 C6 C7 C8]. by split.
  - rewrite P5, P2. cbn. rewrite Hd5, !list_alter_alter_eq. done.
Qed.
End boot.

(** ** The devices *)

Lemma lift_ok {S A} (get : machine -> S) set (f : M S A) m a s : f (get m) = Ok a s -> lift get set f m = Ok a (set s m).
Proof. intros E. unfold lift. by rewrite E. Qed.

Section machine.
Context {L : Linker} {HL : LinkedAt} {E : Entry} (vectors : Z -> Z) (d : devices).
Hypothesis Hkend : kend_ok.

(** The parts of the machine that a step leaves alone. *)
Definition same_parts (m m' : machine) : Prop :=
  ma_mp m' = ma_mp m /\ ma_gdt m' = ma_gdt m /\ ma_idt m' = ma_idt m /\ ma_idtr m' = ma_idtr m /\ ma_started m' = ma_started m.
#[local] Instance same_parts_preorder : PreOrder same_parts.
Proof. split; unfold same_parts; [done|]. intros m1 m2 m3 (A1 & A2 & A3 & A4 & A5) (B1 & B2 & B3 & B4 & B5). split_and!; congruence. Qed.

(** A step that only touches the devices. *)
Definition dev_step (f : M machine unit) : Prop := forall s0 m F T l, boot_ok s0 (ma_k m) F T l ->
  exists m', f m = Ok tt m' /\ boot_ok s0 (ma_k m') F T l /\ same_parts m m' /\ length (k_bcache (ma_k m')) = length (k_bcache (ma_k m)).

Lemma dev_ret : dev_step (mret tt).
Proof using HL. intros s0 m F T l Hb. exists m. by split_and!. Qed.
Lemma dev_seq f g : dev_step f -> dev_step g -> dev_step (f;; g).
Proof using HL.
  intros Hf Hg s0 m F T l Hb. destruct (Hf _ _ _ _ _ Hb) as (m1 & E1 & Hb1 & S1 & L1). destruct (Hg _ _ _ _ _ Hb1) as (m2 & E2 & Hb2 & S2 & L2).
  exists m2. split_and!; [by rewrite (bind_ok _ _ _ _ _ E1)|done|by transitivity m1|by rewrite L2].
Qed.
Lemma dev_if (b : bool) f g : dev_step f -> dev_step g -> dev_step (if b then f else g).
Proof using HL. by destruct b. Qed.
Lemma dev_outb p x : dev_step (outb p x).
Proof using HL. intros s0 m F T l Hb. eexists. split; [reflexivity|]. by split_and!. Qed.
Lemma dev_outbs l : dev_step (outbs l).
Proof using HL. induction l as [|[p x] l IH]; cbn [outbs]; [apply dev_ret|]. apply dev_seq; [apply dev_outb|apply IH]. Qed.
Lemma dev_ioapicenable irq c : dev_step (on_io (ioapicenable irq c)).
Proof using HL. intros s0 m F T l Hb. eexists. split; [apply lift_ok; reflexivity|]. by split_and!. Qed.

(** Code of the kernel that only changes the console. *)
Lemma dev_cons (f : kM unit) :
  (forall s, cons_ok (k_cons s) -> exists k', f s = Ok tt (set_k_cons k' s) /\ cons_ok k') -> dev_step (on_k f).
Proof using HL.
  intros Hf s0 m F T l Hb. destruct (Hf _ (bo_cons _ _ _ _ _ Hb)) as (k' & Ef & Hk). eexists. split; [apply lift_ok; exact Ef|].
  split_and!; [|done..]. by apply (boot_ok_dev _ (ma_k m)).
Qed.
Lemma dev_cprintf fmt args t : format fmt args = Some t -> dev_step (on_k (cprintf fmt args)).
Proof using HL. intros Hf. apply dev_cons. intros s Hk. destruct (cprintf_ok fmt args t s Hf Hk) as (k' & Ek & P). exists k'. split; [done|apply (pr_ok _ _ _ P)]. Qed.
Lemma dev_uartputs l : dev_step (on_k (uartputs l)).
Proof using HL.
  apply dev_cons. induction l as [|c l IH]; intros s Hk; cbn [uartputs]; [exists (k_cons s); by destruct s|].
  set (k1 := if uart (k_cons s) then set_uart_out (u8 c :: uart_out (k_cons s)) (k_cons s) else k_cons s).
  assert (Hk1 : cons_ok k1) by (unfold k1; destruct Hk; by destruct (uart (k_cons s))).
  rewrite (bind_ok _ _ _ _ _ (uartputc_run c s)). fold k1. destruct (IH (set_k_cons k1 s) Hk1) as (k' & Ek & Hk'). exists k'. by rewrite Ek.
Qed.
Lemma dev_uartinit : dev_step (uartinit d).
Proof using HL.
  unfold uartinit. apply dev_seq; [apply dev_outbs|]. apply dev_if; [apply dev_ret|].
  apply dev_seq; [|apply dev_seq; [apply dev_ioapicenable|apply dev_uartputs]].
  apply dev_cons. intros s [H1 H2]. eexists. split; [reflexivity|by split].
Qed.
Lemma dev_consoleinit : dev_step (on_k consoleinit).
Proof using HL.
  intros s0 m F T l Hb. eexists. split; [apply lift_ok; reflexivity|]. split_and!; [|done..].
  apply (boot_ok_dev _ (ma_k m)); try done. cbn. destruct (bo_cons _ _ _ _ _ Hb). by split.
Qed.
Lemma dev_ideinit : is_Some (idewait false (d_idewait d)) -> dev_step (ideinit d).
Proof using HL.
  intros [r Hr] s0 m F T l Hb. unfold ideinit. rewrite (bind_ok _ _ m (length (mp_apicids (ma_mp m))) m) by done. rewrite Hr.
  revert s0 m F T l Hb. intros s0 m. generalize (Z.of_nat (length (mp_apicids (ma_mp m))) - 1). intros n. revert s0 m.
  refine (dev_seq _ _ (dev_ioapicenable _ _) (dev_seq _ _ (dev_outb _ _) (dev_seq _ _ (dev_if _ _ _ _ dev_ret) (dev_outb _ _)))).
  intros s0 m F T l Hb. eexists. split; [apply lift_ok; reflexivity|]. split_and!; [|done..].
  apply (boot_ok_dev _ (ma_k m)); try done. apply (bo_cons _ _ _ _ _ Hb).
Qed.

Definition only_bcache (s s' : kernel) : Prop := s' = set_k_bcache (k_bcache s') s.
#[local] Instance only_bcache_preorder : PreOrder only_bcache.
Proof. split; unfold only_bcache; [intros s; by destruct s|]. intros s1 s2 s3 H1 H2. rewrite H2, H1. done. Qed.
Lemma upd_buf_boot b f : moves only_bcache (upd_buf b f).
Proof using. apply moves_modify. intros s. by destruct s. Qed.
Lemma binit_loop_only n : forall b, moves only_bcache (binit_loop b n).
Proof using.
  induction n as [|n IH]; intros b; cbn [binit_loop]; [apply moves_ret, _|]. unfold set_prev, set_next, get_buf.
  repeat (apply moves_bind; [apply _|apply upd_buf_boot || apply moves_gets, _|intros ?]). apply IH.
Qed.
Lemma binit_only : moves only_bcache binit.
Proof using.
  unfold binit, set_prev, set_next. repeat (apply moves_bind; [apply _|apply upd_buf_boot|intros ?]). apply binit_loop_only.
Qed.
Lemma binit_run s : length (k_bcache s) = S NBUF ->
  exists bs, binit s = Ok tt (set_k_bcache bs s) /\ lru bs (rev (seq 0 NBUF)).
Proof using.
  intros Hl. destruct (proj1 (wp_ok _ _ _) (binit_spec s Hl)) as ([] & s' & Eb & Hlru & _).
  exists (k_bcache s'). split; [|done]. rewrite Eb. f_equal. apply (moves_ok _ _ _ _ _ binit_only Eb).
Qed.

(** What the devices must answer for the kernel to go on. *)
Record answers : Prop := {
  an_icr : Exists (fun v => Z.land v DELIVS = 0) (d_icr d);
  an_ide : is_Some (idewait false (d_idewait d))
}.
Hypothesis Hans : answers.

Lemma devices_ok s0 m F T l mp' : boot_ok s0 (ma_k m) F T l -> length (k_bcache (ma_k m)) = S NBUF ->
  mpinit (k_mem (ma_k m)) (d_imcr d) (d_mpfuel d) (ma_mp m) = Ok tt mp' ->
  exists m', main_devices vectors d m = Ok tt m' /\ boot_ok s0 (ma_k m') F T l /\ ma_mp m' = mp' /\
    ma_gdt m' = seginit (ma_gdt m) /\ ma_idt m' = tvinit vectors /\ ma_idtr m' = ma_idtr m /\ ma_started m' = ma_started m.
Proof using HL Hans.
  intros Hb Hbl Hmp. unfold main_devices. rewrite (bind_ok _ _ m (k_mem (ma_k m)) m) by done.
  rewrite (bind_ok _ _ m tt (set_ma_mp mp' m)) by (by apply lift_ok). rewrite (bind_ok _ _ _ (have_lapic (set_ma_mp mp' m)) (set_ma_mp mp' m)) by done.
  destruct (lapicinit_ok (have_lapic (set_ma_mp mp' m)) (d_ver d) (d_icr d) (mkLdev (ma_lapic m) (ma_ports m) (k_mem (ma_k m))) (an_icr Hans)) as (w & El).
  set (m1 := set_ma_lapic w (set_ma_mp mp' m)). rewrite (bind_ok _ _ _ tt m1).
  2:{ unfold on_lapic. rewrite (lift_ok _ _ _ (set_ma_mp mp' m) _ _ El). unfold m1. destruct m as [k ? ? ? ? ? ? ? ?]. by destruct k. }
  set (m2 := set_ma_gdt (seginit (ma_gdt m1)) m1). rewrite (bind_ok _ _ m1 tt m2) by done. assert (Hb2 : boot_ok s0 (ma_k m2) F T l) by exact Hb.
  destruct (dev_outbs picinit s0 m2 F T l Hb2) as (m3 & E3 & Hb3 & S3 & L3). rewrite (bind_ok _ _ _ _ _ E3), (bind_ok _ _ m3 (mp_ioapicid (ma_mp m3)) m3) by done.
  destruct (ioapicinit_ok (mp_ioapicid (ma_mp m3)) (ma_io m3)) as (other & io & Eio). rewrite (bind_ok _ _ m3 other (set_ma_io io m3)) by (by apply lift_ok).
  assert (Hb4 : boot_ok s0 (ma_k (set_ma_io io m3)) F T l) by exact Hb3.
  assert (Hmsg : dev_step (on_k (cprintf (str "ioapicinit: id isn't equal to ioapicid; not a MP" ++ [10]) []))) by (eapply dev_cprintf; reflexivity).
  destruct (dev_if other _ _ Hmsg dev_ret s0 _ F T l Hb4) as (m5 & E5 & Hb5 & S5 & L5). rewrite (bind_ok _ _ _ _ _ E5).
  destruct (dev_consoleinit s0 _ F T l Hb5) as (m6 & E6 & Hb6 & S6 & L6). rewrite (bind_ok _ _ _ _ _ E6).
  destruct (dev_ioapicenable IRQ_KBD 0 s0 _ F T l Hb6) as (m7 & E7 & Hb7 & S7 & L7). rewrite (bind_ok _ _ _ _ _ E7).
  destruct (dev_uartinit s0 _ F T l Hb7) as (m8 & E8 & Hb8 & S8 & L8). rewrite (bind_ok _ _ _ _ _ E8), (bind_ok _ _ m8 tt (set_ma_idt (tvinit vectors) m8)) by done.
  destruct (binit_run (ma_k m8)) as (bs & Eb & _). { rewrite L8, L7, L6, L5. cbn. by rewrite L3. }
  set (m9 := set_ma_k (set_k_bcache bs (ma_k m8)) (set_ma_idt (tvinit vectors) m8)). rewrite (bind_ok _ _ _ tt m9) by (by apply lift_ok).
  pose proof (boot_ok_dev s0 (ma_k m8) (ma_k m9) F T l Hb8 eq_refl eq_refl eq_refl (bo_cons _ _ _ _ _ Hb8) eq_refl eq_refl eq_refl eq_refl) as Hb9.
  destruct (dev_ideinit (an_ide Hans) s0 _ F T l Hb9) as (m' & E' & Hb' & (A1 & A2 & A3 & A4 & A5) & _). exists m'. split; [done|]. split; [done|].
  assert (S38 : same_parts m3 m8) by (transitivity m5; [exact S5|]; transitivity m6; [done|]; by transitivity m7).
  destruct S3 as (B1 & B2 & _ & B4 & B5). destruct S38 as (C1 & C2 & _ & C4 & C5). rewrite A1, A2, A4, A5.
  split_and!; [exact (eq_trans C1 B1)|exact (eq_trans C2 B2)|exact A3|exact (eq_trans C4 B4)|exact (eq_trans C5 B5)].
Qed.

(** ** The other processors *)

(** Memory below the kernel may change. *)
Lemma on_k_low s0 m F T l f : boot_ok s0 (ma_k m) F T l -> (forall mm x, KERNLINK <= x -> f mm x = mm x) ->
  exists m', on_k (upd_mem f) m = Ok tt m' /\ boot_ok s0 (ma_k m') F T l /\ same_parts m m'.
Proof using HL Hkend.
  intros Hb Hf. exists (set_ma_k (set_k_mem (f (k_mem (ma_k m))) (ma_k m)) m). split; [done|]. split; [|done].
  apply boot_ok_low; [done|done|]. intros x Hx. by apply Hf.
Qed.

Lemma store32_low a v (mm : mem) x : a + 4 <= KERNLINK -> KERNLINK <= x -> store32 mm a v x = mm x.
Proof using. intros Ha Hx. apply store32_outside. lia. Qed.

Lemma startap_ok s0 m F T l apicid addr : boot_ok s0 (ma_k m) F T l ->
  exists m', on_lapic (lapicstartap apicid addr) m = Ok tt m' /\ boot_ok s0 (ma_k m') F T l /\ same_parts m m'.
Proof using HL Hkend.
  intros Hb. destruct (lapicstartap_ok apicid addr (mkLdev (ma_lapic m) (ma_ports m) (k_mem (ma_k m)))) as (w & p & El).
  eexists. split; [apply lift_ok; exact El|]. split; [|done]. apply boot_ok_low; [done|done|]. intros x Hx. cbn [l_mem].
  change (P2V 1127) with (KERNBASE + 1127). unfold KERNLINK, EXTMEM, store_bytes, enc16 in *. rewrite !length_le_enc. zcases.
Qed.

(** One processor is started on a stack of its own. *)
Lemma startone_ok s0 m F T a l i apicid : boot_ok s0 (ma_k m) F T (a :: l) -> d_starts d i = true ->
  let code := P2V 28672 in
  exists m', (stack ← on_k kalloc;
       on_k (sd32 (code - 4) (u32 (stack + KSTACKSIZE)));;
       on_k (sd32 (code - 8) kmpenter);;
       on_k (sd32 (code - 12) (V2P kentrypgdir));;
       on_lapic (lapicstartap apicid (V2P code));;
       if d_starts d i then modify (fun m => set_ma_started (<[i := true]> (ma_started m)) m) else nofuel) m = Ok tt m' /\
    boot_ok s0 (ma_k m') (a :: F) T l /\ ma_started m' = <[i := true]> (ma_started m) /\
    ma_mp m' = ma_mp m /\ ma_gdt m' = ma_gdt m /\ ma_idt m' = ma_idt m /\ ma_idtr m' = ma_idtr m.
Proof using HL Hkend.
  intros Hb Hs code. destruct (boot_kalloc _ _ _ _ _ _ Hb) as (s1 & E1 & Hb1 & _).
  rewrite (bind_ok _ _ m a (set_ma_k s1 m)) by (by apply lift_ok). assert (Hb1' : boot_ok s0 (ma_k (set_ma_k s1 m)) (a :: F) T l) by exact Hb1.
  destruct (on_k_low _ _ _ _ _ (fun mm => store32 mm (code - 4) (u32 (a + KSTACKSIZE))) Hb1') as (m2 & E2 & Hb2 & S2); [intros mm x; by apply store32_low|].
  rewrite (bind_ok _ _ _ _ _ E2). destruct (on_k_low _ _ _ _ _ (fun mm => store32 mm (code - 8) kmpenter) Hb2) as (m3 & E3 & Hb3 & S3); [intros mm x; by apply store32_low|].
  rewrite (bind_ok _ _ _ _ _ E3). destruct (on_k_low _ _ _ _ _ (fun mm => store32 mm (code - 12) (V2P kentrypgdir)) Hb3) as (m4 & E4 & Hb4 & S4); [intros mm x; by apply store32_low|].
  rewrite (bind_ok _ _ _ _ _ E4). destruct (startap_ok _ _ _ _ _ apicid (V2P code) Hb4) as (m5 & E5 & Hb5 & S5). rewrite (bind_ok _ _ _ _ _ E5), Hs.
  assert (S : same_parts m m5) by (transitivity m2; [exact S2|]; transitivity m3; [done|]; by transitivity m4). destruct S as (A1 & A2 & A3 & A4 & A5).
  eexists. split; [reflexivity|]. split_and!; [exact Hb5|cbn; by rewrite A5|done..].
Qed.

(** This processor is number [me] of the ones in the tables. *)
Definition is_me (mp : mpstate) (me : nat) : Prop :=
  find_cpu (lapicid (negb (mp_lapic mp =? 0)) (d_id d)) (mp_apicids mp) = Some me.

Lemma mycpu_ok m me : is_me (ma_mp m) me -> mycpu d m = Ok me m.
Proof using. intros Hme. unfold mycpu, have_lapic. unfold is_me in Hme. by rewrite Hme. Qed.

(** The processors started so far. *)
Definition more_started (m m' : machine) (P : nat -> Prop) : Prop :=
  length (ma_started m') = length (ma_started m) /\
  forall j, (j < length (ma_started m))%nat -> P j \/ ma_started m !! j = Some true -> ma_started m' !! j = Some true.

Lemma startothers_loop_ok s0 ids me T : forall i m F l,
  boot_ok s0 (ma_k m) F T l -> (length ids <= length l)%nat -> is_me (ma_mp m) me ->
  (forall j, (i <= j < i + length ids)%nat -> j <> me -> d_starts d j = true) ->
  exists m' F' l', startothers_loop d (P2V 28672) i ids m = Ok tt m' /\ boot_ok s0 (ma_k m') F' T l' /\ (F' ++ l') ≡ₚ (F ++ l) /\
    ma_mp m' = ma_mp m /\ ma_gdt m' = ma_gdt m /\ ma_idt m' = ma_idt m /\ ma_idtr m' = ma_idtr m /\
    more_started m m' (fun j => (i <= j < i + length ids)%nat /\ j <> me).
Proof using HL Hkend.
  induction ids as [|apicid ids IH]; intros i m F l Hb Hlen Hme Hst; cbn [startothers_loop].
  - exists m, F, l. split_and!; try done. split; [done|]. intros j Hj [Hc|?]; [cbn in Hc; lia|done].
  - rewrite (bind_ok _ _ _ _ _ (mycpu_ok m me Hme)). destruct (Nat.eqb_spec i me) as [->|Hne]; cbn [negb].
    + rewrite (bind_ok _ _ m tt m) by done.
      destruct (IH (S me) m F l Hb) as (m' & F' & l' & E' & Hb' & Hp & A1 & A2 & A3 & A4 & A5 & A6); [cbn in Hlen; lia|done|intros j Hj; apply Hst; cbn; lia|].
      exists m', F', l'. split_and!; try done. split; [done|]. intros j Hj Hc. apply A6; [done|]. cbn in Hc. destruct Hc as [Hc|Hc]; [left; lia|by right].
    + destruct l as [|a l]; [cbn in Hlen; lia|]. destruct (startone_ok s0 m F T a l i apicid Hb) as (m1 & E1 & Hb1 & Es & B1 & B2 & B3 & B4); [apply Hst; [cbn; lia|done]|].
      rewrite (bind_ok _ _ _ _ _ E1). destruct (IH (S i) m1 (a :: F) l Hb1) as (m' & F' & l' & E' & Hb' & Hp & A1 & A2 & A3 & A4 & A5 & A6);
        [cbn in Hlen; lia|by rewrite B1|intros j Hj; apply Hst; cbn; lia|].
      exists m', F', l'. rewrite A1, A2, A3, A4. split_and!; try done; [rewrite Hp; solve_Permutation|].
      rewrite Es in A5, A6. rewrite length_insert in A5, A6. split; [done|]. intros j Hj Hc. apply A6; [done|]. destruct (decide (j = i)) as [->|Hji].
      * right. by apply list_lookup_insert_eq.
      * rewrite list_lookup_insert_ne by done. cbn in Hc. destruct Hc as [Hc|Hc]; [left; lia|by right].
Qed.

(** ** main *)

(** The machine as the loader leaves it: zeroed variables, any memory. *)
Record powered (m : machine) : Prop := {
  pw_free : km_freelist (k_kmem (ma_k m)) = 0;
  pw_cons : cons_ok (k_cons (ma_k m));
  pw_bufs : length (k_bcache (ma_k m)) = S NBUF;
  pw_procs : length (k_ptable (ma_k m)) = NPROC;
  pw_slot : p_state (k_ptable (ma_k m) !!! 0%nat) = UNUSED;
  pw_inodes : forall i, (i < NINODE)%nat -> i_ref (k_icache (ma_k m) !!! i) = 0;
  pw_started : length (ma_started m) = NCPU
}.
(** The images in the kernel. *)
Record images : Prop := {
  im_init : KERNLINK <= initcode_start /\ 0 <= initcode_size < PGSIZE /\ initcode_start + initcode_size <= kend;
  im_other : 0 <= entryother_size <= PGSIZE
}.
Hypothesis Himg : images.

(** The processors: the tables below the end of the kernel have [mp], in which this
    is processor [me], and the others start. *)
Record processors (m : machine) (mp : mpstate) (me : nat) : Prop := {
  ps_tables : forall mm : mem, (forall x, x < kend -> mm x = k_mem (ma_k m) x) -> mpinit mm (d_imcr d) (d_mpfuel d) (ma_mp m) = Ok tt mp;
  ps_me : is_me mp me;
  ps_count : (length (mp_apicids mp) <= NCPU)%nat;
  ps_start : forall j, (j < length (mp_apicids mp))%nat -> j <> me -> d_starts d j = true
}.

Lemma find_cpu_lt a ids i : find_cpu a ids = Some i -> (i < length ids)%nat.
Proof using.
  revert i. induction ids as [|b ids IH]; intros i; cbn; [done|]. destruct (b =? a); [intros [= <-]; lia|].
  intros Hi. apply fmap_Some in Hi as (k & Hk & ->). specialize (IH k Hk). lia.
Qed.

Lemma startothers_ok s0 m F T l mp me : boot_ok s0 (ma_k m) F T l -> (31 <= length l)%nat -> ma_mp m = mp -> is_me mp me ->
  (length (mp_apicids mp) <= NCPU)%nat -> (forall j, (j < length (mp_apicids mp))%nat -> j <> me -> d_starts d j = true) ->
  exists m' F' l', startothers d m = Ok tt m' /\ boot_ok s0 (ma_k m') F' T l' /\ (F' ++ l') ≡ₚ (F ++ l) /\
    ma_mp m' = mp /\ ma_gdt m' = ma_gdt m /\ ma_idt m' = ma_idt m /\
    more_started m m' (fun j => (j < length (mp_apicids mp))%nat /\ j <> me).
Proof using HL Hkend Himg.
  intros Hb Hl <- Hme Hn Hst. unfold startothers. destruct (im_other Himg) as [Ho1 Ho2]. unfold PGSIZE in Ho2.
  destruct (on_k_low _ _ _ _ _ (fun mm => memmove mm (P2V 28672) entryother_start entryother_size) Hb) as (m1 & E1 & Hb1 & (A1 & A2 & A3 & A4 & A5)).
  { intros mm x Hx. rewrite memmove_spec by done. change (P2V 28672) with (KERNBASE + 28672). unfold KERNLINK, EXTMEM in Hx. zcases. }
  rewrite (bind_ok _ _ _ _ _ E1), (bind_ok _ _ m1 (mp_apicids (ma_mp m1)) m1) by done. unfold NCPU in Hn.
  destruct (startothers_loop_ok s0 (mp_apicids (ma_mp m1)) me T 0 m1 F l Hb1) as (m' & F' & l' & E' & Hb' & Hp & B1 & B2 & B3 & B4 & B5);
    [rewrite A1; lia|by rewrite A1|rewrite A1; intros j Hj; apply Hst; lia|].
  exists m', F', l'. rewrite B1, B2, B3, A1, A2, A3. rewrite A1 in B5, E'. destruct B5 as [B5 B6]. rewrite A5 in B5, B6.
  split_and!; try done. split; [done|]. intros j Hj Hc. apply B6; [done|]. destruct Hc as [Hc|Hc]; [left; cbn; lia|by right].
Qed.

Lemma mpmain_ok m mp me : cons_ok (k_cons (ma_k m)) -> ma_mp m = mp -> is_me mp me ->
  exists k', mpmain d m = Ok tt (set_ma_started (<[me := true]> (ma_started m)) (set_ma_idtr true (set_ma_k (set_k_cons k' (ma_k m)) m))) /\ cons_ok k'.
Proof using.
  intros Hb Emp Hme. subst mp. unfold mpmain. rewrite (bind_ok _ _ _ _ _ (mycpu_ok m me Hme)).
  assert (Hfmt : exists t, format (str "cpu%d: starting %d" ++ [10]) [ANum (Z.of_nat me); ANum (Z.of_nat me)] = Some t) by (eexists; reflexivity).
  destruct Hfmt as [t Hfmt]. destruct (cprintf_ok _ _ _ (ma_k m) Hfmt Hb) as (k' & Ek & P).
  exists k'. split; [|apply (pr_ok _ _ _ P)]. rewrite (bind_ok _ _ m tt (set_ma_k (set_k_cons k' (ma_k m)) m)) by (by apply lift_ok). done.
Qed.

(** Another processor, whose APIC answers [d]: it gets as far as c->started, and
    runs on the kernel's page table with the kernel's segments. *)
Lemma mpenter_starts m me : is_me (ma_mp m) me -> cons_ok (k_cons (ma_k m)) -> (me < length (ma_started m))%nat ->
  exists m', mpenter d m = Ok tt m' /\ ma_started m' !! me = Some true /\ ma_idtr m' = true /\ ma_gdt m' = seginit (ma_gdt m) /\
    cpu_cr3 (k_cpu (ma_k m')) = V2P (cpu_kpgdir (k_cpu (ma_k m))) /\ k_mem (ma_k m') = k_mem (ma_k m) /\ cons_ok (k_cons (ma_k m')).
Proof using Hans.
  intros Hme Hc Hl. unfold mpenter, switchkvm. set (k1 := set_k_cpu (set_cpu_cr3 (V2P (cpu_kpgdir (k_cpu (ma_k m)))) (k_cpu (ma_k m))) (ma_k m)).
  rewrite (bind_ok _ _ m tt (set_ma_k k1 m)) by (by apply lift_ok). set (m1 := set_ma_gdt (seginit (ma_gdt m)) (set_ma_k k1 m)).
  rewrite (bind_ok _ _ _ tt m1) by done. rewrite (bind_ok _ _ m1 (have_lapic m1) m1) by done.
  destruct (lapicinit_ok (have_lapic m1) (d_ver d) (d_icr d) (mkLdev (ma_lapic m) (ma_ports m) (k_mem (ma_k m))) (an_icr Hans)) as (w & El).
  rewrite (bind_ok _ _ m1 tt (set_ma_lapic w m1)).
  2:{ unfold on_lapic. rewrite (lift_ok _ _ _ m1 _ _ El). unfold m1, k1. destruct m as [k ? ? ? ? ? ? ? ?]. by destruct k. }
  destruct (mpmain_ok (set_ma_lapic w m1) (ma_mp m) me Hc eq_refl Hme) as (k' & E1 & Hk). eexists. split; [exact E1|].
  cbn [set_ma_started ma_started]. split_and!; [by apply list_lookup_insert_eq|done..].
Qed.

(** The first process: its slot, and the bytes at its addresses. *)
Definition first_process (s0 s : kernel) : Prop := exists kst pgdir : Z,
  k_ptable s = alter (init_proc (k_nextpid s0) kst pgdir) 0%nat (k_ptable s0) /\ k_initproc s = Some 0%nat /\
  (forall va, 0 <= va < KERNBASE -> user_byte s pgdir va =
     if va <? PGSIZE then Some (if va <? initcode_size then k_mem s0 (initcode_start + va) else 0) else None) /\
  (forall va, KERNBASE <= va < 4294967296 -> kernel_entry (pte_of (k_mem s) pgdir va) va).
(** The kernel's own page table is in use. *)
Definition kernel_mapped (s : kernel) : Prop :=
  cpu_cr3 (k_cpu s) = V2P (cpu_kpgdir (k_cpu s)) /\
  forall va, 0 <= va < 4294967296 -> kernel_entry (pte_of (k_mem s) (cpu_kpgdir (k_cpu s)) va) va.

Lemma boot_user_means s0 s F T A l kst u : boot_user s s F T A l ->
  k_ptable s = alter (init_proc (k_nextpid s0) kst (t_dir (a_tab A))) 0%nat (k_ptable s0) -> k_initproc s = Some 0%nat ->
  a_ups A = {[0 := (u, 7)]} ->
  (forall o, 0 <= o < PGSIZE -> k_mem s (u + o) = if o <? initcode_size then k_mem s0 (initcode_start + o) else 0) ->
  first_process s0 s /\ kernel_mapped s.
Proof using HL.
  clear Hkend Hans Himg vectors. intros [Hu Ht Hm Hk [Hc1 Hc2] _ _ _] Hp Hi Hups Hby. split.
  - exists kst, (t_dir (a_tab A)). split_and!; [done|done| |].
    + intros va Hva. unfold user_byte. rewrite (translate_user _ _ _ _ _ Hu Hva), Hups. unfold PGSIZE in *. destruct (Z.ltb_spec va 4096).
      * replace (va / 4096) with 0 by zlia. rewrite lookup_singleton_eq. cbn. f_equal. rewrite Z.mod_small by lia. apply Hby. lia.
      * rewrite lookup_singleton_ne by zlia. done.
    + intros va Hva. rewrite (pte_of_map _ _ _ _ _ (vu_tab _ _ _ _ Hu)), Hk by (unfold UPN, KERNBASE in *; zlia). apply kernel_map_entry. unfold KERNBASE in *; lia.
  - split; [by rewrite Hc1, Hc2|]. intros va Hva. rewrite Hc1.
    assert (Hu' : vm_user s (F ++ apages (mkAspace T ∅)) A l) by (unfold apages; cbn [a_ups a_tab]; change (upages ∅) with (@nil Z); exact Hu).
    rewrite (pte_of_map _ _ _ _ _ (source_tab s F (mkAspace T ∅) A l Hu' Ht)) by done. cbn [a_tab]. rewrite Hm. by apply kernel_map_entry.
Qed.

(** The machine after main: the process of slot 0 with address space [A], the
    free pages [l]. *)
Lemma main_run m mp me : powered m -> processors m mp me ->
  exists m' F T A l kst u, main vectors d m = Ok tt m' /\
    boot_user (ma_k m') (ma_k m') F T A l /\ (2500 <= length l)%nat /\ kst ∈ F /\
    k_ptable (ma_k m') = alter (init_proc (k_nextpid (ma_k m)) kst (t_dir (a_tab A))) 0%nat (k_ptable (ma_k m)) /\
    k_initproc (ma_k m') = Some 0%nat /\ a_ups A = {[0 := (u, 7)]} /\
    (forall o, 0 <= o < PGSIZE -> k_mem (ma_k m') (u + o) = if o <? initcode_size then k_mem (ma_k m) (initcode_start + o) else 0) /\
    ma_mp m' = mp /\ ma_gdt m' = seginit (ma_gdt m) /\ ma_idt m' = tvinit vectors /\ ma_idtr m' = true /\
    (forall j, (j < length (mp_apicids mp))%nat -> ma_started m' !! j = Some true).
Proof using HL Hkend Hans Himg.
  intros [Hfree Hcons Hbufs Hprocs Hslot Hin Hsl] [Htab Hme Hn Hst]. destruct (im_init Himg) as (Hi1 & Hi2 & Hi3).
  destruct (boot_memory Hkend (ma_k m)) as (s1 & T & l1 & E1 & Hb1 & Hp1 & Hl1 & Hlow & Hbc); [split; [exact Hfree|apply NoDup_nil_2]|done|].
  apply bind_inv in E1 as ([] & s1a & E1a & E1b). unfold main.
  rewrite (bind_ok _ _ m tt (set_ma_k s1a m)) by (by apply lift_ok). rewrite (bind_ok _ _ _ tt (set_ma_k s1 m)) by (exact (lift_ok ma_k set_ma_k kvmalloc (set_ma_k s1a m) tt s1 E1b)).
  destruct (devices_ok (ma_k m) (set_ma_k s1 m) [] T l1 mp Hb1) as (m2 & E2 & Hb2 & M2 & G2 & I2 & R2 & S2); [cbn [set_ma_k ma_k]; by rewrite Hbc|by apply Htab|]. rewrite (bind_ok _ _ _ _ _ E2).
  destruct (startothers_ok (ma_k m) m2 [] T l1 mp me Hb2 Hl1 M2 Hme Hn Hst) as (m3 & F & l3 & E3 & Hb3 & Hp3 & M3 & G3 & I3 & S3). rewrite (bind_ok _ _ _ _ _ E3).
  destruct (boot_kinit2 Hkend (ma_k m) (ma_k m3) F T l3 Hb3) as (s4 & E4 & Hb4 & Ho4).
  { intros a Ha. destruct (pages1_facts Hkend) as (_ & _ & Hlt). apply Hlt. rewrite <- Hp1.
    assert (Hperm : (F ++ tpages T ++ l3) ≡ₚ (tpages T ++ l1)) by (rewrite <- (app_nil_l l1), <- Hp3; solve_Permutation). by rewrite <- Hperm. }
  rewrite (bind_ok _ _ m3 tt (set_ma_k s4 m3)) by (by apply lift_ok).
  assert (Hbig : (4200 <= length (rev pages2 ++ l3))%nat) by (rewrite length_app, length_rev; pose proof pages2_length; lia).
  destruct (rev pages2 ++ l3) as [|kst l4]; [cbn in Hbig; lia|].
  destruct (boot_userinit Hkend (ma_k m) s4 F T kst l4 Hb4) as (s5 & A & u & l5 & E5 & Hu5 & Hl5 & Hpt & Hip & Hups & Hby); [cbn in Hbig; lia|done|done|done|done|done|done|].
  rewrite (bind_ok _ _ _ tt (set_ma_k s5 m3)) by (exact (lift_ok ma_k set_ma_k userinit (set_ma_k s4 m3) tt s5 E5)).
  destruct (mpmain_ok (set_ma_k s5 m3) mp me (bu_cons _ _ _ _ _ _ Hu5) M3 Hme) as (k6 & E6 & Hk6).
  pose proof (boot_user_dev s5 s5 (set_k_cons k6 s5) _ _ _ _ Hu5 eq_refl eq_refl eq_refl Hk6) as Hu6.
  eexists _, (kst :: F), T, A, l5, kst, u. split; [exact E6|]. split; [destruct Hu6 as [C1 C2 C3 C4 C5 C6 C7 C8]; by split|].
  split_and!; [cbn in Hbig; lia|by left|exact Hpt|exact Hip|exact Hups|exact Hby|exact M3|exact (eq_trans G3 G2)|exact (eq_trans I3 I2)|done|].
  intros j Hj. cbn [set_ma_started ma_started set_ma_idtr set_ma_k]. destruct S3 as [S3 S3']. rewrite S2 in S3, S3'. cbn in S3, S3'. rewrite Hsl in S3, S3'.
  pose proof (find_cpu_lt _ _ _ Hme). destruct (decide (j = me)) as [->|Hne]; [apply list_lookup_insert_eq; lia|].
  rewrite list_lookup_insert_ne by done. apply S3'; [lia|by left].
Qed.

(** C18. main returns to the scheduler with the kernel's page table in use, the descriptor
    tables loaded, every processor started and one process: its memory is the
    initial code in a page of its own at address 0, and it starts there in user
    mode with interrupts on. *)
Theorem main_boots m mp me : powered m -> processors m mp me ->
  exists m', main vectors d m = Ok tt m' /\
    first_process (ma_k m) (ma_k m') /\ kernel_mapped (ma_k m') /\ cons_ok (k_cons (ma_k m')) /\
    ma_mp m' = mp /\ ma_gdt m' = seginit (ma_gdt m) /\ ma_idt m' = tvinit vectors /\ ma_idtr m' = true /\
    (forall j, (j < length (mp_apicids mp))%nat -> ma_started m' !! j = Some true).
Proof using HL Hkend Hans Himg.
  intros Hpw Hps. destruct (main_run m mp me Hpw Hps) as (m' & F & T & A & l & kst & u & E1 & Hu & _ & _ & Hpt & Hip & Hups & Hby & Hrest).
  destruct (boot_user_means (ma_k m) (ma_k m') F T A l kst u Hu Hpt Hip Hups Hby) as [Hfp Hkm].
  exists m'. split_and!; [done|done|done|apply (bu_cons _ _ _ _ _ _ Hu)|apply Hrest..].
Qed.
End machine.
