(* ===== verification/MainBoot.v ===== *)
(** * A machine that boots

    A small kernel on a machine with one processor, whose firmware tables are
    those of Mp.  The theorem of MainProps is evaluated on it. *)

From S2P Require Import Prelude State CString Bio Kalloc KallocSpec Console ConsoleOut Vm VmSpec VmUser VmCopy VmProps Boot Fs FsFile FsTxn DirProps Path Namei File Proc Fork VmOut Exec ExecLoad ExecProps Gate Mp Apic Main MainProps.
Open Scope Z_scope.

#[local] Instance link1 : Linker := {|
  kend := 2148630528; kdata := 2148564992; kforkret := 2148540000; ktrapret := 2148550000;
  initcode_start := 2148570000; initcode_size := 44
|}.
#[local] Instance linked1 : LinkedAt.
Proof. split; [reflexivity|]. split; reflexivity. Qed.
#[local] Instance entry1 : Entry := {| entryother_start := 2148580000; entryother_size := 150; kmpenter := 2148541000; kentrypgdir := 2148560896 |}.

Definition devices1 : devices := mkDevices 5 2 0 [0] 117440512 0 [64] [] (fun _ => true).
Definition vectors1 (i : Z) : Z := 2148532224 + 16 * i.
Definition machine1 : machine := mkMachine (set_k_mem mem1 inhabitant) mp_start [] (mkIoapic 0 (fun _ => 0)) (replicate NSEGS 0) [] false [] (replicate NCPU false).
Definition mpstate1 : mpstate := mkMpstate [7] 3 4276092928 [(34, 112); (35, 5)].

(** The tables lie below the end of the kernel. *)
Lemma tables1 (mm : mem) : (forall x, x < kend -> mm x = mem1 x) -> mpinit mm 5 2 mp_start = Ok tt mpstate1.
Proof.
  intros Hm. rewrite (mpinit_same mm (fun x => if x <? 2148630528 then mem1 x else mm x)); [vm_compute; reflexivity|].
  intros x. destruct (Z.ltb_spec x 2148630528); [by apply Hm|done].
Qed.

Lemma powered1 : powered machine1.
Proof.
  split; try reflexivity; [split; reflexivity || (split; discriminate || reflexivity)|]. intros i Hi. cbn [machine1 ma_k].
  change (k_icache _) with (replicate NINODE (inhabitant : inode)). rewrite (list_lookup_total_correct _ i inhabitant); [reflexivity|by apply lookup_replicate_2].
Qed.

Lemma kend1 : kend_ok.
Proof. split; reflexivity || discriminate. Qed.
Lemma answers1 : answers devices1.
Proof. split; [apply Exists_cons_hd; reflexivity|exists 0; reflexivity]. Qed.
Lemma images1 : images.
Proof. split; [|split; discriminate]. split_and!; reflexivity || discriminate. Qed.
Lemma processors1 : processors devices1 machine1 mpstate1 0.
Proof. split; [exact tables1|reflexivity|apply (Nat.leb_le 1 8); reflexivity|done]. Qed.

Lemma main_boots_witness : exists m', main vectors1 devices1 machine1 = Ok tt m' /\ ma_idt m' = tvinit vectors1 /\ ma_started m' !! 0%nat = Some true.
Proof.
  destruct (main_boots vectors1 devices1 kend1 answers1 images1 machine1 mpstate1 0 powered1 processors1) as (m' & E & _ & _ & _ & _ & _ & Hidt & _ & Hst).
  exists m'. split_and!; [exact E|exact Hidt|]. apply Hst. apply Nat.lt_0_1.
Defined.

(** Its first process, running. *)
Lemma parent1 : exists s F A l, parent s 0 F A l 0 /\ p_sz (k_ptable s !!! 0%nat) = 4096 /\ (2500 <= length l)%nat /\ p_state (k_ptable s !!! 1%nat) = UNUSED /\
  p_kstack (k_ptable s !!! 0%nat) <> 0 /\ cons_ok (k_cons s).
Proof.
  destruct (main_run vectors1 devices1 kend1 answers1 images1 machine1 mpstate1 0 powered1 processors1) as (m' & F & T & A & l & kst & u & E & Hu & Hl & Hkst & Hpt & _ & Hups & _).
  set (s := set_k_cur (Some 0%nat) (ma_k m')). change (k_ptable (ma_k machine1)) with (replicate NPROC (inhabitant : proc)) in Hpt.
  assert (E0 : k_ptable s !!! 0%nat = init_proc 1 kst (t_dir (a_tab A)) inhabitant) by (cbn [s set_k_cur k_ptable]; rewrite Hpt; reflexivity).
  assert (Ei : forall i, (S i < NPROC)%nat -> k_ptable s !!! S i = inhabitant).
  { intros i Hi. cbn [s set_k_cur k_ptable]. rewrite Hpt, alter_total_ne by discriminate. apply list_lookup_total_correct, lookup_replicate_2, Hi. }
  assert (Hlen : length (k_ptable s) = NPROC) by (cbn [s set_k_cur k_ptable]; rewrite Hpt, length_alter, length_replicate; reflexivity).
  assert (Hv : vm_user s (F ++ tpages T) A l) by (apply (vm_user_same (ma_k m')); [reflexivity|reflexivity|apply Hu]).
  assert (Hk : kst <> 0) by (apply page_ok_nz, (vt_page_in _ _ _ _ _ (vu_tab _ _ _ _ Hv)); do 3 (apply elem_of_app; left); exact Hkst).
  assert (Hco : cons_ok (k_cons s)) by exact (bu_cons _ _ _ _ _ _ Hu).
  assert (Hc : k_cur s = Some 0%nat) by reflexivity. clearbody s. clear E Hu Hpt m'.
  exists s, (F ++ tpages T), A, l. split_and!; [|rewrite E0; reflexivity|exact Hl|rewrite (Ei 0%nat); [reflexivity|apply Nat.ltb_lt; reflexivity]|rewrite E0; exact Hk|exact Hco].
  split; rewrite ?E0; [exact Hc|exact Hlen|apply Nat.ltb_lt; reflexivity|discriminate|exact Hv|reflexivity|split; discriminate| |reflexivity| |reflexivity|].
  - intros va Hva. change (0 <= va < 4096) in Hva. rewrite (translate_user _ _ _ _ _ Hv) by (unfold KERNBASE; lia). rewrite Hups. replace (va / 4096) with 0 by zlia.
    rewrite lookup_singleton_eq. eauto.
  - intros f Hf. change (Some f ∈ replicate NOFILE (@None nat)) in Hf. apply elem_of_replicate in Hf as [? _]. discriminate.
  - intros [|i] Hi; [rewrite E0; discriminate|]. rewrite Ei by exact Hi. reflexivity.
Qed.

Lemma fork_copies_witness : exists s r s' np, fork s = Ok r s' /\ p_state (k_ptable s' !!! np) = RUNNABLE /\ p_parent (k_ptable s' !!! np) = Some 0%nat.
Proof.
  destruct parent1 as (s & F & A & l & P & Hsz & Hl & Hfree & _). destruct (fork_copies s 0 F A l 0 P) as (r & s' & E & _ & [[_ Hf]|(np & kst & D & l' & _ & _ & _ & _ & Ec & _)]).
  - exfalso. destruct (ff_why _ _ _ _ Hf) as [Hn|Hn]; [apply (Hn 1%nat); [apply Nat.ltb_lt; reflexivity|exact Hfree]|].
    rewrite Hsz in Hn. change ((4096 + 4095) / 4096) with 1 in Hn. lia.
  - exists s, r, s', np. rewrite Ec. split_and!; [exact E|reflexivity|reflexivity].
Defined.

(** The same process on a machine with a disk: it runs the program "/run". *)
Lemma exec_runs_witness : exists s s' dir, exec (str "/run") [str "run"; str "hi"] s = Ok 0 s' /\ p_pgdir (k_ptable s' !!! 0%nat) = dir /\
  tf_eip (p_tf (k_ptable s' !!! 0%nat)) = 4 /\ user_byte s' dir 3 = Some 4 /\ user_byte s' dir 5 = Some 0 /\
  user_bytes s' dir (tf_esp (p_tf (k_ptable s' !!! 0%nat))) (enc32 4294967295 ++ enc32 2).
Proof.
  destruct parent1 as (s & F & O & l & P & Hsz & Hl & _ & Hk & Hc). set (argv := [str "run"; str "hi"]).
  assert (Hcur : is_Some (k_cur s)) by (rewrite (pa_cur _ _ _ _ _ _ P); eauto).
  assert (Rn : running 0 F O l (with_tree s)).
  { split; [apply (vm_user_same s); [reflexivity|reflexivity|apply P]|exact (pa_cur _ _ _ _ _ _ P)| |exact (pa_dir _ _ _ _ _ _ P)|exact Hk|exact Hc].
    change (0 < length (k_ptable s))%nat. rewrite (pa_len _ _ _ _ _ _ P). apply Nat.ltb_lt. reflexivity. }
  assert (Hp : forall elf sz img, program_at tree1 1 (str "/run") = Some (elf, sz, img) -> elf_entry elf = 4 /\ sz = 8 /\ img 3 = 4 /\ img 5 = 0).
  { intros elf sz img. vm_compute. intros [= <- <- <-]. split_and!; reflexivity. }
  assert (Hout : outside tree1 icache1 (with_tree s)) by (split; [exact (with_tree_in s Hcur)|split_and!; reflexivity]).
  assert (Hst : starts (with_tree s) (str "/run") 1) by reflexivity. set (w := with_tree s) in *. clearbody w.
  destruct (exec_runs tree1 icache1 w 0 F O l (str "/run") argv 1 tree1_closed icache1_free Hout Rn Hst) as [(_ & elf & sz & img & Epr & Hlong)|(r & s' & E & D)].
  - exists (T_DIR, rootdir1). reflexivity.
  - repeat (constructor; [discriminate|]). constructor.
  - apply bytes_forallb. reflexivity.
  - intros d. vm_compute. intros [= <-]. discriminate.
  - repeat constructor.
  - exfalso. destruct (Hp elf sz img Epr) as (_ & -> & _). change (PGROUNDUP 8 + PGSIZE) with 8192 in Hlong. inversion Hlong as [? ? Ha|? ? Hlong2]; [apply Ha; reflexivity|].
    inversion Hlong2 as [? ? Ha|? ? Hn]; [apply Ha; reflexivity|]. inversion Hn.
  - destruct D as [(_ & _ & D)|(-> & elf & sz & img & Epr & Hfit & A' & l' & R)].
    + exfalso. assert (Hsome : exists elf sz img, program_at tree1 1 (str "/run") = Some (elf, sz, img)) by (vm_compute; eauto).
      destruct Hsome as (elf & sz & img & Epr). specialize (D elf sz img Epr). destruct (Hp elf sz img Epr) as (_ & -> & _). cbv zeta in D. change (PGROUNDUP 8 + 2 * PGSIZE) with 12288 in D.
      change ((8 + 4095) / 4096) with 1 in D. destruct D as [D|[D|D]]; [apply D; reflexivity|lia|]. apply D. split; discriminate.
    + destruct (Hp elf sz img Epr) as (He & -> & Hi1 & Hi2). pose proof (rs_frame _ _ _ _ _ _ _ _ _ _ _ _ _ _ _ R) as Hmf. pose proof (rs_image _ _ _ _ _ _ _ _ _ _ _ _ _ _ _ R) as Him.
      destruct (rs_proc _ _ _ _ _ _ _ _ _ _ _ _ _ _ _ R) as (pt & Hw & Hpt). change (PGROUNDUP 8 + 2 * PGSIZE) with 12288 in *. change (PGROUNDUP 8) with 4096 in *.
      assert (Ept : k_ptable s' !!! 0%nat = execed (str "/run") (elf_entry elf) (t_dir (a_tab A')) 12288 (frame_sp 12288 argv) (pt !!! 0%nat)).
      { rewrite Hpt. apply alter_total_eq. rewrite <- (Forall2_length _ _ _ Hw). apply Rn. }
      exists w, s', (t_dir (a_tab A')). rewrite Ept. split_and!; [exact E|reflexivity|exact He|rewrite Him, Hi1 by lia; reflexivity|rewrite Him, Hi2 by lia; reflexivity|].
      intros i b Eb. apply (mf_words _ _ _ _ _ Hmf). assert (Hcat : forall w1 w2 rest, concat (enc32 <$> [w1; w2] ++ rest) = (enc32 w1 ++ enc32 w2) ++ concat (enc32 <$> rest)) by (intros; rewrite <- app_assoc; reflexivity).
      change ([4294967295; Z.of_nat (length argv); frame_sp 12288 argv + 12] ++ arg_ptrs 12288 argv ++ [0]) with ([4294967295; 2] ++ (frame_sp 12288 argv + 12) :: arg_ptrs 12288 argv ++ [0]).
      rewrite Hcat. apply lookup_app_l_Some. exact Eb.
Defined.
